(* ===== verification/_CoqProject ===== *)
-Q . S2P
Prelude.v
Errors.v
Kernel.v
Domain.v
Contracts.v
Accounts.v
SupportGrants.v
MemoryPolicy.v
ChannelRows.v
Store.v
Hierarchy.v
Membership.v
Separation.v
Members.v
RunStore.v
ApprovalFlow.v
ApprovalCodes.v
ChannelDecisions.v
SupportAccess.v
SupportRegister.v
SupportSteps.v
Provisioning.v
ProvisioningLaws.v
Redaction.v
Executor.v
Idempotency.v
Chunking.v
IngestQueue.v
Outbox.v
Pagination.v
Memory.v
MemoryWrites.v
MemoryLaws.v
MemoryRecall.v
ModelBudget.v
Prompts.v
ModelGateway.v
UsageMeter.v
Allowance.v
RuntimeCopy.v
Compaction.v
CompactionLaws.v
Spend.v
Runner.v
RunnerLaws.v
Notifications.v
ChannelLinks.v
LinkLaws.v
Inbound.v
InboundLaws.v
Deliveries.v
DeliveryLaws.v
Offboarding.v
OffboardingLaws.v
ApprovalLife.v
Knowledge.v
KnowledgeLaws.v
Retention.v
RetentionLaws.v
