(* ===== verification/Prelude.v ===== *)
(** * Digital Worker Platform: a verification library

    A multi-tenant platform on which workers (agents) run tools, park on human
    approvals and are resumed by decisions.  The sources are Python; [src/] below
    means their repository.  Packages: [dw_kernel] (errors, ids, resilience,
    pagination), [dw_platform] (domain, application services, SQL adapters),
    [dw_agent_runtime] (autonomy policy, tool executor, approval flow, run store),
    [dw_knowledge] (documents), [dw_memory] (memories), [dw_connectors] (chat
    channels), [dw_observability] (redaction); applications: [dw_api] and
    [dw_worker].

    ** The parts and how they meet

    Who may do what is read from one place: a membership's roles and permission
    sets, under separation-of-duty rules the database enforces, turned into the
    access context every operation takes ([Membership]).  Administrators change
    memberships ([Members]); a customer may lend a context to support staff for a
    while ([SupportAccess]).  A run is started in the run store, which claims its
    conversation thread.  Its tool calls go through the executor, which asks the
    autonomy policy whether a person must approve, and records every call under its
    idempotency key.  A parked run waits on an approval request; a decision on it,
    taken in the portal or admitted by a single-use code from a chat channel, is
    written in one unit of work with its audit and outbox events and, once committed,
    resumes the run with the authority it was started with.  The runner ([Runner])
    starts, streams and resumes runs under the plan's daily allowance; every model
    call of a run goes through the gateway or the budget middleware, which charge one
    ledger.  Workers propose
    memories; the policy writes them, rejects them, or holds them for the same
    approval flow.  A history that outgrows the model's window is folded into a
    summary ([Compaction]).  The worker drains the outbox and the ingest queue, whose
    documents are cut into chunks; the knowledge gateway stores them as rows and
    points and answers searches from what the caller may retrieve ([Knowledge]).
    Memories cite that evidence; the retention sweeps remove both when their terms are
    over ([Retention]).  A person may link a chat to the account, is told of what waits
    there, and answers from there ([ChannelLinks], [Notifications], [Deliveries],
    [Inbound]).  Operators create tenants and see them out ([Provisioning],
    [Offboarding]).  The API replays the answer of a request whose
    idempotency key it has seen, and pages its listings by cursors.

    ** Files

    - [Prelude]: Python strings (lists of code points), time in microseconds,
      shared lemmas and tactics.
    - [Errors]: [dw_kernel/errors.py]; the monad [M] of state and exceptions, its
      notations, and the frame reasoning all components use ([respects] for every
      run of a computation, [keeps] for the successful ones).
    - [Kernel]: [autonomy.py] (levels), [resilience.py] (Breaker), [ports.py] (Uuid7),
      [overlay.py] (Overlay), [http_auth.py] (HttpAuth).
    - [Domain]: [dw_platform/domain] and the access context, authorization and
      approval audience of [dw_platform/application].
    - [Contracts]: [contracts.py], [context.py], [autonomy.py] and the registries of
      [dw_agent_runtime].
    - [Accounts]: the rows of the identity and operations tables.  [SupportGrants]:
      the support catalogue, the grant with its trigger and CHECK constraints.
      [MemoryPolicy]: the memory contracts, write policy and ranking, and the rows of
      the memory and knowledge tables.  [ChannelRows]: those of the channels.
    - [Store]: the tables as finite maps ([SqlTable], with primary key, tenant
      column and partial unique index), statements, sessions, the unit of work, and
      the repositories of [adapters/persistence].  [World] is the state: what the
      open transaction sees, what is committed, clocks, ids, outside effects.
    - [Hierarchy]: managers and teams.  [Membership]: access contexts and scope
      holders.  [Separation]: the rules' triggers and the waivers.  [Members]:
      grants, role changes, invitations, permission sets.
    - [RunStore]: [adapters/run_store.py].  [ApprovalFlow]: [approval_flow.py].
      [ApprovalCodes]: the three files [approval_codes.py].  [ChannelDecisions]:
      [channel_decisions.py].  [Executor]: [executor.py] and
      [adapters/tool_execution_store.py].  [Redaction]:
      [dw_observability/redaction.py].
    - [SupportAccess]: [support_access.py], its repository and the operators' side;
      [SupportRegister]: its abstract specification and the refinement;
      [SupportSteps]: what each operation does.
    - [Idempotency]: [application/idempotency.py], its store and the API's
      dependency.  [Pagination]: [pagination.py] and [keyset.py].  [Chunking]:
      [dw_knowledge/chunking.py].  [IngestQueue]: [ingest_jobs.py] and the worker's
      consumer.  [Outbox]: [outbox_drain.py] and the worker's dispatcher.
    - [Memory]: [dw_memory/service.py], the evidence store and the worker's memory
      handlers; [MemoryWrites]: the effect of each write; [MemoryLaws]: its
      invariant and theorems; [MemoryRecall]: recall and the inventory.
    - [ModelBudget]: [model/profiles.py] and [model/budget.py] on binary64 floats.
      [Prompts]: [model/prompts.py].  [ModelGateway]: [model/gateway.py],
      [single_call.py], [run_budget.py], [model_retry.py], [usage_recorders.py].
      [UsageMeter]: [langchain_usage.py].  [Allowance]: plans, [allowance.py] and
      [spend_guard.py].
    - [RuntimeCopy]: [model/copy.py].  [Compaction]: [context_compaction.py];
      [CompactionLaws]: its theorems.  [Spend]: every writer of the ledger of a run,
      the gateway's, the middleware's and the compaction's, and the bound they keep.
    - [Runner]: [langgraph_runner.py]; [RunnerLaws]: how runs end, what a reader is
      told, which task a cancellation finds.
    - [Notifications]: the inbox and the fan-out.  [ChannelLinks]: connect tokens and
      links; [LinkLaws].  [Inbound]: webhook updates, the router and its lanes;
      [InboundLaws].  [Deliveries]: the outgoing messages, their lane and their
      retention; [DeliveryLaws].
    - [Provisioning]: tenants, workspaces, roles and operators; [ProvisioningLaws].
      [Offboarding]: the requests, the export, the purge and the worker's lane;
      [OffboardingLaws].  [ApprovalLife]: requests and decisions over any history of
      their writers, the runner, the memory service, the deciders and the purge.
    - [Knowledge]: [identity.py], [ports.py], [memory_index.py] and [gateway.py] of
      [dw_knowledge]; [KnowledgeLaws]: what an index promises ([VectorIndexOk]) and the
      gateway's theorems for any index that keeps it.
    - [Retention]: [retention_policy.py], the two sweeps and their consumer;
      [RetentionLaws].

    Operations keep the names of the code.  An [await] is a bind; an exception is
    [Raise]; a row is a record; [SELECT FOR UPDATE SKIP LOCKED] takes the set of
    locked rows as an argument; a transaction is [session_begin] or [unit_of_work];
    a row trigger is a function of the old and the new row the statement runs.
    [Idempotency] and [IngestQueue] have a table of their own and interleave between
    transactions, so they carry their own small state.

    ** What is shown

    - Approvals: when exactly a decision is taken and what it leaves
      ([decide_exact]); at most one per request over any history, purges of tenants
      included ([approval_decided_once], [concurrent_deciders]); who may decide
      ([decide_authority]); commit before resume ([decide_persists_then_resumes]); the
      resumed run's authority ([resume_authority]).
    - Codes: spent once over any history of views, wrong tries, decisions, prunes and
      purges ([code_spent_once]); their life
      ([code_lifecycle]); wrong tries ([wrong_try_exact]); when one is issued
      ([view_issues_code]).  Chats: the printed commands are read back
      ([portal_commands_parse]), when a reply decides ([channel_decision_sound]), what a
      refusal writes, and a resume failure told as a refusal.
    - Tools: refusals run nothing, a key runs once, conflicts, bounded attempts,
      recorded failures (the theorems of [Executor]); when approval is asked
      ([autonomy_follows_table], [autonomy_ceiling_only_restricts]).
    - Runs: when a claim of a thread succeeds and what it leaves ([claim_exact],
      [create_claims_thread]) and what it may disturb ([claim_disturbs_only_stale]).
    - Access: contexts of linked chats and sign-ins ([Membership]); teams are
      computed and stay forests, except under interleaved assignments
      ([Hierarchy]); both sides of a duty are held only under a waiver two people
      signed ([duties_stay_separated], [confirm_exact]); what a role change leaves
      ([set_memberships_exact]) and that it never escalates ([no_escalation]).
    - Support: the grants refine a small register ([support_refines]); a staff
      member's context ([support_context_sound]); grants can be ended and stay ended;
      a named person cannot be deleted.
    - Memory: stored memories stay founded on evidence ([memories_stay_founded]);
      the policy decides what happens to a proposal; reviews are settled once by
      people cleared for them; recall answers from what the caller may read; a late
      proposal breaks the inventory.
    - Model calls: a structured call is a conversation with the providers the
      profile allows, every answer charged once ([gateway_conversation]); how far a
      run passes its ceiling ([run_overshoot_bounded]) and that retries pass it
      ([retries_pass_the_ceiling]); the retry loop ([retry_exact]); values stay in
      their blocks ([prompt_contained]); nested trackers bill a call once
      ([usage_counted_once]), but not three deep ([nested_trackers_count_twice]).
    - Running: how a started or resumed run ends ([start_concludes],
      [resume_concludes]); what a day allows ([allowance_exact], [plan_limit_holds])
      and the rounding of its spend ([spend_guard_total],
      [tiny_calls_are_not_counted]); a reader of a stream learns its end
      ([reader_is_told]).
    - Compaction: what is removed is on record ([removal_is_on_record]); the summary
      model is asked only what fits ([asks_only_what_fits]) and charged
      ([summary_calls_charged]); a due compaction completes ([compaction_completes]);
      calls stay with their answers ([units_keep_calls_whole]); a blank summary erases
      what it replaces ([blank_summary_erases]).
    - Channels: a delivery ends once ([delivery_settled_once]), a message acts once
      ([message_acts_once]) and sees its own ([commands_see_their_own]); how a link is
      made ([redeem_links], [link_nonce_once], [connect_token_round_trip]); one notice
      per source ([notified_once]).
    - Tenants: what provisioning leaves ([create_tenant_exact], [grant_role_exact]) and
      keeps ([tenants_stay_whole], [tenant_status_moves]); what the purge removes
      ([purge_exact]), in which order ([export_precedes_purge]), by whom
      ([claim_is_exclusive]) and that it ends ([offboarding_completes]); what it misses
      ([second_request_never_purges], [notifications_leave_unexported]).
    - Knowledge: a search returns what the caller may retrieve ([search_is_trusted]);
      what an ingestion leaves ([ingest_exact]) and that one version is current
      ([one_current_version]); where a full read stops
      ([full_read_says_where_it_stops]); and where it falls short
      ([cited_document_is_not_reingested], [soft_delete_reaches_other_tenants],
      [global_text_stays_home], [names_with_colons_collide]).
    - Retention: nothing goes early or unrecorded ([expiry_is_due_and_recorded],
      [points_go_first], with other tasks at work while a pass awaits the index); a cited document goes in the end ([cited_document_drains]); one
      brought back in time goes too ([revived_document_is_purged]).
    - Keys of HTTP requests: one handler at a time and one answer
      ([one_handler_per_key]), final answers ([completed_key_replays]), a whole request
      ([request_acts_once]), and what happens when a handler outlives its reservation
      ([overtaken_release_frees_key]).
    - Queues: leases ([lease_is_exclusive], [reclaimed_lease_stays_lost]), a turn of
      the consumer, a late failure ([late_failure_reopens_done_job]); counted and final
      deliveries of the outbox.
    - Listings and documents: page walks and cursors, chunks that cover the text.
    - Kernel: the breaker's states, increasing ids, masked paths.

    ** Bounds and fuel

    Ids are 128-bit and timestamps unbounded integers, except in [Kernel.Uuid7],
    where the 48-bit clock and the 12-bit counter are kept at their width.  The loops
    that are not structural are [Chunking.windows], which gets a turn per character of
    its section and one more ([windows_cover] proves that enough), and the recursive
    team query, which gets a turn per member and one more ([team_is_reachable]).  The
    executor's retries, and the model gateway's and the retry middleware's, recurse
    over the attempts that are left.  A stream is as long as the graph makes it: its
    steps are a well-founded tree, and the reader's queue holds 256 items.  A
    compaction gets a turn per message to cut units and a turn per unit to fold them;
    the sweeps need a round per row they may take ([cited_document_drains]).

    ** What is not modelled

    Network, file system, telemetry, LangGraph and LangChain, the model providers,
    the web front end and SQL functions of the migrations other than the triggers
    named above and the prune of the decision codes.  Text columns take any string and
    integer columns any integer: that PostgreSQL refuses NUL, lone surrogates and
    integers out of range is left out.  Parameters stand for what tool handlers, runners, parsers, gateways
    and event handlers do, for hash functions, and for the Unicode tables and text
    codecs the code reads; laws asked of them are hypotheses of the theorems that need
    them, met by concrete functions in the witnesses.  Row-level security is the
    tenant column of each statement; the workspace policies of the code table are not
    separate; row locks held across statements are not modelled.  A compiled graph is
    a parameter of the runner: what one invocation does to the process's state.  So
    are MACs, SHA-256, [uuid5], the chat provider's sends, buckets, embeddings, the
    reranker, archives and JSON text.  Foreign keys cascade where rows are deleted: in
    the purge and in the sweeps.  Left out: the chat provider's HTTP client, attachments,
    the reaper of stale runs and the checkpoint sweep, the adapters of LangChain tools,
    caches and the identity bootstrap, and the network guard. *)

From stdpp Require Export base gmap sets list strings option fin_maps sorting.
From Stdlib Require Export ZArith Lia Bool.
From Stdlib Require Import Init.Byte.

#[export] Set Default Goal Selector "!".

(** ** Identifiers and time

    A Python [uuid.UUID] is a 128-bit integer; a [datetime] is an instant,
    counted in microseconds (Python's resolution) from the epoch, and a
    [timedelta] a number of microseconds. *)

Abbreviation uuid := N (only parsing).
Abbreviation datetime := Z (only parsing).
Abbreviation timedelta := Z (only parsing).

Definition seconds (n : Z) : timedelta := (n * 1000000)%Z.
Definition minutes (n : Z) : timedelta := seconds (n * 60).
Definition days (n : Z) : timedelta := seconds (n * 86400).

(** ** Python strings

    A [str] is a sequence of Unicode code points.  String literals in
    [pystr_scope] are decoded from UTF-8, so a literal in a model is the
    literal of the source. *)

Inductive pystr := PyStr (chars : list N).

Definition chars (s : pystr) : list N := match s with PyStr l => l end.

#[export] Instance pystr_eq_dec : EqDecision pystr.
Proof. solve_decision. Defined.

#[export] Instance pystr_countable : Countable pystr.
Proof. refine (inj_countable' chars PyStr _). by intros []. Defined.

#[export] Instance pystr_inhabited : Inhabited pystr := populate (PyStr []).

Section Utf8.
Local Open Scope N_scope.

Definition is_cont (b : N) : bool := (128 <=? b) && (b <? 192).

Fixpoint utf8_decode (bs : list N) (fuel : nat) : option (list N) :=
  match fuel, bs with
  | _, [] => Some []
  | O, _ => None
  | S fuel', b :: r =>
      if b <? 128 then cons b <$> utf8_decode r fuel'
      else if (192 <=? b) && (b <? 224) then
        match r with
        | c :: r' => cons ((b - 192) * 64 + (c - 128)) <$> utf8_decode r' fuel'
        | _ => None
        end
      else if (224 <=? b) && (b <? 240) then
        match r with
        | c :: d :: r' =>
            cons ((b - 224) * 4096 + (c - 128) * 64 + (d - 128)) <$> utf8_decode r' fuel'
        | _ => None
        end
      else
        match r with
        | c :: d :: e :: r' =>
            cons ((b - 240) * 262144 + (c - 128) * 4096 + (d - 128) * 64 + (e - 128))
              <$> utf8_decode r' fuel'
        | _ => None
        end
  end.

Definition utf8_encode1 (c : N) : list N :=
  if c <? 128 then [c]
  else if c <? 2048 then [192 + c / 64; 128 + c mod 64]
  else if c <? 65536 then [224 + c / 4096; 128 + (c / 64) mod 64; 128 + c mod 64]
  else [240 + c / 262144; 128 + (c / 4096) mod 64; 128 + (c / 64) mod 64; 128 + c mod 64].

Definition pystr_parse (bs : list byte) : option pystr :=
  PyStr <$> utf8_decode (map Byte.to_N bs) (length bs).

Definition pystr_print (s : pystr) : option (list byte) :=
  mapM Byte.of_N (mjoin (map utf8_encode1 (chars s))).
End Utf8.

Declare Scope pystr_scope.
Delimit Scope pystr_scope with py.
Bind Scope pystr_scope with pystr.
String Notation pystr pystr_parse pystr_print : pystr_scope.

(** Concatenation, length, and the predicates the source uses. *)

Definition py_app (a b : pystr) : pystr := PyStr (chars a ++ chars b).
Infix "+++" := py_app (at level 60, right associativity) : pystr_scope.

Definition py_len (s : pystr) : nat := length (chars s).

(** [str.isspace] on one code point (the white-space set of CPython). *)
Definition is_space (c : N) : bool :=
  let mem := fun l => existsb (N.eqb c) l in
  ((9 <=? c) && (c <=? 13))%N || ((28 <=? c) && (c <=? 32))%N
  || mem [133; 160; 5760; 8232; 8233; 8239; 8287; 12288]%N
  || ((8192 <=? c) && (c <=? 8202))%N.

Fixpoint drop_spaces (l : list N) : list N :=
  match l with
  | c :: r => if is_space c then drop_spaces r else l
  | [] => []
  end.

(** [s.strip()] *)
Definition py_strip (s : pystr) : pystr :=
  PyStr (reverse (drop_spaces (reverse (drop_spaces (chars s))))).

(** [s.rstrip()] *)
Definition py_rstrip (s : pystr) : pystr := PyStr (reverse (drop_spaces (reverse (chars s)))).

(** [not s.strip()] *)
Definition is_blank (s : pystr) : bool := forallb is_space (chars s).

Fixpoint is_prefix (p l : list N) : bool :=
  match p, l with
  | [], _ => true
  | a :: p', b :: l' => N.eqb a b && is_prefix p' l'
  | _ :: _, [] => false
  end.

(** [s.startswith(p)] *)
Definition py_startswith (s p : pystr) : bool := is_prefix (chars p) (chars s).

(** [bool(s)] for a string: non-empty. *)
Definition py_truthy (s : pystr) : bool := match chars s with [] => false | _ => true end.

(** Lower-casing of the ASCII letters. *)
Definition ascii_lower (c : N) : N := if ((65 <=? c) && (c <=? 90))%N then (c + 32)%N else c.
Definition py_lower_ascii (s : pystr) : pystr := PyStr (map ascii_lower (chars s)).
Definition ascii_upper (c : N) : N := if ((97 <=? c) && (c <=? 122))%N then (c - 32)%N else c.
Definition py_upper_ascii (s : pystr) : pystr := PyStr (map ascii_upper (chars s)).

(** [sorted(...)] on strings: by code points. *)
Fixpoint chars_leb (a b : list N) : bool :=
  match a, b with
  | [], _ => true
  | _ :: _, [] => false
  | x :: a', y :: b' => N.ltb x y || (N.eqb x y && chars_leb a' b')
  end.

Fixpoint insert_sorted (s : pystr) (l : list pystr) : list pystr :=
  match l with
  | [] => [s]
  | t :: r => if chars_leb (chars s) (chars t) then s :: l else t :: insert_sorted s r
  end.

Definition py_sorted (l : list pystr) : list pystr := foldr insert_sorted [] l.

(** The canonical text of a UUID: 32 hexadecimal digits in five groups. *)
Definition hex_digit (d : N) : N := if (d <? 10)%N then (48 + d)%N else (87 + d)%N.

Fixpoint hex_digits (n : nat) (u : N) : list N :=
  match n with
  | 0 => []
  | S n' => hex_digits n' (u / 16)%N ++ [hex_digit (u mod 16)%N]
  end.

(** The decimal digits of [n]; a number has at most as many as it has bits. *)
Fixpoint digits_of (fuel : nat) (n : N) : list N :=
  match fuel with
  | O => []
  | S f => if (n <? 10)%N then [48 + n]%N else digits_of f (n / 10) ++ [48 + n mod 10]%N
  end.

(** [str(n)] for a natural number, and [f"{n:0kd}"] for one of at most [k] digits. *)
Definition decimal_text (n : N) : list N := digits_of (S (N.to_nat (N.log2 n))) n.

Fixpoint padded (k : nat) (n : N) : list N :=
  match k with
  | O => []
  | S k' => padded k' (n / 10) ++ [48 + n mod 10]%N
  end.

(** [str(u)] *)
Definition uuid_str (u : uuid) : pystr :=
  let h := hex_digits 32 u in
  let grp := λ i n, take n (drop i h) in
  PyStr (grp 0 8 ++ [45%N] ++ grp 8 4 ++ [45%N] ++ grp 12 4 ++ [45%N] ++ grp 16 4
           ++ [45%N] ++ grp 20 12).

(** [uuid.UUID(s)], of a text in hexadecimal digits and hyphens. *)
Definition hex_value (c : N) : option N :=
  if ((48 <=? c) && (c <=? 57))%N then Some (c - 48)%N
  else if ((97 <=? c) && (c <=? 102))%N then Some (c - 87)%N
  else if ((65 <=? c) && (c <=? 70))%N then Some (c - 55)%N else None.

Definition hex_number (l : list N) : option N :=
  foldl (λ acc c, a ← acc; v ← hex_value c; Some (a * 16 + v)%N) (Some 0%N) l.

Definition uuid_of_text (s : pystr) : option uuid :=
  let h := filter (λ c, c ≠ 45%N) (chars s) in
  if length h =? 32 then hex_number h else None.

(** [u.hex] *)
Definition uuid_hex (u : uuid) : pystr := PyStr (hex_digits 32 u).

(** ** JSON values, as the source writes them to JSONB columns *)

Inductive json :=
  | JNull
  | JBool (b : bool)
  | JInt (z : Z)
  (** a double that is a multiple of [2^-53], in those units *)
  | JReal53 (units : Z)
  | JStr (s : pystr)
  | JList (l : list json)
  | JObj (kvs : list (pystr * json)).

(** [bool(v)] of such a value. *)
Definition json_truthy (v : json) : bool :=
  match v with
  | JNull => false
  | JBool b => b
  | JInt z => negb (z =? 0)%Z
  | JReal53 u => negb (u =? 0)%Z
  | JStr s => py_truthy s
  | JList l => negb (bool_decide (length l = 0))
  | JObj kvs => negb (bool_decide (length kvs = 0))
  end.

(** Facts the components use. *)

Lemma is_prefix_spec (p l : list N) : is_prefix p l = true ↔ ∃ r, l = p ++ r.
Proof.
  revert l. induction p as [|a p IH]; intros l; [naive_solver|].
  destruct l as [|b l]; simpl.
  - split; [done | by intros [r Hr]].
  - rewrite andb_true_iff, N.eqb_eq, IH. naive_solver.
Qed.

Lemma py_startswith_spec (s p : pystr) :
  py_startswith s p = true ↔ ∃ r, s = (p +++ r)%py.
Proof.
  destruct s as [s], p as [p]. unfold py_startswith, py_app. simpl.
  rewrite is_prefix_spec. split.
  - intros [r ->]. by exists (PyStr r).
  - intros [[r] [= ->]]. by exists r.
Qed.

Lemma drop_spaces_blank (l : list N) : forallb is_space l = true → drop_spaces l = [].
Proof. induction l as [|c l IH]; simpl; [done|]. intros [-> ?]%andb_true_iff. auto. Qed.

Lemma drop_spaces_suffix (l : list N) :
  ∃ p, l = p ++ drop_spaces l ∧ forallb is_space p = true.
Proof.
  induction l as [|c l (p & Hp & Hs)]; simpl; [by exists []|].
  destruct (is_space c) eqn:Hc; [|by exists []].
  exists (c :: p). simpl. rewrite Hc, Hs. by split; [f_equal|].
Qed.

Lemma drop_spaces_nil (l : list N) : drop_spaces l = [] → forallb is_space l = true.
Proof.
  intros E. destruct (drop_spaces_suffix l) as (p & Hp & Hs).
  rewrite E, app_nil_r in Hp. by subst.
Qed.

Lemma drop_spaces_head (l : list N) c r : drop_spaces l = c :: r → is_space c = false.
Proof.
  induction l as [|d l IH]; simpl; [done|].
  destruct (is_space d) eqn:?; [auto|]. by intros [= <- _].
Qed.

Lemma forallb_reverse {A} (f : A → bool) (l : list A) : forallb f (reverse l) = forallb f l.
Proof.
  induction l as [|a l IH]; [done|].
  rewrite reverse_cons, forallb_app, IH. simpl. rewrite andb_true_r. apply andb_comm.
Qed.

(** Stripping is the identity on what it returns, and empties exactly the
    blank strings. *)
Lemma py_strip_blank (s : pystr) : is_blank s = true ↔ py_strip s = PyStr [].
Proof.
  unfold is_blank, py_strip. split; intros H.
  - by rewrite (drop_spaces_blank _ H).
  - injection H as H. apply (f_equal reverse) in H. rewrite reverse_involutive in H.
    apply drop_spaces_nil in H. rewrite forallb_reverse in H.
    destruct (drop_spaces_suffix (chars s)) as (p & -> & Hp).
    by rewrite forallb_app, Hp, H.
Qed.

Lemma py_truthy_strip (s : pystr) : py_truthy (py_strip s) = negb (is_blank s).
Proof.
  destruct (is_blank s) eqn:E.
  - apply py_strip_blank in E. by rewrite E.
  - unfold py_truthy. destruct (chars (py_strip s)) eqn:C; [|done].
    assert (py_strip s = PyStr []) as ?%py_strip_blank; [|congruence].
    destruct (py_strip s). simpl in C. by subst.
Qed.

(** A UUID is read back from its text. *)
Lemma hex_value_digit d : (d < 16)%N → hex_value (hex_digit d) = Some d ∧ hex_digit d ≠ 45%N.
Proof.
  intros Hd. assert (∃ k : nat, k < 16 ∧ d = N.of_nat k) as (k & Hk & ->) by (exists (N.to_nat d); lia).
  do 16 (destruct k as [|k]; [done|]). lia.
Qed.

Lemma hex_number_snoc l c a v :
  hex_number l = Some a → hex_value c = Some v → hex_number (l ++ [c]) = Some (a * 16 + v)%N.
Proof. unfold hex_number. rewrite foldl_app. intros -> Hv. simpl. by rewrite Hv. Qed.

Lemma hex_digits_read n u :
  (u < 16 ^ N.of_nat n)%N →
  hex_number (hex_digits n u) = Some u ∧ length (hex_digits n u) = n ∧
  Forall (λ c, c ≠ 45%N) (hex_digits n u).
Proof.
  revert u. induction n as [|n IH]; intros u Hu.
  - rewrite N.pow_0_r in Hu. assert (u = 0%N) as -> by lia. by repeat constructor.
  - rewrite Nat2N.inj_succ, N.pow_succ_r in Hu by lia. cbn [hex_digits].
    destruct (IH (u / 16)%N) as (Hv & Hl & Hf); [by apply N.Div0.div_lt_upper_bound|].
    destruct (hex_value_digit (u mod 16)) as [Hd Hn]; [by apply N.mod_lt|]. split_and!.
    + rewrite (hex_number_snoc _ _ _ _ Hv Hd). f_equal. rewrite N.mul_comm. symmetry.
      by apply N.div_mod.
    + rewrite length_app, Hl. simpl. lia.
    + apply Forall_app. split; [done|by repeat constructor].
Qed.

Lemma filter_all {A} (P : A → Prop) `{∀ x, Decision (P x)} l : Forall P l → filter P l = l.
Proof. induction 1 as [|x l Hx _ IH]; [done|]. rewrite filter_cons, decide_True by done. by rewrite IH. Qed.

Lemma filter_hyphen : filter (λ c, c ≠ 45%N) [45%N] = [].
Proof. done. Qed.

Lemma take_drop_next {A} (l : list A) n m : take n (drop m l) ++ drop (m + n) l = drop m l.
Proof. by rewrite <- drop_drop, take_drop. Qed.

Lemma uuid_text_read u : (u < 2 ^ 128)%N → uuid_of_text (uuid_str u) = Some u.
Proof.
  intros Hu. destruct (hex_digits_read 32 u Hu) as (Hv & Hl & Hf).
  unfold uuid_of_text, uuid_str. set (h := hex_digits 32 u) in *. clearbody h. cbn [chars].
  rewrite !filter_app, filter_hyphen, !filter_all by (by apply Forall_take, Forall_drop).
  cbn [app]. rewrite (take_ge (drop 20 h)) by (rewrite length_drop; lia).
  change (drop 20 h) with (drop (16 + 4) h). rewrite take_drop_next.
  change (drop 16 h) with (drop (12 + 4) h). rewrite take_drop_next.
  change (drop 12 h) with (drop (8 + 4) h). rewrite take_drop_next.
  rewrite drop_0, take_drop, Hl. exact Hv.
Qed.

(** ** Lists read by position and by order *)

Lemma filter_nil_iff {A} (P : A → Prop) `{∀ x, Decision (P x)} (l : list A) :
  filter P l = [] ↔ ∀ x, x ∈ l → ¬ P x.
Proof.
  split.
  - intros E x Hx HP. assert (x ∈ filter P l) as Hin by (by apply list_elem_of_filter).
    rewrite E in Hin. by apply not_elem_of_nil in Hin.
  - intros H'. destruct (filter P l) as [|x l'] eqn:E; [done|].
    assert (x ∈ filter P l) as [??]%list_elem_of_filter by (rewrite E; left). by destruct (H' x).
Qed.

Lemma pair_fst_eq {A B} (p : A * B) a : p.1 = a → p = (a, p.2).
Proof. by destruct p; intros <-. Qed.

(** ** [sorted(l, key=key)]: by a key, stable *)

Section SortedBy.
Context {A : Type} (key : A → nat).

Fixpoint insert_by (x : A) (l : list A) : list A :=
  match l with
  | [] => [x]
  | y :: r => if key x <=? key y then x :: l else y :: insert_by x r
  end.

Definition sorted_by (l : list A) : list A := foldr insert_by [] l.

Lemma insert_by_perm x l : insert_by x l ≡ₚ x :: l.
Proof.
  induction l as [|y l IH]; simpl; [done|]. destruct (key x <=? key y); [done|].
  rewrite IH. constructor.
Qed.

Lemma sorted_by_perm l : sorted_by l ≡ₚ l.
Proof. induction l as [|x l IH]; simpl; [done|]. by rewrite insert_by_perm, IH. Qed.

Lemma insert_by_sorted x l :
  StronglySorted (λ a b, key a ≤ key b) l → StronglySorted (λ a b, key a ≤ key b) (insert_by x l).
Proof.
  induction 1 as [|y l Hs IH Hy]; simpl; [by repeat constructor|].
  destruct (Nat.leb_spec (key x) (key y)).
  - constructor; [by constructor|]. constructor; [done|]. eapply Forall_impl; [done|]. simpl. lia.
  - constructor; [done|]. rewrite insert_by_perm. constructor; [lia|done].
Qed.

Lemma sorted_by_sorted l : StronglySorted (λ a b, key a ≤ key b) (sorted_by l).
Proof. induction l; simpl; [constructor|by apply insert_by_sorted]. Qed.

(** Elements with one key keep their order. *)
Lemma insert_by_same n x l :
  filter (λ a, key a = n) (insert_by x l) = filter (λ a, key a = n) (x :: l).
Proof.
  induction l as [|y l IH]; simpl; [done|]. destruct (Nat.leb_spec (key x) (key y)); [done|].
  rewrite (filter_cons _ y), IH, !filter_cons. repeat case_decide; (done || lia).
Qed.

Lemma sorted_by_stable n l :
  filter (λ a, key a = n) (sorted_by l) = filter (λ a, key a = n) l.
Proof.
  induction l as [|x l IH]; simpl; [done|]. rewrite insert_by_same, !filter_cons, IH. done.
Qed.
End SortedBy.

(** ** Tactics *)

(** Split the first [match] or [if] of the goal, keeping its equation. *)
Ltac split_match := case_match; simplify_eq/=.

(** Turn boolean tests into the propositions they decide. *)
Ltac to_prop :=
  repeat match goal with
  | H : _ && _ = true |- _ => apply andb_true_iff in H as [? ?]
  | H : _ || _ = false |- _ => apply orb_false_iff in H as [? ?]
  | H : negb _ = true |- _ => apply negb_true_iff in H
  | H : negb _ = false |- _ => apply negb_false_iff in H
  | H : bool_decide _ = true |- _ => apply bool_decide_eq_true in H
  | H : bool_decide _ = false |- _ => apply bool_decide_eq_false in H
  | H : (_ <? _)%Z = true |- _ => apply Z.ltb_lt in H
  | H : (_ <? _)%Z = false |- _ => apply Z.ltb_ge in H
  | H : (_ <=? _)%Z = true |- _ => apply Z.leb_le in H
  | H : (_ <=? _)%Z = false |- _ => apply Z.leb_gt in H
  | H : (_ =? _)%Z = true |- _ => apply Z.eqb_eq in H
  | H : (_ =? _)%Z = false |- _ => apply Z.eqb_neq in H
  | H : (_ =? _)%N = true |- _ => apply N.eqb_eq in H
  | H : (_ =? _)%N = false |- _ => apply N.eqb_neq in H
  | H : (_ <? _) = true |- _ => apply Nat.ltb_lt in H
  | H : (_ <? _) = false |- _ => apply Nat.ltb_ge in H
  end.
