(* ===== verification/Errors.v ===== *)
(** * The error taxonomy and the effect monad

    [dw_kernel/errors.py]: the exception classes and their stable codes, with
    the subclasses other modules add.  The second half is the monad every
    stateful operation of the library is written in: Python statements that
    read and write a store and may raise. *)

From S2P Require Import Prelude.
Local Open Scope pystr_scope.

(** ** [dw_kernel.errors] *)

Inductive ErrorCode :=
  | VALIDATION_FAILED | NOT_FOUND | CONFLICT | UNAUTHENTICATED | PERMISSION_DENIED
  | ENTITLEMENT_DENIED | APPROVAL_REQUIRED | TENANT_CONTEXT_MISSING | IDEMPOTENCY_CONFLICT
  | RATE_LIMITED | PAYLOAD_TOO_LARGE | UNSUPPORTED_MEDIA_TYPE | TIMEOUT
  | UPSTREAM_UNAVAILABLE | INTERNAL.

#[export] Instance ErrorCode_eq_dec : EqDecision ErrorCode.
Proof. solve_decision. Defined.

(** The exception classes: the taxonomy, its subclasses elsewhere in the source
    ([InvalidCursorError], [BudgetExceededError], [CircuitOpenError], ...) and the
    built-in or library ones the modelled code raises or catches. *)
Inductive exn_class :=
  | DWError | DomainError | ConfigError | InvalidCursorError | BudgetExceededError
  | ModelOutputInvalidError | NotFoundError | ConflictError
  | AdmissionRefusedError (reason : pystr)
  | UnauthenticatedError | PermissionDeniedError | EntitlementDeniedError | QuotaExceededError
  | PayloadTooLargeError | UnsupportedMediaTypeError | ApprovalRequiredError
  | TenantContextMissingError | IdempotencyConflictError | InfrastructureError | CircuitOpenError
  | TimeoutError | ConnectionError | ValidationError | ValueError | AssertionError
  | IntegrityError (constraint : pystr)
  | OtherException (name : pystr).

#[export] Instance exn_class_eq_dec : EqDecision exn_class.
Proof. solve_decision. Defined.

Record exn := Exn { exn_cls : exn_class; exn_message : pystr }.

#[export] Instance exn_eq_dec : EqDecision exn.
Proof. solve_decision. Defined.

(** The bases of a class within the taxonomy, the class itself first. *)
Definition bases (c : exn_class) : list exn_class :=
  match c with
  | DWError => [DWError]
  | ConfigError | InvalidCursorError | BudgetExceededError | ModelOutputInvalidError =>
      [c; DomainError; DWError]
  | AdmissionRefusedError _ => [c; ConflictError; DWError]
  | CircuitOpenError => [c; InfrastructureError; DWError]
  | TimeoutError | ConnectionError | ValidationError | ValueError | AssertionError
  | IntegrityError _ | OtherException _ => [c]
  | _ => [c; DWError]
  end.

Definition isinstance (e : exn) (c : exn_class) : bool := bool_decide (c ∈ bases (exn_cls e)).

(** [code]: the class attribute, inherited; only the taxonomy has one. *)
Definition code (c : exn_class) : option ErrorCode :=
  match c with
  | DWError => Some INTERNAL
  | DomainError | ConfigError | InvalidCursorError | BudgetExceededError
  | ModelOutputInvalidError => Some VALIDATION_FAILED
  | NotFoundError => Some NOT_FOUND
  | ConflictError | AdmissionRefusedError _ => Some CONFLICT
  | UnauthenticatedError => Some UNAUTHENTICATED
  | PermissionDeniedError => Some PERMISSION_DENIED
  | EntitlementDeniedError => Some ENTITLEMENT_DENIED
  | QuotaExceededError => Some RATE_LIMITED
  | PayloadTooLargeError => Some PAYLOAD_TOO_LARGE
  | UnsupportedMediaTypeError => Some UNSUPPORTED_MEDIA_TYPE
  | ApprovalRequiredError => Some APPROVAL_REQUIRED
  | TenantContextMissingError => Some TENANT_CONTEXT_MISSING
  | IdempotencyConflictError => Some IDEMPOTENCY_CONFLICT
  | InfrastructureError | CircuitOpenError => Some UPSTREAM_UNAVAILABLE
  | _ => None
  end.

(** [type(exc).__name__] *)
Definition class_name (c : exn_class) : pystr :=
  match c with
  | DWError => "DWError" | DomainError => "DomainError" | ConfigError => "ConfigError"
  | InvalidCursorError => "InvalidCursorError" | BudgetExceededError => "BudgetExceededError"
  | ModelOutputInvalidError => "ModelOutputInvalidError" | NotFoundError => "NotFoundError"
  | ConflictError => "ConflictError" | AdmissionRefusedError _ => "AdmissionRefusedError"
  | UnauthenticatedError => "UnauthenticatedError"
  | PermissionDeniedError => "PermissionDeniedError"
  | EntitlementDeniedError => "EntitlementDeniedError"
  | QuotaExceededError => "QuotaExceededError"
  | PayloadTooLargeError => "PayloadTooLargeError"
  | UnsupportedMediaTypeError => "UnsupportedMediaTypeError"
  | ApprovalRequiredError => "ApprovalRequiredError"
  | TenantContextMissingError => "TenantContextMissingError"
  | IdempotencyConflictError => "IdempotencyConflictError"
  | InfrastructureError => "InfrastructureError" | CircuitOpenError => "CircuitOpenError"
  | TimeoutError => "TimeoutError" | ConnectionError => "ConnectionError"
  | ValidationError => "ValidationError"
  | ValueError => "ValueError" | AssertionError => "AssertionError"
  | IntegrityError _ => "IntegrityError" | OtherException name => name
  end.

(** ** The effect monad *)

Inductive res (A : Type) :=
  | Ok (a : A)
  | Raise (e : exn).
Arguments Ok {A} a.
Arguments Raise {A} e.

Definition is_ok {A} (r : res A) : bool := match r with Ok _ => true | Raise _ => false end.

Lemma ok_unit {S} (p : res unit * S) : is_ok p.1 = true → p = (Ok tt, p.2).
Proof. by destruct p as [[[]|e] s]. Qed.

#[export] Instance res_eq_dec {A} `{EqDecision A} : EqDecision (res A).
Proof. solve_decision. Defined.

(** A computation over a store [S]: a statement that raises keeps what it wrote
    before it raised, as Python does; only a transaction undoes writes. *)
Definition M (S A : Type) : Type := S → res A * S.

Definition ret {S A} (a : A) : M S A := λ s, (Ok a, s).
Definition raise {S A} (c : exn_class) (msg : pystr) : M S A := λ s, (Raise (Exn c msg), s).
Definition reraise {S A} (e : exn) : M S A := λ s, (Raise e, s).
Definition bind {S A B} (m : M S A) (k : A → M S B) : M S B :=
  λ s, match m s with
       | (Ok a, s') => k a s'
       | (Raise e, s') => (Raise e, s')
       end.
Definition get_state {S} : M S S := λ s, (Ok s, s).
Definition gets {S A} (f : S → A) : M S A := λ s, (Ok (f s), s).
Definition modify {S} (f : S → S) : M S unit := λ s, (Ok tt, f s).
Definition lift_res {S A} (r : res A) : M S A := λ s, (r, s).

(** [try: m except ... as e: h e]; a handler that does not match re-raises. *)
Definition try_except {S A} (m : M S A) (h : exn → M S A) : M S A :=
  λ s, match m s with
       | (Ok a, s') => (Ok a, s')
       | (Raise e, s') => h e s'
       end.

(** [try: m finally: f], where [f] does not raise. *)
Definition try_finally {S A} (m : M S A) (f : S → S) : M S A :=
  λ s, let '(r, s') := m s in (r, f s').

(** [try: m] with its outcome at hand. *)
Definition outcome_of {S A} (m : M S A) : M S (res A) := λ s, let '(r, s') := m s in (Ok r, s').

(** [asyncio.CancelledError] is no [Exception]. *)
Definition CANCELLED : exn_class := OtherException "CancelledError".
Definition is_cancelled (e : exn) : bool := bool_decide (exn_cls e = CANCELLED).

(** [try: m except Exception as e: h e] *)
Definition try_exception {S A} (m : M S A) (h : exn → M S A) : M S A :=
  try_except m (λ e, if is_cancelled e then reraise e else h e).

(** [async with uow / session.begin()]: one database transaction.  An exception
    leaving it undoes the writes made to the database inside; [rollback old new]
    is the state [new] with its database put back to [old]'s. *)
Class Transactional (S : Type) := rollback : S → S → S.

Definition transaction {S A} `{Transactional S} (m : M S A) : M S A :=
  λ s, match m s with
       | (Ok a, s') => (Ok a, s')
       | (Raise e, s') => (Raise e, rollback s s')
       end.

Declare Scope prog_scope.
Delimit Scope prog_scope with prog.
Notation "'let!' x := m 'in' k" := (bind m (λ x, k))
  (at level 200, x binder, m at level 200, k at level 200,
   format "'[v' 'let!'  x  :=  m  'in' '/' k ']'") : prog_scope.
Notation "m ;;; k" := (bind m (λ _ : unit, k))
  (at level 100, k at level 200, right associativity, format "'[v' m  ;;; '/' k ']'") : prog_scope.
Notation "'when' b 'then' m" := (if b then m else ret tt)
  (at level 99, b at level 100, m at level 99) : prog_scope.

(** ** Reasoning about computations *)

(** What a computation may do to the store, as a preorder: the frame of an
    operation (rows it never touches, facts it never undoes). *)
Definition respects {S A} (R : relation S) (m : M S A) : Prop := ∀ s, R s (m s).2.

Section Respects.
Context {S : Type} (R : relation S) `{!PreOrder R}.

Lemma respects_ret {A} (a : A) : respects R (ret a).
Proof. intros s. done. Qed.
Lemma respects_raise {A} c msg : respects R (raise (A := A) c msg).
Proof. intros s. done. Qed.
Lemma respects_reraise {A} e : respects R (reraise (A := A) e).
Proof. intros s. done. Qed.
Lemma respects_lift {A} (r : res A) : respects R (lift_res r).
Proof. intros s. done. Qed.
Lemma respects_get : respects R get_state.
Proof. intros s. done. Qed.
Lemma respects_gets {A} (f : S → A) : respects R (gets f).
Proof. intros s. done. Qed.
Lemma respects_modify f : (∀ s, R s (f s)) → respects R (modify f).
Proof. intros H s. apply H. Qed.
Lemma respects_bind {A B} (m : M S A) (k : A → M S B) :
  respects R m → (∀ a, respects R (k a)) → respects R (bind m k).
Proof.
  intros Hm Hk s. unfold bind. specialize (Hm s).
  destruct (m s) as [[a|e] s']; [|done]. etrans; [done|]. apply Hk.
Qed.
Lemma respects_try {A} (m : M S A) h :
  respects R m → (∀ e, respects R (h e)) → respects R (try_except m h).
Proof.
  intros Hm Hh s. unfold try_except. specialize (Hm s).
  destruct (m s) as [[a|e] s']; [done|]. etrans; [done|]. apply Hh.
Qed.
Lemma respects_transaction `{Transactional S} {A} (m : M S A) :
  (∀ s s', R s s' → R s (rollback s s')) → respects R m → respects R (transaction m).
Proof.
  intros Hr Hm s. unfold transaction. specialize (Hm s).
  destruct (m s) as [[a|e] s']; simpl in *; auto.
Qed.
(** A step of one kind, then steps of another. *)
Lemma respects_seq {A B} (R1 R2 : relation S) (m : M S A) (k : A → M S B) :
  (∀ a b, R1 a b → R a b) → (∀ a b c, R1 a b → R2 b c → R a c) →
  respects R1 m → (∀ a, respects R2 (k a)) → respects R (bind m k).
Proof.
  intros H1 H12 Hm Hk s. unfold bind. specialize (Hm s).
  destruct (m s) as [[a|e] s']; [|by apply H1]. eapply H12; [done|]. apply Hk.
Qed.
Lemma respects_if {A} (b : bool) (m1 m2 : M S A) :
  respects R m1 → respects R m2 → respects R (if b then m1 else m2).
Proof. by destruct b. Qed.
End Respects.

Create HintDb respects.
#[export] Hint Resolve respects_ret respects_raise respects_reraise respects_lift respects_get
  respects_gets respects_modify respects_bind respects_try respects_transaction
  respects_if : respects.

(** A refused transaction leaves the database as it found it. *)
Lemma transaction_raise {S A} `{Transactional S} (m : M S A) s e s' :
  transaction m s = (Raise e, s') → ∃ s1, m s = (Raise e, s1) ∧ s' = rollback s s1.
Proof. unfold transaction. destruct (m s) as [[a|?] ?]; naive_solver. Qed.

Lemma transaction_ok {S A} `{Transactional S} (m : M S A) s a s' :
  transaction m s = (Ok a, s') ↔ m s = (Ok a, s').
Proof. unfold transaction. destruct (m s) as [[?|?] ?]; naive_solver. Qed.

Lemma bind_ok {S A B} (m : M S A) (k : A → M S B) s b s' :
  bind m k s = (Ok b, s') ↔ ∃ a s1, m s = (Ok a, s1) ∧ k a s1 = (Ok b, s').
Proof. unfold bind. destruct (m s) as [[a|e] s1]; naive_solver. Qed.

(** A run, from its outcome. *)
Lemma ran {S A} (m : M S A) s r : (m s).1 = r → m s = (r, (m s).2).
Proof. intros <-. by destruct (m s). Qed.

Lemma bind_raise {S A B} (m : M S A) (k : A → M S B) s e s' :
  bind m k s = (Raise e, s') ↔
    m s = (Raise e, s') ∨ ∃ a s1, m s = (Ok a, s1) ∧ k a s1 = (Raise e, s').
Proof. unfold bind. destruct (m s) as [[a|e'] s1]; naive_solver. Qed.

Lemma bind_assoc {S A B C} (m : M S A) (k : A → M S B) (l : B → M S C) s :
  bind (bind m k) l s = bind m (λ a, bind (k a) l) s.
Proof. unfold bind. by destruct (m s) as [[a|e] s']. Qed.

(** Run a computation as far as the goal or a hypothesis determines it. *)
Ltac run :=
  unfold bind, ret, raise, reraise, gets, get_state, modify, lift_res, try_except in *; simpl in *.

(** Take a successful run apart, one bind at a time. *)
Ltac inv_ok :=
  repeat match goal with
  | H : bind _ _ _ = (Ok _, _) |- _ => apply bind_ok in H as (? & ? & ? & ?)
  | H : ret _ _ = (Ok _, _) |- _ => unfold ret in H; simplify_eq
  | H : raise _ _ _ = (Ok _, _) |- _ => discriminate H
  | H : reraise _ _ = (Ok _, _) |- _ => discriminate H
  | H : gets _ _ = (Ok _, _) |- _ => unfold gets in H; simplify_eq
  | H : get_state _ = (Ok _, _) |- _ => unfold get_state in H; simplify_eq
  | H : modify _ _ = (Ok _, _) |- _ => unfold modify in H; simplify_eq
  end.

(** Search for a [respects] fact over the structure of a computation. *)
Ltac respects_auto :=
  repeat first
    [ solve [auto 2 with nocore]
    | simple apply respects_bind; [try apply _| |intro]
    | simple apply respects_transaction; [try apply _| |]
    | simple apply respects_try; [try apply _| |intro]
    | simple apply respects_if
    | solve [eauto with respects typeclass_instances]
    | case_match ].

(** What a computation that succeeds keeps true; one that raises is undone by
    the transaction around it. *)
Definition keeps {S A} (I : S → Prop) (m : M S A) : Prop :=
  ∀ s a s', I s → m s = (Ok a, s') → I s'.

Section Keeps.
Context {S : Type} (I : S → Prop).

Lemma keeps_ret {A} (a : A) : keeps I (ret a).
Proof. intros s b s' Hs [= <- <-]. done. Qed.
Lemma keeps_raise {A} c msg : keeps I (raise (A := A) c msg).
Proof. by intros s a s' _ [=]. Qed.
Lemma keeps_reraise {A} e : keeps I (reraise (A := A) e).
Proof. by intros s a s' _ [=]. Qed.
Lemma keeps_lift {A} (r : res A) : keeps I (lift_res r).
Proof. intros s a s' Hs [= _ <-]. done. Qed.
Lemma keeps_get : keeps I get_state.
Proof. intros s a s' Hs [= _ <-]. done. Qed.
Lemma keeps_gets {A} (f : S → A) : keeps I (gets f).
Proof. intros s a s' Hs [= _ <-]. done. Qed.
Lemma keeps_bind {A B} (m : M S A) (k : A → M S B) :
  keeps I m → (∀ a, keeps I (k a)) → keeps I (bind m k).
Proof. intros Hm Hk s b s' Hs (a & s1 & H1 & H2)%bind_ok. eapply Hk; [by eapply Hm|done]. Qed.
Lemma keeps_if {A} (b : bool) (m1 m2 : M S A) :
  keeps I m1 → keeps I m2 → keeps I (if b then m1 else m2).
Proof. by destruct b. Qed.
(** A handler that only translates the error. *)
Lemma keeps_try {A} (m : M S A) h :
  keeps I m → (∀ e s a s', h e s ≠ (Ok a, s')) → keeps I (try_except m h).
Proof.
  intros Hm Hh s a s' Hs. unfold try_except. destruct (m s) as [[b|e] s1] eqn:E.
  - intros [= <- <-]. by eapply Hm.
  - intros H. by destruct (Hh _ _ _ _ H).
Qed.
End Keeps.

Create HintDb keeps.
#[export] Hint Resolve keeps_ret keeps_raise keeps_reraise keeps_lift keeps_get keeps_gets : keeps.

(** Search for a [keeps] fact over the structure of a computation. *)
Ltac keeps_auto :=
  repeat first
    [ solve [eauto with keeps]
    | simple apply keeps_bind; [|intro]
    | simple apply keeps_if
    | case_match ].

(** The subclasses other modules add keep the code of the class they extend. *)
Lemma subclass_code (e : exn) c :
  c ∈ [DomainError; NotFoundError; ConflictError; InfrastructureError] →
  isinstance e c = true → code (exn_cls e) = code c.
Proof.
  unfold isinstance. intros Hc Hi%bool_decide_eq_true. destruct e as [[] msg]; simpl in *; set_solver.
Qed.

(** Only the taxonomy carries a code. *)
Lemma code_iff_dw (e : exn) : is_Some (code (exn_cls e)) ↔ isinstance e DWError = true.
Proof.
  unfold isinstance. rewrite bool_decide_eq_true, is_Some_alt.
  destruct e as [[] msg]; simpl; set_solver.
Qed.
