(* ===== verification/Kernel.v ===== *)
(** * Kernel primitives

    [dw_kernel]: the autonomy ladder ([autonomy.py]), the circuit breaker
    ([resilience.py]), the time-ordered id generator ([ports.py]), the
    two-layer tenant overlay ([overlay.py]) and the bearer-token reader
    ([http_auth.py]). *)

From S2P Require Import Prelude Errors.
Local Open Scope pystr_scope.

(** ** [dw_kernel.autonomy] *)

Inductive AutonomyLevel := A0 | A1 | A2 | A3 | A4.

#[export] Instance AutonomyLevel_eq_dec : EqDecision AutonomyLevel.
Proof. solve_decision. Defined.

Definition AUTONOMY_LEVELS : list AutonomyLevel := [A0; A1; A2; A3; A4].
Definition NO_TENANT_CEILING : AutonomyLevel := A4.
Definition FAIL_CLOSED_LEVEL : AutonomyLevel := A0.

(** [AUTONOMY_LEVELS.index(level)] *)
Definition level_index (l : AutonomyLevel) : nat :=
  match list_find (eq l) AUTONOMY_LEVELS with Some (i, _) => i | None => 0 end.

#[export] Instance level_index_inj : Inj (=) (=) level_index.
Proof. by intros [] []. Qed.

(** ** [dw_kernel.resilience.CircuitBreaker] *)

Module Breaker.

Inductive CircuitState := CLOSED | OPEN | HALF_OPEN.

#[export] Instance CircuitState_eq_dec : EqDecision CircuitState.
Proof. solve_decision. Defined.

Record config := { failure_threshold : Z; reset_timeout : timedelta }.

Record breaker := Breaker {
  state : CircuitState;
  consecutive_failures : Z;
  opened_at : option datetime }.

(** The dataclass defaults of a new breaker. *)
Definition init : breaker := Breaker CLOSED 0 None.

Definition trip (now : datetime) (b : breaker) : breaker := Breaker OPEN 0 (Some now).

Definition before_call (cfg : config) (now : datetime) : M breaker unit := λ b,
  match state b with
  | CLOSED => (Ok tt, b)
  | OPEN =>
      match opened_at b with
      | None => (Raise (Exn AssertionError ""), b)
      | Some t =>
          let elapsed := (now - t)%Z in
          if (elapsed <? reset_timeout cfg)%Z
          then (Raise (Exn CircuitOpenError "circuit breaker is open"), b)
          else (Ok tt, Breaker HALF_OPEN (consecutive_failures b) (opened_at b))
      end
  | HALF_OPEN => (Ok tt, b)
  end.

Definition record_success (b : breaker) : breaker := Breaker CLOSED 0 None.

Definition record_failure (cfg : config) (now : datetime) (b : breaker) : breaker :=
  match state b with
  | HALF_OPEN => trip now b
  | _ =>
      let b' := Breaker (state b) (consecutive_failures b + 1) (opened_at b) in
      if (failure_threshold cfg <=? consecutive_failures b')%Z then trip now b' else b'
  end.

(** The three calls an adapter makes, each at the instant its clock shows. *)
Inductive event := BeforeCall (now : datetime) | Success | Failure (now : datetime).

Definition step (cfg : config) (b : breaker) (e : event) : breaker :=
  match e with
  | BeforeCall now => (before_call cfg now b).2
  | Success => record_success b
  | Failure now => record_failure cfg now b
  end.

Inductive reachable (cfg : config) : breaker → Prop :=
  | reach_init : reachable cfg init
  | reach_step b e : reachable cfg b → reachable cfg (step cfg b e).

(** What every reachable breaker satisfies: an open one has its opening time,
    and no state has counted as many failures as the threshold. *)
Record inv (cfg : config) (b : breaker) : Prop := {
  inv_opened : state b = OPEN → is_Some (opened_at b);
  inv_count : (0 <= consecutive_failures b < failure_threshold cfg)%Z }.

Lemma inv_step cfg b e : inv cfg b → inv cfg (step cfg b e).
Proof.
  intros [Ho Hc]. destruct b as [st n o], e as [now| |now]; simpl in *.
  - unfold before_call; destruct st, o; simpl; try case_match; simpl;
      split; simpl; intros; eauto; done.
  - split; simpl; [done|lia].
  - unfold record_failure, trip; simpl.
    destruct st; simpl; try (destruct (Z.leb_spec (failure_threshold cfg) (n + 1)));
      split; simpl; intros; eauto; lia.
Qed.

Lemma inv_reachable cfg b : (0 < failure_threshold cfg)%Z → reachable cfg b → inv cfg b.
Proof.
  intros Ht. induction 1; [|by apply inv_step].
  split; simpl; [done|lia].
Qed.

End Breaker.

(** ** [dw_kernel.ports.Uuid7Generator] *)

Module Uuid7.
Local Open Scope Z_scope.

Definition TIMESTAMP_BITS : Z := 48.
Definition COUNTER_BITS : Z := 12.
Definition RANDOM_BITS : Z := 62.
Definition COUNTER_MAX : Z := Z.shiftl 1 COUNTER_BITS - 1.
Definition TIMESTAMP_MASK : Z := Z.shiftl 1 TIMESTAMP_BITS - 1.

Record gen := Gen { last_ms : Z; counter : Z }.

Definition init : gen := Gen 0 0.

(** [_next_slot]; [clock_ms] is [int(clock.now().timestamp() * 1000)]. *)
Definition next_slot (clock_ms : Z) (g : gen) : gen :=
  let now_ms := Z.land clock_ms TIMESTAMP_MASK in
  if last_ms g <? now_ms then Gen now_ms 0
  else if counter g <? COUNTER_MAX then Gen (last_ms g) (counter g + 1)
  else Gen (last_ms g + 1) 0.

(** The integer of the id; [randbits] is [secrets.randbits(62)]. *)
Definition layout (timestamp_ms counter randbits : Z) : Z :=
  Z.lor (Z.lor (Z.lor (Z.lor (Z.shiftl timestamp_ms 80) (Z.shiftl 7 76))
                      (Z.shiftl counter 64)) (Z.shiftl 2 62)) randbits.

(** [new_uuid]: [uuid.UUID(int=value)] refuses a value outside 128 bits. *)
Definition new_uuid (clock_ms randbits : Z) : M gen Z := λ g,
  let g' := next_slot clock_ms g in
  let value := layout (last_ms g') (counter g') randbits in
  if (0 <=? value) && (value <? 2 ^ 128) then (Ok value, g')
  else (Raise (Exn ValueError "int is out of range (need a 128-bit value)"), g').

(** The ids one generator issues for a sequence of clock readings. *)
Fixpoint issue (reads : list (Z * Z)) (g : gen) : list (res Z) :=
  match reads with
  | [] => []
  | (ms, r) :: rest => let '(v, g') := new_uuid ms r g in v :: issue rest g'
  end.

Definition valid_random (r : Z) : Prop := 0 <= r < 2 ^ 62.

Record inv (g : gen) : Prop := {
  inv_ms : 0 <= last_ms g;
  inv_counter : 0 <= counter g <= COUNTER_MAX }.

Lemma COUNTER_MAX_eq : COUNTER_MAX = 4095.
Proof. done. Qed.

Lemma land_mask_bounds ms : 0 <= Z.land ms TIMESTAMP_MASK < 2 ^ 48.
Proof.
  change TIMESTAMP_MASK with (Z.ones 48). rewrite Z.land_ones by lia.
  apply Z.mod_pos_bound. lia.
Qed.

Lemma inv_next ms g : inv g → inv (next_slot ms g).
Proof.
  intros [Hm Hc]. pose proof (land_mask_bounds ms).
  rewrite COUNTER_MAX_eq in Hc. unfold next_slot. rewrite COUNTER_MAX_eq.
  repeat case_match; to_prop; split; simpl; rewrite ?COUNTER_MAX_eq; lia.
Qed.

(** The four fields do not overlap, so the disjunction is a sum. *)
Lemma lor_shiftl_add a b n :
  0 <= n → 0 <= b < 2 ^ n → Z.lor (Z.shiftl a n) b = a * 2 ^ n + b.
Proof.
  intros Hn Hb.
  assert (Z.land (Z.shiftl a n) b = 0) as Hland.
  { apply Z.bits_inj_0. intros i. rewrite Z.land_spec.
    destruct (Z.ltb_spec i 0); [by rewrite Z.testbit_neg_r|].
    destruct (Z.ltb_spec i n); [by rewrite Z.shiftl_spec_low|].
    destruct (decide (b = 0)) as [->|]; [by rewrite Z.testbit_0_l, andb_false_r|].
    rewrite (Z.bits_above_log2 b i), andb_false_r; [done|lia|].
    apply Z.log2_lt_pow2; [lia|]. eapply Z.lt_le_trans; [apply Hb|].
    apply Z.pow_le_mono_r; lia. }
  rewrite <- Z.shiftl_mul_pow2, Z.add_nocarry_lxor, Z.lxor_lor by done. done.
Qed.

Lemma layout_sum ts c r :
  0 <= c <= COUNTER_MAX → valid_random r →
  layout ts c r = ts * 2 ^ 80 + 7 * 2 ^ 76 + c * 2 ^ 64 + 2 * 2 ^ 62 + r.
Proof.
  rewrite COUNTER_MAX_eq. unfold valid_random, layout. intros Hc Hr.
  rewrite (lor_shiftl_add ts) by (rewrite ?Z.shiftl_mul_pow2; lia).
  replace (ts * 2 ^ 80 + Z.shiftl 7 76) with (Z.shiftl (ts * 16 + 7) 76)
    by (rewrite !Z.shiftl_mul_pow2; lia).
  rewrite (lor_shiftl_add _ (Z.shiftl c 64)) by (rewrite ?Z.shiftl_mul_pow2; lia).
  replace ((ts * 16 + 7) * 2 ^ 76 + Z.shiftl c 64)
    with (Z.shiftl ((ts * 16 + 7) * 4096 + c) 64) by (rewrite !Z.shiftl_mul_pow2; lia).
  rewrite (lor_shiftl_add _ (Z.shiftl 2 62)) by (rewrite ?Z.shiftl_mul_pow2; lia).
  replace (((ts * 16 + 7) * 4096 + c) * 2 ^ 64 + Z.shiftl 2 62)
    with (Z.shiftl (((ts * 16 + 7) * 4096 + c) * 4 + 2) 62)
    by (rewrite !Z.shiftl_mul_pow2; lia).
  rewrite lor_shiftl_add; lia.
Qed.

(** The high 64 bits of an id: its timestamp, the version and its counter. *)
Definition key (g : gen) : Z := last_ms g * 65536 + 7 * 4096 + counter g.

Lemma next_slot_lt ms g : inv g → key g < key (next_slot ms g).
Proof.
  intros [Hm Hc]. rewrite COUNTER_MAX_eq in Hc. unfold key, next_slot. rewrite COUNTER_MAX_eq.
  repeat case_match; to_prop; simpl; lia.
Qed.

Lemma next_slot_bound ms g B :
  last_ms g <= B → Z.land ms TIMESTAMP_MASK <= B → last_ms (next_slot ms g) <= B + 1.
Proof. unfold next_slot. repeat case_match; to_prop; simpl; lia. Qed.

(** The version and variant fields RFC 9562 fixes, at their positions. *)
Definition well_formed (z : Z) : Prop :=
  Z.land (Z.shiftr z 76) 15 = 7 ∧ Z.land (Z.shiftr z 62) 3 = 2 ∧ 0 <= z < 2 ^ 128.

Lemma new_uuid_ok ms r g :
  inv g → valid_random r → last_ms (next_slot ms g) < 2 ^ 48 →
  ∃ z, new_uuid ms r g = (Ok z, next_slot ms g) ∧ z / 2 ^ 64 = key (next_slot ms g) ∧
       well_formed z.
Proof.
  intros Hg Hr Hb. pose proof (inv_next ms g Hg) as [Hm' Hc'].
  unfold new_uuid. rewrite layout_sum by done.
  rewrite COUNTER_MAX_eq in Hc'. unfold valid_random in Hr.
  revert Hm' Hc' Hb. generalize (next_slot ms g) as g'. intros [ts c] Hm' Hc' Hb. simpl in *.
  set (z := ts * 2 ^ 80 + 7 * 2 ^ 76 + c * 2 ^ 64 + 2 * 2 ^ 62 + r).
  assert (0 <= z < 2 ^ 128) as Hz by (unfold z; lia).
  exists z. split; [|split].
  - destruct (Z.leb_spec 0 z), (Z.ltb_spec z (2 ^ 128)); [done|lia..].
  - unfold z, key. simpl. symmetry. apply Z.div_unique with (2 * 2 ^ 62 + r); lia.
  - unfold well_formed. change 15 with (Z.ones 4). change 3 with (Z.ones 2).
    rewrite !Z.land_ones, !Z.shiftr_div_pow2 by lia.
    split; [|split; [|done]].
    + replace (z / 2 ^ 76) with (ts * 16 + 7); [symmetry; apply Z.mod_unique with ts; lia|].
      apply Z.div_unique with (c * 2 ^ 64 + 2 * 2 ^ 62 + r); unfold z; lia.
    + replace (z / 2 ^ 62) with (((ts * 16 + 7) * 4096 + c) * 4 + 2).
      * symmetry; apply Z.mod_unique with ((ts * 16 + 7) * 4096 + c); lia.
      * apply Z.div_unique with r; unfold z; lia.
Qed.

Lemma issue_ok reads : ∀ g B,
  inv g → last_ms g <= B →
  Forall (λ p, valid_random p.2 ∧ Z.land p.1 TIMESTAMP_MASK <= B) reads →
  B + Z.of_nat (length reads) < 2 ^ 48 →
  ∃ zs, issue reads g = Ok <$> zs ∧ StronglySorted Z.lt zs ∧ Forall well_formed zs ∧
        Forall (λ z, key g < z / 2 ^ 64) zs.
Proof.
  induction reads as [|[ms r] reads IH]; intros g B Hg HB Hr Hl.
  { exists []. repeat split; constructor. }
  apply Forall_cons in Hr as [[Hv Hm] Hr]. simpl in *.
  pose proof (next_slot_bound ms g B HB Hm) as HB'.
  destruct (new_uuid_ok ms r g) as (z & -> & Hk & Hw); [done|done|lia|].
  pose proof (next_slot_lt ms g Hg) as Hlt.
  destruct (IH (next_slot ms g) (B + 1)) as (zs & -> & Hs & Hws & Hf).
  { by apply inv_next. } { lia. }
  { eapply Forall_impl; [done|]. simpl. intros ? [??]. split; [done|lia]. } { lia. }
  exists (z :: zs). split; [done|]. split; [|split; [by constructor|]].
  - constructor; [done|]. eapply Forall_impl; [exact Hf|]. simpl. intros z' Hz'.
    rewrite <- Hk in Hz'. apply Z.nle_gt. intros Hle.
    apply (Z.div_le_mono _ _ (2 ^ 64)) in Hle; lia.
  - constructor; [lia|]. eapply Forall_impl; [exact Hf|]. simpl. lia.
Qed.
End Uuid7.

(** ** [dw_kernel.overlay.TenantOverlay] *)

Module Overlay.
Section Overlay.
Context {K V : Type} `{Countable K}.

Record overlay := Overlay { platform : gmap K V; tenants : gmap uuid (gmap K V) }.

Definition empty_overlay : overlay := Overlay ∅ ∅.

(** [_layer]: [setdefault] creates the tenant's layer when it is missing. *)
Definition layer (t : option uuid) : M overlay (gmap K V) := λ o,
  match t with
  | None => (Ok (platform o), o)
  | Some t =>
      match tenants o !! t with
      | Some l => (Ok l, o)
      | None => (Ok ∅, Overlay (platform o) (<[t := ∅]> (tenants o)))
      end
  end.

Definition existing (key : K) (t : option uuid) : M overlay (option V) :=
  bind (layer t) (λ l, ret (l !! key)).

Definition put (key : K) (value : V) (t : option uuid) : M overlay unit :=
  bind (layer t) (λ l, modify (λ o,
    match t with
    | None => Overlay (<[key := value]> (platform o)) (tenants o)
    | Some t => Overlay (platform o) (<[t := <[key := value]> l]> (tenants o))
    end)).

Definition get (key : K) (t : option uuid) (o : overlay) : option V :=
  match t with
  | None => platform o !! key
  | Some t =>
      match default ∅ (tenants o !! t) !! key with
      | Some own => Some own
      | None => platform o !! key
      end
  end.

(** Two overlays no reader can tell apart: [existing] may leave an empty
    layer behind, which no lookup sees. *)
Definition same_reads (o1 o2 : overlay) : Prop :=
  platform o1 = platform o2 ∧
  ∀ t, default ∅ (tenants o1 !! t) = default ∅ (tenants o2 !! t).

#[export] Instance same_reads_equiv : Equivalence same_reads.
Proof.
  split.
  - by intros o.
  - intros o1 o2 [? Ht]. by split.
  - intros o1 o2 o3 [? H1] [? H2]. split; [congruence|]. intros t. by rewrite H1.
Qed.

#[export] Instance get_proper key t : Proper (same_reads ==> (=)) (get key t).
Proof. intros o1 o2 [Hp Ht]. unfold get. destruct t as [t|]; by rewrite Hp, ?(Ht t). Qed.

Lemma existing_reads key t o : same_reads (existing key t o).2 o.
Proof.
  unfold existing, layer. destruct t as [t|]; run; [|done].
  destruct (tenants o !! t) eqn:E; simpl; [done|]. split; [done|]. intros t'; simpl.
  destruct (decide (t = t')) as [<-|].
  - by rewrite lookup_insert_eq, E.
  - by rewrite lookup_insert_ne.
Qed.

Lemma get_put key value t key' t' o :
  get key' t' (put key value t o).2 =
    if decide (key = key' ∧ (t = t' ∨ t = None ∧
          default ∅ (x ← t'; tenants o !! x) !! key = None))
    then Some value else get key' t' o.
Proof.
  destruct o as [p ts]. unfold put, layer, get.
  destruct t as [t|]; run.
  - destruct (ts !! t) eqn:E; simpl;
    (destruct t' as [t'|]; [|case_decide; naive_solver]);
    (destruct (decide (t = t')) as [<-|];
      [rewrite lookup_insert_eq; simpl; destruct (decide (key = key')) as [<-|];
        [rewrite lookup_insert_eq; case_decide; naive_solver
        |rewrite lookup_insert_ne by done; rewrite ?E; case_decide; naive_solver]
      |rewrite ?lookup_insert_ne by done; case_decide; naive_solver]).
  - destruct t' as [t'|]; simpl.
    + destruct (decide (key = key')) as [<-|].
      * rewrite lookup_insert_eq. destruct (default ∅ (ts !! t') !! key) eqn:E;
          case_decide; naive_solver.
      * rewrite lookup_insert_ne by done. case_decide; naive_solver.
    + destruct (decide (key = key')) as [<-|].
      * rewrite lookup_insert_eq. case_decide; naive_solver.
      * rewrite lookup_insert_ne by done. case_decide; naive_solver.
Qed.
End Overlay.
Arguments overlay K V {_ _}.
End Overlay.

(** ** [dw_kernel.http_auth.bearer_token] *)

Module HttpAuth.
Definition BEARER_SCHEME : pystr := "bearer".

(** [s.partition(" ")], the first and the last of its three parts. *)
Fixpoint partition_space (l : list N) : list N * list N :=
  match l with
  | [] => ([], [])
  | c :: r => if N.eqb c 32 then ([], r)
              else let '(a, b) := partition_space r in (c :: a, b)
  end.

(** Lower-casing outside ASCII never yields a letter of ["bearer"], so the
    comparison only needs the ASCII letters. *)
Definition bearer_token (authorization : option pystr) : res pystr :=
  let '(scheme, token) := partition_space (chars (default (PyStr []) authorization)) in
  if negb (bool_decide (py_lower_ascii (PyStr scheme) = BEARER_SCHEME))
     || negb (py_truthy (py_strip (PyStr token)))
  then Raise (Exn UnauthenticatedError "missing bearer token")
  else Ok (py_strip (PyStr token)).

Lemma partition_space_app a b :
  Forall (λ c, c ≠ 32%N) a → partition_space (a ++ 32%N :: b) = (a, b).
Proof.
  induction 1 as [|c a Hc _ IH]; simpl; [done|].
  rewrite IH. destruct (N.eqb_spec c 32); done.
Qed.

Lemma lower_bearer_no_space l :
  map ascii_lower l = chars BEARER_SCHEME → Forall (λ c, c ≠ 32%N) l.
Proof.
  intros Hl. apply Forall_forall. intros c Hc ->.
  apply list_elem_of_In, (in_map ascii_lower) in Hc. rewrite Hl in Hc.
  vm_compute in Hc. intuition discriminate.
Qed.
End HttpAuth.

(** ** Properties *)

Section BreakerProperties.
Import Breaker.

(** Failures reported one after another to a closed breaker. *)
Definition fail_at (cfg : config) (times : list datetime) (b : breaker) : breaker :=
  fold_left (λ b t, record_failure cfg t b) times b.

Lemma fail_at_closed cfg times : ∀ n o,
  (n + Z.of_nat (length times) < failure_threshold cfg)%Z →
  fail_at cfg times (Breaker CLOSED n o) = Breaker CLOSED (n + Z.of_nat (length times)) o.
Proof.
  induction times as [|t times IH]; intros n o Hn; simpl in *; [f_equal; lia|].
  unfold record_failure; simpl.
  destruct (Z.leb_spec (failure_threshold cfg) (n + 1)); [lia|].
  rewrite IH; [f_equal; lia|lia].
Qed.

Lemma fail_at_snoc cfg times t b :
  fail_at cfg (times ++ [t]) b = record_failure cfg t (fail_at cfg times b).
Proof. unfold fail_at. by rewrite fold_left_app. Qed.

(** A closed breaker lets calls through until the configured number of consecutive failures,
    refuses calls until the reset timeout has passed, and then a trial's success closes
    it while a trial's failure opens it again. *)
Theorem breaker_opens_at_threshold cfg times t now :
  failure_threshold cfg = Z.of_nat (S (length times)) →
  (before_call cfg now (fail_at cfg times init)).1 = Ok tt ∧
  let b := fail_at cfg (times ++ [t]) init in
  (before_call cfg now b).1 =
    (if (now - t <? reset_timeout cfg)%Z
     then Raise (Exn CircuitOpenError "circuit breaker is open") else Ok tt) ∧
  (reset_timeout cfg <= now - t →
     let trial := (before_call cfg now b).2 in
     state trial = HALF_OPEN ∧ record_success trial = init ∧
     ∀ t', record_failure cfg t' trial = Breaker OPEN 0 (Some t'))%Z.
Proof.
  intros Ht. rewrite fail_at_snoc. unfold init.
  rewrite (fail_at_closed cfg times 0 None) by lia. split; [done|]. simpl.
  unfold record_failure; simpl.
  destruct (Z.leb_spec (failure_threshold cfg) (0 + Z.of_nat (length times) + 1)); [|lia].
  unfold before_call; simpl. destruct (Z.ltb_spec (now - t) (reset_timeout cfg)); simpl.
  - split; [done|lia].
  - split; [done|]. by intros _.
Qed.

Lemma breaker_opens_at_threshold_witness :
  let cfg := {| failure_threshold := 3; reset_timeout := seconds 30 |} in
  let b := fail_at cfg ([1; 2] ++ [3])%Z init in
  (before_call cfg 4 b).1 = Raise (Exn CircuitOpenError "circuit breaker is open") ∧
  (before_call cfg (seconds 31) b).1 = Ok tt.
Proof.
  intros cfg b. split.
  - destruct (breaker_opens_at_threshold cfg [1; 2]%Z 3 4 eq_refl) as (_ & H & _). exact H.
  - destruct (breaker_opens_at_threshold cfg [1; 2]%Z 3 (seconds 31) eq_refl) as (_ & H & _).
    exact H.
Defined.

(** In every reachable state a call is refused exactly when the breaker is open and its
    timeout has not passed; the internal assertion never fails, and a half-open breaker
    admits every caller. *)
Theorem breaker_call_outcome cfg b now :
  (0 < failure_threshold cfg)%Z → reachable cfg b →
  let '(r, b') := before_call cfg now b in
  (∃ t, state b = OPEN ∧ opened_at b = Some t ∧ (now - t < reset_timeout cfg)%Z ∧
        r = Raise (Exn CircuitOpenError "circuit breaker is open") ∧ b' = b)
  ∨ (∃ t, state b = OPEN ∧ opened_at b = Some t ∧ (reset_timeout cfg <= now - t)%Z ∧
          r = Ok tt ∧ state b' = HALF_OPEN)
  ∨ (state b ≠ OPEN ∧ r = Ok tt ∧ b' = b).
Proof.
  intros Ht Hr. destruct (inv_reachable cfg b Ht Hr) as [Ho Hc].
  destruct b as [[] n o]; unfold before_call; simpl in *; [by right; right| |by right; right].
  destruct (Ho eq_refl) as [t ->].
  destruct (Z.ltb_spec (now - t) (reset_timeout cfg)); [left|right; left]; exists t; auto.
Qed.

Lemma breaker_call_outcome_witness :
  let cfg := {| failure_threshold := 1; reset_timeout := 10 |} in
  reachable cfg (step cfg init (Failure 5)) ∧
  let '(r, b') := before_call cfg 7 (step cfg init (Failure 5)) in
  r = Raise (Exn CircuitOpenError "circuit breaker is open").
Proof.
  intros cfg. assert (reachable cfg (step cfg init (Failure 5))) as Hr by repeat constructor.
  split; [done|].
  destruct (breaker_call_outcome cfg (step cfg init (Failure 5)) 7 eq_refl Hr)
    as [(t & _ & _ & _ & H & _)|[(t & _ & H & H' & _)|(H & _)]].
  - exact H.
  - vm_compute in H. injection H as <-. exfalso. revert H'. vm_compute. congruence.
  - exfalso. apply H. reflexivity.
Defined.
End BreakerProperties.

Section Uuid7Properties.
Import Uuid7.
Local Open Scope Z_scope.

(** Whatever the clock does, the ids of one generator strictly increase and carry the RFC
    9562 version and variant bits, as long as the 48-bit timestamp is not exhausted. *)
Theorem uuid7_increasing reads B :
  Forall (λ p, valid_random p.2 ∧ Z.land p.1 TIMESTAMP_MASK <= B) reads →
  0 <= B → B + Z.of_nat (length reads) < 2 ^ 48 →
  ∃ zs, issue reads init = Ok <$> zs ∧ StronglySorted Z.lt zs ∧ Forall well_formed zs.
Proof.
  intros Hr HB Hl. destruct (issue_ok reads init B) as (zs & ? & ? & ? & _); eauto.
  split; simpl; [lia|rewrite COUNTER_MAX_eq; lia].
Qed.

(** A clock that stands still and then goes backwards. *)
Lemma uuid7_increasing_witness :
  ∃ zs, issue [(1000, 5); (1000, 3); (400, 1)] init = Ok <$> zs ∧
        StronglySorted Z.lt zs ∧ Forall well_formed zs.
Proof.
  apply (uuid7_increasing [(1000, 5); (1000, 3); (400, 1)] 1000).
  - repeat constructor; simpl; try (vm_compute; congruence); lia.
  - lia.
  - simpl. lia.
Defined.
End Uuid7Properties.

Section OverlayProperties.
Import Overlay.
Context {K V : Type} `{Countable K}.

(** A put is seen by the readers of its own layer, and a platform put by exactly the
    tenants that did not override the key; looking for an existing entry changes no
    reader's answer. *)
Theorem overlay_resolution (o : overlay K V) key value t key' t' key'' t'' :
  get key' t' (put key value t (existing key'' t'' o).2).2 =
    if decide (key = key' ∧ (t = t' ∨ t = None ∧
          default ∅ (x ← t'; tenants o !! x) !! key = None))
    then Some value else get key' t' o.
Proof.
  destruct (existing_reads key'' t'' o) as [Hp Ht].
  rewrite get_put, (get_proper key' t' _ o) by done.
  assert (default ∅ (x ← t'; tenants (existing key'' t'' o).2 !! x)
          = default ∅ (x ← t'; tenants o !! x)) as ->; [|done].
  destruct t' as [x|]; [apply (Ht x)|done].
Qed.
End OverlayProperties.
