(* ===== verification/Domain.v ===== *)
(** * Platform domain and authorization

    [dw_platform/domain] (the approval aggregate, the audit and outbox events)
    and the parts of [dw_platform/application] every service consults: the
    access context and the scope-based authorization. *)

From S2P Require Import Prelude Errors Kernel.
Local Open Scope pystr_scope.

(** ** [domain/approval.py] *)

Definition APPROVALS_DECIDE : pystr := "approvals.decide".

Definition decided_event_type (approval_type : pystr) : pystr := approval_type +++ ".decided".

Definition approval_link (approval_id workspace_id : uuid) : pystr :=
  "/approvals/" +++ uuid_str approval_id +++ "?workspace=" +++ uuid_str workspace_id.

Inductive ApprovalStatus := PENDING | APPROVED | REJECTED | CANCELLED.

#[export] Instance ApprovalStatus_eq_dec : EqDecision ApprovalStatus.
Proof. solve_decision. Defined.

Inductive DecisionOutcome := OUTCOME_APPROVED | OUTCOME_REJECTED.

#[export] Instance DecisionOutcome_eq_dec : EqDecision DecisionOutcome.
Proof. solve_decision. Defined.

Definition outcome_value (o : DecisionOutcome) : pystr :=
  match o with OUTCOME_APPROVED => "approved" | OUTCOME_REJECTED => "rejected" end.

Record ApprovalDecision := {
  ad_id : uuid;
  ad_request_id : uuid;
  ad_tenant_id : uuid;
  ad_workspace_id : uuid;
  ad_decided_by : uuid;
  ad_outcome : DecisionOutcome;
  ad_comment : pystr;
  ad_decided_at : datetime;
  ad_channel : pystr }.

Record ApprovalRequest := {
  ar_id : uuid;
  ar_tenant_id : uuid;
  ar_workspace_id : uuid;
  ar_approval_type : pystr;
  ar_requested_by : uuid;
  ar_reason : pystr;
  ar_payload : gmap pystr json;
  ar_run_id : option uuid;
  ar_required_scope : option pystr;
  ar_status : ApprovalStatus;
  ar_created_at : option datetime;
  ar_decided_at : option datetime;
  ar_version : Z }.

Definition set_status (st : ApprovalStatus) (at_ : option datetime) (r : ApprovalRequest)
    : ApprovalRequest :=
  {| ar_id := ar_id r; ar_tenant_id := ar_tenant_id r; ar_workspace_id := ar_workspace_id r;
     ar_approval_type := ar_approval_type r; ar_requested_by := ar_requested_by r;
     ar_reason := ar_reason r; ar_payload := ar_payload r; ar_run_id := ar_run_id r;
     ar_required_scope := ar_required_scope r; ar_status := st;
     ar_created_at := ar_created_at r; ar_decided_at := at_;
     ar_version := (ar_version r + 1)%Z |}.

Definition require_pending (r : ApprovalRequest) : res unit :=
  if decide (ar_status r = PENDING) then Ok tt
  else Raise (Exn ConflictError "approval request already decided").

(** [ApprovalRequest.decide]: the aggregate is mutated, the decision returned. *)
Definition request_decide (decision_id decided_by : uuid) (outcome : DecisionOutcome)
    (decided_at : datetime) (comment channel : pystr) (r : ApprovalRequest)
    : res (ApprovalRequest * ApprovalDecision) :=
  match require_pending r with
  | Raise e => Raise e
  | Ok _ =>
      Ok (set_status (match outcome with OUTCOME_APPROVED => APPROVED | _ => REJECTED end)
            (Some decided_at) r,
          {| ad_id := decision_id; ad_request_id := ar_id r; ad_tenant_id := ar_tenant_id r;
             ad_workspace_id := ar_workspace_id r; ad_decided_by := decided_by;
             ad_outcome := outcome; ad_comment := comment; ad_decided_at := decided_at;
             ad_channel := channel |})
  end.

(** [ApprovalRequest.cancel] *)
Definition request_cancel (r : ApprovalRequest) : res ApprovalRequest :=
  match require_pending r with
  | Raise e => Raise e
  | Ok _ => Ok (set_status CANCELLED (ar_decided_at r) r)
  end.

(** ** [domain/audit.py] *)

Record AuditEvent := {
  ae_id : uuid;
  ae_tenant_id : uuid;
  ae_workspace_id : uuid;
  ae_actor_id : uuid;
  ae_action : pystr;
  ae_resource_type : pystr;
  ae_resource_id : pystr;
  ae_occurred_at : datetime;
  ae_run_id : option uuid;
  ae_policy_decision : option pystr;
  ae_trace_id : option pystr;
  ae_details : gmap pystr json }.

(** [__post_init__]; an instant of the model is always time-zone aware. *)
Definition audit_event_valid (e : AuditEvent) : bool := negb (is_blank (ae_action e)).

Definition make_audit_event (e : AuditEvent) : res AuditEvent :=
  if audit_event_valid e then Ok e else Raise (Exn ValueError "audit action must not be blank").

(** [_LANE_NAME.fullmatch]: [[a-z][a-z0-9_]*] *)
Definition is_lower (c : N) : bool := ((97 <=? c) && (c <=? 122))%N.
Definition is_digit (c : N) : bool := ((48 <=? c) && (c <=? 57))%N.

Definition lane_name_ok (lane : pystr) : bool :=
  match chars lane with
  | [] => false
  | c :: r => is_lower c && forallb (λ c, is_lower c || is_digit c || N.eqb c 95) r
  end.

Definition system_actor_label (lane : pystr) : res pystr :=
  if lane_name_ok lane then Ok ("system:" +++ lane)
  else Raise (Exn ValueError "lane name must be a worker registry name").

(** ** [domain/outbox.py] *)

Record OutboxEvent := {
  oe_id : uuid;
  oe_tenant_id : uuid;
  oe_workspace_id : uuid;
  oe_event_type : pystr;
  oe_schema_version : pystr;
  oe_aggregate_id : uuid;
  oe_occurred_at : datetime;
  oe_payload : gmap pystr json;
  oe_correlation_id : option uuid;
  oe_causation_id : option uuid;
  oe_actor_id : option uuid;
  oe_processed_at : option datetime;
  oe_attempts : Z;
  oe_last_error : option pystr }.

(** [__post_init__]: ["." in self.event_type] *)
Definition outbox_event_valid (e : OutboxEvent) : bool :=
  existsb (N.eqb 46) (chars (oe_event_type e)).

(** The constructor: [__post_init__] raises on a type without a namespace. *)
Definition make_outbox_event (e : OutboxEvent) : res OutboxEvent :=
  if outbox_event_valid e then Ok e
  else Raise (Exn ValueError "event_type must be namespaced like '<context>.<aggregate>.<verb>'").

Definition is_processed (e : OutboxEvent) : bool := bool_decide (is_Some (oe_processed_at e)).

(** ** [application/access_context.py] *)

Record SupportScope := {
  ss_grant_id : uuid;
  ss_code : pystr;
  ss_resource_type : pystr;
  ss_resource_id : option uuid;
  ss_scope_set_key : pystr }.

Record AccessContext := {
  tenant_id : uuid;
  workspace_id : uuid;
  principal_id : uuid;
  roles : gset pystr;
  groups : gset pystr;
  scopes : gset pystr;
  clearance : pystr;
  plan_id : pystr;
  feature_flags : gset pystr;
  record_visibility : pystr;
  visible_owners : option (gset uuid);
  max_autonomy_level : AutonomyLevel;
  support : option SupportScope }.

(** [_non_empty], the validator of [plan_id] and [clearance]. *)
Definition access_context_valid (c : AccessContext) : bool :=
  negb (is_blank (plan_id c)) && negb (is_blank (clearance c)).

Definition has_scope (c : AccessContext) (scope : pystr) : bool := bool_decide (scope ∈ scopes c).
Definition has_any_role (c : AccessContext) (rs : list pystr) : bool :=
  existsb (λ r, bool_decide (r ∈ roles c)) rs.
Definition has_feature (c : AccessContext) (flag : pystr) : bool :=
  bool_decide (flag ∈ feature_flags c).

(** ** [application/authorization.py] *)

Definition PLATFORM_ADMIN_ROLE : pystr := "platform_admin".

Definition holds_stamped_scope (c : AccessContext) (required_scope : option pystr) : bool :=
  match required_scope with
  | None => true
  | Some s => has_scope c s
  end.

(** [ScopeAuthorizationService], by its one field. *)
Record ScopeAuthorizationService := { admin_role : pystr }.

Definition default_authorization : ScopeAuthorizationService :=
  {| admin_role := PLATFORM_ADMIN_ROLE |}.

Definition is_allowed (a : ScopeAuthorizationService) (c : AccessContext) (action : pystr) : bool :=
  bool_decide (admin_role a ∈ roles c) || bool_decide (action ∈ scopes c).

Definition permission_denied : exn := Exn PermissionDeniedError "action not permitted".

Definition require (a : ScopeAuthorizationService) (c : AccessContext) (action : pystr)
    : res unit :=
  if is_allowed a c action then Ok tt else Raise permission_denied.

Record ApprovalAudience := { aud_context : AccessContext; holds_decide : bool }.

Definition audience_of (c : AccessContext) (a : ScopeAuthorizationService) : ApprovalAudience :=
  {| aud_context := c; holds_decide := is_allowed a c APPROVALS_DECIDE |}.

Definition may_decide (aud : ApprovalAudience) (r : ApprovalRequest) : bool :=
  holds_decide aud && holds_stamped_scope (aud_context aud) (ar_required_scope r).

Definition may_see (aud : ApprovalAudience) (r : ApprovalRequest) : bool :=
  bool_decide (ar_required_scope r = None)
  || bool_decide (ar_requested_by r = principal_id (aud_context aud))
  || may_decide aud r.

(** [repositories.visible_to]: the same rule as a WHERE clause.  [IN] over a
    NULL column is not true. *)
Definition visible_to (aud : ApprovalAudience) (r : ApprovalRequest) : bool :=
  let decidable :=
    if holds_decide aud then
      match ar_required_scope r with
      | Some s => bool_decide (s ∈ scopes (aud_context aud))
      | None => false
      end
    else false in
  bool_decide (ar_required_scope r = None)
  || bool_decide (ar_requested_by r = principal_id (aud_context aud))
  || decidable.

(** ** [application/approval_codes.py]: what is stored *)

Definition CODE_DIGITS : nat := 6.
Definition CODE_TTL : timedelta := minutes 10.
Definition MAX_WRONG_TRIES : Z := 5.
Definition MAX_COMMENT_LENGTH : nat := 2000.

(** The keyed hash of a code; what [hmac] returns is bytes. *)
Abbreviation code_hash_t := (list N) (only parsing).

Record ViewReceipt := {
  vr_id : uuid;
  vr_tenant_id : uuid;
  vr_workspace_id : uuid;
  vr_approval_id : uuid;
  vr_user_id : uuid;
  vr_approval_version : Z;
  vr_subject_version : option pystr }.

Record NewDecisionCode := {
  nc_id : uuid;
  nc_code_hash : code_hash_t;
  nc_comment : pystr;
  nc_expires_at : datetime }.

Record OpenCode := { oc_approval_id : uuid; oc_code_hash : code_hash_t }.

Inductive CodeState := CS_OPEN | CS_USED | CS_EXPIRED | CS_LOCKED | CS_REISSUED.

#[export] Instance CodeState_eq_dec : EqDecision CodeState.
Proof. solve_decision. Defined.

(** The column a revocation writes: the two states a revoked code can be in. *)
Inductive RevokedReason := RR_locked | RR_reissued.

#[export] Instance RevokedReason_eq_dec : EqDecision RevokedReason.
Proof. solve_decision. Defined.

(** A row of [approval_decision_codes]. *)
Record DecisionCodeRow := {
  dc_id : uuid;
  dc_tenant_id : uuid;
  dc_workspace_id : uuid;
  dc_approval_id : uuid;
  dc_user_id : uuid;
  dc_receipt_id : uuid;
  dc_code_hash : code_hash_t;
  dc_comment : pystr;
  dc_failed_attempts : Z;
  dc_expires_at : datetime;
  dc_used_at : option datetime;
  dc_revoked_at : option datetime;
  dc_revoked_reason : option RevokedReason;
  dc_created_at : datetime }.

Record StoredCode := {
  sc_id : uuid;
  sc_tenant_id : uuid;
  sc_workspace_id : uuid;
  sc_approval_id : uuid;
  sc_user_id : uuid;
  sc_receipt_id : uuid;
  sc_code_hash : code_hash_t;
  sc_comment : pystr;
  sc_state : CodeState }.

Record LastDecision := { ld_decided_at : datetime; ld_channel : pystr }.

Record CodedApproval := {
  ca_request : ApprovalRequest;
  ca_receipt_approval_version : Z;
  ca_receipt_subject_version : option pystr;
  ca_last_decision : option LastDecision }.

(** ** Lemmas *)

Lemma visible_to_may_see aud r : visible_to aud r = may_see aud r.
Proof.
  unfold visible_to, may_see, may_decide, holds_stamped_scope, has_scope.
  destruct (ar_required_scope r) as [s|]; simpl.
  - by destruct (holds_decide aud).
  - done.
Qed.

Lemma require_ok a c action : require a c action = Ok tt ↔ is_allowed a c action = true.
Proof. unfold require. by case_match. Qed.

Lemma request_decide_ok id by_ o at_ cm ch r r' d :
  request_decide id by_ o at_ cm ch r = Ok (r', d) →
  ar_status r = PENDING ∧ ar_status r' ≠ PENDING ∧ ar_version r' = (ar_version r + 1)%Z ∧
  ar_id r' = ar_id r ∧ ad_request_id d = ar_id r ∧ ad_outcome d = o ∧
  (ar_status r' = APPROVED ↔ o = OUTCOME_APPROVED).
Proof.
  unfold request_decide, require_pending. case_decide; [|done]. intros [= <- <-]. simpl.
  by destruct o.
Qed.

Lemma request_decide_pending id by_ o at_ cm ch r :
  ar_status r ≠ PENDING →
  request_decide id by_ o at_ cm ch r = Raise (Exn ConflictError "approval request already decided").
Proof. unfold request_decide, require_pending. by case_decide. Qed.

Lemma request_decide_total id by_ o at_ cm ch r :
  ar_status r = PENDING →
  ∃ r' d, request_decide id by_ o at_ cm ch r = Ok (r', d) ∧
          ar_status r' = match o with OUTCOME_APPROVED => APPROVED | _ => REJECTED end.
Proof.
  intros Hp. unfold request_decide, require_pending. rewrite decide_True by done. eauto.
Qed.
