(* ===== verification/Contracts.v ===== *)
(** * Runtime contracts and the autonomy policy

    [dw_agent_runtime]: the run context, the tool and worker definitions
    ([contracts.py]), the projection onto the platform's access context
    ([context.py]), the approval policy by autonomy level ([autonomy.py]) and
    the fail-fast registries ([tools.py], [registry.py], [toolsets.py],
    [tool_specs.py]). *)

From S2P Require Import Prelude Errors Kernel Domain.
Local Open Scope prog_scope.
Local Open Scope pystr_scope.

(** ** [contracts.py] *)

Inductive SideEffectLevel := SE_none | SE_internal | SE_external | SE_critical.
Inductive ApprovalPolicy := AP_never | AP_conditional | AP_always.

#[export] Instance SideEffectLevel_eq_dec : EqDecision SideEffectLevel.
Proof. solve_decision. Defined.
#[export] Instance ApprovalPolicy_eq_dec : EqDecision ApprovalPolicy.
Proof. solve_decision. Defined.

Definition NEVER_IS_HONEST_FOR : list SideEffectLevel := [SE_none; SE_internal].

Definition approval_policy_disagrees_with_side_effect (p : ApprovalPolicy) (s : SideEffectLevel)
    : bool :=
  bool_decide (p = AP_never) && negb (bool_decide (s ∈ NEVER_IS_HONEST_FOR)).

Record WorkerDefinition := {
  wd_worker_id : pystr;
  wd_worker_version : pystr;
  wd_domain : pystr;
  wd_graph_version : pystr;
  wd_prompt_bundle_version : pystr;
  wd_toolset_version : option pystr;
  wd_policy_version : pystr;
  wd_memory_policy_version : pystr;
  wd_default_model_profile : pystr;
  wd_supported_channels : gset pystr;
  wd_autonomy_level : AutonomyLevel;
  wd_recursion_limit : Z;
  wd_agent_prompt_id : option pystr;
  wd_agent_prompt_version : option pystr }.

(** The validators of [WorkerDefinition] and its bounded field; the [pattern]
    of a version string is pydantic's to match and is left out. *)
Definition worker_definition_valid (w : WorkerDefinition) : bool :=
  bool_decide (is_Some (wd_agent_prompt_id w) ↔ is_Some (wd_agent_prompt_version w))
  && negb (is_blank (wd_worker_id w)) && negb (is_blank (wd_default_model_profile w))
  && ((0 <? wd_recursion_limit w) && (wd_recursion_limit w <=? 500))%Z.

Record RunContext := {
  rc_run_id : uuid;
  rc_thread_id : option uuid;
  rc_tenant_id : uuid;
  rc_workspace_id : uuid;
  rc_actor_id : uuid;
  rc_worker_id : pystr;
  rc_worker_version : pystr;
  rc_channel : pystr;
  rc_plan_id : pystr;
  rc_roles : gset pystr;
  rc_scopes : gset pystr;
  rc_clearance : pystr;
  rc_record_visibility : pystr;
  rc_visible_owners : option (gset uuid);
  rc_trace_id : pystr;
  rc_locale : pystr;
  rc_subject_ref : option pystr;
  rc_autonomy_ceiling : AutonomyLevel;
  rc_autonomy_level : option AutonomyLevel;
  rc_approval_policy_version : option pystr }.

Record ToolDefinition := {
  td_name : pystr;
  td_version : pystr;
  td_description : pystr;
  td_input_schema_ref : pystr;
  td_output_schema_ref : pystr;
  td_required_scopes : gset pystr;
  td_side_effect_level : SideEffectLevel;
  td_approval_policy : ApprovalPolicy;
  td_timeout_seconds : Z;
  td_max_retries : Z;
  td_idempotent : bool;
  td_data_classification : gset pystr }.

(** The validators of [ToolDefinition] and its bounded fields. *)
Definition tool_definition_valid (t : ToolDefinition) : bool :=
  let name := chars (td_name t) in
  existsb (N.eqb 46) name && negb (bool_decide (head name = Some 46%N))
  && negb (bool_decide (last name = Some 46%N))
  && negb (approval_policy_disagrees_with_side_effect (td_approval_policy t)
             (td_side_effect_level t))
  && ((0 <? td_timeout_seconds t) && (td_timeout_seconds t <=? 600))%Z
  && ((0 <=? td_max_retries t) && (td_max_retries t <=? 10))%Z.

Definition always_requires_approval (t : ToolDefinition) : bool :=
  bool_decide (td_approval_policy t = AP_always)
  || bool_decide (td_side_effect_level t = SE_critical).

(** ** [context.py] *)

Definition access_context_from_run (rc : RunContext) : AccessContext :=
  {| tenant_id := rc_tenant_id rc; workspace_id := rc_workspace_id rc;
     principal_id := rc_actor_id rc; roles := rc_roles rc; groups := ∅;
     scopes := rc_scopes rc; clearance := rc_clearance rc; plan_id := rc_plan_id rc;
     feature_flags := ∅; record_visibility := rc_record_visibility rc;
     visible_owners := rc_visible_owners rc; max_autonomy_level := rc_autonomy_ceiling rc;
     support := None |}.

(** ** [autonomy.py] *)

Definition AUTONOMY_POLICY_VERSION : pystr := "1.0.0".

Inductive Rung := R_none | R_internal | R_external_idempotent | R_external | R_critical.

Definition RUNG (r : Rung) : Z :=
  match r with
  | R_none => 0 | R_internal => 1 | R_external_idempotent => 2 | R_external => 3 | R_critical => 4
  end.

Definition REACH (l : AutonomyLevel) : Z :=
  match l with
  | A0 => -1
  | A1 => RUNG R_none
  | A2 => RUNG R_internal
  | A3 => RUNG R_external_idempotent
  | A4 => RUNG R_external
  end.

Definition lower_autonomy (first second : AutonomyLevel) : AutonomyLevel :=
  if decide (level_index first ≤ level_index second) then first else second.

Definition rung_of (t : ToolDefinition) : Z :=
  if bool_decide (td_side_effect_level t = SE_external) && td_idempotent t
  then RUNG R_external_idempotent
  else match td_side_effect_level t with
       | SE_none => RUNG R_none
       | SE_internal => RUNG R_internal
       | SE_external => RUNG R_external
       | SE_critical => RUNG R_critical
       end.

Definition requires_approval (t : ToolDefinition) (autonomy : option AutonomyLevel) : bool :=
  if bool_decide (td_approval_policy t = AP_always)
     || bool_decide (td_side_effect_level t = SE_critical) then true
  else match autonomy with
       | None => true
       | Some l => (REACH l <? rung_of t)%Z
       end.

(** [AutonomyApprovalPolicy.decide], by the policy's version. *)
Definition policy_decide (policy_version : pystr) (t : ToolDefinition) (rc : RunContext) : bool :=
  match rc_approval_policy_version rc with
  | Some stamped =>
      if decide (stamped ≠ policy_version) then true
      else requires_approval t (rc_autonomy_level rc)
  | None => requires_approval t (rc_autonomy_level rc)
  end.

(** ** [adapters/run_store.py]: the [worker_runs] row *)

Inductive RunStatus :=
  | RUN_PENDING | RUN_RUNNING | RUN_WAITING_APPROVAL | RUN_COMPLETED | RUN_FAILED | RUN_CANCELLED.

#[export] Instance RunStatus_eq_dec : EqDecision RunStatus.
Proof. solve_decision. Defined.

Definition TERMINAL_STATUSES : list RunStatus := [RUN_COMPLETED; RUN_FAILED; RUN_CANCELLED].

Record RunRecord := {
  rr_id : uuid;
  rr_thread_id : uuid;
  rr_workspace_id : uuid;
  rr_status : RunStatus;
  rr_worker_id : pystr;
  rr_worker_version : pystr;
  rr_graph_version : pystr;
  rr_prompt_bundle_version : option pystr;
  rr_toolset_version : option pystr;
  rr_policy_version : option pystr;
  rr_memory_policy_version : option pystr;
  rr_autonomy_level : option AutonomyLevel;
  rr_approval_policy_version : option pystr;
  rr_input : gmap pystr json;
  rr_result : option (gmap pystr json);
  rr_error : option (gmap pystr json);
  rr_approval_request_id : option uuid;
  rr_release_manifest_ref : option pystr;
  rr_requested_by : uuid;
  rr_actor_roles : gset pystr;
  rr_actor_scopes : gset pystr;
  rr_actor_plan_id : pystr;
  rr_actor_clearance : pystr;
  rr_actor_record_visibility : pystr;
  rr_actor_visible_owners : option (gset uuid) }.

(** A row: the columns [get] maps into a [RunRecord], and the others. *)
Record WorkerRunRow := {
  wr_record : RunRecord;
  wr_tenant_id : uuid;
  wr_trace_id : option pystr;
  wr_subject_ref : option pystr;
  wr_created_at : datetime;
  wr_updated_at : datetime }.

Definition wr_active (r : WorkerRunRow) : bool :=
  negb (bool_decide (rr_status (wr_record r) ∈ TERMINAL_STATUSES)).

(** ** [adapters/tool_execution_store.py]: the [tool_executions] row *)

Inductive ExecutionStatus := EX_succeeded | EX_failed.

#[export] Instance ExecutionStatus_eq_dec : EqDecision ExecutionStatus.
Proof. solve_decision. Defined.

Record ToolExecutionRow := {
  te_id : uuid;
  te_tenant_id : uuid;
  te_workspace_id : uuid;
  te_run_id : option uuid;
  te_tool_name : pystr;
  te_tool_version : pystr;
  te_status : ExecutionStatus;
  te_idempotency_key : option pystr;
  te_input_hash : pystr;
  te_output_hash : option pystr;
  te_output : option json;
  te_error : option pystr;
  te_attempts : Z;
  te_started_at : datetime;
  te_finished_at : option datetime }.

(** ** The registries *)

Section Registry.
Context {K V : Type} `{Countable K}.

(** [GraphRegistry], [WorkerRegistry] and [ToolRegistry] keep a dict keyed by
    (name, version), refuse a second entry and refuse an unknown key. *)
Definition registry_register (key : K) (v : V) : M (gmap K V) unit := λ m,
  match m !! key with
  | Some _ => (Raise (Exn ConfigError "already registered"), m)
  | None => (Ok tt, <[key := v]> m)
  end.

Definition registry_resolve (m : gmap K V) (key : K) : res V :=
  match m !! key with
  | None => Raise (Exn NotFoundError "version not registered")
  | Some v => Ok v
  end.

(** [ToolsetRegistry] and [ToolSpecRegistry] keep a tenant overlay instead. *)
Definition overlay_register (key : K) (v : V) (t : option uuid)
    : M (Overlay.overlay K V) unit :=
  let! existing := Overlay.existing key t in
  match existing with
  | Some _ => raise ConfigError "already registered"
  | None => Overlay.put key v t
  end.

Definition overlay_resolve (o : Overlay.overlay K V) (key : K) (t : option uuid) : res V :=
  match Overlay.get key t o with
  | None => Raise (Exn NotFoundError "not registered")
  | Some v => Ok v
  end.
End Registry.

(** [ToolRegistry.definitions_for]: the definitions of the pins, in their order. *)
Fixpoint definitions_for {V} (m : gmap (pystr * pystr) V) (pins : list (pystr * pystr))
    : res (list V) :=
  match pins with
  | [] => Ok []
  | pin :: rest =>
      match registry_resolve m pin with
      | Raise e => Raise e
      | Ok d => match definitions_for m rest with
                | Raise e => Raise e
                | Ok ds => Ok (d :: ds)
                end
      end
  end.

(** [Toolset.one_version_per_name], on the pins' names. *)
Definition one_version_per_name (pins : list (pystr * pystr)) : bool :=
  bool_decide (NoDup pins.*1).

(** ** Properties *)

(** The product table of the module's docstring, cell by cell: [true] is "ask". *)
Definition approval_table (s : SideEffectLevel) (idempotent : bool) (l : AutonomyLevel) : bool :=
  match s, l with
  | SE_critical, _ => true
  | _, A0 => true
  | SE_none, _ => false
  | SE_internal, A1 => true
  | SE_internal, _ => false
  | SE_external, A3 => negb idempotent
  | SE_external, A4 => false
  | SE_external, _ => true
  end.

Lemma requires_approval_table t l :
  td_approval_policy t ≠ AP_always →
  requires_approval t (Some l) = approval_table (td_side_effect_level t) (td_idempotent t) l.
Proof.
  intros Hp. unfold requires_approval, rung_of. rewrite (bool_decide_eq_false_2 _ Hp).
  destruct (td_side_effect_level t), (td_idempotent t), l; reflexivity.
Qed.

(** A tool call asks for approval exactly as the product table says for its side effect and
    the run's level, plus always when the tool says so, when the run carries no level,
    or when it was started under another version of the policy. *)
Theorem autonomy_follows_table version t rc :
  policy_decide version t rc =
    match rc_approval_policy_version rc with
    | Some v => negb (bool_decide (v = version))
    | None => false
    end
    || match rc_autonomy_level rc with
       | None => true
       | Some l => bool_decide (td_approval_policy t = AP_always)
                   || approval_table (td_side_effect_level t) (td_idempotent t) l
       end.
Proof.
  assert (∀ l, requires_approval t l = match l with None => true | Some l =>
    bool_decide (td_approval_policy t = AP_always)
    || approval_table (td_side_effect_level t) (td_idempotent t) l end) as E.
  { intros l. destruct (decide (td_approval_policy t = AP_always)) as [Ha|Ha].
    - unfold requires_approval. rewrite (bool_decide_eq_true_2 _ Ha). by destruct l.
    - destruct l as [l|].
      + rewrite requires_approval_table by done. by rewrite (bool_decide_eq_false_2 _ Ha).
      + unfold requires_approval. by destruct (_ || _). }
  unfold policy_decide. destruct (rc_approval_policy_version rc) as [v|]; [|apply E].
  destruct (decide (v ≠ version)) as [Hv|Hv].
  - by rewrite (bool_decide_eq_false_2 (v = version)).
  - rewrite (bool_decide_eq_true_2 (v = version)) by (by apply dec_stable). apply E.
Qed.

Lemma lower_autonomy_index a b :
  level_index (lower_autonomy a b) = level_index a `min` level_index b.
Proof. unfold lower_autonomy. case_decide; lia. Qed.

Lemma requires_approval_antitone t a b :
  level_index a ≤ level_index b →
  requires_approval t (Some b) = true → requires_approval t (Some a) = true.
Proof.
  unfold requires_approval, rung_of. intros Hab.
  destruct (_ || _); [done|]. intros H%Z.ltb_lt. apply Z.ltb_lt.
  eapply Z.le_lt_trans; [|exact H].
  destruct a, b; vm_compute in Hab |- *; try congruence; lia.
Qed.

(** Running at the lower of the worker's level and the tenant's ceiling asks whenever either
    of the two would ask and never otherwise; the combination is symmetric. *)
Theorem autonomy_ceiling_only_restricts t worker ceiling :
  requires_approval t (Some (lower_autonomy worker ceiling)) =
    requires_approval t (Some worker) || requires_approval t (Some ceiling) ∧
  level_index (lower_autonomy worker ceiling) = level_index worker `min` level_index ceiling ∧
  lower_autonomy worker ceiling = lower_autonomy ceiling worker.
Proof.
  split; [|split; [apply lower_autonomy_index|]].
  - unfold lower_autonomy. case_decide as Hd.
    + destruct (requires_approval t (Some worker)) eqn:E; [done|]. simpl. symmetry.
      destruct (requires_approval t (Some ceiling)) eqn:E'; [|done].
      by rewrite (requires_approval_antitone t _ _ Hd E') in E.
    + destruct (requires_approval t (Some worker)) eqn:E; [|done]. simpl.
      by apply (requires_approval_antitone t ceiling worker); [lia|].
  - apply (inj level_index). rewrite !lower_autonomy_index. lia.
Qed.

(** A definition the validators accept asks at every level, or at none above
    some level, only where its author could say so: [never] is never ranked
    above [internal]. *)
Lemma never_is_internal t :
  tool_definition_valid t = true → td_approval_policy t = AP_never →
  requires_approval t (Some A2) = false.
Proof.
  unfold tool_definition_valid, approval_policy_disagrees_with_side_effect. intros Hv Hn.
  to_prop. rewrite Hn in *. unfold requires_approval, rung_of. rewrite Hn.
  destruct (td_side_effect_level t); try reflexivity; vm_compute in *; congruence.
Qed.

Lemma existing_lookup {K V} `{Countable K} (o : Overlay.overlay K V) key t :
  (Overlay.existing key t o).1 =
    Ok (match t with
        | None => Overlay.platform o
        | Some t => default ∅ (Overlay.tenants o !! t)
        end !! key).
Proof.
  unfold Overlay.existing, Overlay.layer. destruct t as [t|]; run; [|done].
  by destruct (Overlay.tenants o !! t).
Qed.

Lemma overlay_register_run {K V} `{Countable K} (o : Overlay.overlay K V) key v t :
  overlay_register key v t o =
    match (Overlay.existing key t o).1 with
    | Ok None => (Ok tt, (Overlay.put key v t (Overlay.existing key t o).2).2)
    | Ok (Some _) => (Raise (Exn ConfigError "already registered"), (Overlay.existing key t o).2)
    | Raise e => (Raise e, (Overlay.existing key t o).2)
    end.
Proof.
  unfold overlay_register, bind at 1. destruct (Overlay.existing key t o) as [[[x|]|e] o']; try done.
  simpl. unfold Overlay.put, Overlay.layer. destruct t as [t|]; run; [|done].
  by destruct (Overlay.tenants o' !! t).
Qed.

(** Registering in a layer that has the key is refused and changes no reader's answer;
    otherwise the entry is resolved in that layer, a second registration is refused, and
    no other tenant and no other key is affected. *)
Theorem overlay_register_spec {K V} `{Countable K} (o : Overlay.overlay K V) key v t :
  let own := match t with
             | None => Overlay.platform o
             | Some t => default ∅ (Overlay.tenants o !! t)
             end in
  match own !! key with
  | None =>
      let o' := (overlay_register key v t o).2 in
      (overlay_register key v t o).1 = Ok tt ∧ overlay_resolve o' key t = Ok v ∧
      (∀ v', (overlay_register key v' t o').1 = Raise (Exn ConfigError "already registered")) ∧
      (∀ key' t', key' ≠ key ∨ (t ≠ None ∧ t' ≠ t) →
                  overlay_resolve o' key' t' = overlay_resolve o key' t') ∧
      (∀ t' x, default ∅ (Overlay.tenants o !! t') !! key = Some x → t ≠ Some t' →
               overlay_resolve o' key (Some t') = Ok x)
  | Some old =>
      (overlay_register key v t o).1 = Raise (Exn ConfigError "already registered") ∧
      ∀ key' t', overlay_resolve (overlay_register key v t o).2 key' t' =
                 overlay_resolve o key' t'
  end.
Proof.
  intros own. pose proof (Overlay.existing_reads key t o) as existing_reads_eq.
  rewrite !overlay_register_run, existing_lookup. fold own. destruct (own !! key) as [old|] eqn:E.
  - split; [done|]. intros key' t'. simpl. unfold overlay_resolve.
    by rewrite (Overlay.get_proper key' t' _ _ existing_reads_eq).
  - assert (∀ key' t', Overlay.get key' t'
      (Overlay.put key v t (Overlay.existing key t o).2).2 = _) as G
      by (intros; rewrite Overlay.get_put, (Overlay.get_proper key' t' _ _ existing_reads_eq);
          reflexivity).
    simpl. split; [done|]. split.
    { unfold overlay_resolve. rewrite G. by rewrite decide_True by auto. }
    split.
    { intros v'. rewrite overlay_register_run, existing_lookup.
      generalize (Overlay.existing key t o).2 as o1. intros o1.
      unfold Overlay.put, Overlay.layer. destruct t as [t|]; run.
      - destruct (Overlay.tenants o1 !! t); simpl; by rewrite !lookup_insert_eq; simpl;
          rewrite lookup_insert_eq.
      - by rewrite lookup_insert_eq. }
    split; [intros key' t' Hk|intros t' x Hk]; unfold overlay_resolve; rewrite G.
    + rewrite decide_False by naive_solver. done.
    + intros Ht. rewrite decide_False by (simpl; naive_solver). simpl. by rewrite Hk.
Qed.

(** ** Examples, for the concrete instances of the theorems *)

Definition example_run_context (run thread : uuid) : RunContext :=
  {| rc_run_id := run; rc_thread_id := Some thread; rc_tenant_id := 1; rc_workspace_id := 2;
     rc_actor_id := 3; rc_worker_id := "assistant"; rc_worker_version := "1.0.0";
     rc_channel := "web"; rc_plan_id := "pro"; rc_roles := {[ "member" ]};
     rc_scopes := {[ "notes.read" ]}; rc_clearance := "internal"; rc_record_visibility := "own";
     rc_visible_owners := Some {[ 3%N ]}; rc_trace_id := "trace"; rc_locale := "vi-VN";
     rc_subject_ref := None; rc_autonomy_ceiling := A2; rc_autonomy_level := Some A2;
     rc_approval_policy_version := Some AUTONOMY_POLICY_VERSION |}.

Definition example_worker : WorkerDefinition :=
  {| wd_worker_id := "assistant"; wd_worker_version := "1.0.0"; wd_domain := "general";
     wd_graph_version := "2.0.0"; wd_prompt_bundle_version := "1.1.0";
     wd_toolset_version := Some "1.0.0"; wd_policy_version := "1.0.0";
     wd_memory_policy_version := "1.0.0"; wd_default_model_profile := "default";
     wd_supported_channels := {[ "web" ]}; wd_autonomy_level := A3; wd_recursion_limit := 25;
     wd_agent_prompt_id := None; wd_agent_prompt_version := None |}.
