(* ===== verification/Accounts.v ===== *)
(** * Tenants, memberships and entitlements: what is stored

    The identity tables of [persistence/tables.py] the access decisions read:
    tenants, workspaces, memberships and entitlements, the separation-of-duty
    rules with their waivers, the provisioning audit trail, and the tables of the
    platform operators. *)

From S2P Require Import Prelude Errors Kernel Domain.
Local Open Scope pystr_scope.

(** [tenants]; a CHECK constraint keeps the autonomy ceiling on the ladder. *)
Record TenantRow := {
  tn_id : uuid;
  tn_slug : pystr;
  tn_name : pystr;
  tn_status : pystr;
  tn_record_visibility : pystr;
  tn_max_autonomy_level : AutonomyLevel;
  tn_created_at : datetime }.

(** [workspaces] *)
Record WorkspaceRow := {
  ws_id : uuid;
  ws_tenant_id : uuid;
  ws_slug : pystr;
  ws_name : pystr }.

(** [users] *)
Record UserRow := {
  us_id : uuid;
  us_subject : pystr;
  us_email : option pystr;
  us_display_name : pystr }.

(** [external_identities]: a verified (issuer, subject), or a linked chat. *)
Record ExternalIdentityRow := {
  xi_id : uuid;
  xi_user_id : uuid;
  xi_issuer : pystr;
  xi_subject : pystr;
  xi_provider : pystr }.

Definition CHANNEL_LINK_PROVIDERS : list pystr := ["zalo"].

(** [memberships]; the two key lists are JSON arrays of text. *)
Record MembershipRow := {
  mb_id : uuid;
  mb_tenant_id : uuid;
  mb_workspace_id : uuid;
  mb_user_id : uuid;
  mb_role_keys : list pystr;
  mb_permission_set_keys : list pystr;
  mb_clearance : pystr;
  mb_department : pystr;
  mb_manager_user_id : option uuid;
  mb_created_at : datetime }.

(** [entitlements] *)
Record EntitlementRow := {
  en_id : uuid;
  en_tenant_id : uuid;
  en_plan_id : pystr;
  en_feature_overrides : list pystr }.

(** [provisioning_audit]: one trail for the whole platform, no tenant. *)
Record ProvisioningAudit := {
  pa_id : uuid;
  pa_actor_id : uuid;
  pa_action : pystr;
  pa_target_type : pystr;
  pa_target_id : option pystr;
  pa_details : gmap pystr json;
  pa_occurred_at : datetime }.

(** [sod_rules]: a membership that holds a scope of each side breaks the rule. *)
Record SodRuleRow := {
  sr_key : pystr;
  sr_description : pystr;
  sr_left_scopes : list pystr;
  sr_right_scopes : list pystr;
  sr_waivable : bool }.

(** [sod_waivers]: a tenant's waiver of a rule, proposed, confirmed and closed. *)
Record SodWaiverRow := {
  sw_id : uuid;
  sw_tenant_id : uuid;
  sw_rule_key : pystr;
  sw_reason : pystr;
  sw_granted_by : uuid;
  sw_granted_at : datetime;
  sw_revoked_at : option datetime;
  sw_revoked_by : option uuid;
  sw_revoke_reason : option pystr;
  sw_confirmed_by : option uuid;
  sw_confirmed_at : option datetime;
  sw_confirm_reason : option pystr }.

(** [ck_tenant_offboarding_requests_status] *)
Inductive OffboardingState := OB_requested | OB_exporting | OB_purging | OB_completed | OB_failed.

#[export] Instance OffboardingState_eq_dec : EqDecision OffboardingState.
Proof. solve_decision. Defined.

(** [tenant_offboarding_requests] *)
Record OffboardingRow := {
  of_id : uuid;
  of_tenant_id : uuid;
  of_status : OffboardingState;
  of_requested_by : uuid;
  of_requested_at : datetime;
  of_export_key : option pystr;
  of_error : option pystr;
  of_updated_at : datetime }.

(** [platform_operators], keyed by user. *)
Record OperatorRow := {
  op_note : option pystr;
  op_created_by : uuid;
  op_created_at : datetime }.

(** The columns of [support_staff] beside its key (the set [t_support_staff]). *)
Record StaffRow := {
  st_note : option pystr;
  st_added_by : uuid;
  st_added_at : datetime }.

Record OperationsDb := MkOps {
  t_requests : gmap uuid OffboardingRow;
  t_operators : gmap uuid OperatorRow;
  t_staff_rows : gmap uuid StaffRow }.

Definition empty_operations : OperationsDb := MkOps ∅ ∅ ∅.

(** The one column an assignment of a manager writes. *)
Definition with_manager (manager : option uuid) (m : MembershipRow) : MembershipRow :=
  {| mb_id := mb_id m; mb_tenant_id := mb_tenant_id m; mb_workspace_id := mb_workspace_id m;
     mb_user_id := mb_user_id m; mb_role_keys := mb_role_keys m;
     mb_permission_set_keys := mb_permission_set_keys m; mb_clearance := mb_clearance m;
     mb_department := mb_department m; mb_manager_user_id := manager;
     mb_created_at := mb_created_at m |}.
