(* ===== verification/SupportGrants.v ===== *)
(** * Support grants: the catalogue, the grant and its life

    The part of [dw_platform/application/support_access.py] that reads and
    writes no table: the scope sets a customer may grant
    ([SupportScopeCatalog]), the grant, what it is at an instant
    ([grant_effective_state]) and its audit event; and the trigger
    [platform.guard_support_grant()] with the CHECK constraints of
    [support_grants] (migration [af8ee878b4ab]), which every write of a grant
    goes through. *)

From S2P Require Import Prelude Errors Kernel Domain.
Local Open Scope prog_scope.
Local Open Scope pystr_scope.

Definition SUPPORT_GRANT_SCOPE : pystr := "support.grant".
Definition SUPPORT_REQUEST_SCOPE : pystr := "support.request".
Definition SUPPORT_ACCESS_FEATURE : pystr := "support_access".
Definition WORKSPACE_RESOURCE : pystr := "workspace".
Definition MAX_DURATION_HOURS : Z := 336.
Definition MAX_REASON_LENGTH : nat := 300.

Definition FORBIDDEN_SCOPE_PREFIXES : list pystr :=
  ["approvals."; "runs."; "audit."; "knowledge."; "memory."; "platform."; "support.";
   "directory."].

(** [s.startswith(FORBIDDEN_SCOPE_PREFIXES)] *)
Definition forbidden_scope (s : pystr) : bool := existsb (py_startswith s) FORBIDDEN_SCOPE_PREFIXES.

(** [_KEY.fullmatch] and [_RESOURCE_TYPE.fullmatch] *)
Definition key_ok (key : pystr) : bool :=
  match chars key with
  | [] => false
  | c :: r =>
      is_lower c
      && forallb (λ c, is_lower c || is_digit c || N.eqb c 95 || N.eqb c 46) r
      && (length r <=? 63)
  end.

Definition resource_type_ok (t : pystr) : bool :=
  forallb (λ c, is_lower c || N.eqb c 95) (chars t) && (1 <=? py_len t) && (py_len t <=? 40).

(** ** The catalogue *)

Record SupportScopeSet := {
  sss_key : pystr;
  sss_label : pystr;
  sss_scopes : gset pystr;
  sss_resource_types : gset pystr }.

Section Catalog.
(** [D]: what names a resource ([SupportResourcePort]). *)
Context {D : Type}.

Record SupportScopeCatalog := MkCatalog {
  cat_sets : gmap pystr SupportScopeSet;
  cat_resources : gmap pystr D;
  cat_frozen : bool }.

Definition empty_catalog : SupportScopeCatalog := MkCatalog ∅ ∅ false.

Definition _refuse_when_frozen : M SupportScopeCatalog unit :=
  let! c := get_state in
  when cat_frozen c then
    raise ConfigError "the support scope catalog is frozen once the process is wired".

Definition register (key label : pystr) (scopes resource_types : list pystr)
    : M SupportScopeCatalog unit :=
  _refuse_when_frozen ;;;
  let! c := get_state in
  (when negb (key_ok key) then raise ConfigError "support scope set key is malformed") ;;;
  (when bool_decide (is_Some (cat_sets c !! key)) then
     raise ConfigError "support scope set registered twice") ;;;
  (when is_blank label then raise ConfigError "support scope set needs a label") ;;;
  let held : gset pystr := list_to_set scopes in
  (when bool_decide (held = ∅) then raise ConfigError "support scope set has no scopes") ;;;
  (when existsb forbidden_scope scopes then
     raise ConfigError "support scope set carries a scope support may never hold") ;;;
  let types : gset pystr := list_to_set resource_types in
  (when bool_decide (types = ∅) || negb (forallb resource_type_ok resource_types) then
     raise ConfigError "support scope set needs resource types of [a-z_]{1,40}") ;;;
  modify (λ c, MkCatalog
    (<[key := {| sss_key := key; sss_label := py_strip label; sss_scopes := held;
                 sss_resource_types := types |}]> (cat_sets c))
    (cat_resources c) (cat_frozen c)).

Definition register_resource (resource_type : pystr) (describer : D)
    : M SupportScopeCatalog unit :=
  _refuse_when_frozen ;;;
  let! c := get_state in
  (when bool_decide (resource_type = WORKSPACE_RESOURCE) || negb (resource_type_ok resource_type)
   then raise ConfigError "a context names its own resource types, never 'workspace'") ;;;
  (when bool_decide (is_Some (cat_resources c !! resource_type)) then
     raise ConfigError "support resource type registered twice") ;;;
  modify (λ c, MkCatalog (cat_sets c) (<[resource_type := describer]> (cat_resources c))
                 (cat_frozen c)).

(** The resource types of the sets that nobody describes. *)
Definition unnamed_types (c : SupportScopeCatalog) : gset pystr :=
  (⋃ (sss_resource_types <$> (map_to_list (cat_sets c)).*2))
    ∖ {[ WORKSPACE_RESOURCE ]} ∖ dom (cat_resources c).

Definition freeze : M SupportScopeCatalog unit :=
  let! c := get_state in
  (when negb (bool_decide (unnamed_types c = ∅)) then
     raise ConfigError "a support scope set names a resource type nobody describes") ;;;
  modify (λ c, MkCatalog (cat_sets c) (cat_resources c) true).

(** [sets()]: by key. *)
Definition sets (c : SupportScopeCatalog) : list SupportScopeSet :=
  omap (λ k, cat_sets c !! k) (py_sorted (elements (dom (cat_sets c)))).

(** [get] and [describer] are dictionary lookups. *)
Definition get_set (c : SupportScopeCatalog) (key : pystr) : option SupportScopeSet :=
  cat_sets c !! key.
Definition get_describer (c : SupportScopeCatalog) (resource_type : pystr) : option D :=
  cat_resources c !! resource_type.

(** The catalogues a process can hold. *)
Inductive registered : SupportScopeCatalog → Prop :=
  | reg_empty : registered empty_catalog
  | reg_set c key label scopes types u c' :
      registered c → register key label scopes types c = (Ok u, c') → registered c'
  | reg_resource c t d u c' :
      registered c → register_resource t d c = (Ok u, c') → registered c'
  | reg_freeze c u c' : registered c → freeze c = (Ok u, c') → registered c'.

(** What every set of a catalogue is. *)
Record set_ok (key : pystr) (s : SupportScopeSet) : Prop := {
  so_key : sss_key s = key ∧ key_ok key = true;
  so_label : is_blank (sss_label s) = false;
  so_scopes : sss_scopes s ≠ ∅ ∧ ∀ x, x ∈ sss_scopes s → forbidden_scope x = false;
  so_types : sss_resource_types s ≠ ∅ ∧
             ∀ t, t ∈ sss_resource_types s → resource_type_ok t = true }.
End Catalog.
Arguments SupportScopeCatalog D : clear implicits.

(** ** The grant *)

Inductive GrantStatus :=
  | PENDING_APPROVAL | PENDING_ASSIGNMENT | GRANT_ACTIVE | GRANT_REJECTED | REVOKED.

#[export] Instance GrantStatus_eq_dec : EqDecision GrantStatus.
Proof. solve_decision. Defined.

Definition status_value (st : GrantStatus) : pystr :=
  match st with
  | PENDING_APPROVAL => "pending_approval" | PENDING_ASSIGNMENT => "pending_assignment"
  | GRANT_ACTIVE => "active" | GRANT_REJECTED => "rejected" | REVOKED => "revoked"
  end.

Definition EXPIRED : pystr := "expired".
Definition INEFFECTIVE : pystr := "ineffective".

(** [_OPEN] *)
Definition OPEN_STATUSES : list GrantStatus := [PENDING_APPROVAL; PENDING_ASSIGNMENT; GRANT_ACTIVE].

Record SupportGrant := {
  sg_id : uuid;
  sg_code : pystr;
  sg_tenant_id : uuid;
  sg_workspace_id : uuid;
  sg_resource_type : pystr;
  sg_resource_id : option uuid;
  sg_resource_label : pystr;
  sg_scope_set_key : pystr;
  sg_scope_set_label : pystr;
  sg_scopes : gset pystr;
  sg_reason : pystr;
  sg_duration_hours : Z;
  sg_status : GrantStatus;
  sg_requested_by : option uuid;
  sg_requested_at : datetime;
  sg_granted_by : option uuid;
  sg_granted_at : option datetime;
  sg_rejected_by : option uuid;
  sg_rejected_at : option datetime;
  sg_reject_reason : option pystr;
  sg_staff_user_id : option uuid;
  sg_assigned_by : option uuid;
  sg_activated_at : option datetime;
  sg_expires_at : option datetime;
  sg_revoked_by : option uuid;
  sg_revoked_at : option datetime }.

#[export] Instance SupportGrant_eq_dec : EqDecision SupportGrant.
Proof. solve_decision. Defined.

(** [grant_effective_state]: the one reading of "is this grant in force". *)
Definition grant_effective_state (grant : SupportGrant) (now : datetime)
    (grantor_scopes : gset pystr) : pystr :=
  if negb (bool_decide (sg_status grant = GRANT_ACTIVE)) then status_value (sg_status grant)
  else match sg_expires_at grant with
       | None => EXPIRED
       | Some e =>
           if (e <=? now)%Z then EXPIRED
           else if bool_decide (SUPPORT_GRANT_SCOPE ∉ grantor_scopes)
                   || bool_decide (sg_scopes grant ⊈ grantor_scopes)
           then INEFFECTIVE else status_value GRANT_ACTIVE
       end.

(** [NewSupportGrant]: what the customer's side inserts; the other columns are
    null and the code comes from the trigger. *)
Record NewSupportGrant := {
  ng_id : uuid;
  ng_tenant_id : uuid;
  ng_workspace_id : uuid;
  ng_resource_type : pystr;
  ng_resource_id : option uuid;
  ng_resource_label : pystr;
  ng_scope_set_key : pystr;
  ng_scope_set_label : pystr;
  ng_scopes : gset pystr;
  ng_reason : pystr;
  ng_duration_hours : Z;
  ng_status : GrantStatus;
  ng_requested_by : uuid;
  ng_requested_at : datetime;
  ng_granted_by : option uuid;
  ng_granted_at : option datetime }.

Definition row_of_new (tenant workspace : uuid) (code : pystr) (n : NewSupportGrant)
    : SupportGrant :=
  {| sg_id := ng_id n; sg_code := code; sg_tenant_id := tenant; sg_workspace_id := workspace;
     sg_resource_type := ng_resource_type n; sg_resource_id := ng_resource_id n;
     sg_resource_label := ng_resource_label n; sg_scope_set_key := ng_scope_set_key n;
     sg_scope_set_label := ng_scope_set_label n; sg_scopes := ng_scopes n;
     sg_reason := ng_reason n; sg_duration_hours := ng_duration_hours n;
     sg_status := ng_status n; sg_requested_by := Some (ng_requested_by n);
     sg_requested_at := ng_requested_at n; sg_granted_by := ng_granted_by n;
     sg_granted_at := ng_granted_at n; sg_rejected_by := None; sg_rejected_at := None;
     sg_reject_reason := None; sg_staff_user_id := None; sg_assigned_by := None;
     sg_activated_at := None; sg_expires_at := None; sg_revoked_by := None;
     sg_revoked_at := None |}.

(** [GrantChange]: one customer-side step. *)
Record GrantChange := {
  gc_status : GrantStatus;
  gc_granted_by : option uuid;
  gc_granted_at : option datetime;
  gc_rejected_by : option uuid;
  gc_rejected_at : option datetime;
  gc_reject_reason : option pystr;
  gc_revoked_by : option uuid;
  gc_revoked_at : option datetime }.

(** The [values] of [change]: the status, and the columns the step names. *)
Definition or_kept {A} (new old : option A) : option A :=
  match new with Some _ => new | None => old end.

Definition apply_change (c : GrantChange) (g : SupportGrant) : SupportGrant :=
  {| sg_id := sg_id g; sg_code := sg_code g; sg_tenant_id := sg_tenant_id g;
     sg_workspace_id := sg_workspace_id g; sg_resource_type := sg_resource_type g;
     sg_resource_id := sg_resource_id g; sg_resource_label := sg_resource_label g;
     sg_scope_set_key := sg_scope_set_key g; sg_scope_set_label := sg_scope_set_label g;
     sg_scopes := sg_scopes g; sg_reason := sg_reason g;
     sg_duration_hours := sg_duration_hours g; sg_status := gc_status c;
     sg_requested_by := sg_requested_by g; sg_requested_at := sg_requested_at g;
     sg_granted_by := or_kept (gc_granted_by c) (sg_granted_by g);
     sg_granted_at := or_kept (gc_granted_at c) (sg_granted_at g);
     sg_rejected_by := or_kept (gc_rejected_by c) (sg_rejected_by g);
     sg_rejected_at := or_kept (gc_rejected_at c) (sg_rejected_at g);
     sg_reject_reason := or_kept (gc_reject_reason c) (sg_reject_reason g);
     sg_staff_user_id := sg_staff_user_id g; sg_assigned_by := sg_assigned_by g;
     sg_activated_at := sg_activated_at g; sg_expires_at := sg_expires_at g;
     sg_revoked_by := or_kept (gc_revoked_by c) (sg_revoked_by g);
     sg_revoked_at := or_kept (gc_revoked_at c) (sg_revoked_at g) |}.

Definition hours (n : Z) : timedelta := seconds (n * 3600).

(** The columns [assign_support_grant] writes. *)
Definition assign_columns (staff by_ : uuid) (at_ : datetime) (g : SupportGrant)
    : SupportGrant :=
  {| sg_id := sg_id g; sg_code := sg_code g; sg_tenant_id := sg_tenant_id g;
     sg_workspace_id := sg_workspace_id g; sg_resource_type := sg_resource_type g;
     sg_resource_id := sg_resource_id g; sg_resource_label := sg_resource_label g;
     sg_scope_set_key := sg_scope_set_key g; sg_scope_set_label := sg_scope_set_label g;
     sg_scopes := sg_scopes g; sg_reason := sg_reason g;
     sg_duration_hours := sg_duration_hours g; sg_status := GRANT_ACTIVE;
     sg_requested_by := sg_requested_by g; sg_requested_at := sg_requested_at g;
     sg_granted_by := sg_granted_by g; sg_granted_at := sg_granted_at g;
     sg_rejected_by := sg_rejected_by g; sg_rejected_at := sg_rejected_at g;
     sg_reject_reason := sg_reject_reason g; sg_staff_user_id := Some staff;
     sg_assigned_by := Some by_; sg_activated_at := Some at_;
     sg_expires_at := Some (at_ + hours (sg_duration_hours g))%Z;
     sg_revoked_by := sg_revoked_by g; sg_revoked_at := sg_revoked_at g |}.

(** [support_grant_audit] *)
Definition support_grant_audit (event_id : uuid) (grant : SupportGrant) (actor_id : uuid)
    (action : pystr) (occurred_at : datetime) (extra : gmap pystr json) : AuditEvent :=
  {| ae_id := event_id; ae_tenant_id := sg_tenant_id grant;
     ae_workspace_id := sg_workspace_id grant; ae_actor_id := actor_id; ae_action := action;
     ae_resource_type := "support_grant"; ae_resource_id := uuid_str (sg_id grant);
     ae_occurred_at := occurred_at; ae_run_id := None; ae_policy_decision := None;
     ae_trace_id := None;
     ae_details := extra ∪
       {[ "support_grant_id" := JStr (uuid_str (sg_id grant)); "code" := JStr (sg_code grant);
          "scope_set_key" := JStr (sg_scope_set_key grant);
          "resource_type" := JStr (sg_resource_type grant);
          "status" := JStr (status_value (sg_status grant)) ]} |}.

(** ** The database's own rules *)

(** The pairs [guard_support_grant] lets a status move along. *)
Definition moves : list (GrantStatus * GrantStatus) :=
  [(PENDING_APPROVAL, PENDING_ASSIGNMENT); (PENDING_APPROVAL, GRANT_REJECTED);
   (PENDING_APPROVAL, REVOKED); (PENDING_ASSIGNMENT, GRANT_ACTIVE);
   (PENDING_ASSIGNMENT, REVOKED); (GRANT_ACTIVE, REVOKED)].

(** [support_grants.code] is [SG-] and a number; [substring(code FROM 4)::integer]. *)
Definition decimal (l : list N) : N := fold_left (λ acc c, acc * 10 + (c - 48))%N l 0%N.
Definition code_number (code : pystr) : N := decimal (drop 3 (chars code)).

(** [lpad(n::text, 4, '0')] below ten thousand, the plain number above. *)
Definition number_text (n : N) : list N :=
  if (n <? 10000)%N then padded 4 n else decimal_text n.

Definition grant_code (n : N) : pystr := "SG-" +++ PyStr (number_text n).

(** [coalesce(max(...), 0) + 1] over the tenant's rows. *)
Definition next_number (codes : list pystr) : N :=
  (foldr N.max 0 (code_number <$> codes) + 1)%N.

(** The trigger on INSERT. *)
Definition guard_insert (tenant_codes : list pystr) (g : SupportGrant) : res SupportGrant :=
  if bool_decide (sg_status g ∈ [PENDING_APPROVAL; PENDING_ASSIGNMENT])
  then Ok {| sg_id := sg_id g; sg_code := grant_code (next_number tenant_codes);
             sg_tenant_id := sg_tenant_id g; sg_workspace_id := sg_workspace_id g;
             sg_resource_type := sg_resource_type g; sg_resource_id := sg_resource_id g;
             sg_resource_label := sg_resource_label g; sg_scope_set_key := sg_scope_set_key g;
             sg_scope_set_label := sg_scope_set_label g; sg_scopes := sg_scopes g;
             sg_reason := sg_reason g; sg_duration_hours := sg_duration_hours g;
             sg_status := sg_status g; sg_requested_by := sg_requested_by g;
             sg_requested_at := sg_requested_at g; sg_granted_by := sg_granted_by g;
             sg_granted_at := sg_granted_at g; sg_rejected_by := sg_rejected_by g;
             sg_rejected_at := sg_rejected_at g; sg_reject_reason := sg_reject_reason g;
             sg_staff_user_id := sg_staff_user_id g; sg_assigned_by := sg_assigned_by g;
             sg_activated_at := sg_activated_at g; sg_expires_at := sg_expires_at g;
             sg_revoked_by := sg_revoked_by g; sg_revoked_at := sg_revoked_at g |}
  else Raise (Exn (IntegrityError "ck_support_grants_transition")
                "a support grant starts as a request or a grant").

(** What the request said: the columns no step changes. *)
Definition requested_for (g : SupportGrant) :=
  (sg_id g, sg_code g, sg_tenant_id g, sg_workspace_id g, sg_resource_type g,
   sg_resource_id g, sg_resource_label g,
   (sg_scope_set_key g, sg_scope_set_label g, sg_scopes g, sg_reason g, sg_duration_hours g,
    sg_requested_by g, sg_requested_at g)).

(** The trigger on UPDATE. *)
Definition guard_update (old new : SupportGrant) : res unit :=
  let refuse msg := Raise (Exn (IntegrityError "ck_support_grants_transition") msg) in
  if negb (bool_decide (requested_for new = requested_for old))
  then refuse "what a support grant was requested for never changes"
  else if bool_decide ((sg_status old, sg_status new) ∈ moves)
  then
    if negb (bool_decide (sg_status old = PENDING_APPROVAL))
       && negb (bool_decide ((sg_granted_by new, sg_granted_at new)
                             = (sg_granted_by old, sg_granted_at old)))
    then refuse "who granted a support grant never changes"
    else if bool_decide (sg_status old = GRANT_ACTIVE)
            && negb (bool_decide
                 ((sg_staff_user_id new, sg_assigned_by new, sg_activated_at new, sg_expires_at new)
                  = (sg_staff_user_id old, sg_assigned_by old, sg_activated_at old,
                     sg_expires_at old)))
    then refuse "who holds a support grant, and until when, never changes"
    else Ok tt
  else refuse "a support grant cannot go from its status to that one".

(** [char_length(btrim(s)) BETWEEN 1 AND n]: [btrim] takes off U+0020 only. *)
Fixpoint drop_blanks (l : list N) : list N :=
  match l with
  | c :: r => if (c =? 32)%N then drop_blanks r else l
  | [] => []
  end.
Definition btrim (s : pystr) : list N := reverse (drop_blanks (reverse (drop_blanks (chars s)))).
Definition ck_length (n : nat) (s : pystr) : bool :=
  (1 <=? length (btrim s)) && (length (btrim s) <=? n).

Definition null {A} (o : option A) : bool := match o with None => true | Some _ => false end.

(** The CHECK constraints of the table. *)
Definition ck_granted (g : SupportGrant) : bool :=
  match sg_status g with
  | PENDING_ASSIGNMENT | GRANT_ACTIVE => negb (null (sg_granted_at g))
  | REVOKED => true
  | _ => null (sg_granted_at g) && null (sg_granted_by g)
  end.

Definition ck_rejected (g : SupportGrant) : bool :=
  let rejected := bool_decide (sg_status g = GRANT_REJECTED) in
  eqb rejected (negb (null (sg_rejected_at g)))
  && eqb rejected (negb (null (sg_reject_reason g)))
  && (rejected || null (sg_rejected_by g))
  && match sg_reject_reason g with Some r => ck_length MAX_REASON_LENGTH r | None => true end.

Definition ck_assigned (g : SupportGrant) : bool :=
  eqb (null (sg_activated_at g)) (null (sg_expires_at g))
  && eqb (null (sg_activated_at g)) (null (sg_staff_user_id g))
  && (negb (null (sg_activated_at g)) || null (sg_assigned_by g))
  && match sg_status g with
     | GRANT_ACTIVE => negb (null (sg_activated_at g)) && negb (null (sg_granted_at g))
     | REVOKED => null (sg_activated_at g) || negb (null (sg_granted_at g))
     | _ => null (sg_activated_at g)
     end
  && match sg_expires_at g with
     | None => true
     | Some e => bool_decide (sg_activated_at g = Some (e - hours (sg_duration_hours g))%Z)
     end.

Definition ck_revoked (g : SupportGrant) : bool :=
  let revoked := bool_decide (sg_status g = REVOKED) in
  eqb revoked (negb (null (sg_revoked_at g))) && (revoked || null (sg_revoked_by g)).

Definition ck_request (g : SupportGrant) : bool :=
  resource_type_ok (sg_resource_type g)
  && eqb (null (sg_resource_id g)) (bool_decide (sg_resource_type g = WORKSPACE_RESOURCE))
  && ck_length 200 (sg_resource_label g)
  && (1 <=? length (btrim (sg_scope_set_key g))) && (1 <=? length (btrim (sg_scope_set_label g)))
  && bool_decide (sg_scopes g ≠ ∅) && ck_length MAX_REASON_LENGTH (sg_reason g)
  && ((1 <=? sg_duration_hours g) && (sg_duration_hours g <=? MAX_DURATION_HOURS))%Z.

Definition grant_checks (g : SupportGrant) : bool :=
  ck_request g && ck_granted g && ck_rejected g && ck_assigned g && ck_revoked g.

(** ** Numbers and codes *)

Lemma ten_digit n : (n / 10 * 10 + (48 + n mod 10 - 48))%N = n.
Proof.
  rewrite (N.add_comm 48), N.add_sub, (N.mul_comm _ 10). symmetry. by apply N.div_mod.
Qed.

Lemma decimal_snoc l c : decimal (l ++ [c]) = (decimal l * 10 + (c - 48))%N.
Proof. unfold decimal. by rewrite fold_left_app. Qed.

Lemma decimal_padded k n : (n < 10 ^ N.of_nat k)%N → decimal (padded k n) = n.
Proof.
  revert n. induction k as [|k IH]; intros n Hn.
  - assert (n = 0%N) as -> by (rewrite N.pow_0_r in Hn; lia). done.
  - cbn [padded]. rewrite decimal_snoc, IH.
    + apply ten_digit.
    + rewrite Nat2N.inj_succ, N.pow_succ_r in Hn by lia. by apply N.Div0.div_lt_upper_bound.
Qed.

Lemma decimal_digits fuel n : (n < 10 ^ N.of_nat fuel)%N → decimal (digits_of fuel n) = n.
Proof.
  revert n. induction fuel as [|f IH]; intros n Hn.
  - rewrite N.pow_0_r in Hn. assert (n = 0%N) as -> by lia. done.
  - cbn [digits_of]. destruct (N.ltb_spec n 10).
    + unfold decimal. simpl. lia.
    + rewrite decimal_snoc, IH.
      * apply ten_digit.
      * rewrite Nat2N.inj_succ, N.pow_succ_r in Hn by lia. by apply N.Div0.div_lt_upper_bound.
Qed.

Lemma decimal_text_value n : decimal (decimal_text n) = n.
Proof.
  unfold decimal_text. apply decimal_digits. rewrite Nat2N.inj_succ, N2Nat.id.
  destruct (N.eq_dec n 0) as [->|Hn]; [done|].
  pose proof (N.log2_spec n ltac:(lia)) as [_ H].
  apply (N.lt_le_trans _ _ _ H). by apply N.pow_le_mono_l.
Qed.

(** The number is read back from the code: two numbers never share one. *)
Lemma grant_code_number n : code_number (grant_code n) = n.
Proof.
  unfold code_number, grant_code, py_app. cbn [chars app drop].
  unfold number_text. destruct (N.ltb_spec n 10000); [by apply decimal_padded|apply decimal_text_value].
Qed.

Lemma next_number_above codes code : code ∈ codes → (code_number code < next_number codes)%N.
Proof.
  unfold next_number. induction 1 as [c l|c d l _ IH]; cbn [fmap list_fmap foldr]; lia.
Qed.

Lemma next_code_fresh codes : grant_code (next_number codes) ∉ codes.
Proof.
  intros H%next_number_above. rewrite grant_code_number in H. lia.
Qed.

(** ** The catalogue *)

Lemma no_forbidden_list scopes :
  existsb forbidden_scope scopes = false → ∀ x, x ∈ scopes → forbidden_scope x = false.
Proof.
  intros H x Hx. apply not_true_iff_false. intros Hf. apply not_true_iff_false in H. apply H.
  apply existsb_exists. exists x. by rewrite <- list_elem_of_In.
Qed.

Lemma when_ok {S} (b : bool) c msg (s : S) u s' :
  (when b then raise c msg)%prog s = (Ok u, s') → b = false ∧ s' = s.
Proof. destruct b; [done|]. by intros [= _ <-]. Qed.

Lemma strip_not_blank s : is_blank s = false → is_blank (py_strip s) = false.
Proof.
  intros H. apply not_true_iff_false. intros Hb. apply not_true_iff_false in H. apply H.
  apply py_strip_blank. unfold is_blank, py_strip in Hb. cbn [chars] in Hb.
  rewrite forallb_reverse in Hb. destruct (drop_spaces (reverse (drop_spaces (chars s)))) as [|c r] eqn:E.
  - unfold py_strip. by rewrite E.
  - apply drop_spaces_head in E as Hc. simpl in Hb. by rewrite Hc in Hb.
Qed.

(** Whatever a process registered, every set it offers is well-formed and
    carries no scope support may hold. *)
Lemma registered_sets {D} (c : SupportScopeCatalog D) key s :
  registered c → cat_sets c !! key = Some s → set_ok key s.
Proof.
  intros Hr. revert key s. induction Hr as [|c key label scopes types u c' _ IH H|c t d u c' _ IH H|c u c' _ IH H];
    intros k s; [done|..].
  - unfold register, _refuse_when_frozen in H. inv_ok.
    repeat match goal with E : (when _ then _)%prog _ = _ |- _ => apply when_ok in E as [? ->] end.
    simpl. rewrite lookup_insert_Some. intros [[<- <-]|[_ Hk]]; [|by eapply IH].
    to_prop. split; simpl; [done|by apply strip_not_blank|split|split]; try done.
    + intros y Hy%elem_of_list_to_set. by eapply no_forbidden_list.
    + intros y Hy%elem_of_list_to_set.
      match goal with E : forallb _ _ = true |- _ => by eapply (proj1 (forallb_forall _ _) E), list_elem_of_In end.
  - unfold register_resource, _refuse_when_frozen in H. inv_ok.
    repeat match goal with E : (when _ then _)%prog _ = _ |- _ => apply when_ok in E as [? ->] end.
    apply IH.
  - unfold freeze in H. inv_ok.
    repeat match goal with E : (when _ then _)%prog _ = _ |- _ => apply when_ok in E as [? ->] end.
    apply IH.
Qed.

(** ** What the CHECKs ask of a text *)

Lemma drop_blanks_suffix l : ∃ p, l = p ++ drop_blanks l ∧ forallb is_space p = true.
Proof.
  induction l as [|c l (p & Hp & Hs)]; simpl; [by exists []|].
  destruct (N.eqb_spec c 32) as [->|_]; [|by exists []].
  exists (32%N :: p). split; [by rewrite Hp at 1|exact Hs].
Qed.

Lemma btrim_bounds s : length (btrim s) <= py_len s ∧ (is_blank s = false → btrim s ≠ []).
Proof.
  unfold btrim, py_len, is_blank. rewrite length_reverse.
  destruct (drop_blanks_suffix (chars s)) as (p & Ep & Hp).
  destruct (drop_blanks_suffix (reverse (drop_blanks (chars s)))) as (q & Eq & Hq).
  pose proof (f_equal length Ep) as Lp. pose proof (f_equal length Eq) as Lq.
  rewrite length_app in Lp, Lq. rewrite length_reverse in Lq. split; [lia|].
  intros Hb En. apply (f_equal reverse) in En. rewrite reverse_involutive in En. simpl in En.
  rewrite En, app_nil_r in Eq. apply not_true_iff_false in Hb. apply Hb.
  rewrite Ep, forallb_app, Hp. simpl. by rewrite <- (forallb_reverse is_space), Eq.
Qed.

Lemma ck_length_ok n s : is_blank s = false → py_len s <= n → ck_length n s = true.
Proof.
  intros Hb Hl. destruct (btrim_bounds s) as [Hle Hn]. specialize (Hn Hb). unfold ck_length.
  apply andb_true_iff. rewrite !Nat.leb_le. destruct (btrim s); simpl in *; [done|lia].
Qed.

Lemma key_not_blank key : key_ok key = true → is_blank key = false.
Proof.
  unfold key_ok, is_blank. destruct (chars key) as [|c r]; [done|]. intros H. to_prop.
  simpl. apply andb_false_iff. left. unfold is_lower in *. to_prop.
  match goal with H1 : (97 <=? c)%N = true, H2 : (c <=? 122)%N = true |- _ =>
    apply N.leb_le in H1, H2 end.
  assert (∃ k : nat, k < 26 ∧ c = N.of_nat (97 + k)) as (k & Hk & ->)
    by (exists (N.to_nat c - 97); lia).
  do 26 (destruct k as [|k]; [by vm_compute|]). lia.
Qed.

(** ** The life the trigger allows *)

(** The steps the application takes pass the trigger and the CHECKs. *)
Definition step_ok (old new : SupportGrant) : Prop :=
  guard_update old new = Ok tt ∧ grant_checks new = true.

Lemma guard_update_ok old new :
  requested_for new = requested_for old → (sg_status old, sg_status new) ∈ moves →
  (sg_status old = PENDING_APPROVAL ∨
   (sg_granted_by new, sg_granted_at new) = (sg_granted_by old, sg_granted_at old)) →
  (sg_status old = GRANT_ACTIVE →
   (sg_staff_user_id new, sg_assigned_by new, sg_activated_at new, sg_expires_at new)
   = (sg_staff_user_id old, sg_assigned_by old, sg_activated_at old, sg_expires_at old)) →
  guard_update old new = Ok tt.
Proof.
  intros Hr Hm Hg Hs. unfold guard_update. rewrite (bool_decide_eq_true_2 (_ = _)) by done. simpl.
  rewrite (bool_decide_eq_true_2 (_ ∈ _)) by done.
  assert (negb (bool_decide (sg_status old = PENDING_APPROVAL)) &&
          negb (bool_decide ((sg_granted_by new, sg_granted_at new)
                             = (sg_granted_by old, sg_granted_at old))) = false) as ->.
  { destruct Hg as [Hg|Hg]; rewrite (bool_decide_eq_true_2 _ Hg); [done|by rewrite andb_false_r]. }
  case_bool_decide as Ha; [|done]. by rewrite (bool_decide_eq_true_2 _ (Hs Ha)).
Qed.

(** *** Deleting a person

    [ON DELETE SET NULL] on a [*_by] column is an UPDATE of the grant that
    leaves its status: the trigger refuses it. *)
Lemma guard_same_status old new :
  sg_status new = sg_status old → ∃ e, guard_update old new = Raise e.
Proof.
  intros E. unfold guard_update. destruct (negb _); [eauto|]. rewrite E.
  case_bool_decide as Hm; [|eauto]. exfalso.
  unfold moves in Hm. destruct (sg_status old);
    by repeat (apply elem_of_cons in Hm as [?|Hm]; [done|]); apply not_elem_of_nil in Hm.
Qed.
