(* ===== verification/MemoryPolicy.v ===== *)
(** * Memories: their schema, the write policy and the ranking

    [dw_memory]'s [contracts.py], [policy.py] and [ranking.py], the clearance
    ladder and the evidence reference of [dw_knowledge/contracts.py], and the
    rows of the memory and knowledge tables ([dw_memory/tables.py],
    [dw_knowledge/tables.py]).  Nothing here reads or writes a table. *)

From S2P Require Import Prelude Errors Kernel Domain.
Local Open Scope pystr_scope.

(** ** [dw_knowledge/contracts.py]: the clearance ladder *)

Definition _CLEARANCE_ALLOWS : list (pystr * list pystr) :=
  [("internal", ["internal"]); ("confidential", ["internal"; "confidential"]);
   ("restricted", ["internal"; "confidential"; "restricted"])].

Definition classifications_for_clearance (clearance : pystr) : list pystr :=
  match list_find (λ kv, kv.1 = clearance) _CLEARANCE_ALLOWS with
  | Some (_, kv) => kv.2
  | None => ["internal"]
  end.

(** The keys, by how much each allows. *)
Definition CLASSIFICATIONS : list pystr :=
  fst <$> sorted_by (λ kv : pystr * list pystr, length kv.2) _CLEARANCE_ALLOWS.

Definition classification_rank (classification : pystr) : res nat :=
  match list_find (eq classification) CLASSIFICATIONS with
  | Some (i, _) => Ok i
  | None => Raise (Exn ValueError "unknown classification")
  end.

(** [EvidenceRef].  The relevance score is a double that is only stored: its bits. *)
Record EvidenceRef := {
  ev_evidence_id : uuid;
  ev_source_document_id : uuid;
  ev_source_version : pystr;
  ev_chunk_id : option uuid;
  ev_page : option Z;
  ev_start_offset : option Z;
  ev_end_offset : option Z;
  ev_quote : option pystr;
  ev_relevance_score : N;
  ev_classification : pystr;
  ev_provenance_hash : pystr }.

#[export] Instance EvidenceRef_eq_dec : EqDecision EvidenceRef.
Proof. solve_decision. Defined.

(** ** [dw_memory/contracts.py] *)

Definition MEMORY_SCHEMA_VERSION : pystr := "1.0.0".

Inductive MemoryType := EPISODIC | SEMANTIC | PROCEDURAL | PREFERENCE | COMMITMENT.

#[export] Instance MemoryType_eq_dec : EqDecision MemoryType.
Proof. solve_decision. Defined.

Definition memory_type_value (t : MemoryType) : pystr :=
  match t with
  | EPISODIC => "episodic" | SEMANTIC => "semantic" | PROCEDURAL => "procedural"
  | PREFERENCE => "preference" | COMMITMENT => "commitment"
  end.

(** A double in [[0, 1]] that is a multiple of [2^-53], in units of [2^-53]. *)
Abbreviation unit53 := Z (only parsing).
Definition one53 : unit53 := (2 ^ 53)%Z.

Record MemoryItem := {
  mi_memory_id : uuid;
  mi_tenant_id : uuid;
  mi_workspace_id : uuid;
  mi_worker_id : pystr;
  mi_memory_type : MemoryType;
  mi_subject_refs : list pystr;
  mi_content : pystr;
  mi_structured_facts : gmap pystr json;
  mi_provenance_refs : list EvidenceRef;
  mi_confidence : unit53;
  mi_classification : pystr;
  mi_valid_from : datetime;
  mi_valid_until : option datetime;
  mi_retention_policy : pystr;
  mi_memory_schema_version : pystr;
  mi_created_by_run_id : uuid;
  mi_fact_key : option pystr }.

Definition fact_key_valid (k : option pystr) : bool :=
  match k with Some s => (1 <=? py_len s) && (py_len s <=? 64) | None => true end.

(** The field constraints and [_validity_window_ordered]. *)
Definition memory_item_valid (i : MemoryItem) : bool :=
  (1 <=? py_len (mi_content i)) && (0 <=? mi_confidence i)%Z && (mi_confidence i <=? one53)%Z
  && fact_key_valid (mi_fact_key i)
  && match mi_valid_until i with Some u => (mi_valid_from i <? u)%Z | None => true end.

Definition make_memory_item (i : MemoryItem) : res MemoryItem :=
  if memory_item_valid i then Ok i else Raise (Exn ValidationError "MemoryItem").

Definition is_valid_at (i : MemoryItem) (moment : datetime) : bool :=
  if (moment <? mi_valid_from i)%Z then false
  else match mi_valid_until i with None => true | Some u => (moment <? u)%Z end.

Inductive WriteDecision := AUTO_WRITE | REVIEW | REJECT.

#[export] Instance WriteDecision_eq_dec : EqDecision WriteDecision.
Proof. solve_decision. Defined.

(** ** [dw_memory/policy.py] *)

Record MemoryCandidate := {
  mc_worker_id : pystr;
  mc_memory_type : MemoryType;
  mc_content : pystr;
  mc_structured_facts : gmap pystr json;
  mc_subject_refs : list pystr;
  mc_provenance_refs : list EvidenceRef;
  mc_classification : pystr;
  mc_fact_key : option pystr }.

(** The field constraints and [_on_the_clearance_ladder]. *)
Definition candidate_valid (c : MemoryCandidate) : bool :=
  (1 <=? py_len (mc_content c)) && fact_key_valid (mc_fact_key c)
  && is_ok (classification_rank (mc_classification c)).

Record PolicyOutcome := {
  po_decision : WriteDecision;
  po_reason : pystr;
  po_confidence : unit53 }.

Record MemoryWritePolicy := { policy_version : pystr; auto_write_sources : Z }.

Definition default_policy : MemoryWritePolicy :=
  {| policy_version := "2.0.0"; auto_write_sources := 2 |}.

(** The distinct documents cited. *)
Definition distinct_sources (refs : list EvidenceRef) : nat :=
  size (list_to_set (ev_source_document_id <$> refs) : gset uuid).

(** [1.0 - 0.5**sources], rounded to the nearest double. *)
Definition confidence_of (sources : nat) : unit53 :=
  if sources <=? 53 then (one53 - 2 ^ (53 - Z.of_nat sources))%Z else one53.

Definition evaluate (p : MemoryWritePolicy) (c : MemoryCandidate) : PolicyOutcome :=
  let sources := distinct_sources (mc_provenance_refs c) in
  let confidence := confidence_of sources in
  if sources =? 0 then
    {| po_decision := REJECT; po_reason := "memory without provenance is never stored";
       po_confidence := confidence |}
  else if bool_decide (mc_classification c = "restricted"%py) then
    {| po_decision := REVIEW; po_reason := "restricted content always requires human review";
       po_confidence := confidence |}
  else if (auto_write_sources p <=? Z.of_nat sources)%Z then
    {| po_decision := AUTO_WRITE; po_reason := "corroborated, evidenced, unrestricted";
       po_confidence := confidence |}
  else
    {| po_decision := REVIEW; po_reason := "too few independent sources to write unreviewed";
       po_confidence := confidence |}.

(** ** [dw_memory/ranking.py] *)

(** [{memory_id: index for index, memory_id in enumerate(order)}]: of an id that
    occurs twice, the last index. *)
Definition positions (order : list uuid) : gmap uuid nat :=
  foldl (λ m ix, <[ix.2 := ix.1]> m) ∅ (imap pair order).

Definition rank_by {ItemT} (order : list uuid) (items : list (uuid * ItemT)) : list ItemT :=
  let position := positions order in
  let unranked := size position in
  snd <$> sorted_by (λ pair, default unranked (position !! pair.1)) items.

(** ** The rows *)

(** [memory.items] *)
Record ItemRow := { ir_item : MemoryItem; ir_created_at : datetime }.

(** [memory.write_candidates] *)
Record CandidateRow := {
  wc_id : uuid;
  wc_tenant_id : uuid;
  wc_workspace_id : uuid;
  wc_worker_id : pystr;
  wc_memory_type : MemoryType;
  wc_content : pystr;
  wc_structured_facts : gmap pystr json;
  wc_provenance_refs : list EvidenceRef;
  wc_confidence : unit53;
  wc_classification : pystr;
  wc_decision : WriteDecision;
  wc_memory_id : option uuid;
  wc_created_by_run_id : uuid;
  wc_created_at : datetime;
  wc_subject_refs : list pystr;
  wc_fact_key : option pystr }.

(** [memory.item_evidence] *)
Record ItemEvidenceRow := {
  ie_memory_id : uuid;
  ie_evidence_id : uuid;
  ie_tenant_id : uuid }.

(** [knowledge.documents] and [knowledge.chunks]. *)
Record DocumentRow := MkDocument {
  do_id : uuid;
  do_tenant_id : uuid;
  do_workspace_id : uuid;
  do_title : pystr;
  do_identity_key : option pystr;
  do_domain : pystr;
  do_source_uri : pystr;
  do_classification : pystr;
  do_source_version : pystr;
  do_index_version : option pystr;
  do_created_by : uuid;
  do_created_at : datetime;
  do_doc_key : option uuid;
  do_status : pystr;
  do_is_current : bool;
  do_effective_from : option datetime;
  do_effective_to : option datetime;
  do_superseded_by : option uuid;
  do_deleted_at : option datetime;
  do_deleted_by : option uuid;
  do_scope : pystr;
  do_extra : gmap pystr pystr;
  do_acl_principals : list pystr }.

Record ChunkRow := MkChunk {
  ck_id : uuid;
  ck_tenant_id : uuid;
  ck_workspace_id : uuid;
  ck_document_id : uuid;
  ck_seq : nat;
  ck_content : pystr;
  ck_start_offset : nat;
  ck_end_offset : nat;
  ck_provenance_hash : pystr;
  ck_section_path : pystr;
  ck_section_index : nat;
  ck_status : pystr;
  ck_deleted_at : option datetime }.

(** [knowledge.evidence] *)
Record EvidenceRow := {
  er_evidence_id : uuid;
  er_tenant_id : uuid;
  er_workspace_id : uuid;
  er_source_document_id : uuid;
  er_chunk_id : option uuid;
  er_source_version : pystr;
  er_page : option Z;
  er_start_offset : option Z;
  er_end_offset : option Z;
  er_quote : option pystr;
  er_relevance_score : N;
  er_classification : pystr;
  er_provenance_hash : pystr;
  er_created_at : datetime }.
