(* ===== verification/ChannelRows.v ===== *)
(** * Chat channels and the inbox: what is stored

    The tables of [persistence/tables.py] behind notifications, their deliveries
    through a linked chat, inbound messages, link nonces and the workspace a person
    chose, with the CHECK constraints of their migrations. *)

From S2P Require Import Prelude Errors Kernel Domain.
Local Open Scope pystr_scope.

(** [notifications] *)
Record NotificationRow := {
  nt_id : uuid;
  nt_tenant_id : uuid;
  nt_workspace_id : uuid;
  nt_recipient_user_id : uuid;
  nt_source_key : pystr;
  nt_title : pystr;
  nt_body : pystr;
  nt_link : option pystr;
  nt_created_at : datetime;
  nt_read_at : option datetime }.

(** [ck_channel_deliveries_status] *)
Inductive DeliveryStatus := DS_pending | DS_sent | DS_failed | DS_cancelled.

#[export] Instance DeliveryStatus_eq_dec : EqDecision DeliveryStatus.
Proof. solve_decision. Defined.

(** [channel_deliveries]; [updated_at] is the trigger's and nothing reads it. *)
Record DeliveryRow := {
  dl_id : uuid;
  dl_tenant_id : uuid;
  dl_workspace_id : uuid;
  dl_recipient_user_id : uuid;
  dl_channel : pystr;
  dl_source_key : pystr;
  dl_title : pystr;
  dl_link : option pystr;
  dl_status : DeliveryStatus;
  dl_attempts : Z;
  dl_next_attempt_at : datetime;
  dl_external_message_id : option pystr;
  dl_last_error : option pystr;
  dl_created_at : datetime }.

Inductive MessageOutcome := MO_processing | MO_done | MO_failed | MO_ignored.

#[export] Instance MessageOutcome_eq_dec : EqDecision MessageOutcome.
Proof. solve_decision. Defined.

(** [channel_inbound_messages], keyed by channel and external id. *)
Record InboundRow := {
  ib_user_id : uuid;
  ib_received_at : datetime;
  ib_outcome : MessageOutcome }.

(** [channel_inbound_updates] *)
Record UpdateRow := {
  iu_id : uuid;
  iu_channel : pystr;
  iu_payload : json;
  iu_received_at : datetime }.

(** [channel_link_nonces], keyed by [jti]. *)
Record NonceRow := {
  ln_channel : pystr;
  ln_user_id : uuid;
  ln_expires_at : datetime;
  ln_used_at : option datetime;
  ln_created_at : datetime }.

Record ChannelDb := MkChan {
  t_notifications : gmap uuid NotificationRow;
  t_deliveries : gmap uuid DeliveryRow;
  t_inbound : gmap (pystr * pystr) InboundRow;
  t_updates : gmap uuid UpdateRow;
  t_nonces : gmap pystr NonceRow;
  t_preferences : gmap uuid (uuid * uuid) }.

Definition empty_channels : ChannelDb := MkChan ∅ ∅ ∅ ∅ ∅ ∅.

Definition set_notifications (t : gmap uuid NotificationRow) (c : ChannelDb) : ChannelDb :=
  MkChan t (t_deliveries c) (t_inbound c) (t_updates c) (t_nonces c) (t_preferences c).
Definition set_deliveries (t : gmap uuid DeliveryRow) (c : ChannelDb) : ChannelDb :=
  MkChan (t_notifications c) t (t_inbound c) (t_updates c) (t_nonces c) (t_preferences c).
Definition set_inbound (t : gmap (pystr * pystr) InboundRow) (c : ChannelDb) : ChannelDb :=
  MkChan (t_notifications c) (t_deliveries c) t (t_updates c) (t_nonces c) (t_preferences c).
Definition set_updates (t : gmap uuid UpdateRow) (c : ChannelDb) : ChannelDb :=
  MkChan (t_notifications c) (t_deliveries c) (t_inbound c) t (t_nonces c) (t_preferences c).
Definition set_nonces (t : gmap pystr NonceRow) (c : ChannelDb) : ChannelDb :=
  MkChan (t_notifications c) (t_deliveries c) (t_inbound c) (t_updates c) t (t_preferences c).
Definition set_preferences (t : gmap uuid (uuid * uuid)) (c : ChannelDb) : ChannelDb :=
  MkChan (t_notifications c) (t_deliveries c) (t_inbound c) (t_updates c) (t_nonces c) t.
