(* ===== verification/Store.v ===== *)
(** * The relational store and the units of work

    The tables the platform and runtime services share, the statements they
    are read and written with, and the two ways a transaction is opened:
    [SqlPlatformUnitOfWork] ([persistence/uow.py], an explicit [commit]) and
    [session.begin()] ([persistence/tenant_session.py], commit on a clean
    exit).  The repositories of [persistence/repositories.py] follow.

    Row-level security is part of every statement: a session bound to a tenant
    sees and writes the rows of that tenant only.  A table's primary key and
    its (at most one) partial unique index are checked by every write. *)

From S2P Require Import Prelude Errors Kernel Domain Contracts Accounts SupportGrants MemoryPolicy ChannelRows.
Local Open Scope prog_scope.
Local Open Scope pystr_scope.

(** ** The database and the process state around it *)

(** What [pg_notify] carries for a run: [_announcement]. *)
Record Announcement := {
  an_tenant : uuid;
  an_worker : pystr;
  an_run : uuid;
  an_subject : option pystr;
  an_status : RunStatus }.

(** The identity plane and support access; plans, roles and permission sets are
    catalogues of lists of flags or scopes, by key. *)
Record OrgDb := MkOrg {
  t_tenants : gmap uuid TenantRow;
  t_workspaces : gmap uuid WorkspaceRow;
  t_users : gmap uuid UserRow;
  t_external_identities : gmap uuid ExternalIdentityRow;
  t_memberships : gmap uuid MembershipRow;
  t_entitlements : gmap uuid EntitlementRow;
  t_plans : gmap pystr (list pystr);
  t_roles : gmap pystr (list pystr);
  t_permission_sets : gmap pystr (list pystr);
  t_support_staff : gset uuid;
  t_support_grants : gmap uuid SupportGrant;
  t_provisioning_audit : gmap uuid ProvisioningAudit;
  t_sod_rules : gmap pystr SodRuleRow;
  t_sod_waivers : gmap uuid SodWaiverRow }.

Definition empty_org : OrgDb := MkOrg ∅ ∅ ∅ ∅ ∅ ∅ ∅ ∅ ∅ ∅ ∅ ∅ ∅ ∅.

(** Memory, and the knowledge rows it cites. *)
Record MemoryDb := MkMem {
  t_documents : gmap uuid DocumentRow;
  t_chunks : gmap uuid ChunkRow;
  t_evidence : gmap uuid EvidenceRow;
  t_items : gmap uuid ItemRow;
  t_candidates : gmap uuid CandidateRow;
  t_item_evidence : gmap (uuid * uuid) ItemEvidenceRow }.

Definition empty_memory : MemoryDb := MkMem ∅ ∅ ∅ ∅ ∅ ∅.

Record Db := MkDb {
  t_approvals : gmap uuid ApprovalRequest;
  t_decisions : gmap uuid ApprovalDecision;
  t_audit : gmap (uuid * Z) AuditEvent;
  t_outbox : gmap uuid OutboxEvent;
  t_receipts : gmap uuid ViewReceipt;
  t_codes : gmap uuid DecisionCodeRow;
  t_runs : gmap uuid WorkerRunRow;
  t_executions : gmap uuid ToolExecutionRow;
  t_notices : list Announcement;
  t_org : OrgDb;
  t_mem : MemoryDb;
  t_chan : ChannelDb;
  t_ops : OperationsDb }.

Definition empty_db : Db := MkDb ∅ ∅ ∅ ∅ ∅ ∅ ∅ ∅ [] empty_org empty_memory empty_channels empty_operations.

(** [db] is what the open transaction sees, [saved] what is committed; outside
    a transaction they are equal.  [db_now] is the server's [now()]; [utc] the
    readings of the application's [UtcClock] and [ids] those of its
    [IdGenerator] (and of [uuid4]), consumed in order.  [effects] is what tool handlers did in the
    outside world, in order: no rollback undoes it. *)
Record World := MkWorld {
  db : Db;
  saved : Db;
  db_now : datetime;
  utc : nat → datetime;
  utc_reads : nat;
  ids : nat → uuid;
  ids_issued : nat;
  effects : list (pystr * json) }.

Definition set_db (d : Db) (w : World) : World :=
  MkWorld d (saved w) (db_now w) (utc w) (utc_reads w) (ids w) (ids_issued w) (effects w).
Definition set_saved (d : Db) (w : World) : World :=
  MkWorld (db w) d (db_now w) (utc w) (utc_reads w) (ids w) (ids_issued w) (effects w).

Definition clean (w : World) : Prop := saved w = db w.

Abbreviation Prog := (M World).

(** [clock.now()] and [id_generator.new_uuid()]. *)
Definition now_utc : Prog datetime := λ w,
  (Ok (utc w (utc_reads w)),
   MkWorld (db w) (saved w) (db_now w) (utc w) (S (utc_reads w)) (ids w) (ids_issued w) (effects w)).
Definition new_uuid : Prog uuid := λ w,
  (Ok (ids w (ids_issued w)),
   MkWorld (db w) (saved w) (db_now w) (utc w) (utc_reads w) (ids w) (S (ids_issued w)) (effects w)).

(** Something done in the outside world. *)
Definition add_effect (e : pystr * json) (w : World) : World :=
  MkWorld (db w) (saved w) (db_now w) (utc w) (utc_reads w) (ids w) (ids_issued w)
    (effects w ++ [e]).

(** ** Tables *)

(** A table of rows [R] keyed by [K]: where it lives, its primary key, the
    tenant column RLS reads, and its partial unique index ([None]: the row is
    outside the index). *)
Class SqlTable (R K : Type) `{Countable K} := {
  tbl : Db → gmap K R;
  set_tbl : gmap K R → Db → Db;
  row_key : R → K;
  row_tenant : R → uuid;
  pk_name : pystr;
  unique_name : pystr;
  unique_key : R → option (list N) }.

(** The laws a table keeps: reading back what was written. *)
Class SqlTableOk (R K : Type) `{SqlTable R K} := {
  tbl_set_tbl : ∀ t d, tbl (set_tbl t d) = t;
  set_tbl_twice : ∀ t t' d, set_tbl t (set_tbl t' d) = set_tbl t d;
  set_tbl_tbl : ∀ d, set_tbl (tbl d) d = d }.

#[export] Instance approvals_table : SqlTable ApprovalRequest uuid := {|
  tbl := t_approvals;
  set_tbl t d := MkDb t (t_decisions d) (t_audit d) (t_outbox d) (t_receipts d) (t_codes d)
                   (t_runs d) (t_executions d) (t_notices d) (t_org d) (t_mem d)
                   (t_chan d) (t_ops d);
  row_key := ar_id; row_tenant := ar_tenant_id; pk_name := "approval_requests_pkey";
  unique_name := ""; unique_key _ := None |}.

(** Its CHECK on the channel is asked by its one insert, [approvals_add_decision]. *)
#[export] Instance decisions_table : SqlTable ApprovalDecision uuid := {|
  tbl := t_decisions;
  set_tbl t d := MkDb (t_approvals d) t (t_audit d) (t_outbox d) (t_receipts d) (t_codes d)
                   (t_runs d) (t_executions d) (t_notices d) (t_org d) (t_mem d)
                   (t_chan d) (t_ops d);
  row_key := ad_id; row_tenant := ad_tenant_id; pk_name := "approval_decisions_pkey";
  unique_name := ""; unique_key _ := None |}.

#[export] Instance audit_table : SqlTable AuditEvent (uuid * Z) := {|
  tbl := t_audit;
  set_tbl t d := MkDb (t_approvals d) (t_decisions d) t (t_outbox d) (t_receipts d) (t_codes d)
                   (t_runs d) (t_executions d) (t_notices d) (t_org d) (t_mem d)
                   (t_chan d) (t_ops d);
  row_key e := (ae_id e, ae_occurred_at e); row_tenant := ae_tenant_id;
  pk_name := "audit_events_pkey"; unique_name := ""; unique_key _ := None |}.

#[export] Instance outbox_table : SqlTable OutboxEvent uuid := {|
  tbl := t_outbox;
  set_tbl t d := MkDb (t_approvals d) (t_decisions d) (t_audit d) t (t_receipts d) (t_codes d)
                   (t_runs d) (t_executions d) (t_notices d) (t_org d) (t_mem d)
                   (t_chan d) (t_ops d);
  row_key := oe_id; row_tenant := oe_tenant_id; pk_name := "outbox_events_pkey";
  unique_name := ""; unique_key _ := None |}.

#[export] Instance receipts_table : SqlTable ViewReceipt uuid := {|
  tbl := t_receipts;
  set_tbl t d := MkDb (t_approvals d) (t_decisions d) (t_audit d) (t_outbox d) t (t_codes d)
                   (t_runs d) (t_executions d) (t_notices d) (t_org d) (t_mem d)
                   (t_chan d) (t_ops d);
  row_key := vr_id; row_tenant := vr_tenant_id; pk_name := "approval_view_receipts_pkey";
  unique_name := ""; unique_key _ := None |}.

(** [_OPEN]: neither used nor revoked. *)
Definition code_open (r : DecisionCodeRow) : bool :=
  bool_decide (dc_used_at r = None) && bool_decide (dc_revoked_at r = None).

#[export] Instance codes_table : SqlTable DecisionCodeRow uuid := {|
  tbl := t_codes;
  set_tbl t d := MkDb (t_approvals d) (t_decisions d) (t_audit d) (t_outbox d) (t_receipts d) t
                   (t_runs d) (t_executions d) (t_notices d) (t_org d) (t_mem d)
                   (t_chan d) (t_ops d);
  row_key := dc_id; row_tenant := dc_tenant_id; pk_name := "approval_decision_codes_pkey";
  unique_name := "uq_approval_decision_codes_open";
  unique_key r := if code_open r then Some [dc_tenant_id r; dc_approval_id r; dc_user_id r]
                  else None |}.

Definition ACTIVE_THREAD_INDEX : pystr := "uq_worker_runs_active_thread".

#[export] Instance runs_table : SqlTable WorkerRunRow uuid := {|
  tbl := t_runs;
  set_tbl t d := MkDb (t_approvals d) (t_decisions d) (t_audit d) (t_outbox d) (t_receipts d)
                   (t_codes d) t (t_executions d) (t_notices d) (t_org d) (t_mem d)
                   (t_chan d) (t_ops d);
  row_key r := rr_id (wr_record r); row_tenant := wr_tenant_id; pk_name := "worker_runs_pkey";
  unique_name := ACTIVE_THREAD_INDEX;
  unique_key r := if wr_active r then Some [wr_tenant_id r; rr_thread_id (wr_record r)]
                  else None |}.

#[export] Instance executions_table : SqlTable ToolExecutionRow uuid := {|
  tbl := t_executions;
  set_tbl t d := MkDb (t_approvals d) (t_decisions d) (t_audit d) (t_outbox d) (t_receipts d)
                   (t_codes d) (t_runs d) t (t_notices d) (t_org d) (t_mem d)
                   (t_chan d) (t_ops d);
  row_key := te_id; row_tenant := te_tenant_id; pk_name := "tool_executions_pkey";
  unique_name := "uq_tool_executions_idempotency";
  unique_key r :=
    match te_idempotency_key r, te_status r with
    | Some key, EX_succeeded =>
        Some (te_tenant_id r :: N.of_nat (py_len (te_tool_name r)) ::
              chars (te_tool_name r) ++ chars key)
    | _, _ => None
    end |}.

Definition set_org (o : OrgDb) (d : Db) : Db :=
  MkDb (t_approvals d) (t_decisions d) (t_audit d) (t_outbox d) (t_receipts d) (t_codes d)
    (t_runs d) (t_executions d) (t_notices d) o (t_mem d) (t_chan d) (t_ops d).
Definition set_mem (m : MemoryDb) (d : Db) : Db :=
  MkDb (t_approvals d) (t_decisions d) (t_audit d) (t_outbox d) (t_receipts d) (t_codes d)
    (t_runs d) (t_executions d) (t_notices d) (t_org d) m (t_chan d) (t_ops d).
Definition set_chan (c : ChannelDb) (d : Db) : Db :=
  MkDb (t_approvals d) (t_decisions d) (t_audit d) (t_outbox d) (t_receipts d) (t_codes d)
    (t_runs d) (t_executions d) (t_notices d) (t_org d) (t_mem d) c (t_ops d).
Definition set_ops (o : OperationsDb) (d : Db) : Db :=
  MkDb (t_approvals d) (t_decisions d) (t_audit d) (t_outbox d) (t_receipts d) (t_codes d)
    (t_runs d) (t_executions d) (t_notices d) (t_org d) (t_mem d) (t_chan d) o.

Definition set_tenants (t : gmap uuid TenantRow) (o : OrgDb) : OrgDb :=
  MkOrg t (t_workspaces o) (t_users o) (t_external_identities o) (t_memberships o)
    (t_entitlements o) (t_plans o) (t_roles o) (t_permission_sets o) (t_support_staff o)
    (t_support_grants o) (t_provisioning_audit o) (t_sod_rules o) (t_sod_waivers o).
Definition set_workspaces (t : gmap uuid WorkspaceRow) (o : OrgDb) : OrgDb :=
  MkOrg (t_tenants o) t (t_users o) (t_external_identities o) (t_memberships o)
    (t_entitlements o) (t_plans o) (t_roles o) (t_permission_sets o) (t_support_staff o)
    (t_support_grants o) (t_provisioning_audit o) (t_sod_rules o) (t_sod_waivers o).
Definition set_entitlements (t : gmap uuid EntitlementRow) (o : OrgDb) : OrgDb :=
  MkOrg (t_tenants o) (t_workspaces o) (t_users o) (t_external_identities o) (t_memberships o)
    t (t_plans o) (t_roles o) (t_permission_sets o) (t_support_staff o)
    (t_support_grants o) (t_provisioning_audit o) (t_sod_rules o) (t_sod_waivers o).
Definition set_users (t : gmap uuid UserRow) (o : OrgDb) : OrgDb :=
  MkOrg (t_tenants o) (t_workspaces o) t (t_external_identities o) (t_memberships o)
    (t_entitlements o) (t_plans o) (t_roles o) (t_permission_sets o) (t_support_staff o)
    (t_support_grants o) (t_provisioning_audit o) (t_sod_rules o) (t_sod_waivers o).
Definition set_external_identities (t : gmap uuid ExternalIdentityRow) (o : OrgDb) : OrgDb :=
  MkOrg (t_tenants o) (t_workspaces o) (t_users o) t (t_memberships o)
    (t_entitlements o) (t_plans o) (t_roles o) (t_permission_sets o) (t_support_staff o)
    (t_support_grants o) (t_provisioning_audit o) (t_sod_rules o) (t_sod_waivers o).
Definition set_memberships (t : gmap uuid MembershipRow) (o : OrgDb) : OrgDb :=
  MkOrg (t_tenants o) (t_workspaces o) (t_users o) (t_external_identities o) t
    (t_entitlements o) (t_plans o) (t_roles o) (t_permission_sets o) (t_support_staff o)
    (t_support_grants o) (t_provisioning_audit o) (t_sod_rules o) (t_sod_waivers o).
Definition set_roles (t : gmap pystr (list pystr)) (o : OrgDb) : OrgDb :=
  MkOrg (t_tenants o) (t_workspaces o) (t_users o) (t_external_identities o) (t_memberships o)
    (t_entitlements o) (t_plans o) t (t_permission_sets o) (t_support_staff o)
    (t_support_grants o) (t_provisioning_audit o) (t_sod_rules o) (t_sod_waivers o).
Definition set_permission_sets (t : gmap pystr (list pystr)) (o : OrgDb) : OrgDb :=
  MkOrg (t_tenants o) (t_workspaces o) (t_users o) (t_external_identities o) (t_memberships o)
    (t_entitlements o) (t_plans o) (t_roles o) t (t_support_staff o) (t_support_grants o)
    (t_provisioning_audit o) (t_sod_rules o) (t_sod_waivers o).
Definition set_grants (t : gmap uuid SupportGrant) (o : OrgDb) : OrgDb :=
  MkOrg (t_tenants o) (t_workspaces o) (t_users o) (t_external_identities o) (t_memberships o)
    (t_entitlements o) (t_plans o) (t_roles o) (t_permission_sets o) (t_support_staff o) t
    (t_provisioning_audit o) (t_sod_rules o) (t_sod_waivers o).
Definition set_support_staff (t : gset uuid) (o : OrgDb) : OrgDb :=
  MkOrg (t_tenants o) (t_workspaces o) (t_users o) (t_external_identities o) (t_memberships o)
    (t_entitlements o) (t_plans o) (t_roles o) (t_permission_sets o) t (t_support_grants o)
    (t_provisioning_audit o) (t_sod_rules o) (t_sod_waivers o).
Definition set_provisioning_audit (t : gmap uuid ProvisioningAudit) (o : OrgDb) : OrgDb :=
  MkOrg (t_tenants o) (t_workspaces o) (t_users o) (t_external_identities o) (t_memberships o)
    (t_entitlements o) (t_plans o) (t_roles o) (t_permission_sets o) (t_support_staff o)
    (t_support_grants o) t (t_sod_rules o) (t_sod_waivers o).
Definition set_sod_rules (t : gmap pystr SodRuleRow) (o : OrgDb) : OrgDb :=
  MkOrg (t_tenants o) (t_workspaces o) (t_users o) (t_external_identities o) (t_memberships o)
    (t_entitlements o) (t_plans o) (t_roles o) (t_permission_sets o) (t_support_staff o)
    (t_support_grants o) (t_provisioning_audit o) t (t_sod_waivers o).
Definition set_sod_waivers (t : gmap uuid SodWaiverRow) (o : OrgDb) : OrgDb :=
  MkOrg (t_tenants o) (t_workspaces o) (t_users o) (t_external_identities o) (t_memberships o)
    (t_entitlements o) (t_plans o) (t_roles o) (t_permission_sets o) (t_support_staff o)
    (t_support_grants o) (t_provisioning_audit o) (t_sod_rules o) t.

#[export] Instance memberships_table : SqlTable MembershipRow uuid := {|
  tbl d := t_memberships (t_org d);
  set_tbl t d := set_org (set_memberships t (t_org d)) d;
  row_key := mb_id; row_tenant := mb_tenant_id; pk_name := "memberships_pkey";
  unique_name := "uq_memberships_scope_user";
  unique_key r := Some [mb_tenant_id r; mb_workspace_id r; mb_user_id r] |}.

#[export] Instance grants_table : SqlTable SupportGrant uuid := {|
  tbl d := t_support_grants (t_org d);
  set_tbl t d := set_org (set_grants t (t_org d)) d;
  row_key := sg_id; row_tenant := sg_tenant_id; pk_name := "pk_support_grants";
  unique_name := "uq_support_grants_tenant_code";
  unique_key r := Some (sg_tenant_id r :: chars (sg_code r)) |}.

#[export] Instance waivers_table : SqlTable SodWaiverRow uuid := {|
  tbl d := t_sod_waivers (t_org d);
  set_tbl t d := set_org (set_sod_waivers t (t_org d)) d;
  row_key := sw_id; row_tenant := sw_tenant_id; pk_name := "pk_sod_waivers";
  unique_name := "uq_sod_waivers_open";
  unique_key r := if bool_decide (sw_revoked_at r = None)
                  then Some (sw_tenant_id r :: chars (sw_rule_key r)) else None |}.

#[export] Instance tenants_table : SqlTable TenantRow uuid := {|
  tbl d := t_tenants (t_org d);
  set_tbl t d := set_org (set_tenants t (t_org d)) d;
  row_key := tn_id; row_tenant := tn_id; pk_name := "tenants_pkey";
  unique_name := "tenants_slug_key"; unique_key r := Some (chars (tn_slug r)) |}.

#[export] Instance workspaces_table : SqlTable WorkspaceRow uuid := {|
  tbl d := t_workspaces (t_org d);
  set_tbl t d := set_org (set_workspaces t (t_org d)) d;
  row_key := ws_id; row_tenant := ws_tenant_id; pk_name := "workspaces_pkey";
  unique_name := "uq_workspaces_tenant_slug";
  unique_key r := Some (ws_tenant_id r :: chars (ws_slug r)) |}.

#[export] Instance entitlements_table : SqlTable EntitlementRow uuid := {|
  tbl d := t_entitlements (t_org d);
  set_tbl t d := set_org (set_entitlements t (t_org d)) d;
  row_key := en_id; row_tenant := en_tenant_id; pk_name := "entitlements_pkey";
  unique_name := "entitlements_tenant_id_key"; unique_key r := Some [en_tenant_id r] |}.

(** [uq_tenant_offboarding_requests_active]: neither completed nor failed. *)
Definition live (s : OffboardingState) : bool :=
  match s with OB_completed | OB_failed => false | _ => true end.

#[export] Instance requests_table : SqlTable OffboardingRow uuid := {|
  tbl d := t_requests (t_ops d);
  set_tbl t d := set_ops (MkOps t (t_operators (t_ops d)) (t_staff_rows (t_ops d))) d;
  row_key := of_id; row_tenant := of_tenant_id; pk_name := "pk_tenant_offboarding_requests";
  unique_name := "uq_tenant_offboarding_requests_active";
  unique_key r := if live (of_status r) then Some [of_tenant_id r] else None |}.

#[export] Instance notifications_table : SqlTable NotificationRow uuid := {|
  tbl d := t_notifications (t_chan d);
  set_tbl t d := set_chan (set_notifications t (t_chan d)) d;
  row_key := nt_id; row_tenant := nt_tenant_id; pk_name := "pk_notifications";
  unique_name := "uq_notifications_recipient_user_id_source_key";
  unique_key r := Some (nt_recipient_user_id r :: chars (nt_source_key r)) |}.

#[export] Instance deliveries_table : SqlTable DeliveryRow uuid := {|
  tbl d := t_deliveries (t_chan d);
  set_tbl t d := set_chan (set_deliveries t (t_chan d)) d;
  row_key := dl_id; row_tenant := dl_tenant_id; pk_name := "pk_channel_deliveries";
  unique_name := "uq_channel_deliveries_tenant_id_channel_source_key_recipient";
  unique_key r := Some (dl_tenant_id r :: dl_recipient_user_id r :: N.of_nat (py_len (dl_channel r)) ::
                        chars (dl_channel r) ++ chars (dl_source_key r)) |}.

#[export] Instance items_table : SqlTable ItemRow uuid := {|
  tbl d := t_items (t_mem d);
  set_tbl t d := set_mem (MkMem (t_documents (t_mem d)) (t_chunks (t_mem d)) (t_evidence (t_mem d))
                   t (t_candidates (t_mem d)) (t_item_evidence (t_mem d))) d;
  row_key r := mi_memory_id (ir_item r); row_tenant r := mi_tenant_id (ir_item r);
  pk_name := "items_pkey"; unique_name := ""; unique_key _ := None |}.

#[export] Instance candidates_table : SqlTable CandidateRow uuid := {|
  tbl d := t_candidates (t_mem d);
  set_tbl t d := set_mem (MkMem (t_documents (t_mem d)) (t_chunks (t_mem d)) (t_evidence (t_mem d))
                   (t_items (t_mem d)) t (t_item_evidence (t_mem d))) d;
  row_key := wc_id; row_tenant := wc_tenant_id; pk_name := "write_candidates_pkey";
  unique_name := ""; unique_key _ := None |}.

#[export] Instance item_evidence_table : SqlTable ItemEvidenceRow (uuid * uuid) := {|
  tbl d := t_item_evidence (t_mem d);
  set_tbl t d := set_mem (MkMem (t_documents (t_mem d)) (t_chunks (t_mem d)) (t_evidence (t_mem d))
                   (t_items (t_mem d)) (t_candidates (t_mem d)) t) d;
  row_key r := (ie_memory_id r, ie_evidence_id r); row_tenant := ie_tenant_id;
  pk_name := "pk_item_evidence"; unique_name := ""; unique_key _ := None |}.

#[export] Instance evidence_table : SqlTable EvidenceRow uuid := {|
  tbl d := t_evidence (t_mem d);
  set_tbl t d := set_mem (MkMem (t_documents (t_mem d)) (t_chunks (t_mem d)) t
                   (t_items (t_mem d)) (t_candidates (t_mem d)) (t_item_evidence (t_mem d))) d;
  row_key := er_evidence_id; row_tenant := er_tenant_id; pk_name := "pk_evidence";
  unique_name := ""; unique_key _ := None |}.

#[export] Instance documents_table : SqlTable DocumentRow uuid := {|
  tbl d := t_documents (t_mem d);
  set_tbl t d := set_mem (MkMem t (t_chunks (t_mem d)) (t_evidence (t_mem d))
                   (t_items (t_mem d)) (t_candidates (t_mem d)) (t_item_evidence (t_mem d))) d;
  row_key := do_id; row_tenant := do_tenant_id; pk_name := "documents_pkey";
  unique_name := ""; unique_key _ := None |}.

#[export] Instance chunks_table : SqlTable ChunkRow uuid := {|
  tbl d := t_chunks (t_mem d);
  set_tbl t d := set_mem (MkMem (t_documents (t_mem d)) t (t_evidence (t_mem d))
                   (t_items (t_mem d)) (t_candidates (t_mem d)) (t_item_evidence (t_mem d))) d;
  row_key := ck_id; row_tenant := ck_tenant_id; pk_name := "chunks_pkey";
  unique_name := "uq_chunks_document_seq";
  unique_key c := Some [ck_document_id c; N.of_nat (ck_seq c)] |}.

#[export] Instance approvals_ok : SqlTableOk ApprovalRequest uuid.
Proof. split; [done..|by intros []]. Qed.
#[export] Instance decisions_ok : SqlTableOk ApprovalDecision uuid.
Proof. split; [done..|by intros []]. Qed.
#[export] Instance audit_ok : SqlTableOk AuditEvent (uuid * Z).
Proof. split; [done..|by intros []]. Qed.
#[export] Instance outbox_ok : SqlTableOk OutboxEvent uuid.
Proof. split; [done..|by intros []]. Qed.
#[export] Instance receipts_ok : SqlTableOk ViewReceipt uuid.
Proof. split; [done..|by intros []]. Qed.
#[export] Instance codes_ok : SqlTableOk DecisionCodeRow uuid.
Proof. split; [done..|by intros []]. Qed.
#[export] Instance runs_ok : SqlTableOk WorkerRunRow uuid.
Proof. split; [done..|by intros []]. Qed.
#[export] Instance executions_ok : SqlTableOk ToolExecutionRow uuid.
Proof. split; [done..|by intros []]. Qed.
#[export] Instance memberships_ok : SqlTableOk MembershipRow uuid.
Proof. split; [done..|by intros [? ? ? ? ? ? ? ? ? [] []]]. Qed.
#[export] Instance grants_ok : SqlTableOk SupportGrant uuid.
Proof. split; [done..|by intros [? ? ? ? ? ? ? ? ? [] []]]. Qed.
#[export] Instance waivers_ok : SqlTableOk SodWaiverRow uuid.
Proof. split; [done..|by intros [? ? ? ? ? ? ? ? ? [] []]]. Qed.
#[export] Instance tenants_ok : SqlTableOk TenantRow uuid.
Proof. split; [done..|by intros [? ? ? ? ? ? ? ? ? [] ? ? ?]]. Qed.
#[export] Instance workspaces_ok : SqlTableOk WorkspaceRow uuid.
Proof. split; [done..|by intros [? ? ? ? ? ? ? ? ? [] ? ? ?]]. Qed.
#[export] Instance entitlements_ok : SqlTableOk EntitlementRow uuid.
Proof. split; [done..|by intros [? ? ? ? ? ? ? ? ? [] ? ? ?]]. Qed.
#[export] Instance requests_ok : SqlTableOk OffboardingRow uuid.
Proof. split; [done..|by intros [? ? ? ? ? ? ? ? ? ? ? ? []]]. Qed.
#[export] Instance notifications_ok : SqlTableOk NotificationRow uuid.
Proof. split; [done..|by intros [? ? ? ? ? ? ? ? ? ? ? []]]. Qed.
#[export] Instance deliveries_ok : SqlTableOk DeliveryRow uuid.
Proof. split; [done..|by intros [? ? ? ? ? ? ? ? ? ? ? []]]. Qed.
#[export] Instance items_ok : SqlTableOk ItemRow uuid.
Proof. split; [done..|by intros [? ? ? ? ? ? ? ? ? [] []]]. Qed.
#[export] Instance candidates_ok : SqlTableOk CandidateRow uuid.
Proof. split; [done..|by intros [? ? ? ? ? ? ? ? ? [] []]]. Qed.
#[export] Instance item_evidence_ok : SqlTableOk ItemEvidenceRow (uuid * uuid).
Proof. split; [done..|by intros [? ? ? ? ? ? ? ? ? [] []]]. Qed.
#[export] Instance evidence_ok : SqlTableOk EvidenceRow uuid.
Proof. split; [done..|by intros [? ? ? ? ? ? ? ? ? [] []]]. Qed.
#[export] Instance documents_ok : SqlTableOk DocumentRow uuid.
Proof. split; [done..|by intros [? ? ? ? ? ? ? ? ? [] []]]. Qed.
#[export] Instance chunks_ok : SqlTableOk ChunkRow uuid.
Proof. split; [done..|by intros [? ? ? ? ? ? ? ? ? [] []]]. Qed.

(** The rows of a table, in no particular order. *)
Definition rows_of {R K} `{SqlTable R K} (d : Db) : list R := (map_to_list (tbl d)).*2.

(** Some row of the table refers to one of [gone]. *)
Definition refers {R K K'} `{SqlTable R K} `{Countable K'} {A} (ref : R → option K')
    (gone : gmap K' A) (d : Db) : bool :=
  existsb (λ r, match ref r with Some k => bool_decide (is_Some (gone !! k)) | None => false end)
    (rows_of (R := R) d).

(** The rows that do not refer to one of [gone]. *)
Definition unreferring {R K K'} `{SqlTable R K} `{Countable K'} {A} (ref : R → K')
    (gone : gmap K' A) (d : Db) : Db :=
  set_tbl (filter (λ kv, gone !! ref kv.2 = None) (tbl d)) d.

(** [chunks_document_id_fkey] is ON DELETE CASCADE. *)
Definition documents_cascade (gone : gmap uuid DocumentRow) : Db → Db := unreferring ck_document_id gone.

(** ** Statements *)

Section Statements.
Context {R K : Type} `{SqlTable R K}.

(** Every pair of indexed rows has distinct index keys. *)
Definition unique_ok (t : gmap K R) : bool :=
  bool_decide (NoDup (omap unique_key (map_to_list t).*2)).

Definition visible (tenant : uuid) (p : R → bool) (r : R) : bool :=
  bool_decide (row_tenant r = tenant) && p r.

(** [SELECT ... WHERE p], in no particular order. *)
Definition sql_select (tenant : uuid) (p : R → bool) : Prog (list R) :=
  gets (λ w, filter (λ r, visible tenant p r = true) (map_to_list (tbl (db w))).*2).

(** [SELECT ... WHERE id = key AND p]. *)
Definition sql_get (tenant : uuid) (key : K) (p : R → bool) : Prog (option R) :=
  gets (λ w, r ← tbl (db w) !! key; if visible tenant p r then Some r else None).

Definition store_rows (t : gmap K R) : Prog unit :=
  if unique_ok t then modify (λ w, set_db (set_tbl t (db w)) w)
  else raise (IntegrityError unique_name) "duplicate key value violates unique constraint".

(** [INSERT]: the row must be the session tenant's (the policy's WITH CHECK),
    its key free and its index key unused. *)
Definition sql_insert (tenant : uuid) (r : R) : Prog unit :=
  let! w := get_state in
  if bool_decide (row_tenant r ≠ tenant)
  then raise (OtherException "InsufficientPrivilege") "new row violates row-level security policy"
  else match tbl (db w) !! row_key r with
       | Some _ => raise (IntegrityError pk_name) "duplicate key value violates unique constraint"
       | None => store_rows (<[row_key r := r]> (tbl (db w)))
       end.

Definition update_rows (p : R → bool) (f : R → R) (t : gmap K R) : gmap K R :=
  (λ r, if p r then f r else r) <$> t.

Definition count_rows (p : R → bool) (t : gmap K R) : nat :=
  size (filter (λ kv, p kv.2 = true) t).

(** [UPDATE ... SET f WHERE p]; the result is [rowcount]. *)
Definition sql_update (tenant : uuid) (p : R → bool) (f : R → R) : Prog nat :=
  let! w := get_state in
  let t := tbl (db w) in
  let! _ := store_rows (update_rows (visible tenant p) f t) in
  ret (count_rows (visible tenant p) t).

(** [DELETE ... WHERE p]; the result is [rowcount]. *)
Definition sql_delete (tenant : uuid) (p : R → bool) : Prog nat :=
  let! w := get_state in
  let t := tbl (db w) in
  modify (λ w, set_db (set_tbl (filter (λ kv, visible tenant p kv.2 = false) t) (db w)) w) ;;;
  ret (count_rows (visible tenant p) t).
End Statements.

(** ** Transactions *)

(** [async with session.begin()]: commit on a clean exit, roll back otherwise. *)
Definition session_begin {A} (m : Prog A) : Prog A := λ w,
  match m w with
  | (Ok a, w') => (Ok a, set_saved (db w') w')
  | (Raise e, w') => (Raise e, set_db (saved w') w')
  end.

(** [async with uow_factory(context) as uow]: what was not committed by
    [uow.commit()] is gone when the block ends, however it ends. *)
Definition uow_commit : Prog unit := modify (λ w, set_saved (db w) w).
Definition unit_of_work {A} (m : Prog A) : Prog A := λ w,
  let '(r, w') := m w in (r, set_db (saved w') w').

(** [session.begin_nested()]: a savepoint, rolled back to when the block raises;
    and one rolled back whatever happened. *)
Definition savepoint {A} (m : Prog A) : Prog A := λ w,
  match m w with
  | (Ok a, w') => (Ok a, w')
  | (Raise e, w') => (Raise e, set_db (db w) w')
  end.
Definition undone {A} (m : Prog A) : Prog A := λ w, let '(r, w') := m w in (r, set_db (db w) w').

(** [INSERT] of several rows: one statement per row, in order. *)
Fixpoint insert_all {R K} `{SqlTable R K} (tenant : uuid) (rows : list R) : Prog unit :=
  match rows with
  | [] => ret tt
  | r :: rest => sql_insert tenant r ;;; insert_all tenant rest
  end.

(** A read-only session of its own, possibly beside an open transaction: it
    sees the committed rows only (READ COMMITTED) and changes none. *)
Definition read_committed {A} (m : Prog A) : Prog A := λ w,
  let '(r, w') := m (set_db (saved w) w) in (r, set_saved (saved w) (set_db (db w) w')).

(** ** [persistence/repositories.py]

    Each operation takes the tenant its session is bound to. *)

Section Repositories.
Context (tenant : uuid).

(** [SqlApprovalRepository.add]: status and version as the aggregate has
    them, [created_at] from the column default. *)
Definition approvals_add (r : ApprovalRequest) : Prog unit :=
  let! w := get_state in
  sql_insert tenant
    {| ar_id := ar_id r; ar_tenant_id := ar_tenant_id r; ar_workspace_id := ar_workspace_id r;
       ar_approval_type := ar_approval_type r; ar_requested_by := ar_requested_by r;
       ar_reason := ar_reason r; ar_payload := ar_payload r; ar_run_id := ar_run_id r;
       ar_required_scope := ar_required_scope r; ar_status := ar_status r;
       ar_created_at := Some (db_now w); ar_decided_at := None; ar_version := ar_version r |}.

(** [SqlApprovalRepository.get] *)
Definition approvals_get (request_id workspace : uuid) (aud : ApprovalAudience)
    : Prog (option ApprovalRequest) :=
  sql_get tenant request_id (λ r,
    bool_decide (ar_workspace_id r = workspace) && visible_to aud r).

(** [SqlApprovalRepository.save]: the optimistic version check; the columns
    it sets, the others being the row's. *)
Definition save_columns (row r : ApprovalRequest) : ApprovalRequest :=
  {| ar_id := ar_id row; ar_tenant_id := ar_tenant_id row;
     ar_workspace_id := ar_workspace_id row; ar_approval_type := ar_approval_type row;
     ar_requested_by := ar_requested_by row; ar_reason := ar_reason row;
     ar_payload := ar_payload row; ar_run_id := ar_run_id row;
     ar_required_scope := ar_required_scope row; ar_status := ar_status r;
     ar_created_at := ar_created_at row; ar_decided_at := ar_decided_at r;
     ar_version := ar_version r |}.

Definition approvals_save (r : ApprovalRequest) : Prog unit :=
  let! rowcount := sql_update tenant
    (λ row, bool_decide (ar_id row = ar_id r) && (ar_version row =? ar_version r - 1)%Z)
    (λ row, save_columns row r) in
  if bool_decide (rowcount ≠ 1)
  then raise ConflictError "approval request was modified concurrently"
  else ret tt.

(** [ck_approval_decisions_channel]: [channel IN ('web', 'zalo')]. *)
Definition decision_channel_ok (channel : pystr) : bool :=
  bool_decide (channel = "web") || bool_decide (channel = "zalo").

(** [SqlApprovalRepository.add_decision] *)
Definition approvals_add_decision (d : ApprovalDecision) : Prog unit :=
  if decision_channel_ok (ad_channel d) then sql_insert tenant d
  else raise (IntegrityError "ck_approval_decisions_channel") "violates check constraint".

(** [SqlAuditRepository.append] *)
Definition audit_append (e : AuditEvent) : Prog unit := sql_insert tenant e.

(** [SqlOutboxRepository.add] and [has_unprocessed]. *)
Definition outbox_add (e : OutboxEvent) : Prog unit := sql_insert tenant e.

Definition has_unprocessed (event_type : pystr) (aggregate_id : uuid) : Prog bool :=
  let! rows := sql_select (R := OutboxEvent) tenant (λ e,
    bool_decide (oe_processed_at e = None) && bool_decide (oe_event_type e = event_type)
    && bool_decide (oe_aggregate_id e = aggregate_id)) in
  ret (match rows with [] => false | _ => true end).
End Repositories.

(** ** Lemmas *)

Section StatementLemmas.
Context {R K : Type} `{SqlTableOk R K}.
Implicit Types (t : gmap K R) (w : World).

Lemma lookup_update_rows p f t k :
  update_rows p f t !! k = (λ r, if p r : bool then f r else r) <$> t !! k.
Proof. apply lookup_fmap. Qed.

Lemma count_rows_one p t k r :
  t !! k = Some r → p r = true → (∀ k' r', t !! k' = Some r' → p r' = true → k' = k) →
  count_rows p t = 1.
Proof.
  intros Hk Hp Hu. unfold count_rows.
  rewrite (map_eq (filter _ t) {[ k := r ]}); [apply map_size_singleton|].
  intros k'. destruct (decide (k' = k)) as [->|Hne].
  - rewrite lookup_singleton_eq. apply map_lookup_filter_Some. by split.
  - rewrite lookup_singleton_ne by done. apply map_lookup_filter_None. right.
    intros r' Hr' Hp'. simpl in Hp'. by destruct (Hne (Hu k' r' Hr' Hp')).
Qed.

Lemma count_rows_pos p t : count_rows p t ≠ 0 → ∃ k r, t !! k = Some r ∧ p r = true.
Proof.
  unfold count_rows. intros Hc.
  destruct (map_choose (filter (λ kv : K * R, p kv.2 = true) t)) as (k & r & Hk).
  { intros E. by rewrite E, map_size_empty in Hc. }
  apply map_lookup_filter_Some in Hk as [??]. eauto.
Qed.

Lemma count_rows_zero p t : count_rows p t = 0 ↔ ∀ k r, t !! k = Some r → p r = false.
Proof.
  unfold count_rows. rewrite map_size_empty_iff. split.
  - intros E k r Hk. destruct (p r) eqn:Hp; [|done]. exfalso.
    assert (filter (λ kv : K * R, p kv.2 = true) t !! k = Some r) as Hf
      by (by apply map_lookup_filter_Some). by rewrite E in Hf.
  - intros Hn. apply map_eq. intros k. rewrite lookup_empty. apply map_lookup_filter_None.
    destruct (t !! k) as [r|] eqn:Hk; [right|by left]. intros r' [= <-]. simpl.
    by rewrite (Hn k r Hk).
Qed.

(** [rowcount] is the length of the selection. *)
Lemma count_rows_select (p : R → bool) t :
  length (filter (λ r, p r = true) (map_to_list t).*2) = count_rows p t.
Proof.
  unfold count_rows. revert t. refine (map_ind _ _ _).
  - by rewrite map_to_list_empty, map_filter_empty, map_size_empty.
  - intros k r t Hk IH. rewrite map_to_list_insert by done. simpl.
    destruct (p r) eqn:Hp.
    + rewrite filter_cons_True, map_filter_insert_True by done. simpl.
      rewrite map_size_insert_None; [by f_equal|]. apply map_lookup_filter_None. by left.
    + rewrite filter_cons_False by (by rewrite Hp).
      rewrite map_filter_insert_not'; [done|simpl; by rewrite Hp|congruence].
Qed.

(** The partial unique index, read as a property of the table. *)
Lemma unique_ok_spec t :
  unique_ok t = true ↔
  ∀ k1 k2 r1 r2 u, t !! k1 = Some r1 → t !! k2 = Some r2 →
    unique_key r1 = Some u → unique_key r2 = Some u → k1 = k2.
Proof.
  unfold unique_ok. rewrite bool_decide_eq_true. split.
  - revert t. refine (map_ind _ _ _); [set_solver|].
    intros k r t Hk IH Hnd k1 k2 r1 r2 u.
    rewrite map_to_list_insert in Hnd by done.
    assert (∀ k' r', t !! k' = Some r' → unique_key r = Some u → unique_key r' = Some u → False)
      as Hclash.
    { intros k' r' Hk' Hr Hr'. simpl in Hnd. rewrite Hr in Hnd. apply NoDup_cons in Hnd as [Hn _].
      apply Hn. apply list_elem_of_omap. exists r'. split; [|done].
      apply list_elem_of_fmap. exists (k', r'). split; [done|]. by apply elem_of_map_to_list. }
    rewrite !lookup_insert_Some. intros [[<- <-]|[? Hl1]] [[<- <-]|[? Hl2]] Hu1 Hu2; [done|..].
    + by destruct (Hclash _ _ Hl2 Hu1 Hu2).
    + by destruct (Hclash _ _ Hl1 Hu2 Hu1).
    + apply IH with r1 r2 u; [|done..]. simpl in Hnd.
      destruct (unique_key r); [by apply NoDup_cons in Hnd as [_ ?]|done].
  - revert t. refine (map_ind _ _ _); [intros _; rewrite map_to_list_empty; constructor|].
    intros k r t Hk IH Hu. rewrite map_to_list_insert by done. simpl.
    assert (NoDup (omap unique_key (map_to_list t).*2)) as Hnd.
    { apply IH. intros k1 k2 r1 r2 u Hl1 Hl2. apply Hu; apply lookup_insert_Some; right;
        split; [congruence|done|congruence|done]. }
    destruct (unique_key r) as [u|] eqn:Hr; [|done]. constructor; [|done].
    intros (r' & Hr' & Hin)%list_elem_of_omap. apply list_elem_of_fmap in Hr' as ([k' r''] & -> & Hin').
    apply elem_of_map_to_list in Hin'. simpl in *.
    assert (k = k') as <-; [|congruence].
    eapply Hu; [apply lookup_insert_eq| |exact Hr|exact Hin].
    rewrite lookup_insert_ne by congruence. done.
Qed.

Lemma unique_ok_none t : (∀ r : R, unique_key r = None) → unique_ok t = true.
Proof. intros Hn. apply unique_ok_spec. intros * _ _ Hu. by rewrite Hn in Hu. Qed.

(** Rows sit under their own primary key. *)
Definition keyed t : Prop := ∀ k r, t !! k = Some r → row_key r = k.

Lemma keyed_insert t r : keyed t → keyed (<[row_key r := r]> t).
Proof. intros Hk k r'. rewrite lookup_insert_Some. intros [[<- <-]|[_ ?]]; auto. Qed.

Lemma keyed_update p f t :
  (∀ r, row_key (f r) = row_key r) → keyed t → keyed (update_rows p f t).
Proof.
  intros Hf Hk k r. rewrite lookup_update_rows. intros (r' & Hr & E)%fmap_Some.
  subst r. destruct (p r'); rewrite ?Hf; by apply Hk.
Qed.

Lemma update_rows_none p f t : (∀ k r, t !! k = Some r → p r = false) → update_rows p f t = t.
Proof.
  intros Hn. apply map_eq. intros k. rewrite lookup_update_rows.
  destruct (t !! k) as [r|] eqn:Hk; simpl; [|done]. by rewrite (Hn k r Hk).
Qed.

Lemma update_rows_one p f t k r :
  t !! k = Some r → p r = true → (∀ k' r', t !! k' = Some r' → p r' = true → k' = k) →
  update_rows p f t = <[k := f r]> t.
Proof.
  intros Hk Hp Hu. apply map_eq. intros k'. rewrite lookup_update_rows.
  destruct (decide (k' = k)) as [->|Hne].
  - by rewrite lookup_insert_eq, Hk; simpl; rewrite Hp.
  - rewrite lookup_insert_ne by done. destruct (t !! k') as [r'|] eqn:Hk'; simpl; [|done].
    destruct (p r') eqn:Hp'; [|done]. by destruct (Hne (Hu _ _ Hk' Hp')).
Qed.

Lemma sql_insert_ok tenant r w u w' :
  sql_insert tenant r w = (Ok u, w') ↔
    row_tenant r = tenant ∧ tbl (db w) !! row_key r = None ∧
    unique_ok (<[row_key r := r]> (tbl (db w))) = true ∧
    w' = set_db (set_tbl (<[row_key r := r]> (tbl (db w))) (db w)) w.
Proof.
  unfold sql_insert, store_rows, bind, get_state, raise, modify. destruct u. simpl.
  destruct (bool_decide (row_tenant r ≠ tenant)) eqn:Ht; to_prop; [naive_solver|].
  apply dec_stable in Ht. destruct (tbl (db w) !! row_key r); [naive_solver|].
  destruct (unique_ok _) eqn:Hu; naive_solver.
Qed.

Lemma sql_insert_duplicate tenant r w :
  row_tenant r = tenant → tbl (db w) !! row_key r = None →
  unique_ok (<[row_key r := r]> (tbl (db w))) = false →
  sql_insert tenant r w =
    (Raise (Exn (IntegrityError unique_name) "duplicate key value violates unique constraint"), w).
Proof.
  intros Ht Hk Hu. unfold sql_insert, store_rows, bind, get_state, raise. simpl.
  rewrite bool_decide_eq_false_2 by tauto. by rewrite Hk, Hu.
Qed.

Lemma sql_insert_key_taken tenant r w :
  row_tenant r = tenant → is_Some (tbl (db w) !! row_key r) →
  sql_insert tenant r w =
    (Raise (Exn (IntegrityError pk_name) "duplicate key value violates unique constraint"), w).
Proof.
  intros Ht [? Hk]. unfold sql_insert, bind, get_state, raise. simpl.
  rewrite bool_decide_eq_false_2 by tauto. by rewrite Hk.
Qed.

Lemma sql_update_duplicate tenant p f w :
  unique_ok (update_rows (visible tenant p) f (tbl (db w))) = false →
  sql_update tenant p f w =
    (Raise (Exn (IntegrityError unique_name) "duplicate key value violates unique constraint"), w).
Proof. intros Hu. unfold sql_update, store_rows, bind, get_state, raise. simpl. by rewrite Hu. Qed.

(** A statement that fails writes nothing. *)
Lemma sql_insert_raise tenant r w e w' : sql_insert tenant r w = (Raise e, w') → w' = w.
Proof.
  unfold sql_insert, store_rows, bind, get_state, raise, modify.
  repeat case_match; intros; simplify_eq; done.
Qed.

Lemma sql_update_raise tenant p f w e w' : sql_update tenant p f w = (Raise e, w') → w' = w.
Proof.
  unfold sql_update, store_rows, bind, get_state, raise, modify, ret.
  repeat case_match; intros; simplify_eq; done.
Qed.

(** An insert into a table without a unique index, case by case. *)
Lemma sql_insert_run tenant r w :
  (∀ r : R, unique_key r = None) →
  sql_insert tenant r w =
    if bool_decide (row_tenant r = tenant)
    then match tbl (db w) !! row_key r with
         | Some _ => (Raise (Exn (IntegrityError pk_name)
                              "duplicate key value violates unique constraint"), w)
         | None => (Ok tt, set_db (set_tbl (<[row_key r := r]> (tbl (db w))) (db w)) w)
         end
    else (Raise (Exn (OtherException "InsufficientPrivilege")
                  "new row violates row-level security policy"), w).
Proof.
  intros Hn. unfold sql_insert, store_rows, bind, get_state, raise, modify.
  repeat case_bool_decide; try tauto. destruct (_ !! _); [done|].
  by rewrite unique_ok_none.
Qed.

Lemma sql_insert_fresh tenant r w :
  row_tenant r = tenant → tbl (db w) !! row_key r = None → (∀ r : R, unique_key r = None) →
  sql_insert tenant r w =
    (Ok tt, set_db (set_tbl (<[row_key r := r]> (tbl (db w))) (db w)) w).
Proof. intros. apply sql_insert_ok. eauto using unique_ok_none. Qed.

Lemma sql_update_ok tenant p f w n w' :
  sql_update tenant p f w = (Ok n, w') ↔
    let t := update_rows (visible tenant p) f (tbl (db w)) in
    unique_ok t = true ∧ n = count_rows (visible tenant p) (tbl (db w)) ∧
    w' = set_db (set_tbl t (db w)) w.
Proof.
  unfold sql_update, store_rows, bind, get_state, raise, modify, ret. simpl.
  destruct (unique_ok _) eqn:Hu; naive_solver.
Qed.

(** A statement never writes what is committed, the clocks or the ids. *)
Lemma sql_update_run tenant p f w :
  unique_ok (update_rows (visible tenant p) f (tbl (db w))) = true →
  sql_update tenant p f w =
    (Ok (count_rows (visible tenant p) (tbl (db w))),
     set_db (set_tbl (update_rows (visible tenant p) f (tbl (db w))) (db w)) w).
Proof. intros. by apply sql_update_ok. Qed.

Lemma select_none (p : R → bool) t :
  (∀ k r, t !! k = Some r → p r = false) → filter (λ r, p r = true) (map_to_list t).*2 = [].
Proof.
  intros Hn. apply filter_nil_iff. intros r ([k r'] & -> & Hr)%list_elem_of_fmap.
  apply elem_of_map_to_list in Hr. simpl. by rewrite (Hn k r' Hr).
Qed.

Lemma select_one (p : R → bool) t k r :
  t !! k = Some r → p r = true → (∀ k' r', t !! k' = Some r' → p r' = true → k' = k) →
  filter (λ r, p r = true) (map_to_list t).*2 = [r].
Proof.
  intros Hk Hp Hu. apply Permutation_singleton_r.
  rewrite <- (map_to_list_delete t k r Hk). simpl. rewrite filter_cons_True by done.
  rewrite select_none; [done|]. intros k' r' [Hne Hk']%lookup_delete_Some.
  destruct (p r') eqn:E; [|done]. by destruct (Hne (eq_sym (Hu _ _ Hk' E))).
Qed.

(** What an index lets in: a row whose key no other row has. *)
Lemma unique_ok_insert t k r :
  t !! k = None → unique_ok t = true →
  unique_ok (<[k := r]> t) = true ↔
    ∀ k' r' u, t !! k' = Some r' → unique_key r = Some u → unique_key r' ≠ Some u.
Proof.
  intros Hk Ht. pose proof (proj1 (unique_ok_spec t) Ht) as Hu.
  rewrite unique_ok_spec. split.
  - intros Hi k' r' u Hk' Hr Hr'. assert (k = k') as ->; [|congruence].
    eapply Hi; [apply lookup_insert_eq| |done|done]. rewrite lookup_insert_ne by congruence. done.
  - intros Hn k1 k2 r1 r2 u. rewrite !lookup_insert_Some.
    intros [[<- <-]|[? Hl1]] [[<- <-]|[? Hl2]] Hu1 Hu2; [done|naive_solver..|].
    by apply (Hu k1 k2 r1 r2 u).
Qed.

(** An update that leaves the index keys of the rows it touches out of the
    index, or as they were, breaks no unique index. *)
Lemma unique_ok_update p f t :
  (∀ k r, t !! k = Some r → p r = true →
     unique_key (f r) = None ∨ unique_key (f r) = unique_key r) →
  unique_ok t = true → unique_ok (update_rows p f t) = true.
Proof.
  intros Hf Ht. pose proof (proj1 (unique_ok_spec t) Ht) as Hu. apply unique_ok_spec.
  intros k1 k2 r1 r2 u. rewrite !lookup_update_rows.
  intros (r1' & Hl1 & E1)%fmap_Some (r2' & Hl2 & E2)%fmap_Some Hk1 Hk2.
  apply (Hu k1 k2 r1' r2' u); [done|done|..]; subst.
  - destruct (p r1') eqn:Hp; [|done]. destruct (Hf _ _ Hl1 Hp); congruence.
  - destruct (p r2') eqn:Hp; [|done]. destruct (Hf _ _ Hl2 Hp); congruence.
Qed.
End StatementLemmas.

(** The optimistic save, by what the table holds. *)
Lemma approvals_save_run tenant r w :
  keyed (t_approvals (db w)) →
  approvals_save tenant r w =
    match t_approvals (db w) !! ar_id r with
    | Some row =>
        if bool_decide (ar_tenant_id row = tenant) && (ar_version row =? ar_version r - 1)%Z
        then (Ok tt, set_db (set_tbl (<[ar_id r := save_columns row r]> (t_approvals (db w)))
                               (db w)) w)
        else (Raise (Exn ConflictError "approval request was modified concurrently"), w)
    | None => (Raise (Exn ConflictError "approval request was modified concurrently"), w)
    end.
Proof.
  intros Hkey. unfold approvals_save, bind. rewrite sql_update_run by (by apply unique_ok_none).
  set (p := visible tenant _). set (f := λ row, save_columns row r).
  assert (∀ k row, t_approvals (db w) !! k = Some row → p row = true → k = ar_id r) as Hone.
  { intros k row Hk Hp. unfold p, visible in Hp. to_prop. rewrite <- (Hkey _ _ Hk). done. }
  assert (∀ row, t_approvals (db w) !! ar_id r = Some row → p row =
    bool_decide (ar_tenant_id row = tenant) && (ar_version row =? ar_version r - 1)%Z) as Hp.
  { intros row Hrow. unfold p, visible. simpl.
    rewrite (bool_decide_eq_true_2 (ar_id row = ar_id r)) by apply (Hkey _ _ Hrow). done. }
  assert ((∀ k row, t_approvals (db w) !! k = Some row → p row = false) →
    set_db (set_tbl (update_rows p f (tbl (db w))) (db w)) w = w) as Hnone.
  { intros Hn. rewrite update_rows_none by done. rewrite set_tbl_tbl. by destruct w. }
  change (tbl (db w)) with (t_approvals (db w)) in *.
  destruct (t_approvals (db w) !! ar_id r) as [row|] eqn:Hrow.
  - rewrite <- (Hp row eq_refl). destruct (p row) eqn:Hpr.
    + rewrite (count_rows_one p _ (ar_id r) row) by (eauto using eq_trans, eq_sym).
      rewrite (update_rows_one p f _ (ar_id r) row) by (eauto using eq_trans, eq_sym). done.
    + assert (∀ k row, t_approvals (db w) !! k = Some row → p row = false) as Hn.
      { intros k row' Hk. destruct (p row') eqn:E; [|done].
        pose proof (Hone _ _ Hk E) as ->. congruence. }
      rewrite Hnone by done. by rewrite (proj2 (count_rows_zero p _) Hn).
  - assert (∀ k row, t_approvals (db w) !! k = Some row → p row = false) as Hn.
    { intros k row' Hk. destruct (p row') eqn:E; [|done].
      pose proof (Hone _ _ Hk E) as ->. congruence. }
    rewrite Hnone by done. by rewrite (proj2 (count_rows_zero p _) Hn).
Qed.

Lemma approvals_save_stale tenant r row w :
  keyed (t_approvals (db w)) → t_approvals (db w) !! ar_id r = Some row →
  ar_version row ≠ (ar_version r - 1)%Z →
  approvals_save tenant r w =
    (Raise (Exn ConflictError "approval request was modified concurrently"), w).
Proof.
  intros Hk Hr Hv. rewrite approvals_save_run, Hr by done.
  by rewrite (proj2 (Z.eqb_neq _ _) Hv), andb_false_r.
Qed.

(** ** Clean states: outside any transaction *)

Lemma set_db_clean w : clean w → set_db (saved w) w = w.
Proof. unfold clean. destruct w; simpl. by intros ->. Qed.

(** A session that only reads changes nothing. *)
Lemma session_begin_read {A} (m : Prog A) w r :
  clean w → m w = (r, w) → session_begin m w = (r, w).
Proof.
  intros Hc Hm. unfold session_begin. rewrite Hm. unfold clean in Hc.
  destruct r, w; simpl in *; by subst.
Qed.

Lemma session_begin_gets {A} (f : World → A) w :
  clean w → session_begin (gets f) w = (Ok (f w), w).
Proof. intros Hc. by apply session_begin_read. Qed.

(** A session whose body succeeds commits what it wrote. *)
Lemma session_begin_ok {A} (m : Prog A) w a w' :
  session_begin m w = (Ok a, w') ↔ ∃ s, m w = (Ok a, s) ∧ w' = set_saved (db s) s.
Proof. unfold session_begin. destruct (m w) as [[x|e] s]; naive_solver. Qed.

(** A session that fails leaves a clean state as it found it, when its body
    moves neither the clocks nor the ids. *)
Definition quiet {A} (m : Prog A) : Prop :=
  ∀ w, ∃ d, (m w).2 = set_db d w.

Lemma session_begin_raise {A} (m : Prog A) w e w' :
  clean w → quiet m → session_begin m w = (Raise e, w') ↔ (m w).1 = Raise e ∧ w' = w.
Proof.
  intros Hc Hq. unfold session_begin. destruct (Hq w) as [d Hd].
  destruct (m w) as [[a|e'] w1]; simpl in *; [naive_solver|]. subst w1.
  assert (set_db (saved (set_db d w)) (set_db d w) = w) as ->; [|naive_solver].
  unfold clean in Hc. destruct w; simpl in *. by subst.
Qed.

(** The state a transaction that commits [d] leaves. *)
Definition commit_db (d : Db) (w : World) : World := set_saved d (set_db d w).

(** The state after [n] ids were issued and the clock was read [reads] times. *)
Definition use_ids (n : nat) (reads : nat) (w : World) : World :=
  MkWorld (db w) (saved w) (db_now w) (utc w) (reads + utc_reads w) (ids w) (n + ids_issued w)
    (effects w).

Lemma commit_db_clean d w : clean (commit_db d w).
Proof. done. Qed.

(** Statements write nothing outside the open transaction: what is committed
    stays, until a commit. *)
Definition same_saved (w w' : World) : Prop := saved w' = saved w.

#[export] Instance same_saved_preorder : PreOrder same_saved.
Proof. unfold same_saved. split; [by intros ?|intros ? ? ?; congruence]. Qed.

Lemma new_uuid_same_saved : respects same_saved new_uuid.
Proof. by intros w. Qed.
Lemma now_utc_same_saved : respects same_saved now_utc.
Proof. by intros w. Qed.

Section SameSaved.
Context {R K : Type} `{SqlTable R K}.

Lemma store_rows_same_saved (t : gmap K R) : respects same_saved (store_rows t).
Proof. unfold store_rows. respects_auto. by apply respects_modify. Qed.

Lemma sql_insert_same_saved tenant (r : R) : respects same_saved (sql_insert tenant r).
Proof.
  unfold sql_insert. apply respects_bind; [apply _|by intros w|]. intros w.
  destruct (bool_decide _); [by intros ?|]. destruct (_ !! _); [by intros ?|].
  apply store_rows_same_saved.
Qed.

Lemma sql_update_same_saved tenant (p : R → bool) f :
  respects same_saved (sql_update tenant p f).
Proof.
  unfold sql_update. apply respects_bind; [apply _|by intros w|]. intros w.
  apply respects_bind; [apply _|apply store_rows_same_saved|by intros ? ?].
Qed.

Lemma sql_delete_same_saved tenant (p : R → bool) : respects same_saved (sql_delete tenant p).
Proof. by intros w. Qed.
End SameSaved.

#[export] Hint Resolve new_uuid_same_saved now_utc_same_saved sql_insert_same_saved
  sql_update_same_saved sql_delete_same_saved : respects.

Lemma approvals_save_same_saved t r : respects same_saved (approvals_save t r).
Proof.
  unfold approvals_save. apply respects_bind; [apply _|apply sql_update_same_saved|].
  intros n. destruct (bool_decide _); by intros ?.
Qed.
#[export] Hint Resolve approvals_save_same_saved : respects.

Lemma unit_of_work_ok {A} (m : Prog A) w a w' :
  unit_of_work m w = (Ok a, w') ↔ ∃ s, m w = (Ok a, s) ∧ w' = set_db (saved s) s.
Proof. unfold unit_of_work. destruct (m w) as [r s]. naive_solver. Qed.

(** A unit of work that raises leaves a clean database as it was, when its body
    commits nothing before. *)
Lemma unit_of_work_raise {A} (m : Prog A) w e w' :
  clean w → (∀ e w1, m w = (Raise e, w1) → saved w1 = saved w) →
  unit_of_work m w = (Raise e, w') → db w' = db w ∧ saved w' = saved w.
Proof.
  intros Hc Hm. unfold unit_of_work. destruct (m w) as [[a|e'] w1] eqn:E; [done|].
  intros [= <- <-]. simpl. rewrite (Hm _ _ eq_refl). by rewrite Hc.
Qed.

(** A session that raises leaves a clean database as it was. *)
Lemma session_begin_undone {A} (m : Prog A) w e w' :
  respects same_saved m → clean w → session_begin m w = (Raise e, w') → clean w' ∧ db w' = db w.
Proof.
  intros Hs Hc. specialize (Hs w). unfold session_begin, same_saved, clean in *.
  destruct (m w) as [[a|e'] w1]; [done|]. intros [= <- <-]. simpl in *. by rewrite Hs, Hc.
Qed.

(** Writing one table leaves what is read off the others. *)
Section OtherTables.
Context {R K : Type} `{SqlTable R K} {A : Type} (f : Db → A).
Context (Hf : ∀ t d, f (set_tbl (R := R) t d) = f d).

Definition same_read (w w' : World) : Prop := f (db w') = f (db w).

#[export] Instance same_read_preorder : PreOrder same_read.
Proof. unfold same_read. split; [by intros ?|intros ? ? ?; congruence]. Qed.

Lemma sql_insert_frame tenant (r : R) : respects same_read (sql_insert tenant r).
Proof.
  intros w. unfold sql_insert, store_rows, bind, get_state, raise, modify, same_read.
  destruct (bool_decide _); [done|]. destruct (_ !! _); [done|]. destruct (unique_ok _); [|done].
  simpl. apply Hf.
Qed.

Lemma sql_update_frame tenant (p : R → bool) g : respects same_read (sql_update tenant p g).
Proof.
  intros w. unfold sql_update, store_rows, bind, get_state, raise, modify, ret, same_read.
  destruct (unique_ok _); [|done]. simpl. apply Hf.
Qed.

Lemma sql_delete_frame tenant (p : R → bool) : respects same_read (sql_delete tenant p).
Proof. intros w. unfold same_read, sql_delete, bind, get_state, modify, ret. simpl. apply Hf. Qed.
End OtherTables.

(** A session whose body relates the tables before and after, committed or
    rolled back. *)
Lemma session_begin_rel {A} (Q : Db → Db → Prop) `{!Reflexive Q} (m : Prog A) w :
  clean w → Q (db w) (db (m w).2) → respects same_saved m →
  clean (session_begin m w).2 ∧ Q (db w) (db (session_begin m w).2).
Proof.
  intros Hc HQ Hs. specialize (Hs w). unfold session_begin, same_saved, clean in *.
  destruct (m w) as [[a|e] w']; simpl in *; [done|]. split; [done|]. by rewrite Hs, Hc.
Qed.

(** A session keeps what its body keeps when it succeeds. *)
Lemma session_begin_keeps {A} (I : Db → Prop) (m : Prog A) w :
  clean w → I (db w) → keeps (λ w, I (db w)) m → respects same_saved m →
  clean (session_begin m w).2 ∧ I (db (session_begin m w).2).
Proof.
  intros Hc HI Hm Hs. specialize (Hs w). unfold session_begin, same_saved, clean in *.
  destruct (m w) as [[a|e] w'] eqn:E; simpl in *; [|by rewrite Hs, Hc].
  split; [done|]. by apply (Hm w a w').
Qed.

(** Statements on other tables keep what does not read them. *)
Section KeepsFrame.
Context {R K : Type} `{SqlTable R K} (I : Db → Prop).
Context (HI : ∀ t d, I d → I (set_tbl (R := R) t d)).

Lemma sql_insert_keeps tenant (r : R) : keeps (λ w, I (db w)) (sql_insert tenant r).
Proof.
  intros w u w' Hw. unfold sql_insert, store_rows, bind, get_state, raise, modify.
  destruct (bool_decide _); [done|]. destruct (_ !! _); [done|]. destruct (unique_ok _); [|done].
  intros [= _ <-]. by apply HI.
Qed.

Lemma sql_update_keeps tenant (p : R → bool) g : keeps (λ w, I (db w)) (sql_update tenant p g).
Proof.
  intros w n w' Hw. unfold sql_update, store_rows, bind, get_state, raise, modify, ret.
  destruct (unique_ok _); [|done]. intros [= _ <-]. by apply HI.
Qed.
End KeepsFrame.

Lemma new_uuid_keeps (I : Db → Prop) : keeps (λ w, I (db w)) new_uuid.
Proof. intros w a w' Hw [= _ <-]. done. Qed.
Lemma now_utc_keeps (I : Db → Prop) : keeps (λ w, I (db w)) now_utc.
Proof. intros w a w' Hw [= _ <-]. done. Qed.
#[export] Hint Resolve new_uuid_keeps now_utc_keeps : keeps.

(** ** Example worlds, for the concrete instances of the theorems *)

(** A clean state over [d] at server time [now]: the application's clock ticks
    once per reading, ids count up from a million. *)
Definition example_world (d : Db) (now : datetime) : World :=
  {| db := d; saved := d; db_now := now; utc n := (now + Z.of_nat n)%Z; utc_reads := 0;
     ids n := (1000000 + N.of_nat n)%N; ids_issued := 0; effects := [] |}.
