(* ===== verification/Hierarchy.v ===== *)
(** * The reporting hierarchy

    [dw_platform/application/hierarchy.py] and [persistence/hierarchy_repo.py]:
    the recursive query that walks a team ([SUBTREE_QUERY]), the repository over
    [platform.memberships], and the service that sets a manager and refuses
    cycles. *)

From S2P Require Import Prelude Errors Kernel Domain Contracts Accounts Store.
Local Open Scope prog_scope.
Local Open Scope pystr_scope.

Definition MEMBERS_READ : pystr := "platform.members.read".
Definition MEMBERS_WRITE : pystr := "platform.members.write".

(** ** [SUBTREE_QUERY] *)

(** The rows the query ranges over: one workspace of one tenant. *)
Definition in_workspace (tenant ws : uuid) (m : MembershipRow) : bool :=
  bool_decide (mb_tenant_id m = tenant) && bool_decide (mb_workspace_id m = ws).

Definition workspace_members (tenant ws : uuid) (t : gmap uuid MembershipRow)
    : list MembershipRow :=
  filter (λ m, in_workspace tenant ws m = true) (map_to_list t).*2.

Definition users_of (members : list MembershipRow) : gset uuid :=
  list_to_set (mb_user_id <$> members).

(** The recursive term: who reports to someone of the working table. *)
Definition reporting_to (members : list MembershipRow) (work : gset uuid) : gset uuid :=
  users_of (filter (λ m, from_option (λ u, bool_decide (u ∈ work)) false (mb_manager_user_id m)
                         = true) members).

(** [WITH RECURSIVE ... UNION]: rows already in the result are dropped, and an
    empty working table ends the loop. *)
Fixpoint subtree_loop (fuel : nat) (members : list MembershipRow) (work result : gset uuid)
    : gset uuid :=
  match fuel with
  | O => result
  | S fuel' =>
      let new := reporting_to members work ∖ result in
      if decide (new = ∅) then result else subtree_loop fuel' members new (result ∪ new)
  end.

Definition subtree (members : list MembershipRow) (root : uuid) : gset uuid :=
  let base := users_of (filter (λ m, mb_user_id m = root) members) in
  subtree_loop (S (length members)) members base base.

(** ** [SqlHierarchyRepository] *)

Definition is_member (context : AccessContext) (user_id : uuid) : Prog bool :=
  session_begin (
    let! rows := sql_select (tenant_id context) (λ m,
      in_workspace (tenant_id context) (workspace_id context) m
      && bool_decide (mb_user_id m = user_id)) in
    ret (match rows with [] => false | _ => true end)).

Definition subtree_user_ids (context : AccessContext) (root : uuid) : Prog (gset uuid) :=
  session_begin (
    let! rows := sql_select (tenant_id context)
      (in_workspace (tenant_id context) (workspace_id context)) in
    ret (subtree rows root)).

Definition repo_set_manager (context : AccessContext) (user_id : uuid)
    (manager_user_id : option uuid) (audit : AuditEvent) : Prog bool :=
  session_begin (
    let! rowcount := sql_update (tenant_id context) (λ m,
      in_workspace (tenant_id context) (workspace_id context) m
      && bool_decide (mb_user_id m = user_id)) (with_manager manager_user_id) in
    if rowcount =? 0 then ret false
    else audit_append (tenant_id context) audit ;;; ret true).

(** ** [HierarchyService] *)

(** The refusals of [set_manager], each read in a session of its own. *)
Definition set_manager_checks (authz : ScopeAuthorizationService) (context : AccessContext)
    (user_id : uuid) (manager_user_id : option uuid) : Prog unit :=
  lift_res (require authz context MEMBERS_WRITE) ;;;
  match manager_user_id with
  | None => ret tt
  | Some manager =>
      (when bool_decide (manager = user_id) then
         raise DomainError "a member cannot report to themselves") ;;;
      let! member := is_member context manager in
      (when negb member then raise NotFoundError "no such manager in this workspace") ;;;
      let! below := subtree_user_ids context user_id in
      when bool_decide (manager ∈ below) then
        raise DomainError "that would create a cycle — the manager reports to this member"
  end.

Definition manager_event (context : AccessContext) (user_id : uuid)
    (manager_user_id : option uuid) (id : uuid) (now : datetime) : AuditEvent :=
  {| ae_id := id; ae_tenant_id := tenant_id context; ae_workspace_id := workspace_id context;
     ae_actor_id := principal_id context; ae_action := "platform.hierarchy.set_manager";
     ae_resource_type := "membership"; ae_resource_id := uuid_str user_id;
     ae_occurred_at := now; ae_run_id := None; ae_policy_decision := None;
     ae_trace_id := None;
     ae_details := {[ "manager_user_id" :=
       match manager_user_id with Some m => JStr (uuid_str m) | None => JNull end ]} |}.

(** The write, after the checks. *)
Definition set_manager_write (context : AccessContext) (user_id : uuid)
    (manager_user_id : option uuid) : Prog unit :=
  let! id := new_uuid in
  let! now := now_utc in
  let! audit := lift_res (make_audit_event (manager_event context user_id manager_user_id id now)) in
  let! changed := repo_set_manager context user_id manager_user_id audit in
  when negb changed then raise NotFoundError "no such member in this workspace".

Definition set_manager (authz : ScopeAuthorizationService) (context : AccessContext)
    (user_id : uuid) (manager_user_id : option uuid) : Prog unit :=
  set_manager_checks authz context user_id manager_user_id ;;;
  set_manager_write context user_id manager_user_id.

Definition visible_owner_ids (context : AccessContext) : Prog (gset uuid) :=
  subtree_user_ids context (principal_id context).

Definition subtree_of (context : AccessContext) (root : uuid) : Prog (gset uuid) :=
  subtree_user_ids context root.

(** ** What the query computes *)

(** [b] reports to [a]. *)
Definition reports (members : list MembershipRow) (a b : uuid) : Prop :=
  ∃ m, m ∈ members ∧ mb_user_id m = b ∧ mb_manager_user_id m = Some a.

(** No one reports, however indirectly, to themselves. *)
Definition forest (members : list MembershipRow) : Prop := ∀ u, ¬ tc (reports members) u u.

Lemma elem_of_users members u : u ∈ users_of members ↔ ∃ m, m ∈ members ∧ mb_user_id m = u.
Proof.
  unfold users_of. rewrite elem_of_list_to_set, list_elem_of_fmap. naive_solver.
Qed.

Lemma elem_of_reporting members work u :
  u ∈ reporting_to members work ↔ ∃ a, a ∈ work ∧ reports members a u.
Proof.
  unfold reporting_to, reports. rewrite elem_of_users. setoid_rewrite list_elem_of_filter. split.
  - intros (m & [Hw Hm] & <-). destruct (mb_manager_user_id m) as [a|] eqn:E; simpl in Hw; [|done].
    to_prop. eauto 10.
  - intros (a & Ha & m & Hm & <- & E). exists m. rewrite E. simpl.
    rewrite bool_decide_eq_true_2 by done. eauto.
Qed.

Section Subtree.
Context (members : list MembershipRow).

(** The loop keeps what it reached closed except at the working table. *)
Definition frontier_ok (work result : gset uuid) : Prop :=
  work ⊆ result ∧ result ⊆ users_of members ∧
  ∀ a b, a ∈ result → reports members a b → a ∈ work ∨ b ∈ result.

Lemma reporting_users work : reporting_to members work ⊆ users_of members.
Proof.
  intros u (a & _ & m & Hm & <- & _)%elem_of_reporting. apply elem_of_users. eauto.
Qed.

Lemma frontier_step work result :
  frontier_ok work result →
  frontier_ok (reporting_to members work ∖ result) (result ∪ reporting_to members work ∖ result).
Proof.
  intros (Hw & Hu & Hc). split_and!; [set_solver|pose proof (reporting_users work); set_solver|].
  intros a b [Ha|Ha]%elem_of_union Hr; [|set_solver].
  destruct (Hc a b Ha Hr) as [Haw|Hb]; [|set_solver].
  assert (b ∈ reporting_to members work) as Hn by (apply elem_of_reporting; eauto).
  destruct (decide (b ∈ result)); set_solver.
Qed.

(** Enough fuel closes the result: every turn but the last adds a member. *)
Lemma subtree_loop_closed fuel work result :
  frontier_ok work result → size (users_of members) < fuel + size result →
  result ⊆ subtree_loop fuel members work result ∧
  ∀ a b, a ∈ subtree_loop fuel members work result → reports members a b →
         b ∈ subtree_loop fuel members work result.
Proof.
  revert work result. induction fuel as [|fuel IH]; intros work result Hf Hsize; simpl.
  { destruct Hf as (_ & Hu & _). apply subseteq_size in Hu. lia. }
  case_decide as Hnew.
  - split; [done|]. intros a b Ha Hr. destruct Hf as (_ & _ & Hc).
    destruct (Hc a b Ha Hr) as [Hw|]; [|done].
    assert (b ∈ reporting_to members work) by (apply elem_of_reporting; eauto).
    destruct (decide (b ∈ result)); set_solver.
  - destruct (IH (reporting_to members work ∖ result) (result ∪ reporting_to members work ∖ result))
      as [Hsub Hcl]; [by apply frontier_step| |].
    + rewrite size_union by set_solver. assert (size (reporting_to members work ∖ result) ≠ 0) by (intros E; apply Hnew; apply size_empty_inv in E; by apply leibniz_equiv). lia.
    + split; [set_solver|done].
Qed.

Lemma subtree_loop_sound fuel work result (P : uuid → Prop) :
  (∀ u, u ∈ work ∪ result → P u) → (∀ a b, P a → reports members a b → P b) →
  ∀ u, u ∈ subtree_loop fuel members work result → P u.
Proof.
  intros HP Hcl. revert work result HP.
  induction fuel as [|fuel IH]; simpl; intros work result HP u Hu; [set_solver|].
  case_decide; [set_solver|]. eapply IH, Hu. intros v [Hv|[Hv|Hv]%elem_of_union]%elem_of_union.
  1,3: apply elem_of_difference in Hv as [(a & Ha & Hr)%elem_of_reporting _];
       apply (Hcl a v); [apply HP; set_solver|done].
  set_solver.
Qed.

Lemma size_users_le : size (users_of members) ≤ length members.
Proof.
  unfold users_of. rewrite <- (length_fmap mb_user_id members).
  generalize (mb_user_id <$> members). intros l. induction l as [|u l IH]; simpl; [done|].
  rewrite size_union_alt, size_singleton.
  assert (size (list_to_set l ∖ {[u]} : gset uuid) ≤ size (list_to_set l : gset uuid)); [|lia].
  apply subseteq_size. set_solver.
Qed.

Lemma elem_of_base root u :
  u ∈ users_of (filter (λ m, mb_user_id m = root) members) ↔ u = root ∧ root ∈ users_of members.
Proof.
  rewrite !elem_of_users. setoid_rewrite list_elem_of_filter. naive_solver.
Qed.
End Subtree.

Lemma subtree_elem members root u :
  u ∈ subtree members root ↔ root ∈ users_of members ∧ rtc (reports members) root u.
Proof.
  unfold subtree. set (base := users_of _). split.
  - intros Hu. revert u Hu. apply (subtree_loop_sound members _ base base
      (λ u, root ∈ users_of members ∧ rtc (reports members) root u)).
    + intros u Hu. assert (u ∈ base) as [-> Hr]%elem_of_base by set_solver. by split.
    + intros a b [Hr Ha] Hb. split; [done|]. by eapply rtc_r.
  - intros [Hr Hu]. destruct (subtree_loop_closed members (S (length members)) base base)
      as [Hsub Hcl].
    + split_and!; [done| |tauto]. intros v [-> Hv]%elem_of_base. done.
    + pose proof (size_users_le members). lia.
    + assert (root ∈ subtree_loop (S (length members)) members base base) as Hroot
        by (apply Hsub, elem_of_base; done).
      revert Hcl Hroot. generalize (subtree_loop (S (length members)) members base base) as res.
      clear -Hu. induction Hu as [|x y z Hxy _ IH]; [done|]. intros res Hcl Hx. eapply IH; eauto.
Qed.

(** ** Reassigning a manager *)

(** Moving [user] under a manager who is not below them makes no cycle. *)
Section MoveEdge.
Context {A : Type} (R R' : relation A) (user : A) (manager : option A).
Context (Hnew : ∀ a b, R' a b → R a b ∨ (b = user ∧ manager = Some a)).
Context (Hbelow : ∀ a, manager = Some a → ¬ rtc R user a).

Lemma moved_from_user x : rtc R' user x → rtc R user x.
Proof.
  revert x. apply rtc_ind_r; [done|]. intros x y _ Hxy IH.
  destruct (Hnew x y Hxy) as [|[-> _]]; [by eapply rtc_r|done].
Qed.

Lemma moved_below x y : tc R' x y → rtc R user x → tc R x y.
Proof.
  induction 1 as [x y Hxy|x y z Hxy _ IH]; intros Hx.
  - destruct (Hnew x y Hxy) as [|[_ E]]; [by apply tc_once|]. by destruct (Hbelow _ E).
  - destruct (Hnew x y Hxy) as [Hr|[_ E]]; [|by destruct (Hbelow _ E)].
    eapply tc_l; [done|]. apply IH. by eapply rtc_r.
Qed.

Lemma moved_or_user x y : tc R' x y → tc R x y ∨ rtc R' user y.
Proof.
  induction 1 as [x y Hxy|x y z Hxy Hyz IH].
  - destruct (Hnew x y Hxy) as [|[-> _]]; [left; by apply tc_once|by right].
  - destruct IH as [IH|]; [|by right]. destruct (Hnew x y Hxy) as [|[-> _]]; [left; by eapply tc_l|].
    right. by apply tc_rtc.
Qed.

Lemma moved_acyclic : (∀ u, ¬ tc R u u) → ∀ u, ¬ tc R' u u.
Proof.
  intros Hr u Hu. destruct (moved_or_user u u Hu) as [|Hx]; [by eapply Hr|].
  eapply Hr, moved_below; [done|]. by apply moved_from_user.
Qed.
End MoveEdge.

Lemma elem_of_workspace tenant ws t m :
  m ∈ workspace_members tenant ws t ↔ in_workspace tenant ws m = true ∧ ∃ k, t !! k = Some m.
Proof.
  unfold workspace_members. rewrite list_elem_of_filter, list_elem_of_fmap. split.
  - intros [? ([k m'] & -> & Hin)]. apply elem_of_map_to_list in Hin. eauto.
  - intros [? [k Hk]]. split; [done|]. exists (k, m). by rewrite elem_of_map_to_list.
Qed.

(** The rows one assignment of a manager writes. *)
Definition managed (context : AccessContext) (user_id : uuid) : MembershipRow → bool :=
  visible (tenant_id context) (λ m,
    in_workspace (tenant_id context) (workspace_id context) m
    && bool_decide (mb_user_id m = user_id)).

Lemma managed_spec context user_id m :
  managed context user_id m = true ↔
    in_workspace (tenant_id context) (workspace_id context) m = true ∧ mb_user_id m = user_id.
Proof.
  unfold managed, visible, in_workspace. simpl.
  rewrite !andb_true_iff, !bool_decide_eq_true. tauto.
Qed.

Lemma reports_moved context user_id manager t tenant ws a b :
  reports (workspace_members tenant ws
    (update_rows (managed context user_id) (with_manager manager) t)) a b →
  reports (workspace_members tenant ws t) a b ∨
  (tenant = tenant_id context ∧ ws = workspace_id context ∧ b = user_id ∧ manager = Some a).
Proof.
  intros (m & Hm & <- & E). apply elem_of_workspace in Hm as [Hs [k Hk]].
  rewrite lookup_update_rows in Hk. apply fmap_Some in Hk as (m0 & Hk & ->).
  destruct (managed context user_id m0) eqn:Hp.
  - right. apply managed_spec in Hp as [Hw Hu]. unfold in_workspace in *. simpl in *. to_prop.
    split_and!; congruence.
  - left. exists m0. rewrite elem_of_workspace. eauto.
Qed.

(** ** The service, run *)

Section Service.
Context (authz : ScopeAuthorizationService) (context : AccessContext).

Definition members_in (w : World) : list MembershipRow :=
  workspace_members (tenant_id context) (workspace_id context) (t_memberships (t_org (db w))).

Lemma select_workspace p w :
  (sql_select (R := MembershipRow) (tenant_id context) (λ m,
     in_workspace (tenant_id context) (workspace_id context) m && p m)) w =
  (Ok (filter (λ m, p m = true) (members_in w)), w).
Proof.
  unfold sql_select, gets, members_in, workspace_members. do 2 f_equal.
  rewrite list_filter_filter. apply list_filter_iff. intros m.
  unfold visible, in_workspace. simpl. rewrite !andb_true_iff, !bool_decide_eq_true. tauto.
Qed.

Lemma is_member_run user_id w :
  clean w →
  is_member context user_id w = (Ok (bool_decide (user_id ∈ users_of (members_in w))), w).
Proof.
  intros Hc. apply session_begin_read; [done|]. unfold bind. rewrite select_workspace.
  unfold ret. do 2 f_equal. symmetry.
  destruct (filter _ _) as [|m l] eqn:E.
  - apply bool_decide_eq_false. intros (m & Hm & Hu)%elem_of_users.
    rewrite filter_nil_iff in E. apply (E m Hm). by apply bool_decide_eq_true.
  - apply bool_decide_eq_true, elem_of_users. exists m.
    assert (m ∈ filter (λ m, bool_decide (mb_user_id m = user_id) = true) (members_in w)) as H'
      by (rewrite E; left). apply list_elem_of_filter in H' as [Hu ?]. by to_prop.
Qed.

Lemma subtree_run root w :
  clean w → subtree_user_ids context root w = (Ok (subtree (members_in w) root), w).
Proof.
  intros Hc. apply session_begin_read; [done|]. unfold bind.
  assert (sql_select (R := MembershipRow) (tenant_id context)
    (in_workspace (tenant_id context) (workspace_id context)) w = (Ok (members_in w), w)) as ->;
    [|done].
  unfold sql_select, gets, members_in, workspace_members. do 2 f_equal. apply list_filter_iff.
  intros m. unfold visible, in_workspace. simpl.
  rewrite !andb_true_iff, !bool_decide_eq_true. tauto.
Qed.

#[local] Opaque is_member subtree_user_ids.

(** What the checks ask. *)
Definition may_manage (user_id : uuid) (manager : option uuid) (w : World) : Prop :=
  is_allowed authz context MEMBERS_WRITE = true ∧
  ∀ a, manager = Some a →
    a ≠ user_id ∧ a ∈ users_of (members_in w) ∧ a ∉ subtree (members_in w) user_id.

Lemma checks_run user_id manager w :
  clean w →
  ∃ r, set_manager_checks authz context user_id manager w = (r, w) ∧
       (r = Ok tt ↔ may_manage user_id manager w).
Proof.
  intros Hc. unfold set_manager_checks, may_manage, require, bind, lift_res, raise, ret.
  destruct (is_allowed _ _ _); [|eexists; split; [done|naive_solver]].
  destruct manager as [a|]; [|eexists; split; [done|naive_solver]].
  case_bool_decide; [eexists; split; [done|naive_solver]|]. simpl.
  rewrite is_member_run by done. case_bool_decide; [|eexists; split; [done|naive_solver]]. simpl.
  rewrite subtree_run by done. case_bool_decide; eexists; (split; [done|naive_solver]).
Qed.

(** The database after an assignment. *)
Definition managed_db (user_id : uuid) (manager : option uuid) (audit : AuditEvent) (d : Db) : Db :=
  set_tbl (<[row_key audit := audit]> (t_audit d))
    (set_org (set_memberships
      (update_rows (managed context user_id) (with_manager manager) (t_memberships (t_org d)))
      (t_org d)) d).

(** The event of the request that starts at [w]. *)
Definition manager_audit (user_id : uuid) (manager : option uuid) (w : World) : AuditEvent :=
  manager_event context user_id manager (ids w (ids_issued w)) (utc w (utc_reads w)).

Lemma repo_set_manager_run user_id manager audit w :
  clean w → unique_ok (t_memberships (t_org (db w))) = true → ae_tenant_id audit = tenant_id context →
  repo_set_manager context user_id manager audit w =
    if bool_decide (user_id ∈ users_of (members_in w))
    then match t_audit (db w) !! row_key audit with
         | None => (Ok true, set_saved (managed_db user_id manager audit (db w))
                               (set_db (managed_db user_id manager audit (db w)) w))
         | Some _ => (Raise (Exn (IntegrityError "audit_events_pkey")
                        "duplicate key value violates unique constraint"), w)
         end
    else (Ok false, w).
Proof.
  intros Hc Hu Ha. unfold repo_set_manager, session_begin, bind.
  rewrite sql_update_run by (apply unique_ok_update; [by right|exact Hu]).
  change (visible (tenant_id context) _) with (managed context user_id).
  assert (bool_decide (user_id ∈ users_of (members_in w)) =
    negb (count_rows (managed context user_id) (t_memberships (t_org (db w))) =? 0)) as ->.
  { apply eq_true_iff_eq. rewrite bool_decide_eq_true, negb_true_iff, Nat.eqb_neq, elem_of_users.
    split.
    - intros (m & [Hw [k Hk]]%elem_of_workspace & <-) E. rewrite count_rows_zero in E.
      specialize (E k m Hk). rewrite (proj2 (managed_spec context _ m)) in E by done. done.
    - intros (k & m & Hk & [Hw Hm]%managed_spec)%count_rows_pos. exists m. split; [|done].
      apply elem_of_workspace. eauto. }
  change (tbl (db w)) with (t_memberships (t_org (db w))).
  destruct (count_rows _ _ =? 0) eqn:E; simpl.
  - apply Nat.eqb_eq in E. rewrite count_rows_zero in E. unfold ret.
    rewrite update_rows_none by done. f_equal. unfold clean in Hc. destruct w as [d sd]; simpl in *.
    subst sd. f_equal; destruct d as [? ? ? ? ? ? ? ? ? [] ?]; done.
  - unfold audit_append. rewrite sql_insert_run by done.
    rewrite bool_decide_eq_true_2 by done. simpl.
    destruct (t_audit (db w) !! _); simpl; [|done]. f_equal. unfold clean in Hc.
    destruct w as [d sd]; simpl in *. by subst sd.
Qed.
End Service.

(** ** Properties *)

(** The recursive team query always ends, with exactly the people who report to the root
    directly or through others, the root included when a member. *)
Theorem team_is_reachable context root w :
  clean w →
  ∃ team, subtree_of context root w = (Ok team, w) ∧
    ∀ u, u ∈ team ↔
      root ∈ users_of (members_in context w) ∧ rtc (reports (members_in context w)) root u.
Proof.
  intros Hc. exists (subtree (members_in context w) root). split; [by apply subtree_run|].
  intros u. apply subtree_elem.
Qed.

Section Outcome.
Context (authz : ScopeAuthorizationService) (context : AccessContext) (user_id : uuid)
  (manager : option uuid).

Definition tick (w : World) : World :=
  MkWorld (db w) (saved w) (db_now w) (utc w) (S (utc_reads w)) (ids w) (S (ids_issued w))
    (effects w).

(** The write on its own. *)
Lemma set_manager_write_run w :
  clean w → unique_ok (t_memberships (t_org (db w))) = true →
  let audit := manager_audit context user_id manager w in
  let d := managed_db context user_id manager audit (db w) in
  set_manager_write context user_id manager w =
    if bool_decide (user_id ∈ users_of (members_in context w))
    then match t_audit (db w) !! row_key audit with
         | None => (Ok tt, set_saved d (set_db d (tick w)))
         | Some _ => (Raise (Exn (IntegrityError "audit_events_pkey")
                        "duplicate key value violates unique constraint"), tick w)
         end
    else (Raise (Exn NotFoundError "no such member in this workspace"), tick w).
Proof.
  intros Hc Hu audit d. unfold set_manager_write, bind, new_uuid, now_utc.
  cbn [fst snd]. change (make_audit_event _) with (Ok audit). cbn [lift_res].
  change (repo_set_manager context user_id manager audit _)
    with (repo_set_manager context user_id manager audit (tick w)).
  rewrite repo_set_manager_run by done. change (db (tick w)) with (db w).
  change (members_in context (tick w)) with (members_in context w).
  case_bool_decide; [|done]. by destruct (t_audit (db w) !! row_key audit).
Qed.

(** A request ends in one of two ways: the whole assignment committed, or a
    database as it was. *)
Lemma set_manager_cases w :
  clean w → unique_ok (t_memberships (t_org (db w))) = true →
  let audit := manager_audit context user_id manager w in
  let d := managed_db context user_id manager audit (db w) in
  if is_ok (set_manager authz context user_id manager w).1
  then may_manage authz context user_id manager w ∧
       user_id ∈ users_of (members_in context w) ∧ t_audit (db w) !! row_key audit = None ∧
       (set_manager authz context user_id manager w).2 = set_saved d (set_db d (tick w))
  else (¬ may_manage authz context user_id manager w ∨
        user_id ∉ users_of (members_in context w) ∨
        is_Some (t_audit (db w) !! row_key audit)) ∧
       ((set_manager authz context user_id manager w).2 = w ∨
        (set_manager authz context user_id manager w).2 = tick w).
Proof.
  intros Hc Hu audit d.
  destruct (checks_run authz context user_id manager w Hc) as (r & E & Hr).
  assert (set_manager authz context user_id manager w =
    match r with
    | Ok _ => set_manager_write context user_id manager w
    | Raise e => (Raise e, w)
    end) as -> by (unfold set_manager, bind; rewrite E; by destruct r).
  destruct r as [[]|e].
  2: { simpl. split; [left|by left]. intros Hm. by apply Hr in Hm. }
  pose proof (proj1 Hr eq_refl) as Hm. rewrite set_manager_write_run by done.
  case_bool_decide as Hmem; [|simpl; eauto].
  fold audit. destruct (t_audit (db w) !! row_key audit) eqn:Ha; simpl; eauto.
Qed.
End Outcome.

(** Setting a manager succeeds exactly for a caller with the right, a manager of the
    workspace who is not the member and does not report to them, and a member of the
    workspace; it writes that one column and one audit event, and any refusal leaves the
    database as it was. *)
Theorem set_manager_exact authz context user_id manager w :
  clean w → unique_ok (t_memberships (t_org (db w))) = true →
  let '(r, w') := set_manager authz context user_id manager w in
  let audit := manager_audit context user_id manager w in
  (r = Ok tt ↔ may_manage authz context user_id manager w ∧
               user_id ∈ users_of (members_in context w) ∧
               t_audit (db w) !! row_key audit = None) ∧
  clean w' ∧
  db w' = match r with
          | Ok _ => managed_db context user_id manager audit (db w)
          | Raise _ => db w
          end.
Proof.
  intros Hc Hu. pose proof (set_manager_cases authz context user_id manager w Hc Hu) as H.
  destruct (set_manager authz context user_id manager w) as [[[]|e] w']; simpl in H.
  - destruct H as (? & ? & ? & ->). done.
  - destruct H as [Hn Hw]. split; [|by destruct Hw as [->| ->]].
    split; [done|]. intros (? & ? & E). destruct Hn as [|[|[? E']]]; [done..|].
    cbn in E, E'. congruence.
Qed.

(** Every team of every workspace is a forest. *)
Definition forests (w : World) : Prop :=
  ∀ tenant ws, forest (workspace_members tenant ws (t_memberships (t_org (db w)))).

Definition set_manager_step (w w' : World) : Prop :=
  ∃ authz context user_id manager, w' = (set_manager authz context user_id manager w).2.

Definition hierarchy_ok (w : World) : Prop :=
  clean w ∧ unique_ok (t_memberships (t_org (db w))) = true ∧ forests w.

Lemma set_manager_hierarchy w w' : hierarchy_ok w → set_manager_step w w' → hierarchy_ok w'.
Proof.
  intros (Hc & Hu & Hf) (authz & context & user_id & manager & ->).
  pose proof (set_manager_cases authz context user_id manager w Hc Hu) as H.
  destruct (is_ok _).
  2: by destruct H as [_ [-> | ->]].
  destruct H as (Hm & Hmem & _ & ->). split_and!; [done| |].
  - simpl. apply unique_ok_update; [by right|done].
  - intros tenant ws.
    refine (moved_acyclic (reports (workspace_members tenant ws (t_memberships (t_org (db w)))))
             _ user_id (if bool_decide (tenant = tenant_id context ∧ ws = workspace_id context)
                        then manager else None) _ _ (Hf tenant ws)).
    + intros a b [|(-> & -> & -> & ->)]%reports_moved; [by left|right].
      by rewrite bool_decide_eq_true_2.
    + intros a. case_bool_decide as E; [|done]. destruct E as [-> ->]. intros -> Hr.
      destruct Hm as [_ Hm]. destruct (Hm a eq_refl) as (_ & _ & Hb). apply Hb.
      apply subtree_elem. by split.
Qed.

(** C33: assignments of managers made one after the other never make anyone report, directly
    or through others, to themselves. *)
Theorem set_managers_keep_forest w w' :
  clean w → unique_ok (t_memberships (t_org (db w))) = true → forests w →
  rtc set_manager_step w w' → forests w'.
Proof.
  intros Hc Hu Hf Hs. assert (hierarchy_ok w) as Hok by done. clear Hc Hu Hf.
  induction Hs as [w|w1 w2 w3 H12 _ IH]; [by destruct Hok as (_ & _ & ?)|].
  by eapply IH, set_manager_hierarchy.
Qed.

(** ** Two requests at once *)

Lemma reports_managed context user_id manager t m a :
  m ∈ workspace_members (tenant_id context) (workspace_id context) t → mb_user_id m = user_id →
  manager = Some a →
  reports (workspace_members (tenant_id context) (workspace_id context)
    (update_rows (managed context user_id) (with_manager manager) t)) a user_id.
Proof.
  intros [Hw [k Hk]]%elem_of_workspace Hu ->. exists (with_manager (Some a) m).
  split; [|done]. apply elem_of_workspace. split; [exact Hw|]. exists k.
  rewrite lookup_update_rows, Hk. simpl. by rewrite (proj2 (managed_spec context user_id m)).
Qed.

Lemma reports_kept context user_id manager t a b :
  b ≠ user_id →
  reports (workspace_members (tenant_id context) (workspace_id context) t) a b →
  reports (workspace_members (tenant_id context) (workspace_id context)
    (update_rows (managed context user_id) (with_manager manager) t)) a b.
Proof.
  intros Hb (m & [Hw [k Hk]]%elem_of_workspace & Hm & E). exists m. split; [|done].
  apply elem_of_workspace. split; [done|]. exists k. rewrite lookup_update_rows, Hk. simpl.
  destruct (managed context user_id m) eqn:Ep; [|done].
  apply managed_spec in Ep as [_ Ep]. congruence.
Qed.

Lemma users_managed context user_id manager t u :
  u ∈ users_of (workspace_members (tenant_id context) (workspace_id context) t) →
  ∃ m, m ∈ workspace_members (tenant_id context) (workspace_id context)
             (update_rows (managed context user_id) (with_manager manager) t) ∧ mb_user_id m = u.
Proof.
  intros (m & [Hw [k Hk]]%elem_of_workspace & <-)%elem_of_users.
  exists (if managed context user_id m then with_manager manager m else m).
  split; [|by destruct (managed _ _ _)]. apply elem_of_workspace.
  split; [by destruct (managed _ _ _)|]. exists k. by rewrite lookup_update_rows, Hk.
Qed.

(** Two assignments whose checks both pass before either writes leave a person who reports
    to themselves: the check and the write are in separate transactions. *)
Theorem interleaved_managers_make_cycle authz context a b w :
  clean w → unique_ok (t_memberships (t_org (db w))) = true →
  may_manage authz context a (Some b) w → may_manage authz context b (Some a) w →
  t_audit (db w) !! (ids w (ids_issued w), utc w (utc_reads w)) = None →
  t_audit (db w) !! (ids w (S (ids_issued w)), utc w (S (utc_reads w))) = None →
  ids w (ids_issued w) ≠ ids w (S (ids_issued w)) →
  let run := set_manager_checks authz context a (Some b) ;;;
             set_manager_checks authz context b (Some a) ;;;
             set_manager_write context a (Some b) ;;;
             set_manager_write context b (Some a) in
  (run w).1 = Ok tt ∧ tc (reports (members_in context (run w).2)) a a.
Proof.
  intros Hc Hu Ha Hb Hk1 Hk2 Hne run.
  destruct Ha as [Hal Ha]. destruct (Ha b eq_refl) as (Hba & Hbm & Hbs).
  destruct Hb as [_ Hb]. destruct (Hb a eq_refl) as (Hab & Ham & Has).
  destruct (checks_run authz context a (Some b) w Hc) as (r1 & E1 & Hr1).
  destruct (checks_run authz context b (Some a) w Hc) as (r2 & E2 & Hr2).
  rewrite (proj2 Hr1) in E1 by (split; [done|by intros ? [= <-]]).
  rewrite (proj2 Hr2) in E2 by (split; [done|by intros ? [= <-]]).
  set (e1 := manager_audit context a (Some b) w).
  set (w1 := set_saved (managed_db context a (Some b) e1 (db w))
               (set_db (managed_db context a (Some b) e1 (db w)) (tick w))).
  set (e2 := manager_audit context b (Some a) w1).
  set (w2 := set_saved (managed_db context b (Some a) e2 (db w1))
               (set_db (managed_db context b (Some a) e2 (db w1)) (tick w1))).
  assert (run w = (Ok tt, w2)) as ->.
  { unfold run, bind. rewrite E1, E2. rewrite set_manager_write_run by done.
    rewrite bool_decide_eq_true_2 by done. fold e1.
    assert (t_audit (db w) !! row_key e1 = None) as -> by exact Hk1. fold w1.
    rewrite set_manager_write_run; [|done|apply unique_ok_update; [by right|exact Hu]].
    destruct (users_managed context a (Some b) _ b Hbm) as (m & Hm & Hmb).
    rewrite bool_decide_eq_true_2 by (apply elem_of_users; exists m; by split). fold e2.
    assert (t_audit (db w1) !! row_key e2 = None) as ->; [|done].
    cbn. rewrite lookup_insert_ne; [exact Hk2|]. intros [= E _]. done. }
  split; [done|].
  apply elem_of_users in Ham as (ma & Hma & Eua).
  destruct (users_managed context a (Some b) _ b Hbm) as (mb & Hmb & Eub).
  apply (tc_l _ _ b).
  - eapply reports_managed; done.
  - apply tc_once. apply reports_kept; [done|]. eapply reports_managed; done.
Qed.

(** ** Concrete instances *)

Lemma no_managers_forest t :
  (∀ k m, t !! k = Some m → mb_manager_user_id m = None) →
  ∀ tenant ws, forest (workspace_members tenant ws t).
Proof.
  intros Hn tenant ws u Hu.
  assert (∃ a, reports (workspace_members tenant ws t) u a) as (a & m & Hm & _ & E)
    by (inversion Hu; eauto).
  apply elem_of_workspace in Hm as [_ [k Hk]]. rewrite (Hn k m Hk) in E. done.
Qed.

Definition example_member (id user : uuid) : MembershipRow :=
  {| mb_id := id; mb_tenant_id := 10; mb_workspace_id := 20; mb_user_id := user;
     mb_role_keys := []; mb_permission_set_keys := []; mb_clearance := "internal";
     mb_department := "general"; mb_manager_user_id := None; mb_created_at := 0 |}.

Definition example_members : gmap uuid MembershipRow :=
  {[ 1%N := example_member 1 101; 2%N := example_member 2 102 ]}.

Definition example_team : World :=
  example_world (set_org (set_memberships example_members empty_org) empty_db) 0.

Definition example_org_admin : AccessContext :=
  {| tenant_id := 10; workspace_id := 20; principal_id := 101; roles := ∅; groups := ∅;
     scopes := {[ MEMBERS_WRITE ]}; clearance := "internal"; plan_id := "p";
     feature_flags := ∅; record_visibility := "open"; visible_owners := None;
     max_autonomy_level := A0; support := None |}.

Lemma team_is_reachable_witness :
  ∃ team, subtree_of example_org_admin 101%N example_team = (Ok team, example_team) ∧
    ∀ u, u ∈ team ↔ 101%N ∈ users_of (members_in example_org_admin example_team) ∧
      rtc (reports (members_in example_org_admin example_team)) 101%N u.
Proof. apply (team_is_reachable example_org_admin 101%N example_team). done. Defined.

Lemma set_manager_exact_witness :
  let p := set_manager default_authorization example_org_admin 102%N (Some 101%N) example_team in
  is_ok p.1 = true ∧ clean p.2 ∧
  bool_decide (subtree (members_in example_org_admin p.2) 101%N = {[ 101%N; 102%N ]}) = true.
Proof.
  intros p. split_and!; [by vm_compute| |by vm_compute].
  pose proof (set_manager_exact default_authorization example_org_admin 102%N (Some 101%N)
    example_team eq_refl ltac:(by vm_compute)) as H.
  subst p. destruct (set_manager _ _ _ _ _). apply H.
Defined.

Lemma set_managers_keep_forest_witness :
  forests (set_manager default_authorization example_org_admin 102%N (Some 101%N) example_team).2.
Proof.
  apply (set_managers_keep_forest example_team).
  - done.
  - by vm_compute.
  - intros tenant ws. refine (no_managers_forest _ _ tenant ws). intros k m Hk.
    change (example_members !! k = Some m) in Hk. unfold example_members in Hk.
    by apply lookup_insert_Some in Hk as [[<- <-]|[_ [<- <-]%lookup_singleton_Some]].
  - apply rtc_once. by repeat eexists.
Defined.

Lemma interleaved_managers_make_cycle_witness :
  let run := set_manager_checks default_authorization example_org_admin 101%N (Some 102%N) ;;;
             set_manager_checks default_authorization example_org_admin 102%N (Some 101%N) ;;;
             set_manager_write example_org_admin 101%N (Some 102%N) ;;;
             set_manager_write example_org_admin 102%N (Some 101%N) in
  (run example_team).1 = Ok tt ∧
  tc (reports (members_in example_org_admin (run example_team).2)) 101%N 101%N.
Proof.
  apply (interleaved_managers_make_cycle default_authorization example_org_admin 101%N 102%N
    example_team); try done; try (by vm_compute).
  all: split; [done|]; intros ? [= <-]; split_and!; [done|by apply (bool_decide_eq_true_1 _); vm_compute..].
Defined.
