(* ===== verification/Membership.v ===== *)
(** * Who is behind a request: memberships and access contexts

    [persistence/membership_lookup.py] (what a membership holds, for a signed-in
    caller and for a linked chat), [persistence/scope_holders.py] (who holds a
    scope), [application/identity.py] and [application/channel_access.py] (the
    two doors an access context comes through). *)

From S2P Require Import Prelude Errors Kernel Domain Contracts Accounts Store Hierarchy.
Local Open Scope prog_scope.
Local Open Scope pystr_scope.

Definition _RECORDS_ALL_READ : pystr := "crm.records.all.read".

(** [MembershipAccess] *)
Record MembershipAccess := {
  ma_tenant_id : uuid;
  ma_workspace_id : uuid;
  ma_principal_id : uuid;
  ma_roles : gset pystr;
  ma_scopes : gset pystr;
  ma_groups : gset pystr;
  ma_clearance : pystr;
  ma_plan_id : pystr;
  ma_feature_flags : gset pystr;
  ma_record_visibility : pystr;
  ma_visible_owners : option (gset uuid);
  ma_max_autonomy_level : AutonomyLevel }.

(** ** [membership_lookup.py] *)

(** [SELECT scopes FROM catalogue WHERE key IN keys], unioned. *)
Definition scopes_in (catalogue : gmap pystr (list pystr)) (keys : list pystr) : gset pystr :=
  ⋃ ((λ k, list_to_set (default [] (catalogue !! k))) <$> keys).

Definition effective_scopes (o : OrgDb) (role_keys permission_set_keys : list pystr)
    : gset pystr :=
  scopes_in (t_roles o) role_keys ∪ scopes_in (t_permission_sets o) permission_set_keys.

(** The tenant's plan and flags: [entitlements] joined with [plans]. *)
Definition plan_of (o : OrgDb) (tenant : uuid) : option (pystr * gset pystr) :=
  '(_, e) ← head (filter (λ kv, en_tenant_id kv.2 = tenant) (map_to_list (t_entitlements o)));
  features ← t_plans o !! en_plan_id e;
  Some (en_plan_id e, list_to_set features ∪ list_to_set (en_feature_overrides e)).

(** [_access_in], on the rows it reads.  [user_clause] selects the user;
    [first()] takes whichever row comes first. *)
Definition access_in (o : OrgDb) (user_clause : uuid → bool) (tenant workspace : uuid)
    (ceiling : option (gset pystr)) : option MembershipAccess :=
  m ← head (filter (λ m, user_clause (mb_user_id m) = true)
              (workspace_members tenant workspace (t_memberships o)));
  t ← t_tenants o !! tenant;
  if negb (bool_decide (tn_status t = "active"%py)) then None else
  let effective := effective_scopes o (mb_role_keys m) (mb_permission_set_keys m) in
  let scopes := match ceiling with Some c => effective ∩ c | None => effective end in
  let role_keys : gset pystr :=
    match ceiling with Some _ => ∅ | None => list_to_set (mb_role_keys m) end in
  '(plan, flags) ← plan_of o tenant;
  let sees_everything := bool_decide (_RECORDS_ALL_READ ∈ scopes)
                         || bool_decide (PLATFORM_ADMIN_ROLE ∈ role_keys) in
  let visible_owners :=
    if bool_decide (tn_record_visibility t = "restricted"%py) && negb sees_everything
    then Some (subtree (workspace_members tenant workspace (t_memberships o)) (mb_user_id m))
    else None in
  Some {| ma_tenant_id := tenant; ma_workspace_id := workspace;
          ma_principal_id := mb_user_id m; ma_roles := role_keys; ma_scopes := scopes;
          ma_groups := ∅; ma_clearance := mb_clearance m; ma_plan_id := plan;
          ma_feature_flags := flags; ma_record_visibility := tn_record_visibility t;
          ma_visible_owners := visible_owners;
          ma_max_autonomy_level := tn_max_autonomy_level t |}.

(** The users a verified (issuer, subject) stands for. *)
Definition candidate_users (o : OrgDb) (issuer subject : pystr) (user : uuid) : bool :=
  existsb (λ u, bool_decide (us_id u = user) && bool_decide (us_subject u = subject))
    (map_to_list (t_users o)).*2
  || existsb (λ x, bool_decide (xi_user_id x = user) && bool_decide (xi_issuer x = issuer)
                   && bool_decide (xi_subject x = subject)
                   && negb (bool_decide (xi_provider x ∈ CHANNEL_LINK_PROVIDERS)))
       (map_to_list (t_external_identities o)).*2.

(** [SqlMembershipLookup] *)
Definition find_access (subject issuer : pystr) (tenant workspace : uuid)
    : Prog (option MembershipAccess) :=
  session_begin (gets (λ w, let o := t_org (db w) in
    access_in o (candidate_users o issuer subject) tenant workspace None)).

Definition find_linked_access (user_id tenant workspace : uuid) (ceiling : gset pystr)
    : Prog (option MembershipAccess) :=
  session_begin (gets (λ w,
    access_in (t_org (db w)) (λ u, bool_decide (u = user_id)) tenant workspace (Some ceiling))).

(** ** [identity.py] and [channel_access.py] *)

Definition context_from (a : MembershipAccess) : AccessContext :=
  {| tenant_id := ma_tenant_id a; workspace_id := ma_workspace_id a;
     principal_id := ma_principal_id a; roles := ma_roles a; groups := ma_groups a;
     scopes := ma_scopes a; clearance := ma_clearance a; plan_id := ma_plan_id a;
     feature_flags := ma_feature_flags a; record_visibility := ma_record_visibility a;
     visible_owners := ma_visible_owners a; max_autonomy_level := ma_max_autonomy_level a;
     support := None |}.

(** [DbAccessContextFactory.build], for a verified subject and issuer. *)
Definition build (subject issuer : pystr) (requested_tenant_id requested_workspace_id : option uuid)
    : Prog AccessContext :=
  match requested_tenant_id, requested_workspace_id with
  | Some tenant, Some workspace =>
      let! access := find_access subject issuer tenant workspace in
      match access with
      | None => raise PermissionDeniedError "no membership for the requested tenant/workspace"
      | Some a => ret (context_from a)
      end
  | _, _ => raise TenantContextMissingError "X-Tenant-Id and X-Workspace-Id headers are required"
  end.

(** [LinkedUserAccess.access_for] *)
Definition access_for (user_id tenant workspace : uuid) (ceiling : gset pystr)
    : Prog (option AccessContext) :=
  let! access := find_linked_access user_id tenant workspace ceiling in
  ret (context_from <$> access).

(** ** [scope_holders.py] *)

(** [ORDER BY user_id] *)
Definition by_user (a b : MembershipRow) : Prop := (mb_user_id a <= mb_user_id b)%N.

#[export] Instance by_user_dec : RelDecision by_user.
Proof. intros a b. unfold by_user. apply _. Defined.

(** [_members]: the memberships of a workspace of an active tenant, by user id. *)
Definition _members (o : OrgDb) (tenant workspace : uuid) (user_id : option uuid)
    : list MembershipRow :=
  if bool_decide (tn_status <$> t_tenants o !! tenant = Some "active"%py)
  then merge_sort by_user
         (filter (λ m, from_option (λ u, bool_decide (mb_user_id m = u)) true user_id = true)
            (workspace_members tenant workspace (t_memberships o)))
  else [].

Definition _scopes_of (o : OrgDb) (m : MembershipRow) : gset pystr :=
  effective_scopes o (mb_role_keys m) (mb_permission_set_keys m).

Definition holding (tenant workspace : uuid) (wanted : gset pystr) : Prog (list uuid) :=
  if bool_decide (wanted = ∅) then ret []
  else session_begin (gets (λ w, let o := t_org (db w) in
    mb_user_id <$> filter (λ m, _scopes_of o m ∩ wanted ≠ ∅) (_members o tenant workspace None))).

Definition scopes_of (tenant workspace user_id : uuid) : Prog (gset pystr) :=
  session_begin (gets (λ w, let o := t_org (db w) in
    match _members o tenant workspace (Some user_id) with
    | [m] => _scopes_of o m
    | _ => ∅
    end)).

Definition holds (tenant workspace user_id : uuid) (scope : pystr) : Prog bool :=
  if negb (py_truthy scope) then ret false
  else let! held := scopes_of tenant workspace user_id in
       ret (bool_decide (scope ∈ held)).

(** ** Lemmas *)

Lemma elem_of_scopes_in catalogue keys x :
  x ∈ scopes_in catalogue keys ↔ ∃ k l, k ∈ keys ∧ catalogue !! k = Some l ∧ x ∈ l.
Proof.
  unfold scopes_in. rewrite elem_of_union_list. setoid_rewrite list_elem_of_fmap. split.
  - intros (X & (k & -> & Hk) & Hx). destruct (catalogue !! k) as [l|] eqn:E; [|set_solver].
    exists k, l. simpl in Hx. by rewrite elem_of_list_to_set in Hx.
  - intros (k & l & Hk & E & Hx). eexists. split; [by exists k|]. rewrite E. simpl.
    by rewrite elem_of_list_to_set.
Qed.

Lemma head_elem {A} (l : list A) x : head l = Some x → x ∈ l.
Proof. destruct l; [done|]. intros [= ->]. left. Qed.

Lemma plan_of_some o tenant plan flags :
  plan_of o tenant = Some (plan, flags) →
  ∃ e features, (∃ k, t_entitlements o !! k = Some e) ∧ en_tenant_id e = tenant ∧
    en_plan_id e = plan ∧ t_plans o !! plan = Some features ∧
    flags = list_to_set features ∪ list_to_set (en_feature_overrides e).
Proof.
  unfold plan_of. intros ([k e] & Hh & H)%bind_Some. apply head_elem, list_elem_of_filter in Hh.
  destruct Hh as [Ht Hk%elem_of_map_to_list]. apply bind_Some in H as (features & Hf & [= <- <-]).
  exists e, features. split_and!; eauto.
Qed.

(** What an answer of [_access_in] rests on: the membership, the tenant and the
    plan that were read. *)
Record access_from (o : OrgDb) (user_clause : uuid → bool) (tenant workspace : uuid)
    (ceiling : option (gset pystr)) (a : MembershipAccess) : Prop := {
  af_place : ma_tenant_id a = tenant ∧ ma_workspace_id a = workspace;
  af_user : user_clause (ma_principal_id a) = true;
  af_tenant : ∃ t, t_tenants o !! tenant = Some t ∧ tn_status t = "active"%py ∧
                   ma_max_autonomy_level a = tn_max_autonomy_level t ∧
                   ma_record_visibility a = tn_record_visibility t;
  af_member : ∃ m, m ∈ workspace_members tenant workspace (t_memberships o) ∧
                mb_user_id m = ma_principal_id a ∧ ma_clearance a = mb_clearance m ∧
                match ceiling with
                | Some c => ma_roles a = ∅ ∧ ma_scopes a = _scopes_of o m ∩ c
                | None => ma_roles a = list_to_set (mb_role_keys m) ∧ ma_scopes a = _scopes_of o m
                end;
  af_plan : plan_of o tenant = Some (ma_plan_id a, ma_feature_flags a);
  af_owners : ma_visible_owners a =
    if bool_decide (ma_record_visibility a = "restricted"%py)
       && negb (bool_decide (_RECORDS_ALL_READ ∈ ma_scopes a)
                || bool_decide (PLATFORM_ADMIN_ROLE ∈ ma_roles a))
    then Some (subtree (workspace_members tenant workspace (t_memberships o)) (ma_principal_id a))
    else None }.

Lemma access_in_from o user_clause tenant workspace ceiling a :
  access_in o user_clause tenant workspace ceiling = Some a →
  access_from o user_clause tenant workspace ceiling a.
Proof.
  unfold access_in. intros (m & Hm & (t & Ht & H)%bind_Some)%bind_Some.
  apply head_elem, list_elem_of_filter in Hm as [Hu Hm].
  destruct (bool_decide (tn_status t = _)) eqn:Hs; simpl in H; [to_prop|done].
  apply bind_Some in H as ([plan flags] & Hp & [= <-]).
  split; simpl; [done|done|eauto 6| |done|by destruct ceiling].
  exists m. split_and!; [done..|]. by destruct ceiling.
Qed.

(** A context cut to a ceiling passes a scope check only for a scope of the
    ceiling that the membership itself holds: no role stands in for it. *)
Lemma capped_allowed o user_clause tenant workspace c a authz action :
  access_from o user_clause tenant workspace (Some c) a →
  is_allowed authz (context_from a) action = true →
  action ∈ c ∧ ∃ m, m ∈ workspace_members tenant workspace (t_memberships o) ∧
                    mb_user_id m = ma_principal_id a ∧ action ∈ _scopes_of o m.
Proof.
  intros Ha. destruct (af_member _ _ _ _ _ _ Ha) as (m & Hm & Hu & _ & Hr & Hs).
  unfold is_allowed. simpl. rewrite Hr, Hs, orb_true_iff, !bool_decide_eq_true.
  intros [?|?]; [set_solver|]. split; [set_solver|]. exists m. set_solver.
Qed.

Lemma access_for_run user_id tenant workspace ceiling w :
  clean w →
  access_for user_id tenant workspace ceiling w =
    (Ok (context_from <$> access_in (t_org (db w)) (λ u, bool_decide (u = user_id)) tenant workspace
           (Some ceiling)), w).
Proof.
  intros Hc. unfold access_for, bind, find_linked_access.
  by rewrite session_begin_gets.
Qed.

Lemma scopes_of_run tenant workspace user_id w :
  clean w →
  scopes_of tenant workspace user_id w =
    (Ok match _members (t_org (db w)) tenant workspace (Some user_id) with
        | [m] => _scopes_of (t_org (db w)) m
        | _ => ∅
        end, w).
Proof. intros Hc. unfold scopes_of. by rewrite session_begin_gets. Qed.

Lemma elem_of_members o tenant workspace user_id m :
  m ∈ _members o tenant workspace user_id ↔
    (∃ t, t_tenants o !! tenant = Some t ∧ tn_status t = "active"%py) ∧
    m ∈ workspace_members tenant workspace (t_memberships o) ∧
    ∀ u, user_id = Some u → mb_user_id m = u.
Proof.
  unfold _members. case_bool_decide as Ht.
  - apply fmap_Some in Ht as (t & Ht & Hs). rewrite merge_sort_Permutation, list_elem_of_filter.
    split.
    + intros [Hu Hm]. split_and!; [by exists t|done|]. intros u ->. simpl in Hu. by to_prop.
    + intros (_ & Hm & Hu). split; [|done]. destruct user_id as [u|]; [|done]. simpl.
      by apply bool_decide_eq_true, Hu.
  - split; [by intros ?%not_elem_of_nil|]. intros ((t & E & Hs) & _). rewrite E in Ht.
    destruct Ht. simpl. by rewrite Hs.
Qed.

(** The one membership of a user in a workspace. *)
Lemma member_rows_one tenant workspace t m u :
  unique_ok t = true → m ∈ workspace_members tenant workspace t → mb_user_id m = u →
  filter (λ x, bool_decide (mb_user_id x = u) = true) (workspace_members tenant workspace t) = [m].
Proof.
  intros Hu [Hw [k Hk]]%elem_of_workspace Huser. unfold workspace_members.
  rewrite list_filter_filter.
  set (p := λ x, in_workspace tenant workspace x && bool_decide (mb_user_id x = u)).
  rewrite <- (select_one p t k m Hk).
  - apply list_filter_iff. intros x. unfold p. simpl. rewrite andb_true_iff. tauto.
  - unfold p. by rewrite Hw, bool_decide_eq_true_2.
  - intros k' x Hk' Hp. unfold p, in_workspace in *. to_prop.
    eapply (proj1 (unique_ok_spec _) Hu k' k x m); [done|done|done|]. simpl. congruence.
Qed.

Lemma members_one o tenant workspace m u :
  unique_ok (t_memberships o) = true →
  m ∈ _members o tenant workspace (Some u) → _members o tenant workspace (Some u) = [m].
Proof.
  intros Hu Hm. pose proof Hm as (_ & Hw & Huser)%elem_of_members.
  unfold _members in *. case_bool_decide; [|by apply not_elem_of_nil in Hm]. simpl.
  rewrite (member_rows_one _ _ _ m) by auto. done.
Qed.

(** ** Properties *)

(** A context built for a linked chat is of a membership of an active tenant with a plan; it
    carries no role and no scope beyond both the ceiling and what the membership holds. *)
Theorem linked_access_capped user_id tenant workspace ceiling w r w' :
  clean w → access_for user_id tenant workspace ceiling w = (r, w') →
  w' = w ∧
  (r = Ok None ∨ ∃ c, r = Ok (Some c) ∧
     tenant_id c = tenant ∧ workspace_id c = workspace ∧ principal_id c = user_id ∧
     roles c = ∅ ∧ support c = None ∧
     (tn_status <$> t_tenants (t_org (db w)) !! tenant) = Some "active"%py ∧
     is_Some (plan_of (t_org (db w)) tenant) ∧
     ∀ authz action, is_allowed authz c action = true →
       action ∈ ceiling ∧
       ∃ m, m ∈ _members (t_org (db w)) tenant workspace (Some user_id) ∧
            action ∈ _scopes_of (t_org (db w)) m).
Proof.
  intros Hc. rewrite access_for_run by done. intros [= <- <-]. split; [done|].
  destruct (access_in _ _ _ _ _) as [a|] eqn:E; [right|by left].
  apply access_in_from in E. exists (context_from a). split; [done|].
  destruct (af_place _ _ _ _ _ _ E) as [Ht Hw]. pose proof (af_user _ _ _ _ _ _ E) as Hu.
  apply bool_decide_eq_true in Hu.
  destruct (af_tenant _ _ _ _ _ _ E) as (t & Et & Hs & _).
  destruct (af_member _ _ _ _ _ _ E) as (m & _ & _ & _ & Hr & _).
  split_and!; [done..| | |].
  - rewrite Et. simpl. by rewrite Hs.
  - rewrite (af_plan _ _ _ _ _ _ E). eauto.
  - intros authz action Ha. eapply capped_allowed in Ha as (Hin & m' & Hm' & Hu' & Hx); [|done].
    split; [done|]. exists m'. split; [|done]. apply elem_of_members. split_and!; [eauto|done|].
    intros u [= <-]. congruence.
Qed.

(** A signed-in caller gets a context exactly when the verified identity, never a linked
    chat, names a member of the requested workspace of an active tenant with a plan;
    everything in it comes from those rows, the visible owners being the caller's team
    where records are restricted. *)
Theorem signed_in_context subject issuer tenant workspace w :
  clean w →
  let o := t_org (db w) in
  let '(r, w') := build subject issuer (Some tenant) (Some workspace) w in
  w' = w ∧
  match r with
  | Ok c => ∃ a, access_from o (candidate_users o issuer subject) tenant workspace None a ∧
                 c = context_from a
  | Raise e => e = Exn PermissionDeniedError "no membership for the requested tenant/workspace" ∧
      ((∀ m, m ∈ workspace_members tenant workspace (t_memberships o) →
             candidate_users o issuer subject (mb_user_id m) = false) ∨
       (tn_status <$> t_tenants o !! tenant) ≠ Some "active"%py ∨ plan_of o tenant = None)
  end.
Proof.
  intros Hc o. unfold build, find_access, bind. rewrite session_begin_gets by done. fold o. cbn.
  destruct (access_in _ _ _ _ _) as [a|] eqn:E; simpl.
  { split; [done|]. exists a. by split; [apply access_in_from|]. }
  split; [done|]. split; [done|]. unfold access_in in E.
  destruct (head _) as [m0|] eqn:Hh; simpl in E.
  - right. destruct (t_tenants o !! tenant) as [t|] eqn:Et; simpl in E |- *; [|by left].
    destruct (bool_decide (tn_status t = _)) eqn:Hs; simpl in E; to_prop; [right|left; congruence].
    by destruct (plan_of o tenant) as [[? ?]|].
  - left. destruct (filter _ _) eqn:Hf; [|done]. rewrite filter_nil_iff in Hf.
    intros m Hm. apply not_true_is_false. auto.
Qed.

(** Listing who holds a scope and asking whether one person holds it give the same answer. *)
Theorem holders_agree tenant workspace user_id scope w :
  clean w → unique_ok (t_memberships (t_org (db w))) = true → py_truthy scope = true →
  ∃ told may,
    holding tenant workspace {[ scope ]} w = (Ok told, w) ∧
    holds tenant workspace user_id scope w = (Ok may, w) ∧
    (user_id ∈ told ↔ may = true) ∧
    ∀ ceiling c, access_for user_id tenant workspace ceiling w = (Ok (Some c), w) →
      has_scope c scope = may && bool_decide (scope ∈ ceiling).
Proof.
  intros Hc Hu Hs. set (o := t_org (db w)).
  set (held := match _members o tenant workspace (Some user_id) with
               | [m] => _scopes_of o m | _ => ∅ end).
  exists (mb_user_id <$> filter (λ m, _scopes_of o m ∩ {[ scope ]} ≠ ∅)
            (_members o tenant workspace None)), (bool_decide (scope ∈ held)).
  split; [|split; [|split]].
  - unfold holding. rewrite bool_decide_eq_false_2 by set_solver. by rewrite session_begin_gets.
  - unfold holds, bind. rewrite Hs. cbn [negb]. by rewrite scopes_of_run.
  - rewrite bool_decide_eq_true, list_elem_of_fmap. setoid_rewrite list_elem_of_filter.
    assert (∀ m, scope ∈ _scopes_of o m ↔ _scopes_of o m ∩ {[ scope ]} ≠ ∅) as Hin
      by (intros m; destruct (decide (scope ∈ _scopes_of o m)); set_solver).
    split.
    + intros (m & -> & Hsc & Hm). unfold held. rewrite elem_of_members in Hm.
      rewrite (members_one o tenant workspace m); [by apply Hin|done|].
      apply elem_of_members. naive_solver.
    + unfold held. intros Hx. destruct (_members o tenant workspace (Some user_id)) as [|m [|]] eqn:E;
        [set_solver| |set_solver].
      assert (m ∈ _members o tenant workspace (Some user_id)) as Hm by (rewrite E; left).
      rewrite elem_of_members in Hm. destruct Hm as (Ht & Hm & Huser). exists m.
      split_and!; [by rewrite (Huser user_id)|by apply Hin|]. apply elem_of_members. split_and!; [done|done|].
      by intros ? [=].
  - intros ceiling c. rewrite access_for_run by done. intros [= Ha]. fold o in Ha.
    apply fmap_Some in Ha as (a & Ha & ->). apply access_in_from in Ha.
    destruct (af_tenant _ _ _ _ _ _ Ha) as (t & Et & Hst & _).
    destruct (af_member _ _ _ _ _ _ Ha) as (m & Hm & Hmu & _ & _ & Hsc).
    pose proof (af_user _ _ _ _ _ _ Ha) as Hau. apply bool_decide_eq_true in Hau.
    unfold held. rewrite (members_one o tenant workspace m); [|done|].
    + unfold has_scope. simpl. rewrite Hsc. apply eq_true_iff_eq.
      rewrite andb_true_iff, !bool_decide_eq_true. set_solver.
    + apply elem_of_members. split_and!; [eauto|done|]. intros ? [= <-]. congruence.
Qed.

(** ** Concrete instances *)

Definition example_staffed : OrgDb :=
  MkOrg {[ 10%N := {| tn_id := 10; tn_slug := "acme"; tn_name := "ACME"; tn_status := "active"; tn_record_visibility := "restricted";
                      tn_max_autonomy_level := A2; tn_created_at := 0 |} ]}
    ∅
    {[ 101%N := {| us_id := 101; us_subject := "anh"; us_email := None; us_display_name := "Anh" |} ]}
    ∅
    {[ 1%N := {| mb_id := 1; mb_tenant_id := 10; mb_workspace_id := 20; mb_user_id := 101;
                 mb_role_keys := ["lead"]; mb_permission_set_keys := [];
                 mb_clearance := "confidential"; mb_department := "general";
                 mb_manager_user_id := None; mb_created_at := 0 |} ]}
    {[ 1%N := {| en_id := 1; en_tenant_id := 10; en_plan_id := "pro";
                 en_feature_overrides := [] |} ]}
    {[ "pro"%py := ["support_access"%py] ]}
    {[ "lead"%py := ["approvals.decide"%py; "runs.read"%py] ]} ∅ ∅ ∅ ∅ ∅ ∅.

Definition example_office : World := example_world (set_org example_staffed empty_db) 0.

Lemma linked_access_capped_witness :
  ∃ c, access_for 101 10 20 {[ "approvals.decide"%py ]} example_office = (Ok (Some c), example_office) ∧
       (is_allowed default_authorization c "approvals.decide" = true ∧
        is_allowed default_authorization c "runs.read" = false).
Proof.
  set (p := access_for 101 10 20 {[ "approvals.decide"%py ]} example_office).
  assert (match p.1 with
          | Ok (Some c) => is_allowed default_authorization c "approvals.decide"
                           && negb (is_allowed default_authorization c "runs.read")
          | _ => false
          end = true) as Hr by (by vm_compute).
  destruct (linked_access_capped 101 10 20 {[ "approvals.decide"%py ]} example_office p.1 p.2
              eq_refl (surjective_pairing p)) as [Hw [E|(c & E & _)]]; rewrite E in Hr; [done|].
  exists c. split; [|by to_prop].
  transitivity (p.1, p.2); [apply surjective_pairing|]. by rewrite E, Hw.
Defined.

Lemma signed_in_context_witness :
  let '(r, w') := build "anh" "issuer" (Some 10%N) (Some 20%N) example_office in
  is_ok r = true ∧ w' = example_office.
Proof.
  pose proof (signed_in_context "anh" "issuer" 10 20 example_office eq_refl) as H.
  assert (is_ok (build "anh" "issuer" (Some 10%N) (Some 20%N) example_office).1 = true) as Hok
    by (by vm_compute).
  destruct (build _ _ _ _ _) as [r w']. split; [exact Hok|apply H].
Defined.

Lemma holders_agree_witness :
  ∃ told may,
    holding 10 20 {[ "runs.read"%py ]} example_office = (Ok told, example_office) ∧
    holds 10 20 101 "runs.read" example_office = (Ok may, example_office) ∧
    (101%N ∈ told ↔ may = true).
Proof.
  destruct (holders_agree 10 20 101 "runs.read" example_office) as (told & may & H1 & H2 & H3 & _);
    [done|by vm_compute|done|]. by exists told, may.
Defined.
