(* ===== verification/Separation.v ===== *)
(** * Separation of duties

    The rules the database enforces on every membership, and the waivers two
    people sign: the trigger functions of the migrations [b9862fa13a80],
    [6b26771e549d] and [f381f1694395], the guard against support staff, the
    triggered writes of [platform.memberships], then
    [persistence/separation_of_duties.py], [separation_of_duties_repo.py] and
    [application/separation_of_duties.py]. *)

From S2P Require Import Prelude Errors Kernel Domain Contracts Accounts SupportGrants Store Hierarchy Membership.
Local Open Scope prog_scope.
Local Open Scope pystr_scope.

Definition SOD_WAIVERS_WRITE : pystr := "platform.sod_waivers.write".
Definition ROLES_READ : pystr := "platform.roles.read".

(** ** The trigger functions *)

Section Rules.
Context (o : OrgDb).

(** [sod_rule_broken]: the scopes a combination of roles and sets carries meet
    both sides of the rule. *)
Definition sod_rule_broken (key : pystr) (role_keys permission_set_keys : list pystr) : bool :=
  let held := effective_scopes o role_keys permission_set_keys in
  match t_sod_rules o !! key with
  | Some s => existsb (λ scope, bool_decide (scope ∈ held)) (sr_left_scopes s)
              && existsb (λ scope, bool_decide (scope ∈ held)) (sr_right_scopes s)
  | None => false
  end.

(** [SELECT ... FROM sod_rules ORDER BY key] *)
Definition rules_by_key : list (pystr * SodRuleRow) :=
  omap (λ k, pair k <$> t_sod_rules o !! k) (py_sorted (map_to_list (t_sod_rules o)).*1).

(** The open waiver the loop looks for, confirmed. *)
Definition lifts (tenant : uuid) (key : pystr) (v : SodWaiverRow) : bool :=
  bool_decide (sw_tenant_id v = tenant) && bool_decide (sw_rule_key v = key)
  && bool_decide (sw_revoked_at v = None) && negb (bool_decide (sw_confirmed_at v = None)).

Definition waived (tenant : uuid) (key : pystr) : bool :=
  existsb (lifts tenant key) (map_to_list (t_sod_waivers o)).*2.

(** [sod_violation]: the first rule broken and not waived. *)
Fixpoint sod_loop (tenant : uuid) (role_keys permission_set_keys : list pystr)
    (candidates : list (pystr * SodRuleRow)) : option pystr :=
  match candidates with
  | [] => None
  | (key, candidate) :: rest =>
      if negb (sod_rule_broken key role_keys permission_set_keys)
      then sod_loop tenant role_keys permission_set_keys rest
      else if sr_waivable candidate && waived tenant key
      then sod_loop tenant role_keys permission_set_keys rest
      else Some key
  end.

Definition sod_violation (tenant : uuid) (role_keys permission_set_keys : list pystr)
    : option pystr :=
  sod_loop tenant role_keys permission_set_keys rules_by_key.

(** [enforce_separation_of_duties] *)
Definition enforce_separation_of_duties (new : MembershipRow) : res unit :=
  match sod_violation (mb_tenant_id new) (mb_role_keys new) (mb_permission_set_keys new) with
  | Some key => Raise (Exn (IntegrityError key) ("separation of duties: " +++ key))
  | None => Ok tt
  end.

Definition NOT_SUPPORT_STAFF : pystr := "ck_memberships_not_support_staff".

(** [refuse_support_staff_membership] *)
Definition refuse_support_staff_membership (new : MembershipRow) : res unit :=
  if bool_decide (mb_user_id new ∈ t_support_staff o)
  then Raise (Exn (IntegrityError NOT_SUPPORT_STAFF)
                "a support staff member cannot be a member of a tenant")
  else Ok tt.

(** The row triggers of [memberships], in the order of their names. *)
Definition membership_triggers (new : MembershipRow) : res unit :=
  match refuse_support_staff_membership new with
  | Ok _ => enforce_separation_of_duties new
  | Raise e => Raise e
  end.

(** [guard_sod_waiver], on INSERT and on UPDATE. *)
Definition guard_waiver_insert (new : SodWaiverRow) : res unit :=
  if negb (from_option sr_waivable false (t_sod_rules o !! sw_rule_key new))
  then Raise (Exn (IntegrityError "ck_sod_waivers_rule_waivable") "rule cannot be waived")
  else if negb (bool_decide (sw_confirmed_at new = None))
  then Raise (Exn (IntegrityError "ck_sod_waivers_second_person")
                "a waiver is confirmed by a second person, never on creation")
  else Ok tt.

Definition decided_part (v : SodWaiverRow) : uuid * uuid * pystr * pystr * uuid * datetime :=
  (sw_id v, sw_tenant_id v, sw_rule_key v, sw_reason v, sw_granted_by v, sw_granted_at v).
Definition confirmation (v : SodWaiverRow) : option datetime * option uuid * option pystr :=
  (sw_confirmed_at v, sw_confirmed_by v, sw_confirm_reason v).

Definition revoke_only : exn :=
  Exn (IntegrityError "ck_sod_waivers_revoke_only")
    "a waiver can only be confirmed, once, and revoked, once".

Definition guard_waiver_update (old new : SodWaiverRow) : res unit :=
  if negb (bool_decide (sw_revoked_at old = None))
     || negb (bool_decide (decided_part new = decided_part old))
  then Raise revoke_only
  else if bool_decide (sw_confirmed_at old = None)
          && negb (bool_decide (sw_confirmed_at new = None))
          && bool_decide (sw_revoked_at new = None)
  then Ok tt
  else if negb (bool_decide (sw_revoked_at new = None))
          && bool_decide (confirmation new = confirmation old)
  then Ok tt
  else Raise revoke_only.

(** [refuse_revoking_a_waiver_in_use], after the row was closed. *)
Definition relying (v : SodWaiverRow) : list MembershipRow :=
  filter (λ m, mb_tenant_id m = sw_tenant_id v ∧
               sod_rule_broken (sw_rule_key v) (mb_role_keys m) (mb_permission_set_keys m) = true)
    (map_to_list (t_memberships o)).*2.

Definition refuse_revoking_in_use (new : SodWaiverRow) : res unit :=
  match relying new with
  | [] => Ok tt
  | _ => Raise (Exn (IntegrityError "ck_sod_waivers_not_in_use")
                  "waiver is relied on by membership(s)")
  end.

(** [refuse_scope_change_breaking_memberships]: a role or a permission set
    changed its scopes ([o] is the catalogue as it will be). *)
Definition refuse_scope_change (carries : MembershipRow → bool) : res unit :=
  if existsb (λ m, carries m
       && negb (bool_decide (sod_violation (mb_tenant_id m) (mb_role_keys m)
                               (mb_permission_set_keys m) = None)))
       (map_to_list (t_memberships o)).*2
  then Raise (Exn (IntegrityError "ck_roles_sod_memberships")
                "changing the scopes would break a rule")
  else Ok tt.
End Rules.

(** [btrim(reason) <> ''] *)
Definition written (reason : pystr) : bool := negb (bool_decide (btrim reason = [])).

(** The CHECK constraints of [sod_waivers]. *)
Definition ck_revocation (v : SodWaiverRow) : bool :=
  eqb (bool_decide (sw_revoked_at v = None)) (bool_decide (sw_revoked_by v = None))
  && eqb (bool_decide (sw_revoked_at v = None)) (bool_decide (sw_revoke_reason v = None))
  && from_option written true (sw_revoke_reason v).
Definition ck_second_person (v : SodWaiverRow) : bool :=
  eqb (bool_decide (sw_confirmed_at v = None)) (bool_decide (sw_confirmed_by v = None))
  && eqb (bool_decide (sw_confirmed_at v = None)) (bool_decide (sw_confirm_reason v = None))
  && from_option written true (sw_confirm_reason v)
  && from_option (λ by_, negb (bool_decide (by_ = sw_granted_by v))) true (sw_confirmed_by v).

Definition waiver_checks (v : SodWaiverRow) : res unit :=
  if negb (written (sw_reason v)) then Raise (Exn (IntegrityError "ck_sod_waivers_reason") "check")
  else if negb (ck_revocation v)
  then Raise (Exn (IntegrityError "ck_sod_waivers_revocation") "check")
  else if negb (ck_second_person v)
  then Raise (Exn (IntegrityError "ck_sod_waivers_second_person") "check")
  else Ok tt.

(** ** Triggered statements *)

(** A row trigger fires for each row of the statement; the first refusal ends it. *)
Fixpoint each {A} (f : A → res unit) (l : list A) : res unit :=
  match l with
  | [] => Ok tt
  | a :: rest => match f a with Ok _ => each f rest | Raise e => Raise e end
  end.

Definition insert_membership (tenant : uuid) (m : MembershipRow) : Prog unit :=
  let! w := get_state in
  lift_res (membership_triggers (t_org (db w)) m) ;;;
  sql_insert tenant m.

(** An UPDATE of [role_keys] or [permission_set_keys]. *)
Definition update_membership (tenant : uuid) (p : MembershipRow → bool)
    (f : MembershipRow → MembershipRow) : Prog nat :=
  let! w := get_state in
  let! rows := sql_select tenant p in
  lift_res (each (membership_triggers (t_org (db w))) (f <$> rows)) ;;;
  sql_update tenant p f.

Definition insert_waiver (tenant : uuid) (v : SodWaiverRow) : Prog unit :=
  let! w := get_state in
  lift_res (guard_waiver_insert (t_org (db w)) v) ;;;
  lift_res (waiver_checks v) ;;;
  sql_insert tenant v.

(** [UPDATE sod_waivers ... RETURNING id]; [closing]: the update sets
    [revoked_at], which fires the trigger after the row. *)
Definition update_waiver (tenant : uuid) (p : SodWaiverRow → bool)
    (f : SodWaiverRow → SodWaiverRow) (closing : bool) : Prog bool :=
  let! rows := sql_select tenant p in
  lift_res (each (λ old, guard_waiver_update old (f old)) rows) ;;;
  lift_res (each waiver_checks (f <$> rows)) ;;;
  let! n := sql_update tenant p f in
  let! w := get_state in
  (when closing then lift_res (each (refuse_revoking_in_use (t_org (db w))) (f <$> rows))) ;;;
  ret (negb (n =? 0)).

(** [UPDATE roles SET scopes = ... WHERE key = key], and of a permission set, as
    a migration does it; the trigger fires when the scopes change. *)
Definition changes (catalogue : gmap pystr (list pystr)) (key : pystr) (scopes : list pystr)
    : bool :=
  from_option (λ old, negb (bool_decide (old = scopes))) false (catalogue !! key).

Definition set_role_scopes (key : pystr) (scopes : list pystr) : Prog unit :=
  session_begin (
    let! w := get_state in
    when changes (t_roles (t_org (db w))) key scopes then
      (let o := set_roles (<[key := scopes]> (t_roles (t_org (db w)))) (t_org (db w)) in
       lift_res (refuse_scope_change o (λ m, bool_decide (key ∈ mb_role_keys m))) ;;;
       modify (set_db (set_org o (db w))))).

Definition set_permission_set_scopes (key : pystr) (scopes : list pystr) : Prog unit :=
  session_begin (
    let! w := get_state in
    when changes (t_permission_sets (t_org (db w))) key scopes then
      (let o := set_permission_sets (<[key := scopes]> (t_permission_sets (t_org (db w))))
                  (t_org (db w)) in
       lift_res (refuse_scope_change o (λ m, bool_decide (key ∈ mb_permission_set_keys m))) ;;;
       modify (set_db (set_org o (db w))))).

(** ** [persistence/separation_of_duties.py] and [support_grants.py] *)

(** [refusal]: the constraint an integrity error names. *)
Definition refusal (e : exn) : option pystr :=
  match exn_cls e with IntegrityError c => Some c | _ => None end.

Definition separation_of_duties_conflict (e : exn) : option exn :=
  match refusal e with
  | Some rule => if py_startswith rule "sod_"
                 then Some (Exn ConflictError
                        "these roles cannot be held together (separation of duties)")
                 else None
  | None => None
  end.

Definition support_staff_conflict (e : exn) : option exn :=
  if bool_decide (refusal e = Some NOT_SUPPORT_STAFF)
  then Some (Exn ConflictError "a support staff member cannot be a member of a customer's tenant")
  else None.

(** The [except IntegrityError] of every membership path. *)
Definition membership_refused {A} (e : exn) : Prog A :=
  reraise (default e (match separation_of_duties_conflict e with
                      | Some c => Some c
                      | None => support_staff_conflict e
                      end)).

(** ** [SqlSeparationOfDutiesRepository] *)

Record SodWaiver := {
  sv_reason : pystr;
  sv_granted_by : uuid;
  sv_granted_at : datetime;
  sv_confirmed_by : option uuid;
  sv_confirmed_at : option datetime }.

Record SodRuleStatus := {
  rs_key : pystr;
  rs_description : pystr;
  rs_left_scopes : list pystr;
  rs_right_scopes : list pystr;
  rs_waivable : bool;
  rs_waiver : option SodWaiver }.

Definition open_waiver (tenant : uuid) (key : pystr) (v : SodWaiverRow) : bool :=
  bool_decide (sw_tenant_id v = tenant) && bool_decide (sw_rule_key v = key)
  && bool_decide (sw_revoked_at v = None).

(** The outer join: a row per rule and open waiver; the partial unique index
    leaves one waiver at most. *)
Definition repo_list_rules (context : AccessContext) : Prog (list SodRuleStatus) :=
  session_begin (gets (λ w,
    let o := t_org (db w) in
    (λ '(key, s),
       {| rs_key := key; rs_description := sr_description s;
          rs_left_scopes := sr_left_scopes s; rs_right_scopes := sr_right_scopes s;
          rs_waivable := sr_waivable s;
          rs_waiver := (λ v, {| sv_reason := sw_reason v; sv_granted_by := sw_granted_by v;
                                sv_granted_at := sw_granted_at v;
                                sv_confirmed_by := sw_confirmed_by v;
                                sv_confirmed_at := sw_confirmed_at v |})
            <$> head (filter (λ v, open_waiver (tenant_id context) key v = true)
                        (map_to_list (t_sod_waivers o)).*2) |})
      <$> rules_by_key o)).

Definition new_waiver (context : AccessContext) (waiver_id : uuid) (rule_key reason : pystr)
    (now : datetime) : SodWaiverRow :=
  {| sw_id := waiver_id; sw_tenant_id := tenant_id context; sw_rule_key := rule_key;
     sw_reason := reason; sw_granted_by := principal_id context; sw_granted_at := now;
     sw_revoked_at := None; sw_revoked_by := None; sw_revoke_reason := None;
     sw_confirmed_by := None; sw_confirmed_at := None; sw_confirm_reason := None |}.

Definition waive_refused {A} (e : exn) : Prog A :=
  if bool_decide (refusal e = Some "ck_sod_waivers_rule_waivable"%py)
  then raise ConflictError "this rule cannot be waived"
  else if bool_decide (refusal e = Some "uq_sod_waivers_open"%py)
  then raise ConflictError "this rule is already waived"
  else reraise e.

Definition repo_waive (context : AccessContext) (waiver_id : uuid) (rule_key reason : pystr)
    (audit : AuditEvent) : Prog unit :=
  session_begin (
    let! w := get_state in
    (when bool_decide (t_sod_rules (t_org (db w)) !! rule_key = None) then
       raise NotFoundError "no such rule") ;;;
    try_except (insert_waiver (tenant_id context)
                  (new_waiver context waiver_id rule_key reason (db_now w))) waive_refused ;;;
    audit_append (tenant_id context) audit).

Definition closed_waiver (by_ : uuid) (reason : pystr) (now : datetime) (v : SodWaiverRow)
    : SodWaiverRow :=
  {| sw_id := sw_id v; sw_tenant_id := sw_tenant_id v; sw_rule_key := sw_rule_key v;
     sw_reason := sw_reason v; sw_granted_by := sw_granted_by v; sw_granted_at := sw_granted_at v;
     sw_revoked_at := Some now; sw_revoked_by := Some by_; sw_revoke_reason := Some reason;
     sw_confirmed_by := sw_confirmed_by v; sw_confirmed_at := sw_confirmed_at v;
     sw_confirm_reason := sw_confirm_reason v |}.

Definition repo_revoke_waiver (context : AccessContext) (rule_key reason : pystr)
    (audit : AuditEvent) : Prog bool :=
  session_begin (
    let! w := get_state in
    let! found := try_except
      (update_waiver (tenant_id context) (open_waiver (tenant_id context) rule_key)
         (closed_waiver (principal_id context) reason (db_now w)) true)
      (λ e, if bool_decide (refusal e = Some "ck_sod_waivers_not_in_use"%py)
            then raise ConflictError
                   "memberships still hold both sides of this rule; change their roles before revoking the waiver"
            else reraise e) in
    if negb found then ret false
    else audit_append (tenant_id context) audit ;;; ret true).

Definition confirmed_waiver (by_ : uuid) (reason : pystr) (now : datetime) (v : SodWaiverRow)
    : SodWaiverRow :=
  {| sw_id := sw_id v; sw_tenant_id := sw_tenant_id v; sw_rule_key := sw_rule_key v;
     sw_reason := sw_reason v; sw_granted_by := sw_granted_by v; sw_granted_at := sw_granted_at v;
     sw_revoked_at := sw_revoked_at v; sw_revoked_by := sw_revoked_by v;
     sw_revoke_reason := sw_revoke_reason v;
     sw_confirmed_by := Some by_; sw_confirmed_at := Some now; sw_confirm_reason := Some reason |}.

Definition proposed_waiver (tenant : uuid) (key : pystr) (v : SodWaiverRow) : bool :=
  open_waiver tenant key v && bool_decide (sw_confirmed_at v = None).

Definition repo_confirm (context : AccessContext) (rule_key reason : pystr) (audit : AuditEvent)
    : Prog bool :=
  session_begin (
    let! w := get_state in
    let! found := try_except
      (update_waiver (tenant_id context) (proposed_waiver (tenant_id context) rule_key)
         (confirmed_waiver (principal_id context) reason (db_now w)) false)
      (λ e, if bool_decide (refusal e = Some "ck_sod_waivers_second_person"%py)
            then raise ConflictError
                   "a waiver is confirmed by a second person, not by who proposed it"
            else reraise e) in
    if negb found then ret false
    else audit_append (tenant_id context) audit ;;; ret true).

(** ** [SeparationOfDutiesService] *)

(** [_reason] *)
Definition waiver_reason (reason : pystr) : Prog pystr :=
  let stripped := py_strip reason in
  if py_truthy stripped then ret stripped
  else raise DomainError "a waiver decision needs a reason".

(** [_event] *)
Definition waiver_event (context : AccessContext) (action rule_key reason : pystr)
    : Prog AuditEvent :=
  let! id := new_uuid in
  let! now := now_utc in
  lift_res (make_audit_event
    {| ae_id := id; ae_tenant_id := tenant_id context; ae_workspace_id := workspace_id context;
       ae_actor_id := principal_id context; ae_action := action; ae_resource_type := "sod_rule";
       ae_resource_id := rule_key; ae_occurred_at := now; ae_run_id := None;
       ae_policy_decision := None; ae_trace_id := None;
       ae_details := {[ "reason"%py := JStr reason ]} |}).

Section Service.
Context (authz : ScopeAuthorizationService) (context : AccessContext).

Definition list_rules : Prog (list SodRuleStatus) :=
  lift_res (require authz context ROLES_READ) ;;;
  repo_list_rules context.

Definition waive (rule_key reason : pystr) : Prog unit :=
  lift_res (require authz context SOD_WAIVERS_WRITE) ;;;
  let! reason := waiver_reason reason in
  let! waiver_id := new_uuid in
  let! audit := waiver_event context "platform.sod.waive" rule_key reason in
  repo_waive context waiver_id rule_key reason audit.

Definition revoke_waiver (rule_key reason : pystr) : Prog unit :=
  lift_res (require authz context SOD_WAIVERS_WRITE) ;;;
  let! reason := waiver_reason reason in
  let! audit := waiver_event context "platform.sod.waiver_revoke" rule_key reason in
  let! revoked := repo_revoke_waiver context rule_key reason audit in
  when negb revoked then raise NotFoundError "this tenant has no open waiver of that rule".

Definition confirm (rule_key reason : pystr) : Prog unit :=
  lift_res (require authz context SOD_WAIVERS_WRITE) ;;;
  let! reason := waiver_reason reason in
  let! audit := waiver_event context "platform.sod.waiver_confirm" rule_key reason in
  let! confirmed := repo_confirm context rule_key reason audit in
  when negb confirmed then
    raise NotFoundError "this tenant has no waiver of that rule waiting for confirmation".
End Service.

(** ** What the triggers decide *)

Lemma insert_sorted_perm s l : insert_sorted s l ≡ₚ s :: l.
Proof.
  induction l as [|t l IH]; simpl; [done|]. destruct (chars_leb _ _); [done|].
  rewrite IH. constructor.
Qed.

Lemma py_sorted_perm l : py_sorted l ≡ₚ l.
Proof. induction l as [|s l IH]; simpl; [done|]. by rewrite insert_sorted_perm, IH. Qed.

Lemma elem_of_rules o key s : (key, s) ∈ rules_by_key o ↔ t_sod_rules o !! key = Some s.
Proof.
  unfold rules_by_key. rewrite list_elem_of_omap. setoid_rewrite py_sorted_perm. split.
  - intros (k & _ & E). destruct (t_sod_rules o !! k) eqn:Hk; [|done]. by injection E as <- <-.
  - intros Hs. exists key. rewrite Hs. split; [|done]. apply list_elem_of_fmap.
    exists (key, s). by rewrite elem_of_map_to_list.
Qed.

(** A broken rule the tenant's waiver lifts. *)
Definition excused (o : OrgDb) (tenant : uuid) (key : pystr) : Prop :=
  from_option sr_waivable false (t_sod_rules o !! key) = true ∧ waived o tenant key = true.

Lemma sod_violation_none o tenant role_keys sets :
  sod_violation o tenant role_keys sets = None ↔
  ∀ key, sod_rule_broken o key role_keys sets = true → excused o tenant key.
Proof.
  unfold sod_violation, excused.
  assert (∀ l, (∀ key s, (key, s) ∈ l → t_sod_rules o !! key = Some s) →
    sod_loop o tenant role_keys sets l = None ↔
    ∀ key s, (key, s) ∈ l → sod_rule_broken o key role_keys sets = true →
      sr_waivable s = true ∧ waived o tenant key = true) as Hloop.
  { induction l as [|[k s] l IH]; intros Hl; simpl.
    { split; [|done]. intros _ key s Hin. by apply not_elem_of_nil in Hin. }
    destruct (sod_rule_broken o k role_keys sets) eqn:Hb; simpl.
    - destruct (sr_waivable s && waived o tenant k) eqn:E.
      + apply andb_true_iff in E. rewrite IH by (intros key s' Hin; apply Hl; by right).
        split; [|intros H key s' Hin; apply H; by right].
        intros H key s' [[= -> ->]|Hin]%elem_of_cons Hb'; [done|by apply (H key s')].
      + split; [done|]. intros Hall. destruct (Hall k s ltac:(left) Hb) as [H1 H2].
        by rewrite H1, H2 in E.
    - rewrite IH by (intros key s' Hin; apply Hl; by right).
      split; [|intros H key s' Hin; apply H; by right].
      intros H key s' [[= -> ->]|Hin]%elem_of_cons Hb'; [by rewrite Hb in Hb'|by apply (H key s')]. }
  rewrite Hloop by (intros key s; apply elem_of_rules). split.
  - intros H key Hb. destruct (t_sod_rules o !! key) as [s|] eqn:Hs.
    + by apply (H key s); [apply elem_of_rules|].
    + unfold sod_rule_broken in Hb. by rewrite Hs in Hb.
  - intros H key s Hs%elem_of_rules Hb. specialize (H key Hb). by rewrite Hs in H.
Qed.

Lemma each_ok {A} (f : A → res unit) l : each f l = Ok tt ↔ ∀ a, a ∈ l → f a = Ok tt.
Proof.
  induction l as [|a l IH]; simpl.
  { split; [|done]. intros _ a Ha. by apply not_elem_of_nil in Ha. }
  setoid_rewrite elem_of_cons. destruct (f a) as [[]|e] eqn:Ha; [rewrite IH; naive_solver|].
  split; [done|]. intros H. by rewrite H in Ha by by left.
Qed.

Lemma membership_triggers_ok o m :
  membership_triggers o m = Ok tt ↔
    mb_user_id m ∉ t_support_staff o ∧
    ∀ key, sod_rule_broken o key (mb_role_keys m) (mb_permission_set_keys m) = true →
      excused o (mb_tenant_id m) key.
Proof.
  unfold membership_triggers, refuse_support_staff_membership, enforce_separation_of_duties.
  rewrite <- sod_violation_none. case_bool_decide; [naive_solver|].
  destruct (sod_violation _ _ _ _); naive_solver.
Qed.

Lemma guard_waiver_insert_ok o v :
  guard_waiver_insert o v = Ok tt ↔
    from_option sr_waivable false (t_sod_rules o !! sw_rule_key v) = true ∧
    sw_confirmed_at v = None.
Proof.
  unfold guard_waiver_insert. destruct (from_option _ _ _); simpl; [|naive_solver].
  case_bool_decide; naive_solver.
Qed.

Lemma waiver_checks_ok v :
  waiver_checks v = Ok tt ↔
    written (sw_reason v) = true ∧ ck_revocation v = true ∧ ck_second_person v = true.
Proof.
  unfold waiver_checks. destruct (written _), (ck_revocation v), (ck_second_person v); naive_solver.
Qed.

(** What the CHECKs say of a confirmed waiver. *)
Lemma second_person v :
  waiver_checks v = Ok tt → sw_confirmed_at v ≠ None →
  ∃ by_, sw_confirmed_by v = Some by_ ∧ by_ ≠ sw_granted_by v.
Proof.
  intros (_ & _ & H)%waiver_checks_ok Hc. unfold ck_second_person in H. to_prop.
  destruct (sw_confirmed_by v) as [by_|].
  - simpl in *. to_prop. eauto.
  - rewrite bool_decide_eq_false_2 in * by done. done.
Qed.

Lemma lifts_ok tenant key v :
  lifts tenant key v = true ↔
    sw_tenant_id v = tenant ∧ sw_rule_key v = key ∧ sw_revoked_at v = None ∧
    sw_confirmed_at v ≠ None.
Proof.
  unfold lifts. rewrite !andb_true_iff, negb_true_iff, !bool_decide_eq_true, bool_decide_eq_false.
  tauto.
Qed.

Lemma waived_ok o tenant key :
  waived o tenant key = true ↔
  ∃ k v, t_sod_waivers o !! k = Some v ∧ lifts tenant key v = true.
Proof.
  unfold waived. rewrite existsb_exists. setoid_rewrite <- list_elem_of_In.
  setoid_rewrite list_elem_of_fmap. split.
  - intros (v & ([k v'] & -> & Hv%elem_of_map_to_list) & Hl). eauto.
  - intros (k & v & Hv & Hl). exists v. split; [|done]. exists (k, v). by rewrite elem_of_map_to_list.
Qed.

Lemma relying_none o v :
  refuse_revoking_in_use o v = Ok tt ↔
  ∀ k m, t_memberships o !! k = Some m → mb_tenant_id m = sw_tenant_id v →
    sod_rule_broken o (sw_rule_key v) (mb_role_keys m) (mb_permission_set_keys m) = false.
Proof.
  unfold refuse_revoking_in_use, relying.
  transitivity (filter (λ m, mb_tenant_id m = sw_tenant_id v ∧
     sod_rule_broken o (sw_rule_key v) (mb_role_keys m) (mb_permission_set_keys m) = true)
    (map_to_list (t_memberships o)).*2 = []); [by destruct (filter _ _)|].
  rewrite filter_nil_iff. setoid_rewrite list_elem_of_fmap. split.
  - intros H k m Hm Ht. apply not_true_iff_false. intros Hb. apply (H m); [|done].
    exists (k, m). by rewrite elem_of_map_to_list.
  - intros H m ([k m'] & -> & Hm%elem_of_map_to_list) [Ht Hb]. simpl in *.
    by rewrite (H k m' Hm Ht) in Hb.
Qed.

Lemma refuse_scope_change_ok o carries :
  refuse_scope_change o carries = Ok tt ↔
  ∀ k m, t_memberships o !! k = Some m → carries m = true →
    ∀ key, sod_rule_broken o key (mb_role_keys m) (mb_permission_set_keys m) = true →
      excused o (mb_tenant_id m) key.
Proof.
  unfold refuse_scope_change. setoid_rewrite <- sod_violation_none.
  destruct (existsb _ _) eqn:E; split; try done.
  - apply existsb_exists in E as (m & Hin%list_elem_of_In & Hb).
    apply list_elem_of_fmap in Hin as ([k m'] & -> & Hm%elem_of_map_to_list). to_prop.
    intros Hall. by destruct (Hall k m' Hm).
  - intros _ k m Hm Hc. destruct (sod_violation _ _ _ _) eqn:Ev; [|done]. exfalso.
    apply not_true_iff_false in E. apply E, existsb_exists. exists m. split.
    + apply list_elem_of_In, list_elem_of_fmap. exists (k, m). by rewrite elem_of_map_to_list.
    + rewrite Hc. simpl. by rewrite Ev, bool_decide_eq_false_2.
Qed.

(** ** The invariant *)

(** A membership that breaks a rule is excused by a confirmed, open waiver. *)
Definition separated (o : OrgDb) : Prop :=
  ∀ k m key, t_memberships o !! k = Some m →
    sod_rule_broken o key (mb_role_keys m) (mb_permission_set_keys m) = true →
    excused o (mb_tenant_id m) key.

Definition waivers_checked (o : OrgDb) : Prop :=
  ∀ k v, t_sod_waivers o !! k = Some v → waiver_checks v = Ok tt.

Definition duties (d : Db) : Prop := separated (t_org d) ∧ waivers_checked (t_org d).

Abbreviation duties_in := (λ w, duties (db w)).

(** What the rules see of a membership. *)
Definition same_authority (m m' : MembershipRow) : Prop :=
  mb_tenant_id m' = mb_tenant_id m ∧ mb_role_keys m' = mb_role_keys m ∧
  mb_permission_set_keys m' = mb_permission_set_keys m.

Lemma duties_memberships (t : gmap uuid MembershipRow) d :
  duties d →
  (∀ k m, t !! k = Some m →
     (∃ k0 m0, t_memberships (t_org d) !! k0 = Some m0 ∧ same_authority m0 m) ∨
     membership_triggers (t_org d) m = Ok tt) →
  duties (set_tbl t d).
Proof.
  intros [Hs Hw] Ht. split; [|done]. intros k m key Hm Hb.
  destruct (Ht k m Hm) as [(k0 & m0 & Hm0 & E1 & E2 & E3)|Htr].
  - rewrite E1. apply (Hs k0 m0); [done|]. by rewrite E2, E3 in Hb.
  - apply membership_triggers_ok in Htr as [_ Htr]. by apply Htr.
Qed.

Lemma insert_membership_ok tenant m w u w' :
  insert_membership tenant m w = (Ok u, w') ↔
    membership_triggers (t_org (db w)) m = Ok tt ∧ sql_insert tenant m w = (Ok u, w').
Proof.
  unfold insert_membership, bind, get_state, lift_res.
  destruct (membership_triggers _ _) as [[]|e]; naive_solver.
Qed.

Lemma insert_membership_keeps tenant m : keeps duties_in (insert_membership tenant m).
Proof.
  intros w u w' Hd [Ht (_ & _ & _ & ->)%sql_insert_ok]%insert_membership_ok.
  apply duties_memberships; [done|]. intros k m'. rewrite lookup_insert_Some.
  intros [[_ <-]|[_ Hk]]; [by right|left]. by exists k, m'.
Qed.

Lemma update_membership_ok tenant p f w n w' :
  update_membership tenant p f w = (Ok n, w') ↔
    (∀ k m, t_memberships (t_org (db w)) !! k = Some m → visible tenant p m = true →
       membership_triggers (t_org (db w)) (f m) = Ok tt) ∧
    sql_update tenant p f w = (Ok n, w').
Proof.
  unfold update_membership, sql_select, bind at 1, get_state, gets, bind at 1, bind at 1, lift_res.
  change (tbl (db w)) with (t_memberships (t_org (db w))).
  assert (each (membership_triggers (t_org (db w))) (f <$>
      filter (λ r, visible tenant p r = true) (map_to_list (t_memberships (t_org (db w)))).*2) = Ok tt ↔
    (∀ k m, t_memberships (t_org (db w)) !! k = Some m → visible tenant p m = true →
       membership_triggers (t_org (db w)) (f m) = Ok tt)) as Hiff.
  { rewrite each_ok. split.
    - intros H k m Hm Hv. apply H, list_elem_of_fmap. exists m. split; [done|].
      apply list_elem_of_filter. split; [done|]. apply list_elem_of_fmap. exists (k, m).
      by rewrite elem_of_map_to_list.
    - intros H m' (m & -> & [Hv Hin]%list_elem_of_filter)%list_elem_of_fmap.
      apply list_elem_of_fmap in Hin as ([k m''] & -> & Hm%elem_of_map_to_list). by eapply H. }
  rewrite <- Hiff. destruct (each _ _) as [[]|e]; naive_solver.
Qed.

Lemma update_membership_keeps tenant p f : keeps duties_in (update_membership tenant p f).
Proof.
  intros w n w' Hd [Ht (_ & _ & ->)%sql_update_ok]%update_membership_ok.
  apply duties_memberships; [done|]. intros k m. rewrite lookup_update_rows.
  intros (m0 & Hm0 & ->)%fmap_Some. destruct (visible tenant p m0) eqn:Hv.
  - right. by eapply Ht.
  - left. by exists k, m0.
Qed.

(** An update the triggers do not watch. *)
Lemma update_authority_keeps tenant p f :
  (∀ m, same_authority m (f m)) → keeps duties_in (sql_update (R := MembershipRow) tenant p f).
Proof.
  intros Hf w n w' Hd (_ & _ & ->)%sql_update_ok. apply duties_memberships; [done|].
  intros k m. rewrite lookup_update_rows. intros (m0 & Hm0 & ->)%fmap_Some. left.
  exists k, m0. split; [done|]. by destruct (visible tenant p m0).
Qed.

Lemma delete_membership_keeps tenant p : keeps duties_in (sql_delete (R := MembershipRow) tenant p).
Proof.
  intros w n w' Hd [= _ <-]. apply duties_memberships; [done|].
  intros k m [Hm _]%map_lookup_filter_Some. left. by exists k, m.
Qed.

(** ** Waivers *)

Lemma insert_waiver_ok tenant v w u w' :
  insert_waiver tenant v w = (Ok u, w') ↔
    guard_waiver_insert (t_org (db w)) v = Ok tt ∧ waiver_checks v = Ok tt ∧
    sql_insert tenant v w = (Ok u, w').
Proof.
  unfold insert_waiver, bind, get_state, lift_res.
  destruct (guard_waiver_insert _ _) as [[]|e], (waiver_checks v) as [[]|e']; naive_solver.
Qed.

Lemma insert_waiver_keeps tenant v : keeps duties_in (insert_waiver tenant v).
Proof.
  intros w u w' [Hs Hw] (_ & Hv & (_ & Hfree & _ & ->)%sql_insert_ok)%insert_waiver_ok. split.
  - intros k m key Hm Hb. destruct (Hs k m key Hm Hb) as [H1 H2]. split; [done|].
    apply waived_ok in H2 as (k' & v' & Hv' & Hl). apply waived_ok. exists k', v'.
    split; [|done]. apply lookup_insert_Some. right. split; [|done]. intros <-.
    change (tbl (db w)) with (t_sod_waivers (t_org (db w))) in Hfree. congruence.
  - intros k v'. cbn. rewrite lookup_insert_Some. intros [[_ <-]|[_ ?]]; [done|by eapply Hw].
Qed.

(** What a successful [UPDATE] of waivers checked and wrote. *)
Lemma update_waiver_ok tenant p f closing w b w' :
  update_waiver tenant p f closing w = (Ok b, w') →
  (∀ k v, t_sod_waivers (t_org (db w)) !! k = Some v → visible tenant p v = true →
     guard_waiver_update v (f v) = Ok tt ∧ waiver_checks (f v) = Ok tt ∧
     (closing = true → ∀ k m, t_memberships (t_org (db w)) !! k = Some m →
        mb_tenant_id m = sw_tenant_id (f v) →
        sod_rule_broken (t_org (db w)) (sw_rule_key (f v)) (mb_role_keys m)
          (mb_permission_set_keys m) = false)) ∧
  sql_update tenant p f w = (Ok (count_rows (visible tenant p) (t_sod_waivers (t_org (db w)))), w') ∧
  b = negb (count_rows (visible tenant p) (t_sod_waivers (t_org (db w))) =? 0).
Proof.
  unfold update_waiver. intros (rows & s & [= <- <-] & H)%bind_ok.
  set (rows := filter _ _) in H.
  assert (∀ k v, t_sod_waivers (t_org (db w)) !! k = Some v → visible tenant p v = true → v ∈ rows)
    as Hin.
  { intros k v Hv Hp. apply list_elem_of_filter. split; [done|]. apply list_elem_of_fmap.
    exists (k, v). by rewrite elem_of_map_to_list. }
  apply bind_ok in H as ([] & s & [Hg <-]%pair_equal_spec & H).
  apply bind_ok in H as ([] & s & [Hc <-]%pair_equal_spec & H).
  apply bind_ok in H as (n & s & Hu & H).
  pose proof (proj1 (sql_update_ok _ _ _ _ _ _) Hu) as (_ & -> & Es).
  apply bind_ok in H as (s' & s2 & [= <- <-] & H).
  apply bind_ok in H as ([] & s2 & Ha & [= <- <-]).
  assert (s2 = s) as -> by (by destruct closing; injection Ha). split_and!; [|done|done].
  intros k v Hv Hp. split_and!.
  - rewrite each_ok in Hg. apply Hg. by eapply Hin.
  - rewrite each_ok in Hc. apply Hc, list_elem_of_fmap. eauto.
  - intros ->. injection Ha as Ha. rewrite each_ok in Ha.
    assert (refuse_revoking_in_use (t_org (db s)) (f v) = Ok tt) as Hr
      by (apply Ha, list_elem_of_fmap; eauto).
    rewrite Es in Hr. rewrite relying_none in Hr. exact Hr.
Qed.

(** Updates of waivers keep the duties separated when a waiver they stop lifting
    is relied on by no membership. *)
Lemma update_waiver_keeps tenant p f closing :
  (∀ v t key, lifts t key v = true → lifts t key (f v) = true ∨
     closing = true ∧ sw_tenant_id (f v) = t ∧ sw_rule_key (f v) = key) →
  keeps duties_in (update_waiver tenant p f closing).
Proof.
  intros Hf w b w' [Hs Hw] (Hrows & (_ & _ & ->)%sql_update_ok & _)%update_waiver_ok. split.
  - intros k m key Hm Hb. destruct (Hs k m key Hm Hb) as [H1 H2]. split; [done|].
    apply waived_ok in H2 as (k' & v & Hv & Hl). apply waived_ok.
    destruct (visible tenant p v) eqn:Hp.
    + destruct (Hf v _ _ Hl) as [Hl'|(Hcl & Ht & Hk)].
      * exists k', (f v). split; [|done].
        change (update_rows (visible tenant p) f (t_sod_waivers (t_org (db w))) !! k' = Some (f v)).
        rewrite lookup_update_rows, Hv. simpl. by rewrite Hp.
      * destruct (Hrows k' v Hv Hp) as (_ & _ & Hno). exfalso. specialize (Hno Hcl k m Hm).
        rewrite Ht, Hk in Hno. specialize (Hno eq_refl). change (sod_rule_broken (t_org (db w)) key
          (mb_role_keys m) (mb_permission_set_keys m) = true) in Hb. congruence.
    + exists k', v. split; [|done].
      change (update_rows (visible tenant p) f (t_sod_waivers (t_org (db w))) !! k' = Some v).
      rewrite lookup_update_rows, Hv. simpl. by rewrite Hp.
  - intros k v'.
    change (update_rows (visible tenant p) f (t_sod_waivers (t_org (db w))) !! k = Some v' →
            waiver_checks v' = Ok tt).
    rewrite lookup_update_rows. intros (v & Hv & ->)%fmap_Some.
    destruct (visible tenant p v) eqn:Hp; [|by eapply Hw]. by destruct (Hrows k v Hv Hp) as (_ & ? & _).
Qed.

(** ** The operations *)

Lemma audit_append_duties tenant e : keeps duties_in (audit_append tenant e).
Proof. apply sql_insert_keeps. by intros t d. Qed.

Lemma insert_membership_same_saved tenant m : respects same_saved (insert_membership tenant m).
Proof. unfold insert_membership. respects_auto. Qed.

Lemma update_membership_same_saved tenant p f :
  respects same_saved (update_membership tenant p f).
Proof. unfold update_membership, sql_select. respects_auto. Qed.

Lemma insert_waiver_same_saved tenant v : respects same_saved (insert_waiver tenant v).
Proof. unfold insert_waiver. respects_auto. Qed.

Lemma update_waiver_same_saved tenant p f closing :
  respects same_saved (update_waiver tenant p f closing).
Proof. unfold update_waiver, sql_select. respects_auto. Qed.

#[export] Hint Resolve audit_append_duties insert_membership_keeps update_membership_keeps
  delete_membership_keeps insert_waiver_keeps : keeps.
#[export] Hint Resolve insert_membership_same_saved update_membership_same_saved
  insert_waiver_same_saved update_waiver_same_saved : respects.

(** A program that leaves the database outside a transaction, the duties still
    separated, however it ends. *)
Definition dutiful {A} (m : Prog A) : Prop :=
  ∀ w, clean w → duties_in w → clean (m w).2 ∧ duties_in (m w).2.

Lemma dutiful_session {A} (m : Prog A) :
  keeps duties_in m → respects same_saved m → dutiful (session_begin m).
Proof. intros Hk Hs w Hc Hd. by apply session_begin_keeps. Qed.

Lemma dutiful_bind {A B} (m : Prog A) (k : A → Prog B) :
  dutiful m → (∀ a, dutiful (k a)) → dutiful (bind m k).
Proof.
  intros Hm Hk w Hc Hd. destruct (Hm w Hc Hd) as [Hc' Hd']. unfold bind.
  destruct (m w) as [[a|e] w']; [by apply Hk|done].
Qed.

Lemma dutiful_idle {A} (m : Prog A) :
  (∀ w, db (m w).2 = db w ∧ saved (m w).2 = saved w) → dutiful m.
Proof. intros Hm w Hc Hd. destruct (Hm w) as [E1 E2]. unfold clean. by rewrite E1, E2. Qed.

Lemma dutiful_lift {A} (r : res A) : dutiful (lift_res r).
Proof. by apply dutiful_idle. Qed.
Lemma dutiful_ret {A} (a : A) : dutiful (ret a).
Proof. by apply dutiful_idle. Qed.
Lemma dutiful_raise {A} c msg : dutiful (raise (A := A) c msg).
Proof. by apply dutiful_idle. Qed.
Lemma dutiful_if {A} (b : bool) (m1 m2 : Prog A) :
  dutiful m1 → dutiful m2 → dutiful (if b then m1 else m2).
Proof. by destruct b. Qed.
Lemma dutiful_new_uuid : dutiful new_uuid.
Proof. by apply dutiful_idle. Qed.
Lemma dutiful_now_utc : dutiful now_utc.
Proof. by apply dutiful_idle. Qed.

Create HintDb dutiful.
#[export] Hint Resolve dutiful_lift dutiful_ret dutiful_raise dutiful_new_uuid dutiful_now_utc
  : dutiful.

Ltac dutiful_auto :=
  repeat first
    [ solve [eauto with dutiful]
    | simple apply dutiful_bind; [|intro]
    | simple apply dutiful_if
    | case_match ].

Lemma repo_waive_dutiful context id key reason audit :
  dutiful (repo_waive context id key reason audit).
Proof.
  apply dutiful_session.
  - keeps_auto. apply keeps_try; [apply insert_waiver_keeps|].
    intros e s u s'. unfold waive_refused. by repeat case_bool_decide.
  - unfold waive_refused. respects_auto.
Qed.

Lemma repo_revoke_dutiful context key reason audit :
  dutiful (repo_revoke_waiver context key reason audit).
Proof.
  apply dutiful_session.
  - keeps_auto. apply keeps_try; [apply update_waiver_keeps|].
    + intros v t k Hl%lifts_ok. right. tauto.
    + intros e s' b s''. by case_bool_decide.
  - respects_auto.
Qed.

Lemma repo_confirm_dutiful context key reason audit :
  dutiful (repo_confirm context key reason audit).
Proof.
  apply dutiful_session.
  - keeps_auto. apply keeps_try; [apply update_waiver_keeps|].
    + intros v t k Hl%lifts_ok. left. apply lifts_ok. naive_solver.
    + intros e s' b s''. by case_bool_decide.
  - respects_auto.
Qed.
#[export] Hint Resolve repo_waive_dutiful repo_revoke_dutiful repo_confirm_dutiful : dutiful.

Lemma waive_dutiful authz context key reason : dutiful (waive authz context key reason).
Proof. unfold waive, waiver_reason, waiver_event. dutiful_auto. Qed.
Lemma revoke_waiver_dutiful authz context key reason :
  dutiful (revoke_waiver authz context key reason).
Proof. unfold revoke_waiver, waiver_reason, waiver_event. dutiful_auto. Qed.
Lemma confirm_dutiful authz context key reason : dutiful (confirm authz context key reason).
Proof. unfold confirm, waiver_reason, waiver_event. dutiful_auto. Qed.

(** ** Changes of the catalogue *)

Lemma scopes_in_other catalogue key scopes keys :
  key ∉ keys → scopes_in (<[key := scopes]> catalogue) keys = scopes_in catalogue keys.
Proof.
  intros Hk. unfold scopes_in. f_equal. apply list_fmap_ext. intros i k Hi.
  rewrite lookup_insert_ne; [done|]. intros <-. apply Hk. by eapply list_elem_of_lookup_2.
Qed.

(** A catalogue changes for the memberships that carry the key only, and those
    are judged again. *)
Lemma duties_catalogue (o' : OrgDb) carries d :
  t_memberships o' = t_memberships (t_org d) → t_sod_rules o' = t_sod_rules (t_org d) →
  t_sod_waivers o' = t_sod_waivers (t_org d) →
  (∀ k m, t_memberships o' !! k = Some m → carries m = false →
     effective_scopes o' (mb_role_keys m) (mb_permission_set_keys m)
     = effective_scopes (t_org d) (mb_role_keys m) (mb_permission_set_keys m)) →
  refuse_scope_change o' carries = Ok tt → duties d → duties (set_org o' d).
Proof.
  intros Em Er Ew He Hr [Hs Hw]. split; [|unfold waivers_checked; simpl; by rewrite Ew].
  intros k m key Hm Hb. simpl in *. destruct (carries m) eqn:Hc.
  - by eapply refuse_scope_change_ok.
  - unfold excused, waived. rewrite Er, Ew. apply (Hs k m key); [by rewrite <- Em|].
    unfold sod_rule_broken in *. by rewrite <- Er, <- (He k m Hm Hc).
Qed.

Lemma set_role_scopes_dutiful key scopes : dutiful (set_role_scopes key scopes).
Proof.
  apply dutiful_session.
  - intros w u w' Hd H. unfold bind at 1, get_state in H. case_match; [|by injection H as _ <-].
    unfold bind, lift_res, modify in H. destruct (refuse_scope_change _ _) as [[]|] eqn:Hr; [|done].
    injection H as _ <-. simpl. eapply duties_catalogue; [done|done|done| |exact Hr|done].
    intros k m Hm Hc. unfold effective_scopes. simpl. rewrite scopes_in_other; [done|by apply bool_decide_eq_false in Hc].
  - respects_auto.
Qed.

Lemma set_permission_set_scopes_dutiful key scopes :
  dutiful (set_permission_set_scopes key scopes).
Proof.
  apply dutiful_session.
  - intros w u w' Hd H. unfold bind at 1, get_state in H. case_match; [|by injection H as _ <-].
    unfold bind, lift_res, modify in H. destruct (refuse_scope_change _ _) as [[]|] eqn:Hr; [|done].
    injection H as _ <-. simpl. eapply duties_catalogue; [done|done|done| |exact Hr|done].
    intros k m Hm Hc. unfold effective_scopes. simpl. rewrite scopes_in_other; [done|by apply bool_decide_eq_false in Hc].
  - respects_auto.
Qed.

(** ** Signing a waiver *)

Lemma open_waiver_ok tenant key v :
  open_waiver tenant key v = true ↔
    sw_tenant_id v = tenant ∧ sw_rule_key v = key ∧ sw_revoked_at v = None.
Proof. unfold open_waiver. rewrite !andb_true_iff, !bool_decide_eq_true. tauto. Qed.

Lemma proposed_waiver_ok tenant key v :
  proposed_waiver tenant key v = true ↔
    sw_tenant_id v = tenant ∧ sw_rule_key v = key ∧ sw_revoked_at v = None ∧ sw_confirmed_at v = None.
Proof. unfold proposed_waiver. rewrite andb_true_iff, open_waiver_ok, bool_decide_eq_true. tauto. Qed.

Lemma visible_open tenant (p : SodWaiverRow → bool) v :
  (p v = true → sw_tenant_id v = tenant) → visible tenant p v = p v.
Proof.
  intros Hp. unfold visible. change (row_tenant v) with (sw_tenant_id v).
  destruct (p v); [by rewrite bool_decide_eq_true_2 by auto|by rewrite andb_false_r].
Qed.

Lemma visible_proposed tenant key v :
  visible tenant (proposed_waiver tenant key) v = proposed_waiver tenant key v.
Proof. apply visible_open. by intros (? & _)%proposed_waiver_ok. Qed.

(** At most one waiver of a rule is open in a tenant. *)
Lemma one_open_waiver (t : gmap uuid SodWaiverRow) tenant key i j v v' :
  unique_ok t = true → t !! i = Some v → t !! j = Some v' →
  open_waiver tenant key v = true → open_waiver tenant key v' = true → i = j.
Proof.
  rewrite unique_ok_spec. intros Hu Hi Hj (T1 & K1 & R1)%open_waiver_ok (T2 & K2 & R2)%open_waiver_ok.
  apply (Hu i j v v' (tenant :: chars key)); [done|done|..]; simpl;
    rewrite bool_decide_eq_true_2 by done; congruence.
Qed.

Lemma written_reason reason : is_blank reason = false → written (py_strip reason) = true.
Proof.
  intros Hb. unfold written. apply negb_true_iff, bool_decide_eq_false.
  apply (proj2 (btrim_bounds (py_strip reason))). by apply strip_not_blank.
Qed.

Lemma confirmed_checks by_ reason now v :
  waiver_checks v = Ok tt → sw_revoked_at v = None → written reason = true →
  by_ ≠ sw_granted_by v → waiver_checks (confirmed_waiver by_ reason now v) = Ok tt.
Proof.
  rewrite !waiver_checks_ok. intros (H1 & H2 & _) Ho Hr Hne. split_and!; [done|exact H2|].
  unfold ck_second_person. simpl. rewrite Hr. by rewrite bool_decide_eq_false_2.
Qed.

Lemma confirm_self by_ reason now v :
  waiver_checks v = Ok tt → by_ = sw_granted_by v →
  waiver_checks (confirmed_waiver by_ reason now v)
  = Raise (Exn (IntegrityError "ck_sod_waivers_second_person") "check").
Proof.
  rewrite waiver_checks_ok. intros (H1 & H2 & _) ->. unfold waiver_checks. simpl.
  change (ck_revocation (confirmed_waiver _ _ _ v)) with (ck_revocation v). rewrite H1, H2. simpl.
  unfold ck_second_person. simpl. rewrite bool_decide_eq_true_2 by done. by rewrite andb_false_r.
Qed.

Section Confirm.
Context (context : AccessContext) (key reason : pystr) (w : World).
Context (Hu : unique_ok (t_sod_waivers (t_org (db w))) = true)
        (Hck : waivers_checked (t_org (db w))) (Hr : written reason = true).

Let f := confirmed_waiver (principal_id context) reason (db_now w).
Let p := proposed_waiver (tenant_id context) key.

(** The world with the waiver at [i] replaced. *)
Definition with_waiver (i : uuid) (v : SodWaiverRow) (w : World) : World :=
  set_db (set_tbl (<[i := v]> (t_sod_waivers (t_org (db w)))) (db w)) w.

Lemma only_proposed i v k v' :
  t_sod_waivers (t_org (db w)) !! i = Some v → p v = true →
  t_sod_waivers (t_org (db w)) !! k = Some v' → visible (tenant_id context) p v' = true → k = i.
Proof.
  intros Hi Hp Hk. unfold p in *. rewrite visible_proposed. intros Hp'.
  unfold proposed_waiver in *. to_prop. by eapply one_open_waiver.
Qed.

Lemma update_confirm_run i v :
  t_sod_waivers (t_org (db w)) !! i = Some v → p v = true →
  update_waiver (tenant_id context) p f false w =
    if bool_decide (principal_id context = sw_granted_by v)
    then (Raise (Exn (IntegrityError "ck_sod_waivers_second_person") "check"), w)
    else (Ok true, with_waiver i (f v) w).
Proof.
  intros Hi Hp. unfold update_waiver, sql_select, bind at 1, gets.
  change (tbl (db w)) with (t_sod_waivers (t_org (db w))).
  assert (visible (tenant_id context) p v = true) as Hvis by (unfold p; by rewrite visible_proposed).
  assert (∀ k v', t_sod_waivers (t_org (db w)) !! k = Some v' →
    visible (tenant_id context) p v' = true → k = i) as Hone by (intros; by eapply only_proposed).
  rewrite (select_one (visible (tenant_id context) p) _ i v Hi Hvis Hone).
  pose proof Hp as (_ & _ & Hopen & Hnc)%proposed_waiver_ok.
  assert (guard_waiver_update v (f v) = Ok tt) as Hg.
  { unfold guard_waiver_update, f. simpl. rewrite Hopen, Hnc.
    rewrite (bool_decide_eq_true_2 (decided_part _ = _)) by done.
    rewrite !(bool_decide_eq_true_2 (None = None)) by done. done. }
  unfold bind at 1, lift_res, each. rewrite Hg. unfold bind at 1. simpl.
  case_bool_decide as Hself.
  - unfold f. by rewrite confirm_self by (by eauto).
  - unfold f at 1. rewrite confirmed_checks by eauto. unfold bind at 1.
    rewrite sql_update_run.
    + rewrite (count_rows_one _ _ i v), (update_rows_one _ _ _ i v); [done|eauto..].
    + apply unique_ok_update; [|done]. intros k v' _ _. right. by unfold f.
Qed.

Lemma same_waivers : set_db (set_tbl (t_sod_waivers (t_org (db w))) (db w)) w = w.
Proof.
  pose proof (set_tbl_tbl (R := SodWaiverRow) (db w)) as E.
  change (tbl (db w)) with (t_sod_waivers (t_org (db w))) in E. rewrite E. by destruct w.
Qed.

Lemma update_confirm_none :
  (∀ k v, t_sod_waivers (t_org (db w)) !! k = Some v → p v = false) →
  update_waiver (tenant_id context) p f false w = (Ok false, w).
Proof.
  intros Hn. unfold update_waiver, sql_select, bind at 1, gets.
  change (tbl (db w)) with (t_sod_waivers (t_org (db w))).
  assert (∀ k v, t_sod_waivers (t_org (db w)) !! k = Some v → visible (tenant_id context) p v = false)
    as Hn' by (intros k v Hk; unfold p; rewrite visible_proposed; by eapply Hn).
  rewrite select_none by done. unfold bind at 1, lift_res, each. simpl. unfold bind at 1, bind at 1.
  rewrite sql_update_run by (by rewrite update_rows_none).
  change (tbl (db w)) with (t_sod_waivers (t_org (db w))).
  rewrite update_rows_none by done. rewrite (proj2 (count_rows_zero _ _)) by done.
  rewrite same_waivers. done.
Qed.
End Confirm.

Lemma waiver_event_run context action key reason w :
  is_blank action = false →
  ∃ e, waiver_event context action key reason w = (Ok e, tick w) ∧
    ae_tenant_id e = tenant_id context ∧ row_key e = (ids w (ids_issued w), utc w (utc_reads w)).
Proof.
  intros Ha. unfold waiver_event, bind, new_uuid, now_utc, lift_res, make_audit_event, audit_event_valid.
  simpl. rewrite Ha. simpl. eexists. by split_and!.
Qed.

(** What a successful confirmation leaves. *)
Definition confirmed_db (context : AccessContext) (reason : pystr) (i : uuid) (v : SodWaiverRow)
    (w w' : World) : Prop :=
  saved w' = db w' ∧
  t_sod_waivers (t_org (db w'))
  = <[i := confirmed_waiver (principal_id context) (py_strip reason) (db_now w) v]>
      (t_sod_waivers (t_org (db w))) ∧
  t_memberships (t_org (db w')) = t_memberships (t_org (db w)) ∧
  size (t_audit (db w')) = S (size (t_audit (db w))).

Lemma repo_confirm_run context key reason audit w :
  clean w → unique_ok (t_sod_waivers (t_org (db w))) = true → waivers_checked (t_org (db w)) →
  is_blank reason = false → ae_tenant_id audit = tenant_id context →
  t_audit (db w) !! row_key audit = None →
  (∃ i v w', t_sod_waivers (t_org (db w)) !! i = Some v ∧
     proposed_waiver (tenant_id context) key v = true ∧ sw_granted_by v ≠ principal_id context ∧
     repo_confirm context key (py_strip reason) audit w = (Ok true, w') ∧
     confirmed_db context reason i v w w') ∨
  ((∀ i v, t_sod_waivers (t_org (db w)) !! i = Some v →
      proposed_waiver (tenant_id context) key v = true → sw_granted_by v = principal_id context) ∧
   ∃ r, repo_confirm context key (py_strip reason) audit w = (r, w) ∧ r ≠ Ok true).
Proof.
  intros Hc Hu Hck Hb Hat Haf. pose proof (written_reason reason Hb) as Hr.
  assert (w = set_db (saved w) w) as Eback by (by rewrite set_db_clean).
  unfold repo_confirm, session_begin, bind, get_state, try_except.
  destruct (decide (map_Exists (λ _ v, proposed_waiver (tenant_id context) key v = true)
    (t_sod_waivers (t_org (db w))))) as [(i & v & Hi & Hp)|Hno].
  - rewrite (update_confirm_run context key _ w Hu Hck Hr i v Hi Hp).
    case_bool_decide as Hself.
    + right. split.
      * intros j v' Hj Hp'. assert (j = i) as ->; [|congruence].
        unfold proposed_waiver in *. to_prop. by eapply one_open_waiver.
      * cbv beta iota. rewrite bool_decide_eq_true_2 by done. unfold raise. eexists. by rewrite <- Eback.
    + left. exists i, v. unfold audit_append. simpl. rewrite sql_insert_fresh by done. simpl.
      eexists. split_and!; [done|done|by intros E|reflexivity|].
      split_and!; [done|done|done|]. simpl. by rewrite map_size_insert_None.
  - right. assert (∀ k v, t_sod_waivers (t_org (db w)) !! k = Some v →
      proposed_waiver (tenant_id context) key v = false) as Hn.
    { intros k v Hk. apply not_true_iff_false. intros Hp. apply Hno. by exists k, v. }
    split; [intros i v Hi Hp; by rewrite (Hn i v Hi) in Hp|].
    rewrite (update_confirm_none context key _ w Hu Hck Hn). simpl.
    exists (Ok false). split; [|done]. f_equal. unfold clean in Hc. destruct w; simpl in *. by subst.
Qed.

(** A waiver is confirmed exactly when the caller may sign waivers, gives a reason, and the
    tenant has an open, unconfirmed waiver of the rule that someone else proposed; it
    then carries the caller's signature with one audit event, and any refusal leaves the
    database as it was. *)
Theorem confirm_exact authz context key reason w :
  clean w → unique_ok (t_sod_waivers (t_org (db w))) = true → waivers_checked (t_org (db w)) →
  t_audit (db w) !! (ids w (ids_issued w), utc w (utc_reads w)) = None →
  let second_person i v :=
    t_sod_waivers (t_org (db w)) !! i = Some v ∧
    proposed_waiver (tenant_id context) key v = true ∧ sw_granted_by v ≠ principal_id context in
  let r := confirm authz context key reason w in
  (r.1 = Ok tt ↔ is_allowed authz context SOD_WAIVERS_WRITE = true ∧ is_blank reason = false ∧
                 ∃ i v, second_person i v) ∧
  (r.1 = Ok tt → ∃ i v, second_person i v ∧ confirmed_db context reason i v w r.2) ∧
  (r.1 ≠ Ok tt → db r.2 = db w ∧ saved r.2 = db w).
Proof.
  intros Hc Hu Hck Haf second_person r.
  assert (∀ e, r = (Raise e, w) → ¬ (is_allowed authz context SOD_WAIVERS_WRITE = true ∧
    is_blank reason = false ∧ ∃ i v, second_person i v) →
    (r.1 = Ok tt ↔ is_allowed authz context SOD_WAIVERS_WRITE = true ∧ is_blank reason = false ∧
                   ∃ i v, second_person i v) ∧
    (r.1 = Ok tt → ∃ i v, second_person i v ∧ confirmed_db context reason i v w r.2) ∧
    (r.1 ≠ Ok tt → db r.2 = db w ∧ saved r.2 = db w)) as Hfail
    by (intros e -> Hno; simpl; rewrite Hc; naive_solver).
  destruct (is_allowed authz context SOD_WAIVERS_WRITE) eqn:Ha.
  2: { apply (Hfail permission_denied); [|naive_solver].
       unfold r, confirm, require, bind, lift_res. by rewrite Ha. }
  destruct (is_blank reason) eqn:Hb.
  { eapply Hfail; [|naive_solver]. unfold r, confirm, require, waiver_reason, bind, lift_res.
    by rewrite Ha, py_truthy_strip, Hb. }
  destruct (waiver_event_run context "platform.sod.waiver_confirm" key (py_strip reason) w eq_refl)
    as (e & He & Het & Hek).
  assert (r = match repo_confirm context key (py_strip reason) e (tick w) with
              | (Ok b, w') => (when negb b then raise NotFoundError
                  "this tenant has no waiver of that rule waiting for confirmation") w'
              | (Raise e', w') => (Raise e', w')
              end) as Er.
  { unfold r, confirm, require, waiver_reason, bind at 1, lift_res. rewrite Ha.
    unfold bind at 1. rewrite py_truthy_strip, Hb. cbn [negb]. unfold ret at 1, bind at 1.
    by rewrite He. }
  destruct (repo_confirm_run context key reason e (tick w)) as
    [(i & v & w' & Hi & Hp & Hne & Hrun & Hcf)|(Hall & r' & Hrun & Hnr)];
    [done|done|done|done|done|by rewrite Hek|..]; rewrite Hrun in Er; rewrite Er; simpl.
  - split_and!; [|by exists i, v|by intros []]. split; [|done]. intros _.
    split_and!; [done|done|by exists i, v].
  - assert (∀ i v, ¬ second_person i v) as Hnone by (intros i v (Hi & Hp & Hne); by apply Hne, (Hall i v)).
    destruct r' as [[]|e']; [done| |]; simpl; rewrite Hc; naive_solver.
Qed.

(** ** A concrete instance *)

(** Ordering and confirming payment are kept apart; 101 proposed the waiver. *)
Definition example_rule : SodRuleRow :=
  {| sr_key := "sod_order_pay"; sr_description := "order and pay";
     sr_left_scopes := ["orders.write"]; sr_right_scopes := ["payments.confirm"];
     sr_waivable := true |}.

Definition example_signatory (user : uuid) : AccessContext :=
  {| tenant_id := 10; workspace_id := 20; principal_id := user; roles := ∅; groups := ∅;
     scopes := {[ SOD_WAIVERS_WRITE; "platform.members.write" ]}; clearance := "internal";
     plan_id := "p"; feature_flags := ∅; record_visibility := "open"; visible_owners := None;
     max_autonomy_level := A0; support := None |}.

Definition example_proposal : SodWaiverRow :=
  new_waiver (example_signatory 101) 30 "sod_order_pay" "two of us" 0.

Definition example_buyer : MembershipRow :=
  {| mb_id := 1; mb_tenant_id := 10; mb_workspace_id := 20; mb_user_id := 101;
     mb_role_keys := ["buyer"]; mb_permission_set_keys := []; mb_clearance := "internal";
     mb_department := "general"; mb_manager_user_id := None; mb_created_at := 0 |}.

Definition example_small_org : OrgDb :=
  MkOrg ∅ {[ 20%N := {| ws_id := 20; ws_tenant_id := 10; ws_slug := "main"; ws_name := "HQ" |} ]} ∅ ∅
    {[ 1%N := example_buyer ]} ∅ ∅
    (list_to_map [("buyer"%py, ["orders.write"%py]); ("payer"%py, ["payments.confirm"%py]);
                  ("org_admin"%py, ["platform.members.write"%py])])
    ∅ ∅ ∅ ∅ {[ "sod_order_pay"%py := example_rule ]} {[ 30%N := example_proposal ]}.

Definition example_small : World := example_world (set_org example_small_org empty_db) 1000.

Lemma example_checked : waivers_checked example_small_org.
Proof.
  intros k v Hk. change (({[ 30%N := example_proposal ]} : gmap uuid SodWaiverRow) !! k = Some v) in Hk.
  apply lookup_singleton_Some in Hk as [<- <-]. by vm_compute.
Qed.

Lemma confirm_exact_witness :
  (confirm default_authorization (example_signatory 102) "sod_order_pay" "agreed" example_small).1
    = Ok tt ∧
  (confirm default_authorization (example_signatory 101) "sod_order_pay" "agreed" example_small).1
    ≠ Ok tt.
Proof.
  destruct (confirm_exact default_authorization (example_signatory 102) "sod_order_pay" "agreed"
    example_small eq_refl ltac:(by vm_compute) example_checked ltac:(by vm_compute)) as (H & _ & _).
  split.
  - apply H. split_and!; [by vm_compute|by vm_compute|].
    exists 30%N, example_proposal. split_and!; [by vm_compute|by vm_compute|done].
  - by vm_compute.
Defined.
