(* ===== verification/Members.v ===== *)
(** * Who is in a tenant, and with which roles

    [application/membership_admin.py] with [persistence/membership_admin.py]
    (one membership granted or revoked), and [application/tenant_members.py]
    with [persistence/tenant_members.py] (a person's roles replaced in several
    workspaces, and invitations). *)

From S2P Require Import Prelude Errors Kernel Domain Contracts Accounts SupportGrants Store Hierarchy Membership.
From S2P Require Import Separation.
Local Open Scope prog_scope.
Local Open Scope pystr_scope.

(** ** [membership_admin.py] *)

Definition ADMIN_SCOPE_PREFIX : pystr := "platform.".

Definition admin_scope (s : pystr) : bool := py_startswith s ADMIN_SCOPE_PREFIX.

Definition is_administrative (scopes : gset pystr) : bool := existsb admin_scope (elements scopes).

(** Only a Platform Admin may hand out an administrative role. *)
Definition forbid_escalation (context : AccessContext) (granted_scopes : gset pystr) : res unit :=
  if bool_decide (PLATFORM_ADMIN_ROLE ∈ roles context) then Ok tt
  else if is_administrative granted_scopes
  then Raise (Exn PermissionDeniedError "only a platform admin may grant an administrative role")
  else Ok tt.

Record UserRef := {
  ur_user_id : uuid;
  ur_email : option pystr;
  ur_display_name : pystr }.

Record GrantMembership := {
  gm_email : pystr;
  gm_workspace_id : uuid;
  gm_role_keys : gset pystr;
  gm_department : pystr }.

Record RevokeMembership := {
  rm_user_id : uuid;
  rm_workspace_id : uuid }.

(** [sorted(role_keys)], as the column and the audit details store it. *)
Definition sorted_keys (keys : gset pystr) : list pystr := py_sorted (elements keys).

Definition json_keys (keys : gset pystr) : json := JList (JStr <$> sorted_keys keys).

(** [_event]; the instant and the id are drawn when it is built. *)
Definition member_event (context : AccessContext) (action : pystr) (user_id ws : uuid)
    (details : gmap pystr json) : Prog AuditEvent :=
  let! id := new_uuid in
  let! now := now_utc in
  lift_res (make_audit_event
    {| ae_id := id; ae_tenant_id := tenant_id context; ae_workspace_id := ws;
       ae_actor_id := principal_id context; ae_action := action;
       ae_resource_type := "membership"; ae_resource_id := uuid_str user_id;
       ae_occurred_at := now; ae_run_id := None; ae_policy_decision := None;
       ae_trace_id := None; ae_details := details |}).

(** A row of [memberships], the other columns at their defaults. *)
Definition new_membership (id tenant ws user_id : uuid) (role_keys : gset pystr)
    (department : pystr) (now : datetime) : MembershipRow :=
  {| mb_id := id; mb_tenant_id := tenant; mb_workspace_id := ws; mb_user_id := user_id;
     mb_role_keys := sorted_keys role_keys; mb_permission_set_keys := [];
     mb_clearance := "internal"; mb_department := department; mb_manager_user_id := None;
     mb_created_at := now |}.

Definition with_roles (role_keys : gset pystr) (department : option pystr) (m : MembershipRow)
    : MembershipRow :=
  {| mb_id := mb_id m; mb_tenant_id := mb_tenant_id m; mb_workspace_id := mb_workspace_id m;
     mb_user_id := mb_user_id m; mb_role_keys := sorted_keys role_keys;
     mb_permission_set_keys := mb_permission_set_keys m; mb_clearance := mb_clearance m;
     mb_department := default (mb_department m) department;
     mb_manager_user_id := mb_manager_user_id m; mb_created_at := mb_created_at m |}.

(** One person's seat in one workspace: the columns of [uq_memberships_scope_user]. *)
Definition seat (tenant ws user_id : uuid) (m : MembershipRow) : bool :=
  bool_decide (mb_tenant_id m = tenant) && bool_decide (mb_workspace_id m = ws)
  && bool_decide (mb_user_id m = user_id).

(** [INSERT ... ON CONFLICT ON CONSTRAINT uq_memberships_scope_user DO UPDATE]:
    the insert's row triggers fire on the proposed row, then, for a seat that is
    taken, the update's on the row that holds it. *)
Definition upsert_membership (tenant : uuid) (new : MembershipRow)
    (f : MembershipRow → MembershipRow) : Prog unit :=
  let! w := get_state in
  lift_res (membership_triggers (t_org (db w)) new) ;;;
  let p := seat (mb_tenant_id new) (mb_workspace_id new) (mb_user_id new) in
  let! taken := sql_select tenant p in
  match taken with
  | [] => sql_insert tenant new
  | _ => let! _ := update_membership tenant p f in ret tt
  end.

Definition roles_known (o : OrgDb) (role_keys : gset pystr) : gset pystr :=
  filter (λ k, is_Some (t_roles o !! k)) role_keys.

Definition known_roles (role_keys : gset pystr) : Prog (gset pystr) :=
  session_begin (gets (λ w, roles_known (t_org (db w)) role_keys)).

Definition scopes_for_roles (role_keys : gset pystr) : Prog (gset pystr) :=
  session_begin (gets (λ w, scopes_in (t_roles (t_org (db w))) (elements role_keys))).

Definition repo_grant (context : AccessContext) (user_id ws : uuid) (role_keys : gset pystr)
    (department : pystr) (audit : AuditEvent) : Prog unit :=
  session_begin (
    let! w := get_state in
    (when negb (bool_decide (ws_tenant_id <$> t_workspaces (t_org (db w)) !! ws
                             = Some (tenant_id context))) then
       raise NotFoundError "workspace not found in this tenant") ;;;
    let! id := new_uuid in
    try_except
      (upsert_membership (tenant_id context)
         (new_membership id (tenant_id context) ws user_id role_keys department (db_now w))
         (with_roles role_keys (Some department)))
      membership_refused ;;;
    audit_append (tenant_id context) audit).

Definition repo_revoke_membership (context : AccessContext) (user_id ws : uuid)
    (audit : AuditEvent) : Prog bool :=
  session_begin (
    let! n := sql_delete (R := MembershipRow) (tenant_id context) (λ m,
      bool_decide (mb_user_id m = user_id) && bool_decide (mb_workspace_id m = ws)) in
    if n =? 0 then ret false
    else audit_append (tenant_id context) audit ;;; ret true).

(** ** [tenant_members.py] *)

Abbreviation Roles := (gmap uuid (gset pystr)).

Record WorkspaceRoles := {
  wp_workspace_id : uuid;
  wp_role_keys : gset pystr }.

Record MembershipChange := {
  ch_workspace_id : uuid;
  ch_before : gset pystr;
  ch_after : gset pystr }.

(** The roles each workspace ends with (empty: no membership). *)
Definition plan_memberships (current desired : Roles) (administrative : gset pystr) : Roles :=
  merge (λ c d, match c, d with
                | None, None => None
                | _, _ => Some ((default ∅ c ∩ administrative) ∪ default ∅ d)
                end) current desired.

(** [_by_workspace], the dict in the order of its insertions. *)
Fixpoint by_workspace_from (merged : list (uuid * gset pystr)) (rows : list WorkspaceRoles)
    : res (list (uuid * gset pystr)) :=
  match rows with
  | [] => Ok merged
  | row :: rest =>
      if bool_decide (wp_workspace_id row ∈ merged.*1)
      then Raise (Exn DomainError "a workspace appears twice")
      else by_workspace_from (merged ++ [(wp_workspace_id row, wp_role_keys row)]) rest
  end.

Definition _by_workspace (rows : list WorkspaceRoles) : res (list (uuid * gset pystr)) :=
  by_workspace_from [] rows.

Definition role_catalog : Prog (gmap pystr (gset pystr)) :=
  session_begin (gets (λ w, list_to_set <$> t_roles (t_org (db w)))).

(** [_checked_roles]: the administrative role keys, unless a role is unknown or
    may not be handed out. *)
Definition _checked_roles (context : AccessContext) (desired : list (uuid * gset pystr))
    : Prog (gset pystr) :=
  let! catalog := role_catalog in
  let asked : gset pystr := ⋃ desired.*2 in
  (when bool_decide (asked ∖ dom catalog ≠ ∅) then raise NotFoundError "unknown role") ;;;
  lift_res (forbid_escalation context
              (⋃ ((λ role, default ∅ (catalog !! role)) <$> elements asked))) ;;;
  ret (dom (filter (λ kv, is_administrative kv.2 = true) catalog)).

(** ** [persistence/tenant_members.py] *)

(** [_require_workspaces] *)
Definition _require_workspaces (context : AccessContext) (workspace_ids : gset uuid) : Prog unit :=
  let! w := get_state in
  let found := filter (λ ws, ws_tenant_id <$> t_workspaces (t_org (db w)) !! ws
                             = Some (tenant_id context)) workspace_ids in
  when bool_decide (workspace_ids ∖ found ≠ ∅) then
    raise NotFoundError "workspace not found in this tenant".

(** One change of [_write]. *)
Definition write_change (context : AccessContext) (user_id : uuid) (change : MembershipChange)
    : Prog unit :=
  let mine := seat (tenant_id context) (ch_workspace_id change) user_id in
  if bool_decide (ch_after change = ∅) then
    let! _ := sql_delete (R := MembershipRow) (tenant_id context) mine in ret tt
  else if bool_decide (ch_before change = ∅) then
    let! id := new_uuid in
    let! w := get_state in
    insert_membership (tenant_id context)
      (new_membership id (tenant_id context) (ch_workspace_id change) user_id (ch_after change)
         "general" (db_now w))
  else
    let! _ := update_membership (tenant_id context) mine (with_roles (ch_after change) None) in
    ret tt.

Fixpoint write_changes (context : AccessContext) (user_id : uuid)
    (changes : list MembershipChange) : Prog unit :=
  match changes with
  | [] => ret tt
  | change :: rest => write_change context user_id change ;;; write_changes context user_id rest
  end.

(** [_write] *)
Definition _write (context : AccessContext) (user_id : uuid) (changes : list MembershipChange)
    : Prog unit :=
  try_except (write_changes context user_id changes) membership_refused.

(** The events of the changes, each built and appended in turn. *)
Fixpoint append_each {A} (tenant : uuid) (audit : A → Prog AuditEvent) (l : list A) : Prog unit :=
  match l with
  | [] => ret tt
  | a :: rest =>
      let! event := audit a in
      audit_append tenant event ;;;
      append_each tenant audit rest
  end.

(** [sorted(..., key=str(workspace_id))]: the text of a UUID orders as the number. *)
Definition by_id (a b : uuid * gset pystr) : Prop := (a.1 <= b.1)%N.

#[export] Instance by_id_dec : RelDecision by_id.
Proof. intros a b. unfold by_id. apply _. Defined.

Definition changes_from (current planned : Roles) : list MembershipChange :=
  omap (λ '(ws, roles),
          let before := default ∅ (current !! ws) in
          if bool_decide (roles = before) then None
          else Some {| ch_workspace_id := ws; ch_before := before; ch_after := roles |})
    (merge_sort by_id (map_to_list planned)).

Definition roles_held (held : list MembershipRow) : Roles :=
  list_to_map ((λ m, (mb_workspace_id m, list_to_set (mb_role_keys m))) <$> held).

Definition replace_memberships (context : AccessContext) (user_id : uuid) (plan : Roles → Roles)
    (audit : MembershipChange → Prog AuditEvent) : Prog (list MembershipChange) :=
  session_begin (
    let! held := sql_select (tenant_id context) (λ m, bool_decide (mb_user_id m = user_id)) in
    (when bool_decide (held = []) then raise NotFoundError "no such member in this tenant") ;;;
    let current := roles_held held in
    let planned := plan current in
    _require_workspaces context (dom planned ∖ dom current) ;;;
    let changes := changes_from current planned in
    _write context user_id changes ;;;
    append_each (tenant_id context) audit changes ;;;
    ret changes).

(** ** Invitations *)

(** [_EMAIL.fullmatch]: a local part, one at sign, and a domain with a dot that
    is neither its first nor its last character; no white space. *)
Fixpoint split_at (c : N) (l : list N) : list N * option (list N) :=
  match l with
  | [] => ([], None)
  | x :: r => if N.eqb x c then ([], Some r)
              else let '(a, b) := split_at c r in (x :: a, b)
  end.

Definition email_part (l : list N) : bool :=
  forallb (λ c, negb (N.eqb c 64) && negb (is_space c)) l.

Definition is_email (s : pystr) : bool :=
  match split_at 64 (chars s) with
  | (local, Some domain) =>
      (1 <=? length local) && email_part local && email_part domain
      && existsb (λ i, bool_decide (domain !! i = Some 46%N)) (seq 1 (length domain - 2))
  | _ => false
  end.

Record SetMemberships := {
  sm_user_id : uuid;
  sm_memberships : list WorkspaceRoles }.

Record InviteMember := {
  im_display_name : pystr;
  im_email : pystr;
  im_memberships : list WorkspaceRoles }.

Definition already_member : exn :=
  Exn ConflictError "a person with that email is already a member of this organisation".

(** [INSERT INTO users ... ON CONFLICT (email) DO NOTHING RETURNING id] *)
Definition insert_user (u : UserRow) : Prog bool :=
  let! w := get_state in
  let users := t_users (t_org (db w)) in
  let taken f := existsb f (map_to_list users).*2 in
  if taken (λ v, negb (bool_decide (us_email u = None)) && bool_decide (us_email v = us_email u))
  then ret false
  else if taken (λ v, bool_decide (us_subject v = us_subject u))
  then raise (IntegrityError "users_subject_key") "duplicate key value violates unique constraint"
  else match users !! us_id u with
       | Some _ => raise (IntegrityError "users_pkey") "duplicate key value violates unique constraint"
       | None =>
           modify (λ w, set_db (set_org (set_users (<[us_id u := u]> users) (t_org (db w))) (db w)) w) ;;;
           ret true
       end.

Section CaseMapping.
(** [str.lower] and SQL's [lower]: tables of the Unicode standard and of the
    database's locale. *)
Context (py_lower sql_lower : pystr → pystr).

(** [WHERE lower(email) = email], the first row. *)
Definition user_by_email (o : OrgDb) (email : pystr) : option UserRow :=
  head (filter (λ u, sql_lower <$> us_email u = Some email) (map_to_list (t_users o)).*2).

Definition find_user_by_email (email : pystr) : Prog (option UserRef) :=
  session_begin (gets (λ w,
    (λ u, {| ur_user_id := us_id u; ur_email := us_email u;
             ur_display_name := us_display_name u |})
      <$> user_by_email (t_org (db w)) (py_lower (py_strip email)))).

(** The person an invitation is for: found by email and not yet in the tenant,
    or created without a sign-in. *)
Definition invited_user (context : AccessContext) (display_name email : pystr) : Prog UserRef :=
  let! w := get_state in
  match user_by_email (t_org (db w)) email with
  | None =>
      let! id := new_uuid in
      let! subject := new_uuid in
      let! created := insert_user
        {| us_id := id; us_subject := "invite:" +++ uuid_str subject; us_email := Some email;
           us_display_name := display_name |} in
      if created
      then ret {| ur_user_id := id; ur_email := Some email; ur_display_name := display_name |}
      else reraise already_member
  | Some u =>
      let! in_tenant := sql_select (R := MembershipRow) (tenant_id context)
                          (λ m, bool_decide (mb_user_id m = us_id u)) in
      if bool_decide (in_tenant = [])
      then ret {| ur_user_id := us_id u; ur_email := us_email u;
                  ur_display_name := us_display_name u |}
      else reraise already_member
  end.

Definition repo_invite (context : AccessContext) (display_name email : pystr)
    (memberships : list (uuid * gset pystr))
    (audit : uuid → uuid * gset pystr → Prog AuditEvent) : Prog UserRef :=
  session_begin (
    _require_workspaces context (list_to_set memberships.*1) ;;;
    let! user := invited_user context display_name email in
    _write context (ur_user_id user)
      ((λ '(ws, roles), {| ch_workspace_id := ws; ch_before := ∅; ch_after := roles |})
         <$> memberships) ;;;
    append_each (tenant_id context) (audit (ur_user_id user)) memberships ;;;
    ret user).

(** ** The services *)

Section Services.
Context (authz : ScopeAuthorizationService) (context : AccessContext).

(** [GrantMembershipHandler.handle] *)
Definition grant (command : GrantMembership) : Prog UserRef :=
  lift_res (require authz context MEMBERS_WRITE) ;;;
  (when bool_decide (gm_role_keys command = ∅) then
     raise PermissionDeniedError "a membership needs at least one role") ;;;
  let! known := known_roles (gm_role_keys command) in
  (when bool_decide (gm_role_keys command ∖ known ≠ ∅) then raise NotFoundError "unknown role") ;;;
  let! granted := scopes_for_roles (gm_role_keys command) in
  lift_res (forbid_escalation context granted) ;;;
  let! user := find_user_by_email (gm_email command) in
  match user with
  | None => raise NotFoundError "no user with that email has signed in yet"
  | Some user =>
      let! audit := member_event context "platform.membership.grant" (ur_user_id user)
        (gm_workspace_id command)
        {[ "roles"%py := json_keys (gm_role_keys command);
           "department"%py := JStr (gm_department command) ]} in
      repo_grant context (ur_user_id user) (gm_workspace_id command) (gm_role_keys command)
        (gm_department command) audit ;;;
      ret user
  end.

(** [RevokeMembershipHandler.handle] *)
Definition revoke_membership (command : RevokeMembership) : Prog unit :=
  lift_res (require authz context MEMBERS_WRITE) ;;;
  let! audit := member_event context "platform.membership.revoke" (rm_user_id command)
                  (rm_workspace_id command) ∅ in
  let! removed := repo_revoke_membership context (rm_user_id command) (rm_workspace_id command) audit in
  when negb removed then raise NotFoundError "no such membership in this tenant".

(** [_change_event] *)
Definition change_event (user_id : uuid) (change : MembershipChange) : Prog AuditEvent :=
  if bool_decide (ch_after change = ∅)
  then member_event context "platform.membership.revoke" user_id (ch_workspace_id change) ∅
  else member_event context "platform.membership.grant" user_id (ch_workspace_id change)
         {[ "roles"%py := json_keys (ch_after change);
            "previous_roles"%py := json_keys (ch_before change) ]}.

(** [TenantMembersService.set_memberships] *)
Definition set_memberships_of (command : SetMemberships) : Prog (list MembershipChange) :=
  lift_res (require authz context MEMBERS_WRITE) ;;;
  let! desired := lift_res (_by_workspace (sm_memberships command)) in
  let! administrative := _checked_roles context desired in
  replace_memberships context (sm_user_id command)
    (λ current, plan_memberships current (list_to_map desired) administrative)
    (change_event (sm_user_id command)).

(** [TenantMembersService.invite] *)
Definition invite (command : InviteMember) : Prog UserRef :=
  lift_res (require authz context MEMBERS_WRITE) ;;;
  let display_name := py_strip (im_display_name command) in
  (when negb ((4 <=? py_len display_name) && (py_len display_name <=? 120)) then
     raise DomainError "a display name of 4 to 120 characters is required") ;;;
  let email := py_lower (py_strip (im_email command)) in
  (when negb (is_email email) then raise DomainError "a valid email is required") ;;;
  let! rows := lift_res (_by_workspace (im_memberships command)) in
  let desired := filter (λ kv, kv.2 ≠ ∅) rows in
  (when bool_decide (desired = []) then
     raise DomainError "an invitation needs at least one workspace with a role") ;;;
  let! _ := _checked_roles context desired in
  repo_invite context display_name email desired (λ user_id '(ws, roles),
    member_event context "platform.member.invited" user_id ws
      {[ "user_id"%py := JStr (uuid_str user_id); "roles"%py := json_keys roles ]}).
End Services.
End CaseMapping.

(** ** Permission sets: [AdminConsoleService.set_permission_sets] *)

Record SetPermissionSets := {
  sp_user_id : uuid;
  sp_permission_set_keys : gset pystr }.

Definition with_sets (keys : gset pystr) (m : MembershipRow) : MembershipRow :=
  {| mb_id := mb_id m; mb_tenant_id := mb_tenant_id m; mb_workspace_id := mb_workspace_id m;
     mb_user_id := mb_user_id m; mb_role_keys := mb_role_keys m;
     mb_permission_set_keys := sorted_keys keys; mb_clearance := mb_clearance m;
     mb_department := mb_department m; mb_manager_user_id := mb_manager_user_id m;
     mb_created_at := mb_created_at m |}.

Definition known_permission_sets (keys : gset pystr) : Prog (gset pystr) :=
  session_begin (gets (λ w,
    filter (λ k, is_Some (t_permission_sets (t_org (db w)) !! k)) keys)).

Definition scopes_for_permission_sets (keys : gset pystr) : Prog (gset pystr) :=
  session_begin (gets (λ w, scopes_in (t_permission_sets (t_org (db w))) (elements keys))).

Definition repo_set_permission_sets (context : AccessContext) (user_id : uuid)
    (keys : gset pystr) (audit : AuditEvent) : Prog bool :=
  session_begin (
    let! n := try_except
      (update_membership (tenant_id context)
         (seat (tenant_id context) (workspace_id context) user_id) (with_sets keys))
      (λ e, reraise (default e (separation_of_duties_conflict e))) in
    if n =? 0 then ret false
    else audit_append (tenant_id context) audit ;;; ret true).

Definition set_member_permission_sets (authz : ScopeAuthorizationService) (context : AccessContext)
    (command : SetPermissionSets) : Prog unit :=
  lift_res (require authz context MEMBERS_WRITE) ;;;
  let keys := sp_permission_set_keys command in
  let! known := known_permission_sets keys in
  (when bool_decide (keys ∖ known ≠ ∅) then raise NotFoundError "unknown permission set") ;;;
  (if bool_decide (PLATFORM_ADMIN_ROLE ∈ roles context) then ret tt
   else let! granted := scopes_for_permission_sets keys in
        when is_administrative granted then
          raise PermissionDeniedError
            "only a platform admin may grant an administrative permission set") ;;;
  let! id := new_uuid in
  let! now := now_utc in
  let! audit := lift_res (make_audit_event
    {| ae_id := id; ae_tenant_id := tenant_id context; ae_workspace_id := workspace_id context;
       ae_actor_id := principal_id context; ae_action := "platform.member.permission_sets";
       ae_resource_type := "membership"; ae_resource_id := uuid_str (sp_user_id command);
       ae_occurred_at := now; ae_run_id := None; ae_policy_decision := None; ae_trace_id := None;
       ae_details := {[ "permission_set_keys"%py := json_keys keys ]} |}) in
  let! changed := repo_set_permission_sets context (sp_user_id command) keys audit in
  when negb changed then raise NotFoundError "no such member in this workspace".

(** ** Duties stay separated *)

Lemma membership_refused_raises {A} e s (a : A) s' : membership_refused e s ≠ (Ok a, s').
Proof. by unfold membership_refused. Qed.

Lemma upsert_membership_keeps tenant new f : keeps duties_in (upsert_membership tenant new f).
Proof.
  intros w u w' Hd H. unfold upsert_membership in H.
  apply bind_ok in H as (w0 & s & [= <- <-] & H).
  apply bind_ok in H as ([] & s & [Ht <-]%pair_equal_spec & H).
  apply bind_ok in H as (taken & s & [= <- <-] & H). destruct (filter _ _) as [|m l].
  - apply (insert_membership_keeps tenant new w u w' Hd).
    apply insert_membership_ok. by split.
  - apply bind_ok in H as (n & s & H & [= <- <-]). by eapply update_membership_keeps.
Qed.

Lemma upsert_membership_same_saved tenant new f :
  respects same_saved (upsert_membership tenant new f).
Proof. unfold upsert_membership, sql_select. respects_auto. Qed.

Lemma write_change_keeps context user_id change : keeps duties_in (write_change context user_id change).
Proof. unfold write_change. keeps_auto. Qed.

Lemma write_changes_keeps context user_id changes :
  keeps duties_in (write_changes context user_id changes).
Proof.
  induction changes as [|c l IH]; simpl; [apply keeps_ret|].
  apply keeps_bind; [apply write_change_keeps|done].
Qed.

Lemma write_change_same_saved context user_id change :
  respects same_saved (write_change context user_id change).
Proof. unfold write_change. respects_auto. Qed.

Lemma write_changes_same_saved context user_id changes :
  respects same_saved (write_changes context user_id changes).
Proof.
  induction changes as [|c l IH]; simpl; [by intros w|].
  apply respects_bind; [apply _|apply write_change_same_saved|done].
Qed.

Lemma _write_keeps context user_id changes : keeps duties_in (_write context user_id changes).
Proof.
  apply keeps_try; [apply write_changes_keeps|]. intros. apply membership_refused_raises.
Qed.

Lemma _write_same_saved context user_id changes : respects same_saved (_write context user_id changes).
Proof.
  unfold _write. apply respects_try; [apply _|apply write_changes_same_saved|by intros e w].
Qed.

Lemma member_event_keeps context action user_id ws details (I : Db → Prop) :
  keeps (λ w, I (db w)) (member_event context action user_id ws details).
Proof. unfold member_event. keeps_auto. Qed.

Lemma member_event_same_saved context action user_id ws details :
  respects same_saved (member_event context action user_id ws details).
Proof. unfold member_event. respects_auto. Qed.

Lemma append_each_keeps {A} tenant (audit : A → Prog AuditEvent) l :
  (∀ a, keeps duties_in (audit a)) → keeps duties_in (append_each tenant audit l).
Proof.
  intros Ha. induction l as [|a l IH]; simpl; [apply keeps_ret|]. keeps_auto.
Qed.

Lemma append_each_same_saved {A} tenant (audit : A → Prog AuditEvent) l :
  (∀ a, respects same_saved (audit a)) → respects same_saved (append_each tenant audit l).
Proof.
  intros Ha. induction l as [|a l IH]; simpl; [by intros w|]. unfold audit_append. respects_auto.
Qed.

Lemma insert_user_keeps u : keeps duties_in (insert_user u).
Proof.
  intros w b w' Hd. unfold insert_user, bind, get_state, ret, raise, modify.
  destruct (existsb _ _); [by intros [= <- <-]|]. destruct (existsb _ _); [done|].
  destruct (_ !! _); [done|]. by intros [= <- <-].
Qed.

Lemma insert_user_same_saved u : respects same_saved (insert_user u).
Proof. unfold insert_user. respects_auto. Qed.

#[export] Hint Resolve upsert_membership_keeps _write_keeps member_event_keeps insert_user_keeps
  : keeps.
#[export] Hint Resolve upsert_membership_same_saved _write_same_saved member_event_same_saved
  insert_user_same_saved : respects.

Lemma invited_user_keeps sql_lower context name email :
  keeps duties_in (invited_user sql_lower context name email).
Proof. unfold invited_user, sql_select. keeps_auto. Qed.

Lemma invited_user_same_saved sql_lower context name email :
  respects same_saved (invited_user sql_lower context name email).
Proof. unfold invited_user, sql_select. respects_auto. Qed.
#[export] Hint Resolve invited_user_keeps : keeps.
#[export] Hint Resolve invited_user_same_saved : respects.

Lemma read_dutiful {A} (f : World → A) : dutiful (session_begin (gets f)).
Proof. apply dutiful_session; [apply keeps_gets|by intros w]. Qed.
#[export] Hint Resolve read_dutiful : dutiful.

Lemma member_event_dutiful context action user_id ws details :
  dutiful (member_event context action user_id ws details).
Proof. unfold member_event. dutiful_auto. Qed.
#[export] Hint Resolve member_event_dutiful : dutiful.

Lemma repo_grant_dutiful context user_id ws keys department audit :
  dutiful (repo_grant context user_id ws keys department audit).
Proof.
  apply dutiful_session.
  - keeps_auto. apply keeps_try; [apply upsert_membership_keeps|].
    intros. apply membership_refused_raises.
  - unfold audit_append. respects_auto.
Qed.

Lemma repo_revoke_membership_dutiful context user_id ws audit :
  dutiful (repo_revoke_membership context user_id ws audit).
Proof. apply dutiful_session; [keeps_auto|]. unfold audit_append. respects_auto. Qed.

Lemma replace_memberships_dutiful context user_id plan audit :
  (∀ c, keeps duties_in (audit c)) → (∀ c, respects same_saved (audit c)) →
  dutiful (replace_memberships context user_id plan audit).
Proof.
  intros Hk Hs. apply dutiful_session; unfold sql_select, _require_workspaces.
  - keeps_auto. by apply append_each_keeps.
  - respects_auto. by apply append_each_same_saved.
Qed.

Lemma repo_invite_dutiful sql_lower context name email memberships audit :
  (∀ u m, keeps duties_in (audit u m)) → (∀ u m, respects same_saved (audit u m)) →
  dutiful (repo_invite sql_lower context name email memberships audit).
Proof.
  intros Hk Hs. apply dutiful_session; unfold _require_workspaces.
  - keeps_auto. by apply append_each_keeps.
  - respects_auto. by apply append_each_same_saved.
Qed.

Lemma repo_set_permission_sets_dutiful context user_id keys audit :
  dutiful (repo_set_permission_sets context user_id keys audit).
Proof.
  apply dutiful_session.
  - keeps_auto. by apply keeps_try; [apply update_membership_keeps|].
  - unfold audit_append. respects_auto.
Qed.
#[export] Hint Resolve repo_grant_dutiful repo_revoke_membership_dutiful
  repo_set_permission_sets_dutiful : dutiful.

Lemma _checked_roles_dutiful context desired : dutiful (_checked_roles context desired).
Proof. unfold _checked_roles, role_catalog. dutiful_auto. Qed.
#[export] Hint Resolve _checked_roles_dutiful : dutiful.

Lemma grant_dutiful py_lower sql_lower authz context command :
  dutiful (grant py_lower sql_lower authz context command).
Proof.
  unfold grant, known_roles, scopes_for_roles, find_user_by_email. dutiful_auto.
Qed.

Lemma revoke_membership_dutiful authz context command :
  dutiful (revoke_membership authz context command).
Proof. unfold revoke_membership. dutiful_auto. Qed.

Lemma set_memberships_dutiful authz context command :
  dutiful (set_memberships_of authz context command).
Proof.
  unfold set_memberships_of. dutiful_auto. apply replace_memberships_dutiful; intros c;
    unfold change_event; case_bool_decide; auto with keeps respects.
Qed.

Lemma invite_dutiful py_lower sql_lower authz context command :
  dutiful (invite py_lower sql_lower authz context command).
Proof.
  unfold invite. dutiful_auto. apply repo_invite_dutiful; intros u [ws rs]; auto with keeps respects.
Qed.

Lemma set_member_permission_sets_dutiful authz context command :
  dutiful (set_member_permission_sets authz context command).
Proof.
  unfold set_member_permission_sets, known_permission_sets, scopes_for_permission_sets. dutiful_auto.
Qed.

Lemma set_manager_dutiful authz context user_id manager :
  dutiful (set_manager authz context user_id manager).
Proof.
  assert (∀ u, dutiful (is_member context u)) as H1.
  { intros u. unfold is_member, sql_select. apply dutiful_session; [keeps_auto|respects_auto]. }
  assert (∀ u, dutiful (subtree_user_ids context u)) as H2.
  { intros u. unfold subtree_user_ids, sql_select. apply dutiful_session; [keeps_auto|respects_auto]. }
  assert (∀ u m e, dutiful (repo_set_manager context u m e)) as H3.
  { intros u m e. apply dutiful_session.
    - keeps_auto. by apply update_authority_keeps.
    - unfold audit_append. respects_auto. }
  unfold set_manager, set_manager_checks, set_manager_write. dutiful_auto.
Qed.

(** What anyone may do to memberships, waivers and the catalogue. *)
Inductive org_op (w : World) : World → Prop :=
  | op_grant py_lower sql_lower authz context command :
      org_op w (grant py_lower sql_lower authz context command w).2
  | op_revoke_membership authz context command :
      org_op w (revoke_membership authz context command w).2
  | op_set_memberships authz context command :
      org_op w (set_memberships_of authz context command w).2
  | op_invite py_lower sql_lower authz context command :
      org_op w (invite py_lower sql_lower authz context command w).2
  | op_permission_sets authz context command :
      org_op w (set_member_permission_sets authz context command w).2
  | op_set_manager authz context user_id manager :
      org_op w (set_manager authz context user_id manager w).2
  | op_waive authz context key reason : org_op w (waive authz context key reason w).2
  | op_confirm authz context key reason : org_op w (confirm authz context key reason w).2
  | op_revoke_waiver authz context key reason :
      org_op w (revoke_waiver authz context key reason w).2
  | op_role_scopes key scopes : org_op w (set_role_scopes key scopes w).2
  | op_permission_set_scopes key scopes : org_op w (set_permission_set_scopes key scopes w).2.

Lemma org_op_dutiful w w' : org_op w w' → clean w → duties_in w → clean w' ∧ duties_in w'.
Proof.
  destruct 1; intros Hc Hd;
  [by apply grant_dutiful
  |by apply revoke_membership_dutiful
  |by apply set_memberships_dutiful
  |by apply invite_dutiful
  |by apply set_member_permission_sets_dutiful
  |by apply set_manager_dutiful
  |by apply waive_dutiful
  |by apply confirm_dutiful
  |by apply revoke_waiver_dutiful
  |by apply set_role_scopes_dutiful
  |by apply set_permission_set_scopes_dutiful].
Qed.

(** C4: whatever grants, invitations, role and permission-set changes, catalogue changes and
    waiver decisions follow one another, a membership holds both sides of a rule only
    while its tenant has an open waiver of it, the rule may be waived, and two different
    people signed. *)
Theorem duties_stay_separated w w' k m key :
  clean w → duties_in w → rtc org_op w w' →
  t_memberships (t_org (db w')) !! k = Some m →
  sod_rule_broken (t_org (db w')) key (mb_role_keys m) (mb_permission_set_keys m) = true →
  ∃ rule i v second,
    t_sod_rules (t_org (db w')) !! key = Some rule ∧ sr_waivable rule = true ∧
    t_sod_waivers (t_org (db w')) !! i = Some v ∧ sw_tenant_id v = mb_tenant_id m ∧
    sw_rule_key v = key ∧ sw_revoked_at v = None ∧
    sw_confirmed_by v = Some second ∧ second ≠ sw_granted_by v.
Proof.
  intros Hc Hd Hs Hm Hb.
  assert (clean w' ∧ duties_in w') as [_ [Hsep Hck]].
  { revert Hc Hd. induction Hs as [|w w1 w2 Hop _ IH]; [done|]. intros Hc Hd.
    by destruct (org_op_dutiful _ _ Hop Hc Hd); auto. }
  destruct (Hsep k m key Hm Hb) as [Hw (i & v & Hv & (Ht & Hk & Ho & Hcf)%lifts_ok)%waived_ok].
  destruct (t_sod_rules _ !! key) as [rule|] eqn:Hr; [|done].
  destruct (second_person v (Hck i v Hv) Hcf) as (second & Hs2 & Hne).
  by exists rule, i, v, second.
Qed.

(** ** What a change of roles does to the table *)

Definition same_seat (m m' : MembershipRow) : Prop :=
  mb_tenant_id m' = mb_tenant_id m ∧ mb_workspace_id m' = mb_workspace_id m ∧
  mb_user_id m' = mb_user_id m.

Lemma seat_ok tenant ws u m :
  seat tenant ws u m = true ↔
    mb_tenant_id m = tenant ∧ mb_workspace_id m = ws ∧ mb_user_id m = u.
Proof. unfold seat. rewrite !andb_true_iff, !bool_decide_eq_true. tauto. Qed.

Lemma visible_seat tenant ws u m : visible tenant (seat tenant ws u) m = seat tenant ws u m.
Proof.
  unfold visible, seat. change (row_tenant m) with (mb_tenant_id m).
  by destruct (bool_decide (mb_tenant_id m = tenant)).
Qed.

Lemma seat_with_roles tenant ws u keys department m :
  seat tenant ws u (with_roles keys department m) = seat tenant ws u m.
Proof. done. Qed.

(** A person has one row per workspace. *)
Lemma one_seat (t : gmap uuid MembershipRow) tenant ws u k1 k2 m1 m2 :
  unique_ok t = true → t !! k1 = Some m1 → t !! k2 = Some m2 →
  seat tenant ws u m1 = true → seat tenant ws u m2 = true → k1 = k2.
Proof.
  intros Hu H1 H2 (T1 & W1 & U1)%seat_ok (T2 & W2 & U2)%seat_ok.
  rewrite unique_ok_spec in Hu. apply (Hu k1 k2 m1 m2 [tenant; ws; u]); [done|done|..]; simpl; congruence.
Qed.

(** The roles a person holds in a workspace, and the permission sets. *)
Definition rows_at (t : gmap uuid MembershipRow) (tenant ws u : uuid) : list MembershipRow :=
  filter (λ m, seat tenant ws u m = true) (map_to_list t).*2.
Definition roles_at (t : gmap uuid MembershipRow) (tenant ws u : uuid) : gset pystr :=
  ⋃ ((λ m, list_to_set (mb_role_keys m)) <$> rows_at t tenant ws u).
Definition sets_at (t : gmap uuid MembershipRow) (tenant ws u : uuid) : gset pystr :=
  ⋃ ((λ m, list_to_set (mb_permission_set_keys m)) <$> rows_at t tenant ws u).

Lemma elem_of_rows_at t tenant ws u m :
  m ∈ rows_at t tenant ws u ↔ seat tenant ws u m = true ∧ ∃ k, t !! k = Some m.
Proof.
  unfold rows_at. rewrite list_elem_of_filter, list_elem_of_fmap. split.
  - intros (Hm & [k m'] & -> & Hk%elem_of_map_to_list). eauto.
  - intros (Hm & k & Hk). split; [done|]. exists (k, m). by rewrite elem_of_map_to_list.
Qed.

Lemma elem_of_roles_at r t tenant ws u :
  r ∈ roles_at t tenant ws u ↔
  ∃ k m, t !! k = Some m ∧ seat tenant ws u m = true ∧ r ∈ mb_role_keys m.
Proof.
  unfold roles_at. rewrite elem_of_union_list. setoid_rewrite list_elem_of_fmap. split.
  - intros (X & (m & -> & (Hs & k & Hk)%elem_of_rows_at) & Hr%elem_of_list_to_set). eauto.
  - intros (k & m & Hk & Hs & Hr). exists (list_to_set (mb_role_keys m)). split.
    + exists m. split; [done|]. apply elem_of_rows_at. eauto.
    + by apply elem_of_list_to_set.
Qed.

Lemma elem_of_sets_at p t tenant ws u :
  p ∈ sets_at t tenant ws u ↔
  ∃ k m, t !! k = Some m ∧ seat tenant ws u m = true ∧ p ∈ mb_permission_set_keys m.
Proof.
  unfold sets_at. rewrite elem_of_union_list. setoid_rewrite list_elem_of_fmap. split.
  - intros (X & (m & -> & (Hs & k & Hk)%elem_of_rows_at) & Hr%elem_of_list_to_set). eauto.
  - intros (k & m & Hk & Hs & Hr). exists (list_to_set (mb_permission_set_keys m)). split.
    + exists m. split; [done|]. apply elem_of_rows_at. eauto.
    + by apply elem_of_list_to_set.
Qed.

Lemma elem_of_sorted_keys r keys : r ∈ sorted_keys keys ↔ r ∈ keys.
Proof. unfold sorted_keys. rewrite py_sorted_perm. apply elem_of_elements. Qed.

(** One change of [_write]: rows of other seats stay; the row of this one gets
    the new roles, is created, or goes. *)
Record changed (tenant u : uuid) (c : MembershipChange) (t t' : gmap uuid MembershipRow) : Prop := {
  cg_outside : ∀ k m, seat tenant (ch_workspace_id c) u m = false →
    (t' !! k = Some m ↔ t !! k = Some m);
  cg_inside : ∀ k m, seat tenant (ch_workspace_id c) u m = true → t' !! k = Some m →
    ch_after c ≠ ∅ ∧ mb_role_keys m = sorted_keys (ch_after c) ∧
    ((ch_before c = ∅ ∧ mb_permission_set_keys m = []) ∨
     ∃ m0, t !! k = Some m0 ∧ m = with_roles (ch_after c) None m0);
  cg_exists : ch_after c ≠ ∅ →
    ch_before c = ∅ ∨ rows_at t tenant (ch_workspace_id c) u ≠ [] →
    rows_at t' tenant (ch_workspace_id c) u ≠ [] }.

Lemma rows_at_some t tenant ws u k m :
  t !! k = Some m → seat tenant ws u m = true → rows_at t tenant ws u ≠ [].
Proof.
  intros Hk Hs E. assert (m ∈ rows_at t tenant ws u) as Hin by (apply elem_of_rows_at; eauto).
  rewrite E in Hin. by apply not_elem_of_nil in Hin.
Qed.

Lemma rows_at_inv t tenant ws u :
  rows_at t tenant ws u ≠ [] → ∃ k m, t !! k = Some m ∧ seat tenant ws u m = true.
Proof.
  destruct (rows_at t tenant ws u) as [|m l] eqn:E; [done|]. intros _.
  assert (m ∈ rows_at t tenant ws u) as (? & k & ?)%elem_of_rows_at by (rewrite E; left). eauto.
Qed.

Abbreviation memberships_of w := (t_memberships (t_org (db w))).

Lemma write_change_ok context user_id c w w' u :
  write_change context user_id c w = (Ok u, w') → unique_ok (memberships_of w) = true →
  changed (tenant_id context) user_id c (memberships_of w) (memberships_of w') ∧
  unique_ok (memberships_of w') = true ∧ t_audit (db w') = t_audit (db w).
Proof.
  intros H Hu. unfold write_change in H. case_bool_decide as Ha.
  { apply bind_ok in H as (n & s & [= _ <-] & [= _ <-]). simpl. split_and!; [|apply unique_ok_spec|done].
    - split; simpl.
      + intros k m Hm. rewrite map_lookup_filter_Some. simpl. rewrite visible_seat. tauto.
      + intros k m Hm. rewrite map_lookup_filter_Some. simpl. rewrite visible_seat. intros [_ ?]. congruence.
      + done.
    - intros k1 k2 r1 r2 x [H1 _]%map_lookup_filter_Some [H2 _]%map_lookup_filter_Some.
      rewrite unique_ok_spec in Hu. by apply Hu. }
  case_bool_decide as Hb.
  { apply bind_ok in H as (id & s & [= <- <-] & H). apply bind_ok in H as (s & s' & [= <- <-] & H).
    apply insert_membership_ok in H as (_ & (_ & Hfree & Hu' & ->)%sql_insert_ok).
    set (new := new_membership _ _ _ _ _ _ _) in *. change (tbl _) with (memberships_of w) in Hfree, Hu'.
    assert (seat (tenant_id context) (ch_workspace_id c) user_id new = true) as Hnew by (by apply seat_ok).
    simpl. split_and!; [|done|done]. split; simpl.
    - intros k m Hm. rewrite lookup_insert_Some. split; [|].
      + intros [[_ <-]|[_ ?]]; [congruence|done].
      + intros Hk. right. split; [|done]. intros <-. change (row_key new) with (mb_id new) in Hfree.
        simpl in Hfree. congruence.
    - intros k m Hm Hk. apply lookup_insert_Some in Hk as [[<- <-]|[Hne Hk]]; [by auto|].
      destruct Hne. eapply (one_seat _ _ _ _ _ _ _ _ Hu'); [apply lookup_insert_eq| |exact Hnew|exact Hm].
      rewrite lookup_insert_ne; [exact Hk|]. intros E. 
      change (row_key new) with (mb_id new) in Hfree. simpl in *. congruence.
    - intros _ _. eapply rows_at_some; [apply lookup_insert_eq|done]. }
  apply bind_ok in H as (n & s & (_ & (Hu' & _ & ->)%sql_update_ok)%update_membership_ok & [= _ <-]).
  simpl. split_and!; [|done|done]. change (tbl (db w)) with (memberships_of w) in *.
  assert (∀ k m, update_rows (visible (tenant_id context) (seat (tenant_id context) (ch_workspace_id c) user_id))
      (with_roles (ch_after c) None) (memberships_of w) !! k = Some m ↔
    ∃ m0, memberships_of w !! k = Some m0 ∧
      m = if seat (tenant_id context) (ch_workspace_id c) user_id m0
          then with_roles (ch_after c) None m0 else m0) as Hl.
  { intros k m. rewrite lookup_update_rows, fmap_Some. by setoid_rewrite visible_seat. }
  split; simpl.
  - intros k m Hm. rewrite Hl. split.
    + intros (m0 & Hk & ->). destruct (seat _ _ _ m0) eqn:E; [|done].
      by rewrite seat_with_roles, E in Hm.
    + intros Hk. exists m. by rewrite Hm.
  - intros k m Hm (m0 & Hk & ->)%Hl. destruct (seat _ _ _ m0) eqn:E; [|congruence].
    split_and!; [done|done|]. right. eauto.
  - intros _ [?|(k & m & Hk & Hs)%rows_at_inv]; [done|].
    apply (rows_at_some _ _ _ _ k (with_roles (ch_after c) None m)); [|done].
    apply Hl. exists m. by rewrite Hs.
Qed.

Lemma other_seat tenant ws ws' u m : seat tenant ws u m = true → ws' ≠ ws → seat tenant ws' u m = false.
Proof.
  intros (Ht & Hw & Hu)%seat_ok Hne. apply not_true_iff_false. intros (_ & Hw' & _)%seat_ok. congruence.
Qed.

(** All the changes of a [_write], of distinct workspaces. *)
Lemma write_changes_ok context user_id changes w w' u :
  let P c m := seat (tenant_id context) (ch_workspace_id c) user_id m in
  write_changes context user_id changes w = (Ok u, w') →
  unique_ok (memberships_of w) = true → NoDup (ch_workspace_id <$> changes) →
  (∀ k m, (∀ c, c ∈ changes → P c m = false) →
     (memberships_of w' !! k = Some m ↔ memberships_of w !! k = Some m)) ∧
  (∀ c k m, c ∈ changes → P c m = true → memberships_of w' !! k = Some m →
     ch_after c ≠ ∅ ∧ mb_role_keys m = sorted_keys (ch_after c) ∧
     ((ch_before c = ∅ ∧ mb_permission_set_keys m = []) ∨
      ∃ m0, memberships_of w !! k = Some m0 ∧ m = with_roles (ch_after c) None m0)) ∧
  (∀ c, c ∈ changes → ch_after c ≠ ∅ →
     ch_before c = ∅ ∨ rows_at (memberships_of w) (tenant_id context) (ch_workspace_id c) user_id ≠ [] →
     rows_at (memberships_of w') (tenant_id context) (ch_workspace_id c) user_id ≠ []) ∧
  unique_ok (memberships_of w') = true ∧ t_audit (db w') = t_audit (db w).
Proof.
  intros P. revert w. induction changes as [|c changes IH]; intros w H Hu Hnd.
  { injection H as _ <-. split_and!; [done| | |done|done].
    - intros c k m Hc. by apply not_elem_of_nil in Hc.
    - intros c Hc. by apply not_elem_of_nil in Hc. }
  apply bind_ok in H as ([] & w1 & H1 & H2). rewrite fmap_cons in Hnd.
  apply NoDup_cons in Hnd as [Hnew Hnd].
  destruct (write_change_ok _ _ _ _ _ _ H1 Hu) as ([Ho Hi He] & Hu1 & Ha1).
  destruct (IH w1 H2 Hu1 Hnd) as (IHo & IHi & IHe & IHu & IHa).
  assert (∀ c' m, c' ∈ changes → P c m = true → P c' m = false) as Hdis.
  { intros c' m Hc' Hm. eapply other_seat; [exact Hm|]. intros E. apply Hnew. rewrite <- E.
    apply list_elem_of_fmap. eauto. }
  assert (∀ c' m, c' ∈ changes → P c' m = true → P c m = false) as Hdis'.
  { intros c' m Hc' Hm. destruct (P c m) eqn:E; [|done]. by rewrite (Hdis c' m Hc' E) in Hm. }
  split_and!; [| | |done|congruence].
  - intros k m Hm. rewrite IHo by (intros c' Hc'; apply Hm; by right). apply Ho, Hm. by left.
  - intros c' k m [->|Hc']%elem_of_cons Hm Hk.
    + apply IHo in Hk; [|intros c' Hc'; by apply Hdis]. by apply Hi.
    + destruct (IHi c' k m Hc' Hm Hk) as (H3 & H4 & [H5|(m0 & Hm0 & ->)]); [by eauto|].
      split_and!; [done|done|]. right. exists m0. split; [|done]. apply Ho; [|done].
      unfold P in Hm. rewrite seat_with_roles in Hm. by apply (Hdis' c' m0).
  - intros c' [->|Hc']%elem_of_cons Hne Hb.
    + destruct (rows_at_inv _ _ _ _ (He Hne Hb)) as (k & m & Hk & Hm).
      apply (rows_at_some _ _ _ _ k m); [|done]. apply IHo; [|done]. intros c' Hc'. by apply Hdis.
    + apply IHe; [done|done|]. destruct Hb as [?|(k & m & Hk & Hm)%rows_at_inv]; [by left|right].
      apply (rows_at_some _ _ _ _ k m); [|done]. apply Ho; [|done]. by apply (Hdis' c' m).
Qed.

(** So each changed workspace ends with the roles after the change, and no
    other does anything. *)
Lemma write_changes_roles context user_id changes w w' u c :
  write_changes context user_id changes w = (Ok u, w') →
  unique_ok (memberships_of w) = true → NoDup (ch_workspace_id <$> changes) → c ∈ changes →
  (ch_before c = roles_at (memberships_of w) (tenant_id context) (ch_workspace_id c) user_id) →
  roles_at (memberships_of w') (tenant_id context) (ch_workspace_id c) user_id = ch_after c.
Proof.
  intros H Hu Hnd Hc Hb. destruct (write_changes_ok _ _ _ _ _ _ H Hu Hnd) as (_ & Hi & He & _ & _).
  assert (ch_before c = ∅ ∨
    rows_at (memberships_of w) (tenant_id context) (ch_workspace_id c) user_id ≠ []) as Hor.
  { destruct (decide (ch_before c = ∅)) as [|Hne]; [by left|right]. rewrite Hb in Hne.
    apply set_choose_L in Hne as [r' (k & m & Hk & Hs & _)%elem_of_roles_at]. by eapply rows_at_some. }
  apply set_eq. intros r. rewrite elem_of_roles_at. split.
  - intros (k & m & Hk & Hs & Hr). destruct (Hi c k m Hc Hs Hk) as (_ & E & _).
    rewrite E in Hr. by apply elem_of_sorted_keys in Hr.
  - intros Hr. destruct (rows_at_inv _ _ _ _ (He c Hc ltac:(set_solver) Hor)) as (k & m & Hk & Hs).
    exists k, m. split_and!; [done|done|]. destruct (Hi c k m Hc Hs Hk) as (_ & E & _).
    rewrite E. by apply elem_of_sorted_keys.
Qed.

(** What [changes_from] lists. *)
Lemma elem_of_changes current planned c :
  c ∈ changes_from current planned ↔
    planned !! ch_workspace_id c = Some (ch_after c) ∧
    ch_before c = default ∅ (current !! ch_workspace_id c) ∧ ch_after c ≠ ch_before c.
Proof.
  unfold changes_from. rewrite list_elem_of_omap. setoid_rewrite merge_sort_Permutation. split.
  - intros ([ws rs] & Hin%elem_of_map_to_list & E). case_bool_decide; [done|]. by injection E as <-.
  - intros (Hp & Hb & Hne). exists (ch_workspace_id c, ch_after c).
    split; [by apply elem_of_map_to_list|]. rewrite <- Hb, bool_decide_eq_false_2 by done.
    by destruct c.
Qed.

Lemma changes_nodup current planned : NoDup (ch_workspace_id <$> changes_from current planned).
Proof.
  unfold changes_from.
  assert (NoDup (merge_sort by_id (map_to_list planned)).*1) as Hnd.
  { rewrite merge_sort_Permutation. apply NoDup_fst_map_to_list. }
  revert Hnd. induction (merge_sort _ _) as [|[ws rs] l IH]; simpl; [constructor|].
  intros [Hn Hnd]%NoDup_cons. case_bool_decide; [by apply IH|]. rewrite fmap_cons. constructor; [|by apply IH].
  intros (c & E & Hc)%list_elem_of_fmap. apply Hn. apply list_elem_of_omap in Hc as ([ws' rs'] & Hin & E').
  case_bool_decide; [done|]. injection E' as <-. simpl in E. subst.
  apply list_elem_of_fmap. by exists (ws', rs').
Qed.

Lemma lookup_plan current desired administrative ws :
  default ∅ (plan_memberships current desired administrative !! ws)
  = (default ∅ (current !! ws) ∩ administrative) ∪ default ∅ (desired !! ws).
Proof.
  unfold plan_memberships. rewrite lookup_merge. unfold diag_None.
  destruct (current !! ws), (desired !! ws); simpl; try done. set_solver.
Qed.

(** [current]: the roles of the rows read. *)
Lemma lookup_roles_held t tenant u ws :
  unique_ok t = true →
  default ∅ (roles_held (filter (λ m, visible tenant (λ m, bool_decide (mb_user_id m = u)) m = true)
                          (map_to_list t).*2) !! ws)
  = roles_at t tenant ws u.
Proof.
  intros Hu. unfold roles_held. set (held := filter _ _).
  assert (∀ m, m ∈ held ↔ mb_tenant_id m = tenant ∧ mb_user_id m = u ∧ ∃ k, t !! k = Some m) as Hheld.
  { intros m. unfold held. rewrite list_elem_of_filter, list_elem_of_fmap. unfold visible.
    rewrite andb_true_iff, !bool_decide_eq_true. change (row_tenant m) with (mb_tenant_id m). split.
    - intros ([? ?] & [k m'] & -> & Hk%elem_of_map_to_list). eauto.
    - intros (? & ? & k & Hk). split; [done|]. exists (k, m). by rewrite elem_of_map_to_list. }
  apply set_eq. intros r. rewrite elem_of_roles_at.
  destruct (list_to_map _ !! ws) as [rs|] eqn:E; simpl.
  - apply elem_of_list_to_map_2, list_elem_of_fmap in E as (m & [= -> ->] & (Ht & Hu' & k & Hk)%Hheld).
    rewrite elem_of_list_to_set. split.
    + intros Hr. exists k, m. split_and!; [done|by apply seat_ok|done].
    + intros (k' & m' & Hk' & Hs & Hr). assert (k' = k) as ->.
      { eapply (one_seat t); [done|exact Hk'|exact Hk|exact Hs|by apply seat_ok]. }
      congruence.
  - split; [by intros ?%elem_of_empty|]. intros (k & m & Hk & (Ht & Hw & Hu')%seat_ok & _). exfalso.
    apply not_elem_of_list_to_map_2 in E. apply E. rewrite <- list_fmap_compose.
    apply list_elem_of_fmap. exists m. split; [done|]. apply Hheld. eauto.
Qed.

(** [append_each]: one audit row per element, nothing else. *)
Lemma append_each_ok {A} tenant (audit : A → Prog AuditEvent) l w u w' :
  (∀ a w e w1, audit a w = (Ok e, w1) → db w1 = db w) →
  append_each tenant audit l w = (Ok u, w') →
  t_org (db w') = t_org (db w) ∧ size (t_audit (db w')) = size (t_audit (db w)) + length l.
Proof.
  intros Ha. revert w. induction l as [|a l IH]; intros w H.
  { injection H as _ <-. split; [done|simpl; lia]. }
  apply bind_ok in H as (e & w1 & H1%Ha & H).
  apply bind_ok in H as ([] & w2 & (_ & Hfree & _ & ->)%sql_insert_ok & H).
  destruct (IH _ H) as [E1 E2]. rewrite E1, E2. simpl. rewrite H1. split; [done|].
  rewrite map_size_insert_None; [simpl; lia|]. rewrite <- H1. exact Hfree.
Qed.

Lemma member_event_idle context action user_id ws details w :
  db (member_event context action user_id ws details w).2 = db w ∧
  saved (member_event context action user_id ws details w).2 = saved w.
Proof. unfold member_event, bind, new_uuid, now_utc, lift_res. by destruct (make_audit_event _). Qed.

(** ** Administrative roles *)

Definition administrative (catalogue : gmap pystr (list pystr)) (key : pystr) : bool :=
  existsb admin_scope (default [] (catalogue !! key)).

Lemma is_administrative_spec scopes :
  is_administrative scopes = true ↔ ∃ s, s ∈ scopes ∧ admin_scope s = true.
Proof.
  unfold is_administrative. rewrite existsb_exists. setoid_rewrite <- list_elem_of_In.
  by setoid_rewrite elem_of_elements.
Qed.

Lemma administrative_spec catalogue key :
  administrative catalogue key = true ↔
  ∃ s, s ∈ default [] (catalogue !! key) ∧ admin_scope s = true.
Proof.
  unfold administrative. rewrite existsb_exists. by setoid_rewrite <- list_elem_of_In.
Qed.

Lemma scopes_in_spec s catalogue keys :
  s ∈ scopes_in catalogue keys ↔ ∃ k, k ∈ keys ∧ s ∈ default [] (catalogue !! k).
Proof.
  unfold scopes_in. rewrite elem_of_union_list. setoid_rewrite list_elem_of_fmap. split.
  - intros (X & (k & -> & Hk) & Hs%elem_of_list_to_set). eauto.
  - intros (k & Hk & Hs). exists (list_to_set (default [] (catalogue !! k))). split; [eauto|].
    by apply elem_of_list_to_set.
Qed.

(** Who passes [forbid_escalation]. *)
Lemma forbid_escalation_ok context granted :
  forbid_escalation context granted = Ok tt ↔
    PLATFORM_ADMIN_ROLE ∈ roles context ∨ is_administrative granted = false.
Proof.
  unfold forbid_escalation. case_bool_decide; [naive_solver|].
  destruct (is_administrative granted); naive_solver.
Qed.

Lemma plain_roles catalogue keys :
  is_administrative (scopes_in catalogue keys) = false →
  ∀ r, r ∈ keys → administrative catalogue r = false.
Proof.
  intros Hp r Hr. apply not_true_iff_false. intros (s & Hs & Ha)%administrative_spec.
  apply not_true_iff_false in Hp. apply Hp, is_administrative_spec. exists s. split; [|done].
  apply scopes_in_spec. eauto.
Qed.

Lemma checked_roles_ok context desired w adm w' :
  clean w → _checked_roles context desired w = (Ok adm, w') →
  w' = w ∧
  (∀ r, r ∈ adm ↔ administrative (t_roles (t_org (db w))) r = true) ∧
  (PLATFORM_ADMIN_ROLE ∈ roles context ∨
   ∀ ws rs r, (ws, rs) ∈ desired → r ∈ rs → administrative (t_roles (t_org (db w))) r = false).
Proof.
  intros Hc H. set (cat := t_roles (t_org (db w))).
  apply bind_ok in H as (catalog & s & H1 & H). unfold role_catalog in H1.
  rewrite session_begin_gets in H1 by done. injection H1 as <- <-.
  apply bind_ok in H as ([] & s & H1 & H). destruct (bool_decide _); [done|]. injection H1 as <-.
  apply bind_ok in H as ([] & s & H1 & [= <- <-]). injection H1 as H1 <-.
  fold cat in H1 |- *. split_and!; [done|..].
  - intros r. rewrite elem_of_dom. split.
    + intros [X [Hl Ha]%map_lookup_filter_Some]. rewrite lookup_fmap in Hl. simpl in Ha.
      destruct (cat !! r) as [l|] eqn:E; [|done]. injection Hl as <-.
      apply is_administrative_spec in Ha as (s' & Hs & Ha). apply administrative_spec.
      exists s'. rewrite E. simpl. split; [by apply elem_of_list_to_set in Hs|done].
    + intros (s' & Hs & Ha)%administrative_spec. destruct (cat !! r) as [l|] eqn:E; simpl in Hs;
        [|by apply not_elem_of_nil in Hs].
      exists (list_to_set l). apply map_lookup_filter_Some. rewrite lookup_fmap, E. split; [done|].
      apply is_administrative_spec. exists s'. split; [by apply elem_of_list_to_set|done].
  - apply forbid_escalation_ok in H1 as [?|H1]; [by left|right]. intros ws rs r Hin Hr.
    apply not_true_iff_false. intros (s' & Hs & Ha)%administrative_spec.
    apply not_true_iff_false in H1. apply H1, is_administrative_spec. exists s'. split; [|done].
    apply elem_of_union_list. exists (default ∅ ((list_to_set <$> cat : gmap pystr (gset pystr)) !! r)).
    split.
    + apply list_elem_of_fmap. exists r. split; [done|]. apply elem_of_elements, elem_of_union_list.
      exists rs. split; [|done]. apply list_elem_of_fmap. by exists (ws, rs).
    + rewrite lookup_fmap. destruct (cat !! r); simpl in *; [by apply elem_of_list_to_set|].
      by apply not_elem_of_nil in Hs.
Qed.

(** ** Replacing a person's roles *)

Lemma require_workspaces_ok context wss w u w' :
  _require_workspaces context wss w = (Ok u, w') →
  w' = w ∧ ∀ ws, ws ∈ wss →
    ws_tenant_id <$> t_workspaces (t_org (db w)) !! ws = Some (tenant_id context).
Proof.
  unfold _require_workspaces, bind, get_state, raise, ret. case_bool_decide as Hd; [done|].
  intros [= _ <-]. split; [done|]. intros ws Hws.
  destruct (decide (ws_tenant_id <$> t_workspaces (t_org (db w)) !! ws = Some (tenant_id context)))
    as [?|Hn]; [done|]. exfalso. apply (not_elem_of_empty (C := gset uuid) ws). rewrite <- Hd.
  apply elem_of_difference. split; [done|]. by intros [? _]%elem_of_filter.
Qed.

Lemma write_ok context user_id changes w u w' :
  _write context user_id changes w = (Ok u, w') ↔ write_changes context user_id changes w = (Ok u, w').
Proof.
  unfold _write, try_except, membership_refused, reraise.
  destruct (write_changes _ _ _ _) as [[[]|e] s]; naive_solver.
Qed.

Lemma replace_memberships_ok context user_id plan audit w changes w' :
  clean w → unique_ok (memberships_of w) = true →
  (∀ c w e w1, audit c w = (Ok e, w1) → db w1 = db w) →
  replace_memberships context user_id plan audit w = (Ok changes, w') →
  let at_ t ws := roles_at t (tenant_id context) ws user_id in
  ∃ current : Roles, (∀ ws, default ∅ (current !! ws) = at_ (memberships_of w) ws) ∧
    saved w' = db w' ∧ changes = changes_from current (plan current) ∧
    (∀ c, c ∈ changes → at_ (memberships_of w') (ch_workspace_id c) = ch_after c) ∧
    (∀ k m, (mb_tenant_id m ≠ tenant_id context ∨ mb_user_id m ≠ user_id ∨
              mb_workspace_id m ∉ ch_workspace_id <$> changes) →
       (memberships_of w' !! k = Some m ↔ memberships_of w !! k = Some m)) ∧
    (∀ k m, memberships_of w' !! k = Some m → mb_permission_set_keys m = [] ∨
       ∃ m0, memberships_of w !! k = Some m0 ∧ same_seat m0 m ∧
             mb_permission_set_keys m = mb_permission_set_keys m0) ∧
    size (t_audit (db w')) = size (t_audit (db w)) + length changes.
Proof.
  intros Hc Hu Ha H at_. apply session_begin_ok in H as (s & H & ->).
  apply bind_ok in H as (held & s1 & [= <- <-] & H).
  apply bind_ok in H as ([] & s1 & H1 & H). case_bool_decide; [done|]. injection H1 as <-.
  set (current := roles_held _) in H. exists current.
  assert (∀ ws, default ∅ (current !! ws) = at_ (memberships_of w) ws) as Hcur
    by (intros ws; by apply lookup_roles_held).
  apply bind_ok in H as ([] & s1 & [-> _]%require_workspaces_ok & H).
  apply bind_ok in H as ([] & s1 & Hw%write_ok & H).
  apply bind_ok in H as ([] & s2 & Happ & [= <- <-]).
  destruct (append_each_ok _ _ _ _ _ _ Ha Happ) as [Eorg Esize].
  pose proof (changes_nodup current (plan current)) as Hnd.
  destruct (write_changes_ok _ _ _ _ _ _ Hw Hu Hnd) as (Ho & Hi & _ & _ & Eaud).
  cbn [set_saved db saved]. rewrite Eorg, Esize, Eaud. split_and!; [done|done|done| | | |done].
  - intros c Hcc. unfold at_. eapply write_changes_roles; [done|done|done|done|].
    apply elem_of_changes in Hcc as (_ & -> & _). apply Hcur.
  - intros k m Hm. apply Ho. intros c Hcc. apply not_true_iff_false.
    intros (Ht & Hws & Hus)%seat_ok. destruct Hm as [?|[?|Hm]]; [done|done|]. apply Hm.
    rewrite Hws. apply list_elem_of_fmap. eauto.
  - intros k m Hk. destruct (decide (Exists (λ c, seat (tenant_id context) (ch_workspace_id c) user_id m = true)
      (changes_from current (plan current)))) as [(c & Hcc & Hs)%Exists_exists|Hno].
    + destruct (Hi c k m Hcc Hs Hk) as (_ & _ & [[_ ?]|(m0 & Hm0 & ->)]); [by left|right].
      exists m0. by split_and!.
    + right. exists m. split_and!; [|done..]. apply Ho; [|done]. intros c Hcc.
      apply not_true_iff_false. intros Hs. apply Hno, Exists_exists. eauto.
Qed.

(** The roles a command asks for, by workspace. *)
Definition asked_for (rows : list WorkspaceRoles) : list (uuid * gset pystr) :=
  (λ row, (wp_workspace_id row, wp_role_keys row)) <$> rows.

Lemma by_workspace_ok rows l : _by_workspace rows = Ok l → l = asked_for rows ∧ NoDup l.*1.
Proof.
  unfold _by_workspace.
  assert (∀ rows merged, NoDup merged.*1 → by_workspace_from merged rows = Ok l →
    l = merged ++ asked_for rows ∧ NoDup l.*1) as Hgen.
  { clear rows. induction rows as [|row rows IH]; intros merged Hnd; simpl.
    - intros [= <-]. by rewrite app_nil_r.
    - case_bool_decide as Hin; [done|]. intros H. apply IH in H as [-> ?].
      2: { rewrite fmap_app. simpl. apply NoDup_app. split_and!; [done| |apply NoDup_singleton].
        intros ws Hws ->%list_elem_of_singleton. done. }
      rewrite <- app_assoc in *. done. }
  intros H. by apply (Hgen rows []); [constructor|].
Qed.

Lemma change_event_idle context user_id c w e w1 :
  change_event context user_id c w = (Ok e, w1) → db w1 = db w.
Proof.
  unfold change_event. case_bool_decide;
    intros Hev; change w1 with ((Ok e, w1).2); rewrite <- Hev; apply member_event_idle.
Qed.

Lemma roles_at_same t t' tenant ws u :
  (∀ k m, seat tenant ws u m = true → (t' !! k = Some m ↔ t !! k = Some m)) →
  roles_at t' tenant ws u = roles_at t tenant ws u.
Proof.
  intros H. apply set_eq. intros r. rewrite !elem_of_roles_at.
  split; intros (k & m & Hk & Hs & Hr); exists k, m; by rewrite (H k m Hs) in *.
Qed.

(** A session over the committed state that fails leaves it as it was. *)
Lemma session_begin_failed {A} (m : Prog A) w e w' :
  clean w → respects same_saved m → session_begin m w = (Raise e, w') →
  db w' = db w ∧ saved w' = saved w.
Proof.
  intros Hc Hs. specialize (Hs w). unfold session_begin, same_saved, clean in *.
  destruct (m w) as [[a|e'] s]; [done|]. intros [= _ <-]. simpl in *. by rewrite Hs, Hc.
Qed.

Lemma replace_memberships_failed context user_id plan audit w e w' :
  clean w → (∀ c, respects same_saved (audit c)) →
  replace_memberships context user_id plan audit w = (Raise e, w') →
  db w' = db w ∧ saved w' = saved w.
Proof.
  intros Hc Ha. apply session_begin_failed; [done|]. unfold sql_select, _require_workspaces.
  respects_auto. by apply append_each_same_saved.
Qed.

(** [_checked_roles] only reads. *)
Lemma _checked_roles_reads context desired w :
  clean w → (_checked_roles context desired w).2 = w.
Proof.
  intros Hc. unfold _checked_roles, bind at 1, role_catalog. rewrite session_begin_gets by done.
  unfold bind, raise, ret, lift_res. case_bool_decide; [done|]. by destruct (forbid_escalation _ _).
Qed.

(** C34: replacing a person's roles leaves in every workspace the roles asked for and the
    administrative roles already held, reports exactly the workspaces that changed with
    one audit event each, and touches no other person or tenant; a refusal changes
    nothing. *)
Theorem set_memberships_exact authz context command w :
  clean w → unique_ok (memberships_of w) = true →
  let at_ w ws := roles_at (memberships_of w) (tenant_id context) ws (sm_user_id command) in
  let asked ws := default ∅ (list_to_map (M := Roles) (asked_for (sm_memberships command)) !! ws) in
  match set_memberships_of authz context command w with
  | (Raise _, w') => db w' = db w ∧ saved w' = db w
  | (Ok changes, w') =>
      is_allowed authz context MEMBERS_WRITE = true ∧ saved w' = db w' ∧
      (∀ ws r, r ∈ at_ w' ws ↔
         (r ∈ at_ w ws ∧ administrative (t_roles (t_org (db w))) r = true) ∨ r ∈ asked ws) ∧
      (∀ ws, ws ∈ ch_workspace_id <$> changes ↔ at_ w' ws ≠ at_ w ws) ∧
      (∀ k m, mb_tenant_id m ≠ tenant_id context ∨ mb_user_id m ≠ sm_user_id command →
         (memberships_of w' !! k = Some m ↔ memberships_of w !! k = Some m)) ∧
      size (t_audit (db w')) = size (t_audit (db w)) + length changes
  end.
Proof.
  intros Hc Hu at_ asked. unfold set_memberships_of, bind at 1, require, lift_res at 1.
  destruct (is_allowed _ _ _); [|done]. unfold bind at 1, lift_res.
  destruct (_by_workspace _) as [desired|e] eqn:Hby; [|done].
  apply by_workspace_ok in Hby as [-> Hnd]. unfold bind.
  pose proof (_checked_roles_reads context (asked_for (sm_memberships command)) w Hc) as Hr.
  destruct (_checked_roles _ _ w) as [[adm|e] w0] eqn:Hck; simpl in Hr; subst w0; [|done].
  apply checked_roles_ok in Hck as (_ & Hadm & _); [|done].
  destruct (replace_memberships _ _ _ _ w) as [[changes|e] w'] eqn:H.
  2: { apply replace_memberships_failed in H as [-> ->]; [by rewrite Hc|done|].
       intros c. unfold change_event. case_bool_decide; apply member_event_same_saved. }
  apply replace_memberships_ok in H as (current & Hcur & Hsv & -> & Hin & Hout & _ & Hsize);
    [|done|done|intros c w1 e w2; apply change_event_idle].
  set (plan := plan_memberships current _ adm) in *.
  assert (∀ ws, at_ w' ws = default ∅ (plan !! ws)) as Hat.
  { intros ws. destruct (decide (ws ∈ ch_workspace_id <$> changes_from current plan)) as [Hws|Hws].
    - apply list_elem_of_fmap in Hws as (c & -> & Hcc). unfold at_. rewrite (Hin c Hcc).
      apply elem_of_changes in Hcc as (-> & _). done.
    - unfold at_. rewrite (roles_at_same (memberships_of w)), <- Hcur.
      + destruct (plan !! ws) as [rs|] eqn:Hp.
        * simpl. destruct (decide (rs = default ∅ (current !! ws))) as [->|Hne]; [done|].
          destruct Hws. apply list_elem_of_fmap.
          exists {| ch_workspace_id := ws; ch_before := default ∅ (current !! ws); ch_after := rs |}.
          split; [done|]. by apply elem_of_changes.
        * unfold plan, plan_memberships in Hp. rewrite lookup_merge in Hp. unfold diag_None in Hp.
          by destruct (current !! ws), (list_to_map _ !! ws).
      + intros k m (_ & Hw & _)%seat_ok. apply Hout. right. right. by rewrite Hw. }
  split_and!; [done|done| | | |done].
  - intros ws r. rewrite Hat. unfold plan. rewrite lookup_plan, Hcur, elem_of_union, elem_of_intersection, Hadm.
    done.
  - intros ws. rewrite Hat. unfold at_. rewrite <- Hcur. rewrite list_elem_of_fmap. split.
    + intros (c & -> & (-> & E & Hne)%elem_of_changes). simpl. by rewrite <- E.
    + intros Hne. destruct (plan !! ws) as [rs|] eqn:Hp.
      * exists {| ch_workspace_id := ws; ch_before := default ∅ (current !! ws); ch_after := rs |}.
        split; [done|]. by apply elem_of_changes.
      * exfalso. apply Hne. unfold plan, plan_memberships in Hp. rewrite lookup_merge in Hp.
        unfold diag_None in Hp. by destruct (current !! ws), (list_to_map _ !! ws).
  - intros k m Hm. apply Hout. tauto.
Qed.

(** ** No escalation *)

Section NoGain.
Context (cat_roles cat_sets : gmap pystr (list pystr)).

(** Whoever holds something administrative held it in the same seat before. *)
Definition gains_nothing (t t' : gmap uuid MembershipRow) : Prop :=
  ∀ k m', t' !! k = Some m' →
    (∀ r, r ∈ mb_role_keys m' → administrative cat_roles r = true →
       ∃ k0 m, t !! k0 = Some m ∧ same_seat m m' ∧ r ∈ mb_role_keys m) ∧
    (∀ p, p ∈ mb_permission_set_keys m' → administrative cat_sets p = true →
       ∃ k0 m, t !! k0 = Some m ∧ same_seat m m' ∧ p ∈ mb_permission_set_keys m).

#[export] Instance gains_nothing_preorder : PreOrder gains_nothing.
Proof.
  split.
  - intros t k m Hk. split; intros r Hr _; by exists k, m.
  - intros t1 t2 t3 H12 H23 k m Hk. destruct (H23 k m Hk) as [Hr Hp].
    assert (∀ m1 m2 m3, same_seat m1 m2 → same_seat m2 m3 → same_seat m1 m3) as Htr
      by (unfold same_seat; intuition congruence).
    split.
    + intros r Hin Ha. destruct (Hr r Hin Ha) as (k2 & m2 & Hk2 & Hs2 & Hin2).
      destruct (proj1 (H12 k2 m2 Hk2) r Hin2 Ha) as (k1 & m1 & Hk1 & Hs1 & Hin1). eauto 6.
    + intros r Hin Ha. destruct (Hp r Hin Ha) as (k2 & m2 & Hk2 & Hs2 & Hin2).
      destruct (proj2 (H12 k2 m2 Hk2) r Hin2 Ha) as (k1 & m1 & Hk1 & Hs1 & Hin1). eauto 6.
Qed.

Definition no_gain (w w' : World) : Prop := gains_nothing (memberships_of w) (memberships_of w').

#[export] Instance no_gain_preorder : PreOrder no_gain.
Proof. unfold no_gain. split; [by intros ?|intros w1 w2 w3 H1 H2; by etrans]. Qed.

Definition plain_keys (keys : gset pystr) : Prop := ∀ r, r ∈ keys → administrative cat_roles r = false.
Definition plain_sets (keys : gset pystr) : Prop := ∀ p, p ∈ keys → administrative cat_sets p = false.

Lemma no_gain_same w w' : memberships_of w' = memberships_of w → no_gain w w'.
Proof. unfold no_gain. by intros ->. Qed.

Lemma audit_no_gain tenant e : respects no_gain (audit_append tenant e).
Proof. intros w. apply no_gain_same. by apply (sql_insert_frame (λ d, t_memberships (t_org d))). Qed.

Lemma gains_insert t i id tenant ws u keys department now :
  plain_keys keys → gains_nothing t (<[i := new_membership id tenant ws u keys department now]> t).
Proof.
  intros Hp k m. rewrite lookup_insert_Some. intros [[_ <-]|[_ Hk]]; simpl.
  - split; [|intros p Hin; by apply not_elem_of_nil in Hin].
    intros r Hr%elem_of_sorted_keys Ha. by rewrite (Hp r Hr) in Ha.
  - split; intros r Hr _; by exists k, m.
Qed.

Lemma sql_insert_no_gain tenant id tenant' ws u keys department now :
  plain_keys keys →
  respects no_gain (sql_insert tenant (new_membership id tenant' ws u keys department now)).
Proof.
  intros Hp w. destruct (sql_insert _ _ w) as [[[]|e] w'] eqn:E.
  - apply sql_insert_ok in E as (_ & _ & _ & ->). by apply gains_insert.
  - apply sql_insert_raise in E as ->. by apply no_gain_same.
Qed.

Lemma insert_no_gain tenant id tenant' ws u keys department now :
  plain_keys keys →
  respects no_gain (insert_membership tenant (new_membership id tenant' ws u keys department now)).
Proof.
  intros Hp. unfold insert_membership. apply respects_bind; [apply _|by intros w|]. intros w.
  apply respects_bind; [apply _|by intros w'|]. intros _. by apply sql_insert_no_gain.
Qed.

Lemma update_no_gain tenant p f :
  (∀ m, same_seat m (f m) ∧
     (∀ r, r ∈ mb_role_keys (f m) → r ∈ mb_role_keys m ∨ administrative cat_roles r = false) ∧
     (∀ s, s ∈ mb_permission_set_keys (f m) →
        s ∈ mb_permission_set_keys m ∨ administrative cat_sets s = false)) →
  respects no_gain (update_membership tenant p f).
Proof.
  intros Hf w. destruct (update_membership _ _ _ w) as [[n|e] w'] eqn:E.
  - apply update_membership_ok in E as (_ & (_ & _ & ->)%sql_update_ok).
    change (gains_nothing (memberships_of w)
              (update_rows (visible tenant p) f (memberships_of w))).
    intros k m. rewrite lookup_update_rows. intros (m0 & Hk & ->)%fmap_Some.
    destruct (visible tenant p m0); [|split; intros r Hr _; by exists k, m0].
    destruct (Hf m0) as (Hs & Hr & Hp). split.
    + intros r Hin Ha. destruct (Hr r Hin) as [?|?]; [by exists k, m0|congruence].
    + intros s Hin Ha. destruct (Hp s Hin) as [?|?]; [by exists k, m0|congruence].
  - apply no_gain_same. unfold update_membership, sql_select, bind, get_state, gets, lift_res in E.
    destruct (each _ _) as [[]|]; [|by injection E as _ <-]. by apply sql_update_raise in E as ->.
Qed.

Lemma delete_no_gain tenant p : respects no_gain (sql_delete (R := MembershipRow) tenant p).
Proof.
  intros w. change (gains_nothing (memberships_of w)
    (filter (λ kv, visible tenant p kv.2 = false) (memberships_of w))).
  intros k m [Hk _]%map_lookup_filter_Some. split; intros r Hr _; by exists k, m.
Qed.

Lemma with_roles_no_gain tenant p keys department :
  plain_keys keys → respects no_gain (update_membership tenant p (with_roles keys department)).
Proof.
  intros Hp. apply update_no_gain. intros m. split; [done|]. split; [|auto].
  intros r Hr%elem_of_sorted_keys. right. by apply Hp.
Qed.

Lemma with_sets_no_gain tenant p keys :
  plain_sets keys → respects no_gain (update_membership tenant p (with_sets keys)).
Proof.
  intros Hp. apply update_no_gain. intros m. split; [done|]. split; [auto|].
  intros r Hr%elem_of_sorted_keys. right. by apply Hp.
Qed.

Lemma idle_no_gain {A} (m : Prog A) : (∀ w, db (m w).2 = db w) → respects no_gain m.
Proof. intros Hm w. apply no_gain_same. by rewrite Hm. Qed.

Lemma member_event_no_gain context action user_id ws details :
  respects no_gain (member_event context action user_id ws details).
Proof. apply idle_no_gain. intros w. by apply member_event_idle. Qed.

Lemma insert_user_no_gain u : respects no_gain (insert_user u).
Proof.
  intros w. apply no_gain_same. unfold insert_user, bind, get_state, ret, raise, modify.
  destruct (existsb _ _); [done|]. destruct (existsb _ _); [done|]. by destruct (_ !! _).
Qed.

Hint Resolve audit_no_gain insert_no_gain sql_insert_no_gain delete_no_gain with_roles_no_gain
  with_sets_no_gain member_event_no_gain insert_user_no_gain : respects.

Lemma new_uuid_no_gain : respects no_gain new_uuid.
Proof. by apply idle_no_gain. Qed.
Lemma now_utc_no_gain : respects no_gain now_utc.
Proof. by apply idle_no_gain. Qed.
Hint Resolve new_uuid_no_gain now_utc_no_gain : respects.

Lemma session_no_gain {A} (m : Prog A) w :
  clean w → respects no_gain m → respects same_saved m → no_gain w (session_begin m w).2.
Proof.
  intros Hc Hm Hs. refine (proj2 (session_begin_rel (λ d d', gains_nothing (t_memberships (t_org d))
    (t_memberships (t_org d'))) m w Hc (Hm w) Hs)). intros d k m' Hk. split; intros r Hr _; by exists k, m'.
Qed.

Lemma repo_grant_no_gain context u ws keys department audit w :
  plain_keys keys → clean w → no_gain w (repo_grant context u ws keys department audit w).2.
Proof.
  intros Hp Hc. apply session_no_gain; [done| |].
  - unfold upsert_membership, sql_select, membership_refused. respects_auto.
  - unfold audit_append. respects_auto.
Qed.

Lemma repo_revoke_membership_no_gain context u ws audit w :
  clean w → no_gain w (repo_revoke_membership context u ws audit w).2.
Proof.
  intros Hc. apply session_no_gain; [done|respects_auto|]. unfold audit_append. respects_auto.
Qed.

Lemma write_changes_no_gain context u changes :
  (∀ c, c ∈ changes → plain_keys (ch_after c)) → respects no_gain (write_changes context u changes).
Proof.
  induction changes as [|c changes IH]; intros Hp; simpl; [by intros w|].
  apply respects_bind; [apply _| |intros _; apply IH; intros c' Hc'; apply Hp; by right].
  specialize (Hp c ltac:(left)). unfold write_change. respects_auto.
Qed.

Lemma append_each_no_gain {A} tenant (audit : A → Prog AuditEvent) l :
  (∀ a, respects no_gain (audit a)) → respects no_gain (append_each tenant audit l).
Proof.
  intros Ha. induction l as [|a l IH]; simpl; [by intros w|]. respects_auto.
Qed.

Lemma repo_invite_no_gain sql_lower context name email memberships audit w :
  (∀ ws rs, (ws, rs) ∈ memberships → plain_keys rs) →
  (∀ u m, respects no_gain (audit u m)) → (∀ u m, respects same_saved (audit u m)) →
  clean w → no_gain w (repo_invite sql_lower context name email memberships audit w).2.
Proof.
  intros Hp Ha Hs Hc. apply session_no_gain; [done| |]; unfold _require_workspaces.
  - assert (∀ u, respects no_gain (_write context u
      ((λ '(ws, roles), {| ch_workspace_id := ws; ch_before := ∅; ch_after := roles |}) <$> memberships)))
      as Hw.
    { intros u. unfold _write. apply respects_try; [apply _| |by intros e s].
      apply write_changes_no_gain. intros c ([ws rs] & -> & Hin)%list_elem_of_fmap. by eapply Hp. }
    unfold invited_user, sql_select. respects_auto. by apply append_each_no_gain.
  - respects_auto. by apply append_each_same_saved.
Qed.

Lemma repo_set_permission_sets_no_gain context u keys audit w :
  plain_sets keys → clean w → no_gain w (repo_set_permission_sets context u keys audit w).2.
Proof.
  intros Hp Hc. apply session_no_gain; [done|respects_auto|]. unfold audit_append. respects_auto.
Qed.
End NoGain.

(** A program that begins with steps that only read or draw ids. *)
Definition idle_at {A} (m : Prog A) (w : World) : Prop := db (m w).2 = db w ∧ saved (m w).2 = saved w.

Lemma no_gain_after {A B} cr cs (m : Prog A) (k : A → Prog B) w :
  clean w → idle_at m w →
  (∀ a w1, m w = (Ok a, w1) → db w1 = db w → clean w1 → no_gain cr cs w1 (k a w1).2) →
  no_gain cr cs w (bind m k w).2.
Proof.
  intros Hc [Hd Hs] Hk. unfold bind. destruct (m w) as [[a|e] w1] eqn:E; simpl in *.
  - specialize (Hk a w1 eq_refl Hd). unfold no_gain in *. rewrite Hd in Hk. apply Hk.
    unfold clean in *. by rewrite Hs, Hd.
  - apply no_gain_same. by rewrite Hd.
Qed.

Lemma lift_idle {A} (r : res A) w : idle_at (lift_res r) w.
Proof. done. Qed.
Lemma when_raise_idle (b : bool) c msg w : idle_at (when b then raise c msg) w.
Proof. by destruct b. Qed.
Lemma read_idle {A} (f : World → A) w : clean w → idle_at (session_begin (gets f)) w.
Proof. intros Hc. unfold idle_at. by rewrite session_begin_gets. Qed.

Section Commands.
Context (authz : ScopeAuthorizationService) (context : AccessContext) (w : World).
Context (Hplain : PLATFORM_ADMIN_ROLE ∉ roles context) (Hc : clean w).

Let cr := t_roles (t_org (db w)).
Let cs := t_permission_sets (t_org (db w)).

Lemma lift_ok {A} (r : res A) (w1 : World) a w2 : lift_res r w1 = (Ok a, w2) → r = Ok a ∧ w2 = w1.
Proof. intros [= -> <-]. done. Qed.

Lemma grant_no_gain py_lower sql_lower command :
  no_gain cr cs w (grant py_lower sql_lower authz context command w).2.
Proof.
  unfold grant. apply no_gain_after; [done|done|]. intros [] w1 [_ ->]%lift_ok _ _.
  apply no_gain_after; [done|apply when_raise_idle|]. intros [] w1 H1 _ _.
  assert (w1 = w) as -> by (case_bool_decide; by injection H1).
  apply no_gain_after; [done|by apply read_idle|]. intros known w1 H2 _ _.
  unfold known_roles in H2. rewrite session_begin_gets in H2 by done. injection H2 as _ <-.
  apply no_gain_after; [done|apply when_raise_idle|]. intros [] w1 H3 _ _.
  assert (w1 = w) as -> by (case_bool_decide; by injection H3).
  apply no_gain_after; [done|by apply read_idle|]. intros granted w1 H4 _ _.
  unfold scopes_for_roles in H4. rewrite session_begin_gets in H4 by done. injection H4 as <- <-.
  apply no_gain_after; [done|done|]. intros [] w1 [[?|Hadm]%forbid_escalation_ok ->]%lift_ok _ _; [done|].
  apply no_gain_after; [done|by apply read_idle|]. intros user w1 H5 _ Hc1.
  destruct user as [user|]; [|by apply no_gain_same].
  apply no_gain_after; [done|apply member_event_idle|]. intros audit w2 _ _ Hc2.
  assert (plain_keys cr (gm_role_keys command)) as Hp.
  { intros r Hr. eapply plain_roles; [exact Hadm|]. by apply elem_of_elements. }
  pose proof (repo_grant_no_gain cr cs context (ur_user_id user) (gm_workspace_id command)
    (gm_role_keys command) (gm_department command) audit w2 Hp Hc2) as Hg.
  unfold bind. by destruct (repo_grant _ _ _ _ _ _ w2) as [[[]|e] w3].
Qed.

Lemma revoke_membership_no_gain command :
  no_gain cr cs w (revoke_membership authz context command w).2.
Proof.
  unfold revoke_membership. apply no_gain_after; [done|done|]. intros [] w1 [_ ->]%lift_ok _ _.
  apply no_gain_after; [done|apply member_event_idle|]. intros audit w2 _ _ Hc2.
  pose proof (repo_revoke_membership_no_gain cr cs context (rm_user_id command)
    (rm_workspace_id command) audit w2 Hc2) as Hg.
  unfold bind. destruct (repo_revoke_membership _ _ _ _ w2) as [[b|e] w3]; [|done]. by destruct b.
Qed.

Lemma invite_no_gain py_lower sql_lower command :
  no_gain cr cs w (invite py_lower sql_lower authz context command w).2.
Proof.
  unfold invite. apply no_gain_after; [done|done|]. intros [] w1 [_ ->]%lift_ok _ _.
  apply no_gain_after; [done|apply when_raise_idle|]. intros [] w1 H1 _ _.
  assert (w1 = w) as -> by (case_match; by injection H1).
  apply no_gain_after; [done|apply when_raise_idle|]. intros [] w1 H2 _ _.
  assert (w1 = w) as -> by (case_match; by injection H2).
  apply no_gain_after; [done|done|]. intros rows w1 [_ ->]%lift_ok _ _.
  apply no_gain_after; [done|apply when_raise_idle|]. intros [] w1 H3 _ _.
  assert (w1 = w) as -> by (case_match; by injection H3).
  set (desired := filter _ rows).
  apply no_gain_after; [done|by unfold idle_at; rewrite _checked_roles_reads|].
  intros adm w1 (-> & _ & [?|Hp])%checked_roles_ok _ _; [done| |done].
  apply repo_invite_no_gain; [|intros u [ws rs]; apply member_event_no_gain
    |intros u [ws rs]; apply member_event_same_saved|done].
  intros ws rs Hin r Hr. by eapply Hp.
Qed.

Lemma permission_sets_no_gain command :
  no_gain cr cs w (set_member_permission_sets authz context command w).2.
Proof.
  unfold set_member_permission_sets. apply no_gain_after; [done|done|]. intros [] w1 [_ ->]%lift_ok _ _.
  apply no_gain_after; [done|by apply read_idle|]. intros known w1 H2 _ _.
  unfold known_permission_sets in H2. rewrite session_begin_gets in H2 by done. injection H2 as _ <-.
  apply no_gain_after; [done|apply when_raise_idle|]. intros [] w1 H3 _ _.
  assert (w1 = w) as -> by (case_bool_decide; by injection H3).
  rewrite bool_decide_eq_false_2 by done.
  assert (idle_at (let! granted := scopes_for_permission_sets (sp_permission_set_keys command) in
     when is_administrative granted then raise PermissionDeniedError
       "only a platform admin may grant an administrative permission set") w) as Hidle.
  { unfold idle_at, bind, scopes_for_permission_sets. rewrite session_begin_gets by done. by destruct (is_administrative _). }
  apply no_gain_after; [done|done|]. intros [] w1 H4 _ _.
  apply bind_ok in H4 as (granted & s & H4 & H5). unfold scopes_for_permission_sets in H4.
  rewrite session_begin_gets in H4 by done. injection H4 as <- <-.
  destruct (is_administrative _) eqn:Hadm; [done|]. injection H5 as <-.
  apply no_gain_after; [done|done|]. intros id w1 _ _ Hc1.
  apply no_gain_after; [done|done|]. intros now w2 _ _ Hc2.
  apply no_gain_after; [done|done|]. intros audit w3 _ _ Hc3.
  assert (plain_sets cs (sp_permission_set_keys command)) as Hp.
  { intros r Hr. eapply plain_roles; [exact Hadm|]. by apply elem_of_elements. }
  pose proof (repo_set_permission_sets_no_gain cr cs context (sp_user_id command) _ audit w3 Hp Hc3) as Hg.
  unfold bind. destruct (repo_set_permission_sets _ _ _ _ w3) as [[b|e] w4]; [|done]. by destruct b.
Qed.

(** Replacing roles: the administrative ones a person ends with, they had. *)
Lemma set_memberships_no_gain command ws r tenant u :
  unique_ok (memberships_of w) = true →
  let w' := (set_memberships_of authz context command w).2 in
  (r ∈ roles_at (memberships_of w') tenant ws u → administrative cr r = true →
     r ∈ roles_at (memberships_of w) tenant ws u) ∧
  (r ∈ sets_at (memberships_of w') tenant ws u → r ∈ sets_at (memberships_of w) tenant ws u).
Proof.
  intros Hu. unfold set_memberships_of, bind at 1, require, lift_res at 1.
  destruct (is_allowed _ _ _); [|done]. unfold bind at 1, lift_res.
  destruct (_by_workspace _) as [desired|e] eqn:Hby; [|done].
  apply by_workspace_ok in Hby as [-> Hnd]. unfold bind.
  pose proof (_checked_roles_reads context (asked_for (sm_memberships command)) w Hc) as Hr.
  destruct (_checked_roles _ _ w) as [[adm|e] w0] eqn:Hck; simpl in Hr; subst w0; [|done].
  apply checked_roles_ok in Hck as (_ & Hadm & [?|Hp]); [done| |done].
  destruct (replace_memberships _ _ _ _ w) as [[changes|e] w'] eqn:H; simpl.
  2: { apply replace_memberships_failed in H as [-> _]; [done|done|].
       intros c. unfold change_event. case_bool_decide; apply member_event_same_saved. }
  apply replace_memberships_ok in H as (current & Hcur & _ & -> & Hin & Hout & Hsets & _);
    [|done|done|intros c w1 e w2; apply change_event_idle]. split.
  - intros Hr' Ha. set (plan := plan_memberships _ _ _) in *.
    destruct (decide (tenant = tenant_id context ∧ u = sm_user_id command ∧
                      ws ∈ ch_workspace_id <$> changes_from current plan)) as [(-> & -> & Hws)|Hno].
    + apply list_elem_of_fmap in Hws as (c & -> & Hcc). rewrite (Hin c Hcc) in Hr'.
      apply elem_of_changes in Hcc as (Hpl & _ & _).
      assert (ch_after c = default ∅ (plan !! ch_workspace_id c)) as E by (by rewrite Hpl).
      rewrite E in Hr'. unfold plan in Hr'. rewrite lookup_plan, Hcur in Hr'.
      apply elem_of_union in Hr' as [[? _]%elem_of_intersection|Hd]; [done|].
      destruct (list_to_map _ !! _) as [rs|] eqn:Hl; [|by apply elem_of_empty in Hd].
      apply elem_of_list_to_map_2 in Hl. pose proof (Hp _ _ _ Hl Hd) as Hn. unfold cr in Ha. congruence.
    + rewrite (roles_at_same (memberships_of w)) in Hr'; [done|]. intros k m (Ht & Hw & Hus)%seat_ok.
      apply Hout. rewrite Ht, Hw, Hus. destruct (decide (tenant = tenant_id context)); [|by left].
      destruct (decide (u = sm_user_id command)); [|by right; left]. right; right. tauto.
  - intros (k & m & Hk & Hs & Hr')%elem_of_sets_at. apply elem_of_sets_at.
    destruct (Hsets k m Hk) as [E|(m0 & Hm0 & Hseat & E)].
    + rewrite E in Hr'. by apply not_elem_of_nil in Hr'.
    + exists k, m0. split_and!; [done| |by rewrite <- E]. apply seat_ok in Hs as (? & ? & ?).
      apply seat_ok. destruct Hseat as (? & ? & ?). split_and!; congruence.
Qed.
End Commands.

(** A command on memberships by [context]. *)
Inductive member_command (context : AccessContext) (w : World) : World → Prop :=
  | mc_grant py_lower sql_lower authz command :
      member_command context w (grant py_lower sql_lower authz context command w).2
  | mc_revoke authz command : member_command context w (revoke_membership authz context command w).2
  | mc_set authz command : member_command context w (set_memberships_of authz context command w).2
  | mc_invite py_lower sql_lower authz command :
      member_command context w (invite py_lower sql_lower authz context command w).2
  | mc_sets authz command :
      member_command context w (set_member_permission_sets authz context command w).2.

(** C31: no command of someone who is not a platform admin leaves anyone, in any tenant or
    workspace, with an administrative role or permission set they did not hold there
    before. *)
Theorem no_escalation context w w' tenant ws u r :
  PLATFORM_ADMIN_ROLE ∉ roles context → clean w → unique_ok (memberships_of w) = true →
  member_command context w w' →
  (r ∈ roles_at (memberships_of w') tenant ws u →
     administrative (t_roles (t_org (db w))) r = true → r ∈ roles_at (memberships_of w) tenant ws u) ∧
  (r ∈ sets_at (memberships_of w') tenant ws u →
     administrative (t_permission_sets (t_org (db w))) r = true →
     r ∈ sets_at (memberships_of w) tenant ws u).
Proof.
  intros Hp Hc Hu Hop.
  assert (no_gain (t_roles (t_org (db w))) (t_permission_sets (t_org (db w))) w w' →
    (r ∈ roles_at (memberships_of w') tenant ws u →
       administrative (t_roles (t_org (db w))) r = true → r ∈ roles_at (memberships_of w) tenant ws u) ∧
    (r ∈ sets_at (memberships_of w') tenant ws u →
       administrative (t_permission_sets (t_org (db w))) r = true →
       r ∈ sets_at (memberships_of w) tenant ws u)) as Hgen.
  { intros Hg. rewrite !elem_of_roles_at, !elem_of_sets_at. split;
      intros (k & m & Hk & (? & ? & ?)%seat_ok & Hin) Ha; destruct (Hg k m Hk) as [Hr Hs];
      [destruct (Hr r Hin Ha) as (k0 & m0 & Hk0 & (? & ? & ?) & Hin0)
      |destruct (Hs r Hin Ha) as (k0 & m0 & Hk0 & (? & ? & ?) & Hin0)];
      (exists k0, m0; split_and!; [done| |done]; apply seat_ok; split_and!; congruence). }
  destruct Hop; [apply Hgen; by apply grant_no_gain|apply Hgen; by apply revoke_membership_no_gain|
    |apply Hgen; by apply invite_no_gain|apply Hgen; by apply permission_sets_no_gain].
  destruct (set_memberships_no_gain authz context w Hp Hc command ws r tenant u Hu) as [H1 H2].
  split; [done|]. intros Hr _. by apply H2.
Qed.

(** ** Concrete instances *)

(** The waiver, signed by 102. *)
Definition example_signed : World :=
  (confirm default_authorization (example_signatory 102) "sod_order_pay" "agreed" example_small).2.

Definition example_both_roles : SetMemberships :=
  {| sm_user_id := 101;
     sm_memberships := [{| wp_workspace_id := 20; wp_role_keys := {[ "buyer"; "payer" ]} |}] |}.

Definition example_admin : AccessContext := example_signatory 102.

Lemma duties_stay_separated_witness :
  let w := (set_memberships_of default_authorization example_admin example_both_roles example_signed).2 in
  ∃ m rule i v second,
    t_memberships (t_org (db w)) !! 1%N = Some m ∧
    t_sod_rules (t_org (db w)) !! "sod_order_pay"%py = Some rule ∧
    t_sod_waivers (t_org (db w)) !! i = Some v ∧
    sw_confirmed_by v = Some second ∧ second ≠ sw_granted_by v.
Proof.
  intros w. destruct (t_memberships (t_org (db w)) !! 1%N) as [m|] eqn:Hm; [|by vm_compute in Hm].
  destruct (duties_stay_separated example_small w 1 m "sod_order_pay")
    as (rule & i & v & second & Hr & _ & Hv & _ & _ & _ & Hs & Hne).
  - done.
  - split; [|exact example_checked]. intros k m' key Hk Hb.
    change (({[ 1%N := example_buyer ]} : gmap uuid MembershipRow) !! k = Some m') in Hk.
    apply lookup_singleton_Some in Hk as [<- <-]. exfalso. unfold sod_rule_broken in Hb.
    change (t_sod_rules _) with ({[ "sod_order_pay"%py := example_rule ]} : gmap pystr SodRuleRow) in Hb.
    destruct (decide ("sod_order_pay"%py = key)) as [<-|Hne].
    + by vm_compute in Hb.
    + by rewrite lookup_singleton_ne in Hb.
  - eapply rtc_l; [apply (op_confirm _ default_authorization (example_signatory 102))|].
    eapply rtc_once, (op_set_memberships _ default_authorization example_admin example_both_roles).
  - exact Hm.
  - vm_compute in Hm. injection Hm as <-. by vm_compute.
  - exists m, rule, i, v, second. exact (conj eq_refl (conj Hr (conj Hv (conj Hs Hne)))).
Defined.

Lemma set_memberships_exact_witness :
  let r := set_memberships_of default_authorization example_admin example_both_roles example_signed in
  is_ok r.1 = true ∧
  ("payer"%py ∈ roles_at (memberships_of r.2) 10 20 101) ∧ saved r.2 = db r.2.
Proof.
  intros r. assert (is_ok r.1 = true) as Hok by (by vm_compute). split; [exact Hok|].
  pose proof (set_memberships_exact default_authorization example_admin example_both_roles
    example_signed ltac:(by vm_compute) ltac:(by vm_compute)) as H.
  change (set_memberships_of _ _ _ _) with r in H. destruct r as [[changes|e] w']; [|discriminate Hok].
  destruct H as (_ & Hs & Hr & _). split; [|exact Hs]. apply Hr. right.
  apply (bool_decide_eq_true_1 _). by vm_compute.
Defined.

Lemma no_escalation_witness :
  let w' := (set_memberships_of default_authorization example_admin
               {| sm_user_id := 101; sm_memberships :=
                    [{| wp_workspace_id := 20; wp_role_keys := {[ "org_admin"%py ]} |}] |}
               example_small).2 in
  "org_admin"%py ∉ roles_at (memberships_of w') 10 20 101.
Proof.
  intros w' Hin.
  destruct (no_escalation example_admin example_small w' 10 20 101 "org_admin") as [H _].
  - apply (bool_decide_eq_true_1 _). by vm_compute.
  - done.
  - by vm_compute.
  - apply mc_set.
  - specialize (H Hin ltac:(by vm_compute)).
    apply (bool_decide_eq_true_2 _) in H. by vm_compute in H.
Defined.
