(* ===== verification/RunStore.v ===== *)
(** * Worker runs

    [dw_agent_runtime/adapters/run_store.py]: the [worker_runs] table, whose
    partial unique index lets one unfinished run exist per thread, the claim of
    a thread by [create], and the reaping of a run whose process is gone. *)

From S2P Require Import Prelude Errors Kernel Domain Contracts Store.
Local Open Scope prog_scope.
Local Open Scope pystr_scope.

(** ** Operations *)

Definition _announcement (rc : RunContext) (status : RunStatus) : Announcement :=
  {| an_tenant := rc_tenant_id rc; an_worker := rc_worker_id rc; an_run := rc_run_id rc;
     an_subject := rc_subject_ref rc; an_status := status |}.

(** [pg_notify]: delivered with the commit, dropped with a rollback. *)
Definition notify (a : Announcement) : Prog unit :=
  modify (λ w, set_db (MkDb (t_approvals (db w)) (t_decisions (db w)) (t_audit (db w))
    (t_outbox (db w)) (t_receipts (db w)) (t_codes (db w)) (t_runs (db w))
    (t_executions (db w)) (t_notices (db w) ++ [a]) (t_org (db w)) (t_mem (db w))
    (t_chan (db w)) (t_ops (db w))) w).

Definition _write_and_announce (rc : RunContext) {A} (statement : Prog A) (status : RunStatus)
    : Prog unit :=
  session_begin (
    let! _ := statement in
    notify (_announcement rc status)).

Definition thread_of (rc : RunContext) : uuid := default (rc_run_id rc) (rc_thread_id rc).

(** The row [_insert] writes. *)
Definition new_run_row (rc : RunContext) (worker : WorkerDefinition)
    (input : gmap pystr json) (manifest : option pystr) (now : datetime) : WorkerRunRow :=
  {| wr_record :=
       {| rr_id := rc_run_id rc; rr_thread_id := thread_of rc;
          rr_workspace_id := rc_workspace_id rc; rr_status := RUN_RUNNING;
          rr_worker_id := rc_worker_id rc; rr_worker_version := rc_worker_version rc;
          rr_graph_version := wd_graph_version worker;
          rr_prompt_bundle_version := Some (wd_prompt_bundle_version worker);
          rr_toolset_version := wd_toolset_version worker;
          rr_policy_version := Some (wd_policy_version worker);
          rr_memory_policy_version := Some (wd_memory_policy_version worker);
          rr_autonomy_level := rc_autonomy_level rc;
          rr_approval_policy_version := rc_approval_policy_version rc;
          rr_input := input; rr_result := None; rr_error := None;
          rr_approval_request_id := None; rr_release_manifest_ref := manifest;
          rr_requested_by := rc_actor_id rc; rr_actor_roles := rc_roles rc;
          rr_actor_scopes := rc_scopes rc; rr_actor_plan_id := rc_plan_id rc;
          rr_actor_clearance := rc_clearance rc;
          rr_actor_record_visibility := rc_record_visibility rc;
          rr_actor_visible_owners := rc_visible_owners rc |};
     wr_tenant_id := rc_tenant_id rc; wr_trace_id := Some (rc_trace_id rc);
     wr_subject_ref := rc_subject_ref rc; wr_created_at := now; wr_updated_at := now |}.

Definition _insert (rc : RunContext) (worker : WorkerDefinition) (input : gmap pystr json)
    (manifest : option pystr) : Prog unit :=
  let! now := gets db_now in
  _write_and_announce rc
    (sql_insert (rc_tenant_id rc) (new_run_row rc worker input manifest now)) RUN_RUNNING.

(** The columns [set_status] and the reaper write. *)
Definition update_run (status : RunStatus) (result error : option (gmap pystr json))
    (approval_request_id : option uuid) (now : datetime) (row : WorkerRunRow) : WorkerRunRow :=
  let r := wr_record row in
  {| wr_record :=
       {| rr_id := rr_id r; rr_thread_id := rr_thread_id r; rr_workspace_id := rr_workspace_id r;
          rr_status := status; rr_worker_id := rr_worker_id r;
          rr_worker_version := rr_worker_version r; rr_graph_version := rr_graph_version r;
          rr_prompt_bundle_version := rr_prompt_bundle_version r;
          rr_toolset_version := rr_toolset_version r; rr_policy_version := rr_policy_version r;
          rr_memory_policy_version := rr_memory_policy_version r;
          rr_autonomy_level := rr_autonomy_level r;
          rr_approval_policy_version := rr_approval_policy_version r; rr_input := rr_input r;
          rr_result := match result with Some x => Some x | None => rr_result r end;
          rr_error := match error with Some x => Some x | None => rr_error r end;
          rr_approval_request_id :=
            match approval_request_id with Some x => Some x | None => rr_approval_request_id r end;
          rr_release_manifest_ref := rr_release_manifest_ref r;
          rr_requested_by := rr_requested_by r; rr_actor_roles := rr_actor_roles r;
          rr_actor_scopes := rr_actor_scopes r; rr_actor_plan_id := rr_actor_plan_id r;
          rr_actor_clearance := rr_actor_clearance r;
          rr_actor_record_visibility := rr_actor_record_visibility r;
          rr_actor_visible_owners := rr_actor_visible_owners r |};
     wr_tenant_id := wr_tenant_id row; wr_trace_id := wr_trace_id row;
     wr_subject_ref := wr_subject_ref row; wr_created_at := wr_created_at row;
     wr_updated_at := now |}.

Definition stale_error : gmap pystr json :=
  {[ "type" := JStr "StaleRun";
     "message" := JStr "tiến trình chạy run này đã biến mất; run được dọn để mở lại hội thoại" ]}.

(** The WHERE clause of the reaper: a [running] row of the thread, untouched
    for longer than the policy's seconds. *)
Definition is_stale (stale_run_after_seconds : Z) (thread : uuid) (now : datetime)
    (row : WorkerRunRow) : bool :=
  bool_decide (rr_thread_id (wr_record row) = thread)
  && bool_decide (rr_status (wr_record row) = RUN_RUNNING)
  && (wr_updated_at row <? now - seconds stale_run_after_seconds)%Z.

Definition _reap_stale_thread (stale_run_after_seconds : Z) (tenant thread : uuid) : Prog bool :=
  session_begin (
    let! now := gets db_now in
    let! rowcount := sql_update tenant (is_stale stale_run_after_seconds thread now)
      (update_run RUN_FAILED None (Some stale_error) None now) in
    ret (negb (rowcount =? 0))).

Definition waiting_approval_for_thread (tenant thread : uuid) : Prog (option uuid) :=
  session_begin (
    let! rows := sql_select tenant (λ row,
      bool_decide (rr_thread_id (wr_record row) = thread)
      && bool_decide (rr_status (wr_record row) = RUN_WAITING_APPROVAL)) in
    ret (match rows with
         | [] => None
         | row :: _ => rr_approval_request_id (wr_record row)
         end)).

Definition create (stale_run_after_seconds : Z) (rc : RunContext) (worker : WorkerDefinition)
    (input : gmap pystr json) (manifest : option pystr) : Prog unit :=
  try_except (_insert rc worker input manifest) (λ exc,
    match exn_cls exc with
    | IntegrityError constraint =>
        if negb (bool_decide (constraint = ACTIVE_THREAD_INDEX)) then reraise exc else
        let thread_id := thread_of rc in
        let! approval_id := waiting_approval_for_thread (rc_tenant_id rc) thread_id in
        match approval_id with
        | Some _ => raise ConflictError "this conversation is waiting for an approval decision"
        | None =>
            let! freed := _reap_stale_thread stale_run_after_seconds (rc_tenant_id rc) thread_id in
            if freed : bool then _insert rc worker input manifest
            else raise ConflictError "this conversation already has a turn in flight"
        end
    | _ => reraise exc
    end).

Definition set_status (rc : RunContext) (run_id : uuid) (status : RunStatus)
    (result error : option (gmap pystr json)) (approval_request_id : option uuid) : Prog unit :=
  let! now := gets db_now in
  _write_and_announce rc
    (sql_update (rc_tenant_id rc) (λ row, bool_decide (rr_id (wr_record row) = run_id))
      (update_run status result error approval_request_id now)) status.

(** Read beside whatever transaction the caller has open. *)
Definition get (rc : RunContext) (run_id : uuid) : Prog RunRecord :=
  let! row := read_committed (sql_get (rc_tenant_id rc) run_id (λ row,
    bool_decide (rr_workspace_id (wr_record row) = rc_workspace_id rc))) in
  match row with
  | None => raise NotFoundError "run not found"
  | Some row => ret (wr_record row)
  end.

Definition thread_belongs_to (tenant workspace thread : uuid) : Prog bool :=
  let! rows := read_committed (sql_select tenant (λ row,
    bool_decide (rr_thread_id (wr_record row) = thread)
    && bool_decide (rr_workspace_id (wr_record row) = workspace))) in
  ret (match rows with [] => false | _ => true end).

Definition started_since (tenant : uuid) (since : datetime) : Prog nat :=
  let! rows := read_committed (sql_select (R := WorkerRunRow) tenant (λ row,
    (since <=? wr_created_at row)%Z)) in
  ret (length rows).

Definition min_of (l : list Z) : option Z :=
  foldr (λ x acc, Some (default x (Z.min x <$> acc))) None l.

Definition active_since (tenant : uuid) (worker_id subject_ref : pystr) : Prog (option datetime) :=
  let! rows := read_committed (sql_select tenant (λ row,
    bool_decide (rr_worker_id (wr_record row) = worker_id)
    && bool_decide (wr_subject_ref row = Some subject_ref) && wr_active row)) in
  ret (min_of (wr_created_at <$> rows)).

(** ** Lemmas *)

Definition put_runs (t : gmap uuid WorkerRunRow) (d : Db) : Db := set_tbl t d.

Definition announce (a : Announcement) (d : Db) : Db :=
  MkDb (t_approvals d) (t_decisions d) (t_audit d) (t_outbox d) (t_receipts d) (t_codes d)
    (t_runs d) (t_executions d) (t_notices d ++ [a]) (t_org d) (t_mem d) (t_chan d) (t_ops d).

(** The run a thread is claimed by: the one unfinished row on it. *)
Definition holds_thread (t : gmap uuid WorkerRunRow) (tenant thread k : uuid)
    (row : WorkerRunRow) : Prop :=
  t !! k = Some row ∧ wr_tenant_id row = tenant ∧ rr_thread_id (wr_record row) = thread ∧
  wr_active row = true.

Lemma unique_key_run row u :
  unique_key row = Some u ↔
    wr_active row = true ∧ u = [wr_tenant_id row; rr_thread_id (wr_record row)].
Proof. simpl. case_match; naive_solver. Qed.

Lemma holder_unique t tenant thread k1 k2 r1 r2 :
  unique_ok t = true → holds_thread t tenant thread k1 r1 → holds_thread t tenant thread k2 r2 →
  k1 = k2 ∧ r1 = r2.
Proof.
  intros Hu (H1 & <- & <- & A1) (H2 & E1 & E2 & A2).
  assert (k1 = k2) as <-; [|split; congruence].
  eapply (proj1 (unique_ok_spec t) Hu k1 k2 r1 r2); [done|done|..]; apply unique_key_run; [done|].
  split; congruence.
Qed.

Section Claim.
Context (stale : Z) (rc : RunContext) (worker : WorkerDefinition)
  (input : gmap pystr json) (manifest : option pystr).
Let new w := new_run_row rc worker input manifest (db_now w).
Let claimed w t :=
  commit_db (announce (_announcement rc RUN_RUNNING)
               (put_runs (<[rc_run_id rc := new w]> t) (db w))) w.

Lemma insert_run_ok w :
  t_runs (db w) !! rc_run_id rc = None →
  unique_ok (t_runs (db w)) = true →
  (∀ k row, ¬ holds_thread (t_runs (db w)) (rc_tenant_id rc) (thread_of rc) k row) →
  _insert rc worker input manifest w = (Ok tt, claimed w (t_runs (db w))).
Proof.
  intros Hid Hu Hn. unfold _insert, _write_and_announce, session_begin, bind, gets.
  rewrite (proj2 (sql_insert_ok (rc_tenant_id rc) (new w) w tt
    (set_db (put_runs (<[rc_run_id rc := new w]> (t_runs (db w))) (db w)) w))); [reflexivity|].
  split_and!; [done|done| |reflexivity]. apply unique_ok_insert; [done|done|].
  intros k' r' u Hk' [_ ->]%unique_key_run [Ha E]%unique_key_run. injection E as E1 E2.
  by apply (Hn k' r').
Qed.

Lemma insert_run_held w k row :
  clean w → t_runs (db w) !! rc_run_id rc = None →
  holds_thread (t_runs (db w)) (rc_tenant_id rc) (thread_of rc) k row →
  _insert rc worker input manifest w =
    (Raise (Exn (IntegrityError ACTIVE_THREAD_INDEX)
              "duplicate key value violates unique constraint"), w).
Proof.
  intros Hc Hid (Hk & Ht & Hth & Ha).
  destruct (unique_ok (<[rc_run_id rc := new w]> (t_runs (db w)))) eqn:Hu.
  2: { unfold _insert, _write_and_announce, session_begin, bind, gets.
       rewrite (sql_insert_duplicate (rc_tenant_id rc) (new w) w) by done.
       by rewrite set_db_clean. }
  pose proof (proj1 (unique_ok_spec _) Hu (rc_run_id rc) k (new w) row
    [rc_tenant_id rc; thread_of rc]) as E.
  assert (rc_run_id rc = k) as <-; [|congruence].
  apply E; [apply lookup_insert_eq|rewrite lookup_insert_ne by congruence; done|..];
    apply unique_key_run; [done|]. split; congruence.
Qed.
End Claim.

Lemma waiting_run w tenant thread k row :
  clean w → unique_ok (t_runs (db w)) = true → holds_thread (t_runs (db w)) tenant thread k row →
  waiting_approval_for_thread tenant thread w =
    (Ok (if decide (rr_status (wr_record row) = RUN_WAITING_APPROVAL)
         then rr_approval_request_id (wr_record row) else None), w).
Proof.
  intros Hc Hu Hh. pose proof Hh as (Hk & Ht & Hth & Ha).
  unfold waiting_approval_for_thread, session_begin, sql_select. run.
  assert (set_saved (db w) w = w) as -> by (unfold clean in Hc; destruct w; simpl in *; by subst).
  set (p := visible tenant _).
  assert (∀ k' r', t_runs (db w) !! k' = Some r' → p r' = true → k' = k ∧ r' = row) as Hone.
  { intros k' r' Hk' Hp. unfold p, visible in Hp. to_prop.
    eapply holder_unique; [done| |done]. split_and!; [done..|].
    unfold wr_active. rewrite bool_decide_eq_false_2; [done|].
    match goal with Hs : rr_status _ = RUN_WAITING_APPROVAL |- _ => rewrite Hs end.
    vm_compute. set_solver. }
  assert (p row = bool_decide (rr_status (wr_record row) = RUN_WAITING_APPROVAL)) as Hp.
  { unfold p, visible. simpl. by rewrite !bool_decide_eq_true_2 by done. }
  case_decide as Hd.
  - rewrite (select_one p _ k row); [done|done|by rewrite Hp; apply bool_decide_eq_true_2|].
    intros k' r' Hk' Hp'. by destruct (Hone k' r' Hk' Hp').
  - rewrite (select_none p); [done|]. intros k' r' Hk'. destruct (p r') eqn:E; [|done].
    destruct (Hone k' r' Hk' E) as [-> ->]. rewrite Hp in E. to_prop. done.
Qed.

Lemma reap_run stale w tenant thread k row :
  clean w → unique_ok (t_runs (db w)) = true → holds_thread (t_runs (db w)) tenant thread k row →
  _reap_stale_thread stale tenant thread w =
    if is_stale stale thread (db_now w) row
    then (Ok true, commit_db (put_runs
            (<[k := update_run RUN_FAILED None (Some stale_error) None (db_now w) row]>
               (t_runs (db w))) (db w)) w)
    else (Ok false, w).
Proof.
  intros Hc Hu Hh. pose proof Hh as (Hk & Ht & Hth & Ha).
  unfold _reap_stale_thread, session_begin, bind, gets.
  set (f := update_run _ _ _ _ _). set (q := is_stale _ _ _).
  assert (∀ k' r', t_runs (db w) !! k' = Some r' → visible tenant q r' = true →
                   k' = k ∧ r' = row) as Hone.
  { intros k' r' Hk' Hp. unfold visible, q, is_stale in Hp. to_prop.
    eapply holder_unique; [done| |done]. split_and!; [done..|].
    unfold wr_active. match goal with Hs : rr_status _ = RUN_RUNNING |- _ => rewrite Hs end.
    done. }
  assert (visible tenant q row = q row) as Hp by (unfold visible; simpl; by rewrite Ht, bool_decide_eq_true_2).
  rewrite sql_update_run by (apply unique_ok_update; [by left|done]).
  change (tbl (db w)) with (t_runs (db w)). destruct (q row) eqn:Hq; simpl.
  - rewrite (count_rows_one _ _ k row), (update_rows_one _ f _ k row); try done; naive_solver.
  - assert (∀ k' r', t_runs (db w) !! k' = Some r' → visible tenant q r' = false) as Hn.
    { intros k' r' Hk'. destruct (visible tenant q r') eqn:E; [|done].
      destruct (Hone k' r' Hk' E) as [-> ->]. congruence. }
    rewrite (proj2 (count_rows_zero _ _) Hn), update_rows_none by done.
    f_equal. unfold clean in Hc. destruct w as [[] ? ? ? ? ? ? ?]; simpl in *. by subst.
Qed.
(** What [create] does, by what its thread holds: the whole of the claim. *)
Definition create_outcome_of (stale : Z) (rc : RunContext) (worker : WorkerDefinition)
    (input : gmap pystr json) (manifest : option pystr) (holder : option (uuid * WorkerRunRow))
    (w : World) : res unit * World :=
  let claim t := commit_db (announce (_announcement rc RUN_RUNNING) (put_runs
    (<[rc_run_id rc := new_run_row rc worker input manifest (db_now w)]> t) (db w))) w in
  match holder with
  | None => (Ok tt, claim (t_runs (db w)))
  | Some (k, row) =>
      if decide (rr_status (wr_record row) = RUN_WAITING_APPROVAL ∧
                 is_Some (rr_approval_request_id (wr_record row)))
      then (Raise (Exn ConflictError "this conversation is waiting for an approval decision"), w)
      else if is_stale stale (thread_of rc) (db_now w) row
      then (Ok tt, claim
              (<[k := update_run RUN_FAILED None (Some stale_error) None (db_now w) row]>
                 (t_runs (db w))))
      else (Raise (Exn ConflictError "this conversation already has a turn in flight"), w)
  end.

Lemma update_run_inactive row now :
  wr_active (update_run RUN_FAILED None (Some stale_error) None now row) = false.
Proof. done. Qed.

Lemma create_run stale rc worker input manifest holder w :
  clean w → t_runs (db w) !! rc_run_id rc = None → unique_ok (t_runs (db w)) = true →
  match holder with
  | Some (k, row) => holds_thread (t_runs (db w)) (rc_tenant_id rc) (thread_of rc) k row
  | None => ∀ k row, ¬ holds_thread (t_runs (db w)) (rc_tenant_id rc) (thread_of rc) k row
  end →
  create stale rc worker input manifest w =
    create_outcome_of stale rc worker input manifest holder w.
Proof.
  intros Hc Hid Hu Hh. unfold create, try_except, create_outcome_of.
  destruct holder as [[k row]|]; [|by rewrite insert_run_ok].
  rewrite (insert_run_held _ _ _ _ w k row) by done.
  cbn [exn_cls]. rewrite bool_decide_eq_true_2 by done. cbn [negb]. unfold bind.
  rewrite (waiting_run w _ _ k row) by done.
  destruct (decide (rr_status (wr_record row) = RUN_WAITING_APPROVAL)) as [Hs|Hs].
  - destruct (rr_approval_request_id (wr_record row)) as [a|] eqn:Ea.
    + by rewrite decide_True by eauto.
    + rewrite decide_False by (intros [_ [? ?]]; congruence).
      rewrite (reap_run stale w _ _ k row) by done.
      assert (is_stale stale (thread_of rc) (db_now w) row = false) as ->; [|done].
      unfold is_stale. rewrite Hs. by rewrite (bool_decide_eq_false_2 (_ = RUN_RUNNING)), andb_false_r.
  - rewrite decide_False by tauto. rewrite (reap_run stale w _ _ k row) by done.
    destruct (is_stale _ _ _ _) eqn:Est; [|done].
    set (w1 := commit_db _ w).
    pose proof Hh as (Hk & Ht & Hth & Ha).
    rewrite insert_run_ok; [done|..].
    + simpl. rewrite lookup_insert_ne by congruence. done.
    + simpl. apply unique_ok_spec. intros k1 k2 r1 r2 u. rewrite !lookup_insert_Some.
      intros [[<- <-]|[? Hl1]] [[<- <-]|[? Hl2]] Hu1 Hu2; try done.
      by apply (proj1 (unique_ok_spec _) Hu k1 k2 r1 r2 u).
    + simpl. intros k' r' (Hl & Ht' & Hth' & Ha'). apply lookup_insert_Some in Hl as [[<- <-]|[? Hl]]; [done|].
      destruct (holder_unique (t_runs (db w)) (rc_tenant_id rc) (thread_of rc) k k' row r') as [? _];
        done.
Qed.

Lemma create_key_taken stale rc worker input manifest w :
  clean w → is_Some (t_runs (db w) !! rc_run_id rc) →
  create stale rc worker input manifest w =
    (Raise (Exn (IntegrityError "worker_runs_pkey")
              "duplicate key value violates unique constraint"), w).
Proof.
  intros Hc Hid. unfold create, try_except, _insert, _write_and_announce, session_begin, bind, gets.
  rewrite (sql_insert_key_taken _ (new_run_row rc worker input manifest (db_now w)) w) by done.
  rewrite set_db_clean by done. reflexivity.
Qed.

Definition set_status_rows (rc : RunContext) (run_id : uuid) (status : RunStatus)
    (result error : option (gmap pystr json)) (approval : option uuid) (w : World)
    : gmap uuid WorkerRunRow :=
  update_rows (visible (rc_tenant_id rc) (λ row, bool_decide (rr_id (wr_record row) = run_id)))
    (update_run status result error approval (db_now w)) (t_runs (db w)).

Lemma set_status_run rc run_id status result error approval w :
  clean w →
  set_status rc run_id status result error approval w =
    let t := set_status_rows rc run_id status result error approval w in
    if unique_ok t
    then (Ok tt, commit_db (announce (_announcement rc status) (put_runs t (db w))) w)
    else (Raise (Exn (IntegrityError ACTIVE_THREAD_INDEX)
                   "duplicate key value violates unique constraint"), w).
Proof.
  intros Hc. unfold set_status, _write_and_announce, session_begin, bind, gets. simpl.
  destruct (unique_ok _) eqn:Hu.
  - by rewrite (sql_update_run _ _ _ w).
  - rewrite (sql_update_duplicate _ _ _ w) by done. by rewrite set_db_clean.
Qed.

(** Reading a run: what is committed, in the caller's tenant and workspace. *)
Lemma get_run rc run_id w :
  get rc run_id w =
    (match t_runs (saved w) !! run_id with
     | Some row =>
         if bool_decide (wr_tenant_id row = rc_tenant_id rc)
            && bool_decide (rr_workspace_id (wr_record row) = rc_workspace_id rc)
         then Ok (wr_record row) else Raise (Exn NotFoundError "run not found")
     | None => Raise (Exn NotFoundError "run not found")
     end, w).
Proof.
  unfold get, read_committed, sql_get, bind, gets, visible. simpl.
  destruct (t_runs (saved w) !! run_id) as [row|] eqn:E; simpl.
  - destruct (_ && _); simpl; by destruct w.
  - by destruct w.
Qed.

(** Whether somebody holds a thread is decidable by looking. *)
Lemma holder_dec t tenant thread :
  {kr : uuid * WorkerRunRow | holds_thread t tenant thread kr.1 kr.2} +
  {∀ k row, ¬ holds_thread t tenant thread k row}.
Proof.
  set (l := filter (λ kr : uuid * WorkerRunRow,
    bool_decide (wr_tenant_id kr.2 = tenant) && bool_decide (rr_thread_id (wr_record kr.2) = thread)
    && wr_active kr.2 = true) (map_to_list t)).
  assert (∀ kr, kr ∈ l ↔ holds_thread t tenant thread kr.1 kr.2) as Hl.
  { intros [k r]. unfold l, holds_thread. rewrite list_elem_of_filter, elem_of_map_to_list.
    rewrite !andb_true_iff, !bool_decide_eq_true. simpl. tauto. }
  destruct l as [|kr l'].
  - right. intros k row Hh. by apply (Hl (k, row)), not_elem_of_nil in Hh.
  - left. exists kr. apply Hl. left.
Qed.

(** ** Reachable states *)

(** One step of the store: a claim, a status change, or time going by. *)
Inductive run_step (stale : Z) : World → World → Prop :=
  | step_create rc worker input manifest w :
      run_step stale w (create stale rc worker input manifest w).2
  | step_status rc run_id status result error approval w :
      run_step stale w (set_status rc run_id status result error approval w).2
  | step_time w w' : db w' = db w → saved w' = saved w → run_step stale w w'.

Record run_inv (w : World) : Prop := {
  inv_clean : clean w;
  inv_keyed : keyed (t_runs (db w));
  inv_unique : unique_ok (t_runs (db w)) = true }.

Lemma run_inv_insert w t rc worker input manifest d :
  t_runs d = <[rc_run_id rc := new_run_row rc worker input manifest (db_now w)]> t →
  keyed t → unique_ok t = true → t !! rc_run_id rc = None →
  (∀ k row, ¬ holds_thread t (rc_tenant_id rc) (thread_of rc) k row) →
  run_inv (commit_db d w).
Proof.
  intros Ed Hk Hu Hid Hn. split; [done|..]; simpl; rewrite Ed.
  - exact (keyed_insert t (new_run_row rc worker input manifest (db_now w)) Hk).
  - apply unique_ok_insert; [done..|].
    intros k' r' u Hk' [_ ->]%unique_key_run [Ha E]%unique_key_run. injection E as E1 E2.
    by apply (Hn k' r').
Qed.

Lemma run_inv_create stale rc worker input manifest w :
  run_inv w → run_inv (create stale rc worker input manifest w).2.
Proof.
  intros [Hc Hk Hu]. destruct (t_runs (db w) !! rc_run_id rc) as [?|] eqn:Hid.
  { by rewrite create_key_taken by eauto. }
  destruct (holder_dec (t_runs (db w)) (rc_tenant_id rc) (thread_of rc)) as [[[k row] Hh]|Hn];
    simpl in *.
  - rewrite (create_run _ _ _ _ _ (Some (k, row))) by done. unfold create_outcome_of.
    case_decide; [done|]. destruct (is_stale _ _ _ _); [|done]. pose proof Hh as (Hl & ? & ? & ?).
    eapply run_inv_insert; [reflexivity|..].
    + intros k' r' [[<- <-]|[_ Hl']]%lookup_insert_Some; [apply (Hk k row Hl)|by apply Hk].
    + apply unique_ok_spec. intros k1 k2 r1 r2 u. rewrite !lookup_insert_Some.
      intros [[<- <-]|[? Hl1]] [[<- <-]|[? Hl2]] Hu1 Hu2; try done.
      by apply (proj1 (unique_ok_spec _) Hu k1 k2 r1 r2 u).
    + rewrite lookup_insert_ne by congruence. done.
    + intros k' r' (Hl' & Ht' & Hth' & Ha'). apply lookup_insert_Some in Hl' as [[<- <-]|[? Hl']];
        [done|].
      destruct (holder_unique (t_runs (db w)) (rc_tenant_id rc) (thread_of rc) k k' row r') as [? _];
        done.
  - rewrite (create_run _ _ _ _ _ None) by done. simpl.
    eapply run_inv_insert; [reflexivity|done..].
Qed.

Lemma run_inv_step stale w w' : run_inv w → run_step stale w w' → run_inv w'.
Proof.
  intros Hi Hst. revert Hi.
  destruct Hst as [rc worker input manifest w0|rc run_id status result error approval w0|w0 w1 Hd Hs];
    intros Hi.
  - by apply run_inv_create.
  - destruct Hi as [Hc Hk Hu]. rewrite set_status_run by done. cbv zeta.
    destruct (unique_ok (set_status_rows _ _ _ _ _ _ _)) eqn:E; [|by split].
    split; [reflexivity| |exact E].
    exact (keyed_update _ (update_run status result error approval (db_now w0)) _
             (λ r, eq_refl) Hk).
  - destruct Hi as [Hc Hk Hu]. split; [unfold clean in *; congruence|by rewrite Hd..].
Qed.

Lemma run_inv_reachable stale w w' : rtc (run_step stale) w w' → run_inv w → run_inv w'.
Proof. induction 1; eauto using run_inv_step. Qed.

Lemma create_new_row stale rc worker input manifest w w' :
  run_inv w → create stale rc worker input manifest w = (Ok tt, w') →
  ∃ now, t_runs (db w') !! rc_run_id rc = Some (new_run_row rc worker input manifest now).
Proof.
  intros [Hc Hk Hu] Hcr. exists (db_now w).
  destruct (t_runs (db w) !! rc_run_id rc) as [old|] eqn:Hid.
  { by rewrite create_key_taken in Hcr by eauto. }
  destruct (holder_dec (t_runs (db w)) (rc_tenant_id rc) (thread_of rc)) as [[[k row] Hh]|Hn].
  - rewrite (create_run _ _ _ _ _ (Some (k, row))) in Hcr by done. unfold create_outcome_of in Hcr.
    case_decide; [done|]. destruct (is_stale _ _ _ _); [|done]. injection Hcr as <-.
    apply lookup_insert_eq.
  - rewrite (create_run _ _ _ _ _ None) in Hcr by done. injection Hcr as <-. apply lookup_insert_eq.
Qed.

(** ** Properties *)

(** Starting a run claims its thread or refuses: with the thread free the run is inserted
    and announced; held by a run parked on an approval, or by one that is not stale, the
    claim is refused and nothing is written or announced; held by a stale run, that run
    is failed and the thread handed over. *)
Theorem create_claims_thread stale rc worker input manifest w :
  run_inv w →
  let w' := (create stale rc worker input manifest w).2 in
  let outcome := (create stale rc worker input manifest w).1 in
  let mine := holds_thread (t_runs (db w)) (rc_tenant_id rc) (thread_of rc) in
  match t_runs (db w) !! rc_run_id rc with
  | Some _ => (∃ msg, outcome = Raise (Exn (IntegrityError "worker_runs_pkey") msg)) ∧ w' = w
  | None =>
      (∀ k row, mine k row →
        create stale rc worker input manifest w =
          create_outcome_of stale rc worker input manifest (Some (k, row)) w) ∧
      ((∀ k row, ¬ mine k row) →
        create stale rc worker input manifest w =
          create_outcome_of stale rc worker input manifest None w)
  end ∧
  (outcome = Ok tt →
     holds_thread (t_runs (db w')) (rc_tenant_id rc) (thread_of rc) (rc_run_id rc)
       (new_run_row rc worker input manifest (db_now w)) ∧
     t_notices (saved w') = t_notices (saved w) ++ [_announcement rc RUN_RUNNING]) ∧
  (outcome ≠ Ok tt → w' = w).
Proof.
  intros Hi w' outcome mine. pose proof Hi as [Hc Hk Hu].
  destruct (t_runs (db w) !! rc_run_id rc) as [old|] eqn:Hid.
  { subst w' outcome. rewrite (create_key_taken _ _ _ _ _ w) by eauto. simpl. split_and!; [by eexists|done..]. }
  split.
  { split; [intros k row Hh|intros Hn]; [by rewrite (create_run _ _ _ _ _ (Some (k, row)))|].
    by rewrite (create_run _ _ _ _ _ None). }
  assert (∃ holder, create stale rc worker input manifest w =
    create_outcome_of stale rc worker input manifest holder w) as [holder E].
  { destruct (holder_dec (t_runs (db w)) (rc_tenant_id rc) (thread_of rc)) as [[[k row] Hh]|Hn].
    - exists (Some (k, row)). by apply create_run.
    - exists None. by apply create_run. }
  subst w' outcome. rewrite E. unfold create_outcome_of.
  destruct holder as [[k row]|]; [case_decide; [done|destruct (is_stale _ _ _ _); [|done]]|];
    (split; [intros _|done]; split;
      [split_and!; [apply lookup_insert_eq|done..]|simpl; by rewrite Hc]).
Qed.

(** A thread held by a run that has been silent for a minute too long. *)
Definition example_held : World :=
  (create 600 (example_run_context 10 7) example_worker ∅ None
     (example_world empty_db (seconds 100))).2.

Lemma empty_run_inv now : run_inv (example_world empty_db now).
Proof. split; [done| |by vm_compute]. intros k r. simpl. by rewrite lookup_empty. Defined.

Definition example_later (w : World) (now : datetime) : World :=
  MkWorld (db w) (saved w) now (utc w) (utc_reads w) (ids w) (ids_issued w) (effects w).

Lemma example_held_inv now : run_inv (example_later example_held now).
Proof.
  assert (run_inv example_held) as Hi by apply run_inv_create, empty_run_inv.
  apply (run_inv_step 600 _ _ Hi). by apply step_time.
Defined.

Lemma create_claims_thread_witness :
  let w := example_later example_held (seconds 761) in
  let w' := (create 600 (example_run_context 11 7) example_worker ∅ None w).2 in
  run_inv w ∧ w' ≠ w ∧
  holds_thread (t_runs (db w')) 1 7 11
    (new_run_row (example_run_context 11 7) example_worker ∅ None (seconds 761)).
Proof.
  intros w w'. pose proof (example_held_inv (seconds 761)) as Hi.
  destruct (create_claims_thread 600 (example_run_context 11 7) example_worker ∅ None w Hi)
    as (_ & Hok & _).
  split; [exact Hi|]. destruct Hok as [Hh Hn]; [vm_compute; reflexivity|]. split; [|exact Hh].
  intros E. fold w' in Hn. rewrite E in Hn. vm_compute in Hn. discriminate Hn.
Defined.

(** A claim changes no existing run except a running one of its own tenant and thread that
    has been untouched for longer than the policy allows, which it fails; a run waiting
    for an approval or of another tenant is never touched. *)
Theorem claim_disturbs_only_stale stale rc worker input manifest w k row :
  run_inv w → t_runs (db w) !! k = Some row →
  let w' := (create stale rc worker input manifest w).2 in
  t_runs (db w') !! k = Some row ∨
  (wr_tenant_id row = rc_tenant_id rc ∧ rr_thread_id (wr_record row) = thread_of rc ∧
   rr_status (wr_record row) = RUN_RUNNING ∧
   (wr_updated_at row + seconds stale < db_now w)%Z ∧
   t_runs (db w') !! k = Some (update_run RUN_FAILED None (Some stale_error) None (db_now w) row)).
Proof.
  intros [Hc Hk Hu] Hrow. cbv zeta.
  destruct (t_runs (db w) !! rc_run_id rc) as [old|] eqn:Hid.
  { rewrite create_key_taken by eauto. by left. }
  assert (k ≠ rc_run_id rc) as Hne by congruence.
  destruct (holder_dec (t_runs (db w)) (rc_tenant_id rc) (thread_of rc)) as [[[k' row'] Hh]|Hn].
  - simpl in Hh. rewrite (create_run _ _ _ _ _ (Some (k', row'))) by done. unfold create_outcome_of.
    case_decide; [by left|]. destruct (is_stale _ _ _ _) eqn:Est; [|by left]. simpl.
    rewrite lookup_insert_ne by done. destruct (decide (k = k')) as [<-|].
    + right. destruct Hh as (Hl & Ht & Hth & Ha). assert (row' = row) as -> by congruence.
      unfold is_stale in Est. to_prop. rewrite lookup_insert_eq. split_and!; [done..|lia|done].
    + left. by rewrite lookup_insert_ne.
  - rewrite (create_run _ _ _ _ _ None) by done. left. simpl. by rewrite lookup_insert_ne.
Qed.

Lemma claim_disturbs_only_stale_witness :
  let w := example_later example_held (seconds 650) in
  let row := new_run_row (example_run_context 10 7) example_worker ∅ None (seconds 100) in
  t_runs (db (create 600 (example_run_context 11 7) example_worker ∅ None w).2) !! 10%N
    = Some row.
Proof.
  intros w row.
  destruct (claim_disturbs_only_stale 600 (example_run_context 11 7) example_worker ∅ None w 10 row
    (example_held_inv (seconds 650)) eq_refl) as [H|(_ & _ & _ & H & _)]; [exact H|].
  vm_compute in H. discriminate H.
Defined.

(** C29: starting a run succeeds exactly when its id is new and whoever holds its thread is
    a running run untouched for longer than the policy allows; then the run is committed
    as new and announced, a stale holder is failed, and every other run is as it was; a
    claim that is refused leaves everything as it was, and is a conflict unless the id
    was taken. *)
Theorem claim_exact stale rc worker input manifest w :
  run_inv w →
  let '(outcome, w') := create stale rc worker input manifest w in
  let on_thread := holds_thread (t_runs (db w)) (rc_tenant_id rc) (thread_of rc) in
  (outcome = Ok tt ↔
     t_runs (db w) !! rc_run_id rc = None ∧
     ∀ k row, on_thread k row → rr_status (wr_record row) = RUN_RUNNING ∧
       (wr_updated_at row + seconds stale < db_now w)%Z) ∧
  (outcome = Ok tt →
     t_runs (saved w') !! rc_run_id rc = Some (new_run_row rc worker input manifest (db_now w)) ∧
     (∀ k row, on_thread k row →
        t_runs (saved w') !! k = Some (update_run RUN_FAILED None (Some stale_error) None (db_now w) row)) ∧
     (∀ k, k ≠ rc_run_id rc → (∀ row, ¬ on_thread k row) → t_runs (saved w') !! k = t_runs (db w) !! k) ∧
     t_notices (saved w') = t_notices (saved w) ++ [_announcement rc RUN_RUNNING]) ∧
  (outcome ≠ Ok tt →
     w' = w ∧ (t_runs (db w) !! rc_run_id rc = None → ∃ msg, outcome = Raise (Exn ConflictError msg))).
Proof.
  intros [Hc Hk Hu]. destruct (t_runs (db w) !! rc_run_id rc) as [old|] eqn:Hid.
  { rewrite create_key_taken by eauto. split_and!; [split; [done|by intros [? _]]|done|by intros _; split]. }
  destruct (holder_dec (t_runs (db w)) (rc_tenant_id rc) (thread_of rc)) as [[[k row] Hh]|Hn].
  - simpl in Hh. rewrite (create_run _ _ _ _ _ (Some (k, row))) by done. unfold create_outcome_of.
    assert (∀ k' row', holds_thread (t_runs (db w)) (rc_tenant_id rc) (thread_of rc) k' row' → k' = k ∧ row' = row)
      as Hone by (intros k' row' Hh'; by eapply holder_unique).
    assert (is_stale stale (thread_of rc) (db_now w) row = true ↔
      rr_status (wr_record row) = RUN_RUNNING ∧ (wr_updated_at row + seconds stale < db_now w)%Z) as Hst.
    { unfold is_stale. rewrite !andb_true_iff, !bool_decide_eq_true, Z.ltb_lt.
      destruct Hh as (_ & _ & ? & _). intuition lia. }
    case_decide as Hp; [split_and!; [split; [done|intros [_ Hall]]|done|eauto]|].
    { destruct (Hall _ _ Hh), Hp. congruence. }
    destruct (is_stale _ _ _ _).
    + split_and!; [split; [intros _; split; [done|]|done]| |done].
      { intros k' row' [-> ->]%Hone. by apply Hst. }
      intros _. pose proof Hh as (Hl & _). split_and!; simpl; [apply lookup_insert_eq|..|by rewrite Hc].
      * intros k' row' [-> ->]%Hone. rewrite lookup_insert_ne by congruence. apply lookup_insert_eq.
      * intros k' Hne Hno. rewrite lookup_insert_ne by done.
        destruct (decide (k' = k)) as [->|]; [|by rewrite lookup_insert_ne]. destruct (Hno row Hh).
    + split_and!; [split; [done|intros [_ Hall]]|done|eauto]. by apply Hall, Hst in Hh.
  - rewrite (create_run _ _ _ _ _ None) by done. simpl. split_and!; [split; [|done]| |done].
    + intros _. split; [done|]. by intros k row ?%Hn.
    + intros _. split_and!; [apply lookup_insert_eq|by intros k row ?%Hn| |by rewrite Hc].
      intros k Hne _. by rewrite lookup_insert_ne.
Qed.

(** Refused while the run that holds the thread is fresh; a minute too late it is failed and
    the thread handed over. *)
Lemma claim_exact_witness :
  let row := new_run_row (example_run_context 10 7) example_worker ∅ None (seconds 100) in
  let claim now := create 600 (example_run_context 11 7) example_worker ∅ None (example_later example_held now) in
  ((claim (seconds 650)).1 ≠ Ok tt ∧ (claim (seconds 650)).2 = example_later example_held (seconds 650)) ∧
  t_runs (saved (claim (seconds 761)).2) !! 10%N =
    Some (update_run RUN_FAILED None (Some stale_error) None (seconds 761) row).
Proof.
  intros row claim.
  assert (holds_thread (t_runs (db example_held)) 1 7 10 row) as Hh by (by vm_compute).
  pose proof (claim_exact 600 (example_run_context 11 7) example_worker ∅ None
    (example_later example_held (seconds 650)) (example_held_inv (seconds 650))) as H1.
  pose proof (claim_exact 600 (example_run_context 11 7) example_worker ∅ None
    (example_later example_held (seconds 761)) (example_held_inv (seconds 761))) as H2.
  fold (claim (seconds 650)) in H1. fold (claim (seconds 761)) in H2.
  assert ((claim (seconds 650)).1 ≠ Ok tt) as Hno by (vm_compute; discriminate).
  assert ((claim (seconds 761)).1 = Ok tt) as Hyes by (vm_compute; reflexivity).
  destruct (claim (seconds 650)) as [r1 w1], (claim (seconds 761)) as [r2 w2]. cbn [fst snd] in *.
  destruct H1 as (_ & _ & H1), H2 as (_ & H2 & _). split; [split; [exact Hno|by apply H1]|].
  destruct (H2 Hyes) as (_ & H & _). by apply H.
Defined.
