(* ===== verification/ApprovalFlow.v ===== *)
(** * Deciding an approval and resuming its run

    [dw_agent_runtime/approval_flow.py]: [ApproveAndResumeService.decide], the
    one writer of a decision.  Who may decide, the per-type rules, the run that
    has to be resumable, the admission of a single-use code, the decision row,
    the audit event and the outbox event, in one unit of work; the resume
    afterwards, under the run's own authority. *)

From S2P Require Import Prelude Errors Kernel Domain Contracts Store RunStore.
Local Open Scope prog_scope.
Local Open Scope pystr_scope.

Definition DECIDED_EVENT_SCHEMA : pystr := "1.0".
Definition DECIDED_ACTION : pystr := "approval.decided".
Definition CHANNEL_DECIDED_ACTION : pystr := "approval.channel_decided".

(** [DecisionGuard] and [DecisionAdmission] *)
Abbreviation DecisionGuard := (ApprovalRequest → AccessContext → res unit).
Abbreviation DecisionAdmission :=
  (ApprovalRequest → AccessContext → Prog (gmap pystr json)).

(** [WorkflowRunnerPort], as [decide] uses it. *)
Record Runner := {
  hosts : pystr → pystr → pystr → bool;
  resume : RunContext → uuid → gmap pystr json → Prog unit }.

Record ApproveAndResumeService := {
  runner : Runner;
  strict_approval_prefixes : gset pystr;
  decision_guards : gmap pystr DecisionGuard }.

Section ApproveAndResume.
Context (svc : ApproveAndResumeService).

Definition is_strict (approval_type : pystr) : bool :=
  existsb (py_startswith approval_type) (elements (strict_approval_prefixes svc)).

Definition _enforce_strict_rules (request : ApprovalRequest) (comment : pystr)
    (context : AccessContext) : Prog unit :=
  (when bool_decide (ar_requested_by request = principal_id context) then
     raise ConflictError "separation of duties: requester cannot approve their own request") ;;;
  (when negb (py_truthy (py_strip comment)) then
     raise ConflictError "this approval type requires a review comment").

(** The context a run is looked up under; only its tenant and workspace
    reach the query. *)
Definition _run_context_for (context : AccessContext) (run_id : uuid) : RunContext :=
  {| rc_run_id := run_id; rc_thread_id := None; rc_tenant_id := tenant_id context;
     rc_workspace_id := workspace_id context; rc_actor_id := principal_id context;
     rc_worker_id := "unknown"; rc_worker_version := "0.0.0"; rc_channel := "web";
     rc_plan_id := plan_id context; rc_roles := roles context; rc_scopes := scopes context;
     rc_clearance := clearance context; rc_record_visibility := "open";
     rc_visible_owners := None;
     rc_trace_id := "lookup-" +++ PyStr (take 12 (chars (uuid_hex run_id)));
     rc_locale := "vi-VN"; rc_subject_ref := None; rc_autonomy_ceiling := FAIL_CLOSED_LEVEL;
     rc_autonomy_level := None; rc_approval_policy_version := None |}.

Definition _resumable_run (context : AccessContext) (request : ApprovalRequest)
    : Prog (option RunRecord) :=
  match ar_run_id request with
  | None => ret None
  | Some run_id =>
      let! record := RunStore.get (_run_context_for context run_id) run_id in
      (when negb (bool_decide (rr_status record = RUN_WAITING_APPROVAL)) then
         raise ConflictError "run is not waiting for approval") ;;;
      (when negb (hosts (runner svc) (rr_worker_id record) (rr_worker_version record)
                    (rr_graph_version record)) then
         raise ConflictError "this service does not run the graph that owns the approval") ;;;
      ret (Some record)
  end.

Definition event_of (request : ApprovalRequest) (decision : ApprovalDecision) (id : uuid)
    : OutboxEvent :=
  {| oe_id := id; oe_tenant_id := ar_tenant_id request;
     oe_workspace_id := ar_workspace_id request;
     oe_event_type := decided_event_type (ar_approval_type request);
     oe_schema_version := DECIDED_EVENT_SCHEMA; oe_aggregate_id := ar_id request;
     oe_occurred_at := ad_decided_at decision;
     oe_payload := {[ "approval_id" := JStr (uuid_str (ar_id request));
                      "decision_id" := JStr (uuid_str (ad_id decision));
                      "outcome" := JStr (outcome_value (ad_outcome decision));
                      "decided_by" := JStr (uuid_str (ad_decided_by decision)) ]};
     oe_correlation_id := None; oe_causation_id := None;
     oe_actor_id := Some (ad_decided_by decision); oe_processed_at := None;
     oe_attempts := 0; oe_last_error := None |}.

Definition _decided_event (request : ApprovalRequest) (decision : ApprovalDecision)
    : Prog OutboxEvent :=
  let! id := new_uuid in lift_res (make_outbox_event (event_of request decision id)).

Definition withdrawn (request : ApprovalRequest) (decision : ApprovalDecision) : bool :=
  bool_decide (ad_outcome decision = OUTCOME_REJECTED)
  && bool_decide (ad_decided_by decision = ar_requested_by request).

(** The common part of the two audit events. *)
Definition audit_of (action : pystr) (details : gmap pystr json) (request : ApprovalRequest)
    (decision : ApprovalDecision) (id : uuid) : AuditEvent :=
  {| ae_id := id; ae_tenant_id := ar_tenant_id request;
     ae_workspace_id := ar_workspace_id request; ae_actor_id := ad_decided_by decision;
     ae_action := action; ae_resource_type := "approval_request";
     ae_resource_id := uuid_str (ar_id request); ae_occurred_at := ad_decided_at decision;
     ae_run_id := ar_run_id request; ae_policy_decision := None; ae_trace_id := None;
     ae_details := details |}.

Definition _decided_audit (request : ApprovalRequest) (decision : ApprovalDecision) (id : uuid)
    : AuditEvent :=
  audit_of DECIDED_ACTION
    {[ "approval_type" := JStr (ar_approval_type request);
       "outcome" := JStr (outcome_value (ad_outcome decision));
       "decision_id" := JStr (uuid_str (ad_id decision));
       "withdrawn" := JBool (withdrawn request decision) ]} request decision id.

Definition _admitted_audit (request : ApprovalRequest) (decision : ApprovalDecision)
    (admitted : gmap pystr json) (id : uuid) : AuditEvent :=
  audit_of CHANNEL_DECIDED_ACTION
    (<["approval_type" := JStr (ar_approval_type request)]>
     (<["outcome" := JStr (outcome_value (ad_outcome decision))]>
      (<["decision_id" := JStr (uuid_str (ad_id decision))]>
       (<["channel" := JStr (ad_channel decision)]> admitted)))) request decision id.

Definition audit_for (admitted : option (gmap pystr json)) (request : ApprovalRequest)
    (decision : ApprovalDecision) (id : uuid) : AuditEvent :=
  match admitted with
  | None => _decided_audit request decision id
  | Some m => _admitted_audit request decision m id
  end.

(** The resumed run's context: the run's workspace, actor and authority, from
    its row; only the tenant and the channel come from the decision. *)
Definition resume_context (context : AccessContext) (channel : pystr) (run_id : uuid)
    (record : RunRecord) : RunContext :=
  {| rc_run_id := run_id; rc_thread_id := Some (rr_thread_id record);
     rc_tenant_id := tenant_id context; rc_workspace_id := rr_workspace_id record;
     rc_actor_id := rr_requested_by record; rc_worker_id := rr_worker_id record;
     rc_worker_version := rr_worker_version record; rc_channel := channel;
     rc_plan_id := rr_actor_plan_id record; rc_roles := rr_actor_roles record;
     rc_scopes := rr_actor_scopes record; rc_clearance := rr_actor_clearance record;
     rc_record_visibility := rr_actor_record_visibility record;
     rc_visible_owners := rr_actor_visible_owners record;
     rc_trace_id := "resume-" +++ PyStr (take 12 (chars (uuid_hex run_id)));
     rc_locale := "vi-VN"; rc_subject_ref := None;
     rc_autonomy_ceiling := default FAIL_CLOSED_LEVEL (rr_autonomy_level record);
     rc_autonomy_level := rr_autonomy_level record;
     rc_approval_policy_version := rr_approval_policy_version record |}.

Definition resume_payload (context : AccessContext) (approve : bool) (comment : pystr)
    (approved_action_ids : option (list pystr)) : gmap pystr json :=
  let base : gmap pystr json :=
    {[ "approved" := JBool approve; "comment" := JStr comment;
       "decided_by" := JStr (uuid_str (principal_id context)) ]} in
  match approved_action_ids with
  | None => base
  | Some l => <["approved_action_ids" := JList (JStr <$> l)]> base
  end.

(** What the caller must show before anything else is looked at: the right to
    decide, or withdrawing their own request. *)
Definition authorize (authorization : ScopeAuthorizationService) (context : AccessContext)
    (approve : bool) (request : ApprovalRequest) : Prog unit :=
  when approve || negb (bool_decide (ar_requested_by request = principal_id context)) then
    (lift_res (require authorization context APPROVALS_DECIDE) ;;;
     when negb (holds_stamped_scope context (ar_required_scope request)) then
       reraise permission_denied).

(** Everything checked about a visible request, nothing written. *)
Definition checks (authorization : ScopeAuthorizationService) (context : AccessContext)
    (approve : bool) (comment : pystr) (request : ApprovalRequest) : Prog (option RunRecord) :=
  authorize authorization context approve request ;;;
  (when is_strict (ar_approval_type request) then
     _enforce_strict_rules request comment context) ;;;
  (match decision_guards svc !! ar_approval_type request with
   | Some guard => lift_res (guard request context)
   | None => ret tt
   end) ;;;
  _resumable_run context request.

(** A decision on a request without a run is announced through the outbox. *)
Definition announce_decision (t : uuid) (request : ApprovalRequest)
    (decision : ApprovalDecision) : Prog unit :=
  when bool_decide (ar_run_id request = None) then
    (let! e := _decided_event request decision in outbox_add t e).

Definition append_audit (t : uuid) (admitted : option (gmap pystr json))
    (request : ApprovalRequest) (decision : ApprovalDecision) : Prog unit :=
  let! id := new_uuid in
  let! a := lift_res (make_audit_event (audit_for admitted request decision id)) in
  audit_append t a.

(** The decision and all it leaves behind, up to the commit. *)
Definition write_rows (context : AccessContext) (approve : bool) (comment channel : pystr)
    (admitted : option (gmap pystr json)) (request : ApprovalRequest)
    : Prog ApprovalRequest :=
  let t := tenant_id context in
  let! decision_id := new_uuid in
  let! decided_at := now_utc in
  let! rd := lift_res (request_decide decision_id (principal_id context)
    (if approve then OUTCOME_APPROVED else OUTCOME_REJECTED) decided_at comment channel request) in
  let request := rd.1 in
  let decision := rd.2 in
  approvals_save t request ;;;
  approvals_add_decision t decision ;;;
  announce_decision t request decision ;;;
  append_audit t admitted request decision ;;;
  ret request.

Definition decide_in_uow (authorization : ScopeAuthorizationService) (context : AccessContext)
    (approval_id : uuid) (approve : bool) (comment channel : pystr)
    (admission : option DecisionAdmission) : Prog (ApprovalRequest * option RunRecord) :=
  unit_of_work (
    let! found := approvals_get (tenant_id context) approval_id (workspace_id context)
                    (audience_of context authorization) in
    match found with
    | None => raise NotFoundError "approval request not found"
    | Some request =>
        let! record := checks authorization context approve comment request in
        let! admitted := match admission with
                         | None => ret None
                         | Some adm => let! m := adm request context in ret (Some m)
                         end in
        let! request := write_rows context approve comment channel admitted request in
        uow_commit ;;;
        ret (request, record)
    end).

Definition decide (authorization : ScopeAuthorizationService) (context : AccessContext)
    (approval_id : uuid) (approve : bool) (comment : pystr)
    (approved_action_ids : option (list pystr)) (channel : pystr)
    (admission : option DecisionAdmission) : Prog ApprovalRequest :=
  let! rr := decide_in_uow authorization context approval_id approve comment channel admission in
  let request := rr.1 in
  (match rr.2, ar_run_id request with
   | Some record, Some run_id =>
       resume (runner svc) (resume_context context channel run_id record) run_id
         (resume_payload context approve comment approved_action_ids)
   | _, _ => ret tt
   end) ;;;
  ret request.
End ApproveAndResume.

(** ** Specification *)

(** The conditions under which a decision is taken, one field per rule. *)
Section Permitted.
Context (svc : ApproveAndResumeService) (authorization : ScopeAuthorizationService)
  (context : AccessContext).

(** The run a decision resumes: waiting, in the decider's workspace, and of a
    graph this process hosts. *)
Definition resumable (runs : gmap uuid WorkerRunRow) (request : ApprovalRequest)
    (record : option RunRecord) : Prop :=
  match ar_run_id request with
  | None => record = None
  | Some run_id => ∃ row,
      runs !! run_id = Some row ∧ record = Some (wr_record row) ∧
      wr_tenant_id row = tenant_id context ∧
      rr_workspace_id (wr_record row) = workspace_id context ∧
      rr_status (wr_record row) = RUN_WAITING_APPROVAL ∧
      hosts (runner svc) (rr_worker_id (wr_record row)) (rr_worker_version (wr_record row))
        (rr_graph_version (wr_record row)) = true
  end.

Record permitted (approve : bool) (comment : pystr) (runs : gmap uuid WorkerRunRow)
    (request : ApprovalRequest) (record : option RunRecord) : Prop := {
  p_right : approve = true ∨ ar_requested_by request ≠ principal_id context →
            is_allowed authorization context APPROVALS_DECIDE = true ∧
            holds_stamped_scope context (ar_required_scope request) = true;
  p_strict : is_strict svc (ar_approval_type request) = true →
             ar_requested_by request ≠ principal_id context ∧ is_blank comment = false;
  p_guard : ∀ guard, decision_guards svc !! ar_approval_type request = Some guard →
            guard request context = Ok tt;
  p_run : resumable runs request record }.

(** The row the caller may look at. *)
Definition seen (approvals : gmap uuid ApprovalRequest) (approval_id : uuid)
    (request : ApprovalRequest) : Prop :=
  approvals !! approval_id = Some request ∧ ar_tenant_id request = tenant_id context ∧
  ar_workspace_id request = workspace_id context ∧
  may_see (audience_of context authorization) request = true.
End Permitted.

(** ** Lemmas *)

Lemma approvals_get_run tenant id ws aud w :
  approvals_get tenant id ws aud w =
    (Ok (r ← t_approvals (db w) !! id;
         if bool_decide (ar_tenant_id r = tenant) && (bool_decide (ar_workspace_id r = ws)
            && visible_to aud r) then Some r else None), w).
Proof. reflexivity. Qed.

(** What one decision leaves in the database. *)
Definition decided_db (row request : ApprovalRequest) (decision : ApprovalDecision)
    (event : option OutboxEvent) (audit : AuditEvent) (d : Db) : Db :=
  MkDb (<[ar_id request := save_columns row request]> (t_approvals d))
    (<[ad_id decision := decision]> (t_decisions d))
    (<[(ae_id audit, ae_occurred_at audit) := audit]> (t_audit d))
    (match event with Some e => <[oe_id e := e]> (t_outbox d) | None => t_outbox d end)
    (t_receipts d) (t_codes d) (t_runs d) (t_executions d) (t_notices d) (t_org d) (t_mem d)
    (t_chan d) (t_ops d).

Section Checks.
Context (svc : ApproveAndResumeService) (authorization : ScopeAuthorizationService)
  (context : AccessContext) (approve : bool) (comment : pystr) (request : ApprovalRequest).

Lemma authorize_ok w u w' :
  authorize authorization context approve request w = (Ok u, w') ↔
    w' = w ∧ (approve = true ∨ ar_requested_by request ≠ principal_id context →
              is_allowed authorization context APPROVALS_DECIDE = true ∧
              holds_stamped_scope context (ar_required_scope request) = true).
Proof.
  destruct u. unfold authorize, require, bind, lift_res, reraise, ret.
  destruct approve; simpl; [|case_bool_decide as Hreq; simpl].
  - destruct (is_allowed _ _ _); simpl; [|naive_solver].
    destruct (holds_stamped_scope _ _); naive_solver.
  - naive_solver.
  - destruct (is_allowed _ _ _); simpl; [|naive_solver].
    destruct (holds_stamped_scope _ _); naive_solver.
Qed.

Lemma strict_ok w u w' :
  (when is_strict svc (ar_approval_type request)
   then _enforce_strict_rules request comment context)%prog w = (Ok u, w') ↔
    w' = w ∧ (is_strict svc (ar_approval_type request) = true →
              ar_requested_by request ≠ principal_id context ∧ is_blank comment = false).
Proof.
  destruct u. unfold _enforce_strict_rules, bind, raise, ret. rewrite py_truthy_strip, negb_involutive.
  destruct (is_strict _ _); [|naive_solver].
  case_bool_decide; simpl; [naive_solver|]. destruct (is_blank comment); naive_solver.
Qed.

Lemma resumable_run_ok w record w' :
  _resumable_run svc context request w = (Ok record, w') ↔
    w' = w ∧ resumable svc context (t_runs (saved w)) request record.
Proof.
  unfold _resumable_run, resumable. destruct (ar_run_id request) as [run_id|];
    [|unfold ret; split; [by intros [= <- <-]|by intros [-> ->]]].
  unfold bind at 1. rewrite get_run. simpl.
  destruct (t_runs (saved w) !! run_id) as [row|];
    [|split; [done|intros (_ & ? & ? & _); congruence]].
  destruct (bool_decide (wr_tenant_id row = _)) eqn:Ht; simpl; to_prop;
    [|split; [done|intros (_ & ? & ? & _ & ? & _); congruence]].
  destruct (bool_decide (rr_workspace_id _ = _)) eqn:Hw; simpl; to_prop;
    [|split; [done|intros (_ & ? & ? & _ & _ & ? & _); congruence]].
  unfold bind, raise, ret. case_bool_decide; simpl;
    [|split; [done|intros (_ & ? & ? & _ & _ & _ & ? & _); congruence]].
  destruct (hosts _ _ _ _) eqn:?; simpl;
    [|split; [done|intros (_ & ? & ? & _ & _ & _ & _ & ?); congruence]].
  split; [intros [= <- <-]; eauto 10|intros (-> & ? & [= <-] & -> & _)]. done.
Qed.

Lemma checks_ok w record w' :
  checks svc authorization context approve comment request w = (Ok record, w') ↔
    w' = w ∧
    permitted svc authorization context approve comment (t_runs (saved w)) request record.
Proof.
  unfold checks. rewrite bind_ok. setoid_rewrite bind_ok. setoid_rewrite bind_ok.
  setoid_rewrite authorize_ok. setoid_rewrite strict_ok. setoid_rewrite resumable_run_ok.
  split.
  - intros (_ & ? & [-> Ha] & _ & ? & [-> Hs] & u & s1 & Hg & -> & Hr).
    assert (s1 = w ∧ ∀ guard, decision_guards svc !! ar_approval_type request = Some guard →
              guard request context = Ok tt) as [-> Hg'].
    { destruct (decision_guards svc !! _) as [guard|]; unfold lift_res, ret in Hg;
        [|naive_solver]. destruct u. injection Hg as Hg <-. naive_solver. }
    split; [done|]. by split.
  - intros [-> [Ha Hs Hg Hr]]. exists tt, w. split; [done|]. exists tt, w. split; [done|].
    exists tt, w. split; [|done]. destruct (decision_guards svc !! _) as [guard|] eqn:E; [|done].
    unfold lift_res. by rewrite (Hg guard).
Qed.

(** The checks write nothing, whatever they answer. *)
Lemma checks_readonly : respects eq (checks svc authorization context approve comment request).
Proof.
  assert (∀ rc id, respects eq (RunStore.get rc id)) by (intros ?? w; by rewrite get_run).
  unfold checks, authorize, _enforce_strict_rules, _resumable_run. respects_auto.
Qed.
End Checks.

Lemma decided_event_valid request decision id :
  make_outbox_event (event_of request decision id) = Ok (event_of request decision id).
Proof.
  unfold make_outbox_event, outbox_event_valid, event_of, decided_event_type, py_app. simpl.
  by rewrite existsb_app, orb_true_r.
Qed.

Lemma audit_for_valid admitted request decision id :
  make_audit_event (audit_for admitted request decision id) =
    Ok (audit_for admitted request decision id).
Proof. by destruct admitted. Qed.

Lemma audit_for_key admitted request decision id :
  ae_id (audit_for admitted request decision id) = id ∧
  ae_occurred_at (audit_for admitted request decision id) = ad_decided_at decision.
Proof. by destruct admitted. Qed.

(** The ids and the reading a decision consumes: the decision's, the event's
    when the request has no run, and the audit event's. *)
Definition decision_id_of (w : World) : uuid := ids w (ids_issued w).
Definition event_id_of (w : World) : uuid := ids w (1 + ids_issued w).
Definition audit_id_of (request : ApprovalRequest) (w : World) : uuid :=
  ids w ((if bool_decide (ar_run_id request = None) then 2 else 1) + ids_issued w).


Lemma add_decision_ok t d w u w' :
  approvals_add_decision t d w = (Ok u, w') ↔
    decision_channel_ok (ad_channel d) = true ∧ ad_tenant_id d = t ∧ t_decisions (db w) !! ad_id d = None ∧
    w' = set_db (set_tbl (<[ad_id d := d]> (t_decisions (db w))) (db w)) w.
Proof.
  unfold approvals_add_decision, raise. destruct (decision_channel_ok _); [|naive_solver].
  rewrite sql_insert_ok. simpl.
  split; [naive_solver|]. intros (? & ? & ? & ?). split_and!; [done..|by apply unique_ok_none|done].
Qed.

Lemma announce_decision_ok t request decision w u w' :
  announce_decision t request decision w = (Ok u, w') ↔
    if bool_decide (ar_run_id request = None)
    then ar_tenant_id request = t ∧ t_outbox (db w) !! ids w (ids_issued w) = None ∧
         w' = set_db (set_tbl (<[ids w (ids_issued w) :=
                event_of request decision (ids w (ids_issued w))]> (t_outbox (db w))) (db w))
                (use_ids 1 0 w)
    else w' = w.
Proof.
  destruct u. unfold announce_decision.
  destruct (bool_decide (ar_run_id request = None)).
  2: { unfold ret. split; [by intros [= <-]|by intros ->]. }
  unfold _decided_event, outbox_add, bind, new_uuid, lift_res. cbn beta iota zeta.
  rewrite decided_event_valid, sql_insert_run by done.
  cbn [row_tenant row_key tbl outbox_table event_of oe_tenant_id oe_id db].
  change (MkWorld _ _ _ _ _ _ _ _) with (use_ids 1 0 w).
  case_bool_decide; [|split; [done|by intros []]].
  destruct (t_outbox (db w) !! ids w (ids_issued w)); [split; [done|by intros (? & ? & ?)]|].
  split; [intros [= <-]|intros (_ & _ & ->)]; done.
Qed.

Lemma append_audit_ok t admitted request decision w u w' :
  append_audit t admitted request decision w = (Ok u, w') ↔
    let a := audit_for admitted request decision (ids w (ids_issued w)) in
    ar_tenant_id request = t ∧ t_audit (db w) !! (ids w (ids_issued w), ad_decided_at decision) = None ∧
    w' = set_db (set_tbl (<[(ids w (ids_issued w), ad_decided_at decision) := a]> (t_audit (db w)))
                   (db w)) (use_ids 1 0 w).
Proof.
  destruct u. unfold append_audit, audit_append, bind, new_uuid, lift_res. cbn beta iota zeta.
  rewrite audit_for_valid, sql_insert_run by done.
  change (MkWorld _ _ _ _ _ _ _ _) with (use_ids 1 0 w).
  set (a := audit_for _ _ _ _).
  assert (row_tenant a = ar_tenant_id request) as -> by (by destruct admitted).
  assert (row_key a = (ids w (ids_issued w), ad_decided_at decision)) as -> by (by destruct admitted).
  cbn [tbl audit_table db use_ids].
  case_bool_decide; [|split; [done|by intros []]].
  destruct (t_audit (db w) !! _); [split; [done|by intros (? & ? & ?)]|].
  split; [intros [= <-]|intros (_ & _ & ->)]; done.
Qed.

(** [write_rows], when it succeeds and exactly then. *)
Lemma write_rows_ok context approve comment channel admitted request w request' w' :
  keyed (t_approvals (db w)) →
  write_rows context approve comment channel admitted request w = (Ok request', w') ↔
  ∃ decision row,
    request_decide (decision_id_of w) (principal_id context)
      (if approve then OUTCOME_APPROVED else OUTCOME_REJECTED) (utc w (utc_reads w)) comment channel
      request = Ok (request', decision) ∧
    t_approvals (db w) !! ar_id request = Some row ∧
    ar_tenant_id row = tenant_id context ∧ ar_tenant_id request = tenant_id context ∧
    ar_version row = ar_version request ∧
    let event := if bool_decide (ar_run_id request = None)
                 then Some (event_of request' decision (event_id_of w)) else None in
    let audit := audit_for admitted request' decision (audit_id_of request w) in
    decision_channel_ok channel = true ∧
    t_decisions (db w) !! decision_id_of w = None ∧
    (∀ e, event = Some e → t_outbox (db w) !! event_id_of w = None) ∧
    t_audit (db w) !! (audit_id_of request w, utc w (utc_reads w)) = None ∧
    w' = set_db (decided_db row request' decision event audit (db w))
           (use_ids (if bool_decide (ar_run_id request = None) then 3 else 2) 1 w).
Proof.
  intros Hkey. unfold write_rows, bind at 1 2, new_uuid, now_utc. cbn beta iota zeta.
  cbn [db saved db_now utc utc_reads ids ids_issued].
  unfold decision_id_of, event_id_of, audit_id_of. unfold bind at 1, lift_res at 1.
  destruct (request_decide _ _ _ _ _ _ request) as [[request1 decision]|e] eqn:Hd;
    [|split; [done|intros (? & ? & ? & _); congruence]].
  pose proof (request_decide_ok _ _ _ _ _ _ _ _ _ Hd) as (_ & _ & Hv & Hid & _ & _ & _).
  match goal with Hd' : request_decide _ _ _ _ _ _ _ = Ok (_, ?d) |- _ =>
    assert (ad_tenant_id d = ar_tenant_id request ∧ ad_id d = ids w (ids_issued w) ∧
            ar_run_id request1 = ar_run_id request ∧ ar_tenant_id request1 = ar_tenant_id request ∧
            ad_decided_at d = utc w (utc_reads w) ∧ ad_channel d = channel)
      as (Hdt & Hdid & Hrun & Ht1 & Hat & Hch)
      by (unfold request_decide in Hd'; destruct (require_pending request); by simplify_eq) end.
  unfold bind at 1. rewrite approvals_save_run by done. cbn [fst snd].
  rewrite Hid, Hv. replace (ar_version request + 1 - 1)%Z with (ar_version request) by lia.
  cbn [db].
  destruct (t_approvals (db w) !! ar_id request) as [row|] eqn:Hrow;
    [|split; [done|intros (? & ? & _ & ? & _); congruence]].
  match goal with |- context [if ?b then _ else _] => destruct b eqn:Hb end.
  2: { split; [done|]. intros (? & ? & _ & ? & ? & _ & ? & _). simplify_eq.
       apply andb_false_iff in Hb as [?|?]; to_prop; congruence. }
  to_prop. clear Hd Hkey Hv.
  destruct w as [d sv now u ur is_ ii ef]. unfold use_ids in *. simpl in *.
  split.
  - intros ([] & w1 & H1 & ([] & w2 & H2 & ([] & w3 & H3 & H4)%bind_ok)%bind_ok)%bind_ok.
    apply add_decision_ok in H1 as (Hcok & Hdn & Hdf & ->).
    apply announce_decision_ok in H2. apply append_audit_ok in H3 as (Htn & Haf & ->).
    unfold ret in H4. injection H4 as <- <-.
    rewrite Hch in Hcok. exists decision, row. rewrite Hrun, Ht1, Hat, Hdid, Hdt in *.
    destruct (bool_decide (ar_run_id request = None)); [destruct H2 as (_ & Hof & ->)|subst w2];
      unfold use_ids, decided_db, set_db in *; simpl in *;
      (split_and!; [try done..|]);
      match goal with |- context [audit_for _ _ _ ?id] =>
        destruct (audit_for_key admitted request1 decision id) as [-> ->] end;
      by rewrite Hid, Hdid, Hat.
  - intros (decision' & row' & [= <- <-] & [= <-] & _ & Htn & _ & Hcok & Hdf & Hof & Haf & ->).
    pose proof (announce_decision_ok (tenant_id context) request1 decision) as Ha.
    rewrite Hrun, Ht1 in Ha. destruct (bool_decide (ar_run_id request = None));
      rewrite bind_ok; eexists tt, _; (split; [apply add_decision_ok; by rewrite Hdt, Hdid, Hch|]);
      rewrite bind_ok; eexists tt, _;
      (split; [apply Ha; try (split_and!; [done|by eapply Hof|]); reflexivity|]);
      rewrite bind_ok; eexists tt, _;
      (split; [apply append_audit_ok; rewrite Ht1, Hat; split_and!; [done|exact Haf|reflexivity]|]);
      unfold ret, decided_db, set_db, use_ids; simpl;
      match goal with |- context [audit_for _ _ _ ?id] =>
        destruct (audit_for_key admitted request1 decision id) as [-> ->] end;
      by rewrite Hid, Hdid, Hat.
Qed.

(** An admission writes to the table of codes and to nothing else: no other
    table, no commit, no clock, no id. *)
Definition admission_ok (admission : option DecisionAdmission) : Prop :=
  ∀ adm r c w, admission = Some adm →
    ∃ codes, (adm r c w).2 = set_db (set_tbl (R := DecisionCodeRow) codes (db w)) w.

(** What an admission answers inside the unit of work. *)
Definition admits (admission : option DecisionAdmission) (request : ApprovalRequest)
    (context : AccessContext) (w : World) (admitted : option (gmap pystr json)) (w1 : World)
    : Prop :=
  match admission with
  | None => admitted = None ∧ w1 = w
  | Some adm => ∃ m, adm request context w = (Ok m, w1) ∧ admitted = Some m
  end.

Lemma approvals_seen context authorization id w request :
  approvals_get (tenant_id context) id (workspace_id context) (audience_of context authorization) w
    = (Ok (Some request), w) ↔ seen authorization context (t_approvals (db w)) id request.
Proof.
  rewrite approvals_get_run. unfold seen. destruct (t_approvals (db w) !! id) as [r|]; simpl.
  - rewrite visible_to_may_see. destruct (_ && _) eqn:E; split.
    + intros [= <-]. to_prop. done.
    + intros ([= <-] & _). done.
    + done.
    + intros ([= <-] & Ht & Hw & Hm). rewrite Ht, Hw, Hm in E.
      by rewrite !bool_decide_eq_true_2 in E.
  - split; [done|by intros []].
Qed.

Section DecideInUow.
Context (svc : ApproveAndResumeService) (authorization : ScopeAuthorizationService)
  (context : AccessContext) (approval_id : uuid) (approve : bool) (comment channel : pystr)
  (admission : option DecisionAdmission).

Let run := decide_in_uow svc authorization context approval_id approve comment channel admission.

Lemma decide_in_uow_ok w request' record w' :
  run w = (Ok (request', record), w') ↔
  ∃ request admitted w1 w2,
    seen authorization context (t_approvals (db w)) approval_id request ∧
    permitted svc authorization context approve comment (t_runs (saved w)) request record ∧
    admits admission request context w admitted w1 ∧
    write_rows context approve comment channel admitted request w1 = (Ok request', w2) ∧
    w' = set_db (db w2) (set_saved (db w2) w2).
Proof.
  unfold run, decide_in_uow. rewrite unit_of_work_ok. split.
  - intros (s & (found & s1 & Hg & H)%bind_ok & ->). assert (s1 = w) as -> by (by injection Hg).
    destruct found as [request|]; [|done]. apply approvals_seen in Hg.
    apply bind_ok in H as (rec & s2 & [-> Hp]%checks_ok & H).
    apply bind_ok in H as (admitted & w1 & Ha & H). apply bind_ok in H as (r & w2 & Hw & H).
    unfold uow_commit, bind, modify, ret in H. injection H as <- <- <-.
    exists request, admitted, w1, w2. split_and!; [done|done| |done|done].
    destruct admission as [adm|]; simpl in *.
    + apply bind_ok in Ha as (ad & s3 & Hm & Hr). unfold ret in Hr. injection Hr as <- <-. eauto.
    + unfold ret in Ha. by injection Ha as <- <-.
  - intros (request & admitted & w1 & w2 & Hs & Hp & Ha & Hw & ->).
    exists (set_saved (db w2) w2). split; [|done]. apply approvals_seen in Hs.
    apply bind_ok. eexists _, _. split; [exact Hs|].
    apply bind_ok. eexists _, _. split; [by apply checks_ok|].
    apply bind_ok. exists admitted, w1. split.
    { destruct admission as [adm|]; simpl in *; [|by destruct Ha as [-> ->]].
      destruct Ha as (m & Hm & ->). apply bind_ok. eauto. }
    apply bind_ok. exists request', w2. by split.
Qed.

(** Whatever is refused leaves the database as it was. *)
Lemma decide_in_uow_raise w e w' :
  clean w → admission_ok admission → run w = (Raise e, w') →
  db w' = db w ∧ saved w' = saved w.
Proof.
  intros Hc Ha. apply unit_of_work_raise; [done|]. clear e w'. intros e w' Hrun.
  assert (∀ r, respects same_saved (match admission with
    | None => ret None
    | Some adm => let! m := adm r context in ret (Some m)
    end)%prog) as Hadm.
  { intros r s. destruct admission as [adm|]; [|done]. unfold bind.
    destruct (Ha adm r context s eq_refl) as [codes E].
    destruct (adm r context s) as [[m|e'] s']; simpl in *; by rewrite E. }
  assert (∀ ad r, respects same_saved (write_rows context approve comment channel ad r)) as Hw.
  { intros ad r. unfold write_rows, announce_decision, append_audit, _decided_event,
      approvals_add_decision, outbox_add, audit_append. respects_auto. }
  apply bind_raise in Hrun as [?|(found & s1 & Hg & Hrun)]; [done|].
  assert (s1 = w) as -> by (by injection Hg).
  destruct found as [r|]; [|by injection Hrun as _ <-].
  apply bind_raise in Hrun as [Hk|(rec & s2 & Hk & Hrun)];
    pose proof (checks_readonly svc authorization context approve comment r w) as Hro;
    rewrite Hk in Hro; simpl in Hro; subst; [done|].
  apply bind_raise in Hrun as [Hk'|(ad & s3 & Hk' & Hrun)];
    pose proof (Hadm r s2) as Hs; rewrite Hk' in Hs; [done|].
  apply bind_raise in Hrun as [Hk''|(r' & s4 & Hk'' & Hrun)];
    pose proof (Hw ad r s3) as Hs'; rewrite Hk'' in Hs'; unfold same_saved in *; simpl in *;
    [congruence|done].
Qed.
End DecideInUow.

Lemma save_columns_decided id by_ o at_ cm ch r r' d :
  request_decide id by_ o at_ cm ch r = Ok (r', d) → save_columns r r' = r'.
Proof. unfold request_decide. destruct (require_pending r); [|done]. by intros [= <- _]. Qed.



Lemma request_decide_run id by_ o at_ cm ch r r' d :
  request_decide id by_ o at_ cm ch r = Ok (r', d) →
  ar_run_id r' = ar_run_id r ∧ ad_id d = id ∧ ad_tenant_id d = ar_tenant_id r ∧
  ar_status r' = match o with OUTCOME_APPROVED => APPROVED | _ => REJECTED end.
Proof. unfold request_decide. destruct (require_pending r); [|done]. by intros [= <- <-]. Qed.

(** Writing a decision does not change which run the request belongs to. *)
Lemma write_rows_run context approve comment channel ad r w r' w' :
  write_rows context approve comment channel ad r w = (Ok r', w') → ar_run_id r' = ar_run_id r.
Proof.
  intros Hw. unfold write_rows in Hw. apply bind_ok in Hw as (id & s1 & _ & Hw).
  apply bind_ok in Hw as (at_ & s2 & _ & Hw). apply bind_ok in Hw as ([r1 d] & s3 & Hd & Hw).
  unfold lift_res in Hd. injection Hd as Hd _. apply request_decide_run in Hd as (Hrun & _).
  repeat (apply bind_ok in Hw as ([] & ? & _ & Hw)). unfold ret in Hw. by injection Hw as <- _.
Qed.

Lemma write_rows_status context approve comment channel ad r w r' w' :
  write_rows context approve comment channel ad r w = (Ok r', w') →
  ar_status r' = if approve then APPROVED else REJECTED.
Proof.
  intros Hw. unfold write_rows in Hw. apply bind_ok in Hw as (id & s1 & _ & Hw).
  apply bind_ok in Hw as (at_ & s2 & _ & Hw). apply bind_ok in Hw as ([r1 d] & s3 & Hd & Hw).
  unfold lift_res in Hd. injection Hd as Hd _. apply request_decide_run in Hd as (_ & _ & _ & Hs).
  repeat (apply bind_ok in Hw as ([] & ? & _ & Hw)). unfold ret in Hw. injection Hw as <- _.
  simpl. rewrite Hs. by destruct approve.
Qed.

(** ** Properties *)

Section Properties.
Context (svc : ApproveAndResumeService) (authorization : ScopeAuthorizationService)
  (context : AccessContext) (approval_id : uuid) (approve : bool) (comment channel : pystr).



(** A refused decision leaves the database as it was; the run is resumed only after the
    decision is committed, so a failing resume leaves a persisted decision and nothing
    else is resumed. *)
Theorem decide_persists_then_resumes approved_action_ids admission w :
  clean w → admission_ok admission →
  match decide svc authorization context approval_id approve comment approved_action_ids channel
          admission w with
  | (Ok request, w') =>
      ∃ record w1,
        decide_in_uow svc authorization context approval_id approve comment channel admission w
          = (Ok (request, record), w1) ∧ clean w1 ∧
        match record, ar_run_id request with
        | Some record, Some run_id =>
            resume (runner svc) (resume_context context channel run_id record) run_id
              (resume_payload context approve comment approved_action_ids) w1 = (Ok tt, w')
        | None, None => w' = w1
        | _, _ => False
        end
  | (Raise e, w') =>
      (db w' = db w ∧ saved w' = saved w) ∨
      ∃ request record run_id w1,
        decide_in_uow svc authorization context approval_id approve comment channel admission w
          = (Ok (request, Some record), w1) ∧ clean w1 ∧
        resume (runner svc) (resume_context context channel run_id record) run_id
          (resume_payload context approve comment approved_action_ids) w1 = (Raise e, w')
  end.
Proof.
  intros Hc Ha. unfold decide, bind at 1.
  destruct (decide_in_uow _ _ _ _ _ _ _ _ w) as [[[request record]|e] w1] eqn:E.
  2: { left. by eapply decide_in_uow_raise. }
  assert (clean w1 ∧ (is_Some record ↔ is_Some (ar_run_id request))) as [Hc1 Hrun].
  { apply decide_in_uow_ok in E as (r & ad & w2 & w3 & _ & [_ _ _ Hp] & _ & Hw & ->). split; [done|].
    apply write_rows_run in Hw. rewrite Hw. unfold resumable in Hp.
    destruct (ar_run_id r); [destruct Hp as (? & _ & -> & _); by split; eauto|by rewrite Hp]. }
  cbn [fst snd]. destruct record as [record|], (ar_run_id request) as [run_id|] eqn:Erun;
    try (exfalso; destruct Hrun as [H1 H2]; (by destruct H1) || (by destruct H2)); unfold bind.
  - destruct (resume _ _ _ _ w1) as [[[]|e] w'] eqn:Er; unfold ret.
    + exists (Some record), w1. by rewrite Erun.
    + right. by exists request, record, run_id, w1.
  - exists None, w1. by rewrite Erun.
Qed.

(** C10: a decision is only ever taken inside the caller's tenant and workspace; approving
    needs the decide right and the stamped scope itself; a strict type is never decided
    by its requester nor without a comment; the resumed run was waiting in the decider's
    workspace. *)
Theorem decide_authority admission w request' record w' :
  decide_in_uow svc authorization context approval_id approve comment channel admission w
    = (Ok (request', record), w') →
  ∃ request,
    t_approvals (db w) !! approval_id = Some request ∧
    ar_tenant_id request = tenant_id context ∧ ar_workspace_id request = workspace_id context ∧
    (approve = true →
       is_allowed authorization context APPROVALS_DECIDE = true ∧
       ∀ scope, ar_required_scope request = Some scope → scope ∈ scopes context) ∧
    (ar_requested_by request = principal_id context →
       is_strict svc (ar_approval_type request) = false) ∧
    (is_strict svc (ar_approval_type request) = true → py_strip comment ≠ ""%py) ∧
    (∀ rec, record = Some rec →
       rr_status rec = RUN_WAITING_APPROVAL ∧ rr_workspace_id rec = workspace_id context).
Proof.
  intros (request & ad & w1 & w2 & (Hl & Ht & Hws & _) & [Hr Hs _ Hrun] & _)%decide_in_uow_ok.
  exists request. split_and!; [done..| | | |].
  - intros Happ. destruct (Hr (or_introl Happ)) as [Hal Hst]. split; [done|].
    intros scope Hsc. unfold holds_stamped_scope, has_scope in Hst. rewrite Hsc in Hst. by to_prop.
  - intros Hreq. destruct (is_strict _ _) eqn:E; [|done]. by destruct (Hs eq_refl).
  - intros E Hblank. destruct (Hs E) as [_ Hb]. apply py_strip_blank in Hblank. congruence.
  - intros rec ->. unfold resumable in Hrun. destruct (ar_run_id request); [|done].
    by destruct Hrun as (row & _ & [= ->] & _ & ? & ? & _).
Qed.
End Properties.

(** A decision on a copy of the request older than the row writes nothing. *)
Lemma write_rows_stale context approve comment channel admitted request row w :
  keyed (t_approvals (db w)) → t_approvals (db w) !! ar_id request = Some row →
  ar_version row ≠ ar_version request → ar_status request = PENDING →
  write_rows context approve comment channel admitted request w =
    (Raise (Exn ConflictError "approval request was modified concurrently"), use_ids 1 1 w).
Proof.
  intros Hk Hl Hv Hp.
  destruct (request_decide_total (ids w (ids_issued w)) (principal_id context)
    (if approve then OUTCOME_APPROVED else OUTCOME_REJECTED) (utc w (utc_reads w)) comment channel
    request Hp) as (r & d & Hd & _).
  pose proof (request_decide_ok _ _ _ _ _ _ _ _ _ Hd) as (_ & _ & Hv' & Hid & _).
  unfold write_rows, bind at 1 2 3, new_uuid, now_utc, lift_res.
  cbn [db saved db_now utc utc_reads ids ids_issued]. rewrite Hd. cbn [fst snd].
  unfold bind. by rewrite (approvals_save_stale _ r row) by (simpl; rewrite ?Hid; done || lia).
Qed.

(** Of two deciders that read the same pending request before either wrote, the second to
    write is refused as a concurrent modification and leaves no row. *)
Theorem concurrent_deciders c1 c2 a1 a2 m1 m2 ch1 ch2 ad1 ad2 request w r1 w1 :
  keyed (t_approvals (db w)) →
  write_rows c1 a1 m1 ch1 ad1 request w = (Ok r1, w1) →
  write_rows c2 a2 m2 ch2 ad2 request w1 =
    (Raise (Exn ConflictError "approval request was modified concurrently"), use_ids 1 1 w1).
Proof.
  intros Hk Hw. apply write_rows_ok in Hw as (d & row & Hd & Hrow & _ & _ & Hv & _ & _ & _ & _ & ->); [|done].
  pose proof (request_decide_ok _ _ _ _ _ _ _ _ _ Hd) as (Hpend & _ & Hv' & Hid & _).
  apply (write_rows_stale _ _ _ _ _ _ (save_columns row r1)); simpl; [|by rewrite Hid, lookup_insert_eq|lia|done].
  intros k r. rewrite lookup_insert_Some. intros [[<- <-]|[_ ?]]; [|by apply Hk].
  simpl. rewrite Hid. by apply (Hk _ _ Hrow).
Qed.

(** A run resumed by anyone's decision runs with the identity, scopes, clearance, visibility
    and autonomy it was started with, and asks for approval for exactly the same tools. *)
Theorem resume_authority stale rc worker input manifest w w1 approval w2 w3
    svc authorization context id approve comment channel admission request record w4 :
  run_inv w →
  create stale rc worker input manifest w = (Ok tt, w1) →
  set_status rc (rc_run_id rc) RUN_WAITING_APPROVAL None None approval w1 = (Ok tt, w2) →
  t_runs (saved w3) !! rc_run_id rc = t_runs (saved w2) !! rc_run_id rc →
  decide_in_uow svc authorization context id approve comment channel admission w3
    = (Ok (request, Some record), w4) →
  ar_run_id request = Some (rc_run_id rc) →
  let rc' := resume_context context channel (rc_run_id rc) record in
  rc_tenant_id rc' = rc_tenant_id rc ∧ rc_workspace_id rc' = rc_workspace_id rc ∧
  rc_actor_id rc' = rc_actor_id rc ∧ rc_thread_id rc' = Some (thread_of rc) ∧
  rc_worker_id rc' = rc_worker_id rc ∧ rc_worker_version rc' = rc_worker_version rc ∧
  rc_plan_id rc' = rc_plan_id rc ∧ rc_roles rc' = rc_roles rc ∧ rc_scopes rc' = rc_scopes rc ∧
  rc_clearance rc' = rc_clearance rc ∧ rc_record_visibility rc' = rc_record_visibility rc ∧
  rc_visible_owners rc' = rc_visible_owners rc ∧
  (∀ version t, policy_decide version t rc' = policy_decide version t rc) ∧
  hosts (runner svc) (rc_worker_id rc) (rc_worker_version rc) (wd_graph_version worker) = true.
Proof.
  intros Hi Hcr Hst Hsame Hdec Hrun.
  pose proof (run_inv_create stale rc worker input manifest w Hi) as Hi1. rewrite Hcr in Hi1.
  destruct (create_new_row stale rc worker input manifest w w1 Hi Hcr) as (now & Hl).
  rewrite set_status_run in Hst by apply Hi1. cbv zeta in Hst.
  destruct (unique_ok (set_status_rows _ _ _ _ _ _ _)); [|done]. injection Hst as <-.
  unfold set_status_rows in Hsame. simpl in Hsame. rewrite lookup_update_rows, Hl in Hsame.
  unfold visible in Hsame. simpl in Hsame. rewrite !bool_decide_eq_true_2 in Hsame by done.
  apply decide_in_uow_ok in Hdec as (r & ad & w5 & w6 & _ & [_ _ _ Hres] & _ & Hw & _).
  apply write_rows_run in Hw. unfold resumable in Hres. rewrite <- Hw, Hrun in Hres.
  destruct Hres as (row & Hrow & [= ->] & Ht & Hws & _ & Hh).
  rewrite Hsame in Hrow. injection Hrow as <-. simpl in *. by split_and!.
Qed.

(** ** A concrete instance: a run parked on an approval *)

Definition example_decider : AccessContext :=
  {| tenant_id := 1; workspace_id := 2; principal_id := 4; roles := {[ "manager" ]}; groups := ∅;
     scopes := {[ APPROVALS_DECIDE; "notes.publish" ]}; clearance := "internal"; plan_id := "pro";
     feature_flags := ∅; record_visibility := "open"; visible_owners := None;
     max_autonomy_level := A4; support := None |}.

Definition example_request (run : option uuid) : ApprovalRequest :=
  {| ar_id := 50; ar_tenant_id := 1; ar_workspace_id := 2; ar_approval_type := "notes.publish";
     ar_requested_by := 3; ar_reason := "publish"; ar_payload := ∅; ar_run_id := run;
     ar_required_scope := Some "notes.publish"; ar_status := PENDING; ar_created_at := Some 0%Z;
     ar_decided_at := None; ar_version := 1 |}.

Definition example_service : ApproveAndResumeService :=
  {| runner := {| hosts _ _ graph := bool_decide (graph = "2.0.0"%py);
                  resume rc id p := RunStore.set_status rc id RUN_COMPLETED None None None |};
     strict_approval_prefixes := {[ "notes." ]}; decision_guards := ∅ |}.

(** The request 50, of the run 10 when there is one. *)
Definition example_pending (run : option uuid) : World :=
  example_world (set_tbl {[ 50%N := example_request run ]} empty_db) 1000.

Definition example_started : World :=
  (create 600 (example_run_context 10 7) example_worker ∅ None (example_pending (Some 10%N))).2.
Definition example_parked : World :=
  (set_status (example_run_context 10 7) 10 RUN_WAITING_APPROVAL None None (Some 50%N)
     example_started).2.

Definition example_decide (run : option uuid) (w : World) :=
  decide_in_uow example_service default_authorization example_decider 50 true "reviewed" "web" None w.

Lemma example_keyed run : keyed (t_approvals (db (example_pending run))).
Proof. intros k r. simpl. by intros [<- <-]%lookup_singleton_Some. Defined.


Lemma no_admission_ok : admission_ok None.
Proof. by intros ? ? ? ? ?. Defined.

Lemma decide_persists_then_resumes_witness :
  let w := example_parked in
  let r := decide example_service default_authorization example_decider 50 true "reviewed" None
             "web" None w in
  clean w ∧ ∃ request w', r = (Ok request, w') ∧ ar_status request = APPROVED ∧
  ∃ record w1, decide_in_uow example_service default_authorization example_decider 50 true
                 "reviewed" "web" None w = (Ok (request, record), w1).
Proof.
  intros w r. split; [reflexivity|].
  pose proof (decide_persists_then_resumes example_service default_authorization example_decider 50
    true "reviewed" "web" None None w eq_refl no_admission_ok) as H. fold r in H.
  assert (ar_status <$> (match r.1 with Ok a => Some a | Raise _ => None end) = Some APPROVED) as Hs
    by (vm_compute; reflexivity).
  destruct r as [[request|e] w']; [|discriminate Hs]. exists request, w'. split; [reflexivity|].
  split; [injection Hs as Hs; exact Hs|]. destruct H as (record & w1 & H & _). exists record, w1. exact H.
Defined.

Lemma decide_authority_witness :
  let w := example_parked in
  ∃ request' record w',
    example_decide (Some 10%N) w = (Ok (request', record), w') ∧
    ∃ request, t_approvals (db w) !! 50%N = Some request ∧
      (ar_requested_by request = 4%N → is_strict example_service (ar_approval_type request) = false).
Proof.
  intros w. assert (is_ok (example_decide (Some 10%N) w).1 = true) as Hok by (vm_compute; reflexivity).
  destruct (example_decide (Some 10%N) w) as [[[request' record]|e] w'] eqn:E; [|discriminate Hok].
  exists request', record, w'. split; [reflexivity|].
  destruct (decide_authority example_service default_authorization example_decider 50 true "reviewed"
    "web" None w request' record w' E) as (request & Hl & _ & _ & _ & Hs & _).
  exists request. split; [exact Hl|exact Hs].
Defined.

Lemma concurrent_deciders_witness :
  let w := example_pending None in
  let m c := write_rows c true "a" "web" None (example_request None) in
  ∃ r1 w1, m example_decider w = (Ok r1, w1) ∧
    (m example_decider w1).1 =
      Raise (Exn ConflictError "approval request was modified concurrently").
Proof.
  intros w m. assert (is_ok (m example_decider w).1 = true) as Hok by (vm_compute; reflexivity).
  destruct (m example_decider w) as [[r1|e] w1] eqn:E; [|discriminate Hok].
  exists r1, w1. split; [reflexivity|].
  unfold m. rewrite (concurrent_deciders example_decider example_decider true true "a" "a" "web" "web"
    None None (example_request None) w r1 w1 (example_keyed None) E). reflexivity.
Defined.

Lemma resume_authority_witness :
  let rc := example_run_context 10 7 in
  let w := example_parked in
  ∃ request record w', example_decide (Some 10%N) w = (Ok (request, Some record), w') ∧
    rc_scopes (resume_context example_decider "web" 10 record) = rc_scopes rc ∧
    (∀ version t, policy_decide version t (resume_context example_decider "web" 10 record)
                  = policy_decide version t rc).
Proof.
  intros rc w.
  assert (run_inv (example_pending (Some 10%N))) as Hi.
  { split; [reflexivity| |vm_compute; reflexivity]. intros k r. simpl. by rewrite lookup_empty. }
  assert (match example_decide (Some 10%N) w with
          | (Ok (r, Some rec), w') => ar_run_id r = Some 10%N
          | _ => False end) as Hrun by (vm_compute; reflexivity).
  destruct (example_decide (Some 10%N) w) as [[[request [record|]]|e] w'] eqn:E; try contradiction.
  exists request, record, w'. split; [reflexivity|].
  destruct (resume_authority 600 rc example_worker ∅ None (example_pending (Some 10%N)) example_started
    (Some 50%N) w w example_service default_authorization example_decider 50 true "reviewed" "web"
    None request record w' Hi) as (_ & _ & _ & _ & _ & _ & _ & _ & H1 & _ & _ & _ & H2 & _).
  - apply ok_unit. vm_compute. reflexivity.
  - apply ok_unit. vm_compute. reflexivity.
  - reflexivity.
  - exact E.
  - exact Hrun.
  - split; [exact H1|exact H2].
Defined.
