(* ===== verification/ApprovalCodes.v ===== *)
(** * Single-use decision codes

    [dw_platform/application/approval_codes.py] (the code's shape, its keyed
    hash, the subject-version registry), the SQL store and ledger of
    [persistence/approval_codes.py], and the services of
    [dw_agent_runtime/approval_codes.py]: the portal view that issues a code and
    the admission that spends one inside a decision's unit of work. *)

From S2P Require Import Prelude Errors Kernel Domain Contracts Store RunStore ApprovalFlow.
Local Open Scope prog_scope.
Local Open Scope pystr_scope.

(** ** [application/approval_codes.py] *)

(** [f"{n:06d}"] for [n] below a million. *)
Definition new_code (drawn : N) : pystr := PyStr (padded CODE_DIGITS drawn).

(** [DecisionCodeKey]: HMAC-SHA256 under the server key, over approval, user and
    digits. *)
Record DecisionCodeKey := { digest : uuid → uuid → pystr → list N }.

(** [matches]; [compare_digest] is equality. *)
Definition matches (key : DecisionCodeKey) (stored : list N) (approval_id user_id : uuid)
    (code : pystr) : bool :=
  bool_decide (stored = digest key approval_id user_id code).

(** [ApprovalSubjectVersionPort], as its answer under a context. *)
Abbreviation VersionPort := (AccessContext → ApprovalRequest → Prog (option pystr)).

(** [ApprovalSubjectVersions]: a dict from prefix to port, in insertion order. *)
Section Subjects.
Context {V : Type}.

Definition subjects_register (prefix : pystr) (port : V) : M (list (pystr * V)) unit :=
  let! by_prefix := get_state in
  (when is_blank prefix then raise ValueError "a subject version port needs a type prefix") ;;;
  (when existsb (λ pv, bool_decide (pv.1 = prefix)) by_prefix then
     raise ValueError "a subject version port is already registered") ;;;
  modify (λ l, l ++ [(prefix, port)]).

(** [max(found, key=len)]: the first of the longest. *)
Fixpoint longest (best : pystr * V) (l : list (pystr * V)) : pystr * V :=
  match l with
  | [] => best
  | pv :: r => longest (if py_len best.1 <? py_len pv.1 then pv else best) r
  end.

Definition for_type (by_prefix : list (pystr * V)) (approval_type : pystr) : option V :=
  match filter (λ pv : pystr * V, py_startswith approval_type pv.1 = true) by_prefix with
  | [] => None
  | pv :: r => Some (longest pv r).2
  end.
End Subjects.

(** ** [persistence/approval_codes.py] *)

Definition unexpired (now : datetime) (r : DecisionCodeRow) : bool := (now <? dc_expires_at r)%Z.

(** [_STATE], by the database's clock. *)
Definition code_state (now : datetime) (r : DecisionCodeRow) : CodeState :=
  match dc_used_at r, dc_revoked_reason r with
  | Some _, _ => CS_USED
  | None, Some RR_locked => CS_LOCKED
  | None, Some RR_reissued => CS_REISSUED
  | None, None => if (dc_expires_at r <=? now)%Z then CS_EXPIRED else CS_OPEN
  end.

(** The columns an update of a code may write. *)
Definition update_code (failed : Z) (used revoked : option datetime)
    (reason : option RevokedReason) (r : DecisionCodeRow) : DecisionCodeRow :=
  {| dc_id := dc_id r; dc_tenant_id := dc_tenant_id r; dc_workspace_id := dc_workspace_id r;
     dc_approval_id := dc_approval_id r; dc_user_id := dc_user_id r;
     dc_receipt_id := dc_receipt_id r; dc_code_hash := dc_code_hash r;
     dc_comment := dc_comment r; dc_failed_attempts := failed; dc_expires_at := dc_expires_at r;
     dc_used_at := used; dc_revoked_at := revoked; dc_revoked_reason := reason;
     dc_created_at := dc_created_at r |}.

Definition revoke_code (now : datetime) (r : DecisionCodeRow) : DecisionCodeRow :=
  update_code (dc_failed_attempts r) (dc_used_at r) (Some now) (Some RR_reissued) r.

Definition use_code (now : datetime) (r : DecisionCodeRow) : DecisionCodeRow :=
  update_code (dc_failed_attempts r) (Some now) (dc_revoked_at r) (dc_revoked_reason r) r.

(** The CASE expressions of [record_wrong_try]. *)
Definition count_wrong_try (now : datetime) (r : DecisionCodeRow) : DecisionCodeRow :=
  let reaches := (MAX_WRONG_TRIES <=? dc_failed_attempts r + 1)%Z in
  update_code (dc_failed_attempts r + 1) (dc_used_at r)
    (if reaches then Some now else None) (if reaches then Some RR_locked else None) r.

(** The row [_record_view] inserts for a new code. *)
Definition new_code_row (receipt : ViewReceipt) (code : NewDecisionCode) (now : datetime)
    : DecisionCodeRow :=
  {| dc_id := nc_id code; dc_tenant_id := vr_tenant_id receipt;
     dc_workspace_id := vr_workspace_id receipt; dc_approval_id := vr_approval_id receipt;
     dc_user_id := vr_user_id receipt; dc_receipt_id := vr_id receipt;
     dc_code_hash := nc_code_hash code; dc_comment := nc_comment code; dc_failed_attempts := 0;
     dc_expires_at := nc_expires_at code; dc_used_at := None; dc_revoked_at := None;
     dc_revoked_reason := None; dc_created_at := now |}.

Definition _record_view (context : AccessContext) (receipt : ViewReceipt)
    (code : option NewDecisionCode) : Prog unit :=
  session_begin (
    let! now := gets db_now in
    sql_insert (tenant_id context) receipt ;;;
    match code with
    | None => ret tt
    | Some code =>
        let! _ := sql_update (tenant_id context) (λ r,
          bool_decide (dc_tenant_id r = vr_tenant_id receipt)
          && bool_decide (dc_approval_id r = vr_approval_id receipt)
          && bool_decide (dc_user_id r = vr_user_id receipt) && code_open r)
          (revoke_code now) in
        sql_insert (tenant_id context) (new_code_row receipt code now)
    end).

Definition record_view (context : AccessContext) (receipt : ViewReceipt)
    (code : option NewDecisionCode) : Prog unit :=
  try_except (_record_view context receipt code) (λ exc,
    match exn_cls exc with
    | IntegrityError constraint =>
        if bool_decide (constraint = "uq_approval_decision_codes_open"%py)
        then raise ConflictError
               "another code was issued for this approval at the same moment; ask again"
        else reraise exc
    | _ => reraise exc
    end).

(** Reads through [approval_decision_codes_self_select]: the rows of the bound
    principal, whatever their tenant. *)
Definition own_rows (user_id : uuid) (p : DecisionCodeRow → bool)
    (t : gmap uuid DecisionCodeRow) : list DecisionCodeRow :=
  filter (λ r, bool_decide (dc_user_id r = user_id) && p r = true) (map_to_list t).*2.

Definition own_codes (user_id : uuid) (p : DecisionCodeRow → bool) : Prog (list DecisionCodeRow) :=
  gets (λ w, own_rows user_id p (t_codes (db w))).

Definition open_codes (user_id : uuid) : Prog (list OpenCode) :=
  session_begin (
    let! now := gets db_now in
    let! rows := own_codes user_id (λ r, code_open r && unexpired now r) in
    ret ((λ r, {| oc_approval_id := dc_approval_id r; oc_code_hash := dc_code_hash r |}) <$> rows)).

(** [ORDER BY created_at DESC, id] *)
Fixpoint insert_newest (r : DecisionCodeRow) (l : list DecisionCodeRow) : list DecisionCodeRow :=
  match l with
  | [] => [r]
  | s :: l' =>
      if (dc_created_at s <? dc_created_at r)%Z
         || ((dc_created_at s =? dc_created_at r)%Z && (dc_id r <=? dc_id s)%N)
      then r :: l else s :: insert_newest r l'
  end.

Definition stored_code (now : datetime) (r : DecisionCodeRow) : StoredCode :=
  {| sc_id := dc_id r; sc_tenant_id := dc_tenant_id r; sc_workspace_id := dc_workspace_id r;
     sc_approval_id := dc_approval_id r; sc_user_id := dc_user_id r;
     sc_receipt_id := dc_receipt_id r; sc_code_hash := dc_code_hash r;
     sc_comment := dc_comment r; sc_state := code_state now r |}.

Definition codes_of (user_id : uuid) : Prog (list StoredCode) :=
  session_begin (
    let! now := gets db_now in
    let! rows := own_codes user_id (λ r, now - days 1 <? dc_created_at r)%Z in
    ret (stored_code now <$> foldr insert_newest [] rows)).

(** One iteration of [record_wrong_try]: under the code's own tenant, and only
    while it is still open. *)
Definition wrong_try_on (now : datetime) (user_id : uuid) (target : DecisionCodeRow)
    : Prog nat :=
  let hit r := bool_decide (dc_id r = dc_id target) && bool_decide (dc_user_id r = user_id)
               && code_open r in
  let! before := sql_select (dc_tenant_id target) hit in
  let! _ := sql_update (dc_tenant_id target) hit (count_wrong_try now) in
  ret (match before with
       | [] => 0
       | r :: _ => if bool_decide (dc_revoked_reason (count_wrong_try now r) = Some RR_locked)
                   then 1 else 0
       end).

Fixpoint wrong_tries (now : datetime) (user_id : uuid) (targets : list DecisionCodeRow)
    : Prog nat :=
  match targets with
  | [] => ret 0
  | t :: rest =>
      let! n := wrong_try_on now user_id t in
      let! m := wrong_tries now user_id rest in
      ret (n + m)
  end.

Definition record_wrong_try (user_id : uuid) : Prog nat :=
  session_begin (
    let! now := gets db_now in
    let! targets := own_codes user_id (λ r, code_open r && unexpired now r) in
    wrong_tries now user_id targets).

(** [platform.prune_approval_decision_codes()], as [SqlApprovalCodeRetention.prune] calls
    it: it runs with its owner's rights, so it sees the codes of every tenant. *)
Definition outdated (now : datetime) (r : DecisionCodeRow) : bool := (dc_created_at r <? now - days 1)%Z.

Definition prune_approval_decision_codes : Prog Z :=
  let! w := get_state in
  let gone := filter (λ kv, outdated (db_now w) kv.2 = true) (t_codes (db w)) in
  let kept := filter (λ kv, outdated (db_now w) kv.2 = false) (t_codes (db w)) in
  modify (λ w, set_db (set_tbl (R := DecisionCodeRow) kept (db w)) w) ;;;
  ret (Z.of_nat (size gone)).

Definition prune : Prog unit :=
  session_begin (let! _ := prune_approval_decision_codes in ret tt).

Fixpoint latest_decision (l : list ApprovalDecision) : option ApprovalDecision :=
  match l with
  | [] => None
  | d :: r =>
      match latest_decision r with
      | Some d' => if (ad_decided_at d <=? ad_decided_at d')%Z then Some d' else Some d
      | None => Some d
      end
  end.

Definition coded_approval (code : StoredCode) : Prog (option CodedApproval) :=
  session_begin (
    let! row := sql_get (R := ApprovalRequest) (sc_tenant_id code) (sc_approval_id code) (λ r,
      bool_decide (ar_workspace_id r = sc_workspace_id code)) in
    let! receipt := sql_get (R := ViewReceipt) (sc_tenant_id code) (sc_receipt_id code) (λ r,
      bool_decide (vr_user_id r = sc_user_id code)
      && bool_decide (vr_approval_id r = sc_approval_id code)) in
    match row, receipt with
    | Some row, Some receipt =>
        let! decisions := sql_select (sc_tenant_id code) (λ d,
          bool_decide (ad_request_id d = sc_approval_id code)) in
        ret (Some {| ca_request := row; ca_receipt_approval_version := vr_approval_version receipt;
                     ca_receipt_subject_version := vr_subject_version receipt;
                     ca_last_decision :=
                       (λ d, {| ld_decided_at := ad_decided_at d; ld_channel := ad_channel d |})
                         <$> latest_decision decisions |})
    | _, _ => ret None
    end).

Definition record_refusal (event : AuditEvent) : Prog unit :=
  session_begin (audit_append (ae_tenant_id event) event).

(** [SqlDecisionCodeLedger.consume], in the unit of work's session. *)
Definition consume (tenant code_id user_id : uuid) : Prog bool :=
  let! now := gets db_now in
  let! rowcount := sql_update tenant (λ r,
    bool_decide (dc_id r = code_id) && bool_decide (dc_user_id r = user_id) && code_open r
    && unexpired now r) (use_code now) in
  ret (rowcount =? 1).

(** ** [dw_agent_runtime/approval_codes.py] *)

Definition _DRAWS : nat := 8.

Inductive CodeUnavailable :=
  | NOT_PENDING | CANNOT_DECIDE | REQUESTER | WEB_ONLY | NOT_LINKED | COMMENT_REQUIRED
  | CHANNEL_OFF.

#[export] Instance CodeUnavailable_eq_dec : EqDecision CodeUnavailable.
Proof. solve_decision. Defined.

Record IssuedCode := { ic_code : pystr; ic_expires_at : datetime }.
Record ViewOutcome := {
  vo_viewed_at : datetime;
  vo_requires_comment : bool;
  vo_issued : option IssuedCode;
  vo_unavailable : option CodeUnavailable }.

Definition approve_command (code : pystr) : pystr := "DUYỆT " +++ code.
Definition reject_command (code : pystr) : pystr := "KHÔNG " +++ code +++ " <lý do>".

Record ApprovalViewService := {
  av_flow : ApproveAndResumeService;
  av_subjects : list (pystr * VersionPort);
  zalo_id_for : uuid → Prog (option pystr);
  av_key : option DecisionCodeKey }.

Section View.
Context (svc : ApprovalViewService) (authorization : ScopeAuthorizationService)
  (context : AccessContext).

Definition _visible (approval_id : uuid) : Prog ApprovalRequest :=
  lift_res (require authorization context "approvals.read") ;;;
  let! request := unit_of_work (approvals_get (tenant_id context) approval_id
    (workspace_id context) (audience_of context authorization)) in
  match request with
  | None => raise NotFoundError "approval request not found"
  | Some request => ret request
  end.

Definition _unavailable (request : ApprovalRequest) (subject_version : option pystr)
    (missing_comment : bool) : Prog (option CodeUnavailable) :=
  if bool_decide (ar_status request ≠ PENDING) then ret (Some NOT_PENDING)
  else if negb (may_decide (audience_of context authorization) request)
  then ret (Some CANNOT_DECIDE)
  else if bool_decide (ar_requested_by request = principal_id context) then ret (Some REQUESTER)
  else if bool_decide (subject_version = None) then ret (Some WEB_ONLY)
  else match av_key svc with
       | None => ret (Some CHANNEL_OFF)
       | Some _ =>
           let! zalo := zalo_id_for svc (principal_id context) in
           ret (if bool_decide (zalo = None) then Some NOT_LINKED
                else if missing_comment then Some COMMENT_REQUIRED else None)
       end.

(** The digits drawn one after the other, the first that is free. *)
Fixpoint first_free (key : DecisionCodeKey) (user_id : uuid) (taken : list OpenCode)
    (draws : list N) : option pystr :=
  match draws with
  | [] => None
  | n :: rest =>
      let code := new_code n in
      if existsb (λ o, matches key (oc_code_hash o) (oc_approval_id o) user_id code) taken
      then first_free key user_id taken rest else Some code
  end.

(** [draws]: what [secrets.randbelow] returns, call after call. *)
Definition _fresh_code (key : DecisionCodeKey) (user_id : uuid) (draws : list N) : Prog pystr :=
  let! taken := open_codes user_id in
  match first_free key user_id taken (take _DRAWS draws) with
  | Some code => ret code
  | None => raise ConflictError "could not draw a free code; ask again"
  end.

Definition view (approval_id : uuid) (comment : pystr) (issue_code : bool) (draws : list N)
    : Prog ViewOutcome :=
  (when MAX_COMMENT_LENGTH <? py_len comment then
     raise DomainError "the comment is too long") ;;;
  let! request := _visible approval_id in
  let! subject_version :=
    match for_type (av_subjects svc) (ar_approval_type request) with
    | None => ret None
    | Some port => port context request
    end in
  let! receipt_id := new_uuid in
  let receipt :=
    {| vr_id := receipt_id; vr_tenant_id := tenant_id context;
       vr_workspace_id := workspace_id context; vr_approval_id := ar_id request;
       vr_user_id := principal_id context; vr_approval_version := ar_version request;
       vr_subject_version := subject_version |} in
  let requires_comment := is_strict (av_flow svc) (ar_approval_type request) in
  let! unavailable := _unavailable request subject_version
    (issue_code && requires_comment && negb (py_truthy (py_strip comment))) in
  let! issue :=
    match issue_code, unavailable, av_key svc with
    | true, None, Some key =>
        let! code := _fresh_code key (principal_id context) draws in
        let! now := now_utc in
        let expires_at := (now + CODE_TTL)%Z in
        let! id := new_uuid in
        ret (Some ({| nc_id := id;
                      nc_code_hash := digest key (ar_id request) (principal_id context) code;
                      nc_comment := py_strip comment; nc_expires_at := expires_at |},
                   {| ic_code := code; ic_expires_at := expires_at |}))
    | _, _, _ => ret None
    end in
  record_view context receipt (fst <$> issue) ;;;
  let! viewed_at := now_utc in
  ret {| vo_viewed_at := viewed_at; vo_requires_comment := requires_comment;
         vo_issued := snd <$> issue; vo_unavailable := unavailable |}.
End View.

Definition ADMISSION_STALE : pystr := "approval_changed".
Definition ADMISSION_SPENT : pystr := "code_spent".

Record CodeAdmission := {
  cad_code_id : uuid;
  cad_user_id : uuid;
  cad_receipt_id : uuid;
  cad_approval_version : Z;
  cad_subject_version : pystr;
  cad_message_id : pystr;
  cad_chat_reference : pystr }.

(** [CodeAdmission.admit] *)
Definition code_admission (a : CodeAdmission) : DecisionAdmission := λ request context,
  (when negb (ar_version request =? cad_approval_version a)%Z then
     raise (AdmissionRefusedError ADMISSION_STALE)
       "the decision code does not admit this decision") ;;;
  let! spent := consume (tenant_id context) (cad_code_id a) (cad_user_id a) in
  (when negb spent then
     raise (AdmissionRefusedError ADMISSION_SPENT)
       "the decision code does not admit this decision") ;;;
  ret {[ "approval_version" := JInt (cad_approval_version a);
         "subject_version" := JStr (cad_subject_version a);
         "receipt_id" := JStr (uuid_str (cad_receipt_id a));
         "code_id" := JStr (uuid_str (cad_code_id a));
         "message_id" := JStr (cad_message_id a);
         "chat_reference" := JStr (cad_chat_reference a) ]}.

(** ** The life of a code *)

(** What an update may do to a row: nothing once it is used or revoked, and
    never to what identifies it. *)
Definition evolves (r r' : DecisionCodeRow) : Prop :=
  (code_open r = false → r' = r) ∧
  dc_id r' = dc_id r ∧ dc_user_id r' = dc_user_id r ∧ dc_approval_id r' = dc_approval_id r ∧
  dc_tenant_id r' = dc_tenant_id r ∧ dc_code_hash r' = dc_code_hash r ∧
  dc_receipt_id r' = dc_receipt_id r ∧ dc_expires_at r' = dc_expires_at r.

#[export] Instance evolves_preorder : PreOrder evolves.
Proof.
  unfold evolves. split; [by intros r|].
  intros r1 r2 r3 (H1 & ?) (H2 & ?). split_and!; try intuition congruence.
  intros Hc. rewrite (H1 Hc) in *. auto.
Qed.

(** The columns agree with each other. *)
Record code_ok (r : DecisionCodeRow) : Prop := {
  ok_tries : (0 <= dc_failed_attempts r <= MAX_WRONG_TRIES)%Z;
  ok_open : code_open r = true → (dc_failed_attempts r < MAX_WRONG_TRIES)%Z;
  ok_one_end : dc_used_at r = None ∨ dc_revoked_at r = None;
  ok_reason : is_Some (dc_revoked_at r) ↔ is_Some (dc_revoked_reason r);
  ok_locked : dc_revoked_reason r = Some RR_locked → dc_failed_attempts r = MAX_WRONG_TRIES }.

(** A code and what became of it: it may go, and none comes in its place. *)
Definition followed (x y : option DecisionCodeRow) : Prop :=
  match x, y with
  | Some r, Some r' => evolves r r'
  | None, Some _ => False
  | _, None => True
  end.

#[export] Instance followed_preorder : PreOrder followed.
Proof. split; [by intros [r|]|]. intros [r1|] [r2|] [r3|]; simpl; try done. apply transitivity. Qed.

(** [fresh]: the ids under which codes may be issued. *)
Section Evolution.
Context (fresh : uuid → Prop).

Definition codes_evolve (d d' : Db) : Prop :=
  (∀ k, ¬ fresh k → followed (t_codes d !! k) (t_codes d' !! k)) ∧
  (keyed (t_codes d) ∧ unique_ok (t_codes d) = true →
   keyed (t_codes d') ∧ unique_ok (t_codes d') = true) ∧
  ((∀ k r, t_codes d !! k = Some r → code_ok r) → ∀ k r, t_codes d' !! k = Some r → code_ok r).

#[export] Instance codes_evolve_preorder : PreOrder codes_evolve.
Proof.
  split; [intros d; split_and!; eauto; by intros k _|].
  intros d1 d2 d3 (H1 & K1 & O1) (H2 & K2 & O2).
  split; [|split; [auto|intros Ho; apply O2, O1, Ho]].
  intros k Hk. etrans; [by apply H1|by apply H2].
Qed.

Definition evolve_step (w w' : World) : Prop := codes_evolve (db w) (db w').

#[export] Instance evolve_step_preorder : PreOrder evolve_step.
Proof.
  split; [intros w; unfold evolve_step; reflexivity|].
  intros w1 w2 w3. unfold evolve_step. apply transitivity.
Qed.

Lemma code_open_spec r : code_open r = true ↔ dc_used_at r = None ∧ dc_revoked_at r = None.
Proof. unfold code_open. by rewrite andb_true_iff, !bool_decide_eq_true. Qed.

(** The three updates of an open row keep its columns in agreement. *)
Lemma update_evolves f r :
  code_open r = true →
  (f = use_code ∨ f = revoke_code ∨ f = count_wrong_try) →
  ∀ now, evolves r (f now r) ∧ (code_ok r → code_ok (f now r)).
Proof.
  intros Ho Hf now. pose proof (proj1 (code_open_spec r) Ho) as [Hu Hr].
  split; [unfold evolves; rewrite Ho; by destruct Hf as [->|[->| ->]]; split_and!|].
  intros [Ht Hop He Hre Hl]. specialize (Hop Ho).
  assert (dc_revoked_reason r = None) as Hrn.
  { destruct (dc_revoked_reason r) eqn:E; [|done]. rewrite Hr in Hre. by destruct Hre as [_ []]. }
  destruct Hf as [->|[->| ->]]; unfold use_code, revoke_code, count_wrong_try, code_open.
  - split; simpl; [lia|done|by right|by rewrite Hr, Hrn|congruence].
  - split; simpl; [lia|rewrite Hu; done|by left|by split; eauto|done].
  - destruct (Z.leb_spec MAX_WRONG_TRIES (dc_failed_attempts r + 1)); split; simpl; rewrite ?Hu;
      try done; try lia; try (by split; eauto); try (by left); try (intros _; lia);
      try (by split; intros []).
Qed.

Lemma update_codes_evolve tenant (p : DecisionCodeRow → bool) f :
  (∀ r, p r = true → code_open r = true ∧ evolves r (f r) ∧ (code_ok r → code_ok (f r))) →
  respects evolve_step (sql_update tenant p f).
Proof.
  intros Hp w. unfold sql_update, store_rows, bind, get_state, raise, modify, ret, evolve_step.
  destruct (unique_ok _) eqn:Hu; [|done]. simpl.
  assert (∀ r, visible tenant p r = true → p r = true) as Hv by (unfold visible; intros; by to_prop).
  split_and!.
  - intros k _. simpl. rewrite lookup_update_rows. destruct (t_codes (db w) !! k) as [r|]; [simpl|done].
    destruct (visible tenant p r) eqn:E; [|done]. apply Hp, Hv, E.
  - simpl. intros [Hkey _]. split; [|done]. intros k r. rewrite lookup_update_rows. intros (r0 & Hk & ->)%fmap_Some.
    rewrite <- (Hkey _ _ Hk). destruct (visible tenant p r0) eqn:E; [|done].
    destruct (Hp r0 (Hv r0 E)) as (_ & (_ & Hid & _) & _). exact Hid.
  - intros Hok k r. simpl. rewrite lookup_update_rows. intros (r0 & Hk & ->)%fmap_Some.
    destruct (visible tenant p r0) eqn:E; [|by eapply Hok]. apply (Hp r0); eauto.
Qed.

Lemma insert_code_evolve tenant r :
  code_ok r → fresh (dc_id r) → respects evolve_step (sql_insert tenant r).
Proof.
  intros Hr Hfr w. destruct (sql_insert tenant r w) as [[[]|e] w'] eqn:E.
  - apply sql_insert_ok in E as (_ & Hf & Hu & ->). simpl in Hf. split_and!; simpl.
    + intros k Hk. rewrite lookup_insert_ne by (intros <-; exact (Hk Hfr)). reflexivity.
    + intros [Hk _]. split; [exact (keyed_insert _ r Hk)|done].
    + intros Hok k r0 [[<- <-]|[_ Hk]]%lookup_insert_Some; eauto.
  - unfold sql_insert, store_rows, bind, get_state, raise, modify in E.
    destruct (bool_decide _); [by injection E as _ <-|]. destruct (_ !! _); [by injection E as _ <-|].
    by destruct (unique_ok _); [|injection E as _ <-].
Qed.

Lemma same_codes_evolve w w' : t_codes (db w') = t_codes (db w) → evolve_step w w'.
Proof.
  intros E. unfold evolve_step, codes_evolve. rewrite E. by split_and!; eauto.
Qed.

(** Codes that go, whoever takes them. *)
Lemma fewer_codes_evolve w w' : t_codes (db w') ⊆ t_codes (db w) → evolve_step w w'.
Proof.
  intros Hs. split_and!.
  - intros k _. destruct (t_codes (db w') !! k) as [r|] eqn:E; [|by destruct (t_codes (db w) !! k)].
    by rewrite (lookup_weaken _ _ _ _ E Hs).
  - intros [Hk Hu]. split; [intros k r Hr; by eapply Hk, lookup_weaken|].
    rewrite unique_ok_spec in *. intros k1 k2 r1 r2 u H1 H2. apply (Hu k1 k2 r1 r2 u); by eapply lookup_weaken.
  - intros Ho k r Hr. eapply Ho. by eapply lookup_weaken.
Qed.

Lemma other_insert_evolve {R K} `{SqlTable R K} tenant (r : R) :
  (∀ t d, t_codes (set_tbl t d) = t_codes d) → respects evolve_step (sql_insert tenant r).
Proof. intros Hf w. apply same_codes_evolve. by apply (sql_insert_frame t_codes). Qed.

Lemma new_code_ok receipt code now : code_ok (new_code_row receipt code now).
Proof. by split; simpl; try (by left); try (by split; intros []). Qed.

Lemma record_view_evolve context receipt code w :
  (∀ c, code = Some c → fresh (nc_id c)) →
  clean w → clean (record_view context receipt code w).2 ∧
            evolve_step w (record_view context receipt code w).2.
Proof.
  intros Hfr Hc. assert (clean (_record_view context receipt code w).2 ∧
                     evolve_step w (_record_view context receipt code w).2) as H.
  { apply session_begin_rel; [apply _|done|..].
    - apply (respects_bind evolve_step); [by intros ?|]. intros now.
      apply respects_bind; [apply _|by apply other_insert_evolve|]. intros [].
      destruct code as [code|]; [|by intros ?]. apply respects_bind; [apply _| |].
      + apply update_codes_evolve. intros r Hp. to_prop. split; [done|].
        apply update_evolves; auto.
      + intros n. apply insert_code_evolve; [apply new_code_ok|by apply Hfr].
    - destruct code; respects_auto. }
  unfold record_view, try_except. destruct (_record_view context receipt code w) as [[[]|e] w'];
    [done|]. simpl in H. destruct (exn_cls e); try done. by destruct (bool_decide _).
Qed.

Lemma wrong_tries_evolve now user_id targets : respects evolve_step (wrong_tries now user_id targets).
Proof.
  induction targets as [|t rest IH]; simpl; [by intros ?|].
  apply respects_bind; [apply _| |intros n; apply respects_bind; [apply _|apply IH|by intros ? ?]].
  unfold wrong_try_on. apply respects_bind; [apply _|by intros ?|]. intros before.
  apply respects_bind; [apply _| |by intros ? ?].
  apply update_codes_evolve. intros r Hp. to_prop. split; [done|]. apply update_evolves; auto.
Qed.

Lemma wrong_tries_same_saved now user_id targets :
  respects same_saved (wrong_tries now user_id targets).
Proof.
  induction targets as [|t rest IH]; simpl; [by intros ?|]. unfold wrong_try_on.
  respects_auto; done.
Qed.

Lemma record_wrong_try_evolve user_id w :
  clean w → clean (record_wrong_try user_id w).2 ∧ evolve_step w (record_wrong_try user_id w).2.
Proof.
  intros Hc. apply session_begin_rel; [apply _|done|..].
  - apply (respects_bind evolve_step); [by intros ?|]. intros now.
    apply respects_bind; [apply _|by intros ?|]. intros targets. apply wrong_tries_evolve.
  - pose proof (wrong_tries_same_saved). unfold own_codes. respects_auto.
Qed.

Lemma prune_evolve w : clean w → clean (prune w).2 ∧ evolve_step w (prune w).2.
Proof.
  intros Hc. apply session_begin_rel; [apply _|done|..]; [|by intros x].
  apply fewer_codes_evolve. simpl. apply map_filter_subseteq.
Qed.
End Evolution.

(** ** Spending a code *)

(** A code the server may spend for a user now. *)
Definition spendable (tenant user_id : uuid) (now : datetime) (r : DecisionCodeRow) : bool :=
  bool_decide (dc_tenant_id r = tenant) && bool_decide (dc_user_id r = user_id) && code_open r
  && unexpired now r.

Record codes_inv (w : World) : Prop := {
  ci_clean : clean w;
  ci_keyed : keyed (t_codes (db w));
  ci_unique : unique_ok (t_codes (db w)) = true;
  ci_ok : ∀ k r, t_codes (db w) !! k = Some r → code_ok r }.

(** Leaving the open rows keeps the index. *)
Lemma close_unique (p : DecisionCodeRow → bool) f (t : gmap uuid DecisionCodeRow) :
  (∀ r, p r = true → code_open (f r) = false ∨
        code_open (f r) = code_open r ∧ dc_tenant_id (f r) = dc_tenant_id r ∧
        dc_approval_id (f r) = dc_approval_id r ∧ dc_user_id (f r) = dc_user_id r) →
  unique_ok t = true → unique_ok (update_rows p f t) = true.
Proof.
  intros Hf. apply unique_ok_update. intros k r _ Hp. simpl.
  destruct (Hf r Hp) as [->|(-> & -> & -> & ->)]; auto.
Qed.

Lemma consume_run tenant code_id user_id w :
  keyed (t_codes (db w)) → unique_ok (t_codes (db w)) = true →
  consume tenant code_id user_id w =
    match t_codes (db w) !! code_id with
    | Some r =>
        if spendable tenant user_id (db_now w) r
        then (Ok true, set_db (set_tbl (<[code_id := use_code (db_now w) r]> (t_codes (db w)))
                                 (db w)) w)
        else (Ok false, w)
    | None => (Ok false, w)
    end.
Proof.
  intros Hkey Hu. unfold consume, bind at 1, gets. simpl.
  set (p := λ r, bool_decide (dc_id r = code_id) && bool_decide (dc_user_id r = user_id)
                 && code_open r && unexpired (db_now w) r).
  assert (∀ k r, t_codes (db w) !! k = Some r →
    visible tenant p r = bool_decide (k = code_id) && spendable tenant user_id (db_now w) r) as Hp.
  { intros k r Hk. unfold visible, p, spendable. rewrite <- (Hkey _ _ Hk). simpl.
    destruct (bool_decide (dc_tenant_id r = tenant)); simpl; [|by rewrite andb_false_r].
    by rewrite !andb_assoc. }
  unfold bind, ret. rewrite sql_update_run.
  2: { apply close_unique; [|done]. intros r Hr. left. unfold code_open, use_code. done. }
  cbn [fst snd]. change (tbl (db w)) with (t_codes (db w)).
  assert ((∀ k r, t_codes (db w) !! k = Some r → visible tenant p r = false) →
    (Ok (A := bool) (count_rows (visible tenant p) (t_codes (db w)) =? 1),
     set_db (set_tbl (update_rows (visible tenant p) (use_code (db_now w)) (t_codes (db w))) (db w)) w)
    = (Ok false, w)) as Hnone.
  { intros Hn. rewrite update_rows_none, (proj2 (count_rows_zero _ _) Hn) by done.
    f_equal. by destruct w as [[]]. }
  destruct (t_codes (db w) !! code_id) as [r|] eqn:Hr.
  - destruct (spendable _ _ _ r) eqn:Hs.
    + rewrite (count_rows_one _ _ code_id r), (update_rows_one _ _ _ code_id r); try done;
        try (rewrite (Hp _ _ Hr), Hs, bool_decide_eq_true_2; done);
        intros k' r' Hk' Hv; rewrite (Hp _ _ Hk') in Hv; by to_prop.
    + apply Hnone. intros k r' Hk. rewrite (Hp _ _ Hk). case_bool_decide; [|done]. subst.
      by assert (r' = r) as -> by congruence.
  - apply Hnone. intros k r' Hk. rewrite (Hp _ _ Hk). case_bool_decide; [|done]. congruence.
Qed.

Lemma consume_evolve fresh tenant code_id user_id : respects (evolve_step fresh) (consume tenant code_id user_id).
Proof.
  unfold consume. apply respects_bind; [apply _|by intros w; apply same_codes_evolve|]. intros now.
  apply respects_bind; [apply _| |by intros ? ?; apply same_codes_evolve].
  apply update_codes_evolve. intros r Hp. to_prop. split; [done|]. apply update_evolves; auto.
Qed.

Lemma code_admission_evolve fresh a r c : respects (evolve_step fresh) (code_admission a r c).
Proof.
  pose proof (consume_evolve fresh). unfold code_admission. respects_auto.
Qed.

Lemma consume_quiet tenant code_id user_id w :
  ∃ t : gmap uuid DecisionCodeRow, (consume tenant code_id user_id w).2 = set_db (set_tbl (R := DecisionCodeRow) t (db w)) w.
Proof.
  unfold consume, sql_update, store_rows, bind, gets, ret, get_state, raise, modify.
  simpl. match goal with |- context [unique_ok ?t] => destruct (unique_ok t) end; simpl; [eauto|].
  exists (t_codes (db w)). by destruct w as [[]].
Qed.

(** A code admission writes codes and nothing else. *)
Lemma code_admission_ok a : admission_ok (Some (code_admission a)).
Proof.
  intros adm r c w [= <-].
  assert (∃ t : gmap uuid DecisionCodeRow, w = set_db (set_tbl (R := DecisionCodeRow) t (db w)) w) as Hw
    by (exists (t_codes (db w)); by destruct w as [[]]).
  destruct (consume_quiet (tenant_id c) (cad_code_id a) (cad_user_id a) w) as [t Ht].
  unfold code_admission. destruct (negb _); simpl; [exact Hw|].
  unfold bind. simpl. destruct (consume _ _ _ w) as [[spent|e] w1]; simpl in Ht; [|eauto].
  destruct spent; simpl; eauto.
Qed.

Section SpendInDecision.
Context (svc : ApproveAndResumeService) (authorization : ScopeAuthorizationService)
  (context : AccessContext) (approval_id : uuid) (approve : bool) (comment channel : pystr).

Let spend a := decide_in_uow svc authorization context approval_id approve comment channel
                 (Some (code_admission a)).

Lemma write_rows_codes c ap cm ch ad r :
  respects (same_read t_codes) (write_rows c ap cm ch ad r).
Proof.
  unfold write_rows, announce_decision, append_audit, _decided_event, approvals_add_decision,
    outbox_add, audit_append, approvals_save, new_uuid, now_utc.
  repeat first
    [ by apply sql_insert_frame | by apply sql_update_frame | by intros ?
    | apply respects_bind; [apply _| |intros ?] | case_match ].
Qed.

(** What a decision admitted by a code found, and left of the code. *)
Lemma spend_ok a w request' record w' :
  codes_inv w → spend a w = (Ok (request', record), w') →
  (∃ request, seen authorization context (t_approvals (db w)) approval_id request ∧
              ar_version request = cad_approval_version a) ∧
  ∃ r, t_codes (db w) !! cad_code_id a = Some r ∧
       spendable (tenant_id context) (cad_user_id a) (db_now w) r = true ∧
       t_codes (db w') = <[cad_code_id a := use_code (db_now w) r]> (t_codes (db w)) ∧
       saved w' = db w'.
Proof.
  intros [_ Hk Hu _] H. apply decide_in_uow_ok in H
    as (request & ad & w1 & w2 & Hs & _ & (m & Ha & _) & Hw & ->).
  unfold code_admission in Ha. apply bind_ok in Ha as ([] & s1 & Hv & Ha).
  destruct (Z.eqb_spec (ar_version request) (cad_approval_version a)); [|done].
  injection Hv as <-. split; [eauto|].
  apply bind_ok in Ha as (spent & s2 & Hc & Ha). rewrite consume_run in Hc by done.
  destruct spent; [|done]. injection Ha as _ <-.
  destruct (t_codes (db w) !! cad_code_id a) as [r|]; [|done]. exists r.
  destruct (spendable _ _ _ _); [|done]. injection Hc as Hc.
  pose proof (write_rows_codes context approve comment channel ad request s2) as Hf.
  rewrite Hw in Hf. unfold same_read in Hf. split_and!; [done..| |done]. simpl in *.
  by rewrite Hf, <- Hc.
Qed.

Lemma spend_evolve fresh a w :
  clean w → clean (spend a w).2 ∧ evolve_step fresh w (spend a w).2.
Proof.
  intros Hc. destruct (spend a w) as [[[r' record]|e] w'] eqn:E; simpl.
  - apply decide_in_uow_ok in E as (request & ad & w1 & w2 & _ & _ & (m & Ha & _) & Hw & ->).
    split; [done|]. pose proof (code_admission_evolve fresh a request context w) as H1. rewrite Ha in H1.
    pose proof (write_rows_codes context approve comment channel ad request w1) as H2.
    rewrite Hw in H2. transitivity w1; [done|]. by apply same_codes_evolve.
  - apply decide_in_uow_raise in E as [Hd Hs]; [|done|apply code_admission_ok].
    split; [unfold clean in *; congruence|]. apply same_codes_evolve. by rewrite Hd.
Qed.
End SpendInDecision.

(** ** Every history of the codes *)

(** A code issued, a wrong try, a decision spending one, the daily prune, or anything
    that leaves the codes alone or takes some away: the clock running, a refusal
    audited, a read, the purge of a tenant. *)
Inductive code_step (fresh : uuid → Prop) : World → World → Prop :=
  | step_view context receipt code w :
      (∀ c, code = Some c → fresh (nc_id c)) →
      code_step fresh w (record_view context receipt code w).2
  | step_wrong_try user_id w : code_step fresh w (record_wrong_try user_id w).2
  | step_spend svc authorization context id approve comment channel a w :
      code_step fresh w (decide_in_uow svc authorization context id approve comment channel
                     (Some (code_admission a)) w).2
  | step_prune w : code_step fresh w (prune w).2
  | step_elsewhere w w' :
      (clean w → clean w') → t_codes (db w') ⊆ t_codes (db w) → code_step fresh w w'.

Lemma code_step_evolve fresh w w' : code_step fresh w w' → clean w → clean w' ∧ evolve_step fresh w w'.
Proof.
  destruct 1; intros Hc.
  - by apply record_view_evolve.
  - by apply record_wrong_try_evolve.
  - by apply spend_evolve.
  - by apply prune_evolve.
  - split; [auto|]. by apply fewer_codes_evolve.
Qed.

Lemma code_steps_evolve fresh w w' :
  rtc (code_step fresh) w w' → clean w → clean w' ∧ evolve_step fresh w w'.
Proof.
  induction 1 as [w|w1 w2 w3 Hs _ IH]; intros Hc; [split; [done|reflexivity]|].
  destruct (code_step_evolve _ _ _ Hs Hc) as [Hc2 H12]. destruct (IH Hc2) as [Hc3 H23].
  split; [done|]. by transitivity w2.
Qed.

Lemma evolve_inv fresh w w' : codes_inv w → clean w' → evolve_step fresh w w' → codes_inv w'.
Proof.
  intros [_ Hk Hu Ho] Hc (_ & Hku & Hok). destruct (Hku (conj Hk Hu)). split; eauto.
Qed.

(** In every history of views, wrong tries, decisions, prunes, purges and time, a used or
    revoked code never changes again until it goes, a code keeps its user, approval,
    tenant, hash and expiry, it counts at most five wrong tries with fewer than five
    while it is open, it is never both used and revoked, and each approval and user has
    at most one open code. *)
Theorem code_lifecycle fresh w w' :
  codes_inv w → rtc (code_step fresh) w w' →
  codes_inv w' ∧
  ∀ k r r', ¬ fresh k → t_codes (db w) !! k = Some r → t_codes (db w') !! k = Some r' →
    (code_open r = false → r' = r) ∧
    (dc_user_id r', dc_approval_id r', dc_tenant_id r', dc_code_hash r', dc_expires_at r')
      = (dc_user_id r, dc_approval_id r, dc_tenant_id r, dc_code_hash r, dc_expires_at r).
Proof.
  intros Hi Hs. destruct (code_steps_evolve _ _ _ Hs (ci_clean _ Hi)) as [Hc He].
  split; [by eapply evolve_inv|]. intros k r r' Hf Hk Hk'. destruct He as [He _].
  specialize (He k Hf). rewrite Hk, Hk' in He. destruct He as (Hcl & He). split; [done|].
  destruct_and! He. congruence.
Qed.

(** C28: a decision admitted by a code found the code open, unexpired, of its user and
    tenant, and committed it as used; in no later state, whoever tries and after any
    number of views, wrong tries, decisions, daily prunes, purges of tenants and
    transactions that leave the codes alone, as long as no view issues another code
    under the same id, is a second decision admitted by that code, and the attempt
    leaves the database as it was. *)
Theorem code_spent_once fresh svc authorization context id approve comment channel a w out w1
    svc' authorization' context' id' approve' comment' channel' a' w2 out' w3 :
  codes_inv w →
  decide_in_uow svc authorization context id approve comment channel (Some (code_admission a)) w
    = (Ok out, w1) →
  rtc (code_step fresh) w1 w2 → ¬ fresh (cad_code_id a) →
  cad_code_id a' = cad_code_id a →
  decide_in_uow svc' authorization' context' id' approve' comment' channel'
    (Some (code_admission a')) w2 = (out', w3) →
  (∃ r, t_codes (db w) !! cad_code_id a = Some r ∧
        spendable (tenant_id context) (cad_user_id a) (db_now w) r = true ∧
        t_codes (db w1) !! cad_code_id a = Some (use_code (db_now w) r)) ∧
  ∃ e, out' = Raise e ∧ db w3 = db w2.
Proof.
  intros Hi H Hs Hfr Hid H'. destruct out as [request' record].
  pose proof (spend_evolve svc authorization context id approve comment channel fresh a w (ci_clean _ Hi))
    as [Hc1 He1]. rewrite H in Hc1, He1. simpl in Hc1, He1.
  pose proof (evolve_inv _ _ _ Hi Hc1 He1) as Hi1.
  apply spend_ok in H as (_ & r & Hr & Hsp & Ht & _); [|done].
  assert (t_codes (db w1) !! cad_code_id a = Some (use_code (db_now w) r)) as Hr1
    by (by rewrite Ht, lookup_insert_eq).
  split; [eauto|]. destruct (code_steps_evolve _ _ _ Hs Hc1) as [Hc2 He2].
  pose proof (evolve_inv _ _ _ Hi1 Hc2 He2) as Hi2.
  destruct He2 as [He2 _]. specialize (He2 _ Hfr). rewrite Hr1 in He2.
  destruct out' as [[rq rec]|e].
  - apply spend_ok in H' as (_ & r' & Hr' & Hsp' & _); [|done]. rewrite Hid in Hr'.
    rewrite Hr' in He2. destruct He2 as [Hsame _]. specialize (Hsame eq_refl). subst r'.
    unfold spendable in Hsp'. to_prop. done.
  - exists e. split; [done|]. apply decide_in_uow_raise in H' as [? _]; [done|done|].
    apply code_admission_ok.
Qed.

(** ** Wrong tries *)

(** The user's codes a wrong try counts against. *)
Definition counted (now : datetime) (user_id : uuid) (r : DecisionCodeRow) : bool :=
  bool_decide (dc_user_id r = user_id) && (code_open r && unexpired now r).

Definition locks (r : DecisionCodeRow) : bool := (MAX_WRONG_TRIES <=? dc_failed_attempts r + 1)%Z.

Lemma count_locks now r :
  bool_decide (dc_revoked_reason (count_wrong_try now r) = Some RR_locked) = locks r.
Proof. unfold count_wrong_try, locks. simpl. by destruct (_ <=? _)%Z. Qed.

Lemma count_unique p now (t : gmap uuid DecisionCodeRow) :
  (∀ r, p r = true → code_open r = true) →
  unique_ok t = true → unique_ok (update_rows p (count_wrong_try now) t) = true.
Proof.
  intros Hp. apply close_unique. intros r Hr%Hp. unfold code_open, count_wrong_try. simpl.
  apply code_open_spec in Hr as [-> ->].
  destruct (_ <=? _)%Z; [by left|by right].
Qed.

Lemma wrong_try_on_run now user_id t w :
  keyed (t_codes (db w)) → unique_ok (t_codes (db w)) = true →
  t_codes (db w) !! dc_id t = Some t → counted now user_id t = true →
  wrong_try_on now user_id t w =
    (Ok (if locks t then 1 else 0),
     set_db (set_tbl (<[dc_id t := count_wrong_try now t]> (t_codes (db w))) (db w)) w).
Proof.
  intros Hk Hu Ht Hc. unfold counted in Hc. to_prop.
  set (p := visible (dc_tenant_id t) (λ r, bool_decide (dc_id r = dc_id t)
              && bool_decide (dc_user_id r = user_id) && code_open r)).
  assert (p t = true) as Hpt
    by (unfold p, visible; rewrite !bool_decide_eq_true_2 by done; done).
  assert (∀ k r, t_codes (db w) !! k = Some r → p r = true → k = dc_id t) as Hone.
  { intros k r Hr Hp. unfold p, visible in Hp. to_prop. rewrite <- (Hk _ _ Hr). done. }
  unfold wrong_try_on, bind at 1, sql_select, gets.
  rewrite (select_one p _ (dc_id t) t) by done. unfold bind. rewrite sql_update_run.
  - rewrite (update_rows_one p _ _ (dc_id t) t) by done. by rewrite count_locks.
  - apply count_unique; [|done]. unfold visible. intros r Hr. by to_prop.
Qed.

Lemma wrong_tries_run now user_id targets : ∀ w,
  keyed (t_codes (db w)) → unique_ok (t_codes (db w)) = true →
  NoDup (dc_id <$> targets) →
  Forall (λ t, t_codes (db w) !! dc_id t = Some t ∧ counted now user_id t = true) targets →
  wrong_tries now user_id targets w =
    (Ok (length (filter (λ t, locks t = true) targets)),
     set_db (set_tbl (update_rows (λ r, bool_decide (dc_id r ∈ dc_id <$> targets))
                        (count_wrong_try now) (t_codes (db w))) (db w)) w).
Proof.
  induction targets as [|t rest IH]; intros w Hk Hu Hn Hf.
  - rewrite update_rows_none by (intros; by apply bool_decide_eq_false_2, not_elem_of_nil).
    simpl. unfold ret. f_equal. by destruct w as [[]].
  - apply NoDup_cons in Hn as [Hni Hn]. apply Forall_cons in Hf as [[Ht Hc] Hf].
    cbn [wrong_tries]. unfold bind at 1. rewrite wrong_try_on_run by done.
    set (w1 := set_db _ w). unfold bind. rewrite (IH w1); subst w1; cbn [db set_db set_tbl codes_table tbl t_codes].
    + unfold ret. rewrite filter_cons. f_equal; [by destruct (locks t)|].
      unfold set_db, set_tbl; simpl. do 2 f_equal. apply map_eq. intros k.
      rewrite !lookup_update_rows. destruct (N.eq_dec k (dc_id t)) as [->|Hne].
      * rewrite lookup_insert_eq, Ht. simpl. rewrite bool_decide_eq_false_2 by done.
        by rewrite bool_decide_eq_true_2 by left.
      * rewrite lookup_insert_ne by done. destruct (_ !! k) as [r|] eqn:Hr; [|done]. simpl.
        f_equal. rewrite (Hk _ _ Hr : dc_id r = k).
        by rewrite (bool_decide_ext (k ∈ dc_id t :: _) (k ∈ dc_id <$> rest))
          by (rewrite elem_of_cons; naive_solver).
    + exact (keyed_insert _ (count_wrong_try now t) Hk).
    + set (p := λ r, bool_decide (dc_id r = dc_id t) && code_open r).
      unfold counted in Hc. to_prop.
      rewrite <- (update_rows_one p (count_wrong_try now) _ _ _ Ht); [apply count_unique|..]; try done.
      * unfold p. intros r Hr. by to_prop.
      * unfold p. by rewrite bool_decide_eq_true_2.
      * unfold p. intros k r Hr E. to_prop. rewrite <- (Hk _ _ Hr). done.
    + done.
    + apply Forall_forall. intros t' Hin. pose proof (proj1 (Forall_forall _ _) Hf t' Hin) as [? ?].
      split; [|done]. rewrite lookup_insert_ne; [done|]. intros E. apply Hni. rewrite E.
      by apply list_elem_of_fmap_2.
Qed.

Lemma elem_of_own_rows user_id p t r :
  keyed t →
  r ∈ own_rows user_id p t ↔ dc_user_id r = user_id ∧ p r = true ∧ t !! dc_id r = Some r.
Proof.
  intros Hk. unfold own_rows.
  rewrite list_elem_of_filter, list_elem_of_fmap, andb_true_iff, bool_decide_eq_true. split.
  - intros ([? ?] & [k r'] & -> & Hin%elem_of_map_to_list). simpl in *.
    by rewrite (Hk _ _ Hin : dc_id r' = k).
  - intros (? & ? & Hin). split; [done|]. exists (dc_id r, r). by rewrite elem_of_map_to_list.
Qed.

Lemma own_rows_nodup user_id p t : keyed t → NoDup (dc_id <$> own_rows user_id p t).
Proof.
  intros Hk. assert (NoDup (dc_id <$> (map_to_list t).*2)) as Hnd.
  { rewrite <- list_fmap_compose. rewrite (list_fmap_ext _ fst); [apply NoDup_fst_map_to_list|].
    intros i [k r] Hin. apply list_elem_of_lookup_2, elem_of_map_to_list in Hin. apply (Hk _ _ Hin). }
  refine (sublist_NoDup _ _ Hnd _). apply fmap_sublist. unfold own_rows. apply sublist_filter.
Qed.

(** A wrong try counts against exactly the user's own open, unexpired codes of every tenant,
    revokes as locked those that reach five, changes no other row, and returns how many
    it locked. *)
Theorem wrong_try_exact user_id w :
  codes_inv w →
  record_wrong_try user_id w =
    (Ok (count_rows (λ r, counted (db_now w) user_id r && locks r) (t_codes (db w))),
     commit_db (set_tbl (update_rows (counted (db_now w) user_id) (count_wrong_try (db_now w))
                           (t_codes (db w))) (db w)) w).
Proof.
  intros [_ Hk Hu _]. unfold record_wrong_try, session_begin, bind, own_codes, gets. cbn beta iota zeta.
  set (targets := own_rows _ _ _).
  assert (∀ t, t ∈ targets ↔ counted (db_now w) user_id t = true ∧
                             t_codes (db w) !! dc_id t = Some t) as Ht.
  { intros t. unfold targets. rewrite elem_of_own_rows by done. unfold counted.
    rewrite (andb_true_iff (bool_decide _)), bool_decide_eq_true. tauto. }
  rewrite (wrong_tries_run _ user_id); try done.
  - unfold commit_db. f_equal.
    + f_equal. rewrite <- count_rows_select. unfold targets, own_rows, counted.
      rewrite list_filter_filter. f_equal. apply list_filter_iff. intros r.
      rewrite !andb_true_iff, bool_decide_eq_true. tauto.
    + assert (∀ k r, t_codes (db w) !! k = Some r →
        bool_decide (dc_id r ∈ dc_id <$> targets) = counted (db_now w) user_id r) as E.
      { intros k r Hr. pose proof (Hk _ _ Hr : dc_id r = k) as Hid.
        apply eq_true_iff_eq. rewrite bool_decide_eq_true, list_elem_of_fmap. split.
        - intros (t & Heq & [Hc Hin]%Ht). rewrite <- Heq, Hid in Hin. congruence.
        - intros Hc. exists r. split; [done|]. apply Ht. by rewrite Hid. }
      assert (update_rows (λ r, bool_decide (dc_id r ∈ dc_id <$> targets))
                (count_wrong_try (db_now w)) (t_codes (db w)) =
              update_rows (counted (db_now w) user_id) (count_wrong_try (db_now w))
                (t_codes (db w))) as ->; [|done].
      apply map_eq. intros k. rewrite !lookup_update_rows.
      destruct (_ !! k) as [r|] eqn:Hr; [|done]. simpl. by rewrite (E k r Hr).
  - by apply own_rows_nodup.
  - apply Forall_forall. intros t Hin. by apply Ht in Hin as [? ?].
Qed.

(** ** Issuing a code *)

(** The codes a reissue revokes. *)
Definition reissued (receipt : ViewReceipt) (r : DecisionCodeRow) : bool :=
  bool_decide (dc_tenant_id r = vr_tenant_id receipt)
  && bool_decide (dc_approval_id r = vr_approval_id receipt)
  && bool_decide (dc_user_id r = vr_user_id receipt) && code_open r.

Lemma record_view_code context receipt code w w' :
  record_view context receipt (Some code) w = (Ok tt, w') →
  t_codes (db w') !! nc_id code = Some (new_code_row receipt code (db_now w)) ∧
  (∀ k r, k ≠ nc_id code → t_codes (db w') !! k = Some r → reissued receipt r = false) ∧
  saved w' = db w'.
Proof.
  unfold record_view, try_except.
  destruct (_record_view context receipt (Some code) w) as [[[]|e] w1] eqn:E.
  2: { unfold raise, reraise. destruct (exn_cls e); try done. by destruct (bool_decide _). }
  intros [= ->]. unfold _record_view, session_begin in E.
  destruct ((let! now := gets db_now in _)%prog w) as [[[]|e] s] eqn:E1; [|done].
  injection E as <-. apply bind_ok in E1 as (now & s1 & H1 & E1). injection H1 as <- <-.
  apply bind_ok in E1 as ([] & s1 & H1 & E1). apply sql_insert_ok in H1 as (Ht & _ & _ & Hs1).
  apply bind_ok in E1 as (n & s2 & H2 & E1). apply sql_update_ok in H2 as (_ & _ & Hs2).
  apply sql_insert_ok in E1 as (_ & Hf & _ & ->). simpl in *. rewrite lookup_insert_eq.
  split_and!; [done| |done]. intros k r Hne. rewrite lookup_insert_ne by done.
  rewrite Hs2. simpl. rewrite lookup_update_rows, Hs1. simpl.
  intros (r0 & _ & ->)%fmap_Some. fold (reissued receipt). unfold visible.
  destruct (bool_decide (row_tenant r0 = _) && _) eqn:Ev.
  - unfold reissued, revoke_code, code_open. simpl. rewrite !andb_false_r. done.
  - simpl in Ev. rewrite <- Ht in Ev. unfold reissued in *.
    by destruct (bool_decide (dc_tenant_id r0 = _)).
Qed.

Lemma first_free_spec key user_id taken draws code :
  first_free key user_id taken draws = Some code →
  (∃ n, n ∈ draws ∧ code = new_code n) ∧
  ∀ o, o ∈ taken → matches key (oc_code_hash o) (oc_approval_id o) user_id code = false.
Proof.
  induction draws as [|n rest IH]; [done|]. simpl.
  destruct (existsb _ taken) eqn:E.
  - intros H. destruct (IH H) as [(m & ? & ?) ?]. split; [|done]. exists m. split; [by right|done].
  - intros [= <-]. split; [exists n; split; [by left|done]|]. intros o Ho.
    apply not_true_iff_false. intros Hm. apply not_true_iff_false in E. apply E.
    apply existsb_exists. exists o. split; [by apply list_elem_of_In|done].
Qed.

Lemma open_codes_run user_id w :
  clean w →
  open_codes user_id w =
    (Ok ((λ r, {| oc_approval_id := dc_approval_id r; oc_code_hash := dc_code_hash r |}) <$>
           own_rows user_id (λ r, code_open r && unexpired (db_now w) r) (t_codes (db w))), w).
Proof.
  intros Hc. unfold open_codes, session_begin, bind, own_codes, gets, ret. f_equal.
  unfold clean in Hc. destruct w; simpl in *. by subst.
Qed.

Section Issued.
Context (svc : ApprovalViewService) (authorization : ScopeAuthorizationService)
  (context : AccessContext).
(** Asking which channel a user has linked changes nothing. *)
Context (zalo_reads : ∀ u, respects eq (zalo_id_for svc u)).

Lemma unavailable_ok request subject missing w o w' :
  _unavailable svc authorization context request subject missing w = (Ok o, w') →
  w' = w ∧
  (o = None →
     ar_status request = PENDING ∧ may_decide (audience_of context authorization) request = true ∧
     ar_requested_by request ≠ principal_id context ∧ is_Some subject ∧ is_Some (av_key svc) ∧
     (∃ z, (zalo_id_for svc (principal_id context) w).1 = Ok (Some z)) ∧ missing = false).
Proof.
  unfold _unavailable, ret. case_bool_decide; [by intros [= <- <-]|].
  destruct (may_decide _ _); [simpl|by intros [= <- <-]]. case_bool_decide; [by intros [= <- <-]|].
  case_bool_decide; [by intros [= <- <-]|]. destruct (av_key svc) eqn:Ek; [|by intros [= <- <-]].
  intros (z & s & Hz & Hr)%bind_ok. pose proof (zalo_reads (principal_id context) w) as Hro.
  rewrite Hz in *. simpl in *. subst s. injection Hr as <- <-. split; [done|]. intros Ho.
  case_bool_decide; [done|]. destruct missing; [done|].
  destruct z; [|done]. destruct subject; [|done].
  split_and!; eauto.
Qed.

(** The port of a type reads the subject's version. *)
Context (ports_read : ∀ t port r, for_type (av_subjects svc) t = Some port →
           respects eq (port context r)).

Lemma visible_ok approval_id w request w' :
  clean w → _visible authorization context approval_id w = (Ok request, w') →
  w' = w ∧ seen authorization context (t_approvals (db w)) approval_id request.
Proof.
  intros Hc (u & s & H1 & H2)%bind_ok. unfold require, lift_res in H1.
  destruct (is_allowed _ _ _); [|done]. injection H1 as _ <-.
  apply bind_ok in H2 as (found & s & (s2 & H2 & ->)%unit_of_work_ok & H3).
  assert (s2 = w) as -> by (by injection H2). rewrite set_db_clean in H3 by done.
  destruct found as [r|]; [|done]. injection H3 as -> <-. split; [done|]. by apply approvals_seen.
Qed.

(** A view hands out a code only for a pending request the caller sees, may decide and did
    not raise, with a comment when the type is strict; the digits match no code the
    caller already holds; the committed row carries their hash with no failed try, and
    every other code of the caller for that approval is closed. *)
Theorem view_issues_code approval_id comment draws w outcome issued w' :
  clean w →
  view svc authorization context approval_id comment true draws w = (Ok outcome, w') →
  vo_issued outcome = Some issued →
  ∃ request key n row,
    seen authorization context (t_approvals (db w)) approval_id request ∧
    ar_status request = PENDING ∧
    may_decide (audience_of context authorization) request = true ∧
    ar_requested_by request ≠ principal_id context ∧
    (is_strict (av_flow svc) (ar_approval_type request) = true → is_blank comment = false) ∧
    av_key svc = Some key ∧ n ∈ take _DRAWS draws ∧ ic_code issued = new_code n ∧
    (∀ o, o ∈ own_rows (principal_id context) (λ r, code_open r && unexpired (db_now w) r)
                (t_codes (db w)) →
       matches key (dc_code_hash o) (dc_approval_id o) (principal_id context) (ic_code issued)
         = false) ∧
    t_codes (db w') !! dc_id row = Some row ∧ saved w' = db w' ∧ code_open row = true ∧
    dc_failed_attempts row = 0%Z ∧ dc_user_id row = principal_id context ∧
    dc_approval_id row = ar_id request ∧ dc_expires_at row = ic_expires_at issued ∧
    matches key (dc_code_hash row) (ar_id request) (principal_id context) (ic_code issued) = true ∧
    ∀ k r, k ≠ dc_id row → t_codes (db w') !! k = Some r →
      dc_tenant_id r = tenant_id context → dc_approval_id r = ar_id request →
      dc_user_id r = principal_id context → code_open r = false.
Proof.
  intros Hc Hv Hi. unfold view in Hv.
  apply bind_ok in Hv as ([] & s1 & H1 & Hv). destruct (_ <? _); [done|]. injection H1 as <-.
  apply bind_ok in Hv as (request & s2 & H2 & Hv).
  apply visible_ok in H2 as [-> Hseen]; [|done].
  apply bind_ok in Hv as (subject & s3 & H3 & Hv).
  assert (s3 = w) as ->.
  { destruct (for_type _ _) as [port|] eqn:Ep; [|by injection H3].
    pose proof (ports_read _ _ request Ep w) as Hr. by rewrite H3 in Hr. }
  apply bind_ok in Hv as (receipt_id & s4 & H4 & Hv). injection H4 as <- <-.
  apply bind_ok in Hv as (unavail & s5 & H5 & Hv). apply unavailable_ok in H5 as [-> Hun].
  apply bind_ok in Hv as (issue & s6 & H6 & Hv).
  apply bind_ok in Hv as ([] & s7 & H7 & Hv).
  apply bind_ok in Hv as (viewed & s8 & H8 & Hv). injection H8 as <- <-. injection Hv as <- <-.
  simpl in Hi. destruct issue as [[code ic]|]; [|done]. injection Hi as ->.
  destruct unavail; [done|]. destruct (Hun eq_refl) as (Hp & Hm & Hr & _ & [key Hk] & _ & Hmiss).
  rewrite Hk in H6. apply bind_ok in H6 as (digits & s9 & H9 & H6).
  unfold _fresh_code in H9. apply bind_ok in H9 as (taken & s10 & H9 & H10).
  rewrite open_codes_run in H9 by done. injection H9 as <- <-.
  destruct (first_free _ _ _ _) as [code'|] eqn:Ef; [|done]. injection H10 as -> <-.
  apply first_free_spec in Ef as [(n & Hn & Hdig) Hfree].
  do 2 (apply bind_ok in H6 as (? & ? & H' & H6); injection H' as <- <-). injection H6 as <- <- <-.
  simpl in H7.
  apply record_view_code in H7 as (Hrow & Hold & Hsv). simpl in Hrow.
  match type of Hrow with _ = Some ?row => exists request, key, n, row end.
  split_and!; try done.
  - intros Hst. rewrite Hst in Hmiss. simpl in Hmiss.
    by rewrite py_truthy_strip, negb_involutive in Hmiss.
  - intros o Ho. simpl. apply (Hfree {| oc_approval_id := dc_approval_id o; oc_code_hash := _ |}).
    apply list_elem_of_fmap. by exists o.
  - by apply bool_decide_eq_true.
  - intros k r Hne Hkr Ht Ha Hu. specialize (Hold k r Hne Hkr). unfold reissued in Hold.
    simpl in Hold. by rewrite !bool_decide_eq_true_2 in Hold.
Qed.
End Issued.

(** ** A concrete instance: the code 123456 of the request 50 *)

Definition example_viewer : AccessContext :=
  {| tenant_id := 1; workspace_id := 2; principal_id := 4; roles := {[ "manager" ]}; groups := ∅;
     scopes := {[ APPROVALS_DECIDE; "approvals.read"; "notes.publish" ]}; clearance := "internal";
     plan_id := "pro"; feature_flags := ∅; record_visibility := "open"; visible_owners := None;
     max_autonomy_level := A4; support := None |}.

Definition example_key : DecisionCodeKey :=
  {| digest approval user code := approval :: user :: chars code |}.

Definition example_view_service : ApprovalViewService :=
  {| av_flow := example_service; av_subjects := [("notes."%py, λ _ _, ret (Some "v1"%py))];
     zalo_id_for _ := ret (Some "z"%py); av_key := Some example_key |}.

Definition example_receipt : ViewReceipt :=
  {| vr_id := 70; vr_tenant_id := 1; vr_workspace_id := 2; vr_approval_id := 50; vr_user_id := 4;
     vr_approval_version := 1; vr_subject_version := Some "v1" |}.

Definition example_new_code : NewDecisionCode :=
  {| nc_id := 71; nc_code_hash := digest example_key 50 4 (new_code 123456); nc_comment := "ok";
     nc_expires_at := 2000 |}.

Definition example_coded : World :=
  (record_view example_viewer example_receipt (Some example_new_code) (example_pending None)).2.

Definition example_spending : CodeAdmission :=
  {| cad_code_id := 71; cad_user_id := 4; cad_receipt_id := 70; cad_approval_version := 1;
     cad_subject_version := "v1"; cad_message_id := "m"; cad_chat_reference := "c" |}.

Definition example_spend (w : World) :=
  decide_in_uow example_service default_authorization example_viewer 50 true "ok" "zalo"
    (Some (code_admission example_spending)) w.

Lemma example_no_codes : codes_inv (example_pending None).
Proof.
  split; [reflexivity|intros k r Hk; done|by vm_compute|intros k r Hk; done].
Qed.

Lemma example_coded_inv : codes_inv example_coded.
Proof.
  destruct (record_view_evolve (λ _, True) example_viewer example_receipt (Some example_new_code) _
    (λ _ _, I) (ci_clean _ example_no_codes)). by apply (evolve_inv (λ _, True) _ _ example_no_codes).
Qed.

Lemma example_spent_inv : codes_inv (example_spend example_coded).2.
Proof.
  destruct (spend_evolve example_service default_authorization example_viewer 50 true "ok" "zalo"
    (λ _, False) example_spending example_coded (ci_clean _ example_coded_inv)).
  by apply (evolve_inv (λ _, False) _ _ example_coded_inv).
Qed.

(** A used code under a wrong try, and a day later, when the prune has taken it. *)
Definition example_tried : World := (record_wrong_try 4 (example_spend example_coded).2).2.
Definition clock_at (now : datetime) (w : World) : World :=
  MkWorld (db w) (saved w) now (utc w) (utc_reads w) (ids w) (ids_issued w) (effects w).
Definition example_pruned : World := (prune (clock_at (1001 + days 1) example_tried)).2.

Lemma time_passes fresh now w : code_step fresh w (clock_at now w).
Proof. apply step_elsewhere; [intros Hc; exact Hc|reflexivity]. Qed.

Lemma example_history :
  rtc (code_step (λ _, False)) (example_spend example_coded).2 example_pruned.
Proof.
  eapply rtc_l; [apply step_wrong_try|]. fold example_tried.
  eapply rtc_l; [apply (time_passes _ (1001 + days 1))|]. apply rtc_once, step_prune.
Qed.

Lemma code_lifecycle_witness :
  codes_inv example_pruned ∧ codes_inv example_tried ∧
  ∃ r', t_codes (db example_tried) !! 71%N = Some r' ∧ code_open r' = false ∧ dc_failed_attempts r' = 0%Z.
Proof.
  destruct (code_lifecycle (λ _, False) _ _ example_spent_inv example_history) as [Hp _].
  split; [exact Hp|].
  destruct (code_lifecycle (λ _, False) (example_spend example_coded).2 example_tried) as [Hi Hr].
  - exact example_spent_inv.
  - apply rtc_once, step_wrong_try.
  - split; [exact Hi|].
    assert ((λ r, (code_open r, dc_failed_attempts r)) <$>
              t_codes (db (example_spend example_coded).2) !! 71%N = Some (false, 0%Z)) as Hv
      by (vm_compute; reflexivity).
    assert (is_Some (t_codes (db example_tried) !! 71%N)) as [r' Hr'] by (vm_compute; by eexists).
    apply fmap_Some in Hv as (r & E & [= Ho Hf]).
    destruct (Hr 71%N r r' (λ f, f) E Hr') as [Hsame _]. exists r'. split; [exact Hr'|].
    rewrite (Hsame (eq_sym Ho)). by split.
Defined.

Lemma code_spent_once_witness :
  is_ok (example_spend example_coded).1 = true ∧ t_codes (db example_pruned) = ∅ ∧
  (∃ e, (example_spend example_tried).1 = Raise e ∧ db (example_spend example_tried).2 = db example_tried) ∧
  ∃ e, (example_spend example_pruned).1 = Raise e ∧ db (example_spend example_pruned).2 = db example_pruned.
Proof.
  assert (is_ok (example_spend example_coded).1 = true) as Hok by (vm_compute; reflexivity).
  split; [exact Hok|]. split; [vm_compute; reflexivity|]. pose proof example_history as Hh.
  assert (rtc (code_step (λ _, False)) (example_spend example_coded).2 example_tried) as Ht
    by apply rtc_once, step_wrong_try.
  destruct (example_spend example_coded) as [[out|e] w2] eqn:E; [|discriminate Hok]. simpl in Hh, Ht.
  assert (∀ w, rtc (code_step (λ _, False)) w2 w →
    ∃ e, (example_spend w).1 = Raise e ∧ db (example_spend w).2 = db w) as Hall.
  { intros w Hw. destruct (example_spend w) as [out' w3] eqn:E'.
    destruct (code_spent_once (λ _, False) example_service default_authorization example_viewer 50 true "ok" "zalo"
      example_spending example_coded out w2 example_service default_authorization example_viewer 50 true
      "ok" "zalo" example_spending w out' w3 example_coded_inv E Hw (λ f, f) eq_refl E')
      as [_ (e & -> & Hd)].
    exists e. split; [reflexivity|exact Hd]. }
  split; apply Hall; [exact Ht|exact Hh].
Defined.

Lemma wrong_try_exact_witness :
  let fifth := Nat.iter 4 (λ w, (record_wrong_try 4 w).2) example_coded in
  (record_wrong_try 4 example_coded).1 = Ok 0%nat ∧ (record_wrong_try 4 fifth).1 = Ok 1%nat.
Proof.
  intros fifth. split; [|by vm_compute].
  rewrite (wrong_try_exact 4 example_coded example_coded_inv). vm_compute. reflexivity.
Defined.

Lemma view_issues_code_witness :
  let r := view example_view_service default_authorization example_viewer 50 "ok" true [123456%N]
             (example_pending None) in
  ∃ outcome issued w' row, r = (Ok outcome, w') ∧ vo_issued outcome = Some issued ∧
    t_codes (db w') !! dc_id row = Some row ∧ code_open row = true.
Proof.
  intros r. unfold r.
  assert ((match (view example_view_service default_authorization example_viewer 50 "ok" true
    [123456%N] (example_pending None)).1 with Ok o => vo_issued o | Raise _ => None end)
    = Some {| ic_code := new_code 123456; ic_expires_at := (1000 + CODE_TTL)%Z |}) as Hv
    by (vm_compute; reflexivity).
  destruct (view _ _ _ _ _ _ _ _) as [[o|e] w'] eqn:E; [|discriminate Hv]. simpl in Hv.
  destruct (view_issues_code example_view_service default_authorization example_viewer) with
    (approval_id := 50%N) (comment := "ok"%py) (draws := [123456%N]) (w := example_pending None)
    (outcome := o) (w' := w')
    (issued := {| ic_code := new_code 123456; ic_expires_at := (1000 + CODE_TTL)%Z |})
    as (request & key & n & row & H).
  - intros u w. reflexivity.
  - intros t port q Ht w. unfold for_type in Ht. simpl in Ht. rewrite filter_cons in Ht.
    destruct (base.decide _); simpl in Ht; [injection Ht as <-; reflexivity|discriminate Ht].
  - reflexivity.
  - exact E.
  - exact Hv.
  - destruct_and! H. exists o, {| ic_code := new_code 123456; ic_expires_at := (1000 + CODE_TTL)%Z |},
      w', row. by split_and!.
Defined.
