(* ===== verification/ChannelDecisions.v ===== *)
(** * Decisions over a chat channel

    [dw_agent_runtime/channel_decisions.py]: the fixed grammar of a chat reply
    ([parse_decision]), the service that takes a decision only when every check
    holds ([ChannelApprovalDecisionService]) and the chat command in front of it. *)

From S2P Require Import Prelude Errors Kernel Domain Contracts Accounts Store Hierarchy Membership.
From S2P Require Import RunStore ApprovalFlow ApprovalCodes.
Local Open Scope prog_scope.
Local Open Scope pystr_scope.

(** What the source takes from [unicodedata] and from [str.upper]: tables of the
    Unicode standard. *)
Record UnicodeData := {
  nfc : pystr → pystr;
  nfd : pystr → pystr;
  combining : N → bool;
  upper : pystr → pystr }.

(** [s.split(maxsplit=n)]: runs of white space, the rest after [n] splits whole. *)
Fixpoint take_word (l : list N) : list N * list N :=
  match l with
  | c :: r => if is_space c then ([], l) else let '(w, rest) := take_word r in (c :: w, rest)
  | [] => ([], [])
  end.

Fixpoint split_words (maxsplit : nat) (l : list N) : list pystr :=
  match drop_spaces l with
  | [] => []
  | r => match maxsplit with
         | O => [PyStr r]
         | S n => let '(w, rest) := take_word r in PyStr w :: split_words n rest
         end
  end.

Definition REFUSED_ACTION : pystr := "approval.channel_decision_refused".
Definition _APPROVE : pystr := "DUYET".
Definition _REJECT : pystr := "KHONG".

Definition APPROVE_HINT : pystr :=
  "Để duyệt, gõ đúng: DUYỆT <mã 6 số>. Mã hiện trên trang yêu cầu ở cổng, sau khi đăng nhập; nhận xét cũng nhập ở đó. Để không duyệt: KHÔNG <mã> <lý do>.".
Definition REJECT_HINT : pystr :=
  "Để không duyệt, gõ đúng: KHÔNG <mã 6 số> <lý do>. Lý do là bắt buộc.".

Inductive Refusal :=
  | WRONG_CODE | REF_EXPIRED | USED | REISSUED | LOCKED | STALE | NO_PERMISSION | REF_REQUESTER
  | ALREADY_DECIDED | REF_COMMENT_REQUIRED | NOT_DECIDED | DISABLED.

#[export] Instance Refusal_eq_dec : EqDecision Refusal.
Proof. solve_decision. Defined.

Definition refusal_value (r : Refusal) : pystr :=
  match r with
  | WRONG_CODE => "wrong_code" | REF_EXPIRED => "code_expired" | USED => "code_used"
  | REISSUED => "code_reissued" | LOCKED => "code_locked" | STALE => "changed_since_view"
  | NO_PERMISSION => "no_permission" | REF_REQUESTER => "requester"
  | ALREADY_DECIDED => "already_decided" | REF_COMMENT_REQUIRED => "comment_required"
  | NOT_DECIDED => "not_decided" | DISABLED => "channel_off"
  end.

(** [_REPLIES]; one reason always comes with its own reply. *)
Definition _REPLIES (r : Refusal) : option pystr :=
  match r with
  | WRONG_CODE => Some "Mã không đúng hoặc đã hết hạn."
  | REF_EXPIRED => Some "Mã đã hết hạn. Mở lại yêu cầu trên cổng để lấy mã mới."
  | USED => Some "Mã này đã được dùng; mỗi mã chỉ quyết được một lần."
  | REISSUED =>
      Some "Mã này đã được thay bằng mã mới khi anh/chị mở lại yêu cầu. Dùng mã đang hiện trên cổng."
  | LOCKED =>
      Some "Mã này đã bị khóa vì nhập sai 5 lần. Mở lại yêu cầu trên cổng để lấy mã mới."
  | STALE =>
      Some "Yêu cầu hoặc hồ sơ đã thay đổi sau khi anh/chị xem. Mở lại liên kết để xem bản mới và lấy mã mới."
  | NO_PERMISSION => Some "Anh/chị không có quyền quyết yêu cầu này."
  | REF_REQUESTER => Some "Anh/chị là người tạo yêu cầu này nên không tự quyết được."
  | REF_COMMENT_REQUIRED =>
      Some "Loại yêu cầu này cần nhận xét. Nhập nhận xét trên cổng rồi lấy mã mới."
  | NOT_DECIDED => Some "Chưa quyết được qua Zalo. Mở lại yêu cầu trên cổng để quyết."
  | DISABLED => Some "Quyết qua Zalo chưa bật ở hệ thống này; anh/chị quyết trên cổng."
  | ALREADY_DECIDED => None
  end%py.

(** [strftime("%H:%M ngày %d/%m/%Y")] of an instant at UTC+7: the proleptic
    Gregorian date of a day number. *)
Definition civil_date (day : Z) : Z * Z * Z :=
  (let z := day + 719468 in
   let era := z / 146097 in
   let doe := z - era * 146097 in
   let yoe := (doe - doe / 1460 + doe / 36524 - doe / 146096) / 365 in
   let doy := doe - (365 * yoe + yoe / 4 - yoe / 100) in
   let mp := (5 * doy + 2) / 153 in
   let d := doy - (153 * mp + 2) / 5 + 1 in
   let m := if mp <? 10 then mp + 3 else mp - 9 in
   (yoe + era * 400 + (if m <=? 2 then 1 else 0), m, d))%Z.

Definition vn_time (t : datetime) : pystr :=
  let local := (t / 1000000 + 7 * 3600)%Z in
  let '(y, m, d) := civil_date (local / 86400) in
  let sec := (local mod 86400)%Z in
  let two n := PyStr (padded 2 (Z.to_N n)) in
  two (sec / 3600)%Z +++ ":" +++ two ((sec / 60) mod 60)%Z +++ " ngày " +++ two d +++ "/"
    +++ two m +++ "/" +++ PyStr (decimal_text (Z.to_N y)).

Definition channel_label (channel : pystr) : pystr :=
  if bool_decide (channel = "web"%py) then "cổng web"
  else if bool_decide (channel = "zalo"%py) then "Zalo" else channel.

Definition already_decided_reply (coded : CodedApproval) : pystr :=
  if bool_decide (ar_status (ca_request coded) = CANCELLED) then "Yêu cầu này đã được hủy."
  else match ca_last_decision coded with
       | None => "Yêu cầu này đã được quyết."
       | Some l =>
           "Yêu cầu này đã được quyết lúc " +++ vn_time (ld_decided_at l)
             +++ " (giờ Việt Nam), trên " +++ channel_label (ld_channel l) +++ "."
       end.

Definition decided_reply (approve : bool) : pystr :=
  "Đã ghi quyết định " +++ (if approve then "DUYỆT" else "KHÔNG DUYỆT")
    +++ ". Kết quả xem trên cổng.".

(** ** The grammar *)

Record ParsedDecision := { pd_approve : bool; pd_code : pystr; pd_reason : pystr }.

(** [ParsedDecision | Malformed | None] *)
Inductive parsed :=
  | Parsed (d : ParsedDecision)
  | Malformed (hint : pystr)
  | NotADecision.

Section Grammar.
Context (u : UnicodeData).

Definition _fold (word : pystr) : pystr :=
  let replaced := PyStr (map (λ c, if (c =? 273)%N then 100 else if (c =? 272)%N then 68 else c)%N
                           (chars word)) in
  upper u (PyStr (filter (λ c, combining u c = false) (chars (nfd u replaced)))).

(** [token.isascii() and token.isdigit()], on a token that is not empty. *)
Definition ascii_digits (token : pystr) : bool :=
  py_truthy token && forallb is_digit (chars token).

Definition _is_code (token : pystr) : bool :=
  (py_len token =? CODE_DIGITS) && ascii_digits token.

Definition parse_decision (text : pystr) : parsed :=
  match split_words 2 (chars (py_strip (nfc u text))) with
  | [] => NotADecision
  | head :: rest =>
      if bool_decide (_fold head = _APPROVE) then
        match rest with
        | [token] =>
            if _is_code token
            then Parsed {| pd_approve := true; pd_code := token; pd_reason := "" |}
            else Malformed APPROVE_HINT
        | _ => Malformed APPROVE_HINT
        end
      else
        match rest with
        | token :: more =>
            if bool_decide (_fold head = _REJECT) && ascii_digits token then
              let reason := match more with [r] => py_strip r | _ => "" end in
              if _is_code token && py_truthy reason
              then Parsed {| pd_approve := false; pd_code := token; pd_reason := reason |}
              else Malformed REJECT_HINT
            else NotADecision
        | [] => NotADecision
        end
  end.
End Grammar.

(** ** The service *)

Record ChannelDecisionOutcome := {
  cdo_decided : bool;
  cdo_reason : option Refusal;
  cdo_reply : pystr }.

Record Message := { ms_channel : pystr; ms_message_id : pystr; ms_chat_id : pystr }.

(** [LinkedDecisionAccessPort] *)
Abbreviation AccessPort := (uuid → uuid → uuid → gset pystr → Prog (option AccessContext)).

Record ChannelApprovalDecisionService := {
  cs_flow : ApproveAndResumeService;
  cs_authorization : ScopeAuthorizationService;
  cs_subjects : list (pystr * VersionPort);
  cs_access : AccessPort;
  cs_key : option DecisionCodeKey;
  cs_chat_reference : pystr → pystr → pystr }.

Definition _refused (reason : Refusal) (reply : option pystr) : ChannelDecisionOutcome :=
  {| cdo_decided := false; cdo_reason := Some reason;
     cdo_reply := match reply with Some r => r | None => default "" (_REPLIES reason) end |}.

Definition _joined (comment reason : pystr) : pystr :=
  if py_truthy (py_strip comment) then comment +++ PyStr [10%N] +++ reason else reason.

Section Service.
Context (svc : ChannelApprovalDecisionService).

Definition refusal_event (reason : Refusal) (code : StoredCode) (message : Message)
    (id : uuid) (now : datetime) : AuditEvent :=
  {| ae_id := id; ae_tenant_id := sc_tenant_id code; ae_workspace_id := sc_workspace_id code;
     ae_actor_id := sc_user_id code; ae_action := REFUSED_ACTION;
     ae_resource_type := "approval_request"; ae_resource_id := uuid_str (sc_approval_id code);
     ae_occurred_at := now; ae_run_id := None; ae_policy_decision := None; ae_trace_id := None;
     ae_details :=
       {[ "reason" := JStr (refusal_value reason); "channel" := JStr (ms_channel message);
          "code_id" := JStr (uuid_str (sc_id code));
          "receipt_id" := JStr (uuid_str (sc_receipt_id code));
          "message_id" := JStr (ms_message_id message);
          "chat_reference" :=
            JStr (cs_chat_reference svc (ms_channel message) (ms_chat_id message)) ]} |}.

Definition _refuse (reason : Refusal) (code : StoredCode) (message : Message)
    (reply : option pystr) : Prog ChannelDecisionOutcome :=
  let! id := new_uuid in
  let! now := now_utc in
  let! event := lift_res (make_audit_event (refusal_event reason code message id now)) in
  record_refusal event ;;;
  ret (_refused reason reply).

Definition state_refusal (s : CodeState) : option Refusal :=
  match s with
  | CS_USED => Some USED | CS_EXPIRED => Some REF_EXPIRED | CS_LOCKED => Some LOCKED
  | CS_REISSUED => Some REISSUED | CS_OPEN => None
  end.

Definition is_open_code (c : StoredCode) : bool := bool_decide (sc_state c = CS_OPEN).

(** [frozenset({APPROVALS_DECIDE}) | ({request.required_scope} if any)] *)
Definition ceiling_for (request : ApprovalRequest) : gset pystr :=
  {[ APPROVALS_DECIDE ]} ∪
    match ar_required_scope request with
    | Some s => if py_truthy s then {[ s ]} else ∅
    | None => ∅
    end.

(** What a failure of the decision is answered with. *)
Definition after_failure (code : StoredCode) (message : Message) (exc : exn)
    : Prog ChannelDecisionOutcome :=
  match exn_cls exc with
  | AdmissionRefusedError reason =>
      _refuse (if bool_decide (reason = ADMISSION_STALE) then STALE else USED) code message None
  | _ =>
      if isinstance exc PermissionDeniedError || isinstance exc NotFoundError
      then _refuse NO_PERMISSION code message None
      else if isinstance exc ConflictError then
        let! again := coded_approval code in
        match again with
        | Some coded =>
            if negb (bool_decide (ar_status (ca_request coded) = PENDING))
            then _refuse ALREADY_DECIDED code message (Some (already_decided_reply coded))
            else _refuse NOT_DECIDED code message None
        | None => _refuse NOT_DECIDED code message None
        end
      else reraise exc
  end.

(** [CodeAdmission(...)] for a code, its receipt and the message. *)
Definition admission_for (user_id : uuid) (code : StoredCode) (coded : CodedApproval)
    (subject_version : pystr) (message : Message) : CodeAdmission :=
  {| cad_code_id := sc_id code; cad_user_id := user_id;
     cad_receipt_id := sc_receipt_id code;
     cad_approval_version := ca_receipt_approval_version coded;
     cad_subject_version := subject_version; cad_message_id := ms_message_id message;
     cad_chat_reference := cs_chat_reference svc (ms_channel message) (ms_chat_id message) |}.

(** From step 5 on: the sender's context and the subject's version are in hand. *)
Definition decide_with_context (user_id : uuid) (code : StoredCode) (coded : CodedApproval)
    (message : Message) (decision : ParsedDecision) (context : AccessContext)
    : Prog ChannelDecisionOutcome :=
  let request := ca_request coded in
  let! current :=
    match for_type (cs_subjects svc) (ar_approval_type request) with
    | None => ret None
    | Some port => port context request
    end in
  match current with
  | Some version =>
      if bool_decide (Some version = ca_receipt_subject_version coded) then
        let comment := if pd_approve decision then sc_comment code
                       else _joined (sc_comment code) (pd_reason decision) in
        if is_strict (cs_flow svc) (ar_approval_type request) && negb (py_truthy (py_strip comment))
        then _refuse REF_COMMENT_REQUIRED code message None
        else
          try_except (
            let! _ := ApprovalFlow.decide (cs_flow svc) (cs_authorization svc) context
              (ar_id request) (pd_approve decision) comment None (ms_channel message)
              (Some (code_admission (admission_for user_id code coded version message))) in
            ret {| cdo_decided := true; cdo_reason := None;
                   cdo_reply := decided_reply (pd_approve decision) |})
            (after_failure code message)
      else _refuse STALE code message None
  | None => _refuse STALE code message None
  end.

(** From step 3 on: an open code. *)
Definition decide_with_code (user_id : uuid) (code : StoredCode) (message : Message)
    (decision : ParsedDecision) : Prog ChannelDecisionOutcome :=
  let! coded := coded_approval code in
  match coded with
  | None => _refuse WRONG_CODE code message None
  | Some coded =>
      let request := ca_request coded in
      if negb (bool_decide (ar_status request = PENDING))
      then _refuse ALREADY_DECIDED code message (Some (already_decided_reply coded))
      else if bool_decide (ar_requested_by request = user_id)
      then _refuse REF_REQUESTER code message None
      else if negb (ca_receipt_approval_version coded =? ar_version request)%Z
      then _refuse STALE code message None
      else
        let! context := cs_access svc user_id (sc_tenant_id code) (sc_workspace_id code)
                          (ceiling_for request) in
        match context with
        | None => _refuse NO_PERMISSION code message None
        | Some context => decide_with_context user_id code coded message decision context
        end
  end.

Definition channel_decide (user_id : uuid) (message : Message) (decision : ParsedDecision)
    : Prog ChannelDecisionOutcome :=
  match cs_key svc with
  | None => ret (_refused DISABLED None)
  | Some key =>
      let! codes := codes_of user_id in
      let matched := filter (λ c,
        matches key (sc_code_hash c) (sc_approval_id c) user_id (pd_code decision) = true) codes in
      match matched with
      | [] =>
          let! _ := record_wrong_try user_id in
          ret (_refused WRONG_CODE None)
      | first :: _ =>
          match filter (λ c, is_open_code c = true) matched with
          | o :: _ :: _ => _refuse STALE o message None
          | opened =>
              let code := default first (head opened) in
              match state_refusal (sc_state code) with
              | Some reason => _refuse reason code message None
              | None => decide_with_code user_id code message decision
              end
          end
      end
  end.

(** [ChannelDecisionCommand.handle]; [reply] hands a sentence to the chat. *)
Definition handle (u : UnicodeData) (reply : pystr → Prog unit) (text : pystr)
    (message : Message) (context : AccessContext) : Prog bool :=
  match parse_decision u text with
  | NotADecision => ret false
  | Malformed hint => reply hint ;;; ret true
  | Parsed d =>
      let! outcome := channel_decide (principal_id context) message d in
      reply (cdo_reply outcome) ;;; ret true
  end.
End Service.

(** ** Words *)

Definition word (l : list N) : Prop := l ≠ [] ∧ forallb (λ c, negb (is_space c)) l = true.

Lemma take_word_space w c r :
  forallb (λ c, negb (is_space c)) w = true → is_space c = true → take_word (w ++ c :: r) = (w, c :: r).
Proof.
  intros Hw Hc. induction w as [|a w IH]; simpl in *; [by rewrite Hc|].
  apply andb_true_iff in Hw as [Ha Hw]. apply negb_true_iff in Ha. by rewrite Ha, IH.
Qed.

Lemma take_word_end w : forallb (λ c, negb (is_space c)) w = true → take_word w = (w, []).
Proof.
  intros Hw. induction w as [|a w IH]; simpl in *; [done|].
  apply andb_true_iff in Hw as [Ha Hw]. apply negb_true_iff in Ha. by rewrite Ha, IH.
Qed.

(** A text that begins with something else than white space keeps its beginning. *)
Lemma drop_spaces_app l r : l ≠ [] → drop_spaces l = l → drop_spaces (l ++ r) = l ++ r.
Proof.
  destruct l as [|a l]; [done|]. intros _ E. simpl in *.
  destruct (is_space a) eqn:Ha; [|done]. destruct (drop_spaces_suffix l) as (p & Ep & _).
  apply (f_equal length) in Ep, E. rewrite length_app in Ep. simpl in E. lia.
Qed.

Lemma word_starts w : word w → w ≠ [] ∧ drop_spaces w = w.
Proof.
  intros [Hn Hw]. split; [done|]. destruct w as [|a w]; [done|]. simpl in *.
  apply andb_true_iff in Hw as [Ha _]. apply negb_true_iff in Ha. by rewrite Ha.
Qed.

Lemma drop_spaces_word w r : word w → drop_spaces (w ++ r) = w ++ r.
Proof. intros [? ?]%word_starts. by apply drop_spaces_app. Qed.

Lemma split_words_cons n w r :
  word w → split_words (S n) (w ++ 32%N :: r) = PyStr w :: split_words n (32%N :: r).
Proof.
  intros Hw. pose proof Hw as [Hn Hs]. cbn [split_words].
  rewrite drop_spaces_word by done. destruct (w ++ 32%N :: r) eqn:E; [by destruct w|].
  rewrite <- E. by rewrite take_word_space.
Qed.

Lemma split_words_space n r : split_words n (32%N :: r) = split_words n r.
Proof. by destruct n. Qed.

Lemma split_words_last n w : word w → split_words (S n) w = [PyStr w].
Proof.
  intros Hw. pose proof Hw as [Hn Hs]. cbn [split_words].
  pose proof (drop_spaces_word w [] Hw) as E. rewrite app_nil_r in E. rewrite E.
  destruct w as [|a w]; [done|]. rewrite take_word_end by done. by destruct n.
Qed.

(** A text equal to its stripping neither begins nor ends with white space. *)
Lemma strip_same s :
  py_strip s = s →
  drop_spaces (chars s) = chars s ∧ drop_spaces (reverse (chars s)) = reverse (chars s).
Proof.
  destruct s as [l]. unfold py_strip. cbn [chars]. intros [= E].
  destruct (drop_spaces_suffix l) as (p & Ep & _).
  destruct (drop_spaces_suffix (reverse (drop_spaces l))) as (q & Eq & _).
  pose proof (f_equal length E) as El. pose proof (f_equal length Ep) as Epl.
  pose proof (f_equal length Eq) as Eql. rewrite length_reverse in El.
  rewrite length_app in Epl, Eql. rewrite length_reverse in Eql.
  assert (p = []) as -> by (apply nil_length_inv; lia). simpl in Ep. rewrite <- Ep in *.
  split; [done|]. assert (q = []) as -> by (apply nil_length_inv; lia). simpl in Eq. by symmetry.
Qed.

Lemma strip_keeps a l b :
  a ≠ [] → drop_spaces a = a → b ≠ [] → drop_spaces (reverse b) = reverse b →
  py_strip (PyStr (a ++ l ++ b)) = PyStr (a ++ l ++ b).
Proof.
  intros Ha Hsa Hb Hsb. unfold py_strip. cbn [chars]. f_equal. rewrite drop_spaces_app by done.
  rewrite (app_assoc a l b), reverse_app, drop_spaces_app; [|by intros E; apply Hb;
    apply (f_equal reverse) in E; rewrite reverse_involutive in E|done].
  by rewrite <- reverse_app, reverse_involutive.
Qed.

Lemma word_reverse w : word w → word (reverse w).
Proof.
  intros [Hn Hw]. split; [|by rewrite forallb_reverse]. intros E. apply Hn.
  apply (f_equal reverse) in E. by rewrite reverse_involutive in E.
Qed.

Lemma digit_not_space c : is_digit c = true → is_space c = false.
Proof.
  unfold is_digit. intros [H1%N.leb_le H2%N.leb_le]%andb_true_iff.
  assert (c ∈ [48; 49; 50; 51; 52; 53; 54; 55; 56; 57]%N) as Hc by (rewrite !elem_of_cons; lia).
  repeat (apply elem_of_cons in Hc as [->|Hc]; [done|]). by apply not_elem_of_nil in Hc.
Qed.

Lemma code_word code : _is_code code = true → word (chars code).
Proof.
  unfold _is_code, ascii_digits. intros [_ [Ht Hd]%andb_true_iff]%andb_true_iff. split.
  - intros E. unfold py_truthy in Ht. by rewrite E in Ht.
  - clear Ht. induction (chars code) as [|c l IH]; [done|]. simpl in *.
    apply andb_true_iff in Hd as [Hc Hl]. by rewrite (digit_not_space c Hc), IH.
Qed.

Lemma padded_digits k n : forallb is_digit (padded k n) = true ∧ length (padded k n) = k.
Proof.
  revert n. induction k as [|k IH]; intros n; [done|]. cbn [padded].
  destruct (IH (n / 10)%N) as [Hd Hl]. rewrite forallb_app, length_app, Hd, Hl. simpl.
  split; [|lia]. unfold is_digit. pose proof (N.mod_lt n 10 ltac:(done)).
  rewrite !andb_true_iff, !N.leb_le. split; [|done]. split; [apply N.le_add_r|].
  apply (N.add_le_mono_l _ 9 48). lia.
Qed.

Lemma new_code_is_code n : _is_code (new_code n) = true.
Proof.
  destruct (padded_digits CODE_DIGITS n) as [Hd Hl]. unfold _is_code, ascii_digits, new_code, py_len.
  cbn [chars]. rewrite Hl, Hd. unfold py_truthy. simpl chars.
  by destruct (padded CODE_DIGITS n).
Qed.

(** The two commands the hints print are read back as what they say: an approval with its
    code, a rejection with its code and reason, in any case or accent that folds to the
    verbs. *)
Theorem portal_commands_parse u n reason :
  let code := new_code n in
  let approval := approve_command code in
  let rejection := ("KHÔNG " +++ code +++ " " +++ reason)%py in
  nfc u approval = approval → nfc u rejection = rejection →
  _fold u "DUYỆT" = _APPROVE → _fold u "KHÔNG" = _REJECT →
  py_strip reason = reason → py_truthy reason = true →
  parse_decision u approval
    = Parsed {| pd_approve := true; pd_code := code; pd_reason := "" |} ∧
  parse_decision u rejection
    = Parsed {| pd_approve := false; pd_code := code; pd_reason := reason |}.
Proof.
  intros code approval rejection Ha Hr HD HK Hstrip Ht.
  pose proof (new_code_is_code n) as Hcode. fold code in Hcode.
  pose proof (code_word code Hcode) as Hw. pose proof Hcode as Hdig.
  unfold _is_code in Hdig. apply andb_true_iff in Hdig as [_ Hdig].
  set (D := chars "DUYỆT"%py). set (K := chars "KHÔNG"%py).
  assert (word D ∧ word K) as [HwD HwK] by (split; split; vm_compute; congruence).
  assert (chars approval = D ++ [32%N] ++ chars code) as Ea by done.
  assert (chars rejection = K ++ (32%N :: chars code ++ [32%N]) ++ chars reason) as Er.
  { unfold rejection, py_app. cbn [chars app]. by rewrite <- app_assoc. }
  split; unfold parse_decision.
  - rewrite Ha. assert (py_strip approval = approval) as ->.
    { change approval with (PyStr (chars approval)). rewrite Ea.
      apply strip_keeps; [apply HwD|by apply word_starts|apply Hw|]. by apply word_starts, word_reverse. }
    rewrite Ea. cbn [app]. rewrite split_words_cons, split_words_space, split_words_last by done.
    cbn iota. rewrite bool_decide_eq_true_2 by exact HD. change (PyStr (chars code)) with code.
    by rewrite Hcode.
  - destruct (strip_same reason Hstrip) as [Hs1 Hs2].
    assert (chars reason ≠ []) as Hn by (intros E; unfold py_truthy in Ht; by rewrite E in Ht).
    rewrite Hr. assert (py_strip rejection = rejection) as ->.
    { change rejection with (PyStr (chars rejection)). rewrite Er.
      apply strip_keeps; [apply HwK|by apply word_starts|done|done]. }
    rewrite Er. rewrite <- app_comm_cons, <- app_assoc. cbn [app].
    rewrite split_words_cons, split_words_space, split_words_cons, split_words_space by done.
    assert (split_words 0 (chars reason) = [reason]) as ->.
    { cbn [split_words]. rewrite Hs1. destruct reason as [[|]]; done. }
    cbn iota. change (PyStr K) with ("KHÔNG"%py). change (PyStr (chars code)) with code.
    rewrite bool_decide_eq_false_2 by (rewrite HK; done).
    rewrite bool_decide_eq_true_2 by exact HK. rewrite Hdig. cbn [andb].
    by rewrite Hcode, Hstrip, Ht.
Qed.

(** ** The access port a decision is taken under *)

(** What the service relies on: a port that reads, and a context of the person
    in that workspace with no role and no scope outside the ceiling. *)
Class LinkedAccess (access : AccessPort) : Prop := {
  la_reads u t ws c w : clean w → (access u t ws c w).2 = w;
  la_context u t ws ceiling w ctx w' :
    clean w → access u t ws ceiling w = (Ok (Some ctx), w') →
    tenant_id ctx = t ∧ workspace_id ctx = ws ∧ principal_id ctx = u ∧ roles ctx = ∅ ∧
    scopes ctx ⊆ ceiling }.

#[export] Instance access_for_linked : LinkedAccess access_for.
Proof.
  split; intros until w; [intros Hc; by rewrite access_for_run|].
  intros ctx w' Hc. rewrite access_for_run by done. intros [= Ha _].
  apply fmap_Some in Ha as (a & Ha%access_in_from & ->).
  destruct (af_place _ _ _ _ _ _ Ha) as [Ht Hw]. pose proof (af_user _ _ _ _ _ _ Ha) as Hu.
  destruct (af_member _ _ _ _ _ _ Ha) as (m & _ & _ & _ & Hr & Hs).
  apply bool_decide_eq_true in Hu. split_and!; [done..|]. simpl. rewrite Hs. set_solver.
Qed.

(** ** What the reads of a decision answer *)

Definition recent (now : datetime) (r : DecisionCodeRow) : bool := (now - days 1 <? dc_created_at r)%Z.

Lemma open_rows_insert_perm r l : insert_newest r l ≡ₚ r :: l.
Proof.
  induction l as [|s l IH]; simpl; [done|]. destruct (_ || _); [done|]. rewrite IH. constructor.
Qed.

Lemma codes_of_run user_id w :
  clean w → ∃ rows, rows ≡ₚ own_rows user_id (recent (db_now w)) (t_codes (db w)) ∧
    codes_of user_id w = (Ok (stored_code (db_now w) <$> rows), w).
Proof.
  intros Hc. exists (foldr insert_newest [] (own_rows user_id (recent (db_now w)) (t_codes (db w)))).
  split.
  - induction (own_rows _ _ _) as [|r l IH]; [done|]. simpl. by rewrite open_rows_insert_perm, IH.
  - unfold codes_of. by apply session_begin_read.
Qed.

(** The approval a code stands for, and the receipt of its view, in the code's
    tenant. *)
Record coded_from (w : World) (code : StoredCode) (coded : CodedApproval) : Prop := {
  cf_request : t_approvals (db w) !! sc_approval_id code = Some (ca_request coded);
  cf_tenant : ar_tenant_id (ca_request coded) = sc_tenant_id code;
  cf_workspace : ar_workspace_id (ca_request coded) = sc_workspace_id code;
  cf_receipt : ∃ receipt, t_receipts (db w) !! sc_receipt_id code = Some receipt ∧
    vr_user_id receipt = sc_user_id code ∧ vr_approval_id receipt = sc_approval_id code ∧
    ca_receipt_approval_version coded = vr_approval_version receipt ∧
    ca_receipt_subject_version coded = vr_subject_version receipt }.

Lemma coded_approval_run code w :
  clean w → ∃ r, coded_approval code w = (Ok r, w) ∧ ∀ coded, r = Some coded → coded_from w code coded.
Proof.
  intros Hc. unfold coded_approval.
  set (m := (let! row := _ in _)%prog).
  assert (∃ r, m w = (Ok r, w) ∧ ∀ coded, r = Some coded → coded_from w code coded) as (r & Hm & Hr).
  2: { exists r. split; [by apply session_begin_read|done]. }
  unfold m, sql_get, sql_select, bind, gets, ret. cbn.
  destruct (t_approvals (db w) !! _) as [row|] eqn:Ea; cbn; [|by eexists].
  destruct (visible (sc_tenant_id code) _ row) eqn:Ev; cbn; [|by eexists].
  destruct (t_receipts (db w) !! _) as [receipt|] eqn:Er; cbn; [|by eexists].
  destruct (visible (sc_tenant_id code) _ receipt) eqn:Ev'; cbn; [|by eexists].
  eexists. split; [done|]. intros coded [= <-]. unfold visible in *. simpl in *. to_prop.
  split; simpl; [done..|]. by exists receipt.
Qed.

(** ** What a decision ends in *)

Section Outcomes.
Context (svc : ChannelApprovalDecisionService) `{!LinkedAccess (cs_access svc)}.
Context (user_id : uuid) (message : Message) (d : ParsedDecision).
(** The port of a type reads the subject's version. *)
Context (ports_read : ∀ t port c r, for_type (cs_subjects svc) t = Some port →
           respects eq (port c r)).

(** One more audit event, committed, and nothing else. *)
Definition audited (code : StoredCode) (w : World) (o : ChannelDecisionOutcome) (w' : World) : Prop :=
  ∃ reason reply id now, o = _refused reason reply ∧ clean w' ∧
    let event := refusal_event svc reason code message id now in
    db w' = set_tbl (<[(id, now) := event]> (t_audit (db w))) (db w).

Lemma refuse_ok reason code reply w o w' :
  _refuse svc reason code message reply w = (Ok o, w') → audited code w o w'.
Proof.
  intros (id & s1 & H1 & H)%bind_ok. injection H1 as <- <-.
  apply bind_ok in H as (now & s2 & H2 & H). injection H2 as <- <-.
  apply bind_ok in H as (event & s3 & H3 & H). unfold lift_res, make_audit_event in H3.
  destruct (audit_event_valid _); [|done]. injection H3 as <- <-.
  apply bind_ok in H as ([] & s4 & H4 & H). injection H as <- <-.
  apply session_begin_ok in H4 as (s & H4 & ->). apply sql_insert_ok in H4 as (_ & _ & _ & ->).
  exists reason, reply. eexists _, _. split_and!; [done|done|simpl; reflexivity].
Qed.

(** What the person is held to have decided, and on what. *)
Record basis (w : World) (code : StoredCode) (coded : CodedApproval) (context : AccessContext)
    (version : pystr) : Prop := {
  bs_coded : coded_from w code coded;
  bs_pending : ar_status (ca_request coded) = PENDING;
  bs_not_own : ar_requested_by (ca_request coded) ≠ user_id;
  bs_approval_version : ca_receipt_approval_version coded = ar_version (ca_request coded);
  bs_context : cs_access svc user_id (sc_tenant_id code) (sc_workspace_id code)
                 (ceiling_for (ca_request coded)) w = (Ok (Some context), w);
  bs_subject : ∃ port, for_type (cs_subjects svc) (ar_approval_type (ca_request coded)) = Some port ∧
                 port context (ca_request coded) w = (Ok (Some version), w);
  bs_subject_version : ca_receipt_subject_version coded = Some version;
  bs_comment : is_strict (cs_flow svc) (ar_approval_type (ca_request coded)) = true →
               is_blank (if pd_approve d then sc_comment code
                         else _joined (sc_comment code) (pd_reason d)) = false }.

Definition admitted_by (code : StoredCode) (coded : CodedApproval) (version : pystr) :=
  Some (code_admission (admission_for svc user_id code coded version message)).

Definition comment_for (code : StoredCode) : pystr :=
  if pd_approve d then sc_comment code else _joined (sc_comment code) (pd_reason d).

(** The decision's own transaction, and the whole of it with the resume. *)
Definition committed (code : StoredCode) (coded : CodedApproval) (context : AccessContext)
    (version : pystr) :=
  decide_in_uow (cs_flow svc) (cs_authorization svc) context (ar_id (ca_request coded))
    (pd_approve d) (comment_for code) (ms_channel message) (admitted_by code coded version).

Definition attempt (code : StoredCode) (coded : CodedApproval) (context : AccessContext)
    (version : pystr) :=
  ApprovalFlow.decide (cs_flow svc) (cs_authorization svc) context (ar_id (ca_request coded))
    (pd_approve d) (comment_for code) None (ms_channel message) (admitted_by code coded version).

(** How an open code ends: refused and audited; decided; or decided and answered
    as a refusal, when what follows the commit raises. *)
Inductive ends (w : World) (code : StoredCode) : ChannelDecisionOutcome → World → Prop :=
  | ends_refused o w' : audited code w o w' → ends w code o w'
  | ends_decided coded context version request w' :
      basis w code coded context version →
      attempt code coded context version w = (Ok request, w') →
      ends w code {| cdo_decided := true; cdo_reason := None;
                     cdo_reply := decided_reply (pd_approve d) |} w'
  | ends_after_commit coded context version rr w1 e w2 o w' :
      basis w code coded context version →
      committed code coded context version w = (Ok rr, w1) →
      attempt code coded context version w = (Raise e, w2) →
      after_failure svc code message e w2 = (Ok o, w') →
      ends w code o w'.

Lemma after_failure_ok code e w o w' :
  clean w → after_failure svc code message e w = (Ok o, w') → audited code w o w'.
Proof.
  intros Hc. unfold after_failure.
  destruct (exn_cls e); try (intros H; exact (refuse_ok _ _ _ _ _ _ H)).
  all: destruct (_ || _); [apply refuse_ok|]; destruct (isinstance e ConflictError); [|done].
  all: intros (again & s & H1 & H)%bind_ok; destruct (coded_approval_run code w Hc) as (r & E & _).
  all: rewrite E in H1; injection H1 as <- <-; destruct r; [destruct (negb _)|]; by apply refuse_ok in H.
Qed.

Lemma decide_with_context_ends code coded context w o w' :
  clean w → coded_from w code coded → ar_status (ca_request coded) = PENDING →
  ar_requested_by (ca_request coded) ≠ user_id →
  ca_receipt_approval_version coded = ar_version (ca_request coded) →
  cs_access svc user_id (sc_tenant_id code) (sc_workspace_id code)
    (ceiling_for (ca_request coded)) w = (Ok (Some context), w) →
  decide_with_context svc user_id code coded message d context w = (Ok o, w') →
  ends w code o w'.
Proof.
  intros Hc Hco Hp Hn Hv Hctx. unfold decide_with_context. cbv zeta. fold (comment_for code).
  intros (current & s & Hs & H)%bind_ok.
  destruct (for_type (cs_subjects svc) _) as [port|] eqn:Ep.
  2: { injection Hs as <- <-. by apply ends_refused, (refuse_ok STALE _ None). }
  pose proof (ports_read _ _ context (ca_request coded) Ep w) as Hr. rewrite Hs in Hr. simpl in Hr.
  subst s. destruct current as [version|]; [|by apply ends_refused, (refuse_ok STALE _ None)].
  case_bool_decide as Hsv; [|by apply ends_refused, (refuse_ok STALE _ None)].
  destruct (is_strict _ _ && _) eqn:Hst; [by apply ends_refused, (refuse_ok REF_COMMENT_REQUIRED _ None)|].
  assert (basis w code coded context version) as Hb.
  { split; try done; [by exists port|]. intros E. rewrite E in Hst. simpl in Hst.
    by rewrite py_truthy_strip, negb_involutive in Hst. }
  unfold try_except in H. change (ApprovalFlow.decide _ _ _ _ _ _ _ _ _) with
    (attempt code coded context version) in H. unfold bind in H.
  destruct (attempt code coded context version w) as [[request|e] w2] eqn:Ea.
  - injection H as <- <-. by eapply ends_decided.
  - pose proof Ea as Ea'. unfold attempt, ApprovalFlow.decide, bind at 1 in Ea'.
    change (decide_in_uow _ _ _ _ _ _ _ _) with (committed code coded context version) in Ea'.
    destruct (committed code coded context version w) as [[rr|e'] w1] eqn:Ec.
    + by eapply ends_after_commit.
    + injection Ea' as -> ->. apply ends_refused.
      apply decide_in_uow_raise in Ec as [Hd Hsv']; [|done|apply code_admission_ok].
      apply after_failure_ok in H; [|unfold clean in *; congruence].
      unfold audited in *. by rewrite Hd in H.
Qed.

Lemma decide_with_code_ends code w o w' :
  clean w → decide_with_code svc user_id code message d w = (Ok o, w') → ends w code o w'.
Proof.
  intros Hc. unfold decide_with_code. intros (r & s & H1 & H)%bind_ok.
  destruct (coded_approval_run code w Hc) as (r' & E & Hco). rewrite E in H1. injection H1 as <- <-.
  destruct r' as [coded|]; [|by apply ends_refused, (refuse_ok WRONG_CODE _ None)].
  specialize (Hco coded eq_refl). case_bool_decide as Hp; simpl in H.
  2: by apply ends_refused, (refuse_ok _ _ _ _ _ _ H).
  case_bool_decide as Hn; [by apply ends_refused, (refuse_ok _ _ _ _ _ _ H)|].
  destruct (Z.eqb_spec (ca_receipt_approval_version coded) (ar_version (ca_request coded)));
    simpl in H; [|by apply ends_refused, (refuse_ok _ _ _ _ _ _ H)].
  apply bind_ok in H as (context & s & H1 & H).
  pose proof (la_reads user_id (sc_tenant_id code) (sc_workspace_id code)
    (ceiling_for (ca_request coded)) w Hc) as Hs. rewrite H1 in Hs. simpl in Hs. subst s.
  destruct context as [context|]; [|by apply ends_refused, (refuse_ok _ _ _ _ _ _ H)].
  by eapply decide_with_context_ends.
Qed.

Lemma after_failure_refuses code e w o w' :
  after_failure svc code message e w = (Ok o, w') → cdo_decided o = false.
Proof.
  assert (∀ reason reply s, _refuse svc reason code message reply s = (Ok o, w') →
    cdo_decided o = false) as Hr by (intros until s; by intros (? & ? & ? & ? & -> & _)%refuse_ok).
  unfold after_failure. destruct (exn_cls e); try (by apply Hr).
  all: destruct (_ || _); [by apply Hr|]; destruct (isinstance e ConflictError); [|done].
  all: intros (again & s & H1 & H)%bind_ok; destruct again; [destruct (negb _)|]; by apply Hr in H.
Qed.

Lemma ends_decided_inv w code o w' :
  ends w code o w' → cdo_decided o = true →
  ∃ coded context version request,
    basis w code coded context version ∧ attempt code coded context version w = (Ok request, w').
Proof.
  destruct 1 as [o w' (? & ? & ? & ? & -> & _)|coded context version request w' Hb Ha
                |? ? ? ? ? ? ? ? ? _ _ _ Hf%after_failure_refuses]; intros Hd; simpl in *; [done|eauto 6|congruence].
Qed.

(** The rows the digits name: the person's own of the last day. *)
Definition named (key : DecisionCodeKey) (w : World) (r : DecisionCodeRow) : Prop :=
  t_codes (db w) !! dc_id r = Some r ∧ dc_user_id r = user_id ∧ recent (db_now w) r = true ∧
  matches key (dc_code_hash r) (dc_approval_id r) user_id (pd_code d) = true.

Lemma channel_decide_cases w o w' :
  clean w → keyed (t_codes (db w)) →
  channel_decide svc user_id message d w = (Ok o, w') →
  (cs_key svc = None ∧ o = _refused DISABLED None ∧ w' = w) ∨
  ∃ key, cs_key svc = Some key ∧
    (((∀ r, ¬ named key w r) ∧ o = _refused WRONG_CODE None ∧ w' = (record_wrong_try user_id w).2) ∨
     ∃ r, named key w r ∧
       (audited (stored_code (db_now w) r) w o w' ∨
        code_state (db_now w) r = CS_OPEN ∧
        (∀ r', named key w r' → code_state (db_now w) r' = CS_OPEN → r' = r) ∧
        ends w (stored_code (db_now w) r) o w')).
Proof.
  intros Hc Hk H. unfold channel_decide in H.
  destruct (cs_key svc) as [key|]; [right|injection H as <- <-; by left].
  exists key. split; [done|]. apply bind_ok in H as (codes & s & H1 & H).
  destruct (codes_of_run user_id w Hc) as (rows & Hrows & E). rewrite E in H1. injection H1 as <- <-.
  set (hit := λ c, matches key (sc_code_hash c) (sc_approval_id c) user_id (pd_code d) = true) in H.
  assert (∀ c, c ∈ filter hit (stored_code (db_now w) <$> rows) ↔
            ∃ r, c = stored_code (db_now w) r ∧ named key w r) as Hm.
  { intros c. rewrite list_elem_of_filter, list_elem_of_fmap. split.
    - intros (Hh & r & -> & Hr). rewrite Hrows, elem_of_own_rows in Hr by done.
      destruct_and! Hr. exists r. by unfold named.
    - intros (r & -> & H1 & H2 & H3 & H4). split; [done|]. exists r. split; [done|].
      rewrite Hrows. by apply elem_of_own_rows. }
  change (filter (λ c, matches key (sc_code_hash c) (sc_approval_id c) user_id (pd_code d) = true))
    with (filter hit) in H.
  destruct (filter hit _) as [|first rest] eqn:Ef.
  { left. apply bind_ok in H as (n & s & H1 & H). injection H as <- <-. rewrite H1.
    split_and!; [|done|done]. intros r Hr. assert (stored_code (db_now w) r ∈ []) as []%not_elem_of_nil.
    rewrite (Hm _). eauto. }
  right. set (open := λ c, is_open_code c = true) in H.
  assert (∀ c, c ∈ filter open (first :: rest) ↔
            ∃ r, c = stored_code (db_now w) r ∧ named key w r ∧ code_state (db_now w) r = CS_OPEN) as Ho.
  { intros c. rewrite list_elem_of_filter, Hm. unfold open, is_open_code. rewrite bool_decide_eq_true.
    split; [intros (Hs & r & -> & Hr); by exists r|intros (r & -> & ? & ?); split; [done|by exists r]]. }
  change (filter (λ c, is_open_code c = true)) with (filter open) in H.
  destruct (filter open (first :: rest)) as [|c opened] eqn:Eo.
  - destruct (proj1 (Hm first) ltac:(left)) as (r & -> & Hr). exists r. split; [done|left].
    simpl in H. destruct (code_state (db_now w) r) eqn:Es; simpl in H; try by apply refuse_ok in H.
    assert (stored_code (db_now w) r ∈ []) as []%not_elem_of_nil. rewrite (Ho _). eauto.
  - destruct (proj1 (Ho c) ltac:(left)) as (r & -> & Hr & Hs). exists r. split; [done|].
    destruct opened as [|c' opened]; [right|left; by apply refuse_ok in H].
    split_and!; [done| |].
    + intros r' Hr' Hs'. assert (stored_code (db_now w) r' ∈ [stored_code (db_now w) r]) as
        Heq%list_elem_of_singleton by (rewrite (Ho _); eauto).
      apply (f_equal sc_id) in Heq. simpl in Heq. destruct Hr as [Hr _], Hr' as [Hr' _]. congruence.
    + simpl in H. rewrite Hs in H. by apply decide_with_code_ends.
Qed.

(** C12: a chat reply decides an approval only when the digits are those of exactly one open
    code of the sender, the request is pending and unchanged since the sender saw it,
    the sender is not the requester and may decide in the code's workspace with no scope
    beyond the ceiling; the decision is committed and the code spent with it. *)
Theorem channel_decision_sound w o w' :
  codes_inv w → channel_decide svc user_id message d w = (Ok o, w') → cdo_decided o = true →
  ∃ key r coded context version request rr w1,
    let code := stored_code (db_now w) r in
    cs_key svc = Some key ∧ named key w r ∧
    (∀ r', named key w r' → code_state (db_now w) r' = CS_OPEN → r' = r) ∧
    basis w code coded context version ∧
    (principal_id context = user_id ∧ roles context = ∅ ∧
     scopes context ⊆ ceiling_for (ca_request coded)) ∧
    spendable (ar_tenant_id (ca_request coded)) user_id (db_now w) r = true ∧
    committed code coded context version w = (Ok rr, w1) ∧ saved w1 = db w1 ∧
    t_codes (db w1) = <[dc_id r := use_code (db_now w) r]> (t_codes (db w)) ∧
    attempt code coded context version w = (Ok request, w').
Proof.
  intros Hi H Hd. pose proof (ci_clean _ Hi) as Hc.
  apply channel_decide_cases in H as [(_ & -> & _)|(key & Hkey & [(_ & -> & _)|(r & Hr & H)])];
    [done|done| |done|apply Hi].
  destruct H as [(? & ? & ? & ? & -> & _)|(_ & Hone & He)]; [done|].
  apply ends_decided_inv in He as (coded & context & version & request & Hb & Ha); [|done].
  pose proof Ha as Ha'. unfold attempt, ApprovalFlow.decide in Ha'.
  apply bind_ok in Ha' as (rr & w1 & Hcm & _).
  pose proof (bs_context _ _ _ _ _ Hb) as Hctx. apply la_context in Hctx as (Ht & _ & Hu & Hro & Hsc); [|done].
  destruct rr as [request' record].
  pose proof Hcm as (_ & r' & Hr' & Hsp & Hcodes & Hsv)%spend_ok; [|done].
  destruct Hr as (Hrow & Hr). simpl in Hr'. assert (r' = r) as -> by congruence.
  exists key, r, coded, context, version, request, (request', record), w1.
  split_and!; try done. rewrite (cf_tenant _ _ _ (bs_coded _ _ _ _ _ Hb)).
  simpl. simpl in Ht. by rewrite <- Ht.
Qed.

(** A reply that is refused writes at most one audit event under the code's tenant, or
    counts a wrong try, and leaves every approval and decision as it was unless a resume
    failed after the commit. *)
Theorem channel_refusal_writes w o w' :
  clean w → keyed (t_codes (db w)) →
  channel_decide svc user_id message d w = (Ok o, w') → cdo_decided o = false →
  (cs_key svc = None ∧ w' = w) ∨
  ∃ key, cs_key svc = Some key ∧
    (((∀ r, ¬ named key w r) ∧ w' = (record_wrong_try user_id w).2) ∨
     ∃ r, named key w r ∧
       let code := stored_code (db_now w) r in
       (audited code w o w' ∨
        ∃ coded context version rr w1 e w2,
          basis w code coded context version ∧
          committed code coded context version w = (Ok rr, w1) ∧ saved w1 = db w1 ∧
          attempt code coded context version w = (Raise e, w2) ∧
          after_failure svc code message e w2 = (Ok o, w'))).
Proof.
  intros Hc Hk H Hd.
  apply channel_decide_cases in H as [(? & _ & ?)|(key & Hkey & H)]; [by left| |done..].
  right. exists key. split; [done|]. destruct H as [(? & _ & ?)|(r & Hr & H)]; [by left|right].
  exists r. split; [done|]. destruct H as [?|(_ & _ & He)]; [by left|].
  destruct He as [o w' ?|? ? ? ? ? ? ?|coded context version [rq rec] w1 e w2 o w' Hb Hcm Ha Hf]; [by left|done|].
  right. exists coded, context, version, (rq, rec), w1, e, w2. split_and!; try done.
  by apply decide_in_uow_ok in Hcm as (? & ? & ? & ? & _ & _ & _ & _ & ->).
Qed.

(** What [decide_with_context] does once every check held. *)
Lemma decide_with_context_reaches w code coded context version :
  basis w code coded context version →
  decide_with_context svc user_id code coded message d context w =
    try_except (let! _ := attempt code coded context version in
                ret {| cdo_decided := true; cdo_reason := None;
                       cdo_reply := decided_reply (pd_approve d) |})
      (after_failure svc code message) w.
Proof.
  intros [_ _ _ _ _ (port & Hp & Hs) Hsv Hb]. unfold decide_with_context, bind at 1. cbv zeta.
  rewrite Hp, Hs, Hsv, bool_decide_eq_true_2 by done. fold (comment_for code) in *.
  assert (is_strict (cs_flow svc) (ar_approval_type (ca_request coded))
          && negb (py_truthy (py_strip (comment_for code))) = false) as ->; [|done].
  destruct (is_strict _ _); [|done]. rewrite py_truthy_strip, negb_involutive. simpl. by apply Hb.
Qed.

(** When resuming the run raises a permission or not-found error after the decision is
    committed, the sender is told they have no permission and a refusal is audited,
    though the decision stands. *)
Theorem resume_failure_told_as_refusal w code coded context version request record w1 e w2 o w' :
  codes_inv w → basis w code coded context version →
  committed code coded context version w = (Ok (request, record), w1) →
  attempt code coded context version w = (Raise e, w2) →
  exn_cls e = PermissionDeniedError ∨ exn_cls e = NotFoundError →
  decide_with_context svc user_id code coded message d context w = (Ok o, w') →
  ar_status request = (if pd_approve d then APPROVED else REJECTED) ∧ saved w1 = db w1 ∧
  (∃ r, t_codes (db w1) !! sc_id code = Some (use_code (db_now w) r)) ∧
  o = _refused NO_PERMISSION None ∧ cdo_decided o = false.
Proof.
  intros Hi Hb Hcm Ha Hcls H. rewrite (decide_with_context_reaches w code coded context version) in H by done.
  unfold try_except, bind at 1 in H. rewrite Ha in H.
  assert (o = _refused NO_PERMISSION None) as ->.
  { unfold after_failure, isinstance in H. destruct Hcls as [E|E]; rewrite E in H; cbn -[_refuse] in H;
      by apply bind_ok in H as (? & ? & _ & (? & ? & _ & (? & ? & _ & ([] & ? & _ & [= <- _])%bind_ok)%bind_ok)%bind_ok). }
  pose proof Hcm as (_ & r & _ & _ & Hcodes & Hsv)%spend_ok; [|done].
  apply decide_in_uow_ok in Hcm as (rq & ad & s1 & s2 & _ & _ & _ & Hw & _).
  apply write_rows_status in Hw. split_and!; [done..| |done|done].
  exists r. rewrite Hcodes. apply lookup_insert_eq.
Qed.
End Outcomes.

(** ** Concrete instances *)

(** The letters the two verbs need, and nothing more of Unicode. *)
Definition example_unicode : UnicodeData :=
  {| nfc s := s;
     nfd s := PyStr (mjoin (map (λ c, if (c =? 7878)%N then [69; 803; 770]
                                     else if (c =? 212)%N then [79; 770] else [c])%N (chars s)));
     combining c := ((768 <=? c) && (c <=? 879))%N;
     upper := py_upper_ascii |}.

Lemma portal_commands_parse_witness :
  parse_decision example_unicode (approve_command (new_code 42)) =
    Parsed {| pd_approve := true; pd_code := "000042"; pd_reason := "" |} ∧
  parse_decision example_unicode "KHÔNG 000042 thiếu hồ sơ" =
    Parsed {| pd_approve := false; pd_code := "000042"; pd_reason := "thiếu hồ sơ" |}.
Proof.
  exact (portal_commands_parse example_unicode 42 "thiếu hồ sơ" eq_refl eq_refl eq_refl eq_refl
    eq_refl eq_refl).
Defined.

Definition example_chat_org : OrgDb :=
  MkOrg {[ 1%N := {| tn_id := 1; tn_slug := "acme"; tn_name := "ACME"; tn_status := "active"; tn_record_visibility := "open";
                     tn_max_autonomy_level := A4; tn_created_at := 0 |} ]}
    ∅ ∅ ∅
    {[ 1%N := {| mb_id := 1; mb_tenant_id := 1; mb_workspace_id := 2; mb_user_id := 4;
                 mb_role_keys := ["manager"]; mb_permission_set_keys := [];
                 mb_clearance := "internal"; mb_department := "general";
                 mb_manager_user_id := None; mb_created_at := 0 |} ]}
    {[ 1%N := {| en_id := 1; en_tenant_id := 1; en_plan_id := "pro";
                 en_feature_overrides := [] |} ]}
    {[ "pro"%py := [] ]}
    {[ "manager"%py := [APPROVALS_DECIDE; "notes.publish"%py] ]} ∅ ∅ ∅ ∅ ∅ ∅.

(** The request 50, of the run 10 when there is one, and its code 123456. *)
Definition example_chat_db (run : option uuid) : Db :=
  set_tbl {[ 71%N := new_code_row example_receipt example_new_code 1000 ]}
    (set_tbl {[ 70%N := example_receipt ]}
       (set_org example_chat_org
          (set_tbl {[ 50%N := example_request run ]} (db (example_pending None))))).

Definition example_chat : World := example_world (example_chat_db None) 1000.

Definition example_channel_service (flow : ApproveAndResumeService) :=
  {| cs_flow := flow; cs_authorization := default_authorization;
     cs_subjects := [("notes."%py, λ _ _, ret (Some "v1"%py))]; cs_access := access_for;
     cs_key := Some example_key; cs_chat_reference ch id := ch +++ ":" +++ id |}.

Definition example_message : Message :=
  {| ms_channel := "zalo"; ms_message_id := "m1"; ms_chat_id := "c1" |}.
Definition example_yes (code : pystr) : ParsedDecision :=
  {| pd_approve := true; pd_code := code; pd_reason := "" |}.

Lemma example_chat_inv run :
  codes_inv (example_world (example_chat_db run) 1000).
Proof.
  split; [reflexivity| |by vm_compute|].
  - intros k r. simpl. by intros [<- <-]%lookup_singleton_Some.
  - intros k r. simpl. intros [_ <-]%lookup_singleton_Some. apply new_code_ok.
Qed.

Lemma example_ports_read flow t port c r :
  for_type (cs_subjects (example_channel_service flow)) t = Some port → respects eq (port c r).
Proof.
  unfold for_type. simpl. rewrite filter_cons. destruct (base.decide _); simpl; [|done].
  intros [= <-]. by intros w.
Qed.

Lemma channel_decision_sound_witness :
  let svc := example_channel_service example_service in
  let p := channel_decide svc 4 example_message (example_yes (new_code 123456)) example_chat in
  (cdo_decided <$> (match p.1 with Ok o => Some o | Raise _ => None end)) = Some true ∧
  ∃ r w1, dc_id r = 71%N ∧ saved w1 = db w1 ∧
    t_codes (db w1) !! 71%N = Some (use_code 1000 r).
Proof.
  intros svc p.
  assert ((cdo_decided <$> (match p.1 with Ok o => Some o | Raise _ => None end)) = Some true) as Hd
    by (vm_compute; reflexivity).
  split; [exact Hd|]. destruct p as [[o|e] w'] eqn:E; [|discriminate Hd]. simpl in Hd.
  destruct (channel_decision_sound svc 4 example_message (example_yes (new_code 123456))
    (example_ports_read example_service) example_chat o w' (example_chat_inv None) E
    ltac:(by injection Hd)) as (key & r & coded & context & version & request & rr & w1 & H).
  destruct H as (_ & (Hr & _) & _ & _ & _ & _ & _ & Hsv & Hcodes & _).
  pose proof (example_chat_inv None) as [_ Hk _ _].
  assert (dc_id r = 71%N) as Hid.
  { simpl in Hr. by apply lookup_singleton_Some in Hr as [<- _]. }
  exists r, w1. split; [exact Hid|]. split; [exact Hsv|]. rewrite Hcodes, Hid. apply lookup_insert_eq.
Defined.

Lemma channel_refusal_writes_witness :
  let svc := example_channel_service example_service in
  let p := channel_decide svc 4 example_message (example_yes (new_code 1)) example_chat in
  p.1 = Ok (_refused WRONG_CODE None) ∧ p.2 = (record_wrong_try 4 example_chat).2.
Proof.
  intros svc p. assert (is_ok p.1 = true) as Hok by (by vm_compute).
  assert (p.1 = Ok (_refused WRONG_CODE None)) as Hr by (vm_compute; reflexivity).
  split; [exact Hr|]. destruct p as [[o|e] w'] eqn:E; [|discriminate Hok]. injection Hr as ->.
  pose proof (example_chat_inv None) as [Hc Hk _ _].
  destruct (channel_refusal_writes svc 4 example_message (example_yes (new_code 1))
    (example_ports_read example_service) example_chat _ w' Hc Hk E eq_refl)
    as [[Hn _]|(key & Hkey & [[_ Hw]|(r & Hr & _)])]; [discriminate Hn|exact Hw|exfalso].
  destruct Hr as (Hr & _ & _ & Hm). injection Hkey as <-.
  simpl in Hr. apply lookup_singleton_Some in Hr as [_ <-]. by vm_compute in Hm.
Defined.

(** The graph of the run 10 is refused a tool while it resumes. *)
Definition example_denied_service : ApproveAndResumeService :=
  {| runner := {| hosts _ _ _ := true;
                  resume _ _ _ := raise PermissionDeniedError "denied by policy" |};
     strict_approval_prefixes := {[ "notes." ]}; decision_guards := ∅ |}.

Definition example_waiting : World :=
  example_world (set_tbl (t_runs (db example_parked)) (example_chat_db (Some 10%N))) 1000.

Definition example_coded_request : CodedApproval :=
  {| ca_request := example_request (Some 10%N); ca_receipt_approval_version := 1;
     ca_receipt_subject_version := Some "v1"; ca_last_decision := None |}.

Definition example_sender : AccessContext :=
  match (access_for 4 1 2 (ceiling_for (example_request (Some 10%N))) example_waiting).1 with
  | Ok (Some c) => c
  | _ => example_viewer
  end.

Definition example_row : DecisionCodeRow := new_code_row example_receipt example_new_code 1000.

Lemma example_basis :
  basis (example_channel_service example_denied_service) 4 (example_yes (new_code 123456))
    example_waiting (stored_code 1000 example_row) example_coded_request example_sender "v1".
Proof.
  split; try reflexivity.
  - split; try reflexivity. by exists example_receipt.
  - done.
  - eexists. split; [reflexivity|reflexivity].
Qed.

Lemma resume_failure_told_as_refusal_witness :
  let svc := example_channel_service example_denied_service in
  let p := decide_with_context svc 4 (stored_code 1000 example_row) example_coded_request
             example_message (example_yes (new_code 123456)) example_sender example_waiting in
  p.1 = Ok (_refused NO_PERMISSION None) ∧
  ∃ request record w1,
    committed svc 4 example_message (example_yes (new_code 123456)) (stored_code 1000 example_row)
      example_coded_request example_sender "v1" example_waiting = (Ok (request, record), w1) ∧
    ar_status request = APPROVED ∧ saved w1 = db w1.
Proof.
  intros svc p.
  set (c := committed svc 4 example_message (example_yes (new_code 123456))
    (stored_code 1000 example_row) example_coded_request example_sender "v1" example_waiting).
  set (a := attempt svc 4 example_message (example_yes (new_code 123456))
    (stored_code 1000 example_row) example_coded_request example_sender "v1" example_waiting).
  assert (is_ok c.1 = true) as Hc by (by vm_compute).
  assert (is_ok p.1 = true) as Hp by (by vm_compute).
  assert ((match a.1 with Ok _ => None | Raise e => Some (exn_cls e) end)
          = Some PermissionDeniedError) as Ha by (by vm_compute).
  destruct c as [[[request record]|e] w1] eqn:Ec; [|discriminate Hc].
  destruct p as [[o|e] w'] eqn:Ep; [|discriminate Hp].
  destruct a as [[o'|e] w2] eqn:Ea; [discriminate Ha|].
  assert (codes_inv example_waiting) as Hi.
  { destruct (example_chat_inv (Some 10%N)) as [_ H1 H2 H3]. by split. }
  destruct (resume_failure_told_as_refusal svc 4 example_message (example_yes (new_code 123456))
    example_waiting (stored_code 1000 example_row) example_coded_request example_sender "v1"
    request record w1 e w2 o w' Hi example_basis Ec Ea ltac:(left; by injection Ha) Ep)
    as (Hs & Hsv & _ & -> & _).
  split; [reflexivity|]. exists request, record, w1. split; [reflexivity|]. split; [exact Hs|exact Hsv].
Defined.
