(* ===== verification/SupportAccess.v ===== *)
(** * Customer-granted support access

    [dw_platform/application/support_access.py] on the tables: the customer's
    side ([SupportGrantService] over [SqlSupportGrantRepository]), the operators'
    assignment ([ProvisioningService.assign_support_request]) and the context a
    staff member acts in ([SupportAccessContextFactory] over [SqlStaffGrants]).
    Every write of a grant goes through the trigger and the CHECKs of
    [SupportGrants]. *)

From S2P Require Import Prelude Errors Kernel Domain Accounts SupportGrants Store Membership.
Local Open Scope prog_scope.
Local Open Scope pystr_scope.

(** ** [persistence/support_grants.py] *)

(** A violated constraint. *)
Definition check_grant (g : SupportGrant) : Prog unit :=
  when negb (grant_checks g) then
    raise (IntegrityError "ck_support_grants") "new row violates check constraint".

(** [INSERT] of a grant: the trigger, the CHECKs, the keys. *)
Definition insert_grant (tenant : uuid) (g : SupportGrant) : Prog SupportGrant :=
  let! rows := sql_select (R := SupportGrant) tenant (λ _, true) in
  let! g := lift_res (guard_insert (sg_code <$> rows) g) in
  check_grant g ;;;
  sql_insert tenant g ;;;
  ret g.

(** [UPDATE ... WHERE id = grant_id AND p RETURNING *]. *)
Definition update_grant (tenant grant_id : uuid) (p : SupportGrant → bool)
    (f : SupportGrant → SupportGrant) : Prog (option SupportGrant) :=
  let! row := sql_get (R := SupportGrant) tenant grant_id p in
  match row with
  | None => ret None
  | Some old =>
      let new := f old in
      lift_res (guard_update old new) ;;;
      check_grant new ;;;
      let! _ := sql_update (R := SupportGrant) tenant (λ r, bool_decide (sg_id r = grant_id)) (λ _, new) in
      ret (Some new)
  end.

(** [_mine] *)
Definition _mine (context : AccessContext) (requested_by : option uuid) (g : SupportGrant) : bool :=
  bool_decide (sg_workspace_id g = workspace_id context)
  && match requested_by with
     | Some u => bool_decide (sg_requested_by g = Some u)
     | None => true
     end.

Definition workspace_name (context : AccessContext) : Prog (option pystr) :=
  session_begin (gets (λ w,
    ws ← t_workspaces (t_org (db w)) !! workspace_id context;
    if bool_decide (ws_tenant_id ws = tenant_id context) then Some (ws_name ws) else None)).

(** [AuditFor]: the event of a grant, its id drawn when it is built. *)
Abbreviation AuditFor := (SupportGrant → Prog AuditEvent).

Definition append_for (tenant : uuid) (audit : AuditFor) (g : SupportGrant) : Prog unit :=
  let! event := audit g in
  let! event := lift_res (make_audit_event event) in
  audit_append tenant event.

Definition repo_create (context : AccessContext) (grant : NewSupportGrant) (audit : AuditFor)
    : Prog SupportGrant :=
  session_begin (
    let! created := insert_grant (tenant_id context)
                      (row_of_new (tenant_id context) (workspace_id context) "" grant) in
    append_for (tenant_id context) audit created ;;;
    ret created).

Definition repo_get (context : AccessContext) (grant_id : uuid) (requested_by : option uuid)
    : Prog (option SupportGrant) :=
  session_begin (sql_get (tenant_id context) grant_id (_mine context requested_by)).

(** [ORDER BY requested_at DESC, id DESC] *)
Definition requested_after (a b : SupportGrant) : Prop :=
  (sg_requested_at b < sg_requested_at a)%Z ∨
  sg_requested_at b = sg_requested_at a ∧ (sg_id b <= sg_id a)%N.

#[export] Instance requested_after_dec : RelDecision requested_after.
Proof. intros a b. unfold requested_after. apply _. Defined.

Definition repo_list (context : AccessContext) (requested_by : option uuid)
    : Prog (list SupportGrant) :=
  session_begin (
    let! rows := sql_select (tenant_id context) (_mine context requested_by) in
    ret (merge_sort requested_after rows)).

Definition repo_change (context : AccessContext) (grant_id : uuid) (expected : list GrantStatus)
    (change : GrantChange) (audit : AuditFor) : Prog (option SupportGrant) :=
  session_begin (
    let! row := update_grant (tenant_id context) grant_id
      (λ g, _mine context None g && bool_decide (sg_status g ∈ expected)) (apply_change change) in
    match row with
    | None => ret None
    | Some changed =>
        append_for (tenant_id context) audit changed ;;;
        ret (Some changed)
    end).

(** ** The customer's side *)

(** [SupportResourcePort.describe] *)
Abbreviation Describer := (AccessContext → pystr → uuid → Prog (option pystr)).

(** [MemberScopesPort] *)
Abbreviation ScopesPort := (uuid → uuid → uuid → Prog (gset pystr)).

Record SupportGrantService := {
  sv_member_scopes : ScopesPort;
  sv_catalog : SupportScopeCatalog Describer }.

Record SupportGrantView := { gv_grant : SupportGrant; gv_state : pystr }.

Record RequestSupportGrant := {
  rq_scope_set_key : pystr;
  rq_resource_type : pystr;
  rq_resource_id : option uuid;
  rq_reason : pystr;
  rq_duration_hours : Z }.

Definition _require_enabled (context : AccessContext) : Prog unit :=
  when negb (has_feature context SUPPORT_ACCESS_FEATURE) then
    raise PermissionDeniedError "support access is not enabled for this organisation".

(** [_side]; the answer is whether the caller grants. *)
Definition _side (context : AccessContext) : Prog bool :=
  if has_scope context SUPPORT_GRANT_SCOPE then ret true
  else if has_scope context SUPPORT_REQUEST_SCOPE then ret false
  else reraise permission_denied.

Definition _require_granter (context : AccessContext) : Prog unit :=
  when negb (has_scope context SUPPORT_GRANT_SCOPE) then reraise permission_denied.

Definition _require_holds (context : AccessContext) (wanted : gset pystr) : Prog unit :=
  when bool_decide (wanted ∖ scopes context ≠ ∅) then
    raise PermissionDeniedError "you can only grant scopes you hold yourself".

Definition _wrong_status {A} : Prog A :=
  raise ConflictError "the support grant is not in a state that allows this".

Definition _require_status (grant : SupportGrant) (allowed : list GrantStatus) : Prog unit :=
  if bool_decide (sg_status grant ∈ allowed) then ret tt else _wrong_status.

Definition _checked_reason (reason : pystr) : Prog pystr :=
  let stripped := py_strip reason in
  if (1 <=? py_len stripped) && (py_len stripped <=? MAX_REASON_LENGTH) then ret stripped
  else raise DomainError "a reason of 1 to 300 characters is required".

(** [_audit(context, action, now)] *)
Definition _audit (context : AccessContext) (action : pystr) (now : datetime) : AuditFor := λ g,
  let! id := new_uuid in
  ret (support_grant_audit id g (principal_id context) action now ∅).

Section Service.
Context (svc : SupportGrantService).

(** One turn of [_views]: the memo, the granter's scopes. *)
Definition grantor_scopes (held : gmap (uuid * uuid) (gset pystr)) (g : SupportGrant)
    : Prog (gmap (uuid * uuid) (gset pystr) * gset pystr) :=
  match sg_status g, sg_granted_by g with
  | GRANT_ACTIVE, Some by_ =>
      let key := (sg_workspace_id g, by_) in
      match held !! key with
      | Some s => ret (held, s)
      | None =>
          let! s := sv_member_scopes svc (sg_tenant_id g) (sg_workspace_id g) by_ in
          ret (<[key := s]> held, s)
      end
  | _, _ => ret (held, ∅)
  end.

Fixpoint views_from (now : datetime) (held : gmap (uuid * uuid) (gset pystr))
    (grants : list SupportGrant) : Prog (list SupportGrantView) :=
  match grants with
  | [] => ret []
  | g :: rest =>
      let! hs := grantor_scopes held g in
      let! views := views_from now hs.1 rest in
      ret ({| gv_grant := g; gv_state := grant_effective_state g now hs.2 |} :: views)
  end.

Definition _views (grants : list SupportGrant) : Prog (list SupportGrantView) :=
  let! now := now_utc in
  views_from now ∅ grants.

Definition catalog_for (context : AccessContext) : Prog (list SupportScopeSet) :=
  _require_enabled context ;;;
  let! _ := _side context in
  ret (sets (sv_catalog svc)).

Definition list_grants (context : AccessContext) : Prog (list SupportGrantView) :=
  _require_enabled context ;;;
  let! granter := _side context in
  let! grants := repo_list context (if granter then None else Some (principal_id context)) in
  _views grants.

Definition _label (context : AccessContext) (resource_type : pystr) (resource_id : option uuid)
    : Prog pystr :=
  let! name :=
    if bool_decide (resource_type = WORKSPACE_RESOURCE) then
      match resource_id with
      | Some _ => raise DomainError "a workspace grant names no resource id"
      | None => workspace_name context
      end
    else
      match resource_id with
      | None => raise DomainError "this resource type needs a resource id"
      | Some id =>
          match get_describer (sv_catalog svc) resource_type with
          | None => ret None
          | Some describe => describe context resource_type id
          end
      end in
  match name with
  | None => raise NotFoundError "resource not found in this workspace"
  | Some name => ret (PyStr (take 200 (chars name)))
  end.

(** The row [request] asks the repository to insert. *)
Definition new_grant (context : AccessContext) (command : RequestSupportGrant)
    (scope_set : SupportScopeSet) (reason label : pystr) (granting : bool) (now : datetime)
    (id : uuid) : NewSupportGrant :=
  {| ng_id := id; ng_tenant_id := tenant_id context; ng_workspace_id := workspace_id context;
     ng_resource_type := rq_resource_type command; ng_resource_id := rq_resource_id command;
     ng_resource_label := label; ng_scope_set_key := sss_key scope_set;
     ng_scope_set_label := sss_label scope_set; ng_scopes := sss_scopes scope_set;
     ng_reason := reason; ng_duration_hours := rq_duration_hours command;
     ng_status := if granting then PENDING_ASSIGNMENT else PENDING_APPROVAL;
     ng_requested_by := principal_id context; ng_requested_at := now;
     ng_granted_by := if granting then Some (principal_id context) else None;
     ng_granted_at := if granting then Some now else None |}.

Definition request (context : AccessContext) (command : RequestSupportGrant)
    : Prog SupportGrantView :=
  _require_enabled context ;;;
  let! granting := _side context in
  match get_set (sv_catalog svc) (rq_scope_set_key command) with
  | None => raise DomainError "no such support scope set"
  | Some scope_set =>
      (when bool_decide (rq_resource_type command ∉ sss_resource_types scope_set) then
         raise DomainError "this scope set is not offered for that resource type") ;;;
      let! reason := _checked_reason (rq_reason command) in
      (when negb ((1 <=? rq_duration_hours command)%Z
                  && (rq_duration_hours command <=? MAX_DURATION_HOURS)%Z) then
         raise DomainError "duration must be 1 to 336 hours") ;;;
      let! label := _label context (rq_resource_type command) (rq_resource_id command) in
      let! now := now_utc in
      (when granting then _require_holds context (sss_scopes scope_set)) ;;;
      let! id := new_uuid in
      let! grant := repo_create context
        (new_grant context command scope_set reason label granting now id)
        (_audit context "support.grant.requested" now) in
      ret {| gv_grant := grant; gv_state := status_value (sg_status grant) |}
  end.

Definition _get (context : AccessContext) (grant_id : uuid) : Prog SupportGrant :=
  let! grant := repo_get context grant_id None in
  match grant with
  | None => raise NotFoundError "support grant not found"
  | Some g => ret g
  end.

Definition _change (context : AccessContext) (grant_id : uuid) (expected : list GrantStatus)
    (change : GrantChange) (action : pystr) (now : datetime) : Prog SupportGrantView :=
  let! changed := repo_change context grant_id expected change (_audit context action now) in
  match changed with
  | None => _wrong_status
  | Some g =>
      let! views := _views [g] in
      match views with
      | v :: _ => ret v
      | [] => raise (OtherException "IndexError") "list index out of range"
      end
  end.

Definition approval_of (by_ : uuid) (now : datetime) : GrantChange :=
  {| gc_status := PENDING_ASSIGNMENT; gc_granted_by := Some by_; gc_granted_at := Some now;
     gc_rejected_by := None; gc_rejected_at := None; gc_reject_reason := None;
     gc_revoked_by := None; gc_revoked_at := None |}.

Definition rejection_of (by_ : uuid) (now : datetime) (reason : pystr) : GrantChange :=
  {| gc_status := GRANT_REJECTED; gc_granted_by := None; gc_granted_at := None;
     gc_rejected_by := Some by_; gc_rejected_at := Some now; gc_reject_reason := Some reason;
     gc_revoked_by := None; gc_revoked_at := None |}.

Definition revocation_of (by_ : uuid) (now : datetime) : GrantChange :=
  {| gc_status := REVOKED; gc_granted_by := None; gc_granted_at := None;
     gc_rejected_by := None; gc_rejected_at := None; gc_reject_reason := None;
     gc_revoked_by := Some by_; gc_revoked_at := Some now |}.

Definition approve (context : AccessContext) (grant_id : uuid) : Prog SupportGrantView :=
  _require_enabled context ;;;
  _require_granter context ;;;
  let! grant := _get context grant_id in
  _require_status grant [PENDING_APPROVAL] ;;;
  _require_holds context (sg_scopes grant) ;;;
  let! now := now_utc in
  _change context grant_id [PENDING_APPROVAL] (approval_of (principal_id context) now)
    "support.grant.approved" now.

Definition reject (context : AccessContext) (grant_id : uuid) (reason : pystr)
    : Prog SupportGrantView :=
  _require_granter context ;;;
  let! checked := _checked_reason reason in
  let! grant := _get context grant_id in
  _require_status grant [PENDING_APPROVAL] ;;;
  let! now := now_utc in
  _change context grant_id [PENDING_APPROVAL] (rejection_of (principal_id context) now checked)
    "support.grant.rejected" now.

Definition revoke (context : AccessContext) (grant_id : uuid) : Prog SupportGrantView :=
  _require_granter context ;;;
  let! grant := _get context grant_id in
  _require_status grant OPEN_STATUSES ;;;
  let! now := now_utc in
  _change context grant_id OPEN_STATUSES (revocation_of (principal_id context) now)
    "support.grant.revoked" now.
End Service.

(** ** The operators' side *)

Definition set_trail (event : ProvisioningAudit) (w : World) : World :=
  let o := t_org (db w) in
  set_db (set_org (set_provisioning_audit (<[pa_id event := event]> (t_provisioning_audit o)) o) (db w)) w.

(** [INSERT INTO provisioning_audit]: one trail for the platform, no tenant. *)
Definition append_provisioning (event : ProvisioningAudit) : Prog unit :=
  let! w := get_state in
  match t_provisioning_audit (t_org (db w)) !! pa_id event with
  | Some _ => raise (IntegrityError "provisioning_audit_pkey")
                "duplicate key value violates unique constraint"
  | None => modify (set_trail event)
  end.

Definition assignment_record (id by_ : uuid) (staff : uuid) (grant : SupportGrant) (at_ : datetime)
    : ProvisioningAudit :=
  {| pa_id := id; pa_actor_id := by_; pa_action := "platform.support_grant.assign";
     pa_target_type := "support_grant"; pa_target_id := Some (uuid_str (sg_id grant));
     pa_details := {[ "tenant_id" := JStr (uuid_str (sg_tenant_id grant));
                      "code" := JStr (sg_code grant); "staff_user_id" := JStr (uuid_str staff) ]};
     pa_occurred_at := at_ |}.

(** [assign_support_grant]: the provisioner sees every tenant's grants. *)
Definition assign_support_grant (grant_id staff_user_id assigned_by : uuid) (activated_at : datetime)
    (tenant_audit : AuditFor) (provisioning_audit_id : uuid) : Prog SupportGrant :=
  session_begin (
    let! current := gets (λ w, t_support_grants (t_org (db w)) !! grant_id) in
    match current with
    | None => raise NotFoundError "support grant not found"
    | Some current =>
        (when negb (bool_decide (sg_status current = PENDING_ASSIGNMENT)) then
           raise ConflictError "only a grant waiting for assignment can be assigned") ;;;
        let! listed := gets (λ w, bool_decide (staff_user_id ∈ t_support_staff (t_org (db w)))) in
        (when negb listed then
           raise ConflictError "a grant is only ever assigned to support staff") ;;;
        let! row := update_grant (sg_tenant_id current) grant_id (λ _, true)
                      (assign_columns staff_user_id assigned_by activated_at) in
        match row with
        | None => raise (OtherException "NoResultFound") "No row was found when one was required"
        | Some grant =>
            append_for (sg_tenant_id grant) tenant_audit grant ;;;
            append_provisioning (assignment_record provisioning_audit_id assigned_by staff_user_id
                                   grant activated_at) ;;;
            ret grant
        end
    end).

(** [assign_support_request], by an operator. *)
Definition assign_support_request (operator grant_id staff_user_id : uuid) : Prog SupportGrant :=
  let! now := now_utc in
  let! provisioning_audit_id := new_uuid in
  assign_support_grant grant_id staff_user_id operator now
    (λ grant, let! id := new_uuid in
              ret (support_grant_audit id grant operator "support.grant.assigned" now
                     {[ "staff_user_id" := JStr (uuid_str staff_user_id) ]}))
    provisioning_audit_id.

(** ** The staff member's context *)

(** [SqlStaffGrants], as [dw_app] with the principal bound. *)
Definition is_support_staff (user_id : uuid) : Prog bool :=
  session_begin (gets (λ w, bool_decide (user_id ∈ t_support_staff (t_org (db w))))).

Definition grant_for_staff (staff_user_id grant_id : uuid) : Prog (option SupportGrant) :=
  session_begin (gets (λ w,
    g ← t_support_grants (t_org (db w)) !! grant_id;
    if bool_decide (sg_staff_user_id g = Some staff_user_id) then Some g else None)).

(** A tenant without a plan, or not active, enables nothing. *)
Definition tenant_plan (tenant : uuid) : Prog (option (pystr * gset pystr)) :=
  session_begin (gets (λ w,
    let o := t_org (db w) in
    t ← t_tenants o !! tenant;
    if bool_decide (tn_status t = "active"%py) then plan_of o tenant else None)).

Definition record_access (event : AuditEvent) : Prog unit :=
  session_begin (audit_append (ae_tenant_id event) event).

Definition SECOND_FACTOR_METHODS : gset pystr := {[ "otp"; "hwk"; "mfa" ]}.
Definition SUPPORT_ACCESS_ACTION : pystr := "support.access".

Definition support_context (grant : SupportGrant) (principal : uuid) (plan : pystr)
    (flags : gset pystr) : AccessContext :=
  {| tenant_id := sg_tenant_id grant; workspace_id := sg_workspace_id grant;
     principal_id := principal; roles := ∅; groups := ∅; scopes := sg_scopes grant;
     clearance := "internal"; plan_id := plan; feature_flags := flags;
     record_visibility := "open"; visible_owners := None;
     max_autonomy_level := FAIL_CLOSED_LEVEL;
     support := Some {| ss_grant_id := sg_id grant; ss_code := sg_code grant;
                        ss_resource_type := sg_resource_type grant;
                        ss_resource_id := sg_resource_id grant;
                        ss_scope_set_key := sg_scope_set_key grant |} |}.

(** [support_access_audit] *)
Definition support_access_audit (event_id : uuid) (context : AccessContext) (s : SupportScope)
    (method route : pystr) (path_ids : list (pystr * json)) (occurred_at : datetime) : AuditEvent :=
  {| ae_id := event_id; ae_tenant_id := tenant_id context; ae_workspace_id := workspace_id context;
     ae_actor_id := principal_id context; ae_action := SUPPORT_ACCESS_ACTION;
     ae_resource_type := "support_grant"; ae_resource_id := uuid_str (ss_grant_id s);
     ae_occurred_at := occurred_at; ae_run_id := None; ae_policy_decision := None;
     ae_trace_id := None;
     ae_details := {[ "support_grant_id" := JStr (uuid_str (ss_grant_id s));
                      "code" := JStr (ss_code s); "method" := JStr method; "route" := JStr route;
                      "path_ids" := JObj path_ids ]} |}.

Section Factory.
Context (member_scopes : ScopesPort).

Definition granter_scopes_of (grant : SupportGrant) : Prog (gset pystr) :=
  match sg_granted_by grant with
  | Some by_ => member_scopes (sg_tenant_id grant) (sg_workspace_id grant) by_
  | None => ret ∅
  end.

Definition access_event (context : AccessContext) (method route : pystr)
    (path_ids : list (pystr * json)) : Prog AuditEvent :=
  let! id := new_uuid in
  let! now := now_utc in
  match support context with
  | None => raise AssertionError ""
  | Some s => lift_res (make_audit_event (support_access_audit id context s method route path_ids now))
  end.

Definition state_of (grant : SupportGrant) : Prog pystr :=
  let! held := granter_scopes_of grant in
  let! now := now_utc in
  ret (grant_effective_state grant now held).

Definition _context (principal grant_id : uuid) : Prog AccessContext :=
  let! grant := grant_for_staff principal grant_id in
  match grant with
  | None => raise NotFoundError "support grant not found"
  | Some grant =>
      let! now := now_utc in
      let! held := granter_scopes_of grant in
      (when negb (bool_decide (grant_effective_state grant now held = status_value GRANT_ACTIVE)) then
         raise PermissionDeniedError "this support grant is no longer in force") ;;;
      let! plan := tenant_plan (sg_tenant_id grant) in
      match plan with
      | Some (plan, flags) =>
          if bool_decide (SUPPORT_ACCESS_FEATURE ∈ flags) then
            let c := support_context grant principal plan flags in
            if access_context_valid c then ret c else raise ValidationError "must not be blank"
          else raise PermissionDeniedError "support access is not enabled for this organisation"
      | None => raise PermissionDeniedError "support access is not enabled for this organisation"
      end
  end.

(** [SupportAccessContextFactory.build] *)
Definition support_build (principal : uuid) (auth_methods : gset pystr) (grant_id : uuid)
    : Prog AccessContext :=
  let! staff := is_support_staff principal in
  (when negb staff then raise PermissionDeniedError "support staff only") ;;;
  (when bool_decide (auth_methods ∩ SECOND_FACTOR_METHODS = ∅) then
     raise PermissionDeniedError "a second authentication factor is required for support access") ;;;
  _context principal grant_id.

Definition recheck (context : AccessContext) : Prog unit :=
  match support context with
  | None => ret tt
  | Some s => let! _ := _context (principal_id context) (ss_grant_id s) in ret tt
  end.
End Factory.
