(* ===== verification/SupportRegister.v ===== *)
(** * Support grants as a register

    Every operation of [SupportAccess] changes at most one grant, by one of the
    two writes the trigger and the CHECKs let through; the grants stay
    well-formed; and each such write is a step of an abstract machine, in which
    a grant is asked for, granted, held by one person until an instant, refused
    or ended. *)

From S2P Require Import Prelude Errors Kernel Domain Accounts SupportGrants Store Membership.
From S2P Require Import SupportAccess.
Local Open Scope prog_scope.
Local Open Scope pystr_scope.

(** ** Writes of a grant *)

Definition grants_of (d : Db) : gmap uuid SupportGrant := t_support_grants (t_org d).

(** The two writes the database lets through, one row each. *)
Inductive grant_change (d d' : Db) : Prop :=
  | gw_insert g :
      grants_of d !! sg_id g = None → grants_of d' = <[sg_id g := g]> (grants_of d) →
      sg_status g ∈ [PENDING_APPROVAL; PENDING_ASSIGNMENT] → grant_checks g = true →
      (∃ n, sg_code g = grant_code n) → (∀ x, x ∈ sg_scopes g → forbidden_scope x = false) →
      unique_ok (grants_of d') = true → grant_change d d'
  | gw_update g g' :
      grants_of d !! sg_id g = Some g → grants_of d' = <[sg_id g := g']> (grants_of d) →
      guard_update g g' = Ok tt → grant_checks g' = true → unique_ok (grants_of d') = true →
      grant_change d d'.

(** From a state outside a transaction to another, nothing of the database
    changed. *)
Definition idle (w w' : World) : Prop := clean w → clean w' ∧ db w' = db w.

(** An operation run to its end: one of the two writes was committed if it
    answers, nothing of the database changed if it raises. *)
Definition settled {A} (w : World) (out : res A * World) : Prop :=
  clean out.2 ∧ match out.1 with
                | Ok _ => grant_change (db w) (db out.2)
                | Raise _ => db out.2 = db w
                end.
Definition settles {A} (m : Prog A) : Prop :=
  ∀ w, clean w → keyed (grants_of (db w)) → settled w (m w).

#[export] Instance idle_preorder : PreOrder idle.
Proof.
  unfold idle. split; [by intros w|]. intros w1 w2 w3 H1 H2 Hc.
  destruct (H1 Hc) as [Hc2 E2]. destruct (H2 Hc2) as [? E3]. split; [done|congruence].
Qed.

Lemma idle_now : respects idle now_utc.
Proof. by intros w. Qed.
Lemma idle_id : respects idle new_uuid.
Proof. by intros w. Qed.
Lemma idle_session_gets {A} (f : World → A) : respects idle (session_begin (gets f)).
Proof. intros w Hc. by rewrite session_begin_gets. Qed.
#[export] Hint Resolve idle_now idle_id idle_session_gets : respects.

(** Inside a transaction. *)
Definition same_grants (w w' : World) : Prop := grants_of (db w') = grants_of (db w).
#[export] Instance same_grants_preorder : PreOrder same_grants.
Proof. unfold same_grants. split; [by intros w|intros ? ? ? ? ?; congruence]. Qed.

Lemma change_then_same d d' d'' :
  grant_change d d' → grants_of d'' = grants_of d' → grant_change d d''.
Proof.
  intros [g ? H|g g' ? H] E.
  - eapply (gw_insert _ _ g); try done; congruence.
  - eapply (gw_update _ _ g g'); try done; congruence.
Qed.

Lemma settles_session {A} (m : Prog A) :
  respects same_saved m →
  (∀ w a s, keyed (grants_of (db w)) → m w = (Ok a, s) → grant_change (db w) (db s)) →
  settles (session_begin m).
Proof.
  intros Hs Hm w Hc Hk. specialize (Hs w). unfold session_begin, same_saved, settled, clean in *.
  destruct (m w) as [[a|e] s] eqn:E; simpl in *; (split; [done|]); [by apply (Hm w a s)|congruence].
Qed.

(** The laws the two ports are asked for: they read. *)
Class ReadsScopes (port : ScopesPort) : Prop := {
  port_reads t ws u w : clean w → ∃ s, port t ws u w = (Ok s, w) }.

#[export] Instance scopes_of_reads : ReadsScopes scopes_of.
Proof. split. intros t ws u w Hc. rewrite scopes_of_run by done. eauto. Qed.

(** *** What the statements do *)

Lemma insert_grant_ok tenant g w g' w' :
  insert_grant tenant g w = (Ok g', w') →
  ∃ codes, guard_insert codes g = Ok g' ∧
    (∀ h, grants_of (db w) !! sg_id h = Some h → sg_tenant_id h = tenant → sg_code h ∈ codes) ∧
    grant_checks g' = true ∧ grants_of (db w) !! sg_id g' = None ∧ sg_tenant_id g' = tenant ∧
    grants_of (db w') = <[sg_id g' := g']> (grants_of (db w)) ∧
    unique_ok (grants_of (db w')) = true.
Proof.
  unfold insert_grant. intros (rows & s & [= <- <-] & H)%bind_ok.
  apply bind_ok in H as (h & s & [= Hg <-] & H). apply bind_ok in H as ([] & s & Hc & H).
  apply bind_ok in H as ([] & s' & Hi & [= <- <-]).
  unfold check_grant in Hc. destruct (grant_checks h) eqn:Ec; [|done]. injection Hc as <-.
  apply sql_insert_ok in Hi as (Ht & Hn & Hu & ->). eexists. split; [exact Hg|]. split_and!; try done.
  intros h' Hh' Hth. apply list_elem_of_fmap. exists h'. split; [done|].
  apply list_elem_of_filter. unfold visible. rewrite bool_decide_eq_true_2 by done. split; [done|].
  apply list_elem_of_fmap. exists (sg_id h', h'). by rewrite elem_of_map_to_list.
Qed.

Lemma update_grant_run tenant grant_id p f w :
  keyed (grants_of (db w)) →
  update_grant tenant grant_id p f w =
    match grants_of (db w) !! grant_id with
    | Some g =>
        if bool_decide (sg_tenant_id g = tenant) && p g then
          match guard_update g (f g) with
          | Raise e => (Raise e, w)
          | Ok _ =>
              if grant_checks (f g) then
                let t := <[grant_id := f g]> (grants_of (db w)) in
                if unique_ok t then (Ok (Some (f g)), set_db (set_tbl t (db w)) w)
                else (Raise (Exn (IntegrityError "uq_support_grants_tenant_code")
                               "duplicate key value violates unique constraint"), w)
              else (Raise (Exn (IntegrityError "ck_support_grants")
                            "new row violates check constraint"), w)
          end
        else (Ok None, w)
    | None => (Ok None, w)
    end.
Proof.
  intros Hk. unfold update_grant, sql_get, bind at 1, gets. cbn [tbl grants_table].
  change (t_support_grants (t_org (db w))) with (grants_of (db w)).
  destruct (grants_of (db w) !! grant_id) as [g|] eqn:Hg; [|done].
  cbn [option_bind mbind]. unfold visible at 1. change (row_tenant g) with (sg_tenant_id g).
  destruct (_ && p g) eqn:E; [|done]. to_prop.
  unfold bind at 1, lift_res. destruct (guard_update g (f g)) as [[]|e]; [|done].
  unfold bind at 1, check_grant. destruct (grant_checks (f g)); [|done]. cbn [negb].
  unfold ret at 1.
  assert (update_rows (visible tenant (λ r, bool_decide (sg_id r = grant_id))) (λ _, f g)
            (tbl (db w)) = <[grant_id := f g]> (grants_of (db w))) as Hu.
  { rewrite (update_rows_one _ _ _ grant_id g Hg); [done|..].
    - unfold visible. rewrite !bool_decide_eq_true_2; [done|by apply (Hk _ _ Hg)|done].
    - intros k r Hr Hv. unfold visible in Hv. to_prop. by rewrite <- (Hk _ _ Hr). }
  cbv zeta. destruct (unique_ok (<[_ := _]> _)) eqn:Eu; unfold bind.
  - rewrite sql_update_run by (by rewrite Hu). by rewrite Hu.
  - rewrite sql_update_duplicate by (by rewrite Hu). done.
Qed.

(** The grants a process can hold: what the constraints and the trigger leave,
    and no scope support may never hold. *)
Record grants_inv (w : World) : Prop := {
  gi_clean : clean w;
  gi_keyed : keyed (grants_of (db w));
  gi_unique : unique_ok (grants_of (db w)) = true;
  gi_checks : ∀ k g, grants_of (db w) !! k = Some g → grant_checks g = true;
  gi_code : ∀ k g, grants_of (db w) !! k = Some g → ∃ n, sg_code g = grant_code n;
  gi_scopes : ∀ k g x, grants_of (db w) !! k = Some g → x ∈ sg_scopes g → forbidden_scope x = false }.

(** What the trigger lets through changes nothing the request said. *)
Lemma guard_keeps old new : guard_update old new = Ok tt → requested_for new = requested_for old.
Proof. unfold guard_update. case_bool_decide; [done|]. simpl. done. Qed.

Lemma guard_moves old new : guard_update old new = Ok tt → (sg_status old, sg_status new) ∈ moves.
Proof.
  unfold guard_update. destruct (negb _); [done|]. by case_bool_decide.
Qed.

Lemma same_inv w w' : grants_inv w → clean w' → grants_of (db w') = grants_of (db w) → grants_inv w'.
Proof. intros [] Hc' E. by split; rewrite ?E. Qed.

Lemma change_inv w w' : grants_inv w → clean w' → grant_change (db w) (db w') → grants_inv w'.
Proof.
  intros [Hc Hk Hu Hch Hco Hs] Hc' [g Hn E _ Hg Hcode Hsc Hu'|g g' Hg E Hgu Hg' Hu'];
    split; rewrite ?E; try done; try (rewrite <- E; done).
  - exact (keyed_insert _ g Hk).
  - intros k h [[<- <-]|[_ Hh]]%lookup_insert_Some; eauto.
  - intros k h [[<- <-]|[_ Hh]]%lookup_insert_Some; eauto.
  - intros k h x [[<- <-]|[_ Hh]]%lookup_insert_Some; eauto.
  - apply guard_keeps in Hgu. injection Hgu as Hid _. rewrite <- Hid. exact (keyed_insert _ g' Hk).
  - intros k h [[<- <-]|[_ Hh]]%lookup_insert_Some; eauto.
  - apply guard_keeps in Hgu. injection Hgu as Hid Hcode.
    intros k h [[<- <-]|[_ Hh]]%lookup_insert_Some; [rewrite Hcode|]; eauto.
  - apply guard_keeps in Hgu. injection Hgu as Hid Hcode _ _ _ _ _ _ _ Hscopes.
    intros k h x [[<- <-]|[_ Hh]]%lookup_insert_Some; [rewrite Hscopes|]; eauto.
Qed.

(** *** What the operations do *)

Lemma append_for_same tenant audit g :
  (∀ h, respects same_grants (audit h)) → respects same_grants (append_for tenant audit g).
Proof.
  intros Ha. unfold append_for, audit_append.
  apply respects_bind; [apply _|apply Ha|]. intros e. apply respects_bind; [apply _|by intros ?|].
  intros e'. by apply (sql_insert_frame grants_of).
Qed.

Lemma append_for_same_saved tenant audit g :
  (∀ h, respects same_saved (audit h)) → respects same_saved (append_for tenant audit g).
Proof. intros Ha. unfold append_for, audit_append. respects_auto. Qed.

Lemma audit_same c action now h :
  respects same_grants (_audit c action now h) ∧ respects same_saved (_audit c action now h).
Proof. by split; intros w. Qed.

Lemma insert_grant_same_saved tenant g : respects same_saved (insert_grant tenant g).
Proof. unfold insert_grant, check_grant, sql_select. respects_auto. Qed.

Lemma update_grant_same_saved tenant id p f : respects same_saved (update_grant tenant id p f).
Proof. unfold update_grant, check_grant, sql_get. respects_auto. Qed.

Lemma repo_create_settles context n audit :
  (∀ x, x ∈ ng_scopes n → forbidden_scope x = false) →
  (∀ h, respects same_grants (audit h)) → (∀ h, respects same_saved (audit h)) →
  settles (repo_create context n audit).
Proof.
  intros Hf Ha1 Ha2. apply settles_session.
  - pose proof insert_grant_same_saved. pose proof append_for_same_saved. respects_auto.
  - intros w a s _ (g & s1 & E & ([] & s2 & Ea & [= _ <-])%bind_ok)%bind_ok.
    pose proof (append_for_same (tenant_id context) audit g Ha1 s1) as Hs. rewrite Ea in Hs.
    apply insert_grant_ok in E as (codes & Hg & _ & Hch & Hn & _ & Hgs & Hu).
    apply (change_then_same _ (db s1)); [|exact Hs].
    unfold guard_insert in Hg. case_bool_decide as Hst; [|done].
    apply (gw_insert _ _ g); [done|done| | | | |done]; injection Hg as <-; simpl in *; eauto.
Qed.

Lemma update_grant_change tenant id p f w row s :
  keyed (grants_of (db w)) → update_grant tenant id p f w = (Ok row, s) →
  match row with Some _ => grant_change (db w) (db s) | None => s = w end.
Proof.
  intros Hk. rewrite update_grant_run by done.
  destruct (grants_of (db w) !! id) as [g|] eqn:Hg; [|by intros [= <- <-]].
  destruct (_ && _); [|by intros [= <- <-]].
  destruct (guard_update g (f g)) as [[]|e] eqn:Hgu; [|done].
  destruct (grant_checks (f g)) eqn:Hch; [|done]. cbv zeta.
  destruct (unique_ok (<[id := f g]> _)) eqn:Hu; [|done]. intros [= <- <-].
  pose proof (Hk _ _ Hg : sg_id g = id) as <-. by apply (gw_update _ _ g (f g)).
Qed.

(** A change of a grant: of one that is not as expected, nothing. *)
Lemma repo_change_cases context id expected ch audit w :
  (∀ h, respects same_grants (audit h)) → (∀ h, respects same_saved (audit h)) →
  clean w → keyed (grants_of (db w)) →
  let out := repo_change context id expected ch audit w in
  clean out.2 ∧ match out.1 with
                | Ok (Some _) => grant_change (db w) (db out.2)
                | _ => db out.2 = db w
                end.
Proof.
  intros Ha1 Ha2 Hc Hk. cbv zeta.
  destruct (repo_change context id expected ch audit w) as [[[g|]|e] w'] eqn:E; simpl.
  1,2: apply session_begin_ok in E as (s & (row & s1 & Hu & E)%bind_ok & ->); (split; [done|]);
    apply update_grant_change in Hu; [|done]; destruct row as [g'|]; try (by injection E).
  - apply bind_ok in E as ([] & s2 & Ea & [= _ <-]).
    pose proof (append_for_same (tenant_id context) audit g' Ha1 s1) as Hs. rewrite Ea in Hs.
    by apply (change_then_same _ (db s1)).
  - by apply bind_ok in E as ([] & s2 & _ & E).
  - injection E as <-. by rewrite Hu.
  - eapply session_begin_undone; [|done|exact E].
    pose proof update_grant_same_saved. pose proof append_for_same_saved. respects_auto.
Qed.

Lemma assign_settles id staff by_ at_ audit pid :
  (∀ h, respects same_grants (audit h)) → (∀ h, respects same_saved (audit h)) →
  settles (assign_support_grant id staff by_ at_ audit pid).
Proof.
  intros Ha1 Ha2. apply settles_session.
  - pose proof update_grant_same_saved. pose proof append_for_same_saved.
    assert (∀ e, respects same_saved (append_provisioning e)) as Hp.
    { intros e s. unfold append_provisioning, bind, get_state, raise, modify. by destruct (_ !! _). }
    respects_auto.
  - intros w a s Hk (cur & s1 & [= <- <-] & H)%bind_ok.
    destruct (_ !! id) as [current|]; [|done].
    apply bind_ok in H as ([] & s1 & H1 & H). destruct (negb _); [done|]. injection H1 as <-.
    apply bind_ok in H as (listed & s1 & [= <- <-] & H).
    apply bind_ok in H as ([] & s1 & H1 & H). destruct (negb _); [done|]. injection H1 as <-.
    apply bind_ok in H as (row & s1 & Hu & H). apply update_grant_change in Hu; [|done].
    destruct row as [g|]; [|done]. apply (change_then_same _ (db s1)); [done|].
    assert (respects same_grants (append_for (sg_tenant_id g) audit g ;;;
      append_provisioning (assignment_record pid by_ staff g at_) ;;; ret g)%prog) as Hr.
    { apply respects_bind; [apply _|by apply append_for_same|]. intros [].
      apply respects_bind; [apply _| |by intros ? ?].
      intros x. unfold append_provisioning, bind, get_state, raise, modify. by destruct (_ !! _). }
    specialize (Hr s1). by rewrite H in Hr.
Qed.

(** *** The service *)

Lemma idle_repo_get context id by_ : respects idle (repo_get context id by_).
Proof. apply idle_session_gets. Qed.

Lemma settles_after {A B} (m : Prog A) (k : A → Prog B) :
  respects idle m → (∀ a, settles (k a)) → settles (bind m k).
Proof.
  intros Hm Hk w Hc Hkey. unfold bind. destruct (Hm w Hc) as [Hc' E].
  destruct (m w) as [[a|e] s]; simpl in *; [|by split].
  specialize (Hk a s Hc'). rewrite E in Hk. specialize (Hk Hkey).
  unfold settled in *. by rewrite E in Hk.
Qed.

Lemma settles_raise {A} c msg : settles (raise (A := A) c msg).
Proof. intros w Hc _. by split. Qed.

Section Operations.
Context (svc : SupportGrantService) `{!ReadsScopes (sv_member_scopes svc)}.
(** A context's describer reads. *)
Context (describers_read : ∀ t d c ty id,
           get_describer (sv_catalog svc) t = Some d → respects idle (d c ty id)).
Context (catalogue : registered (sv_catalog svc)).

Lemma idle_port t ws u : respects idle (sv_member_scopes svc t ws u).
Proof. intros w Hc. by destruct (port_reads t ws u w Hc) as [s ->]. Qed.

Lemma idle_views grants : respects idle (_views svc grants).
Proof.
  apply respects_bind; [apply _|apply idle_now|]. intros now. generalize (∅ : gmap (uuid * uuid) (gset pystr)).
  induction grants as [|g rest IH]; intros held; simpl; [by intros w|].
  apply respects_bind; [apply _| |intros hs; apply respects_bind; [apply _|apply IH|by intros ? ?]].
  unfold grantor_scopes. pose proof idle_port. respects_auto.
Qed.

Lemma idle_label context ty id : respects idle (_label svc context ty id).
Proof.
  unfold _label. apply respects_bind; [apply _| |intros [?|]; by intros w].
  destruct (bool_decide _); [destruct id; [by intros w|apply idle_session_gets]|].
  destruct id; [|by intros w]. destruct (get_describer _ _) eqn:E; [by eapply describers_read|by intros w].
Qed.

(** The view of one grant is always given. *)
Lemma views_answer g w : clean w → ∃ v w', _views svc [g] w = (Ok [v], w') ∧ clean w' ∧ db w' = db w.
Proof.
  intros Hc. destruct (idle_views [g] w Hc) as [Hc' E]. revert Hc' E.
  unfold _views, bind, now_utc. cbn [views_from]. unfold bind, ret.
  set (w1 := MkWorld _ _ _ _ _ _ _ _).
  assert (∃ hs, grantor_scopes svc ∅ g w1 = (Ok hs, w1)) as [hs ->]; [|by eauto].
  unfold grantor_scopes. destruct (sg_status g); eauto. destruct (sg_granted_by g) as [by_|]; eauto.
  rewrite lookup_empty. unfold bind, ret.
  destruct (port_reads (sg_tenant_id g) (sg_workspace_id g) by_ w1 Hc) as [s ->]. eauto.
Qed.

Lemma change_settles context id expected ch action now :
  settles (_change svc context id expected ch action now).
Proof.
  intros w Hc Hk. unfold _change, bind at 1.
  destruct (repo_change_cases context id expected ch (_audit context action now) w
    (λ h, proj1 (audit_same _ _ _ h)) (λ h, proj2 (audit_same _ _ _ h)) Hc Hk) as [Hc1 H1].
  destruct (repo_change _ _ _ _ _ w) as [[[g|]|e] s]; simpl in *; [|by split|by split].
  unfold bind. destruct (views_answer g s Hc1) as (v & w' & -> & Hc2 & E). split; [done|].
  simpl. by rewrite E.
Qed.

Lemma idle_get context id : respects idle (_get context id).
Proof.
  apply respects_bind; [apply _|apply idle_repo_get|]. intros [?|]; by intros w.
Qed.

Lemma request_settles context command : settles (request svc context command).
Proof.
  unfold request, _require_enabled, _side, _checked_reason.
  apply settles_after; [respects_auto|intros _]. apply settles_after; [respects_auto|]. intros granting.
  destruct (get_set _ _) as [scope_set|] eqn:Es; [|apply settles_raise].
  apply settles_after; [respects_auto|intros _]. apply settles_after; [respects_auto|]. intros reason.
  apply settles_after; [respects_auto|intros _]. apply settles_after; [apply idle_label|]. intros label.
  apply settles_after; [apply idle_now|]. intros now.
  apply settles_after; [unfold _require_holds; respects_auto|intros _].
  apply settles_after; [apply idle_id|]. intros id.
  intros w Hc Hk. unfold bind.
  assert (settles (repo_create context (new_grant context command scope_set reason label granting now id)
    (_audit context "support.grant.requested" now))) as Hr.
  { apply repo_create_settles; [|intros h; apply audit_same..].
    simpl. intros x. apply (registered_sets _ _ _ catalogue Es). }
  specialize (Hr w Hc Hk). by destruct (repo_create _ _ _ w) as [[g|e] s].
Qed.

Lemma approve_settles context id : settles (approve svc context id).
Proof.
  unfold approve, _require_enabled, _require_granter, _require_status, _require_holds, _wrong_status.
  apply settles_after; [respects_auto|intros _]. apply settles_after; [respects_auto|intros _].
  apply settles_after; [apply idle_get|]. intros g.
  apply settles_after; [respects_auto|intros _]. apply settles_after; [respects_auto|intros _].
  apply settles_after; [apply idle_now|]. intros now. apply change_settles.
Qed.

Lemma reject_settles context id reason : settles (reject svc context id reason).
Proof.
  unfold reject, _require_granter, _require_status, _checked_reason, _wrong_status.
  apply settles_after; [respects_auto|intros _]. apply settles_after; [respects_auto|]. intros checked.
  apply settles_after; [apply idle_get|]. intros g. apply settles_after; [respects_auto|intros _].
  apply settles_after; [apply idle_now|]. intros now. apply change_settles.
Qed.

Lemma revoke_settles context id : settles (revoke svc context id).
Proof.
  unfold revoke, _require_granter, _require_status, _wrong_status.
  apply settles_after; [respects_auto|intros _]. apply settles_after; [apply idle_get|]. intros g.
  apply settles_after; [respects_auto|intros _].
  apply settles_after; [apply idle_now|]. intros now. apply change_settles.
Qed.

Lemma assign_request_settles operator id staff : settles (assign_support_request operator id staff).
Proof.
  apply settles_after; [apply idle_now|]. intros now. apply settles_after; [apply idle_id|]. intros pid.
  apply assign_settles; intros h; by intros w.
Qed.
End Operations.

(** ** The promise, as an abstract machine *)

(** A grant as its two sides see it: asked for, waiting for a person, held by one
    until an instant, refused, or ended. *)
Inductive Phase :=
  | Asked
  | Waiting (granted_by : option uuid)
  | Held (granted_by : option uuid) (staff : uuid) (until : datetime)
  | Refused
  | Ended.

Inductive proceeds : Phase → Phase → Prop :=
  | pr_grant by_ : proceeds Asked (Waiting by_)
  | pr_refuse : proceeds Asked Refused
  | pr_assign by_ staff until : proceeds (Waiting by_) (Held by_ staff until)
  | pr_withdraw : proceeds Asked Ended
  | pr_cancel by_ : proceeds (Waiting by_) Ended
  | pr_revoke by_ staff until : proceeds (Held by_ staff until) Ended.

(** A register of grants: the terms never change, the phase proceeds. *)
Inductive register_step {T} : gmap uuid (T * Phase) → gmap uuid (T * Phase) → Prop :=
  | rs_ask s id terms p :
      s !! id = None → (p = Asked ∨ ∃ by_, p = Waiting by_) → register_step s (<[id := (terms, p)]> s)
  | rs_proceed s id terms p q :
      s !! id = Some (terms, p) → proceeds p q → register_step s (<[id := (terms, q)]> s).

Definition phase (g : SupportGrant) : Phase :=
  match sg_status g with
  | PENDING_APPROVAL => Asked
  | PENDING_ASSIGNMENT => Waiting (sg_granted_by g)
  | GRANT_ACTIVE =>
      match sg_staff_user_id g, sg_expires_at g with
      | Some staff, Some until => Held (sg_granted_by g) staff until
      | _, _ => Ended
      end
  | GRANT_REJECTED => Refused
  | REVOKED => Ended
  end.

Definition register_of (d : Db) := (λ g, (requested_for g, phase g)) <$> grants_of d.

Lemma guard_proceeds old new :
  guard_update old new = Ok tt → grant_checks old = true → grant_checks new = true →
  proceeds (phase old) (phase new).
Proof.
  intros Hg Ho Hn. pose proof (guard_moves _ _ Hg) as Hm.
  assert (∀ g, grant_checks g = true → sg_status g = GRANT_ACTIVE →
    ∃ staff until, sg_staff_user_id g = Some staff ∧ sg_expires_at g = Some until) as Ha.
  { intros g Hc Hs. unfold grant_checks, ck_assigned in Hc. rewrite Hs in Hc. to_prop.
    destruct (sg_activated_at g), (sg_expires_at g), (sg_staff_user_id g); simpl in *; eauto; done. }
  unfold guard_update in Hg. destruct (negb _) in Hg; [done|]. rewrite bool_decide_eq_true_2 in Hg by done.
  unfold phase. unfold moves in Hm.
  repeat (apply elem_of_cons in Hm as [[= E1 E2]|Hm]); [..|by apply not_elem_of_nil in Hm];
    rewrite E1, E2 in *; try constructor.
  - destruct (Ha new Hn E2) as (staff & until & -> & ->). simpl in Hg.
    case_bool_decide as E; simpl in Hg; [|done]. injection E as -> _. constructor.
  - destruct (Ha old Ho E1) as (staff & until & -> & ->). constructor.
Qed.

(** Every write of the database is a step of the register. *)
Lemma change_register w w' :
  grants_inv w → grant_change (db w) (db w') →
  register_step (register_of (db w)) (register_of (db w')).
Proof.
  intros Hi [g Hn E Hst _ _ _ _|g g' Hg E Hgu Hg' _]; unfold register_of; rewrite E.
  - rewrite fmap_insert. apply rs_ask; [by rewrite lookup_fmap, Hn|]. unfold phase.
    apply elem_of_cons in Hst as [->|Hst]; [by left|].
    apply list_elem_of_singleton in Hst as ->. right. eauto.
  - rewrite fmap_insert, (guard_keeps _ _ Hgu).
    apply (rs_proceed _ _ _ (phase g)); [by rewrite lookup_fmap, Hg|].
    apply guard_proceeds; [done|by eapply gi_checks|done].
Qed.

Section Refinement.
Context (svc : SupportGrantService) `{!ReadsScopes (sv_member_scopes svc)}.
Context (describers_read : ∀ t d c ty id,
           get_describer (sv_catalog svc) t = Some d → respects idle (d c ty id)).
Context (catalogue : registered (sv_catalog svc)).

(** How a step ended: the operation answered or raised, or it was none of the
    operations on grants. *)
Inductive Outcome := Answered | Refused_with (e : exn) | Elsewhere.

Definition outcome_of_op {A} (r : res A) : Outcome :=
  match r with Ok _ => Answered | Raise e => Refused_with e end.

(** Whatever is done with grants, with its outcome, and anything that does not
    write them. *)
Inductive support_op : Outcome → World → World → Prop :=
  | op_request c command w :
      support_op (outcome_of_op (request svc c command w).1) w (request svc c command w).2
  | op_approve c id w : support_op (outcome_of_op (approve svc c id w).1) w (approve svc c id w).2
  | op_reject c id reason w :
      support_op (outcome_of_op (reject svc c id reason w).1) w (reject svc c id reason w).2
  | op_revoke c id w : support_op (outcome_of_op (revoke svc c id w).1) w (revoke svc c id w).2
  | op_assign operator id staff w :
      support_op (outcome_of_op (assign_support_request operator id staff w).1) w
        (assign_support_request operator id staff w).2
  | op_elsewhere w w' :
      (clean w → clean w') → grants_of (db w') = grants_of (db w) → support_op Elsewhere w w'.

(** What each outcome says of the tables. *)
Definition op_effect (o : Outcome) (w w' : World) : Prop :=
  match o with
  | Answered => grant_change (db w) (db w')
  | Refused_with _ => db w' = db w
  | Elsewhere => grants_of (db w') = grants_of (db w)
  end.

Lemma support_op_effect o w w' :
  grants_inv w → support_op o w w' → clean w' ∧ op_effect o w w'.
Proof.
  intros [Hc Hk _ _ _ _] Hop.
  assert (∀ A (m : Prog A), settles m →
    clean (m w).2 ∧ op_effect (outcome_of_op (m w).1) w (m w).2) as H.
  { intros A m Hm. destruct (Hm w Hc Hk) as [? He]. split; [done|]. by destruct (m w) as [[a|e] s]. }
  destruct Hop as [c cmd w|c id w|c id reason w|c id w|op id staff w|w w' Hcl E].
  - by apply H, request_settles.
  - by apply H, approve_settles.
  - by apply H, reject_settles.
  - by apply H, revoke_settles.
  - apply H, assign_request_settles.
  - split; [auto|done].
Qed.

Lemma support_op_inv o w w' : grants_inv w → support_op o w w' → grants_inv w'.
Proof.
  intros Hi Hop. destruct (support_op_effect _ _ _ Hi Hop) as [Hc He].
  destruct o; simpl in He; [by eapply change_inv|apply (same_inv w); [done|done|by rewrite He]|by eapply same_inv].
Qed.

(** C3: every operation of the support service and of the operators on grants - request,
    approve, reject, revoke, assign - run on the tables with their trigger and
    constraints, either answers and is one step of an abstract register, in which a
    grant is requested, granted, and ended one way or another, or raises and leaves the
    open and the committed database as they were; and the tables' invariant is kept. *)
Theorem support_refines o w w' :
  grants_inv w → support_op o w w' →
  grants_inv w' ∧
  match o with
  | Answered => register_step (register_of (db w)) (register_of (db w'))
  | Refused_with _ => db w' = db w ∧ saved w' = saved w
  | Elsewhere => register_of (db w') = register_of (db w)
  end.
Proof.
  intros Hi Hop. split; [by eapply support_op_inv|].
  destruct (support_op_effect _ _ _ Hi Hop) as [Hc He]. destruct o; simpl in He.
  - by apply change_register.
  - split; [done|]. pose proof (gi_clean _ Hi). unfold clean in *. congruence.
  - unfold register_of. by rewrite He.
Qed.
End Refinement.

(** ** Concrete instances *)

Definition example_catalogue : SupportScopeCatalog Describer :=
  (register "billing" "Billing" ["billing.read"%py] [WORKSPACE_RESOURCE] empty_catalog).2.

Lemma example_registered : registered example_catalogue.
Proof. eapply reg_set; [apply reg_empty|]. apply ok_unit. by vm_compute. Qed.

Lemma example_no_describer t d c ty id :
  get_describer example_catalogue t = Some d → respects idle (d c ty id).
Proof. unfold get_describer, example_catalogue. done. Qed.

Definition example_support_service : SupportGrantService :=
  {| sv_member_scopes := scopes_of; sv_catalog := example_catalogue |}.

Definition example_granter : AccessContext :=
  {| tenant_id := 10; workspace_id := 20; principal_id := 101; roles := ∅; groups := ∅;
     scopes := {[ SUPPORT_GRANT_SCOPE; "billing.read" ]}; clearance := "internal"; plan_id := "pro";
     feature_flags := {[ SUPPORT_ACCESS_FEATURE ]}; record_visibility := "open";
     visible_owners := None; max_autonomy_level := A2; support := None |}.

(** A request, approved, then held by the staff member 900 until [until]. *)
Definition example_grant (status : GrantStatus) : SupportGrant :=
  let granted := bool_decide (status ≠ PENDING_APPROVAL) in
  let held := bool_decide (status = GRANT_ACTIVE) in
  {| sg_id := 7; sg_code := grant_code 1; sg_tenant_id := 10; sg_workspace_id := 20;
     sg_resource_type := WORKSPACE_RESOURCE; sg_resource_id := None; sg_resource_label := "HQ";
     sg_scope_set_key := "billing"; sg_scope_set_label := "Billing"; sg_scopes := {[ "billing.read" ]};
     sg_reason := "look"; sg_duration_hours := 1; sg_status := status;
     sg_requested_by := Some 101%N; sg_requested_at := 0;
     sg_granted_by := if granted then Some 101%N else None;
     sg_granted_at := if granted then Some 0%Z else None;
     sg_rejected_by := None; sg_rejected_at := None; sg_reject_reason := None;
     sg_staff_user_id := if held then Some 900%N else None;
     sg_assigned_by := if held then Some 1%N else None;
     sg_activated_at := if held then Some 0%Z else None;
     sg_expires_at := if held then Some (hours 1) else None;
     sg_revoked_by := None; sg_revoked_at := None |}.

Definition example_support_org : OrgDb :=
  MkOrg {[ 10%N := {| tn_id := 10; tn_slug := "acme"; tn_name := "ACME"; tn_status := "active"; tn_record_visibility := "open";
                      tn_max_autonomy_level := A2; tn_created_at := 0 |} ]}
    {[ 20%N := {| ws_id := 20; ws_tenant_id := 10; ws_slug := "main"; ws_name := "HQ" |} ]} ∅ ∅
    {[ 1%N := {| mb_id := 1; mb_tenant_id := 10; mb_workspace_id := 20; mb_user_id := 101;
                 mb_role_keys := ["owner"]; mb_permission_set_keys := [];
                 mb_clearance := "internal"; mb_department := "general";
                 mb_manager_user_id := None; mb_created_at := 0 |} ]}
    {[ 1%N := {| en_id := 1; en_tenant_id := 10; en_plan_id := "pro";
                 en_feature_overrides := [SUPPORT_ACCESS_FEATURE] |} ]}
    {[ "pro"%py := [] ]} {[ "owner"%py := [SUPPORT_GRANT_SCOPE; "billing.read"%py] ]} ∅
    {[ 900%N ]} ∅ ∅ ∅ ∅.

Definition example_supported (grants : list SupportGrant) : World :=
  example_world (set_tbl (list_to_map ((λ g, (sg_id g, g)) <$> grants))
                   (set_org example_support_org empty_db)) 1000.

Lemma example_grants_inv status :
  status ∈ [PENDING_APPROVAL; PENDING_ASSIGNMENT; GRANT_ACTIVE] →
  grants_inv (example_supported [example_grant status]).
Proof.
  assert (grants_of (db (example_supported [example_grant status]))
          = {[ 7%N := example_grant status ]}) as E by done.
  intros Hs. split; rewrite ?E; [done| | |intros k g|intros k g|intros k g x];
    try (intros Hg; apply lookup_singleton_Some in Hg as [_ <-]).
  - intros k g Hg. by apply lookup_singleton_Some in Hg as [<- <-].
  - by destruct status; vm_compute.
  - rewrite !elem_of_cons, elem_of_nil in Hs. destruct Hs as [->|[->|[->|[]]]]; by vm_compute.
  - by exists 1%N.
  - intros Hx. simpl in Hx. apply elem_of_singleton in Hx. subst x. by vm_compute.
Qed.

Lemma support_refines_witness :
  let w := example_supported [example_grant PENDING_APPROVAL] in
  let w' := (approve example_support_service example_granter 7 w).2 in
  let w2 := (approve example_support_service example_granter 7 w').2 in
  grants_inv w' ∧ register_step (register_of (db w)) (register_of (db w')) ∧ db w2 = db w'.
Proof.
  intros w w' w2.
  pose proof (support_refines example_support_service example_no_describer example_registered) as H.
  destruct (H _ w w' (example_grants_inv PENDING_APPROVAL ltac:(left)) (op_approve _ _ _ _)) as [Hi Hs].
  assert (outcome_of_op (approve example_support_service example_granter 7 w).1 = Answered) as Ea
    by (vm_compute; reflexivity).
  rewrite Ea in Hs. split; [exact Hi|]. split; [exact Hs|].
  destruct (H _ w' w2 Hi (op_approve _ _ _ _)) as [_ Hr].
  assert (match outcome_of_op (approve example_support_service example_granter 7 w').1 with
          | Refused_with _ => true | _ => false end = true) as Er by (vm_compute; reflexivity).
  destruct (outcome_of_op (approve example_support_service example_granter 7 w').1);
    [discriminate Er|exact (proj1 Hr)|discriminate Er].
Defined.
