(* ===== verification/SupportSteps.v ===== *)
(** * What a support grant gives, and to whom

    The context of a staff member rests on a grant in force ([SupportAccess]'s
    door); the customer can always end an open grant, and an ended one never
    opens again; a request passes the database; whoever approves holds what they
    hand over; and what the trigger says of the people a grant names. *)

From S2P Require Import Prelude Errors Kernel Domain Accounts SupportGrants Store Membership.
From S2P Require Import SupportAccess SupportRegister.
Local Open Scope prog_scope.
Local Open Scope pystr_scope.

(** *** What the register keeps *)

Lemma register_step_proceeds {T} (s s' : gmap uuid (T * Phase)) id terms p :
  register_step s s' → s !! id = Some (terms, p) →
  ∃ p', s' !! id = Some (terms, p') ∧ rtc proceeds p p'.
Proof.
  destruct 1 as [s k t0 p0 Hn _|s k t0 p0 q Hk Hp]; intros Hs;
    (destruct (N.eq_dec k id) as [->|Hne]; [|rewrite lookup_insert_ne by done; by exists p]).
  - congruence.
  - rewrite lookup_insert_eq. exists q. rewrite Hk in Hs. injection Hs as -> ->.
    split; [done|]. by apply rtc_once.
Qed.

Lemma ended_stays p : rtc proceeds Ended p → p = Ended.
Proof. intros H. by inversion H as [|? ? ? Hp]; [|inversion Hp]. Qed.

Section History.
Context (svc : SupportGrantService) `{!ReadsScopes (sv_member_scopes svc)}.
Context (describers_read : ∀ t d c ty id,
           get_describer (sv_catalog svc) t = Some d → respects idle (d c ty id)).
Context (catalogue : registered (sv_catalog svc)).

(** One operation, whatever its outcome. *)
Definition support_step (w w' : World) : Prop := ∃ o, support_op svc o w w'.

Lemma support_ops_register w w' id terms p :
  grants_inv w → rtc support_step w w' → register_of (db w) !! id = Some (terms, p) →
  grants_inv w' ∧ ∃ p', register_of (db w') !! id = Some (terms, p') ∧ rtc proceeds p p'.
Proof.
  intros Hi Hs. revert p. induction Hs as [w|w1 w2 w3 [o Hop] _ IH]; intros p Hp; [split; [done|by exists p]|].
  pose proof (support_op_inv svc describers_read catalogue _ _ _ Hi Hop) as Hi2.
  destruct (support_op_effect svc describers_read catalogue _ _ _ Hi Hop) as [_ He].
  assert (∃ q, register_of (db w2) !! id = Some (terms, q) ∧ rtc proceeds p q) as (q & Hq & Hpq).
  { destruct o; simpl in He; [|exists p; split; [|done]; unfold register_of in *; by rewrite He..].
    eapply register_step_proceeds; [|done]. by apply change_register. }
  destruct (IH Hi2 q Hq) as [Hi3 (p' & Hp' & Hqp)]. split; [done|]. exists p'. split; [done|by etrans].
Qed.
End History.

(** ** The context of a staff member *)

Lemma status_value_active st : status_value st = status_value GRANT_ACTIVE → st = GRANT_ACTIVE.
Proof. by destruct st. Qed.

(** In force: active, before its end, and still the granter's to give. *)
Lemma effective_active g now held :
  grant_effective_state g now held = status_value GRANT_ACTIVE ↔
  sg_status g = GRANT_ACTIVE ∧ (∃ e, sg_expires_at g = Some e ∧ (now < e)%Z) ∧
  SUPPORT_GRANT_SCOPE ∈ held ∧ sg_scopes g ⊆ held.
Proof.
  unfold grant_effective_state. case_bool_decide as Hs; simpl; [rewrite Hs|].
  2: { split; [by intros ?%status_value_active|by intros [? _]]. }
  destruct (sg_expires_at g) as [e|]; [|split; [done|by intros (_ & (? & ? & _) & _)]].
  destruct (Z.leb_spec e now); [split; [done|intros (_ & (? & [= <-] & ?) & _); lia]|].
  destruct (decide (SUPPORT_GRANT_SCOPE ∈ held)) as [Hg|Hg].
  - rewrite bool_decide_eq_false_2 by tauto. destruct (decide (sg_scopes g ⊆ held)) as [Hh|Hh].
    + rewrite bool_decide_eq_false_2 by tauto. simpl. split; [eauto 6|done].
    + rewrite bool_decide_eq_true_2 by done. simpl. split; [done|tauto].
  - rewrite bool_decide_eq_true_2 by done. simpl. split; [done|tauto].
Qed.

(** What [scopes_of] reads: the one membership of a person. *)
Lemma scopes_of_member tenant workspace user x w s w' :
  clean w → scopes_of tenant workspace user w = (Ok s, w') → x ∈ s →
  w' = w ∧ ∃ m, m ∈ _members (t_org (db w)) tenant workspace (Some user) ∧
                s = _scopes_of (t_org (db w)) m.
Proof.
  intros Hc. rewrite scopes_of_run by done. intros [= <- <-] Hx. split; [done|].
  destruct (_members _ _ _ _) as [|m [|]]; [set_solver| |set_solver]. exists m. by split; [left|].
Qed.

(** Why a staff member acts: every check of the door. *)
Record admitted_by_grant (w : World) (principal : uuid) (methods : gset pystr) (g : SupportGrant)
    (c : AccessContext) : Prop := {
  ab_staff : principal ∈ t_support_staff (t_org (db w));
  ab_second_factor : methods ∩ SECOND_FACTOR_METHODS ≠ ∅;
  ab_assigned : sg_staff_user_id g = Some principal;
  ab_active : sg_status g = GRANT_ACTIVE;
  ab_expiry : ∃ e, sg_expires_at g = Some e ∧ (utc w (utc_reads w) < e)%Z ∧
                sg_activated_at g = Some (e - hours (sg_duration_hours g))%Z;
  ab_granter : ∃ by_ m, sg_granted_by g = Some by_ ∧
    m ∈ _members (t_org (db w)) (sg_tenant_id g) (sg_workspace_id g) (Some by_) ∧
    SUPPORT_GRANT_SCOPE ∈ _scopes_of (t_org (db w)) m ∧ sg_scopes g ⊆ _scopes_of (t_org (db w)) m;
  ab_plan : SUPPORT_ACCESS_FEATURE ∈ feature_flags c ∧
    plan_of (t_org (db w)) (sg_tenant_id g) = Some (plan_id c, feature_flags c) ∧
    (tn_status <$> t_tenants (t_org (db w)) !! sg_tenant_id g) = Some "active"%py;
  ab_context : c = support_context g principal (plan_id c) (feature_flags c) }.

(** [_context], when it answers. *)
Lemma context_ok principal grant_id w c w' :
  grants_inv w → _context scopes_of principal grant_id w = (Ok c, w') →
  db w' = db w ∧ clean w' ∧ ∃ g, grants_of (db w) !! grant_id = Some g ∧
    (∀ methods, principal ∈ t_support_staff (t_org (db w)) → methods ∩ SECOND_FACTOR_METHODS ≠ ∅ →
     admitted_by_grant w principal methods g c).
Proof.
  intros Hi (row & s & H1 & H)%bind_ok. pose proof (gi_clean _ Hi) as Hc.
  unfold grant_for_staff in H1. rewrite session_begin_gets in H1 by done. injection H1 as Hrow <-.
  destruct row as [g|]; [|done]. apply bind_Some in Hrow as (g' & Hg & Hst).
  destruct (bool_decide _) eqn:Es; [|done]. injection Hst as ->. to_prop.
  apply bind_ok in H as (now & s1 & [= <- <-] & H).
  match type of H with _ ?x = _ => set (w1 := x) in H end.
  assert (clean w1) as Hc1 by done.
  apply bind_ok in H as (held & s2 & Hh & H).
  apply bind_ok in H as ([] & s3 & Hst & H).
  destruct (bool_decide (grant_effective_state _ _ _ = _)) eqn:Est; [|done]. injection Hst as <-.
  apply bool_decide_eq_true, effective_active in Est as (Hact & (e & He & Hlt) & Hgr & Hsc).
  unfold granter_scopes_of in Hh. destruct (sg_granted_by g) as [by_|] eqn:Eby.
  2: { injection Hh as <- _. by apply not_elem_of_empty in Hgr. }
  eapply (scopes_of_member _ _ _ SUPPORT_GRANT_SCOPE) in Hh as [-> (m & Hm & ->)]; [|done..].
  apply bind_ok in H as (plan & s4 & H1 & H). unfold tenant_plan in H1.
  rewrite session_begin_gets in H1 by done. injection H1 as Hplan <-.
  destruct plan as [[plan flags]|]; [|done]. apply bind_Some in Hplan as (t & Ht & Hp).
  destruct (bool_decide (tn_status t = _)) eqn:Ets; [|done]. to_prop.
  destruct (bool_decide (SUPPORT_ACCESS_FEATURE ∈ flags)) eqn:Ef; [|done]. to_prop. cbv zeta in H.
  destruct (access_context_valid _); [|done]. injection H as <- <-.
  split_and!; [done|done|]. exists g. split; [done|]. intros methods Hstaff Hm2.
  split; try done.
  - exists e. split_and!; [done|done|].
    pose proof (gi_checks _ Hi _ _ Hg) as Hch. unfold grant_checks, ck_assigned in Hch. to_prop.
    rewrite He in *. by to_prop.
  - exists by_, m. by split_and!.
  - split_and!; [done|done|]. simpl in Ht. rewrite Ht. simpl. by f_equal.
Qed.

(** C27: a staff member acts for a customer only when listed as support staff, with a second
    factor, under a grant assigned to them that is active, unexpired and whose granter
    still holds every scope of it; the context carries exactly the grant's scopes,
    tenant and workspace and no role. *)
Theorem support_context_sound principal methods grant_id w c w' :
  grants_inv w → support_build scopes_of principal methods grant_id w = (Ok c, w') →
  db w' = db w ∧ clean w' ∧
  ∃ g, grants_of (db w) !! grant_id = Some g ∧ admitted_by_grant w principal methods g c ∧
    ∀ authz action, is_allowed authz c action = true →
      action ∈ sg_scopes g ∧ forbidden_scope action = false.
Proof.
  intros Hi H. pose proof (gi_clean _ Hi) as Hc.
  apply bind_ok in H as (staff & s & H1 & H). unfold is_support_staff in H1.
  rewrite session_begin_gets in H1 by done. injection H1 as <- <-.
  apply bind_ok in H as ([] & s & H1 & H). destruct (bool_decide _) eqn:Hst; [|done]. injection H1 as <-.
  apply bind_ok in H as ([] & s & H1 & H). destruct (bool_decide (_ = ∅)) eqn:Hm; [done|]. injection H1 as <-.
  to_prop. apply context_ok in H as (Hd & Hc' & g & Hg & Ha); [|done]. specialize (Ha methods Hst Hm).
  split_and!; [done|done|]. exists g. split_and!; [done|done|].
  intros authz action Hal. rewrite (ab_context _ _ _ _ _ Ha) in Hal. unfold is_allowed in Hal. simpl in Hal.
  apply orb_true_iff in Hal as [?|Hin]; [to_prop; set_solver|]. to_prop.
  split; [done|by eapply gi_scopes].
Qed.

(** ** The customer's steps, exactly *)

Lemma unique_replace (t : gmap uuid SupportGrant) k g g' :
  t !! k = Some g → sg_tenant_id g' = sg_tenant_id g → sg_code g' = sg_code g →
  unique_ok t = true → unique_ok (<[k := g']> t) = true.
Proof.
  intros Hk Ht Hco Hu. pose proof (proj1 (unique_ok_spec t) Hu) as Hs. apply unique_ok_spec.
  assert (∀ k1 r1, <[k := g']> t !! k1 = Some r1 →
            ∃ r, t !! k1 = Some r ∧ unique_key r = unique_key r1) as Hback.
  { intros k1 r1. rewrite lookup_insert_Some. intros [[<- <-]|[_ H]]; [|by eexists].
    exists g. split; [done|]. simpl. by rewrite Ht, Hco. }
  intros k1 k2 r1 r2 u (a & Ha & Ea)%Hback (b & Hb & Eb)%Hback H1 H2.
  apply (Hs k1 k2 a b u); [done|done|congruence|congruence].
Qed.

(** The world after a change and its audit event. *)
Definition changed_world (context : AccessContext) (id : uuid) (g' : SupportGrant) (action : pystr)
    (now : datetime) (w : World) : World :=
  let event := support_grant_audit (ids w (ids_issued w)) g' (principal_id context) action now ∅ in
  let d := set_tbl (<[id := g']> (grants_of (db w))) (db w) in
  let d := set_tbl (<[(ae_id event, now) := event]> (t_audit (db w))) d in
  let w := (new_uuid w).2 in commit_db d w.

Lemma append_for_run context g action now w :
  sg_tenant_id g = tenant_id context → is_blank action = false →
  t_audit (db w) !! (ids w (ids_issued w), now) = None →
  let event := support_grant_audit (ids w (ids_issued w)) g (principal_id context) action now ∅ in
  append_for (tenant_id context) (_audit context action now) g w =
    (Ok tt, set_db (set_tbl (<[(ae_id event, now) := event]> (t_audit (db w))) (db w)) (new_uuid w).2).
Proof.
  intros Ht Ha Hn event. unfold append_for, bind, _audit, new_uuid, ret, lift_res, make_audit_event.
  cbn beta iota zeta. unfold bind. fold event.
  assert (audit_event_valid event = true) as -> by (unfold audit_event_valid; simpl; by rewrite Ha).
  unfold audit_append. rewrite sql_insert_fresh; done.
Qed.

(** One guarded update of a grant that is where the caller read it. *)
Lemma repo_change_run context id expected ch action now w g :
  grants_inv w → grants_of (db w) !! id = Some g → sg_tenant_id g = tenant_id context →
  sg_workspace_id g = workspace_id context → sg_status g ∈ expected →
  step_ok g (apply_change ch g) → is_blank action = false →
  t_audit (db w) !! (ids w (ids_issued w), now) = None →
  repo_change context id expected ch (_audit context action now) w =
    (Ok (Some (apply_change ch g)), changed_world context id (apply_change ch g) action now w).
Proof.
  intros Hi Hg Ht Hw He [Hgu Hch] Ha Hn. unfold repo_change, session_begin, bind at 1.
  rewrite update_grant_run by apply Hi. rewrite Hg.
  unfold _mine. rewrite !bool_decide_eq_true_2 by done. cbn [andb].
  rewrite Hgu, Hch. cbv zeta.
  rewrite (unique_replace _ id g) by (done || apply Hi). unfold bind.
  rewrite append_for_run by done. done.
Qed.

Lemma repo_change_ok context id expected ch audit w g' w' :
  keyed (grants_of (db w)) → (∀ h, respects same_grants (audit h)) →
  repo_change context id expected ch audit w = (Ok (Some g'), w') →
  ∃ g, grants_of (db w) !! id = Some g ∧ sg_tenant_id g = tenant_id context ∧
    sg_workspace_id g = workspace_id context ∧ sg_status g ∈ expected ∧ g' = apply_change ch g ∧
    grants_of (db w') = <[id := g']> (grants_of (db w)).
Proof.
  intros Hk Ha (s & H & ->)%session_begin_ok. apply bind_ok in H as (row & s1 & H1 & H).
  rewrite update_grant_run in H1 by done.
  destruct (grants_of (db w) !! id) as [g|] eqn:Hg; [|by injection H1 as <- <-].
  destruct (bool_decide (sg_tenant_id g = _) && _) eqn:E; [|by injection H1 as <- <-].
  unfold _mine in E. to_prop.
  destruct (guard_update _ _); [|done]. destruct (grant_checks _); [|done]. cbv zeta in H1.
  destruct (unique_ok (<[_ := _]> _)); [|done]. injection H1 as <- <-.
  apply bind_ok in H as ([] & s2 & Hap & [= <- <-]).
  pose proof (append_for_same (tenant_id context) audit (apply_change ch g) Ha) as Hs.
  match type of Hap with _ ?x = _ => specialize (Hs x) end. rewrite Hap in Hs.
  exists g. split_and!; try done.
Qed.

Section Steps.
Context (svc : SupportGrantService).

(** A step of a grant that is not in force: no scope needs to be read again. *)
Lemma change_run context id expected ch action now w g :
  grants_inv w → grants_of (db w) !! id = Some g → sg_tenant_id g = tenant_id context →
  sg_workspace_id g = workspace_id context → sg_status g ∈ expected →
  step_ok g (apply_change ch g) → gc_status ch ≠ GRANT_ACTIVE → is_blank action = false →
  t_audit (db w) !! (ids w (ids_issued w), now) = None →
  _change svc context id expected ch action now w =
    (Ok {| gv_grant := apply_change ch g; gv_state := status_value (gc_status ch) |},
     (now_utc (changed_world context id (apply_change ch g) action now w)).2).
Proof.
  intros Hi Hg Ht Hw He Hs Hna Ha Hn. unfold _change, bind at 1.
  rewrite (repo_change_run _ _ _ _ _ _ _ g) by done.
  unfold _views, bind, now_utc, views_from, grantor_scopes, ret. cbn.
  unfold grant_effective_state. cbn. rewrite (bool_decide_eq_false_2 (gc_status ch = _)) by done.
  by destruct (gc_status ch).
Qed.

Lemma repo_get_run context id g w :
  clean w → grants_of (db w) !! id = Some g → sg_tenant_id g = tenant_id context →
  sg_workspace_id g = workspace_id context → _get context id w = (Ok g, w).
Proof.
  intros Hc Hg Ht Hw. unfold _get, bind, repo_get, sql_get. rewrite session_begin_gets by done.
  change (tbl (db w)) with (grants_of (db w)). rewrite Hg. simpl. unfold visible, _mine. simpl.
  by rewrite !bool_decide_eq_true_2.
Qed.
End Steps.

(** A revocation passes the database, whatever open state the grant was in. *)
Lemma revocation_step_ok by_ now g :
  grant_checks g = true → sg_status g ∈ OPEN_STATUSES → step_ok g (apply_change (revocation_of by_ now) g).
Proof.
  intros Hc Ho. split.
  - apply guard_update_ok; [done| |by right|done]. simpl. unfold OPEN_STATUSES, moves in *.
    rewrite !elem_of_cons, elem_of_nil in Ho. destruct Ho as [->|[->|[->|[]]]]; set_solver.
  - unfold grant_checks in *. to_prop. rewrite !andb_true_iff. split_and!; [done|done| | |done].
    + unfold ck_rejected in *. to_prop. simpl.
      assert (bool_decide (sg_status g = GRANT_REJECTED) = false) as E.
      { apply bool_decide_eq_false_2. intros E. rewrite E in Ho. by vm_compute in Ho; set_solver. }
      rewrite E in *. destruct (sg_rejected_at g), (sg_reject_reason g), (sg_rejected_by g); done.
    + unfold ck_assigned in *. to_prop. simpl. rewrite !andb_true_iff. split_and!; try done.
      unfold OPEN_STATUSES in Ho. rewrite !elem_of_cons, elem_of_nil in Ho.
      destruct Ho as [E|[E|[E|[]]]]; rewrite E in *; by destruct (sg_activated_at g), (sg_granted_at g).
Qed.

(** ** Properties of the steps *)

(** Whoever may grant can always end an open grant, with the feature switched off as well:
    revoking it commits. *)
Theorem open_grant_can_be_ended svc context id g w :
  grants_inv w → has_scope context SUPPORT_GRANT_SCOPE = true →
  grants_of (db w) !! id = Some g → sg_tenant_id g = tenant_id context →
  sg_workspace_id g = workspace_id context → sg_status g ∈ OPEN_STATUSES →
  t_audit (db w) !! (ids w (ids_issued w), utc w (utc_reads w)) = None →
  let g' := apply_change (revocation_of (principal_id context) (utc w (utc_reads w))) g in
  ∃ w', revoke svc context id w = (Ok {| gv_grant := g'; gv_state := "revoked" |}, w') ∧
    saved w' = db w' ∧ grants_of (db w') = <[id := g']> (grants_of (db w)) ∧
    sg_status g' = REVOKED ∧ sg_revoked_by g' = Some (principal_id context).
Proof.
  intros Hi Hs Hg Ht Hw Ho Hn g'.
  exists (now_utc (changed_world context id g' "support.grant.revoked" (utc w (utc_reads w))
                     (now_utc w).2)).2.
  split; [|done]. unfold revoke, bind at 1, _require_granter. rewrite Hs. cbn [negb].
  unfold ret at 1, bind at 1. rewrite (repo_get_run context id g) by (done || apply Hi).
  unfold bind at 1, _require_status. rewrite bool_decide_eq_true_2 by done. unfold ret at 1.
  unfold bind at 1, now_utc at 1. cbn [fst snd].
  rewrite (change_run svc _ _ _ _ _ _ _ g); try done.
  - destruct Hi. by split.
  - apply revocation_step_ok; [by eapply gi_checks|done].
Qed.

Lemma change_ok svc context id expected ch action now w v w' :
  ReadsScopes (sv_member_scopes svc) → grants_inv w →
  _change svc context id expected ch action now w = (Ok v, w') →
  clean w' ∧ ∃ g, grants_of (db w) !! id = Some g ∧ sg_tenant_id g = tenant_id context ∧
    sg_workspace_id g = workspace_id context ∧ sg_status g ∈ expected ∧
    grants_of (db w') = <[id := apply_change ch g]> (grants_of (db w)) ∧
    gv_grant v = apply_change ch g.
Proof.
  intros Hp Hi (row & s & H1 & H)%bind_ok.
  destruct row as [g'|]; [|done].
  assert (clean s) as Hcs.
  { destruct (repo_change_cases context id expected ch (_audit context action now) w
      (λ h, proj1 (audit_same _ _ _ h)) (λ h, proj2 (audit_same _ _ _ h)) (gi_clean _ Hi) (gi_keyed _ Hi)).
    by rewrite H1 in *. }
  apply repo_change_ok in H1 as (g & Hg & Ht & Hw & He & -> & Hgs);
    [|apply Hi|intros h; apply audit_same].
  apply bind_ok in H as (vs & s2 & H2 & H).
  destruct (idle_views svc [apply_change ch g] s Hcs) as [Hc2 Hd2]. rewrite H2 in Hc2, Hd2. simpl in *.
  unfold _views in H2. apply bind_ok in H2 as (t & s3 & _ & H2). simpl in H2.
  apply bind_ok in H2 as (hs & s4 & _ & H2). injection H2 as <- ->. injection H as <- <-.
  split; [done|]. exists g. by rewrite Hd2.
Qed.

(** A successful [revoke] leaves the grant ended. *)
Lemma revoke_ends svc context id w v w' :
  ReadsScopes (sv_member_scopes svc) → grants_inv w → revoke svc context id w = (Ok v, w') →
  ∃ terms, register_of (db w') !! id = Some (terms, Ended).
Proof.
  intros Hp Hi H. apply bind_ok in H as ([] & s & H1 & H).
  unfold _require_granter in H1. destruct (negb _); [done|]. injection H1 as <-.
  apply bind_ok in H as (g0 & s & H1 & H).
  pose proof (idle_get context id w (gi_clean _ Hi)) as [Hc Hd]. rewrite H1 in Hc, Hd. simpl in *.
  apply bind_ok in H as ([] & s2 & H2 & H). unfold _require_status in H2.
  destruct (bool_decide _); [|done]. injection H2 as <-.
  apply bind_ok in H as (now & s3 & [= <- <-] & H).
  assert (grants_inv s) as Hi'.
  { apply (same_inv w); [done|done|by rewrite Hd]. }
  apply change_ok in H as (_ & g & _ & _ & _ & _ & Hgs & _); [|done|by destruct Hi'; split].
  unfold register_of. rewrite Hgs, fmap_insert, lookup_insert_eq. eauto.
Qed.

(** After a revocation no operation makes the grant usable again: every later context under
    it is refused. *)
Theorem revocation_is_final svc context id w v w1 w2 principal methods c w3 :
  ReadsScopes (sv_member_scopes svc) →
  (∀ t d c ty id, get_describer (sv_catalog svc) t = Some d → respects idle (d c ty id)) →
  registered (sv_catalog svc) → grants_inv w →
  revoke svc context id w = (Ok v, w1) → rtc (support_step svc) w1 w2 →
  support_build scopes_of principal methods id w2 ≠ (Ok c, w3).
Proof.
  intros Hp Hd Hcat Hi Hr Hs Hb.
  pose proof (λ o, support_op_inv svc Hd Hcat o w w1 Hi) as Hi1.
  assert (grants_inv w1) as Hi1'.
  { eapply Hi1. pose proof (op_revoke svc context id w) as Hop. rewrite Hr in Hop. exact Hop. }
  destruct (revoke_ends _ _ _ _ _ _ Hp Hi Hr) as [terms He].
  destruct (support_ops_register svc Hd Hcat _ _ _ _ _ Hi1' Hs He) as [Hi2 (p & Hp2 & ->%ended_stays)].
  apply bind_ok in Hb as (staff & s & H1 & H). unfold is_support_staff in H1.
  rewrite session_begin_gets in H1 by apply Hi2. injection H1 as <- <-.
  apply bind_ok in H as ([] & s & H1 & H). destruct (bool_decide _) eqn:Hst; [|done]. injection H1 as <-.
  apply bind_ok in H as ([] & s & H1 & H). destruct (bool_decide (_ = ∅)) eqn:Hm; [done|]. injection H1 as <-.
  to_prop. apply context_ok in H as (_ & _ & g & Hg & Ha); [|done]. specialize (Ha methods Hst Hm).
  unfold register_of in Hp2. rewrite lookup_fmap, Hg in Hp2. injection Hp2 as _ Hph.
  unfold phase in Hph. rewrite (ab_active _ _ _ _ _ Ha), (ab_assigned _ _ _ _ _ Ha) in Hph.
  by destruct (ab_expiry _ _ _ _ _ Ha) as (e & E & _); rewrite E in Hph.
Qed.

(** A grant is approved only by someone who may grant, in its own workspace, with the
    feature on, and who holds every scope it carries. *)
Theorem approve_authority svc context id w v w' :
  ReadsScopes (sv_member_scopes svc) → grants_inv w → approve svc context id w = (Ok v, w') →
  clean w' ∧ ∃ g, grants_of (db w) !! id = Some g ∧ sg_tenant_id g = tenant_id context ∧
    sg_workspace_id g = workspace_id context ∧ sg_status g = PENDING_APPROVAL ∧
    SUPPORT_ACCESS_FEATURE ∈ feature_flags context ∧ SUPPORT_GRANT_SCOPE ∈ scopes context ∧
    sg_scopes g ⊆ scopes context ∧
    grants_of (db w') = <[id := gv_grant v]> (grants_of (db w)) ∧
    phase (gv_grant v) = Waiting (Some (principal_id context)) ∧
    requested_for (gv_grant v) = requested_for g.
Proof.
  intros Hp Hi H. unfold approve, _require_enabled, _require_granter, has_scope, has_feature in H.
  apply bind_ok in H as ([] & s & H1 & H). destruct (bool_decide (SUPPORT_ACCESS_FEATURE ∈ _)) eqn:Hf; [|done]. injection H1 as <-.
  apply bind_ok in H as ([] & s & H1 & H). destruct (bool_decide (SUPPORT_GRANT_SCOPE ∈ _)) eqn:Hs; [|done]. injection H1 as <-.
  apply bind_ok in H as (g0 & s & H1 & H). unfold _get, repo_get, sql_get in H1.
  apply bind_ok in H1 as (row & s1 & H1 & H2). rewrite session_begin_gets in H1 by apply Hi.
  injection H1 as Hrow <-. destruct row as [g1|]; [|done]. injection H2 as -> <-.
  apply bind_Some in Hrow as (g1 & Hg & Hv). destruct (visible _ _ _); [|done]. injection Hv as ->.
  apply bind_ok in H as ([] & s2 & H2 & H). unfold _require_status in H2.
  destruct (bool_decide (_ ∈ [_])); [|done]. injection H2 as <-.
  apply bind_ok in H as ([] & s2 & H2 & H). unfold _require_holds in H2.
  destruct (bool_decide (_ ≠ ∅)) eqn:Hh; [done|]. injection H2 as <-. to_prop.
  apply bind_ok in H as (now & s3 & [= <- <-] & H).
  apply change_ok in H as (Hc & g & Hg' & Ht & Hw & He & Hgs & Hv); [|done|by destruct Hi; split].
  simpl in Hg', Hgs. change (t_support_grants (t_org (db w))) with (grants_of (db w)) in Hg.
  assert (g0 = g) as -> by congruence. split; [done|]. exists g.
  apply list_elem_of_singleton in He. rewrite Hv. split_and!; try done.
  apply dec_stable in Hh. set_solver.
Qed.

(** ** What the database says of the people named *)

(** The [*_by] columns, each [ON DELETE SET NULL]: what deleting the person
    writes to a grant that names them. *)
Inductive ByColumn := requested_by | granted_by | rejected_by | assigned_by | revoked_by.

Definition on_delete_set_null (col : ByColumn) (g : SupportGrant) : SupportGrant :=
  let keep c (o : option uuid) := match c with true => None | false => o end in
  {| sg_id := sg_id g; sg_code := sg_code g; sg_tenant_id := sg_tenant_id g;
     sg_workspace_id := sg_workspace_id g; sg_resource_type := sg_resource_type g;
     sg_resource_id := sg_resource_id g; sg_resource_label := sg_resource_label g;
     sg_scope_set_key := sg_scope_set_key g; sg_scope_set_label := sg_scope_set_label g;
     sg_scopes := sg_scopes g; sg_reason := sg_reason g;
     sg_duration_hours := sg_duration_hours g; sg_status := sg_status g;
     sg_requested_by := keep (match col with requested_by => true | _ => false end) (sg_requested_by g);
     sg_requested_at := sg_requested_at g;
     sg_granted_by := keep (match col with granted_by => true | _ => false end) (sg_granted_by g);
     sg_granted_at := sg_granted_at g;
     sg_rejected_by := keep (match col with rejected_by => true | _ => false end) (sg_rejected_by g);
     sg_rejected_at := sg_rejected_at g; sg_reject_reason := sg_reject_reason g;
     sg_staff_user_id := sg_staff_user_id g;
     sg_assigned_by := keep (match col with assigned_by => true | _ => false end) (sg_assigned_by g);
     sg_activated_at := sg_activated_at g; sg_expires_at := sg_expires_at g;
     sg_revoked_by := keep (match col with revoked_by => true | _ => false end) (sg_revoked_by g);
     sg_revoked_at := sg_revoked_at g |}.

(** Clearing the column of any person a grant names, as the foreign key's ON DELETE SET NULL
    does, is refused by the table's trigger, whatever the grant's state. *)
Theorem named_person_cannot_be_deleted col g :
  ∃ msg, guard_update g (on_delete_set_null col g)
         = Raise (Exn (IntegrityError "ck_support_grants_transition") msg).
Proof.
  destruct (guard_same_status g (on_delete_set_null col g) eq_refl) as [e He].
  unfold guard_update in *. repeat case_match; try done; eauto.
Qed.

(** ** A request *)

(** What [_label] settles: a name of at most 200 characters, and a resource id
    exactly when the type is not the workspace. *)
Lemma label_ok svc context ty id w label w' :
  _label svc context ty id w = (Ok label, w') →
  py_len label <= 200 ∧ null id = bool_decide (ty = WORKSPACE_RESOURCE).
Proof.
  unfold _label. intros (name & s & H1 & H)%bind_ok. destruct name as [name|]; [|done].
  injection H as <- _. split; [unfold py_len; simpl; rewrite length_take; lia|].
  case_bool_decide; by destruct id.
Qed.

(** A request row passes every CHECK. *)
Lemma new_grant_checks context command s reason label granting now id code :
  set_ok (rq_scope_set_key command) s → rq_resource_type command ∈ sss_resource_types s →
  is_blank reason = false → py_len reason <= MAX_REASON_LENGTH →
  (1 <= rq_duration_hours command <= MAX_DURATION_HOURS)%Z →
  is_blank label = false → py_len label <= 200 →
  null (rq_resource_id command) = bool_decide (rq_resource_type command = WORKSPACE_RESOURCE) →
  grant_checks (row_of_new (tenant_id context) (workspace_id context) code
                  (new_grant context command s reason label granting now id)) = true.
Proof.
  intros [[Hk Hkok] Hl [Hs _] [_ Ht]] Hty Hr Hrl [Hd1 Hd2] Hlb Hll Hid.
  unfold grant_checks. rewrite !andb_true_iff. split_and!.
  - unfold ck_request. cbn -[Nat.leb Z.leb btrim ck_length resource_type_ok]. rewrite (Ht _ Hty), Hid, eqb_reflx, !ck_length_ok by done.
    assert (∀ t, is_blank t = false → (1 <=? length (btrim t)) = true) as Hb.
    { intros t Hn. apply Nat.leb_le. destruct (btrim_bounds t) as [_ H]. specialize (H Hn).
      destruct (btrim t); simpl; [done|lia]. }
    rewrite !Hb by (done || (rewrite Hk; by apply key_not_blank)).
    rewrite bool_decide_eq_true_2 by done. cbn [andb].
    apply andb_true_iff. split; by apply Z.leb_le.
  - by destruct granting.
  - by destruct granting.
  - by destruct granting.
  - by destruct granting.
Qed.

(** A row that passes the CHECKs is created, under the next code of its tenant. *)
Lemma repo_create_run context n action now w :
  grants_inv w → ng_status n ∈ [PENDING_APPROVAL; PENDING_ASSIGNMENT] →
  (∀ code, grant_checks (row_of_new (tenant_id context) (workspace_id context) code n) = true) →
  grants_of (db w) !! ng_id n = None → is_blank action = false →
  t_audit (db w) !! (ids w (ids_issued w), now) = None →
  ∃ code w2,
    let g := row_of_new (tenant_id context) (workspace_id context) code n in
    repo_create context n (_audit context action now) w = (Ok g, w2) ∧
    saved w2 = db w2 ∧ grants_of (db w2) = <[ng_id n := g]> (grants_of (db w)) ∧
    ∀ k h, grants_of (db w) !! k = Some h → sg_tenant_id h = tenant_id context → sg_code h ≠ code.
Proof.
  intros Hi Hst Hch Hfresh Ha Haudit.
  set (codes := sg_code <$> filter (λ r, visible (tenant_id context) (λ _, true) r = true)
                              (map_to_list (grants_of (db w))).*2).
  set (code := grant_code (next_number codes)).
  set (g := row_of_new (tenant_id context) (workspace_id context) code n).
  assert (∀ k h, grants_of (db w) !! k = Some h → sg_tenant_id h = tenant_id context →
            sg_code h ≠ code) as Hcode.
  { intros k h Hh Ht E. apply (next_code_fresh codes). fold code. rewrite <- E.
    apply list_elem_of_fmap. exists h. split; [done|]. apply list_elem_of_filter.
    unfold visible. simpl. rewrite bool_decide_eq_true_2 by done. split; [done|].
    apply list_elem_of_fmap. exists (k, h). by rewrite elem_of_map_to_list. }
  assert (sql_insert (tenant_id context) g w
    = (Ok tt, set_db (set_tbl (<[ng_id n := g]> (grants_of (db w))) (db w)) w)) as Hins.
  { apply sql_insert_ok. split_and!; [done|done| |reflexivity].
    apply unique_ok_insert; [done|apply Hi|]. intros k h u Hh [= <-]. simpl.
    intros [= Et Eco]. apply (Hcode _ _ Hh Et).
    assert (∀ a b, chars a = chars b → a = b) as Hinj by (by intros [] [] ?; simpl in *; subst).
    by apply Hinj. }
  assert (guard_insert codes (row_of_new (tenant_id context) (workspace_id context) "" n) = Ok g) as Hgi
    by (unfold guard_insert; by rewrite bool_decide_eq_true_2).
  exists code. unfold repo_create, session_begin, bind at 1, insert_grant, sql_select, bind at 1, gets.
  change (tbl (db w)) with (grants_of (db w)). fold codes. unfold bind at 1, lift_res.
  rewrite Hgi. unfold bind at 1, check_grant. rewrite (Hch code : grant_checks g = true).
  cbn [negb]. unfold ret at 1, bind at 1. rewrite Hins. unfold ret at 1, bind at 1.
  rewrite append_for_run by (done || exact Haudit). eexists. by split_and!.
Qed.

(** A well-formed request by a member who may ask or grant is stored with a fresh code and
    one audit event, waiting for approval, or for assignment when the asker may grant. *)
Theorem request_accepted svc context command s label w :
  let granting := has_scope context SUPPORT_GRANT_SCOPE in
  grants_inv w → registered (sv_catalog svc) →
  has_feature context SUPPORT_ACCESS_FEATURE = true →
  granting || has_scope context SUPPORT_REQUEST_SCOPE = true →
  get_set (sv_catalog svc) (rq_scope_set_key command) = Some s →
  rq_resource_type command ∈ sss_resource_types s →
  1 <= py_len (py_strip (rq_reason command)) <= MAX_REASON_LENGTH →
  (1 <= rq_duration_hours command <= MAX_DURATION_HOURS)%Z →
  _label svc context (rq_resource_type command) (rq_resource_id command) w = (Ok label, w) →
  is_blank label = false → (granting = true → sss_scopes s ⊆ scopes context) →
  grants_of (db w) !! ids w (ids_issued w) = None →
  t_audit (db w) !! (ids w (S (ids_issued w)), utc w (utc_reads w)) = None →
  ∃ g w',
    request svc context command w
      = (Ok {| gv_grant := g; gv_state := status_value (sg_status g) |}, w') ∧
    saved w' = db w' ∧ grants_of (db w') = <[sg_id g := g]> (grants_of (db w)) ∧
    phase g = (if granting then Waiting (Some (principal_id context)) else Asked) ∧
    sg_tenant_id g = tenant_id context ∧ sg_workspace_id g = workspace_id context ∧
    sg_scopes g = sss_scopes s ∧
    ∀ k h, grants_of (db w) !! k = Some h → sg_tenant_id h = tenant_id context → sg_code h ≠ sg_code g.
Proof.
  intros granting Hi Hcat Hf Hside Hset Hty [Hr1 Hr2] [Hd1 Hd2] Hlab Hlb Hholds Hfresh Haudit.
  pose proof (gi_clean _ Hi) as Hc. pose proof (registered_sets _ _ _ Hcat Hset) as Hok.
  destruct (label_ok _ _ _ _ _ _ _ Hlab) as [Hll Hid].
  set (reason := py_strip (rq_reason command)) in *.
  assert (is_blank reason = false) as Hrb.
  { apply strip_not_blank. apply not_true_iff_false. intros Hb%py_strip_blank. fold reason in Hb.
    rewrite Hb in Hr1. by apply Nat.nle_succ_0 in Hr1. }
  set (now := utc w (utc_reads w)) in *. set (id := ids w (ids_issued w)) in *.
  set (n := new_grant context command s reason label granting now id).
  set (w1 := (new_uuid (now_utc w).2).2).
  destruct (repo_create_run context n "support.grant.requested" now w1) as (code & w2 & Hcreate & Hsv & Hgs & Hco);
    [by destruct Hi|unfold n; simpl; destruct granting; [right; left|left]|
     intros code; by apply new_grant_checks|done|done|exact Haudit|].
  set (g := row_of_new (tenant_id context) (workspace_id context) code n) in *.
  exists g, w2. split.
  - unfold request, bind at 1, _require_enabled. rewrite Hf. cbn [negb]. unfold ret at 1.
    unfold bind at 1, _side. fold granting.
    assert ((if granting then ret true else if has_scope context SUPPORT_REQUEST_SCOPE then ret false
             else reraise permission_denied) w = (Ok granting, w)) as ->.
    { destruct granting; [done|]. simpl in Hside. by rewrite Hside. }
    rewrite Hset. unfold bind at 1. rewrite bool_decide_eq_false_2 by tauto. unfold ret at 1.
    unfold bind at 1, _checked_reason. fold reason.
    rewrite (proj2 (Nat.leb_le _ _) Hr1), (proj2 (Nat.leb_le _ _) Hr2). cbn [andb]. unfold ret at 1.
    unfold bind at 1. rewrite (proj2 (Z.leb_le _ _) Hd1), (proj2 (Z.leb_le _ _) Hd2). cbn [andb negb].
    unfold ret at 1, bind at 1. rewrite Hlab. unfold bind at 1, now_utc at 1. cbn beta iota zeta.
    fold now. unfold bind at 1. unfold _require_holds.
    assert ((if granting then if bool_decide (sss_scopes s ∖ scopes context ≠ ∅)
              then raise PermissionDeniedError "you can only grant scopes you hold yourself"
              else ret tt else ret tt) (now_utc w).2 = (Ok tt, (now_utc w).2)) as Hh.
    { destruct granting; [|done]. specialize (Hholds eq_refl).
      rewrite bool_decide_eq_false_2; [done|]. intros Hne. apply Hne. set_solver. }
    unfold now_utc in Hh at 1 2. cbn [snd] in Hh. rewrite Hh. clear Hh.
    unfold bind at 1, new_uuid at 1. cbn beta iota zeta.
    unfold bind at 1.
    match goal with |- context [repo_create _ ?a _ ?x] => change x with w1; change a with n end.
    rewrite Hcreate. reflexivity.
  - split_and!; [done|done| |done|done|done|done].
    unfold phase. simpl. by destruct granting.
Qed.

(** ** Concrete instances *)

Lemma support_context_sound_witness :
  let w := example_supported [example_grant GRANT_ACTIVE] in
  let p := support_build scopes_of 900 {[ "otp"%py ]} 7 w in
  ∃ c g, p.1 = Ok c ∧ db p.2 = db w ∧ grants_of (db w) !! 7%N = Some g ∧
         admitted_by_grant w 900 {[ "otp"%py ]} g c.
Proof.
  intros w p. assert (is_ok p.1 = true) as Hok by (by vm_compute).
  destruct p as [[c|e] w'] eqn:E; [|discriminate Hok].
  destruct (support_context_sound 900 {[ "otp"%py ]} 7 w c w'
    (example_grants_inv GRANT_ACTIVE ltac:(right; right; left)) E) as (Hd & _ & g & Hg & Ha & _).
  exists c, g. by split_and!.
Defined.

Lemma open_grant_can_be_ended_witness :
  let w := example_supported [example_grant GRANT_ACTIVE] in
  ∃ g' w', revoke example_support_service example_granter 7 w
             = (Ok {| gv_grant := g'; gv_state := "revoked" |}, w') ∧ saved w' = db w' ∧
           sg_status g' = REVOKED.
Proof.
  intros w.
  destruct (open_grant_can_be_ended example_support_service example_granter 7
    (example_grant GRANT_ACTIVE) w) as (w' & Hr & Hsv & _ & Hs & _);
    [apply (example_grants_inv GRANT_ACTIVE); right; right; left|reflexivity|reflexivity|reflexivity
    |reflexivity|right; right; left|reflexivity|].
  eexists _, w'. exact (conj Hr (conj Hsv Hs)).
Defined.

Lemma revocation_is_final_witness :
  let w := example_supported [example_grant GRANT_ACTIVE] in
  let r := revoke example_support_service example_granter 7 w in
  is_ok r.1 = true ∧ ∀ c w', support_build scopes_of 900 {[ "otp"%py ]} 7 r.2 ≠ (Ok c, w').
Proof.
  intros w r. assert (is_ok r.1 = true) as Hok by (by vm_compute). split; [exact Hok|].
  intros c w'. destruct r as [[v|e] w1] eqn:E; [|discriminate Hok].
  exact (revocation_is_final example_support_service example_granter 7 w v w1 w1 900 {[ "otp"%py ]} c w'
    _ example_no_describer example_registered
    (example_grants_inv GRANT_ACTIVE ltac:(right; right; left)) E (rtc_refl _ _)).
Defined.

Lemma approve_authority_witness :
  let w := example_supported [example_grant PENDING_APPROVAL] in
  let r := approve example_support_service example_granter 7 w in
  ∃ v, r.1 = Ok v ∧ phase (gv_grant v) = Waiting (Some 101%N).
Proof.
  intros w r. assert (is_ok r.1 = true) as Hok by (by vm_compute).
  destruct r as [[v|e] w'] eqn:E; [|discriminate Hok]. exists v. split; [reflexivity|].
  destruct (approve_authority example_support_service example_granter 7 w v w' _
    (example_grants_inv PENDING_APPROVAL ltac:(left)) E) as (_ & g & H). apply H.
Defined.

Definition example_ask : RequestSupportGrant :=
  {| rq_scope_set_key := "billing"; rq_resource_type := WORKSPACE_RESOURCE; rq_resource_id := None;
     rq_reason := " look "; rq_duration_hours := 2 |}.

Lemma request_accepted_witness :
  let w := example_supported [example_grant GRANT_ACTIVE] in
  ∃ g w', request example_support_service example_granter example_ask w
            = (Ok {| gv_grant := g; gv_state := status_value (sg_status g) |}, w') ∧
          phase g = Waiting (Some 101%N) ∧ sg_code g ≠ grant_code 1.
Proof.
  intros w.
  destruct (cat_sets example_catalogue !! "billing"%py) as [s|] eqn:Es; [|by vm_compute in Es].
  assert (cat_sets example_catalogue !! "billing"%py = Some
    {| sss_key := "billing"; sss_label := "Billing"; sss_scopes := list_to_set ["billing.read"%py];
       sss_resource_types := list_to_set [WORKSPACE_RESOURCE] |}) as Es' by (vm_compute; reflexivity).
  rewrite Es' in Es. injection Es as <-.
  destruct (request_accepted example_support_service example_granter example_ask
    {| sss_key := "billing"; sss_label := "Billing"; sss_scopes := list_to_set ["billing.read"%py];
       sss_resource_types := list_to_set [WORKSPACE_RESOURCE] |} "HQ" w)
    as (g & w' & Hr & _ & _ & Hp & _ & _ & _ & Hcode).
  - apply (example_grants_inv GRANT_ACTIVE); right; right; left.
  - exact example_registered.
  - reflexivity.
  - reflexivity.
  - exact Es'.
  - apply elem_of_list_to_set. left.
  - vm_compute. split; repeat constructor.
  - vm_compute. split; discriminate.
  - reflexivity.
  - reflexivity.
  - intros _ x Hx. apply elem_of_list_to_set, list_elem_of_singleton in Hx. subst x.
    apply elem_of_union_r, elem_of_singleton. reflexivity.
  - reflexivity.
  - reflexivity.
  - exists g, w'. split; [exact Hr|]. split; [exact Hp|].
    specialize (Hcode 7%N (example_grant GRANT_ACTIVE) eq_refl eq_refl). intros E. apply Hcode. by rewrite E.
Defined.
