(* ===== verification/Provisioning.v ===== *)
(** * Provisioning: what the platform operators do

    [application/provisioning.py] and [persistence/provisioning_repo.py]: tenants
    created, locked, renamed and offboarded, the first organisation admin, the
    operators and the support staff.  The repository runs as [dw_provisioner],
    which bypasses row-level security: its statements see every tenant's rows.
    [assign_support_request] is in [SupportAccess]. *)

From S2P Require Import Prelude Errors Kernel Domain Accounts SupportGrants Store Membership.
From S2P Require Import Separation Members SupportAccess.
Local Open Scope prog_scope.
Local Open Scope pystr_scope.

(** ** Data *)

Record ProvisioningContext := { pc_principal_id : uuid }.

Record TenantSummary := {
  ts_id : uuid;
  ts_slug : pystr;
  ts_name : pystr;
  ts_status : pystr;
  ts_plan_id : option pystr;
  ts_workspace_count : nat;
  ts_member_count : nat;
  ts_created_at : datetime }.

Record OperatorRef := {
  or_user_id : uuid;
  or_email : option pystr;
  or_display_name : pystr;
  or_note : option pystr;
  or_created_at : datetime }.

Record SupportStaffRef := {
  sf_user_id : uuid;
  sf_email : option pystr;
  sf_display_name : pystr;
  sf_note : option pystr;
  sf_added_at : datetime }.

Record SupportRequestSummary := {
  sq_grant_id : uuid;
  sq_code : pystr;
  sq_tenant_id : uuid;
  sq_tenant_name : pystr;
  sq_workspace_id : uuid;
  sq_workspace_name : pystr;
  sq_resource_type : pystr;
  sq_resource_label : pystr;
  sq_scope_set_key : pystr;
  sq_scope_set_label : pystr;
  sq_duration_hours : Z;
  sq_reason : pystr;
  sq_requested_at : datetime }.

Record NewTenant := {
  nw_tenant_id : uuid;
  nw_workspace_id : uuid;
  nw_slug : pystr;
  nw_name : pystr }.

Definition _ORG_ADMIN_ROLE : pystr := "org_admin".
Definition _MAIN_WORKSPACE_SLUG : pystr := "main".
Definition _TENANT_STATUSES : list pystr := ["active"; "locked"].

(** [ck_tenants_status] *)
Definition TENANT_STATUS_VALUES : list pystr := ["active"; "locked"; "offboarding"; "offboarded"].

(** [[a-z0-9]] *)
Definition slug_char (c : N) : bool := is_lower c || is_digit c.

(** [[a-z0-9]*(?:-[a-z0-9]+)*], after a character of a word. *)
Fixpoint slug_rest (l : list N) : bool :=
  match l with
  | [] => true
  | c :: r =>
      if slug_char c then slug_rest r
      else match r with
           | c' :: r' => (c =? 45)%N && slug_char c' && slug_rest r'
           | [] => false
           end
  end.

Definition slug_text (l : list N) : bool :=
  match l with c :: r => slug_char c && slug_rest r | [] => false end.

(** [_SLUG.match]: the dollar also matches before a final newline. *)
Definition slug_match (s : pystr) : bool :=
  slug_text (chars s) ||
  match reverse (chars s) with
  | c :: r => (c =? 10)%N && slug_text (reverse r)
  | [] => false
  end.

(** ** [SqlProvisioningRepository] *)

Definition org_of (w : World) : OrgDb := t_org (db w).

(** [ORDER BY created_at] *)
Definition earlier {A} (at_ : A → datetime) (a b : A) : Prop := (at_ a <= at_ b)%Z.
#[export] Instance earlier_dec {A} (at_ : A → datetime) : RelDecision (earlier at_).
Proof. intros a b. unfold earlier. apply _. Defined.

Definition summary (d : Db) (t : TenantRow) : TenantSummary :=
  {| ts_id := tn_id t; ts_slug := tn_slug t; ts_name := tn_name t; ts_status := tn_status t;
     ts_plan_id := en_plan_id <$> head (filter (λ e, en_tenant_id e = tn_id t) (rows_of d));
     ts_workspace_count := length (filter (λ s, ws_tenant_id s = tn_id t) (rows_of d));
     ts_member_count := length (filter (λ m, mb_tenant_id m = tn_id t) (rows_of d));
     ts_created_at := tn_created_at t |}.

Definition repo_list_tenants : Prog (list TenantSummary) :=
  session_begin (gets (λ w,
    summary (db w) <$> merge_sort (earlier tn_created_at) (rows_of (db w)))).

Definition slug_exists (slug : pystr) : Prog bool :=
  session_begin (gets (λ w, existsb (λ t, bool_decide (tn_slug t = slug)) (rows_of (db w)))).

Definition plan_exists (plan : pystr) : Prog bool :=
  session_begin (gets (λ w, bool_decide (is_Some (t_plans (org_of w) !! plan)))).

Definition new_tenant_row (id : uuid) (slug name : pystr) (now : datetime) : TenantRow :=
  {| tn_id := id; tn_slug := slug; tn_name := name; tn_status := "active";
     tn_record_visibility := "open"; tn_max_autonomy_level := A4; tn_created_at := now |}.

Definition main_workspace (id tenant : uuid) : WorkspaceRow :=
  {| ws_id := id; ws_tenant_id := tenant; ws_slug := _MAIN_WORKSPACE_SLUG;
     ws_name := "Main workspace" |}.

Definition new_entitlement (id tenant : uuid) (plan : pystr) : EntitlementRow :=
  {| en_id := id; en_tenant_id := tenant; en_plan_id := plan; en_feature_overrides := [] |}.

(** The three inserts, and the foreign key of the entitlement. *)
Definition create_rows (tenant ws entitlement : uuid) (slug name plan : pystr) : Prog unit :=
  let! w := get_state in
  sql_insert tenant (new_tenant_row tenant slug name (db_now w)) ;;;
  sql_insert tenant (main_workspace ws tenant) ;;;
  sql_insert tenant (new_entitlement entitlement tenant plan) ;;;
  when negb (bool_decide (is_Some (t_plans (org_of w) !! plan))) then
    raise (IntegrityError "entitlements_plan_id_fkey") "violates foreign key constraint".

Definition repo_create_tenant (tenant ws entitlement : uuid) (slug name plan : pystr) : Prog unit :=
  session_begin (create_rows tenant ws entitlement slug name plan).

Definition with_status (status : pystr) (t : TenantRow) : TenantRow :=
  {| tn_id := tn_id t; tn_slug := tn_slug t; tn_name := tn_name t; tn_status := status;
     tn_record_visibility := tn_record_visibility t;
     tn_max_autonomy_level := tn_max_autonomy_level t; tn_created_at := tn_created_at t |}.

Definition with_name (name : pystr) (t : TenantRow) : TenantRow :=
  {| tn_id := tn_id t; tn_slug := tn_slug t; tn_name := name; tn_status := tn_status t;
     tn_record_visibility := tn_record_visibility t;
     tn_max_autonomy_level := tn_max_autonomy_level t; tn_created_at := tn_created_at t |}.

Definition repo_set_tenant_status (tenant : uuid) (status : pystr) : Prog bool :=
  session_begin (
    let! n := sql_update (R := TenantRow) tenant (λ _, true) (with_status status) in
    (when negb (n =? 0) && negb (bool_decide (status ∈ TENANT_STATUS_VALUES)) then
       raise (IntegrityError "ck_tenants_status") "violates check constraint") ;;;
    ret (negb (n =? 0))).

Definition repo_rename_tenant (tenant : uuid) (name : pystr) : Prog bool :=
  session_begin (
    let! n := sql_update (R := TenantRow) tenant (λ _, true) (with_name name) in
    ret (negb (n =? 0))).

Definition _ACTIVE_REQUEST_INDEX : pystr := "uq_tenant_offboarding_requests_active".
Definition _TENANT_FK : pystr := "fk_tenant_offboarding_requests_tenant_id_tenants".

Definition new_request (id tenant requested_by : uuid) (now : datetime) : OffboardingRow :=
  {| of_id := id; of_tenant_id := tenant; of_status := OB_requested;
     of_requested_by := requested_by; of_requested_at := now; of_export_key := None;
     of_error := None; of_updated_at := now |}.

Definition request_refused {A} (e : exn) : Prog A :=
  if bool_decide (refusal e = Some _ACTIVE_REQUEST_INDEX)
  then raise ConflictError "an offboarding request is already in flight for this tenant"
  else if bool_decide (refusal e = Some _TENANT_FK) then raise NotFoundError "unknown tenant"
  else reraise e.

Definition create_offboarding_request (id tenant requested_by : uuid) : Prog unit :=
  try_except (session_begin (
    let! w := get_state in
    sql_insert tenant (new_request id tenant requested_by (db_now w)) ;;;
    when negb (bool_decide (is_Some (t_tenants (org_of w) !! tenant))) then
      raise (IntegrityError _TENANT_FK) "violates foreign key constraint")) request_refused.

(** [ORDER BY requested_at DESC LIMIT 1] *)
Definition latest_request (tenant : uuid) (d : Db) : option OffboardingRow :=
  head (merge_sort (earlier (λ r, - of_requested_at r)%Z)
          (filter (λ r, of_tenant_id r = tenant) (rows_of d))).

Definition repo_get_offboarding_status (tenant : uuid) : Prog (option OffboardingRow) :=
  session_begin (gets (λ w, latest_request tenant (db w))).

Definition main_workspace_id (tenant : uuid) : Prog (option uuid) :=
  session_begin (gets (λ w,
    ws_id <$> head (filter (λ s, ws_tenant_id s = tenant ∧ ws_slug s = "main"%py)
                      (rows_of (db w))))).

Definition set_role_keys (keys : list pystr) (m : MembershipRow) : MembershipRow :=
  {| mb_id := mb_id m; mb_tenant_id := mb_tenant_id m; mb_workspace_id := mb_workspace_id m;
     mb_user_id := mb_user_id m; mb_role_keys := keys;
     mb_permission_set_keys := mb_permission_set_keys m; mb_clearance := mb_clearance m;
     mb_department := mb_department m; mb_manager_user_id := mb_manager_user_id m;
     mb_created_at := mb_created_at m |}.

(** [grant_role]: only the support staff refusal is translated. *)
Definition grant_role (membership tenant ws user_id : uuid) (role : pystr) : Prog unit :=
  session_begin (
    let! existing := sql_select tenant (seat tenant ws user_id) in
    let! w := get_state in
    try_except
      (match existing with
       | [] => insert_membership tenant
                 (new_membership membership tenant ws user_id {[ role ]} "general" (db_now w))
       | m :: _ =>
           if bool_decide (role ∈ mb_role_keys m) then ret tt
           else let! _ := update_membership tenant (seat tenant ws user_id)
                            (set_role_keys (mb_role_keys m ++ [role])) in
                ret tt
       end)
      (λ e, reraise (default e (support_staff_conflict e)))).

(** *** Operators and support staff *)

Definition set_operators (t : gmap uuid OperatorRow) (d : Db) : Db :=
  set_ops (MkOps (t_requests (t_ops d)) t (t_staff_rows (t_ops d))) d.
Definition set_staff_rows (t : gmap uuid StaffRow) (d : Db) : Db :=
  set_ops (MkOps (t_requests (t_ops d)) (t_operators (t_ops d)) t) d.

Definition operator_ref (o : OrgDb) (kv : uuid * OperatorRow) : option OperatorRef :=
  (λ u, {| or_user_id := kv.1; or_email := us_email u; or_display_name := us_display_name u;
           or_note := op_note kv.2; or_created_at := op_created_at kv.2 |}) <$> t_users o !! kv.1.

Definition repo_list_operators : Prog (list OperatorRef) :=
  session_begin (gets (λ w, merge_sort (earlier or_created_at)
    (omap (operator_ref (org_of w)) (map_to_list (t_operators (t_ops (db w))))))).

Definition is_operator (user_id : uuid) : Prog bool :=
  session_begin (gets (λ w, bool_decide (is_Some (t_operators (t_ops (db w)) !! user_id)))).

(** [ON CONFLICT (user_id) DO NOTHING]; the foreign key is to [users]. *)
Definition repo_add_operator (user_id : uuid) (note : option pystr) (created_by : uuid) : Prog unit :=
  session_begin (
    let! w := get_state in
    let t := t_operators (t_ops (db w)) in
    match t !! user_id with
    | Some _ => ret tt
    | None =>
        (when negb (bool_decide (is_Some (t_users (org_of w) !! user_id))) then
           raise (IntegrityError "platform_operators_user_id_fkey")
             "violates foreign key constraint") ;;;
        modify (set_db (set_operators (<[user_id :=
          {| op_note := note; op_created_by := created_by; op_created_at := db_now w |}]> t) (db w)))
    end).

Definition repo_remove_operator (user_id : uuid) : Prog bool :=
  session_begin (
    let! w := get_state in
    let t := t_operators (t_ops (db w)) in
    modify (set_db (set_operators (delete user_id t) (db w))) ;;;
    ret (bool_decide (is_Some (t !! user_id)))).

Definition staff_ref (d : Db) (user_id : uuid) : option SupportStaffRef :=
  u ← t_users (t_org d) !! user_id;
  s ← t_staff_rows (t_ops d) !! user_id;
  Some {| sf_user_id := user_id; sf_email := us_email u; sf_display_name := us_display_name u;
          sf_note := st_note s; sf_added_at := st_added_at s |}.

Definition repo_list_support_staff : Prog (list SupportStaffRef) :=
  session_begin (gets (λ w, merge_sort (earlier sf_added_at)
    (omap (staff_ref (db w)) (elements (t_support_staff (org_of w)))))).

Definition NOTE_LIMIT : nat := 200.

Definition list_staff (user_id : uuid) (row : StaffRow) (d : Db) : Db :=
  set_staff_rows (<[user_id := row]> (t_staff_rows (t_ops d)))
    (set_org (set_support_staff ({[ user_id ]} ∪ t_support_staff (t_org d)) (t_org d)) d).

Definition unlist_staff (user_id : uuid) (d : Db) : Db :=
  set_staff_rows (delete user_id (t_staff_rows (t_ops d)))
    (set_org (set_support_staff (t_support_staff (t_org d) ∖ {[ user_id ]}) (t_org d)) d).

Definition repo_add_support_staff (user_id : uuid) (note : option pystr) (added_by : uuid)
    : Prog unit :=
  session_begin (
    let! w := get_state in
    (when negb (from_option (λ n, py_len n <=? NOTE_LIMIT) true note) then
       raise (IntegrityError "ck_support_staff_note") "violates check constraint") ;;;
    if bool_decide (user_id ∈ t_support_staff (org_of w)) then ret tt
    else
      (when negb (bool_decide (is_Some (t_users (org_of w) !! user_id))) then
         raise (IntegrityError "fk_support_staff_user_id_users") "violates foreign key constraint") ;;;
      (when negb (bool_decide (is_Some (t_users (org_of w) !! added_by))) then
         raise (IntegrityError "fk_support_staff_added_by_users") "violates foreign key constraint") ;;;
      modify (set_db (list_staff user_id
        {| st_note := note; st_added_by := added_by; st_added_at := db_now w |} (db w)))).

Definition repo_remove_support_staff (user_id : uuid) : Prog bool :=
  session_begin (
    let! w := get_state in
    modify (set_db (unlist_staff user_id (db w))) ;;;
    ret (bool_decide (user_id ∈ t_support_staff (org_of w)))).

(** [ORDER BY requested_at, id] *)
Definition requested_first (a b : SupportRequestSummary) : Prop :=
  (sq_requested_at a < sq_requested_at b)%Z ∨
  (sq_requested_at a = sq_requested_at b ∧ (sq_grant_id a <= sq_grant_id b)%N).
#[export] Instance requested_first_dec : RelDecision requested_first.
Proof. intros a b. unfold requested_first. apply _. Defined.

Definition support_request (o : OrgDb) (g : SupportGrant) : option SupportRequestSummary :=
  t ← t_tenants o !! sg_tenant_id g;
  s ← t_workspaces o !! sg_workspace_id g;
  if bool_decide (sg_status g = PENDING_ASSIGNMENT) then
    Some {| sq_grant_id := sg_id g; sq_code := sg_code g; sq_tenant_id := sg_tenant_id g;
            sq_tenant_name := tn_name t; sq_workspace_id := sg_workspace_id g;
            sq_workspace_name := ws_name s; sq_resource_type := sg_resource_type g;
            sq_resource_label := sg_resource_label g; sq_scope_set_key := sg_scope_set_key g;
            sq_scope_set_label := sg_scope_set_label g;
            sq_duration_hours := sg_duration_hours g; sq_reason := sg_reason g;
            sq_requested_at := sg_requested_at g |}
  else None.

Definition list_support_requests : Prog (list SupportRequestSummary) :=
  session_begin (gets (λ w, merge_sort requested_first
    (omap (support_request (org_of w)) (rows_of (db w))))).

Definition record_audit (event : ProvisioningAudit) : Prog unit :=
  session_begin (append_provisioning event).

(** ** [ProvisioningService] *)

Section Service.
(** [str.lower] and SQL's [lower], as in [Members]. *)
Context (py_lower sql_lower : pystr → pystr).
Context (context : ProvisioningContext).

Definition _audit (action target_type : pystr) (target_id : option pystr)
    (details : gmap pystr json) : Prog unit :=
  let! id := new_uuid in
  let! now := now_utc in
  record_audit {| pa_id := id; pa_actor_id := pc_principal_id context; pa_action := action;
                  pa_target_type := target_type; pa_target_id := target_id;
                  pa_details := details; pa_occurred_at := now |}.

Definition create_tenant (slug name plan : pystr) : Prog NewTenant :=
  let slug := py_lower (py_strip slug) in
  let name := py_strip name in
  (when negb (slug_match slug) then
     raise DomainError "tenant slug must be lowercase letters, digits and single hyphens") ;;;
  (when negb (py_truthy name) then raise DomainError "tenant name must not be blank") ;;;
  let! known := plan_exists plan in
  (when negb known then raise NotFoundError "unknown plan") ;;;
  let! taken := slug_exists slug in
  (when taken then raise ConflictError "a tenant with that slug already exists") ;;;
  let! tenant := new_uuid in
  let! ws := new_uuid in
  let! entitlement := new_uuid in
  repo_create_tenant tenant ws entitlement slug name plan ;;;
  _audit "platform.tenant.create" "tenant" (Some (uuid_str tenant))
    {[ "slug"%py := JStr slug; "name"%py := JStr name; "plan_id"%py := JStr plan ]} ;;;
  ret {| nw_tenant_id := tenant; nw_workspace_id := ws; nw_slug := slug; nw_name := name |}.

Definition unknown_tenant {A} : Prog A := raise NotFoundError "unknown tenant".

Definition set_tenant_status (tenant : uuid) (status : pystr) : Prog unit :=
  (when negb (bool_decide (status ∈ _TENANT_STATUSES)) then
     raise DomainError "status must be 'active' or 'locked'") ;;;
  let! changed := repo_set_tenant_status tenant status in
  (when negb changed then unknown_tenant) ;;;
  _audit "platform.tenant.status" "tenant" (Some (uuid_str tenant)) {[ "status"%py := JStr status ]}.

Definition initiate_offboarding (tenant : uuid) : Prog OffboardingRow :=
  let! request := new_uuid in
  create_offboarding_request request tenant (pc_principal_id context) ;;;
  let! changed := repo_set_tenant_status tenant "offboarding" in
  (when negb changed then unknown_tenant) ;;;
  _audit "platform.tenant.offboarding_initiate" "tenant" (Some (uuid_str tenant)) ∅ ;;;
  let! status := repo_get_offboarding_status tenant in
  match status with
  | Some s => ret s
  | None => raise AssertionError "just inserted"
  end.

Definition no_request {A} : Prog A :=
  raise NotFoundError "no offboarding request for this tenant".

Definition get_offboarding_status (tenant : uuid) : Prog OffboardingRow :=
  let! status := repo_get_offboarding_status tenant in
  match status with Some s => ret s | None => no_request end.

Definition finalize_offboarding (tenant : uuid) : Prog unit :=
  let! status := repo_get_offboarding_status tenant in
  match status with
  | None => no_request
  | Some s =>
      (when negb (bool_decide (of_status s = OB_completed)) then
         raise DomainError "export/purge has not completed yet") ;;;
      let! changed := repo_set_tenant_status tenant "offboarded" in
      (when negb changed then unknown_tenant) ;;;
      _audit "platform.tenant.offboarding_finalize" "tenant" (Some (uuid_str tenant)) ∅
  end.

Definition rename_tenant (tenant : uuid) (name : pystr) : Prog TenantSummary :=
  let name := py_strip name in
  (when negb (py_truthy name) then raise DomainError "tenant name must not be blank") ;;;
  let! changed := repo_rename_tenant tenant name in
  (when negb changed then unknown_tenant) ;;;
  _audit "platform.tenant.rename" "tenant" (Some (uuid_str tenant)) {[ "name"%py := JStr name ]} ;;;
  let! tenants := repo_list_tenants in
  match filter (λ t, ts_id t = tenant) tenants with
  | t :: _ => ret t
  | [] => unknown_tenant
  end.

(** The person with that email, or the refusal each caller gives. *)
Definition signed_in (email : pystr) : Prog UserRef :=
  let! user := find_user_by_email py_lower sql_lower email in
  match user with
  | Some u => ret u
  | None => raise NotFoundError "no user with that email has signed in yet"
  end.

Definition assign_org_admin (tenant : uuid) (email : pystr) : Prog UserRef :=
  let! ws := main_workspace_id tenant in
  match ws with
  | None => unknown_tenant
  | Some ws =>
      let! user := signed_in email in
      let! membership := new_uuid in
      grant_role membership tenant ws (ur_user_id user) _ORG_ADMIN_ROLE ;;;
      _audit "platform.org_admin.assign" "membership" (Some (uuid_str (ur_user_id user)))
        {[ "tenant_id"%py := JStr (uuid_str tenant); "workspace_id"%py := JStr (uuid_str ws) ]} ;;;
      ret user
  end.

Definition add_operator (email : pystr) (note : option pystr) : Prog UserRef :=
  let! user := signed_in email in
  repo_add_operator (ur_user_id user) note (pc_principal_id context) ;;;
  _audit "platform.operator.add" "operator" (Some (uuid_str (ur_user_id user)))
    {[ "email"%py := JStr email ]} ;;;
  ret user.

Definition remove_operator (user_id : uuid) : Prog unit :=
  (when bool_decide (user_id = pc_principal_id context) then
     raise DomainError "an operator cannot remove themselves") ;;;
  let! removed := repo_remove_operator user_id in
  (when negb removed then raise NotFoundError "not a platform operator") ;;;
  _audit "platform.operator.remove" "operator" (Some (uuid_str user_id)) ∅.

Definition add_support_staff (email : pystr) (note : option pystr) : Prog UserRef :=
  (when from_option (λ n, NOTE_LIMIT <? py_len n) false note then
     raise DomainError "a note is at most 200 characters") ;;;
  let! user := signed_in email in
  repo_add_support_staff (ur_user_id user) note (pc_principal_id context) ;;;
  _audit "platform.support_staff.add" "support_staff" (Some (uuid_str (ur_user_id user))) ∅ ;;;
  ret user.

Definition remove_support_staff (user_id : uuid) : Prog unit :=
  let! removed := repo_remove_support_staff user_id in
  (when negb removed then raise NotFoundError "not support staff") ;;;
  _audit "platform.support_staff.remove" "support_staff" (Some (uuid_str user_id)) ∅.
End Service.
