(* ===== verification/ProvisioningLaws.v ===== *)
(** * What the operators' service keeps, and what it does

    The invariant of the tables the provisioner owns ([provisioned]) under every
    operation; the creation of a tenant as one function of the database; the
    changes of a tenant's status; and who may become an organisation's admin. *)

From S2P Require Import Prelude Errors Kernel Domain Accounts SupportGrants Store Membership.
From S2P Require Import Separation Members SupportAccess Provisioning.
Local Open Scope prog_scope.
Local Open Scope pystr_scope.

Abbreviation tenants_of d := (t_tenants (t_org d)).
Abbreviation spaces_of d := (t_workspaces (t_org d)).
Abbreviation plans_of d := (t_entitlements (t_org d)).
Abbreviation requests_of d := (t_requests (t_ops d)).

(** ** The invariant *)

Definition exists_tenant (d : Db) (tenant : uuid) : Prop := is_Some (tenants_of d !! tenant).

(** Slugs name tenants, every tenant has its main workspace and a plan, at most
    one offboarding of a tenant is under way, and the lists of operators and
    support staff name users. *)
Record provisioned (d : Db) : Prop := {
  pv_tenants_keyed : keyed (tenants_of d);
  pv_slugs : unique_ok (tenants_of d) = true;
  pv_tenant : ∀ k t, tenants_of d !! k = Some t →
    slug_match (tn_slug t) = true ∧ tn_status t ∈ TENANT_STATUS_VALUES;
  pv_spaces_keyed : keyed (spaces_of d);
  pv_spaces : unique_ok (spaces_of d) = true;
  pv_space_tenant : ∀ k s, spaces_of d !! k = Some s → exists_tenant d (ws_tenant_id s);
  pv_plans : unique_ok (plans_of d) = true;
  pv_plan_tenant : ∀ k e, plans_of d !! k = Some e →
    exists_tenant d (en_tenant_id e) ∧ is_Some (t_plans (t_org d) !! en_plan_id e);
  pv_served : ∀ k t, tenants_of d !! k = Some t →
    (∃ i s, spaces_of d !! i = Some s ∧ ws_tenant_id s = k ∧ ws_slug s = _MAIN_WORKSPACE_SLUG) ∧
    (∃ i e, plans_of d !! i = Some e ∧ en_tenant_id e = k);
  pv_requests_keyed : keyed (requests_of d);
  pv_requests : unique_ok (requests_of d) = true;
  pv_request_tenant : ∀ k r, requests_of d !! k = Some r → exists_tenant d (of_tenant_id r);
  pv_staff : dom (t_staff_rows (t_ops d)) = t_support_staff (t_org d);
  pv_staff_row : ∀ k s, t_staff_rows (t_ops d) !! k = Some s →
    is_Some (t_users (t_org d) !! k) ∧ from_option (λ n, py_len n <= NOTE_LIMIT) True (st_note s);
  pv_operators : ∀ k, is_Some (t_operators (t_ops d) !! k) → is_Some (t_users (t_org d) !! k) }.

(** What the invariant reads. *)
Definition provisioner_tables (d : Db) :=
  (tenants_of d, spaces_of d, plans_of d, t_ops d,
   (t_users (t_org d), t_plans (t_org d), t_support_staff (t_org d))).

Lemma provisioned_frame d d' :
  provisioner_tables d' = provisioner_tables d → provisioned d → provisioned d'.
Proof.
  unfold provisioner_tables. intros [= Et Es Ep Eo Eu Epl Est] []. unfold exists_tenant in *.
  split; unfold exists_tenant; rewrite ?Et, ?Es, ?Ep, ?Eo, ?Eu, ?Epl, ?Est; try done.
Qed.

Definition whole (w : World) : Prop := clean w ∧ provisioned (db w).
Definition stays_whole (w w' : World) : Prop := whole w → whole w'.

#[export] Instance stays_whole_preorder : PreOrder stays_whole.
Proof. unfold stays_whole. split; [by intros ?|intros ? ? ? H1 H2 H; auto]. Qed.

Lemma stays_whole_session {A} (m : Prog A) :
  keeps (λ w, provisioned (db w)) m → respects same_saved m → respects stays_whole (session_begin m).
Proof. intros Hk Hs w [Hc Hp]. by apply (session_begin_keeps provisioned). Qed.

Lemma stays_whole_read {A} (f : World → A) : respects stays_whole (session_begin (gets f)).
Proof. intros w [Hc Hp]. by rewrite session_begin_gets. Qed.

Lemma stays_whole_uuid : respects stays_whole new_uuid.
Proof. by intros w []. Qed.
Lemma stays_whole_now : respects stays_whole now_utc.
Proof. by intros w []. Qed.
#[local] Hint Resolve stays_whole_read stays_whole_uuid stays_whole_now : respects.

(** *** The statements *)

(** Tenants change without gaining or losing one. *)
Lemma provisioned_tenants d tenant (f : TenantRow → TenantRow) :
  (∀ t, tn_id (f t) = tn_id t ∧ tn_slug (f t) = tn_slug t) →
  (∀ k t, tenants_of d !! k = Some t → visible tenant (λ _, true) t = true →
     tn_status (f t) ∈ TENANT_STATUS_VALUES) →
  provisioned d →
  provisioned (set_tbl (update_rows (visible tenant (λ _, true)) f (tbl d)) d).
Proof.
  intros Hf Hs [].
  assert (∀ k, is_Some (update_rows (visible tenant (λ _, true)) f (tenants_of d) !! k)
               ↔ is_Some (tenants_of d !! k)) as Hdom.
  { intros k. rewrite lookup_update_rows. by rewrite fmap_is_Some. }
  split; cbn [tbl set_tbl tenants_table]; simpl in *; unfold exists_tenant in *; simpl; try done.
  - apply keyed_update; [apply Hf|done].
  - apply unique_ok_update; [|done]. intros k t _ _. right. simpl. by rewrite (proj2 (Hf t)).
  - intros k t'. rewrite lookup_update_rows. intros (t & Ht & ->)%fmap_Some.
    destruct (pv_tenant0 k t Ht) as [Hsl Hst]. destruct (visible _ _ t) eqn:Hv; [|done].
    rewrite (proj2 (Hf t)). eauto.
  - intros k s Hk. apply Hdom. eauto.
  - intros k e Hk. destruct (pv_plan_tenant0 k e Hk). split; [by apply Hdom|done].
  - intros k t' Ht'. destruct (proj1 (Hdom k) (mk_is_Some _ _ Ht')) as [t Ht]. eauto.
  - intros k r Hk. apply Hdom. eauto.
Qed.

Lemma set_status_whole tenant status : respects stays_whole (repo_set_tenant_status tenant status).
Proof.
  apply stays_whole_session; [|unfold repo_set_tenant_status; respects_auto].
  intros w n w' Hp (m & s & (_ & -> & ->)%sql_update_ok & H)%bind_ok.
  apply bind_ok in H as ([] & s' & H & [= <- <-]).
  destruct (negb _ && _) eqn:E; [done|injection H as <-]. simpl.
  apply provisioned_tenants; [done| |done]. intros k t Ht Hv. simpl.
  apply andb_false_iff in E as [E|E]; to_prop; [|done].
  apply Nat.eqb_eq in E. by rewrite (proj1 (count_rows_zero _ _) E k t Ht) in Hv.
Qed.

Lemma rename_whole tenant name : respects stays_whole (repo_rename_tenant tenant name).
Proof.
  apply stays_whole_session; [|unfold repo_rename_tenant; respects_auto].
  intros w n w' Hp (m & s & (_ & -> & ->)%sql_update_ok & [= <- <-])%bind_ok. simpl.
  apply provisioned_tenants; [done| |done]. intros k t Ht _. simpl. by apply (pv_tenant _ Hp k t).
Qed.

(** *** A tenant and what it starts with *)

Definition with_tenant (tenant ws entitlement : uuid) (slug name plan : pystr) (now : datetime)
    (d : Db) : Db :=
  set_tbl (<[entitlement := new_entitlement entitlement tenant plan]> (plans_of d))
    (set_tbl (<[ws := main_workspace ws tenant]> (spaces_of d))
      (set_tbl (<[tenant := new_tenant_row tenant slug name now]> (tenants_of d)) d)).

Record room_for (tenant ws entitlement : uuid) (slug plan : pystr) (d : Db) : Prop := {
  rm_tenant : tenants_of d !! tenant = None;
  rm_space : spaces_of d !! ws = None;
  rm_entitlement : plans_of d !! entitlement = None;
  rm_slug : ∀ k t, tenants_of d !! k = Some t → tn_slug t ≠ slug;
  rm_plan : is_Some (t_plans (t_org d) !! plan) }.

Lemma chars_inj s t : chars s = chars t → s = t.
Proof. destruct s, t. simpl. congruence. Qed.

Section Creation.
Context (tenant ws entitlement : uuid) (slug name plan : pystr).

Lemma creation_unique d :
  provisioned d → room_for tenant ws entitlement slug plan d →
  ∀ now, unique_ok (<[tenant := new_tenant_row tenant slug name now]> (tenants_of d)) = true ∧
    unique_ok (<[ws := main_workspace ws tenant]> (spaces_of d)) = true ∧
    unique_ok (<[entitlement := new_entitlement entitlement tenant plan]> (plans_of d)) = true.
Proof.
  intros [] [] now. split_and!; apply unique_ok_insert; try done.
  - intros k t u Hk [= <-] [= E%chars_inj]. by destruct (rm_slug0 k t Hk).
  - intros k s u Hk [= <-] [= E _]. destruct (pv_space_tenant0 k s Hk) as [t Ht]. congruence.
  - intros k e u Hk [= <-] [= E]. destruct (pv_plan_tenant0 k e Hk) as [[t Ht] _]. congruence.
Qed.

Lemma repo_create_tenant_run w :
  provisioned (db w) → room_for tenant ws entitlement slug plan (db w) →
  repo_create_tenant tenant ws entitlement slug name plan w =
    (Ok tt, commit_db (with_tenant tenant ws entitlement slug name plan (db_now w) (db w)) w).
Proof.
  intros Hp Hr. destruct (creation_unique _ Hp Hr (db_now w)) as (H1 & H2 & H3). destruct Hr.
  apply session_begin_ok.
  eexists. unfold create_rows, bind at 1, get_state. split.
  - unfold bind at 1. rewrite (proj2 (sql_insert_ok _ _ _ tt _)) by (by split_and!).
    unfold bind at 1. rewrite (proj2 (sql_insert_ok _ _ _ tt _)) by (by split_and!).
    unfold bind at 1. rewrite (proj2 (sql_insert_ok _ _ _ tt _)) by (by split_and!).
    unfold org_of. rewrite bool_decide_eq_true_2 by done. reflexivity.
  - by destruct w.
Qed.

Lemma repo_create_tenant_ok w u w' :
  repo_create_tenant tenant ws entitlement slug name plan w = (Ok u, w') →
  room_for tenant ws entitlement slug plan (db w) ∧
  w' = commit_db (with_tenant tenant ws entitlement slug name plan (db_now w) (db w)) w.
Proof.
  intros (s & H & ->)%session_begin_ok. apply bind_ok in H as (w0 & s0 & [= <- <-] & H).
  apply bind_ok in H as ([] & s1 & (_ & Ht & Hu & ->)%sql_insert_ok & H).
  apply bind_ok in H as ([] & s2 & (_ & Hs & _ & ->)%sql_insert_ok & H).
  apply bind_ok in H as ([] & s3 & (_ & He & _ & ->)%sql_insert_ok & H).
  destruct (bool_decide _) eqn:Epl; [|done]. injection H as <- <-. to_prop.
  split; [|by destruct w]. split; try done. intros k t Hk E.
  assert (k = tenant) as ->; [|simpl in Ht; congruence].
  pose proof (proj1 (unique_ok_spec _) Hu) as Hspec.
  apply (Hspec k tenant t (new_tenant_row tenant slug name (db_now w)) (chars slug)).
  - simpl in *. rewrite lookup_insert_ne; [done|congruence].
  - apply lookup_insert_eq.
  - simpl. by rewrite E.
  - done.
Qed.

Lemma with_tenant_provisioned now d :
  slug_match slug = true → provisioned d → room_for tenant ws entitlement slug plan d →
  provisioned (with_tenant tenant ws entitlement slug name plan now d).
Proof.
  intros Hsl Hp Hr. destruct (creation_unique d Hp Hr now) as (H1 & H2 & H3). destruct Hp, Hr.
  assert (∀ k, exists_tenant d k → is_Some (<[tenant := new_tenant_row tenant slug name now]>
                                             (tenants_of d) !! k)) as Hold.
  { intros k Hk. apply lookup_insert_is_Some. destruct (decide (tenant = k)); auto. }
  assert (∀ k, k = tenant → is_Some (<[tenant := new_tenant_row tenant slug name now]>
                                      (tenants_of d) !! k)) as Hnew.
  { intros k ->. rewrite lookup_insert_eq. done. }
  split; unfold exists_tenant in *; cbn; try done.
  - intros k t. rewrite lookup_insert_Some. intros [[<- <-]|[_ Hk]]; [done|by apply pv_tenants_keyed0].
  - intros k t. rewrite lookup_insert_Some. intros [[_ <-]|[_ Hk]]; [|by apply (pv_tenant0 k)].
    split; [done|]. by left.
  - intros k t. rewrite lookup_insert_Some. intros [[<- <-]|[_ Hk]]; [done|by apply pv_spaces_keyed0].
  - intros k s. rewrite lookup_insert_Some. intros [[_ <-]|[_ Hk]]; [by apply Hnew|eauto].
  - intros k e. rewrite lookup_insert_Some. intros [[_ <-]|[_ Hk]]; [by split; [apply Hnew|]|].
    destruct (pv_plan_tenant0 k e Hk). split; [eauto|done].
  - intros k t. rewrite lookup_insert_Some. intros [[<- _]|[Hne Hk]].
    + split; [exists ws, (main_workspace ws tenant)|exists entitlement, (new_entitlement entitlement tenant plan)];
        rewrite lookup_insert_eq; by split_and!.
    + destruct (pv_served0 k t Hk) as [(i & s & Hs & Hi) (j & e & He & Hj)].
      split; [exists i, s|exists j, e].
      * rewrite lookup_insert_ne by congruence. done.
      * rewrite lookup_insert_ne by congruence. done.
  - intros k r Hk. eauto.
Qed.

Lemma create_rows_same_saved : respects same_saved (create_rows tenant ws entitlement slug name plan).
Proof. unfold create_rows. respects_auto. Qed.

Lemma create_whole : slug_match slug = true →
  respects stays_whole (repo_create_tenant tenant ws entitlement slug name plan).
Proof.
  intros Hs w [Hc Hp]. destruct (repo_create_tenant _ _ _ _ _ _ w) as [[u|e] w'] eqn:E.
  - apply repo_create_tenant_ok in E as [Hr ->]. split; [done|]. by apply with_tenant_provisioned.
  - destruct (session_begin_undone _ w e w' create_rows_same_saved Hc E) as [Hc' Hd].
    split; [done|]. simpl. by rewrite Hd.
Qed.
End Creation.

(** *** Requests, staff, operators, admins *)

Lemma latest_request_in tenant d r :
  provisioned d → latest_request tenant d = Some r →
  requests_of d !! of_id r = Some r ∧ of_tenant_id r = tenant.
Proof.
  intros Hp Hh. apply head_Some_elem_of in Hh. rewrite merge_sort_Permutation in Hh.
  apply list_elem_of_filter in Hh as [Ht ([k r'] & -> & Hk)%list_elem_of_fmap].
  apply elem_of_map_to_list in Hk. simpl in *.
  pose proof (pv_requests_keyed _ Hp k r' Hk) as E. simpl in E. by rewrite E.
Qed.

(** The request insert, with its foreign key. *)
Lemma request_whole id tenant by_ : respects stays_whole (create_offboarding_request id tenant by_).
Proof.
  apply respects_try; [apply _| |].
  - apply stays_whole_session; [|respects_auto].
    intros w u w' Hp (w0 & s0 & [= <- <-] & H)%bind_ok.
    apply bind_ok in H as ([] & s1 & (_ & Hf & Hu & ->)%sql_insert_ok & H).
    destruct (bool_decide _) eqn:Et; [|done]. injection H as _ <-. to_prop. destruct Hp.
    split; unfold exists_tenant in *; cbn; try done.
    + intros k r. rewrite lookup_insert_Some. intros [[<- <-]|[_ Hk]]; [done|by apply pv_requests_keyed0].
    + intros k r. rewrite lookup_insert_Some. intros [[_ <-]|[_ Hk]]; [done|eauto].
  - intros e. unfold request_refused. by respects_auto.
Qed.

Lemma operator_whole user_id note by_ : respects stays_whole (repo_add_operator user_id note by_).
Proof.
  apply stays_whole_session; [|unfold repo_add_operator; respects_auto].
  intros w u w' Hp (w0 & s0 & [= <- <-] & H)%bind_ok. cbv zeta in H.
  destruct (t_operators _ !! user_id); [by revert H; intros [= _ <-]|].
  apply bind_ok in H as ([] & s1 & H1 & [= _ <-]).
  destruct (bool_decide _) eqn:E; [|done]. revert H1; intros [= <-]. to_prop. destruct Hp.
  split; try done. intros k. cbn. rewrite lookup_insert_is_Some'. intros [<-|Hk]; [done|by apply pv_operators0].
Qed.

Lemma operator_gone_whole user_id : respects stays_whole (repo_remove_operator user_id).
Proof.
  apply stays_whole_session; [|unfold repo_remove_operator; respects_auto].
  intros w u w' Hp (w0 & s0 & [= <- <-] & H)%bind_ok.
  apply bind_ok in H as ([] & s1 & [= <-] & [= _ <-]). destruct Hp.
  split; try done. intros k. cbn. intros [? [_ Hk]%lookup_delete_Some]. by apply pv_operators0.
Qed.

Lemma staff_whole user_id note by_ : respects stays_whole (repo_add_support_staff user_id note by_).
Proof.
  apply stays_whole_session; [|unfold repo_add_support_staff; respects_auto].
  intros w u w' Hp (w0 & s0 & [= <- <-] & H)%bind_ok.
  apply bind_ok in H as ([] & s1 & H1 & H).
  destruct (from_option _ true note) eqn:En; [revert H1; intros [= <-]|done].
  destruct (bool_decide (user_id ∈ _)); [by revert H; intros [= _ <-]|].
  apply bind_ok in H as ([] & s1 & H1 & H). destruct (bool_decide _) eqn:Eu; [|done]. revert H1; intros [= <-].
  apply bind_ok in H as ([] & s1 & H1 & H). destruct (bool_decide _) eqn:Ea in H1; [|done].
  revert H1; intros [= <-]. revert H; intros [= _ <-]. to_prop. destruct Hp. split; try done; cbn.
  - by rewrite dom_insert_L, pv_staff0.
  - intros k s. rewrite lookup_insert_Some. intros [[<- <-]|[_ Hk]]; [|by apply pv_staff_row0].
    split; [done|]. simpl. destruct note as [n|]; simpl in *; [|done]. by apply Nat.leb_le.
Qed.

Lemma staff_gone_whole user_id : respects stays_whole (repo_remove_support_staff user_id).
Proof.
  apply stays_whole_session; [|unfold repo_remove_support_staff; respects_auto].
  intros w u w' Hp (w0 & s0 & [= <- <-] & H)%bind_ok.
  apply bind_ok in H as ([] & s1 & [= <-] & [= _ <-]). destruct Hp. split; try done; cbn.
  - by rewrite dom_delete_L, pv_staff0.
  - intros k s [_ Hk]%lookup_delete_Some. by apply pv_staff_row0.
Qed.

(** What does not touch the tables of the invariant. *)
Lemma provisioned_memberships (t : gmap uuid MembershipRow) d :
  provisioned d → provisioned (set_tbl t d).
Proof. by apply provisioned_frame. Qed.

Lemma grant_role_whole id tenant ws user_id role :
  respects stays_whole (grant_role id tenant ws user_id role).
Proof.
  assert (∀ m, keeps (λ w, provisioned (db w)) (insert_membership tenant m)) as Hi.
  { intros m w u w' Hp [_ H]%insert_membership_ok. revert H.
    apply (sql_insert_keeps _ provisioned_memberships tenant m w u w' Hp). }
  assert (∀ p f, keeps (λ w, provisioned (db w)) (update_membership tenant p f)) as Hu.
  { intros p f w n w' Hp [_ H]%update_membership_ok. revert H.
    apply (sql_update_keeps _ provisioned_memberships tenant p f w n w' Hp). }
  apply stays_whole_session.
  - unfold grant_role, sql_select. keeps_auto; apply keeps_try; try done; keeps_auto.
  - unfold grant_role, sql_select, insert_membership, update_membership, sql_select. respects_auto.
Qed.

Lemma record_whole e : respects stays_whole (record_audit e).
Proof.
  apply stays_whole_session; [|unfold record_audit, append_provisioning; respects_auto].
  intros w u w' Hp (w0 & s0 & [= <- <-] & H)%bind_ok. destruct (_ !! pa_id e); [done|].
  revert H; intros [= _ <-]. by apply (provisioned_frame (db w)).
Qed.

#[local] Hint Resolve set_status_whole rename_whole create_whole request_whole operator_whole
  operator_gone_whole staff_whole staff_gone_whole grant_role_whole record_whole : respects.

(** ** The operations *)

Section Operations.
Context (py_lower sql_lower : pystr → pystr).

(** The server's [now()] between two transactions. *)
Definition at_time (now : datetime) (w : World) : World :=
  MkWorld (db w) (saved w) now (utc w) (utc_reads w) (ids w) (ids_issued w) (effects w).

Inductive operator_step (w : World) : World → Prop :=
  | os_create context slug name plan : operator_step w (create_tenant py_lower context slug name plan w).2
  | os_status context tenant status : operator_step w (set_tenant_status context tenant status w).2
  | os_rename context tenant name : operator_step w (rename_tenant context tenant name w).2
  | os_initiate context tenant : operator_step w (initiate_offboarding context tenant w).2
  | os_finalize context tenant : operator_step w (finalize_offboarding context tenant w).2
  | os_org_admin context tenant email :
      operator_step w (assign_org_admin py_lower sql_lower context tenant email w).2
  | os_add_operator context email note :
      operator_step w (add_operator py_lower sql_lower context email note w).2
  | os_remove_operator context user_id : operator_step w (remove_operator context user_id w).2
  | os_add_staff context email note :
      operator_step w (add_support_staff py_lower sql_lower context email note w).2
  | os_remove_staff context user_id : operator_step w (remove_support_staff context user_id w).2
  | os_clock now : operator_step w (at_time now w).

Lemma audit_whole context action type id details :
  respects stays_whole (_audit context action type id details).
Proof. unfold _audit. respects_auto. Qed.

Lemma signed_in_whole email : respects stays_whole (signed_in py_lower sql_lower email).
Proof. unfold signed_in, find_user_by_email. respects_auto. Qed.

#[local] Hint Resolve audit_whole signed_in_whole : respects.

Lemma create_tenant_whole context slug name plan :
  respects stays_whole (create_tenant py_lower context slug name plan).
Proof.
  unfold create_tenant. destruct (slug_match (py_lower (py_strip slug))) eqn:Es.
  - unfold plan_exists, slug_exists. respects_auto.
  - by intros w.
Qed.

(** C15: under every operation of the operators, slugs name tenants, every tenant has its
    main workspace and a plan that exists, at most one offboarding of a tenant is under
    way, and the lists of operators and support staff name users. *)
Theorem tenants_stay_whole w w' :
  whole w → rtc operator_step w w' → whole w'.
Proof.
  intros Hw Hs. revert Hw. induction Hs as [w|w1 w2 w3 Hop _ IH]; [done|]. intros Hw.
  apply IH. revert Hw. change (stays_whole w1 w2). destruct Hop.
  - apply create_tenant_whole.
  - unfold set_tenant_status, unknown_tenant. respects_auto.
  - unfold rename_tenant, unknown_tenant, repo_list_tenants. respects_auto.
  - unfold initiate_offboarding, unknown_tenant, repo_get_offboarding_status. respects_auto.
  - unfold finalize_offboarding, unknown_tenant, no_request, repo_get_offboarding_status. respects_auto.
  - unfold assign_org_admin, unknown_tenant, main_workspace_id. respects_auto.
  - unfold add_operator. respects_auto.
  - unfold remove_operator. respects_auto.
  - unfold add_support_staff. respects_auto.
  - unfold remove_support_staff. respects_auto.
  - intros [Hc Hp]. by split.
Qed.
End Operations.

(** ** A tenant's creation *)

(** The first refusal, in the order the code checks. *)
Definition tenant_refusal (d : Db) (slug name plan : pystr) : option exn :=
  if negb (slug_match slug)
  then Some (Exn DomainError "tenant slug must be lowercase letters, digits and single hyphens")
  else if negb (py_truthy name) then Some (Exn DomainError "tenant name must not be blank")
  else if negb (bool_decide (is_Some (t_plans (t_org d) !! plan)))
  then Some (Exn NotFoundError "unknown plan")
  else if existsb (λ t, bool_decide (tn_slug t = slug)) (rows_of d)
  then Some (Exn ConflictError "a tenant with that slug already exists")
  else None.

(** A record added to the platform's trail. *)
Definition trailed (e : ProvisioningAudit) (d : Db) : Db :=
  set_org (set_provisioning_audit (<[pa_id e := e]> (t_provisioning_audit (t_org d))) (t_org d)) d.

Definition creation_record (id actor tenant : uuid) (slug name plan : pystr) (at_ : datetime)
    : ProvisioningAudit :=
  {| pa_id := id; pa_actor_id := actor; pa_action := "platform.tenant.create";
     pa_target_type := "tenant"; pa_target_id := Some (uuid_str tenant);
     pa_details := {[ "slug"%py := JStr slug; "name"%py := JStr name; "plan_id"%py := JStr plan ]};
     pa_occurred_at := at_ |}.

Lemma record_audit_run e w :
  clean w → t_provisioning_audit (org_of w) !! pa_id e = None →
  record_audit e w = (Ok tt, commit_db (trailed e (db w)) w).
Proof.
  intros Hc Hf. apply session_begin_ok. unfold append_provisioning, bind, get_state, org_of in *.
  rewrite Hf. eexists. split; [reflexivity|]. by destruct w.
Qed.

Lemma slug_free d slug :
  existsb (λ t, bool_decide (tn_slug t = slug)) (rows_of d) = false →
  ∀ k t, tenants_of d !! k = Some t → tn_slug t ≠ slug.
Proof.
  intros He k t Hk E. apply not_true_iff_false in He. apply He, existsb_exists. exists t.
  split; [|by apply bool_decide_eq_true]. apply list_elem_of_In, list_elem_of_fmap.
  exists (k, t). split; [done|]. by apply elem_of_map_to_list.
Qed.

(** A tenant is created exactly when its slug is a slug no tenant has, its name is not blank
    and its plan exists; it then has its main workspace, its entitlement and a record on
    the trail, and otherwise the first refusal is raised and nothing changes. *)
Theorem create_tenant_exact py_lower context slug name plan w :
  let n := ids_issued w in
  let s := py_lower (py_strip slug) in let nm := py_strip name in
  whole w → tenants_of (db w) !! ids w n = None → spaces_of (db w) !! ids w (S n) = None →
  plans_of (db w) !! ids w (S (S n)) = None →
  t_provisioning_audit (t_org (db w)) !! ids w (S (S (S n))) = None →
  create_tenant py_lower context slug name plan w =
    match tenant_refusal (db w) s nm plan with
    | Some e => (Raise e, w)
    | None =>
        (Ok {| nw_tenant_id := ids w n; nw_workspace_id := ids w (S n); nw_slug := s; nw_name := nm |},
         commit_db
           (trailed (creation_record (ids w (S (S (S n)))) (pc_principal_id context) (ids w n) s nm plan
                       (utc w (utc_reads w)))
              (with_tenant (ids w n) (ids w (S n)) (ids w (S (S n))) s nm plan (db_now w) (db w)))
           (use_ids 4 1 w))
    end.
Proof.
  intros n s nm [Hc Hp] H1 H2 H3 H4. unfold create_tenant, tenant_refusal. fold s nm.
  destruct (slug_match s); [|done]. destruct (py_truthy nm); [|done]. simpl.
  unfold bind at 1, ret at 1. unfold bind at 1, ret at 1. unfold bind at 1.
  unfold plan_exists. rewrite session_begin_gets by done. unfold org_of.
  destruct (bool_decide (is_Some _)) eqn:Epl; [|done]. simpl. to_prop.
  unfold bind at 1, ret at 1. unfold bind at 1, slug_exists. rewrite session_begin_gets by done.
  destruct (existsb _ _) eqn:Esl; [done|].
  unfold bind at 1, ret at 1. unfold bind at 1, new_uuid at 1. unfold bind at 1, new_uuid at 1.
  unfold bind at 1, new_uuid at 1. unfold bind at 1. cbn [ids ids_issued]. fold n.
  rewrite repo_create_tenant_run; [|done|split; try done; by apply slug_free].
  unfold bind at 1, _audit. unfold bind at 1, new_uuid at 1. unfold bind at 1, now_utc at 1.
  rewrite record_audit_run; [|done|exact H4]. cbn [ids ids_issued commit_db set_saved set_db]. fold n.
  by destruct w.
Qed.

(** ** How a tenant's status moves *)

Section Moves.
(** The statuses a step may give a tenant. *)
Context (P : uuid → pystr → Prop).

Definition moved_db (d d' : Db) : Prop :=
  requests_of d' = requests_of d ∧
  ∀ k t', tenants_of d' !! k = Some t' →
    (∃ t, tenants_of d !! k = Some t ∧ tn_id t = tn_id t' ∧ tn_status t = tn_status t')
    ∨ P (tn_id t') (tn_status t').

Lemma moved_db_refl d : moved_db d d.
Proof. split; [done|]. intros k t' Hk. left. by exists t'. Qed.

Lemma moved_db_frame d d' :
  requests_of d' = requests_of d → tenants_of d' = tenants_of d → moved_db d d'.
Proof. intros Hr Ht. split; [done|]. rewrite Ht. intros k t' Hk. left. by exists t'. Qed.

Definition moved (w w' : World) : Prop := clean w → clean w' ∧ moved_db (db w) (db w').

#[export] Instance moved_preorder : PreOrder moved.
Proof.
  split.
  - intros w Hc. split; [done|apply moved_db_refl].
  - intros w1 w2 w3 H12 H23 Hc. destruct (H12 Hc) as [Hc2 [Hr2 H2]].
    destruct (H23 Hc2) as [Hc3 [Hr3 H3]]. split; [done|]. split; [congruence|].
    intros k t3 Hk. destruct (H3 k t3 Hk) as [(t2 & Ht2 & <- & <-)|HP]; [|by right].
    by apply H2.
Qed.

Lemma moved_session {A} (m : Prog A) :
  (∀ w a w', m w = (Ok a, w') → moved_db (db w) (db w')) → respects same_saved m →
  respects moved (session_begin m).
Proof.
  intros Hm Hs w Hc. specialize (Hs w). unfold session_begin, same_saved, clean in *.
  destruct (m w) as [[a|e] w'] eqn:E; simpl in *; [split; [done|by eapply Hm]|].
  split; [done|]. rewrite Hs, Hc. apply moved_db_refl.
Qed.

Lemma moved_read {A} (f : World → A) : respects moved (session_begin (gets f)).
Proof. intros w Hc. rewrite session_begin_gets by done. split; [done|apply moved_db_refl]. Qed.
Lemma moved_uuid : respects moved new_uuid.
Proof. intros w Hc. split; [done|apply moved_db_refl]. Qed.
Lemma moved_now : respects moved now_utc.
Proof. intros w Hc. split; [done|apply moved_db_refl]. Qed.

Lemma moved_set_status tenant status :
  P tenant status → respects moved (repo_set_tenant_status tenant status).
Proof.
  intros HP. apply moved_session; [|unfold repo_set_tenant_status; respects_auto].
  intros w n w' (m & s & (_ & -> & ->)%sql_update_ok & H)%bind_ok.
  apply bind_ok in H as ([] & s' & H & [= <- <-]).
  destruct (negb _ && _); [done|]. revert H. intros [= <-].
  split; [done|]. intros k t'. cbn. rewrite lookup_update_rows. intros (t & Ht & ->)%fmap_Some.
  destruct (visible _ _ t) eqn:Hv; [|left; by exists t].
  right. unfold visible in Hv. simpl in *. rewrite andb_true_r in Hv. by to_prop; subst.
Qed.

Lemma moved_rename tenant name : respects moved (repo_rename_tenant tenant name).
Proof.
  apply moved_session; [|unfold repo_rename_tenant; respects_auto].
  intros w n w' (m & s & (_ & -> & ->)%sql_update_ok & [= <- <-])%bind_ok.
  split; [done|]. intros k t'. cbn. rewrite lookup_update_rows. intros (t & Ht & ->)%fmap_Some.
  left. exists t. by destruct (visible _ _ t).
Qed.

Lemma moved_create tenant ws entitlement slug name plan :
  P tenant "active" → respects moved (repo_create_tenant tenant ws entitlement slug name plan).
Proof.
  intros HP w Hc. destruct (repo_create_tenant _ _ _ _ _ _ w) as [[u|e] w'] eqn:E.
  - apply repo_create_tenant_ok in E as [Hr ->]. split; [done|]. split; [done|]. intros k t'. cbn.
    rewrite lookup_insert_Some. intros [[<- <-]|[_ Hk]]; [by right|left; by exists t'].
  - destruct (session_begin_undone _ w e w' (create_rows_same_saved _ _ _ _ _ _) Hc E) as [Hc' Hd].
    split; [done|]. simpl. rewrite Hd. apply moved_db_refl.
Qed.

(** Sessions on other tables. *)
Lemma moved_other {A} (m : Prog A) :
  (∀ w, requests_of (db (m w).2) = requests_of (db w) ∧ tenants_of (db (m w).2) = tenants_of (db w)) →
  respects same_saved m → respects moved (session_begin m).
Proof.
  intros Hm. apply moved_session. intros w a w' E. specialize (Hm w). rewrite E in Hm.
  destruct Hm. by apply moved_db_frame.
Qed.

Lemma moved_operator user_id note by_ : respects moved (repo_add_operator user_id note by_).
Proof.
  apply moved_other; [|unfold repo_add_operator; respects_auto].
  intros w. unfold bind, get_state. cbv zeta. destruct (t_operators _ !! user_id); [done|].
  by destruct (bool_decide _).
Qed.

Lemma moved_operator_gone user_id : respects moved (repo_remove_operator user_id).
Proof. by apply moved_other; [|unfold repo_remove_operator; respects_auto]. Qed.

Lemma moved_staff user_id note by_ : respects moved (repo_add_support_staff user_id note by_).
Proof.
  apply moved_other; [|unfold repo_add_support_staff; respects_auto].
  intros w. unfold bind, get_state. destruct (from_option _ true note); [|done]. simpl.
  destruct (bool_decide (user_id ∈ _)); [done|]. destruct (bool_decide _); [|done]. simpl.
  by destruct (bool_decide _).
Qed.

Lemma moved_staff_gone user_id : respects moved (repo_remove_support_staff user_id).
Proof. by apply moved_other; [|unfold repo_remove_support_staff; respects_auto]. Qed.

Lemma moved_record e : respects moved (record_audit e).
Proof.
  apply moved_other; [|unfold append_provisioning; respects_auto].
  intros w. unfold append_provisioning, bind, get_state. by destruct (_ !! pa_id e).
Qed.

Lemma moved_grant id tenant ws user_id role : respects moved (grant_role id tenant ws user_id role).
Proof.
  apply moved_session.
  2: unfold sql_select, insert_membership, update_membership, sql_select; respects_auto.
  intros w u w' (l & s & [= <- <-] & H)%bind_ok. apply bind_ok in H as (w0 & s & [= <- <-] & H).
  unfold try_except in H. destruct (_ w) as [[b|e] w1] eqn:E in H; [|done].
  injection H as <- <-. destruct (filter _ _) as [|m l].
  - apply insert_membership_ok in E as [_ (_ & _ & _ & ->)%sql_insert_ok]. by apply moved_db_frame.
  - destruct (bool_decide _); [by revert E; intros [= _ <-]; apply moved_db_refl|].
    apply bind_ok in E as (n & s & [_ (_ & _ & ->)%sql_update_ok]%update_membership_ok & [= _ <-]).
    by apply moved_db_frame.
Qed.
End Moves.

#[local] Hint Resolve moved_read moved_uuid moved_now moved_set_status moved_rename moved_create
  moved_operator moved_operator_gone moved_staff moved_staff_gone moved_record moved_grant : respects.
#[local] Existing Instance moved_preorder.

(** A request on file, after the insert. *)
Lemma request_filed id tenant by_ w u w' :
  clean w → create_offboarding_request id tenant by_ w = (Ok u, w') →
  clean w' ∧ requests_of (db w') = <[id := new_request id tenant by_ (db_now w)]> (requests_of (db w)) ∧
  tenants_of (db w') = tenants_of (db w) ∧ exists_tenant (db w) tenant ∧
  requests_of (db w) !! id = None.
Proof.
  intros Hc. unfold create_offboarding_request, try_except.
  destruct (session_begin _ w) as [[u'|e] w1] eqn:E.
  2: { unfold request_refused, raise, reraise. by repeat case_bool_decide. }
  intros [= <- <-]. apply session_begin_ok in E as (s & H & ->).
  apply bind_ok in H as (w0 & s0 & [= <- <-] & H).
  apply bind_ok in H as ([] & s1 & (_ & Hf & _ & ->)%sql_insert_ok & H).
  destruct (bool_decide _) eqn:Et; [|done]. injection H as _ <-. by to_prop.
Qed.

Lemma request_refused_same id tenant by_ w e w' :
  clean w → create_offboarding_request id tenant by_ w = (Raise e, w') → db w' = db w.
Proof.
  intros Hc. unfold create_offboarding_request, try_except.
  destruct (session_begin _ w) as [[u'|e'] w1] eqn:E; [done|].
  apply session_begin_undone in E as [_ E]; [|respects_auto|done].
  unfold request_refused, raise, reraise. repeat case_bool_decide; by intros [= _ <-].
Qed.

Section StatusMoves.
Context (py_lower sql_lower : pystr → pystr).

Definition set_by_hand (_ : uuid) (status : pystr) : Prop := status ∈ _TENANT_STATUSES.
Definition only (tenant : uuid) (status : pystr) (k : uuid) (s : pystr) : Prop :=
  k = tenant ∧ s = status.

Lemma moved_audit P context action type id details :
  respects (moved P) (_audit context action type id details).
Proof. unfold _audit. respects_auto. Qed.

Lemma moved_signed_in P email : respects (moved P) (signed_in py_lower sql_lower email).
Proof. unfold signed_in, find_user_by_email. respects_auto. Qed.
#[local] Hint Resolve moved_audit moved_signed_in : respects.

Lemma moved_from P w w' k t' :
  moved P w w' → clean w → tenants_of (db w') !! k = Some t' →
  (∃ t, tenants_of (db w) !! k = Some t ∧ tn_status t = tn_status t') ∨ P (tn_id t') (tn_status t').
Proof. intros Hm Hc Hk. destruct (Hm Hc) as [_ [_ H]]. destruct (H k t' Hk); naive_solver. Qed.

Lemma hand_ops w w' :
  operator_step py_lower sql_lower w w' →
  moved set_by_hand w w' ∨
  (∃ context tenant, w' = (initiate_offboarding context tenant w).2) ∨
  (∃ context tenant, w' = (finalize_offboarding context tenant w).2).
Proof.
  assert (∀ t, set_by_hand t "active") as Ha by (by intros ?; left).
  destruct 1; [| | |right; left; eauto|right; right; eauto|..]; left.
  - unfold create_tenant, plan_exists, slug_exists. respects_auto.
  - unfold set_tenant_status, unknown_tenant. destruct (bool_decide _) eqn:E; to_prop; [|done].
    assert (set_by_hand tenant status) by done. respects_auto.
  - unfold rename_tenant, unknown_tenant, repo_list_tenants. respects_auto.
  - unfold assign_org_admin, unknown_tenant, main_workspace_id. respects_auto.
  - unfold add_operator. respects_auto.
  - unfold remove_operator. respects_auto.
  - unfold add_support_staff. respects_auto.
  - unfold remove_support_staff. respects_auto.
  - intros Hc. split; [done|apply moved_db_refl].
Qed.

(** After the request is filed, the rest gives the tenant one status. *)
Lemma initiated context tenant w w' :
  clean w → w' = (initiate_offboarding context tenant w).2 →
  (tenants_of (db w') = tenants_of (db w)) ∨
  ∃ id w1, clean w1 ∧ tenants_of (db w1) = tenants_of (db w) ∧
    requests_of (db w1) !! id = Some (new_request id tenant (pc_principal_id context) (db_now w)) ∧
    moved (only tenant "offboarding") w1 w'.
Proof.
  intros Hc Hw. unfold initiate_offboarding in Hw. unfold bind at 1, new_uuid at 1 in Hw.
  unfold bind at 1 in Hw.
  match type of Hw with context [create_offboarding_request ?i ?t ?b ?x] =>
    destruct (create_offboarding_request i t b x) as [[[]|e] w1] eqn:E end.
  2: { left. apply request_refused_same in E; [|done]. simpl in Hw. by rewrite Hw, E. }
  right. apply request_filed in E as (Hc1 & Hr & Ht & _ & _); [|done].
  eexists _, w1. split_and!; [done|done|rewrite Hr; apply lookup_insert_eq|].
  assert (only tenant "offboarding" tenant "offboarding") by done.
  assert (respects (moved (only tenant "offboarding")) (
    (let! changed := repo_set_tenant_status tenant "offboarding" in
     (when negb changed then unknown_tenant) ;;;
     _audit context "platform.tenant.offboarding_initiate" "tenant" (Some (uuid_str tenant)) ∅ ;;;
     let! status := repo_get_offboarding_status tenant in
     match status with
     | Some s => ret s
     | None => raise AssertionError "just inserted"
     end)%prog)) as Hrest.
  { unfold unknown_tenant, repo_get_offboarding_status. respects_auto. }
  rewrite Hw. apply Hrest.
Qed.

Lemma finalized context tenant w w' :
  clean w → w' = (finalize_offboarding context tenant w).2 →
  w' = w ∨
  ∃ r, latest_request tenant (db w) = Some r ∧ of_status r = OB_completed ∧
    moved (only tenant "offboarded") w w'.
Proof.
  intros Hc Hw. unfold finalize_offboarding in Hw. unfold bind at 1, repo_get_offboarding_status in Hw.
  rewrite session_begin_gets in Hw by done. destruct (latest_request tenant (db w)) as [r|]; [|by left].
  destruct (bool_decide (of_status r = OB_completed)) eqn:Es; to_prop; [|by left].
  right. exists r. split_and!; [done|done|].
  assert (only tenant "offboarded" tenant "offboarded") by done.
  assert (respects (moved (only tenant "offboarded")) (
    (let! changed := repo_set_tenant_status tenant "offboarded" in
     (when negb changed then unknown_tenant) ;;;
     _audit context "platform.tenant.offboarding_finalize" "tenant" (Some (uuid_str tenant)) ∅)%prog))
    as Hrest by (unfold unknown_tenant; respects_auto).
  rewrite Hw. apply Hrest.
Qed.

(** An operator's step gives a tenant a new status only by hand to active or locked, to
    offboarding with a request on file, and to offboarded when the latest request was
    completed. *)
Theorem tenant_status_moves w w' k t' :
  clean w → operator_step py_lower sql_lower w w' → tenants_of (db w') !! k = Some t' →
  (∃ t, tenants_of (db w) !! k = Some t ∧ tn_status t = tn_status t') ∨
  tn_status t' ∈ _TENANT_STATUSES ∨
  (tn_status t' = "offboarding"%py ∧
   ∃ id r, requests_of (db w') !! id = Some r ∧ of_tenant_id r = tn_id t' ∧ of_status r = OB_requested) ∨
  (tn_status t' = "offboarded"%py ∧
   ∃ r, latest_request (tn_id t') (db w) = Some r ∧ of_status r = OB_completed).
Proof.
  intros Hc Hop Hk.
  destruct (hand_ops _ _ Hop) as [Hm|[(context & tenant & ->)|(context & tenant & ->)]].
  - destruct (moved_from _ _ _ k t' Hm Hc Hk); [by left|by right; left].
  - destruct (initiated context tenant w _ Hc eq_refl) as [E|(id & w1 & Hc1 & Ht & Hr & Hm)].
    + left. exists t'. by rewrite <- E.
    + destruct (moved_from _ _ _ k t' Hm Hc1 Hk) as [(t & Hkt & Es)|[-> ->]].
      * left. exists t. by rewrite <- Ht.
      * right; right; left. split; [done|]. destruct (Hm Hc1) as [_ [Hr' _]].
        eexists id, _. by rewrite Hr'.
  - destruct (finalized context tenant w _ Hc eq_refl) as [E|(r & Hr & Hs & Hm)].
    + left. exists t'. by rewrite E in Hk.
    + destruct (moved_from _ _ _ k t' Hm Hc Hk) as [|[-> ->]]; [by left|].
      right; right; right. eauto.
Qed.
End StatusMoves.

(** ** The first organisation admin *)

(** What the triggers say of a row, as the operator is told it. *)
Definition placed (m : MembershipRow) (d' : Db) (w : World) : res unit * World :=
  match membership_triggers (org_of w) m with
  | Ok _ => (Ok tt, commit_db d' w)
  | Raise e => (Raise (default e (support_staff_conflict e)), w)
  end.

Lemma selected_seat tenant ws user_id (t : gmap uuid MembershipRow) :
  filter (λ m, visible tenant (seat tenant ws user_id) m = true) (map_to_list t).*2 =
  rows_at t tenant ws user_id.
Proof. apply list_filter_iff. intros m. by rewrite visible_seat. Qed.

Lemma rows_at_cases t tenant ws user_id :
  unique_ok t = true → keyed t →
  rows_at t tenant ws user_id = [] ∨
  ∃ m, rows_at t tenant ws user_id = [m] ∧ t !! mb_id m = Some m ∧ seat tenant ws user_id m = true.
Proof.
  intros Hu Hk. destruct (rows_at t tenant ws user_id) as [|m l] eqn:E; [by left|right].
  assert (m ∈ rows_at t tenant ws user_id) as (Hs & k & Hm)%elem_of_rows_at by (rewrite E; by left).
  exists m. pose proof (Hk k m Hm) as Ek. simpl in Ek. subst k. split_and!; [|done|done].
  rewrite <- E. apply (select_one _ _ (mb_id m)); [done|done|]. intros k m' Hm' Hs'.
  by apply (one_seat t tenant ws user_id k (mb_id m) m' m).
Qed.

Lemma triggered_insert tenant m w :
  mb_tenant_id m = tenant → t_memberships (org_of w) !! mb_id m = None →
  unique_ok (<[mb_id m := m]> (t_memberships (org_of w))) = true →
  insert_membership tenant m w =
    match membership_triggers (org_of w) m with
    | Ok _ => (Ok tt, set_db (set_tbl (<[mb_id m := m]> (t_memberships (org_of w))) (db w)) w)
    | Raise e => (Raise e, w)
    end.
Proof.
  intros Ht Hf Hu. destruct (insert_membership tenant m w) as [[[]|e] w'] eqn:E.
  - apply insert_membership_ok in E as [Hm (_ & _ & _ & ->)%sql_insert_ok]. unfold org_of. by rewrite Hm.
  - unfold insert_membership, bind, get_state, lift_res in E. unfold org_of in *.
    destruct (membership_triggers _ m) as [[]|e']; [|congruence].
    rewrite (proj2 (sql_insert_ok tenant m w tt (set_db (set_tbl (<[mb_id m := m]> (memberships_of w)) (db w)) w))) in E; [done|]. by split_and!.
Qed.

Lemma triggered_update tenant ws user_id f m w :
  let t := t_memberships (org_of w) in
  unique_ok t = true → t !! mb_id m = Some m → rows_at t tenant ws user_id = [m] →
  (∀ x, unique_key (f x) = unique_key x) →
  update_membership tenant (seat tenant ws user_id) f w =
    match membership_triggers (org_of w) (f m) with
    | Ok _ => (Ok 1, set_db (set_tbl (<[mb_id m := f m]> t) (db w)) w)
    | Raise e => (Raise e, w)
    end.
Proof.
  intros t Hu Hm Hr Hf. unfold update_membership. unfold bind at 1, get_state. unfold bind at 1.
  unfold sql_select, gets. rewrite selected_seat. fold (org_of w). fold t. change (tbl (db w)) with t.
  rewrite Hr. cbn [fmap list_fmap each]. unfold bind at 1, lift_res.
  destruct (membership_triggers (org_of w) (f m)) as [[]|e]; [|done].
  assert (seat tenant ws user_id m = true) as Hs.
  { assert (m ∈ rows_at t tenant ws user_id) as [H _]%elem_of_rows_at; [|done]. rewrite Hr. by left. }
  assert (∀ k m', t !! k = Some m' → visible tenant (seat tenant ws user_id) m' = true → k = mb_id m) as H1.
  { intros k m' Hk Hv. rewrite visible_seat in Hv. by apply (one_seat t tenant ws user_id k (mb_id m) m' m). }
  rewrite sql_update_run.
  - change (tbl (db w)) with t.
    rewrite (count_rows_one _ _ (mb_id m) m), (update_rows_one _ _ _ (mb_id m) m);
      rewrite ?visible_seat; done.
  - change (tbl (db w)) with t. apply unique_ok_update; [|done]. intros k m' _ _. by right.
Qed.

(** Granting a role keeps the roles the person holds in the workspace, creates the
    membership when there is none, changes nothing when the role is held, and tells the
    support staff refusal as a conflict and any other refusal as it is. *)
Theorem grant_role_exact id tenant ws user_id role w :
  let t := t_memberships (org_of w) in
  clean w → unique_ok t = true → keyed t → t !! id = None →
  grant_role id tenant ws user_id role w =
    match rows_at t tenant ws user_id with
    | [] => let m := new_membership id tenant ws user_id {[ role ]} "general" (db_now w) in
            placed m (set_tbl (<[id := m]> t) (db w)) w
    | m :: _ =>
        if bool_decide (role ∈ mb_role_keys m) then (Ok tt, w)
        else let m' := set_role_keys (mb_role_keys m ++ [role]) m in
             placed m' (set_tbl (<[mb_id m := m']> t) (db w)) w
    end.
Proof.
  intros t Hc Hu Hk Hf. unfold grant_role, session_begin.
  unfold bind at 1, sql_select at 1, gets at 1. unfold bind at 1, get_state at 1.
  rewrite selected_seat. change (tbl (db w)) with t. unfold try_except.
  destruct (rows_at_cases t tenant ws user_id Hu Hk) as [E|(m & E & Hm & Hs)]; rewrite E.
  - unfold placed. rewrite triggered_insert; [|done|exact Hf|].
    { destruct (membership_triggers _ _); [by destruct w|]. simpl. by rewrite set_db_clean. }
    apply unique_ok_insert; [done|done|]. intros k m' u Hk' [= <-] [= E1 E2 E3].
    assert (m' ∈ rows_at t tenant ws user_id) as Hin; [|by rewrite E in Hin; apply elem_of_nil in Hin].
    apply elem_of_rows_at. split; [by apply seat_ok|eauto].
  - destruct (bool_decide (role ∈ mb_role_keys m)).
    { unfold ret. by rewrite <- Hc; destruct w. }
    unfold bind. rewrite (triggered_update tenant ws user_id _ m); [|done..].
    unfold placed. destruct (membership_triggers _ _); [by destruct w|]. simpl. by rewrite set_db_clean.
Qed.

(** ** A small platform, for the concrete instances *)

Definition small_org : OrgDb :=
  MkOrg {[ 10%N := new_tenant_row 10 "acme" "ACME" 0 ]} {[ 20%N := main_workspace 20 10 ]}
    {[ 1%N := {| us_id := 1; us_subject := "op"; us_email := Some "op@dw.vn"%py; us_display_name := "Op" |};
       2%N := {| us_id := 2; us_subject := "an"; us_email := Some "an@acme.vn"%py; us_display_name := "An" |};
       3%N := {| us_id := 3; us_subject := "su"; us_email := Some "su@dw.vn"%py; us_display_name := "Su" |} ]}
    ∅ {[ 40%N := new_membership 40 10 20 2 {[ "sales"%py ]} "general" 0 ]}
    {[ 30%N := new_entitlement 30 10 "pro" ]} {[ "pro"%py := [] ]}
    {[ "sales"%py := ["deal.read"%py]; "org_admin"%py := ["member.manage"%py] ]} ∅ {[ 3%N ]} ∅ ∅ ∅ ∅.

Definition small_platform : Db :=
  set_ops (MkOps ∅ {[ 1%N := {| op_note := None; op_created_by := 1; op_created_at := 0 |} ]}
             {[ 3%N := {| st_note := None; st_added_by := 1; st_added_at := 0 |} ]})
    (set_org small_org empty_db).

Lemma small_platform_provisioned : provisioned small_platform.
Proof.
  split; unfold exists_tenant; cbn.
  - intros k t [<- <-]%lookup_singleton_Some. done.
  - reflexivity.
  - intros k t [<- <-]%lookup_singleton_Some. split; [by vm_compute|by left].
  - intros k t [<- <-]%lookup_singleton_Some. done.
  - reflexivity.
  - intros k s [<- <-]%lookup_singleton_Some. by eexists.
  - reflexivity.
  - intros k s [<- <-]%lookup_singleton_Some. split; by eexists.
  - intros k t [<- <-]%lookup_singleton_Some.
    split; [by exists 20%N, (main_workspace 20 10)|by exists 30%N, (new_entitlement 30 10 "pro")].
  - by intros k r ?.
  - reflexivity.
  - by intros k r ?.
  - by vm_compute.
  - intros k s [<- <-]%lookup_singleton_Some. split; [by eexists|done].
  - intros k [? [<- _]%lookup_singleton_Some]. by eexists.
Qed.

Definition small_world : World := example_world small_platform 1000.
Definition the_operator : ProvisioningContext := {| pc_principal_id := 1 |}.

Lemma small_world_whole : whole small_world.
Proof. split; [done|apply small_platform_provisioned]. Qed.

Lemma tenants_stay_whole_witness :
  whole small_world ∧
  whole (initiate_offboarding the_operator 10 (create_tenant id the_operator " globex " "Globex" "pro" small_world).2).2.
Proof.
  pose proof small_world_whole as H. split; [exact H|].
  apply (tenants_stay_whole id id small_world _ H).
  eapply rtc_l; [apply os_create|]. apply rtc_once. apply os_initiate.
Defined.

Lemma create_tenant_exact_witness :
  tenant_refusal small_platform "globex" "Globex" "pro" = None ∧
  (create_tenant id the_operator " globex " "Globex" "pro" small_world).1 =
    Ok {| nw_tenant_id := 1000000; nw_workspace_id := 1000001; nw_slug := "globex"; nw_name := "Globex" |} ∧
  (create_tenant id the_operator "acme" "Globex" "pro" small_world).1 =
    Raise (Exn ConflictError "a tenant with that slug already exists").
Proof.
  split; [by vm_compute|]. split.
  - by rewrite (create_tenant_exact id the_operator " globex " "Globex" "pro" small_world small_world_whole).
  - by rewrite (create_tenant_exact id the_operator "acme" "Globex" "pro" small_world small_world_whole).
Defined.

Lemma grant_role_exact_witness :
  grant_role 50 10 20 2 _ORG_ADMIN_ROLE small_world =
    (Ok tt, commit_db (set_tbl (<[40%N := set_role_keys ["sales"%py; "org_admin"%py]
              (new_membership 40 10 20 2 {[ "sales"%py ]} "general" 0)]> (t_memberships small_org))
              small_platform) small_world) ∧
  (grant_role 50 10 20 3 _ORG_ADMIN_ROLE small_world).1 =
    Raise (Exn ConflictError "a support staff member cannot be a member of a customer's tenant").
Proof.
  assert (keyed (t_memberships small_org)) as Hk.
  { intros k m. change (t_memberships small_org) with ({[ 40%N := new_membership 40 10 20 2 {[ "sales"%py ]} "general" 0 ]} : gmap uuid MembershipRow).
    by intros [<- <-]%lookup_singleton_Some. }
  split.
  - rewrite (grant_role_exact 50 10 20 2 _ORG_ADMIN_ROLE small_world eq_refl eq_refl Hk eq_refl).
    reflexivity.
  - rewrite (grant_role_exact 50 10 20 3 _ORG_ADMIN_ROLE small_world eq_refl eq_refl Hk eq_refl).
    reflexivity.
Defined.

Definition half_way : World := (initiate_offboarding the_operator 10 small_world).2.

Lemma tenant_status_moves_witness :
  (∃ t, tenants_of small_platform !! 10%N = Some t ∧ tn_status t = "offboarding"%py) ∨
  "offboarding"%py ∈ _TENANT_STATUSES ∨
  ("offboarding"%py = "offboarding"%py ∧
   ∃ id r, requests_of (db half_way) !! id = Some r ∧ of_tenant_id r = 10%N ∧ of_status r = OB_requested) ∨
  ("offboarding"%py = "offboarded"%py ∧
   ∃ r, latest_request 10 small_platform = Some r ∧ of_status r = OB_completed).
Proof.
  assert (tenants_of (db half_way) !! 10%N
          = Some (with_status "offboarding" (new_tenant_row 10 "acme" "ACME" 0))) as Hk by reflexivity.
  exact (tenant_status_moves id id small_world half_way 10 _ eq_refl
           (os_initiate id id small_world the_operator 10) Hk).
Defined.
