(* ===== verification/Redaction.v ===== *)
(** * Redaction of secrets

    [dw_observability/redaction.py]: which keys are secret, how a bearer
    credential is cut out of free text, and the recursive masking of a mapping
    before it reaches a log, a trace or an audit event.

    The two regular expressions are written out as the searches they denote,
    with [re.IGNORECASE] as the case folding of Python's [re] on the letters
    the patterns use.  [\b] consults Python's notion of a word character, which
    is Unicode data and a parameter here. *)

From S2P Require Import Prelude.
Local Open Scope pystr_scope.

Definition REDACTED : pystr := "[REDACTED]".

(** Case folding under [re.IGNORECASE]: the ASCII letters, and the four other
    characters Python's [re] equates with an ASCII letter. *)
Definition sre_fold (c : N) : N :=
  if N.eqb c 304 || N.eqb c 305 then 105%N       (* I with dot, dotless i *)
  else if N.eqb c 383 then 115%N                 (* long s *)
  else if N.eqb c 8490 then 107%N                (* the Kelvin sign *)
  else ascii_lower c.

(** The pattern [w] at the head of [l], ignoring case; the rest on a match. *)
Fixpoint match_word (w l : list N) : option (list N) :=
  match w, l with
  | [], _ => Some l
  | a :: w', c :: l' => if N.eqb (sre_fold c) a then match_word w' l' else None
  | _ :: _, [] => None
  end.

(** ** [is_sensitive_key] *)

(** The alternatives of [_SENSITIVE_KEY_PATTERN], each [[_-]?] spelt out. *)
Definition sensitive_words : list pystr :=
  [ "password"; "passwd"; "secret"; "token"; "apikey"; "api_key"; "api-key"; "authorization";
    "credential"; "privatekey"; "private_key"; "private-key"; "clientsecret"; "client_secret";
    "client-secret"; "accesskey"; "access_key"; "access-key"; "session" ].

(** [(?:$|_)]: the end, the newline that ends the string, or an underscore. *)
Definition key_end (rest : list N) : bool :=
  match rest with
  | [] => true
  | [c] => N.eqb c 10 || N.eqb c 95
  | c :: _ => N.eqb c 95
  end.

Definition word_here (l : list N) : bool :=
  existsb (λ w, match match_word (chars w) l with Some rest => key_end rest | None => false end)
    sensitive_words.

(** The part of [(?:^|_)] that consumes an underscore, at every position. *)
Fixpoint after_underscore (l : list N) : bool :=
  match l with
  | [] => false
  | c :: l' => (N.eqb c 95 && word_here l') || after_underscore l'
  end.

Definition is_sensitive_key (key : pystr) : bool :=
  word_here (chars key) || after_underscore (chars key).

(** ** [redact_text] *)

(** [[A-Za-z0-9._~+/=-]], ignoring case. *)
Definition token_char (c : N) : bool :=
  let f := sre_fold c in
  ((97 <=? f) && (f <=? 122))%N || ((48 <=? f) && (f <=? 57))%N
  || existsb (N.eqb f) (chars "._~+/=-").

Fixpoint span (p : N → bool) (l : list N) : list N * list N :=
  match l with
  | c :: r => if p c then let '(a, b) := span p r in (c :: a, b) else ([], l)
  | [] => ([], [])
  end.

(** [Bearer\s+[...]{8,}] at the head of [l]: what follows the match. *)
Definition bearer_here (l : list N) : option (list N) :=
  match match_word (chars "bearer") l with
  | None => None
  | Some r =>
      let '(spaces, r) := span is_space r in
      let '(token, r) := span token_char r in
      if (1 <=? length spaces) && (8 <=? length token) then Some r else None
  end.

Section Redact.
(** [\w]: a word character. *)
Context (is_word : N → bool).

(** [\b] before a [B]: the character before, if any, is not a word character. *)
Definition boundary (prev : option N) : bool :=
  match prev with None => true | Some c => negb (is_word c) end.

(** [sub], leftmost first, the search going on after each replacement.  The
    fuel is the length of the text. *)
Fixpoint redact_chars (fuel : nat) (prev : option N) (l : list N) : list N :=
  match fuel, l with
  | _, [] => []
  | O, _ => l
  | S fuel', c :: r =>
      match (if boundary prev then bearer_here l else None) with
      | Some rest =>
          chars ("Bearer " +++ REDACTED) ++
          redact_chars fuel' (last (take (length l - length rest) l)) rest
      | None => c :: redact_chars fuel' (Some c) r
      end
  end.

Definition redact_text (text : pystr) : pystr :=
  PyStr (redact_chars (py_len text) None (chars text)).

(** ** [redact_mapping] *)

(** The branches of the loop body: a sensitive key, a nested mapping, a
    string, anything else (a list included) as it is. *)
Fixpoint redact_value (v : json) : json :=
  match v with
  | JObj kvs =>
      JObj ((fix go (l : list (pystr * json)) : list (pystr * json) :=
               match l with
               | [] => []
               | (k, x) :: r =>
                   (k, if is_sensitive_key k then JStr REDACTED else redact_value x) :: go r
               end) kvs)
  | JStr s => JStr (redact_text s)
  | _ => v
  end.

Definition redact_mapping (data : list (pystr * json)) : list (pystr * json) :=
  map (λ kx, (kx.1, if is_sensitive_key kx.1 then JStr REDACTED else redact_value kx.2)) data.

Lemma redact_value_obj kvs : redact_value (JObj kvs) = JObj (redact_mapping kvs).
Proof. simpl. f_equal. induction kvs as [|[k x] r IH]; [done|]. simpl. by f_equal. Qed.

(** ** What is left after redaction *)

(** A path of keys through nested mappings, and what it leads to. *)
Inductive reaches : list (pystr * json) → list pystr → json → Prop :=
  | reach_here data k v : (k, v) ∈ data → reaches data [k] v
  | reach_into data k inner path v :
      (k, JObj inner) ∈ data → reaches inner path v → reaches data (k :: path) v.

Lemma redact_mapping_elem data k v' :
  (k, v') ∈ redact_mapping data ↔
  ∃ v, (k, v) ∈ data ∧ v' = if is_sensitive_key k then JStr REDACTED else redact_value v.
Proof.
  unfold redact_mapping. rewrite list_elem_of_fmap. split.
  - intros ([k0 v] & [= -> ->] & Hin). eauto.
  - intros (v & Hin & ->). by exists (k, v).
Qed.

(** Every value reachable through nested mappings under a sensitive key is replaced by the
    marker, and everything else keeps its place with only its text redacted. *)
Theorem redaction_masks_paths data path v' :
  reaches (redact_mapping data) path v' →
  (existsb is_sensitive_key path = true → v' = JStr REDACTED) ∧
  (existsb is_sensitive_key path = false →
     ∃ v, reaches data path v ∧ v' = redact_value v).
Proof.
  intros Hr. remember (redact_mapping data) as out eqn:E. revert data E.
  induction Hr as [out k w Hin|out k inner path w Hin Hr IH]; intros data ->.
  - apply redact_mapping_elem in Hin as (v & Hv & ->). simpl. rewrite orb_false_r.
    destruct (is_sensitive_key k); [done|]. split; [done|]. intros _. exists v. by split; [left|].
  - apply redact_mapping_elem in Hin as (v & Hv & E). simpl.
    destruct (is_sensitive_key k); [done|]. destruct v as [| | | |s|l|kvs]; try done.
    rewrite redact_value_obj in E. injection E as ->.
    destruct (IH kvs eq_refl) as [IH1 IH2]. simpl. split; [done|].
    intros Hn. destruct (IH2 Hn) as (v & Hrv & ->). exists v. split; [|done].
    by apply reach_into with kvs.
Qed.
End Redact.

Lemma redaction_masks_paths_witness :
  let data := [("user", JObj [("db_password", JStr "hunter2"); ("name", JStr "An")])] in
  let isw c := is_space c in
  reaches (redact_mapping isw data) ["user"; "db_password"] (JStr REDACTED) ∧
  JStr REDACTED = JStr REDACTED.
Proof.
  intros data isw.
  assert (reaches (redact_mapping isw data) ["user"; "db_password"] (JStr REDACTED)) as Hr.
  { apply reach_into with [("db_password", JStr REDACTED); ("name", JStr "An")];
      [by left|by apply reach_here; left]. }
  split; [exact Hr|]. destruct (redaction_masks_paths isw data _ _ Hr) as [H _]. apply H.
  vm_compute. reflexivity.
Defined.

(** LISTS *)
Theorem redaction_skips_lists is_word k items :
  is_sensitive_key k = false →
  redact_mapping is_word [(k, JList items)] = [(k, JList items)].
Proof. intros Hk. unfold redact_mapping. simpl. by rewrite Hk. Qed.

Lemma redaction_skips_lists_witness :
  let leaked := [("accounts", JList [JObj [("password", JStr "hunter2")]])] in
  is_sensitive_key "password" = true ∧ redact_mapping (λ _, false) leaked = leaked.
Proof.
  intros leaked. split; [vm_compute; reflexivity|].
  apply (redaction_skips_lists (λ _, false) "accounts"). vm_compute. reflexivity.
Defined.
