(* ===== verification/Executor.v ===== *)
(** * The tool executor

    [dw_agent_runtime/executor.py]: the pipeline every tool call goes through
    (resolve, validate, authorize, ask, require a key, replay, execute with
    timeout and retries, record, audit), over the [tool_executions] store of
    [adapters/tool_execution_store.py].

    A pydantic model instance is represented by its JSON form.  A handler is a
    parameter: what it does to the world, how long it takes and what it
    answers. *)

From S2P Require Import Prelude Errors Kernel Domain Contracts Store Redaction.
Local Open Scope prog_scope.
Local Open Scope pystr_scope.

(** ** [adapters/tool_execution_store.py] *)

Record StoredExecution := {
  se_id : uuid;
  se_status : ExecutionStatus;
  se_input_hash : pystr;
  se_output_hash : option pystr;
  se_output : option json }.

Definition find_succeeded (rc : RunContext) (tool_name idempotency_key : pystr)
    : Prog (option StoredExecution) :=
  let! rows := session_begin (sql_select (rc_tenant_id rc) (λ row,
    bool_decide (te_tool_name row = tool_name)
    && bool_decide (te_idempotency_key row = Some idempotency_key)
    && bool_decide (te_status row = EX_succeeded))) in
  ret (match rows with
       | [] => None
       | row :: _ =>
           Some {| se_id := te_id row; se_status := te_status row;
                   se_input_hash := te_input_hash row; se_output_hash := te_output_hash row;
                   se_output := te_output row |}
       end).

Definition execution_row (rc : RunContext) (id : uuid) (tool_name tool_version : pystr)
    (status : ExecutionStatus) (input_hash : pystr) (output_hash : option pystr)
    (output : option json) (idempotency_key error : option pystr) (attempts : nat)
    (started_at finished_at : datetime) : ToolExecutionRow :=
  {| te_id := id; te_tenant_id := rc_tenant_id rc; te_workspace_id := rc_workspace_id rc;
     te_run_id := Some (rc_run_id rc); te_tool_name := tool_name; te_tool_version := tool_version;
     te_status := status; te_idempotency_key := idempotency_key; te_input_hash := input_hash;
     te_output_hash := output_hash; te_output := output; te_error := error;
     te_attempts := Z.of_nat attempts; te_started_at := started_at;
     te_finished_at := Some finished_at |}.

(** [record] *)
Definition record_execution (rc : RunContext) (row : ToolExecutionRow) : Prog unit :=
  session_begin (sql_insert (rc_tenant_id rc) row).

(** ** [executor.py] *)

(** [await tool.handler(...)]: how long it took and what it returned or raised,
    with whatever it did on the way. *)
Abbreviation Handler := (World → (timedelta * res json) * World).

(** [RegisteredTool]: the definition, [model_validate] of the two models (the
    JSON form of the instance, or the error raised), the handler. *)
Record RegisteredTool := {
  tool_definition : ToolDefinition;
  input_model : json → res json;
  output_model : json → res json;
  handler : json → RunContext → Handler }.

Record ToolExecutor := {
  registry : gmap (pystr * pystr) RegisteredTool;
  policy_version : pystr;
  sleep : timedelta → Prog unit;
  base_backoff : timedelta;
  canonical_hash : json → pystr;
  unicode_word : N → bool }.

Definition autonomy_value (l : AutonomyLevel) : pystr :=
  match l with A0 => "A0" | A1 => "A1" | A2 => "A2" | A3 => "A3" | A4 => "A4" end.

Definition json_of_option {A} (f : A → json) (o : option A) : json :=
  match o with None => JNull | Some a => f a end.

Definition as_object (v : json) : list (pystr * json) :=
  match v with JObj kvs => kvs | _ => [] end.

Section Execute.
Context (ex : ToolExecutor).

Definition audit_event_of (rc : RunContext) (action : pystr) (d : ToolDefinition)
    (input_hash policy_decision : pystr) (details : gmap pystr json) (id : uuid) (at_ : datetime)
    : AuditEvent :=
  {| ae_id := id; ae_tenant_id := rc_tenant_id rc; ae_workspace_id := rc_workspace_id rc;
     ae_actor_id := rc_actor_id rc; ae_action := action; ae_resource_type := "tool";
     ae_resource_id := td_name d +++ "@" +++ td_version d; ae_occurred_at := at_;
     ae_run_id := Some (rc_run_id rc); ae_policy_decision := Some policy_decision;
     ae_trace_id := Some (rc_trace_id rc);
     ae_details := details ∪ {[ "input_hash" := JStr input_hash ]} |}.

(** [_audit] *)
Definition _audit (rc : RunContext) (action : pystr) (d : ToolDefinition)
    (input_hash policy_decision : pystr) (details : gmap pystr json) : Prog unit :=
  let! id := new_uuid in
  let! at_ := now_utc in
  let! event := lift_res (make_audit_event
    (audit_event_of rc action d input_hash policy_decision details id at_)) in
  let context := access_context_from_run rc in
  unit_of_work (audit_append (tenant_id context) event ;;; uow_commit).

(** [asyncio.wait_for]: a call that outlasts its timeout is cancelled. *)
Definition wait_for (timeout : timedelta) (h : Handler) : Prog json := λ w,
  let '((took, r), w') := h w in
  if (timeout <? took)%Z then (Raise (Exn TimeoutError ""), w') else (r, w').

(** One attempt: the handler, then the validation of what it returned. *)
Definition attempt_once (tool : RegisteredTool) (input : json) (rc : RunContext) : Prog json :=
  let! raw := wait_for (seconds (td_timeout_seconds (tool_definition tool)))
                (handler tool input rc) in
  lift_res (output_model tool raw).

Definition retryable (e : exn) : bool :=
  isinstance e TimeoutError || isinstance e InfrastructureError.

(** What [last_error] becomes in the clauses that do not retry. *)
Definition settled_error (e : exn) : exn :=
  if isinstance e DWError then e
  else if isinstance e ValidationError then Exn DomainError "tool output failed schema validation"
  else e.

(** The loop: [left] attempts remain, [attempt] were made. *)
Fixpoint attempts (tool : RegisteredTool) (input : json) (rc : RunContext)
    (left attempt : nat) (last_error : option exn) : Prog (nat * option exn * option json) :=
  match left with
  | O => ret (attempt, last_error, None)
  | S left' =>
      let attempt := S attempt in
      λ w, match attempt_once tool input rc w with
           | (Ok out, w') => (Ok (attempt, last_error, Some out), w')
           | (Raise exc, w') =>
               if retryable exc then
                 ((when negb (left' =? 0) then
                     sleep ex (base_backoff ex * 2 ^ Z.of_nat (attempt - 1))%Z) ;;;
                  attempts tool input rc left' attempt (Some exc)) w'
               else (Ok (attempt, Some (settled_error exc), None), w')
           end
  end.

Definition attempts_allowed (d : ToolDefinition) : nat :=
  1 + (if td_idempotent d then Z.to_nat (td_max_retries d) else 0).

(** Steps 1 and 2: the tool and the validated input. *)
Definition resolve_and_validate (name version : pystr) (raw_input : json)
    : res (RegisteredTool * json) :=
  match registry_resolve (registry ex) (name, version) with
  | Raise e => Raise e
  | Ok tool =>
      match input_model tool raw_input with
      | Ok input => Ok (tool, input)
      | Raise e => if isinstance e ValidationError
                   then Raise (Exn DomainError "tool input failed schema validation")
                   else Raise e
      end
  end.

Definition truthy (key : option pystr) : bool :=
  match key with Some k => py_truthy k | None => false end.

(** Step 3: scopes, approval, the key a side effect needs. *)
Definition authorize_call (d : ToolDefinition) (rc : RunContext) (input_hash : pystr)
    (idempotency_key : option pystr) (approved : bool) : Prog unit :=
  let missing := td_required_scopes d ∖ rc_scopes rc in
  (when negb (bool_decide (missing = ∅)) then
     (_audit rc "tool.denied" d input_hash "deny_missing_scope"
        {[ "missing_scopes" := JList (JStr <$> py_sorted (elements missing)) ]} ;;;
      raise PermissionDeniedError "run context lacks required tool scopes")) ;;;
  (when policy_decide (policy_version ex) d rc && negb approved then
     (_audit rc "tool.approval_required" d input_hash "require_approval"
        {[ "autonomy_level" :=
             json_of_option (λ l, JStr (autonomy_value l)) (rc_autonomy_level rc);
           "approval_policy_version" :=
             json_of_option JStr (rc_approval_policy_version rc) ]} ;;;
      raise ApprovalRequiredError "tool requires human approval before execution")) ;;;
  (when (bool_decide (td_side_effect_level d = SE_external)
         || bool_decide (td_side_effect_level d = SE_critical))
        && negb (truthy idempotency_key) then
     raise DomainError "side-effect tools require an idempotency key").

(** Step 5a: a stored success for the key answers the call. *)
Definition replay (tool : RegisteredTool) (rc : RunContext) (name input_hash : pystr)
    (idempotency_key : option pystr) : Prog (option json) :=
  match idempotency_key with
  | Some key =>
      if py_truthy key then
        let! existing := find_succeeded rc name key in
        match existing with
        | None => ret None
        | Some existing =>
            (when negb (bool_decide (se_input_hash existing = input_hash)) then
               raise IdempotencyConflictError
                 "idempotency key reused with a different payload") ;;;
            _audit rc "tool.replayed" (tool_definition tool) input_hash "allow"
              {[ "idempotency_key" := JStr key ]} ;;;
            let! out := lift_res (output_model tool (default (JObj []) (se_output existing))) in
            ret (Some out)
        end
      else ret None
  | None => ret None
  end.

(** Steps 5b to 8. *)
Definition run_tool (tool : RegisteredTool) (input : json) (rc : RunContext)
    (name version input_hash : pystr) (idempotency_key : option pystr) : Prog json :=
  let d := tool_definition tool in
  let! started_at := now_utc in
  let! outcome := attempts tool input rc (attempts_allowed d) 0 None in
  let! finished_at := now_utc in
  match outcome with
  | (attempt, last_error, None) =>
      match last_error with
      | None => raise AssertionError ""
      | Some last_error =>
          let! id := new_uuid in
          record_execution rc (execution_row rc id name version EX_failed input_hash None None
            idempotency_key (Some (class_name (exn_cls last_error))) attempt started_at
            finished_at) ;;;
          _audit rc "tool.failed" d input_hash "allow"
            {[ "error" := JStr (class_name (exn_cls last_error));
               "attempts" := JInt (Z.of_nat attempt);
               "input" := JObj (redact_mapping (unicode_word ex) (as_object input)) ]} ;;;
          if isinstance last_error DWError && negb (isinstance last_error InfrastructureError)
          then reraise last_error
          else raise InfrastructureError "tool execution failed"
      end
  | (attempt, _, Some out) =>
      let! id := new_uuid in
      record_execution rc (execution_row rc id name version EX_succeeded input_hash
        (Some (canonical_hash ex out)) (Some out) idempotency_key None attempt started_at
        finished_at) ;;;
      _audit rc "tool.executed" d input_hash "allow"
        {[ "output_hash" := JStr (canonical_hash ex out);
           "attempts" := JInt (Z.of_nat attempt) ]} ;;;
      ret out
  end.

(** [_execute]; [execute] wraps it in a telemetry span that carries names and
    counts only. *)
Definition _execute (name version : pystr) (raw_input : json) (rc : RunContext)
    (idempotency_key : option pystr) (approved : bool) : Prog json :=
  let! ti := lift_res (resolve_and_validate name version raw_input) in
  let tool := ti.1 in
  let input := ti.2 in
  let input_hash := canonical_hash ex input in
  authorize_call (tool_definition tool) rc input_hash idempotency_key approved ;;;
  let! replayed := replay tool rc name input_hash idempotency_key in
  match replayed with
  | Some out => ret out
  | None => run_tool tool input rc name version input_hash idempotency_key
  end.
End Execute.

(** ** Lemmas *)

(** What the bookkeeping of a call leaves alone: the outside world and the
    recorded executions. *)
Definition frame (w w' : World) : Prop :=
  effects w' = effects w ∧
  (clean w → clean w' ∧ t_executions (db w') = t_executions (db w)).

#[export] Instance frame_preorder : PreOrder frame.
Proof.
  split; [by intros w|]. intros w1 w2 w3 [E1 H1] [E2 H2]. split; [congruence|].
  intros Hc. destruct (H1 Hc) as [Hc2 ?]. destruct (H2 Hc2) as [? ?]. split; [done|congruence].
Qed.

Lemma frame_run {A} (m : Prog A) w r w' : respects frame m → m w = (r, w') → frame w w'.
Proof. intros Hm E. specialize (Hm w). by rewrite E in Hm. Qed.

Section Frames.
Context (ex : ToolExecutor).

Lemma audit_frame rc action d h p details : respects frame (_audit rc action d h p details).
Proof.
  intros w. unfold _audit, bind at 1 2 3, new_uuid, now_utc, lift_res. cbn beta iota zeta.
  destruct (make_audit_event _) as [a|e]; [|done].
  unfold unit_of_work, bind, audit_append. rewrite sql_insert_run by done.
  case_bool_decide; [|by split; [|intros Hc; split; [|unfold clean in Hc; simpl; rewrite Hc]]].
  destruct (_ !! _); by split; [|intros Hc; split; [|unfold clean in Hc; simpl; rewrite ?Hc]].
Qed.
Hint Resolve audit_frame : respects.

Lemma authorize_frame d rc h key approved : respects frame (authorize_call ex d rc h key approved).
Proof. unfold authorize_call. respects_auto. Qed.

(** A call is let through: its scopes are held, a required approval was given,
    a side effect has its key. *)
Definition authorized (d : ToolDefinition) (rc : RunContext) (key : option pystr)
    (approved : bool) : bool :=
  bool_decide (td_required_scopes d ⊆ rc_scopes rc)
  && (negb (policy_decide (policy_version ex) d rc) || approved)
  && (negb (bool_decide (td_side_effect_level d = SE_external)
            || bool_decide (td_side_effect_level d = SE_critical)) || truthy key).

Lemma authorized_passes d rc h key approved w :
  authorized d rc key approved = true → authorize_call ex d rc h key approved w = (Ok tt, w).
Proof.
  unfold authorized, authorize_call. intros [[Hs Hp]%andb_true_iff Hk]%andb_true_iff. to_prop.
  rewrite (bool_decide_eq_true_2 (_ = ∅)) by set_solver. cbn [negb].
  assert (policy_decide (policy_version ex) d rc && negb approved = false) as ->.
  { destruct (policy_decide _ _ _), approved; done. }
  unfold bind, ret. by destruct (bool_decide (td_side_effect_level d = SE_external)),
    (bool_decide (td_side_effect_level d = SE_critical)), (truthy key).
Qed.

(** The id and the instant the next audit event would take are free. *)
Definition audit_free (w : World) : Prop :=
  t_audit (db w) !! (ids w (ids_issued w), utc w (utc_reads w)) = None.

Lemma audit_run rc action d h p details w :
  audit_free w → is_blank action = false →
  ∃ w', _audit rc action d h p details w = (Ok tt, w') ∧
    t_audit (saved w') !! (ids w (ids_issued w), utc w (utc_reads w)) =
      Some (audit_event_of rc action d h p details (ids w (ids_issued w)) (utc w (utc_reads w))).
Proof.
  intros Hf Ha. unfold _audit, bind at 1 2 3, new_uuid, now_utc, lift_res. cbn beta iota zeta.
  unfold make_audit_event, audit_event_valid. cbn [ae_action audit_event_of]. rewrite Ha. simpl.
  unfold unit_of_work, bind, audit_append. rewrite sql_insert_run by done.
  cbn [row_tenant row_key tbl audit_table audit_event_of ae_tenant_id ae_id ae_occurred_at db ids
    ids_issued utc utc_reads].
  rewrite bool_decide_eq_true_2 by done. unfold audit_free in Hf. rewrite Hf.
  eexists. split; [reflexivity|]. apply lookup_insert_eq.
Qed.

(** Why a call is refused, in the order the gate looks. *)
Definition refusal_class (d : ToolDefinition) (rc : RunContext) (approved : bool) : exn_class :=
  if negb (bool_decide (td_required_scopes d ⊆ rc_scopes rc)) then PermissionDeniedError
  else if policy_decide (policy_version ex) d rc && negb approved then ApprovalRequiredError
  else DomainError.

Lemma authorize_refuses d rc h key approved w :
  authorized d rc key approved = false →
  ∃ e w', authorize_call ex d rc h key approved w = (Raise e, w') ∧
    (audit_free w → exn_cls e = refusal_class d rc approved).
Proof.
  unfold authorized, authorize_call, refusal_class. intros Hn.
  assert (∀ c msg action p details, is_blank action = false → ∃ e w',
    (_audit rc action d h p details ;;; raise c msg : Prog unit)%prog w = (Raise e, w') ∧
    (audit_free w → exn_cls e = c)) as Haudit.
  { intros c msg action p details Hb. unfold bind.
    destruct (_audit rc action d h p details w) as [[[]|e] w'] eqn:Ea; eexists _, _;
      (split; [reflexivity|]); [done|].
    intros Hf. destruct (audit_run rc action d h p details w Hf Hb) as (? & E & _). congruence. }
  assert (bool_decide (td_required_scopes d ∖ rc_scopes rc = ∅)
          = bool_decide (td_required_scopes d ⊆ rc_scopes rc)) as ->
    by (apply bool_decide_ext; split; [apply empty_difference_subseteq_L|apply subseteq_empty_difference_L]).
  assert (negb (policy_decide (policy_version ex) d rc) || approved
          = negb (policy_decide (policy_version ex) d rc && negb approved)) as Hask
    by (by destruct (policy_decide _ _ _), approved).
  rewrite Hask in Hn. clear Hask.
  destruct (bool_decide (td_required_scopes d ⊆ rc_scopes rc)); cbn [negb] in *.
  2: { unfold bind at 1. match goal with |- context [bind ?m ?k w] =>
         destruct (Haudit PermissionDeniedError "run context lacks required tool scopes"
           "tool.denied" "deny_missing_scope"
           {[ "missing_scopes" := JList (JStr <$> py_sorted (elements
                (td_required_scopes d ∖ rc_scopes rc))) ]} eq_refl) as (e & w' & -> & He) end.
       eauto. }
  unfold bind at 1, ret at 1. destruct (policy_decide _ _ _ && negb approved).
  { unfold bind at 1. edestruct Haudit as (e & w' & E & He); [|rewrite E; eauto]. reflexivity. }
  unfold bind at 1, ret at 1. simpl in Hn. rewrite orb_false_iff, negb_false_iff in Hn.
  destruct Hn as [-> ->]. simpl. eexists _, _. split; [reflexivity|done].
Qed.
End Frames.

(** The stored success a key stands for, and the only one. *)
Definition succeeded_row (rc : RunContext) (name key : pystr) (row : ToolExecutionRow) : bool :=
  visible (rc_tenant_id rc) (λ row,
    bool_decide (te_tool_name row = name) && bool_decide (te_idempotency_key row = Some key)
    && bool_decide (te_status row = EX_succeeded)) row.

Lemma succeeded_unique t rc name key k1 k2 r1 r2 :
  unique_ok t = true → t !! k1 = Some r1 → t !! k2 = Some r2 →
  succeeded_row rc name key r1 = true → succeeded_row rc name key r2 = true → k1 = k2.
Proof.
  unfold succeeded_row, visible. intros Hu H1 H2 S1 S2. to_prop. simpl in *.
  apply (proj1 (unique_ok_spec t) Hu k1 k2 r1 r2
    (rc_tenant_id rc :: N.of_nat (py_len name) :: chars name ++ chars key)); [done|done|..];
    simpl; repeat match goal with H : _ = _ |- _ => rewrite H end; done.
Qed.

Definition stored_of (row : ToolExecutionRow) : StoredExecution :=
  {| se_id := te_id row; se_status := te_status row; se_input_hash := te_input_hash row;
     se_output_hash := te_output_hash row; se_output := te_output row |}.

Lemma set_saved_clean w : clean w → set_saved (db w) w = w.
Proof. unfold clean. destruct w; simpl. by intros ->. Qed.

Lemma find_succeeded_hit rc name key w k row :
  clean w → unique_ok (t_executions (db w)) = true → t_executions (db w) !! k = Some row →
  succeeded_row rc name key row = true →
  find_succeeded rc name key w = (Ok (Some (stored_of row)), w).
Proof.
  intros Hc Hu Hk Hs. unfold find_succeeded, session_begin, sql_select, bind, gets, ret.
  rewrite set_saved_clean by done. cbn [tbl executions_table].
  change (visible (rc_tenant_id rc) _) with (succeeded_row rc name key).
  rewrite (select_one (succeeded_row rc name key) _ k row); [done..|].
  intros k' r' Hk' Hs'. by eapply succeeded_unique.
Qed.

Lemma find_succeeded_frame rc name key : respects frame (find_succeeded rc name key).
Proof.
  intros w. unfold find_succeeded, session_begin, sql_select, bind, gets, ret. simpl.
  split; [done|]. intros Hc. by rewrite set_saved_clean.
Qed.

(** The same executor with another handler behind one tool. *)
Definition with_handler (ex : ToolExecutor) (name version : pystr)
    (h : json → RunContext → Handler) : ToolExecutor :=
  {| registry := alter (λ t, {| tool_definition := tool_definition t; input_model := input_model t;
                                output_model := output_model t; handler := h |})
                   (name, version) (registry ex);
     policy_version := policy_version ex; sleep := sleep ex; base_backoff := base_backoff ex;
     canonical_hash := canonical_hash ex; unicode_word := unicode_word ex |}.

Section Calls.
Context (ex : ToolExecutor) (name version : pystr) (raw : json) (rc : RunContext)
  (key : option pystr) (approved : bool) (tool : RegisteredTool) (input : json).
Context (Hresolve : resolve_and_validate ex name version raw = Ok (tool, input)).

Let d := tool_definition tool.
Let hash := canonical_hash ex input.
Let swapped (h : json → RunContext → Handler) : RegisteredTool :=
  {| tool_definition := tool_definition tool; input_model := input_model tool;
     output_model := output_model tool; handler := h |}.

Lemma resolve_swapped h :
  resolve_and_validate (with_handler ex name version h) name version raw = Ok (swapped h, input).
Proof.
  revert Hresolve. unfold resolve_and_validate, registry_resolve, with_handler, swapped. simpl.
  rewrite lookup_alter_eq. destruct (registry ex !! (name, version)) as [t|]; [|done]. simpl.
  destruct (input_model t raw) as [i|e]; [by intros [= -> ->]|]. by destruct (isinstance _ _).
Qed.

Lemma execute_run w :
  _execute ex name version raw rc key approved w =
    (authorize_call ex d rc hash key approved ;;;
     let! replayed := replay tool rc name hash key in
     match replayed with
     | Some out => ret out
     | None => run_tool ex tool input rc name version hash key
     end)%prog w.
Proof. unfold _execute, bind at 1, lift_res. by rewrite Hresolve. Qed.

Lemma execute_refused w e w' :
  authorize_call ex d rc hash key approved w = (Raise e, w') →
  _execute ex name version raw rc key approved w = (Raise e, w').
Proof. intros Ha. rewrite execute_run. unfold bind. by rewrite Ha. Qed.

Lemma replay_frame : respects frame (replay tool rc name hash key).
Proof.
  pose proof (audit_frame rc "tool.replayed" d hash "allow") as Ha.
  pose proof (find_succeeded_frame rc name) as Hf.
  unfold replay. respects_auto.
Qed.

Lemma replay_conflict k w id row :
  key = Some k → py_truthy k = true → clean w → unique_ok (t_executions (db w)) = true →
  t_executions (db w) !! id = Some row → succeeded_row rc name k row = true →
  te_input_hash row ≠ hash →
  replay tool rc name hash key w =
    (Raise (Exn IdempotencyConflictError "idempotency key reused with a different payload"), w).
Proof.
  intros -> Hk Hc Hu Hl Hs Hh. unfold replay. rewrite Hk. unfold bind at 1.
  rewrite (find_succeeded_hit rc name k w id row) by done. cbn [stored_of se_input_hash].
  by rewrite bool_decide_eq_false_2.
Qed.

(** A stored success answers the call: no handler runs. *)
Lemma replay_hit k w id row :
  key = Some k → py_truthy k = true → clean w → unique_ok (t_executions (db w)) = true →
  t_executions (db w) !! id = Some row → succeeded_row rc name k row = true →
  te_input_hash row = hash →
  (replay tool rc name hash key w).1 ≠ Ok None ∧
  (audit_free w → (replay tool rc name hash key w).1 =
     match output_model tool (default (JObj []) (te_output row)) with
     | Ok out => Ok (Some out)
     | Raise e => Raise e
     end) ∧
  (∀ out, (replay tool rc name hash key w).1 = Ok (Some out) →
          output_model tool (default (JObj []) (te_output row)) = Ok out).
Proof.
  intros -> Hk Hc Hu Hl Hs Hh.
  assert (replay tool rc name hash (Some k) w =
    (_audit rc "tool.replayed" d hash "allow" {[ "idempotency_key" := JStr k ]} ;;;
     let! out := lift_res (output_model tool (default (JObj []) (te_output row))) in
     ret (Some out))%prog w) as ->.
  { unfold replay. rewrite Hk. unfold bind at 1.
    rewrite (find_succeeded_hit rc name k w id row) by done.
    cbn [stored_of se_input_hash se_output]. by rewrite (bool_decide_eq_true_2 _ Hh). }
  unfold bind, ret, lift_res.
  pose proof (audit_run rc "tool.replayed" d hash "allow" {[ "idempotency_key" := JStr k ]} w) as Hrun.
  destruct (_audit _ _ _ _ _ _ w) as [[[]|e] w'];
    destruct (output_model tool _) as [out|e']; simpl; split_and!;
    first [done | by intros ? [= <-] |
           intros Hf; destruct (Hrun Hf eq_refl) as (? & E & _); congruence].
Qed.

(** What the loop returns is something the output model produced. *)
Lemma attempts_output left : ∀ attempt last w n e out w',
  attempts ex tool input rc left attempt last w = (Ok (n, e, Some out), w') →
  ∃ raw', output_model tool raw' = Ok out.
Proof.
  induction left as [|left IH]; intros attempt last w n e out w'; simpl; [done|].
  destruct (attempt_once tool input rc w) as [[o|exc] w1] eqn:E.
  - intros [= <- <- <- <-]. unfold attempt_once in E. apply bind_ok in E as (raw' & ? & _ & E).
    unfold lift_res in E. injection E as E _. eauto.
  - destruct (retryable exc); [|done]. intros ([] & w2 & _ & H)%bind_ok. by eapply IH.
Qed.

(** A successful execution under a key leaves the row that answers the next. *)
Lemma run_tool_stores k w out w' :
  key = Some k → run_tool ex tool input rc name version hash key w = (Ok out, w') →
  clean w' ∧ unique_ok (t_executions (db w')) = true ∧
  ∃ id row, t_executions (db w') !! id = Some row ∧ succeeded_row rc name k row = true ∧
            te_input_hash row = hash ∧ te_output row = Some out ∧
            ∃ raw, output_model tool raw = Ok out.
Proof.
  intros -> Hrun. unfold run_tool in Hrun.
  apply bind_ok in Hrun as (t0 & w1 & _ & Hrun).
  apply bind_ok in Hrun as ([[n last] o] & w2 & Hatt & Hrun).
  apply bind_ok in Hrun as (t1 & w3 & _ & Hrun). destruct o as [o|].
  2: { destruct last as [last|]; [|done]. do 3 apply bind_ok in Hrun as (? & ? & _ & Hrun).
       by destruct (_ && _). }
  apply bind_ok in Hrun as (id & w4 & _ & Hrun). apply bind_ok in Hrun as ([] & w5 & Hrec & Hrun).
  apply bind_ok in Hrun as ([] & w6 & Ha & Hrun). unfold ret in Hrun. injection Hrun as <- <-.
  unfold record_execution, session_begin in Hrec.
  destruct (sql_insert _ _ w4) as [[[]|e] s] eqn:Ei; [|done]. injection Hrec as <-.
  apply sql_insert_ok in Ei as (_ & _ & Hu & ->).
  pose proof (frame_run _ _ _ _ (audit_frame _ _ _ _ _ _) Ha) as [_ Hf].
  destruct (Hf eq_refl) as [Hc6 Ht6]. rewrite Ht6. split_and!; [done|done|].
  exists id. eexists. split; [apply lookup_insert_eq|].
  split_and!; [|done|done|by eapply attempts_output]. unfold succeeded_row, visible. simpl.
  by rewrite !bool_decide_eq_true_2.
Qed.
End Calls.

(** What a replay answered from. *)
Lemma replay_some rc tool name h k w o w' :
  clean w → replay tool rc name h (Some k) w = (Ok (Some o), w') →
  ∃ id row, t_executions (db w) !! id = Some row ∧ succeeded_row rc name k row = true ∧
    te_input_hash row = h ∧ output_model tool (default (JObj []) (te_output row)) = Ok o.
Proof.
  intros Hc Hr. unfold replay in Hr. destruct (py_truthy k); [|done].
  apply bind_ok in Hr as (ex & w1 & Hf & Hr).
  unfold find_succeeded, session_begin, sql_select, bind, gets, ret in Hf. cbn [tbl executions_table] in Hf.
  rewrite set_saved_clean in Hf by done.
  change (visible (rc_tenant_id rc) _) with (succeeded_row rc name k) in Hf.
  destruct (filter _ _) as [|row rest] eqn:El; injection Hf as <- <-; [done|].
  assert (row ∈ filter (λ r, succeeded_row rc name k r = true) (map_to_list (t_executions (db w))).*2)
    as (Hs & ([id row'] & -> & Hl)%list_elem_of_fmap)%list_elem_of_filter by (rewrite El; left).
  apply elem_of_map_to_list in Hl. exists id, row'. split_and!; [done|done|..];
    cbn [se_input_hash se_output] in Hr.
  - apply bind_ok in Hr as ([] & w2 & Hh & _). by case_bool_decide.
  - apply bind_ok in Hr as ([] & w2 & _ & Hr). apply bind_ok in Hr as ([] & w3 & _ & Hr).
    apply bind_ok in Hr as (o' & w4 & Ho & Hr). unfold ret in Hr. injection Hr as <- _.
    unfold lift_res in Ho. by injection Ho.
Qed.

(** After a successful call under a key, the row that stands for the key. *)
Lemma succeeded_after ex name version raw rc k approved tool input w out w1 :
  resolve_and_validate ex name version raw = Ok (tool, input) →
  clean w → unique_ok (t_executions (db w)) = true →
  _execute ex name version raw rc (Some k) approved w = (Ok out, w1) →
  authorized ex (tool_definition tool) rc (Some k) approved = true ∧
  unique_ok (t_executions (db w1)) = true ∧ clean w1 ∧
  ∃ id row, t_executions (db w1) !! id = Some row ∧ succeeded_row rc name k row = true ∧
    te_input_hash row = canonical_hash ex input ∧
    (output_model tool (default (JObj []) (te_output row)) = Ok out ∨
     te_output row = Some out ∧ ∃ raw, output_model tool raw = Ok out).
Proof.
  intros Hr Hc Hu He.
  assert (authorized ex (tool_definition tool) rc (Some k) approved = true) as Ha.
  { apply not_false_iff_true. intros Ha.
    destruct (authorize_refuses ex _ rc (canonical_hash ex input) (Some k) approved w Ha)
      as (e & w' & Hau & _).
    rewrite (execute_refused ex _ _ _ _ _ _ _ _ Hr w e w' Hau) in He. done. }
  split; [done|]. rewrite (execute_run ex _ _ _ _ _ _ _ _ Hr) in He.
  apply bind_ok in He as ([] & w0 & Hau & He). rewrite authorized_passes in Hau by done.
  injection Hau as <-. apply bind_ok in He as (rep & w2 & Hrep & He). destruct rep as [o|].
  - destruct (frame_run _ _ _ _ (replay_frame ex name rc (Some k) tool input) Hrep) as [_ Hf].
    destruct (Hf Hc) as [Hc2 Ht2]. unfold ret in He. injection He as -> ->.
    rewrite Ht2. split_and!; [done|done|].
    destruct (replay_some _ _ _ _ _ _ _ _ Hc Hrep) as (id & row & ? & ? & ? & ?). eauto 10.
  - destruct (run_tool_stores ex name version rc (Some k) tool input k w2 out w1 eq_refl He)
      as (? & ? & id & row & ? & ? & ? & ?). eauto 10.
Qed.

(** ** The log of attempts

    Under a handler that leaves one entry per invocation and a [sleep] that
    leaves one per wait, the outside world records exactly the attempts and the
    back-off between them. *)
Section AttemptLog.
Context (ex : ToolExecutor) (tool : RegisteredTool) (input : json) (rc : RunContext).

Definition call_entry : pystr * json := (td_name (tool_definition tool), input).
Definition sleep_entry (d : timedelta) : pystr * json := ("sleep", JInt d).

(** The calls numbered [attempt + 1] to [attempt + n]. *)
Fixpoint attempt_log (attempt n : nat) : list (pystr * json) :=
  match n with
  | O => []
  | S O => [call_entry]
  | S n' => call_entry :: sleep_entry (base_backoff ex * 2 ^ Z.of_nat attempt)%Z
              :: attempt_log (S attempt) n'
  end.

Definition logged_handler : Prop := ∀ i rc w,
  effects (handler tool i rc w).2 = effects w ++ [(td_name (tool_definition tool), i)].
Definition logged_sleep : Prop := ∀ d w, sleep ex d w = (Ok tt, add_effect (sleep_entry d) w).

Lemma attempt_once_effects w :
  logged_handler → effects (attempt_once tool input rc w).2 = effects w ++ [call_entry].
Proof.
  intros Hh. specialize (Hh input rc w). unfold attempt_once, wait_for, bind, lift_res.
  destruct (handler tool input rc w) as [[took r] w']. simpl in *.
  destruct (_ <? _)%Z; [done|]. destruct r; simpl; done.
Qed.

Lemma attempts_logged left : ∀ attempt last w,
  logged_handler → logged_sleep →
  let '(r, w') := attempts ex tool input rc left attempt last w in
  ∃ n e o, r = Ok (attempt + n, e, o) ∧ n ≤ left ∧ (0 < left → 0 < n) ∧
    (0 < left → o = None → is_Some e) ∧
    effects w' = effects w ++ attempt_log attempt n.
Proof.
  induction left as [|left IH]; intros attempt last w Hh Hs; simpl.
  { exists 0, last, None. rewrite Nat.add_0_r, app_nil_r. split_and!; (done || lia). }
  pose proof (attempt_once_effects w Hh) as He.
  destruct (attempt_once tool input rc w) as [[out|exc] w1]; simpl in He.
  { exists 1, last, (Some out). rewrite Nat.add_1_r. split_and!; (done || lia). }
  destruct (retryable exc).
  2: { exists 1, (Some (settled_error exc)), None. rewrite Nat.add_1_r.
       split_and!; (done || lia || by intros; eexists). }
  destruct left as [|left].
  { simpl. unfold bind, ret. exists 1, (Some exc), None. rewrite Nat.add_1_r.
    split_and!; (done || lia || by intros; eexists). }
  cbn [Nat.eqb negb]. unfold bind at 1. rewrite Hs.
  specialize (IH (S attempt) (Some exc) (add_effect (sleep_entry
    (base_backoff ex * 2 ^ Z.of_nat (S attempt - 1))%Z) w1) Hh Hs).
  destruct (attempts ex tool input rc (S left) (S attempt) (Some exc) _) as [r w'].
  destruct IH as (n & e & o & -> & Hn & Hpos & Hsome & Heff).
  exists (S n), e, o. replace (attempt + S n) with (S attempt + n) by lia.
  split_and!; [done|lia|lia|intros; apply Hsome; lia || done|].
  rewrite Heff. simpl. rewrite He, <- !app_assoc. f_equal. simpl.
  replace (attempt - 0) with attempt by lia.
  destruct n as [|n]; [exfalso; specialize (Hpos ltac:(lia)); lia|]. done.
Qed.

Definition same_effects (w w' : World) : Prop := effects w' = effects w.

#[local] Instance same_effects_preorder : PreOrder same_effects.
Proof. unfold same_effects. split; [by intros ?|intros ? ? ?; congruence]. Qed.

Lemma frame_effects {A} (m : Prog A) : respects frame m → respects same_effects m.
Proof. intros H w. apply (H w). Qed.

Lemma record_effects row : respects same_effects (record_execution rc row).
Proof.
  intros w. unfold record_execution, session_begin, sql_insert, store_rows, bind, get_state,
    raise, modify, same_effects.
  destruct (bool_decide _); [done|]. destruct (_ !! _); [done|]. by destruct (unique_ok _).
Qed.

(** What a tool run does to the outside world: its attempts and nothing else. *)
Lemma run_tool_logged name version h key w :
  logged_handler → logged_sleep →
  let '(r, w') := run_tool ex tool input rc name version h key w in
  ∃ n, 0 < n ≤ attempts_allowed (tool_definition tool) ∧
    effects w' = effects w ++ attempt_log 0 n ∧
    ∀ out, r = Ok out → ∃ id row, t_executions (saved w') !! id = Some row ∧
      te_attempts row = Z.of_nat n ∧ te_status row = EX_succeeded ∧ te_output row = Some out.
Proof.
  intros Hh Hs. unfold run_tool. cbv zeta. unfold bind at 1, now_utc at 1.
  set (w0 := MkWorld _ _ _ _ _ _ _ _). unfold bind at 1.
  pose proof (attempts_logged (attempts_allowed (tool_definition tool)) 0 None w0 Hh Hs) as Hlog.
  destruct (attempts ex tool input rc _ 0 None w0) as [r0 w1].
  destruct Hlog as (n & e & o & -> & Hn & Hpos & Hsome & Heff).
  assert (0 < attempts_allowed (tool_definition tool)) as Hal by (unfold attempts_allowed; lia).
  specialize (Hpos Hal). unfold bind at 1, now_utc at 1. set (w2 := MkWorld _ _ _ _ _ _ _ _).
  assert (effects w2 = effects w ++ attempt_log 0 n) as E2 by exact Heff.
  pose proof (λ action p d, frame_effects _
    (audit_frame rc action (tool_definition tool) h p d)) as Ha.
  cbn [Nat.add]. match goal with |- let '(_, _) := ?m w2 in _ => set (rest := m) end.
  assert (respects same_effects rest) as Hm.
  { unfold rest. destruct o as [out|].
    - apply respects_bind; [apply _|by intros ?|]. intros id.
      apply respects_bind; [apply _|apply record_effects|]. intros [].
      apply respects_bind; [apply _|apply Ha|]. by intros [] ?.
    - destruct e as [e|]; [|by intros ?].
      apply respects_bind; [apply _|by intros ?|]. intros id.
      apply respects_bind; [apply _|apply record_effects|]. intros [].
      apply respects_bind; [apply _|apply Ha|]. intros []. by destruct (_ && _). }
  specialize (Hm w2). destruct (rest w2) as [r w'] eqn:Er. simpl in Hm.
  exists n. split; [lia|]. split; [unfold same_effects in Hm; congruence|].
  intros out ->. unfold rest in Er. destruct o as [o|].
  2: { destruct e as [e|]; [|done]. do 3 apply bind_ok in Er as (? & ? & _ & Er).
       by destruct (_ && _). }
  apply bind_ok in Er as (id & w4 & _ & Er). apply bind_ok in Er as ([] & w5 & Hrec & Er).
  apply bind_ok in Er as ([] & w6 & Hau & Er). unfold ret in Er. injection Er as <- <-.
  unfold record_execution, session_begin in Hrec.
  destruct (sql_insert _ _ w4) as [[[]|e'] s] eqn:Ei; [|done]. injection Hrec as <-.
  apply sql_insert_ok in Ei as (_ & _ & _ & ->).
  pose proof (frame_run _ _ _ _ (audit_frame _ _ _ _ _ _) Hau) as [_ Hf].
  destruct (Hf eq_refl) as [Hc6 Ht6]. unfold clean in Hc6. rewrite Hc6, Ht6.
  exists id. eexists. split; [apply lookup_insert_eq|]. done.
Qed.
End AttemptLog.

(** ** Properties *)

(** A call whose scopes, approval or idempotency key are missing is refused with the error
    of the first gate that fails, whatever the handler: nothing happens outside, no
    execution is recorded. *)
Theorem refused_call_runs_nothing ex name version raw rc key approved tool input w :
  resolve_and_validate ex name version raw = Ok (tool, input) → clean w →
  authorized ex (tool_definition tool) rc key approved = false →
  let '(r, w') := _execute ex name version raw rc key approved w in
  (∃ e, r = Raise e ∧
        (audit_free w → exn_cls e = refusal_class ex (tool_definition tool) rc approved)) ∧
  effects w' = effects w ∧ clean w' ∧ t_executions (saved w') = t_executions (saved w) ∧
  ∀ h, _execute (with_handler ex name version h) name version raw rc key approved w = (r, w').
Proof.
  intros Hr Hc Ha.
  destruct (authorize_refuses ex (tool_definition tool) rc (canonical_hash ex input) key approved w Ha)
    as (e & w' & He & Hcls).
  rewrite (execute_refused ex name version raw rc key approved tool input Hr w e w' He).
  destruct (frame_run _ _ _ _ (authorize_frame ex _ rc _ key approved) He) as [Heff Hf].
  destruct (Hf Hc) as [Hc' Ht]. split_and!; [by exists e|done|done| |].
  - unfold clean in *. congruence.
  - intros h. apply (execute_refused (with_handler ex name version h) name version raw rc key approved
      _ input (resolve_swapped ex name version raw tool input Hr h)). exact He.
Qed.

(** C24: once a call under an idempotency key has succeeded, the same call runs no handler
    and records nothing in any later state that still holds the executions of then,
    however many others were recorded since, and whatever the handler has become; when
    it is answered, it is with the same output, and it is answered when the audit trail
    takes its event. The tool's output model takes its own output back unchanged. *)
Theorem key_executes_once ex name version raw rc k approved tool input w out w1 :
  (∀ raw out, output_model tool raw = Ok out → output_model tool out = Ok out) →
  resolve_and_validate ex name version raw = Ok (tool, input) →
  py_truthy k = true → clean w → unique_ok (t_executions (db w)) = true →
  _execute ex name version raw rc (Some k) approved w = (Ok out, w1) →
  ∀ h w2, clean w2 → t_executions (saved w1) ⊆ t_executions (saved w2) →
  unique_ok (t_executions (saved w2)) = true →
  let '(r, w3) := _execute (with_handler ex name version h) name version raw rc (Some k) approved w2 in
  (audit_free w2 → r = Ok out) ∧ (∀ out', r = Ok out' → out' = out) ∧
  effects w3 = effects w2 ∧ t_executions (saved w3) = t_executions (saved w2).
Proof.
  intros Hround Hr Hk Hc Hu He h w2 Hc2 Ht2 Hu2.
  destruct (succeeded_after _ _ _ _ _ _ _ _ _ _ _ _ Hr Hc Hu He)
    as (Ha & Hu1 & Hc1 & id & row & Hl & Hs & Hh & Ho).
  unfold clean in Hc1, Hc2. rewrite Hc1 in Ht2. rewrite Hc2 in Ht2, Hu2.
  apply (lookup_weaken _ _ _ _ Hl) in Ht2 as Hl2.
  pose proof (resolve_swapped ex name version raw tool input Hr h) as Hr'.
  rewrite (execute_run (with_handler ex name version h) _ _ _ _ _ _ _ _ Hr').
  unfold bind at 1. rewrite (authorized_passes (with_handler ex name version h)) by exact Ha.
  set (tool' := {| tool_definition := _ |}).
  destruct (replay_hit (with_handler ex name version h) name rc (Some k) tool' input k w2 id row
    eq_refl Hk Hc2 Hu2 Hl2 Hs Hh) as (Hn & Hfree & Hout).
  assert (output_model tool (default (JObj []) (te_output row)) = Ok out) as Hval.
  { destruct Ho as [|[E [raw' Hraw]]]; [done|]. rewrite E. simpl. eauto. }
  assert (respects frame (replay tool' rc name (canonical_hash ex input) (Some k))) as Hframe
    by exact (replay_frame (with_handler ex name version h) name rc (Some k) tool' input).
  change (canonical_hash (with_handler ex name version h) input) with (canonical_hash ex input) in *.
  change (output_model tool') with (output_model tool) in *.
  specialize (Hframe w2). unfold bind at 1. rewrite Hval in Hfree, Hout.
  destruct (replay tool' rc name (canonical_hash ex input) (Some k) w2) as [[[o|]|e] w3]; simpl in *;
    [|done|]; destruct Hframe as [Heff Hf]; destruct (Hf Hc2) as [Hc3 Ht3];
    (split_and!; [| |done|unfold clean in *; congruence]).
  - intros Hfr. specialize (Hfree Hfr). unfold ret. congruence.
  - intros out' [= <-]. specialize (Hout o eq_refl). congruence.
  - intros Hfr. by specialize (Hfree Hfr).
  - done.
Qed.

(** A key that stands for another payload of the same tool is refused as an idempotency
    conflict and nothing changes. *)
Theorem key_reused_conflicts ex name version raw rc k approved tool input w id row :
  resolve_and_validate ex name version raw = Ok (tool, input) →
  py_truthy k = true → clean w → unique_ok (t_executions (db w)) = true →
  authorized ex (tool_definition tool) rc (Some k) approved = true →
  t_executions (db w) !! id = Some row → te_tenant_id row = rc_tenant_id rc →
  te_tool_name row = name → te_idempotency_key row = Some k → te_status row = EX_succeeded →
  te_input_hash row ≠ canonical_hash ex input →
  _execute ex name version raw rc (Some k) approved w =
    (Raise (Exn IdempotencyConflictError "idempotency key reused with a different payload"), w).
Proof.
  intros Hr Hk Hc Hu Ha Hl Ht Hn Hkey Hst Hh.
  rewrite (execute_run ex _ _ _ _ _ _ _ _ Hr). unfold bind at 1. rewrite authorized_passes by done.
  unfold bind. rewrite (replay_conflict ex name rc (Some k) tool input k w id row); try done.
  unfold succeeded_row, visible. simpl. by rewrite Ht, Hn, Hkey, Hst, !bool_decide_eq_true_2.
Qed.

(** A call invokes the handler at most once plus the retries of an idempotent tool, waits
    with exponentially growing back-off between attempts and never after the last, and
    records the number of attempts of a success. *)
Theorem attempts_bounded_and_recorded ex name version raw rc key approved tool input w :
  resolve_and_validate ex name version raw = Ok (tool, input) → clean w →
  logged_handler tool → logged_sleep ex →
  let '(r, w') := _execute ex name version raw rc key approved w in
  ∃ n, n ≤ attempts_allowed (tool_definition tool) ∧
    (td_idempotent (tool_definition tool) = false → n ≤ 1) ∧
    effects w' = effects w ++ attempt_log ex tool input 0 n ∧
    (n = 0 → authorized ex (tool_definition tool) rc key approved = false ∨
             (replay tool rc name (canonical_hash ex input) key w).1 ≠ Ok None) ∧
    (∀ out, r = Ok out → n ≠ 0 →
       ∃ id row, t_executions (saved w') !! id = Some row ∧ te_attempts row = Z.of_nat n ∧
         te_status row = EX_succeeded ∧ te_output row = Some out).
Proof.
  intros Hr Hc Hh Hs. set (d := tool_definition tool).
  assert (td_idempotent d = false → attempts_allowed d = 1) as Hone
    by (unfold attempts_allowed; by intros ->).
  rewrite (execute_run ex _ _ _ _ _ _ _ _ Hr). fold d. unfold bind at 1.
  destruct (authorized ex d rc key approved) eqn:Ha.
  2: { destruct (authorize_refuses ex d rc (canonical_hash ex input) key approved w Ha)
         as (e & w' & He & _). rewrite He.
       destruct (frame_run _ _ _ _ (authorize_frame ex d rc _ key approved) He) as [Heff _].
       exists 0. rewrite app_nil_r. split_and!; (done || lia || by left). }
  rewrite authorized_passes by done. unfold bind at 1.
  pose proof (replay_frame ex name rc key tool input w) as [Heff _].
  destruct (replay tool rc name (canonical_hash ex input) key w) as [[[o|]|e] w1] eqn:Erep;
    simpl in Heff.
  - exists 0. rewrite app_nil_r. split_and!; (done || lia || by right).
  - pose proof (run_tool_logged ex tool input rc name version (canonical_hash ex input) key w1 Hh Hs)
      as Hrun.
    destruct (run_tool _ _ _ _ _ _ _ _ w1) as [r w']. destruct Hrun as (n & Hn & He & Hok).
    subst d. exists n. rewrite He, Heff.
    split_and!; [lia|intros E; specialize (Hone E); lia|done|lia|].
    intros out Hout _. by apply Hok.
  - exists 0. rewrite app_nil_r. split_and!; (done || lia || by right).
Qed.

(** A call whose attempts all fail leaves a failed execution and an audit event naming the
    error, and raises the tool's own typed refusal or an infrastructure error for
    anything else. *)
Theorem failed_call_is_recorded ex tool input rc name version h key w w1 n e :
  attempts ex tool input rc (attempts_allowed (tool_definition tool)) 0 None (now_utc w).2
    = (Ok (n, Some e, None), w1) →
  clean w1 → unique_ok (t_executions (db w1)) = true →
  t_executions (db w1) !! ids w1 (ids_issued w1) = None →
  t_audit (db w1) !! (ids w1 (S (ids_issued w1)), utc w1 (S (utc_reads w1))) = None →
  let '(r, w') := run_tool ex tool input rc name version h key w in
  r = Raise (if isinstance e DWError && negb (isinstance e InfrastructureError) then e
             else Exn InfrastructureError "tool execution failed") ∧
  t_executions (saved w') !! ids w1 (ids_issued w1) =
    Some (execution_row rc (ids w1 (ids_issued w1)) name version EX_failed h None None key
            (Some (class_name (exn_cls e))) n (utc w (utc_reads w)) (utc w1 (utc_reads w1))) ∧
  ∃ details, t_audit (saved w') !! (ids w1 (S (ids_issued w1)), utc w1 (S (utc_reads w1))) =
    Some (audit_event_of rc "tool.failed" (tool_definition tool) h "allow" details
            (ids w1 (S (ids_issued w1))) (utc w1 (S (utc_reads w1)))).
Proof.
  intros Hat Hc Hu Hex Hau. unfold run_tool. unfold bind at 1, now_utc at 1.
  unfold now_utc in Hat. cbn [snd] in Hat. unfold bind at 1. rewrite Hat.
  unfold bind at 1, now_utc at 1. unfold bind at 1, new_uuid at 1.
  cbn [db saved db_now utc utc_reads ids ids_issued effects]. unfold bind at 1.
  unfold record_execution at 1, session_begin at 1.
  set (row := execution_row _ _ _ _ _ _ _ _ _ _ _ _ _).
  set (w2 := MkWorld _ _ _ _ _ _ _ _).
  assert (unique_ok (<[te_id row := row]> (t_executions (db w1))) = true) as Hu'.
  { apply unique_ok_insert; [exact Hex|done|]. intros k' r' u _ Hr. unfold row in Hr. simpl in Hr.
    by destruct key. }
  rewrite (proj2 (sql_insert_ok (rc_tenant_id rc) row w2 tt
    (set_db (set_tbl (<[te_id row := row]> (t_executions (db w1))) (db w1)) w2)))
    by (split_and!; [done|exact Hex|exact Hu'|done]).
  set (w3 := set_saved _ _). unfold bind at 1.
  match goal with |- context [_audit rc "tool.failed"%py _ _ _ ?ds w3] => set (details := ds) end.
  assert (audit_free w3) as Hf by exact Hau.
  destruct (audit_run rc "tool.failed" (tool_definition tool) h "allow" details w3 Hf eq_refl)
    as (w4 & Ha & Hrow). rewrite Ha.
  destruct (frame_run _ _ _ _ (audit_frame _ _ _ _ _ _) Ha) as [_ Hfr].
  destruct (Hfr eq_refl) as [Hc4 Ht4]. unfold clean in Hc4.
  assert (t_executions (saved w4) !! te_id row = Some row) as Hl
    by (rewrite Hc4, Ht4; apply lookup_insert_eq).
  destruct (isinstance e DWError && negb (isinstance e InfrastructureError)); unfold reraise, raise;
    (split_and!; [done|exact Hl|exists details; exact Hrow]).
Qed.

(** ** A concrete instance: a mail tool whose first attempt fails *)

Definition example_tool : RegisteredTool :=
  {| tool_definition :=
       {| td_name := "mail.send"; td_version := "1.0.0"; td_description := "";
          td_input_schema_ref := ""; td_output_schema_ref := "";
          td_required_scopes := {[ "notes.read" ]}; td_side_effect_level := SE_external;
          td_approval_policy := AP_conditional; td_timeout_seconds := 5; td_max_retries := 2;
          td_idempotent := true; td_data_classification := ∅ |};
     input_model := Ok; output_model := Ok;
     handler i rc w :=
       let w' := add_effect ("mail.send"%py, i) w in
       match effects w with
       | [] => ((0%Z, Raise (Exn InfrastructureError "unreachable")), w')
       | _ => ((0%Z, Ok (JObj [("sent"%py, JBool true)])), w')
       end |}.

Definition example_executor : ToolExecutor :=
  {| registry := {[ ("mail.send"%py, "1.0.0"%py) := example_tool ]};
     policy_version := AUTONOMY_POLICY_VERSION;
     sleep d := modify (add_effect (sleep_entry d)); base_backoff := 200000;
     canonical_hash v := match v with JObj [(_, JStr s)] => s | _ => "" end;
     unicode_word _ := false |}.

Definition example_call (key : option pystr) (approved : bool) (to : pystr) :=
  _execute example_executor "mail.send" "1.0.0" (JObj [("to"%py, JStr to)])
    (example_run_context 10 7) key approved.

Definition example_before : World := example_world empty_db 1000.

Lemma example_resolves to :
  resolve_and_validate example_executor "mail.send" "1.0.0" (JObj [("to"%py, JStr to)])
    = Ok (example_tool, JObj [("to"%py, JStr to)]).
Proof. reflexivity. Defined.

Lemma refused_call_runs_nothing_witness :
  let '(r, w') := example_call (Some "k") false "an@example.com" example_before in
  (∃ e, r = Raise e ∧ exn_cls e = ApprovalRequiredError) ∧ effects w' = [].
Proof.
  pose proof (refused_call_runs_nothing example_executor "mail.send" "1.0.0" _
    (example_run_context 10 7) (Some "k") false example_tool _ example_before
    (example_resolves "an@example.com") eq_refl eq_refl) as H.
  unfold example_call. destruct (_execute _ _ _ _ _ _ _ _) as [r w'].
  destruct H as ((e & He & Hcls) & Heff & _). split; [|exact Heff].
  exists e. split; [exact He|]. rewrite Hcls; reflexivity.
Defined.

(** The world after the mail was sent, and the execution it recorded. *)
Definition example_sent : World := (example_call (Some "k") true "an@example.com" example_before).2.
Definition example_row : ToolExecutionRow :=
  default (execution_row (example_run_context 10 7) 0 "" "" EX_failed "" None None None None 0 0 0)
    (t_executions (db example_sent) !! 1000000%N).

(** The same, after the tool was called under another key. *)
Definition example_later : World := (example_call (Some "other") true "binh@example.com" example_sent).2.

Lemma key_executes_once_witness :
  ∃ out, (example_call (Some "k") true "an@example.com" example_before).1 = Ok out ∧
  t_executions (saved example_later) ≠ t_executions (saved example_sent) ∧
  let '(r, w3) := example_call (Some "k") true "an@example.com" example_later in
  (∀ out', r = Ok out' → out' = out) ∧ effects w3 = effects example_later.
Proof.
  assert (is_ok (example_call (Some "k") true "an@example.com" example_before).1 = true) as Hok
    by (vm_compute; reflexivity).
  destruct (example_call (Some "k") true "an@example.com" example_before).1 as [out|] eqn:E1;
    [clear Hok|discriminate Hok].
  assert (example_call (Some "k") true "an@example.com" example_before = (Ok out, example_sent)) as E.
  { unfold example_sent. rewrite <- E1. apply surjective_pairing. }
  exists out. split; [reflexivity|]. split.
  { intros H. apply (f_equal size) in H. vm_compute in H. discriminate H. }
  assert (unique_ok (t_executions (db example_before)) = true) as Hu by (vm_compute; reflexivity).
  pose proof (key_executes_once example_executor "mail.send" "1.0.0" _
    (example_run_context 10 7) "k" true example_tool _ example_before out example_sent
    (λ raw o H, eq_refl) (example_resolves "an@example.com") eq_refl eq_refl Hu E
    (handler example_tool) example_later) as H.
  replace (with_handler example_executor "mail.send" "1.0.0" (handler example_tool))
    with example_executor in H by (vm_compute; reflexivity).
  unfold example_call. destruct (_execute _ _ _ _ _ _ _ example_later) as [r w3].
  destruct H as (_ & Hout & Heff & _); [vm_compute; reflexivity| |vm_compute; reflexivity|split; [exact Hout|exact Heff]].
  assert (t_executions (saved example_sent) = {[ 1000000%N := example_row ]}) as -> by (vm_compute; reflexivity).
  apply map_singleton_subseteq_l. vm_compute. reflexivity.
Defined.

Lemma key_reused_conflicts_witness :
  (example_call (Some "k") true "binh@example.com" example_sent).1 =
    Raise (Exn IdempotencyConflictError "idempotency key reused with a different payload").
Proof.
  assert (t_executions (db example_sent) !! 1000000%N = Some example_row) as Hl.
  { unfold example_row. destruct (t_executions (db example_sent) !! 1000000%N) eqn:E; [reflexivity|].
    assert (negb (bool_decide (t_executions (db example_sent) !! 1000000%N = None)) = true) as H
      by (vm_compute; reflexivity). rewrite E in H. discriminate H. }
  destruct (succeeded_after example_executor "mail.send" "1.0.0" _ (example_run_context 10 7) "k" true
    example_tool _ example_before (JObj [("sent"%py, JBool true)]) example_sent
    (example_resolves "an@example.com") eq_refl) as (_ & Hu & Hc & _).
  { vm_compute. reflexivity. }
  { unfold example_sent. change (_execute example_executor "mail.send" "1.0.0" _ _ (Some "k"%py) true
      example_before) with (example_call (Some "k") true "an@example.com" example_before).
    apply pair_fst_eq. vm_compute. reflexivity. }
  unfold example_call.
  rewrite (key_reused_conflicts example_executor "mail.send" "1.0.0" _ (example_run_context 10 7) "k"
    true example_tool _ example_sent 1000000 example_row (example_resolves "binh@example.com")).
  - reflexivity.
  - reflexivity.
  - exact Hc.
  - exact Hu.
  - vm_compute. reflexivity.
  - exact Hl.
  - vm_compute. reflexivity.
  - vm_compute. reflexivity.
  - vm_compute. reflexivity.
  - vm_compute. reflexivity.
  - vm_compute. discriminate.
Defined.

Lemma example_logged : logged_handler example_tool ∧ logged_sleep example_executor.
Proof.
  split; [|intros d w; reflexivity]. intros i rc w. simpl. destruct (effects w) eqn:E; simpl;
    rewrite ?E; reflexivity.
Defined.

(** A failure, a wait of 200 ms, a success. *)
Lemma attempts_bounded_and_recorded_witness :
  let '(r, w') := example_call (Some "k") true "an@example.com" example_before in
  is_ok r = true ∧
  ∃ n, n ≤ 3 ∧ effects w' = [] ++ attempt_log example_executor example_tool
                                   (JObj [("to"%py, JStr "an@example.com")]) 0 n.
Proof.
  assert (is_ok (example_call (Some "k") true "an@example.com" example_before).1 = true) as Hok
    by (vm_compute; reflexivity).
  destruct example_logged as [Hh Hs].
  pose proof (attempts_bounded_and_recorded example_executor "mail.send" "1.0.0" _
    (example_run_context 10 7) (Some "k") true example_tool _ example_before
    (example_resolves "an@example.com") eq_refl Hh Hs) as H.
  unfold example_call in *. destruct (_execute _ _ _ _ _ _ _ _) as [r w'].
  destruct H as (n & Hn & _ & He & _). split; [exact Hok|]. exists n. split; [exact Hn|exact He].
Defined.

(** A tool whose only attempt raises an untyped error. *)
Definition example_broken : RegisteredTool :=
  {| tool_definition := tool_definition example_tool; input_model := Ok; output_model := Ok;
     handler i rc w := ((0%Z, Raise (Exn (OtherException "KeyError") "x")), w) |}.

Lemma failed_call_is_recorded_witness :
  (run_tool example_executor example_broken JNull (example_run_context 10 7) "mail.send" "1.0.0" ""
     None example_before).1 = Raise (Exn InfrastructureError "tool execution failed").
Proof.
  pose proof (failed_call_is_recorded example_executor example_broken JNull (example_run_context 10 7)
    "mail.send" "1.0.0" "" None example_before (now_utc example_before).2 1
    (Exn (OtherException "KeyError") "x") eq_refl eq_refl eq_refl eq_refl eq_refl) as H.
  destruct (run_tool _ _ _ _ _ _ _ _ _) as [r w']. destruct H as [Hr _]. exact Hr.
Defined.
