(* ===== verification/Idempotency.v ===== *)
(** * Idempotency keys of HTTP requests

    [dw_platform/application/idempotency.py], its store
    [adapters/persistence/idempotency_store.py] and the API dependency
    [dw_api/dependencies/idempotency.py].  Every operation of the store is a
    transaction of its own, so this component keeps the table
    [idempotency_keys] and the two clocks as its own state; requests interleave
    between the operations.  SHA-256 is a parameter. *)

From S2P Require Import Prelude Errors Kernel Domain.
Local Open Scope prog_scope.
Local Open Scope pystr_scope.

(** ** [application/idempotency.py] *)

Definition STALE_RESERVATION : timedelta := minutes 5.

Record RequestFingerprint := {
  rf_method : pystr;
  rf_path : pystr;
  rf_workspace_id : uuid;
  rf_body_hash : pystr }.

#[export] Instance RequestFingerprint_eq_dec : EqDecision RequestFingerprint.
Proof. solve_decision. Defined.

Definition fingerprint_of (sha256 : list N → pystr) (method path : pystr) (workspace : uuid)
    (body : list N) : RequestFingerprint :=
  {| rf_method := py_upper_ascii method; rf_path := path; rf_workspace_id := workspace;
     rf_body_hash := sha256 body |}.

Record StoredResponse := { sr_status_code : Z; sr_body : option (gmap pystr json) }.

Record ReservedKey := { rk_fingerprint : RequestFingerprint; rk_response : option StoredResponse }.

(** ** [adapters/persistence/idempotency_store.py] *)

(** A row of [idempotency_keys]; the primary key is the map's. *)
Record KeyRow := {
  ik_workspace_id : uuid;
  ik_request_method : pystr;
  ik_request_path : pystr;
  ik_body_hash : pystr;
  ik_response_status : option Z;
  ik_response_body : option (gmap pystr json);
  ik_created_at : datetime;
  ik_completed_at : option datetime }.

(** The table, [now()] of the database and [clock.now()] of the process. *)
Record KeyState := { keys : gmap (uuid * pystr) KeyRow; server_now : datetime; app_now : datetime }.

Definition set_keys (t : gmap (uuid * pystr) KeyRow) (s : KeyState) : KeyState :=
  {| keys := t; server_now := server_now s; app_now := app_now s |}.

Definition fingerprint_in (r : KeyRow) : RequestFingerprint :=
  {| rf_method := ik_request_method r; rf_path := ik_request_path r;
     rf_workspace_id := ik_workspace_id r; rf_body_hash := ik_body_hash r |}.

Definition stored_in (r : KeyRow) : option StoredResponse :=
  match ik_response_status r with
  | Some status => Some {| sr_status_code := status; sr_body := ik_response_body r |}
  | None => None
  end.

Definition reserved_row (fp : RequestFingerprint) (now : datetime) : KeyRow :=
  {| ik_workspace_id := rf_workspace_id fp; ik_request_method := rf_method fp;
     ik_request_path := rf_path fp; ik_body_hash := rf_body_hash fp; ik_response_status := None;
     ik_response_body := None; ik_created_at := now; ik_completed_at := None |}.

Definition restamp (now : datetime) (r : KeyRow) : KeyRow :=
  {| ik_workspace_id := ik_workspace_id r; ik_request_method := ik_request_method r;
     ik_request_path := ik_request_path r; ik_body_hash := ik_body_hash r;
     ik_response_status := ik_response_status r; ik_response_body := ik_response_body r;
     ik_created_at := now; ik_completed_at := ik_completed_at r |}.

Definition completed_row (response : StoredResponse) (now : datetime) (r : KeyRow) : KeyRow :=
  {| ik_workspace_id := ik_workspace_id r; ik_request_method := ik_request_method r;
     ik_request_path := ik_request_path r; ik_body_hash := ik_body_hash r;
     ik_response_status := Some (sr_status_code response);
     ik_response_body := sr_body response; ik_created_at := ik_created_at r;
     ik_completed_at := Some now |}.

Definition in_flight (r : KeyRow) : bool := bool_decide (ik_completed_at r = None).

Section Store.
Context (tenant : uuid) (key : pystr).

(** [INSERT ... ON CONFLICT DO NOTHING RETURNING], then the row that is there. *)
Definition reserve (fp : RequestFingerprint) : M KeyState (option ReservedKey) :=
  let! s := get_state in
  match keys s !! (tenant, key) with
  | None =>
      modify (set_keys (<[(tenant, key) := reserved_row fp (server_now s)]> (keys s))) ;;;
      ret None
  | Some row => ret (Some {| rk_fingerprint := fingerprint_in row; rk_response := stored_in row |})
  end.

Definition take_over (older_than : datetime) : M KeyState bool :=
  let! s := get_state in
  match keys s !! (tenant, key) with
  | Some row =>
      if in_flight row && (ik_created_at row <=? older_than)%Z
      then modify (set_keys (<[(tenant, key) := restamp (server_now s) row]> (keys s))) ;;; ret true
      else ret false
  | None => ret false
  end.

Definition store_complete (response : StoredResponse) : M KeyState unit :=
  let! s := get_state in
  match keys s !! (tenant, key) with
  | Some row =>
      when in_flight row then
        modify (set_keys (<[(tenant, key) := completed_row response (server_now s) row]> (keys s)))
  | None => ret tt
  end.

Definition release : M KeyState unit :=
  let! s := get_state in
  match keys s !! (tenant, key) with
  | Some row => when in_flight row then modify (set_keys (delete (tenant, key) (keys s)))
  | None => ret tt
  end.

(** ** [HttpIdempotency.claim] *)

(** What is decided from the row that was there, before any take-over. *)
Inductive verdict := Conflict | Replay (r : StoredResponse) | InProgress.

Definition judge (existing : ReservedKey) (fp : RequestFingerprint) : verdict :=
  if bool_decide (rk_fingerprint existing = fp)
  then match rk_response existing with Some r => Replay r | None => InProgress end
  else Conflict.

Definition claim (fp : RequestFingerprint) : M KeyState (option StoredResponse) :=
  let! existing := reserve fp in
  match existing with
  | None => ret None
  | Some existing =>
      match judge existing fp with
      | Conflict =>
          raise IdempotencyConflictError "idempotency key already used for a different request"
      | Replay response => ret (Some response)
      | InProgress =>
          let! now := gets app_now in
          let! won := take_over (now - STALE_RESERVATION)%Z in
          if won : bool then ret None
          else raise ConflictError "a request with this idempotency key is still in progress"
      end
  end.
End Store.

(** ** [dw_api/dependencies/idempotency.py] *)

Definition MAX_KEY_LENGTH : nat := 255.

(** [_key] *)
Definition header_key (idempotency_key : option pystr) : res (option pystr) :=
  let key := py_strip (default "" idempotency_key) in
  if MAX_KEY_LENGTH <? py_len key
  then Raise (Exn DomainError "Idempotency-Key must be at most 255 characters")
  else Ok (if py_truthy key then Some key else None).

(** [_target] *)
Definition target (path query : pystr) : pystr :=
  if py_truthy query then path +++ "?" +++ query else path.

(** [IdempotentOperation]: what the request holds, next to the store.  [op_key]
    is [None] for the inert form: no header, or no database. *)
Record Operation := { op_tenant : uuid; op_key : option pystr; op_claimed : bool; op_recorded : bool }.

Definition OpState : Type := KeyState * Operation.

Definition on_store {A} (m : M KeyState A) : M OpState A := λ s,
  let '(r, st) := m s.1 in (r, (st, s.2)).

Definition set_claimed (o : Operation) : Operation :=
  {| op_tenant := op_tenant o; op_key := op_key o; op_claimed := true;
     op_recorded := op_recorded o |}.
Definition set_recorded (o : Operation) : Operation :=
  {| op_tenant := op_tenant o; op_key := op_key o; op_claimed := op_claimed o;
     op_recorded := true |}.

(** [claim]: a stored response leaves as [ReplayedResponse], past the handler. *)
Definition operation_claim (fp : RequestFingerprint) : M OpState (option StoredResponse) :=
  let! s := get_state in
  match op_key s.2 with
  | None => ret None
  | Some key =>
      let! stored := on_store (claim (op_tenant s.2) key fp) in
      match stored with
      | Some response => ret (Some response)
      | None => modify (λ s, (s.1, set_claimed s.2)) ;;; ret None
      end
  end.

(** [_store], behind [record] and [record_no_content]. *)
Definition operation_store (response : StoredResponse) : M OpState unit :=
  let! s := get_state in
  if op_claimed s.2 then
    match op_key s.2 with
    | None => raise AssertionError ""
    | Some key =>
        on_store (store_complete (op_tenant s.2) key response) ;;;
        modify (λ s, (s.1, set_recorded s.2))
    end
  else ret tt.

Definition record {A} (model_dump : A → gmap pystr json) (result : A) (status_code : Z)
    : M OpState A :=
  operation_store {| sr_status_code := status_code; sr_body := Some (model_dump result) |} ;;;
  ret result.

Definition record_no_content : M OpState unit :=
  operation_store {| sr_status_code := 204; sr_body := None |}.

Definition abandon_unless_recorded : M OpState unit :=
  let! s := get_state in
  if negb (op_claimed s.2) || op_recorded s.2 then ret tt
  else match op_key s.2 with
       | None => raise AssertionError ""
       | Some key => on_store (release (op_tenant s.2) key)
       end.

(** What a request is answered with. *)
Inductive answer (A : Type) := Replayed (r : StoredResponse) | Handled (a : A).
Arguments Replayed {A} r.
Arguments Handled {A} a.

(** [finally]: the cleanup runs however the handler ends; its exception wins. *)
Definition finally {S A} (m : M S A) (f : M S unit) : M S A := λ s,
  let '(r, s1) := m s in
  match f s1 with
  | (Ok _, s2) => (r, s2)
  | (Raise e, s2) => (Raise e, s2)
  end.

(** A request through [get_idempotent_operation]: [handler] is the route, with
    the operation at hand. *)
Section Request.
Context {A : Type} (sha256 : list N → pystr) (has_store : bool) (tenant workspace : uuid).

Record HttpRequest := {
  rq_method : pystr;
  rq_path : pystr;
  rq_query : pystr;
  rq_body : list N;
  rq_header : option pystr }.

Definition request_fingerprint (rq : HttpRequest) : RequestFingerprint :=
  fingerprint_of sha256 (rq_method rq) (target (rq_path rq) (rq_query rq)) workspace (rq_body rq).

Definition get_idempotent_operation (rq : HttpRequest) (handler : M OpState A)
    : M KeyState (answer A) := λ s,
  match header_key (rq_header rq) with
  | Raise e => (Raise e, s)
  | Ok key =>
      let op := {| op_tenant := tenant; op_key := if has_store then key else None;
                   op_claimed := false; op_recorded := false |} in
      let '(r, s') :=
        (let! replayed := operation_claim (request_fingerprint rq) in
         match replayed with
         | Some response => ret (Replayed response)
         | None => let! a := finally handler abandon_unless_recorded in ret (Handled a)
         end) (s, op) in
      (r, s'.1)
  end.
End Request.

(** ** Specification: the requests of a key *)

(** Where a request stands; [Live since]: its handler runs, on a reservation
    made or taken over at [since]. *)
Inductive phase := Waiting | Live (since : datetime) | Done (response : StoredResponse) | Gone.

Record System := { table : KeyState; phases : gmap nat phase }.

(** The requests of an execution: which key each spends, and on what. *)
Section Execution.
Context (key_of : nat → uuid * pystr) (print_of : nat → RequestFingerprint).

Definition put_phase (rid : nat) (p : phase) (s : KeyState) (y : System) : System :=
  {| table := s; phases := <[rid := p]> (phases y) |}.

Definition after_reserve (rid : nat) (existing : option ReservedKey) (now : datetime) : phase :=
  match existing with
  | None => Live now
  | Some existing =>
      match judge existing (print_of rid) with InProgress => Waiting | _ => Gone end
  end.

(** One transaction of one request, a crash, or time: while time passes no
    handler runs for [STALE_RESERVATION] or longer, and the process's clock is
    not ahead of the database's. *)
Inductive sys_step (y : System) : System → Prop :=
  | sys_reserve rid existing s :
      phases y !! rid = None →
      reserve (key_of rid).1 (key_of rid).2 (print_of rid) (table y) = (Ok existing, s) →
      sys_step y (put_phase rid (after_reserve rid existing (server_now (table y))) s y)
  | sys_take_over rid (won : bool) s :
      phases y !! rid = Some Waiting →
      take_over (key_of rid).1 (key_of rid).2 (app_now (table y) - STALE_RESERVATION)%Z (table y)
        = (Ok won, s) →
      sys_step y (put_phase rid (if won then Live (server_now (table y)) else Gone) s y)
  | sys_complete rid since response s :
      phases y !! rid = Some (Live since) →
      store_complete (key_of rid).1 (key_of rid).2 response (table y) = (Ok tt, s) →
      sys_step y (put_phase rid (Done response) s y)
  | sys_release rid since s :
      phases y !! rid = Some (Live since) →
      release (key_of rid).1 (key_of rid).2 (table y) = (Ok tt, s) →
      sys_step y (put_phase rid Gone s y)
  | sys_crash rid since :
      phases y !! rid = Some (Live since) →
      sys_step y (put_phase rid Gone (table y) y)
  | sys_time server app :
      (server_now (table y) <= server)%Z → (app <= server)%Z →
      (∀ rid since, phases y !! rid = Some (Live since) → (server < since + STALE_RESERVATION)%Z) →
      sys_step y {| table := {| keys := keys (table y); server_now := server; app_now := app |};
                    phases := phases y |}.

Definition sys_start (now : datetime) : System :=
  {| table := {| keys := ∅; server_now := now; app_now := now |}; phases := ∅ |}.

Record sys_inv (y : System) : Prop := {
  si_clock : (app_now (table y) <= server_now (table y))%Z;
  si_live : ∀ rid since, phases y !! rid = Some (Live since) →
    (server_now (table y) < since + STALE_RESERVATION)%Z ∧
    ∃ row, keys (table y) !! key_of rid = Some row ∧ in_flight row = true ∧
           ik_created_at row = since;
  si_done : ∀ rid response, phases y !! rid = Some (Done response) →
    ∃ row, keys (table y) !! key_of rid = Some row ∧ in_flight row = false ∧
           stored_in row = Some response;
  si_one_live : ∀ r1 r2 s1 s2, phases y !! r1 = Some (Live s1) → phases y !! r2 = Some (Live s2) →
    key_of r1 = key_of r2 → r1 = r2;
  si_one_done : ∀ r1 r2 d1 d2, phases y !! r1 = Some (Done d1) → phases y !! r2 = Some (Done d2) →
    key_of r1 = key_of r2 → r1 = r2 }.

(** ** Lemmas *)

Lemma stale_positive : (0 < STALE_RESERVATION)%Z.
Proof. done. Qed.

Lemma stored_completed response now r : stored_in (completed_row response now r) = Some response.
Proof. by destruct response. Qed.
End Execution.

(** What each operation does to its key. *)
Section StoreLemmas.
Context (tenant : uuid) (key : pystr) (s : KeyState).

Lemma reserve_run fp :
  reserve tenant key fp s =
    match keys s !! (tenant, key) with
    | None => (Ok None, set_keys (<[(tenant, key) := reserved_row fp (server_now s)]> (keys s)) s)
    | Some row => (Ok (Some {| rk_fingerprint := fingerprint_in row; rk_response := stored_in row |}), s)
    end.
Proof. unfold reserve. run. by destruct (_ !! _). Qed.

Lemma take_over_run older_than :
  take_over tenant key older_than s =
    match keys s !! (tenant, key) with
    | Some row =>
        if in_flight row && (ik_created_at row <=? older_than)%Z
        then (Ok true, set_keys (<[(tenant, key) := restamp (server_now s) row]> (keys s)) s)
        else (Ok false, s)
    | None => (Ok false, s)
    end.
Proof. unfold take_over. run. destruct (_ !! _); [|done]. by destruct (_ && _). Qed.

Lemma store_complete_run response :
  store_complete tenant key response s =
    (Ok tt, match keys s !! (tenant, key) with
            | Some row => if in_flight row
                then set_keys (<[(tenant, key) := completed_row response (server_now s) row]> (keys s)) s
                else s
            | None => s
            end).
Proof. unfold store_complete. run. destruct (_ !! _); [|done]. by destruct (in_flight _). Qed.

Lemma release_run :
  release tenant key s =
    (Ok tt, match keys s !! (tenant, key) with
            | Some row => if in_flight row then set_keys (delete (tenant, key) (keys s)) s else s
            | None => s
            end).
Proof. unfold release. run. destruct (_ !! _); [|done]. by destruct (in_flight _). Qed.

Lemma fingerprint_reserved fp now : fingerprint_in (reserved_row fp now) = fp.
Proof. by destruct fp. Qed.

(** A claim, by what the key stands for. *)
Lemma claim_run fp :
  claim tenant key fp s =
    match keys s !! (tenant, key) with
    | None => (Ok None, set_keys (<[(tenant, key) := reserved_row fp (server_now s)]> (keys s)) s)
    | Some row =>
        if bool_decide (fingerprint_in row = fp) then
          match stored_in row with
          | Some response => (Ok (Some response), s)
          | None =>
              if in_flight row && (ik_created_at row <=? app_now s - STALE_RESERVATION)%Z
              then (Ok None, set_keys (<[(tenant, key) := restamp (server_now s) row]> (keys s)) s)
              else (Raise (Exn ConflictError "a request with this idempotency key is still in progress"), s)
          end
        else (Raise (Exn IdempotencyConflictError
                "idempotency key already used for a different request"), s)
    end.
Proof.
  unfold claim, bind at 1. rewrite reserve_run. destruct (keys s !! _) as [row|] eqn:E; [|done].
  unfold judge. simpl. destruct (bool_decide _); [|done]. destruct (stored_in row); [done|].
  unfold bind, gets. rewrite take_over_run, E. by destruct (_ && _).
Qed.
End StoreLemmas.

Section Invariant.
Context (key_of : nat → uuid * pystr) (print_of : nat → RequestFingerprint).
Let inv := sys_inv key_of.

Definition phase_holds (rid : nat) (p : phase) (s : KeyState) : Prop :=
  match p with
  | Live since => since = server_now s ∧ ∃ row, keys s !! key_of rid = Some row ∧
                  in_flight row = true ∧ ik_created_at row = since
  | Done response => ∃ row, keys s !! key_of rid = Some row ∧ in_flight row = false ∧
                     stored_in row = Some response
  | _ => True
  end.

(** A request moves on: the other requests of its key are not disturbed. *)
Lemma put_phase_inv y rid p s :
  inv y → server_now s = server_now (table y) → app_now s = app_now (table y) →
  (∀ k, k ≠ key_of rid → keys s !! k = keys (table y) !! k) →
  (∀ r since, r ≠ rid → key_of r = key_of rid → phases y !! r = Some (Live since) →
     (∀ t, p ≠ Live t) ∧ keys s !! key_of rid = keys (table y) !! key_of rid) →
  (∀ r d, r ≠ rid → key_of r = key_of rid → phases y !! r = Some (Done d) →
     (∀ d', p ≠ Done d') ∧ keys s !! key_of rid = keys (table y) !! key_of rid) →
  phase_holds rid p s → inv (put_phase rid p s y).
Proof.
  intros [Hc Hl Hd H1 H2] Hs Ha Hk HL HD Hp.
  assert (∀ r, r ≠ rid → (∃ since, phases y !! r = Some (Live since)) ∨
            (∃ d, phases y !! r = Some (Done d)) →
          keys s !! key_of r = keys (table y) !! key_of r) as Hsame.
  { intros r Hne Hr. destruct (decide (key_of r = key_of rid)) as [E|E]; [|by apply Hk].
    rewrite E. destruct Hr as [[t Ht]|[t Ht]]; [by apply (HL r t)|by apply (HD r t)]. }
  split; simpl; rewrite ?Hs, ?Ha; [done|..].
  - intros r since [[<- ->]|[Hne Hr]]%lookup_insert_Some.
    + destruct Hp as [-> Hrow]. split; [pose proof stale_positive; rewrite Hs; lia|done].
    + rewrite Hsame by eauto. by apply Hl.
  - intros r d [[<- ->]|[Hne Hr]]%lookup_insert_Some; [done|]. rewrite Hsame by eauto. by apply Hd.
  - intros r1 r2 s1 s2 [[<- ->]|[Hn1 Hr1]]%lookup_insert_Some [[<- E2]|[Hn2 Hr2]]%lookup_insert_Some E;
      [done| | |by apply (H1 _ _ s1 s2)].
    + by destruct (HL r2 s2 (not_eq_sym Hn2) (eq_sym E) Hr2) as [[]%(λ H, H s1 eq_refl) _].
    + by destruct (HL r1 s1 (not_eq_sym Hn1) E Hr1) as [[]%(λ H, H s2 E2) _].
  - intros r1 r2 s1 s2 [[<- ->]|[Hn1 Hr1]]%lookup_insert_Some [[<- E2]|[Hn2 Hr2]]%lookup_insert_Some E;
      [done| | |by apply (H2 _ _ s1 s2)].
    + by destruct (HD r2 s2 (not_eq_sym Hn2) (eq_sym E) Hr2) as [[]%(λ H, H s1 eq_refl) _].
    + by destruct (HD r1 s1 (not_eq_sym Hn1) E Hr1) as [[]%(λ H, H s2 E2) _].
Qed.

Lemma sys_step_inv y y' : inv y → sys_step key_of print_of y y' → inv y'.
Proof.
  intros Hi Hs. pose proof Hi as [Hc Hl Hd H1 H2].
  assert (∀ rid, ((key_of rid).1, (key_of rid).2) = key_of rid) as Hpair by (intros; by destruct (key_of _)).
  destruct Hs as [rid existing s Hr H|rid won s Hr H|rid since response s Hr H|rid since s Hr H
                 |rid since Hr|server app Hle Ha Hlive].
  - rewrite reserve_run, Hpair in H. destruct (keys (table y) !! key_of rid) as [row|] eqn:E.
    + injection H as <- <-. apply put_phase_inv; try done.
      * intros r t _ _ _. split; [|done]. intros t'. simpl. unfold judge. simpl.
        destruct (bool_decide _), (stored_in row); done.
      * intros r t _ _ _. split; [|done]. intros t'. simpl. unfold judge. simpl.
        destruct (bool_decide _), (stored_in row); done.
      * simpl. unfold judge. simpl. by destruct (bool_decide _), (stored_in row).
    + injection H as <- <-. apply put_phase_inv; try done.
      * intros k Hk. simpl. by rewrite lookup_insert_ne.
      * intros r t _ Hk Ht. destruct (Hl r t Ht) as (_ & row & Hrow & _). congruence.
      * intros r t _ Hk Ht. destruct (Hd r t Ht) as (row & Hrow & _). congruence.
      * split; [done|]. eexists. simpl. by rewrite lookup_insert_eq.
  - rewrite take_over_run, Hpair in H. destruct (keys (table y) !! key_of rid) as [row|] eqn:E.
    2: { injection H as <- <-. by apply put_phase_inv. }
    destruct (in_flight row && _) eqn:Et; [|injection H as <- <-; by apply put_phase_inv].
    injection H as <- <-. apply andb_true_iff in Et as [Hfl Hold%Z.leb_le]. apply put_phase_inv; try done.
    + intros k Hk. simpl. by rewrite lookup_insert_ne.
    + intros r t _ Hk Ht. destruct (Hl r t Ht) as (Hlt & row' & Hrow & _ & Hat). rewrite Hk, E in Hrow.
      injection Hrow as ->. lia.
    + intros r t _ Hk Ht. destruct (Hd r t Ht) as (row' & Hrow & Hnf & _). rewrite Hk, E in Hrow.
      congruence.
    + split; [done|]. eexists. simpl. by rewrite lookup_insert_eq.
  - rewrite store_complete_run, Hpair in H. destruct (Hl rid since Hr) as (_ & row & Hrow & Hfl & Hat).
    rewrite Hrow, Hfl in H. injection H as <-. apply put_phase_inv; try done.
    + intros k Hk. simpl. by rewrite lookup_insert_ne.
    + intros r t Hne Hk Ht. by destruct (Hne (H1 _ _ _ _ Ht Hr Hk)).
    + intros r t _ Hk Ht. destruct (Hd r t Ht) as (row' & Hrow' & Hnf & _). congruence.
    + eexists. simpl. rewrite lookup_insert_eq. split; [done|]. split; [done|apply stored_completed].
  - rewrite release_run, Hpair in H. destruct (Hl rid since Hr) as (_ & row & Hrow & Hfl & Hat).
    rewrite Hrow, Hfl in H. injection H as <-. apply put_phase_inv; try done.
    + intros k Hk. simpl. by rewrite lookup_delete_ne.
    + intros r t Hne Hk Ht. by destruct (Hne (H1 _ _ _ _ Ht Hr Hk)).
    + intros r t _ Hk Ht. destruct (Hd r t Ht) as (row' & Hrow' & Hnf & _). congruence.
  - by apply put_phase_inv.
  - split; simpl; try done. intros r t Ht. split; [by apply (Hlive r)|]. by apply Hl.
Qed.

Lemma sys_start_inv now : inv (sys_start now).
Proof. by split. Qed.

Lemma sys_reachable_inv y y' : rtc (sys_step key_of print_of) y y' → inv y → inv y'.
Proof. induction 1; eauto using sys_step_inv. Qed.

(** C16: while every handler takes less than the staleness limit and the process's clock is
    not ahead of the database's, at most one request runs its handler on a key at any
    time and at most one ever records an answer, however requests, crashes, releases and
    take-overs interleave. *)
Theorem one_handler_per_key now y :
  rtc (sys_step key_of print_of) (sys_start now) y →
  (∀ r1 r2 t1 t2, phases y !! r1 = Some (Live t1) → phases y !! r2 = Some (Live t2) →
     key_of r1 = key_of r2 → r1 = r2) ∧
  (∀ r1 r2 d1 d2, phases y !! r1 = Some (Done d1) → phases y !! r2 = Some (Done d2) →
     key_of r1 = key_of r2 → r1 = r2) ∧
  (∀ r1 r2 d t, phases y !! r1 = Some (Done d) → key_of r1 = key_of r2 →
     phases y !! r2 ≠ Some (Live t)).
Proof.
  intros Hs. destruct (sys_reachable_inv _ _ Hs (sys_start_inv now)) as [_ Hl Hd H1 H2].
  split; [exact H1|]. split; [exact H2|]. intros r1 r2 d t Hr1 Hk Hr2.
  destruct (Hl _ _ Hr2) as (_ & row & Hrow & Hf & _). destruct (Hd _ _ Hr1) as (row' & Hrow' & Hf' & _).
  congruence.
Qed.
End Invariant.

(** ** A stored response is final *)

(** Any operation of the store by anyone, or any movement of the clocks. *)
Inductive key_step (s : KeyState) : KeyState → Prop :=
  | ks_reserve t k fp : key_step s (reserve t k fp s).2
  | ks_take_over t k older : key_step s (take_over t k older s).2
  | ks_complete t k response : key_step s (store_complete t k response s).2
  | ks_release t k : key_step s (release t k s).2
  | ks_time server app :
      key_step s {| keys := keys s; server_now := server; app_now := app |}.

Lemma key_step_keeps s s' k row :
  key_step s s' → keys s !! k = Some row → in_flight row = false → keys s' !! k = Some row.
Proof.
  intros Hs Hk Hf. destruct Hs as [t k' fp|t k' older|t k' response|t k'|server app].
  - rewrite reserve_run. destruct (keys s !! (t, k')) eqn:E; simpl; [done|].
    by rewrite lookup_insert_ne by congruence.
  - rewrite take_over_run. destruct (keys s !! (t, k')) as [r|] eqn:E; simpl; [|done].
    destruct (in_flight r && _) eqn:Eb; simpl; [|done]. apply andb_true_iff in Eb as [? _].
    rewrite lookup_insert_ne; congruence.
  - rewrite store_complete_run. destruct (keys s !! (t, k')) as [r|] eqn:E; simpl; [|done].
    destruct (in_flight r) eqn:Eb; simpl; [|done]. rewrite lookup_insert_ne; congruence.
  - rewrite release_run. destruct (keys s !! (t, k')) as [r|] eqn:E; simpl; [|done].
    destruct (in_flight r) eqn:Eb; simpl; [|done]. rewrite lookup_delete_ne; congruence.
  - done.
Qed.

Lemma key_steps_keep s s' k row :
  rtc key_step s s' → keys s !! k = Some row → in_flight row = false → keys s' !! k = Some row.
Proof. induction 1; eauto using key_step_keeps. Qed.

Lemma completed_claim tenant key response now row s2 fp :
  keys s2 !! (tenant, key) = Some (completed_row response now row) →
  claim tenant key fp s2 =
    (if bool_decide (fingerprint_in row = fp) then Ok (Some response)
     else Raise (Exn IdempotencyConflictError
            "idempotency key already used for a different request"), s2).
Proof.
  intros Hk. rewrite claim_run, Hk, stored_completed.
  change (fingerprint_in (completed_row _ _ row)) with (fingerprint_in row).
  by destruct (bool_decide _).
Qed.

(** Once a response is stored for a key, in every later state, whatever any caller does to
    the store, a claim with the same fingerprint is answered with exactly that response
    and one with another fingerprint is refused as a conflict, and neither writes. *)
Theorem completed_key_replays tenant key response s row s1 s2 fp :
  keys s !! (tenant, key) = Some row → in_flight row = true →
  store_complete tenant key response s = (Ok tt, s1) →
  rtc key_step s1 s2 →
  claim tenant key fp s2 =
    (if bool_decide (fingerprint_in row = fp) then Ok (Some response)
     else Raise (Exn IdempotencyConflictError
            "idempotency key already used for a different request"), s2).
Proof.
  intros Hrow Hf Hc Hs. rewrite store_complete_run, Hrow, Hf in Hc. injection Hc as <-.
  apply (completed_claim _ _ _ (server_now s)).
  eapply key_steps_keep; [exact Hs| |done]. simpl. by rewrite lookup_insert_eq.
Qed.

(** ** Requests *)

Section Requests.
Context {A : Type} (sha256 : list N → pystr) (tenant workspace : uuid) (rq : HttpRequest).
Context (key : pystr) (Hkey : header_key (rq_header rq) = Ok (Some key)).

(** The handler leaves the keys of other requests, its own and the clocks alone;
    its writes go through [record]. *)
Let fp := request_fingerprint sha256 workspace rq.
Let mine := {| op_tenant := tenant; op_key := Some key; op_claimed := true; op_recorded := false |}.

(** What the request does when it owns the key, from the state [s]. *)
Lemma request_owned (handler : M OpState A) s s1 :
  claim tenant key fp s = (Ok None, s1) →
  get_idempotent_operation sha256 true tenant workspace rq handler s =
    (let '(r, s2) := finally handler abandon_unless_recorded (s1, mine) in
     (match r with Ok a => Ok (Handled a) | Raise e => Raise e end, s2.1)).
Proof.
  intros Hc. unfold get_idempotent_operation. rewrite Hkey. unfold operation_claim, on_store.
  run. unfold fp in Hc. rewrite Hc. unfold set_claimed, mine. simpl.
  by destruct (finally _ _ _) as [[a|e] s2].
Qed.

Lemma request_replayed (handler : M OpState A) s s1 response :
  claim tenant key fp s = (Ok (Some response), s1) →
  get_idempotent_operation sha256 true tenant workspace rq handler s = (Ok (Replayed response), s1).
Proof.
  intros Hc. unfold get_idempotent_operation. rewrite Hkey. unfold operation_claim, on_store.
  run. unfold fp in Hc. by rewrite Hc.
Qed.

Lemma request_refused (handler : M OpState A) s s1 e :
  claim tenant key fp s = (Raise e, s1) →
  get_idempotent_operation sha256 true tenant workspace rq handler s = (Raise e, s1).
Proof.
  intros Hc. unfold get_idempotent_operation. rewrite Hkey. unfold operation_claim, on_store.
  run. unfold fp in Hc. by rewrite Hc.
Qed.
End Requests.

#[local] Arguments store_complete : simpl never.
#[local] Arguments release : simpl never.

(** A request under a fresh key runs its handler; when the handler records its answer, every
    later identical request is answered with that status and body without running any
    handler, and when the handler fails its error passes through and the key is as it
    was. *)
Theorem request_acts_once {A} sha256 tenant workspace rq key (model_dump : A → gmap pystr json)
    status (work : M KeyState A) s :
  let fp := request_fingerprint sha256 workspace rq in
  let send (h : M OpState A) := get_idempotent_operation sha256 true tenant workspace rq h in
  let handler := (let! x := on_store work in record model_dump x status)%prog in
  let response a := {| sr_status_code := status; sr_body := Some (model_dump a) |} in
  header_key (rq_header rq) = Ok (Some key) →
  keys s !! (tenant, key) = None →
  (∀ st, keys (work st).2 = keys st) →
  ∃ s2,
    match (work (reserve tenant key fp s).2).1 with
    | Ok a =>
        send handler s = (Ok (Handled a), s2) ∧
        ∀ s3, rtc key_step s2 s3 → ∀ h', send h' s3 = (Ok (Replayed (response a)), s3)
    | Raise e => send handler s = (Raise e, s2) ∧ keys s2 = keys s
    end.
Proof.
  intros fp send handler response Hkey Hfree Hwork.
  rewrite reserve_run, Hfree. cbn [snd]. set (s1 := set_keys _ s).
  assert (claim tenant key fp s = (Ok None, s1)) as Hclaim by (by rewrite claim_run, Hfree).
  pose proof (request_owned sha256 tenant workspace rq key Hkey handler s s1 Hclaim) as Hown.
  pose proof (Hwork s1) as Hk. unfold send. rewrite Hown. clear Hown.
  unfold finally, handler, record, operation_store, abandon_unless_recorded, on_store.
  assert (keys s1 !! (tenant, key) = Some (reserved_row fp (server_now s))) as Hs1
    by (unfold s1; simpl; by rewrite lookup_insert_eq).
  unfold bind, get_state, modify, ret. cbn [fst snd].
  destruct (work s1) as [[a|e] w] eqn:Ew; cbn [fst snd] in *; cbn.
  - rewrite store_complete_run, Hk, Hs1. eexists. split; [reflexivity|]. cbn [fst snd].
    intros s3 Hs h'.
    eapply request_replayed; [exact Hkey|].
    rewrite (completed_claim _ _ (response a) (server_now w) (reserved_row fp (server_now s))).
    + by rewrite fingerprint_reserved, bool_decide_eq_true_2.
    + eapply key_steps_keep; [exact Hs| |done]. simpl. by rewrite lookup_insert_eq.
  - rewrite release_run, Hk, Hs1. eexists. split; [reflexivity|]. cbn.
    unfold s1. simpl. by rewrite delete_insert_id.
Qed.

(** A request that outlives its reservation and then fails deletes the row of the request
    that took it over, so that a third identical request owns the key and runs its
    handler while the second still runs. *)
Lemma overtaken_release_frees_key tenant key fp s s1 s2 row :
  (** the reservation of a first request, older than the limit *)
  keys s !! (tenant, key) = Some row → fingerprint_in row = fp → stored_in row = None →
  in_flight row = true → (ik_created_at row <= app_now s - STALE_RESERVATION)%Z →
  (** a second request takes it over, and the first fails *)
  claim tenant key fp s = (Ok None, s1) → release tenant key s1 = (Ok tt, s2) →
  (** a third one owns it too *)
  ∃ s3, claim tenant key fp s2 = (Ok None, s3).
Proof.
  intros Hrow Hfp Hst Hfl Hold Hc Hr.
  rewrite claim_run, Hrow, bool_decide_eq_true_2, Hst, Hfl in Hc by done.
  rewrite (proj2 (Z.leb_le _ _) Hold) in Hc. injection Hc as <-.
  rewrite release_run in Hr. simpl in Hr. rewrite lookup_insert_eq in Hr.
  replace (in_flight (restamp (server_now s) row)) with true in Hr by done.
  injection Hr as <-. rewrite claim_run. simpl. rewrite lookup_delete_eq. eauto.
Qed.

(** ** A concrete instance *)

Definition example_fingerprint : RequestFingerprint :=
  {| rf_method := "POST"; rf_path := "/approvals"; rf_workspace_id := 2; rf_body_hash := "h" |}.

Definition example_keys : KeyState := {| keys := ∅; server_now := 1000; app_now := 1000 |}.

Definition example_http : HttpRequest :=
  {| rq_method := "post"; rq_path := "/approvals"; rq_query := ""; rq_body := [];
     rq_header := Some " k "%py |}.

Definition example_reserved : KeyState := (reserve 1 "k" example_fingerprint example_keys).2.

Definition example_overtime : KeyState :=
  {| keys := keys example_reserved; server_now := 1000 + STALE_RESERVATION;
     app_now := 1000 + STALE_RESERVATION |}.

Lemma overtaken_release_frees_key_witness :
  let s1 := (claim 1 "k" example_fingerprint example_overtime).2 in
  let s2 := (release 1 "k" s1).2 in
  (claim 1 "k" example_fingerprint example_overtime).1 = Ok None ∧
  ∃ s3, claim 1 "k" example_fingerprint s2 = (Ok None, s3).
Proof.
  intros s1 s2. split; [vm_compute; reflexivity|].
  apply (overtaken_release_frees_key 1 "k" example_fingerprint example_overtime s1 s2
    (reserved_row example_fingerprint 1000)); vm_compute; try reflexivity. discriminate.
Defined.

Lemma one_handler_per_key_witness :
  let key_of (r : nat) := (1%N, "k"%py) in
  let y := put_phase 1 Waiting example_reserved
             (put_phase 0 (Live 1000) example_reserved (sys_start 1000)) in
  phases y !! 0 = Some (Live 1000) ∧ ∀ t, phases y !! 1 ≠ Some (Live t).
Proof.
  intros key_of y. split; [reflexivity|]. intros t Ht.
  destruct (one_handler_per_key key_of (λ _, example_fingerprint) 1000 y) as [H _].
  - eapply rtc_l; [|eapply rtc_l; [|apply rtc_refl]].
    + by apply (sys_reserve key_of (λ _, example_fingerprint) (sys_start 1000) 0 None example_reserved).
    + by apply (sys_reserve key_of (λ _, example_fingerprint)
        (put_phase 0 (Live 1000) example_reserved (sys_start 1000)) 1
        (Some {| rk_fingerprint := example_fingerprint; rk_response := None |}) example_reserved).
  - discriminate (H 0%nat 1%nat 1000%Z t eq_refl Ht eq_refl).
Defined.

Lemma completed_key_replays_witness :
  let answer := {| sr_status_code := 204; sr_body := None |} in
  let s1 := (store_complete 1 "k" answer example_reserved).2 in
  (claim 1 "k" example_fingerprint (release 1 "k" s1).2).1 = Ok (Some answer).
Proof.
  intros answer s1.
  rewrite (completed_key_replays 1 "k" answer example_reserved
    (reserved_row example_fingerprint 1000) s1 (release 1 "k" s1).2 example_fingerprint);
    [reflexivity..|apply rtc_once, ks_release].
Defined.

Lemma request_acts_once_witness :
  ∃ s2, get_idempotent_operation (λ _, "h"%py) true 1 2 example_http
    (let! x := on_store (ret 7%Z) in record (λ _, ∅) x 201)%prog example_keys
      = (Ok (Handled 7%Z), s2) ∧
  ∀ h' : M OpState Z, get_idempotent_operation (λ _, "h"%py) true 1 2 example_http h' s2
      = (Ok (Replayed {| sr_status_code := 201; sr_body := Some ∅ |}), s2).
Proof.
  destruct (request_acts_once (λ _, "h"%py) 1 2 example_http "k" (λ _ : Z, ∅) 201 (ret 7%Z)
    example_keys) as (s2 & Hs & Hr); [reflexivity|reflexivity|reflexivity|].
  exists s2. split; [exact Hs|]. intros h'. apply Hr. apply rtc_refl.
Defined.
