(* ===== verification/Chunking.v ===== *)
(** * Chunking of documents

    [dw_knowledge/chunking.py]: the outline of a text, and the windows its
    sections are cut into.  Offsets are naturals; the two Unicode tables the code
    reads (lower case, decimal digits) are parameters. *)

From S2P Require Import Prelude Errors.
Local Open Scope pystr_scope.
Local Open Scope nat_scope.

(** ** Strings *)

(** [text[a:b]] for [0 <= a <= b]. *)
Definition slice (text : pystr) (a b : nat) : pystr := PyStr (take (b - a) (drop a (chars text))).

(** [text.rfind(sub, lo, hi)]: the last place in [lo, hi) the whole of [sub] is. *)
Definition rfind (text sub : pystr) (lo hi : nat) : option nat :=
  List.find (λ i, is_prefix (chars sub) (drop i (chars text)))
    (rev (seq lo (S (hi `min` py_len text) - py_len sub - lo))).

(** The characters [str.splitlines] ends a line at. *)
Definition is_line_break (c : N) : bool :=
  ((10 <=? c) && (c <=? 13) || (28 <=? c) && (c <=? 30) || (c =? 133) || (c =? 8232)
   || (c =? 8233))%N.

(** [text.splitlines(keepends=True)]; [\r\n] is one break. *)
Fixpoint splitlines_from (line l : list N) : list (list N) :=
  match l with
  | [] => match line with [] => [] | _ => [line] end
  | c :: r =>
      if is_line_break c then
        match r with
        | d :: r' =>
            if ((c =? 13) && (d =? 10))%N then (line ++ [c; d]) :: splitlines_from [] r'
            else (line ++ [c]) :: splitlines_from [] r
        | [] => [line ++ [c]]
        end
      else splitlines_from (line ++ [c]) r
  end.

Definition splitlines (text : pystr) : list pystr := PyStr <$> splitlines_from [] (chars text).

(** [s.lstrip("#")] *)
Fixpoint drop_hashes (l : list N) : list N :=
  match l with
  | c :: r => if (c =? 35)%N then drop_hashes r else l
  | [] => []
  end.
Definition lstrip_hash (s : pystr) : pystr := PyStr (drop_hashes (chars s)).

Fixpoint py_join (sep : pystr) (l : list pystr) : pystr :=
  match l with
  | [] => ""
  | [s] => s
  | s :: r => s +++ sep +++ py_join sep r
  end.

(** ** The outline *)

Definition MAX_CHUNK_CHARS : Z := 1200.
Definition CHUNK_OVERLAP_CHARS : Z := 150.

Record TextChunk := {
  tc_seq : nat; tc_start_offset : nat; tc_end_offset : nat; tc_content : pystr }.

Record Section_ := {
  se_index : nat; se_path : pystr; se_level : nat; se_start_offset : nat; se_end_offset : nat;
  se_content : pystr }.

Record LeafChunk := {
  lc_seq : nat; lc_section_index : nat; lc_section_path : pystr; lc_start_offset : nat;
  lc_end_offset : nat; lc_content : pystr }.

Definition contextual_text (c : LeafChunk) : pystr :=
  if py_truthy (lc_section_path c)
  then "[" +++ lc_section_path c +++ "]" +++ PyStr [10%N] +++ lc_content c else lc_content c.

Record ChunkingResult := { cr_sections : list Section_; cr_chunks : list LeafChunk }.

Definition HEADING_PREFIXES : list (pystr * nat) :=
  [("phần "%py, 1); ("chương "%py, 2); ("mục "%py, 3); ("điều "%py, 4)].

Definition is_roman (c : N) : bool := existsb (N.eqb c) (chars "IVXLCDM").

Section Outline.
Context (py_lower : pystr → pystr) (is_digit : N → bool).

Definition _heading_level (line : pystr) : option nat :=
  let s := py_strip line in
  if negb (py_truthy s) then None
  else if py_startswith s "#" then Some ((py_len s - py_len (lstrip_hash s)) `min` 6)
  else
    let low := py_lower s in
    (λ pl : pystr * nat, pl.2) <$>
      List.find (λ pl, py_startswith low pl.1
                       && existsb (λ c, is_digit c || is_roman c) (take 24 (chars s)))
        HEADING_PREFIXES.

(** A heading: offset, level, title. *)
Definition heading : Type := nat * nat * pystr.

Fixpoint headings_of (offset : nat) (lines : list pystr) : list heading :=
  match lines with
  | [] => []
  | line :: rest =>
      let more := headings_of (offset + py_len line) rest in
      match _heading_level line with
      | Some level => (offset, level, py_strip (lstrip_hash (py_strip line))) :: more
      | None => more
      end
  end.

(** The breadcrumb stack, its top first. *)
Fixpoint pop_deeper (level : nat) (stack : list (nat * pystr)) : list (nat * pystr) :=
  match stack with
  | (l, t) :: rest => if level <=? l then pop_deeper level rest else stack
  | [] => []
  end.

Fixpoint sections_of (text : pystr) (index : nat) (stack : list (nat * pystr))
    (headings : list heading) : list Section_ :=
  match headings with
  | [] => []
  | (offset, level, title) :: rest =>
      let end_ := match rest with (next, _, _) :: _ => next | [] => py_len text end in
      let stack := (level, title) :: pop_deeper level stack in
      {| se_index := index; se_path := py_join " > " (rev stack.*2); se_level := level;
         se_start_offset := offset; se_end_offset := end_;
         se_content := slice text offset end_ |} :: sections_of text (S index) stack rest
  end.

Definition outline (text : pystr) : list Section_ :=
  match headings_of 0 (splitlines text) with
  | [] => [ {| se_index := 0; se_path := ""; se_level := 0; se_start_offset := 0;
               se_end_offset := py_len text; se_content := text |} ]
  | ((first, _, _) :: _) as headings =>
      let preamble :=
        if 0 <? first
        then [ {| se_index := 0; se_path := "Mở đầu"; se_level := 0; se_start_offset := 0;
                  se_end_offset := first; se_content := slice text 0 first |} ]
        else [] in
      preamble ++ sections_of text (length preamble) [] headings
  end.

(** ** The windows *)

Definition SEPARATORS : list pystr := [PyStr [10; 10]%N; PyStr [10%N]; ". "; " "].

(** Where the window from [start] ends: at the last separator of its second
    half, the first kind of separator that is there. *)
Fixpoint break_at (text : pystr) (lo hi : nat) (separators : list pystr) : nat :=
  match separators with
  | [] => hi
  | sep :: rest =>
      match rfind text sep lo hi with
      | Some candidate => candidate + py_len sep
      | None => break_at text lo hi rest
      end
  end.

Definition window_end (text : pystr) (max_chars start sec_end : nat) : nat :=
  let end_ := (start + max_chars) `min` sec_end in
  if end_ <? sec_end then break_at text (start + Nat.div2 max_chars) end_ SEPARATORS else end_.

(** The [while] loop, as the windows it visits; the fuel bounds its turns. *)
Fixpoint windows (fuel : nat) (text : pystr) (max_chars overlap_chars start sec_end : nat)
    : option (list (nat * nat)) :=
  match fuel with
  | 0 => None
  | S fuel =>
      if start <? sec_end then
        let end_ := window_end text max_chars start sec_end in
        if sec_end <=? end_ then Some [(start, end_)]
        else cons (start, end_) <$>
               windows fuel text max_chars overlap_chars ((end_ - overlap_chars) `max` (start + 1))
                 sec_end
      else Some []
  end.

(** The leaves of the windows that hold more than white space, numbered. *)
Fixpoint leaves_of (text : pystr) (section_index : nat) (path : pystr) (seq : nat)
    (ws : list (nat * nat)) : list LeafChunk :=
  match ws with
  | [] => []
  | (a, b) :: rest =>
      let content := py_strip (slice text a b) in
      if py_truthy content then
        {| lc_seq := seq; lc_section_index := section_index; lc_section_path := path;
           lc_start_offset := a; lc_end_offset := b; lc_content := content |}
        :: leaves_of text section_index path (S seq) rest
      else leaves_of text section_index path seq rest
  end.

Definition _split_section (text : pystr) (sec_start sec_end seq_start section_index : nat)
    (path : pystr) (max_chars overlap_chars : nat) : option (list LeafChunk) :=
  leaves_of text section_index path seq_start <$>
    windows (S (sec_end - sec_start)) text max_chars overlap_chars sec_start sec_end.

Fixpoint split_all (text : pystr) (max_chars overlap_chars seq : nat) (sections : list Section_)
    : option (list LeafChunk) :=
  match sections with
  | [] => Some []
  | s :: rest =>
      leaves ← _split_section text (se_start_offset s) (se_end_offset s) seq (se_index s) (se_path s)
                 max_chars overlap_chars;
      more ← split_all text max_chars overlap_chars (seq + length leaves) rest;
      Some (leaves ++ more)
  end.

Definition bounds_ok (max_chars overlap_chars : Z) : bool :=
  negb ((max_chars <=? 0) || (overlap_chars <? 0) || (max_chars <=? overlap_chars))%Z.

Definition structure_aware_chunks (text : pystr) (max_chars overlap_chars : Z)
    : option (res ChunkingResult) :=
  if negb (bounds_ok max_chars overlap_chars) then
    Some (Raise (Exn ValueError "require max_chars > 0 and 0 <= overlap_chars < max_chars"))
  else if is_blank text then Some (Ok {| cr_sections := []; cr_chunks := [] |})
  else
    let sections := outline text in
    chunks ← split_all text (Z.to_nat max_chars) (Z.to_nat overlap_chars) 0 sections;
    Some (Ok {| cr_sections := sections; cr_chunks := chunks |}).

(** The chunks of the flat windows. *)
Fixpoint chunks_of (text : pystr) (seq : nat) (ws : list (nat * nat)) : list TextChunk :=
  match ws with
  | [] => []
  | (a, b) :: rest =>
      let content := py_strip (slice text a b) in
      if py_truthy content then
        {| tc_seq := seq; tc_start_offset := a; tc_end_offset := b; tc_content := content |}
        :: chunks_of text (S seq) rest
      else chunks_of text seq rest
  end.

Definition chunk_text (text : pystr) (max_chars overlap_chars : Z) : option (res (list TextChunk)) :=
  if negb (bounds_ok max_chars overlap_chars) then
    Some (Raise (Exn ValueError "require max_chars > 0 and 0 <= overlap_chars < max_chars"))
  else if is_blank text then Some (Ok [])
  else
    ws ← windows (S (py_len text)) text (Z.to_nat max_chars) (Z.to_nat overlap_chars) 0 (py_len text);
    Some (Ok (chunks_of text 0 ws)).
End Outline.

(** ** Specification *)

(** Windows from [start] to [stop] with nothing between them: each at most
    [max_chars] long, each after the first repeating at most [overlap] characters
    of the one before. *)
Fixpoint covers (max_chars overlap stop start : nat) (ws : list (nat * nat)) : Prop :=
  match ws with
  | [] => False
  | (a, b) :: rest =>
      a = start ∧ a < b ≤ stop ∧ b ≤ a + max_chars ∧
      match rest with
      | [] => b = stop
      | (a', _) :: _ => a < a' ≤ b ∧ b ≤ a' + overlap ∧ covers max_chars overlap stop a' rest
      end
  end.

(** The character at [p] is there and is not white space. *)
Definition inked (text : pystr) (p : nat) : Prop :=
  ∃ c, chars text !! p = Some c ∧ is_space c = false.

(** A leaf of a section: its span inside the section, its content the stripped
    span, not blank. *)
Record leaf_ok (text : pystr) (max_chars : nat) (s : Section_) (c : LeafChunk) : Prop := {
  lo_index : lc_section_index c = se_index s;
  lo_path : lc_section_path c = se_path s;
  lo_span : se_start_offset s ≤ lc_start_offset c ∧ lc_start_offset c < lc_end_offset c ∧
            lc_end_offset c ≤ se_end_offset s;
  lo_size : lc_end_offset c - lc_start_offset c ≤ max_chars;
  lo_content : lc_content c = py_strip (slice text (lc_start_offset c) (lc_end_offset c));
  lo_ink : is_blank (slice text (lc_start_offset c) (lc_end_offset c)) = false }.

(** Sections that follow each other from [start] to the end of the text. *)
Fixpoint tiles (text : pystr) (start : nat) (l : list Section_) : Prop :=
  match l with
  | [] => start = py_len text
  | s :: rest =>
      se_start_offset s = start ∧ start ≤ se_end_offset s ≤ py_len text ∧
      se_content s = slice text start (se_end_offset s) ∧ tiles text (se_end_offset s) rest
  end.

(** The breadcrumb of a heading: that of the nearest heading before it of a
    smaller level, and its own title. *)
Fixpoint breadcrumbs (before : list (nat * pystr)) (headings : list (nat * pystr)) : list pystr :=
  match headings with
  | [] => []
  | (level, title) :: rest =>
      let path := match List.find (λ lp, lp.1 <? level) before with
                  | Some (_, above) => above +++ " > " +++ title
                  | None => title
                  end in
      path :: breadcrumbs ((level, path) :: before) rest
  end.

(** ** Lemmas *)

Lemma rfind_bounds text sub lo hi i :
  rfind text sub lo hi = Some i → lo ≤ i ∧ i + py_len sub ≤ hi ∧ i + py_len sub ≤ py_len text.
Proof.
  unfold rfind. intros (Hin & Hp)%List.find_some. apply in_rev, in_seq in Hin.
  assert (py_len sub ≤ hi `min` py_len text) by lia. lia.
Qed.

Lemma break_at_bounds text lo hi separators :
  Forall (λ sep, 0 < py_len sep) separators → lo < hi →
  lo < break_at text lo hi separators ≤ hi.
Proof.
  induction 1 as [|sep rest Hsep _ IH]; intros Hlt; simpl; [lia|].
  destruct (rfind text sep lo hi) as [i|] eqn:E; [|auto]. apply rfind_bounds in E. lia.
Qed.

Lemma window_end_bounds text max_chars start sec_end :
  0 < max_chars → start < sec_end →
  start < window_end text max_chars start sec_end ≤ sec_end ∧
  window_end text max_chars start sec_end ≤ start + max_chars.
Proof.
  intros Hm Hs. unfold window_end. set (e := (start + max_chars) `min` sec_end).
  assert (start < e ≤ sec_end ∧ e ≤ start + max_chars) by lia.
  destruct (Nat.ltb_spec e sec_end); [|lia].
  assert (Nat.div2 max_chars < max_chars) by (apply Nat.lt_div2; lia).
  assert (Forall (λ sep, 0 < py_len sep) SEPARATORS) as HF
    by (repeat (apply Forall_cons; split; [by apply Nat.ltb_lt|]); apply Forall_nil_2).
  pose proof (break_at_bounds text (start + Nat.div2 max_chars) e SEPARATORS HF) as Hb.
  assert (e = start + max_chars) by (unfold e in *; lia). specialize (Hb ltac:(lia)).
  destruct Hb as [Hb1 Hb2]. split_and!; [|lia..].
  apply (Nat.le_lt_trans _ (start + Nat.div2 max_chars)); [|done]. apply Nat.le_add_r.
Qed.

(** The loop ends, within a turn per character, and leaves nothing out. *)
Lemma windows_cover text max_chars overlap fuel : ∀ start stop,
  0 < max_chars → stop - start < fuel → start < stop →
  ∃ ws, windows fuel text max_chars overlap start stop = Some ws ∧
        covers max_chars overlap stop start ws.
Proof.
  induction fuel as [|fuel IH]; intros start stop Hm Hf Hs; [lia|]. simpl.
  rewrite (proj2 (Nat.ltb_lt _ _)) by done.
  pose proof (window_end_bounds text max_chars start stop Hm Hs) as [Hb Hmax].
  set (e := window_end text max_chars start stop) in *.
  destruct (Nat.leb_spec stop e).
  - eexists. split; [done|]. simpl. split_and!; lia.
  - destruct (IH ((e - overlap) `max` (start + 1)) stop) as (ws & -> & Hc); [lia..|].
    eexists. split; [done|]. simpl. destruct ws as [|[a' b'] ws]; [done|].
    pose proof (proj1 Hc) as Ha. split_and!; try lia. rewrite <- Ha in Hc. done.
Qed.

Lemma slice_inked text a b p :
  a ≤ p < b → inked text p → is_blank (slice text a b) = false.
Proof.
  intros Hp (c & Hc & Hs). apply not_true_iff_false. unfold is_blank, slice. simpl.
  rewrite forallb_forall. intros Hall.
  assert (c ∈ take (b - a) (drop a (chars text))) as Hin.
  { apply (list_elem_of_lookup_2 _ (p - a)). rewrite lookup_take_lt, lookup_drop by lia.
    by replace (a + (p - a)) with p by lia. }
  apply list_elem_of_In, Hall in Hin. congruence.
Qed.

(** What the leaves of covering windows are. *)
Lemma leaves_of_ok text max_chars overlap stop index path s ws : ∀ start seq,
  covers max_chars overlap stop start ws →
  se_index s = index → se_path s = path → se_start_offset s ≤ start → stop = se_end_offset s →
  let leaves := leaves_of text index path seq ws in
  lc_seq <$> leaves = List.seq seq (length leaves) ∧
  Forall (leaf_ok text max_chars s) leaves ∧
  ∀ p, start ≤ p < stop → inked text p →
    ∃ c, c ∈ leaves ∧ lc_start_offset c ≤ p < lc_end_offset c.
Proof.
  induction ws as [|[a b] rest IH]; intros start seq Hc Hi Hp Hs He; [done|]. simpl in Hc.
  destruct Hc as (-> & Hab & Hlen & Hrest).
  assert (∀ seq, let more := leaves_of text index path seq rest in
    lc_seq <$> more = List.seq seq (length more) ∧ Forall (leaf_ok text max_chars s) more ∧
    ∀ p, b ≤ p < stop → inked text p → ∃ c, c ∈ more ∧ lc_start_offset c ≤ p < lc_end_offset c)
    as Hmore.
  { intros seq'. destruct rest as [|[a' b'] rest].
    - subst b. split_and!; [done|constructor|intros; lia].
    - destruct Hrest as (Ha' & _ & Hc). destruct (IH a' seq' Hc Hi Hp) as (H1 & H2 & H3); [lia|done|].
      split_and!; [done..|]. intros p Hpp Hink. apply H3; [lia|done]. }
  cbv zeta. simpl. rewrite py_truthy_strip. destruct (is_blank (slice text start b)) eqn:Eb; simpl.
  - destruct (Hmore seq) as (H1 & H2 & H3). split_and!; [done..|]. intros p Hpp Hink.
    destruct (decide (p < b)) as [Hlt|Hge]; [|apply H3; [lia|done]].
    rewrite (slice_inked text start b p) in Eb; [done|lia|done].
  - destruct (Hmore (S seq)) as (H1 & H2 & H3). split_and!.
    + by f_equal.
    + constructor; [|done]. split; simpl; try done; lia.
    + intros p Hpp Hink. destruct (decide (p < b)) as [Hlt|Hge].
      * eexists. split; [by left|]. simpl. lia.
      * destruct (H3 p) as (c & ? & ?); [lia|done|]. exists c. split; [by right|done].
Qed.

Lemma split_section_ok text s seq max_chars overlap :
  0 < max_chars → se_start_offset s ≤ se_end_offset s →
  ∃ leaves,
    _split_section text (se_start_offset s) (se_end_offset s) seq (se_index s) (se_path s)
      max_chars overlap = Some leaves ∧
    lc_seq <$> leaves = List.seq seq (length leaves) ∧
    Forall (leaf_ok text max_chars s) leaves ∧
    ∀ p, se_start_offset s ≤ p < se_end_offset s → inked text p →
      ∃ c, c ∈ leaves ∧ lc_start_offset c ≤ p < lc_end_offset c.
Proof.
  intros Hm Hle. unfold _split_section.
  destruct (decide (se_start_offset s < se_end_offset s)) as [Hlt|Hge].
  - destruct (windows_cover text max_chars overlap (S (se_end_offset s - se_start_offset s))
      (se_start_offset s) (se_end_offset s)) as (ws & -> & Hc); [lia..|]. simpl.
    eexists. split; [done|].
    exact (leaves_of_ok text max_chars overlap (se_end_offset s) (se_index s) (se_path s) s ws
      (se_start_offset s) seq Hc eq_refl eq_refl (le_n _) eq_refl).
  - simpl. rewrite (proj2 (Nat.ltb_ge _ _)) by lia. simpl. eexists. split; [done|].
    split_and!; [done|constructor|intros; lia].
Qed.

Lemma split_all_ok text max_chars overlap sections : ∀ seq start,
  0 < max_chars → tiles text start sections →
  ∃ chunks, split_all text max_chars overlap seq sections = Some chunks ∧
    lc_seq <$> chunks = List.seq seq (length chunks) ∧
    Forall (λ c, ∃ s, s ∈ sections ∧ leaf_ok text max_chars s c) chunks ∧
    ∀ p, start ≤ p < py_len text → inked text p →
      ∃ c, c ∈ chunks ∧ lc_start_offset c ≤ p < lc_end_offset c.
Proof.
  induction sections as [|s rest IH]; intros seq start Hm Ht.
  - eexists. split; [done|]. simpl in Ht. split_and!; [done|constructor|intros; lia].
  - destruct Ht as (Hs & Hle & _ & Ht). simpl.
    destruct (split_section_ok text s seq max_chars overlap Hm) as (leaves & -> & H1 & H2 & H3); [lia|].
    simpl. destruct (IH (seq + length leaves) _ Hm Ht) as (more & -> & M1 & M2 & M3). simpl.
    eexists. split; [done|]. split_and!.
    + by rewrite fmap_app, H1, M1, length_app, seq_app.
    + apply Forall_app. split.
      * eapply Forall_impl; [exact H2|]. intros c Hc. exists s. split; [by left|done].
      * eapply Forall_impl; [exact M2|]. intros c (s' & ? & ?). exists s'. split; [by right|done].
    + intros p Hp Hink. destruct (decide (p < se_end_offset s)).
      * destruct (H3 p) as (c & ? & ?); [lia|done|]. exists c. split; [|done]. apply elem_of_app. by left.
      * destruct (M3 p) as (c & ? & ?); [lia|done|]. exists c. split; [|done]. apply elem_of_app. by right.
Qed.

Lemma splitlines_from_concat n : ∀ line l,
  length l ≤ n → concat (splitlines_from line l) = line ++ l.
Proof.
  induction n as [|n IH]; intros line [|c r] Hn; simpl in *; try lia;
    try (destruct line; simpl; by rewrite ?app_nil_r).
  destruct (is_line_break c).
  - destruct r as [|d r']; [by simpl; rewrite app_nil_r|]. simpl in Hn.
    destruct ((c =? 13) && (d =? 10))%N; cbn [concat];
      rewrite IH by (simpl; lia); by rewrite <- app_assoc.
  - rewrite IH by lia. by rewrite <- app_assoc.
Qed.

Definition total_len (lines : list pystr) : nat := sum_list (py_len <$> lines).

Lemma total_len_cons line rest : total_len (line :: rest) = py_len line + total_len rest.
Proof. done. Qed.

Lemma splitlines_total text : total_len (splitlines text) = py_len text.
Proof.
  unfold total_len, splitlines, py_len.
  transitivity (length (concat (splitlines_from [] (chars text)))).
  - induction (splitlines_from [] (chars text)) as [|line lines IH]; [done|].
    simpl. rewrite length_app. f_equal. exact IH.
  - by rewrite (splitlines_from_concat (length (chars text))).
Qed.

(** Offsets that ascend from [lo] and stay within the text. *)
Fixpoint ascending (len lo : nat) (hs : list heading) : Prop :=
  match hs with
  | [] => lo ≤ len
  | (o, _, _) :: rest => lo ≤ o ∧ ascending len o rest
  end.

Lemma ascending_weaken len lo lo' hs : lo ≤ lo' → ascending len lo' hs → ascending len lo hs.
Proof. destruct hs as [|[[o ?] ?] rest]; simpl; [lia|]. intros ? [? ?]. split; [lia|done]. Qed.

Lemma ascending_le len lo hs : ascending len lo hs → lo ≤ len.
Proof.
  revert lo. induction hs as [|[[o ?] ?] rest IH]; simpl; [done|]. intros lo [? ?%IH]. lia.
Qed.

Section Sections.
Context (py_lower : pystr → pystr) (is_digit : N → bool).

Lemma headings_ascending len lines : ∀ off,
  off + total_len lines = len → ascending len off (headings_of py_lower is_digit off lines).
Proof.
  induction lines as [|line rest IH]; intros off Ht; [unfold total_len in Ht; simpl in *; lia|].
  rewrite total_len_cons in Ht. specialize (IH (off + py_len line) ltac:(lia)). simpl.
  destruct (_heading_level _ _ line); simpl; [split; [lia|]|];
    (eapply ascending_weaken; [|exact IH]; lia).
Qed.

Lemma sections_tile text hs : ∀ index stack o level title,
  ascending (py_len text) o hs →
  tiles text o (sections_of text index stack ((o, level, title) :: hs)).
Proof.
  induction hs as [|[[o' level'] title'] rest IH]; intros index stack o level title Ha.
  - simpl in *. split_and!; [done|lia|lia|done|done].
  - destruct Ha as [Ho Ha]. pose proof (ascending_le _ _ _ Ha) as Hle.
    cbn [sections_of]. split; [done|]. split; [simpl; lia|]. split; [done|].
    exact (IH (S index) ((level, title) :: pop_deeper level stack) o' level' title' Ha).
Qed.

Lemma slice_all text : slice text 0 (py_len text) = text.
Proof. unfold slice, py_len. rewrite drop_0, Nat.sub_0_r, take_ge by done. by destruct text. Qed.

Lemma outline_tiles text : tiles text 0 (outline py_lower is_digit text).
Proof.
  unfold outline.
  pose proof (headings_ascending (py_len text) (splitlines text) 0 (splitlines_total text)) as Ha.
  destruct (headings_of _ _ 0 _) as [|[[o level] title] rest].
  - simpl. rewrite slice_all. split_and!; [done|lia|lia|done|done].
  - destruct Ha as [_ Ha]. pose proof (ascending_le _ _ _ Ha).
    destruct (Nat.ltb_spec 0 o) as [Ho|Ho].
    + cbn [app tiles se_start_offset se_end_offset se_content].
      split_and!; [done|lia|lia|done|]. by apply sections_tile.
    + assert (o = 0) as -> by lia. by apply sections_tile.
Qed.

Lemma tiles_concat text l : ∀ start,
  start ≤ py_len text → tiles text start l →
  concat ((λ s, chars (se_content s)) <$> l) = drop start (chars text).
Proof.
  induction l as [|s rest IH]; intros start Hle.
  - intros Hs. simpl in *. subst. unfold py_len. by rewrite drop_ge.
  - intros (_ & Hb & Hc & Ht). rewrite fmap_cons. cbn [concat]. rewrite Hc, (IH (se_end_offset s)) by (done || lia). unfold slice. simpl.
    rewrite <- (take_drop (se_end_offset s - start) (drop start (chars text))) at 2.
    rewrite drop_drop. do 2 f_equal. lia.
Qed.

Lemma outline_indices text :
  se_index <$> outline py_lower is_digit text =
    List.seq 0 (length (outline py_lower is_digit text)).
Proof.
  assert (∀ hs index stack, se_index <$> sections_of text index stack hs = List.seq index (length hs)
          ∧ length (sections_of text index stack hs) = length hs) as Hs.
  { induction hs as [|[[o l] t] rest IH]; intros index stack; [done|].
    destruct (IH (S index) ((l, t) :: pop_deeper l stack)) as [H1 H2].
    split; [exact (f_equal (cons index) H1)|exact (f_equal S H2)]. }
  unfold outline. destruct (headings_of _ _ _ _) as [|[[o l] t] rest]; [done|].
  destruct (0 <? o).
  - destruct (Hs ((o, l, t) :: rest) 1 []) as [H1 H2].
    exact (eq_trans (f_equal (cons 0) H1) (f_equal (λ n, List.seq 0 (S n)) (eq_sym H2))).
  - destruct (Hs ((o, l, t) :: rest) 0 []) as [H1 H2].
    exact (eq_trans H1 (f_equal (List.seq 0) (eq_sym H2))).
Qed.

(** The stack and the headings read so far tell the same ancestors. *)
Definition same_ancestors (stack before : list (nat * pystr)) : Prop := ∀ level,
  List.find (λ lp, lp.1 <? level) before =
    match pop_deeper level stack with
    | [] => None
    | ((l, _) :: _) as above => Some (l, py_join " > " (rev above.*2))
    end.

Lemma py_join_snoc sep l t :
  l ≠ [] → py_join sep (l ++ [t]) = py_join sep l +++ sep +++ t.
Proof.
  induction l as [|a [|b l] IH]; intros Hne; [done| |].
  - done.
  - change ((a :: b :: l) ++ [t]) with (a :: (b :: l) ++ [t]).
    destruct ((b :: l) ++ [t]) as [|x y] eqn:E; [done|].
    change (py_join sep (a :: x :: y)) with (a +++ sep +++ py_join sep (x :: y)).
    rewrite IH by done. change (py_join sep (a :: b :: l)) with (a +++ sep +++ py_join sep (b :: l)).
    unfold py_app. simpl. f_equal. by rewrite <- !app_assoc.
Qed.

Lemma pop_deeper_twice l level stack :
  l ≤ level → pop_deeper l (pop_deeper level stack) = pop_deeper l stack.
Proof.
  intros Hle. induction stack as [|[k t] rest IH]; [done|]. simpl.
  destruct (Nat.leb_spec level k); [|done].
  destruct (Nat.leb_spec l k); [done|lia].
Qed.

Lemma push_ancestors level title stack before :
  same_ancestors stack before →
  let stack' := (level, title) :: pop_deeper level stack in
  let path := py_join " > " (rev stack'.*2) in
  path = match List.find (λ lp, lp.1 <? level) before with
         | Some (_, above) => above +++ " > " +++ title
         | None => title
         end ∧
  same_ancestors stack' ((level, path) :: before).
Proof.
  intros Hs. cbv zeta. split.
  - rewrite (Hs level). destruct (pop_deeper level stack) as [|[l t] rest] eqn:E; [done|].
    assert (rev ((l, t) :: rest).*2 ≠ []) as Hne by (simpl; by destruct (rev _)).
    exact (py_join_snoc " > " _ title Hne).
  - intros l. cbn [List.find pop_deeper fst].
    destruct (Nat.ltb_spec level l).
    + rewrite (proj2 (Nat.leb_gt l level)) by done. done.
    + rewrite (proj2 (Nat.leb_le l level)) by done. rewrite pop_deeper_twice by done. apply Hs.
Qed.

(** The path the stack builds for a heading is that of the nearest earlier heading of a
    smaller level followed by its own title. *)
Theorem section_paths_are_breadcrumbs text hs : ∀ index,
  se_path <$> sections_of text index [] hs = breadcrumbs [] ((λ h : heading, (h.1.2, h.2)) <$> hs).
Proof.
  assert (∀ index stack before, same_ancestors stack before →
    se_path <$> sections_of text index stack hs =
      breadcrumbs before ((λ h : heading, (h.1.2, h.2)) <$> hs)) as H.
  { induction hs as [|[[o level] title] rest IH]; intros index stack before Hs; [done|].
    destruct (push_ancestors level title stack before Hs) as [Hp Hs'].
    simpl in *. rewrite <- Hp. f_equal. by apply IH. }
  intros index. apply H. by intros level.
Qed.

(** Chunking a document always ends; its sections tile the text, its chunks are numbered in
    order, each is the stripped, non-blank text of a span of its section no longer than
    the limit, and every character that is not white space lies in some chunk. *)
Theorem document_chunks_cover text max_chars overlap_chars :
  bounds_ok max_chars overlap_chars = true → is_blank text = false →
  ∃ r, structure_aware_chunks py_lower is_digit text max_chars overlap_chars = Some (Ok r) ∧
    (** the sections tile the text *)
    concat ((λ s, chars (se_content s)) <$> cr_sections r) = chars text ∧
    tiles text 0 (cr_sections r) ∧
    se_index <$> cr_sections r = List.seq 0 (length (cr_sections r)) ∧
    (** the chunks are numbered in order, each a non-blank span of its section *)
    lc_seq <$> cr_chunks r = List.seq 0 (length (cr_chunks r)) ∧
    Forall (λ c, ∃ s, s ∈ cr_sections r ∧ leaf_ok text (Z.to_nat max_chars) s c) (cr_chunks r) ∧
    (** and no ink is lost *)
    ∀ p, inked text p → ∃ c, c ∈ cr_chunks r ∧ lc_start_offset c ≤ p < lc_end_offset c.
Proof.
  intros Hb Ht. unfold structure_aware_chunks. rewrite Hb, Ht. simpl.
  pose proof (outline_tiles text) as Htiles.
  assert (0 < Z.to_nat max_chars) as Hm.
  { unfold bounds_ok in Hb. apply negb_true_iff, orb_false_iff in Hb as [[?%Z.leb_gt _]%orb_false_iff _].
    lia. }
  destruct (split_all_ok text (Z.to_nat max_chars) (Z.to_nat overlap_chars)
    (outline py_lower is_digit text) 0 0 Hm Htiles) as (chunks & -> & H1 & H2 & H3).
  simpl. eexists. split; [done|]. simpl. split_and!; try done.
  - by rewrite (tiles_concat text _ 0) by (done || lia).
  - apply outline_indices.
  - intros p Hink. apply H3; [|done]. destruct Hink as (c & Hc & _).
    apply lookup_lt_Some in Hc. unfold py_len. lia.
Qed.
End Sections.

(** A flat chunk as the leaf of a text that is one section. *)
Definition flat (c : LeafChunk) : TextChunk :=
  {| tc_seq := lc_seq c; tc_start_offset := lc_start_offset c; tc_end_offset := lc_end_offset c;
     tc_content := lc_content c |}.

Lemma chunks_of_leaves text ws : ∀ seq,
  chunks_of text seq ws = flat <$> leaves_of text 0 "" seq ws.
Proof.
  induction ws as [|[a b] rest IH]; intros seq; [done|]. simpl.
  destruct (py_truthy _); simpl; by rewrite IH.
Qed.

(** On a text without headings the flat splitter gives exactly the chunks of the structured
    one, errors included. *)
Theorem chunk_text_is_one_section py_lower is_digit text max_chars overlap_chars :
  headings_of py_lower is_digit 0 (splitlines text) = [] →
  chunk_text text max_chars overlap_chars =
    fmap (M := option) (λ r : res ChunkingResult,
      match r with Ok r => Ok (flat <$> cr_chunks r) | Raise e => Raise e end)
      (structure_aware_chunks py_lower is_digit text max_chars overlap_chars).
Proof.
  intros Hh. unfold chunk_text, structure_aware_chunks, outline. rewrite Hh.
  destruct (bounds_ok _ _); [|done]. destruct (is_blank text); [done|].
  cbn [split_all se_start_offset se_end_offset se_index se_path].
  unfold _split_section. rewrite Nat.sub_0_r.
  destruct (windows _ _ _ _ _ _) as [ws|]; [|done]. simpl. rewrite app_nil_r.
  by rewrite chunks_of_leaves.
Qed.

(** ** A concrete document *)

Definition ascii_digit (c : N) : bool := ((48 <=? c) && (c <=? 57))%N.

Definition example_text : pystr :=
  "# A" +++ PyStr [10%N] +++ "foo bar. baz" +++ PyStr [10%N] +++ "## B" +++ PyStr [10%N] +++ "end".

Lemma document_chunks_cover_witness :
  ∃ r, structure_aware_chunks py_lower_ascii ascii_digit example_text 8 2 = Some (Ok r) ∧
    se_path <$> cr_sections r = ["A"%py; "A > B"%py] ∧
    lc_seq <$> cr_chunks r = List.seq 0 (length (cr_chunks r)).
Proof.
  destruct (document_chunks_cover py_lower_ascii ascii_digit example_text 8 2)
    as (r & Hr & _ & _ & _ & Hseq & _); [reflexivity|vm_compute; reflexivity|].
  exists r. split; [exact Hr|]. split; [|exact Hseq].
  assert (structure_aware_chunks py_lower_ascii ascii_digit example_text 8 2 = Some (Ok r)) as Hr'
    by exact Hr.
  vm_compute in Hr'. injection Hr' as <-. reflexivity.
Defined.

Lemma chunk_text_is_one_section_witness :
  ∃ chunks, chunk_text "one. two. three" 6 1 = Some (Ok chunks) ∧ (3 <= length chunks)%nat.
Proof.
  rewrite (chunk_text_is_one_section py_lower_ascii ascii_digit) by (vm_compute; reflexivity).
  vm_compute. eexists. split; [reflexivity|]. repeat constructor.
Defined.
