(* ===== verification/IngestQueue.v ===== *)
(** * The ingest queue

    [dw_knowledge/ingest_jobs.py], the durable queue of uploaded files, and
    [dw_worker/consumers/ingest.py], the consumer that drains it.  Each operation
    of the store is one transaction; the state is the table [ingest_jobs] and the
    injected clock, which every operation reads.  What processing a file does (object
    storage, parser, gateway) is a parameter. *)

From S2P Require Import Prelude Errors Kernel Domain.
Local Open Scope prog_scope.
Local Open Scope pystr_scope.
Local Open Scope Z_scope.

(** ** Jobs *)

Definition DEFAULT_LEASE_SECONDS : Z := 900.
Definition DEFAULT_HEARTBEAT_SECONDS : Z := 300.
Definition DEFAULT_JOB_TIMEOUT_SECONDS : Z := 2700.
Definition DEFAULT_RETRY_BACKOFF_SECONDS : Z := 30.
Definition MAX_ERROR_CHARS : nat := 2000.

Inductive JobStatus := QUEUED | PROCESSING | DONE | FAILED.

#[export] Instance JobStatus_eq_dec : EqDecision JobStatus.
Proof. solve_decision. Defined.

Record EnqueueIngestCommand := {
  ec_title : pystr;
  ec_filename : pystr;
  ec_content_type : pystr;
  ec_identity_key : option pystr;
  ec_domain : pystr;
  ec_classification : pystr;
  ec_source_version : pystr;
  ec_scope : pystr;
  ec_extra : list (pystr * pystr);
  ec_acl_principals : list pystr }.

(** A row of [ingest_jobs], which is also what [_row_to_job] hands out. *)
Record IngestJob := {
  ij_id : uuid;
  ij_tenant_id : uuid;
  ij_workspace_id : uuid;
  ij_created_by : uuid;
  ij_title : pystr;
  ij_identity_key : option pystr;
  ij_domain : pystr;
  ij_classification : pystr;
  ij_source_version : pystr;
  ij_scope : pystr;
  ij_filename : pystr;
  ij_content_type : pystr;
  ij_storage_key : pystr;
  ij_status : JobStatus;
  ij_attempts : Z;
  ij_max_attempts : Z;
  ij_available_at : datetime;
  ij_lease_until : option datetime;
  ij_error : option pystr;
  ij_document_id : option uuid;
  ij_chunk_count : option Z;
  ij_created_at : datetime;
  ij_updated_at : datetime;
  ij_extra : list (pystr * pystr);
  ij_acl_principals : list pystr;
  ij_warnings : list pystr }.

(** [EnqueueIngestCommand]'s validators; the whitelist is the gateway's. *)
Definition command_valid (SEARCH_FILTER_KEYS : gset pystr) (c : EnqueueIngestCommand) : bool :=
  py_truthy (ec_title c) && py_truthy (ec_filename c)
  && match ec_identity_key c with Some k => py_truthy k | None => true end
  && forallb (λ kv, bool_decide (kv.1 ∈ SEARCH_FILTER_KEYS)) (ec_extra c).

(** The columns an operation may write. *)
Definition set_columns (status : JobStatus) (attempts : Z) (available_at : datetime)
    (lease_until : option datetime) (error : option pystr) (document_id : option uuid)
    (chunk_count : option Z) (warnings : list pystr) (updated_at : datetime) (j : IngestJob)
    : IngestJob :=
  {| ij_id := ij_id j; ij_tenant_id := ij_tenant_id j; ij_workspace_id := ij_workspace_id j;
     ij_created_by := ij_created_by j; ij_title := ij_title j;
     ij_identity_key := ij_identity_key j; ij_domain := ij_domain j;
     ij_classification := ij_classification j; ij_source_version := ij_source_version j;
     ij_scope := ij_scope j; ij_filename := ij_filename j; ij_content_type := ij_content_type j;
     ij_storage_key := ij_storage_key j; ij_status := status; ij_attempts := attempts;
     ij_max_attempts := ij_max_attempts j; ij_available_at := available_at;
     ij_lease_until := lease_until; ij_error := error; ij_document_id := document_id;
     ij_chunk_count := chunk_count; ij_created_at := ij_created_at j; ij_updated_at := updated_at;
     ij_extra := ij_extra j; ij_acl_principals := ij_acl_principals j; ij_warnings := warnings |}.

(** The table, [clock.now()], and the ids [id_generator] will draw. *)
Record Queue := { jobs : gmap uuid IngestJob; now : datetime; next_ids : list uuid }.

Definition set_jobs (t : gmap uuid IngestJob) (q : Queue) : Queue :=
  {| jobs := t; now := now q; next_ids := next_ids q |}.

Definition new_id : M Queue uuid := λ q,
  match next_ids q with
  | id :: rest => (Ok id, {| jobs := jobs q; now := now q; next_ids := rest |})
  | [] => (Raise (Exn (OtherException "NoMoreIds") "the model's ids ran out"), q)
  end.

Section Store.
Context (retry_backoff_seconds : Z).

Definition _backoff (attempts : Z) : timedelta := seconds (retry_backoff_seconds * 2 ^ (attempts - 1)).

Definition queued_job (c : EnqueueIngestCommand) (context : AccessContext) (storage_key : pystr)
    (id : uuid) (now : datetime) : IngestJob :=
  {| ij_id := id; ij_tenant_id := tenant_id context; ij_workspace_id := workspace_id context;
     ij_created_by := principal_id context; ij_title := ec_title c;
     ij_identity_key := ec_identity_key c; ij_domain := ec_domain c;
     ij_classification := ec_classification c; ij_source_version := ec_source_version c;
     ij_scope := ec_scope c; ij_filename := ec_filename c; ij_content_type := ec_content_type c;
     ij_storage_key := storage_key; ij_status := QUEUED; ij_attempts := 0; ij_max_attempts := 3;
     ij_available_at := now; ij_lease_until := None; ij_error := None; ij_document_id := None;
     ij_chunk_count := None; ij_created_at := now; ij_updated_at := now; ij_extra := ec_extra c;
     ij_acl_principals := ec_acl_principals c; ij_warnings := [] |}.

Definition enqueue (c : EnqueueIngestCommand) (context : AccessContext) (storage_key : pystr)
    (job_id : option uuid) : M Queue uuid :=
  let! id := match job_id with Some id => ret id | None => new_id end in
  let! q := get_state in
  match jobs q !! id with
  | Some _ => raise (IntegrityError "ingest_jobs_pkey") "duplicate key value violates unique constraint"
  | None =>
      modify (set_jobs (<[id := queued_job c context storage_key id (now q)]> (jobs q))) ;;;
      ret id
  end.

(** Row-level security shows a tenant its own rows. *)
Definition get (id : uuid) (context : AccessContext) : M Queue (option IngestJob) :=
  gets (λ q, j ← jobs q !! id;
             if bool_decide (ij_tenant_id j = tenant_id context) then Some j else None).

(** [ORDER BY source_version, created_at DESC] and the first of each. *)
Fixpoint newest (version : pystr) (l : list IngestJob) (best : option IngestJob) : option IngestJob :=
  match l with
  | [] => best
  | j :: rest =>
      newest version rest
        (if bool_decide (ij_source_version j = version)
            && match best with Some b => ij_created_at b <? ij_created_at j | None => true end
         then Some j else best)
  end.

Definition latest_for_sources (versions : list pystr) (context : AccessContext)
    : M Queue (gmap pystr uuid) :=
  let wanted := filter (λ v, py_truthy v = true) versions in
  gets (λ q,
    let rows := filter (λ j, bool_decide (ij_tenant_id j = tenant_id context) = true)
                  (map_to_list (jobs q)).*2 in
    foldr (λ v m, match newest v rows None with Some j => <[v := ij_id j]> m | None => m end)
      ∅ wanted).

(** Queued and due, or processing under a lease that has expired. *)
Definition claimable (t : datetime) (j : IngestJob) : bool :=
  (bool_decide (ij_status j = QUEUED) && (ij_available_at j <=? t))
  || (bool_decide (ij_status j = PROCESSING)
      && match ij_lease_until j with Some lease => lease <? t | None => false end).

(** [ORDER BY available_at LIMIT 1] *)
Fixpoint earliest (l : list IngestJob) : option IngestJob :=
  match l with
  | [] => None
  | j :: rest =>
      match earliest rest with
      | Some k => if ij_available_at j <=? ij_available_at k then Some j else Some k
      | None => Some j
      end
  end.

Definition claimed_job (lease_seconds : Z) (t : datetime) (j : IngestJob) : IngestJob :=
  set_columns PROCESSING (ij_attempts j + 1) (ij_available_at j) (Some (t + seconds lease_seconds))
    (ij_error j) (ij_document_id j) (ij_chunk_count j) (ij_warnings j) t j.

(** [locked]: the rows other claims hold while this one runs ([SKIP LOCKED]). *)
Definition claim_next (locked : gset uuid) (lease_seconds : Z) : M Queue (option IngestJob) :=
  let! q := get_state in
  match earliest (filter (λ j, claimable (now q) j && negb (bool_decide (ij_id j ∈ locked)) = true)
                    (map_to_list (jobs q)).*2) with
  | None => ret None
  | Some row =>
      let claimed := claimed_job lease_seconds (now q) row in
      modify (set_jobs (<[ij_id row := claimed]> (jobs q))) ;;;
      ret (Some claimed)
  end.

Definition renewed_job (lease_seconds : Z) (t : datetime) (j : IngestJob) : IngestJob :=
  set_columns (ij_status j) (ij_attempts j) (ij_available_at j) (Some (t + seconds lease_seconds))
    (ij_error j) (ij_document_id j) (ij_chunk_count j) (ij_warnings j) t j.

Definition renew_lease (job : IngestJob) (lease_seconds : Z) : M Queue bool :=
  let! q := get_state in
  match jobs q !! ij_id job with
  | Some row =>
      if bool_decide (ij_tenant_id row = ij_tenant_id job)
         && bool_decide (ij_status row = PROCESSING) && (ij_attempts row =? ij_attempts job)
      then modify (set_jobs (<[ij_id job := renewed_job lease_seconds (now q) row]> (jobs q))) ;;;
           ret true
      else ret false
  | None => ret false
  end.

Definition done_job (document_id : uuid) (chunk_count : Z) (warnings : list pystr) (t : datetime)
    (j : IngestJob) : IngestJob :=
  set_columns DONE (ij_attempts j) (ij_available_at j) None None (Some document_id)
    (Some chunk_count) warnings t j.

(** An [UPDATE] of the job's row, under the job's tenant. *)
Definition update_job (job : IngestJob) (f : datetime → IngestJob → IngestJob) : M Queue unit :=
  let! q := get_state in
  match jobs q !! ij_id job with
  | Some row =>
      when bool_decide (ij_tenant_id row = ij_tenant_id job) then
        modify (set_jobs (<[ij_id job := f (now q) row]> (jobs q)))
  | None => ret tt
  end.

Definition mark_done (job : IngestJob) (document_id : uuid) (chunk_count : Z)
    (warnings : list pystr) : M Queue unit :=
  update_job job (done_job document_id chunk_count warnings).

(** Exhausted, or back in the queue after a backoff; decided by the handle. *)
Definition failed_job (job : IngestJob) (error : pystr) (t : datetime) (j : IngestJob) : IngestJob :=
  let exhausted := ij_max_attempts job <=? ij_attempts job in
  set_columns (if exhausted then FAILED else QUEUED) (ij_attempts j)
    (if exhausted then ij_available_at j else t + _backoff (ij_attempts job)) None
    (Some (PyStr (take MAX_ERROR_CHARS (chars error)))) (ij_document_id j) (ij_chunk_count j)
    (ij_warnings j) t j.

Definition mark_failed (job : IngestJob) (error : pystr) : M Queue unit :=
  update_job job (failed_job job error).

(** ** The consumer *)

(** [parse]: object storage and the parser; [index]: the gateway. *)
Record Components := {
  parse : IngestJob → M Queue (pystr * list pystr);
  index : IngestJob → pystr → M Queue (uuid * Z) }.

Definition _process (components : Components) (job : IngestJob) : M Queue unit :=
  let! parsed := parse components job in
  (when negb (py_truthy (py_strip parsed.1)) then
     raise ValueError "the file has no text that could be read out of it") ;;;
  let! result := index components job parsed.1 in
  mark_done job result.1 result.2 parsed.2.

(** [wait_for]'s timeout is the [TimeoutError] of the process. *)
Definition drain_one (components : Components) (locked : gset uuid) (lease_seconds : Z)
    (timeout_error : pystr) : M Queue unit :=
  let! job := claim_next locked lease_seconds in
  match job with
  | None => ret tt
  | Some job =>
      try_except (_process components job) (λ exc,
        if isinstance exc TimeoutError then mark_failed job timeout_error
        else mark_failed job (class_name (exn_cls exc) +++ ": " +++ exn_message exc))
  end.

(** The check of [build_ingest_consumer]. *)
Definition build_ingest_consumer (heartbeat_seconds lease_seconds : Z) : res unit :=
  if lease_seconds <=? heartbeat_seconds
  then Raise (Exn ValueError "heartbeat_seconds must be shorter than lease_seconds")
  else Ok tt.
End Store.

(** ** Lemmas *)

Definition jobs_keyed (q : Queue) : Prop := ∀ k j, jobs q !! k = Some j → ij_id j = k.

Lemma elem_of_rows q (p : IngestJob → bool) j :
  jobs_keyed q →
  j ∈ filter (λ j, p j = true) (map_to_list (jobs q)).*2 ↔ p j = true ∧ jobs q !! ij_id j = Some j.
Proof.
  intros Hk. rewrite list_elem_of_filter, list_elem_of_fmap. split.
  - intros (? & [k j'] & -> & Hin%elem_of_map_to_list). simpl in *. by rewrite (Hk _ _ Hin).
  - intros [? Hin]. split; [done|]. exists (ij_id j, j). by rewrite elem_of_map_to_list.
Qed.

Lemma earliest_spec l :
  match earliest l with
  | None => l = []
  | Some j => j ∈ l ∧ ∀ k, k ∈ l → ij_available_at j <= ij_available_at k
  end.
Proof.
  induction l as [|j rest IH]; simpl; [done|]. destruct (earliest rest) as [k|] eqn:E.
  - destruct IH as [Hin Hmin]. destruct (Z.leb_spec (ij_available_at j) (ij_available_at k)).
    + split; [by left|]. intros m [->|Hm]%elem_of_cons; [lia|]. specialize (Hmin m Hm). lia.
    + split; [by right|]. intros m [->|Hm]%elem_of_cons; [lia|]. by apply Hmin.
  - subst. split; [by left|]. intros m [->|Hm]%elem_of_cons; [lia|]. by apply not_elem_of_nil in Hm.
Qed.

Lemma claim_next_spec locked lease_seconds q :
  jobs_keyed q →
  let free j := claimable (now q) j = true ∧ ij_id j ∉ locked in
  match claim_next locked lease_seconds q with
  | (Ok None, q') => q' = q ∧ ∀ k j, jobs q !! k = Some j → ¬ free j
  | (Ok (Some job), q') =>
      ∃ row, jobs q !! ij_id job = Some row ∧ free row ∧
        (∀ k j, jobs q !! k = Some j → free j → ij_available_at row <= ij_available_at j) ∧
        job = claimed_job lease_seconds (now q) row ∧
        q' = set_jobs (<[ij_id job := job]> (jobs q)) q
  | (Raise _, _) => False
  end.
Proof.
  intros Hk free. unfold claim_next. run.
  pose proof (elem_of_rows q (λ j, claimable (now q) j && negb (bool_decide (ij_id j ∈ locked)))) as He.
  assert (∀ j, claimable (now q) j && negb (bool_decide (ij_id j ∈ locked)) = true ↔ free j) as Hf.
  { intros j. unfold free. by rewrite andb_true_iff, negb_true_iff, bool_decide_eq_false. }
  pose proof (earliest_spec (filter (λ j, claimable (now q) j && negb (bool_decide (ij_id j ∈ locked))
    = true) (map_to_list (jobs q)).*2)) as Hs.
  destruct (earliest _) as [row|].
  - destruct Hs as [Hin Hmin]. apply He in Hin as [Hfree Hrow]; [|done]. exists row.
    split; [done|]. split; [by apply Hf|]. split; [|done]. intros k j Hj Hfj. apply Hmin, He; [done|].
    split; [by apply Hf|by rewrite (Hk _ _ Hj)].
  - split; [done|]. intros k j Hj Hfj.
    assert (j ∈ (@nil IngestJob)) as []%not_elem_of_nil.
    rewrite <- Hs. apply He; [done|]. split; [by apply Hf|by rewrite (Hk _ _ Hj)].
Qed.

(** A claim returns nothing exactly when no unlocked job is due or abandoned; otherwise it
    takes one that became available first, counts the attempt, leases it from now,
    returns the row as stored and changes no other job. *)
Theorem claim_takes_earliest locked lease_seconds q :
  jobs_keyed q →
  let free j := claimable (now q) j = true ∧ ij_id j ∉ locked in
  match claim_next locked lease_seconds q with
  | (Ok None, q') => q' = q ∧ ∀ k j, jobs q !! k = Some j → ¬ free j
  | (Ok (Some job), q') =>
      ∃ row, jobs q !! ij_id job = Some row ∧ free row ∧
        (∀ k j, jobs q !! k = Some j → free j → ij_available_at row <= ij_available_at j) ∧
        job = claimed_job lease_seconds (now q) row ∧
        q' = set_jobs (<[ij_id job := job]> (jobs q)) q
  | (Raise _, _) => False
  end.
Proof. exact (claim_next_spec locked lease_seconds q). Qed.

(** ** Leases *)

(** The workers that are alive and hold a job, each with its handle. *)
Record Workers := { queue : Queue; held : gmap nat IngestJob }.

Section Leases.
Context (backoff lease_seconds : Z) (Hlease : 0 <= lease_seconds).

(** One worker's transaction, a crash, or time, which does not run past the
    lease of a worker that is alive: its heartbeat is faster. *)
Inductive worker_step (y : Workers) : Workers → Prop :=
  | ws_enqueue c context storage_key job_id :
      worker_step y {| queue := (enqueue c context storage_key job_id (queue y)).2; held := held y |}
  | ws_claim wid locked job q :
      held y !! wid = None → claim_next locked lease_seconds (queue y) = (Ok (Some job), q) →
      worker_step y {| queue := q; held := <[wid := job]> (held y) |}
  | ws_renew wid job (kept : bool) q :
      held y !! wid = Some job → renew_lease job lease_seconds (queue y) = (Ok kept, q) →
      worker_step y {| queue := q; held := held y |}
  | ws_done wid job document_id chunks warnings :
      held y !! wid = Some job →
      worker_step y {| queue := (mark_done job document_id chunks warnings (queue y)).2;
                       held := delete wid (held y) |}
  | ws_failed wid job error :
      held y !! wid = Some job →
      worker_step y {| queue := (mark_failed backoff job error (queue y)).2;
                       held := delete wid (held y) |}
  | ws_crash wid : worker_step y {| queue := queue y; held := delete wid (held y) |}
  | ws_time t :
      now (queue y) <= t →
      (∀ wid job row lease, held y !! wid = Some job → jobs (queue y) !! ij_id job = Some row →
         ij_lease_until row = Some lease → t <= lease) →
      worker_step y {| queue := {| jobs := jobs (queue y); now := t;
                                   next_ids := next_ids (queue y) |}; held := held y |}.

(** The row of a job whose holder is alive. *)
Definition owned (q : Queue) (job : IngestJob) : Prop :=
  ∃ row lease, jobs q !! ij_id job = Some row ∧ ij_tenant_id row = ij_tenant_id job ∧
    ij_status row = PROCESSING ∧ ij_attempts row = ij_attempts job ∧
    ij_lease_until row = Some lease ∧ now q <= lease.

Record workers_inv (y : Workers) : Prop := {
  wi_keyed : jobs_keyed (queue y);
  wi_owned : ∀ wid job, held y !! wid = Some job → owned (queue y) job;
  wi_distinct : ∀ w1 w2 j1 j2, held y !! w1 = Some j1 → held y !! w2 = Some j2 →
    ij_id j1 = ij_id j2 → w1 = w2 }.

Lemma keyed_put q k j : jobs_keyed q → ij_id j = k → jobs_keyed (set_jobs (<[k := j]> (jobs q)) q).
Proof. intros Hk Hj k' j'. simpl. intros [[<- <-]|[_ ?]]%lookup_insert_Some; [done|by apply Hk]. Qed.

(** A job of another id is owned as before. *)
Lemma owned_put q k j job :
  ij_id job ≠ k → owned q job → owned (set_jobs (<[k := j]> (jobs q)) q) job.
Proof.
  intros Hne (row & lease & Hrow & ?). exists row, lease. simpl. by rewrite lookup_insert_ne.
Qed.

Lemma claimable_not_owned q job row :
  jobs q !! ij_id job = Some row → claimable (now q) row = true → ¬ owned q job.
Proof.
  intros Hrow Hc (row' & lease & Hrow' & _ & Hst & _ & Hl & Hle). unfold claimable in Hc.
  assert (row' = row) as -> by congruence. rewrite Hst, Hl in Hc. simpl in Hc.
  apply Z.ltb_lt in Hc. lia.
Qed.

Lemma update_job_run job f q :
  update_job job f q =
    (Ok tt, match jobs q !! ij_id job with
            | Some row => if bool_decide (ij_tenant_id row = ij_tenant_id job)
                then set_jobs (<[ij_id job := f (now q) row]> (jobs q)) q else q
            | None => q
            end).
Proof. unfold update_job. run. destruct (_ !! _); [|done]. by destruct (bool_decide _). Qed.

(** A settled job leaves the other workers theirs. *)
Lemma settle_inv y wid job f :
  workers_inv y → held y !! wid = Some job → (∀ t j, ij_id (f t j) = ij_id j) →
  workers_inv {| queue := (update_job job f (queue y)).2; held := delete wid (held y) |}.
Proof.
  intros [Hk Ho Hd] Hw Hf. rewrite update_job_run. simpl.
  destruct (Ho wid job Hw) as (row & lease & Hrow & Ht & _). rewrite Hrow, bool_decide_eq_true_2 by done.
  split; simpl.
  - apply keyed_put; [done|]. rewrite Hf. exact (Hk _ _ Hrow).
  - intros w j [Hne Hj]%lookup_delete_Some. apply owned_put; [|by apply (Ho w)].
    intros E. by apply Hne, (Hd wid w job j).
  - intros w1 w2 j1 j2 [_ H1]%lookup_delete_Some [_ H2]%lookup_delete_Some. by apply Hd.
Qed.

Lemma worker_step_inv y y' : workers_inv y → worker_step y y' → workers_inv y'.
Proof.
  intros Hi Hs. pose proof Hi as [Hk Ho Hd].
  destruct Hs as [c context key id|wid locked job q Hw H|wid job kept q Hw H
                 |wid job d n ws Hw|wid job e Hw|wid|t Hle Ht].
  - unfold enqueue, bind.
    assert (∀ id q, jobs q = jobs (queue y) → now q = now (queue y) → workers_inv {|
      queue := ((let! q := get_state in
        match jobs q !! id with
        | Some _ => raise (IntegrityError "ingest_jobs_pkey")
                      "duplicate key value violates unique constraint"
        | None => modify (set_jobs (<[id := queued_job c context key id (now q)]> (jobs q))) ;;; ret id
        end)%prog q).2; held := held y |}) as Hq.
    { intros i q Ej En. run. rewrite Ej. destruct (jobs (queue y) !! i) eqn:E; simpl.
      - split; [intros k j; simpl; rewrite Ej; apply Hk| |exact Hd].
        intros w j Hj. destruct (Ho w j Hj) as (row & lease & ?). exists row, lease. simpl.
        by rewrite Ej, En.
      - split; simpl; [|intros w j Hj|exact Hd].
        + intros k j. simpl. intros [[<- <-]|[_ ?]]%lookup_insert_Some; [done|by apply Hk].
        + destruct (Ho w j Hj) as (row & lease & Hrow & ?). exists row, lease. simpl.
          rewrite lookup_insert_ne, En by congruence. done. }
    destruct id as [id|]; simpl; [by apply Hq|]. unfold new_id.
    destruct (next_ids (queue y)); [by destruct y|]. by apply Hq.
  - pose proof (claim_next_spec locked lease_seconds (queue y) Hk) as Hc. rewrite H in Hc.
    destruct Hc as (row & Hrow & [Hfree _] & _ & Hjob & ->).
    assert (∀ w j, held y !! w = Some j → ij_id j ≠ ij_id job) as Hne.
    { intros w j Hj E. eapply claimable_not_owned; [|exact Hfree|exact (Ho w j Hj)]. by rewrite E. }
    pose proof (Hk _ _ Hrow : ij_id row = ij_id job) as Hid.
    split; simpl.
    + by apply keyed_put.
    + intros w j [[<- <-]|[_ Hj]]%lookup_insert_Some; [|apply owned_put; eauto].
      exists job, (now (queue y) + seconds lease_seconds). simpl. rewrite lookup_insert_eq.
      split; [done|]. split; [done|]. rewrite Hjob. simpl. split_and!; [done|done|done|].
      unfold seconds. lia.
    + intros w1 w2 j1 j2 [[<- <-]|[_ H1]]%lookup_insert_Some [[<- <-]|[_ H2]]%lookup_insert_Some E;
        [done| | |by apply (Hd _ _ j1 j2)].
      * by destruct (Hne _ _ H2).
      * by destruct (Hne _ _ H1).
  - unfold renew_lease in H. run. destruct (Ho wid job Hw) as (row & lease & Hrow & Ht & Hst & Ha & ?).
    rewrite Hrow, Ht, Hst, Ha, !bool_decide_eq_true_2, Z.eqb_refl in H by done.
    injection H as <- <-. split; simpl.
    + apply keyed_put; [done|]. exact (Hk _ _ Hrow).
    + intros w j Hj. destruct (decide (ij_id j = ij_id job)) as [E|E]; [|apply owned_put; eauto].
      assert (w = wid) as -> by (by apply (Hd w wid j job)). assert (j = job) as -> by congruence.
      exists (renewed_job lease_seconds (now (queue y)) row), (now (queue y) + seconds lease_seconds).
      simpl. rewrite lookup_insert_eq. split_and!; try done. unfold seconds. lia.
    + exact Hd.
  - by apply settle_inv.
  - by apply settle_inv.
  - split; simpl; [done|intros w j [_ ?]%lookup_delete_Some; eauto|].
    intros w1 w2 j1 j2 [_ H1]%lookup_delete_Some [_ H2]%lookup_delete_Some. by apply Hd.
  - split; simpl; [done| |done]. intros w j Hj.
    destruct (Ho w j Hj) as (row & lease & Hrow & ? & ? & ? & Hl & _). exists row, lease.
    split_and!; try done. by apply (Ht w j row).
Qed.

Lemma worker_steps_inv y y' : rtc worker_step y y' → workers_inv y → workers_inv y'.
Proof. induction 1; eauto using worker_step_inv. Qed.

(** C23: while live workers renew before their lease lapses, however enqueues, claims,
    renewals, settlements, crashes and time interleave, no two live workers hold the
    same job, no claim takes a held job, every heartbeat of a holder is accepted, and
    what it settles is the attempt it claimed. *)
Theorem lease_is_exclusive t ids y :
  rtc worker_step {| queue := {| jobs := ∅; now := t; next_ids := ids |}; held := ∅ |} y →
  (∀ w1 w2 j1 j2, held y !! w1 = Some j1 → held y !! w2 = Some j2 → ij_id j1 = ij_id j2 → w1 = w2) ∧
  ∀ wid job, held y !! wid = Some job →
    (** nobody can claim it, *)
    (∀ locked job' q, claim_next locked lease_seconds (queue y) = (Ok (Some job'), q) →
       ij_id job' ≠ ij_id job) ∧
    (** its heartbeat is heard, *)
    (renew_lease job lease_seconds (queue y)).1 = Ok true ∧
    (** and what it settles is its own claim. *)
    ∃ row, jobs (queue y) !! ij_id job = Some row ∧ ij_status row = PROCESSING ∧
           ij_attempts row = ij_attempts job.
Proof.
  intros Hs. destruct (worker_steps_inv _ _ Hs) as [Hk Ho Hd]; [by split|].
  split; [exact Hd|]. intros wid job Hw.
  destruct (Ho wid job Hw) as (row & lease & Hrow & Ht & Hst & Ha & Hl). split_and!; [|..|by eauto].
  - intros locked job' q Hc E. pose proof (claim_next_spec locked lease_seconds (queue y) Hk) as Hn.
    rewrite Hc in Hn. destruct Hn as (row' & Hrow' & [Hfree _] & _).
    eapply claimable_not_owned; [|exact Hfree|exact (Ho wid job Hw)]. by rewrite <- E.
  - unfold renew_lease. run. by rewrite Hrow, Ht, Hst, Ha, !bool_decide_eq_true_2, Z.eqb_refl.
Qed.

(** ** A claim that was lost *)

(** Any operation by anyone, with any handle, at any time. *)
Inductive queue_step (q : Queue) : Queue → Prop :=
  | qs_enqueue c context storage_key job_id :
      queue_step q (enqueue c context storage_key job_id q).2
  | qs_claim locked : queue_step q (claim_next locked lease_seconds q).2
  | qs_renew job : queue_step q (renew_lease job lease_seconds q).2
  | qs_done job document_id chunks warnings :
      queue_step q (mark_done job document_id chunks warnings q).2
  | qs_failed job error : queue_step q (mark_failed backoff job error q).2
  | qs_time t : queue_step q {| jobs := jobs q; now := t; next_ids := next_ids q |}.

(** Rows stay, and their counts only grow. *)
Definition counts_grow (q q' : Queue) : Prop :=
  ∀ k row, jobs q !! k = Some row →
    ∃ row', jobs q' !! k = Some row' ∧ ij_attempts row <= ij_attempts row' ∧
            ij_tenant_id row' = ij_tenant_id row.

#[export] Instance counts_grow_preorder : PreOrder counts_grow.
Proof.
  split; [intros q k row Hk; by exists row|].
  intros q1 q2 q3 H1 H2 k row Hk. destruct (H1 k row Hk) as (r2 & Hk2 & ? & ?).
  destruct (H2 k r2 Hk2) as (r3 & ? & ? & ?). exists r3. split_and!; [done|lia|congruence].
Qed.

Lemma put_grows q k row j :
  jobs q !! k = Some row → ij_attempts row <= ij_attempts j → ij_tenant_id j = ij_tenant_id row →
  counts_grow q (set_jobs (<[k := j]> (jobs q)) q).
Proof.
  intros Hrow Ha Ht k' r Hk'. simpl. destruct (decide (k = k')) as [<-|Hne].
  - exists j. rewrite lookup_insert_eq. assert (r = row) as -> by congruence. done.
  - exists r. by rewrite lookup_insert_ne.
Qed.

Lemma queue_step_grows q q' : jobs_keyed q → queue_step q q' → jobs_keyed q' ∧ counts_grow q q'.
Proof.
  intros Hk Hs. destruct Hs as [c context key id|locked|job|job d n ws|job e|t].
  - assert (∀ id q0, jobs q0 = jobs q → let q1 := ((let! q := get_state in
        match jobs q !! id with
        | Some _ => raise (IntegrityError "ingest_jobs_pkey")
                      "duplicate key value violates unique constraint"
        | None => modify (set_jobs (<[id := queued_job c context key id (now q)]> (jobs q))) ;;; ret id
        end)%prog q0).2 in jobs_keyed q1 ∧ counts_grow q q1) as Hq.
    { intros i q0 Ej. cbv zeta. run. rewrite Ej. destruct (jobs q !! i) eqn:E; simpl.
      - split; [intros k j; simpl; rewrite Ej; apply Hk|].
        intros k r Hr. exists r. by rewrite Ej.
      - split.
        + intros k j. simpl. intros [[<- <-]|[_ ?]]%lookup_insert_Some; [done|by apply Hk].
        + intros k r Hr. exists r. simpl. by rewrite lookup_insert_ne by congruence. }
    unfold enqueue, bind. destruct id as [id|]; simpl; [by apply Hq|]. unfold new_id.
    destruct (next_ids q); [done|]. by apply Hq.
  - pose proof (claim_next_spec locked lease_seconds q Hk) as Hc.
    destruct (claim_next locked lease_seconds q) as [[[job|]|] q']; [|by destruct Hc as [-> _]|done].
    destruct Hc as (row & Hrow & _ & _ & Hj & ->). split.
    + by apply keyed_put.
    + apply (put_grows _ _ row); [done|rewrite Hj; simpl; lia|by rewrite Hj].
  - unfold renew_lease. run. destruct (jobs q !! ij_id job) as [row|] eqn:E; simpl; [|done].
    destruct (_ && _); simpl; [|done]. split; [apply keyed_put; [done|exact (Hk _ _ E)]|].
    by apply (put_grows _ _ row).
  - unfold mark_done. rewrite update_job_run. simpl. destruct (jobs q !! ij_id job) as [row|] eqn:E; [|done].
    destruct (bool_decide _); [|done]. split; [apply keyed_put; [done|exact (Hk _ _ E)]|].
    by apply (put_grows _ _ row).
  - unfold mark_failed. rewrite update_job_run. simpl. destruct (jobs q !! ij_id job) as [row|] eqn:E; [|done].
    destruct (bool_decide _); [|done]. split; [apply keyed_put; [done|exact (Hk _ _ E)]|].
    by apply (put_grows _ _ row).
  - split; [exact Hk|]. intros k r Hr. by exists r.
Qed.

Lemma queue_steps_grow q q' : rtc queue_step q q' → jobs_keyed q → jobs_keyed q' ∧ counts_grow q q'.
Proof.
  induction 1 as [q|q1 q2 q3 Hs _ IH]; intros Hk; [split; [done|reflexivity]|].
  destruct (queue_step_grows q1 q2 Hk Hs) as [Hk2 H12]. destruct (IH Hk2) as [Hk3 H23].
  split; [done|]. by transitivity q2.
Qed.

(** Once a job has been claimed again, the handle of an earlier claim can never renew a
    lease, whatever happens to the queue afterwards. *)
Theorem reclaimed_lease_stays_lost locked q job q1 q2 handle :
  jobs_keyed q → claim_next locked lease_seconds q = (Ok (Some job), q1) → rtc queue_step q1 q2 →
  (** an earlier claim of the same job *)
  ij_id handle = ij_id job → ij_attempts handle < ij_attempts job →
  renew_lease handle lease_seconds q2 = (Ok false, q2).
Proof.
  intros Hk Hc Hs Hid Ha. pose proof (claim_next_spec locked lease_seconds q Hk) as Hn. rewrite Hc in Hn.
  destruct Hn as (row & Hrow & _ & _ & Hj & ->).
  assert (ij_id job = ij_id row) as Hir by (by rewrite Hj).
  destruct (queue_steps_grow _ _ Hs) as [_ Hg]; [by apply keyed_put|].
  destruct (Hg (ij_id job) job) as (row2 & Hrow2 & Hle & _); [simpl; by rewrite lookup_insert_eq|].
  unfold renew_lease. run. rewrite Hid, Hrow2.
  rewrite (proj2 (Z.eqb_neq (ij_attempts row2) _)) by lia. by rewrite andb_false_r.
Qed.
End Leases.

(** ** One turn of the consumer *)

(** Processing leaves the job's row to its claim: a heartbeat may move the
    lease. *)
Definition keeps_claim {A} (m : M Queue A) (job : IngestJob) : Prop := ∀ q row,
  jobs q !! ij_id job = Some row →
  now (m q).2 = now q ∧
  ∃ row', jobs (m q).2 !! ij_id job = Some row' ∧ ij_tenant_id row' = ij_tenant_id row ∧
          ij_attempts row' = ij_attempts row ∧ ij_max_attempts row' = ij_max_attempts row.

(** A turn of the consumer never raises and never leaves the job it claimed in processing:
    the job is done with its document, queued again after an exponential backoff while
    attempts remain, or failed when they are spent. *)
Theorem turn_settles_its_job backoff components locked lease_seconds timeout_error q job q1 :
  jobs_keyed q → claim_next locked lease_seconds q = (Ok (Some job), q1) →
  keeps_claim (parse components job) job → (∀ text, keeps_claim (index components job text) job) →
  ∃ q2 row,
    drain_one backoff components locked lease_seconds timeout_error q = (Ok tt, q2) ∧
    jobs q2 !! ij_id job = Some row ∧ ij_lease_until row = None ∧
    match ij_status row with
    | DONE => is_Some (ij_document_id row)
    | QUEUED => ij_attempts job < ij_max_attempts job ∧
                ij_available_at row = now q + _backoff backoff (ij_attempts job)
    | FAILED => ij_max_attempts job <= ij_attempts job
    | PROCESSING => False
    end.
Proof.
  intros Hk Hc Hp Hi. pose proof (claim_next_spec locked lease_seconds q Hk) as Hn. rewrite Hc in Hn.
  destruct Hn as (row0 & Hrow0 & _ & _ & Hj & Hq1).
  assert (jobs q1 !! ij_id job = Some job) as Hq1j by (by rewrite Hq1; simpl; rewrite lookup_insert_eq).
  assert (now q1 = now q) as Hnow by (by rewrite Hq1).
  set (held := λ q', now q' = now q ∧ ∃ row, jobs q' !! ij_id job = Some row ∧
    ij_tenant_id row = ij_tenant_id job).
  assert (∀ q' e, held q' → ∃ q2 row, mark_failed backoff job e q' = (Ok tt, q2) ∧
    jobs q2 !! ij_id job = Some row ∧ ij_lease_until row = None ∧
    match ij_status row with
    | DONE => is_Some (ij_document_id row)
    | QUEUED => ij_attempts job < ij_max_attempts job ∧
                ij_available_at row = now q + _backoff backoff (ij_attempts job)
    | FAILED => ij_max_attempts job <= ij_attempts job
    | PROCESSING => False
    end) as Hfail.
  { intros q' e (Hn' & r & Hr & Ht). unfold mark_failed. rewrite update_job_run, Hr.
    rewrite bool_decide_eq_true_2 by done. eexists _, _. split; [done|]. simpl.
    rewrite lookup_insert_eq. split; [done|]. split; [done|]. simpl.
    destruct (Z.leb_spec (ij_max_attempts job) (ij_attempts job)); [done|]. by rewrite Hn'. }
  unfold drain_one, bind at 1. rewrite Hc. unfold try_except, _process, bind.
  pose proof (Hp q1 job Hq1j) as (Hnp & rp & Hrp & Htp & _).
  destruct (parse components job q1) as [[parsed|e] qp]; simpl in *.
  2: { destruct (isinstance e TimeoutError); apply Hfail; split; eauto; congruence. }
  destruct (negb (py_truthy (py_strip parsed.1))); simpl.
  { apply Hfail. split; [congruence|eauto]. }
  pose proof (Hi parsed.1 qp rp Hrp) as (Hni & ri & Hri & Hti & _).
  destruct (index components job parsed.1 qp) as [[result|e] qi]; simpl in *.
  2: { destruct (isinstance e TimeoutError); apply Hfail; split; try congruence; exists ri; split; congruence. }
  unfold mark_done. rewrite update_job_run, Hri, bool_decide_eq_true_2 by congruence.
  eexists _, _. split; [done|]. simpl. rewrite lookup_insert_eq. split; [done|]. split; [done|]. by eexists.
Qed.

(** The same queue at another time. *)
Definition at_time (t : datetime) (q : Queue) : Queue :=
  {| jobs := jobs q; now := t; next_ids := next_ids q |}.

(** A worker that lost its lease and then fails puts the job back in the queue although
    another worker finished it, since settling does not check the claim. *)
Theorem late_failure_reopens_done_job backoff lease_seconds l1 l2 q job1 q1 t job2 q2
    document_id chunks warnings q3 error :
  jobs_keyed q →
  claim_next l1 lease_seconds q = (Ok (Some job1), q1) →
  (** its lease lapses, another worker takes the job over and finishes it *)
  claim_next l2 lease_seconds (at_time t q1) = (Ok (Some job2), q2) → ij_id job2 = ij_id job1 →
  mark_done job2 document_id chunks warnings q2 = (Ok tt, q3) →
  (** then the first worker fails *)
  ij_attempts job1 < ij_max_attempts job1 →
  ∃ q4 row, mark_failed backoff job1 error q3 = (Ok tt, q4) ∧
    jobs q4 !! ij_id job1 = Some row ∧ ij_status row = QUEUED ∧
    ij_document_id row = Some document_id ∧
    claimable (t + _backoff backoff (ij_attempts job1)) row = true.
Proof.
  intros Hk H1 H2 Hid Hd Hle.
  pose proof (claim_next_spec l1 lease_seconds q Hk) as Hc. rewrite H1 in Hc.
  destruct Hc as (r1 & Hr1 & _ & _ & Hj1 & ->).
  assert (jobs_keyed (at_time t (set_jobs (<[ij_id job1 := job1]> (jobs q)) q))) as Hk1
    by (exact (keyed_put q _ job1 Hk eq_refl)).
  pose proof (claim_next_spec l2 lease_seconds _ Hk1) as Hc. rewrite H2 in Hc.
  destruct Hc as (r2 & Hr2 & _ & _ & Hj2 & ->). simpl in Hr2. rewrite Hid, lookup_insert_eq in Hr2.
  injection Hr2 as <-. unfold mark_done in Hd. rewrite update_job_run in Hd. simpl in Hd.
  rewrite lookup_insert_eq, bool_decide_eq_true_2 in Hd by done. injection Hd as <-.
  unfold mark_failed. rewrite update_job_run. simpl. rewrite Hid, lookup_insert_eq. simpl.
  rewrite bool_decide_eq_true_2 by (by rewrite Hj2). eexists _, _. split; [done|]. simpl.
  rewrite lookup_insert_eq. split; [done|]. unfold claimable, failed_job. simpl.
  rewrite (proj2 (Z.leb_gt _ _)) by done. simpl. by rewrite Z.leb_refl.
Qed.

(** ** A concrete queue *)

Definition example_uploader : AccessContext :=
  {| tenant_id := 1; workspace_id := 2; principal_id := 3; roles := ∅; groups := ∅; scopes := ∅;
     clearance := "internal"; plan_id := "pro"; feature_flags := ∅; record_visibility := "open";
     visible_owners := None; max_autonomy_level := A4; support := None |}.

Definition example_command : EnqueueIngestCommand :=
  {| ec_title := "Minutes"; ec_filename := "m.txt"; ec_content_type := "text/plain";
     ec_identity_key := None; ec_domain := "shared"; ec_classification := "internal";
     ec_source_version := "1"; ec_scope := "tenant"; ec_extra := []; ec_acl_principals := [] |}.

Definition example_empty : Queue := {| jobs := ∅; now := 1000; next_ids := [] |}.
Definition example_row : IngestJob :=
  queued_job example_command example_uploader "k" 7 1000.
Definition example_queue : Queue := set_jobs {[ 7%N := example_row ]} example_empty.
Definition example_first : IngestJob := claimed_job 900 1000 example_row.
Definition example_claimed : Queue := set_jobs {[ 7%N := example_first ]} example_queue.
Definition example_late : datetime := 1000 + seconds 901.
Definition example_second : IngestJob := claimed_job 900 example_late example_first.

Lemma example_queue_keyed : jobs_keyed example_queue.
Proof. intros k j. simpl. by intros [<- <-]%lookup_singleton_Some. Qed.

Lemma example_claims :
  claim_next ∅ 900 example_queue = (Ok (Some example_first), example_claimed).
Proof. reflexivity. Qed.

Definition example_retaken : Queue :=
  set_jobs {[ 7%N := example_second ]} (at_time example_late example_claimed).

Lemma example_reclaims :
  claim_next ∅ 900 (at_time example_late example_claimed) = (Ok (Some example_second), example_retaken).
Proof. reflexivity. Qed.

Lemma claim_takes_earliest_witness :
  ∃ row, jobs example_queue !! 7%N = Some row ∧ example_first = claimed_job 900 1000 row.
Proof.
  pose proof (claim_takes_earliest ∅ 900 example_queue example_queue_keyed) as H.
  rewrite example_claims in H. destruct H as (row & Hr & _ & _ & Hj & _). exists row. split; assumption.
Defined.

Lemma lease_is_exclusive_witness :
  let y := {| queue := example_claimed; held := {[ 0%nat := example_first ]} |} in
  (renew_lease example_first 900 (queue y)).1 = Ok true.
Proof.
  intros y.
  destruct (lease_is_exclusive 30 900 ltac:(lia) 1000 [] y) as [_ H].
  - eapply rtc_l; [apply (ws_enqueue 30 900 _ example_command example_uploader "k" (Some 7%N))|].
    eapply rtc_l; [|apply rtc_refl].
    exact (ws_claim 30 900 {| queue := example_queue; held := ∅ |} 0 ∅ example_first example_claimed
      eq_refl example_claims).
  - apply (H 0%nat example_first). reflexivity.
Defined.

Lemma reclaimed_lease_stays_lost_witness :
  renew_lease example_first 900 (mark_failed 30 example_second "x" example_retaken).2
    = (Ok false, (mark_failed 30 example_second "x" example_retaken).2).
Proof.
  apply (reclaimed_lease_stays_lost 30 900 ∅ (at_time example_late example_claimed) example_second
    example_retaken _ example_first).
  - intros k j. simpl. by intros [<- <-]%lookup_singleton_Some.
  - exact example_reclaims.
  - apply rtc_once, qs_failed.
  - reflexivity.
  - reflexivity.
Defined.

Lemma turn_settles_its_job_witness :
  let components := {| parse _ := ret ("text"%py, []); index _ _ := ret (9%N, 1) |} in
  ∃ q2 row, drain_one 30 components ∅ 900 "late" example_queue = (Ok tt, q2) ∧
    jobs q2 !! 7%N = Some row ∧ ij_lease_until row = None.
Proof.
  intros components.
  destruct (turn_settles_its_job 30 components ∅ 900 "late" example_queue example_first example_claimed
    example_queue_keyed example_claims) as (q2 & row & Hd & Hr & Hl & _).
  - intros q row Hrow. split; [reflexivity|]. exists row. repeat split. exact Hrow.
  - intros text q row Hrow. split; [reflexivity|]. exists row. repeat split. exact Hrow.
  - exists q2, row. repeat split; assumption.
Defined.

Lemma late_failure_reopens_done_job_witness :
  let q3 := (mark_done example_second 9 1 [] example_retaken).2 in
  ∃ q4 row, mark_failed 30 example_first "timeout" q3 = (Ok tt, q4) ∧
    jobs q4 !! 7%N = Some row ∧ ij_status row = QUEUED ∧ ij_document_id row = Some 9%N.
Proof.
  intros q3.
  destruct (late_failure_reopens_done_job 30 900 ∅ ∅ example_queue example_first example_claimed
    example_late example_second example_retaken 9 1 [] q3 "timeout" example_queue_keyed example_claims
    example_reclaims eq_refl eq_refl ltac:(reflexivity)) as (q4 & row & H1 & H2 & H3 & H4 & _).
  exists q4, row. repeat split; assumption.
Defined.
