(* ===== verification/Outbox.v ===== *)
(** * Draining the outbox

    [adapters/persistence/outbox_drain.py], the cross-tenant side of the table
    the domain writes its events to, and [dw_worker/consumers/outbox.py], the
    dispatcher.  A drain session sets [app.worker_drain] instead of a tenant, so
    its statements see every tenant's rows. *)

From S2P Require Import Prelude Errors Kernel Domain Contracts Store.
Local Open Scope prog_scope.
Local Open Scope pystr_scope.

(** ** [outbox_drain.py] *)

Definition DRAIN_ERROR_LIMIT : nat := 2000.

(** The rows the drain may hand out. *)
Definition pending (event_types : list pystr) (max_attempts : Z) (e : OutboxEvent) : bool :=
  bool_decide (oe_processed_at e = None) && bool_decide (oe_event_type e ∈ event_types)
  && (oe_attempts e <? max_attempts)%Z.

(** [ORDER BY occurred_at]; also [events.sort(key=occurred_at)]. *)
Fixpoint insert_by_time (e : OutboxEvent) (l : list OutboxEvent) : list OutboxEvent :=
  match l with
  | [] => [e]
  | f :: r => if (oe_occurred_at e <=? oe_occurred_at f)%Z then e :: l else f :: insert_by_time e r
  end.
Definition by_time (l : list OutboxEvent) : list OutboxEvent := foldr insert_by_time [] l.

Definition set_delivery (attempts : Z) (processed_at : option datetime) (last_error : option pystr)
    (e : OutboxEvent) : OutboxEvent :=
  {| oe_id := oe_id e; oe_tenant_id := oe_tenant_id e; oe_workspace_id := oe_workspace_id e;
     oe_event_type := oe_event_type e; oe_schema_version := oe_schema_version e;
     oe_aggregate_id := oe_aggregate_id e; oe_occurred_at := oe_occurred_at e;
     oe_payload := oe_payload e; oe_correlation_id := oe_correlation_id e;
     oe_causation_id := oe_causation_id e; oe_actor_id := oe_actor_id e;
     oe_processed_at := processed_at; oe_attempts := attempts; oe_last_error := last_error |}.

Definition count_attempt (e : OutboxEvent) : OutboxEvent :=
  set_delivery (oe_attempts e + 1) (oe_processed_at e) (oe_last_error e) e.

(** An [UPDATE] of a drain session. *)
Definition drain_update (p : OutboxEvent → bool) (f : OutboxEvent → OutboxEvent) : Prog unit :=
  modify (λ w, set_db (set_tbl (update_rows p f (t_outbox (db w))) (db w)) w).

(** [locked]: the rows other drains hold at the moment ([SKIP LOCKED]). *)
Definition claim_batch (locked : gset uuid) (event_types : list pystr) (limit : nat)
    (max_attempts : Z) : Prog (list OutboxEvent) :=
  match event_types with
  | [] => ret []
  | _ =>
      session_begin (
        let! rows := gets (λ w, (map_to_list (t_outbox (db w))).*2) in
        let claimed := take limit (by_time (filter (λ e,
          pending event_types max_attempts e && negb (bool_decide (oe_id e ∈ locked)) = true) rows)) in
        match claimed with
        | [] => ret []
        | _ =>
            drain_update (λ e, bool_decide (oe_id e ∈ oe_id <$> claimed)) count_attempt ;;;
            ret (by_time (count_attempt <$> claimed))
        end)
  end.

Definition mark_processed (event_id : uuid) : Prog unit :=
  session_begin (
    let! now := now_utc in
    drain_update (λ e, bool_decide (oe_id e = event_id) && bool_decide (oe_processed_at e = None))
      (λ e, set_delivery (oe_attempts e) (Some now) None e)).

Definition record_failure (event_id : uuid) (error : pystr) : Prog unit :=
  session_begin (
    drain_update (λ e, bool_decide (oe_id e = event_id))
      (λ e, set_delivery (oe_attempts e) (oe_processed_at e)
              (Some (PyStr (take DRAIN_ERROR_LIMIT (chars error)))) e)).

Record OutboxBacklog := { ob_pending : nat; ob_oldest_pending_at : option datetime }.

Definition earlier (a : option datetime) (e : OutboxEvent) : option datetime :=
  match a with
  | None => Some (oe_occurred_at e)
  | Some t => Some (Z.min t (oe_occurred_at e))
  end.

Definition backlog (event_types : list pystr) (max_attempts : Z) : Prog OutboxBacklog :=
  match event_types with
  | [] => ret {| ob_pending := 0; ob_oldest_pending_at := None |}
  | _ =>
      session_begin (gets (λ w,
        let rows := filter (λ e, pending event_types max_attempts e = true)
                      (map_to_list (t_outbox (db w))).*2 in
        {| ob_pending := length rows; ob_oldest_pending_at := foldl earlier None rows |}))
  end.

(** ** [consumers/outbox.py] *)

Definition CONSUMER_ERROR_LIMIT : nat := 500.

(** Delivers one event, and says in a few words what it did. *)
Definition EventHandler : Type := OutboxEvent → Prog pystr.

Definition UndeliverableEventError : exn_class := OtherException "UndeliverableEventError".

Definition failure_text (exc : exn) : pystr :=
  let text := if bool_decide (exn_cls exc = UndeliverableEventError) then exn_message exc
              else class_name (exn_cls exc) +++ ": " +++ exn_message exc in
  PyStr (take CONSUMER_ERROR_LIMIT (chars text)).

Definition _deliver (event : OutboxEvent) (handler : EventHandler) : Prog unit := λ w,
  let '(outcome, w) := handler event w in
  match outcome with
  | Raise exc => record_failure (oe_id event) (failure_text exc) w
  | Ok _ => mark_processed (oe_id event) w
  end.

Definition set_gauge (name : pystr) (value : Z) : Prog unit := modify (add_effect (name, JInt value)).

Section Consumer.
Context (handlers : gmap pystr EventHandler) (batch_size : nat) (max_attempts : Z).

Definition event_types : list pystr := py_sorted (map_to_list handlers).*1.

Fixpoint deliver_all (events : list OutboxEvent) : Prog unit :=
  match events with
  | [] => ret tt
  | event :: rest =>
      match handlers !! oe_event_type event with
      | None => raise (OtherException "KeyError") (oe_event_type event)
      | Some handler => _deliver event handler ;;; deliver_all rest
      end
  end.

(** One tick; the age is in microseconds. *)
Definition consume (locked : gset uuid) : Prog unit :=
  let! events := claim_batch locked event_types batch_size max_attempts in
  deliver_all events ;;;
  let! b := backlog event_types max_attempts in
  set_gauge "dw_outbox_backlog_size" (Z.of_nat (ob_pending b)) ;;;
  let! age := match ob_oldest_pending_at b with
              | Some oldest => let! now := now_utc in ret (now - oldest)%Z
              | None => ret 0%Z
              end in
  set_gauge "dw_outbox_oldest_pending_age_seconds" age.
End Consumer.

(** ** Lemmas *)

Abbreviation outbox w := (t_outbox (db w)).

Lemma elem_of_insert_by_time e l x : x ∈ insert_by_time e l ↔ x = e ∨ x ∈ l.
Proof.
  induction l as [|f r IH]; simpl; [by rewrite list_elem_of_singleton, elem_of_nil; naive_solver|].
  destruct (_ <=? _)%Z; rewrite !elem_of_cons, ?IH; naive_solver.
Qed.

Lemma insert_by_time_perm e l : insert_by_time e l ≡ₚ e :: l.
Proof.
  induction l as [|f r IH]; simpl; [done|]. destruct (_ <=? _)%Z; [done|].
  rewrite IH. apply perm_swap.
Qed.

Lemma by_time_perm l : by_time l ≡ₚ l.
Proof. induction l as [|e r IH]; simpl; [done|]. by rewrite insert_by_time_perm, IH. Qed.

(** The rows of a table, by their ids. *)
Lemma rows_nodup (t : gmap uuid OutboxEvent) : keyed t → NoDup (oe_id <$> (map_to_list t).*2).
Proof.
  intros Hk. rewrite <- list_fmap_compose.
  rewrite (list_fmap_ext _ fst); [apply NoDup_fst_map_to_list|].
  intros i [k r] Hin. apply list_elem_of_lookup_2, elem_of_map_to_list in Hin. apply (Hk _ _ Hin).
Qed.

Lemma elem_of_outbox_rows (t : gmap uuid OutboxEvent) e :
  keyed t → e ∈ (map_to_list t).*2 ↔ t !! oe_id e = Some e.
Proof.
  intros Hk. rewrite list_elem_of_fmap. split.
  - intros ([k e'] & -> & Hin%elem_of_map_to_list). simpl. by rewrite (Hk _ _ Hin : oe_id e' = k).
  - intros Hin. exists (oe_id e, e). by rewrite elem_of_map_to_list.
Qed.

(** What a claim hands out, and what it leaves. *)
Lemma claim_batch_spec locked types limit max_attempts w :
  clean w → keyed (outbox w) →
  ∃ events w', claim_batch locked types limit max_attempts w = (Ok events, w') ∧ clean w' ∧
    NoDup (oe_id <$> events) ∧
    (∀ e, e ∈ events → ∃ row, outbox w !! oe_id e = Some row ∧ e = count_attempt row ∧
       pending types max_attempts row = true ∧ oe_id e ∉ locked) ∧
    outbox w' = update_rows (λ e, bool_decide (oe_id e ∈ oe_id <$> events)) count_attempt (outbox w).
Proof.
  intros Hc Hk. unfold claim_batch.
  assert (∀ w' : World, clean w' → outbox w' = outbox w →
    ∃ events w'', (Ok (A := list OutboxEvent) [], w') = (Ok events, w'') ∧ clean w'' ∧
    NoDup (oe_id <$> events) ∧
    (∀ e, e ∈ events → ∃ row, outbox w !! oe_id e = Some row ∧ e = count_attempt row ∧
       pending types max_attempts row = true ∧ oe_id e ∉ locked) ∧
    outbox w'' = update_rows (λ e, bool_decide (oe_id e ∈ oe_id <$> events)) count_attempt (outbox w))
    as Hnone.
  { intros w' Hc' Hw'. exists [], w'. split; [done|]. split; [done|]. split; [constructor|].
    split; [by intros e []%not_elem_of_nil|]. rewrite Hw', update_rows_none; [done|].
    intros k r _. by apply bool_decide_eq_false, not_elem_of_nil. }
  destruct types as [|t0 types0]; [by apply Hnone|]. set (types := t0 :: types0) in *.
  unfold session_begin, bind, gets. cbn beta iota zeta.
  set (l := by_time _). set (claimed := take limit l).
  assert (NoDup (oe_id <$> claimed) ∧ ∀ e, e ∈ claimed → outbox w !! oe_id e = Some e ∧
    pending types max_attempts e = true ∧ oe_id e ∉ locked) as [Hnd Hin].
  { split.
    - refine (sublist_NoDup _ (oe_id <$> l) _ _).
      + unfold l. rewrite by_time_perm.
        refine (sublist_NoDup _ _ (rows_nodup _ Hk) _). apply fmap_sublist, sublist_filter.
      + apply fmap_sublist, sublist_take.
    - intros e He. assert (e ∈ l) as Hl by (eapply elem_of_sublist; [exact He|apply sublist_take]).
      unfold l in Hl. rewrite by_time_perm in Hl. apply list_elem_of_filter in Hl as [Hp Hl].
      apply elem_of_outbox_rows in Hl; [|done]. by to_prop. }
  destruct claimed as [|e0 rest] eqn:Ecl.
  { unfold ret. apply Hnone; [done|]. done. }
  rewrite <- Ecl in *. unfold drain_update, modify, ret. simpl.
  eexists (by_time (count_attempt <$> claimed)), _. split; [done|]. split; [done|].
  assert (oe_id <$> (count_attempt <$> claimed) = oe_id <$> claimed) as Hids
    by (by rewrite <- list_fmap_compose).
  split; [by rewrite by_time_perm, Hids|]. split.
  - intros e. rewrite by_time_perm. intros (row & -> & Hrow)%list_elem_of_fmap.
    destruct (Hin row Hrow) as (? & ? & ?). by exists row.
  - simpl. apply map_eq. intros k. rewrite !lookup_update_rows. destruct (_ !! k) as [r|]; [|done].
    simpl. f_equal. erewrite (bool_decide_ext (oe_id r ∈ oe_id <$> by_time _)); [done|].
    by rewrite by_time_perm, Hids.
Qed.

(** A handler may write what it likes, but it ends, commits or rolls back, and
    leaves the events that are there. *)
Definition handler_ok (h : EventHandler) : Prop := ∀ e w,
  clean w → keyed (outbox w) →
  let w' := (h e w).2 in
  clean w' ∧ keyed (outbox w') ∧ ∀ k r, outbox w !! k = Some r → outbox w' !! k = Some r.

(** What a delivery leaves of its event. *)
Definition settled (e e' : OutboxEvent) : Prop :=
  oe_attempts e' = oe_attempts e ∧
  (is_Some (oe_processed_at e') ∧ oe_last_error e' = None ∨
   oe_processed_at e' = oe_processed_at e ∧ is_Some (oe_last_error e')).

Lemma drain_row p f w id r :
  keyed (outbox w) → (∀ e, oe_id (f e) = oe_id e) → outbox w !! id = Some r →
  (∀ e, p e = true → oe_id e = id) → p r = true →
  let t := update_rows p f (outbox w) in
  keyed t ∧ t !! id = Some (f r) ∧ ∀ k r', k ≠ id → outbox w !! k = Some r' → t !! k = Some r'.
Proof.
  intros Hk Hf Hr Hp Hpr. split_and!.
  - by apply keyed_update.
  - by rewrite lookup_update_rows, Hr; simpl; rewrite Hpr.
  - intros k r' Hne Hr'. rewrite lookup_update_rows, Hr'. simpl. destruct (p r') eqn:E; [|done].
    destruct Hne. rewrite <- (Hk _ _ Hr'). by apply Hp.
Qed.

Lemma deliver_spec event h w :
  handler_ok h → clean w → keyed (outbox w) → outbox w !! oe_id event = Some event →
  oe_processed_at event = None →
  ∃ w', _deliver event h w = (Ok tt, w') ∧ clean w' ∧ keyed (outbox w') ∧
    (∃ e', outbox w' !! oe_id event = Some e' ∧ settled event e') ∧
    ∀ k r, k ≠ oe_id event → outbox w !! k = Some r → outbox w' !! k = Some r.
Proof.
  intros Hh Hc Hk He Hp. unfold _deliver. pose proof (Hh event w Hc Hk) as (Hc1 & Hk1 & Hkeep).
  destruct (h event w) as [[a|exc] w1]; simpl in *.
  - unfold mark_processed, session_begin, bind, now_utc, drain_update, modify. simpl.
    set (f := λ e, set_delivery (oe_attempts e) (Some (utc w1 (utc_reads w1))) None e).
    pose proof (drain_row (λ e, bool_decide (oe_id e = oe_id event)
      && bool_decide (oe_processed_at e = None)) f w1 (oe_id event) event Hk1) as H.
    destruct H as (H1 & H2 & H3); [done|by apply Hkeep|intros; by to_prop| |].
    + by rewrite !bool_decide_eq_true_2.
    + eexists. split; [done|]. simpl. split; [done|]. split; [done|]. split.
      * eexists. split; [exact H2|]. split; [done|]. left. split; [by eexists|done].
      * intros k r Hne Hr. apply H3; [done|]. by apply Hkeep.
  - unfold record_failure, session_begin, drain_update, modify. simpl.
    set (f := λ e, set_delivery (oe_attempts e) (oe_processed_at e) _ e).
    pose proof (drain_row (λ e, bool_decide (oe_id e = oe_id event)) f w1 (oe_id event) event Hk1) as H.
    destruct H as (H1 & H2 & H3); [done|by apply Hkeep|intros; by to_prop| |].
    + by rewrite bool_decide_eq_true_2.
    + eexists. split; [done|]. simpl. split; [done|]. split; [done|]. split.
      * eexists. split; [exact H2|]. split; [done|]. right. split; [done|by eexists].
      * intros k r Hne Hr. apply H3; [done|]. by apply Hkeep.
Qed.

Section Tick.
Context (handlers : gmap pystr EventHandler) (Hhandlers : ∀ t h, handlers !! t = Some h → handler_ok h).

Lemma deliver_all_spec events : ∀ w,
  clean w → keyed (outbox w) → NoDup (oe_id <$> events) →
  (∀ e, e ∈ events → outbox w !! oe_id e = Some e ∧ oe_processed_at e = None ∧
                     is_Some (handlers !! oe_event_type e)) →
  ∃ w', deliver_all handlers events w = (Ok tt, w') ∧ clean w' ∧ keyed (outbox w') ∧
    (∀ e, e ∈ events → ∃ e', outbox w' !! oe_id e = Some e' ∧ settled e e') ∧
    ∀ k r, k ∉ oe_id <$> events → outbox w !! k = Some r → outbox w' !! k = Some r.
Proof.
  induction events as [|e rest IH]; intros w Hc Hk Hnd Hin.
  - exists w. split_and!; try done. by intros e []%not_elem_of_nil.
  - apply NoDup_cons in Hnd as [Hni Hnd]. destruct (Hin e) as (He & Hp & [h Hh]); [by left|].
    destruct (deliver_spec e h w (Hhandlers _ _ Hh) Hc Hk He Hp)
      as (w1 & H1 & Hc1 & Hk1 & (e' & He' & Hs) & Hkeep).
    destruct (IH w1 Hc1 Hk1 Hnd) as (w2 & H2 & Hc2 & Hk2 & Hev & Hkeep2).
    { intros x Hx. destruct (Hin x) as (Hxr & ? & ?); [by right|]. split; [|done].
      apply Hkeep; [|done]. intros E. apply Hni. rewrite <- E. by apply list_elem_of_fmap_2. }
    exists w2. simpl. rewrite Hh. unfold bind. rewrite H1. split_and!; try done.
    + intros x [->|Hx]%elem_of_cons; [|by apply Hev]. exists e'. split; [|done]. by apply Hkeep2.
    + intros k r Hnk Hr. apply not_elem_of_cons in Hnk as [Hne Hnk]. apply Hkeep2, Hkeep; done.
Qed.

Lemma elem_of_py_sorted s l : s ∈ py_sorted l ↔ s ∈ l.
Proof.
  assert (∀ x l, s ∈ insert_sorted x l ↔ s = x ∨ s ∈ l) as Hi.
  { intros x l'. induction l' as [|y r IH]; simpl; [by rewrite list_elem_of_singleton, elem_of_nil; naive_solver|].
    destruct (chars_leb _ _); rewrite !elem_of_cons, ?IH; naive_solver. }
  unfold py_sorted. induction l as [|x r IH]; simpl; [done|]. rewrite Hi, IH, elem_of_cons. done.
Qed.

(** A tick never raises, whatever the handlers do with their own data; each event it takes
    up was pending and unlocked, has its attempt counted and ends either processed or
    with the failure recorded, and every other event is unchanged. *)
Theorem tick_settles_its_events batch_size max_attempts locked w :
  clean w → keyed (outbox w) →
  ∃ w', consume handlers batch_size max_attempts locked w = (Ok tt, w') ∧
    ∀ k e, outbox w !! k = Some e →
      ∃ e', outbox w' !! k = Some e' ∧
        (e' = e ∨
         pending (event_types handlers) max_attempts e = true ∧ k ∉ locked ∧
         settled (count_attempt e) e').
Proof.
  intros Hc Hk. destruct (claim_batch_spec locked (event_types handlers) batch_size max_attempts w Hc Hk)
    as (events & w1 & H1 & Hc1 & Hnd & Hin & Hout).
  assert (keyed (outbox w1)) as Hk1 by (rewrite Hout; by apply keyed_update).
  destruct (deliver_all_spec events w1 Hc1 Hk1 Hnd) as (w2 & H2 & Hc2 & Hk2 & Hev & Hkeep).
  { intros e He. destruct (Hin e He) as (row & Hrow & -> & Hp & _). split_and!.
    - rewrite Hout, lookup_update_rows, Hrow. simpl. rewrite bool_decide_eq_true_2; [done|].
      change (oe_id row) with (oe_id (count_attempt row)). by apply list_elem_of_fmap_2.
    - unfold pending in Hp. by to_prop.
    - unfold pending in Hp. to_prop. simpl.
      match goal with Ht : oe_event_type row ∈ _ |- _ => revert Ht end. unfold event_types.
      rewrite elem_of_py_sorted. intros ([t h] & -> & Hh%elem_of_map_to_list)%list_elem_of_fmap.
      by exists h. }
  unfold consume, bind. rewrite H1, H2.
  set (tail := backlog _ _ w2). destruct tail as [[b|e] w3] eqn:Eb.
  2: { exfalso. revert Eb. unfold tail, backlog, session_begin, gets. by destruct (event_types handlers). }
  assert (outbox w3 = outbox w2) as Hw3.
  { revert Eb. unfold tail, backlog, session_begin, gets, ret.
    destruct (event_types handlers); by intros [= _ <-]. }
  assert (∀ x : World, outbox x = outbox w2 → ∀ k e, outbox w !! k = Some e →
    ∃ e', outbox x !! k = Some e' ∧
    (e' = e ∨ pending (event_types handlers) max_attempts e = true ∧ k ∉ locked ∧
              settled (count_attempt e) e')) as Hx.
  { intros x -> k e He. pose proof (Hk _ _ He : oe_id e = k) as Hid.
    destruct (decide (k ∈ oe_id <$> events)) as [Hi|Hi].
    - apply list_elem_of_fmap in Hi as (x' & E & Hx'). destruct (Hev x' Hx') as (e' & He' & Hs).
      destruct (Hin x' Hx') as (row & Hrow & -> & Hp & Hl). rewrite <- E in He', Hrow, Hl. exists e'.
      split; [done|]. right. assert (row = e) as -> by congruence. done.
    - exists e. split; [|by left]. apply Hkeep; [done|]. rewrite Hout, lookup_update_rows, He. simpl.
      by rewrite bool_decide_eq_false_2 by (by rewrite Hid). }
  unfold set_gauge, modify, ret.
  destruct (ob_oldest_pending_at b); eexists; (split; [reflexivity|]); apply Hx; exact Hw3.
Qed.
End Tick.

(** ** Every history of the outbox *)

Section History.
Context (max_attempts : Z).

(** One transaction of a drain, with the events it handed out, or the rest of
    the system, which only adds new events. *)
Inductive drain_step (w : World) : list uuid → World → Prop :=
  | ds_claim locked types limit events w' :
      claim_batch locked types limit max_attempts w = (Ok events, w') →
      drain_step w (oe_id <$> events) w'
  | ds_mark id : drain_step w [] (mark_processed id w).2
  | ds_failure id error : drain_step w [] (record_failure id error w).2
  | ds_elsewhere w' :
      clean w' → keyed (outbox w') →
      (∀ k r, outbox w !! k = Some r → outbox w' !! k = Some r) →
      (∀ k r, outbox w' !! k = Some r → outbox w !! k = Some r ∨
         outbox w !! k = None ∧ oe_attempts r = 0%Z ∧ oe_processed_at r = None) →
      drain_step w [] w'.

Inductive drain_history (w : World) : list uuid → World → Prop :=
  | dh_start : drain_history w [] w
  | dh_step log w1 handed w2 :
      drain_history w log w1 → drain_step w1 handed w2 → drain_history w (log ++ handed) w2.

(** How a step changes the row of an event. *)
Definition row_step (k : uuid) (handed : list uuid) (r r' : OutboxEvent) : Prop :=
  (k ∈ handed → oe_processed_at r = None ∧ (oe_attempts r < max_attempts)%Z) ∧
  oe_attempts r' = (oe_attempts r + Z.of_nat (count_occ N.eq_dec handed k))%Z ∧
  (∀ t, oe_processed_at r = Some t → oe_processed_at r' = Some t).

Lemma count_one (l : list uuid) k : NoDup l → k ∈ l → count_occ N.eq_dec l k = 1.
Proof.
  intros Hnd Hin. apply list_elem_of_In in Hin.
  assert (count_occ N.eq_dec l k > 0) by (by apply count_occ_In).
  assert (count_occ N.eq_dec l k <= 1); [|lia].
  by apply (NoDup_count_occ N.eq_dec), NoDup_ListNoDup.
Qed.

Lemma count_none (l : list uuid) k : k ∉ l → count_occ N.eq_dec l k = 0.
Proof. intros Hni. apply count_occ_not_In. by rewrite <- list_elem_of_In. Qed.

Lemma update_step k p f (t : gmap uuid OutboxEvent) r :
  t !! k = Some r → keyed t → (∀ e, oe_id (f e) = oe_id e) →
  (p r = true → row_step k [] r (f r)) →
  ∃ r', update_rows p f t !! k = Some r' ∧ row_step k [] r r'.
Proof.
  intros Hr Hk Hf Hp. rewrite lookup_update_rows, Hr. simpl. eexists. split; [done|].
  destruct (p r) eqn:E; [by apply Hp|]. split; [by intros ?%not_elem_of_nil|]. split; [simpl; lia|done].
Qed.

Lemma drain_step_rows w handed w' :
  drain_step w handed w' → clean w → keyed (outbox w) →
  clean w' ∧ keyed (outbox w') ∧ (∀ k, k ∈ handed → is_Some (outbox w !! k)) ∧
  (∀ k r, outbox w !! k = Some r → ∃ r', outbox w' !! k = Some r' ∧ row_step k handed r r') ∧
  (∀ k r', outbox w' !! k = Some r' → is_Some (outbox w !! k) ∨ oe_attempts r' = 0%Z).
Proof.
  intros Hs Hc Hk. destruct Hs as [locked types limit events w' H|id|id error|w' Hc' Hk' Hold Hnew].
  - destruct (claim_batch_spec locked types limit max_attempts w Hc Hk)
      as (events' & w1 & H1 & Hc1 & Hnd & Hin & Hout). rewrite H in H1. injection H1 as <- <-.
    assert (∀ k, k ∈ oe_id <$> events → ∃ r, outbox w !! k = Some r ∧
      oe_processed_at r = None ∧ (oe_attempts r < max_attempts)%Z) as Hh.
    { intros k (e & -> & He)%list_elem_of_fmap. destruct (Hin e He) as (r & Hr & _ & Hp & _).
      exists r. split; [done|]. unfold pending in Hp. to_prop. split; done. }
    split; [done|]. split; [rewrite Hout; by apply keyed_update|]. split_and!.
    + intros k Hkh. destruct (Hh k Hkh) as (r & ? & _). by exists r.
    + intros k r Hr. rewrite Hout, lookup_update_rows, Hr. simpl. eexists. split; [done|].
      rewrite (Hk _ _ Hr : oe_id r = k). case_bool_decide as Hkh; simpl.
      * destruct (Hh k Hkh) as (r0 & Hr0 & ? & ?). assert (r0 = r) as -> by congruence.
        split; [done|]. by rewrite count_one.
      * split; [done|]. rewrite count_none by done. split; [lia|done].
    + intros k r'. rewrite Hout, lookup_update_rows. intros (r & Hr & _)%fmap_Some. left. by exists r.
  - unfold mark_processed, session_begin, bind, now_utc, drain_update, modify. simpl.
    split; [done|]. split; [by apply keyed_update|]. split; [by intros k ?%not_elem_of_nil|]. split.
    + intros k r Hr. apply update_step; [done..|]. intros Hp. to_prop.
      split; [by intros ?%not_elem_of_nil|]. split; [simpl; lia|]. intros t. simpl. congruence.
    + intros k r'. rewrite lookup_update_rows. intros (r & Hr & _)%fmap_Some. left. by exists r.
  - unfold record_failure, session_begin, drain_update, modify. simpl.
    split; [done|]. split; [by apply keyed_update|]. split; [by intros k ?%not_elem_of_nil|]. split.
    + intros k r Hr. apply update_step; [done..|]. intros Hp.
      split; [by intros ?%not_elem_of_nil|]. split; [simpl; lia|done].
    + intros k r'. rewrite lookup_update_rows. intros (r & Hr & _)%fmap_Some. left. by exists r.
  - split; [done|]. split; [done|]. split; [by intros k ?%not_elem_of_nil|]. split.
    + intros k r Hr. exists r. split; [by apply Hold|]. split; [by intros ?%not_elem_of_nil|].
      split; [simpl; lia|done].
    + intros k r' Hr'. destruct (Hnew k r' Hr') as [?|(? & ? & _)]; [left; by exists r'|by right].
Qed.

(** In every history of an outbox that started empty, an event's attempt count is exactly
    how often it was handed out and never exceeds the budget, and once it is marked
    processed it is never handed out again and stays processed. *)
Theorem outbox_handed_out_and_counted w log w' :
  drain_history w log w' → clean w → outbox w = ∅ →
  ∀ k e, outbox w' !! k = Some e →
    oe_attempts e = Z.of_nat (count_occ N.eq_dec log k) ∧ (oe_attempts e <= Z.max 0 max_attempts)%Z ∧
    (is_Some (oe_processed_at e) → ∀ handed w'', drain_history w' handed w'' →
       k ∉ handed ∧ ∃ e', outbox w'' !! k = Some e' ∧ oe_processed_at e' = oe_processed_at e).
Proof.
  intros Hh Hc He.
  assert (∀ w1 log w2, drain_history w1 log w2 → clean w1 → keyed (outbox w1) →
    clean w2 ∧ keyed (outbox w2) ∧
    ∀ k r t, outbox w1 !! k = Some r → oe_processed_at r = Some t →
      k ∉ log ∧ ∃ r', outbox w2 !! k = Some r' ∧ oe_processed_at r' = Some t) as Hfinal.
  { induction 1 as [|log' w2 handed w3 Hh' IH Hs]; intros Hc1 Hk1.
    - split_and!; [done..|]. intros k r t Hr Ht. split; [by apply not_elem_of_nil|]. by exists r.
    - destruct (IH Hc1 Hk1) as (Hc2 & Hk2 & Hfin).
      destruct (drain_step_rows w2 handed w3 Hs Hc2 Hk2) as (Hc3 & Hk3 & _ & Hrow & _).
      split_and!; [done..|]. intros k r t Hr Ht. destruct (Hfin k r t Hr Ht) as (Hni & r2 & Hr2 & Ht2).
      destruct (Hrow k r2 Hr2) as (r3 & Hr3 & Hhand & _ & Hkeep). split; [|by eauto].
      intros [?|Hin]%elem_of_app; [done|]. destruct (Hhand Hin). congruence. }
  assert (keyed (outbox w)) as Hk by (rewrite He; intros k r; by rewrite lookup_empty).
  assert (clean w' ∧ keyed (outbox w') ∧ (∀ k, k ∈ log → is_Some (outbox w' !! k)) ∧
    ∀ k e, outbox w' !! k = Some e → oe_attempts e = Z.of_nat (count_occ N.eq_dec log k) ∧
      (oe_attempts e <= Z.max 0 max_attempts)%Z) as (Hc' & Hk' & _ & Hcount).
  { induction Hh as [|log' w2 handed w3 Hh' IH Hs].
    - split_and!; [done..| |]; [by intros k ?%not_elem_of_nil|]. intros k e. by rewrite He, lookup_empty.
    - destruct IH as (Hc2 & Hk2 & Hlog & Hcnt).
      destruct (drain_step_rows w2 handed w3 Hs Hc2 Hk2) as (Hc3 & Hk3 & Hhanded & Hrow & Hnew).
      split_and!; [done..| |].
      + intros k [Hin|Hin]%elem_of_app; [destruct (Hlog k Hin) as [r Hr]|destruct (Hhanded k Hin) as [r Hr]];
          destruct (Hrow k r Hr) as (r' & ? & _); by exists r'.
      + intros k e' He'. rewrite count_occ_app. destruct (outbox w2 !! k) as [r|] eqn:Hr.
        * destruct (Hrow k r Hr) as (r' & Hr' & Hhand & Hatt & _). assert (r' = e') as -> by congruence.
          destruct (Hcnt k r Hr) as [Hcr Hle]. split; [lia|].
          destruct (decide (k ∈ handed)) as [Hin|Hni].
          -- destruct (Hhand Hin) as [_ Hlt].
             assert (count_occ N.eq_dec handed k <= 1) as Hone.
             { inversion Hs as [locked types limit events w0 Hcl| | |]; subst; simpl; try lia.
               destruct (claim_batch_spec locked types limit max_attempts w2 Hc2 Hk2)
                 as (ev & w1 & H1 & _ & Hnd & _). rewrite Hcl in H1. injection H1 as <- <-.
               by apply (NoDup_count_occ N.eq_dec), NoDup_ListNoDup. }
             lia.
          -- rewrite (count_none handed k Hni) in Hatt. lia.
        * destruct (Hnew k e' He') as [[r Hr']|Hz]; [congruence|].
          assert (k ∉ log') as Hn1 by (intros Hin; destruct (Hlog k Hin); congruence).
          assert (k ∉ handed) as Hn2 by (intros Hin; destruct (Hhanded k Hin); congruence).
          rewrite (count_none log' k Hn1), (count_none handed k Hn2), Hz. lia. }
  intros k e Hke. destruct (Hcount k e Hke) as [H1 H2]. split_and!; [done..|].
  intros [t Ht] handed w'' Hh''. destruct (Hfinal w' handed w'' Hh'' Hc' Hk') as (_ & _ & Hfin).
  destruct (Hfin k e t Hke Ht) as (? & r' & ? & ?). split; [done|]. exists r'. split; [done|]. congruence.
Qed.
End History.

(** ** A concrete outbox *)

Definition example_event : OutboxEvent :=
  {| oe_id := 80; oe_tenant_id := 1; oe_workspace_id := 2; oe_event_type := "crm.account.created";
     oe_schema_version := "1"; oe_aggregate_id := 5; oe_occurred_at := 900; oe_payload := ∅;
     oe_correlation_id := None; oe_causation_id := None; oe_actor_id := None;
     oe_processed_at := None; oe_attempts := 0; oe_last_error := None |}.

Definition example_outbox : World := example_world (set_tbl {[ 80%N := example_event ]} empty_db) 1000.

Definition example_handlers : gmap pystr EventHandler :=
  {[ "crm.account.created"%py := λ _, raise InfrastructureError "down" ]}.

Lemma example_outbox_keyed : keyed (t_outbox (db example_outbox)).
Proof. intros k r. simpl. by intros [<- <-]%lookup_singleton_Some. Qed.

Lemma tick_settles_its_events_witness :
  ∃ w', consume example_handlers 10 3 ∅ example_outbox = (Ok tt, w') ∧
    is_Some (t_outbox (db w') !! 80%N).
Proof.
  destruct (tick_settles_its_events example_handlers) with (batch_size := 10%nat)
    (max_attempts := 3%Z) (locked := (∅ : gset uuid)) (w := example_outbox) as (w' & H1 & H2).
  - intros t h Hh e w Hc Hk. unfold example_handlers in Hh. apply lookup_singleton_Some in Hh as [_ <-]. simpl. repeat split; auto.
  - reflexivity.
  - exact example_outbox_keyed.
  - exists w'. split; [exact H1|]. destruct (H2 80%N example_event) as (e' & He' & _); [reflexivity|].
    exists e'. exact He'.
Defined.

Definition example_handed : World :=
  (claim_batch ∅ ["crm.account.created"%py] 10 3 example_outbox).2.

Lemma outbox_handed_out_and_counted_witness :
  ∃ e, t_outbox (db (mark_processed 80 example_handed).2) !! 80%N = Some e ∧ oe_attempts e = 1%Z.
Proof.
  assert (drain_history 3 (example_world empty_db 1000) [80%N]
            (mark_processed 80 example_handed).2) as Hh.
  { apply (dh_step 3 _ [80%N] example_handed [] _); [|apply ds_mark].
    apply (dh_step 3 _ [] example_outbox [80%N] _).
    - apply (dh_step 3 _ [] (example_world empty_db 1000) [] _); [apply dh_start|]. apply ds_elsewhere.
      + reflexivity.
      + exact example_outbox_keyed.
      + intros k' r Hr. discriminate Hr.
      + intros k' r. simpl. intros [<- <-]%lookup_singleton_Some. right. repeat split.
    - exact (ds_claim 3 example_outbox ∅ ["crm.account.created"%py] 10 [count_attempt example_event]
        example_handed eq_refl). }
  eexists. split; [vm_compute; reflexivity|].
  destruct (outbox_handed_out_and_counted 3 (example_world empty_db 1000) [80%N]
    (mark_processed 80 example_handed).2 Hh eq_refl eq_refl 80%N
    (set_delivery 1 (Some 1000%Z) None example_event)) as [H _]; [vm_compute; reflexivity|].
  exact H.
Defined.
