(* ===== verification/Pagination.v ===== *)
(** * Keyset pagination

    [dw_kernel/pagination.py], the cursor and the page, and the two SQL clauses
    of [dw_platform/adapters/persistence/keyset.py].  Base64 is written out; the
    JSON codec, [datetime]'s ISO text, [uuid.UUID]'s reader and BLAKE2b are
    parameters of the cursor. *)

From S2P Require Import Prelude Errors.
Local Open Scope pystr_scope.

(** ** Base64, URL-safe *)

Definition sextet_char (n : N) : N :=
  (if n <? 26 then 65 + n else if n <? 52 then 71 + n else if n <? 62 then n - 4
   else if n =? 62 then 45 else 95)%N.

(** The URL-safe alphabet, and the standard one it is translated to. *)
Definition char_sextet (c : N) : option N :=
  (if (65 <=? c) && (c <=? 90) then Some (c - 65)
   else if (97 <=? c) && (c <=? 122) then Some (c - 71)
   else if (48 <=? c) && (c <=? 57) then Some (c + 4)
   else if (c =? 45) || (c =? 43) then Some 62
   else if (c =? 95) || (c =? 47) then Some 63 else None)%N.

(** [base64.urlsafe_b64encode(raw).rstrip("=")], three bytes at a time. *)
Fixpoint b64_encode (l : list N) : list N :=
  match l with
  | [] => []
  | [a] => [sextet_char (a / 4); sextet_char (a mod 4 * 16)]%N
  | [a; b] => [sextet_char (a / 4); sextet_char (a mod 4 * 16 + b / 16); sextet_char (b mod 16 * 4)]%N
  | a :: b :: c :: r =>
      (sextet_char (a / 4) :: sextet_char (a mod 4 * 16 + b / 16)
       :: sextet_char (b mod 16 * 4 + c / 64) :: sextet_char (c mod 64) :: b64_encode r)%N
  end.

(** [binascii.a2b_base64] without [strict_mode]: [quad] characters of the open
    group are read, [left] is what they leave over, [pads] counts the padding;
    what is not of the alphabet is skipped. *)
Fixpoint b64_read (quad : nat) (left : N) (pads : nat) (l : list N) : option (list N) :=
  match l with
  | [] => match quad with O => Some [] | _ => None end
  | c :: r =>
      if (c =? 61)%N then
        match quad with
        | 0 | 1 => b64_read quad left pads r
        | _ => if 4 <=? quad + S pads then Some [] else b64_read quad left (S pads) r
        end
      else match char_sextet c with
           | None => b64_read quad left pads r
           | Some v =>
               match quad with
               | 0 => b64_read 1 v 0 r
               | 1 => cons (left * 4 + v / 16)%N <$> b64_read 2 (v mod 16) 0 r
               | 2 => cons (left * 16 + v / 4)%N <$> b64_read 3 (v mod 4) 0 r
               | _ => cons (left * 64 + v)%N <$> b64_read 0 0 0 r
               end
           end
  end.

(** [base64.urlsafe_b64decode] of a text; one that is not ASCII is refused. *)
Definition urlsafe_b64decode (s : pystr) : option (list N) :=
  if forallb (λ c, c <? 128)%N (chars s) then b64_read 0 0 0 (chars s) else None.

(** ** Pages *)

Definition DEFAULT_PAGE_SIZE : Z := 50.
Definition MAX_PAGE_SIZE : Z := 200.
Definition CURSOR_FORMAT_VERSION : Z := 1.
Definition FINGERPRINT_BYTES : nat := 8.

Record PageQuery := { pq_key : pystr; pq_filters : gmap pystr pystr }.

Record CursorPosition := { cp_sort_value : datetime; cp_tiebreaker : uuid }.

#[export] Instance CursorPosition_eq_dec : EqDecision CursorPosition.
Proof. solve_decision. Defined.

Record PageRequest := { pr_limit : Z; pr_after : option CursorPosition; pr_query : PageQuery }.

Definition fetch_limit (r : PageRequest) : Z := pr_limit r + 1.

Record Page (A : Type) := { pg_items : list A; pg_next_cursor : option pystr }.
Arguments pg_items {A}.
Arguments pg_next_cursor {A}.

Definition map_items {A B} (transform : A → B) (p : Page A) : Page B :=
  {| pg_items := transform <$> pg_items p; pg_next_cursor := pg_next_cursor p |}.

(** A field of a JSON object, as far as the cursor looks at it: integers and
    strings, and any other value by whether it equals 1 (Python's [True] and
    [1.0] do) and by its [str]. *)
Inductive json_field :=
  | FInt (n : Z)
  | FStr (s : pystr)
  | FOther (is_one : bool) (text : pystr).

Inductive cursor_json :=
  | CObject (fields : gmap pystr json_field)
  | COther.

Definition field_is_int (n : Z) (f : json_field) : bool :=
  match f with FInt m => (m =? n)%Z | FOther is_one _ => is_one && (n =? 1)%Z | FStr _ => false end.

Definition field_is_str (s : pystr) (f : json_field) : bool :=
  match f with FStr t => bool_decide (t = s) | _ => false end.

(** [str(value)] of a field. *)
Definition field_text (int_str : Z → pystr) (f : json_field) : pystr :=
  match f with FInt n => int_str n | FStr s => s | FOther _ text => text end.

(** The parts of the standard library the cursor is written with. *)
Record CursorCodec := {
  json_dumps : gmap pystr json_field → list N;
  json_loads : list N → option cursor_json;
  isoformat : datetime → pystr;
  fromisoformat : pystr → option datetime;
  uuid_text : uuid → pystr;
  parse_uuid : pystr → option uuid;
  int_str : Z → pystr;
  query_fingerprint : PageQuery → pystr }.

Section Cursor.
Context (codec : CursorCodec).

Definition payload (position : CursorPosition) (query : PageQuery) : gmap pystr json_field :=
  {[ "v"%py := FInt CURSOR_FORMAT_VERSION;
     "k"%py := FStr (isoformat codec (cp_sort_value position));
     "i"%py := FStr (uuid_text codec (cp_tiebreaker position));
     "q"%py := FStr (query_fingerprint codec query) ]}.

Definition encode_cursor (position : CursorPosition) (query : PageQuery) : pystr :=
  PyStr (b64_encode (json_dumps codec (payload position query))).

Definition unreadable {A} : res A :=
  Raise (Exn InvalidCursorError "cursor is not readable; drop it and request the first page again").

(** ["=" * (-len(cursor) % 4)] *)
Definition padding (cursor : pystr) : list N := repeat 61%N ((4 - py_len cursor mod 4) mod 4).

Definition decode_cursor (cursor : pystr) (query : PageQuery) : res CursorPosition :=
  match urlsafe_b64decode (PyStr (chars cursor ++ padding cursor)) ≫= json_loads codec with
  | None => unreadable
  | Some COther => unreadable
  | Some (CObject fields) =>
      if negb (from_option (field_is_int CURSOR_FORMAT_VERSION) false (fields !! "v"%py))
      then Raise (Exn InvalidCursorError "cursor was issued by an older version of this API; drop it and request the first page again")
      else if negb (from_option (field_is_str (query_fingerprint codec query)) false (fields !! "q"%py))
      then Raise (Exn InvalidCursorError "cursor was issued for a different query; request the first page again with the filters you want")
      else match fields !! "k"%py, fields !! "i"%py with
           | Some k, Some i =>
               match fromisoformat codec (field_text (int_str codec) k),
                     parse_uuid codec (field_text (int_str codec) i) with
               | Some sort_value, Some tiebreaker =>
                   Ok {| cp_sort_value := sort_value; cp_tiebreaker := tiebreaker |}
               | _, _ => unreadable
               end
           | _, _ => unreadable
           end
  end.

Definition page_request (limit : Z) (cursor : option pystr) (query : PageQuery)
    : res PageRequest :=
  if (limit <? 1)%Z || (MAX_PAGE_SIZE <? limit)%Z
  then Raise (Exn DomainError "limit must be between 1 and 200")
  else match cursor with
       | Some c =>
           if py_truthy c then
             match decode_cursor c query with
             | Ok p => Ok {| pr_limit := limit; pr_after := Some p; pr_query := query |}
             | Raise e => Raise e
             end
           else Ok {| pr_limit := limit; pr_after := None; pr_query := query |}
       | None => Ok {| pr_limit := limit; pr_after := None; pr_query := query |}
       end.

Definition build_page {A} (rows : list A) (request : PageRequest) (position_of : A → CursorPosition)
    : Page A :=
  let kept := take (Z.to_nat (pr_limit request)) rows in
  let has_more := (pr_limit request <? Z.of_nat (length rows))%Z in
  {| pg_items := kept;
     pg_next_cursor :=
       match last kept with
       | Some row => if has_more then Some (encode_cursor (position_of row) (pr_query request)) else None
       | None => None
       end |}.
End Cursor.

(** ** [keyset.py] *)

(** [(a.sort, a.id) < (b.sort, b.id)] *)
Definition position_lt (a b : CursorPosition) : bool :=
  ((cp_sort_value a <? cp_sort_value b)%Z
   || ((cp_sort_value a =? cp_sort_value b)%Z && (cp_tiebreaker a <? cp_tiebreaker b)%N)).

Definition after_position (after : option CursorPosition) (p : CursorPosition) : bool :=
  match after with None => true | Some a => position_lt p a end.

Section Keyset.
Context {A : Type} (position_of : A → CursorPosition).

(** [ORDER BY sort DESC, id DESC] *)
Fixpoint insert_newest (r : A) (l : list A) : list A :=
  match l with
  | [] => [r]
  | s :: rest => if position_lt (position_of s) (position_of r) then r :: l else s :: insert_newest r rest
  end.
Definition newest_first (l : list A) : list A := foldr insert_newest [] l.

(** [SELECT ... WHERE after_position ORDER BY newest_first LIMIT fetch_limit]
    over the rows the listing's own conditions let through. *)
Definition select_page (table : list A) (r : PageRequest) : list A :=
  take (Z.to_nat (fetch_limit r))
    (filter (λ a, after_position (pr_after r) (position_of a) = true) (newest_first table)).

(** A list endpoint: the request validated, the rows read, the page built. *)
Definition list_page (codec : CursorCodec) (limit : Z) (query : PageQuery) (cursor : option pystr)
    (table : list A) : res (Page A) :=
  match page_request codec limit cursor query with
  | Ok r => Ok (build_page codec (select_page table r) r position_of)
  | Raise e => Raise e
  end.
End Keyset.

(** ** Lemmas *)

Lemma char_sextet_char n : (n < 64)%N → char_sextet (sextet_char n) = Some n.
Proof.
  intros Hn. unfold sextet_char, char_sextet.
  destruct (N.ltb_spec n 26); [|destruct (N.ltb_spec n 52); [|destruct (N.ltb_spec n 62);
    [|destruct (N.eqb_spec n 62)]]];
  repeat match goal with
  | |- context [(?a <=? ?b)%N] => destruct (N.leb_spec a b); try lia
  | |- context [(?a =? ?b)%N] => destruct (N.eqb_spec a b); try lia
  end; simpl; f_equal; lia.
Qed.

Lemma sextet_char_range n : (n < 64)%N → (45 <= sextet_char n < 128)%N ∧ sextet_char n ≠ 61%N.
Proof.
  intros Hn. unfold sextet_char.
  destruct (N.ltb_spec n 26); [lia|]. destruct (N.ltb_spec n 52); [lia|].
  destruct (N.ltb_spec n 62); [lia|]. destruct (N.eqb_spec n 62); lia.
Qed.

Lemma b64_read_char quad left n r :
  (n < 64)%N →
  b64_read quad left 0 (sextet_char n :: r) =
    match quad with
    | 0 => b64_read 1 n 0 r
    | 1 => cons (left * 4 + n / 16)%N <$> b64_read 2 (n mod 16) 0 r
    | 2 => cons (left * 16 + n / 4)%N <$> b64_read 3 (n mod 4) 0 r
    | _ => cons (left * 64 + n)%N <$> b64_read 0 0 0 r
    end.
Proof.
  intros Hn. simpl. destruct (sextet_char_range n Hn) as [_ Hne].
  rewrite (proj2 (N.eqb_neq _ _) Hne), char_sextet_char by done. done.
Qed.

Definition is_byte (b : N) : Prop := (b < 256)%N.

Lemma unpack x y m : (y < m → (x * m + y) / m = x ∧ (x * m + y) mod m = y)%N.
Proof.
  intros Hy. split.
  - rewrite N.div_add_l, N.div_small by lia. lia.
  - by rewrite N.add_comm, N.Div0.mod_add, N.mod_small.
Qed.

Lemma sextets a b c :
  is_byte a → is_byte b → is_byte c →
  (a / 4 < 64 ∧ a mod 4 * 16 + b / 16 < 64 ∧ b mod 16 * 4 + c / 64 < 64 ∧ c mod 64 < 64 ∧
   a / 4 * 4 + (a mod 4 * 16 + b / 16) / 16 = a ∧
   (a mod 4 * 16 + b / 16) mod 16 * 16 + (b mod 16 * 4 + c / 64) / 4 = b ∧
   (b mod 16 * 4 + c / 64) mod 4 * 64 + c mod 64 = c)%N.
Proof.
  unfold is_byte. intros Ha Hb Hc.
  assert (a mod 4 < 4 ∧ b mod 16 < 16 ∧ c mod 64 < 64)%N as (Ha' & Hb' & Hc')
    by (split_and!; by apply N.mod_lt).
  assert (a / 4 < 64 ∧ b / 16 < 16 ∧ c / 64 < 4)%N as (Ha'' & Hb'' & Hc'')
    by (split_and!; apply N.Div0.div_lt_upper_bound; lia).
  pose proof (N.div_mod' a 4). pose proof (N.div_mod' b 16). pose proof (N.div_mod' c 64).
  destruct (unpack (a mod 4) (b / 16) 16 Hb'') as [-> ->].
  destruct (unpack (b mod 16) (c / 64) 4 Hc'') as [-> ->].
  split_and!; lia.
Qed.

(** Reading back what was written, three bytes at a time. *)
Lemma b64_round_trip n : ∀ l,
  length l ≤ n → Forall is_byte l →
  b64_read 0 0 0 (b64_encode l ++ repeat 61%N ((4 - length (b64_encode l) mod 4) mod 4)) = Some l.
Proof.
  assert (is_byte 0) as H0 by done.
  induction n as [|n IH]; intros [|a [|b [|c r]]] Hn Hl; try (simpl in Hn; lia); try done.
  - apply Forall_cons in Hl as [Ha _]. pose proof (sextets a 0 0 Ha H0 H0) as (? & ? & ? & ? & E & _).
    rewrite N.Div0.div_0_l, N.add_0_r in *. cbn [b64_encode app length].
    rewrite b64_read_char, b64_read_char by done. cbn. by rewrite E.
  - apply Forall_cons in Hl as [Ha [Hb _]%Forall_cons].
    pose proof (sextets a b 0 Ha Hb H0) as (? & ? & ? & ? & E1 & E2 & _).
    rewrite N.Div0.div_0_l, N.add_0_r in *. cbn [b64_encode app length].
    rewrite !b64_read_char by done. cbn. by rewrite E1, E2.
  - apply Forall_cons in Hl as [Ha [Hb [Hc Hr]%Forall_cons]%Forall_cons].
    pose proof (sextets a b c Ha Hb Hc) as (? & ? & ? & ? & E1 & E2 & E3).
    cbn [b64_encode app]. rewrite !b64_read_char by done.
    assert (length (sextet_char (a / 4) :: sextet_char (a mod 4 * 16 + b / 16)
       :: sextet_char (b mod 16 * 4 + c / 64) :: sextet_char (c mod 64) :: b64_encode r) mod 4
       = length (b64_encode r) mod 4) as ->.
    { cbn [length]. by rewrite <- (Nat.Div0.mod_add (length (b64_encode r)) 1 4), Nat.add_comm. }
    rewrite IH by (done || simpl in Hn; lia). cbn. by rewrite E1, E2, E3.
Qed.

Lemma b64_encode_ascii n : ∀ l,
  length l ≤ n → Forall is_byte l → forallb (λ c, c <? 128)%N (b64_encode l) = true.
Proof.
  assert (is_byte 0) as H0 by done.
  assert (∀ m, (m < 64)%N → (sextet_char m <? 128)%N = true) as Hs
    by (intros m Hm; apply N.ltb_lt, sextet_char_range, Hm).
  induction n as [|n IH]; intros [|a [|b [|c r]]] Hn Hl; try (simpl in Hn; lia); try done.
  - apply Forall_cons in Hl as [Ha _]. pose proof (sextets a 0 0 Ha H0 H0) as (? & ? & _).
    rewrite N.Div0.div_0_l, N.add_0_r in *. cbn [b64_encode forallb]. by rewrite !Hs.
  - apply Forall_cons in Hl as [Ha [Hb _]%Forall_cons].
    pose proof (sextets a b 0 Ha Hb H0) as (? & ? & ? & _).
    rewrite N.Div0.div_0_l, N.add_0_r in *. cbn [b64_encode forallb]. by rewrite !Hs.
  - apply Forall_cons in Hl as [Ha [Hb [Hc Hr]%Forall_cons]%Forall_cons].
    pose proof (sextets a b c Ha Hb Hc) as (? & ? & ? & ? & _).
    cbn [b64_encode forallb]. rewrite !Hs by done. apply IH; [simpl in Hn; lia|done].
Qed.

(** What the cursor relies on of the standard library, at one position and
    query. *)
Record codec_reads (codec : CursorCodec) (position : CursorPosition) (query : PageQuery) : Prop := {
  cr_written : json_dumps codec (payload codec position query) ≠ [];
  cr_bytes : Forall is_byte (json_dumps codec (payload codec position query));
  cr_json : json_loads codec (json_dumps codec (payload codec position query)) =
              Some (CObject (payload codec position query));
  cr_time : fromisoformat codec (isoformat codec (cp_sort_value position)) =
              Some (cp_sort_value position);
  cr_uuid : parse_uuid codec (uuid_text codec (cp_tiebreaker position)) =
              Some (cp_tiebreaker position) }.

Lemma decode_encode codec position query query' :
  codec_reads codec position query →
  decode_cursor codec (encode_cursor codec position query) query' =
    if bool_decide (query_fingerprint codec query = query_fingerprint codec query')
    then Ok position
    else Raise (Exn InvalidCursorError "cursor was issued for a different query; request the first page again with the filters you want").
Proof.
  intros [_ Hb Hj Ht Hu]. unfold decode_cursor, urlsafe_b64decode, encode_cursor, padding, py_len.
  set (raw := json_dumps codec (payload codec position query)) in *. cbn [chars].
  rewrite forallb_app, (b64_encode_ascii (length raw)) by done.
  assert (forallb (λ c, c <? 128)%N (repeat 61%N ((4 - length (b64_encode raw) mod 4) mod 4)) = true)
    as -> by (apply forallb_forall; intros x ->%repeat_spec; done).
  cbn [andb]. rewrite (b64_round_trip (length raw)) by done. cbn [mbind option_bind]. rewrite Hj.
  assert (payload codec position query !! "v"%py = Some (FInt CURSOR_FORMAT_VERSION)) as -> by done.
  assert (payload codec position query !! "q"%py = Some (FStr (query_fingerprint codec query))) as -> by done.
  assert (payload codec position query !! "k"%py = Some (FStr (isoformat codec (cp_sort_value position))))
    as -> by done.
  assert (payload codec position query !! "i"%py = Some (FStr (uuid_text codec (cp_tiebreaker position))))
    as -> by done.
  cbn [from_option field_is_str field_text]. rewrite Ht, Hu.
  case_bool_decide as E; [|done]. simpl. by destruct position.
Qed.

Lemma encode_truthy codec position query :
  codec_reads codec position query → py_truthy (encode_cursor codec position query) = true.
Proof.
  intros [Hw _ _ _ _]. unfold encode_cursor, py_truthy. simpl.
  by destruct (json_dumps codec (payload codec position query)) as [|a [|b [|c r]]].
Qed.

(** ** The order of the rows *)

Lemma position_lt_spec a b :
  position_lt a b = true ↔
    (cp_sort_value a < cp_sort_value b)%Z ∨
    cp_sort_value a = cp_sort_value b ∧ (cp_tiebreaker a < cp_tiebreaker b)%N.
Proof.
  unfold position_lt. destruct (Z.ltb_spec (cp_sort_value a) (cp_sort_value b)); simpl; [naive_solver|].
  destruct (Z.eqb_spec (cp_sort_value a) (cp_sort_value b)); simpl; [|naive_solver lia].
  destruct (N.ltb_spec (cp_tiebreaker a) (cp_tiebreaker b)); naive_solver lia.
Qed.

Lemma position_lt_trans a b c :
  position_lt a b = true → position_lt b c = true → position_lt a c = true.
Proof. rewrite !position_lt_spec. lia. Qed.

Lemma position_lt_total a b : a ≠ b → position_lt a b = false → position_lt b a = true.
Proof.
  intros Hne Hf. apply position_lt_spec.
  assert (¬ ((cp_sort_value a < cp_sort_value b)%Z ∨
    cp_sort_value a = cp_sort_value b ∧ (cp_tiebreaker a < cp_tiebreaker b)%N)) as Hn
    by (rewrite <- position_lt_spec; congruence).
  destruct (Z.eq_dec (cp_sort_value a) (cp_sort_value b)) as [E|E]; [|lia].
  assert (cp_tiebreaker a ≠ cp_tiebreaker b); [|lia].
  intros E'. apply Hne. destruct a, b; simpl in *; congruence.
Qed.

Section Walk.
Context {A : Type} (position_of : A → CursorPosition).

Definition newer (a b : A) : Prop := position_lt (position_of b) (position_of a) = true.

Lemma insert_newest_perm r l : insert_newest position_of r l ≡ₚ r :: l.
Proof.
  induction l as [|s rest IH]; simpl; [done|]. destruct (position_lt _ _); [done|].
  rewrite IH. apply perm_swap.
Qed.

Lemma newest_first_perm l : newest_first position_of l ≡ₚ l.
Proof. induction l as [|r l IH]; simpl; [done|]. by rewrite insert_newest_perm, IH. Qed.

Lemma insert_newest_sorted r l :
  position_of r ∉ position_of <$> l → StronglySorted newer l →
  StronglySorted newer (insert_newest position_of r l).
Proof.
  induction l as [|s rest IH]; simpl; intros Hni Hs; [by repeat constructor|].
  apply not_elem_of_cons in Hni as [Hne Hni]. apply StronglySorted_inv in Hs as [Hs Hall].
  destruct (position_lt (position_of s) (position_of r)) eqn:E.
  - constructor; [by constructor|]. constructor; [done|]. eapply Forall_impl; [exact Hall|].
    intros x Hx. unfold newer in *. by eapply position_lt_trans.
  - constructor; [by apply IH|]. rewrite insert_newest_perm. constructor; [|done].
    unfold newer. by apply position_lt_total.
Qed.

Lemma newest_first_sorted l :
  NoDup (position_of <$> l) → StronglySorted newer (newest_first position_of l).
Proof.
  induction l as [|r l IH]; simpl; intros Hnd; [constructor|].
  apply NoDup_cons in Hnd as [Hni Hnd]. apply insert_newest_sorted; [|by apply IH].
  intros (x & E & Hx)%list_elem_of_fmap. apply Hni. rewrite E. apply list_elem_of_fmap_2.
  by rewrite newest_first_perm in Hx.
Qed.

Lemma sorted_sublist (l k : list A) :
  sublist l k → StronglySorted newer k → StronglySorted newer l.
Proof.
  induction 1 as [|x l k Hs IH|x l k Hs IH]; intros Hk; [constructor| |].
  - apply StronglySorted_inv in Hk as [Hk Hall]. constructor; [by apply IH|].
    apply Forall_forall. intros y Hy. apply (proj1 (Forall_forall _ _) Hall).
    by eapply elem_of_sublist.
  - apply StronglySorted_inv in Hk as [Hk _]. by apply IH.
Qed.

Lemma sorted_app (l k : list A) :
  StronglySorted newer (l ++ k) ↔
  StronglySorted newer l ∧ StronglySorted newer k ∧ ∀ a b, a ∈ l → b ∈ k → newer a b.
Proof.
  induction l as [|x l IH]; simpl.
  - split; [intros ?; split_and!; [constructor|done|by intros ? ? ?%not_elem_of_nil]|by intros (_ & ? & _)].
  - split.
    + intros [H1 H2]%StronglySorted_inv. apply IH in H1 as (? & ? & Hx). apply Forall_app in H2 as [? Hk].
      split_and!; [by constructor|done|]. intros a b [->|Ha]%elem_of_cons Hb; [|by apply Hx].
      by apply (proj1 (Forall_forall _ _) Hk).
    + intros ([H1 H2]%StronglySorted_inv & Hk & Hx). constructor.
      * apply IH. split_and!; [done..|]. intros a b ? ?. apply Hx; [by right|done].
      * apply Forall_app. split; [done|]. apply Forall_forall. intros b Hb. apply Hx; [by left|done].
Qed.

(** A client that follows the cursors; [tables] are the rows the listing reads
    page after page, which may change in between. *)
Fixpoint walk (codec : CursorCodec) (limit : Z) (query : PageQuery) (cursor : option pystr)
    (tables : list (list A)) : res (list A * bool) :=
  match tables with
  | [] => Ok ([], false)
  | t :: rest =>
      match list_page position_of codec limit query cursor t with
      | Raise e => Raise e
      | Ok p =>
          match pg_next_cursor p with
          | None => Ok (pg_items p, true)
          | Some c =>
              match walk codec limit query (Some c) rest with
              | Raise e => Raise e
              | Ok more => Ok (pg_items p ++ more.1, more.2)
              end
          end
      end
  end.

Section Follow.
Context (codec : CursorCodec) (limit : Z) (query : PageQuery) (Hlimit : (1 <= limit <= MAX_PAGE_SIZE)%Z).

(** The cursor stands for the position. *)
Definition stands_for (cursor : option pystr) (after : option CursorPosition) : Prop :=
  match after with
  | None => cursor = None
  | Some p => cursor = Some (encode_cursor codec p query) ∧ codec_reads codec p query
  end.

Lemma list_page_at cursor after t :
  stands_for cursor after →
  let r := {| pr_limit := limit; pr_after := after; pr_query := query |} in
  list_page position_of codec limit query cursor t =
    Ok (build_page codec (select_page position_of t r) r position_of).
Proof.
  intros Hs. cbv zeta. unfold list_page, page_request.
  rewrite (proj2 (Z.ltb_ge limit 1)), (proj2 (Z.ltb_ge MAX_PAGE_SIZE limit)) by lia. simpl.
  destruct after as [p|]; simpl in Hs; [|by subst].
  destruct Hs as [-> Hc]. rewrite encode_truthy, decode_encode by done. by rewrite bool_decide_eq_true_2.
Qed.

(** One page: what it takes of the remaining rows, and where it points. *)
Lemma page_spec after t :
  let r := {| pr_limit := limit; pr_after := after; pr_query := query |} in
  let left := filter (λ a, after_position after (position_of a) = true) (newest_first position_of t) in
  let p := build_page codec (select_page position_of t r) r position_of in
  pg_items p = take (Z.to_nat limit) left ∧
  match pg_next_cursor p with
  | None => pg_items p = left
  | Some c => ∃ a, last (pg_items p) = Some a ∧ c = encode_cursor codec (position_of a) query ∧
                   length (pg_items p) = Z.to_nat limit
  end.
Proof.
  cbv zeta. set (left := filter _ _). unfold build_page, select_page, fetch_limit. cbn [pr_limit pr_after pr_query].
  fold left. cbn [pg_items pg_next_cursor].
  assert (take (Z.to_nat limit) (take (Z.to_nat (limit + 1)) left) = take (Z.to_nat limit) left) as ->
    by (rewrite take_take; f_equal; lia).
  split; [done|]. rewrite length_take.
  destruct (Z.ltb_spec limit (Z.of_nat (Z.to_nat (limit + 1) `min` length left))) as [Hm|Hm].
  - assert (length (take (Z.to_nat limit) left) = Z.to_nat limit) as Hlen by (rewrite length_take; lia).
    destruct (last (take (Z.to_nat limit) left)) as [a|] eqn:E; [by eauto|].
    apply last_None in E. rewrite E in Hlen. simpl in Hlen. lia.
  - assert (take (Z.to_nat limit) left = left) as -> by (apply take_ge; lia).
    by destruct (last left).
Qed.

Lemma walk_spec tables : ∀ cursor after,
  stands_for cursor after →
  Forall (λ t, NoDup (position_of <$> t) ∧ ∀ a, a ∈ t → codec_reads codec (position_of a) query) tables →
  ∃ out fin, walk codec limit query cursor tables = Ok (out, fin) ∧
    StronglySorted newer out ∧
    (∀ a, a ∈ out → after_position after (position_of a) = true ∧ ∃ t, t ∈ tables ∧ a ∈ t) ∧
    (fin = true → ∀ a, after_position after (position_of a) = true → (∀ t, t ∈ tables → a ∈ t) → a ∈ out) ∧
    (fin = false → length out = Z.to_nat limit * length tables).
Proof.
  induction tables as [|t rest IH]; intros cursor after Hs Hall.
  - exists [], false. split_and!; [done|constructor|by intros a ?%not_elem_of_nil|done|intros _; simpl; lia].
  - apply Forall_cons in Hall as [[Hnd Hread] Hall]. cbn [walk]. rewrite (list_page_at cursor after t Hs).
    pose proof (page_spec after t) as Hp. cbv zeta in Hp.
    set (left := filter _ _) in Hp. set (p := build_page _ _ _ _) in *. destruct Hp as [Hitems Hnext].
    assert (StronglySorted newer left) as Hsorted.
    { eapply sorted_sublist; [apply sublist_filter|]. by apply newest_first_sorted. }
    assert (∀ a, a ∈ left ↔ after_position after (position_of a) = true ∧ a ∈ t) as Hleft.
    { intros a. unfold left. by rewrite list_elem_of_filter, newest_first_perm. }
    destruct (pg_next_cursor p) as [c|].
    + destruct Hnext as (z & Hz & -> & Hlen). apply last_Some in Hz as [init Hz].
      assert (left = init ++ [z] ++ drop (Z.to_nat limit) left) as Hsplit
        by (rewrite app_assoc, <- Hz, Hitems, take_drop; done).
      assert (z ∈ left) as Hzl by (rewrite Hsplit, !elem_of_app; right; left; by apply list_elem_of_singleton).
      destruct (IH (Some (encode_cursor codec (position_of z) query)) (Some (position_of z)))
        as (out & fin & -> & Hso & Hout & Hfin & Hlo);
        [split; [done|]; by apply Hread, Hleft|done|].
      exists (pg_items p ++ out), fin. rewrite Hsplit in Hsorted.
      apply sorted_app in Hsorted as (Hs1 & Hs2 & Hs3).
      apply sorted_app in Hs2 as (_ & _ & Hs4).
      assert (∀ a, a ∈ init ++ [z] → ∀ b, position_lt (position_of b) (position_of z) = true → newer a b) as Hold.
      { intros a Ha b Hb. apply elem_of_app in Ha as [Ha|Ha];
          [|by apply list_elem_of_singleton in Ha as ->].
        unfold newer. eapply position_lt_trans; [exact Hb|]. apply Hs3; [done|].
        apply elem_of_app. left. by apply list_elem_of_singleton. }
      split_and!.
      * done.
      * rewrite Hz. apply sorted_app. split_and!; [|done|].
        -- apply sorted_app. split_and!; [done|by repeat constructor|].
           intros a b Ha ->%list_elem_of_singleton. apply Hs3; [done|].
           apply elem_of_app. left. by apply list_elem_of_singleton.
        -- intros a b Ha Hb. apply Hold; [done|]. by apply Hout in Hb as [? _].
      * intros a [Ha|Ha]%elem_of_app.
        -- assert (a ∈ left) as Hal by (rewrite Hitems in Ha; by eapply elem_of_sublist, sublist_take).
           apply Hleft in Hal as [? ?]. split; [done|]. exists t. split; [by left|done].
        -- destruct (Hout a Ha) as (Hafter & t' & ? & ?). split; [|exists t'; split; [by right|done]].
           simpl in Hafter. apply Hleft in Hzl as [Hza _]. destruct after as [q|]; [|done]. simpl in *.
           by eapply position_lt_trans.
      * intros Hf a Ha Hin. apply elem_of_app.
        assert (a ∈ left) as Hal by (apply Hleft; split; [done|apply Hin; by left]).
        rewrite <- (take_drop (Z.to_nat limit) left) in Hal. apply elem_of_app in Hal as [Hal|Hal];
          [left; by rewrite Hitems|right]. apply Hfin; [done| |intros t' ?; apply Hin; by right].
        simpl. apply Hs4; [by apply list_elem_of_singleton|done].
      * intros Hf. rewrite length_app, Hlen, (Hlo Hf). simpl. lia.
    + exists (pg_items p), true. rewrite Hnext. split_and!; [done|done| | |done].
      * intros a [? ?]%Hleft. split; [done|]. exists t. split; [by left|done].
      * intros _ a Ha Hin. apply Hleft. split; [done|]. apply Hin. by left.
Qed.
End Follow.
End Walk.

(** A cursor is read back as the position it was written for, base64 included, under the
    query it belongs to, and is refused under a query with another fingerprint. *)
Theorem cursor_round_trip codec position query query' limit :
  codec_reads codec position query → (1 <= limit <= MAX_PAGE_SIZE)%Z →
  page_request codec limit (Some (encode_cursor codec position query)) query' =
    if bool_decide (query_fingerprint codec query = query_fingerprint codec query')
    then Ok {| pr_limit := limit; pr_after := Some position; pr_query := query' |}
    else Raise (Exn InvalidCursorError "cursor was issued for a different query; request the first page again with the filters you want").
Proof.
  intros Hc Hl. unfold page_request.
  rewrite (proj2 (Z.ltb_ge limit 1)), (proj2 (Z.ltb_ge MAX_PAGE_SIZE limit)) by lia. simpl.
  rewrite encode_truthy, decode_encode by done. by case_bool_decide.
Qed.

Lemma newer_nodup {A} (position_of : A → CursorPosition) l :
  StronglySorted (newer position_of) l → NoDup l.
Proof.
  induction 1 as [|x l Hs IH Hall]; constructor; [|done]. intros Hin.
  pose proof (proj1 (Forall_forall _ _) Hall x Hin) as Hx. unfold newer in Hx.
  apply position_lt_spec in Hx. lia.
Qed.

(** C36: a client that follows the cursors gets every row that was there all along exactly
    once, newest first, and no other row twice, whatever rows come and go between its
    pages; on a table that stands still the walk ends with all of it. *)
Theorem page_walk_complete {A} (position_of : A → CursorPosition) codec limit query tables :
  (1 <= limit <= MAX_PAGE_SIZE)%Z →
  Forall (λ t, NoDup (position_of <$> t) ∧ ∀ a, a ∈ t → codec_reads codec (position_of a) query) tables →
  ∃ out complete, walk position_of codec limit query None tables = Ok (out, complete) ∧
    (** newest first, nothing twice, nothing made up *)
    StronglySorted (newer position_of) out ∧ NoDup out ∧
    (∀ a, a ∈ out → ∃ t, t ∈ tables ∧ a ∈ t) ∧
    (** a row that was there all along is not missed, whatever came and went *)
    (complete = true → ∀ a, (∀ t, t ∈ tables → a ∈ t) → a ∈ out) ∧
    (** and a table that stands still is walked to its end *)
    (∀ t n, tables = repeat t n → (length t < Z.to_nat limit * n)%nat → complete = true ∧ out ≡ₚ t).
Proof.
  intros Hl Hall.
  destruct (walk_spec position_of codec limit query Hl tables None None eq_refl Hall)
    as (out & fin & Hw & Hs & Hout & Hfin & Hlen).
  assert (∀ a, a ∈ out → ∃ t, t ∈ tables ∧ a ∈ t) as Hfrom by (intros a Ha; by apply Hout in Ha as [_ ?]).
  pose proof (newer_nodup _ _ Hs) as Hnd.
  exists out, fin. split_and!; try done.
  - intros Hf a Ha. by apply Hfin.
  - intros t n -> Hn.
    assert (∀ a, a ∈ out → a ∈ t) as Hsub.
    { intros a Ha. destruct (Hfrom a Ha) as (t' & Ht' & ?). apply list_elem_of_In, repeat_spec in Ht'.
      by subst. }
    assert (fin = true) as Hf.
    { destruct fin; [done|]. specialize (Hlen eq_refl). rewrite repeat_length in Hlen.
      pose proof (submseteq_length _ _ (NoDup_submseteq _ _ Hnd Hsub)). lia. }
    split; [done|]. apply NoDup_Permutation; [done| |].
    + destruct n as [|n]; [lia|]. apply Forall_cons in Hall as [[Hndt _] _].
      by apply NoDup_fmap_1 in Hndt.
    + intros a. split; [apply Hsub|]. intros Ha. apply Hfin; [done|done|].
      intros t' Ht'. apply list_elem_of_In, repeat_spec in Ht'. by subst.
Qed.

(** ** A concrete listing *)

(** A codec that writes the two numbers of the position as bytes. *)
Definition example_codec : CursorCodec :=
  {| json_dumps fields :=
       match fields !! "k"%py, fields !! "i"%py with
       | Some (FStr k), Some (FStr i) => chars k ++ chars i
       | _, _ => []
       end;
     json_loads raw :=
       match raw with
       | [k; i] => Some (CObject {[ "v"%py := FInt 1; "k"%py := FStr (PyStr [k]);
                                    "i"%py := FStr (PyStr [i]); "q"%py := FStr "f" ]})
       | _ => None
       end;
     isoformat t := PyStr [Z.to_N t];
     fromisoformat s := match chars s with [c] => Some (Z.of_N c) | _ => None end;
     uuid_text u := PyStr [u];
     parse_uuid s := match chars s with [c] => Some c | _ => None end;
     int_str _ := "1";
     query_fingerprint _ := "f" |}.

Definition example_query : PageQuery := {| pq_key := "approvals"; pq_filters := ∅ |}.

Lemma example_codec_reads s i :
  (0 <= s < 256)%Z → (i < 256)%N →
  codec_reads example_codec {| cp_sort_value := s; cp_tiebreaker := i |} example_query.
Proof.
  intros Hs Hi. split; simpl.
  - done.
  - apply Forall_cons. split; [unfold is_byte; simpl; lia|]. apply Forall_cons.
    split; [unfold is_byte; simpl; lia|apply Forall_nil_2].
  - done.
  - by rewrite Z2N.id by lia.
  - done.
Qed.

Lemma cursor_round_trip_witness :
  page_request example_codec 10 (Some (encode_cursor example_codec
    {| cp_sort_value := 200; cp_tiebreaker := 7 |} example_query)) example_query =
  Ok {| pr_limit := 10; pr_after := Some {| cp_sort_value := 200; cp_tiebreaker := 7 |};
        pr_query := example_query |}.
Proof.
  rewrite cursor_round_trip; [reflexivity|apply example_codec_reads; lia|split; discriminate].
Defined.

Lemma page_walk_complete_witness :
  let row s i := {| cp_sort_value := s; cp_tiebreaker := i |} in
  let t := [row 5%Z 1%N; row 9%Z 2%N; row 5%Z 3%N] in
  ∃ out, walk (λ p, p) example_codec 2 example_query None [t; t] = Ok (out, true) ∧ out ≡ₚ t.
Proof.
  intros row t.
  destruct (page_walk_complete (λ p, p) example_codec 2 example_query [t; t])
    as (out & complete & Hw & _ & _ & _ & _ & Hend).
  - split; discriminate.
  - assert (NoDup ((λ p : CursorPosition, p) <$> t) ∧
      ∀ a, a ∈ t → codec_reads example_codec a example_query) as Ht.
    { split; [vm_compute; repeat (constructor; [rewrite ?elem_of_cons, ?elem_of_nil; intuition discriminate|]);
        constructor|].
      intros a. unfold t. rewrite !elem_of_cons, elem_of_nil.
      intros [->|[->|[->|[]]]]; apply example_codec_reads; lia. }
    exact (Forall_cons_2 _ _ _ Ht (Forall_cons_2 _ _ _ Ht (Forall_nil_2 _))).
  - destruct (Hend t 2%nat eq_refl) as [-> Hp]; [simpl; lia|]. exists out. split; assumption.
Defined.
