(* ===== verification/Memory.v ===== *)
(** * Memories: proposed, reviewed, stored, recalled

    [dw_memory/service.py] on the tables, the evidence check it writes through
    ([dw_knowledge/adapters/evidence_store.py]), the reviewer's guard
    ([dw_memory/review.py]) and the worker's handlers
    ([dw_worker/consumers/memory.py]). *)

From S2P Require Import Prelude Errors Kernel Domain Contracts MemoryPolicy Store ApprovalFlow Outbox.
From S2P Require Import Pagination.
Local Open Scope prog_scope.
Local Open Scope pystr_scope.

Definition DEFAULT_RECALL_LIMIT : nat := 12.
Definition RANKING_POOL : nat := 100.
Definition RETENTION_CLASS : pystr := "default".

(** ** [review.py] *)

Definition MEMORY_REVIEW : pystr := "memory.review".
Definition MEMORY_REVIEW_DECIDED : pystr := decided_event_type MEMORY_REVIEW.

Definition require_clearance_for_review : DecisionGuard := λ request context,
  match ar_payload request !! "classification" with
  | Some (JStr c) =>
      if bool_decide (c ∈ classifications_for_clearance (clearance context)) then Ok tt
      else Raise (Exn PermissionDeniedError
             "your clearance does not cover the memory this approval would decide")
  | _ => Raise (Exn PermissionDeniedError
           "your clearance does not cover the memory this approval would decide")
  end.

(** ** [evidence_store.py] *)

(** A row of the join of chunks and documents, as RLS shows it to the tenant. *)
Record CitedRow := {
  cr_id : uuid;
  cr_document_id : uuid;
  cr_provenance_hash : pystr;
  cr_classification : pystr;
  cr_visible : bool }.

Section Evidence.
Context (m : MemoryDb) (tenant workspace : uuid).

(** [tables.visible_from_workspace] *)
Definition visible_from_workspace (d : DocumentRow) : bool :=
  bool_decide (do_workspace_id d = workspace) || bool_decide (do_scope d = "global"%py).

Definition cited_row (chunk : uuid) : option CitedRow :=
  c ← t_chunks m !! chunk;
  d ← t_documents m !! ck_document_id c;
  if bool_decide (ck_tenant_id c = tenant)
     && (bool_decide (do_tenant_id d = tenant) || bool_decide (do_scope d = "global"%py))
  then Some {| cr_id := ck_id c; cr_document_id := ck_document_id c;
               cr_provenance_hash := ck_provenance_hash c;
               cr_classification := do_classification d;
               cr_visible := visible_from_workspace d |}
  else None.

(** The rows [WHERE chunks.id IN (...)], one per chunk, in no particular order. *)
Definition cited_rows (refs : list EvidenceRef) : list CitedRow :=
  omap cited_row (elements (list_to_set (omap ev_chunk_id refs) : gset uuid)).

Definition stored_for (ref : EvidenceRef) : option CitedRow := ev_chunk_id ref ≫= cited_row.

Definition check_ref (ref : EvidenceRef) : res unit :=
  match stored_for ref with
  | None => Raise (Exn DomainError "evidence cites a chunk this tenant does not have")
  | Some chunk =>
      if negb (bool_decide (cr_provenance_hash chunk = ev_provenance_hash ref))
      then Raise (Exn DomainError "evidence hash does not match the chunk it cites")
      else if negb (bool_decide (cr_document_id chunk = ev_source_document_id ref))
      then Raise (Exn DomainError "evidence cites one document and quotes another")
      else if negb (cr_visible chunk)
      then Raise (Exn DomainError "evidence cites a document from another workspace")
      else Ok tt
  end.

Fixpoint check_refs (refs : list EvidenceRef) : res unit :=
  match refs with
  | [] => Ok tt
  | ref :: rest => match check_ref ref with Ok _ => check_refs rest | Raise e => Raise e end
  end.
End Evidence.

(** [max(..., key=classification_rank)]: the first of the highest. *)
Fixpoint strictest_from (best : pystr) (l : list pystr) : res pystr :=
  match l with
  | [] => Ok best
  | c :: rest =>
      match classification_rank best, classification_rank c with
      | Ok b, Ok k => strictest_from (if b <? k then c else best) rest
      | Raise e, _ | _, Raise e => Raise e
      end
  end.

Definition strictest (l : list pystr) : res pystr :=
  match l with
  | [] => Raise (Exn ValueError "max() iterable argument is empty")
  | c :: rest =>
      match classification_rank c with Ok _ => strictest_from c rest | Raise e => Raise e end
  end.

Definition evidence_row (tenant workspace : uuid) (now : datetime) (classification : pystr)
    (ref : EvidenceRef) : EvidenceRow :=
  {| er_evidence_id := ev_evidence_id ref; er_tenant_id := tenant; er_workspace_id := workspace;
     er_source_document_id := ev_source_document_id ref; er_chunk_id := ev_chunk_id ref;
     er_source_version := ev_source_version ref; er_page := ev_page ref;
     er_start_offset := ev_start_offset ref; er_end_offset := ev_end_offset ref;
     er_quote := ev_quote ref; er_relevance_score := ev_relevance_score ref;
     er_classification := classification; er_provenance_hash := ev_provenance_hash ref;
     er_created_at := now |}.

(** [SqlEvidenceStore.record], in the caller's session. *)
Definition record (refs : list EvidenceRef) (tenant workspace : uuid) : Prog pystr :=
  match refs with
  | [] => raise DomainError "a memory cannot be stored without evidence"
  | _ =>
      (when existsb (λ ref, bool_decide (ev_chunk_id ref = None)) refs then
         raise DomainError "evidence must name the chunk it came from") ;;;
      let! m := gets (λ w, t_mem (db w)) in
      lift_res (check_refs m tenant workspace refs) ;;;
      let! label := lift_res
        match strictest (cr_classification <$> cited_rows m tenant workspace refs) with
        | Ok c => Ok c
        | Raise _ => Raise (Exn DomainError
                       "evidence cites a document with an unknown classification")
        end in
      let! now := now_utc in
      insert_all tenant
        (omap (λ ref, (λ row, evidence_row tenant workspace now (cr_classification row) ref)
                        <$> stored_for m tenant workspace ref) refs) ;;;
      ret label
  end.

(** ** [service.py] *)

Abbreviation RankerPort := (pystr → uuid → uuid → pystr → list uuid → Prog (list uuid)).

Record MemoryService := {
  ms_policy : MemoryWritePolicy;
  ms_ranker : option RankerPort;
  ms_vector_purge : option (list uuid → Prog unit) }.

Record ProposalResult := {
  pr_candidate_id : uuid;
  pr_outcome : PolicyOutcome;
  pr_item : option MemoryItem }.

Definition _ACTION (d : WriteDecision) : pystr :=
  match d with
  | AUTO_WRITE => "memory.item_written" | REVIEW => "memory.write_held_for_review"
  | REJECT => "memory.write_rejected"
  end.
Definition _WRITTEN_AFTER_REVIEW : pystr := "memory.written_after_review".
Definition _REVIEW_REJECTED : pystr := "memory.review_rejected".
Definition _REVIEW_FAILED : pystr := "memory.review_failed".

(** JSONB [?|]: the two lists share an element. *)
Definition overlaps (a b : list pystr) : bool := existsb (λ s, bool_decide (s ∈ b)) a.

Definition close_at (now : datetime) (r : ItemRow) : ItemRow :=
  let i := ir_item r in
  {| ir_item :=
       {| mi_memory_id := mi_memory_id i; mi_tenant_id := mi_tenant_id i;
          mi_workspace_id := mi_workspace_id i; mi_worker_id := mi_worker_id i;
          mi_memory_type := mi_memory_type i; mi_subject_refs := mi_subject_refs i;
          mi_content := mi_content i; mi_structured_facts := mi_structured_facts i;
          mi_provenance_refs := mi_provenance_refs i; mi_confidence := mi_confidence i;
          mi_classification := mi_classification i; mi_valid_from := mi_valid_from i;
          mi_valid_until := Some now; mi_retention_policy := mi_retention_policy i;
          mi_memory_schema_version := mi_memory_schema_version i;
          mi_created_by_run_id := mi_created_by_run_id i; mi_fact_key := mi_fact_key i |};
     ir_created_at := ir_created_at r |}.

(** The live memories [_close_superseded] closes. *)
Definition superseded_by (item : MemoryItem) (key : pystr) (r : ItemRow) : bool :=
  let i := ir_item r in
  bool_decide (mi_workspace_id i = mi_workspace_id item)
  && bool_decide (mi_worker_id i = mi_worker_id item)
  && bool_decide (mi_fact_key i = Some key)
  && negb (bool_decide (mi_memory_id i = mi_memory_id item))
  && bool_decide (mi_valid_until i = None)
  && overlaps (mi_subject_refs i) (mi_subject_refs item).

Definition _close_superseded (item : MemoryItem) (now : datetime) : Prog (list uuid) :=
  match mi_fact_key item with
  | Some key =>
      if bool_decide (mi_subject_refs item = []) then ret [] else
      let! rows := sql_select (R := ItemRow) (mi_tenant_id item) (superseded_by item key) in
      let! _ := sql_update (mi_tenant_id item) (superseded_by item key) (close_at now) in
      ret ((λ r, mi_memory_id (ir_item r)) <$> rows)
  | None => ret []
  end.

Definition _verify_evidence (refs : list EvidenceRef) (claimed : pystr) (tenant workspace : uuid)
    : Prog unit :=
  let! cited := record refs tenant workspace in
  let! c := lift_res (classification_rank claimed) in
  let! k := lift_res (classification_rank cited) in
  when c <? k then raise DomainError "memory claims a lower classification than the evidence it cites".

Definition item_evidence_row (item : MemoryItem) (ref : EvidenceRef) : ItemEvidenceRow :=
  {| ie_memory_id := mi_memory_id item; ie_evidence_id := ev_evidence_id ref;
     ie_tenant_id := mi_tenant_id item |}.

Definition _store_item (item : MemoryItem) (now : datetime) : Prog (list uuid) :=
  _verify_evidence (mi_provenance_refs item) (mi_classification item) (mi_tenant_id item)
    (mi_workspace_id item) ;;;
  sql_insert (mi_tenant_id item) {| ir_item := item; ir_created_at := now |} ;;;
  let! superseded := _close_superseded item now in
  insert_all (mi_tenant_id item) (item_evidence_row item <$> mi_provenance_refs item) ;;;
  ret superseded.

Definition candidate_row (context : AccessContext) (candidate : MemoryCandidate) (outcome : PolicyOutcome)
    (candidate_id run : uuid) (memory_id : option uuid) (now : datetime) : CandidateRow :=
  {| wc_id := candidate_id; wc_tenant_id := tenant_id context;
     wc_workspace_id := workspace_id context; wc_worker_id := mc_worker_id candidate;
     wc_memory_type := mc_memory_type candidate; wc_content := mc_content candidate;
     wc_structured_facts := mc_structured_facts candidate;
     wc_provenance_refs := mc_provenance_refs candidate; wc_confidence := po_confidence outcome;
     wc_classification := mc_classification candidate; wc_decision := po_decision outcome;
     wc_memory_id := memory_id; wc_created_by_run_id := run; wc_created_at := now;
     wc_subject_refs := mc_subject_refs candidate; wc_fact_key := mc_fact_key candidate |}.

(** The item an accepted candidate becomes. *)
Definition item_of (context : AccessContext) (candidate : MemoryCandidate) (confidence : unit53)
    (run memory_id : uuid) (now : datetime) : MemoryItem :=
  {| mi_memory_id := memory_id; mi_tenant_id := tenant_id context;
     mi_workspace_id := workspace_id context; mi_worker_id := mc_worker_id candidate;
     mi_memory_type := mc_memory_type candidate; mi_subject_refs := mc_subject_refs candidate;
     mi_content := mc_content candidate; mi_structured_facts := mc_structured_facts candidate;
     mi_provenance_refs := mc_provenance_refs candidate; mi_confidence := confidence;
     mi_classification := mc_classification candidate; mi_valid_from := now;
     mi_valid_until := None; mi_retention_policy := RETENTION_CLASS;
     mi_memory_schema_version := MEMORY_SCHEMA_VERSION; mi_created_by_run_id := run;
     mi_fact_key := mc_fact_key candidate |}.

Definition review_request (context : AccessContext) (candidate : MemoryCandidate)
    (candidate_id : uuid) (outcome : PolicyOutcome) (approval_id : uuid) : ApprovalRequest :=
  {| ar_id := approval_id; ar_tenant_id := tenant_id context;
     ar_workspace_id := workspace_id context; ar_approval_type := MEMORY_REVIEW;
     ar_requested_by := principal_id context; ar_reason := po_reason outcome;
     ar_payload :=
       {[ "candidate_id" := JStr (uuid_str candidate_id);
          "worker_id" := JStr (mc_worker_id candidate);
          "memory_type" := JStr (memory_type_value (mc_memory_type candidate));
          "classification" := JStr (mc_classification candidate) ]};
     ar_run_id := None; ar_required_scope := None; ar_status := PENDING; ar_created_at := None;
     ar_decided_at := None; ar_version := 1 |}.

Definition _open_review (context : AccessContext) (candidate : MemoryCandidate)
    (candidate_id : uuid) (outcome : PolicyOutcome) : Prog uuid :=
  let! approval_id := new_uuid in
  approvals_add (tenant_id context)
    (review_request context candidate candidate_id outcome approval_id) ;;;
  ret approval_id.

Definition optional_str (o : option pystr) : json := match o with Some s => JStr s | None => JNull end.
Definition uuid_list (l : list uuid) : json := JList ((λ u, JStr (uuid_str u)) <$> l).

Section Service.
Context (svc : MemoryService).

Definition proposal_event (context : AccessContext) (candidate : MemoryCandidate)
    (outcome : PolicyOutcome) (memory_id : option uuid) (candidate_id run : uuid) (now : datetime)
    (superseded : list uuid) (approval_id : option uuid) (id : uuid) : AuditEvent :=
  {| ae_id := id; ae_tenant_id := tenant_id context; ae_workspace_id := workspace_id context;
     ae_actor_id := principal_id context; ae_action := _ACTION (po_decision outcome);
     ae_resource_type := "memory_item";
     ae_resource_id := uuid_str (default candidate_id memory_id); ae_occurred_at := now;
     ae_run_id := Some run; ae_policy_decision := None; ae_trace_id := None;
     ae_details :=
       match approval_id with Some a => {[ "approval_id" := JStr (uuid_str a) ]} | None => ∅ end ∪
       {[ "worker_id" := JStr (mc_worker_id candidate);
          "memory_type" := JStr (memory_type_value (mc_memory_type candidate));
          "confidence" := JReal53 (po_confidence outcome);
          "classification" := JStr (mc_classification candidate);
          "reason" := JStr (po_reason outcome);
          "policy_version" := JStr (policy_version (ms_policy svc));
          "evidence_count" := JInt (Z.of_nat (length (mc_provenance_refs candidate)));
          "fact_key" := optional_str (mc_fact_key candidate);
          "superseded" := uuid_list superseded ]} |}.

Definition append_event (tenant : uuid) (event : uuid → AuditEvent) : Prog unit :=
  let! id := new_uuid in
  let! e := lift_res (make_audit_event (event id)) in
  audit_append tenant e.

Definition _purge_vectors (superseded : list uuid) : Prog unit :=
  match superseded, ms_vector_purge svc with
  | _ :: _, Some delete => try_except (delete superseded) (λ _, ret tt)
  | _, _ => ret tt
  end.

(** [MemoryItem.model_validate] of a stored row. *)
Definition item_from_row (r : ItemRow) : res MemoryItem := make_memory_item (ir_item r).

Definition _stored_item (tenant memory_id : uuid) : Prog (option MemoryItem) :=
  let! row := sql_get (R := ItemRow) tenant memory_id (λ _, true) in
  match row with
  | None => ret None
  | Some r => let! i := lift_res (item_from_row r) in ret (Some i)
  end.

Definition _already_decided (tenant candidate_id : uuid) : Prog (option ProposalResult) :=
  let! row := sql_get (R := CandidateRow) tenant candidate_id (λ _, true) in
  match row with
  | None => ret None
  | Some row =>
      let! item := match wc_memory_id row with
                   | Some id => _stored_item tenant id
                   | None => ret None
                   end in
      ret (Some {| pr_candidate_id := candidate_id;
                   pr_outcome := {| po_decision := wc_decision row; po_reason := "already decided";
                                    po_confidence := wc_confidence row |};
                   pr_item := item |})
  end.

(** What a new proposal writes, in the open transaction. *)
Definition write_proposal (candidate : MemoryCandidate) (context : AccessContext)
    (outcome : PolicyOutcome) (candidate_id run : uuid) (item : option MemoryItem) (now : datetime)
    : Prog (list uuid) :=
  sql_insert (tenant_id context)
    (candidate_row context candidate outcome candidate_id run (mi_memory_id <$> item) now) ;;;
  let! sa :=
    match item, po_decision outcome with
    | Some item, _ => let! superseded := _store_item item now in ret (superseded, None)
    | None, REVIEW =>
        undone (_verify_evidence (mc_provenance_refs candidate) (mc_classification candidate)
                  (tenant_id context) (workspace_id context)) ;;;
        let! a := _open_review context candidate candidate_id outcome in
        ret ([], Some a)
    | None, _ => ret ([], None)
    end in
  append_event (tenant_id context)
    (proposal_event context candidate outcome (mi_memory_id <$> item) candidate_id run now sa.1 sa.2) ;;;
  ret sa.1.

Definition propose (candidate : MemoryCandidate) (context : AccessContext)
    (created_by_run_id : uuid) (idempotency_key : option uuid) : Prog ProposalResult :=
  let outcome := evaluate (ms_policy svc) candidate in
  let! candidate_id := match idempotency_key with Some k => ret k | None => new_uuid end in
  let! now := now_utc in
  let! item :=
    if bool_decide (po_decision outcome = AUTO_WRITE) then
      let! id := new_uuid in
      let! i := lift_res (make_memory_item
        (item_of context candidate (po_confidence outcome) created_by_run_id id now)) in
      ret (Some i)
    else ret None in
  let! done_ := session_begin (
    let! seen := match idempotency_key with
                 | Some k => _already_decided (tenant_id context) k
                 | None => ret None
                 end in
    match seen with
    | Some r => ret (inl r)
    | None =>
        let! superseded :=
          write_proposal candidate context outcome candidate_id created_by_run_id item now in
        ret (inr superseded)
    end) in
  match done_ with
  | inl r => ret r
  | inr superseded =>
      _purge_vectors superseded ;;;
      ret {| pr_candidate_id := candidate_id; pr_outcome := outcome; pr_item := item |}
  end.

Definition _candidate_row (candidate_id : uuid) (context : AccessContext) : Prog (option CandidateRow) :=
  sql_get (tenant_id context) candidate_id (λ r,
    bool_decide (wc_workspace_id r = workspace_id context)).

Definition _item_from_candidate (row : CandidateRow) (now : datetime) : Prog MemoryItem :=
  let! id := new_uuid in
  lift_res (make_memory_item
    {| mi_memory_id := id; mi_tenant_id := wc_tenant_id row; mi_workspace_id := wc_workspace_id row;
       mi_worker_id := wc_worker_id row; mi_memory_type := wc_memory_type row;
       mi_subject_refs := wc_subject_refs row; mi_content := wc_content row;
       mi_structured_facts := wc_structured_facts row;
       mi_provenance_refs := wc_provenance_refs row; mi_confidence := wc_confidence row;
       mi_classification := wc_classification row; mi_valid_from := now; mi_valid_until := None;
       mi_retention_policy := RETENTION_CLASS; mi_memory_schema_version := MEMORY_SCHEMA_VERSION;
       mi_created_by_run_id := wc_created_by_run_id row; mi_fact_key := wc_fact_key row |}).

Definition settle_columns (decision : WriteDecision) (memory_id : option uuid) (r : CandidateRow)
    : CandidateRow :=
  {| wc_id := wc_id r; wc_tenant_id := wc_tenant_id r; wc_workspace_id := wc_workspace_id r;
     wc_worker_id := wc_worker_id r; wc_memory_type := wc_memory_type r;
     wc_content := wc_content r; wc_structured_facts := wc_structured_facts r;
     wc_provenance_refs := wc_provenance_refs r; wc_confidence := wc_confidence r;
     wc_classification := wc_classification r; wc_decision := decision;
     wc_memory_id := memory_id; wc_created_by_run_id := wc_created_by_run_id r;
     wc_created_at := wc_created_at r; wc_subject_refs := wc_subject_refs r;
     wc_fact_key := wc_fact_key r |}.

Definition _settle_refused (tenant candidate_id : uuid) : Prog unit :=
  let! _ := sql_update tenant (λ r, bool_decide (wc_id r = candidate_id))
              (λ r, settle_columns REJECT (wc_memory_id r) r) in
  ret tt.

Definition _settle_written (tenant candidate_id memory_id : uuid) : Prog unit :=
  let! _ := sql_update tenant (λ r, bool_decide (wc_id r = candidate_id))
              (λ r, settle_columns (wc_decision r) (Some memory_id) r) in
  ret tt.

Definition review_event (context : AccessContext) (row : CandidateRow) (action : pystr)
    (request : ApprovalRequest) (now : datetime) (resource_id : option uuid)
    (extra : gmap pystr json) (id : uuid) : AuditEvent :=
  {| ae_id := id; ae_tenant_id := tenant_id context; ae_workspace_id := workspace_id context;
     ae_actor_id := principal_id context; ae_action := action; ae_resource_type := "memory_item";
     ae_resource_id := uuid_str (default (wc_id row) resource_id); ae_occurred_at := now;
     ae_run_id := Some (wc_created_by_run_id row); ae_policy_decision := None; ae_trace_id := None;
     ae_details := extra ∪
       {[ "candidate_id" := JStr (uuid_str (wc_id row));
          "approval_id" := JStr (uuid_str (ar_id request));
          "worker_id" := JStr (wc_worker_id row);
          "memory_type" := JStr (memory_type_value (wc_memory_type row));
          "classification" := JStr (wc_classification row);
          "evidence_count" := JInt (Z.of_nat (length (wc_provenance_refs row)));
          "policy_version" := JStr (policy_version (ms_policy svc)) ]} |}.

(** How a settlement's transaction ends: with an answer at once, or with an item
    written, closing others, or with the refusal of its evidence. *)
Inductive settled_as :=
  | Answer (item : option MemoryItem)
  | Written (item : MemoryItem) (superseded : list uuid)
  | Failed (failure : exn).

(** The candidate is written: the item through [_store_item] in a savepoint, or
    why it could not be. *)
Definition write_reviewed (context : AccessContext) (request : ApprovalRequest) (row : CandidateRow)
    (now : datetime) : Prog settled_as :=
  let t := tenant_id context in
  let! item := _item_from_candidate row now in
  let! stored := try_except
    (let! superseded := savepoint (_store_item item now) in ret (inl superseded))
    (λ exc, if isinstance exc DomainError then ret (inr exc) else reraise exc) in
  match stored with
  | inr exc =>
      _settle_refused t (wc_id row) ;;;
      append_event t (review_event context row _REVIEW_FAILED request now None
                        {[ "error" := JStr (exn_message exc) ]}) ;;;
      ret (Failed exc)
  | inl superseded =>
      _settle_written t (wc_id row) (mi_memory_id item) ;;;
      append_event t (review_event context row _WRITTEN_AFTER_REVIEW request now
                        (Some (mi_memory_id item))
                        {[ "fact_key" := optional_str (mi_fact_key item);
                           "superseded" := uuid_list superseded ]}) ;;;
      ret (Written item superseded)
  end.

Definition settle_row (context : AccessContext) (request : ApprovalRequest) (row : CandidateRow)
    (now : datetime) : Prog settled_as :=
  let t := tenant_id context in
  match wc_memory_id row with
  | Some id => let! i := _stored_item t id in ret (Answer i)
  | None =>
      if negb (bool_decide (wc_decision row = REVIEW)) then ret (Answer None)
      else if bool_decide (ar_status request = PENDING)
      then raise ConflictError "memory review is not decided yet"
      else if negb (bool_decide (ar_status request = APPROVED)) then
        _settle_refused t (wc_id row) ;;;
        append_event t (review_event context row _REVIEW_REJECTED request now None ∅) ;;;
        ret (Answer None)
      else write_reviewed context request row now
  end.

(** [request.payload["candidate_id"]], as a UUID. *)
Definition payload_candidate (request : ApprovalRequest) : res uuid :=
  match ar_payload request !! "candidate_id" with
  | None => Raise (Exn (OtherException "KeyError") "candidate_id")
  | Some (JStr s) =>
      match uuid_of_text s with
      | Some u => Ok u
      | None => Raise (Exn ValueError "badly formed hexadecimal UUID string")
      end
  | Some _ => Raise (Exn ValueError "badly formed hexadecimal UUID string")
  end.

Definition settle_in_session (approval_id : uuid) (context : AccessContext) (now : datetime)
    : Prog settled_as :=
  let! request := approvals_get (tenant_id context) approval_id (workspace_id context)
                    {| aud_context := context; holds_decide := false |} in
  match request with
  | Some request =>
      if bool_decide (ar_approval_type request = MEMORY_REVIEW)
         && bool_decide (ar_workspace_id request = workspace_id context) then
        let! candidate_id := lift_res (payload_candidate request) in
        let! row := _candidate_row candidate_id context in
        match row with
        | None => raise NotFoundError "memory candidate not found"
        | Some row => settle_row context request row now
        end
      else raise NotFoundError "memory review approval not found"
  | None => raise NotFoundError "memory review approval not found"
  end.

Definition settle_review (approval_id : uuid) (context : AccessContext)
    : Prog (option MemoryItem) :=
  let! now := now_utc in
  let! ended := session_begin (settle_in_session approval_id context now) in
  match ended with
  | Answer i => ret i
  | Failed exc => reraise exc
  | Written item superseded => _purge_vectors superseded ;;; ret (Some item)
  end.

(** The row itself: [ReviewCandidate] is a copy of its columns. *)
Definition get_candidate (candidate_id : uuid) (context : AccessContext) : Prog CandidateRow :=
  let! row := session_begin (_candidate_row candidate_id context) in
  match row with
  | None => raise NotFoundError "memory candidate not found"
  | Some row =>
      if bool_decide (wc_classification row ∈ classifications_for_clearance (clearance context))
      then ret row
      else raise PermissionDeniedError "your clearance does not cover this memory candidate"
  end.

Definition position_of_item (r : ItemRow) : CursorPosition :=
  {| cp_sort_value := ir_created_at r; cp_tiebreaker := mi_memory_id (ir_item r) |}.

(** [page.map_items(model_validate)]: the first row that does not validate raises. *)
Fixpoint map_res {A B} (f : A → res B) (l : list A) : res (list B) :=
  match l with
  | [] => Ok []
  | a :: rest =>
      match f a with
      | Ok b => match map_res f rest with Ok bs => Ok (b :: bs) | Raise e => Raise e end
      | Raise e => Raise e
      end
  end.

Definition list_items (codec : CursorCodec) (context : AccessContext) (request : PageRequest)
    : Prog (Page MemoryItem) :=
  session_begin (
    let! rows := sql_select (R := ItemRow) (tenant_id context) (λ r,
      bool_decide (mi_workspace_id (ir_item r) = workspace_id context)) in
    let page := build_page codec (select_page position_of_item rows request) request position_of_item in
    let! items := lift_res (map_res item_from_row (pg_items page)) in
    ret {| pg_items := items; pg_next_cursor := pg_next_cursor page |}).

(** The rows a recall may read. *)
Definition recallable (context : AccessContext) (worker_id : pystr) (subject_refs : list pystr)
    (now : datetime) (r : ItemRow) : bool :=
  let i := ir_item r in
  bool_decide (mi_workspace_id i = workspace_id context)
  && bool_decide (mi_worker_id i = worker_id)
  && bool_decide (mi_classification i ∈ classifications_for_clearance (clearance context))
  && overlaps (mi_subject_refs i) subject_refs
  && (mi_valid_from i <=? now)%Z
  && match mi_valid_until i with None => true | Some u => (now <? u)%Z end.

(** [ORDER BY confidence DESC, created_at DESC, memory_id DESC] *)
Definition recalled_first (a b : ItemRow) : Prop :=
  (mi_confidence (ir_item b) < mi_confidence (ir_item a))%Z ∨
  (mi_confidence (ir_item b) = mi_confidence (ir_item a) ∧
   ((ir_created_at b < ir_created_at a)%Z ∨
    (ir_created_at b = ir_created_at a ∧ (mi_memory_id (ir_item b) <= mi_memory_id (ir_item a))%N))).

#[export] Instance recalled_first_dec : RelDecision recalled_first.
Proof. intros a b. unfold recalled_first. apply _. Defined.

(** [_ranks(query)] *)
Definition _ranks (query : option pystr) : option (RankerPort * pystr) :=
  match ms_ranker svc, query with
  | Some ranker, Some q => if py_truthy q then Some (ranker, q) else None
  | _, _ => None
  end.

Definition _ordered (found : list MemoryItem) (query : option pystr) (context : AccessContext)
    (worker_id : pystr) : Prog (list MemoryItem) :=
  match _ranks query, found with
  | Some (ranker, q), _ :: _ =>
      try_except
        (let! order := ranker q (tenant_id context) (workspace_id context) worker_id
                         (mi_memory_id <$> found) in
         ret (rank_by order ((λ i, (mi_memory_id i, i)) <$> found)))
        (λ _, ret found)
  | _, _ => ret found
  end.

Definition recall (context : AccessContext) (worker_id : pystr) (subject_refs : list pystr)
    (now : datetime) (limit : nat) (query : option pystr) : Prog (list MemoryItem) :=
  match subject_refs with
  | [] => ret []
  | _ =>
      let! found := session_begin (
        let! rows := sql_select (tenant_id context) (recallable context worker_id subject_refs now) in
        let pool := take (match _ranks query with Some _ => RANKING_POOL | None => limit end)
                      (merge_sort recalled_first rows) in
        lift_res (map_res item_from_row pool)) in
      let! ordered := _ordered found query context worker_id in
      ret (take limit ordered)
  end.
End Service.

(** ** [consumers/memory.py] *)

Definition MEMORY_CANDIDATE_PROPOSED : pystr := "memory.candidate_proposed".
Definition _NO_PLAN : pystr := "background".

Record MemoryCandidatePayload := {
  cp_run_id : uuid;
  cp_actor_id : uuid;
  cp_candidate : MemoryCandidate }.

Record ReviewDecidedPayload := { rd_approval_id : uuid; rd_decided_by : uuid }.

(** Tenancy from the envelope, identity from the payload, no scope and no role. *)
Definition background_access (event : OutboxEvent) (principal : uuid) : AccessContext :=
  {| tenant_id := oe_tenant_id event; workspace_id := oe_workspace_id event;
     principal_id := principal; roles := ∅; groups := ∅; scopes := ∅; clearance := "internal";
     plan_id := _NO_PLAN; feature_flags := ∅; record_visibility := "open"; visible_owners := None;
     max_autonomy_level := FAIL_CLOSED_LEVEL; support := None |}.

Definition _access_for (event : OutboxEvent) (payload : MemoryCandidatePayload) : AccessContext :=
  background_access event (cp_actor_id payload).
Definition _decider_access (event : OutboxEvent) (payload : ReviewDecidedPayload) : AccessContext :=
  background_access event (rd_decided_by payload).

Section Handlers.
Context (svc : MemoryService) (index : option (MemoryItem → Prog unit)).
(** The two pydantic models, reading an event's payload. *)
Context (parse_candidate : gmap pystr json → option MemoryCandidatePayload)
  (parse_decided : gmap pystr json → option ReviewDecidedPayload).

Definition undeliverable {A} (msg : pystr) : Prog A := raise UndeliverableEventError msg.

(** [index.index(...)], of a live item only. *)
Definition index_live (item : option MemoryItem) : Prog unit :=
  match index, item with
  | Some add, Some i => if bool_decide (mi_valid_until i = None) then add i else ret tt
  | _, _ => ret tt
  end.

Definition decision_value (d : WriteDecision) : pystr :=
  match d with AUTO_WRITE => "auto_write" | REVIEW => "review" | REJECT => "reject" end.

Definition handle_candidate : EventHandler := λ event,
  match parse_candidate (oe_payload event) with
  | None => undeliverable "payload does not parse"
  | Some payload =>
      let! result := try_except
        (propose svc (cp_candidate payload) (_access_for event payload) (cp_run_id payload)
           (Some (oe_id event)))
        (λ exc, if isinstance exc DomainError then undeliverable ("refused: " +++ exn_message exc)
                else reraise exc) in
      index_live (pr_item result) ;;;
      ret ("memory candidate " +++ decision_value (po_decision (pr_outcome result)))
  end.

Definition handle_review : EventHandler := λ event,
  match parse_decided (oe_payload event) with
  | None => undeliverable "payload does not parse"
  | Some payload =>
      let! item := try_except (settle_review svc (rd_approval_id payload) (_decider_access event payload))
        (λ exc, if isinstance exc DomainError || isinstance exc NotFoundError
                then undeliverable ("refused: " +++ exn_message exc)
                else reraise exc) in
      index_live item ;;;
      ret match item with
          | None => "memory review settled without a write"
          | Some _ => "memory review written"
          end
  end.

Definition memory_handlers : gmap pystr EventHandler :=
  {[ MEMORY_CANDIDATE_PROPOSED := handle_candidate; MEMORY_REVIEW_DECIDED := handle_review ]}.
End Handlers.
