(* ===== verification/MemoryWrites.v ===== *)
(** * What writing a memory leaves behind

    The effect of each operation of [Memory.v] that writes, as a relation
    between the database before and after: the evidence check, [_store_item],
    [propose] and [settle_review]. *)

From S2P Require Import Prelude Errors Kernel Domain Contracts MemoryPolicy Store ApprovalFlow Outbox.
From S2P Require Import Pagination Memory.
Local Open Scope prog_scope.
Local Open Scope pystr_scope.

(** ** The evidence check *)

(** A citation that holds: the chunk exists for this tenant, in the document
    and with the text the reference says, in sight of the workspace. *)
Definition verified (m : MemoryDb) (tenant workspace : uuid) (ref : EvidenceRef) (c : CitedRow) : Prop :=
  stored_for m tenant workspace ref = Some c ∧ cr_provenance_hash c = ev_provenance_hash ref ∧
  cr_document_id c = ev_source_document_id ref ∧ cr_visible c = true.

(** [a]'s label is no stricter than [b]. *)
Definition label_covers (b a : pystr) : Prop :=
  ∃ i j, classification_rank a = Ok i ∧ classification_rank b = Ok j ∧ i ≤ j.

Lemma label_covers_trans a b c : label_covers a b → label_covers b c → label_covers a c.
Proof. intros (i & j & ? & ? & ?) (k & l & ? & ? & ?). exists k, j.
  assert (i = l) as -> by congruence. split_and!; [done..|lia]. Qed.

Definition supported (m : MemoryDb) (tenant workspace : uuid) (label : pystr) (refs : list EvidenceRef)
    : Prop :=
  refs ≠ [] ∧
  ∀ ref, ref ∈ refs → ∃ c, verified m tenant workspace ref c ∧ label_covers label (cr_classification c).

Lemma check_ref_ok m t ws ref : check_ref m t ws ref = Ok tt ↔ ∃ c, verified m t ws ref c.
Proof.
  unfold check_ref, verified. destruct (stored_for m t ws ref) as [c|]; [|naive_solver].
  repeat case_match; to_prop; split; try naive_solver.
  all: intros (? & ? & ? & ? & ?); simplify_eq; congruence.
Qed.

Lemma check_refs_ok m t ws refs :
  check_refs m t ws refs = Ok tt ↔ ∀ ref, ref ∈ refs → ∃ c, verified m t ws ref c.
Proof.
  induction refs as [|ref refs IH]; simpl; [set_solver|].
  setoid_rewrite elem_of_cons. destruct (check_ref m t ws ref) as [[]|] eqn:E.
  - rewrite IH. apply check_ref_ok in E. naive_solver.
  - split; [done|]. intros H. destruct (proj2 (check_ref_ok m t ws ref)) in E; [naive_solver|].
    assert (check_ref m t ws ref = Ok tt) by (apply check_ref_ok; naive_solver). congruence.
Qed.

Lemma strictest_from_ok best l label :
  is_Some (match classification_rank best with Ok r => Some r | _ => None end) →
  strictest_from best l = Ok label →
  label_covers label best ∧ ∀ c, c ∈ l → label_covers label c.
Proof.
  revert best. induction l as [|c l IH]; simpl; intros best [b Hb].
  - intros [= <-]. destruct (classification_rank best) as [r|] eqn:E; [|done].
    split; [exists r, r; eauto|set_solver].
  - destruct (classification_rank best) as [r|] eqn:E; [|done].
    destruct (classification_rank c) as [k|] eqn:Ec; [|done]. intros Hs.
    destruct (r <? k) eqn:Hlt; to_prop.
    + apply IH in Hs as [Hc Hl]; [|by rewrite Ec]. split.
      * eapply label_covers_trans; [done|]. exists r, k. split_and!; [done..|lia].
      * intros x [->|?]%elem_of_cons; auto.
    + apply IH in Hs as [Hc Hl]; [|by rewrite E]. split; [done|].
      intros x [->|?]%elem_of_cons; auto.
      eapply label_covers_trans; [done|]. exists k, r. split_and!; [done..|lia].
Qed.

Lemma strictest_ok l label : strictest l = Ok label → ∀ c, c ∈ l → label_covers label c.
Proof.
  destruct l as [|c l]; simpl; [done|]. destruct (classification_rank c) as [k|] eqn:E; [|done].
  intros H%strictest_from_ok; [|by rewrite E]. intros x [->|?]%elem_of_cons; naive_solver.
Qed.

Lemma cited_rows_stored m t ws refs ref c :
  ref ∈ refs → stored_for m t ws ref = Some c → c ∈ cited_rows m t ws refs.
Proof.
  unfold stored_for, cited_rows. intros Hr (k & Hk & Hc)%bind_Some. apply list_elem_of_omap.
  exists k. split; [|done]. apply elem_of_elements, elem_of_list_to_set, list_elem_of_omap. eauto.
Qed.

(** ** Rows inserted *)

Section InsertAll.
Context {R K : Type} `{SqlTableOk R K}.

(** What a run of inserts leaves: the rows that were there, and the new ones. *)
Lemma insert_all_ok tenant rows w u w' :
  insert_all tenant rows w = (Ok u, w') →
  ∃ t, w' = set_db (set_tbl t (db w)) w ∧ tbl (db w) ⊆ t ∧
    (∀ r, r ∈ rows → t !! row_key r = Some r ∧ tbl (db w) !! row_key r = None) ∧
    (∀ k r, t !! k = Some r → tbl (db w) !! k = Some r ∨ (r ∈ rows ∧ k = row_key r)).
Proof.
  revert w. induction rows as [|r rows IH]; simpl; intros w Hi.
  - unfold ret in Hi. simplify_eq. exists (tbl (db w')). rewrite set_tbl_tbl.
    split_and!; [by destruct w'|done|set_solver|eauto].
  - apply bind_ok in Hi as ([] & w1 & (Ht & Hk & Hu & ->)%sql_insert_ok & Hi).
    apply IH in Hi as (t & -> & Hsub & Hin & Hout). simpl in *. rewrite tbl_set_tbl in *.
    exists t. rewrite set_tbl_twice. split_and!; [done|..].
    + etrans; [|done]. by apply insert_subseteq.
    + intros x [->|Hx]%elem_of_cons.
      * split; [|done]. eapply lookup_weaken; [apply lookup_insert_eq|done].
      * destruct (Hin x Hx) as [? [? ?]%lookup_insert_None]. done.
    + intros k x Hx. destruct (Hout k x Hx) as [[[<- <-]|[? ?]]%lookup_insert_Some|[? ?]].
      * right. split; [by left|done].
      * by left.
      * right. split; [by right|done].
Qed.
End InsertAll.

(** ** Writing one item *)

(** The memory database with new evidence, items and links. *)
Definition with_rows (m : MemoryDb) ev items ie : MemoryDb :=
  MkMem (t_documents m) (t_chunks m) ev items (t_candidates m) ie.

(** The rows an item closes: other live answers to its question. *)
Definition superseded (item : MemoryItem) (r : ItemRow) : bool :=
  match mi_fact_key item with Some key => superseded_by item key r | None => false end.

Definition close_rows (item : MemoryItem) (now : datetime) : gmap uuid ItemRow → gmap uuid ItemRow :=
  update_rows (visible (mi_tenant_id item) (superseded item)) (close_at now).

(** What a stored item changes: its own row, the answers it closes, its evidence
    and the links to it. *)
Record item_stored (item : MemoryItem) (now : datetime) (m m' : MemoryDb) : Prop := {
  is_fresh : t_items m !! mi_memory_id item = None;
  is_rows : m' = with_rows m (t_evidence m')
              (close_rows item now
                 (<[mi_memory_id item := {| ir_item := item; ir_created_at := now |}]> (t_items m)))
              (t_item_evidence m');
  is_evidence : t_evidence m ⊆ t_evidence m';
  is_links : t_item_evidence m ⊆ t_item_evidence m';
  is_cited : ∀ ref, ref ∈ mi_provenance_refs item →
    is_Some (t_evidence m' !! ev_evidence_id ref) ∧
    is_Some (t_item_evidence m' !! (mi_memory_id item, ev_evidence_id ref));
  is_supported : supported m (mi_tenant_id item) (mi_workspace_id item) (mi_classification item)
                   (mi_provenance_refs item) }.

Lemma overlaps_nil a : overlaps a [] = false.
Proof.
  apply not_true_iff_false. unfold overlaps. intros (s & _ & Hs)%existsb_exists.
  to_prop. set_solver.
Qed.

Lemma superseded_new item now :
  superseded item {| ir_item := item; ir_created_at := now |} = false.
Proof.
  unfold superseded, superseded_by. destruct (mi_fact_key item); [|done]. simpl.
  rewrite (bool_decide_eq_true_2 (mi_memory_id item = mi_memory_id item)) by done.
  by rewrite andb_false_r.
Qed.

Lemma close_superseded_ok item now w ids w' :
  _close_superseded item now w = (Ok ids, w') →
  w' = set_db (set_tbl (close_rows item now (t_items (t_mem (db w)))) (db w)) w.
Proof.
  assert (close_rows item now (t_items (t_mem (db w))) = t_items (t_mem (db w)) →
    set_db (set_tbl (close_rows item now (t_items (t_mem (db w)))) (db w)) w = w) as Hsame.
  { intros ->. change (t_items (t_mem (db w))) with (tbl (R := ItemRow) (db w)).
    rewrite set_tbl_tbl. by destruct w. }
  unfold _close_superseded, close_rows, superseded in *. destruct (mi_fact_key item) as [key|].
  - case_bool_decide as Hs.
    + unfold ret. intros [= <- <-]. symmetry. apply Hsame. apply update_rows_none.
      intros k r _. unfold visible, superseded_by. by rewrite Hs, overlaps_nil, !andb_false_r.
    + unfold sql_select, gets. intros (? & ? & [= <- <-] & H)%bind_ok.
      apply bind_ok in H as (n & w1 & (_ & _ & ->)%sql_update_ok & H). unfold ret in H.
      by simplify_eq.
  - unfold ret. intros [= <- <-]. symmetry. apply Hsame. apply update_rows_none.
    intros k r _. unfold visible. apply andb_false_r.
Qed.

Lemma record_ok refs t ws w label w' :
  record refs t ws w = (Ok label, w') →
  refs ≠ [] ∧ saved w' = saved w ∧
  (∀ ref, ref ∈ refs → ∃ c, verified (t_mem (db w)) t ws ref c ∧ label_covers label (cr_classification c)) ∧
  ∃ ev, db w' = set_tbl (R := EvidenceRow) ev (db w) ∧ t_evidence (t_mem (db w)) ⊆ ev ∧
    ∀ ref, ref ∈ refs → is_Some (ev !! ev_evidence_id ref).
Proof.
  destruct refs as [|ref0 refs0]; [done|]. unfold record. cbv beta iota.
  assert (ref0 :: refs0 ≠ []) as Hne by done. revert Hne. generalize (ref0 :: refs0) as l.
  intros l Hne H. apply bind_ok in H as ([] & w1 & Hw & H). destruct (existsb _ _); [done|].
  unfold ret in Hw. injection Hw as <-.
  apply bind_ok in H as (m & w1 & [= <- <-] & H).
  apply bind_ok in H as ([] & w1 & [= Hc <-] & H).
  apply bind_ok in H as (lbl & w1 & [= Hl <-] & H).
  destruct (strictest _) as [c|] eqn:Es; [|done]. injection Hl as ->.
  apply bind_ok in H as (now & w1 & [= <- <-] & H).
  apply bind_ok in H as ([] & w2 & (ev & -> & Hsub & Hin & _)%insert_all_ok & [= <- <-]).
  simpl in *. split_and!; [done..| |].
  - intros ref Hr. destruct (proj1 (check_refs_ok _ _ _ _) Hc ref Hr) as [c Hv].
    exists c. split; [done|]. eapply strictest_ok; [done|]. apply list_elem_of_fmap.
    exists c. split; [done|]. eapply cited_rows_stored; [done|]. apply Hv.
  - exists ev. split_and!; [done..|]. intros ref Hr.
    destruct (proj1 (check_refs_ok _ _ _ _) Hc ref Hr) as [c [Hs _]].
    destruct (Hin (evidence_row t ws (utc w (utc_reads w)) (cr_classification c) ref)) as [He _];
      [|simpl in He; by rewrite He].
    apply list_elem_of_omap. exists ref. split; [done|]. by rewrite Hs.
Qed.

Lemma verify_evidence_ok refs claimed t ws w u w' :
  _verify_evidence refs claimed t ws w = (Ok u, w') →
  supported (t_mem (db w)) t ws claimed refs ∧ saved w' = saved w ∧
  ∃ ev, db w' = set_tbl (R := EvidenceRow) ev (db w) ∧ t_evidence (t_mem (db w)) ⊆ ev ∧
    ∀ ref, ref ∈ refs → is_Some (ev !! ev_evidence_id ref).
Proof.
  unfold _verify_evidence. intros H.
  apply bind_ok in H as (cited & w1 & (Hne & Hs & Hv & Hev)%record_ok & H).
  apply bind_ok in H as (c & w2 & [= Hc <-] & H). apply bind_ok in H as (k & w2 & [= Hk <-] & H).
  destruct (c <? k) eqn:Hlt; [done|]. to_prop. injection H as _ <-. split_and!; [|done..].
  split; [done|]. intros ref Hr. destruct (Hv ref Hr) as (row & Hver & Hcov). exists row.
  split; [done|]. eapply label_covers_trans; [|done]. exists k, c. done.
Qed.

Lemma store_item_ok item now w ids w' :
  _store_item item now w = (Ok ids, w') →
  saved w' = saved w ∧ ∃ m', db w' = set_mem m' (db w) ∧ item_stored item now (t_mem (db w)) m'.
Proof.
  unfold _store_item. intros H.
  apply bind_ok in H as ([] & w1 & (Hsup & Hs & ev & Hdb & Hev & Hcited)%verify_evidence_ok & H).
  apply bind_ok in H as ([] & w2 & (_ & Hfresh & _ & ->)%sql_insert_ok & H).
  apply bind_ok in H as (ids' & w3 & ->%close_superseded_ok & H).
  apply bind_ok in H as ([] & w4 & (ie & -> & Hie & Hin & _)%insert_all_ok & [= <- <-]).
  cbn in *. rewrite Hdb in *. cbn in *. split; [done|]. eexists. split; [done|].
  split; cbn; [done..| |done].
  intros ref Hr. split; [auto|]. destruct (Hin (item_evidence_row item ref)) as [He _].
  - by apply list_elem_of_fmap_2.
  - cbn in He. by rewrite He.
Qed.

(** ** Whole operations *)

(** A call to something outside the database: it neither writes nor commits. *)
Definition outside {A} (m : Prog A) : Prop :=
  ∀ w, db (m w).2 = db w ∧ saved (m w).2 = saved w.

Definition purges_outside (svc : MemoryService) : Prop :=
  ∀ delete, ms_vector_purge svc = Some delete → ∀ ids, outside (delete ids).

Lemma purge_vectors_run svc ids w :
  purges_outside svc →
  ∃ w', _purge_vectors svc ids w = (Ok tt, w') ∧ db w' = db w ∧ saved w' = saved w.
Proof.
  intros Hp. unfold _purge_vectors. destruct ids as [|id ids]; [by exists w|].
  destruct (ms_vector_purge svc) as [delete|] eqn:E; [|by exists w].
  destruct (Hp delete E (id :: ids) w) as [Hd Hs]. unfold try_except.
  destruct (delete (id :: ids) w) as [[[]|e] w']; simpl in *; by exists w'.
Qed.

Lemma savepoint_same_saved {A} (m : Prog A) : respects same_saved m → respects same_saved (savepoint m).
Proof. intros H w. specialize (H w). unfold savepoint. by destruct (m w) as [[] ?]. Qed.
Lemma undone_same_saved {A} (m : Prog A) : respects same_saved m → respects same_saved (undone m).
Proof. intros H w. specialize (H w). unfold undone. by destruct (m w) as [[] ?]. Qed.
Lemma insert_all_same_saved {R K} `{SqlTable R K} t (rows : list R) :
  respects same_saved (insert_all t rows).
Proof. induction rows; simpl; respects_auto. Qed.
#[export] Hint Resolve savepoint_same_saved undone_same_saved insert_all_same_saved : respects.

Lemma record_same_saved refs t ws : respects same_saved (record refs t ws).
Proof. unfold record. respects_auto. Qed.
#[export] Hint Resolve record_same_saved : respects.
Lemma verify_evidence_same_saved refs c t ws : respects same_saved (_verify_evidence refs c t ws).
Proof. unfold _verify_evidence. respects_auto. Qed.
#[export] Hint Resolve verify_evidence_same_saved : respects.
Lemma close_superseded_same_saved item now : respects same_saved (_close_superseded item now).
Proof. unfold _close_superseded, sql_select. respects_auto. Qed.
#[export] Hint Resolve close_superseded_same_saved : respects.
Lemma store_item_same_saved item now : respects same_saved (_store_item item now).
Proof. unfold _store_item. respects_auto. Qed.
Lemma append_event_same_saved t e : respects same_saved (append_event t e).
Proof. unfold append_event, audit_append. respects_auto. Qed.
Lemma open_review_same_saved context c id o : respects same_saved (_open_review context c id o).
Proof. unfold _open_review, approvals_add. respects_auto. Qed.
Lemma stored_item_same_saved t id : respects same_saved (_stored_item t id).
Proof. unfold _stored_item, sql_get. respects_auto. Qed.
#[export] Hint Resolve store_item_same_saved append_event_same_saved open_review_same_saved
  stored_item_same_saved : respects.
Lemma already_decided_same_saved t id : respects same_saved (_already_decided t id).
Proof. unfold _already_decided, sql_get. respects_auto. Qed.
Lemma write_proposal_same_saved svc c ctx o id run item now :
  respects same_saved (write_proposal svc c ctx o id run item now).
Proof. unfold write_proposal. respects_auto. Qed.
#[export] Hint Resolve already_decided_same_saved write_proposal_same_saved : respects.
Lemma settle_in_session_same_saved svc a ctx now :
  respects same_saved (settle_in_session svc a ctx now).
Proof.
  unfold settle_in_session, settle_row, write_reviewed, _item_from_candidate, _settle_refused,
    _settle_written, approvals_get, _candidate_row, sql_get. respects_auto.
Qed.

Lemma session_cases {A} (m : Prog A) w r w' :
  clean w → respects same_saved m → session_begin m w = (r, w') →
  clean w' ∧ ((∃ e, r = Raise e ∧ db w' = db w) ∨
              ∃ a s, r = Ok a ∧ m w = (Ok a, s) ∧ w' = set_saved (db s) s).
Proof.
  intros Hc Hs. specialize (Hs w). unfold session_begin, same_saved, clean in *.
  destruct (m w) as [[a|e] s]; simpl in *; intros [= <- <-]; simpl.
  - split; [done|]. right. eauto.
  - split; [done|]. left. exists e. split; [done|]. congruence.
Qed.

Definition with_candidates (t : gmap uuid CandidateRow) (m : MemoryDb) : MemoryDb :=
  MkMem (t_documents m) (t_chunks m) (t_evidence m) (t_items m) t (t_item_evidence m).

Lemma item_stored_candidates item now t m m' :
  item_stored item now (with_candidates t m) m' →
  ∃ m1, item_stored item now m m1 ∧ m' = with_candidates t m1.
Proof.
  intros [Hf Hr He Hl Hc Hs]. exists (with_candidates (t_candidates m) m'). cbn in *. split.
  - split; [done| |done..]. rewrite Hr. done.
  - rewrite Hr. done.
Qed.

Definition filed (now : datetime) (r : ApprovalRequest) : ApprovalRequest :=
  {| ar_id := ar_id r; ar_tenant_id := ar_tenant_id r; ar_workspace_id := ar_workspace_id r;
     ar_approval_type := ar_approval_type r; ar_requested_by := ar_requested_by r;
     ar_reason := ar_reason r; ar_payload := ar_payload r; ar_run_id := ar_run_id r;
     ar_required_scope := ar_required_scope r; ar_status := ar_status r;
     ar_created_at := Some now; ar_decided_at := None; ar_version := ar_version r |}.

Lemma append_event_ok t event w u w' :
  append_event t event w = (Ok u, w') →
  saved w' = saved w ∧ ∃ id, let e := event id in
    t_audit (db w) !! (ae_id e, ae_occurred_at e) = None ∧
    db w' = set_tbl (<[(ae_id e, ae_occurred_at e) := e]> (t_audit (db w))) (db w).
Proof.
  unfold append_event. intros H. apply bind_ok in H as (id & w1 & [= <- <-] & H).
  apply bind_ok in H as (e & w1 & [= He <-] & H). unfold make_audit_event in He.
  destruct (audit_event_valid _); [|done]. injection He as <-.
  apply sql_insert_ok in H as (_ & Hk & _ & ->). split; [done|]. by exists (ids w (ids_issued w)).
Qed.

Lemma open_review_ok context c id o w a w' :
  _open_review context c id o w = (Ok a, w') →
  saved w' = saved w ∧ t_approvals (db w) !! a = None ∧
  db w' = set_tbl (<[a := filed (db_now w) (review_request context c id o a)]> (t_approvals (db w))) (db w).
Proof.
  unfold _open_review, approvals_add. intros H.
  apply bind_ok in H as (a' & w1 & [= <- <-] & H).
  apply bind_ok in H as ([] & w2 & H & [= <- <-]).
  apply bind_ok in H as (w3 & w4 & [= <- <-] & (_ & Hk & _ & ->)%sql_insert_ok). done.
Qed.

(** What a proposal that is not a repeat leaves: its candidate row, one audit
    event, and what its decision asks for. *)
Record proposed (svc : MemoryService) (c : MemoryCandidate) (context : AccessContext)
    (o : PolicyOutcome) (id run : uuid) (item : option MemoryItem) (now : datetime) (d d' : Db) : Prop := {
  pd_fresh : t_candidates (t_mem d) !! id = None;
  pd_written : ∃ m1, t_mem d' = with_candidates
      (<[id := candidate_row context c o id run (mi_memory_id <$> item) now]> (t_candidates (t_mem d))) m1 ∧
    match item with Some i => item_stored i now (t_mem d) m1 | None => m1 = t_mem d end;
  pd_review : ∃ opened superseded eid,
    let e := proposal_event svc context c o (mi_memory_id <$> item) id run now superseded opened eid in
    t_audit d !! (ae_id e, ae_occurred_at e) = None ∧
    t_audit d' = <[(ae_id e, ae_occurred_at e) := e]> (t_audit d) ∧
    match item, po_decision o with
    | None, REVIEW =>
        supported (t_mem d) (tenant_id context) (workspace_id context) (mc_classification c)
          (mc_provenance_refs c) ∧
        ∃ a at_, opened = Some a ∧ t_approvals d !! a = None ∧
          t_approvals d' = <[a := filed at_ (review_request context c id o a)]> (t_approvals d)
    | _, _ => opened = None ∧ t_approvals d' = t_approvals d
    end }.

Lemma undone_ok {A} (m : Prog A) w a w' :
  undone m w = (Ok a, w') → ∃ s, m w = (Ok a, s) ∧ w' = set_db (db w) s.
Proof. unfold undone. destruct (m w) as [r s]. intros [= -> <-]. eauto. Qed.

Lemma write_proposal_ok svc c context o id run item now w ids w' :
  write_proposal svc c context o id run item now w = (Ok ids, w') →
  proposed svc c context o id run item now (db w) (db w').
Proof.
  unfold write_proposal. intros H.
  apply bind_ok in H as ([] & w1 & (_ & Hfresh & _ & ->)%sql_insert_ok & H).
  apply bind_ok in H as ([sup opened] & w2 & Heff & H).
  apply bind_ok in H as ([] & w3 & (_ & eid & Hk & Hdb)%append_event_ok & [= <- <-]).
  cbn [fst snd] in *. destruct item as [item|].
  - apply bind_ok in Heff as (sup' & w4 & (_ & m' & Hd & Hst)%store_item_ok & [= <- <- <-]).
    cbn in *. apply item_stored_candidates in Hst as (m1 & Hst & ->). rewrite Hd in *.
    split; [done| |].
    + exists m1. rewrite Hdb. done.
    + exists None, sup', eid. rewrite Hdb. done.
  - destruct (po_decision o) eqn:Ho.
    1, 3: injection Heff as <- <- <-; cbn in *; split;
      [done|eexists; rewrite Hdb; done|]; exists None, [], eid; rewrite Hdb, Ho; done.
    apply bind_ok in Heff as ([] & w4 & (s & (Hsup & _)%verify_evidence_ok & ->)%undone_ok & H).
    apply bind_ok in H as (a & w5 & (_ & Hna & Hd)%open_review_ok & [= <- <- <-]).
    cbn in *. rewrite Hd in *. cbn in *. split; [done|eexists; rewrite Hdb; done|].
    exists (Some a), [], eid. rewrite Hdb, Ho. cbn. split_and!; [done..|].
    exists a. eexists. done.
Qed.

(** The item the policy would write, whatever its id and time, is valid or not. *)
Lemma item_of_valid context c conf run id now run' id' now' :
  memory_item_valid (item_of context c conf run id now) =
  memory_item_valid (item_of context c conf run' id' now').
Proof. done. Qed.

Section Propose.
Context (svc : MemoryService) (Hpurge : purges_outside svc).
Context (c : MemoryCandidate) (context : AccessContext) (run : uuid).
Let o := evaluate (ms_policy svc) c.

(** What a call prepares before its transaction: ids, the time, the item. *)
Definition prepared (item : option MemoryItem) (now : datetime) : Prop :=
  match item with
  | Some i => po_decision o = AUTO_WRITE ∧ memory_item_valid i = true ∧
              ∃ mid, i = item_of context c (po_confidence o) run mid now
  | None => po_decision o ≠ AUTO_WRITE
  end.

Lemma prepared_valid item now mid now' :
  prepared item now → po_decision o = AUTO_WRITE →
  memory_item_valid (item_of context c (po_confidence o) run mid now') = true.
Proof.
  unfold prepared. destruct item as [i|]; [|done]. intros (_ & Hv & mid0 & ->) _.
  by rewrite (item_of_valid _ _ _ _ _ _ run mid0 now).
Qed.

Definition repeated (key : option uuid) (r : ProposalResult) (w : World) : Prop :=
  ∃ k, key = Some k ∧ ∀ w', t_candidates (t_mem (db w')) = t_candidates (t_mem (db w)) →
    t_items (t_mem (db w')) = t_items (t_mem (db w)) →
    _already_decided (tenant_id context) k w' = (Ok (Some r), w').

Lemma already_decided_run k w :
  ∃ r, ∀ w', t_candidates (t_mem (db w')) = t_candidates (t_mem (db w)) →
    t_items (t_mem (db w')) = t_items (t_mem (db w)) →
    _already_decided (tenant_id context) k w' = (r, w').
Proof.
  destruct (_already_decided (tenant_id context) k w) as [r s] eqn:E. exists r.
  intros w' Hc Hi. revert E. unfold _already_decided, _stored_item, sql_get, gets, bind. cbn.
  rewrite Hc. destruct (_ !! k) as [row|]; cbn; [|by intros [= <- <-]].
  destruct (visible _ _ row); cbn; [|by intros [= <- <-]].
  destruct (wc_memory_id row) as [mid|]; cbn; [|by intros [= <- <-]].
  rewrite Hi. destruct (_ !! mid) as [i|]; cbn; [|by intros [= <- <-]].
  destruct (visible _ _ i); cbn; [|by intros [= <- <-]].
  unfold lift_res. destruct (item_from_row i); by intros [= <- <-].
Qed.

Lemma propose_cases key w r w' :
  clean w → propose svc c context run key w = (r, w') →
  clean w' ∧
  ((∃ e, r = Raise e ∧ db w' = db w) ∨
   (∃ pr item now, prepared item now ∧ r = Ok pr ∧ db w' = db w ∧ repeated key pr w) ∨
   (∃ id item now, prepared item now ∧ match key with Some k => id = k | None => True end ∧
      r = Ok {| pr_candidate_id := id; pr_outcome := o; pr_item := item |} ∧
      proposed svc c context o id run item now (db w) (db w'))).
Proof.
  intros Hc. unfold propose. fold o. intros H.
  assert (∃ id w1, (match key with Some k => ret k | None => new_uuid end) w = (Ok id, w1) ∧
    clean w1 ∧ db w1 = db w ∧ match key with Some k => id = k | None => True end)
    as (id & w1 & E1 & Hc1 & Hd1 & Hid).
  { destruct key as [k|]; [by exists k, w|]. by eexists _, _. }
  unfold bind at 1 in H. rewrite E1 in H.
  unfold bind at 1 in H. cbn [now_utc] in H.
  set (now := utc w1 (utc_reads w1)) in H.
  match type of H with bind _ _ ?w2 = _ => set (w2' := w2) in H end.
  assert (clean w2' ∧ db w2' = db w) as [Hc2 Hd2] by done. clearbody w2' now.
  unfold bind at 1 in H.
  match type of H with match ?p with _ => _ end = _ =>
    assert (clean p.2 ∧ db p.2 = db w ∧
            match p.1 with Ok item => prepared item now | Raise _ => True end) as Hitem;
    [|destruct p as [[item|e] w3]; simpl in Hitem]
  end.
  { unfold prepared. case_bool_decide as Ho; [|done].
    unfold bind, new_uuid, lift_res, make_memory_item, ret.
    destruct (memory_item_valid _) eqn:Hv; simpl; [|done].
    split_and!; [done..|]. by eexists. }
  2: { destruct Hitem as (? & ? & _). simplify_eq. split; [done|]. left. eauto. }
  destruct Hitem as (Hc3 & Hd3 & Hitem). unfold bind at 1 in H.
  destruct (session_begin _ w3) as [rs w4] eqn:Es.
  apply session_cases in Es as [Hc4 Es]; [|done|].
  2: { destruct key; respects_auto. }
  destruct Es as [(e & -> & Hdb)|(a & s & -> & Hbody & ->)].
  { injection H as <- <-. split; [done|]. left. exists e. split; [done|congruence]. }
  apply bind_ok in Hbody as (seen & w5 & Hseen & Hbody).
  assert (w5 = w3 ∧ match seen with Some pr => repeated key pr w | None => True end) as [-> Hrep].
  { destruct key as [k|]; [|by injection Hseen as <- <-].
    destruct (already_decided_run k w) as [r0 Hr0].
    rewrite (Hr0 w3) in Hseen by (by rewrite Hd3). injection Hseen as -> <-.
    split; [done|]. destruct seen as [pr|]; [|done]. exists k. split; [done|]. intros. by apply Hr0. }
  destruct seen as [pr|].
  - injection Hbody as <- <-. injection H as <- <-. split; [done|]. right. left.
    exists pr, item, now. done.
  - apply bind_ok in Hbody as (sup & w6 & Hw & [= <- <-]).
    apply write_proposal_ok in Hw. rewrite Hd3 in Hw.
    unfold bind at 1 in H.
    destruct (purge_vectors_run svc sup (set_saved (db w6) w6) Hpurge) as (w7 & Ep & Hd7 & Hs7).
    rewrite Ep in H. injection H as <- <-. split; [unfold clean; by rewrite Hs7, Hd7|].
    right. right. exists id, item, now. rewrite Hd7. done.
Qed.
End Propose.

(** ** Settling a review *)

Definition held (row : CandidateRow) : Prop := wc_memory_id row = None ∧ wc_decision row = REVIEW.

Definition reviewed_item (row : CandidateRow) (now : datetime) (mid : uuid) : MemoryItem :=
  {| mi_memory_id := mid; mi_tenant_id := wc_tenant_id row; mi_workspace_id := wc_workspace_id row;
     mi_worker_id := wc_worker_id row; mi_memory_type := wc_memory_type row;
     mi_subject_refs := wc_subject_refs row; mi_content := wc_content row;
     mi_structured_facts := wc_structured_facts row;
     mi_provenance_refs := wc_provenance_refs row; mi_confidence := wc_confidence row;
     mi_classification := wc_classification row; mi_valid_from := now; mi_valid_until := None;
     mi_retention_policy := RETENTION_CLASS; mi_memory_schema_version := MEMORY_SCHEMA_VERSION;
     mi_created_by_run_id := wc_created_by_run_id row; mi_fact_key := wc_fact_key row |}.

(** The audit trail after one event of a review. *)
Definition audited (svc : MemoryService) (context : AccessContext) (row : CandidateRow) (action : pystr)
    (request : ApprovalRequest) (now : datetime) (resource : option uuid) (d d' : Db) : Prop :=
  ∃ extra eid, let e := review_event svc context row action request now resource extra eid in
    t_audit d !! (ae_id e, ae_occurred_at e) = None ∧
    t_audit d' = <[(ae_id e, ae_occurred_at e) := e]> (t_audit d).

Definition recorded (decision : WriteDecision) (mid : option uuid) (row : CandidateRow)
    (t : gmap uuid CandidateRow) : gmap uuid CandidateRow :=
  <[wc_id row := settle_columns decision mid row]> t.

(** How a settlement's transaction may end, and what it leaves. *)
Inductive settled (svc : MemoryService) (context : AccessContext) (request : ApprovalRequest)
    (row : CandidateRow) (now : datetime) (d d' : Db) : settled_as → Prop :=
  | settled_before i :
      ¬ held row → d' = d →
      (match wc_memory_id row with
       | None => i = None
       | Some mid => ∀ w, t_items (t_mem (db w)) = t_items (t_mem d) →
                       _stored_item (tenant_id context) mid w = (Ok i, w)
       end) → settled svc context request row now d d' (Answer i)
  | settled_refused :
      held row → ar_status request ≠ PENDING → ar_status request ≠ APPROVED →
      t_mem d' = with_candidates (recorded REJECT None row (t_candidates (t_mem d))) (t_mem d) →
      audited svc context row _REVIEW_REJECTED request now None d d' →
      settled svc context request row now d d' (Answer None)
  | settled_failed exc :
      held row → ar_status request = APPROVED → isinstance exc DomainError = true →
      t_mem d' = with_candidates (recorded REJECT None row (t_candidates (t_mem d))) (t_mem d) →
      audited svc context row _REVIEW_FAILED request now None d d' →
      settled svc context request row now d d' (Failed exc)
  | settled_written mid superseded m1 (item := reviewed_item row now mid) :
      held row → ar_status request = APPROVED → memory_item_valid item = true →
      item_stored item now (t_mem d) m1 →
      t_mem d' = with_candidates (recorded REVIEW (Some mid) row (t_candidates (t_mem d))) m1 →
      audited svc context row _WRITTEN_AFTER_REVIEW request now (Some mid) d d' →
      settled svc context request row now d d' (Written item superseded).

Lemma settle_update w t cid row decision mid :
  keyed (t_candidates (t_mem (db w))) → t_candidates (t_mem (db w)) !! cid = Some row →
  wc_tenant_id row = t →
  (let! _ := sql_update t (λ r, bool_decide (wc_id r = wc_id row))
               (λ r, settle_columns (decision r) (mid r) r) in ret tt) w =
  (Ok tt, set_db (set_tbl (recorded (decision row) (mid row) row (t_candidates (t_mem (db w)))) (db w)) w).
Proof.
  intros Hk Hr Ht. pose proof (Hk _ _ Hr) as Hid. cbn in Hid. unfold bind, recorded. rewrite Hid.
  rewrite sql_update_run by (by apply unique_ok_none). unfold ret.
  rewrite (update_rows_one _ _ _ cid row); [done|done|..].
  - unfold visible. cbn. by rewrite !bool_decide_eq_true_2.
  - intros k r Hkr Hv. unfold visible in Hv. to_prop. rewrite <- (Hk _ _ Hkr). cbn. congruence.
Qed.

Lemma write_reviewed_ok svc context request row now w ended w' :
  keyed (t_candidates (t_mem (db w))) → t_candidates (t_mem (db w)) !! wc_id row = Some row →
  wc_tenant_id row = tenant_id context → held row → ar_status request = APPROVED →
  write_reviewed svc context request row now w = (Ok ended, w') →
  t_approvals (db w') = t_approvals (db w) ∧ settled svc context request row now (db w) (db w') ended.
Proof.
  intros Hkey Hrow Ht Hheld Ha. pose proof Hheld as [Hm Hd]. unfold write_reviewed, _item_from_candidate. intros H.
  apply bind_ok in H as (item & w1 & H1 & H). apply bind_ok in H1 as (mid & w2 & [= <- <-] & H1).
  injection H1 as H1 <-. unfold make_memory_item in H1.
  destruct (memory_item_valid _) eqn:Hv; [|done]. injection H1 as <-.
  fold (reviewed_item row now (ids w (ids_issued w))) in *.
  match type of H with bind _ _ ?w2 = _ => set (w0 := w2) in H end.
  assert (db w0 = db w) as Hd0 by done. clearbody w0. revert H Hv.
  generalize (ids w (ids_issued w)) as mid. intros mid H Hv.
  apply bind_ok in H as (stored & w1 & Hs & H). unfold try_except, savepoint, bind in Hs.
  destruct (_store_item _ now w0) as [[sup|exc] w2] eqn:Est.
  - injection Hs as <- <-. apply store_item_ok in Est as (_ & m1 & Hd2 & Hst). rewrite Hd0 in *.
    pose proof (is_rows _ _ _ _ Hst) as Hm1.
    assert (t_candidates (t_mem (db w2)) = t_candidates (t_mem (db w))) as Hc2.
    { rewrite Hd2. cbn. by rewrite Hm1. }
    unfold bind at 1 in H. unfold _settle_written in H.
    rewrite (settle_update w2 _ (wc_id row) row (λ r, wc_decision r) (λ _, Some mid)) in H
      by (rewrite ?Hc2; done).
    apply bind_ok in H as ([] & w3 & (_ & eid & Hk & Hdb)%append_event_ok & [= <- <-]).
    cbn in *. rewrite Hd2, Hc2 in *. cbn in *. split; [by rewrite Hdb|].
    eapply settled_written with (m1 := m1); [done|done|done|done| |].
    + rewrite Hdb. cbn. rewrite Hd. done.
    + eexists _, eid. rewrite Hdb. cbn. split; [exact Hk|reflexivity].
  - destruct (isinstance exc DomainError) eqn:Hi; [|done]. injection Hs as <- <-.
    unfold bind at 1 in H. unfold _settle_refused in H.
    rewrite (settle_update (set_db (db w0) w2) _ (wc_id row) row (λ _, REJECT) (λ r, wc_memory_id r)) in H
      by (cbn; rewrite ?Hd0; done).
    apply bind_ok in H as ([] & w3 & (_ & eid & Hk & Hdb)%append_event_ok & [= <- <-]).
    cbn in *. rewrite Hd0, Hm in *. cbn in *. split; [by rewrite Hdb|].
    apply settled_failed; [done|done|done| |].
    + rewrite Hdb. done.
    + eexists _, eid. rewrite Hdb. cbn. split; [exact Hk|reflexivity].
Qed.

Lemma settle_row_ok svc context request row now w ended w' :
  keyed (t_candidates (t_mem (db w))) → t_candidates (t_mem (db w)) !! wc_id row = Some row →
  wc_tenant_id row = tenant_id context →
  settle_row svc context request row now w = (Ok ended, w') →
  t_approvals (db w') = t_approvals (db w) ∧ settled svc context request row now (db w) (db w') ended.
Proof.
  intros Hkey Hrow Ht. unfold settle_row. destruct (wc_memory_id row) as [mid|] eqn:Hm.
  { intros (i & w1 & H & [= <- <-])%bind_ok.
    assert (w1 = w ∧ ∀ w2, t_items (t_mem (db w2)) = t_items (t_mem (db w)) →
      _stored_item (tenant_id context) mid w2 = (Ok i, w2)) as [-> Hi].
    { revert H. unfold _stored_item, sql_get, gets, bind. cbn.
      destruct (_ !! mid) as [r|] eqn:E; cbn.
      - destruct (visible _ _ r) eqn:Ev; cbn.
        + unfold lift_res. destruct (item_from_row r) eqn:Ei; intros [= <- <-].
          split; [done|]. intros w2 ->. rewrite E; cbn. by rewrite Ev; cbn; rewrite Ei.
        + intros [= <- <-]. split; [done|]. intros w2 ->. rewrite E; cbn. by rewrite Ev.
      - intros [= <- <-]. split; [done|]. intros w2 ->. by rewrite E. }
    split; [done|]. constructor; [|done|by rewrite Hm]. intros [? _]. congruence. }
  destruct (wc_decision row) eqn:Hd; cbn [bool_decide negb].
  1, 3: intros [= <- <-]; split; [done|]; constructor; [intros [_ ?]; congruence|done|by rewrite Hm].
  rewrite (bool_decide_eq_true_2 (REVIEW = REVIEW)) by done. cbn [negb].
  case_bool_decide as Hp; [done|].
  destruct (bool_decide (ar_status request = APPROVED)) eqn:Ha; cbn [negb]; to_prop.
  - intros H. eapply write_reviewed_ok; done.
  - intros H. unfold bind at 1 in H. unfold _settle_refused in H.
    rewrite (settle_update w _ (wc_id row) row (λ _, REJECT) (λ r, wc_memory_id r)) in H by done.
    apply bind_ok in H as ([] & w3 & (_ & eid & Hk & Hdb)%append_event_ok & [= <- <-]).
    cbn in *. rewrite Hm in *. split; [by rewrite Hdb|].
    apply settled_refused; [done|done|done| |].
    + rewrite Hdb. done.
    + eexists _, eid. rewrite Hdb. cbn. split; [exact Hk|reflexivity].
Qed.

(** The approval and the candidate a settlement reads. *)
Definition review_of (context : AccessContext) (approval_id : uuid) (d : Db)
    (request : ApprovalRequest) (row : CandidateRow) : Prop :=
  (∀ w, t_approvals (db w) = t_approvals d →
     approvals_get (tenant_id context) approval_id (workspace_id context)
       {| aud_context := context; holds_decide := false |} w = (Ok (Some request), w)) ∧
  ar_approval_type request = MEMORY_REVIEW ∧ ar_workspace_id request = workspace_id context ∧
  payload_candidate request = Ok (wc_id row) ∧
  t_candidates (t_mem d) !! wc_id row = Some row ∧
  wc_tenant_id row = tenant_id context ∧ wc_workspace_id row = workspace_id context.

Lemma settle_in_session_ok svc context a now w ended w' :
  keyed (t_candidates (t_mem (db w))) → settle_in_session svc a context now w = (Ok ended, w') →
  ∃ request row, review_of context a (db w) request row ∧
    t_approvals (db w') = t_approvals (db w) ∧
    settled svc context request row now (db w) (db w') ended.
Proof.
  intros Hkey. unfold settle_in_session. intros H.
  apply bind_ok in H as (request & w1 & Hr & H).
  assert (w1 = w) as -> by (unfold approvals_get, sql_get, gets in Hr; by simplify_eq).
  destruct request as [request|]; [|done]. destruct (_ && _) eqn:Hb; [|done]. to_prop.
  apply bind_ok in H as (cid & w1 & [= Hp <-] & H). apply bind_ok in H as (row & w1 & Hc & H).
  unfold _candidate_row, sql_get, gets in Hc. injection Hc as Hc <-.
  destruct row as [row|]; [|done]. apply bind_Some in Hc as (row' & Hl & Hv). cbn in Hl.
  destruct (visible _ _ row') eqn:Evis; [|done]. injection Hv as ->. unfold visible in Evis. to_prop.
  pose proof (Hkey _ _ Hl) as Hid. cbn in *. subst cid.
  exists request, row. split.
  - unfold review_of. split_and!; try done.
    intros w2 Hw2. revert Hr. unfold approvals_get, sql_get, gets. cbn. rewrite Hw2.
    by intros [= ->].
  - by eapply settle_row_ok.
Qed.

(** The answer of a settlement that ended so. *)
Definition answer_of (ended : settled_as) : res (option MemoryItem) :=
  match ended with
  | Answer i => Ok i
  | Written item _ => Ok (Some item)
  | Failed exc => Raise exc
  end.

Lemma settle_review_cases svc context a w r w' :
  purges_outside svc → clean w → keyed (t_candidates (t_mem (db w))) →
  settle_review svc a context w = (r, w') →
  clean w' ∧
  ((∃ e, r = Raise e ∧ db w' = db w) ∨
   ∃ request row now ended, review_of context a (db w) request row ∧
     t_approvals (db w') = t_approvals (db w) ∧
     settled svc context request row now (db w) (db w') ended ∧ r = answer_of ended).
Proof.
  intros Hpurge Hc Hkey. unfold settle_review. unfold bind at 1. cbn [now_utc].
  set (now := utc w (utc_reads w)).
  match goal with |- bind _ _ ?w2 = _ → _ => set (w1 := w2) end.
  assert (clean w1 ∧ db w1 = db w) as [Hc1 Hd1] by done. clearbody w1 now. unfold bind at 1.
  destruct (session_begin _ w1) as [rs w2] eqn:Es.
  apply session_cases in Es as [Hc2 Es]; [|done|apply settle_in_session_same_saved].
  destruct Es as [(e & -> & Hdb)|(ended & s & -> & Hs & ->)].
  { intros [= <- <-]. split; [done|]. left. exists e. split; [done|congruence]. }
  apply settle_in_session_ok in Hs as (request & row & Hrev & Hap & Hset); [|by rewrite Hd1].
  rewrite Hd1 in *. intros H.
  assert (r = answer_of ended ∧ db w' = db s ∧ clean w') as (-> & Hd' & Hc').
  { destruct ended as [i|item sup|exc]; simpl.
    - by injection H as <- <-.
    - destruct (purge_vectors_run svc sup (set_saved (db s) s) Hpurge) as (w3 & Ep & Hd3 & Hs3).
      unfold bind in H. rewrite Ep in H. injection H as <- <-. unfold clean. by rewrite Hd3, Hs3.
    - by injection H as <- <-. }
  split; [done|]. right. exists request, row, now, ended. by rewrite Hd'.
Qed.
