(* ===== verification/MemoryLaws.v ===== *)
(** * What stored memories keep, and what a proposal and a review do

    The theorems of [MemoryService.propose] and [settle_review]: what every
    stored item rests on, which memory is the answer to a question, what a
    redelivery does, what a person approving a held fact changes, and where two
    proposals that overlap break the inventory. *)

From S2P Require Import Prelude Errors Kernel Domain Contracts MemoryPolicy Store ApprovalFlow Outbox.
From S2P Require Import Pagination Memory MemoryWrites.
Local Open Scope prog_scope.
Local Open Scope pystr_scope.

(** ** What the stored memories keep *)

(** An item's own fields, its window apart. *)
Definition fields_valid (i : MemoryItem) : bool :=
  (1 <=? py_len (mi_content i)) && (0 <=? mi_confidence i)%Z && (mi_confidence i <=? one53)%Z
  && fact_key_valid (mi_fact_key i).

Lemma memory_item_valid_fields i :
  memory_item_valid i =
  fields_valid i && match mi_valid_until i with Some u => (mi_valid_from i <? u)%Z | None => true end.
Proof. done. Qed.

(** Every item rests on evidence that is there, recorded and linked to it. *)
Definition well_founded_item (m : MemoryDb) (id : uuid) (i : MemoryItem) : Prop :=
  fields_valid i = true ∧
  supported m (mi_tenant_id i) (mi_workspace_id i) (mi_classification i) (mi_provenance_refs i) ∧
  ∀ ref, ref ∈ mi_provenance_refs i →
    is_Some (t_evidence m !! ev_evidence_id ref) ∧ is_Some (t_item_evidence m !! (id, ev_evidence_id ref)).

(** Two live items are answers to one question. *)
Definition same_question (a b : MemoryItem) : Prop :=
  mi_tenant_id a = mi_tenant_id b ∧ mi_workspace_id a = mi_workspace_id b ∧
  mi_worker_id a = mi_worker_id b ∧ is_Some (mi_fact_key a) ∧ mi_fact_key a = mi_fact_key b ∧
  ∃ s, s ∈ mi_subject_refs a ∧ s ∈ mi_subject_refs b.

Record memory_inv (m : MemoryDb) : Prop := {
  mi_items_keyed : keyed (t_items m);
  mi_candidates_keyed : keyed (t_candidates m);
  mi_founded : ∀ id r, t_items m !! id = Some r → well_founded_item m id (ir_item r);
  mi_single : ∀ id1 id2 r1 r2, t_items m !! id1 = Some r1 → t_items m !! id2 = Some r2 →
    mi_valid_until (ir_item r1) = None → mi_valid_until (ir_item r2) = None →
    same_question (ir_item r1) (ir_item r2) → id1 = id2 }.

Lemma same_question_sym a b : same_question a b → same_question b a.
Proof.
  intros (? & ? & ? & [k Hk] & ? & s & ? & ?). split_and!; [done..| |done|by exists s].
  exists k. congruence.
Qed.

Lemma overlaps_spec a b : overlaps a b = true ↔ ∃ s, s ∈ a ∧ s ∈ b.
Proof.
  unfold overlaps. rewrite existsb_exists. setoid_rewrite bool_decide_eq_true.
  split; intros (s & Hs & ?); exists s; split; try done; by apply list_elem_of_In.
Qed.

(** A live row of the new table is the new item, or an old row it does not close. *)
Lemma item_stored_live item now m m' id r :
  item_stored item now m m' → t_items m' !! id = Some r → mi_valid_until (ir_item r) = None →
  (id = mi_memory_id item ∧ ir_item r = item) ∨
  (t_items m !! id = Some r ∧ visible (mi_tenant_id item) (superseded item) r = false).
Proof.
  intros Hst Hr Hlive. rewrite (is_rows _ _ _ _ Hst) in Hr. cbn in Hr.
  unfold close_rows in Hr. rewrite lookup_update_rows in Hr.
  apply fmap_Some in Hr as (r0 & Hr0 & ->).
  destruct (visible _ _ r0) eqn:Hv; [done|].
  apply lookup_insert_Some in Hr0 as [[<- <-]|[_ Hr0]]; auto.
Qed.

(** Every row of the new table: the new item, or an old row, closed or not. *)
Lemma item_stored_row item now m m' id r :
  item_stored item now m m' → t_items m' !! id = Some r →
  ∃ r0, (id = mi_memory_id item ∧ ir_item r0 = item ∨ t_items m !! id = Some r0) ∧
        (r = r0 ∨ r = close_at now r0).
Proof.
  intros Hst Hr. rewrite (is_rows _ _ _ _ Hst) in Hr. cbn in Hr.
  unfold close_rows in Hr. rewrite lookup_update_rows in Hr.
  apply fmap_Some in Hr as (r0 & Hr0 & ->). exists r0. split; [|destruct (visible _ _ r0); auto].
  apply lookup_insert_Some in Hr0 as [[<- <-]|[_ Hr0]]; auto.
Qed.

Lemma supported_same m m' t ws label refs :
  t_documents m' = t_documents m → t_chunks m' = t_chunks m →
  supported m t ws label refs → supported m' t ws label refs.
Proof.
  intros Hd Hc [Hne Hs]. split; [done|]. intros ref Hr. destruct (Hs ref Hr) as (c & Hv & Hl).
  exists c. split; [|done]. revert Hv. unfold verified, stored_for, cited_row. by rewrite Hd, Hc.
Qed.

Lemma item_stored_inv item now m m' :
  memory_item_valid item = true → mi_valid_until item = None →
  item_stored item now m m' → memory_inv m → memory_inv m'.
Proof.
  intros Hval Hopen Hst Hinv. pose proof (is_rows _ _ _ _ Hst) as Hm'.
  assert (∀ id r, t_items m' !! id = Some r → mi_valid_until (ir_item r) = None →
    ∀ id', id ≠ id' → id' = mi_memory_id item → same_question (ir_item r) item → False) as Hnew.
  { intros id r Hr Hlive id' Hne -> (Ht & Hws & Hwk & [k Hk] & Hkey & Hsub).
    destruct (item_stored_live _ _ _ _ _ _ Hst Hr Hlive) as [[-> _]|[Hr0 Hv]]; [done|].
    assert (mi_memory_id (ir_item r) = id) as Hid by apply (mi_items_keyed _ Hinv _ _ Hr0).
    revert Hv. apply not_false_iff_true. unfold visible, superseded, superseded_by. rewrite <- Hkey, Hk. cbn.
    rewrite !bool_decide_eq_true_2 by done. rewrite bool_decide_eq_false_2 by congruence.
    by rewrite (bool_decide_eq_true_2 (_ = None)), (proj2 (overlaps_spec _ _)). }
  split.
  - rewrite Hm'. apply keyed_update; [done|]. cbn.
    exact (keyed_insert (R := ItemRow) _ {| ir_item := item; ir_created_at := now |}
             (mi_items_keyed _ Hinv)).
  - rewrite Hm'. apply Hinv.
  - intros id r Hr. destruct (item_stored_row _ _ _ _ _ _ Hst Hr) as (r0 & Hr0 & Hclosed).
    assert (well_founded_item m' id (ir_item r0)) as Hw; [|by destruct Hclosed as [->| ->]].
    destruct Hr0 as [[-> ->]|Hr0].
    + split_and!; [| |by apply (is_cited _ _ _ _ Hst)].
      * rewrite memory_item_valid_fields in Hval. by apply andb_true_iff in Hval as [? _].
      * eapply supported_same; [| |apply (is_supported _ _ _ _ Hst)]; by rewrite Hm'.
    + destruct (mi_founded _ Hinv _ _ Hr0) as (Hf & Hs & Hl). split_and!; [done| |].
      * eapply supported_same; [| |done]; by rewrite Hm'.
      * intros ref Href. destruct (Hl ref Href) as [[e He] [l Hlk]]. split.
        -- exists e. eapply lookup_weaken; [done|apply (is_evidence _ _ _ _ Hst)].
        -- exists l. eapply lookup_weaken; [done|apply (is_links _ _ _ _ Hst)].
  - intros id1 id2 r1 r2 H1 H2 Hl1 Hl2 Hq. destruct (base.decide (id1 = id2)) as [|Hne]; [done|exfalso].
    destruct (item_stored_live _ _ _ _ _ _ Hst H1 Hl1) as [[-> E1]|[Ho1 _]];
      destruct (item_stored_live _ _ _ _ _ _ Hst H2 Hl2) as [[-> E2]|[Ho2 _]]; [done|..].
    + rewrite E1 in Hq. by eapply (Hnew id2 r2); [..|apply same_question_sym].
    + rewrite E2 in Hq. by eapply (Hnew id1 r1).
    + by apply Hne, (mi_single _ Hinv _ _ _ _ Ho1 Ho2).
Qed.

Lemma with_candidates_inv t m : keyed t → memory_inv m → memory_inv (with_candidates t m).
Proof. intros Ht [Hk _ Hf Hs]. by split. Qed.

(** ** Reachable states *)

(** A step of the process: a proposal, a settled review, or anything that does
    not write memory. *)
Inductive memory_step (svc : MemoryService) (w : World) : World → Prop :=
  | step_propose c context run key : memory_step svc w (propose svc c context run key w).2
  | step_settle approval context : memory_step svc w (settle_review svc approval context w).2
  | step_elsewhere w' : clean w' → t_mem (db w') = t_mem (db w) → memory_step svc w w'.

Lemma recorded_keyed decision mid row t : keyed t → keyed (recorded decision mid row t).
Proof. intros Hk. exact (keyed_insert (R := CandidateRow) t (settle_columns decision mid row) Hk). Qed.

Lemma proposed_inv svc c context o id run item now d d' :
  prepared svc c context run item now → o = evaluate (ms_policy svc) c →
  proposed svc c context o id run item now d d' → memory_inv (t_mem d) → memory_inv (t_mem d').
Proof.
  intros Hp -> [_ (m1 & -> & Hm1) _] Hinv.
  set (row := candidate_row _ _ _ _ _ _ _).
  assert (memory_inv m1 ∧ t_candidates m1 = t_candidates (t_mem d)) as [Hinv1 Hc].
  { destruct item as [i|]; [|by subst]. destruct Hp as (_ & Hv & mid & ->).
    split; [by eapply item_stored_inv|]. by rewrite (is_rows _ _ _ _ Hm1). }
  apply with_candidates_inv; [|done]. exact (keyed_insert (R := CandidateRow) _ row (mi_candidates_keyed _ Hinv)).
Qed.

Lemma settled_inv svc context request row now d d' ended :
  settled svc context request row now d d' ended → memory_inv (t_mem d) → memory_inv (t_mem d').
Proof.
  intros Hs Hinv. destruct Hs as [i _ -> _|_ _ _ -> _|exc _ _ _ -> _|mid sup m1 item _ _ Hv Hst -> _].
  - done.
  - apply with_candidates_inv; [|done]. apply recorded_keyed, Hinv.
  - apply with_candidates_inv; [|done]. apply recorded_keyed, Hinv.
  - apply with_candidates_inv; [apply recorded_keyed, Hinv|]. by eapply item_stored_inv.
Qed.

Lemma memory_step_inv svc w w' :
  purges_outside svc → memory_step svc w w' → clean w → memory_inv (t_mem (db w)) →
  clean w' ∧ memory_inv (t_mem (db w')).
Proof.
  intros Hpurge Hstep Hc Hinv. destruct Hstep as [c context run key|approval context|w' Hc' ->]; [| |done].
  - destruct (propose svc c context run key w) as [r w'] eqn:E.
    destruct (propose_cases svc Hpurge _ _ _ _ _ _ _ Hc E)
      as [Hc' [(e & _ & Hd)|[(pr & ? & ? & _ & _ & Hd & _)|(id & item & now & Hp & _ & _ & Hw)]]];
      simpl; split; try done; try by rewrite Hd.
    by eapply proposed_inv.
  - destruct (settle_review svc approval context w) as [r w'] eqn:E.
    destruct (settle_review_cases _ _ _ _ _ _ Hpurge Hc (mi_candidates_keyed _ Hinv) E)
      as [Hc' [(e & _ & Hd)|(request & row & now & ended & _ & _ & Hs & _)]]; simpl; split; try done.
    + by rewrite Hd.
    + by eapply settled_inv.
Qed.

(** C11: in every state proposals and settled reviews reach, each stored memory cites
    verified chunks of its own tenant and a visible document, is labelled at least as
    strictly as all of them, has its evidence recorded and linked, and no two live
    memories answer one question about one subject. *)
Theorem memories_stay_founded svc w w' :
  purges_outside svc → rtc (memory_step svc) w w' → clean w → memory_inv (t_mem (db w)) →
  clean w' ∧ memory_inv (t_mem (db w')).
Proof.
  intros Hpurge. induction 1 as [w|w w1 w' Hstep _ IH]; intros Hc Hinv; [done|].
  destruct (memory_step_inv svc w w1) as [??]; [done..|]. by apply IH.
Qed.

(** ** Proposals *)

(** What one decision leaves of the memories, the reviews and the trail. *)
Record proposal_outcome (svc : MemoryService) (c : MemoryCandidate) (context : AccessContext)
    (run : uuid) (r : ProposalResult) (d d' : Db) : Prop := {
  po_recorded : ∃ row, t_candidates (t_mem d) !! pr_candidate_id r = None ∧
    t_candidates (t_mem d') = <[pr_candidate_id r := row]> (t_candidates (t_mem d)) ∧
    wc_decision row = po_decision (pr_outcome r) ∧ wc_memory_id row = mi_memory_id <$> pr_item r;
  po_trail : ∃ e, t_audit d' = <[(ae_id e, ae_occurred_at e) := e]> (t_audit d) ∧
    t_audit d !! (ae_id e, ae_occurred_at e) = None ∧
    ae_action e = _ACTION (po_decision (pr_outcome r)) ∧ ae_actor_id e = principal_id context ∧
    ae_resource_id e = uuid_str (default (pr_candidate_id r) (mi_memory_id <$> pr_item r));
  po_effect :
    match po_decision (pr_outcome r) with
    | AUTO_WRITE => ∃ i m1, pr_item r = Some i ∧ memory_item_valid i = true ∧
        item_stored i (mi_valid_from i) (t_mem d) m1 ∧ t_items (t_mem d') = t_items m1 ∧
        t_evidence (t_mem d') = t_evidence m1 ∧ t_approvals d' = t_approvals d
    | REVIEW => pr_item r = None ∧ t_items (t_mem d') = t_items (t_mem d) ∧
        t_evidence (t_mem d') = t_evidence (t_mem d) ∧
        supported (t_mem d) (tenant_id context) (workspace_id context) (mc_classification c)
          (mc_provenance_refs c) ∧
        ∃ a at_, t_approvals d !! a = None ∧ t_approvals d' =
          <[a := filed at_ (review_request context c (pr_candidate_id r) (pr_outcome r) a)]> (t_approvals d)
    | REJECT => pr_item r = None ∧ t_items (t_mem d') = t_items (t_mem d) ∧
        t_evidence (t_mem d') = t_evidence (t_mem d) ∧ t_approvals d' = t_approvals d
    end }.

Lemma prepared_decision svc c context run item now :
  prepared svc c context run item now →
  match item with Some i => po_decision (evaluate (ms_policy svc) c) = AUTO_WRITE ∧ mi_valid_from i = now
             | None => po_decision (evaluate (ms_policy svc) c) ≠ AUTO_WRITE end.
Proof. unfold prepared. destruct item; [|done]. by intros (? & _ & mid & ->). Qed.

(** A new proposal leaves one candidate row and one audit event and then exactly what the
    policy decides: an auto-write stores the item and closes what it supersedes, a
    review stores no item or evidence but opens one pending approval over verified
    evidence, a rejection stores nothing; a proposal that fails leaves the database as
    it was. *)
Theorem proposal_follows_policy svc c context run key w r w' :
  purges_outside svc → clean w →
  match key with Some k => t_candidates (t_mem (db w)) !! k = None | None => True end →
  propose svc c context run key w = (r, w') →
  match r with
  | Ok pr => pr_outcome pr = evaluate (ms_policy svc) c ∧ clean w' ∧
             proposal_outcome svc c context run pr (db w) (db w')
  | Raise _ => clean w' ∧ db w' = db w
  end.
Proof.
  intros Hpurge Hc Hnew H.
  destruct (propose_cases svc Hpurge _ _ _ _ _ _ _ Hc H)
    as [Hc' [(e & -> & Hd)|[(pr & ? & ? & _ & -> & Hd & k & -> & Hrep)|(id & item & now & Hp & Hk & -> & Hw)]]];
    [done| |].
  { specialize (Hrep w eq_refl eq_refl). unfold _already_decided, sql_get, gets, bind in Hrep.
    cbn in Hrep. by rewrite Hnew in Hrep. }
  split_and!; [done..|]. destruct Hw as [Hf (m1 & Hm & Hm1) (opened & sup & eid & Hk1 & Ha & Hap)].
  pose proof (prepared_decision _ _ _ _ _ _ Hp) as Hd. split; cbn.
  - eexists. split_and!; [done|by rewrite Hm|done|done].
  - eexists. split_and!; [exact Ha|done|done|done|done].
  - destruct item as [i|].
    + destruct Hd as [-> <-], Hap as [_ ->], Hp as (_ & Hv & _). exists i, m1. rewrite Hm. done.
    + destruct (po_decision _) eqn:Ho; [done|..].
      * destruct Hap as (Hs & a & at_ & _ & Hna & ->). rewrite Hm, Hm1. split_and!; [done..|eauto].
      * destruct Hap as [_ ->]. rewrite Hm, Hm1. done.
Qed.

Lemma visible_true {R} `{SqlTable R K} (r : R) t : row_tenant r = t → visible t (λ _, true) r = true.
Proof. intros. unfold visible. by rewrite bool_decide_eq_true_2. Qed.

(** The new item, read back: nothing it closed is itself. *)
Lemma item_stored_read item now m m' w :
  item_stored item now m m' → memory_item_valid item = true → t_items (t_mem (db w)) = t_items m' →
  _stored_item (mi_tenant_id item) (mi_memory_id item) w = (Ok (Some item), w).
Proof.
  intros Hst Hv Hw. unfold _stored_item, sql_get, gets, bind, lift_res, ret. cbn.
  rewrite Hw, (is_rows _ _ _ _ Hst). cbn. unfold close_rows. rewrite lookup_update_rows, lookup_insert_eq. cbn.
  assert (visible (mi_tenant_id item) (superseded item) {| ir_item := item; ir_created_at := now |} = false)
    as -> by (unfold visible; by rewrite superseded_new, andb_false_r).
  cbn. rewrite visible_true by done. cbn. unfold item_from_row, make_memory_item. cbn. by rewrite Hv.
Qed.

(** A second call for a key already decided reads the first one's answer. *)
Lemma propose_again svc c context run k pr w :
  clean w → repeated context (Some k) pr w →
  (po_decision (evaluate (ms_policy svc) c) = AUTO_WRITE → ∀ mid now,
     memory_item_valid (item_of context c (po_confidence (evaluate (ms_policy svc) c)) run mid now) = true) →
  ∃ w', propose svc c context run (Some k) w = (Ok pr, w') ∧ db w' = db w ∧ clean w'.
Proof.
  intros Hc (k' & [= <-] & Hrep) Hv. unfold propose.
  set (o := evaluate (ms_policy svc) c) in *. unfold bind at 1. cbn [ret].
  unfold bind at 1. cbn [now_utc].
  set (now := utc w (utc_reads w)).
  match goal with |- ∃ _, bind _ _ ?w2 = _ ∧ _ => set (w1 := w2) end.
  assert (clean w1 ∧ db w1 = db w) as [Hc1 Hd1] by done. clearbody w1 now. unfold bind at 1.
  match goal with |- ∃ _, match ?p with _ => _ end = _ ∧ _ =>
    assert (∃ item w2, p = (Ok item, w2) ∧ clean w2 ∧ db w2 = db w) as (item & w2 & -> & Hc2 & Hd2) end.
  { case_bool_decide as Ho; [|by exists None, w1].
    unfold bind, new_uuid, lift_res, make_memory_item, ret. rewrite Hv by done.
    by eexists _, _. }
  unfold bind at 1, session_begin, bind at 1. rewrite (Hrep w2) by (by rewrite Hd2).
  cbn. eexists. split_and!; [reflexivity|done|done].
Qed.

(** Proposing again under the same key returns the first decision and item and changes
    nothing. *)
Theorem redelivered_proposal_changes_nothing svc c context run k w pr w1 :
  purges_outside svc → clean w → propose svc c context run (Some k) w = (Ok pr, w1) →
  ∃ pr' w2, propose svc c context run (Some k) w1 = (Ok pr', w2) ∧ db w2 = db w1 ∧ clean w2 ∧
    pr_candidate_id pr' = pr_candidate_id pr ∧ pr_item pr' = pr_item pr ∧
    po_decision (pr_outcome pr') = po_decision (pr_outcome pr) ∧
    po_confidence (pr_outcome pr') = po_confidence (pr_outcome pr).
Proof.
  intros Hpurge Hc H.
  destruct (propose_cases svc Hpurge _ _ _ _ _ _ _ Hc H)
    as [Hc1 [(e & ? & _)|[(pr' & item & now & Hp & [= <-] & Hd & Hrep)|
             (id & item & now & Hp & -> & [= ->] & Hw)]]]; [done|..].
  - destruct (propose_again svc c context run k pr w1) as (w2 & E & Hd2 & Hc2); [done| | |].
    + destruct Hrep as (k' & Hk' & Hrep). exists k'. rewrite Hd. done.
    + intros Ho mid now'. by eapply prepared_valid.
    + by exists pr, w2.
  - set (o := evaluate (ms_policy svc) c) in *.
    destruct (propose_again svc c context run k
      {| pr_candidate_id := k; pr_item := item;
         pr_outcome := {| po_decision := po_decision o; po_reason := "already decided";
                          po_confidence := po_confidence o |} |} w1) as (w2 & E & Hd2 & Hc2);
      [exact Hc1| |intros Ho mid now'; by eapply prepared_valid|by eexists _, w2].
    exists k. split; [done|]. intros w' Hcand Hit.
    destruct Hw as [_ (m1 & Hm & Hm1) _]. unfold _already_decided, sql_get, gets, bind. cbn.
    rewrite Hcand, Hm. cbn. rewrite lookup_insert_eq. cbn. rewrite visible_true by done. cbn.
    destruct item as [i|]; [|reflexivity]. destruct Hp as (_ & Hv & mid & ->). cbn.
    pose proof (item_stored_read _ _ _ _ w' Hm1 Hv) as Hr. cbn in Hr.
    rewrite Hr by (by rewrite Hit, Hm). reflexivity.
Qed.

(** ** Reviews *)

(** A settlement of a candidate that is no longer held reads its answer. *)
Lemma settle_again svc context a request row i w :
  clean w → review_of context a (db w) request row → ¬ held row →
  match wc_memory_id row with
  | None => i = None
  | Some mid => ∀ w', t_items (t_mem (db w')) = t_items (t_mem (db w)) →
                  _stored_item (tenant_id context) mid w' = (Ok i, w')
  end →
  ∃ w', settle_review svc a context w = (Ok i, w') ∧ db w' = db w ∧ clean w'.
Proof.
  intros Hc (Hget & Hty & Hws & Hp & Hcand & Ht & Hwsr) Hheld Hi.
  unfold settle_review. unfold bind at 1. cbn [now_utc]. set (now := utc w (utc_reads w)).
  match goal with |- ∃ _, bind _ _ ?w2 = _ ∧ _ => set (w1 := w2) end.
  assert (clean w1 ∧ db w1 = db w) as [Hc1 Hd1] by done. clearbody w1 now.
  assert (settle_in_session svc a context now w1 = (Ok (Answer i), w1)) as E.
  { unfold settle_in_session. unfold bind at 1. rewrite Hget by (by rewrite Hd1).
    rewrite !bool_decide_eq_true_2 by done. cbn [andb]. unfold bind at 1, lift_res. rewrite Hp.
    unfold bind at 1, _candidate_row, sql_get, gets. cbn. rewrite Hd1, Hcand. cbn.
    unfold visible. cbn. rewrite !bool_decide_eq_true_2 by done. cbn.
    unfold settle_row. destruct (wc_memory_id row) as [mid|] eqn:Hm.
    - unfold bind. rewrite Hi by (by rewrite Hd1). done.
    - subst i. rewrite bool_decide_eq_false_2; [done|]. intros Hd. by apply Hheld. }
  unfold bind at 1, session_begin. rewrite E. cbn. eexists. split_and!; [reflexivity|done|done].
Qed.

Lemma review_of_recorded context a d d' request row decision mid :
  t_approvals d' = t_approvals d →
  t_candidates (t_mem d') = recorded decision mid row (t_candidates (t_mem d)) →
  review_of context a d request row →
  review_of context a d' request (settle_columns decision mid row).
Proof.
  intros Ha Hcand (Hget & Hty & Hws & Hp & Hrow & Ht & Hwsr). unfold review_of. cbn.
  rewrite Ha, Hcand. split_and!; try done. unfold recorded. apply lookup_insert_eq.
Qed.

(** Once a review is settled, written, refused or failed on its evidence, settling it again
    changes nothing and answers with the item, or none. *)
Theorem review_is_settled_once svc context a w r w1 :
  purges_outside svc → clean w → keyed (t_candidates (t_mem (db w))) →
  settle_review svc a context w = (r, w1) → is_ok r = true ∨ db w1 ≠ db w →
  ∃ w2, settle_review svc a context w1 =
          (Ok match r with Ok i => i | Raise _ => None end, w2) ∧ db w2 = db w1 ∧ clean w2.
Proof.
  intros Hpurge Hc Hkey H Hsettled.
  destruct (settle_review_cases _ _ _ _ _ _ Hpurge Hc Hkey H)
    as [Hc1 [(e & -> & Hd)|(request & row & now & ended & Hrev & Hap & Hs & ->)]].
  { by destruct Hsettled. }
  pose proof Hrev as (_ & _ & _ & _ & _ & Ht & _).
  destruct Hs as [i Hh Hd Hi|Hh _ _ Hm _|exc Hh _ _ Hm _|mid sup m1 item Hh _ Hv Hst Hm _];
    cbn [answer_of].
  - apply settle_again with request row; [done|by rewrite Hd|done|]. by rewrite Hd.
  - apply settle_again with request (settle_columns REJECT None row); [done| |by intros [_ ?]|done].
    eapply review_of_recorded; [done| |done]. by rewrite Hm.
  - apply settle_again with request (settle_columns REJECT None row); [done| |by intros [_ ?]|done].
    eapply review_of_recorded; [done| |done]. by rewrite Hm.
  - apply settle_again with request (settle_columns REVIEW (Some mid) row); [done| |by intros [? _]|].
    + eapply review_of_recorded; [done| |done]. by rewrite Hm.
    + cbn. intros w' Hw'. rewrite <- Ht.
      eapply (item_stored_read item now _ _ w' Hst Hv). by rewrite Hw', Hm.
Qed.

(** ** An approved fact whose evidence holds is written *)

Lemma insert_all_run {R K} `{SqlTableOk R K} tenant (rows : list R) w :
  (∀ r : R, unique_key r = None) → (∀ r, r ∈ rows → row_tenant r = tenant) →
  NoDup (row_key <$> rows) → (∀ r, r ∈ rows → tbl (db w) !! row_key r = None) →
  ∃ t, insert_all tenant rows w = (Ok tt, set_db (set_tbl t (db w)) w).
Proof.
  intros Hu. revert w. induction rows as [|r rows IH]; intros w Ht Hnd Hf; simpl.
  - exists (tbl (db w)). rewrite set_tbl_tbl. by destruct w.
  - apply NoDup_cons in Hnd as [Hn Hnd]. unfold bind.
    rewrite sql_insert_fresh by (first [done|apply Ht; by left|apply Hf; by left]).
    edestruct IH as [t ->]; [intros; apply Ht; by right|done| |].
    + intros x Hx. cbn. rewrite tbl_set_tbl. rewrite lookup_insert_ne; [apply Hf; by right|].
      intros E. apply Hn. rewrite E. by apply list_elem_of_fmap_2.
    + exists t. cbn. by rewrite set_tbl_twice.
Qed.

Lemma strictest_from_total claimed best l :
  label_covers claimed best → (∀ c, c ∈ l → label_covers claimed c) →
  ∃ label, strictest_from best l = Ok label ∧ label_covers claimed label.
Proof.
  revert best. induction l as [|c l IH]; simpl; intros best Hb Hl; [eauto|].
  pose proof Hb as (i & j & -> & _). destruct (Hl c) as (k & _ & -> & _); [by left|].
  apply IH; [|set_solver]. destruct (i <? k); [set_solver|done].
Qed.

Lemma strictest_total claimed l :
  l ≠ [] → (∀ c, c ∈ l → label_covers claimed c) →
  ∃ label, strictest l = Ok label ∧ label_covers claimed label.
Proof.
  destruct l as [|c l]; [done|]. intros _ Hl. simpl. pose proof (Hl c) as (i & j & -> & _); [by left|].
  apply strictest_from_total; set_solver.
Qed.

Lemma cited_rows_only m t ws refs c :
  c ∈ cited_rows m t ws refs → ∃ ref, ref ∈ refs ∧ stored_for m t ws ref = Some c.
Proof.
  unfold cited_rows. intros (k & Hk & Hc)%list_elem_of_omap.
  apply elem_of_elements, elem_of_list_to_set, list_elem_of_omap in Hk as (ref & Href & Hchunk).
  exists ref. split; [done|]. unfold stored_for. by rewrite Hchunk.
Qed.

(** The clocks and ids a call leaves: no id drawn. *)
Definition same_ids (w w' : World) : Prop := ids w' = ids w ∧ ids_issued w' = ids_issued w.

Lemma verify_evidence_run refs claimed t ws w :
  supported (t_mem (db w)) t ws claimed refs → NoDup (ev_evidence_id <$> refs) →
  (∀ ref, ref ∈ refs → t_evidence (t_mem (db w)) !! ev_evidence_id ref = None) →
  ∃ w' ev, _verify_evidence refs claimed t ws w = (Ok tt, w') ∧ same_ids w w' ∧
    db w' = set_tbl (R := EvidenceRow) ev (db w).
Proof.
  intros [Hne Hs] Hnd Hf. set (m := t_mem (db w)) in *.
  assert (check_refs m t ws refs = Ok tt) as Hcheck.
  { apply check_refs_ok. intros ref Hr. destruct (Hs ref Hr) as (c & Hv & _). eauto. }
  assert (existsb (λ ref, bool_decide (ev_chunk_id ref = None)) refs = false) as Hchunk.
  { apply not_true_iff_false. intros (ref & Hr & Hn)%existsb_exists. to_prop.
    destruct (Hs ref) as (c & (Hst & _) & _); [by apply list_elem_of_In|].
    unfold stored_for in Hst. by rewrite Hn in Hst. }
  destruct (strictest_total claimed (cr_classification <$> cited_rows m t ws refs)) as (label & Hl & Hcov).
  { destruct refs as [|ref refs]; [done|]. destruct (Hs ref) as (c & (Hst & _) & _); [by left|].
    intros E. assert (cr_classification c ∈ cr_classification <$> cited_rows m t ws (ref :: refs)) as Hin.
    { apply list_elem_of_fmap_2. eapply cited_rows_stored; [by left|done]. }
    rewrite E in Hin. by apply elem_of_nil in Hin. }
  { intros x (c & -> & Hc)%list_elem_of_fmap. apply cited_rows_only in Hc as (ref & Hr & Hst).
    destruct (Hs ref Hr) as (c' & (Hst' & _) & Hcov). rewrite Hst in Hst'. by injection Hst' as ->. }
  assert (∃ w' ev, record refs t ws w = (Ok label, w') ∧ same_ids w w' ∧
    db w' = set_tbl (R := EvidenceRow) ev (db w)) as (w' & ev & E & Hids & Hdb).
  { unfold record. destruct refs as [|ref0 refs0]; [done|]. cbv beta iota.
    revert Hs Hnd Hf Hcheck Hchunk Hl. generalize (ref0 :: refs0) as l. intros l Hs Hnd Hf Hcheck Hchunk Hl.
    rewrite Hchunk. unfold bind at 1. cbn [ret]. unfold bind at 1, gets. fold m.
    unfold bind at 1, lift_res at 1. rewrite Hcheck. unfold bind at 1, lift_res. rewrite Hl.
    unfold bind at 1. cbn [now_utc]. unfold bind at 1.
    match goal with |- context [insert_all t ?rows ?w1] =>
      destruct (insert_all_run t rows w1) as [ev ->] end; [done|..].
    - intros r (ref & _ & Hr)%list_elem_of_omap. destruct (stored_for _ _ _ ref); [|done].
      by injection Hr as <-.
    - assert (∀ ref, ref ∈ l → ∃ c, stored_for m t ws ref = Some c) as Hall.
      { intros ref Hr. destruct (Hs ref Hr) as (c & (Hst & _) & _). eauto. }
      clear -Hnd Hall. induction l as [|ref l IH]; [constructor|]. apply NoDup_cons in Hnd as [Hn Hnd].
      destruct (Hall ref) as [c Hst]; [by left|]. cbn. rewrite Hst. cbn. constructor; [|apply IH; set_solver].
      intros (r & Hk & (ref' & Hr' & Hrow)%list_elem_of_omap)%list_elem_of_fmap.
      destruct (stored_for _ _ _ ref'); [|done]. injection Hrow as <-. cbn in Hk. apply Hn. rewrite Hk.
      by apply list_elem_of_fmap_2.
    - intros r (ref & Hr & Hrow)%list_elem_of_omap. destruct (stored_for _ _ _ ref); [|done].
      injection Hrow as <-. cbn. by apply Hf.
    - by eexists _, ev. }
  unfold _verify_evidence, bind at 1. rewrite E. destruct Hcov as (i & j & Hi & Hj & Hij).
  exists w', ev. split_and!; [|done..]. unfold bind, lift_res. rewrite Hj, Hi.
  assert (j <? i = false) as -> by (apply Nat.ltb_ge; lia). done.
Qed.

Lemma close_superseded_run item now w :
  ∃ ids, _close_superseded item now w =
    (Ok ids, set_db (set_tbl (close_rows item now (t_items (t_mem (db w)))) (db w)) w).
Proof.
  assert (∃ ids w', _close_superseded item now w = (Ok ids, w')) as (ids & w' & E).
  { unfold _close_superseded. destruct (mi_fact_key item); [|by eexists _, _].
    case_bool_decide; [by eexists _, _|]. unfold sql_select, bind at 1, gets.
    unfold bind. rewrite sql_update_run by (by apply unique_ok_none). by eexists _, _. }
  exists ids. rewrite E. f_equal. by eapply close_superseded_ok.
Qed.

Lemma store_item_run item now w :
  let m := t_mem (db w) in
  supported m (mi_tenant_id item) (mi_workspace_id item) (mi_classification item) (mi_provenance_refs item) →
  NoDup (ev_evidence_id <$> mi_provenance_refs item) →
  (∀ ref, ref ∈ mi_provenance_refs item → t_evidence m !! ev_evidence_id ref = None ∧
     t_item_evidence m !! (mi_memory_id item, ev_evidence_id ref) = None) →
  t_items m !! mi_memory_id item = None →
  ∃ ids w' m', _store_item item now w = (Ok ids, w') ∧ same_ids w w' ∧ db w' = set_mem m' (db w).
Proof.
  intros m Hsup Hnd Hfresh Hitem. unfold _store_item.
  destruct (verify_evidence_run _ _ _ _ w Hsup Hnd) as (w1 & ev & E1 & Hids & Hd1).
  { intros ref Hr. by apply Hfresh. }
  unfold bind at 1. rewrite E1. unfold bind at 1.
  rewrite sql_insert_fresh by (first [done|rewrite Hd1; done]).
  unfold bind at 1.
  match goal with |- context [_close_superseded item now ?w2] =>
    destruct (close_superseded_run item now w2) as [ids ->] end.
  unfold bind at 1.
  match goal with |- context [insert_all ?t ?rows ?w3] =>
    destruct (insert_all_run t rows w3) as [ie ->] end; [done|..].
  - by intros r (ref & -> & _)%list_elem_of_fmap.
  - rewrite <- list_fmap_compose. apply (NoDup_fmap_1 snd). by rewrite <- list_fmap_compose.
  - intros r (ref & -> & Hr)%list_elem_of_fmap. cbn. rewrite Hd1. by apply Hfresh.
  - eexists ids, _, _. split; [reflexivity|]. cbn. rewrite Hd1. cbn. split; [done|reflexivity].
Qed.

Lemma append_event_run t event w :
  let e := event (ids w (ids_issued w)) in
  audit_event_valid e = true → ae_tenant_id e = t →
  t_audit (db w) !! (ae_id e, ae_occurred_at e) = None →
  ∃ w', append_event t event w = (Ok tt, w').
Proof.
  intros e Hv Ht Hk. unfold append_event, bind at 1. cbn [new_uuid]. fold e.
  unfold bind, lift_res, make_audit_event. rewrite Hv. unfold audit_append.
  rewrite sql_insert_fresh by done. by eexists.
Qed.

Lemma write_reviewed_run svc context request row now w :
  let mid := ids w (ids_issued w) in
  let item := reviewed_item row now mid in
  let m := t_mem (db w) in
  keyed (t_candidates m) → t_candidates m !! wc_id row = Some row →
  wc_tenant_id row = tenant_id context → wc_workspace_id row = workspace_id context → held row →
  memory_item_valid item = true →
  supported m (tenant_id context) (workspace_id context) (wc_classification row) (wc_provenance_refs row) →
  NoDup (ev_evidence_id <$> wc_provenance_refs row) →
  (∀ ref, ref ∈ wc_provenance_refs row → t_evidence m !! ev_evidence_id ref = None ∧
     t_item_evidence m !! (mid, ev_evidence_id ref) = None) →
  t_items m !! mid = None → t_audit (db w) !! (ids w (S (ids_issued w)), now) = None →
  ∃ sup s, write_reviewed svc context request row now w = (Ok (Written item sup), s).
Proof.
  intros mid item m Hkey Hcand Ht Hws Hheld Hvalid Hsup Hnd Hfresh Hitem Hk.
  unfold write_reviewed, _item_from_candidate. unfold bind at 1. unfold bind at 1. cbn [new_uuid].
  unfold lift_res, make_memory_item. fold mid. fold (reviewed_item row now mid). fold item.
  rewrite Hvalid. unfold bind at 1, try_except, savepoint, bind at 1.
  match goal with |- context [_store_item item now ?w2] =>
    destruct (store_item_run item now w2) as (sup & w3 & m' & Est & [Hids1 Hids2] & Hd3) end;
    [cbn; by rewrite Ht, Hws|done..|].
  rewrite Est. cbn [ret]. unfold bind at 1, _settle_written.
  assert (t_candidates (t_mem (db w3)) = t_candidates m) as Hc3.
  { apply store_item_ok in Est as (_ & m2 & Hd3' & Hst). rewrite Hd3' in *. cbn.
    by rewrite (is_rows _ _ _ _ Hst). }
  rewrite (settle_update w3 _ (wc_id row) row (λ r, wc_decision r) (λ _, Some mid))
    by (rewrite ?Hc3; done).
  unfold bind at 1.
  match goal with |- context [append_event ?t ?e ?w4] =>
    destruct (append_event_run t e w4) as [w5 ->] end; [done|done| |by eexists _, _].
  cbn. rewrite Hids1, Hids2, Hd3. exact Hk.
Qed.

(** A held fact that a person approved and whose evidence still verifies is written:
    settling the review stores the item with the candidate's content, label and evidence
    and ties the candidate to it. *)
Theorem approved_memory_is_written svc context a w request row :
  let now := utc w (utc_reads w) in
  let mid := ids w (ids_issued w) in
  let item := reviewed_item row now mid in
  let m := t_mem (db w) in
  purges_outside svc → clean w → keyed (t_candidates m) →
  review_of context a (db w) request row → held row → ar_status request = APPROVED →
  memory_item_valid item = true →
  supported m (tenant_id context) (workspace_id context) (wc_classification row) (wc_provenance_refs row) →
  NoDup (ev_evidence_id <$> wc_provenance_refs row) →
  (∀ ref, ref ∈ wc_provenance_refs row → t_evidence m !! ev_evidence_id ref = None ∧
     t_item_evidence m !! (mid, ev_evidence_id ref) = None) →
  t_items m !! mid = None →
  t_audit (db w) !! (ids w (S (ids_issued w)), now) = None →
  ∃ w' m1, settle_review svc a context w = (Ok (Some item), w') ∧
    item_stored item now m m1 ∧
    t_mem (db w') = with_candidates (recorded REVIEW (Some mid) row (t_candidates m)) m1.
Proof.
  intros now mid item m Hpurge Hc Hkey Hrev Hheld Happ Hvalid Hsup Hnd Hfresh Hitem Hk.
  pose proof Hrev as (Hget & Hty & Hws & Hp & Hcand & Ht & Hwsr).
  unfold settle_review, bind at 1. cbn [now_utc]. fold now.
  match goal with |- context [bind (session_begin _) _ ?w2] => set (w1 := w2) end.
  destruct (write_reviewed_run svc context request row now w1) as (sup & s & Ew); [done..|].
  assert (settle_in_session svc a context now w1 = (Ok (Written item sup), s)) as E.
  { unfold settle_in_session. unfold bind at 1. rewrite Hget by done.
    rewrite !bool_decide_eq_true_2 by done. cbn [andb]. unfold bind at 1, lift_res. rewrite Hp.
    unfold bind at 1, _candidate_row, sql_get, gets. cbn. rewrite Hcand. cbn.
    unfold visible. cbn. rewrite !bool_decide_eq_true_2 by done. cbn.
    unfold settle_row. destruct Hheld as [Hm Hd]. rewrite Hm, Hd, Happ. exact Ew. }
  unfold bind at 1, session_begin. rewrite E.
  destruct (purge_vectors_run svc sup (set_saved (db s) s) Hpurge) as (w2 & Ep & Hd2 & _).
  unfold bind. rewrite Ep. cbn in Hd2.
  apply write_reviewed_ok in Ew as [_ Hs]; [|done..].
  inversion Hs as [| | |mid' sup' m1 item' _ _ _ Hst Hm _ Hmid]. subst mid'.
  exists w2, m1. rewrite Hd2. done.
Qed.

(** ** The reviewer *)

Lemma classification_rank_ok c i :
  classification_rank c = Ok i → CLASSIFICATIONS !! i = Some c.
Proof.
  unfold classification_rank. destruct (list_find _ _) as [[j x]|] eqn:E; [|done].
  intros [= <-]. by apply list_find_Some in E as (? & <- & _).
Qed.

Lemma ladder : CLASSIFICATIONS = ["internal"; "confidential"; "restricted"].
Proof. by vm_compute. Qed.

(** What a clearance allows, it allows down the ladder. *)
Lemma cleared_below clearance a b :
  label_covers b a → b ∈ classifications_for_clearance clearance →
  a ∈ classifications_for_clearance clearance.
Proof.
  intros (i & j & Ha%classification_rank_ok & Hb%classification_rank_ok & Hij).
  rewrite ladder in Ha, Hb.
  assert (classifications_for_clearance clearance ∈
    [["internal"]; ["internal"; "confidential"]; ["internal"; "confidential"; "restricted"]]) as Hc.
  { unfold classifications_for_clearance. destruct (list_find _ _) as [[k kv]|] eqn:E; [|set_solver].
    apply list_find_Some in E as (E & _ & _). destruct k as [|[|[|k]]]; simplify_eq/=; set_solver. }
  destruct i as [|[|[|i]]], j as [|[|[|j]]]; simplify_eq/=; try lia; try done;
    set_unfold; destruct Hc as [->|[->|[->|[]]]]; set_solver.
Qed.

Lemma review_clearance request context :
  require_clearance_for_review request context = Ok tt →
  ∃ c, ar_payload request !! "classification" = Some (JStr c) ∧
       c ∈ classifications_for_clearance (clearance context).
Proof.
  unfold require_clearance_for_review. destruct (_ !! _) as [[]|]; try done.
  case_bool_decide; [eauto|done].
Qed.

Lemma review_payload context c id o a :
  ar_payload (review_request context c id o a) !! "candidate_id" = Some (JStr (uuid_str id)) ∧
  ar_payload (review_request context c id o a) !! "classification" = Some (JStr (mc_classification c)).
Proof. unfold review_request. generalize (uuid_str id) as u. by intros u. Qed.

(** A held fact waits on one pending approval naming its candidate, and nobody decides that
    approval whose clearance does not cover the fact's label and every document it
    cites. *)
Theorem held_memory_needs_cleared_decider svc asvc c context run key w pr w1 :
  purges_outside svc → clean w →
  match key with Some k => t_candidates (t_mem (db w)) !! k = None | None => True end →
  propose svc c context run key w = (Ok pr, w1) → po_decision (pr_outcome pr) = REVIEW →
  (pr_candidate_id pr < 2 ^ 128)%N →
  decision_guards asvc !! MEMORY_REVIEW = Some require_clearance_for_review →
  ∃ a request,
    t_approvals (db w1) !! a = Some request ∧ ar_status request = PENDING ∧
    ar_approval_type request = MEMORY_REVIEW ∧ payload_candidate request = Ok (pr_candidate_id pr) ∧
    ∀ authz decider approve comment channel admission w2 request' record w3,
      t_approvals (db w2) !! a = Some request →
      decide_in_uow asvc authz decider a approve comment channel admission w2
        = (Ok (request', record), w3) →
      mc_classification c ∈ classifications_for_clearance (clearance decider) ∧
      ∀ ref, ref ∈ mc_provenance_refs c → ∃ chunk,
        verified (t_mem (db w)) (tenant_id context) (workspace_id context) ref chunk ∧
        cr_classification chunk ∈ classifications_for_clearance (clearance decider).
Proof.
  intros Hpurge Hc Hnew H Hrev Hid Hguard.
  destruct (propose_cases svc Hpurge _ _ _ _ _ _ _ Hc H)
    as [Hc' [(e & ? & Hd)|[(pr' & ? & ? & _ & ? & Hd & k & -> & Hrep)|(id & item & now & Hp & Hk & [= ->] & Hw)]]];
    [done| |].
  { specialize (Hrep w eq_refl eq_refl). unfold _already_decided, sql_get, gets, bind in Hrep.
    cbn in Hrep. by rewrite Hnew in Hrep. }
  cbn in *. destruct Hw as [_ _ (opened & sup & eid & _ & _ & Hap)].
  assert (item = None) as ->.
  { destruct item as [i|]; [|done]. destruct Hp as [Ho _]. congruence. }
  rewrite Hrev in Hap. destruct Hap as ([_ Hsup] & a & at_ & _ & Hna & Hap).
  exists a, (filed at_ (review_request context c id (evaluate (ms_policy svc) c) a)).
  split_and!; [by rewrite Hap, lookup_insert_eq|done|done| |].
  { unfold payload_candidate. change (ar_payload (filed ?x ?r)) with (ar_payload r).
    rewrite (proj1 (review_payload _ _ _ _ _)). by rewrite uuid_text_read. }
  intros authz decider approve comment channel admission w2 request' record w3 Ha Hdec.
  apply decide_in_uow_ok in Hdec as (request & ad & w4 & w5 & (Hl & _) & [_ _ Hg _] & _).
  rewrite Ha in Hl. injection Hl as <-. specialize (Hg _ Hguard).
  apply review_clearance in Hg as (label & Hlabel & Hin). cbn [filed ar_payload] in Hlabel.
  change (ar_payload (review_request context c id (evaluate (ms_policy svc) c) a)
            !! "classification" = Some (JStr label)) in Hlabel.
  rewrite (proj2 (review_payload _ _ _ _ _)) in Hlabel. injection Hlabel as <-.
  split; [done|]. intros ref Href. destruct (Hsup ref Href) as (chunk & Hv & Hcov).
  exists chunk. split; [done|]. by eapply cleared_below.
Qed.

(** ** The policy's types *)

Lemma confidence_in_unit n : (0 <= confidence_of n <= one53)%Z.
Proof.
  unfold confidence_of, one53. destruct (n <=? 53) eqn:E; [|lia]. apply Nat.leb_le in E.
  assert (0 < 2 ^ (53 - Z.of_nat n) <= 2 ^ 53)%Z as [? ?]; [|lia].
  split; [apply Z.pow_pos_nonneg; lia|apply Z.pow_le_mono_r; lia].
Qed.

Lemma distinct_sources_none refs : distinct_sources refs = 0 ↔ refs = [].
Proof.
  unfold distinct_sources. rewrite size_empty_iff. destruct refs; simpl; [set_solver|]. set_solver.
Qed.

(** C40: whatever the policy decides on a well-formed candidate is well-formed: its
    confidence lies in the unit interval, the item built now or after a review
    validates, only a fact without sources is rejected, and nothing restricted or under-
    corroborated is written unreviewed. *)
Theorem decided_candidate_is_an_item p c context id run mid now :
  candidate_valid c = true →
  let o := evaluate p c in
  (0 <= po_confidence o <= one53)%Z ∧
  make_memory_item (item_of context c (po_confidence o) run mid now) =
    Ok (item_of context c (po_confidence o) run mid now) ∧
  (∀ memory_id later, memory_item_valid
     (reviewed_item (candidate_row context c o id run memory_id now) later mid) = true) ∧
  (po_decision o = REJECT ↔ mc_provenance_refs c = []) ∧
  (po_decision o = AUTO_WRITE → mc_classification c ≠ "restricted"%py ∧
     (auto_write_sources p <= Z.of_nat (distinct_sources (mc_provenance_refs c)))%Z).
Proof.
  intros Hv o. unfold candidate_valid in Hv. to_prop.
  assert (0 <= po_confidence o <= one53)%Z as [Hlo Hhi].
  { unfold o, evaluate. repeat case_match; cbn; apply confidence_in_unit. }
  assert (∀ i : MemoryItem, mi_content i = mc_content c → mi_confidence i = po_confidence o →
    mi_fact_key i = mc_fact_key c → mi_valid_until i = None → memory_item_valid i = true) as Hi.
  { intros i E1 E2 E3 E4. unfold memory_item_valid. rewrite E1, E2, E3, E4.
    repeat (apply andb_true_iff; split); try done; by apply Z.leb_le. }
  split; [done|]. split; [by unfold make_memory_item; rewrite Hi|].
  split; [intros; by apply Hi|]. split.
  - rewrite <- distinct_sources_none. unfold o, evaluate.
    destruct (distinct_sources _ =? 0) eqn:E; [apply Nat.eqb_eq in E|apply Nat.eqb_neq in E];
      repeat case_match; cbn; naive_solver.
  - unfold o, evaluate. repeat case_match; cbn; try done. intros _. to_prop. done.
Qed.

(** ** Concrete instances *)

Definition example_ref (evidence document chunk : uuid) : EvidenceRef :=
  {| ev_evidence_id := evidence; ev_source_document_id := document; ev_source_version := "1";
     ev_chunk_id := Some chunk; ev_page := None; ev_start_offset := None; ev_end_offset := None;
     ev_quote := None; ev_relevance_score := 0; ev_classification := "internal";
     ev_provenance_hash := "h" |}.

Definition example_document (id : uuid) (label : pystr) : DocumentRow :=
  MkDocument id 1 2 "notes" None "shared" "file" label "1" None 9 0 None "active" true None None None
    None None "tenant" ∅ ["tenant:*"].

Definition example_chunk (id document : uuid) : ChunkRow :=
  MkChunk id 1 2 document 0 "text" 0 4 "h" "" 0 "active" None.

Definition example_library : MemoryDb :=
  MkMem {[ 11%N := example_document 11 "internal"; 12%N := example_document 12 "confidential" ]}
    {[ 21%N := example_chunk 21 11; 22%N := example_chunk 22 12 ]} ∅ ∅ ∅ ∅.

Definition example_shelf : World := example_world (set_mem example_library empty_db) 1000.

Definition example_fact (label : pystr) (refs : list EvidenceRef) : MemoryCandidate :=
  {| mc_worker_id := "notes"; mc_memory_type := SEMANTIC; mc_content := "pays late";
     mc_structured_facts := ∅; mc_subject_refs := ["account:1"]; mc_provenance_refs := refs;
     mc_classification := label; mc_fact_key := Some "payment"%py |}.

(** Cites two documents: written at once. *)
Definition example_corroborated : MemoryCandidate :=
  example_fact "confidential" [example_ref 31 11 21; example_ref 32 12 22].
(** Cites one: held for review. *)
Definition example_single : MemoryCandidate := example_fact "internal" [example_ref 33 11 21].

Definition example_memories : MemoryService :=
  {| ms_policy := default_policy; ms_ranker := None; ms_vector_purge := None |}.

Definition example_author : AccessContext :=
  {| tenant_id := 1; workspace_id := 2; principal_id := 3; roles := ∅; groups := ∅;
     scopes := ∅; clearance := "confidential"; plan_id := "p"; feature_flags := ∅;
     record_visibility := "open"; visible_owners := None; max_autonomy_level := A0; support := None |}.

Abbreviation example_propose c key w := (propose example_memories c example_author 60%N (Some key) w).

Definition example_held : World := (example_propose example_single 70%N example_shelf).2.

(** The result of proposing [c] when its item has the id [mid]. *)
Definition example_result (c : MemoryCandidate) (key mid : uuid) (now : datetime) : ProposalResult :=
  let o := evaluate default_policy c in
  {| pr_candidate_id := key; pr_outcome := o;
     pr_item := if bool_decide (po_decision o = AUTO_WRITE)
                then Some (item_of example_author c (po_confidence o) 60 mid now) else None |}.

Lemma example_purges : purges_outside example_memories.
Proof. done. Qed.

Lemma empty_memory_inv m :
  t_items m = ∅ → t_candidates m = ∅ → memory_inv m.
Proof.
  intros Hi Hc. split; rewrite ?Hi, ?Hc.
  all: repeat intro; by rewrite lookup_empty in *.
Qed.

Lemma example_wrote :
  example_propose example_corroborated 70%N example_shelf =
  (Ok (example_result example_corroborated 70 1000000 1000), (example_propose example_corroborated 70%N example_shelf).2).
Proof. apply pair_fst_eq. vm_compute. reflexivity. Qed.

Lemma example_holds :
  example_propose example_single 70%N example_shelf =
  (Ok (example_result example_single 70 0 0), example_held).
Proof. unfold example_held. apply pair_fst_eq. vm_compute. reflexivity. Qed.

Lemma memories_stay_founded_witness :
  memory_inv (t_mem (db (example_propose example_corroborated 70%N example_shelf).2)).
Proof.
  apply (memories_stay_founded example_memories example_shelf).
  - apply example_purges.
  - apply rtc_once, step_propose.
  - done.
  - by apply empty_memory_inv.
Defined.

Lemma proposal_follows_policy_witness :
  proposal_outcome example_memories example_single example_author 60%N
    (example_result example_single 70 0 0) (db example_shelf) (db example_held) ∧
  proposal_outcome example_memories example_corroborated example_author 60%N
    (example_result example_corroborated 70 1000000 1000) (db example_shelf)
    (db (example_propose example_corroborated 70%N example_shelf).2).
Proof.
  split.
  - apply (proposal_follows_policy example_memories example_single example_author 60%N (Some 70%N)
      example_shelf _ _ example_purges eq_refl eq_refl example_holds).
  - apply (proposal_follows_policy example_memories example_corroborated example_author 60%N (Some 70%N)
      example_shelf _ _ example_purges eq_refl eq_refl example_wrote).
Defined.

Lemma redelivered_proposal_changes_nothing_witness :
  let w1 := (example_propose example_corroborated 70%N example_shelf).2 in
  ∃ pr' w2, example_propose example_corroborated 70%N w1 = (Ok pr', w2) ∧ db w2 = db w1 ∧
    pr_item pr' = pr_item (example_result example_corroborated 70 1000000 1000).
Proof.
  destruct (redelivered_proposal_changes_nothing example_memories example_corroborated
    example_author 60%N 70%N example_shelf _ _ example_purges eq_refl example_wrote)
    as (pr' & w2 & E & Hd & _ & _ & Hi & _). exists pr', w2. exact (conj E (conj Hd Hi)).
Defined.

Definition example_reviewing : ApproveAndResumeService :=
  {| runner := {| hosts := λ _ _ _, true; resume := λ _ _ _, ret tt |}; strict_approval_prefixes := ∅;
     decision_guards := {[ MEMORY_REVIEW := require_clearance_for_review ]} |}.

Definition example_reviewer : AccessContext :=
  {| tenant_id := 1; workspace_id := 2; principal_id := 4; roles := ∅; groups := ∅;
     scopes := {[ "approvals.read"; "approvals.decide" ]}; clearance := "internal"; plan_id := "p";
     feature_flags := ∅; record_visibility := "open"; visible_owners := None;
     max_autonomy_level := A0; support := None |}.

(** The held fact of [example_single] is put to the guard; a reviewer may approve it. *)
Lemma held_memory_needs_cleared_decider_witness :
  (∃ a request, t_approvals (db example_held) !! a = Some request ∧ ar_status request = PENDING ∧
     payload_candidate request = Ok 70%N) ∧
  is_ok (decide_in_uow example_reviewing default_authorization example_reviewer 1000000%N true "ok" "web" None
           example_held).1 = true.
Proof.
  split; [|by vm_compute].
  destruct (held_memory_needs_cleared_decider example_memories example_reviewing
    example_single example_author 60%N (Some 70%N) example_shelf _ example_held
    example_purges eq_refl eq_refl example_holds eq_refl eq_refl (lookup_singleton_eq _ _))
    as (a & request & Ha & Hp & _ & Hid & _).
  exists a, request. exact (conj Ha (conj Hp Hid)).
Defined.

Lemma decided_candidate_is_an_item_witness :
  make_memory_item (item_of example_author example_single (confidence_of 1) 60%N 5%N 7%Z) =
  Ok (item_of example_author example_single (confidence_of 1) 60%N 5%N 7%Z).
Proof.
  apply (decided_candidate_is_an_item default_policy example_single example_author 70%N 60%N 5%N 7%Z).
  by vm_compute.
Defined.

(** The held fact, approved. *)
Definition example_row : CandidateRow :=
  candidate_row example_author example_single (evaluate default_policy example_single) 70 60 None 1000.

Definition example_decided : ApprovalRequest :=
  {| ar_id := 90; ar_tenant_id := 1; ar_workspace_id := 2; ar_approval_type := MEMORY_REVIEW;
     ar_requested_by := 3; ar_reason := "r"; ar_payload := {[ "candidate_id" := JStr (uuid_str 70) ]};
     ar_run_id := None; ar_required_scope := None; ar_status := APPROVED; ar_created_at := Some 1000%Z;
     ar_decided_at := Some 1001%Z; ar_version := 2 |}.

Definition example_approved : World :=
  example_world (set_tbl {[ 90%N := example_decided ]}
    (set_mem (with_candidates {[ 70%N := example_row ]} example_library) empty_db)) 2000.

Definition example_settler : AccessContext :=
  {| tenant_id := 1; workspace_id := 2; principal_id := 4; roles := ∅; groups := ∅; scopes := ∅;
     clearance := "internal"; plan_id := "background"; feature_flags := ∅; record_visibility := "open";
     visible_owners := None; max_autonomy_level := A0; support := None |}.

Lemma example_candidates_keyed : keyed (t_candidates (t_mem (db example_approved))).
Proof. intros k r Hk. cbn in Hk. by apply lookup_singleton_Some in Hk as [<- <-]. Qed.

Lemma example_review_of : review_of example_settler 90%N (db example_approved) example_decided example_row.
Proof.
  unfold review_of. split_and!; [|done|done|by vm_compute|by vm_compute|done|done].
  intros w Hw. rewrite approvals_get_run, Hw. cbn. by vm_compute.
Qed.

Lemma approved_memory_is_written_witness :
  ∃ w' m1, settle_review example_memories 90%N example_settler example_approved =
    (Ok (Some (reviewed_item example_row 2000 1000000)), w') ∧
    item_stored (reviewed_item example_row 2000 1000000) 2000 (t_mem (db example_approved)) m1.
Proof.
  destruct (approved_memory_is_written example_memories example_settler 90%N example_approved
    example_decided example_row) as (w' & m1 & E & Hst & _); [done|done| | | | | | | | | | |].
  - apply example_candidates_keyed.
  - apply example_review_of.
  - by vm_compute.
  - done.
  - by vm_compute.
  - split; [done|]. intros ref Hr. change (ref ∈ [example_ref 33 11 21]) in Hr.
    apply list_elem_of_singleton in Hr as ->.
    exists {| cr_id := 21; cr_document_id := 11; cr_provenance_hash := "h"; cr_classification := "internal";
              cr_visible := true |}.
    split; [unfold verified; split_and!; by vm_compute|by exists 0, 0].
  - apply NoDup_singleton.
  - intros ref _. split; apply lookup_empty.
  - apply lookup_empty.
  - apply lookup_empty.
  - exists w', m1. exact (conj E Hst).
Defined.

Lemma review_is_settled_once_witness :
  let w1 := (settle_review example_memories 90%N example_settler example_approved).2 in
  ∃ i w2, settle_review example_memories 90%N example_settler w1 = (Ok i, w2) ∧ db w2 = db w1.
Proof.
  destruct (review_is_settled_once example_memories example_settler 90%N example_approved
    _ _ example_purges eq_refl example_candidates_keyed (surjective_pairing _)) as (w2 & E & Hd & _).
  - left. by vm_compute.
  - eexists _, w2. exact (conj E Hd).
Defined.
