(* ===== verification/MemoryRecall.v ===== *)
(** * What a recall may read, and in which order

    The theorems of [MemoryService.recall]: it always answers, with live
    memories of the caller's own reach only, and a ranker decides their order
    and nothing else. *)

From S2P Require Import Prelude Errors Kernel Domain Contracts MemoryPolicy Store Pagination Memory.
From S2P Require Import MemoryWrites MemoryLaws.
Local Open Scope prog_scope.
Local Open Scope pystr_scope.

#[export] Instance recalled_first_trans : Transitive recalled_first.
Proof. intros a b c. unfold recalled_first. lia. Qed.
#[export] Instance recalled_first_total : Total recalled_first.
Proof. intros a b. unfold recalled_first. lia. Qed.

Section Recall.
Context (svc : MemoryService) (context : AccessContext) (worker_id : pystr)
  (subject_refs : list pystr) (now : datetime) (limit : nat) (query : option pystr).

(** The port answers from outside the database. *)
Definition ranks_outside : Prop :=
  ∀ ranker, ms_ranker svc = Some ranker → ∀ q t ws wk ids, outside (ranker q t ws wk ids).

(** The rows a recall may read, best first. *)
Definition candidates_for (m : MemoryDb) : list ItemRow :=
  merge_sort recalled_first
    (filter (λ r, visible (tenant_id context) (recallable context worker_id subject_refs now) r = true)
       (map_to_list (t_items m)).*2).

Definition pool_size : nat := match _ranks svc query with Some _ => RANKING_POOL | None => limit end.

Definition readable (i : MemoryItem) : Prop :=
  mi_tenant_id i = tenant_id context ∧ mi_workspace_id i = workspace_id context ∧
  mi_worker_id i = worker_id ∧ mi_classification i ∈ classifications_for_clearance (clearance context) ∧
  (∃ s, s ∈ mi_subject_refs i ∧ s ∈ subject_refs) ∧ is_valid_at i now = true.

Lemma recallable_readable r :
  visible (tenant_id context) (recallable context worker_id subject_refs now) r = true ↔ readable (ir_item r).
Proof.
  unfold visible, recallable, readable, is_valid_at. rewrite !andb_true_iff, !bool_decide_eq_true, overlaps_spec.
  rewrite Z.leb_le. destruct (now <? mi_valid_from (ir_item r))%Z eqn:E; to_prop; cbn.
  - split; [intros (? & (? & ?) & ?); lia|intros (_ & _ & _ & _ & _ & ?); done].
  - tauto.
Qed.

Lemma candidates_elem m r :
  r ∈ candidates_for m ↔ (∃ id, t_items m !! id = Some r) ∧ readable (ir_item r).
Proof.
  unfold candidates_for. rewrite merge_sort_Permutation, list_elem_of_filter, recallable_readable, list_elem_of_fmap.
  split.
  - intros [Hr ([id r'] & -> & Hid)]. split; [|done]. exists id. by apply elem_of_map_to_list.
  - intros [[id Hid] Hr]. split; [done|]. exists (id, r). split; [done|]. by apply elem_of_map_to_list.
Qed.

Lemma candidates_nodup m :
  keyed (t_items m) → NoDup ((λ r, mi_memory_id (ir_item r)) <$> candidates_for m).
Proof.
  intros Hk. unfold candidates_for. rewrite merge_sort_Permutation.
  eapply sublist_NoDup; [|apply fmap_sublist, sublist_filter].
  assert (∀ l : list (uuid * ItemRow), (∀ k r, (k, r) ∈ l → mi_memory_id (ir_item r) = k) →
    (λ r, mi_memory_id (ir_item r)) <$> l.*2 = l.*1) as Hl.
  { induction l as [|[k r] l IH]; intros H; [done|]. cbn. f_equal; [apply H; by left|].
    apply IH. intros ? ? ?. apply H. by right. }
  rewrite Hl; [apply NoDup_fst_map_to_list|]. intros k r H%elem_of_map_to_list. by apply (Hk k r).
Qed.

Lemma map_res_all {A B} (f : A → res B) (g : A → B) l :
  (∀ a, a ∈ l → f a = Ok (g a)) → map_res f l = Ok (g <$> l).
Proof.
  induction l as [|a l IH]; intros H; simpl; [done|]. rewrite H by (by left).
  rewrite IH; [done|]. intros. apply H. by right.
Qed.

(** A row in its window and well typed reads back as its item. *)
Lemma readable_valid i : fields_valid i = true → readable i → memory_item_valid i = true.
Proof.
  intros Hf (_ & _ & _ & _ & _ & Hv). rewrite memory_item_valid_fields, Hf. cbn.
  unfold is_valid_at in Hv. destruct (now <? mi_valid_from i)%Z eqn:E; [done|]. to_prop.
  destruct (mi_valid_until i); [|done]. to_prop. apply Z.ltb_lt. lia.
Qed.

Definition well_typed (m : MemoryDb) : Prop :=
  ∀ id r, t_items m !! id = Some r → fields_valid (ir_item r) = true.

Lemma found_run w :
  clean w → well_typed (t_mem (db w)) →
  session_begin (
    let! rows := sql_select (tenant_id context) (recallable context worker_id subject_refs now) in
    lift_res (map_res item_from_row (take pool_size (merge_sort recalled_first rows)))) w =
  (Ok (ir_item <$> take pool_size (candidates_for (t_mem (db w)))), w).
Proof.
  intros Hc Ht. apply session_begin_read; [done|]. unfold bind, sql_select, gets, lift_res.
  fold (candidates_for (t_mem (db w))). f_equal. apply map_res_all.
  intros r Hr. assert (r ∈ candidates_for (t_mem (db w))) as Hin.
  { eapply elem_of_sublist; [done|apply sublist_take]. }
  apply candidates_elem in Hin as [[id Hid] Hrd]. unfold item_from_row, make_memory_item.
  by rewrite (readable_valid _ (Ht _ _ Hid) Hrd).
Qed.

Lemma rank_by_perm order (l : list MemoryItem) :
  rank_by order ((λ i, (mi_memory_id i, i)) <$> l) ≡ₚ l.
Proof. unfold rank_by. rewrite sorted_by_perm, <- list_fmap_compose. apply reflexive_eq, list_fmap_id. Qed.

(** The ranking: found items, reordered. *)
Lemma ordered_perm found w :
  ranks_outside →
  ∃ l w', _ordered svc found query context worker_id w = (Ok l, w') ∧ l ≡ₚ found ∧
    db w' = db w ∧ saved w' = saved w ∧ (_ranks svc query = None → l = found).
Proof.
  intros Ho. unfold _ordered. destruct (_ranks svc query) as [[ranker q]|] eqn:Er.
  2: { exists found, w. done. }
  destruct found as [|i found]; [by exists [], w|].
  assert (ms_ranker svc = Some ranker) as Hr.
  { unfold _ranks in Er. destruct (ms_ranker svc) as [rk|]; [|done]. destruct query as [s|]; [|done].
    destruct (py_truthy s); [|done]. by injection Er as -> _. }
  unfold try_except, bind.
  destruct (Ho ranker Hr q (tenant_id context) (workspace_id context) worker_id
              (mi_memory_id <$> i :: found) w) as [Hd Hs].
  destruct (ranker _ _ _ _ _ w) as [[order|e] w']; cbn in *.
  - eexists _, w'. split_and!; [reflexivity|apply (rank_by_perm order (i :: found))|done..].
  - by eexists _, w'.
Qed.

Lemma recall_run w :
  clean w → well_typed (t_mem (db w)) → ranks_outside →
  ∃ l w', recall svc context worker_id subject_refs now limit query w = (Ok l, w') ∧
    db w' = db w ∧ saved w' = saved w ∧
    ∃ l', l = take limit l' ∧
      l' ≡ₚ ir_item <$> take pool_size (candidates_for (t_mem (db w))) ∧
      (_ranks svc query = None → l' = ir_item <$> take pool_size (candidates_for (t_mem (db w)))).
Proof.
  intros Hc Ht Ho. unfold recall. destruct subject_refs as [|s0 ss] eqn:Es.
  - assert (candidates_for (t_mem (db w)) = []) as Hn.
    { destruct (candidates_for (t_mem (db w))) as [|r l] eqn:E; [done|].
      assert (r ∈ candidates_for (t_mem (db w))) as Hr by (rewrite E; by left).
      apply candidates_elem in Hr as [_ (_ & _ & _ & _ & (s & _ & Hs) & _)].
      rewrite Es in Hs. by apply elem_of_nil in Hs. }
    eexists _, w. split_and!; [reflexivity|done..|]. exists []. rewrite Hn, take_nil. by rewrite take_nil.
  - rewrite <- Es. unfold bind at 1. fold pool_size. rewrite (found_run w Hc Ht).
    destruct (ordered_perm (ir_item <$> take pool_size (candidates_for (t_mem (db w)))) w Ho)
      as (l & w' & E & Hp & Hd & Hs & Hl).
    unfold bind. rewrite E. eexists _, w'. split_and!; [reflexivity|done..|]. by exists l.
Qed.
End Recall.

(** Recall always answers, for any ranker, with at most the limit of distinct memories, each
    of the caller's tenant and workspace, of that worker, about an asked subject, valid
    at the time and within the caller's clearance. *)
Theorem recall_answers_from_readable svc context worker_id subject_refs now limit query w :
  clean w → keyed (t_items (t_mem (db w))) → well_typed (t_mem (db w)) → ranks_outside svc →
  ∃ found w', recall svc context worker_id subject_refs now limit query w = (Ok found, w') ∧
    db w' = db w ∧ clean w' ∧ length found ≤ limit ∧ NoDup (mi_memory_id <$> found) ∧
    ∀ i, i ∈ found →
      readable context worker_id subject_refs now i ∧
      ∃ r, t_items (t_mem (db w)) !! mi_memory_id i = Some r ∧ ir_item r = i.
Proof.
  intros Hc Hk Ht Ho. destruct (recall_run svc context worker_id subject_refs now limit query w Hc Ht Ho)
    as (l & w' & E & Hd & Hs & l' & -> & Hp & _).
  set (pool := take _ _) in Hp. eexists _, w'. split_and!; [exact E|done|unfold clean in *; congruence|..].
  - rewrite length_take. lia.
  - eapply sublist_NoDup; [|apply fmap_sublist, sublist_take]. rewrite Hp, <- list_fmap_compose.
    eapply sublist_NoDup; [|apply fmap_sublist, sublist_take]. by apply candidates_nodup.
  - intros i Hi. assert (i ∈ l') as Hi' by (eapply elem_of_sublist; [done|apply sublist_take]).
    rewrite Hp in Hi'. apply list_elem_of_fmap in Hi' as (r & -> & Hr).
    assert (r ∈ candidates_for context worker_id subject_refs now (t_mem (db w))) as Hin
      by (eapply elem_of_sublist; [exact Hr|apply sublist_take]).
    apply candidates_elem in Hin as [[id Hid] Hrd]. split; [done|]. exists r.
    pose proof (Hk _ _ Hid) as Hkey. cbn in Hkey. by rewrite Hkey.
Qed.

(** The same service without its ranker. *)
Definition unranked (svc : MemoryService) : MemoryService :=
  {| ms_policy := ms_policy svc; ms_ranker := None; ms_vector_purge := ms_vector_purge svc |}.

(** A ranker changes only the order: the answer has as many memories as without it, all from
    the hundred best, and the same ones when no more match than the limit; without a
    query it is the same list. *)
Theorem ranker_only_reorders svc context worker_id subject_refs now limit query w :
  clean w → well_typed (t_mem (db w)) → ranks_outside svc → limit ≤ RANKING_POOL →
  ∃ ranked plain w1 w2,
    recall svc context worker_id subject_refs now limit query w = (Ok ranked, w1) ∧
    recall (unranked svc) context worker_id subject_refs now limit query w = (Ok plain, w2) ∧
    plain = ir_item <$> take limit (candidates_for context worker_id subject_refs now (t_mem (db w))) ∧
    length ranked = length plain ∧
    ranked ⊆+ ir_item <$> take RANKING_POOL (candidates_for context worker_id subject_refs now (t_mem (db w))) ∧
    (length (candidates_for context worker_id subject_refs now (t_mem (db w))) ≤ limit → ranked ≡ₚ plain) ∧
    (_ranks svc query = None → ranked = plain).
Proof.
  intros Hc Ht Ho Hlim.
  destruct (recall_run svc context worker_id subject_refs now limit query w Hc Ht Ho)
    as (l & w1 & E1 & _ & _ & l1 & -> & Hp1 & Hn1).
  destruct (recall_run (unranked svc) context worker_id subject_refs now limit query w Hc Ht)
    as (l & w2 & E2 & _ & _ & l2 & -> & _ & Hn2); [done|].
  set (cs := candidates_for _ _ _ _ _) in *. specialize (Hn2 eq_refl). cbn in Hn2.
  assert (take limit l2 = ir_item <$> take limit cs) as Hpl
    by (by rewrite Hn2, <- fmap_take, take_take, Nat.min_id).
  rewrite Hpl in E2. exists (take limit l1), (ir_item <$> take limit cs), w1, w2. unfold pool_size in *.
  assert (length l1 = length (take (match _ranks svc query with Some _ => RANKING_POOL | None => limit end) cs))
    as Hl1 by (by rewrite Hp1, length_fmap).
  rewrite length_take in Hl1.
  split_and!; [done|done|done| | | |].
  - rewrite length_fmap, !length_take, Hl1. unfold RANKING_POOL in *. destruct (_ranks svc query); lia.
  - etrans; [apply sublist_submseteq, sublist_take|]. rewrite Hp1. apply sublist_submseteq, fmap_sublist.
    destruct (_ranks svc query); [done|]. rewrite <- (Nat.min_l limit RANKING_POOL) by done.
    rewrite <- take_take. apply sublist_take.
  - intros Hlen. rewrite take_ge by (rewrite Hl1; lia). rewrite Hp1.
    destruct (_ranks svc query); [|done]. by rewrite !take_ge by (unfold RANKING_POOL in *; lia).
  - intros Hr. rewrite Hn1 by done. rewrite Hr. by rewrite <- fmap_take, take_take, Nat.min_id.
Qed.

(** ** A proposal that commits late *)

Lemma map_res_raise {A B} (f : A → res B) e l :
  (∀ a, a ∈ l → (∃ b, f a = Ok b) ∨ f a = Raise e) → (∃ a, a ∈ l ∧ f a = Raise e) →
  map_res f l = Raise e.
Proof.
  induction l as [|a l IH]; intros Hall (x & Hx & Hf); [by apply elem_of_nil in Hx|]. simpl.
  destruct (Hall a) as [[b Hb]|Ha]; [by left| |by rewrite Ha]. rewrite Hb.
  rewrite IH; [done|intros; apply Hall; by right|]. exists x. split; [|done].
  apply elem_of_cons in Hx as [->|?]; [congruence|done].
Qed.

Lemma filter_true {A} (P : A → bool) (l : list A) : (∀ a, P a = true) → filter (λ a, P a = true) l = l.
Proof. intros H. apply filter_all, Forall_forall. auto. Qed.

(** The inventory with a row that does not validate on its only page. *)
Lemma list_items_raise codec context request w k r :
  clean w → t_items (t_mem (db w)) !! k = Some r →
  mi_tenant_id (ir_item r) = tenant_id context → mi_workspace_id (ir_item r) = workspace_id context →
  memory_item_valid (ir_item r) = false →
  pr_after request = None → (Z.of_nat (size (t_items (t_mem (db w)))) <= pr_limit request)%Z →
  list_items codec context request w = (Raise (Exn ValidationError "MemoryItem"), w).
Proof.
  intros Hc Hk Ht Hws Hv Ha Hl. unfold list_items. apply session_begin_read; [done|].
  unfold bind, sql_select, gets, lift_res. cbn [fst snd].
  set (rows := filter _ _).
  assert (length rows ≤ size (t_items (t_mem (db w)))) as Hlen.
  { unfold rows. etrans; [apply length_filter|]. rewrite length_fmap. cbn. by rewrite length_map_to_list. }
  assert (pg_items (build_page codec (select_page position_of_item rows request) request position_of_item)
    = newest_first position_of_item rows) as ->.
  { unfold build_page, select_page, fetch_limit. cbn [pg_items]. rewrite Ha.
    rewrite filter_true by done. rewrite take_take, take_ge; [done|].
    rewrite (newest_first_perm position_of_item rows). lia. }
  rewrite (map_res_raise _ (Exn ValidationError "MemoryItem")); [done|..].
  - intros a _. unfold item_from_row, make_memory_item. destruct (memory_item_valid (ir_item a)); eauto.
  - exists r. split.
    + rewrite newest_first_perm. unfold rows. apply list_elem_of_filter. split.
      * unfold visible. cbn. by rewrite Ht, Hws, !bool_decide_eq_true_2.
      * apply list_elem_of_fmap. exists (k, r). split; [done|]. by apply elem_of_map_to_list.
    + unfold item_from_row, make_memory_item. by rewrite Hv.
Qed.

(** A proposal whose clock was read before a newer memory it closes became valid leaves that
    memory with a window that ends before it starts, and the inventory page it is on can
    no longer be read. *)
Theorem late_proposal_breaks_inventory svc c context o id run mid now w superseded_ids w' k r :
  let item := item_of context c (po_confidence o) run mid now in
  clean w →
  session_begin (write_proposal svc c context o id run (Some item) now) w = (Ok superseded_ids, w') →
  t_items (t_mem (db w)) !! k = Some r → k ≠ mid →
  visible (tenant_id context) (superseded item) r = true → (now <= mi_valid_from (ir_item r))%Z →
  ∀ codec request, pr_after request = None →
    (Z.of_nat (size (t_items (t_mem (db w)))) < pr_limit request)%Z →
    list_items codec context request w' = (Raise (Exn ValidationError "MemoryItem"), w').
Proof.
  intros item Hc H Hk Hne Hsup Hlate codec request Ha Hl.
  apply session_cases in H as [Hc' [(e & ? & _)|(a & s & _ & Hw & ->)]]; [done| |done|respects_auto].
  apply write_proposal_ok in Hw as [_ (m1 & Hm & Hst) _].
  pose proof (is_rows _ _ _ _ Hst) as Hrows.
  assert (t_items (t_mem (db s)) = close_rows item now
    (<[mid := {| ir_item := item; ir_created_at := now |}]> (t_items (t_mem (db w))))) as Hit
    by (by rewrite Hm; cbn; rewrite Hrows).
  apply list_items_raise with k (close_at now r); [done| | | | |done|]; cbn.
  - rewrite Hit. unfold close_rows. rewrite lookup_update_rows, lookup_insert_ne by done.
    rewrite Hk. cbn. by rewrite Hsup.
  - unfold visible in Hsup. to_prop. done.
  - unfold visible, superseded, superseded_by in Hsup. destruct (mi_fact_key item); [|by rewrite andb_false_r in Hsup].
    to_prop. done.
  - rewrite memory_item_valid_fields. cbn. apply andb_false_iff. right. apply Z.ltb_ge. lia.
  - rewrite Hit. unfold close_rows, update_rows. rewrite map_size_fmap, map_size_insert_None by apply (is_fresh _ _ _ _ Hst).
    lia.
Qed.

(** ** Concrete instances *)

Definition example_remembered : World := (example_propose example_corroborated 70%N example_shelf).2.

Lemma example_remembered_inv : clean example_remembered ∧ memory_inv (t_mem (db example_remembered)).
Proof.
  apply (memory_step_inv example_memories example_shelf); [done|apply step_propose|done|by apply empty_memory_inv].
Qed.

Lemma inv_typed m : memory_inv m → well_typed m.
Proof. intros Hi id r Hr. apply (mi_founded _ Hi _ _ Hr). Qed.

Definition example_ranked : MemoryService :=
  {| ms_policy := default_policy; ms_ranker := Some (λ _ _ _ _ ids, ret (reverse ids)); ms_vector_purge := None |}.

Lemma example_ranks_outside : ranks_outside example_ranked.
Proof. intros ranker [= <-] q t ws wk ids w. done. Qed.

Lemma recall_answers_from_readable_witness :
  ∃ found w', recall example_ranked example_author "notes" ["account:1"] 5000 5 (Some "late"%py) example_remembered
      = (Ok found, w') ∧ length found ≤ 5 ∧
    length (candidates_for example_author "notes" ["account:1"] 5000 (t_mem (db example_remembered))) = 1.
Proof.
  destruct (recall_answers_from_readable example_ranked example_author "notes" ["account:1"%py] 5000 5
    (Some "late"%py) example_remembered) as (found & w' & E & _ & _ & Hl & _).
  - apply example_remembered_inv.
  - apply mi_items_keyed, example_remembered_inv.
  - apply inv_typed, example_remembered_inv.
  - apply example_ranks_outside.
  - exists found, w'. split; [exact E|]. split; [exact Hl|by vm_compute].
Defined.

Lemma ranker_only_reorders_witness :
  ∃ ranked plain w1 w2,
    recall example_ranked example_author "notes" ["account:1"] 5000 5 (Some "late"%py) example_remembered
      = (Ok ranked, w1) ∧
    recall (unranked example_ranked) example_author "notes" ["account:1"] 5000 5 (Some "late"%py)
      example_remembered = (Ok plain, w2) ∧ ranked ≡ₚ plain.
Proof.
  destruct (ranker_only_reorders example_ranked example_author "notes" ["account:1"%py] 5000 5
    (Some "late"%py) example_remembered) as (ranked & plain & w1 & w2 & E1 & E2 & _ & _ & _ & Hp & _).
  - apply example_remembered_inv.
  - apply inv_typed, example_remembered_inv.
  - apply example_ranks_outside.
  - unfold RANKING_POOL. lia.
  - exists ranked, plain, w1, w2. split; [exact E1|]. split; [exact E2|]. apply Hp.
    apply (bool_decide_eq_true_1 _). by vm_compute.
Defined.

(** Proposal A reads the time; proposal B reads it, writes and commits; A writes. *)
Definition example_later : MemoryCandidate :=
  example_fact "confidential" [example_ref 34 11 21; example_ref 35 12 22].
Definition example_overtaken : World :=
  (example_propose example_corroborated 70%N (now_utc example_shelf).2).2.
Definition example_late_write : Prog (list uuid) :=
  session_begin (write_proposal example_memories example_later example_author
    (evaluate default_policy example_later) 71%N 61%N
    (Some (item_of example_author example_later
             (po_confidence (evaluate default_policy example_later)) 61%N 500%N 1000)) 1000).

Lemma late_proposal_breaks_inventory_witness :
  (now_utc example_shelf).1 = Ok 1000%Z ∧
  is_ok (list_items example_codec example_author
           {| pr_limit := 50; pr_after := None; pr_query := example_query |} example_overtaken).1 = true ∧
  let w' := (example_late_write example_overtaken).2 in
  list_items example_codec example_author
    {| pr_limit := 50; pr_after := None; pr_query := example_query |} w'
  = (Raise (Exn ValidationError "MemoryItem"), w').
Proof.
  split; [done|]. split; [by vm_compute|].
  refine (late_proposal_breaks_inventory example_memories example_later example_author
    (evaluate default_policy example_later) 71%N 61%N 500%N 1000 example_overtaken [1000000%N] _ 1000000%N
    {| ir_item := item_of example_author example_corroborated
                    (po_confidence (evaluate default_policy example_corroborated)) 60 1000000 1001;
       ir_created_at := 1001 |} _ _ _ _ _ _ example_codec
    {| pr_limit := 50; pr_after := None; pr_query := example_query |} eq_refl _).
  - apply (memory_step_inv example_memories (now_utc example_shelf).2);
      [done|apply step_propose|done|by apply empty_memory_inv].
  - apply pair_fst_eq. vm_compute. reflexivity.
  - vm_compute. reflexivity.
  - done.
  - vm_compute. reflexivity.
  - cbn. lia.
  - vm_compute. reflexivity.
Defined.
