(* ===== verification/ModelBudget.v ===== *)
(** * Model profiles and the spend of a run

    [dw_agent_runtime/model/profiles.py] (routes, budgets, profiles and their
    registry), [model/budget.py] (the ledger that bounds one run) and the
    per-process operations every caller of a model shares.  A Python [float] is
    an IEEE binary64 number, written with the Standard Library's [spec_float]. *)

From S2P Require Import Prelude Errors Kernel Domain Contracts.
From Stdlib Require Import SpecFloat.
Local Open Scope prog_scope.
Local Open Scope pystr_scope.

(** ** Floats *)

Abbreviation pyfloat := spec_float (only parsing).

Definition float_of_int (z : Z) : pyfloat := binary_normalize 53 1024 z 0 false.
Definition float_zero : pyfloat := S754_zero false.
Definition fadd : pyfloat → pyfloat → pyfloat := SFadd 53 1024.
Definition fsub : pyfloat → pyfloat → pyfloat := SFsub 53 1024.
Definition fmul : pyfloat → pyfloat → pyfloat := SFmul 53 1024.
Definition fdiv : pyfloat → pyfloat → pyfloat := SFdiv 53 1024.
(** [x >= y] and [bool(x)] *)
Definition fge (x y : pyfloat) : bool := SFleb y x.
Definition ftruthy (x : pyfloat) : bool := negb (SFeqb x float_zero).

#[global] Arguments float_of_int : simpl never.
#[global] Arguments fadd : simpl never.
#[global] Arguments fsub : simpl never.
#[global] Arguments fmul : simpl never.
#[global] Arguments fdiv : simpl never.
#[global] Arguments fge : simpl never.
#[global] Arguments ftruthy : simpl never.

(** ** [model/profiles.py] *)

Record ModelRoute := {
  mr_provider : pystr;
  mr_model : pystr;
  mr_timeout_seconds : Z;
  mr_reasoning_effort : option pystr;
  mr_reasoning_summary : option pystr;
  mr_temperature : option pyfloat;
  mr_dimensions : option Z;
  mr_max_input_tokens : option Z;
  mr_price_per_million_input : option pyfloat;
  mr_price_per_million_output : option pyfloat }.

(** A field that may be absent, and holds when it is not. *)
Definition absent_or {A} (p : A → bool) (x : option A) : bool :=
  match x with None => true | Some a => p a end.

(** The bounded fields and literals of [ModelRoute]. *)
Definition model_route_valid (r : ModelRoute) : bool :=
  ((0 <? mr_timeout_seconds r) && (mr_timeout_seconds r <=? 600))%Z
  && absent_or (λ e, bool_decide (e ∈ ["minimal"; "low"; "medium"; "high"]%py))
       (mr_reasoning_effort r)
  && absent_or (λ e, bool_decide (e ∈ ["auto"; "concise"; "detailed"]%py))
       (mr_reasoning_summary r)
  && absent_or (λ t, fge t float_zero && fge (float_of_int 2) t) (mr_temperature r)
  && absent_or (λ d, 0 <? d)%Z (mr_dimensions r)
  && absent_or (λ m, 0 <? m)%Z (mr_max_input_tokens r)
  && absent_or (λ p, fge p float_zero) (mr_price_per_million_input r)
  && absent_or (λ p, fge p float_zero) (mr_price_per_million_output r).

Record ModelBudgets := {
  max_input_tokens_per_run : Z;
  max_cost_usd_per_run : pyfloat }.

Definition default_budgets : ModelBudgets :=
  {| max_input_tokens_per_run := 120000; max_cost_usd_per_run := float_of_int 2 |}.

Definition model_budgets_valid (b : ModelBudgets) : bool :=
  (0 <? max_input_tokens_per_run b)%Z && SFltb float_zero (max_cost_usd_per_run b).

Record ModelProfile := {
  mp_schema_version : pystr;
  mp_profile_id : pystr;
  mp_routing_policy_version : pystr;
  mp_structured_extraction : ModelRoute;
  mp_reasoning : ModelRoute;
  mp_chat : option ModelRoute;
  mp_deep_reasoning : option ModelRoute;
  mp_fallback : option ModelRoute;
  mp_embedding : option ModelRoute;
  mp_budgets : ModelBudgets }.

(** [_embedding_route_declares_its_width] and the parts' own validators; the
    [pattern] of the version strings is pydantic's to match and is left out. *)
Definition model_profile_valid (p : ModelProfile) : bool :=
  model_route_valid (mp_structured_extraction p) && model_route_valid (mp_reasoning p)
  && absent_or model_route_valid (mp_chat p) && absent_or model_route_valid (mp_deep_reasoning p)
  && absent_or model_route_valid (mp_fallback p) && absent_or model_route_valid (mp_embedding p)
  && model_budgets_valid (mp_budgets p)
  && absent_or (λ r, bool_decide (is_Some (mr_dimensions r))) (mp_embedding p).

Abbreviation ModelProfileRegistry := (Overlay.overlay pystr ModelProfile) (only parsing).

Definition profiles_register (p : ModelProfile) (t : option uuid) : M ModelProfileRegistry unit :=
  overlay_register (mp_profile_id p) p t.

Definition profiles_resolve (o : ModelProfileRegistry) (profile_id : pystr) (t : option uuid)
    : res ModelProfile :=
  match Overlay.get profile_id t o with
  | None => Raise (Exn NotFoundError "model profile not registered")
  | Some p => Ok p
  end.

(** ** [model/budget.py] *)

Definition _PER_MILLION : Z := 1000000.

Record RunSpend := {
  sp_input_tokens : Z;
  sp_output_tokens : Z;
  sp_cost_usd : pyfloat;
  sp_calls : Z }.

Definition no_spend : RunSpend :=
  {| sp_input_tokens := 0; sp_output_tokens := 0; sp_cost_usd := float_zero; sp_calls := 0 |}.

(** [price or 0.0] *)
Definition price_or_zero (p : option pyfloat) : pyfloat :=
  match p with
  | Some x => if ftruthy x then x else float_zero
  | None => float_zero
  end.

Definition route_cost (r : ModelRoute) (input_tokens output_tokens : Z) : pyfloat :=
  match mr_price_per_million_input r, mr_price_per_million_output r with
  | None, None => float_zero
  | pin, pout =>
      let inbound :=
        fdiv (fmul (price_or_zero pin) (float_of_int input_tokens)) (float_of_int _PER_MILLION) in
      let outbound :=
        fdiv (fmul (price_or_zero pout) (float_of_int output_tokens)) (float_of_int _PER_MILLION) in
      fadd inbound outbound
  end.

Abbreviation Ledger := (gmap uuid RunSpend).

Definition ledger_check (run_id : uuid) (budgets : ModelBudgets) : M Ledger unit :=
  let! spend := get_state in
  match spend !! run_id with
  | None => ret tt
  | Some current =>
      if (max_input_tokens_per_run budgets <=? sp_input_tokens current)%Z
      then raise BudgetExceededError "run reached its input-token ceiling"
      else if fge (sp_cost_usd current) (max_cost_usd_per_run budgets)
      then raise BudgetExceededError "run reached its cost ceiling"
      else ret tt
  end.

Definition add_spend (input_tokens output_tokens : Z) (cost_usd : pyfloat) (s : RunSpend)
    : RunSpend :=
  {| sp_input_tokens := sp_input_tokens s + input_tokens;
     sp_output_tokens := sp_output_tokens s + output_tokens;
     sp_cost_usd := fadd (sp_cost_usd s) cost_usd; sp_calls := sp_calls s + 1 |}.

Definition ledger_record (run_id : uuid) (input_tokens output_tokens : Z) (cost_usd : pyfloat)
    : M Ledger RunSpend :=
  let! spend := get_state in
  let current := add_spend input_tokens output_tokens cost_usd
                   (default no_spend (spend !! run_id)) in
  modify (λ l, <[run_id := current]> l) ;;;
  ret current.

Definition ledger_forget (run_id : uuid) : M Ledger (option RunSpend) :=
  let! spend := get_state in
  modify (λ l, delete run_id l) ;;;
  ret (spend !! run_id).

(** ** The one ledger of a process

    The gateway, the budget middleware and the runner hold the same ledger: it
    is a part of the state of each of them. *)

Class HoldsLedger (S : Type) := {
  ledger : S → Ledger;
  set_ledger : Ledger → S → S }.

Class HoldsLedgerOk (S : Type) `{HoldsLedger S} := {
  ledger_set : ∀ l s, ledger (set_ledger l s) = l;
  set_ledger_twice : ∀ l l' s, set_ledger l (set_ledger l' s) = set_ledger l s;
  set_ledger_same : ∀ s, set_ledger (ledger s) s = s }.

#[export] Instance ledger_itself : HoldsLedger Ledger := {| ledger l := l; set_ledger l _ := l |}.
#[export] Instance ledger_itself_ok : HoldsLedgerOk Ledger.
Proof. by split. Qed.

Definition on_ledger {S A} `{HoldsLedger S} (m : M Ledger A) : M S A := λ s,
  let '(r, l) := m (ledger s) in (r, set_ledger l s).

#[global] Arguments on_ledger : simpl never.

(** ** Lemmas *)

(** Whether a run with this spend may make another call. *)
Definition within (b : ModelBudgets) (s : option RunSpend) : bool :=
  match s with
  | None => true
  | Some c => (sp_input_tokens c <? max_input_tokens_per_run b)%Z
              && negb (fge (sp_cost_usd c) (max_cost_usd_per_run b))
  end.

Section OnLedger.
Context {S : Type} `{HoldsLedgerOk S}.
Implicit Types (s : S).

Lemma ledger_check_run run b s :
  on_ledger (ledger_check run b) s =
    (if within b (ledger s !! run) then Ok tt
     else Raise (Exn BudgetExceededError
       (if (max_input_tokens_per_run b <=?
              default 0 (sp_input_tokens <$> ledger s !! run))%Z
        then "run reached its input-token ceiling" else "run reached its cost ceiling")), s).
Proof.
  unfold on_ledger, ledger_check, within. run.
  destruct (ledger s !! run) as [c|]; simpl; [|by rewrite set_ledger_same].
  rewrite Z.leb_antisym. destruct (_ <? _)%Z eqn:E; simpl.
  - destruct (fge _ _); simpl; by rewrite set_ledger_same.
  - by rewrite set_ledger_same.
Qed.

Lemma ledger_record_run run i o c s :
  on_ledger (ledger_record run i o c) s =
    let e := add_spend i o c (default no_spend (ledger s !! run)) in
    (Ok e, set_ledger (<[run := e]> (ledger s)) s).
Proof. reflexivity. Qed.

Lemma ledger_forget_run run s :
  on_ledger (ledger_forget run) s =
    (Ok (ledger s !! run), set_ledger (delete run (ledger s)) s).
Proof. reflexivity. Qed.

(** Nothing happened to the entry of [run]. *)
Definition same_entry (run : uuid) : relation S := λ s s', ledger s' !! run = ledger s !! run.

#[export] Instance same_entry_preorder run : PreOrder (same_entry run).
Proof. unfold same_entry. split; [by intros ?|intros ? ? ?; congruence]. Qed.
End OnLedger.
