(* ===== verification/ModelGateway.v ===== *)
(** * The model gateway

    [dw_agent_runtime/model/gateway.py] ([RoutingModelGateway]),
    [model/single_call.py], [adapters/run_budget.py], [adapters/model_retry.py]
    and [adapters/usage_recorders.py]: every way a model is called, with the
    ceiling of the run in front of it.

    The operations work in any state that holds the process's ledger.  A
    provider adapter, a usage recorder and the agent's model handler are
    computations of that state, given from outside; they may do anything,
    which includes what other tasks do while they are awaited. *)

From S2P Require Import Prelude Errors Kernel Domain Contracts ModelBudget Prompts.
Local Open Scope prog_scope.
Local Open Scope pystr_scope.

(** ** [ports.py] and the records of [gateway.py] *)

Inductive RouteKind := RK_auto | RK_structured_extraction | RK_reasoning | RK_deep_reasoning.

#[export] Instance RouteKind_eq_dec : EqDecision RouteKind.
Proof. solve_decision. Defined.

Record ModelRequest := {
  mq_task : pystr;
  mq_prompt_id : pystr;
  mq_prompt_version : pystr;
  mq_variables : gmap pystr pystr;
  mq_model_profile : option pystr;
  mq_max_output_tokens : option Z;
  mq_route_kind : RouteKind }.

Record ModelUsage := {
  mu_provider : pystr;
  mu_model : pystr;
  mu_input_tokens : Z;
  mu_output_tokens : Z;
  mu_cost_usd : pyfloat;
  mu_latency_ms : pyfloat }.

(** [type[OutputT]]: its schema and [model_validate] ([None]: [ValidationError]). *)
Record OutputType (Out : Type) := {
  ot_schema : json;
  ot_validate : json → option Out }.
Arguments ot_schema {Out}.
Arguments ot_validate {Out}.

Abbreviation Adapter S := (RenderedPrompt → json → ModelRoute → option Z →
  M S (json * ModelUsage * option pystr)).
Abbreviation UsageRecorder S := (RunContext → ModelRequest → ModelUsage → M S unit).

Record RoutingModelGateway (S : Type) := {
  gw_profiles : Overlay.overlay pystr ModelProfile;
  gw_prompts : Overlay.overlay (pystr * pystr) (PromptArtifact * pystr);
  gw_format_other : pystr → gmap pystr (list N) → res (list N);
  gw_adapters : gmap pystr (Adapter S);
  gw_usage_recorder : UsageRecorder S;
  gw_default_profile : pystr;
  gw_perf_counter : M S pyfloat }.
Arguments gw_profiles {S}.
Arguments gw_prompts {S}.
Arguments gw_format_other {S}.
Arguments gw_adapters {S}.
Arguments gw_usage_recorder {S}.
Arguments gw_default_profile {S}.
Arguments gw_perf_counter {S}.

Definition with_latency (ms : pyfloat) (u : ModelUsage) : ModelUsage :=
  {| mu_provider := mu_provider u; mu_model := mu_model u; mu_input_tokens := mu_input_tokens u;
     mu_output_tokens := mu_output_tokens u; mu_cost_usd := mu_cost_usd u; mu_latency_ms := ms |}.
Definition with_cost (c : pyfloat) (u : ModelUsage) : ModelUsage :=
  {| mu_provider := mu_provider u; mu_model := mu_model u; mu_input_tokens := mu_input_tokens u;
     mu_output_tokens := mu_output_tokens u; mu_cost_usd := c; mu_latency_ms := mu_latency_ms u |}.

Definition with_profile (p : pystr) (q : ModelRequest) : ModelRequest :=
  {| mq_task := mq_task q; mq_prompt_id := mq_prompt_id q; mq_prompt_version := mq_prompt_version q;
     mq_variables := mq_variables q; mq_model_profile := Some p;
     mq_max_output_tokens := mq_max_output_tokens q; mq_route_kind := mq_route_kind q |}.

(** ** Routing *)

Definition _route (q : ModelRequest) (p : ModelProfile) : ModelRoute :=
  if bool_decide (mq_route_kind q = RK_deep_reasoning)
  then default (mp_reasoning p) (mp_deep_reasoning p)
  else if bool_decide (mq_route_kind q = RK_reasoning)
          || (bool_decide (mq_route_kind q = RK_auto) && bool_decide (mq_task q = "reasoning"))
  then mp_reasoning p
  else mp_structured_extraction p.

Definition _attempts (q : ModelRequest) (p : ModelProfile) : list ModelRoute :=
  let primary := _route q p in
  [primary; primary] ++
  match mp_fallback p with
  | Some f => if bool_decide ((mr_provider f, mr_model f) ≠ (mr_provider primary, mr_model primary))
              then [f] else []
  | None => []
  end.

(** The usage with a cost on it. *)
Definition _priced (r : ModelRoute) (u : ModelUsage) : ModelUsage :=
  if ftruthy (mu_cost_usd u) then u
  else let cost := route_cost r (mu_input_tokens u) (mu_output_tokens u) in
       if ftruthy cost then with_cost cost u else u.

(** [request.model_profile or self.default_profile] *)
Definition profile_of (default_profile : pystr) (q : ModelRequest) : pystr :=
  match mq_model_profile q with
  | Some p => if py_truthy p then p else default_profile
  | None => default_profile
  end.

(** ** [RoutingModelGateway] *)

Section Gateway.
Context {S : Type} `{HoldsLedger S} {Out : Type}.
Context (gw : RoutingModelGateway S) (ot : OutputType Out) (rc : RunContext).

Definition _spend (u : ModelUsage) : M S unit :=
  let! _ := on_ledger (ledger_record (rc_run_id rc) (mu_input_tokens u) (mu_output_tokens u)
                         (mu_cost_usd u)) in
  ret tt.

(** A cancellation that reaches the task at this await is not modelled: what the
    recorder raises is an [Exception]. *)
Definition _record (q : ModelRequest) (u : ModelUsage) : M S unit :=
  try_except (gw_usage_recorder gw rc q u) (λ _, ret tt).

(** Charge and record a call that answered. *)
Definition account (q : ModelRequest) (route : ModelRoute) (started : pyfloat) (u : ModelUsage)
    : M S unit :=
  let! now := gw_perf_counter gw in
  let u := with_latency (fmul (fsub now started) (float_of_int 1000)) u in
  let priced := _priced route u in
  _spend priced ;;;
  _record q priced.

Definition invalid_output : exn :=
  Exn ModelOutputInvalidError "model output failed schema validation".

(** The loop over [enumerate(self._attempts(...))], from [index] on. *)
Fixpoint try_routes (prompt : RenderedPrompt) (q : ModelRequest) (index : nat)
    (attempts : list ModelRoute) (last_error : option exn) : M S (Out * pystr) :=
  match attempts with
  | [] => match last_error with
          | None => raise AssertionError "attempts list is never empty"
          | Some e => reraise e
          end
  | route :: rest =>
      match gw_adapters gw !! mr_provider route with
      | None =>
          if index =? 0 then raise NotFoundError "model provider not configured"
          else try_routes prompt q (index + 1) rest last_error
      | Some complete_json =>
          let! started := gw_perf_counter gw in
          let! answer := outcome_of
            (complete_json prompt (ot_schema ot) route (mq_max_output_tokens q)) in
          match answer with
          | Raise exc =>
              if isinstance exc InfrastructureError
              then try_routes prompt q (index + 1) rest (Some exc)
              else reraise exc
          | Ok (raw, usage, reasoning) =>
              account q route started usage ;;;
              match ot_validate ot raw with
              | Some out => ret (out, default (PyStr []) reasoning)
              | None => try_routes prompt q (index + 1) rest (Some invalid_output)
              end
          end
      end
  end.

Definition generate_structured_traced (q : ModelRequest) : M S (Out * pystr) :=
  let! prompt := lift_res (render (gw_format_other gw) (gw_prompts gw) (mq_prompt_id q)
    (mq_prompt_version q) (mq_variables q) (Some (rc_tenant_id rc))) in
  let profile_id := profile_of (gw_default_profile gw) q in
  let q := with_profile profile_id q in
  let! profile := lift_res (profiles_resolve (gw_profiles gw) profile_id (Some (rc_tenant_id rc))) in
  on_ledger (ledger_check (rc_run_id rc) (mp_budgets profile)) ;;;
  try_routes prompt q 0 (_attempts q profile) None.

Definition generate_structured (q : ModelRequest) : M S Out :=
  let! r := generate_structured_traced q in ret r.1.

(** ** [SingleCallModelGateway]: [require] is the plan's daily allowance. *)

Definition single_call (require : RunContext → M S unit) (q : ModelRequest) : M S Out :=
  require rc ;;;
  try_finally (generate_structured q) (λ s, (on_ledger (ledger_forget (rc_run_id rc)) s).2).
End Gateway.

(** ** [CompositeUsageRecorder] *)

Fixpoint composite_record {S} (recorders : list (UsageRecorder S)) (rc : RunContext)
    (q : ModelRequest) (u : ModelUsage) : M S unit :=
  match recorders with
  | [] => ret tt
  | r :: rest => try_except (r rc q u) (λ _, ret tt) ;;; composite_record rest rc q u
  end.

(** ** The agent's model call: [RunBudgetMiddleware] around [ModelRetryMiddleware] *)

(** A message of the model's answer: an [AIMessage] with usage, or another. *)
Inductive AnswerMessage :=
  | AIUsage (input_tokens output_tokens : Z)
  | OtherMessage.

Definition _usage (messages : list AnswerMessage) : Z * Z :=
  foldl (λ acc m, match m with
                  | AIUsage i o => (acc.1 + i, acc.2 + o)
                  | OtherMessage => acc
                  end)%Z (0, 0)%Z messages.

Definition chat_route (o : Overlay.overlay pystr ModelProfile) (profile_id : pystr)
    (t : option uuid) : res ModelRoute :=
  match profiles_resolve o profile_id t with
  | Raise e => Raise e
  | Ok p => match mp_chat p with
            | None => Raise (Exn ConfigError "model profile has no chat route")
            | Some r => Ok r
            end
  end.

Section AgentCall.
Context {S : Type} `{HoldsLedger S}.

Definition budgeted_model_call (profiles : Overlay.overlay pystr ModelProfile) (profile_id : pystr)
    (rc : RunContext) {Req} (handler : Req → M S (list AnswerMessage)) (request : Req)
    : M S (list AnswerMessage) :=
  let! profile := lift_res (profiles_resolve profiles profile_id (Some (rc_tenant_id rc))) in
  let! route := lift_res (chat_route profiles profile_id (Some (rc_tenant_id rc))) in
  on_ledger (ledger_check (rc_run_id rc) (mp_budgets profile)) ;;;
  let! response := handler request in
  let '(i, o) := _usage response in
  let! _ := on_ledger (ledger_record (rc_run_id rc) i o (route_cost route i o)) in
  ret response.
End AgentCall.

Section Retry.
Definition DEFAULT_ATTEMPTS : nat := 3.
Definition DEFAULT_BACKOFF_SECONDS : pyfloat := fdiv (float_of_int 1) (float_of_int 2).
Definition _RETRYABLE_STATUS : list Z := [408; 409; 429; 500; 502; 503; 504]%Z.

(** [getattr(error, "status_code", None)] when it is an [int], and being a
    [GraphBubbleUp]: attributes of other packages' exceptions. *)
Context (status_code : exn → option Z) (is_bubble_up : exn → bool).

Definition is_transient (e : exn) : bool :=
  if isinstance e TimeoutError || isinstance e ConnectionError then true
  else match status_code e with
       | Some status => bool_decide (status ∈ _RETRYABLE_STATUS)
       | None => false
       end.

Definition backoff_of (backoff : pyfloat) (attempt : nat) : pyfloat :=
  fmul backoff (float_of_int (2 ^ (Z.of_nat attempt - 1))).

Context {S A Req : Type} (sleep : pyfloat → M S unit) (backoff : pyfloat).
Context (handler : Req → M S A) (request : Req).

(** [for attempt in range(1, attempts + 1)], with [left] attempts to go. *)
Fixpoint retry_loop (attempts left : nat) : M S A :=
  match left with
  | O => raise AssertionError "retry loop ended without returning or raising"
  | Datatypes.S left' =>
      let attempt := attempts - left' in
      let! answer := outcome_of (handler request) in
      match answer with
      | Ok a => ret a
      | Raise exc =>
          if is_bubble_up exc then reraise exc
          else if negb (is_transient exc) || (attempt =? attempts) then reraise exc
          else sleep (backoff_of backoff attempt) ;;; retry_loop attempts left'
      end
  end.

(** The constructor refuses fewer than one attempt. *)
Definition retried_model_call (attempts : nat) : M S A :=
  if attempts <? 1 then raise ValueError "attempts must be at least 1"
  else retry_loop attempts attempts.
End Retry.

(** ** Specification: the conversation with the providers *)

Record Call := { c_route : ModelRoute; c_outcome : res (json * ModelUsage * option pystr) }.

Section Conversation.
Context {S : Type} `{HoldsLedgerOk S} {Out : Type}.
Context (gw : RoutingModelGateway S) (ot : OutputType Out) (rc : RunContext).
Context (prompt : RenderedPrompt) (max_output_tokens : option Z).

(** A provider that is wired was asked, and said this. *)
Definition made (route : ModelRoute) (outcome : res (json * ModelUsage * option pystr)) : Prop :=
  ∃ complete_json s s', gw_adapters gw !! mr_provider route = Some complete_json ∧
    complete_json prompt (ot_schema ot) route max_output_tokens s = (outcome, s').

(** What the gateway answers to the calls it made: the routes still to try, the
    last error, the calls in order, the result. *)
Inductive conversation : list ModelRoute → option exn → list Call → res (Out * pystr) → Prop :=
  | conv_exhausted e : conversation [] (Some e) [] (Raise e)
  | conv_unwired route rest e calls r :
      gw_adapters gw !! mr_provider route = None →
      conversation rest e calls r → conversation (route :: rest) e calls r
  | conv_unavailable route rest e exc calls r :
      made route (Raise exc) → isinstance exc InfrastructureError = true →
      conversation rest (Some exc) calls r →
      conversation (route :: rest) e ({| c_route := route; c_outcome := Raise exc |} :: calls) r
  | conv_error route rest e exc :
      made route (Raise exc) → isinstance exc InfrastructureError = false →
      conversation (route :: rest) e [{| c_route := route; c_outcome := Raise exc |}] (Raise exc)
  | conv_invalid route rest e raw usage reasoning calls r :
      made route (Ok (raw, usage, reasoning)) → ot_validate ot raw = None →
      conversation rest (Some invalid_output) calls r →
      conversation (route :: rest) e
        ({| c_route := route; c_outcome := Ok (raw, usage, reasoning) |} :: calls) r
  | conv_answer route rest e raw usage reasoning out :
      made route (Ok (raw, usage, reasoning)) → ot_validate ot raw = Some out →
      conversation (route :: rest) e [{| c_route := route; c_outcome := Ok (raw, usage, reasoning) |}]
        (Ok (out, default (PyStr []) reasoning)).
End Conversation.

(** What one call costs the run: nothing when the provider did not answer. *)
Definition charge (c : Call) (e : option RunSpend) : option RunSpend :=
  match c_outcome c with
  | Raise _ => e
  | Ok (_, u, _) => Some (add_spend (mu_input_tokens u) (mu_output_tokens u)
                      (mu_cost_usd (_priced (c_route c) u)) (default no_spend e))
  end.

Definition charged (calls : list Call) (e : option RunSpend) : option RunSpend :=
  foldl (λ e c, charge c e) e calls.

(** ** Lemmas *)

Lemma priced_latency r ms u : mu_cost_usd (_priced r (with_latency ms u)) = mu_cost_usd (_priced r u).
Proof. unfold _priced. simpl. destruct (ftruthy (mu_cost_usd u)); [done|]. by destruct (ftruthy _). Qed.

Lemma priced_tokens r u :
  mu_input_tokens (_priced r u) = mu_input_tokens u ∧
  mu_output_tokens (_priced r u) = mu_output_tokens u.
Proof. unfold _priced. destruct (ftruthy _); [done|]. by destruct (ftruthy _). Qed.

Section TryRoutes.
Context {S : Type} `{HoldsLedgerOk S} {Out : Type}.
Context (gw : RoutingModelGateway S) (ot : OutputType Out) (rc : RunContext).
Notation run := (rc_run_id rc).

(** Nothing the gateway awaits touches this run's entry. *)
Record leaves_entry : Prop := {
  le_adapters : ∀ p a prompt schema route m,
    gw_adapters gw !! p = Some a → respects (same_entry run) (a prompt schema route m);
  le_recorder : ∀ q u, respects (same_entry run) (gw_usage_recorder gw rc q u);
  le_clock : ∀ s, ∃ t, (gw_perf_counter gw s).1 = Ok t ∧ same_entry run s (gw_perf_counter gw s).2 }.

Context (Hle : leaves_entry).

Lemma record_entry q u s : ∃ s', _record gw rc q u s = (Ok tt, s') ∧ same_entry run s s'.
Proof.
  unfold _record, try_except, ret. pose proof (le_recorder Hle q u s) as Hr.
  destruct (gw_usage_recorder gw rc q u s) as [[[]|e] s1]; eauto.
Qed.

Lemma spend_run u s :
  _spend rc u s = (Ok tt, (on_ledger (ledger_record run (mu_input_tokens u) (mu_output_tokens u)
                             (mu_cost_usd u)) s).2).
Proof. reflexivity. Qed.

Lemma account_entry q route started u s :
  ∃ s', account gw rc q route started u s = (Ok tt, s') ∧
    ledger s' !! run = Some (add_spend (mu_input_tokens u) (mu_output_tokens u)
      (mu_cost_usd (_priced route u)) (default no_spend (ledger s !! run))).
Proof.
  unfold account. destruct (le_clock Hle s) as (t & Ht & Hs). unfold bind at 1.
  destruct (gw_perf_counter gw s) as [r s1]. simpl in *. subst r.
  set (w := with_latency _ u). set (v := _priced route w). unfold bind at 1.
  rewrite (spend_run v s1). destruct (record_entry q v
    (on_ledger (ledger_record run (mu_input_tokens v) (mu_output_tokens v) (mu_cost_usd v)) s1).2)
    as (s' & Hr & Hs').
  exists s'. split; [exact Hr|]. unfold same_entry in *. rewrite Hs'.
  rewrite ledger_record_run. simpl. rewrite ledger_set, lookup_insert_eq, Hs.
  subst v w. rewrite priced_latency. by destruct (priced_tokens route (with_latency
    (fmul (fsub t started) (float_of_int 1000)) u)) as [-> ->].
Qed.

Lemma try_routes_conversation prompt q attempts index e s r s' :
  index ≠ 0 ∨ (∃ route, head attempts = Some route ∧ is_Some (gw_adapters gw !! mr_provider route)) →
  index = 0 ∨ is_Some e →
  try_routes gw ot rc prompt q index attempts e s = (r, s') →
  ∃ calls, conversation gw ot prompt (mq_max_output_tokens q) attempts e calls r ∧
    ledger s' !! run = charged calls (ledger s !! run).
Proof.
  revert index e s. induction attempts as [|route rest IH]; intros index e s Hi He; simpl.
  - destruct e as [exc|]; [|destruct Hi as [?|(? & ? & ?)], He as [?|[? ?]]; done].
    unfold reraise. intros [= <- <-]. exists []. split; [constructor|done].
  - destruct (gw_adapters gw !! mr_provider route) as [complete_json|] eqn:Ha.
    2: { destruct (Nat.eqb_spec index 0) as [->|Hn].
         - destruct Hi as [?|(? & [= <-] & [? ?])]; [done|congruence].
         - intros Hrun. destruct (IH (index + 1) e s) as (calls & Hc & Hl); [left; lia|naive_solver|done|].
           exists calls. split; [by constructor|done]. }
    unfold bind at 1. destruct (le_clock Hle s) as (t & Ht & Hs1).
    destruct (gw_perf_counter gw s) as [? s1]. simpl in *. subst.
    unfold bind at 1, outcome_of at 1.
    pose proof (le_adapters Hle _ _ prompt (ot_schema ot) route (mq_max_output_tokens q) Ha s1) as Hs2.
    destruct (complete_json _ _ _ _ s1) as [answer s2] eqn:Hcall. simpl in Hs2.
    assert (made gw ot prompt (mq_max_output_tokens q) route answer) as Hm by (by exists complete_json, s1, s2).
    assert (ledger s2 !! run = ledger s !! run) as E by (unfold same_entry in *; congruence).
    destruct answer as [[[raw usage] reasoning]|exc].
    + unfold bind. destruct (account_entry q route t usage s2) as (s3 & -> & Hs3).
      assert (ledger s3 !! run = charge {| c_route := route; c_outcome := Ok (raw, usage, reasoning) |}
                                    (ledger s !! run)) as Hc by (rewrite Hs3, E; done).
      destruct (ot_validate ot raw) as [out|] eqn:Hv.
      * unfold ret. intros [= <- <-]. eexists. split; [by eapply conv_answer|done].
      * intros Hrun. destruct (IH (index + 1) (Some invalid_output) s3) as (calls & Hcs & Hl);
          [left; lia|eauto|done|].
        eexists. split; [by eapply conv_invalid|]. rewrite Hl, Hc. done.
    + destruct (isinstance exc InfrastructureError) eqn:Hx.
      * intros Hrun. destruct (IH (index + 1) (Some exc) s2) as (calls & Hcs & Hl);
          [left; lia|eauto|done|].
        eexists. split; [by eapply conv_unavailable|]. rewrite Hl, E. done.
      * unfold reraise. intros [= <- <-]. eexists. split; [by eapply conv_error|done].
Qed.
End TryRoutes.

Section ConversationFacts.
Context {S : Type} `{HoldsLedgerOk S} {Out : Type}.
Context (gw : RoutingModelGateway S) (ot : OutputType Out) (prompt : RenderedPrompt) (m : option Z).

Lemma conversation_length attempts e calls r :
  conversation gw ot prompt m attempts e calls r → length calls ≤ length attempts.
Proof. induction 1; simpl; lia. Qed.

Lemma conversation_starts route rest calls r :
  conversation gw ot prompt m (route :: rest) None calls r →
  is_Some (gw_adapters gw !! mr_provider route) → 1 ≤ length calls.
Proof. intros Hc [a Ha]. inversion Hc; simplify_eq; simpl; lia. Qed.

(** Every call asked a route of the list, in the list's order. *)
Lemma conversation_routes attempts e calls r :
  conversation gw ot prompt m attempts e calls r → (c_route <$> calls) `sublist_of` attempts.
Proof.
  induction 1; simpl; try (by constructor).
  all: apply sublist_skip, sublist_nil_l.
Qed.

Lemma conversation_made attempts e calls r :
  conversation gw ot prompt m attempts e calls r →
  Forall (λ c, made gw ot prompt m (c_route c) (c_outcome c)) calls.
Proof. induction 1; by repeat constructor. Qed.

(** An output was validated from an answer, and nothing after it was asked. *)
Lemma conversation_output attempts e calls out reasoning :
  conversation gw ot prompt m attempts e calls (Ok (out, reasoning)) →
  ∃ before c raw u v, calls = before ++ [c] ∧ c_outcome c = Ok (raw, u, v) ∧
    ot_validate ot raw = Some out ∧ reasoning = default (PyStr []) v.
Proof.
  remember (Ok (out, reasoning)) as r eqn:E. intros Hc. revert E.
  induction Hc; intros E; try discriminate E; [auto|..].
  - destruct (IHHc E) as (before & c & raw & u & v & -> & Hrest). eexists (_ :: before), c, raw, u, v.
    by split.
  - destruct (IHHc E) as (before & c & raw' & u & v & -> & Hrest). eexists (_ :: before), c, raw', u, v.
    by split.
  - injection E as <- <-. eexists [], _, raw, usage, reasoning0. by split_and!.
Qed.
End ConversationFacts.

Lemma attempts_length q p : 2 ≤ length (_attempts q p) ≤ 3.
Proof. unfold _attempts. simpl. repeat case_match; simpl; lia. Qed.

Lemma attempts_head q p : ∃ rest, _attempts q p = _route q p :: rest.
Proof. by eexists. Qed.

(** ** Properties *)

(** C22: a structured model call is a conversation with the providers the profile allows:
    the primary route, once more if that fails, then the fallback; it stops at the first
    answer that validates and gives that answer, every answer is charged to the run
    exactly once at its price, and a run at its ceiling calls nobody. *)
Theorem gateway_conversation {S} `{HoldsLedgerOk S} {Out} (gw : RoutingModelGateway S)
    (ot : OutputType Out) rc q s :
  leaves_entry gw rc →
  let t := Some (rc_tenant_id rc) in
  let run := rc_run_id rc in
  let generated := generate_structured_traced gw ot rc q s in
  match render (gw_format_other gw) (gw_prompts gw) (mq_prompt_id q) (mq_prompt_version q)
          (mq_variables q) t,
        profiles_resolve (gw_profiles gw) (profile_of (gw_default_profile gw) q) t with
  | Raise e, _ => generated = (Raise e, s)
  | Ok _, Raise e => generated = (Raise e, s)
  | Ok prompt, Ok profile =>
      if negb (within (mp_budgets profile) (ledger s !! run))
      then ∃ msg, generated = (Raise (Exn BudgetExceededError msg), s)
      else if bool_decide (gw_adapters gw !! mr_provider (_route q profile) = None)
      then generated = (Raise (Exn NotFoundError "model provider not configured"), s)
      else ∃ calls, 1 ≤ length calls ≤ 3 ∧
             conversation gw ot prompt (mq_max_output_tokens q) (_attempts q profile) None calls
               generated.1 ∧
             ledger generated.2 !! run = charged calls (ledger s !! run)
  end.
Proof.
  intros Hle t run generated. subst generated. unfold generate_structured_traced, bind, lift_res.
  subst t. destruct (render _ _ _ _ _ _) as [prompt|e]; [|done].
  destruct (profiles_resolve _ _ _) as [profile|e]; [|done].
  rewrite ledger_check_run. fold run. destruct (within _ _); cbn [negb]; [|eauto].
  set (q' := with_profile _ q). assert (_attempts q' profile = _attempts q profile) as -> by done.
  destruct (attempts_head q profile) as [rest Hr]. pose proof (attempts_length q profile) as Hlen.
  rewrite Hr in *. case_bool_decide as Ha; [cbn [try_routes]; by rewrite Ha|].
  apply not_eq_None_Some in Ha as Hs.
  destruct (try_routes gw ot rc prompt q' 0 (_route q profile :: rest) None s) as [r s'] eqn:E.
  destruct (try_routes_conversation gw ot rc Hle prompt q' (_route q profile :: rest) 0 None s r s')
    as (calls & Hc & Hl); [right; eauto|by left|exact E|].
  exists calls. split_and!; [by eapply conversation_starts| |done|done].
  apply conversation_length in Hc. lia.
Qed.

(** A call made outside a run: refused before anything is asked when the plan has
    nothing left, and leaving no entry behind otherwise, whatever its outcome. *)
Theorem single_call_leaves_nothing {S} `{HoldsLedgerOk S} {Out} (gw : RoutingModelGateway S)
    (ot : OutputType Out) rc require q s :
  match require rc s with
  | (Raise e, s1) => single_call gw ot rc require q s = (Raise e, s1)
  | (Ok _, s1) =>
      (single_call gw ot rc require q s).1 = (generate_structured gw ot rc q s1).1 ∧
      ledger (single_call gw ot rc require q s).2 !! rc_run_id rc = None ∧
      ∀ run, run ≠ rc_run_id rc →
        ledger (single_call gw ot rc require q s).2 !! run =
        ledger (generate_structured gw ot rc q s1).2 !! run
  end.
Proof.
  destruct (require rc s) as [[u|e] s1] eqn:Hr; [|unfold single_call, bind; by rewrite Hr].
  destruct (generate_structured gw ot rc q s1) as [r s2] eqn:Hg.
  assert (single_call gw ot rc require q s =
    (r, set_ledger (delete (rc_run_id rc) (ledger s2)) s2)) as ->.
  { unfold single_call, bind, try_finally. rewrite Hr. by rewrite Hg. }
  simpl. rewrite ledger_set. split_and!; [done|apply lookup_delete_eq|].
  intros run Hne. by rewrite lookup_delete_ne.
Qed.

(** ** Bookkeeping never decides *)

Definition with_recorder {S} (r : UsageRecorder S) (gw : RoutingModelGateway S)
    : RoutingModelGateway S :=
  {| gw_profiles := gw_profiles gw; gw_prompts := gw_prompts gw;
     gw_format_other := gw_format_other gw; gw_adapters := gw_adapters gw;
     gw_usage_recorder := r; gw_default_profile := gw_default_profile gw;
     gw_perf_counter := gw_perf_counter gw |}.

Lemma account_recorder {S} `{HoldsLedgerOk S} gw (r1 r2 : UsageRecorder S) rc q route t u s :
  (∀ rc q u s, (r1 rc q u s).2 = (r2 rc q u s).2) →
  account (with_recorder r1 gw) rc q route t u s = account (with_recorder r2 gw) rc q route t u s.
Proof.
  intros Hr. unfold account, bind. cbn [with_recorder gw_perf_counter].
  destruct (gw_perf_counter gw s) as [[now|e] s1]; [|done].
  set (p := _priced _ _). rewrite (spend_run rc p s1). unfold _record, try_except. simpl.
  match goal with |- context [r1 rc q p ?st] => set (s2 := st) end.
  specialize (Hr rc q p s2).
  destruct (r1 rc q p s2) as [[[]|?] ?], (r2 rc q p s2) as [[[]|?] ?]; simpl in *; by subst.
Qed.

Lemma try_routes_recorder {S} `{HoldsLedgerOk S} {Out} (ot : OutputType Out) gw
    (r1 r2 : UsageRecorder S) rc prompt q index attempts e s :
  (∀ rc q u s, (r1 rc q u s).2 = (r2 rc q u s).2) →
  try_routes (with_recorder r1 gw) ot rc prompt q index attempts e s =
  try_routes (with_recorder r2 gw) ot rc prompt q index attempts e s.
Proof.
  intros Hr. revert s index e.
  induction attempts as [|route rest IH]; intros s index e; [done|].
  cbn [try_routes with_recorder gw_adapters gw_perf_counter].
  destruct (gw_adapters gw !! mr_provider route) as [a|]; [|by destruct (index =? 0)].
  unfold bind at 1 4. destruct (gw_perf_counter gw s) as [[t|?] s1]; [|done].
  unfold bind at 1 3, outcome_of.
  destruct (a prompt (ot_schema ot) route _ s1) as [[[[raw u] v]|exc] s2].
  - unfold bind. rewrite (account_recorder gw r1 r2) by done.
    destruct (account _ _ _ _ _ _ _) as [[?|?] s3]; [|done].
    destruct (ot_validate ot raw); [done|apply IH].
  - destruct (isinstance _ _); [apply IH|done].
Qed.

(** Two recorders that leave the same behind give the same runs, whether they
    answer or raise. *)
Theorem recorder_never_decides {S} `{HoldsLedgerOk S} {Out} (ot : OutputType Out) gw
    (r1 r2 : UsageRecorder S) rc q s :
  (∀ rc q u s, (r1 rc q u s).2 = (r2 rc q u s).2) →
  generate_structured_traced (with_recorder r1 gw) ot rc q s =
  generate_structured_traced (with_recorder r2 gw) ot rc q s.
Proof.
  intros Hr. unfold generate_structured_traced, bind, lift_res.
  cbn [with_recorder gw_format_other gw_prompts gw_profiles gw_default_profile].
  destruct (render _ _ _ _ _ _) as [prompt|]; [|done].
  destruct (profiles_resolve _ _ _) as [profile|]; [|done].
  rewrite ledger_check_run. destruct (within _ _); [|done]. by apply try_routes_recorder.
Qed.

(** ** Retries *)

Section RetryFacts.
Context (status_code : exn → option Z) (is_bubble_up : exn → bool).
Context {S A Req : Type} (sleep : pyfloat → M S unit) (backoff : pyfloat).
Context (handler : Req → M S A) (request : Req).

(** [n] calls that failed in a way a retry could fix, each followed by the pause
    of its turn; the first of them is attempt number [i]. *)
Fixpoint transient_failures (i n : nat) (s s' : S) : Prop :=
  match n with
  | O => s = s'
  | Datatypes.S n' => ∃ e s1 s2,
      handler request s = (Raise e, s1) ∧ is_bubble_up e = false ∧ is_transient status_code e = true ∧
      sleep (backoff_of backoff i) s1 = (Ok tt, s2) ∧ transient_failures (i + 1) n' s2 s'
  end.

Lemma retry_loop_exact attempts left s :
  (∀ t s, ∃ s', sleep t s = (Ok tt, s')) → 1 ≤ left ≤ attempts →
  ∃ n s1, n < left ∧ transient_failures (attempts - left + 1) n s s1 ∧
    retry_loop status_code is_bubble_up sleep backoff handler request attempts left s =
      handler request s1 ∧
    ∀ e, (handler request s1).1 = Raise e →
      is_bubble_up e = true ∨ is_transient status_code e = false ∨ n = left - 1.
Proof.
  intros Hsleep. revert s. induction left as [|left IH]; intros s Hl; [lia|]. cbn [retry_loop].
  unfold bind at 1, outcome_of at 1. destruct (handler request s) as [[a|e] s1] eqn:Hh.
  { exists 0, s. rewrite Hh. split_and!; [lia|done|done|done]. }
  destruct (is_bubble_up e) eqn:Hb.
  { exists 0, s. rewrite Hh. split_and!; [lia|done|done|]. intros e' [= <-]. by left. }
  destruct (is_transient status_code e) eqn:Ht; simpl.
  2: { exists 0, s. rewrite Hh. split_and!; [lia|done|done|]. intros e' [= <-]. by right; left. }
  destruct (Nat.eqb_spec (attempts - left) attempts) as [Hz|Hz].
  { exists 0, s. rewrite Hh. split_and!; [lia|done|done|]. intros e' [= <-]. right; right. lia. }
  destruct (Hsleep (backoff_of backoff (attempts - left)) s1) as [s2 Hs2]. unfold bind.
  rewrite Hs2. destruct (IH s2) as (n & s3 & Hn & Hf & Hr & He); [lia|].
  exists (Datatypes.S n), s3. split_and!; [lia| |done|].
  - exists e, s1, s2. replace (attempts - Datatypes.S left + 1) with (attempts - left) by lia.
    by split_and!.
  - intros e' H'. destruct (He e' H') as [?|[?|?]]; [by left|by right; left|]. right; right. lia.
Qed.
End RetryFacts.

(** C35: the retry loop ends: it runs the call once plus once for each transient failure
    before it, never more often than allowed, waits the doubling delays in between, and
    gives the first answer or the first failure that is final. *)
Theorem retry_exact status_code is_bubble_up {S A Req} (sleep : pyfloat → M S unit) backoff
    (handler : Req → M S A) request attempts s :
  (∀ t s, ∃ s', sleep t s = (Ok tt, s')) →
  let retried := retried_model_call status_code is_bubble_up sleep backoff handler request attempts s in
  if attempts =? 0 then retried = (Raise (Exn ValueError "attempts must be at least 1"), s)
  else ∃ n s1, n < attempts ∧
    transient_failures status_code is_bubble_up sleep backoff handler request 1 n s s1 ∧
    retried = handler request s1 ∧
    ∀ e, retried.1 = Raise e →
      is_bubble_up e = true ∨ is_transient status_code e = false ∨ n = attempts - 1.
Proof.
  intros Hsleep retried. subst retried. unfold retried_model_call.
  destruct attempts as [|a]; [done|]. cbn [Nat.eqb Nat.ltb Nat.leb].
  destruct (retry_loop_exact status_code is_bubble_up sleep backoff handler request
    (Datatypes.S a) (Datatypes.S a) s Hsleep) as (n & s1 & Hn & Hf & -> & He); [lia|].
  exists n, s1. rewrite Nat.sub_diag in Hf. by split_and!.
Qed.

(** ** Concrete instances *)

Definition example_usage : ModelUsage :=
  {| mu_provider := "openai_compatible"; mu_model := "small"; mu_input_tokens := 50;
     mu_output_tokens := 5; mu_cost_usd := float_zero; mu_latency_ms := float_zero |}.

Definition example_route (model : pystr) : ModelRoute :=
  {| mr_provider := "openai_compatible"; mr_model := model; mr_timeout_seconds := 60;
     mr_reasoning_effort := None; mr_reasoning_summary := None; mr_temperature := None;
     mr_dimensions := None; mr_max_input_tokens := None;
     mr_price_per_million_input := Some (float_of_int 3);
     mr_price_per_million_output := Some (float_of_int 15) |}.

Definition example_profile : ModelProfile :=
  {| mp_schema_version := "1.0"; mp_profile_id := "balanced"; mp_routing_policy_version := "1.0.0";
     mp_structured_extraction := example_route "small"; mp_reasoning := example_route "small";
     mp_chat := Some (example_route "small"); mp_deep_reasoning := None;
     mp_fallback := Some (example_route "large"); mp_embedding := None;
     mp_budgets := {| max_input_tokens_per_run := 40; max_cost_usd_per_run := float_of_int 2 |} |}.

(** A provider whose every answer has 50 input tokens, and a schema no answer meets. *)
Definition example_gateway {S} : RoutingModelGateway S :=
  {| gw_profiles := Overlay.Overlay {[ "balanced" := example_profile ]} ∅;
     gw_prompts := example_prompts; gw_format_other _ _ := Ok [];
     gw_adapters := {[ "openai_compatible" := λ _ _ _ _, ret (JNull, example_usage, None) ]};
     gw_usage_recorder _ _ _ := raise TimeoutError "ledger unreachable";
     gw_default_profile := "balanced"; gw_perf_counter := ret float_zero |}.

Definition example_output : OutputType Z :=
  {| ot_schema := JObj []; ot_validate _ := None |}.

Definition example_request : ModelRequest :=
  {| mq_task := "summarise"; mq_prompt_id := "summary"; mq_prompt_version := "1.0.0";
     mq_variables := {[ "day" := "today"; "doc" := "text" ]}; mq_model_profile := None;
     mq_max_output_tokens := None; mq_route_kind := RK_auto |}.

Lemma example_leaves : leaves_entry (example_gateway : RoutingModelGateway Ledger) (example_run_context 10 7).
Proof.
  split; simpl.
  - intros p a prompt schema route m Ha. by apply lookup_singleton_Some in Ha as [_ <-].
  - done.
  - by eexists.
Qed.

(** One request of a fresh run with a ceiling of 40 spends 150: the ceiling is
    looked at before the first call only, not before the retry and the fallback
    that an invalid answer leads to. *)
Theorem retries_pass_the_ceiling :
  let s := (generate_structured_traced example_gateway example_output
              (example_run_context 10 7) example_request ∅).2 in
  sp_input_tokens <$> (s !! 10%N) = Some 150%Z ∧ sp_calls <$> (s !! 10%N) = Some 3%Z.
Proof. split; vm_compute; reflexivity. Qed.

Lemma gateway_conversation_witness :
  ∃ calls : list Call, 1 ≤ length calls ≤ 3 ∧
    charged calls None =
      ledger (generate_structured_traced example_gateway example_output
                (example_run_context 10 7) example_request ∅).2 !! 10%N.
Proof.
  pose proof (gateway_conversation example_gateway example_output (example_run_context 10 7)
    example_request ∅ example_leaves) as H.
  cbv zeta in H. assert (profiles_resolve (gw_profiles (example_gateway (S := Ledger)))
    (profile_of (gw_default_profile (example_gateway (S := Ledger))) example_request)
    (Some (rc_tenant_id (example_run_context 10 7))) = Ok example_profile) as E by reflexivity.
  rewrite E in H. destruct (render _ _ _ _ _ _) as [prompt|e] eqn:Er in H;
    [|vm_compute in Er; discriminate Er].
  change (within _ _) with true in H. cbn [negb] in H.
  rewrite bool_decide_eq_false_2 in H by discriminate.
  destruct H as (calls & Hlen & _ & Hl). exists calls. split; [exact Hlen|].
  symmetry. exact Hl.
Defined.

(** A handler that times out twice, then answers: the state counts the calls. *)
Lemma retry_exact_witness :
  let handler := λ _ : unit, (λ n : nat,
    if n <? 2 then (Raise (Exn TimeoutError "slow"), n + 1) else (Ok 7%Z, n + 1)) : M nat Z in
  ∃ n s1, n < 3 ∧
    retried_model_call (λ _, None) (λ _, false) (λ _, ret tt) DEFAULT_BACKOFF_SECONDS handler tt
      DEFAULT_ATTEMPTS 0 = handler tt s1.
Proof.
  intros handler.
  destruct (retry_exact (λ _, None) (λ _, false) (λ _, ret tt) DEFAULT_BACKOFF_SECONDS handler tt
    DEFAULT_ATTEMPTS 0 (λ _ s, ex_intro _ s eq_refl)) as (n & s1 & Hn & _ & Hr & _).
  exists n, s1. split; [exact Hn|exact Hr].
Defined.
