(* ===== verification/UsageMeter.v ===== *)
(** * Metering an agent's model calls

    [dw_agent_runtime/adapters/langchain_usage.py]: trackers around parts of a
    run, each of which sees every model call made inside it, and the tally by
    which the outermost records only what no inner tracker has recorded.

    A run is a tree: model calls, and tracked parts.  LangChain's handler is the
    list of the calls made while it is installed, summed by model. *)

From S2P Require Import Prelude Errors Kernel Domain Contracts ModelBudget Prompts ModelGateway.
Local Open Scope prog_scope.
Local Open Scope pystr_scope.

(** ** Data *)

(** What [track] is called with. *)
Record Tracker := {
  tk_run_context : RunContext;
  tk_profile_id : pystr;
  tk_task : pystr;
  tk_prompt_id : pystr;
  tk_prompt_version : pystr }.

(** What happens while a run is metered: a model answers, or a part of the run is
    tracked in turn.  A part that raises is the calls it had made by then. *)
Inductive activity :=
  | ModelCall (model : pystr) (input_tokens output_tokens : Z)
  | Tracked (t : Tracker) (body : list activity).

(** [_CLAIMED] (absent outside every tracker), and what the recorder was given. *)
Abbreviation Tally := (gmap pystr (Z * Z)).
Record MeterState := {
  ms_claimed : option Tally;
  ms_book : list (RunContext * ModelRequest * ModelUsage) }.

Definition set_claimed (c : option Tally) (s : MeterState) : MeterState :=
  {| ms_claimed := c; ms_book := ms_book s |}.

(** [usage_metadata]: a dict by model name, in the order the names appeared. *)
Abbreviation Usages := (list (pystr * (Z * Z))).

Fixpoint add_usage (model : pystr) (i o : Z) (l : Usages) : Usages :=
  match l with
  | [] => [(model, (i, o))]
  | (m, (i', o')) :: rest =>
      if decide (m = model) then (m, (i' + i, o' + o)%Z) :: rest
      else (m, (i', o')) :: add_usage model i o rest
  end.

Definition usage_metadata (calls : list (pystr * (Z * Z))) : Usages :=
  foldl (λ l c, add_usage c.1 c.2.1 c.2.2 l) [] calls.

Section Meter.
Context (profiles : Overlay.overlay pystr ModelProfile) (recorder : UsageRecorder MeterState).

Definition tracked_request (t : Tracker) : ModelRequest :=
  {| mq_task := tk_task t; mq_prompt_id := tk_prompt_id t; mq_prompt_version := tk_prompt_version t;
     mq_variables := ∅; mq_model_profile := Some (tk_profile_id t); mq_max_output_tokens := None;
     mq_route_kind := RK_auto |}.

Definition tracked_usage (route : option ModelRoute) (model : pystr) (i o : Z) : ModelUsage :=
  {| mu_provider := match route with Some r => mr_provider r | None => "openai_compatible" end;
     mu_model := model; mu_input_tokens := i; mu_output_tokens := o;
     mu_cost_usd := match route with Some r => route_cost r i o | None => float_zero end;
     mu_latency_ms := float_zero |}.

(** One turn of [_record]'s loop.  [outermost]: [already] is the tally;
    otherwise the tally is added to. *)
Definition record_model (t : Tracker) (outermost : bool) (already : Tally)
    (route : option ModelRoute) (entry : pystr * (Z * Z)) : M MeterState unit :=
  let '(model, (input_tokens, output_tokens)) := entry in
  (when negb outermost then modify (λ s,
     let seen := default ∅ (ms_claimed s) in
     let '(i, o) := default (0, 0)%Z (seen !! model) in
     set_claimed (Some (<[model := (i + input_tokens, o + output_tokens)%Z]> seen)) s)) ;;;
  let '(claimed_in, claimed_out) :=
    if outermost then default (0, 0)%Z (already !! model) else (0, 0)%Z in
  let i := if outermost then Z.max 0 (input_tokens - claimed_in) else input_tokens in
  let o := if outermost then Z.max 0 (output_tokens - claimed_out) else output_tokens in
  if outermost && ((i =? 0)%Z && (o =? 0)%Z) then ret tt
  else recorder (tk_run_context t) (tracked_request t) (tracked_usage route model i o).

Fixpoint for_each {S A} (f : A → M S unit) (l : list A) : M S unit :=
  match l with
  | [] => ret tt
  | x :: rest => f x ;;; for_each f rest
  end.

(** [_record]: whatever it raises is logged. *)
Definition record_usage (t : Tracker) (outermost : bool) (already : Tally) (usages : Usages)
    : M MeterState unit :=
  try_except (
    let! profile := lift_res (profiles_resolve profiles (tk_profile_id t) None) in
    for_each (record_model t outermost already (mp_chat profile)) usages)
  (λ _, ret tt).

(** What the parts of a body do, in order, and the model calls a handler sees. *)
Definition perform_each (perform : activity → M MeterState (list (pystr * (Z * Z))))
    : list activity → M MeterState (list (pystr * (Z * Z))) :=
  fix each l :=
    match l with
    | [] => ret []
    | x :: rest => let! c := perform x in let! cs := each rest in ret (c ++ cs)
    end.

Fixpoint perform (a : activity) : M MeterState (list (pystr * (Z * Z))) :=
  match a with
  | ModelCall model i o => ret [(model, (i, o))]
  | Tracked t body =>
      let! s := get_state in
      let outermost := bool_decide (ms_claimed s = None) in
      (when outermost then modify (set_claimed (Some ∅))) ;;;
      let! seen := perform_each perform body in
      let! s := get_state in
      let tally := default ∅ (ms_claimed s) in
      (when outermost then modify (set_claimed None)) ;;;
      record_usage t outermost tally (usage_metadata seen) ;;;
      ret seen
  end.

Definition perform_all : list activity → M MeterState (list (pystr * (Z * Z))) :=
  perform_each perform.
End Meter.

(** The recorder of the book. *)
Definition book_recorder : UsageRecorder MeterState := λ rc q u,
  modify (λ s, {| ms_claimed := ms_claimed s; ms_book := ms_book s ++ [(rc, q, u)] |}).

(** ** Lemmas *)

(** The tokens of a model in a list of calls, and in the book. *)
Definition tokens_of (model : pystr) (l : list (pystr * (Z * Z))) : Z * Z :=
  foldr (λ c acc, if decide (c.1 = model) then (c.2.1 + acc.1, c.2.2 + acc.2)%Z else acc) (0, 0)%Z l.

Definition booked (model : pystr) (book : list (RunContext * ModelRequest * ModelUsage)) : Z * Z :=
  tokens_of model ((λ e, (mu_model e.2, (mu_input_tokens e.2, mu_output_tokens e.2))) <$> book).

Definition plus (a b : Z * Z) : Z * Z := (a.1 + b.1, a.2 + b.2)%Z.

Lemma tokens_of_app m a b : tokens_of m (a ++ b) = plus (tokens_of m a) (tokens_of m b).
Proof.
  unfold tokens_of, plus. induction a as [|c a IH]; simpl; [by destruct (foldr _ _ b)|].
  case_decide; rewrite IH; simpl; [f_equal; lia|done].
Qed.

Lemma booked_app m a b : booked m (a ++ b) = plus (booked m a) (booked m b).
Proof. unfold booked. by rewrite fmap_app, tokens_of_app. Qed.

Lemma tokens_of_add m model i o l :
  tokens_of m (add_usage model i o l) =
    plus (tokens_of m l) (if decide (model = m) then (i, o) else (0, 0)%Z).
Proof.
  unfold plus. induction l as [|[m' [i' o']] l IH]; simpl.
  - case_decide; simpl; f_equal; lia.
  - destruct (decide (m' = model)) as [<-|Hne]; simpl.
    + destruct (decide (m' = m)) as [->|]; simpl; [f_equal; lia|].
      destruct (tokens_of m l); simpl. f_equal; lia.
    + destruct (decide (m' = m)) as [->|]; [|exact IH].
      rewrite IH. rewrite decide_False by done. simpl. f_equal; lia.
Qed.

Lemma usage_tokens m calls : tokens_of m (usage_metadata calls) = tokens_of m calls.
Proof.
  unfold usage_metadata. assert (∀ l, tokens_of m (foldl (λ l c, add_usage c.1 c.2.1 c.2.2 l) l calls)
    = plus (tokens_of m l) (tokens_of m calls)) as E.
  { induction calls as [|[model [i o]] calls IH]; intros l; simpl.
    - unfold plus. destruct (tokens_of m l). simpl. f_equal; lia.
    - rewrite IH, tokens_of_add. unfold plus. simpl. case_decide; simpl; f_equal; lia. }
  rewrite E. unfold plus. simpl. by destruct (tokens_of m calls).
Qed.

Lemma add_usage_names model i o l :
  NoDup l.*1 → NoDup (add_usage model i o l).*1 ∧
  ∀ x, x ∈ (add_usage model i o l).*1 ↔ x = model ∨ x ∈ l.*1.
Proof.
  induction l as [|[m' [i' o']] l IH]; simpl; intros Hn.
  - split; [apply NoDup_singleton|]. intros x. rewrite !elem_of_cons. naive_solver.
  - apply NoDup_cons in Hn as [Hm Hn]. destruct (IH Hn) as [IH1 IH2].
    destruct (decide (m' = model)) as [->|Hne]; simpl.
    + split; [by constructor|]. intros x. rewrite !elem_of_cons. naive_solver.
    + split; [constructor; [rewrite IH2; naive_solver|done]|].
      intros x. rewrite !elem_of_cons, IH2. naive_solver.
Qed.

Lemma usage_names calls : NoDup (usage_metadata calls).*1.
Proof.
  unfold usage_metadata. assert (∀ l : Usages, NoDup l.*1 →
    NoDup (foldl (λ l c, add_usage c.1 c.2.1 c.2.2 l) l calls).*1) as E.
  { induction calls as [|c calls IH]; intros l Hl; simpl; [done|].
    apply IH. by apply add_usage_names. }
  apply E. constructor.
Qed.

(** The model calls of an activity, tracked or not. *)
Fixpoint calls_of (a : activity) : list (pystr * (Z * Z)) :=
  match a with
  | ModelCall model i o => [(model, (i, o))]
  | Tracked _ body => mjoin (calls_of <$> body)
  end.

Definition is_call (a : activity) : Prop :=
  match a with ModelCall _ i o => (0 ≤ i ∧ 0 ≤ o)%Z | Tracked _ _ => False end.

(** A call, or a tracked part that tracks nothing in turn. *)
Definition one_level (a : activity) : Prop :=
  match a with
  | ModelCall _ i o => (0 ≤ i ∧ 0 ≤ o)%Z
  | Tracked _ body => Forall is_call body
  end.

Definition claimed (s : MeterState) (m : pystr) : Z * Z :=
  default (0, 0)%Z (default ∅ (ms_claimed s) !! m).

Definition le2 (a b : Z * Z) : Prop := (a.1 ≤ b.1 ∧ a.2 ≤ b.2)%Z.

Definition book_entry (t : Tracker) (route : option ModelRoute) (model : pystr) (io : Z * Z)
    (s : MeterState) : list (RunContext * ModelRequest * ModelUsage) :=
  ms_book s ++ [(tk_run_context t, tracked_request t, tracked_usage route model io.1 io.2)].

Lemma record_model_inner t route model i o s :
  record_model book_recorder t false ∅ route (model, (i, o)) s =
    (Ok tt, {| ms_claimed := Some (<[model := plus (claimed s model) (i, o)]>
                               (default ∅ (ms_claimed s)));
               ms_book := book_entry t route model (i, o) s |}).
Proof.
  unfold record_model, bind, modify, claimed, book_entry, plus. simpl.
  by destruct (default (0, 0)%Z (_ !! model)).
Qed.

(** What is left of a model's tokens once the tally is taken off. *)
Definition remainder (already : Tally) (model : pystr) (io : Z * Z) : Z * Z :=
  let c := default (0, 0)%Z (already !! model) in (Z.max 0 (io.1 - c.1), Z.max 0 (io.2 - c.2))%Z.

Lemma record_model_outer t already route model io s :
  record_model book_recorder t true already route (model, io) s =
    (Ok tt, if bool_decide (remainder already model io = (0, 0)%Z) then s
            else {| ms_claimed := ms_claimed s;
                    ms_book := book_entry t route model (remainder already model io) s |}).
Proof.
  destruct io as [i o]. unfold record_model, bind, ret, remainder. simpl.
  destruct (default (0, 0)%Z (already !! model)) as [ci co]. simpl.
  destruct (Z.eqb_spec (Z.max 0 (i - ci)) 0) as [->|Hi]; simpl;
    [destruct (Z.eqb_spec (Z.max 0 (o - co)) 0) as [->|Ho]; simpl|].
  - done.
  - rewrite bool_decide_eq_false_2 by congruence. done.
  - rewrite bool_decide_eq_false_2 by congruence. done.
Qed.

Lemma booked_entry m t route model io s :
  booked m (book_entry t route model io s) =
    plus (booked m (ms_book s)) (if decide (model = m) then io else (0, 0)%Z).
Proof.
  unfold book_entry. rewrite booked_app. f_equal. unfold booked, tokens_of. simpl.
  case_decide; simpl; [|done]. destruct io. simpl. f_equal; lia.
Qed.

Lemma plus_zero_r a : plus a (0, 0)%Z = a.
Proof. unfold plus. simpl. rewrite !Z.add_0_r. by destruct a. Qed.
Lemma plus_zero_l a : plus (0, 0)%Z a = a.
Proof. by destruct a. Qed.
Lemma plus_assoc a b c : plus (plus a b) c = plus a (plus b c).
Proof. unfold plus. simpl. f_equal; lia. Qed.

Lemma tokens_of_cons m model io l :
  tokens_of m ((model, io) :: l) = plus (if decide (model = m) then io else (0, 0)%Z) (tokens_of m l).
Proof.
  unfold tokens_of, plus. simpl. case_decide; simpl; [done|]. by destruct (foldr _ _ l).
Qed.

#[local] Arguments tokens_of : simpl never.

Lemma tokens_absent m l : m ∉ l.*1 → tokens_of m l = (0, 0)%Z.
Proof.
  induction l as [|[x y] l IH]; simpl; intros Hm; [done|]. rewrite tokens_of_cons.
  rewrite decide_False by (intros ->; apply Hm; by left). rewrite IH; [done|].
  intros H. apply Hm. by right.
Qed.

Lemma body_cons a l : mjoin (calls_of <$> a :: l) = calls_of a ++ mjoin (calls_of <$> l).
Proof. done. Qed.

Lemma tokens_call m model i o :
  tokens_of m (calls_of (ModelCall model i o)) = if decide (model = m) then (i, o) else (0, 0)%Z.
Proof. cbn [calls_of]. by rewrite tokens_of_cons, plus_zero_r. Qed.

Lemma calls_nonneg m l : Forall one_level l → le2 (0, 0)%Z (tokens_of m (mjoin (calls_of <$> l))).
Proof.
  assert (∀ calls : list activity, Forall is_call calls →
    le2 (0, 0)%Z (tokens_of m (mjoin (calls_of <$> calls)))) as Hcalls.
  { induction 1 as [|[model i o|] calls Hx _ IH]; [done| |done].
    rewrite body_cons, tokens_of_app, tokens_call. unfold le2, plus in *.
    cbn [is_call] in Hx. case_decide; cbn [fst snd] in *; lia. }
  induction 1 as [|a l Ha _ IH]; [done|]. rewrite body_cons, tokens_of_app.
  assert (le2 (0, 0)%Z (tokens_of m (calls_of a))) as H'.
  { destruct a as [model i o|t body]; [|by apply Hcalls]. rewrite tokens_call. unfold le2.
    cbn [one_level] in Ha. case_decide; cbn [fst snd]; lia. }
  unfold le2, plus in *. cbn [fst snd] in *. lia.
Qed.

Section MeterFacts.
Context (profiles : Overlay.overlay pystr ModelProfile).
Notation performed := (perform profiles book_recorder).
Notation recorded := (record_usage profiles book_recorder).

Lemma record_inner t p usages s :
  profiles_resolve profiles (tk_profile_id t) None = Ok p → is_Some (ms_claimed s) →
  ∃ s', recorded t false ∅ usages s = (Ok tt, s') ∧ is_Some (ms_claimed s') ∧
    ∀ m, claimed s' m = plus (claimed s m) (tokens_of m usages) ∧
         booked m (ms_book s') = plus (booked m (ms_book s)) (tokens_of m usages).
Proof.
  intros Hp Hs. unfold record_usage, try_except, bind at 1, lift_res. rewrite Hp.
  cut (∃ s', for_each (record_model book_recorder t false ∅ (mp_chat p)) usages s = (Ok tt, s') ∧
    is_Some (ms_claimed s') ∧
    ∀ m, claimed s' m = plus (claimed s m) (tokens_of m usages) ∧
         booked m (ms_book s') = plus (booked m (ms_book s)) (tokens_of m usages)).
  { intros (s' & -> & H). eauto. }
  revert s Hs. induction usages as [|[model [i o]] usages IH]; intros s Hs; cbn [for_each].
  - exists s. split_and!; [done|done|]. intros m. by rewrite !plus_zero_r.
  - unfold bind at 1. rewrite record_model_inner.
    set (s1 := {| ms_claimed := _ |}). destruct (IH s1) as (s' & -> & Hs' & Hm); [done|].
    exists s'. split_and!; [done|done|]. intros m. destruct (Hm m) as [-> ->].
    rewrite tokens_of_cons. subst s1. cbn [ms_book]. rewrite booked_entry, !plus_assoc. split; [|done].
    rewrite <- plus_assoc. f_equal. unfold claimed at 1. simpl. case_decide as Hd.
    + subst. by rewrite lookup_insert_eq.
    + rewrite lookup_insert_ne by done. by rewrite plus_zero_r.
Qed.

Lemma record_outer t p already usages s :
  profiles_resolve profiles (tk_profile_id t) None = Ok p → NoDup usages.*1 →
  ∃ s', recorded t true already usages s = (Ok tt, s') ∧ ms_claimed s' = ms_claimed s ∧
    ∀ m, booked m (ms_book s') = plus (booked m (ms_book s))
           (if decide (m ∈ usages.*1) then remainder already m (tokens_of m usages) else (0, 0)%Z).
Proof.
  intros Hp Hn. unfold record_usage, try_except, bind at 1, lift_res. rewrite Hp.
  cut (∃ s', for_each (record_model book_recorder t true already (mp_chat p)) usages s = (Ok tt, s') ∧
    ms_claimed s' = ms_claimed s ∧
    ∀ m, booked m (ms_book s') = plus (booked m (ms_book s))
           (if decide (m ∈ usages.*1) then remainder already m (tokens_of m usages) else (0, 0)%Z)).
  { intros (s' & -> & H). eauto. }
  revert s. induction usages as [|[model io] usages IH]; intros s; cbn [for_each].
  - exists s. split_and!; [done|done|]. intros m. rewrite decide_False by apply not_elem_of_nil.
    by rewrite plus_zero_r.
  - apply NoDup_cons in Hn as [Hm Hn]. unfold bind at 1. rewrite record_model_outer.
    set (s1 := if bool_decide _ then s else _). destruct (IH Hn s1) as (s' & -> & Hc & Hb).
    exists s'. split_and!; [done|by rewrite Hc; subst s1; case_bool_decide|].
    intros m. rewrite Hb. assert (booked m (ms_book s1) = plus (booked m (ms_book s))
      (if decide (model = m) then remainder already model io else (0, 0)%Z)) as ->.
    { subst s1. case_bool_decide as Hz; [rewrite Hz; by case_decide; rewrite plus_zero_r|].
      cbn [ms_book]. by rewrite booked_entry. }
    rewrite plus_assoc, tokens_of_cons. f_equal. simpl. destruct (decide (model = m)) as [->|Hne].
    + rewrite decide_False by done. rewrite decide_True by (by left). rewrite plus_zero_r.
      by rewrite (tokens_absent m usages), plus_zero_r.
    + rewrite !plus_zero_l. destruct (decide (m ∈ usages.*1)) as [Hi|Hi].
      * by rewrite decide_True by (by right).
      * by rewrite decide_False by (rewrite elem_of_cons; naive_solver).
Qed.

Lemma perform_calls l s :
  Forall is_call l → perform_each performed l s = (Ok (mjoin (calls_of <$> l)), s).
Proof.
  intros Hl. induction Hl as [|[model i o|] l Hx _ IH]; [done| |done].
  cbn [perform_each perform]. unfold bind, ret. by rewrite IH.
Qed.

(** What a body of one level leaves: the inner trackers have booked a part of
    what was spent, and claimed exactly that part. *)
Definition settles (s s' : MeterState) (calls : list (pystr * (Z * Z))) : Prop :=
  is_Some (ms_claimed s') ∧ ∃ rec : pystr → Z * Z, ∀ m,
    claimed s' m = plus (claimed s m) (rec m) ∧
    booked m (ms_book s') = plus (booked m (ms_book s)) (rec m) ∧
    le2 (0, 0)%Z (rec m) ∧ le2 (rec m) (tokens_of m calls).

Lemma perform_inner a s :
  one_level a → is_Some (ms_claimed s) →
  ∃ s', performed a s = (Ok (calls_of a), s') ∧ settles s s' (calls_of a).
Proof.
  intros Ha Hs. destruct a as [model i o|t body]; cbn [perform].
  { eexists. split; [done|]. split; [done|]. exists (λ _, (0, 0)%Z). intros m.
    rewrite !plus_zero_r. split_and!; [done..|]. rewrite tokens_call.
    unfold le2. cbn [one_level] in Ha. case_decide; cbn [fst snd]; lia. }
  unfold bind at 1, get_state at 1. rewrite bool_decide_eq_false_2 by (intros E; rewrite E in Hs; by destruct Hs).
  cbv zeta. unfold bind at 1, ret at 1. unfold bind at 1. rewrite perform_calls by exact Ha.
  unfold bind at 1, get_state. unfold bind at 1, ret at 1. unfold bind.
  change (calls_of (Tracked t body)) with (mjoin (calls_of <$> body)).
  set (calls := mjoin (calls_of <$> body)).
  assert (recorded t false (default ∅ (ms_claimed s)) (usage_metadata calls) s =
          recorded t false ∅ (usage_metadata calls) s) as -> by done.
  destruct (profiles_resolve profiles (tk_profile_id t) None) as [p|e] eqn:Hp.
  - destruct (record_inner t p (usage_metadata calls) s Hp Hs) as (s' & -> & Hs' & Hm).
    eexists. split; [done|]. split; [done|]. exists (λ m, tokens_of m calls). intros m.
    destruct (Hm m) as [-> ->]. rewrite usage_tokens. split_and!; [done..| |done].
    apply (calls_nonneg m body). eapply Forall_impl; [exact Ha|]. by intros [] H.
  - unfold record_usage, try_except, bind at 1, lift_res. rewrite Hp. unfold ret.
    eexists. split; [done|]. split; [done|]. exists (λ _, (0, 0)%Z). intros m.
    rewrite !plus_zero_r. split_and!; [done|done|done|].
    apply (calls_nonneg m body). eapply Forall_impl; [exact Ha|]. by intros [] H.
Qed.

Lemma perform_body l s :
  Forall one_level l → is_Some (ms_claimed s) →
  ∃ s', perform_each performed l s = (Ok (mjoin (calls_of <$> l)), s') ∧
        settles s s' (mjoin (calls_of <$> l)).
Proof.
  intros Hl. revert s. induction Hl as [|a l Ha _ IH]; intros s Hs.
  - exists s. split; [done|]. split; [done|]. exists (λ _, (0, 0)%Z). intros m.
    by rewrite !plus_zero_r.
  - cbn [perform_each]. unfold bind.
    destruct (perform_inner a s Ha Hs) as (s1 & -> & Hs1 & rec1 & H1).
    destruct (IH s1 Hs1) as (s2 & -> & Hs2 & rec2 & H2). exists s2. split; [done|].
    split; [done|]. exists (λ m, plus (rec1 m) (rec2 m)). intros m.
    destruct (H1 m) as (E1 & E2 & L1 & L2), (H2 m) as (F1 & F2 & L3 & L4).
    rewrite F1, F2, E1, E2, !plus_assoc. split_and!; [done|done|..].
    + unfold le2, plus in *. simpl in *. lia.
    + rewrite body_cons, tokens_of_app. unfold le2, plus in *. cbn [fst snd] in *. lia.
Qed.
End MeterFacts.

(** ** Properties *)

(** With trackers nested at most one level deep, what the outermost and the inner trackers
    of a run record together is, for every model, exactly the tokens of the calls made:
    nothing is billed twice and nothing is lost, and the tally is gone afterwards. *)
Theorem usage_counted_once profiles t body s p :
  ms_claimed s = None → profiles_resolve profiles (tk_profile_id t) None = Ok p →
  Forall one_level body →
  ∃ s', perform profiles book_recorder (Tracked t body) s = (Ok (calls_of (Tracked t body)), s') ∧
    ms_claimed s' = None ∧
    ∀ model, booked model (ms_book s') =
             plus (booked model (ms_book s)) (tokens_of model (calls_of (Tracked t body))).
Proof.
  intros Hs Hp Hl. cbn [perform]. unfold bind at 1, get_state at 1.
  rewrite bool_decide_eq_true_2 by done. cbv zeta. unfold bind at 1, modify at 1. unfold bind at 1.
  set (s0 := set_claimed (Some ∅) s).
  destruct (perform_body profiles body s0 Hl) as (s1 & -> & Hs1 & rec & Hrec); [done|].
  unfold bind at 1, get_state. unfold bind at 1, modify. unfold bind, ret.
  change (calls_of (Tracked t body)) with (mjoin (calls_of <$> body)).
  set (calls := mjoin (calls_of <$> body)) in *.
  destruct (record_outer profiles t p (default ∅ (ms_claimed s1)) (usage_metadata calls)
    (set_claimed None s1) Hp (usage_names calls)) as (s' & -> & Hc & Hb).
  exists s'. split_and!; [done|done|]. intros m. rewrite Hb. destruct (Hrec m) as (E1 & E2 & L1 & L2).
  cbn [ms_book set_claimed]. rewrite E2, plus_assoc. cbn [ms_book set_claimed s0]. f_equal.
  assert (claimed s0 m = (0, 0)%Z) as E0 by (unfold claimed; simpl; by rewrite lookup_empty).
  rewrite E0, plus_zero_l in E1. rewrite usage_tokens. case_decide as Hd.
  - unfold remainder. fold (claimed s1 m). rewrite E1. unfold le2, plus in *. simpl in *.
    destruct (tokens_of m calls), (rec m). simpl in *. f_equal; lia.
  - apply tokens_absent in Hd. rewrite usage_tokens in Hd. rewrite Hd in *.
    unfold le2, plus in *. destruct (rec m). simpl in *. f_equal; lia.
Qed.

(** ** Concrete instances *)

Definition example_tracker (task : pystr) : Tracker :=
  {| tk_run_context := example_run_context 10 7; tk_profile_id := "balanced"; tk_task := task;
     tk_prompt_id := "agent"; tk_prompt_version := "1.0.0" |}.

Definition example_profiles : Overlay.overlay pystr ModelProfile :=
  Overlay.Overlay {[ "balanced" := example_profile ]} ∅.

Definition unmetered : MeterState := {| ms_claimed := None; ms_book := [] |}.

Lemma usage_counted_once_witness :
  ∃ s', perform example_profiles book_recorder
          (Tracked (example_tracker "agent_loop")
             [ModelCall "small" 10 1; Tracked (example_tracker "lane") [ModelCall "small" 30 2]])
          unmetered = (Ok [("small", (10, 1)); ("small", (30, 2))]%py%Z, s') ∧
        booked "small" (ms_book s') = (40, 3)%Z.
Proof.
  destruct (usage_counted_once example_profiles (example_tracker "agent_loop")
    [ModelCall "small" 10 1; Tracked (example_tracker "lane") [ModelCall "small" 30 2]]
    unmetered example_profile eq_refl eq_refl) as (s' & Hp & _ & Hb).
  { repeat constructor; simpl; lia. }
  exists s'. split; [exact Hp|]. rewrite Hb. reflexivity.
Defined.

(** A tracker inside a tracker inside a tracker: both inner ones record the call
    and both add it to the tally, so ten tokens are booked as twenty. *)
Theorem nested_trackers_count_twice :
  booked "small" (ms_book (perform example_profiles book_recorder
    (Tracked (example_tracker "agent_loop")
       [Tracked (example_tracker "lane") [Tracked (example_tracker "step") [ModelCall "small" 10 1]]])
    unmetered).2) = (20, 2)%Z.
Proof. vm_compute. reflexivity. Qed.
