(* ===== verification/Allowance.v ===== *)
(** * Plans and the daily allowance

    [dw_platform/application/entitlement.py] (what a plan grants),
    [dw_agent_runtime/allowance.py] (what a tenant has left today) and
    [adapters/spend_guard.py] (the table the day's spend is summed in).

    [RuntimeState] is a process of the runtime: the database and clocks of
    [Store.World], the process's spend ledger, and the spend guard's table.  A
    Python [Decimal] is a rational; the column is a number of ten-thousandths. *)

From S2P Require Import Prelude Errors Kernel Domain Contracts Store RunStore ModelBudget ModelGateway.
From Stdlib Require Import QArith Qabs.
Local Open Scope prog_scope.
Local Open Scope pystr_scope.

Abbreviation decimal := Q (only parsing).

(** ** [domain/entities.py]: plans *)

Record Plan := {
  pl_plan_id : pystr;
  pl_name : pystr;
  pl_features : gset pystr;
  pl_quotas : gmap pystr Z;
  pl_spend_usd_per_day : option decimal }.

Definition plan_valid (p : Plan) : bool :=
  negb (is_blank (pl_plan_id p)) && forallb (λ kv, 0 <=? kv.2)%Z (map_to_list (pl_quotas p))
  && absent_or (λ d, Qle_bool 0 d) (pl_spend_usd_per_day p).

Definition make_plan (p : Plan) : res Plan :=
  if plan_valid p then Ok p else Raise (Exn ValueError "plan").

(** ** [application/entitlement.py] *)

Definition plan_of (plan_id name : pystr) (features : gset pystr) (runs : Z) : Plan :=
  {| pl_plan_id := plan_id; pl_name := name; pl_features := features;
     pl_quotas := {[ "runs_per_day" := runs ]}; pl_spend_usd_per_day := None |}.

Definition DEFAULT_PLANS : gmap pystr Plan :=
  {[ "basic" := plan_of "basic" "Basic" {[ "knowledge_search" ]} 20;
     "professional" := plan_of "professional" "Professional" {[ "knowledge_search" ]} 200;
     "enterprise" := plan_of "enterprise" "Enterprise" {[ "knowledge_search"; "audit_export" ]} 2000 ]}.

Section PlanEntitlementService.
Context (plans : gmap pystr Plan).

Definition plan_has_feature (context : AccessContext) (feature : pystr) : bool :=
  Domain.has_feature context feature ||
  match plans !! plan_id context with
  | Some plan => bool_decide (feature ∈ pl_features plan)
  | None => false
  end.

Definition runs_per_day (plan_id : pystr) : option Z :=
  match plans !! plan_id with
  | None => Some 0%Z
  | Some plan => pl_quotas plan !! "runs_per_day"
  end.

Definition spend_usd_per_day (plan_id : pystr) : option decimal :=
  match plans !! plan_id with
  | None => Some 0%Q
  | Some plan => pl_spend_usd_per_day plan
  end.

Definition require_feature {S} (context : AccessContext) (feature : pystr) : M S unit :=
  if plan_has_feature context feature then ret tt
  else raise EntitlementDeniedError "plan does not include this capability".
End PlanEntitlementService.

(** ** The state of a process of the runtime *)

(** [tenant_daily_spend_guard], by its primary key. *)
Record SpendRow := { sr_spend : Z; sr_updated_at : datetime }.
Abbreviation SpendGuard := (gmap (uuid * Z) SpendRow).

Record RuntimeState := {
  rt_world : World;
  rt_ledger : Ledger;
  rt_guard : SpendGuard }.

Definition set_world (w : World) (s : RuntimeState) : RuntimeState :=
  {| rt_world := w; rt_ledger := rt_ledger s; rt_guard := rt_guard s |}.
Definition set_guard (g : SpendGuard) (s : RuntimeState) : RuntimeState :=
  {| rt_world := rt_world s; rt_ledger := rt_ledger s; rt_guard := g |}.

#[export] Instance runtime_ledger : HoldsLedger RuntimeState := {|
  ledger := rt_ledger;
  set_ledger l s := {| rt_world := rt_world s; rt_ledger := l; rt_guard := rt_guard s |} |}.
#[export] Instance runtime_ledger_ok : HoldsLedgerOk RuntimeState.
Proof. split; [done..|by intros []]. Qed.

Definition in_world {A} (m : Prog A) : M RuntimeState A := λ s,
  let '(r, w) := m (rt_world s) in (r, set_world w s).

(** ** Days and amounts *)

Definition day_length : timedelta := days 1.
(** [.date()] of a UTC instant, as a number of days, and midnight of its day. *)
Definition date_of (t : datetime) : Z := (t / day_length)%Z.
Definition day_start (t : datetime) : datetime := (date_of t * day_length)%Z.

(** What [NUMERIC(12, 4)] makes of an amount, in ten-thousandths: rounded half
    away from zero, refused past its twelve digits. *)
Definition round_half_away (q : Q) : Z :=
  (Z.sgn (Qnum q) * ((2 * Z.abs (Qnum q) + Zpos (Qden q)) / (2 * Zpos (Qden q))))%Z.
Definition to_column (d : decimal) : Z := round_half_away (d * 10000)%Q.
Definition fits_column (units : Z) : bool := (Z.abs units <? 10 ^ 12)%Z.
Definition of_column (units : Z) : decimal := (units # 10000)%Q.

#[global] Arguments to_column : simpl never.
#[global] Arguments of_column : simpl never.

(** ** [adapters/spend_guard.py] *)

Definition spend_today (tenant : uuid) (day : Z) : M RuntimeState decimal :=
  gets (λ s, match rt_guard s !! (tenant, day) with
             | Some row => of_column (sr_spend row)
             | None => 0%Q
             end).

Definition numeric_overflow : exn_class := OtherException "NumericValueOutOfRangeError".

(** The upsert: [excluded.spend_usd] is the amount as the column holds it. *)
Definition upsert_spend (tenant : uuid) (day : Z) (cost : decimal) (now : datetime)
    : M RuntimeState unit :=
  let units := to_column cost in
  let! s := get_state in
  if negb (fits_column units) then raise numeric_overflow "numeric field overflow"
  else let total := match rt_guard s !! (tenant, day) with
                    | Some row => sr_spend row + units
                    | None => units
                    end%Z in
       if negb (fits_column total) then raise numeric_overflow "numeric field overflow"
       else modify (λ s, set_guard (<[(tenant, day) := {| sr_spend := total; sr_updated_at := now |}]>
                                      (rt_guard s)) s).

(** [decimal_of]: [Decimal(str(cost))]. *)
Definition spend_guard_record (decimal_of : pyfloat → decimal) (rc : RunContext)
    (q : ModelRequest) (u : ModelUsage) : M RuntimeState unit :=
  if fge float_zero (mu_cost_usd u) then ret tt
  else let! now := in_world now_utc in
       let! updated := in_world now_utc in
       upsert_spend (rc_tenant_id rc) (date_of now) (decimal_of (mu_cost_usd u)) updated.

Definition KEEP_DAYS : Z := 30.

Definition spend_guard_prune (keep_days : Z) : M RuntimeState unit :=
  let! now := in_world now_utc in
  let cutoff := (date_of now - keep_days)%Z in
  modify (λ s, set_guard (filter (λ kv, (cutoff <= kv.1.2)%Z) (rt_guard s)) s).

(** ** [allowance.py] *)

Section DailyAllowance.
Context (plans : gmap pystr Plan) (guarded : bool).

Definition _require_runs (rc : RunContext) : M RuntimeState unit :=
  let! now := in_world now_utc in
  match runs_per_day plans (rc_plan_id rc) with
  | None => ret tt
  | Some limit =>
      let! used := in_world (started_since (rc_tenant_id rc) (day_start now)) in
      if (Z.of_nat used <? limit)%Z then ret tt
      else raise QuotaExceededError "hôm nay đã dùng hết số lượt chạy của gói; thử lại sau 00:00 UTC hoặc nâng gói để có thêm lượt"
  end.

(** [guarded]: whether a spend guard is wired. *)
Definition _require_spend (rc : RunContext) : M RuntimeState unit :=
  if negb guarded then ret tt
  else match spend_usd_per_day plans (rc_plan_id rc) with
       | None => ret tt
       | Some limit =>
           let! now := in_world now_utc in
           let! spent := spend_today (rc_tenant_id rc) (date_of now) in
           if negb (Qle_bool limit spent) then ret tt
           else raise QuotaExceededError "hôm nay đã dùng hết trần chi tiêu của gói; thử lại sau 00:00 UTC hoặc nâng gói để có thêm trần"
       end.

Definition require_allowance (rc : RunContext) : M RuntimeState unit :=
  _require_runs rc ;;;
  _require_spend rc.
End DailyAllowance.

(** ** Lemmas *)

Lemma round_half_away_error q : (Qabs (inject_Z (round_half_away q) - q) <= 1 # 2)%Q.
Proof.
  destruct q as [n d]. unfold round_half_away. simpl Qnum. simpl Qden.
  set (k := ((2 * Z.abs n + Z.pos d) / (2 * Z.pos d))%Z).
  assert (2 * Z.pos d * k ≤ 2 * Z.abs n + Z.pos d < 2 * Z.pos d * k + 2 * Z.pos d)%Z as Hk.
  { pose proof (Z.mul_div_le (2 * Z.abs n + Z.pos d) (2 * Z.pos d) ltac:(lia)).
    pose proof (Z.mul_succ_div_gt (2 * Z.abs n + Z.pos d) (2 * Z.pos d) ltac:(lia)).
    fold k in H, H0. lia. }
  apply Qabs_Qle_condition. unfold Qle, Qminus, Qplus, Qopp, inject_Z. simpl.
  destruct (Z.sgn_spec n) as [[Hn ->]|[[<- ->]|[Hn ->]]]; simpl; rewrite ?Z.abs_eq, ?Z.abs_neq in Hk by lia; lia.
Qed.

Lemma to_column_error d : (Qabs (of_column (to_column d) - d) <= 1 # 20000)%Q.
Proof.
  pose proof (round_half_away_error (d * 10000)) as H. apply Qabs_Qle_condition in H as [H1 H2].
  fold (to_column d) in H1, H2. apply Qabs_Qle_condition.
  assert (of_column (to_column d) - d == (inject_Z (to_column d) - d * 10000) * (1 # 10000))%Q as ->.
  { assert (of_column (to_column d) == inject_Z (to_column d) * (1 # 10000))%Q as ->
      by (unfold of_column, inject_Z, Qeq, Qmult; simpl; lia). ring. }
  split.
  - apply (Qle_trans _ (- (1 # 2) * (1 # 10000))); [done|]. by apply Qmult_le_compat_r.
  - apply (Qle_trans _ ((1 # 2) * (1 # 10000))); [|done]. by apply Qmult_le_compat_r.
Qed.

(** What is less than half a unit of the column is nothing in it. *)
Lemma to_column_tiny d : (0 <= d)%Q → (d < 1 # 20000)%Q → to_column d = 0%Z.
Proof.
  destruct d as [n e]. unfold to_column, round_half_away, Qle, Qlt, Qmult. simpl. intros H0 H1.
  rewrite Pos.mul_1_r. rewrite Z.div_small; [lia|]. rewrite Z.abs_eq by lia. lia.
Qed.

Lemma started_since_run tenant since w :
  started_since tenant since w =
    (Ok (count_rows (visible tenant (λ row : WorkerRunRow, since <=? wr_created_at row)%Z)
           (t_runs (saved w))), w).
Proof.
  unfold started_since, read_committed, sql_select. run. unfold bind. simpl.
  rewrite <- count_rows_select. by destruct w.
Qed.

(** One reading of the clock. *)
Definition tick (s : RuntimeState) : RuntimeState := set_world (now_utc (rt_world s)).2 s.

Lemma in_world_now s : in_world now_utc s = (Ok (utc (rt_world s) (utc_reads (rt_world s))), tick s).
Proof. reflexivity. Qed.

Lemma in_world_started tenant since s :
  in_world (started_since tenant since) s =
    (Ok (count_rows (visible tenant (λ row : WorkerRunRow, since <=? wr_created_at row)%Z)
           (t_runs (saved (rt_world s)))), s).
Proof. unfold in_world. rewrite started_since_run. by destruct s. Qed.

(** What a tenant has started since midnight, and spent on a day. *)
Definition started_today (tenant : uuid) (now : datetime) (w : World) : nat :=
  count_rows (visible tenant (λ row : WorkerRunRow, day_start now <=? wr_created_at row)%Z)
    (t_runs (saved w)).

Definition spent (tenant : uuid) (day : Z) (g : SpendGuard) : decimal :=
  match g !! (tenant, day) with Some row => of_column (sr_spend row) | None => 0%Q end.

(** Only clocks were read. *)
Definition only_clocks (s s' : RuntimeState) : Prop :=
  db (rt_world s') = db (rt_world s) ∧ saved (rt_world s') = saved (rt_world s) ∧
  effects (rt_world s') = effects (rt_world s) ∧
  ids (rt_world s') = ids (rt_world s) ∧ ids_issued (rt_world s') = ids_issued (rt_world s) ∧
  rt_ledger s' = rt_ledger s ∧ rt_guard s' = rt_guard s.

#[export] Instance only_clocks_preorder : PreOrder only_clocks.
Proof. unfold only_clocks. split; [by intros ?|intros ? ? ?; naive_solver congruence]. Qed.

Section AllowanceFacts.
Context (plans : gmap pystr Plan) (guarded : bool) (rc : RunContext).

Lemma require_runs_exact s :
  let now := utc (rt_world s) (utc_reads (rt_world s)) in
  let allowed := match runs_per_day plans (rc_plan_id rc) with
                 | None => true
                 | Some l => (Z.of_nat (started_today (rc_tenant_id rc) now (rt_world s)) <? l)%Z
                 end in
  ∃ r s', _require_runs plans rc s = (r, s') ∧ only_clocks s s' ∧
    utc (rt_world s') = utc (rt_world s) ∧
    utc_reads (rt_world s') = S (utc_reads (rt_world s)) ∧
    if allowed then r = Ok tt else ∃ msg, r = Raise (Exn QuotaExceededError msg).
Proof.
  intros now allowed. unfold _require_runs, bind. rewrite in_world_now. fold now.
  subst allowed. destruct (runs_per_day plans _) as [l|].
  2: { eexists _, _. split; [done|]. by split_and!. }
  rewrite in_world_started. unfold started_today. cbn [saved rt_world tick set_world now_utc snd].
  match goal with |- context [(Z.of_nat ?n <? l)%Z] => destruct (Z.of_nat n <? l)%Z end;
    (eexists _, _; split; [done|]; split_and!; eauto; by split_and!).
Qed.

Lemma require_spend_exact s :
  let day := date_of (utc (rt_world s) (utc_reads (rt_world s))) in
  let allowed := if guarded then match spend_usd_per_day plans (rc_plan_id rc) with
                 | None => true
                 | Some l => negb (Qle_bool l (spent (rc_tenant_id rc) day (rt_guard s)))
                 end else true in
  ∃ r s', _require_spend plans guarded rc s = (r, s') ∧ only_clocks s s' ∧
    if allowed then r = Ok tt else ∃ msg, r = Raise (Exn QuotaExceededError msg).
Proof.
  intros day allowed. subst allowed. unfold _require_spend. destruct guarded; simpl.
  2: { by eexists _, _. }
  destruct (spend_usd_per_day plans _) as [l|]; [|by eexists _, _].
  unfold bind. rewrite in_world_now. fold day. unfold spend_today, gets, spent.
  cbn [rt_guard tick set_world].
  destruct (Qle_bool _ _); simpl; (eexists _, _; split; [done|]; split; [by split_and!|eauto]).
Qed.
End AllowanceFacts.

(** ** Properties *)

(** A run is let through exactly when its tenant started fewer runs since UTC midnight than
    its plan allows and, where a spend guard is wired, has spent less today than its
    plan allows; an unknown plan allows nothing, a plan without a figure anything, and
    asking changes only the clock. *)
Theorem allowance_exact plans guarded rc s :
  let w := rt_world s in
  let used := started_today (rc_tenant_id rc) (utc w (utc_reads w)) w in
  let day := date_of (utc w (S (utc_reads w))) in
  let required := require_allowance plans guarded rc s in
  only_clocks s required.2 ∧
  (required.1 = Ok tt ↔
     (∀ limit, runs_per_day plans (rc_plan_id rc) = Some limit → (Z.of_nat used < limit)%Z) ∧
     (guarded = true → ∀ limit, spend_usd_per_day plans (rc_plan_id rc) = Some limit →
        (spent (rc_tenant_id rc) day (rt_guard s) < limit)%Q)) ∧
  (required.1 ≠ Ok tt → ∃ msg, required.1 = Raise (Exn QuotaExceededError msg)) ∧
  (plans !! rc_plan_id rc = None → required.1 ≠ Ok tt).
Proof.
  intros w used day required.
  destruct (require_runs_exact plans rc s) as (r1 & s1 & Hr & Hc1 & Hu & Hn & H1).
  destruct (require_spend_exact plans guarded rc s1) as (r2 & s2 & Hs & Hc2 & H2).
  rewrite Hu, Hn in H2. fold w day in H2. fold w in H1. fold used in H1.
  assert (rt_guard s1 = rt_guard s) as E by apply Hc1. rewrite E in H2.
  subst required. unfold require_allowance, bind. rewrite Hr.
  assert (∀ l, plans !! rc_plan_id rc = None → runs_per_day plans (rc_plan_id rc) = Some l → l = 0%Z)
    as Hzero by (intros l Hp; unfold runs_per_day; rewrite Hp; congruence).
  destruct (runs_per_day plans (rc_plan_id rc)) as [l|] eqn:Hl.
  2: assert (plans !! rc_plan_id rc ≠ None) as Hsome
       by (intros Hp; unfold runs_per_day in Hl; by rewrite Hp in Hl).
  1: destruct (Z.of_nat used <? l)%Z eqn:Hlt.
  2: { destruct H1 as [msg ->]. simpl. split_and!; [done| |eauto|done].
       split; [done|]. intros [Hall _]. specialize (Hall l eq_refl). to_prop. lia. }
  all: subst r1; rewrite Hs; simpl; (split; [by etrans|]).
  all: destruct guarded; [destruct (spend_usd_per_day plans _) as [sl|]|].
  all: try destruct (Qle_bool _ _) eqn:Hq; simpl in H2; try destruct H2 as [msg ->]; try subst r2.
  all: (split; [split; [try done; intros _; split|try done]|split; [eauto; done|]]).
  all: try (intros ? ? [= <-]; apply Qnot_le_lt; intros ?%Qle_bool_iff; congruence).
  all: try (intros ? [= <-]; to_prop; lia).
  all: try done.
  all: try (intros Hp; specialize (Hzero l Hp eq_refl); to_prop; lia).
  all: try (intros [_ Hall]; specialize (Hall eq_refl sl eq_refl); apply Qle_bool_iff in Hq;
            by apply Qlt_not_le in Hall).
Qed.

(** ** The running total of a day *)

Section SpendGuard.
Context (decimal_of : pyfloat → decimal).

(** The calls of a day, recorded one after the other. *)
Fixpoint record_all (calls : list (RunContext * ModelRequest * ModelUsage)) : M RuntimeState unit :=
  match calls with
  | [] => ret tt
  | (rc, q, u) :: rest => spend_guard_record decimal_of rc q u ;;; record_all rest
  end.

(** What one call costs [tenant]: nothing when it is another's, or free. *)
Definition cost_for (tenant : uuid) (call : RunContext * ModelRequest * ModelUsage) : decimal :=
  let '(rc, _, u) := call in
  if bool_decide (rc_tenant_id rc = tenant) && negb (fge float_zero (mu_cost_usd u))
  then decimal_of (mu_cost_usd u) else 0%Q.

Definition units_at (s : RuntimeState) (tenant : uuid) (day : Z) : Z :=
  match rt_guard s !! (tenant, day) with Some row => sr_spend row | None => 0%Z end.

Definition sum_units (tenant : uuid) (calls : list (RunContext * ModelRequest * ModelUsage)) : Z :=
  foldr (λ c acc, to_column (cost_for tenant c) + acc)%Z 0%Z calls.
Definition sum_costs (tenant : uuid) (calls : list (RunContext * ModelRequest * ModelUsage)) : Q :=
  foldr (λ c acc, cost_for tenant c + acc)%Q 0%Q calls.

Definition all_on (day : Z) (s : RuntimeState) : Prop := ∀ n, date_of (utc (rt_world s) n) = day.

Lemma record_one rc q u s s' tenant day :
  all_on day s → spend_guard_record decimal_of rc q u s = (Ok tt, s') →
  all_on day s' ∧
  units_at s' tenant day = (to_column (cost_for tenant (rc, q, u)) + units_at s tenant day)%Z.
Proof.
  intros Hd. unfold spend_guard_record, cost_for. destruct (fge float_zero (mu_cost_usd u)) eqn:Hc.
  { unfold ret. intros [= <-]. split; [done|]. rewrite andb_false_r. done. }
  unfold bind at 1. rewrite in_world_now. unfold bind at 1. rewrite in_world_now.
  assert (all_on day (tick (tick s))) as Hd' by exact Hd. rewrite (Hd (utc_reads (rt_world s))).
  assert (rt_guard (tick (tick s)) = rt_guard s) as Hg by done.
  unfold units_at at 2. rewrite <- Hg. generalize dependent (tick (tick s)).
  generalize (utc (rt_world (tick s)) (utc_reads (rt_world (tick s)))). intros now s1 Hd1 _.
  unfold upsert_spend, bind, get_state. destruct (fits_column (to_column _)); [|done]. simpl.
  destruct (rt_guard s1 !! (rc_tenant_id rc, day)) as [row|] eqn:Hrow; simpl;
    (destruct (fits_column _); [|done]); intros [= <-]; (split; [exact Hd1|]); unfold units_at; simpl;
    (destruct (decide (rc_tenant_id rc = tenant)) as [<-|Hne];
      [rewrite lookup_insert_eq, bool_decide_eq_true_2, ?Hrow by done; simpl; lia
      |rewrite lookup_insert_ne, bool_decide_eq_false_2 by congruence; done]).
Qed.

Lemma record_all_units calls s s' tenant day :
  all_on day s → record_all calls s = (Ok tt, s') →
  all_on day s' ∧ units_at s' tenant day = (sum_units tenant calls + units_at s tenant day)%Z.
Proof.
  revert s. induction calls as [|[[rc q] u] calls IH]; intros s Hd; cbn [record_all].
  - unfold ret. intros [= <-]. by split.
  - unfold bind. destruct (spend_guard_record decimal_of rc q u s) as [[[]|e] s1] eqn:E; [|done].
    destruct (record_one _ _ _ _ _ tenant day Hd E) as [Hd1 Hu]. intros Hrest.
    destruct (IH s1 Hd1 Hrest) as [Hd' Hu']. split; [done|].
    rewrite Hu', Hu. unfold sum_units. cbn [foldr]. lia.
Qed.

Lemma sums_close tenant calls :
  (Qabs (of_column (sum_units tenant calls) - sum_costs tenant calls)
     <= inject_Z (Z.of_nat (length calls)) * (1 # 20000))%Q.
Proof.
  induction calls as [|c calls IH]; [done|]. unfold sum_units, sum_costs in *. cbn [foldr length].
  set (x := to_column (cost_for tenant c)). set (y := foldr _ 0%Z calls) in *.
  set (v := foldr _ 0%Q calls) in *.
  assert (of_column (x + y) - (cost_for tenant c + v) ==
          (of_column x - cost_for tenant c) + (of_column y - v))%Q as ->.
  { assert (of_column (x + y) == of_column x + of_column y)%Q as ->
      by (unfold of_column, Qeq, Qplus; simpl; lia). ring. }
  eapply Qle_trans; [apply Qabs_triangle|]. rewrite Nat2Z.inj_succ. unfold Z.succ.
  rewrite inject_Z_plus, Qmult_plus_distr_l, Qplus_comm.
  apply Qplus_le_compat; [done|]. apply (Qle_trans _ (1 # 20000)); [apply to_column_error|done].
Qed.
End SpendGuard.

(** The recorded spend of a tenant's day differs from the sum of its calls' costs by at most
    half a ten-thousandth of a dollar for each call, and no call touches another
    tenant's total. *)
Theorem spend_guard_total decimal_of calls s s' tenant day :
  all_on day s → record_all decimal_of calls s = (Ok tt, s') →
  units_at s' tenant day = (sum_units decimal_of tenant calls + units_at s tenant day)%Z ∧
  (Qabs (of_column (units_at s' tenant day - units_at s tenant day) - sum_costs decimal_of tenant calls)
     <= inject_Z (Z.of_nat (length calls)) * (1 # 20000))%Q.
Proof.
  intros Hd Hr. destruct (record_all_units decimal_of calls s s' tenant day Hd Hr) as [_ Hu].
  split; [done|]. rewrite Hu, Z.add_simpl_r. apply sums_close.
Qed.

(** Calls that cost less than half a unit of the column each are never counted,
    however many they are: no ceiling on the day's spend stops them. *)
Theorem tiny_calls_are_not_counted decimal_of calls s s' tenant day :
  all_on day s → record_all decimal_of calls s = (Ok tt, s') →
  (∀ c, c ∈ calls → 0 <= cost_for decimal_of tenant c ∧ cost_for decimal_of tenant c < 1 # 20000)%Q →
  (spent tenant day (rt_guard s') == spent tenant day (rt_guard s))%Q.
Proof.
  intros Hd Hr Ht. destruct (record_all_units decimal_of calls s s' tenant day Hd Hr) as [_ Hu].
  assert (sum_units decimal_of tenant calls = 0%Z) as E.
  { clear Hr Hu. induction calls as [|c calls IH]; [done|]. unfold sum_units in *. simpl.
    rewrite IH by (intros c' Hc'; apply Ht; by right).
    destruct (Ht c) as [H0 H1]; [left|]. by rewrite to_column_tiny. }
  rewrite E in Hu. unfold units_at in Hu. unfold spent, of_column.
  destruct (rt_guard s !! (tenant, day)), (rt_guard s' !! (tenant, day)); unfold Qeq; simpl in *; lia.
Qed.

(** ** Concrete instances *)

(** A process whose clock stands at noon of day 0. *)
Definition example_state : RuntimeState :=
  {| rt_world := MkWorld empty_db empty_db (seconds 43200) (λ _, seconds 43200) 0
                   (λ n, N.of_nat n) 0 [];
     rt_ledger := ∅; rt_guard := ∅ |}.

(** A dollar per unit of the float's mantissa at exponent 0: enough for whole dollars. *)
Definition example_decimal (x : pyfloat) : decimal :=
  match x with SpecFloat.S754_finite false m _ => (Zpos m # 4503599627370496)%Q | _ => 0%Q end.

Lemma spend_guard_total_witness :
  let calls := [(example_run_context 10 7, example_request, with_cost (float_of_int 1) example_usage);
                (example_run_context 11 7, example_request, with_cost (float_of_int 1) example_usage)] in
  units_at (record_all example_decimal calls example_state).2 1 0 = 20000%Z.
Proof.
  intros calls. pose proof (spend_guard_total example_decimal calls example_state
    (record_all example_decimal calls example_state).2 1 0 (λ _, eq_refl) eq_refl) as [H _].
  rewrite H. vm_compute. reflexivity.
Defined.

(** A plan no catalogue has is refused. *)
Lemma allowance_example :
  (require_allowance DEFAULT_PLANS true (example_run_context 10 7) example_state).1 ≠ Ok tt.
Proof. by apply allowance_exact. Qed.
