(* ===== verification/RuntimeCopy.v ===== *)
(** * The words the runtime says

    [dw_agent_runtime/model/copy.py]: the versioned templates and what is put in
    them.  Reading the YAML file is left out. *)

From S2P Require Import Prelude Errors Kernel Domain Contracts Prompts.
Local Open Scope pystr_scope.

(** ** Data *)

Record RuntimeCopy := {
  rcp_schema_version : pystr;
  rcp_copy_id : pystr;
  rcp_version : pystr;
  rcp_description : pystr;
  rcp_tool_description_template : pystr;
  rcp_approval_reason_template : pystr;
  rcp_tool_rejected_template : pystr;
  rcp_rejection_reason_template : pystr;
  rcp_tool_failed_template : pystr;
  rcp_tool_unavailable_template : pystr;
  rcp_approval_deferred_template : option pystr;
  rcp_context_summary_prompt : option pystr;
  rcp_context_summary_frame : option pystr;
  rcp_context_summary_update_prompt : option pystr;
  rcp_recalled_memory_frame : option pystr;
  rcp_mock_reply : pystr }.

Section Says.
(** [str.format] of a template with other than plain fields. *)
Context (format_other : pystr → gmap pystr (list N) → res (list N)) (c : RuntimeCopy).

(** [template.format], with these values by name. *)
Definition say (template : pystr) (values : list (pystr * pystr)) : res pystr :=
  match format_template format_other template (list_to_map ((λ v, (v.1, chars v.2)) <$> values)) with
  | Ok text => Ok (PyStr text)
  | Raise e => Raise e
  end.

(** A template a copy may be too old to have. *)
Definition say_optional (template : option pystr) (missing : pystr)
    (values : list (pystr * pystr)) : res pystr :=
  match template with
  | None => Raise (Exn ConfigError ("runtime copy " +++ rcp_version c +++ missing))
  | Some t => say t values
  end.

(** ** Operations *)

Definition tool_description (summary when_to_use when_not_to_use returns : pystr) : res pystr :=
  say (rcp_tool_description_template c)
    [("summary", summary); ("when_to_use", when_to_use); ("when_not_to_use", when_not_to_use);
     ("returns", returns)].

Definition recalled_memory (facts : pystr) : res pystr :=
  say_optional (rcp_recalled_memory_frame c)
    " has no recalled_memory_frame; load runtime@1.5.0 or later" [("facts", facts)].

Definition context_summary (summary : pystr) : res pystr :=
  say_optional (rcp_context_summary_frame c)
    " has no context_summary_frame; load runtime@1.4.0 or later" [("summary", summary)].

Definition approval_reason (tool : pystr) : res pystr :=
  say (rcp_approval_reason_template c) [("tool", tool)].

Definition tool_rejected (tool comment : pystr) : res pystr :=
  match (if is_blank comment then Ok "" else say (rcp_rejection_reason_template c) [("comment", comment)]) with
  | Raise e => Raise e
  | Ok reason => say (rcp_tool_rejected_template c) [("tool", tool); ("reason", reason)]
  end.

Definition tool_failed (tool code message : pystr) : res pystr :=
  say (rcp_tool_failed_template c) [("tool", tool); ("code", code); ("message", message)].

Definition tool_unavailable (tool code : pystr) : res pystr :=
  say (rcp_tool_unavailable_template c) [("tool", tool); ("code", code)].

Definition approval_deferred (tool pending : pystr) : res pystr :=
  say_optional (rcp_approval_deferred_template c) " has no approval_deferred_template"
    [("tool", tool); ("pending", pending)].
End Says.
