(* ===== verification/Compaction.v ===== *)
(** * Context compaction

    [dw_agent_runtime/adapters/context_compaction.py]: older turns of a long run
    are replaced by a summary, in chunks that fit the summary route, recorded
    before anything is removed.  What the parent class of LangChain decides (when
    to compact, where to cut, what a token is) is a record of functions; the
    summary model is a computation. *)

From S2P Require Import Prelude Errors Kernel Domain Contracts Store ModelBudget Prompts RuntimeCopy ModelGateway Allowance.
Local Open Scope prog_scope.
Local Open Scope pystr_scope.

(** ** Messages *)

(** [HumanMessage], [AIMessage] with the [id]s of its tool calls, [ToolMessage]
    with its [tool_call_id], and the classes the code does not tell apart. *)
Inductive MessageKind :=
  | HumanMessage
  | AIMessage (tool_calls : list (option pystr))
  | ToolMessage (tool_call_id : pystr)
  | MessageOf (class : pystr).

Record Message := {
  ms_kind : MessageKind;
  ms_id : option pystr;
  ms_content : json;
  ms_additional_kwargs : gmap pystr json }.

Definition type_name (m : Message) : pystr :=
  match ms_kind m with
  | HumanMessage => "HumanMessage" | AIMessage _ => "AIMessage"
  | ToolMessage _ => "ToolMessage" | MessageOf class => class
  end.

(** One entry of the update's [messages]. *)
Inductive MessageUpdate := RemoveAllMessages | PutMessage (m : Message).

Definition _is_summary (m : Message) : bool :=
  match ms_additional_kwargs m !! "dw_system_generated" with
  | Some v => json_truthy v
  | None => false
  end.

(** [str(message.content)]; [str_of] is [str()] of a value that is not text. *)
Definition content_str (str_of : json → pystr) (m : Message) : pystr :=
  match ms_content m with JStr s => s | v => str_of v end.

Definition _anchor_and_rest (str_of : json → pystr) (removed : list Message)
    : pystr * list Message :=
  (match last (filter _is_summary removed) with Some m => content_str str_of m | None => "" end,
   filter (λ m, negb (_is_summary m)) removed).

(** Whether a message is the result of one of these calls. *)
Definition answers_call (calls : list (option pystr)) (m : Message) : bool :=
  match ms_kind m with
  | ToolMessage id => bool_decide (Some id ∈ calls)
  | _ => false
  end.

(** The inner loop: the results that follow, and what is left. *)
Fixpoint followers (calls : list (option pystr)) (l : list Message)
    : list Message * list Message :=
  match l with
  | [] => ([], [])
  | m :: r => if answers_call calls m
              then let '(f, rest) := followers calls r in (m :: f, rest)
              else ([], l)
  end.

(** The calls a message waits for; none when it is not an [AIMessage] with calls. *)
Definition calls_of_message (m : Message) : list (option pystr) :=
  match ms_kind m with AIMessage calls => calls | _ => [] end.

(** [_units]: each turn takes a message at least, so one turn per message is enough. *)
Fixpoint units_from (turns : nat) (l : list Message) : list (list Message) :=
  match turns, l with
  | S turns, head :: r =>
      let '(f, rest) := followers (calls_of_message head) r in
      (head :: f) :: units_from turns rest
  | _, _ => []
  end.

Definition _units (messages : list Message) : list (list Message) :=
  units_from (length messages) messages.

Definition _digest (sha256 : pystr → pystr) (dumps : json → pystr) (messages : list Message)
    : pystr :=
  sha256 (dumps (JList ((λ m, JList [JStr (type_name m); from_option JStr JNull (ms_id m);
                                     ms_content m]) <$> messages))).

Definition _input_budget (route : ModelRoute) : res Z :=
  match mr_max_input_tokens route with
  | None => Raise (Exn ConfigError "the summary model route declares no max_input_tokens")
  | Some n => Ok n
  end.

(** ** The middleware *)

Definition COMPACTED_ACTION : pystr := "run.context_compacted".

(** What the parent class does. *)
Record Library := {
  ensure_message_ids : list Message → list Message;
  should_summarize : list Message → Z → bool;
  determine_cutoff_index : list Message → Z;
  partition_messages : list Message → Z → list Message * list Message;
  token_counter : list Message → Z;
  get_buffer_string : list Message → pystr }.

(** What the summary model answers: [response.text], and its usage. *)
Record SummaryResponse := {
  sr_text : pystr;
  sr_input_tokens : option Z;
  sr_output_tokens : option Z }.

(** The middleware as its constructor leaves it. *)
Record Compactor := {
  cm_copy : RuntimeCopy;
  cm_summary_prompt : pystr;
  cm_update_prompt : pystr;
  cm_profile_id : pystr;
  cm_summary_profile_id : pystr }.

Section Compaction.
Context (lib : Library) (profiles : Overlay.overlay pystr ModelProfile).
Context (format_other : pystr → gmap pystr (list N) → res (list N)) (str_of : json → pystr).
Context (sha256 : pystr → pystr) (dumps : json → pystr).

(** The constructor: a copy without its three texts, or a summary route without an
    input budget, is refused. *)
Definition make_compactor (copy : RuntimeCopy) (profile_id summary_profile_id : pystr)
    : res Compactor :=
  match rcp_context_summary_prompt copy, rcp_context_summary_frame copy,
        rcp_context_summary_update_prompt copy with
  | Some prompt, Some _, Some update =>
      match chat_route profiles summary_profile_id None with
      | Raise e => Raise e
      | Ok route =>
          match _input_budget route with
          | Raise e => Raise e
          | Ok _ => Ok {| cm_copy := copy; cm_summary_prompt := prompt; cm_update_prompt := update;
                          cm_profile_id := profile_id; cm_summary_profile_id := summary_profile_id |}
          end
      end
  | _, _, _ =>
      Raise (Exn ConfigError ("runtime copy " +++ rcp_version copy
               +++ " has no context summary text; load runtime@1.6.0 or later"))
  end.

Context (cm : Compactor) (summary_model : pystr → M RuntimeState SummaryResponse).

Definition human (text : pystr) : Message :=
  {| ms_kind := HumanMessage; ms_id := None; ms_content := JStr text; ms_additional_kwargs := ∅ |}.

Definition _tokens (text : pystr) : Z := token_counter lib [human text].

Definition _unit_tokens (unit : list Message) : Z :=
  _tokens (get_buffer_string lib unit +++ PyStr [10%N]).

Definition _render (anchor messages : pystr) : res pystr :=
  match (if py_truthy anchor
         then say format_other (cm_update_prompt cm) [("summary", anchor); ("messages", messages)]
         else say format_other (cm_summary_prompt cm) [("messages", messages)]) with
  | Ok text => Ok (py_rstrip text)
  | Raise e => Raise e
  end.

Definition _summarise (anchor : pystr) (chunk : list Message)
    : M RuntimeState (pystr * Z * Z) :=
  let! prompt := lift_res (_render anchor (get_buffer_string lib chunk)) in
  let! response := summary_model prompt in
  ret (py_strip (sr_text response), default 0%Z (sr_input_tokens response),
       default 0%Z (sr_output_tokens response)).

Definition _build_new_messages (summary : pystr) : res (list Message) :=
  match context_summary format_other (cm_copy cm) summary with
  | Raise e => Raise e
  | Ok text =>
      Ok [{| ms_kind := HumanMessage; ms_id := None; ms_content := JStr text;
             ms_additional_kwargs := {[ "lc_source" := JStr "summarization";
                                        "dw_system_generated" := JBool true ]} |}]
  end.

Definition compaction_event (rc : RunContext) (removed preserved : list Message)
    (summary : pystr) (calls : Z) (id : uuid) (now : datetime) : AuditEvent :=
  {| ae_id := id; ae_tenant_id := rc_tenant_id rc; ae_workspace_id := rc_workspace_id rc;
     ae_actor_id := rc_actor_id rc; ae_action := COMPACTED_ACTION;
     ae_resource_type := "worker_run"; ae_resource_id := uuid_str (rc_run_id rc);
     ae_occurred_at := now; ae_run_id := Some (rc_run_id rc); ae_policy_decision := None;
     ae_trace_id := Some (rc_trace_id rc);
     ae_details := {[ "removed_messages" := JInt (Z.of_nat (length removed));
                      "kept_messages" := JInt (Z.of_nat (length preserved));
                      "removed_digest" := JStr (_digest sha256 dumps removed);
                      "summary_digest" := JStr (sha256 summary);
                      "summary_chars" := JInt (Z.of_nat (py_len summary));
                      "summary_calls" := JInt calls;
                      "copy_version" := JStr (rcp_version (cm_copy cm)) ]} |}.

Definition _record (rc : RunContext) (removed preserved : list Message) (summary : pystr)
    (calls : Z) : Prog unit :=
  let! id := new_uuid in
  let! now := now_utc in
  let event := compaction_event rc removed preserved summary calls id now in
  unit_of_work (audit_append (rc_tenant_id rc) event ;;; uow_commit).

(** [while units and used + tokens(units[0]) <= budget]: the chunk, and what is left. *)
Fixpoint take_chunk (budget used : Z) (units : list (list Message))
    : list Message * list (list Message) :=
  match units with
  | [] => ([], [])
  | unit :: rest =>
      if (used + _unit_tokens unit <=? budget)%Z
      then let '(chunk, later) := take_chunk budget (used + _unit_tokens unit) rest in
           (unit ++ chunk, later)
      else ([], units)
  end.

(** [while units: ...]: the last summary and the number of calls; [None] when the
    history is left intact.  A turn takes a unit at least. *)
Fixpoint fold_units (turns : nat) (rc : RunContext) (profile : ModelProfile) (route : ModelRoute)
    (budget : Z) (anchor : pystr) (units : list (list Message)) (calls : Z)
    : M RuntimeState (option (pystr * Z)) :=
  match units, turns with
  | [], _ => ret (Some (anchor, calls))
  | _, O => raise AssertionError "out of turns"
  | _, S turns =>
      let! frame := lift_res (_render anchor "") in
      let '(chunk, later) := take_chunk budget (_tokens frame) units in
      if bool_decide (chunk = []) then ret None
      else
        on_ledger (ledger_check (rc_run_id rc) (mp_budgets profile)) ;;;
        let! answer := outcome_of (_summarise anchor chunk) in
        match answer with
        | Raise e => if is_cancelled e then reraise e else ret None
        | Ok (summary, input_tokens, output_tokens) =>
            let! _ := on_ledger (ledger_record (rc_run_id rc) input_tokens output_tokens
                                   (route_cost route input_tokens output_tokens)) in
            fold_units turns rc profile route budget summary later (calls + 1)
        end
  end.

Definition abefore_model (rc : RunContext) (state_messages : list Message)
    : M RuntimeState (option (list MessageUpdate)) :=
  let messages := ensure_message_ids lib state_messages in
  if negb (should_summarize lib messages (token_counter lib messages)) then ret None
  else
    let cutoff := determine_cutoff_index lib messages in
    if (cutoff <=? 0)%Z then ret None
    else
      let '(removed, preserved) := partition_messages lib messages cutoff in
      let! profile := lift_res (profiles_resolve profiles (cm_profile_id cm) (Some (rc_tenant_id rc))) in
      let! route := lift_res (chat_route profiles (cm_summary_profile_id cm) (Some (rc_tenant_id rc))) in
      let! budget := lift_res (_input_budget route) in
      let '(anchor, pending) := _anchor_and_rest str_of removed in
      if bool_decide (pending = []) then ret None
      else
        let units := _units pending in
        let! least := lift_res (say format_other (cm_update_prompt cm) [("summary", ""); ("messages", "")]) in
        let room := (budget - _tokens least)%Z in
        if existsb (λ u, room <? _unit_tokens u)%Z units then ret None
        else
          let! folded := fold_units (length units) rc profile route budget anchor units 0 in
          match folded with
          | None => ret None
          | Some (summary, calls) =>
              let! recorded := outcome_of (in_world (_record rc removed preserved summary calls)) in
              match recorded with
              | Raise e => if is_cancelled e then reraise e else ret None
              | Ok _ =>
                  let! new := lift_res (_build_new_messages summary) in
                  ret (Some (RemoveAllMessages :: (PutMessage <$> new ++ preserved)))
              end
          end.

Definition before_model : M RuntimeState (option (list MessageUpdate)) :=
  raise (OtherException "NotImplementedError")
    "platform context compaction is async-only; invoke the agent with ainvoke/astream".
End Compaction.
