(* ===== verification/CompactionLaws.v ===== *)
(** * What compaction may do

    The theorems on [Compaction]: chunks keep a call with its results, the summary
    model is asked only what fits its route and only under the run's ceiling, its
    answers are charged, nothing is removed without a record, and a compaction with
    room goes through. *)

From S2P Require Import Prelude Errors Kernel Domain Contracts Store ModelBudget Prompts RuntimeCopy ModelGateway Allowance Compaction.
Local Open Scope prog_scope.
Local Open Scope pystr_scope.

(** ** Units *)

Lemma followers_split calls l f rest :
  followers calls l = (f, rest) →
  l = f ++ rest ∧ Forall (λ m, answers_call calls m = true) f ∧
  ∀ m r, rest = m :: r → answers_call calls m = false.
Proof.
  revert f rest. induction l as [|m l IH]; simpl; intros f rest.
  - intros [= <- <-]. split_and!; [done|constructor|done].
  - destruct (answers_call calls m) eqn:E.
    + destruct (followers calls l) as [f' rest'] eqn:Ef. intros [= <- <-].
      destruct (IH _ _ eq_refl) as (-> & Hf & Hr). split_and!; [done|by constructor|done].
    + intros [= <- <-]. split_and!; [done|constructor|]. by intros ? ? [= <- _].
Qed.

Lemma units_from_cons n h r f rest :
  followers (calls_of_message h) r = (f, rest) →
  units_from (S n) (h :: r) = (h :: f) :: units_from n rest.
Proof. simpl. by intros ->. Qed.

Lemma units_from_spec n l :
  length l ≤ n →
  mjoin (units_from n l) = l ∧
  (∀ u, u ∈ units_from n l → ∃ h f, u = h :: f ∧
     Forall (λ m, answers_call (calls_of_message h) m = true) f) ∧
  (∀ pre h f m v post, units_from n l = pre ++ (h :: f) :: (m :: v) :: post →
     answers_call (calls_of_message h) m = false).
Proof.
  revert l. induction n as [|n IH]; intros [|h r] Hn; simpl in Hn; try lia.
  1,2: split_and!; [done|by intros ? ?%elem_of_nil|by intros [] * [=]].
  destruct (followers (calls_of_message h) r) as [f rest] eqn:Ef.
  rewrite (units_from_cons _ _ _ _ _ Ef). apply followers_split in Ef as (-> & Hf & Hr).
  rewrite length_app in Hn. destruct (IH rest) as (Hj & Hu & Ha); [lia|]. split_and!.
  - simpl. by rewrite Hj.
  - intros u [->|Hin]%elem_of_cons; [by exists h, f|auto].
  - intros [|u pre] h' f' m v post; simpl.
    + intros [= <- <- E]. destruct rest as [|m' rest]; [by destruct n|].
      apply (f_equal mjoin) in E. rewrite Hj in E. injection E as <- E. by apply (Hr m' rest).
    + intros [= <- E]. by apply (Ha pre h' f' m v post).
Qed.

Lemma units_join l : mjoin (_units l) = l.
Proof. by apply units_from_spec. Qed.

Lemma units_nonempty l : [] ∉ _units l.
Proof. intros H. apply units_from_spec in H as (h & f & ? & _); done. Qed.

Lemma units_length l : length (_units l) ≤ length l.
Proof.
  pose proof (units_join l) as E. pose proof (units_nonempty l) as Hn. revert Hn E.
  generalize (_units l). intros us Hn <-. induction us as [|u us IH]; [done|].
  destruct u as [|h f]; [by destruct Hn; left|]. simpl. rewrite length_app.
  assert (length us ≤ length (mjoin us)); [|lia]. apply IH. intros H. apply Hn. by right.
Qed.

(** The units of a history are the history, in order, in parts that are each a message with
    the results of its calls that follow, and no part starts with a result of a call of
    the part before. *)
Theorem units_keep_calls_whole (messages : list Message) :
  mjoin (_units messages) = messages ∧
  (∀ u, u ∈ _units messages → ∃ h f, u = h :: f ∧
     Forall (λ m, answers_call (calls_of_message h) m = true) f) ∧
  (∀ pre h f m v post, _units messages = pre ++ (h :: f) :: (m :: v) :: post →
     answers_call (calls_of_message h) m = false).
Proof. by apply units_from_spec. Qed.

(** ** Chunks and calls *)

Section Laws.
Context (lib : Library) (profiles : Overlay.overlay pystr ModelProfile).
Context (format_other : pystr → gmap pystr (list N) → res (list N)) (str_of : json → pystr).
Context (sha256 : pystr → pystr) (dumps : json → pystr) (cm : Compactor).

Abbreviation render := (_render format_other cm).
Abbreviation fold_with := (fold_units lib format_other cm).
Abbreviation compacts := (abefore_model lib profiles format_other str_of sha256 dumps cm).

(** The tokens of a list of units, each counted on its own. *)
Definition units_tokens (us : list (list Message)) : Z :=
  foldr (λ u acc, (_unit_tokens lib u + acc)%Z) 0%Z us.

Lemma take_chunk_split budget used us chunk later :
  take_chunk lib budget used us = (chunk, later) →
  ∃ taken, us = taken ++ later ∧ chunk = mjoin taken ∧
    (taken ≠ [] → (used + units_tokens taken <= budget)%Z).
Proof.
  revert used chunk later. induction us as [|u us IH]; simpl; intros used chunk later.
  - intros [= <- <-]. by exists [].
  - destruct (Z.leb_spec (used + _unit_tokens lib u) budget) as [Hle|Hgt].
    + destruct (take_chunk lib budget (used + _unit_tokens lib u) us) as [c l] eqn:E.
      intros [= <- <-]. destruct (IH _ _ _ E) as (taken & -> & -> & Ht).
      exists (u :: taken). split_and!; [done|done|]. intros _. cbn [units_tokens foldr].
      destruct taken as [|x taken]; [simpl; lia|]. specialize (Ht ltac:(done)).
      unfold units_tokens in Ht. lia.
    + intros [= <- <-]. by exists [].
Qed.

(** A prompt made of whole units, in their order, that fits the route. *)
Definition fits (budget : Z) (units : list (list Message)) (prompt : pystr) : Prop :=
  ∃ anchor frame pre taken post, units = pre ++ taken ++ post ∧ taken ≠ [] ∧
    render anchor "" = Ok frame ∧
    (_tokens lib frame + units_tokens taken <= budget)%Z ∧
    render anchor (get_buffer_string lib (mjoin taken)) = Ok prompt.

(** What a compaction works on: what it removes, the units of it, the route. *)
Record plan (rc : RunContext) (state_messages removed preserved : list Message)
    (profile : ModelProfile) (route : ModelRoute) (budget : Z) (anchor : pystr)
    (units : list (list Message)) : Prop := {
  pl_partition : partition_messages lib (ensure_message_ids lib state_messages)
    (determine_cutoff_index lib (ensure_message_ids lib state_messages)) = (removed, preserved);
  pl_profile : profiles_resolve profiles (cm_profile_id cm) (Some (rc_tenant_id rc)) = Ok profile;
  pl_route : chat_route profiles (cm_summary_profile_id cm) (Some (rc_tenant_id rc)) = Ok route;
  pl_budget : _input_budget route = Ok budget;
  pl_anchor : (_anchor_and_rest str_of removed).1 = anchor;
  pl_units : _units (_anchor_and_rest str_of removed).2 = units }.

(** What the summary model may be asked, and in which states. *)
Definition may_ask (rc : RunContext) (state_messages : list Message) (prompt : pystr)
    (s : RuntimeState) : Prop :=
  ∃ removed preserved profile route budget anchor units,
    plan rc state_messages removed preserved profile route budget anchor units ∧
    fits budget units prompt ∧
    within (mp_budgets profile) (ledger s !! rc_run_id rc) = true.

Lemma fold_units_agree m1 m2 rc profile route budget (whole : list (list Message)) :
  (∀ p s, fits budget whole p → within (mp_budgets profile) (ledger s !! rc_run_id rc) = true →
     m1 p s = m2 p s) →
  ∀ turns units pre anchor calls s, whole = pre ++ units →
  fold_with m1 turns rc profile route budget anchor units calls s =
  fold_with m2 turns rc profile route budget anchor units calls s.
Proof.
  intros Hm turns. induction turns as [|turns IH]; intros units pre anchor calls s Hw;
    destruct units as [|u units]; try done.
  cbn [fold_units]. unfold bind, lift_res, outcome_of.
  destruct (render anchor "") as [frame|e] eqn:Ef; [|done].
  destruct (take_chunk lib budget (_tokens lib frame) (u :: units)) as [chunk later] eqn:Et.
  apply take_chunk_split in Et as (taken & Hu & -> & Ht). rewrite Hu in Hw.
  case_bool_decide as Hc; [done|].
  assert (taken ≠ []) as Hne by (by intros ->).
  rewrite !ledger_check_run.
  destruct (within (mp_budgets profile) (ledger s !! rc_run_id rc)) eqn:Hin; [|done].
  assert (_summarise lib format_other cm m1 anchor (mjoin taken) s =
          _summarise lib format_other cm m2 anchor (mjoin taken) s) as E.
  { unfold _summarise, bind, lift_res.
    destruct (render anchor (get_buffer_string lib (mjoin taken))) as [p|e] eqn:Ep; [|done].
    rewrite Hm; [done| |done]. exists anchor, frame, pre, taken, later. by auto 6. }
  rewrite E.
  destruct (_summarise lib format_other cm m2 anchor (mjoin taken) s) as [[[[sm i] o]|e] s1]; [|done].
  rewrite ledger_record_run. cbv zeta.
  apply (IH later (pre ++ taken)). by rewrite Hw, app_assoc.
Qed.

(** What follows the calls: the record, then the update. *)
Definition conclude (rc : RunContext) (removed preserved : list Message)
    (folded : option (pystr * Z)) : M RuntimeState (option (list MessageUpdate)) :=
  match folded with
  | None => ret None
  | Some (summary, calls) =>
      let! recorded := outcome_of (in_world (_record sha256 dumps cm rc removed preserved summary calls)) in
      match recorded with
      | Raise e => if is_cancelled e then reraise e else ret None
      | Ok _ =>
          let! new := lift_res (_build_new_messages format_other cm summary) in
          ret (Some (RemoveAllMessages :: (PutMessage <$> new ++ preserved)))
      end
  end.

(** Either nothing is done, whatever the model, or there is a plan and it is carried out. *)
Lemma compacts_cases rc state_messages :
  (∃ r, (∀ u, r ≠ Ok (Some u)) ∧ ∀ m s, compacts m rc state_messages s = (r, s)) ∨
  (∃ removed preserved profile route budget anchor units,
     plan rc state_messages removed preserved profile route budget anchor units ∧
     ∀ m s, compacts m rc state_messages s =
       bind (fold_with m (length units) rc profile route budget anchor units 0)
            (conclude rc removed preserved) s).
Proof.
  unfold abefore_model, bind, lift_res. set (ms := ensure_message_ids lib state_messages).
  assert (∀ r : res (option (list MessageUpdate)), (∀ u, r ≠ Ok (Some u)) →
    ∃ r', (∀ u, r' ≠ Ok (Some u)) ∧ ∀ (m : pystr → M RuntimeState SummaryResponse) (s : RuntimeState),
      (r, s) = (r', s)) as Hnone by eauto.
  destruct (negb _); [left; by apply (Hnone (Ok None))|].
  destruct (_ <=? 0)%Z; [left; by apply (Hnone (Ok None))|].
  destruct (partition_messages lib ms _) as [removed preserved] eqn:Epart.
  destruct (profiles_resolve _ _ _) as [profile|e] eqn:Eprof; [|left; by apply (Hnone (Raise e))].
  destruct (chat_route _ _ _) as [route|e] eqn:Eroute; [|left; by apply (Hnone (Raise e))].
  destruct (_input_budget route) as [budget|e] eqn:Ebud; [|left; by apply (Hnone (Raise e))].
  destruct (_anchor_and_rest str_of removed) as [anchor pending] eqn:Ea.
  case_bool_decide; [left; by apply (Hnone (Ok None))|].
  destruct (say _ _ _) as [least|e]; [|left; by apply (Hnone (Raise e))].
  cbv zeta. destruct (existsb _ _); [left; by apply (Hnone (Ok None))|].
  right. exists removed, preserved, profile, route, budget, anchor, (_units pending).
  split; [|done]. split; [done..| |]; by rewrite Ea.
Qed.

(** C26: a compaction depends on its summary model only through prompts that fit the summary
    route's input budget, made of whole consecutive units of what is removed, asked
    while the run is within its ceiling: two models that agree on those lead to the same
    outcome. *)
Theorem asks_only_what_fits m1 m2 rc state_messages s :
  (∀ p s, may_ask rc state_messages p s → m1 p s = m2 p s) →
  compacts m1 rc state_messages s = compacts m2 rc state_messages s.
Proof.
  intros Hm. destruct (compacts_cases rc state_messages)
    as [(r & _ & E)|(removed & preserved & profile & route & budget & anchor & units & Hp & E)];
    rewrite !E; [done|].
  unfold bind. rewrite (fold_units_agree m1 m2 rc profile route budget units) with (pre := []);
    [done| |done].
  intros p s' Hf Hw. apply Hm. do 7 eexists. eauto.
Qed.

(** ** What the calls cost *)

(** [n] calls at the prices of [route], each made within the ceiling. *)
Inductive charged (b : ModelBudgets) (route : ModelRoute) :
    option RunSpend → option RunSpend → nat → Prop :=
  | charged_none x : charged b route x x 0
  | charged_call x y i o n :
      within b x = true →
      charged b route (Some (add_spend i o (route_cost route i o) (default no_spend x))) y n →
      charged b route x y (S n).

(** The calls that were answered are charged; at most one more was made. *)
Lemma fold_units_charged m rc profile route budget :
  (∀ p, respects (same_entry (rc_run_id rc)) (m p)) →
  ∀ turns units anchor calls s, ∃ n,
    n ≤ length units ∧
    charged (mp_budgets profile) route (ledger s !! rc_run_id rc)
      (ledger (fold_with m turns rc profile route budget anchor units calls s).2 !! rc_run_id rc) n ∧
    ∀ summary k, (fold_with m turns rc profile route budget anchor units calls s).1
                   = Ok (Some (summary, k)) → k = (calls + Z.of_nat n)%Z.
Proof.
  intros Hm turns. induction turns as [|turns IH]; intros [|u units] anchor calls s;
    try (exists 0; split_and!; [simpl; lia|constructor|]; intros ? ? [=]; lia).
  cbn [fold_units]. unfold bind, lift_res, outcome_of.
  assert (∀ r s', ledger s' !! rc_run_id rc = ledger s !! rc_run_id rc →
    (∀ x, r ≠ Ok (Some x)) → ∃ n, n ≤ length (u :: units) ∧
    charged (mp_budgets profile) route (ledger s !! rc_run_id rc)
      (ledger (r : res (option (pystr * Z)), s' : RuntimeState).2 !! rc_run_id rc) n ∧
    ∀ summary k, (r, s').1 = Ok (Some (summary, k)) → k = (calls + Z.of_nat n)%Z) as Hstop.
  { intros r s' E Hr. exists 0. cbn [fst snd]. rewrite E. split_and!; [lia|constructor|].
    intros ? ? ->. by destruct (Hr (summary, k)). }
  destruct (render anchor "") as [frame|e]; [|by apply Hstop].
  destruct (take_chunk _ _ _ _) as [chunk later] eqn:Et.
  apply take_chunk_split in Et as (taken & Hu & -> & _).
  case_bool_decide as Hc; [by apply Hstop|].
  rewrite ledger_check_run. destruct (within _ _) eqn:Hin; [|by apply Hstop].
  assert (respects (same_entry (rc_run_id rc)) (_summarise lib format_other cm m anchor (mjoin taken)))
    as Hs by (unfold _summarise; respects_auto).
  specialize (Hs s). unfold same_entry in Hs.
  destruct (_summarise _ _ _ _ _ _ s) as [[[[sm i] o]|e] s1]; cbn [snd] in Hs;
    [|destruct (is_cancelled e); by apply Hstop].
  rewrite ledger_record_run, Hs. cbv zeta.
  destruct (IH later sm (calls + 1)%Z
    (set_ledger (<[rc_run_id rc := add_spend i o (route_cost route i o)
       (default no_spend (ledger s !! rc_run_id rc))]> (ledger s1)) s1)) as (n & Hn & Hch & Hk).
  rewrite ledger_set, lookup_insert_eq in Hch. exists (S n). split_and!.
  - rewrite Hu, length_app. destruct taken; [done|simpl; lia].
  - eapply charged_call; [exact Hin|exact Hch].
  - intros ? ? E. apply Hk in E. lia.
Qed.

(** The record writes no ledger. *)
Lemma conclude_entry run rc removed preserved folded :
  respects (same_entry run) (conclude rc removed preserved folded).
Proof.
  unfold conclude. destruct folded as [[sm k]|]; [|apply respects_ret; apply _].
  apply respects_bind; [apply _| |].
  - intros s. unfold same_entry, outcome_of, in_world. by destruct (_record _ _ _ _ _ _ _ _ _).
  - intros [u|e]; respects_auto.
Qed.

(** Every answered summary call is charged to the run at the price of the summary route,
    each made within the run's ceiling, and there are at most as many as messages
    removed. *)
Theorem summary_calls_charged m rc state_messages s :
  (∀ p, respects (same_entry (rc_run_id rc)) (m p)) →
  let s' := (compacts m rc state_messages s).2 in
  ledger s' !! rc_run_id rc = ledger s !! rc_run_id rc ∨
  ∃ removed preserved profile route budget anchor units n,
    plan rc state_messages removed preserved profile route budget anchor units ∧
    n ≤ length removed ∧
    charged (mp_budgets profile) route (ledger s !! rc_run_id rc) (ledger s' !! rc_run_id rc) n.
Proof.
  intros Hm. cbv zeta. destruct (compacts_cases rc state_messages)
    as [(r & _ & E)|(removed & preserved & profile & route & budget & anchor & units & Hp & E)];
    rewrite !E; [by left|right].
  destruct (fold_units_charged m rc profile route budget Hm (length units) units anchor 0 s)
    as (n & Hn & Hch & _).
  exists removed, preserved, profile, route, budget, anchor, units, n. split_and!; [done| |].
  - etrans; [exact Hn|]. rewrite <- (pl_units _ _ _ _ _ _ _ _ _ Hp). etrans; [apply units_length|].
    unfold _anchor_and_rest. simpl. apply length_filter.
  - unfold bind. destruct (fold_with m _ _ _ _ _ _ _ _ s) as [[folded|e] s1]; [|done].
    pose proof (conclude_entry (rc_run_id rc) rc removed preserved folded s1) as Hc.
    unfold same_entry in Hc. by rewrite Hc.
Qed.

(** ** What is removed is on record *)

(** The tables, open and committed, are as they were. *)
Definition same_tables : relation RuntimeState := λ s s',
  db (rt_world s') = db (rt_world s) ∧ saved (rt_world s') = saved (rt_world s).

#[export] Instance same_tables_preorder : PreOrder same_tables.
Proof. unfold same_tables. split; [by intros ?|intros ? ? ?; naive_solver congruence]. Qed.

Lemma fold_units_tables m rc profile route budget :
  (∀ p, respects same_tables (m p)) →
  ∀ turns units anchor calls,
    respects same_tables (fold_with m turns rc profile route budget anchor units calls).
Proof.
  intros Hm turns. induction turns as [|turns IH]; intros [|u units] anchor calls;
    cbn [fold_units]; try solve [respects_auto].
  apply respects_bind; [apply _|by apply respects_lift; apply _|intros frame].
  destruct (take_chunk _ _ _ _) as [chunk later].
  case_bool_decide; [by apply respects_ret; apply _|].
  apply respects_bind; [apply _| |intros _].
  { intros s. rewrite ledger_check_run. by destruct (within _ _). }
  apply respects_bind; [apply _| |].
  { intros s. unfold outcome_of.
    assert (respects same_tables (_summarise lib format_other cm m anchor chunk)) as Hs
      by (unfold _summarise; respects_auto).
    specialize (Hs s). by destruct (_summarise _ _ _ _ _ _ s). }
  intros [[[sm i] o]|e]; [|by destruct (is_cancelled e)].
  apply respects_bind; [apply _| |intros _; apply IH].
  intros s. by rewrite ledger_record_run.
Qed.

(** The audit event of a compaction, as the only change of the tables. *)
Definition on_record (rc : RunContext) (removed preserved : list Message) (summary : pystr)
    (x x' : Db) : Prop :=
  ∃ calls id now,
    let e := compaction_event sha256 dumps cm rc removed preserved summary calls id now in
    t_audit x !! (id, now) = None ∧
    x' = set_tbl (R := AuditEvent) (<[(id, now) := e]> (t_audit x)) x.

Lemma record_cases rc removed preserved summary calls w r w' :
  clean w → _record sha256 dumps cm rc removed preserved summary calls w = (r, w') →
  clean w' ∧
  match r with
  | Ok _ => on_record rc removed preserved summary (db w) (db w')
  | Raise _ => db w' = db w
  end.
Proof.
  intros Hc. unfold _record, bind at 1, new_uuid. unfold bind at 1, now_utc. cbv zeta. simpl.
  unfold unit_of_work. set (w1 := {| db := db w |}). set (e := compaction_event _ _ _ _ _ _ _ _ _ _).
  unfold bind, audit_append. rewrite sql_insert_run by done.
  rewrite bool_decide_eq_true_2 by done. change (tbl (db w1)) with (t_audit (db w)).
  destruct (t_audit (db w) !! row_key e) eqn:E; intros [= <- <-]; (split; [done|]).
  - done.
  - exists calls, (ae_id e), (ae_occurred_at e). split; [exact E|]. done.
Qed.

Definition summary_message (text : pystr) : Message :=
  {| ms_kind := HumanMessage; ms_id := None; ms_content := JStr text;
     ms_additional_kwargs := {[ "lc_source" := JStr "summarization";
                                "dw_system_generated" := JBool true ]} |}.

(** C17: the history of a run is replaced only when the audit event of the compaction, with
    the digest of exactly what is removed, was committed: the update is the framed
    summary and the messages that are kept, and with the removed ones these are the
    whole history; a compaction that is abandoned leaves the tables as they were. *)
Theorem removal_is_on_record m rc state_messages s r s' :
  (∀ ms cutoff, (partition_messages lib ms cutoff).1 ++ (partition_messages lib ms cutoff).2 = ms) →
  (∀ p, respects same_tables (m p)) → clean (rt_world s) →
  compacts m rc state_messages s = (r, s') →
  let x := db (rt_world s) in let x' := db (rt_world s') in
  clean (rt_world s') ∧
  match r with
  | Ok (Some update) => ∃ removed preserved summary text,
      removed ++ preserved = ensure_message_ids lib state_messages ∧
      on_record rc removed preserved summary x x' ∧
      context_summary format_other (cm_copy cm) summary = Ok text ∧
      update = RemoveAllMessages :: PutMessage (summary_message text) :: (PutMessage <$> preserved)
  | Ok None => x' = x
  | Raise e => x' = x ∨ ∃ removed preserved summary,
      on_record rc removed preserved summary x x' ∧
      context_summary format_other (cm_copy cm) summary = Raise e
  end.
Proof.
  intros Hpart Hm Hc. destruct (compacts_cases rc state_messages)
    as [(r0 & Hr & E)|(removed & preserved & profile & route & budget & anchor & units & Hp & E)];
    rewrite E; cbv zeta.
  { intros [= <- <-]. split; [done|]. destruct r0 as [[u|]|e]; [by destruct (Hr u)|done|by left]. }
  pose proof (fold_units_tables m rc profile route budget Hm (length units) units anchor 0 s) as Ht.
  unfold bind. destruct (fold_with m _ _ _ _ _ _ _ _ s) as [[folded|e] s1]; destruct Ht as [Hdb Hsv];
    simpl in Hdb, Hsv; [|intros [= <- <-]; split; [unfold clean in *; congruence|by left]].
  unfold conclude. destruct folded as [[summary calls]|];
    [|intros [= <- <-]; split; [unfold clean in *; congruence|done]].
  unfold bind, outcome_of, in_world.
  destruct (_record _ _ _ _ _ _ _ _ (rt_world s1)) as [r1 w1] eqn:Er.
  apply record_cases in Er as [Hc1 Hr1]; [|unfold clean in *; congruence].
  rewrite <- Hdb. destruct r1 as [u|e].
  - unfold lift_res, _build_new_messages.
    destruct (context_summary format_other (cm_copy cm) summary) as [text|e] eqn:Et; intros [= <- <-].
    + split; [done|]. exists removed, preserved, summary, text. split_and!; [|done|done|done].
      pose proof (Hpart (ensure_message_ids lib state_messages)
        (determine_cutoff_index lib (ensure_message_ids lib state_messages))) as Hj.
      by rewrite (pl_partition _ _ _ _ _ _ _ _ _ Hp) in Hj.
    + split; [done|]. right. by exists removed, preserved, summary.
  - destruct (is_cancelled e); intros [= <- <-]; split; [done|by left|done|done].
Qed.

(** ** A compaction with room goes through *)

(** A model that answers: always, and touching nothing. *)
Definition answering (answer : pystr → SummaryResponse) (p : pystr) : M RuntimeState SummaryResponse :=
  ret (answer p).

(** The summary of an answer. *)
Definition summary_of (answer : pystr → SummaryResponse) (p : pystr) : pystr :=
  py_strip (sr_text (answer p)).

(** Every summary leaves room for every unit, and the templates can be filled in. *)
Definition leaves_room (answer : pystr → SummaryResponse) (budget : Z) (anchor : pystr)
    (units : list (list Message)) : Prop :=
  ∀ a, a = anchor ∨ (∃ p, a = summary_of answer p) →
    (∃ frame, render a "" = Ok frame ∧
       ∀ u, u ∈ units → (_tokens lib frame + _unit_tokens lib u <= budget)%Z) ∧
    ∀ x, is_ok (render a x) = true.

Lemma fold_units_completes answer rc profile route budget :
  ∀ turns units anchor calls s,
  length units ≤ turns → units ≠ [] → [] ∉ units → leaves_room answer budget anchor units →
  let '(r, s') := fold_with (answering answer) turns rc profile route budget anchor units calls s in
  rt_world s' = rt_world s ∧
  ((∃ p k, r = Ok (Some (summary_of answer p, k))) ∨
   (∃ msg, r = Raise (Exn BudgetExceededError msg) ∧
      within (mp_budgets profile) (ledger s' !! rc_run_id rc) = false)).
Proof.
  induction turns as [|turns IH]; intros [|u units] anchor calls s Hn Hne He Hroom;
    simpl in Hn; try done; try lia.
  cbn [fold_units]. unfold bind, lift_res, outcome_of.
  destruct (Hroom anchor) as [(frame & Ef & Hu) Hok]; [by left|]. rewrite Ef.
  cbn [take_chunk]. destruct (Z.leb_spec (_tokens lib frame + _unit_tokens lib u) budget) as [_|Hgt];
    [|specialize (Hu u ltac:(by left)); lia].
  destruct (take_chunk lib budget (_tokens lib frame + _unit_tokens lib u) units) as [chunk later] eqn:Et.
  apply take_chunk_split in Et as (taken & Hunits & _ & _).
  case_bool_decide as Hc.
  { destruct u as [|h f]; [by destruct He; left|]. discriminate Hc. }
  rewrite ledger_check_run.
  destruct (within _ _) eqn:Hin; [|split; [done|right; by eexists]].
  unfold _summarise, bind, lift_res, answering at 1, ret.
  specialize (Hok (get_buffer_string lib (u ++ chunk))).
  destruct (render anchor (get_buffer_string lib (u ++ chunk))) as [prompt|e]; [|done].
  rewrite ledger_record_run. cbv zeta. fold (summary_of answer prompt).
  set (s1 := set_ledger _ s). destruct (decide (later = [])) as [->|Hl].
  { destruct turns; simpl; (split; [done|left; by eexists _, _]). }
  specialize (IH later (summary_of answer prompt) (calls + 1)%Z s1).
  destruct (fold_with _ _ _ _ _ _ _ _ _ s1) as [r s'].
  destruct IH as [Hw Hr].
  - rewrite Hunits, length_app in Hn. lia.
  - done.
  - intros Hin'. apply He. right. rewrite Hunits. apply elem_of_app. by right.
  - intros a Ha. destruct (Hroom a) as [(frame' & Ef' & Hu') Hok'].
    { right. destruct Ha as [->|Ha]; [by eexists|done]. }
    split; [|done]. exists frame'. split; [done|]. intros v Hv. apply Hu'. right. rewrite Hunits.
    apply elem_of_app. by right.
  - split; [exact Hw|exact Hr].
Qed.

(** The state of a thread that is due for compaction: what the parent class says of
    it, the route, the templates, and an id the audit table has not seen. *)
Record due (answer : pystr → SummaryResponse) (rc : RunContext) (state_messages : list Message)
    (s : RuntimeState) (preserved : list Message) (profile : ModelProfile) : Prop := {
  du_plan : ∃ removed route budget anchor units least,
    plan rc state_messages removed preserved profile route budget anchor units ∧
    should_summarize lib (ensure_message_ids lib state_messages)
      (token_counter lib (ensure_message_ids lib state_messages)) = true ∧
    (0 < determine_cutoff_index lib (ensure_message_ids lib state_messages))%Z ∧
    units ≠ [] ∧ leaves_room answer budget anchor units ∧
    say format_other (cm_update_prompt cm) [("summary", ""); ("messages", "")] = Ok least ∧
    Forall (λ u, (_unit_tokens lib u <= budget - _tokens lib least)%Z) units;
  du_frame : ∀ summary, is_ok (context_summary format_other (cm_copy cm) summary) = true;
  du_audit : ∀ at_, t_audit (db (rt_world s)) !! (ids (rt_world s) (ids_issued (rt_world s)), at_) = None }.

Lemma record_goes_through rc removed preserved summary calls w :
  (∀ at_, t_audit (db w) !! (ids w (ids_issued w), at_) = None) →
  ∃ w', _record sha256 dumps cm rc removed preserved summary calls w = (Ok tt, w').
Proof.
  intros Hfresh. unfold _record, bind at 1, new_uuid. unfold bind at 1, now_utc. cbv zeta. simpl.
  unfold unit_of_work, bind, audit_append. rewrite sql_insert_run by done.
  rewrite bool_decide_eq_true_2 by done. unfold row_key. cbn [audit_table ae_id compaction_event ae_occurred_at].
  unfold tbl. simpl. rewrite Hfresh. by eexists.
Qed.

Lemma due_completes answer rc state_messages s preserved profile :
  due answer rc state_messages s preserved profile →
  let '(r, s') := compacts (answering answer) rc state_messages s in
  (∃ p text, context_summary format_other (cm_copy cm) (summary_of answer p) = Ok text ∧
     r = Ok (Some (RemoveAllMessages :: PutMessage (summary_message text) :: (PutMessage <$> preserved)))) ∨
  (∃ msg, r = Raise (Exn BudgetExceededError msg) ∧
     within (mp_budgets profile) (ledger s' !! rc_run_id rc) = false).
Proof.
  intros [(removed & route & budget & anchor & units & least & Hp & Hs & Hcut & Hne & Hroom & Hl & Hfit)
          Hframe Haudit].
  destruct Hp as [Hpart Hprof Hroute Hbud Ha Hunits].
  unfold abefore_model. rewrite Hs. cbn [negb].
  destruct (Z.leb_spec (determine_cutoff_index lib (ensure_message_ids lib state_messages)) 0); [lia|].
  rewrite Hpart. unfold bind, lift_res. rewrite Hprof, Hroute, Hbud.
  destruct (_anchor_and_rest str_of removed) as [a pending]. simpl in Ha, Hunits. subst a.
  rewrite bool_decide_eq_false_2 by (intros ->; by subst units). rewrite Hl, Hunits.
  assert (existsb (λ u, budget - _tokens lib least <? _unit_tokens lib u)%Z units = false) as Hx.
  { destruct (existsb _ _) eqn:E; [|done]. apply existsb_exists in E as (u & Hu & Hlt).
    rewrite Forall_forall in Hfit. apply list_elem_of_In in Hu. specialize (Hfit u Hu).
    apply Z.ltb_lt in Hlt. lia. }
  rewrite Hx. clear Hx.
  pose proof (fold_units_completes answer rc profile route budget (length units) units anchor 0 s
    (Nat.le_refl _) Hne) as Hf.
  specialize (Hf ltac:(rewrite <- Hunits; apply units_nonempty) Hroom).
  destruct (fold_with _ _ _ _ _ _ _ _ _ s) as [r s1].
  destruct Hf as [Hw [(p & k & ->)|(msg & -> & Hin)]]; [|right; by exists msg].
  unfold outcome_of, in_world. rewrite Hw.
  destruct (record_goes_through rc removed preserved (summary_of answer p) k (rt_world s) Haudit)
    as [w' ->].
  unfold _build_new_messages. specialize (Hframe (summary_of answer p)).
  destruct (context_summary _ _ (summary_of answer p)) as [text|e] eqn:Et; [|done].
  left. exists p, text. by split.
Qed.

(** A history that is due, whose units and summaries leave room in the route and whose model
    answers, is compacted, unless the run reaches its ceiling on the way. *)
Theorem compaction_completes answer rc state_messages s preserved profile :
  due answer rc state_messages s preserved profile →
  let '(r, s') := compacts (answering answer) rc state_messages s in
  (∃ p text, context_summary format_other (cm_copy cm) (summary_of answer p) = Ok text ∧
     r = Ok (Some (RemoveAllMessages :: PutMessage (summary_message text) :: (PutMessage <$> preserved)))) ∨
  (∃ msg, r = Raise (Exn BudgetExceededError msg) ∧
     within (mp_budgets profile) (ledger s' !! rc_run_id rc) = false).
Proof. apply due_completes. Qed.

(** A summary model that answers with nothing but white space is taken at its word: the
    history that is due is replaced by the empty frame. *)
Theorem blank_summary_erases answer rc state_messages s preserved profile text :
  due answer rc state_messages s preserved profile →
  (∀ p, summary_of answer p = "") →
  context_summary format_other (cm_copy cm) "" = Ok text →
  let '(r, s') := compacts (answering answer) rc state_messages s in
  r = Ok (Some (RemoveAllMessages :: PutMessage (summary_message text) :: (PutMessage <$> preserved))) ∨
  within (mp_budgets profile) (ledger s' !! rc_run_id rc) = false.
Proof.
  intros Hd Hb Ht. pose proof (due_completes _ _ _ _ _ _ Hd) as H.
  destruct (compacts _ _ _ s) as [r s']. destruct H as [(p & t & Hc & ->)|(msg & _ & ?)]; [left|by right].
  rewrite Hb in Hc. congruence.
Qed.
End Laws.

(** ** Concrete instances *)

(** A parent class that counts characters, cuts before the last message, and writes
    a buffer as the messages' texts. *)
Definition example_text (m : Message) : pystr := match ms_content m with JStr s => s | _ => "" end.

Definition example_library : Library :=
  {| ensure_message_ids ms := ms; should_summarize _ n := (8 <? n)%Z;
     determine_cutoff_index ms := (Z.of_nat (length ms) - 1)%Z;
     partition_messages ms c := (take (Z.to_nat c) ms, drop (Z.to_nat c) ms);
     token_counter ms := Z.of_nat (foldr (λ m n, py_len (example_text m) + n) 0 ms);
     get_buffer_string ms := foldr (λ m s, example_text m +++ s) "" ms |}.

Definition example_compact_route : ModelRoute :=
  {| mr_provider := "openai_compatible"; mr_model := "small"; mr_timeout_seconds := 60;
     mr_reasoning_effort := None; mr_reasoning_summary := None; mr_temperature := None;
     mr_dimensions := None; mr_max_input_tokens := Some 24%Z;
     mr_price_per_million_input := Some (float_of_int 3);
     mr_price_per_million_output := Some (float_of_int 15) |}.

Definition example_compact_profile : ModelProfile :=
  {| mp_schema_version := "1.0"; mp_profile_id := "balanced"; mp_routing_policy_version := "1.0.0";
     mp_structured_extraction := example_compact_route; mp_reasoning := example_compact_route;
     mp_chat := Some example_compact_route; mp_deep_reasoning := None; mp_fallback := None;
     mp_embedding := None;
     mp_budgets := {| max_input_tokens_per_run := 1000; max_cost_usd_per_run := float_of_int 2 |} |}.

Definition example_profiles : Overlay.overlay pystr ModelProfile :=
  Overlay.Overlay {[ "balanced" := example_compact_profile ]} ∅.

Definition example_copy : RuntimeCopy :=
  {| rcp_schema_version := "1.0"; rcp_copy_id := "platform.runtime"; rcp_version := "1.6.0";
     rcp_description := ""; rcp_tool_description_template := "{summary}";
     rcp_approval_reason_template := "{tool}"; rcp_tool_rejected_template := "{tool}{reason}";
     rcp_rejection_reason_template := "{comment}"; rcp_tool_failed_template := "{tool}{code}{message}";
     rcp_tool_unavailable_template := "{tool}{code}"; rcp_approval_deferred_template := None;
     rcp_context_summary_prompt := Some "S:{messages}";
     rcp_context_summary_frame := Some "[{summary}]";
     rcp_context_summary_update_prompt := Some "U:{summary}|{messages}";
     rcp_recalled_memory_frame := None; rcp_mock_reply := "ok" |}.

Definition example_compactor : Compactor :=
  {| cm_copy := example_copy; cm_summary_prompt := "S:{messages}";
     cm_update_prompt := "U:{summary}|{messages}"; cm_profile_id := "balanced";
     cm_summary_profile_id := "balanced" |}.

Example example_compactor_made :
  make_compactor example_profiles example_copy "balanced" "balanced" = Ok example_compactor.
Proof. vm_compute. reflexivity. Qed.

Definition example_message (k : MessageKind) (text : pystr) : Message :=
  {| ms_kind := k; ms_id := None; ms_content := JStr text; ms_additional_kwargs := ∅ |}.

(** A question, a tool call with its result, an answer, and the turn that is kept. *)
Definition example_history : list Message :=
  [example_message HumanMessage "question"; example_message (AIMessage [Some "c1"%py]) "calls";
   example_message (ToolMessage "c1") "result"; example_message (AIMessage []) "the answer";
   example_message HumanMessage "next"].

Definition example_answer (text : pystr) (_ : pystr) : SummaryResponse :=
  {| sr_text := text; sr_input_tokens := Some 20%Z; sr_output_tokens := Some 3%Z |}.

Definition example_no_format (_ : pystr) (_ : gmap pystr (list N)) : res (list N) := Ok [].

Abbreviation example_compacts m :=
  (abefore_model example_library example_profiles example_no_format (λ _, "") (λ s, s) (λ _, "digest")
     example_compactor m (example_run_context 10 7) example_history example_state).

(** Three units in two calls: the second is given the first one's summary. *)
Example example_compaction :
  let '(r, s) := example_compacts (answering (example_answer "sum")) in
  r = Ok (Some [RemoveAllMessages; PutMessage (summary_message "[sum]");
                PutMessage (example_message HumanMessage "next")]) ∧
  (sp_calls <$> rt_ledger s !! rc_run_id (example_run_context 10 7)) = Some 2%Z.
Proof. vm_compute. split; reflexivity. Qed.

(** A model that refuses to answer a run past its ceiling. *)
Definition example_wary (p : pystr) : M RuntimeState SummaryResponse := λ s,
  if within (mp_budgets example_compact_profile) (ledger s !! rc_run_id (example_run_context 10 7))
  then answering (example_answer "sum") p s else raise AssertionError "asked past the ceiling" s.

Lemma asks_only_what_fits_witness :
  example_compacts example_wary = example_compacts (answering (example_answer "sum")).
Proof.
  apply asks_only_what_fits.
  intros p s (removed & preserved & profile & route & budget & anchor & units & Hp & _ & Hw).
  assert (profile = example_compact_profile) as ->.
  { destruct Hp as [_ Hp _ _ _ _]. vm_compute in Hp. injection Hp as <-. reflexivity. }
  unfold example_wary. rewrite Hw. reflexivity.
Defined.

Lemma summary_calls_charged_witness :
  let s' := (example_compacts (answering (example_answer "sum"))).2 in
  ledger s' !! rc_run_id (example_run_context 10 7) = None ∨
  ∃ removed preserved profile route budget anchor units n,
    plan example_library example_profiles (λ _, "") example_compactor (example_run_context 10 7)
      example_history removed preserved profile route budget anchor units ∧
    n ≤ length removed ∧
    charged (mp_budgets profile) route None (ledger s' !! rc_run_id (example_run_context 10 7)) n.
Proof.
  apply (summary_calls_charged example_library example_profiles example_no_format (λ _, "")
    (λ s, s) (λ _, "digest") example_compactor (answering (example_answer "sum"))
    (example_run_context 10 7) example_history example_state).
  intros p s. reflexivity.
Defined.

Lemma removal_is_on_record_witness :
  let s' := (example_compacts (answering (example_answer "sum"))).2 in
  clean (rt_world s') ∧
  ∃ removed preserved summary, removed ++ preserved = example_history ∧
    on_record (λ s, s) (λ _, "digest") example_compactor (example_run_context 10 7) removed preserved summary
      (db (rt_world example_state)) (db (rt_world s')).
Proof.
  cbv zeta. destruct (example_compacts (answering (example_answer "sum"))) as [r s'] eqn:E.
  assert (is_ok r = true ∧ ∀ u, r = Ok u → u ≠ None) as [Hr Hu].
  { apply (f_equal fst) in E. cbn [fst] in E. subst r. vm_compute. split; [done|by intros ? [= <-]]. }
  pose proof (removal_is_on_record example_library example_profiles example_no_format (λ _, "")
    (λ s, s) (λ _, "digest") example_compactor (answering (example_answer "sum"))
    (example_run_context 10 7) example_history example_state r s') as [Hc H].
  - intros ms c. apply take_drop.
  - intros p s. done.
  - done.
  - exact E.
  - split; [exact Hc|]. destruct r as [[u|]|e]; [|by destruct (Hu None)|done].
    destruct H as (removed & preserved & summary & text & Hj & Ho & _).
    exists removed, preserved, summary. exact (conj Hj Ho).
Defined.

Lemma example_due text :
  text = "sum" ∨ text = "" →
  due example_library example_profiles example_no_format (λ _, "") example_compactor
    (example_answer text) (example_run_context 10 7) example_history example_state
    [example_message HumanMessage "next"] example_compact_profile.
Proof.
  intros Ht. split.
  - exists (take 4 example_history), example_compact_route, 24%Z, "",
      [[example_message HumanMessage "question"];
       [example_message (AIMessage [Some "c1"%py]) "calls"; example_message (ToolMessage "c1") "result"];
       [example_message (AIMessage []) "the answer"]], "U:|".
    split_and!; try (vm_compute; done).
    + intros a Ha. assert (a = "" ∨ a = "sum") as [->| ->].
      { destruct Ha as [->|[p ->]]; [by left|]. destruct Ht as [->| ->]; [right|left]; vm_compute; done. }
      all: split; [eexists; split; [vm_compute; reflexivity|]|intros [x]; vm_compute; done].
      all: intros u Hu; repeat (apply elem_of_cons in Hu as [->|Hu]; [vm_compute; done|]);
        by apply elem_of_nil in Hu.
    + repeat constructor; vm_compute; done.
  - intros [x]. vm_compute. done.
  - intros at_. apply lookup_empty.
Qed.

Lemma compaction_completes_witness :
  ∃ text, (example_compacts (answering (example_answer "sum"))).1 =
    Ok (Some [RemoveAllMessages; PutMessage (summary_message text);
              PutMessage (example_message HumanMessage "next")]).
Proof.
  pose proof (compaction_completes example_library example_profiles example_no_format (λ _, "")
    (λ s, s) (λ _, "digest") example_compactor (example_answer "sum") (example_run_context 10 7)
    example_history example_state _ _ (example_due "sum" (or_introl eq_refl))) as H.
  destruct (example_compacts _) as [r s'] eqn:E. destruct H as [(p & text & _ & ->)|(msg & -> & _)].
  - by exists text.
  - apply (f_equal fst) in E. vm_compute in E. discriminate E.
Defined.

Lemma blank_summary_erases_witness :
  (example_compacts (answering (example_answer ""))).1 =
    Ok (Some [RemoveAllMessages; PutMessage (summary_message "[]");
              PutMessage (example_message HumanMessage "next")]).
Proof.
  pose proof (blank_summary_erases example_library example_profiles example_no_format (λ _, "")
    (λ s, s) (λ _, "digest") example_compactor (example_answer "") (example_run_context 10 7)
    example_history example_state _ _ "[]" (example_due "" (or_intror eq_refl)) (λ _, eq_refl) eq_refl) as H.
  destruct (example_compacts _) as [r s'] eqn:E. destruct H as [->|Hw]; [reflexivity|].
  apply (f_equal fst) in E as <-. vm_compute. reflexivity.
Defined.
