(* ===== verification/Spend.v ===== *)
(** * What a run can spend

    Everything that writes the ledger of a run's spend: structured calls
    ([ModelGateway.generate_structured_traced]), calls outside a run
    ([single_call]), an agent's model calls ([budgeted_model_call]), the summaries
    of a compaction ([Compaction.abefore_model]) and the runner's [forget]; and the
    bound they keep between them. *)

From S2P Require Import Prelude Errors Kernel Domain Contracts Store ModelBudget Prompts RuntimeCopy ModelGateway Allowance Compaction CompactionLaws.
Local Open Scope prog_scope.
Local Open Scope pystr_scope.

(** The input tokens an entry stands for. *)
Definition charged_tokens (e : option RunSpend) : Z := default 0%Z (sp_input_tokens <$> e).

Section Spend.
Context (gw : RoutingModelGateway RuntimeState) (run : uuid) (ceiling most : Z).

(** One operation of the run is served at a time: what it awaits leaves the run's entry
    alone, whatever it does to those of others.  No answer reports more than [most]
    input tokens, and no profile allows a run more than [ceiling]. *)
Record metered : Prop := {
  mt_adapters : ∀ p a prompt schema route m s,
    gw_adapters gw !! p = Some a →
    same_entry run s (a prompt schema route m s).2 ∧
    ∀ raw u v, (a prompt schema route m s).1 = Ok (raw, u, v) → (mu_input_tokens u ≤ most)%Z;
  mt_recorder : ∀ rc q u, respects (same_entry run) (gw_usage_recorder gw rc q u);
  mt_clock : ∀ s, ∃ t, (gw_perf_counter gw s).1 = Ok t ∧ same_entry run s (gw_perf_counter gw s).2;
  mt_most : (0 ≤ most)%Z;
  mt_ceiling : (0 < ceiling)%Z;
  mt_profiles : ∀ id t p, profiles_resolve (gw_profiles gw) id t = Ok p →
    (max_input_tokens_per_run (mp_budgets p) ≤ ceiling)%Z }.

Definition metered_handler {Req} (handler : Req → M RuntimeState (list AnswerMessage)) : Prop :=
  ∀ req s, same_entry run s (handler req s).2 ∧
    ∀ messages, (handler req s).1 = Ok messages → ((_usage messages).1 ≤ most)%Z.

Definition metered_summaries (m : pystr → M RuntimeState SummaryResponse) : Prop :=
  ∀ p s, same_entry run s (m p s).2 ∧
    ∀ answer, (m p s).1 = Ok answer → (default 0 (sr_input_tokens answer) ≤ most)%Z.

(** Everything that changes the ledger, for this run or another, and whatever else leaves
    the run's entry alone. *)
Inductive spend_step : RuntimeState → RuntimeState → Prop :=
  | step_generate Out (ot : OutputType Out) rc q s :
      spend_step s (generate_structured_traced gw ot rc q s).2
  | step_single Out (ot : OutputType Out) rc require q s :
      same_entry run s (require rc s).2 → spend_step s (single_call gw ot rc require q s).2
  | step_agent profile_id rc Req (handler : Req → M RuntimeState (list AnswerMessage)) req s :
      metered_handler handler →
      spend_step s (budgeted_model_call (gw_profiles gw) profile_id rc handler req s).2
  | step_compact lib format_other str_of sha256 dumps cm m rc messages s :
      metered_summaries m →
      spend_step s (abefore_model lib (gw_profiles gw) format_other str_of sha256 dumps cm m rc messages s).2
  | step_forget run' s : spend_step s (on_ledger (ledger_forget run') s).2
  | step_elsewhere s s' : same_entry run s s' → spend_step s s'.

Definition bounded (e : option RunSpend) : Prop := (charged_tokens e < ceiling + 3 * most)%Z.

Context (Hm : metered).

Lemma room : (0 ≤ most ∧ 0 < ceiling)%Z.
Proof. split; apply Hm. Qed.

Lemma none_bounded : bounded None.
Proof. pose proof room. unfold bounded, charged_tokens. simpl. lia. Qed.

Lemma metered_leaves rc : rc_run_id rc = run → leaves_entry gw rc.
Proof.
  destruct Hm as [Ha Hr Hc _ _ _]. intros E. split; rewrite E; [|done|done].
  intros p a prompt schema route m Hp s. by apply (Ha p a prompt schema route m s Hp).
Qed.

(** A run within a profile's ceiling has room for three answers. *)
Lemma within_room id t p e :
  profiles_resolve (gw_profiles gw) id t = Ok p → within (mp_budgets p) e = true → (charged_tokens e < ceiling)%Z.
Proof.
  intros Hp Hw. pose proof (mt_profiles Hm _ _ _ Hp). pose proof room.
  unfold within, charged_tokens in *. destruct e as [c|]; simpl; [to_prop|]; lia.
Qed.

(** *** Structured calls *)

Lemma charge_bound {Out} (ot : OutputType Out) prompt m c entry :
  made gw ot prompt m (c_route c) (c_outcome c) →
  (charged_tokens (charge c entry) ≤ charged_tokens entry + most)%Z.
Proof.
  intros (a & s & s' & Ha & Hcall).
  destruct (mt_adapters Hm _ _ prompt (ot_schema ot) (c_route c) m s Ha) as [_ Hmost].
  rewrite Hcall in Hmost. pose proof room. unfold charge, charged_tokens.
  destruct (c_outcome c) as [[[raw u] v]|exc]; simpl in *; [|lia].
  specialize (Hmost _ _ _ eq_refl). destruct entry; simpl; lia.
Qed.

Lemma charged_bound {Out} (ot : OutputType Out) prompt m calls entry :
  Forall (λ c, made gw ot prompt m (c_route c) (c_outcome c)) calls →
  (charged_tokens (ModelGateway.charged calls entry) ≤ charged_tokens entry + Z.of_nat (length calls) * most)%Z.
Proof.
  intros Hc. revert entry. induction Hc as [|c calls Hmade _ IH]; intros entry; [simpl; lia|].
  change (ModelGateway.charged (c :: calls) entry) with (ModelGateway.charged calls (charge c entry)).
  rewrite length_cons, Nat2Z.inj_succ, Z.mul_succ_l.
  pose proof (IH (charge c entry)) as E. pose proof (charge_bound ot prompt m c entry Hmade) as E'.
  lia.
Qed.

Lemma generate_own {Out} (ot : OutputType Out) rc q s :
  rc_run_id rc = run → bounded (ledger s !! run) →
  bounded (ledger (generate_structured_traced gw ot rc q s).2 !! run).
Proof.
  intros E Hb. pose proof (gateway_conversation gw ot rc q s (metered_leaves rc E)) as Hg.
  cbv zeta in Hg. rewrite E in Hg.
  destruct (render _ _ _ _ _ _) as [prompt|e]; [|by rewrite Hg].
  destruct (profiles_resolve _ _ _) as [profile|e] eqn:Hp; [|by rewrite Hg].
  destruct (within _ _) eqn:Hw; cbn [negb] in Hg; [|by destruct Hg as [? ->]].
  case_bool_decide; [by rewrite Hg|]. destruct Hg as (calls & Hlen & Hc & ->).
  apply conversation_made, (charged_bound ot _ _ _ (ledger s !! run)) in Hc.
  pose proof (within_room _ _ _ _ Hp Hw). pose proof room. unfold bounded. nia.
Qed.

Lemma try_routes_others {Out} (ot : OutputType Out) rc prompt q index attempts e :
  run ≠ rc_run_id rc → respects (same_entry run) (try_routes gw ot rc prompt q index attempts e).
Proof.
  intros Hne. destruct Hm as [Ha Hr Hc _ _ _]. revert index e.
  assert (∀ f : pyfloat → M RuntimeState (Out * pystr), (∀ t, respects (same_entry run) (f t)) →
            respects (same_entry run) (bind (gw_perf_counter gw) f)) as Hclock.
  { intros f Hf. apply respects_bind; [apply _| |done]. intros s. by destruct (Hc s) as (t & _ & Hl). }
  induction attempts as [|route rest IH]; intros index e; simpl.
  - destruct e; respects_auto.
  - destruct (gw_adapters gw !! mr_provider route) as [a|] eqn:E; [|by respects_auto].
    apply Hclock. intros started. apply respects_bind; [apply _|..].
    { intros s. unfold outcome_of. destruct (Ha _ _ prompt (ot_schema ot) route
        (mq_max_output_tokens q) s E) as [Hl _]. by destruct (a _ _ _ _ s). }
    intros [[[raw u] v]|exc].
    2: { destruct (isinstance _ _); [apply IH|respects_auto]. }
    apply respects_bind; [apply _|..].
    { unfold account. intros s. destruct (Hc s) as (t & Ht & Hl). unfold bind at 1.
      destruct (gw_perf_counter gw s) as [? s1]. cbn [fst snd] in *. subst. unfold bind.
      set (p := _priced _ _). rewrite spend_run, ledger_record_run. cbn [snd].
      unfold ModelGateway._record, try_except. set (s2 := set_ledger _ s1).
      assert (ledger s2 !! run = ledger s !! run) as Es2.
      { unfold s2. rewrite ledger_set, lookup_insert_ne by congruence. exact Hl. }
      pose proof (Hr rc q p s2) as Hr'. unfold same_entry in *.
      destruct (gw_usage_recorder gw rc q p s2) as [[?|?] ?]; cbn [snd] in *; unfold ret; cbn [snd]; by rewrite Hr'. }
    intros []. destruct (ot_validate ot raw); respects_auto.
Qed.

Lemma generate_keeps_bounded {Out} (ot : OutputType Out) rc q s :
  bounded (ledger s !! run) → bounded (ledger (generate_structured_traced gw ot rc q s).2 !! run).
Proof.
  intros Hb. destruct (decide (rc_run_id rc = run)) as [E|Hne]; [by apply generate_own|].
  unfold generate_structured_traced, bind, lift_res.
  destruct (render _ _ _ _ _ _) as [prompt|]; [|done].
  destruct (profiles_resolve _ _ _) as [profile|]; [|done].
  rewrite ledger_check_run. destruct (within _ _); [|done].
  match goal with |- context [try_routes gw ot rc prompt ?q' 0 ?l None] =>
    pose proof (try_routes_others ot rc prompt q' 0 l None (not_eq_sym Hne) s) as Ho end.
  unfold same_entry in Ho. by rewrite Ho.
Qed.

(** *** An agent's calls, and summaries *)

(** A check that passed, something awaited, and its charge. *)
Lemma charge_after_check id t p rc i o cost (s s1 : RuntimeState) :
  profiles_resolve (gw_profiles gw) id t = Ok p →
  within (mp_budgets p) (ledger s !! rc_run_id rc) = true → same_entry run s s1 → (i ≤ most)%Z →
  bounded (ledger s !! run) →
  bounded (ledger (on_ledger (ledger_record (rc_run_id rc) i o cost) s1).2 !! run).
Proof.
  intros Hp Hw Hs Hi Hb. rewrite ledger_record_run. cbn. unfold same_entry in Hs.
  destruct (decide (rc_run_id rc = run)) as [E|Hne]; [|rewrite lookup_insert_ne by done; unfold ledger in *; cbn in *; by rewrite Hs].
  rewrite E in *. rewrite lookup_insert_eq. unfold ledger in *. cbn in *. rewrite Hs.
  apply (within_room _ _ _ _ Hp) in Hw. pose proof room. unfold bounded, charged_tokens in *.
  destruct (rt_ledger s !! run) as [c|]; simpl in *; lia.
Qed.

Lemma agent_keeps_bounded profile_id rc {Req} (handler : Req → M RuntimeState (list AnswerMessage)) req s :
  metered_handler handler → bounded (ledger s !! run) →
  bounded (ledger (budgeted_model_call (gw_profiles gw) profile_id rc handler req s).2 !! run).
Proof.
  intros Hh Hb. unfold budgeted_model_call, bind, lift_res.
  destruct (profiles_resolve _ _ _) as [profile|] eqn:Hp; [|done].
  destruct (chat_route _ _ _) as [route|]; [|done].
  rewrite ledger_check_run. destruct (within _ _) eqn:Hw; [|done].
  destruct (Hh req s) as [Hl Hmost]. destruct (handler req s) as [[messages|exc] s1]; cbn [fst snd] in *;
    [|unfold same_entry in Hl; by rewrite Hl].
  specialize (Hmost _ eq_refl). destruct (_usage messages) as [i o].
  pose proof (charge_after_check _ _ _ rc i o (route_cost route i o) s s1 Hp Hw Hl Hmost Hb) as Hc.
  by destruct (on_ledger _ s1) as [[?|?] ?].
Qed.

Section Summaries.
Context (lib : Library) (format_other : pystr → gmap pystr (list N) → res (list N)).
Context (str_of : json → pystr) (sha256 : pystr → pystr) (dumps : json → pystr) (cm : Compactor).
Context (m : pystr → M RuntimeState SummaryResponse) (Hs : metered_summaries m).

Lemma fold_keeps_bounded id t profile rc route budget turns units anchor calls s :
  profiles_resolve (gw_profiles gw) id t = Ok profile → bounded (ledger s !! run) →
  bounded (ledger (fold_units lib format_other cm m turns rc profile route budget anchor units calls s).2 !! run).
Proof.
  intros Hp. revert units anchor calls s.
  induction turns as [|turns IH]; intros [|u units] anchor calls s Hb; try done.
  cbn [fold_units]. unfold bind, lift_res, outcome_of.
  destruct (_render _ _ _ _) as [frame|e]; [|done]. destruct (take_chunk _ _ _ _) as [chunk later].
  case_bool_decide; [done|]. rewrite ledger_check_run. destruct (within _ _) eqn:Hw; [|done].
  unfold _summarise, bind, lift_res. destruct (_render _ _ _ _) as [prompt|e]; [|by destruct (is_cancelled e)].
  destruct (Hs prompt s) as [Hl Hmost]. destruct (m prompt s) as [[answer|e] s1]; cbn [fst snd] in *.
  2: { unfold same_entry in Hl. destruct (is_cancelled e); cbn [reraise ret snd]; by rewrite Hl. }
  specialize (Hmost _ eq_refl). set (i := default 0%Z (sr_input_tokens answer)) in *.
  set (o := default 0%Z _). unfold ret.
  pose proof (charge_after_check _ _ _ rc i o (route_cost route i o) s s1 Hp Hw Hl Hmost Hb) as Hc.
  rewrite ledger_record_run in *. cbv zeta. by apply IH.
Qed.

Lemma compaction_keeps_bounded rc messages s :
  bounded (ledger s !! run) →
  bounded (ledger (abefore_model lib (gw_profiles gw) format_other str_of sha256 dumps cm m rc messages s).2 !! run).
Proof.
  intros Hb. destruct (compacts_cases lib (gw_profiles gw) format_other str_of sha256 dumps cm rc messages)
    as [(r & _ & E)|(removed & preserved & profile & route & budget & anchor & units & Hp & E)];
    rewrite !E; [done|]. apply pl_profile in Hp.
  pose proof (fold_keeps_bounded _ _ _ rc route budget (length units) units anchor 0 s Hp Hb) as Hf.
  unfold bind. destruct (fold_units _ _ _ _ _ _ _ _ _ _ _ _ s) as [[folded|e] s1]; [|done].
  pose proof (conclude_entry format_other sha256 dumps cm run rc removed preserved folded s1) as Hc.
  unfold same_entry in Hc. by rewrite Hc.
Qed.
End Summaries.

Lemma step_bounded s s' : spend_step s s' → bounded (ledger s !! run) → bounded (ledger s' !! run).
Proof.
  intros [] Hb.
  - by apply generate_keeps_bounded.
  - pose proof (single_call_leaves_nothing gw ot rc require q s0) as Hs.
    destruct (require rc s0) as [[u|e] s1]; unfold same_entry in *; cbn [fst snd] in *.
    2: { rewrite Hs. cbn [snd]. by rewrite H. }
    destruct Hs as (_ & Hnone & Hother). destruct (decide (run = rc_run_id rc)) as [->|Hne].
    + rewrite Hnone. exact none_bounded.
    + rewrite Hother by done. unfold generate_structured, bind, ret.
      rewrite <- H in Hb. pose proof (generate_keeps_bounded ot rc q s1 Hb) as Hg.
      by destruct (generate_structured_traced gw ot rc q s1) as [[?|?] ?].
  - by apply agent_keeps_bounded.
  - by apply compaction_keeps_bounded.
  - rewrite ledger_forget_run. cbn. destruct (decide (run' = run)) as [->|Hne].
    + rewrite lookup_delete_eq. exact none_bounded.
    + by rewrite lookup_delete_ne.
  - unfold same_entry in *. by rewrite H.
Qed.
End Spend.

(** C25: a run whose operations are served one at a time - structured calls, single calls,
    an agent's model calls, the summaries of a compaction, the freeing of its entry, in
    any order and however often, while other runs do what they like to theirs - stands
    charged with fewer input tokens than its ceiling plus three answers of the largest
    size. Nothing awaited by one of its operations writes the run's own entry:
    operations of one run at the same time, as by sub-agents in parallel, are not
    covered. *)
Theorem run_overshoot_bounded gw run ceiling most (s s' : RuntimeState) :
  metered gw run ceiling most → ledger s !! run = None → rtc (spend_step gw run most) s s' →
  (charged_tokens (ledger s' !! run) < ceiling + 3 * most)%Z.
Proof.
  intros Hm Hs Hr. change (bounded ceiling most (ledger s' !! run)).
  assert (bounded ceiling most (ledger s !! run)) as Hb by (rewrite Hs; by eapply none_bounded).
  clear Hs. induction Hr as [|s1 s2 s3 Hstep _ IH]; [done|]. apply IH. by eapply step_bounded.
Qed.

(** ** A concrete instance *)

Lemma example_metered : metered example_gateway 10 40 50.
Proof.
  split; simpl; try done; [..|by eexists|].
  - intros p a prompt schema route m s Ha. apply lookup_singleton_Some in Ha as [_ <-].
    split; [done|]. intros raw u v [= _ <- _]. done.
  - intros id t p Hp.
    assert (p = example_profile) as ->; [|done]. unfold profiles_resolve, Overlay.get in Hp.
    destruct t as [t|]; simpl in Hp; rewrite ?lookup_empty in Hp; simpl in Hp;
      rewrite ?lookup_empty in Hp; simpl in Hp;
      (destruct ({[ "balanced"%py := example_profile ]} !! id) as [x|] eqn:E; [|discriminate Hp]);
      apply lookup_singleton_Some in E as [_ <-]; by injection Hp.
Qed.

(** One request of the run, answered three times, and another that is refused. *)
Lemma run_overshoot_bounded_witness :
  let call s := (generate_structured_traced example_gateway example_output
                   (example_run_context 10 7) example_request s).2 in
  let s' := call (call example_state) in
  charged_tokens (ledger s' !! 10%N) = 150%Z ∧ (charged_tokens (ledger s' !! 10%N) < 40 + 3 * 50)%Z.
Proof.
  cbv zeta. split; [vm_compute; reflexivity|].
  apply (run_overshoot_bounded example_gateway 10 40 50 example_state _ example_metered eq_refl).
  eapply rtc_l; [apply step_generate|]. eapply rtc_l; [apply step_generate|]. apply rtc_refl.
Defined.
