(* ===== verification/Runner.v ===== *)
(** * The workflow runner

    [dw_agent_runtime/adapters/langgraph_runner.py]: starting, streaming and
    resuming a run, and the status every run ends with.  A compiled graph is a
    parameter (LangGraph runs it): what one invocation does to the process's
    state, and the state or the exception it ends with.  Telemetry is left out. *)

From S2P Require Import Prelude Errors Kernel Domain Contracts Store RunStore ModelBudget ModelGateway UsageMeter Allowance.
Local Open Scope prog_scope.
Local Open Scope pystr_scope.

(** ** Graphs *)

(** An item of [state["__interrupt__"]]: its [id], when it has one, and value. *)
Record Interrupt := { it_id : option pystr; it_value : json }.

(** The state an invocation returns: its values and its interrupts. *)
Record GraphState := { gs_values : gmap pystr json; gs_interrupts : list Interrupt }.

Inductive GraphInput :=
  | StartWith (input_payload : gmap pystr json)
  | CommandResume (resume_payload : gmap pystr json).

(** What [astream] does: the steps to come, each yielding a chunk. *)
Inductive Streaming :=
  | StreamEnd
  | StreamStep (step : M RuntimeState (json * Streaming)).

(** A compiled graph: [ainvoke], [astream], [aget_state]; each is given the run
    context, the run's id and the recursion limit. *)
Record Graph := {
  ainvoke : GraphInput → RunContext → uuid → Z → M RuntimeState GraphState;
  astream : GraphInput → RunContext → uuid → Z → M RuntimeState Streaming;
  aget_state : RunContext → uuid → M RuntimeState GraphState }.

(** [_jsonable], on values that are JSON already: keys that start with two
    underscores are dropped. *)
Fixpoint _jsonable (v : json) : json :=
  match v with
  | JObj kvs =>
      JObj ((fix go kvs :=
               match kvs with
               | [] => []
               | (k, x) :: rest =>
                   if py_startswith k "__" then go rest else (k, _jsonable x) :: go rest
               end) kvs)
  | JList l => JList (_jsonable <$> l)
  | _ => v
  end.

Definition jsonable_dict (d : gmap pystr json) : gmap pystr json :=
  _jsonable <$> filter (λ kv, py_startswith kv.1 "__" = false) d.

(** [{key(item): item for item in interrupts}.values()]: one item per id, the last,
    at the place of the first; an item without an id is its own. *)
Fixpoint put_interrupt (i : Interrupt) (l : list Interrupt) : list Interrupt :=
  match l with
  | [] => [i]
  | j :: r => if decide (it_id j = it_id i) then i :: r else j :: put_interrupt i r
  end.

Definition truthy_id (i : Interrupt) : bool :=
  match it_id i with Some x => py_truthy x | None => false end.

Definition distinct_interrupts (l : list Interrupt) : list Interrupt :=
  foldl (λ acc i, if truthy_id i then put_interrupt i acc else acc ++ [i]) [] l.

(** ** The approval a pause raises *)

(** [ck_approval_requests_required_scope]: [^[a-z][a-z0-9_]*(\.[a-z0-9_]+)+$] *)
Fixpoint split_dots (l : list N) : list (list N) :=
  match l with
  | [] => [[]]
  | c :: r => if (c =? 46)%N then [] :: split_dots r
              else match split_dots r with
                   | s :: rest => (c :: s) :: rest
                   | [] => [[c]]
                   end
  end.

Definition scope_char (c : N) : bool := is_lower c || is_digit c || (c =? 95)%N.

Definition required_scope_ok (s : pystr) : bool :=
  match split_dots (chars s) with
  | (c :: first) :: (rest :: more) =>
      is_lower c && forallb scope_char first
      && forallb (λ seg, negb (bool_decide (seg = [])) && forallb scope_char seg) (rest :: more)
  | _ => false
  end.

Section Runner.
(** The wiring of [LangGraphWorkflowRunner]; [spend_store]: whether a spend guard
    is wired; [usage_meter]: what a tracker records when its block ends;
    [str_of]: [str()] of a value that is no string. *)
Context (workers : gmap (pystr * pystr) WorkerDefinition) (graphs : gmap (pystr * pystr) Graph)
  (plans : gmap pystr Plan) (spend_store : bool) (stale_run_after_seconds : Z)
  (policy_version : pystr) (release_manifest_ref : option pystr)
  (usage_meter : option (Tracker → RuntimeState → RuntimeState)) (str_of : json → pystr).

Definition hosts (worker_id worker_version graph_version : pystr) : bool :=
  is_ok (registry_resolve graphs (worker_id, graph_version))
  && is_ok (registry_resolve workers (worker_id, worker_version)).

Definition _graph (worker_id graph_version : pystr) : res Graph :=
  registry_resolve graphs (worker_id, graph_version).

(** [_loop_prompt] *)
Definition _loop_prompt (w : WorkerDefinition) : pystr * pystr :=
  match wd_agent_prompt_id w, wd_agent_prompt_version w with
  | Some id, Some version => (id, version)
  | _, _ => ("graph:" +++ wd_worker_id w, wd_graph_version w)
  end.

(** [async with self._metered(...)]: the tracker records when the block ends. *)
Definition _metered {A} (rc : RunContext) (w : WorkerDefinition) (m : M RuntimeState A)
    : M RuntimeState A :=
  match usage_meter with
  | None => m
  | Some record =>
      try_finally m (record
        {| tk_run_context := rc; tk_profile_id := wd_default_model_profile w; tk_task := "agent_loop";
           tk_prompt_id := (_loop_prompt w).1; tk_prompt_version := (_loop_prompt w).2 |})
  end.

Definition _with_autonomy (rc : RunContext) (w : WorkerDefinition) : RunContext :=
  {| rc_run_id := rc_run_id rc; rc_thread_id := rc_thread_id rc; rc_tenant_id := rc_tenant_id rc;
     rc_workspace_id := rc_workspace_id rc; rc_actor_id := rc_actor_id rc;
     rc_worker_id := rc_worker_id rc; rc_worker_version := rc_worker_version rc;
     rc_channel := rc_channel rc; rc_plan_id := rc_plan_id rc; rc_roles := rc_roles rc;
     rc_scopes := rc_scopes rc; rc_clearance := rc_clearance rc;
     rc_record_visibility := rc_record_visibility rc; rc_visible_owners := rc_visible_owners rc;
     rc_trace_id := rc_trace_id rc; rc_locale := rc_locale rc; rc_subject_ref := rc_subject_ref rc;
     rc_autonomy_ceiling := rc_autonomy_ceiling rc;
     rc_autonomy_level := Some (lower_autonomy (wd_autonomy_level w) (rc_autonomy_ceiling rc));
     rc_approval_policy_version := Some policy_version |}.

(** [_audit]: what the unit of work raises is an [InfrastructureError]. *)
Definition run_audit_event (rc : RunContext) (action resource_id : pystr)
    (details : gmap pystr json) (id : uuid) (now : datetime) : AuditEvent :=
  {| ae_id := id; ae_tenant_id := rc_tenant_id rc; ae_workspace_id := rc_workspace_id rc;
     ae_actor_id := rc_actor_id rc; ae_action := action; ae_resource_type := "worker_run";
     ae_resource_id := resource_id; ae_occurred_at := now; ae_run_id := Some (rc_run_id rc);
     ae_policy_decision := None; ae_trace_id := Some (rc_trace_id rc); ae_details := details |}.

Definition _audit (rc : RunContext) (action resource_id : pystr) (details : gmap pystr json)
    : Prog unit :=
  let! id := new_uuid in
  let! now := now_utc in
  let! event := lift_res (make_audit_event (run_audit_event rc action resource_id details id now)) in
  try_except
    (unit_of_work (audit_append (rc_tenant_id rc) event ;;; uow_commit))
    (λ _, raise InfrastructureError "failed to write audit event").

Definition _ERROR_MESSAGE_LIMIT : nat := 500.

Definition error_of (exc : exn) : gmap pystr json :=
  {[ "type" := JStr (class_name (exn_cls exc));
     "message" := JStr (PyStr (take _ERROR_MESSAGE_LIMIT (chars (exn_message exc)))) ]}.

Definition forget (run_id : uuid) : M RuntimeState unit :=
  let! _ := on_ledger (ledger_forget run_id) in ret tt.

Definition _fail (rc : RunContext) (run_id : uuid) (exc : exn) (status : RunStatus) (event : pystr)
    : M RuntimeState unit :=
  in_world (RunStore.set_status rc run_id status None (Some (error_of exc)) None) ;;;
  in_world (_audit rc event (uuid_str run_id) ∅) ;;;
  forget run_id.

(** The interrupt's payload: a dict, or the value in one. *)
Definition payload_of (i : Interrupt) : gmap pystr json :=
  match it_value i with
  | JObj kvs => list_to_map (reverse kvs)
  | v => {[ "value" := _jsonable v ]}
  end.

(** [str(payload.get(key, default))] *)
Definition text_at (payload : gmap pystr json) (key otherwise : pystr) : pystr :=
  match payload !! key with
  | None => otherwise
  | Some (JStr s) => s
  | Some v => str_of v
  end.

Definition approval_of (rc : RunContext) (run_id : uuid) (payload : gmap pystr json)
    (scope : option pystr) (id : uuid) : ApprovalRequest :=
  {| ar_id := id; ar_tenant_id := rc_tenant_id rc; ar_workspace_id := rc_workspace_id rc;
     ar_approval_type := text_at payload "approval_type" "workflow.review";
     ar_requested_by := rc_actor_id rc;
     ar_reason := text_at payload "reason" "workflow requested human review";
     ar_payload := jsonable_dict payload; ar_run_id := Some run_id; ar_required_scope := scope;
     ar_status := PENDING; ar_created_at := None; ar_decided_at := None; ar_version := 1 |}.

(** [uow.approvals.add]: a scope that is no text is no bind parameter of the column,
    a malformed one is refused by its CHECK. *)
Definition stamped_scope (v : option json) : Prog (option pystr) :=
  match v with
  | None | Some JNull => ret None
  | Some (JStr s) =>
      if required_scope_ok s then ret (Some s)
      else raise (IntegrityError "ck_approval_requests_required_scope") "check constraint"
  | Some _ => raise (OtherException "DBAPIError") "invalid input for query argument"
  end.

Definition _create_approval (rc : RunContext) (run_id : uuid) (payload : gmap pystr json)
    : Prog uuid :=
  let! id := new_uuid in
  unit_of_work (
    let! scope := stamped_scope (payload !! "required_scope") in
    approvals_add (rc_tenant_id rc) (approval_of rc run_id payload scope id) ;;;
    uow_commit ;;;
    ret id).

Definition park (rc : RunContext) (run_id : uuid) (payload : gmap pystr json)
    : M RuntimeState unit :=
  let! created := outcome_of (in_world (_create_approval rc run_id payload)) in
  match created with
  | Raise _ =>
      _fail rc run_id (Exn InfrastructureError "the approval request could not be recorded")
        RUN_FAILED "run.failed"
  | Ok approval_id =>
      in_world (RunStore.set_status rc run_id RUN_WAITING_APPROVAL None None (Some approval_id)) ;;;
      in_world (_audit rc "run.waiting_approval" (uuid_str run_id)
                  {[ "approval_request_id" := JStr (uuid_str approval_id) ]})
  end.

Definition _handle_outcome (rc : RunContext) (run_id : uuid) (state : GraphState)
    : M RuntimeState unit :=
  match distinct_interrupts (gs_interrupts state) with
  | [] =>
      in_world (RunStore.set_status rc run_id RUN_COMPLETED
                  (Some (jsonable_dict (gs_values state))) None None) ;;;
      in_world (_audit rc "run.completed" (uuid_str run_id) ∅) ;;;
      forget run_id
  | [first] => park rc run_id (payload_of first)
  | _ =>
      _fail rc run_id (Exn ConflictError "a step paused on more than one approval")
        RUN_FAILED "run.failed"
  end.

(** Run the graph; a failure is recorded and raised again. *)
Definition invoked (rc : RunContext) (run_id : uuid) (m : M RuntimeState GraphState)
    : M RuntimeState GraphState :=
  try_exception m (λ exc, _fail rc run_id exc RUN_FAILED "run.failed" ;;; reraise exc).

(** The part [start] and [stream] share: a worker, its level, the plan, the claim. *)
Definition claim (rc : RunContext) (input : gmap pystr json)
    : M RuntimeState (RunContext * WorkerDefinition * Graph) :=
  let! worker := lift_res (registry_resolve workers (rc_worker_id rc, rc_worker_version rc)) in
  let rc := _with_autonomy rc worker in
  require_allowance plans spend_store rc ;;;
  let! graph := lift_res (_graph (wd_worker_id worker) (wd_graph_version worker)) in
  in_world (RunStore.create stale_run_after_seconds rc worker input release_manifest_ref) ;;;
  in_world (_audit rc "run.started" (uuid_str (rc_run_id rc)) ∅) ;;;
  ret (rc, worker, graph).

Definition start (rc : RunContext) (input : gmap pystr json) : M RuntimeState uuid :=
  let! claimed := claim rc input in
  let '(rc, worker, graph) := claimed in
  let run_id := rc_run_id rc in
  let! state := invoked rc run_id (_metered rc worker
    (ainvoke graph (StartWith input) rc run_id (wd_recursion_limit worker))) in
  _handle_outcome rc run_id state ;;;
  ret run_id.

Definition resume (rc : RunContext) (run_id : uuid) (payload : gmap pystr json)
    : M RuntimeState unit :=
  let! record := in_world (RunStore.get rc run_id) in
  if negb (bool_decide (rr_status record = RUN_WAITING_APPROVAL))
  then raise ConflictError "run is not waiting for approval"
  else if negb (hosts (rr_worker_id record) (rr_worker_version record) (rr_graph_version record))
  then raise ConflictError "this service does not run the graph that owns the approval"
  else
    let! graph := lift_res (_graph (rr_worker_id record) (rr_graph_version record)) in
    let! worker := lift_res (registry_resolve workers
                               (rr_worker_id record, rr_worker_version record)) in
    in_world (_audit rc "run.resumed" (uuid_str run_id) ∅) ;;;
    let! state := invoked rc run_id (_metered rc worker
      (ainvoke graph (CommandResume payload) rc run_id (wd_recursion_limit worker))) in
    _handle_outcome rc run_id state.

(** ** Streaming *)

Inductive StreamItem := Chunk (c : json) | StreamError (e : exn) | StreamOver.

(** Every chunk is published as it comes; what was published is kept when the
    stream raises. *)
Fixpoint follow (s : Streaming) (published : list StreamItem)
    : M RuntimeState (res unit * list StreamItem) :=
  match s with
  | StreamEnd => ret (Ok tt, published)
  | StreamStep step => λ st,
      match step st with
      | (Ok (chunk, rest), st') => follow rest (published ++ [Chunk chunk]) st'
      | (Raise e, st') => ret (Raise e, published) st'
      end
  end.

Definition _settle_stream (rc : RunContext) (graph : Graph) : M RuntimeState unit :=
  let! record := in_world (RunStore.get rc (rc_run_id rc)) in
  if bool_decide (rr_status record ∈ TERMINAL_STATUSES) then ret tt
  else let! snapshot := aget_state graph rc (rc_run_id rc) in
       _handle_outcome rc (rc_run_id rc) snapshot.

(** [async for chunk in graph.astream(...): _publish(...)] *)
Definition streamed (rc : RunContext) (worker : WorkerDefinition) (graph : Graph)
    (input : gmap pystr json) : M RuntimeState (res unit * list StreamItem) := λ st,
  match astream graph (StartWith input) rc (rc_run_id rc) (wd_recursion_limit worker) st with
  | (Ok s, st') => follow s [] st'
  | (Raise e, st') => ret (Raise e, []) st'
  end.

(** The body of [_drive]'s [try]: the stream, then its settling. *)
Definition drive_body (rc : RunContext) (worker : WorkerDefinition) (graph : Graph)
    (input : gmap pystr json) : M RuntimeState (res unit * list StreamItem) :=
  let! followed := _metered rc worker (streamed rc worker graph input) in
  match followed with
  | (Raise e, published) => ret (Raise e, published)
  | (Ok _, published) =>
      let! settled := outcome_of (_settle_stream rc graph) in
      ret (settled, published)
  end.

(** [_drive]: how the task ends, and everything it published, in order. *)
Definition _drive (rc : RunContext) (worker : WorkerDefinition) (graph : Graph)
    (input : gmap pystr json) : M RuntimeState (res unit * list StreamItem) :=
  let! body := drive_body rc worker graph input in
  match body with
  | (Ok _, published) => ret (Ok tt, published ++ [StreamOver])
  | (Raise exc, published) =>
      if is_cancelled exc then
        let! recorded := outcome_of (_fail rc (rc_run_id rc) exc RUN_CANCELLED "run.cancelled") in
        ret (match recorded with Ok _ => Raise exc | Raise e => Raise e end,
             published ++ [StreamError exc])
      else
        let! _ := outcome_of (_fail rc (rc_run_id rc) exc RUN_FAILED "run.failed") in
        ret (Ok tt, published ++ [StreamError exc])
  end.

(** [stream]: the claim, and then the task it starts. *)
Definition stream (rc : RunContext) (input : gmap pystr json)
    : M RuntimeState (res unit * list StreamItem) :=
  let! claimed := claim rc input in
  let '(rc, worker, graph) := claimed in
  _drive rc worker graph input.
End Runner.

(** ** The reader's queue *)

Definition _STREAM_BACKLOG_LIMIT : nat := 256.

(** [_publish]: when the queue is full its oldest item makes room. *)
Definition _publish (limit : nat) (queue : list StreamItem) (i : StreamItem) : list StreamItem :=
  (if length queue =? limit then tail queue else queue) ++ [i].

(** [_forward], of the items it takes: the chunks it yields and how it ends
    ([None]: still waiting). *)
Fixpoint _forward (items : list StreamItem) : list json * option (res unit) :=
  match items with
  | [] => ([], None)
  | Chunk c :: rest => let '(cs, r) := _forward rest in (c :: cs, r)
  | StreamError e :: _ => ([], Some (Raise e))
  | StreamOver :: _ => ([], Some (Ok tt))
  end.

(** A reader that takes [reads i] items, if there are that many, after the [i]-th
    publication; what it has been given and what is left in the queue. *)
Fixpoint read_along (limit : nat) (reads : nat → nat) (i : nat) (published : list StreamItem)
    (queue taken : list StreamItem) : list StreamItem * list StreamItem :=
  match published with
  | [] => (taken, queue)
  | item :: rest =>
      let queue := _publish limit queue item in
      read_along limit reads (S i) rest (drop (reads i) queue) (taken ++ take (reads i) queue)
  end.

(** ** The streamed runs of this process *)

(** [_running] and [_by_thread]; [ended]: the tasks that are done, whether or not
    their callbacks have run. *)
Record Tasks := {
  ts_running : gset nat;
  ts_by_thread : gmap uuid nat;
  ts_ended : gset nat }.

(** The end of [stream]: the task is kept, and takes its thread's slot. *)
Definition register_task (task : nat) (thread_id : option uuid) (t : Tasks) : Tasks :=
  {| ts_running := {[ task ]} ∪ ts_running t;
     ts_by_thread := match thread_id with
                     | Some th => <[th := task]> (ts_by_thread t)
                     | None => ts_by_thread t
                     end;
     ts_ended := ts_ended t |}.

Definition end_task (task : nat) (t : Tasks) : Tasks :=
  {| ts_running := ts_running t; ts_by_thread := ts_by_thread t;
     ts_ended := {[ task ]} ∪ ts_ended t |}.

(** The callbacks of a task that is done: [_running.discard] and [_forget]. *)
Definition forget_task (task : nat) (thread_id : option uuid) (t : Tasks) : Tasks :=
  {| ts_running := ts_running t ∖ {[ task ]};
     ts_by_thread := match thread_id with
                     | Some th => if bool_decide (ts_by_thread t !! th = Some task)
                                  then delete th (ts_by_thread t) else ts_by_thread t
                     | None => ts_by_thread t
                     end;
     ts_ended := ts_ended t |}.

(** [cancel_thread]: the task it cancels, if there is one; its answer is whether. *)
Definition cancel_thread (thread_id : uuid) (t : Tasks) : option nat :=
  match ts_by_thread t !! thread_id with
  | None => None
  | Some task => if bool_decide (task ∈ ts_ended t) then None else Some task
  end.

(** [drain]: the tasks it still waits for. *)
Definition pending (t : Tasks) : gset nat := ts_running t ∖ ts_ended t.
