(* ===== verification/RunnerLaws.v ===== *)
(** * What a run ends with

    The theorems on [Runner]: every invocation of a graph is settled, the reader
    of a stream is told how it ended, a plan's limit holds. *)

From S2P Require Import Prelude Errors Kernel Domain Contracts Store RunStore ModelBudget ModelGateway UsageMeter Allowance Runner.
Local Open Scope prog_scope.
Local Open Scope pystr_scope.

(** ** States between two operations *)

(** No transaction is open, the runs table keeps its keys and its index, and the
    ids still to be issued name no audit event and no approval request. *)
Record orderly (w : World) : Prop := {
  od_runs : run_inv w;
  od_ids : ∀ n m, ids w n = ids w m → n = m;
  od_audit : ∀ n at_, ids_issued w ≤ n → t_audit (db w) !! (ids w n, at_) = None;
  od_approvals : ∀ n, ids_issued w ≤ n → t_approvals (db w) !! ids w n = None }.

(** The run's row: under this tenant, and active. *)
Definition run_at (w : World) (rc : RunContext) (run_id : uuid) (row : WorkerRunRow) : Prop :=
  t_runs (db w) !! run_id = Some row ∧ wr_tenant_id row = rc_tenant_id rc ∧ wr_active row = true.

Lemma set_status_settles rc run_id row status result error approval w :
  orderly w → run_at w rc run_id row →
  (∀ now, unique_key (update_run status result error approval now row) = None ∨
          unique_key (update_run status result error approval now row) = unique_key row) →
  ∃ w', RunStore.set_status rc run_id status result error approval w = (Ok tt, w') ∧ orderly w' ∧
    t_runs (db w') = <[run_id := update_run status result error approval (db_now w) row]>
                       (t_runs (db w)) ∧
    t_approvals (db w') = t_approvals (db w) ∧ t_audit (db w') = t_audit (db w).
Proof.
  intros [[Hc Hk Hu] Hids Ha Hp] (Hl & Ht & _) Hkey. rewrite set_status_run by done.
  unfold set_status_rows. set (p := visible _ _). set (f := update_run _ _ _ _ _).
  assert (∀ k r, t_runs (db w) !! k = Some r → p r = true → k = run_id ∧ r = row) as Hone.
  { intros k r Hkr Hpr. unfold p, visible in Hpr. to_prop.
    assert (k = run_id) as -> by (rewrite <- (Hk k r Hkr); done). split; [done|congruence]. }
  assert (p row = true) as Hpr.
  { unfold p, visible. simpl. rewrite Ht, bool_decide_eq_true_2 by done.
    apply bool_decide_eq_true_2. exact (Hk run_id row Hl). }
  rewrite (update_rows_one p f _ run_id row) by (done || by intros ?? H1 H2; destruct (Hone _ _ H1 H2)).
  assert (unique_ok (<[run_id := f row]> (t_runs (db w))) = true) as Hu'.
  { rewrite <- (update_rows_one p f _ run_id row)
      by (done || by intros ?? H1 H2; destruct (Hone _ _ H1 H2)).
    apply unique_ok_update; [|done]. intros k r Hkr Hpr'.
    destruct (Hone k r Hkr Hpr') as [-> ->]. apply Hkey. }
  cbv zeta. rewrite Hu'. eexists. split; [done|]. split_and!; [|done..].
  split; [|done|done|done]. split; [done| |exact Hu'].
  intros k r. simpl. rewrite lookup_insert_Some. intros [[<- <-]|[_ Hkr]]; [|by apply Hk].
  exact (Hk run_id row Hl).
Qed.

Lemma audit_settles rc action resource details w :
  orderly w → is_blank action = false →
  ∃ w', _audit rc action resource details w = (Ok tt, w') ∧ orderly w' ∧
    t_runs (db w') = t_runs (db w) ∧ t_approvals (db w') = t_approvals (db w).
Proof.
  intros [[Hc Hk Hu] Hids Ha Hp] Hb.
  set (e := run_audit_event rc action resource details (ids w (ids_issued w)) (utc w (utc_reads w))).
  set (w1 := MkWorld (db w) (saved w) (db_now w) (utc w) (S (utc_reads w)) (ids w)
               (S (ids_issued w)) (effects w)).
  assert (make_audit_event e = Ok e) as He
    by (unfold make_audit_event, audit_event_valid; simpl; by rewrite Hb).
  assert (_audit rc action resource details w =
    try_except (unit_of_work (audit_append (rc_tenant_id rc) e ;;; uow_commit))
      (λ _, raise InfrastructureError "failed to write audit event") w1) as ->.
  { unfold _audit, bind, new_uuid, now_utc, lift_res. cbn [ids utc ids_issued utc_reads db saved db_now
      effects]. fold e. by rewrite He. }
  unfold try_except, unit_of_work, bind, audit_append.
  rewrite (sql_insert_fresh (rc_tenant_id rc) e w1); [|done|by apply Ha|done].
  eexists. split; [done|]. split_and!; [|done..]. split; [done|done|..]; simpl.
  - intros n at_ Hn. rewrite lookup_insert_ne; [apply Ha; lia|].
    intros [= E _]. apply Hids in E. lia.
  - intros n Hn. apply Hp. lia.
Qed.

(** The scope a pause asks for, or why the row cannot hold it. *)
Definition scope_of (payload : gmap pystr json) : res (option pystr) :=
  (stamped_scope (payload !! "required_scope")
     (MkWorld empty_db empty_db 0 (λ _, 0%Z) 0 (λ _, 0%N) 0 [])).1.

Lemma stamped_scope_run payload w :
  stamped_scope (payload !! "required_scope") w = (scope_of payload, w).
Proof.
  unfold scope_of, stamped_scope, ret, raise.
  destruct (payload !! _) as [[]|]; try done. by destruct (required_scope_ok _).
Qed.

(** The request a pause leaves: pending, for this run, asked by its actor. *)
Definition asked (rc : RunContext) (run_id : uuid) (scope : option pystr) (r : ApprovalRequest)
    : Prop :=
  ar_run_id r = Some run_id ∧ ar_tenant_id r = rc_tenant_id rc ∧
  ar_workspace_id r = rc_workspace_id rc ∧ ar_requested_by r = rc_actor_id rc ∧
  ar_status r = PENDING ∧ ar_required_scope r = scope.

Lemma create_approval_settles str_of rc run_id payload w :
  orderly w →
  ∃ w', orderly w' ∧ t_runs (db w') = t_runs (db w) ∧
    let id := ids w (ids_issued w) in
    match scope_of payload with
    | Ok scope => ∃ r, _create_approval str_of rc run_id payload w = (Ok id, w') ∧
        t_approvals (db w') = <[id := r]> (t_approvals (db w)) ∧ asked rc run_id scope r
    | Raise e => _create_approval str_of rc run_id payload w = (Raise e, w') ∧
        t_approvals (db w') = t_approvals (db w)
    end.
Proof.
  intros [[Hc Hk Hu] Hids Ha Hp].
  set (w1 := MkWorld (db w) (saved w) (db_now w) (utc w) (utc_reads w) (ids w)
               (S (ids_issued w)) (effects w)). set (id := ids w (ids_issued w)).
  assert (orderly w1) as Ho.
  { split; [by split|done|..]; simpl; intros n; intros; [apply Ha|apply Hp]; lia. }
  assert (set_db (saved w1) w1 = w1) as Hw1 by (apply set_db_clean; exact Hc).
  assert (_create_approval str_of rc run_id payload w = unit_of_work (
    let! scope := lift_res (scope_of payload) in
    approvals_add (rc_tenant_id rc) (approval_of str_of rc run_id payload scope id) ;;;
    uow_commit ;;;
    ret id) w1) as E.
  { unfold _create_approval, bind, new_uuid, unit_of_work. fold w1 id. cbn [ids ids_issued].
    by rewrite stamped_scope_run. }
  unfold unit_of_work, bind, lift_res in E. destruct (scope_of payload) as [scope|e].
  - set (r := approval_of str_of rc run_id payload scope id) in *.
    unfold approvals_add, bind, get_state in E.
    rewrite (sql_insert_fresh (rc_tenant_id rc) _ w1) in E; [|done|by apply Hp|done].
    eexists. split; [|split; [|eexists; split; [exact E|split; [reflexivity|by split_and!]]]].
    + split; [by split|done|..]; simpl; intros n; [intros; apply Ha; lia|].
      intros Hn. rewrite lookup_insert_ne; [apply Hp; lia|]. intros E'%Hids. lia.
    + done.
  - exists w1. rewrite Hw1 in E. by split_and!.
Qed.

(** ** Settling *)

Section Settling.
Context (str_of : json → pystr) (rc : RunContext) (run_id : uuid).

(** The state after a status was written: what the run's row says, every other
    row as it was. *)
Record written (s s' : RuntimeState) (row : WorkerRunRow) (status : RunStatus)
    (result error : option (gmap pystr json)) (approval : option uuid) : Prop := {
  wn_orderly : orderly (rt_world s');
  wn_runs : ∃ now, t_runs (db (rt_world s')) =
    <[run_id := update_run status result error approval now row]> (t_runs (db (rt_world s)));
  wn_guard : rt_guard s' = rt_guard s }.

Definition status_at (s : RuntimeState) : option RunStatus :=
  rr_status ∘ wr_record <$> t_runs (db (rt_world s)) !! run_id.

Lemma in_world_run {A} (m : Prog A) s r w : m (rt_world s) = (r, w) → in_world m s = (r, set_world w s).
Proof. unfold in_world. by intros ->. Qed.

Lemma terminal_key status result error approval now row :
  status ∈ TERMINAL_STATUSES → unique_key (update_run status result error approval now row) = None.
Proof. intros Hs. simpl. unfold wr_active. simpl. by rewrite bool_decide_eq_true_2. Qed.

Lemma fail_settles s row exc status event :
  orderly (rt_world s) → run_at (rt_world s) rc run_id row →
  status ∈ TERMINAL_STATUSES → is_blank event = false →
  ∃ s', _fail rc run_id exc status event s = (Ok tt, s') ∧
    written s s' row status None (Some (error_of exc)) None ∧
    t_approvals (db (rt_world s')) = t_approvals (db (rt_world s)) ∧
    rt_ledger s' = delete run_id (rt_ledger s).
Proof.
  intros Ho Hr Hst He. unfold _fail.
  destruct (set_status_settles rc run_id row status None (Some (error_of exc)) None (rt_world s) Ho Hr)
    as (w1 & H1 & Ho1 & Hr1 & Ha1 & _); [intros now; left; by apply terminal_key|].
  unfold bind at 1. rewrite (in_world_run _ _ _ _ H1).
  destruct (audit_settles rc event (uuid_str run_id) ∅ w1 Ho1 He) as (w2 & H2 & Ho2 & Hr2 & Ha2).
  unfold bind at 1. rewrite (in_world_run _ (set_world w1 s) _ w2 H2).
  unfold forget, bind, ret. rewrite ledger_forget_run. eexists. split; [done|]. split_and!.
  - split; [exact Ho2|eexists; simpl; by rewrite Hr2, Hr1|done].
  - simpl. by rewrite Ha2, Ha1.
  - done.
Qed.

(** The status a state the graph returned leads to. *)
Definition outcome_status (state : GraphState) : RunStatus :=
  match distinct_interrupts (gs_interrupts state) with
  | [] => RUN_COMPLETED
  | [i] => if is_ok (scope_of (payload_of i)) then RUN_WAITING_APPROVAL else RUN_FAILED
  | _ => RUN_FAILED
  end.

(** The result it is recorded with: the values of a graph that ended. *)
Definition outcome_result (state : GraphState) : option (gmap pystr json) :=
  match distinct_interrupts (gs_interrupts state) with
  | [] => Some (jsonable_dict (gs_values state))
  | _ => None
  end.

(** And the error: of a pause that could not be recorded, or of several at once. *)
Definition unrecorded : exn := Exn InfrastructureError "the approval request could not be recorded".
Definition several_pauses : exn := Exn ConflictError "a step paused on more than one approval".

Definition outcome_error (state : GraphState) : option (gmap pystr json) :=
  match distinct_interrupts (gs_interrupts state) with
  | [] => None
  | [i] => if is_ok (scope_of (payload_of i)) then None else Some (error_of unrecorded)
  | _ => Some (error_of several_pauses)
  end.

(** A run that waits has one approval request, new and pending, of the pause's
    scope. *)
Definition parked (s s' : RuntimeState) (state : GraphState) (id : uuid) : Prop :=
  ∃ i scope r, distinct_interrupts (gs_interrupts state) = [i] ∧
    scope_of (payload_of i) = Ok scope ∧ t_approvals (db (rt_world s)) !! id = None ∧
    t_approvals (db (rt_world s')) = <[id := r]> (t_approvals (db (rt_world s))) ∧
    asked rc run_id scope r.

(** The request the row names, the ledger and the requests. *)
Definition settled (s s' : RuntimeState) (state : GraphState) (approval : option uuid) : Prop :=
  match approval with
  | Some id => outcome_status state = RUN_WAITING_APPROVAL ∧ rt_ledger s' = rt_ledger s ∧
               parked s s' state id
  | None => outcome_status state ≠ RUN_WAITING_APPROVAL ∧
            rt_ledger s' = delete run_id (rt_ledger s) ∧
            t_approvals (db (rt_world s')) = t_approvals (db (rt_world s))
  end.

Lemma waiting_key error approval now row :
  wr_active row = true →
  unique_key (update_run RUN_WAITING_APPROVAL None error approval now row) = unique_key row.
Proof. intros Ha. simpl. by rewrite Ha. Qed.

Lemma park_settles s row i :
  orderly (rt_world s) → run_at (rt_world s) rc run_id row →
  ∃ s', park str_of rc run_id (payload_of i) s = (Ok tt, s') ∧
    match scope_of (payload_of i) with
    | Raise _ => written s s' row RUN_FAILED None (Some (error_of unrecorded)) None ∧
        rt_ledger s' = delete run_id (rt_ledger s) ∧
        t_approvals (db (rt_world s')) = t_approvals (db (rt_world s))
    | Ok scope => ∃ id r, written s s' row RUN_WAITING_APPROVAL None None (Some id) ∧
        rt_ledger s' = rt_ledger s ∧ t_approvals (db (rt_world s)) !! id = None ∧
        t_approvals (db (rt_world s')) = <[id := r]> (t_approvals (db (rt_world s))) ∧
        asked rc run_id scope r
    end.
Proof.
  intros Ho Hr. unfold park, bind at 1, outcome_of.
  destruct (create_approval_settles str_of rc run_id (payload_of i) (rt_world s) Ho)
    as (w1 & Ho1 & Hr1 & Hc). cbv zeta in Hc.
  assert (run_at w1 rc run_id row) as Hat by (unfold run_at; by rewrite Hr1).
  destruct (scope_of (payload_of i)) as [scope|e].
  - destruct Hc as (r & Hc & Ha & Hasked). rewrite (in_world_run _ _ _ _ Hc).
    set (id := ids (rt_world s) (ids_issued (rt_world s))) in *.
    destruct (set_status_settles rc run_id row RUN_WAITING_APPROVAL None None (Some id) w1 Ho1 Hat)
      as (w2 & H2 & Ho2 & Hr2 & Ha2 & _); [intros now; right; apply waiting_key, Hat|].
    unfold bind. rewrite (in_world_run _ (set_world w1 s) _ w2 H2).
    destruct (audit_settles rc "run.waiting_approval" (uuid_str run_id)
      {[ "approval_request_id" := JStr (uuid_str id) ]} w2 Ho2 eq_refl) as (w3 & H3 & Ho3 & Hr3 & Ha3).
    rewrite (in_world_run _ (set_world w2 (set_world w1 s)) _ w3 H3).
    eexists. split; [done|]. exists id, r. split_and!; [|done| |simpl; by rewrite Ha3, Ha2|done].
    + split; [exact Ho3|eexists; simpl; by rewrite Hr3, Hr2, Hr1|done].
    + apply (od_approvals _ Ho). lia.
  - destruct Hc as [Hc Ha]. rewrite (in_world_run _ _ _ _ Hc).
    destruct (fail_settles (set_world w1 s) row unrecorded RUN_FAILED "run.failed"
      Ho1 Hat ltac:(set_solver) eq_refl) as (s' & Hf & Hw & Ha' & Hl').
    unfold unrecorded in Hf. rewrite Hf.
    exists s'. split; [done|]. destruct Hw as [Hwo [now Hwr] Hwg]. split_and!; [|done|by rewrite Ha'].
    split; [done| |done]. exists now. rewrite Hwr. simpl. by rewrite Hr1.
Qed.

Lemma outcome_settles s row state :
  orderly (rt_world s) → run_at (rt_world s) rc run_id row →
  ∃ s' approval, _handle_outcome str_of rc run_id state s = (Ok tt, s') ∧
    written s s' row (outcome_status state) (outcome_result state) (outcome_error state) approval ∧
    settled s s' state approval.
Proof.
  intros Ho Hr.
  unfold _handle_outcome, settled, outcome_status, outcome_result, outcome_error, parked.
  destruct (distinct_interrupts (gs_interrupts state)) as [|i [|j rest]].
  - destruct (set_status_settles rc run_id row RUN_COMPLETED
      (Some (jsonable_dict (gs_values state))) None None (rt_world s) Ho Hr)
      as (w1 & H1 & Ho1 & Hr1 & Ha1 & _); [intros now; left; by apply terminal_key; set_solver|].
    unfold bind at 1. rewrite (in_world_run _ _ _ _ H1).
    destruct (audit_settles rc "run.completed" (uuid_str run_id) ∅ w1 Ho1 eq_refl)
      as (w2 & H2 & Ho2 & Hr2 & Ha2).
    unfold bind at 1. rewrite (in_world_run _ (set_world w1 s) _ w2 H2).
    unfold forget, bind, ret. rewrite ledger_forget_run. eexists _, None. split; [done|].
    split_and!; [|done|done|simpl; by rewrite Ha2, Ha1].
    split; [exact Ho2|eexists; simpl; by rewrite Hr2, Hr1|done].
  - destruct (park_settles s row i Ho Hr) as (s' & Hp' & Hp).
    destruct (scope_of (payload_of i)) as [scope|e] eqn:Hs; cbn [is_ok].
    + destruct Hp as (id & r & Hw & Hl & Hn & Ha & Hk). exists s', (Some id). split; [done|].
      split; [done|]. split_and!; [done|done|]. by exists i, scope, r.
    + destruct Hp as (Hw & Hl & Ha). exists s', None. by split_and!.
  - destruct (fail_settles s row several_pauses
      RUN_FAILED "run.failed" Ho Hr ltac:(set_solver) eq_refl) as (s' & Hf & Hw & Ha & Hl).
    unfold several_pauses in Hf. rewrite Hf. exists s', None. by split_and!.
Qed.
End Settling.

(** What a graph, a tracker or another task may do while a run is theirs. *)
Definition holds (rc : RunContext) (run_id : uuid) (s : RuntimeState) : Prop :=
  orderly (rt_world s) ∧ ∃ row, run_at (rt_world s) rc run_id row.

Section Wiring.
Context (workers : gmap (pystr * pystr) WorkerDefinition) (graphs : gmap (pystr * pystr) Graph)
  (plans : gmap pystr Plan) (spend_store : bool) (stale : Z) (policy_version : pystr)
  (manifest : option pystr) (usage_meter : option (Tracker → RuntimeState → RuntimeState))
  (str_of : json → pystr).

(** Graphs and trackers leave the run's row active and the database in order;
    they may do anything else. *)
Record well_wired : Prop := {
  ww_invoke : ∀ key g input rc run_id limit s, graphs !! key = Some g →
    holds rc run_id s → holds rc run_id (ainvoke g input rc run_id limit s).2;
  ww_meter : ∀ record t rc run_id s, usage_meter = Some record →
    holds rc run_id s → holds rc run_id (record t s) }.

Context (Hw : well_wired).

Lemma metered_holds {A} rc run_id worker (m : M RuntimeState A) s :
  (∀ s, holds rc run_id s → holds rc run_id (m s).2) →
  holds rc run_id s → holds rc run_id (_metered usage_meter rc worker m s).2.
Proof.
  intros Hm Hs. unfold _metered. destruct usage_meter as [record|] eqn:E; [|auto].
  unfold try_finally. specialize (Hm s Hs). destruct (m s) as [r s1]. simpl in *.
  by apply (ww_meter Hw).
Qed.

(** The graph is run, and what it ends with is written to the run's row. *)
Definition conclude (rc : RunContext) (run_id : uuid) (m : M RuntimeState GraphState)
    : M RuntimeState unit :=
  let! state := invoked rc run_id m in _handle_outcome str_of rc run_id state.

(** The run's row in [s'] is the one of [s2] with this ending, and the rows of
    all other runs are those of [s2]. *)
Definition ended_as (run_id : uuid) (s2 s' : RuntimeState) (status : RunStatus)
    (result error : option (gmap pystr json)) (approval : option uuid) : Prop :=
  ∃ row now, t_runs (db (rt_world s2)) !! run_id = Some row ∧
    t_runs (db (rt_world s')) =
      <[run_id := update_run status result error approval now row]> (t_runs (db (rt_world s2))).

(** How an invocation that ended with [answer] in [s2] concludes in [s']. *)
Definition concluded (rc : RunContext) (run_id : uuid) (answer : res GraphState)
    (s2 : RuntimeState) (r : res unit) (s' : RuntimeState) : Prop :=
  match answer with
  | Raise e =>
      r = Raise e ∧
      if is_cancelled e then s' = s2
      else ended_as run_id s2 s' RUN_FAILED None (Some (error_of e)) None ∧
           rt_ledger s' = delete run_id (rt_ledger s2) ∧
           t_approvals (db (rt_world s')) = t_approvals (db (rt_world s2))
  | Ok state =>
      r = Ok tt ∧ ∃ approval,
        ended_as run_id s2 s' (outcome_status state) (outcome_result state) (outcome_error state)
          approval ∧
        settled rc run_id s2 s' state approval
  end.

Lemma conclude_exact rc run_id m s :
  holds rc run_id (m s).2 →
  concluded rc run_id (m s).1 (m s).2 (conclude rc run_id m s).1 (conclude rc run_id m s).2.
Proof.
  clear Hw. intros (Ho & row & Hr). unfold concluded, conclude, bind, invoked, try_exception, try_except.
  destruct (m s) as [[state|e] s2]; simpl in *.
  - destruct (outcome_settles str_of rc run_id s2 row state Ho Hr)
      as (s' & approval & -> & [_ [now Hwr] _] & Hset).
    split; [done|]. exists approval. split; [|done]. exists row, now. split; [apply Hr|done].
  - destruct (is_cancelled e) eqn:Ec; simpl; [done|]. unfold bind.
    destruct (fail_settles rc run_id s2 row e RUN_FAILED "run.failed" Ho Hr ltac:(set_solver) eq_refl)
      as (s' & -> & [_ [now Hwr] _] & Ha & Hl). unfold reraise. simpl.
    split; [done|]. split_and!; [|done|done]. exists row, now. split; [apply Hr|done].
Qed.

(** ** The claim *)

Lemma create_holds rc worker input w w' :
  orderly w → RunStore.create stale rc worker input manifest w = (Ok tt, w') →
  orderly w' ∧ ∃ now, t_runs (db w') !! rc_run_id rc = Some (new_run_row rc worker input manifest now).
Proof.
  intros [Hi Hids Ha Hp] Hc. destruct (create_new_row _ _ _ _ _ _ _ Hi Hc) as [now Hrow].
  split; [|eauto]. pose proof (run_inv_create stale rc worker input manifest w Hi) as Hi'.
  rewrite Hc in Hi'. simpl in Hi'.
  assert (t_audit (db w') = t_audit (db w) ∧ t_approvals (db w') = t_approvals (db w) ∧
          ids w' = ids w ∧ ids_issued w' = ids_issued w) as (E1 & E2 & E3 & E4).
  { destruct Hi as [Hcl Hk Hu]. destruct (t_runs (db w) !! rc_run_id rc) as [old|] eqn:Hid.
    { by rewrite create_key_taken in Hc by eauto. }
    destruct (holder_dec (t_runs (db w)) (rc_tenant_id rc) (thread_of rc)) as [[[k row] Hh]|Hn].
    - rewrite (create_run _ _ _ _ _ (Some (k, row))) in Hc by done. unfold create_outcome_of in Hc.
      case_decide; [done|]. destruct (is_stale _ _ _ _); [|done]. by injection Hc as <-.
    - rewrite (create_run _ _ _ _ _ None) in Hc by done. by injection Hc as <-. }
  split; [done|by rewrite E3|..]; rewrite ?E1, ?E2, ?E3, ?E4; done.
Qed.

Lemma allowance_orderly rc s s' u :
  require_allowance plans spend_store rc s = (Ok u, s') → orderly (rt_world s) →
  orderly (rt_world s') ∧ rt_ledger s' = rt_ledger s ∧ db (rt_world s') = db (rt_world s).
Proof.
  intros H [[Hcl Hk Hu] Hids Ha Hp].
  pose proof (allowance_exact plans spend_store rc s) as [(E1 & E2 & _ & E3 & E4 & E5 & _) _].
  rewrite H in *. simpl in *. split; [|done].
  split; [split|..]; unfold clean in *; rewrite ?E1, ?E2, ?E3, ?E4; done.
Qed.

Notation claimed := (claim workers graphs plans spend_store stale policy_version manifest).

(** What a claim leaves: the run's row, running, as the worker and the level of the
    run say. *)
Lemma claim_holds rc input s rc' worker graph s' :
  orderly (rt_world s) → claimed rc input s = (Ok (rc', worker, graph), s') →
  rc' = _with_autonomy policy_version rc worker ∧
  workers !! (rc_worker_id rc, rc_worker_version rc) = Some worker ∧
  graphs !! (wd_worker_id worker, wd_graph_version worker) = Some graph ∧
  holds rc' (rc_run_id rc) s' ∧ status_at (rc_run_id rc) s' = Some RUN_RUNNING ∧
  rt_ledger s' = rt_ledger s.
Proof.
  intros Ho Hc. unfold claim in Hc.
  apply bind_ok in Hc as (w0 & s1 & Hw0 & Hc). unfold lift_res, registry_resolve in Hw0.
  destruct (workers !! _) as [w|] eqn:Ew; [|done]. injection Hw0 as <- <-.
  apply bind_ok in Hc as (u & s2 & Hal & Hc).
  destruct (allowance_orderly _ _ _ _ Hal Ho) as (Ho2 & Hl2 & _).
  apply bind_ok in Hc as (g & s3 & Hg & Hc). unfold lift_res, _graph, registry_resolve in Hg.
  destruct (graphs !! _) as [g'|] eqn:Eg; [|done]. injection Hg as <- <-.
  apply bind_ok in Hc as ([] & s4 & Hcr & Hc). unfold in_world in Hcr.
  destruct (RunStore.create _ _ _ _ _ (rt_world s2)) as [r4 w4] eqn:Ecr. injection Hcr as -> <-.
  destruct (create_holds _ _ _ _ _ Ho2 Ecr) as (Ho4 & now & Hrow).
  destruct (audit_settles (_with_autonomy policy_version rc w) "run.started"
    (uuid_str (rc_run_id (_with_autonomy policy_version rc w))) ∅ w4 Ho4 eq_refl)
    as (w5 & H5 & Ho5 & Hr5 & _).
  unfold bind in Hc. rewrite (in_world_run _ (set_world w4 s2) _ w5 H5) in Hc.
  unfold ret in Hc. injection Hc as <- <- <- <-.
  assert (run_at w5 (_with_autonomy policy_version rc w) (rc_run_id rc)
    (new_run_row (_with_autonomy policy_version rc w) w input manifest now)) as Hat.
  { unfold run_at. rewrite Hr5. split_and!; [exact Hrow|done|done]. }
  split_and!; [done|done|done| | |done].
  - split; [exact Ho5|]. eauto.
  - unfold status_at. simpl. destruct Hat as [-> _]. done.
Qed.
End Wiring.

(** ** Properties *)

(** C5: once a run is claimed and its graph invoked without being cancelled, its row is the
    graph's row of it updated to completed, failed or waiting for an approval, with the
    result and error computed from the graph's state or its exception, and concluding
    leaves the row of every other run as the graph left it; a terminal run's ledger
    entry is gone and nothing else of the ledger, a waiting one keeps its entry and
    points at the approval recorded for it. A claim that raises is the whole run, and a
    cancelled invocation writes nothing more. Graphs and trackers may do anything but
    finish the run's row or leave a transaction open, and the ids still to be issued are
    new. *)
Theorem start_concludes workers graphs plans spend_store stale policy_version manifest usage_meter
    str_of rc input s :
  well_wired graphs usage_meter → orderly (rt_world s) →
  let claimed := claim workers graphs plans spend_store stale policy_version manifest rc input s in
  let started := start workers graphs plans spend_store stale policy_version manifest usage_meter
                   str_of rc input s in
  match claimed.1 with
  | Raise e => started = (Raise e, claimed.2)
  | Ok (rc', worker, graph) =>
      let run_id := rc_run_id rc in
      let answered := _metered usage_meter rc' worker (ainvoke graph (StartWith input) rc' run_id
                        (wd_recursion_limit worker)) claimed.2 in
      status_at run_id claimed.2 = Some RUN_RUNNING ∧
      rc_autonomy_level rc' =
        Some (lower_autonomy (wd_autonomy_level worker) (rc_autonomy_ceiling rc)) ∧
      ∃ r, concluded rc' run_id answered.1 answered.2 r started.2 ∧
           started.1 = match r with Ok _ => Ok run_id | Raise e => Raise e end
  end.
Proof.
  intros Hw Ho claimed started. subst claimed started.
  destruct (claim workers graphs plans spend_store stale policy_version manifest rc input s)
    as [[[[rc' worker] graph]|e] s1] eqn:Ec; cbn [fst snd]; [|unfold start, bind; by rewrite Ec].
  destruct (claim_holds _ _ _ _ _ _ _ _ _ _ _ _ _ _ Ho Ec) as (-> & _ & Hg & Hh & Hst & _).
  cbv zeta. split; [done|]. split; [done|].
  set (rc' := _with_autonomy policy_version rc worker) in *. set (m := _metered usage_meter rc' worker _).
  assert (holds rc' (rc_run_id rc) (m s1).2) as Hm.
  { apply (metered_holds graphs usage_meter Hw); [|done]. intros s2 H2. by eapply (ww_invoke _ _ Hw). }
  exists (conclude str_of rc' (rc_run_id rc) m s1).1.
  assert (start workers graphs plans spend_store stale policy_version manifest usage_meter str_of rc
            input s =
    (match (conclude str_of rc' (rc_run_id rc) m s1).1 with
     | Ok _ => Ok (rc_run_id rc) | Raise e => Raise e end,
     (conclude str_of rc' (rc_run_id rc) m s1).2)) as ->.
  { unfold start, bind at 1. rewrite Ec. unfold conclude, bind.
    change (rc_run_id rc') with (rc_run_id rc). fold m.
    destruct (invoked rc' (rc_run_id rc) m s1) as [[state|e] s2]; [|done].
    by destruct (_handle_outcome str_of rc' (rc_run_id rc) state s2) as [[[]|e] s3]. }
  split; [|done]. by apply conclude_exact.
Qed.

Lemma bind_lift_ok {S A B} (a : A) (k : A → M S B) s : bind (lift_res (Ok a)) k s = k a s.
Proof. done. Qed.

(** Resuming replays the versions the run started with, and only a run that waits;
    a refusal changes nothing. *)
Theorem resume_concludes workers graphs usage_meter str_of rc run_id payload s :
  well_wired graphs usage_meter → orderly (rt_world s) →
  let resumed := resume workers graphs usage_meter str_of rc run_id payload s in
  match (RunStore.get rc run_id (rt_world s)).1 with
  | Raise e => resumed = (Raise e, s)
  | Ok record =>
      match workers !! (rr_worker_id record, rr_worker_version record),
            graphs !! (rr_worker_id record, rr_graph_version record),
            bool_decide (rr_status record = RUN_WAITING_APPROVAL) with
      | Some worker, Some graph, true =>
          ∃ s1, t_runs (db (rt_world s1)) = t_runs (db (rt_world s)) ∧ rt_ledger s1 = rt_ledger s ∧
            let answered := _metered usage_meter rc worker (ainvoke graph (CommandResume payload) rc
                              run_id (wd_recursion_limit worker)) s1 in
            concluded rc run_id answered.1 answered.2 resumed.1 resumed.2
      | _, _, _ => ∃ msg, resumed = (Raise (Exn ConflictError msg), s)
      end
  end.
Proof.
  intros Hw Ho resumed. subst resumed.
  assert (in_world (RunStore.get rc run_id) s = ((RunStore.get rc run_id (rt_world s)).1, s)) as Hg.
  { unfold in_world. rewrite get_run. by destruct s. }
  destruct (RunStore.get rc run_id (rt_world s)).1 as [record|e] eqn:Er;
    [|unfold resume, bind; by rewrite Hg].
  assert (∀ A (k : RunRecord → M RuntimeState A), bind (in_world (RunStore.get rc run_id)) k s = k record s)
    as Hbind by (intros; unfold bind; by rewrite Hg).
  unfold resume. rewrite Hbind. clear Hbind Hg.
  case_bool_decide as Hst; cbn [negb].
  2: { by destruct (workers !! (rr_worker_id record, rr_worker_version record)),
         (graphs !! (rr_worker_id record, rr_graph_version record)); eexists. }
  unfold hosts, _graph, registry_resolve.
  destruct (graphs !! (rr_worker_id record, rr_graph_version record)) as [graph|] eqn:Eg;
    [|by destruct (workers !! (rr_worker_id record, rr_worker_version record)); eexists].
  destruct (workers !! (rr_worker_id record, rr_worker_version record)) as [worker|] eqn:Ew;
    [|by eexists]. cbn [is_ok andb negb].
  destruct (audit_settles rc "run.resumed" (uuid_str run_id) ∅ (rt_world s) Ho eq_refl)
    as (w1 & H1 & Ho1 & Hr1 & _).
  exists (set_world w1 s). split; [exact Hr1|]. split; [done|]. cbv zeta.
  set (m := _metered usage_meter rc worker _).
  assert (holds rc run_id (m (set_world w1 s)).2) as Hm.
  { apply (metered_holds graphs usage_meter Hw).
    - intros s2 H2. by eapply (ww_invoke _ _ Hw).
    - split; [exact Ho1|]. rewrite get_run in Er. simpl in Er.
      destruct Ho as [[Hcl Hk Hu] _ _ _]. unfold clean in Hcl. rewrite Hcl in Er.
      destruct (t_runs (db (rt_world s)) !! run_id) as [row|] eqn:Hrow; [|done].
      destruct (_ && _) eqn:Ht; [|done]. injection Er as <-. to_prop. exists row.
      split_and!; [simpl; by rewrite Hr1|done|]. unfold wr_active. rewrite Hst.
      by rewrite bool_decide_eq_false_2 by set_solver. }
  assert (∀ k : unit → M RuntimeState unit,
    bind (in_world (_audit rc "run.resumed" (uuid_str run_id) ∅)) k s = k tt (set_world w1 s)) as Ha.
  { intros k. unfold bind. by rewrite (in_world_run _ _ _ _ H1). }
  rewrite !bind_lift_ok, Ha. exact (conclude_exact str_of rc run_id m _ Hm).
Qed.

(** ** The plan's limit *)

Definition started_by (tenant : uuid) (now : datetime) (w : World) : nat :=
  count_rows (visible tenant (λ row : WorkerRunRow, day_start now <=? wr_created_at row)%Z)
    (t_runs (db w)).

Lemma count_rows_insert {R K} `{SqlTable R K} (p : R → bool) (t : gmap K R) k r :
  t !! k = None → count_rows p (<[k := r]> t) ≤ S (count_rows p t).
Proof.
  intros Hk. unfold count_rows. destruct (p r) eqn:Hp.
  - rewrite map_filter_insert_True by done. rewrite map_size_insert_None; [lia|].
    apply map_lookup_filter_None. by left.
  - rewrite map_filter_insert_not'; [lia|simpl; by rewrite Hp|congruence].
Qed.

Lemma create_count stale rc worker input manifest w w' now :
  orderly w → RunStore.create stale rc worker input manifest w = (Ok tt, w') →
  started_by (rc_tenant_id rc) now w' ≤ S (started_by (rc_tenant_id rc) now w).
Proof.
  intros [[Hcl Hk Hu] _ _ _] Hc. unfold started_by.
  destruct (t_runs (db w) !! rc_run_id rc) as [old|] eqn:Hid.
  { by rewrite create_key_taken in Hc by eauto. }
  destruct (holder_dec (t_runs (db w)) (rc_tenant_id rc) (thread_of rc)) as [[[k row] Hh]|Hn].
  - rewrite (create_run _ _ _ _ _ (Some (k, row))) in Hc by done. unfold create_outcome_of in Hc.
    case_decide; [done|]. destruct (is_stale _ _ _ _); [|done]. injection Hc as <-. simpl.
    pose proof Hh as (Hl & Ht & _).
    cbn [fst snd] in *. assert (k ≠ rc_run_id rc) as Hne by congruence.
    etrans; [apply count_rows_insert; by rewrite lookup_insert_ne|].
    apply le_n_S. unfold count_rows. apply Nat.eq_le_incl.
    set (f := update_run RUN_FAILED None (Some stale_error) None (db_now w) row).
    set (p := visible _ _). assert (p f = p row) as Hp by done.
    destruct (p row) eqn:Hrow.
    + rewrite map_filter_insert_True by (simpl; by rewrite Hp).
      rewrite map_size_insert_Some; [done|]. exists row. apply map_lookup_filter_Some. by split.
    + rewrite map_filter_insert_False by (simpl; by rewrite Hp).
      rewrite map_filter_delete. rewrite delete_id; [done|].
      apply map_lookup_filter_None. right. intros r Hr. simpl. replace r with row by congruence.
      by rewrite Hrow.
  - rewrite (create_run _ _ _ _ _ None) in Hc by done. injection Hc as <-. simpl.
    by apply count_rows_insert.
Qed.

(** C30: a start that goes through leaves its tenant with at most as many runs started since
    UTC midnight, this one included, as its plan allows a day, when starts follow one
    another. *)
Theorem plan_limit_holds workers graphs plans spend_store stale policy_version manifest rc input s
    claimed s' limit :
  orderly (rt_world s) →
  claim workers graphs plans spend_store stale policy_version manifest rc input s = (Ok claimed, s') →
  runs_per_day plans (rc_plan_id rc) = Some limit →
  (Z.of_nat (started_by (rc_tenant_id rc) (utc (rt_world s) (utc_reads (rt_world s)))
     (rt_world s')) ≤ limit)%Z.
Proof.
  intros Ho Hc Hl. unfold claim in Hc.
  apply bind_ok in Hc as (w0 & s1 & Hw0 & Hc). unfold lift_res, registry_resolve in Hw0.
  destruct (workers !! _) as [w|] eqn:Ew; [|done]. injection Hw0 as <- <-.
  apply bind_ok in Hc as (u & s2 & Hal & Hc). destruct u.
  destruct (allowance_orderly plans spend_store _ _ _ _ Hal Ho) as (Ho2 & _ & Hd2).
  pose proof (allowance_exact plans spend_store (_with_autonomy policy_version rc w) s) as (_ & [Hok _] & _).
  rewrite Hal in Hok. destruct (Hok eq_refl) as [Hlim _]. specialize (Hlim limit Hl). clear Hok.
  apply bind_ok in Hc as (g & s3 & Hg & Hc). unfold lift_res, _graph, registry_resolve in Hg.
  destruct (graphs !! _) as [g'|] eqn:Eg; [|done]. injection Hg as <- <-.
  apply bind_ok in Hc as ([] & s4 & Hcr & Hc). unfold in_world in Hcr.
  destruct (RunStore.create _ _ _ _ _ (rt_world s2)) as [r4 w4] eqn:Ecr. injection Hcr as -> <-.
  pose proof (create_count _ _ _ _ _ _ _ (utc (rt_world s) (utc_reads (rt_world s))) Ho2 Ecr) as Hcount.
  destruct (create_holds _ _ _ _ _ _ _ Ho2 Ecr) as (Ho4 & _).
  destruct (audit_settles (_with_autonomy policy_version rc w) "run.started"
    (uuid_str (rc_run_id (_with_autonomy policy_version rc w))) ∅ w4 Ho4 eq_refl)
    as (w5 & H5 & Ho5 & Hr5 & _).
  unfold bind in Hc. rewrite (in_world_run _ (set_world w4 s2) _ w5 H5) in Hc.
  unfold ret in Hc. injection Hc as _ <-. simpl.
  unfold started_by in *. rewrite Hr5. rewrite Hd2 in Hcount.
  assert (started_today (rc_tenant_id rc) (utc (rt_world s) (utc_reads (rt_world s))) (rt_world s) =
    count_rows (visible (rc_tenant_id rc) (λ row : WorkerRunRow,
      day_start (utc (rt_world s) (utc_reads (rt_world s))) <=? wr_created_at row)%Z)
      (t_runs (db (rt_world s)))) as E.
  { unfold started_today. destruct Ho as [[Hcl _ _] _ _ _]. unfold clean in Hcl. by rewrite Hcl. }
  cbn [rc_tenant_id _with_autonomy] in *. rewrite E in Hlim. lia.
Qed.

(** ** The reader of a stream *)

Definition is_chunk (i : StreamItem) : bool := match i with Chunk _ => true | _ => false end.

(** How a task's end is told. *)
Definition told (end_ : StreamItem) : res unit :=
  match end_ with StreamError e => Raise e | _ => Ok tt end.

Lemma follow_chunks : ∀ s published st r items st',
  forallb is_chunk published = true → follow s published st = (Ok (r, items), st') →
  forallb is_chunk items = true.
Proof.
  fix IH 1. intros [|step] published st r items st' Hp; simpl.
  - by intros [= _ <- _].
  - destruct (step st) as [[[chunk rest]|e] st1].
    + apply IH. by rewrite forallb_app, Hp.
    + by intros [= _ <- _].
Qed.

Lemma chunks_fmap items : forallb is_chunk items = true → ∃ cs, items = Chunk <$> cs.
Proof.
  induction items as [|[c|e|] items IH]; simpl; [by exists []| |done|done].
  intros H. destruct (IH H) as [cs ->]. by exists (c :: cs).
Qed.

(** The body of the task always comes to an end, with what it published so far. *)
Lemma drive_body_total usage_meter str_of rc worker graph input st :
  ∃ r items st', drive_body usage_meter str_of rc worker graph input st = (Ok (r, items), st') ∧
    forallb is_chunk items = true.
Proof.
  unfold drive_body. set (m := streamed rc worker graph input).
  assert (∃ r items st1, _metered usage_meter rc worker m st = (Ok (r, items), st1) ∧
            forallb is_chunk items = true) as (r & items & st1 & Hm & Hc).
  { assert (∃ r items st1, m st = (Ok (r, items), st1) ∧ forallb is_chunk items = true)
      as (r & items & st1 & Hm & Hc).
    { subst m. unfold streamed. destruct (astream _ _ _ _ _ st) as [[s|e] st1]; [|by eexists _, [], _].
      assert (∀ s published st, ∃ r items st', follow s published st = (Ok (r, items), st')) as Hf.
      { clear. fix IH 1. intros [|step] published st; simpl; [by eexists _, _, _|].
        destruct (step st) as [[[chunk rest]|e] st1]; [apply IH|by eexists _, _, _]. }
      destruct (Hf s [] st1) as (r & items & st2 & Hr). exists r, items, st2. split; [done|].
      by eapply follow_chunks; [|exact Hr]. }
    unfold _metered. destruct usage_meter; [|by eexists _, _, _].
    unfold try_finally. rewrite Hm. by eexists _, _, _. }
  unfold bind at 1. rewrite Hm. destruct r as [[]|e]; [|by eexists _, _, _].
  unfold bind, outcome_of. destruct (_settle_stream str_of rc graph st1) as [r2 st2].
  by eexists _, _, _.
Qed.

Lemma drive_published usage_meter str_of rc worker graph input st :
  ∃ r chunks end_ st',
    _drive usage_meter str_of rc worker graph input st = (Ok (r, (Chunk <$> chunks) ++ [end_]), st') ∧
    is_chunk end_ = false.
Proof.
  destruct (drive_body_total usage_meter str_of rc worker graph input st)
    as (r & items & st1 & Hb & Hc).
  destruct (chunks_fmap items Hc) as [cs ->]. unfold _drive, bind at 1. rewrite Hb.
  destruct r as [u|e]; [by eexists _, cs, _, _|].
  destruct (is_cancelled e); unfold bind, outcome_of;
    destruct (_fail _ _ _ _ _ st1) as [r2 st2]; by eexists _, cs, _, _.
Qed.

(** Whatever the reader's pace, it is left with the last item published, after
    some of the others in their order; all of them when the queue never fills. *)
Lemma read_along_spec limit reads : ∀ published i queue taken last_,
  0 < limit →
  let '(taken', queue') := read_along limit reads i (published ++ [last_]) queue taken in
  ∃ kept, taken' ++ queue' = kept ++ [last_] ∧ kept `sublist_of` (taken ++ queue ++ published) ∧
    (length queue + length published < limit → kept = taken ++ queue ++ published).
Proof.
  assert (∀ queue taken item i, 0 < limit →
    let q := _publish limit queue item in
    ∃ kept, (taken ++ take (reads i) q) ++ drop (reads i) q = kept ++ [item] ∧
      kept `sublist_of` (taken ++ queue) ∧
      (length queue < limit → kept = taken ++ queue)) as Hone.
  { intros queue taken item i Hl q. rewrite <- (assoc_L (++)), take_drop. subst q. unfold _publish.
    destruct (Nat.eqb_spec (length queue) limit) as [He|Hne]; rewrite (assoc_L (++)).
    - exists (taken ++ tail queue). split; [done|]. split; [|lia].
      apply sublist_skips_l_inv || apply sublist_app; [done|].
      destruct queue; [done|]. by apply sublist_cons.
    - exists (taken ++ queue). by split_and!. }
  induction published as [|item rest IH]; intros i queue taken last_ Hl; simpl.
  - destruct (Hone queue taken last_ i Hl) as (kept & -> & Hs & Hk). exists kept.
    rewrite app_nil_r. split_and!; [done|done|]. intros. apply Hk. lia.
  - set (q := _publish limit queue item).
    specialize (IH (S i) (drop (reads i) q) (taken ++ take (reads i) q) last_ Hl).
    destruct (read_along _ _ _ _ _ _) as [taken' queue']. destruct IH as (kept & -> & Hs & Hk).
    exists kept. split; [done|]. rewrite !(assoc_L (++)) in *.
    destruct (Hone queue taken item i Hl) as (k1 & E1 & Hs1 & Hk1). fold q in E1.
    rewrite E1 in Hs, Hk. split.
    + etrans; [exact Hs|]. rewrite (cons_middle item (taken ++ queue) rest), (assoc_L (++)).
      by repeat apply sublist_app.
    + intros Hlen. rewrite Hk.
      * rewrite Hk1 by lia. by rewrite <- !(assoc_L (++)).
      * rewrite length_drop. subst q. unfold _publish. rewrite length_app. simpl.
        destruct (Nat.eqb_spec (length queue) limit); [lia|]. lia.
Qed.

Lemma forward_chunks cs end_ :
  is_chunk end_ = false → _forward ((Chunk <$> cs) ++ [end_]) = (cs, Some (told end_)).
Proof.
  intros He. induction cs as [|c cs IH]; [by destruct end_|].
  rewrite fmap_cons, <- app_comm_cons. cbn [_forward]. by rewrite IH.
Qed.

Lemma sublist_chunks (l : list StreamItem) cs :
  l `sublist_of` (Chunk <$> cs) → ∃ cs', l = Chunk <$> cs' ∧ cs' `sublist_of` cs.
Proof.
  revert l. induction cs as [|c cs IH]; intros l; simpl.
  - intros ->%sublist_nil_r. by exists [].
  - intros [Hl|(l' & -> & Hl)]%sublist_cons_r.
    + destruct (IH l Hl) as (cs' & -> & Hs). exists cs'. split; [done|]. by apply sublist_cons.
    + destruct (IH l' Hl) as (cs' & -> & Hs). exists (c :: cs'). split; [done|]. by apply sublist_skip.
Qed.

(** Whatever a streamed run does and however slowly its reader takes the chunks, a reader
    that goes on reading is told how the run ended, with the run's own exception if it
    failed; the chunks it was given are some of the published ones in their order, and a
    reader that keeps up is given all of them. *)
Theorem reader_is_told usage_meter str_of rc worker graph input st reads :
  ∃ r chunks end_ st',
    _drive usage_meter str_of rc worker graph input st = (Ok (r, (Chunk <$> chunks) ++ [end_]), st') ∧
    let '(taken, queue) :=
      read_along _STREAM_BACKLOG_LIMIT reads 0 ((Chunk <$> chunks) ++ [end_]) [] [] in
    ∃ seen, _forward (taken ++ queue) = (seen, Some (told end_)) ∧ seen `sublist_of` chunks ∧
      (length chunks < _STREAM_BACKLOG_LIMIT → seen = chunks).
Proof.
  destruct (drive_published usage_meter str_of rc worker graph input st)
    as (r & chunks & end_ & st' & Hd & He).
  exists r, chunks, end_, st'. split; [exact Hd|].
  pose proof (read_along_spec _STREAM_BACKLOG_LIMIT reads (Chunk <$> chunks) 0 [] [] end_) as Hr.
  destruct (read_along _ _ _ _ _ _) as [taken queue].
  destruct Hr as (kept & -> & Hs & Hk); [unfold _STREAM_BACKLOG_LIMIT; lia|].
  destruct (sublist_chunks kept chunks Hs) as (seen & -> & Hseen). exists seen.
  rewrite forward_chunks by done. split_and!; [done|done|]. intros Hlen.
  rewrite length_fmap in Hk. specialize (Hk Hlen). simpl in Hk.
  apply (f_equal (λ l, (_forward (l ++ [StreamOver])).1)) in Hk.
  by rewrite !forward_chunks in Hk.
Qed.

(** ** Concrete instances *)

(** A graph that pauses on one approval when it starts, and ends when resumed. *)
Definition example_graph : Graph :=
  {| ainvoke input _ _ _ :=
       match input with
       | StartWith _ => ret {| gs_values := ∅; gs_interrupts := [
           {| it_id := Some "i1"; it_value := JObj [("required_scope", JStr "notes.publish")]%py |}] |}
       | CommandResume _ => ret {| gs_values := {[ "done" := JBool true ]}; gs_interrupts := [] |}
       end;
     astream _ _ _ _ := ret StreamEnd;
     aget_state _ _ := ret {| gs_values := ∅; gs_interrupts := [] |} |}.

Definition example_graphs : gmap (pystr * pystr) Graph :=
  {[ ("assistant", "2.0.0")%py := example_graph ]}.
Definition example_workers : gmap (pystr * pystr) WorkerDefinition :=
  {[ ("assistant", "1.0.0")%py := example_worker ]}.
Definition example_plans : gmap pystr Plan :=
  {[ "pro" := plan_of "pro" "Pro" {[ "knowledge_search" ]} 1 ]}.

Lemma example_wired : well_wired example_graphs None.
Proof.
  split; [|done]. intros key g input rc run_id limit s Hg Hs.
  unfold example_graphs in Hg. apply lookup_singleton_Some in Hg as [_ <-]. by destruct input.
Qed.

Lemma example_orderly : orderly (rt_world example_state).
Proof. split; [split; done|..]; simpl; intros; try apply lookup_empty. lia. Qed.

Definition example_start : res uuid * RuntimeState :=
  start example_workers example_graphs example_plans false 600 AUTONOMY_POLICY_VERSION None None
    (λ _, PyStr []) (example_run_context 10 7) ∅ example_state.

(** The run parks on its one approval. *)
Lemma start_concludes_witness :
  status_at 10 example_start.2 = Some RUN_WAITING_APPROVAL ∧ example_start.1 = Ok 10%N.
Proof.
  pose proof (start_concludes example_workers example_graphs example_plans false 600
    AUTONOMY_POLICY_VERSION None None (λ _, PyStr []) (example_run_context 10 7) ∅ example_state
    example_wired example_orderly) as H.
  cbv zeta in H.
  destruct (claim _ _ _ _ _ _ _ _ _ example_state) as [[[[rc' worker] graph]|e] s1] eqn:Ec in H;
    [|vm_compute in Ec; discriminate Ec].
  assert (graph = example_graph) as ->.
  { destruct (claim_holds _ _ _ _ _ _ _ _ _ _ _ _ _ _ example_orderly Ec) as (_ & Hw & Hg & _).
    change (example_workers !! ("assistant"%py, "1.0.0"%py)) with (Some example_worker) in Hw.
    injection Hw as <-. change (Some example_graph = Some graph) in Hg. by injection Hg. }
  destruct H as (_ & _ & r & (-> & approval & (row & now & _ & Hrow) & _) & Hr).
  split; [|exact Hr]. unfold status_at. fold example_start in Hrow. rewrite Hrow, lookup_insert_eq. reflexivity.
Defined.

(** With a limit of one run a day, one is started and a second is refused. *)
Lemma plan_limit_holds_witness :
  (Z.of_nat (started_by 1 (seconds 43200) (rt_world (claim example_workers example_graphs example_plans
     false 600 AUTONOMY_POLICY_VERSION None (example_run_context 10 7) ∅ example_state).2)) ≤ 1)%Z.
Proof.
  destruct (claim example_workers example_graphs example_plans false 600 AUTONOMY_POLICY_VERSION None
    (example_run_context 10 7) ∅ example_state) as [[c|e] s1] eqn:Ec; [|vm_compute in Ec; discriminate Ec].
  exact (plan_limit_holds example_workers example_graphs example_plans false 600
    AUTONOMY_POLICY_VERSION None (example_run_context 10 7) ∅ example_state c s1 1 example_orderly Ec
    eq_refl).
Defined.

(** ** Stopping a thread's run *)

(** Turns taken by a process: a task is new when it starts, ends once, and its
    callbacks run after that.  [latest]: the task last started on each thread. *)
Inductive task_step : Tasks * gmap uuid nat * gset nat → Tasks * gmap uuid nat * gset nat → Prop :=
  | step_register task th t latest used :
      task ∉ used →
      task_step (t, latest, used)
        (register_task task (Some th) t, <[th := task]> latest, {[ task ]} ∪ used)
  | step_end task t latest used : task ∈ used → task_step (t, latest, used) (end_task task t, latest, used)
  | step_forget task th t latest used :
      task ∈ ts_ended t → task_step (t, latest, used) (forget_task task (Some th) t, latest, used).

Definition no_tasks : Tasks := {| ts_running := ∅; ts_by_thread := ∅; ts_ended := ∅ |}.

Record tracked (x : Tasks * gmap uuid nat * gset nat) : Prop := {
  tr_used : ∀ th task, x.1.2 !! th = Some task → task ∈ x.2;
  tr_found : ∀ th task, x.1.2 !! th = Some task → task ∉ ts_ended x.1.1 →
               ts_by_thread x.1.1 !! th = Some task;
  tr_only : ∀ th task, ts_by_thread x.1.1 !! th = Some task → x.1.2 !! th = Some task;
  tr_ended : ts_ended x.1.1 ⊆ x.2 }.

Lemma task_step_tracked x y : task_step x y → tracked x → tracked y.
Proof.
  intros [task th t latest used Hn|task t latest used Hu|task th t latest used He] [H1 H2 H3 H4];
    simpl in *; split; simpl.
  - intros th' task' [[<- <-]|[_ Hl]]%lookup_insert_Some; [set_solver|].
    specialize (H1 _ _ Hl). set_solver.
  - intros th' task' [[<- <-]|[Hne Hl]]%lookup_insert_Some He; [apply lookup_insert_eq|].
    rewrite lookup_insert_ne by done. auto.
  - intros th' task' [[<- <-]|[Hne Hl]]%lookup_insert_Some; [apply lookup_insert_eq|].
    rewrite lookup_insert_ne by done. auto.
  - set_solver.
  - done.
  - intros th' task' Hl He. apply H2; [done|set_solver].
  - done.
  - set_solver.
  - done.
  - intros th' task' Hl He'. specialize (H2 _ _ Hl He'). case_bool_decide as Hb; [|done].
    destruct (decide (th = th')) as [<-|Hne]; [|by rewrite lookup_delete_ne].
    assert (task' = task) as -> by congruence. done.
  - intros th' task'. case_bool_decide as Hb; [|auto].
    intros [_ Hl]%lookup_delete_Some. auto.
  - done.
Qed.

(** Stop finds the run a thread has in flight, and no other: the task last started
    on the thread until it is done, whatever callbacks of earlier turns run when. *)
Theorem cancel_finds_current t latest used th task :
  rtc task_step (no_tasks, ∅, ∅) (t, latest, used) →
  cancel_thread th t = Some task ↔ latest !! th = Some task ∧ task ∉ ts_ended t.
Proof.
  intros Hr. assert (tracked (t, latest, used)) as [H1 H2 H3 H4].
  { assert (∀ x y, rtc task_step x y → tracked x → tracked y) as Hall
      by (induction 1; eauto using task_step_tracked).
    eapply Hall; [exact Hr|]. split; simpl; try done; intros *; rewrite lookup_empty; done. }
  simpl in *. unfold cancel_thread. split.
  - destruct (ts_by_thread t !! th) as [task'|] eqn:E; [|done].
    case_bool_decide; [done|]. intros [= <-]. split; [by apply H3|done].
  - intros [Hl He]. rewrite (H2 _ _ Hl He). by rewrite bool_decide_eq_false_2.
Qed.
