(* ===== verification/Notifications.v ===== *)
(** * In-app notifications

    [platform.deliver_notification], the one door into the inbox, which also queues
    a delivery for a recipient with a linked chat (migrations 855ae928c3fa and
    5a25154e0296); [persistence/notifications.py] and [application/notifications.py],
    a person's own inbox. *)

From S2P Require Import Prelude Errors Kernel Domain Contracts Accounts SupportGrants ChannelRows Store.
Local Open Scope prog_scope.
Local Open Scope pystr_scope.

(** ** CHECK constraints *)

(** [btrim(s) <> ''] *)
Definition not_blank (s : pystr) : bool := negb (bool_decide (btrim s = [])).

Definition title_ok (title : pystr) : bool := not_blank title && (py_len title <=? 200).

(** The CHECK's pattern: a slash alone, or one followed by a letter, a digit, [_] or
    [-], and then those and [/ . ? = &]. *)
Definition link_first (c : N) : bool :=
  (((65 <=? c) && (c <=? 90)) || ((97 <=? c) && (c <=? 122)) || ((48 <=? c) && (c <=? 57)))%N
  || bool_decide (c ∈ [95; 45]%N).
Definition link_rest (c : N) : bool := link_first c || bool_decide (c ∈ [47; 46; 63; 61; 38]%N).

Definition link_ok (link : option pystr) : bool :=
  match link with
  | None => true
  | Some (PyStr l) =>
      match l with
      | 47%N :: [] => true
      | 47%N :: c :: rest => link_first c && forallb link_rest rest
      | _ => false
      end
  end.

Definition notification_ok (r : NotificationRow) : bool :=
  not_blank (nt_source_key r) && title_ok (nt_title r) && (py_len (nt_body r) <=? 2000)
  && link_ok (nt_link r).

Definition LAST_ERROR_LIMIT : nat := 500.

Definition delivery_ok (r : DeliveryRow) : bool :=
  bool_decide (dl_channel r ∈ CHANNEL_LINK_PROVIDERS) && (0 <=? dl_attempts r)%Z
  && not_blank (dl_source_key r) && title_ok (dl_title r) && link_ok (dl_link r)
  && match dl_last_error r with Some e => py_len e <=? LAST_ERROR_LIMIT | None => true end
  && (negb (bool_decide (dl_status r = DS_sent))
      || negb (bool_decide (dl_external_message_id r = None))).

(** ** [platform.deliver_notification] *)

(** [INSERT ... ON CONFLICT ON CONSTRAINT ... DO NOTHING]: whether a row went in. *)
Definition insert_or_ignore {R K} `{SqlTable R K} (check : R → bool) (ck : pystr) (tenant : uuid)
    (r : R) : Prog bool :=
  let! w := get_state in
  if negb (check r) then raise (IntegrityError ck) "violates check constraint"
  else if existsb (λ x, bool_decide (unique_key x = unique_key r)) (map_to_list (tbl (db w))).*2
  then ret false
  else sql_insert tenant r ;;; ret true.

Definition is_member (o : OrgDb) (tenant ws user : uuid) : bool :=
  existsb (λ m, bool_decide (mb_tenant_id m = tenant) && bool_decide (mb_workspace_id m = ws)
                && bool_decide (mb_user_id m = user)) (map_to_list (t_memberships o)).*2.

(** The chats a person linked: [e.provider IN ('zalo')]. *)
Definition channels_of (o : OrgDb) (user : uuid) : list pystr :=
  xi_provider <$> filter (λ e, xi_user_id e = user ∧ xi_provider e ∈ CHANNEL_LINK_PROVIDERS)
    (map_to_list (t_external_identities o)).*2.

Section Deliver.
Context (tenant ws : uuid) (source_key title body : pystr) (link : option pystr).

Definition new_notification (id user : uuid) (now : datetime) : NotificationRow :=
  {| nt_id := id; nt_tenant_id := tenant; nt_workspace_id := ws; nt_recipient_user_id := user;
     nt_source_key := source_key; nt_title := title; nt_body := body; nt_link := link;
     nt_created_at := now; nt_read_at := None |}.

Definition new_delivery (id user : uuid) (channel : pystr) (now : datetime) : DeliveryRow :=
  {| dl_id := id; dl_tenant_id := tenant; dl_workspace_id := ws; dl_recipient_user_id := user;
     dl_channel := channel; dl_source_key := source_key; dl_title := title; dl_link := link;
     dl_status := DS_pending; dl_attempts := 0; dl_next_attempt_at := now;
     dl_external_message_id := None; dl_last_error := None; dl_created_at := now |}.

Fixpoint queue_deliveries (user : uuid) (channels : list pystr) : Prog unit :=
  match channels with
  | [] => ret tt
  | c :: rest =>
      let! id := new_uuid in
      let! w := get_state in
      let! _ := insert_or_ignore delivery_ok "ck_channel_deliveries" tenant
                  (new_delivery id user c (db_now w)) in
      queue_deliveries user rest
  end.

(** One recipient: skipped unless a member; told once per [source_key]. *)
Definition deliver_to (user : uuid) : Prog bool :=
  let! w := get_state in
  if negb (is_member (t_org (db w)) tenant ws user) then ret false
  else
    let! id := new_uuid in
    let! told := insert_or_ignore notification_ok "ck_notifications" tenant
                   (new_notification id user (db_now w)) in
    (when told then queue_deliveries user (channels_of (t_org (db w)) user)) ;;;
    ret told.

Fixpoint deliver_each (users : list uuid) : Prog nat :=
  match users with
  | [] => ret 0
  | u :: rest =>
      let! told := deliver_to u in
      let! n := deliver_each rest in
      ret ((if told then 1 else 0) + n)
  end.
End Deliver.

(** [bound]: [app.tenant_id].  A statement that fails undoes itself; the two inserts
    of the one statement are taken recipient by recipient. *)
Definition deliver_notification (bound : option uuid) (ws : uuid) (recipients : list uuid)
    (source_key title body : pystr) (link : option pystr) : Prog nat :=
  let! w := get_state in
  let denied := raise (OtherException "InsufficientPrivilege")
                  "notifications are delivered inside the bound tenant" in
  match bound with
  | None => denied
  | Some tenant =>
      if existsb (λ x, bool_decide (ws_id x = ws) && bool_decide (ws_tenant_id x = tenant))
           (map_to_list (t_workspaces (t_org (db w)))).*2
      then deliver_each tenant ws source_key title body link (remove_dups recipients)
      else denied
  end.

(** ** [persistence/notifications.py] and the inbox *)

Definition INBOX_LIMIT : nat := 50.

Definition mine (context : AccessContext) (n : NotificationRow) : bool :=
  bool_decide (nt_recipient_user_id n = principal_id context).

(** [ORDER BY created_at DESC, id DESC] *)
Definition newest_first (a b : NotificationRow) : Prop :=
  (nt_created_at b < nt_created_at a)%Z ∨
  (nt_created_at b = nt_created_at a ∧ (nt_id b <= nt_id a)%N).
#[export] Instance newest_first_dec : RelDecision newest_first.
Proof. intros a b. unfold newest_first. apply _. Defined.

Record Inbox := { in_items : list NotificationRow; in_unread : nat }.

Definition notifications_latest (context : AccessContext) (limit : nat) : Prog Inbox :=
  session_begin (
    let! rows := sql_select (tenant_id context) (mine context) in
    let! unread := sql_select (tenant_id context)
                     (λ n, mine context n && bool_decide (nt_read_at n = None)) in
    ret {| in_items := take limit (merge_sort newest_first rows); in_unread := length unread |}).

Definition read_at (now : datetime) (n : NotificationRow) : NotificationRow :=
  {| nt_id := nt_id n; nt_tenant_id := nt_tenant_id n; nt_workspace_id := nt_workspace_id n;
     nt_recipient_user_id := nt_recipient_user_id n; nt_source_key := nt_source_key n;
     nt_title := nt_title n; nt_body := nt_body n; nt_link := nt_link n;
     nt_created_at := nt_created_at n; nt_read_at := Some (default now (nt_read_at n)) |}.

Definition repo_mark_read (context : AccessContext) (notification_id : uuid) : Prog bool :=
  session_begin (
    let! w := get_state in
    let! found := sql_update (R := NotificationRow) (tenant_id context)
      (λ n, bool_decide (nt_id n = notification_id) && mine context n) (read_at (db_now w)) in
    ret (negb (found =? 0))).

Definition repo_mark_all_read (context : AccessContext) : Prog unit :=
  session_begin (
    let! w := get_state in
    let! _ := sql_update (R := NotificationRow) (tenant_id context)
      (λ n, mine context n && bool_decide (nt_read_at n = None)) (read_at (db_now w)) in
    ret tt).

Definition notification_deliver (context : AccessContext) (recipients : list uuid)
    (source_key title body : pystr) (link : option pystr) : Prog unit :=
  match recipients with
  | [] => ret tt
  | _ => session_begin (
           let! _ := deliver_notification (Some (tenant_id context)) (workspace_id context)
                       (remove_dups recipients) source_key title body link in
           ret tt)
  end.

Definition inbox_latest (context : AccessContext) : Prog Inbox :=
  notifications_latest context INBOX_LIMIT.

Definition mark_read (context : AccessContext) (notification_id : uuid) : Prog unit :=
  let! found := repo_mark_read context notification_id in
  if found then ret tt else raise NotFoundError "no such notification".

Definition NOTIFICATION_WINDOW : timedelta := days 90.

(** [platform.prune_notifications()] *)
Definition prune_notifications : Prog unit :=
  session_begin (modify (λ w, set_db (set_tbl
    (filter (λ kv, (db_now w - NOTIFICATION_WINDOW <= nt_created_at kv.2)%Z)
       (t_notifications (t_chan (db w)))) (db w)) w)).

(** ** Lemmas *)

Lemma key_taken {R K} `{SqlTable R K} (r : R) (t : gmap K R) :
  existsb (λ x, bool_decide (unique_key x = unique_key r)) (map_to_list t).*2 = true ↔
  ∃ k x, t !! k = Some x ∧ unique_key x = unique_key r.
Proof.
  rewrite existsb_exists. split.
  - intros (x & Hx%list_elem_of_In & Hu). apply list_elem_of_fmap in Hx as ([k y] & -> & Hk).
    apply elem_of_map_to_list in Hk. to_prop. eauto.
  - intros (k & x & Hk & Hu). exists x. split; [|by apply bool_decide_eq_true_2].
    apply list_elem_of_In, list_elem_of_fmap. exists (k, x). split; [done|].
    by apply elem_of_map_to_list.
Qed.

(** What [INSERT ... ON CONFLICT DO NOTHING] does when it does not raise. *)
Lemma insert_or_ignore_ok {R K} `{SqlTable R K} check ck tenant (r : R) w b w' :
  insert_or_ignore check ck tenant r w = (Ok b, w') →
  check r = true ∧
  if b : bool
  then (∀ k x, tbl (db w) !! k = Some x → unique_key x ≠ unique_key r) ∧
       tbl (db w) !! row_key r = None ∧
       w' = set_db (set_tbl (<[row_key r := r]> (tbl (db w))) (db w)) w
  else (∃ k x, tbl (db w) !! k = Some x ∧ unique_key x = unique_key r) ∧ w' = w.
Proof.
  unfold insert_or_ignore, sql_insert, store_rows. run.
  destruct (check r); simpl; [|done]. destruct (existsb _ _) eqn:E.
  - apply key_taken in E. intros [= <- <-]. done.
  - destruct (bool_decide (row_tenant r ≠ tenant)); [done|].
    destruct (_ !! _) eqn:Hk; [done|]. destruct (unique_ok _); [|done].
    intros [= <- <-]. split_and!; [done| |done|done].
    intros k x Hx Hu. apply not_true_iff_false in E. apply E, key_taken. eauto.
Qed.

Lemma insert_or_ignore_taken {R K} `{SqlTable R K} check ck tenant (r : R) w :
  check r = true → (∃ k x, tbl (db w) !! k = Some x ∧ unique_key x = unique_key r) →
  insert_or_ignore check ck tenant r w = (Ok false, w).
Proof.
  intros Hc Ht%key_taken. unfold insert_or_ignore. run. by rewrite Hc, Ht.
Qed.

Lemma is_member_spec o tenant ws user :
  is_member o tenant ws user = true ↔
  ∃ k m, t_memberships o !! k = Some m ∧ mb_tenant_id m = tenant ∧ mb_workspace_id m = ws ∧
         mb_user_id m = user.
Proof.
  unfold is_member. rewrite existsb_exists. split.
  - intros (m & Hm%list_elem_of_In & Hp). apply list_elem_of_fmap in Hm as ([k m'] & -> & Hk).
    apply elem_of_map_to_list in Hk. to_prop. naive_solver.
  - intros (k & m & Hk & <- & <- & <-). exists m. split; [|by rewrite !bool_decide_eq_true_2].
    apply list_elem_of_In, list_elem_of_fmap. exists (k, m). split; [done|].
    by apply elem_of_map_to_list.
Qed.

(** A statement writes the open transaction's database and draws ids. *)
Definition outside (w : World) : Db * datetime * (nat → datetime) * nat * (nat → uuid) * list (pystr * json) :=
  (saved w, db_now w, utc w, utc_reads w, ids w, effects w).
Definition aside (w w' : World) : Prop := outside w' = outside w.

#[export] Instance aside_preorder : PreOrder aside.
Proof. unfold aside. split; [by intros ?|intros ? ? ?; congruence]. Qed.

(** What telling [users] leaves, the others' rows and all other tables as they were. *)
Record notified (tenant ws : uuid) (key title body : pystr) (link : option pystr) (now : datetime)
    (users : list uuid) (d d' : Db) : Prop := {
  nf_kept : t_notifications (t_chan d) ⊆ t_notifications (t_chan d');
  nf_new : ∀ k n, t_notifications (t_chan d') !! k = Some n →
    t_notifications (t_chan d) !! k = Some n ∨
    (nt_recipient_user_id n ∈ users ∧
     n = new_notification tenant ws key title body link k (nt_recipient_user_id n) now ∧
     is_member (t_org d) tenant ws (nt_recipient_user_id n) = true ∧
     ∀ k' n', t_notifications (t_chan d) !! k' = Some n' →
       nt_recipient_user_id n' = nt_recipient_user_id n → nt_source_key n' ≠ key);
  nf_told : ∀ u, u ∈ users → is_member (t_org d) tenant ws u = true →
    ∃ k n, t_notifications (t_chan d') !! k = Some n ∧ nt_recipient_user_id n = u ∧
           nt_source_key n = key;
  nf_queue_kept : t_deliveries (t_chan d) ⊆ t_deliveries (t_chan d');
  nf_queue_new : ∀ k x, t_deliveries (t_chan d') !! k = Some x →
    t_deliveries (t_chan d) !! k = Some x ∨
    (x = new_delivery tenant ws key title link k (dl_recipient_user_id x) (dl_channel x) now ∧
     delivery_ok x = true ∧
     dl_channel x ∈ channels_of (t_org d) (dl_recipient_user_id x) ∧
     ∃ k' n, t_notifications (t_chan d') !! k' = Some n ∧
       t_notifications (t_chan d) !! k' = None ∧
       nt_recipient_user_id n = dl_recipient_user_id x);
  nf_queued : ∀ k n c, t_notifications (t_chan d') !! k = Some n →
    t_notifications (t_chan d) !! k = None → c ∈ channels_of (t_org d) (nt_recipient_user_id n) →
    ∃ k' x, t_deliveries (t_chan d') !! k' = Some x ∧ dl_tenant_id x = tenant ∧
      dl_recipient_user_id x = nt_recipient_user_id n ∧ dl_channel x = c ∧ dl_source_key x = key;
  nf_rest : ∃ c, d' = set_chan c d ∧ t_inbound c = t_inbound (t_chan d) ∧
    t_updates c = t_updates (t_chan d) ∧ t_nonces c = t_nonces (t_chan d) ∧
    t_preferences c = t_preferences (t_chan d) }.

Lemma set_chan_same d : set_chan (t_chan d) d = d.
Proof. by destruct d. Qed.

Section Delivered.
Context (tenant ws : uuid) (key title body : pystr) (link : option pystr).
Notation told now := (notified tenant ws key title body link now).

Lemma notified_refl now users d :
  (∀ u, u ∈ users → is_member (t_org d) tenant ws u = true →
    ∃ k n, t_notifications (t_chan d) !! k = Some n ∧ nt_recipient_user_id n = u ∧
           nt_source_key n = key) →
  told now users d d.
Proof.
  intros Ht. split; [done|by left|exact Ht|done|by left| |].
  - intros k n c Hn Hf. congruence.
  - exists (t_chan d). by rewrite set_chan_same.
Qed.

Lemma notified_app now us1 us2 d1 d2 d3 :
  told now us1 d1 d2 → told now us2 d2 d3 → told now (us1 ++ us2) d1 d3.
Proof.
  intros [K1 N1 T1 Q1 R1 S1 (c1 & E1 & ? & ? & ? & ?)] [K2 N2 T2 Q2 R2 S2 (c2 & E2 & ? & ? & ? & ?)].
  assert (t_org d2 = t_org d1) as Eo by (by rewrite E1). rewrite Eo in *. split.
  - by etrans.
  - intros k n [Hn|(Hu & -> & Hm & Hf)]%N2.
    + destruct (N1 k n Hn) as [?|(Hu & Hn' & Hm & Hf)]; [by left|]. right. rewrite elem_of_app. auto.
    + right. cbn in *. rewrite elem_of_app. split_and!; auto. intros k' n' Hk'.
      apply Hf with k'. by eapply lookup_weaken.
  - intros u [Hu|Hu]%elem_of_app Hm; [|by apply T2].
    destruct (T1 u Hu Hm) as (k & n & Hn & ?). exists k, n. split; [|done]. by eapply lookup_weaken.
  - by etrans.
  - intros k x [Hx|(Hx & Hok & Hc & k' & n & Hn & Hf & Hu)]%R2.
    + destruct (R1 k x Hx) as [?|(Hx' & Hok & Hc & k' & n & Hn & Hf & Hu)]; [by left|].
      right. split_and!; [done..|]. exists k', n. split_and!; [by eapply lookup_weaken|done..].
    + right. split_and!; [done..|]. exists k', n. split_and!; [done| |done].
      eapply lookup_weaken_None; [exact Hf|exact K1].
  - intros k n c Hn Hf Hc. destruct (t_notifications (t_chan d2) !! k) as [n2|] eqn:Hn2.
    + assert (n2 = n) as -> by (eapply lookup_weaken in Hn2 as E2'; [|exact K2]; congruence).
      destruct (S1 k n c Hn2 Hf Hc) as (k' & x & Hx & ?). exists k', x.
      split; [by eapply lookup_weaken|done].
    + by apply (S2 k n c).
  - exists c2. subst. by split_and!; etrans.
Qed.

Lemma delivery_key_inj x y :
  unique_key (SqlTable := deliveries_table) x = unique_key (SqlTable := deliveries_table) y →
  dl_tenant_id x = dl_tenant_id y ∧ dl_recipient_user_id x = dl_recipient_user_id y ∧
  dl_channel x = dl_channel y ∧ dl_source_key x = dl_source_key y.
Proof.
  intros [= Ht Hr Hl E]. apply app_inj_1 in E as [Ec Ek]; [|unfold py_len in Hl; lia].
  destruct (dl_source_key x), (dl_source_key y), (dl_channel x), (dl_channel y). simpl in *.
  by subst.
Qed.

Lemma queue_deliveries_ok u cs w w' :
  queue_deliveries tenant ws key title link u cs w = (Ok tt, w') →
  aside w w' ∧ ∃ t, db w' = set_tbl (R := DeliveryRow) t (db w) ∧
    t_deliveries (t_chan (db w)) ⊆ t ∧
    (∀ k x, t !! k = Some x → t_deliveries (t_chan (db w)) !! k = Some x ∨
       (x = new_delivery tenant ws key title link k u (dl_channel x) (db_now w) ∧
        delivery_ok x = true ∧ dl_channel x ∈ cs)) ∧
    (∀ c, c ∈ cs → ∃ k x, t !! k = Some x ∧ dl_tenant_id x = tenant ∧
       dl_recipient_user_id x = u ∧ dl_channel x = c ∧ dl_source_key x = key).
Proof.
  revert w. induction cs as [|c cs IH]; intros w Hq; cbn [queue_deliveries] in Hq.
  - injection Hq as <-. split; [done|]. exists (t_deliveries (t_chan (db w))).
    split_and!; [|done|by left|by intros ? ?%not_elem_of_nil].
    symmetry. exact (set_tbl_tbl (R := DeliveryRow) (K := uuid) (db w)).
  - inv_ok. destruct (IH _ ltac:(eassumption)) as (Ho & t & Ht & Hk & Hn & Hc). clear IH.
    rename select (new_uuid _ = _) into Hi. unfold new_uuid in Hi. simplify_eq.
    match goal with H : insert_or_ignore _ _ _ _ _ = _ |- _ =>
      apply insert_or_ignore_ok in H as [Hok Hi] end.
    case_match.
    + destruct Hi as (Hfree & Hnone & ->). simpl in *. split; [by unfold aside in *; etrans; [exact Ho|]|].
      exists t. rewrite Ht. split_and!.
      * done.
      * etrans; [|exact Hk]. by apply insert_subseteq.
      * intros k x [Hx|Hx]%Hn; [|right; naive_solver set_solver].
        apply lookup_insert_Some in Hx as [[<- <-]|[? ?]]; [right|by left].
        split_and!; [done|done|left].
      * intros c' [->|Hin]%elem_of_cons; [|by apply Hc].
        eexists _, _. split; [eapply lookup_weaken; [apply lookup_insert_eq|exact Hk]|done].
    + destruct Hi as ((k0 & x0 & Hx0 & Hu%delivery_key_inj) & ->). simpl in *. split; [by unfold aside in *; etrans; [exact Ho|]|].
      exists t. split_and!; [done|done| |].
      * intros k x [Hx|Hx]%Hn; [by left|right; naive_solver set_solver].
      * intros c' [->|Hin]%elem_of_cons; [|by apply Hc].
        destruct Hu as (? & ? & ? & ?). exists k0, x0.
        split; [by eapply lookup_weaken|done].
Qed.

Lemma notification_key_inj x y :
  unique_key (SqlTable := notifications_table) x = unique_key (SqlTable := notifications_table) y →
  nt_recipient_user_id x = nt_recipient_user_id y ∧ nt_source_key x = nt_source_key y.
Proof.
  intros [= Hr Hk]. destruct (nt_source_key x), (nt_source_key y). simpl in Hk. by subst.
Qed.

(** One recipient who had no row of this key: the row, and the queue. *)
Lemma notified_one now u d id t :
  t_notifications (t_chan d) !! id = None →
  (∀ k n, t_notifications (t_chan d) !! k = Some n →
     nt_recipient_user_id n = u → nt_source_key n ≠ key) →
  is_member (t_org d) tenant ws u = true →
  t_deliveries (t_chan d) ⊆ t →
  (∀ k x, t !! k = Some x → t_deliveries (t_chan d) !! k = Some x ∨
     (x = new_delivery tenant ws key title link k u (dl_channel x) now ∧
      delivery_ok x = true ∧ dl_channel x ∈ channels_of (t_org d) u)) →
  (∀ c, c ∈ channels_of (t_org d) u → ∃ k x, t !! k = Some x ∧ dl_tenant_id x = tenant ∧
     dl_recipient_user_id x = u ∧ dl_channel x = c ∧ dl_source_key x = key) →
  told now [u] d (set_tbl (R := DeliveryRow) t (set_tbl (R := NotificationRow)
    (<[id := new_notification tenant ws key title body link id u now]> (t_notifications (t_chan d))) d)).
Proof.
  intros Hid Hfree Hm Hk Hn Hc. split; cbn.
  - by apply insert_subseteq.
  - intros k n [[<- <-]|[? ?]]%lookup_insert_Some; [right|by left].
    split_and!; [left|done|done|]. intros k' n' Hk' Hu. by apply (Hfree k' n').
  - intros v Hv%list_elem_of_singleton _. subst v.
    eexists id, _. split; [apply lookup_insert_eq|done].
  - done.
  - intros k x [Hx|(Hx & Hok & Hch)]%Hn; [by left|right]. rewrite Hx. cbn.
    split_and!; [done|by rewrite <- Hx|done|]. eexists id, _.
    split_and!; [apply lookup_insert_eq|done|done].
  - intros k n c [[<- <-]|[? ?]]%lookup_insert_Some Hnone Hin; [|congruence]. apply (Hc c Hin).
  - by eexists.
Qed.

Lemma deliver_to_ok u w b w' :
  deliver_to tenant ws key title body link u w = (Ok b, w') →
  (aside w w' ∧ told (db_now w) [u] (db w) (db w')) ∧
  (is_member (t_org (db w)) tenant ws u = true →
     notification_ok (new_notification tenant ws key title body link 0 u 0) = true).
Proof.
  unfold deliver_to. intros Hd. apply bind_ok in Hd as (w0 & ? & Hg & Hd).
  unfold get_state in Hg. injection Hg as <- <-.
  destruct (is_member (t_org (db w)) tenant ws u) eqn:Hm; cbn [negb] in Hd.
  2: { injection Hd as <- <-. split; [|done]. split; [done|]. apply notified_refl.
       intros v Hv Hv'. apply list_elem_of_singleton in Hv. congruence. }
  apply bind_ok in Hd as (id & w1 & Hi & Hd). injection Hi as <- <-.
  apply bind_ok in Hd as (t & w2 & Hi & Hd).
  apply insert_or_ignore_ok in Hi as [Hok Hi].
  apply bind_ok in Hd as ([] & w3 & Hq & Hd). injection Hd as <- <-. split; [|by intros _]. destruct t.
  - destruct Hi as (Hfree & Hnone & ->).
    apply queue_deliveries_ok in Hq as (Ho & t & -> & Hk & Hn & Hc). cbn in *.
    split; [by etrans; [|exact Ho]|]. apply notified_one; try done.
    intros k n Hkn Hu Hs. apply (Hfree k n Hkn). rewrite Hu, Hs. done.
  - destruct Hi as ((k & n & Hkn & Hu%notification_key_inj) & ->). injection Hq as <-.
    split; [done|]. apply notified_refl. intros v Hv%list_elem_of_singleton _. subst v.
    exists k, n. by destruct Hu.
Qed.

Lemma notified_same_org now us d d' : told now us d d' → t_org d' = t_org d ∧ t_audit d' = t_audit d.
Proof. intros [_ _ _ _ _ _ (c & -> & _)]. done. Qed.

Lemma deliver_each_ok us w n w' :
  deliver_each tenant ws key title body link us w = (Ok n, w') →
  (aside w w' ∧ told (db_now w) us (db w) (db w')) ∧
  (∀ u, u ∈ us → is_member (t_org (db w)) tenant ws u = true →
     notification_ok (new_notification tenant ws key title body link 0 u 0) = true).
Proof.
  revert w n w'. induction us as [|u us IH]; intros w n w' Hd; cbn [deliver_each] in Hd.
  - injection Hd as <- <-. split; [split; [done|]|by intros ? ?%not_elem_of_nil].
    apply notified_refl. by intros ? ?%not_elem_of_nil.
  - apply bind_ok in Hd as (b & w1 & H1%deliver_to_ok & Hd).
    apply bind_ok in Hd as (m & w2 & H2%IH & Hd). injection Hd as <- <-.
    destruct H1 as [[A1 T1] C1], H2 as [[A2 T2] C2]. pose proof (notified_same_org _ _ _ _ T1) as [Eo _].
    split; [|intros v [->|Hv]%elem_of_cons; [done|rewrite <- Eo; by apply C2]].
    split; [by etrans|].
    assert (db_now w1 = db_now w) as E by (unfold aside, outside in A1; congruence).
    rewrite E in T2. by apply (notified_app _ [u] us _ (db w1)).
Qed.

(** Telling again, with the rows in place. *)
Lemma deliver_each_again us w :
  (∀ u, u ∈ us → is_member (t_org (db w)) tenant ws u = true →
     notification_ok (new_notification tenant ws key title body link 0 u 0) = true ∧
     ∃ k n, t_notifications (t_chan (db w)) !! k = Some n ∧ nt_recipient_user_id n = u ∧
            nt_source_key n = key) →
  ∃ w', deliver_each tenant ws key title body link us w = (Ok 0, w') ∧ db w' = db w ∧ aside w w'.
Proof.
  revert w. induction us as [|u us IH]; intros w Ht; cbn [deliver_each]; [by exists w|].
  assert (∃ w1, deliver_to tenant ws key title body link u w = (Ok false, w1) ∧ db w1 = db w ∧
                aside w w1) as (w1 & Hd & E & A).
  { unfold deliver_to, bind at 1, get_state. cbv beta iota.
    destruct (is_member (t_org (db w)) tenant ws u) eqn:Hm; cbn [negb]; [|by exists w].
    destruct (Ht u ltac:(left) Hm) as (Hok & k & n & Hk & <- & <-).
    unfold new_uuid, bind at 1. cbv beta iota. unfold bind at 1.
    rewrite insert_or_ignore_taken; [|exact Hok|by exists k, n]. by eexists. }
  destruct (IH w1) as (w2 & Hd2 & E2 & A2).
  { intros v Hv. rewrite E. apply Ht. by right. }
  exists w2. unfold bind. rewrite Hd, Hd2. split_and!; [done|congruence|by etrans].
Qed.
End Delivered.

(** Telling people commits nothing by itself. *)
Lemma insert_or_ignore_same_saved {R K} `{SqlTable R K} check ck tenant (r : R) :
  respects same_saved (insert_or_ignore check ck tenant r).
Proof. unfold insert_or_ignore. respects_auto. Qed.
#[export] Hint Resolve insert_or_ignore_same_saved : respects.

Lemma deliver_notification_same_saved bound ws recipients key title body link :
  respects same_saved (deliver_notification bound ws recipients key title body link).
Proof.
  unfold deliver_notification. apply respects_bind; [apply _|by intros ?|]. intros w.
  destruct bound as [t|]; [|by intros ?]. case_match; [|by intros ?].
  generalize (remove_dups recipients). intros us.
  assert (∀ u cs, respects same_saved (queue_deliveries t ws key title link u cs)) as Hq.
  { intros u cs. induction cs as [|c cs IH]; [by intros ?|]. cbn [queue_deliveries]. respects_auto. }
  induction us as [|u us IH]; [by intros ?|]. cbn [deliver_each].
  respects_auto. unfold deliver_to. respects_auto.
Qed.
#[export] Hint Resolve deliver_notification_same_saved : respects.

(** ** Properties *)

Lemma deliver_notification_ok bound ws recipients key title body link w n w' :
  deliver_notification bound ws recipients key title body link w = (Ok n, w') →
  ∃ tenant, bound = Some tenant ∧
  existsb (λ x, bool_decide (ws_id x = ws) && bool_decide (ws_tenant_id x = tenant))
    (map_to_list (t_workspaces (t_org (db w)))).*2 = true ∧
  aside w w' ∧
  notified tenant ws key title body link (db_now w) recipients (db w) (db w') ∧
  (∀ u, u ∈ recipients → is_member (t_org (db w)) tenant ws u = true →
     notification_ok (new_notification tenant ws key title body link 0 u 0) = true).
Proof.
  unfold deliver_notification. intros Hd. apply bind_ok in Hd as (w0 & ? & [= <- <-] & Hd).
  destruct bound as [tenant|]; [|done]. destruct (existsb _ _) eqn:Hw; [|done].
  apply deliver_each_ok in Hd as [[A T] C]. exists tenant. split_and!; [done..| |].
  - destruct T as [K N1 T1 Q N2 S R]. split; try done.
    + intros k x Hx. destruct (N1 k x Hx) as [?|[Hu ?]]; [by left|right].
      split; [by apply elem_of_remove_dups|assumption].
    + intros u Hu. apply T1. by apply elem_of_remove_dups.
  - intros u Hu. apply C. by apply elem_of_remove_dups.
Qed.

(** Telling people adds, for each of them who is a member of the workspace and was not told
    under the same key, one unread notification and one delivery for every chat they
    linked, and nothing else; telling them again adds nothing. *)
Theorem notified_once tenant ws recipients key title body link w n w' :
  deliver_notification (Some tenant) ws recipients key title body link w = (Ok n, w') →
  notified tenant ws key title body link (db_now w) recipients (db w) (db w') ∧
  ∃ w2, deliver_notification (Some tenant) ws recipients key title body link w' = (Ok 0, w2) ∧
        db w2 = db w'.
Proof.
  intros (? & [= <-] & Hw & A & T & C)%deliver_notification_ok.
  pose proof (notified_same_org _ _ _ _ _ _ _ _ _ _ T) as [Eo _]. split; [exact T|].
  unfold deliver_notification, bind at 1, get_state. cbv beta iota. rewrite Eo, Hw.
  destruct (deliver_each_again tenant ws key title body link (remove_dups recipients) w')
    as (w2 & H2 & E2 & _); [|exists w2; split; [exact H2|exact E2]].
  intros u Hu Hm. rewrite elem_of_remove_dups in Hu. rewrite Eo in Hm.
  split; [by apply C|by apply (nf_told _ _ _ _ _ _ _ _ _ _ T u Hu)].
Qed.

(** ** Examples *)

(** A tenant with one workspace and two members, the first with a linked chat. *)
Definition example_member (id user : uuid) : MembershipRow :=
  {| mb_id := id; mb_tenant_id := 1; mb_workspace_id := 2; mb_user_id := user;
     mb_role_keys := []; mb_permission_set_keys := []; mb_clearance := "internal";
     mb_department := "general"; mb_manager_user_id := None; mb_created_at := 0 |}%N.

Definition example_people : OrgDb :=
  set_memberships {[ 30%N := example_member 30 4; 31%N := example_member 31 5 ]}
    (set_external_identities {[ 40%N := {| xi_id := 40; xi_user_id := 4; xi_issuer := "zalo";
                                           xi_subject := "chat-4"; xi_provider := "zalo" |}%N ]}
      (MkOrg {[ 1%N := {| tn_id := 1; tn_slug := "acme"; tn_name := "Acme"; tn_status := "active";
                          tn_record_visibility := "workspace"; tn_max_autonomy_level := A2; tn_created_at := 0 |}%N ]}
             {[ 2%N := {| ws_id := 2; ws_tenant_id := 1; ws_slug := "main"; ws_name := "Sales" |}%N ]}
             ∅ ∅ ∅ ∅ ∅ ∅ ∅ ∅ ∅ ∅ ∅ ∅)).

Definition example_inboxes : World := example_world (set_org example_people empty_db) 1000.

Definition example_told : Prog nat :=
  deliver_notification (Some 1%N) 2 [4; 5; 6; 4]%N "import:7" "Import finished" "" (Some "/imports"%py).

Lemma notified_once_witness :
  (example_told example_inboxes).1 = Ok 2 ∧
  let w' := (example_told example_inboxes).2 in
  notified 1 2 "import:7" "Import finished" "" (Some "/imports"%py) 1000 [4; 5; 6; 4]%N
    (db example_inboxes) (db w') ∧
  ∃ w2, example_told w' = (Ok 0, w2) ∧ db w2 = db w'.
Proof.
  split; [by vm_compute|].
  apply (notified_once 1 2 [4; 5; 6; 4]%N "import:7" "Import finished" "" (Some "/imports"%py)
           example_inboxes 2).
  apply ran. by vm_compute.
Defined.
