(* ===== verification/ChannelLinks.v ===== *)
(** * Linking a chat to a person

    [adapters/zalo_link.py] of [dw_connectors], the one-time token and the [/start]
    and [/stop] commands, and [persistence/zalo_link_repo.py], the nonce a token
    names, the identity row a link is, and the trail every change leaves.  The MAC,
    the SHA-256 behind [chat_reference] and [str()] of JSON values that are no text
    are parameters. *)

From S2P Require Import Prelude Errors Kernel Domain Contracts Accounts SupportGrants ChannelRows Store Notifications Pagination.
Local Open Scope prog_scope.
Local Open Scope pystr_scope.

(** ** The token *)

Definition TOKEN_TTL : timedelta := minutes 15.
Definition _START : pystr := "/start".
Definition _STOP : pystr := "/stop".
Definition _JTI_BYTES : nat := 8.
Definition _SIG_BYTES : nat := 8.
Definition _BODY_BYTES : nat := 16 + 4 + _JTI_BYTES.

Record ConnectToken := {
  ct_user_id : uuid;
  ct_jti : pystr;
  ct_expires_at : datetime }.

(** [n] bytes of a number, the first the most significant, and back. *)
Fixpoint be_bytes (n : nat) (x : N) : list N :=
  match n with
  | O => []
  | S n' => be_bytes n' (x / 256) ++ [x mod 256]%N
  end.
Definition be_number (l : list N) : N := foldl (λ a b, a * 256 + b)%N 0%N l.

(** [bytes.hex()] *)
Definition bytes_hex (l : list N) : pystr :=
  PyStr (mjoin ((λ b, [hex_digit (b / 16); hex_digit (b mod 16)]%N) <$> l)).

Section Tokens.
(** [hmac.new(secret.encode(), body, sha256).digest()] *)
Context (hmac : pystr → list N → list N).

Definition _sign (body : list N) (secret : pystr) : list N := take _SIG_BYTES (hmac secret body).

(** [jti]: what [secrets.token_bytes] drew.  [int] of a timestamp cuts its fraction
    off; [struct.pack] refuses a second outside 32 bits. *)
Definition make_connect_token (user_id : uuid) (secret : pystr) (now : datetime) (ttl : timedelta)
    (jti : list N) : res (pystr * ConnectToken) :=
  let expires := Z.quot (now + ttl) 1000000 in
  if negb ((0 <=? expires) && (expires <? 2 ^ 32))%Z
  then Raise (Exn (OtherException "struct.error") "argument out of range")
  else
    let body := be_bytes 16 user_id ++ be_bytes 4 (Z.to_N expires) ++ jti in
    Ok (PyStr (b64_encode (body ++ _sign body secret)),
        {| ct_user_id := user_id; ct_jti := bytes_hex jti; ct_expires_at := seconds expires |}).

Definition verify_connect_token (token secret : pystr) (now : datetime) : option ConnectToken :=
  raw ← urlsafe_b64decode (token +++ PyStr (repeat 61%N ((4 - py_len token mod 4) mod 4)));
  if negb (length raw =? _BODY_BYTES + _SIG_BYTES) then None else
  let body := take _BODY_BYTES raw in
  let sig := drop _BODY_BYTES raw in
  if negb (bool_decide (sig = _sign body secret)) then None else
  let expires_at := seconds (Z.of_N (be_number (take 4 (drop 16 body)))) in
  if (expires_at <=? now)%Z then None else
  Some {| ct_user_id := be_number (take 16 body); ct_jti := bytes_hex (drop 20 body);
          ct_expires_at := expires_at |}.
End Tokens.

(** ** [persistence/zalo_link_repo.py] *)

Definition _ZALO : pystr := "zalo".
Definition _BOT : pystr := "zalo_bot".
Definition _WEB : pystr := "web".
Definition _LINKED : pystr := "channel_link.linked".
Definition _UNLINKED : pystr := "channel_link.unlinked".
Definition _MOVED : pystr := "channel_link.moved_to_other_user".
Definition _SETTINGS : pystr := "/settings".

Definition _MESSAGES (action : pystr) : pystr * pystr :=
  if bool_decide (action = _LINKED) then
    ("Zalo vừa được kết nối với tài khoản của bạn",
     "Từ giờ thông báo và lệnh qua Zalo đi qua chat này. Nếu không phải bạn kết nối, vào Cài đặt cá nhân và bấm “Ngắt kết nối” ngay.")
  else if bool_decide (action = _UNLINKED) then
    ("Zalo đã được ngắt khỏi tài khoản của bạn",
     "Bạn sẽ không nhận thông báo và không gửi lệnh qua Zalo nữa. Muốn dùng lại, vào Cài đặt cá nhân và bấm “Kết nối Zalo”.")
  else
    ("Zalo của bạn đã chuyển sang tài khoản khác",
     "Chat Zalo từng kết nối với bạn vừa gửi mã kết nối của một tài khoản khác, nên tài khoản của bạn không còn kết nối Zalo. Nếu điều này bất thường, báo quản trị viên.").

Definition _NoTenantToRecordInError : exn_class := OtherException "_NoTenantToRecordInError".

Abbreviation identities w := (t_external_identities (t_org (db w))).

Definition put_identities (t : gmap uuid ExternalIdentityRow) : Prog unit :=
  modify (λ w, set_db (set_org (set_external_identities t (t_org (db w))) (db w)) w).
Definition put_nonces (t : gmap pystr NonceRow) : Prog unit :=
  modify (λ w, set_db (set_chan (set_nonces t (t_chan (db w))) (db w)) w).

Definition zalo_of (p : ExternalIdentityRow → bool) (e : ExternalIdentityRow) : bool :=
  bool_decide (xi_provider e = _ZALO) && p e.

(** [SELECT ... LIMIT 1], in a session of its own. *)
Definition zalo_id_for (user_id : uuid) : Prog (option pystr) :=
  read_committed (gets (λ w, xi_subject <$> head (filter (λ e,
    zalo_of (λ e, bool_decide (xi_user_id e = user_id)) e = true) (map_to_list (identities w)).*2))).

Definition user_id_for (zalo_id : pystr) : Prog (option uuid) :=
  read_committed (gets (λ w, xi_user_id <$> head (filter (λ e,
    zalo_of (λ e, bool_decide (xi_subject e = zalo_id)) e = true) (map_to_list (identities w)).*2))).

(** The CHECK constraints of [channel_link_nonces]. *)
Definition jti_ok (jti : pystr) : bool :=
  (py_len jti =? 16)
  && forallb (λ c, ((48 <=? c) && (c <=? 57)) || ((97 <=? c) && (c <=? 102)))%N (chars jti).
Definition nonce_ok (jti : pystr) (n : NonceRow) : bool :=
  bool_decide (ln_channel n ∈ CHANNEL_LINK_PROVIDERS) && jti_ok jti
  && match ln_used_at n with Some t => ln_created_at n <=? t | None => true end%Z.

Definition issue_nonce (token : ConnectToken) : Prog unit :=
  session_begin (
    let! w := get_state in
    let nonces := t_nonces (t_chan (db w)) in
    let row := {| ln_channel := _ZALO; ln_user_id := ct_user_id token;
                  ln_expires_at := ct_expires_at token; ln_used_at := None;
                  ln_created_at := db_now w |} in
    if negb (nonce_ok (ct_jti token) row)
    then raise (IntegrityError "ck_channel_link_nonces") "violates check constraint"
    else match nonces !! ct_jti token with
         | Some _ => raise (IntegrityError "pk_channel_link_nonces")
                       "duplicate key value violates unique constraint"
         | None => put_nonces (<[ct_jti token := row]> nonces)
         end).

(** The conditional [UPDATE ... RETURNING]. *)
Definition redeemable (token : ConnectToken) (now : datetime) (n : NonceRow) : bool :=
  bool_decide (ln_user_id n = ct_user_id token) && bool_decide (ln_channel n = _ZALO)
  && bool_decide (ln_used_at n = None) && (now <? ln_expires_at n)%Z.

Definition used (now : datetime) (n : NonceRow) : NonceRow :=
  {| ln_channel := ln_channel n; ln_user_id := ln_user_id n; ln_expires_at := ln_expires_at n;
     ln_used_at := Some now; ln_created_at := ln_created_at n |}.

Definition consume_nonce (token : ConnectToken) : Prog bool :=
  let! w := get_state in
  let nonces := t_nonces (t_chan (db w)) in
  match nonces !! ct_jti token with
  | None => ret false
  | Some n =>
      if negb (redeemable token (db_now w) n) then ret false
      else if negb (nonce_ok (ct_jti token) (used (db_now w) n))
      then raise (IntegrityError "ck_channel_link_nonces") "violates check constraint"
      else put_nonces (<[ct_jti token := used (db_now w) n]> nonces) ;;; ret true
  end.

(** [DISTINCT ON (tenant_id) ... ORDER BY tenant_id, workspace_id]: the first
    workspace of every tenant. *)
Definition by_scope (a b : uuid * uuid) : Prop := (a.1 < b.1)%N ∨ (a.1 = b.1 ∧ (a.2 <= b.2)%N).
#[export] Instance by_scope_dec : RelDecision by_scope.
Proof. intros a b. unfold by_scope. apply _. Defined.

Fixpoint first_of_each (l : list (uuid * uuid)) : list (uuid * uuid) :=
  match l with
  | [] => []
  | (t, ws) :: rest => (t, ws) :: filter (λ p, p.1 ≠ t) (first_of_each rest)
  end.

Definition scopes_of_user (o : OrgDb) (user_id : uuid) : list (uuid * uuid) :=
  merge_sort by_scope ((λ m, (mb_tenant_id m, mb_workspace_id m)) <$>
    filter (λ m, mb_user_id m = user_id) (map_to_list (t_memberships o)).*2).

Definition targets (o : OrgDb) (user_id : uuid) : list (uuid * uuid) :=
  first_of_each (scopes_of_user o user_id).

Section Record.
(** [sha256(text.encode()).hexdigest()] *)
Context (sha256 : pystr → pystr).

Definition chat_reference (channel chat_id : pystr) : pystr :=
  PyStr (take 16 (chars (sha256 (channel +++ ":" +++ chat_id)))).

Definition link_event (user_id : uuid) (action zalo_id actor : pystr) (event_id id tenant ws : uuid)
    (now : datetime) : AuditEvent :=
  {| ae_id := id; ae_tenant_id := tenant; ae_workspace_id := ws; ae_actor_id := user_id;
     ae_action := action; ae_resource_type := "channel_link"; ae_resource_id := uuid_str user_id;
     ae_occurred_at := now; ae_run_id := None; ae_policy_decision := None; ae_trace_id := None;
     ae_details := {[ "channel" := JStr _ZALO; "chat_id_hash" := JStr (chat_reference _ZALO zalo_id);
                      "actor" := JStr actor; "event_id" := JStr (uuid_str event_id) ]} |}.

Fixpoint record_each (user_id : uuid) (action zalo_id actor : pystr) (event_id : uuid)
    (l : list (uuid * uuid)) : Prog unit :=
  match l with
  | [] => ret tt
  | (tenant, ws) :: rest =>
      let! id := new_uuid in
      let! w := get_state in
      audit_append tenant (link_event user_id action zalo_id actor event_id id tenant ws (db_now w)) ;;;
      let '(title, body) := _MESSAGES action in
      let! _ := deliver_notification (Some tenant) ws [user_id]
                  (action +++ ":" +++ uuid_str event_id +++ ":" +++ uuid_str tenant)
                  title body (Some _SETTINGS) in
      record_each user_id action zalo_id actor event_id rest
  end.

Definition _record_link (user_id : uuid) (action zalo_id actor : pystr) : Prog bool :=
  let! w := get_state in
  let l := targets (t_org (db w)) user_id in
  let! event_id := new_uuid in
  record_each user_id action zalo_id actor event_id l ;;;
  ret (negb (bool_decide (l = []))).

(** [DELETE ... RETURNING]: the rows removed. *)
Definition delete_identities (p : ExternalIdentityRow → bool) : Prog (list ExternalIdentityRow) :=
  let! w := get_state in
  let gone := filter (λ e, zalo_of p e = true) (map_to_list (identities w)).*2 in
  put_identities (filter (λ kv, zalo_of p kv.2 = false) (identities w)) ;;;
  ret gone.

(** [UNIQUE (issuer, subject)] and [uq_external_identities_user_id_provider]. *)
Definition identity_clash (e f : ExternalIdentityRow) : bool :=
  (bool_decide (xi_issuer e = xi_issuer f) && bool_decide (xi_subject e = xi_subject f))
  || (bool_decide (xi_provider e ∈ CHANNEL_LINK_PROVIDERS)
      && bool_decide (xi_provider e = xi_provider f) && bool_decide (xi_user_id e = xi_user_id f)).

Definition insert_identity (e : ExternalIdentityRow) : Prog unit :=
  let! w := get_state in
  if existsb (identity_clash e) (map_to_list (identities w)).*2
     || negb (bool_decide (identities w !! xi_id e = None))
  then raise (IntegrityError "external_identities") "duplicate key value violates unique constraint"
  else put_identities (<[xi_id e := e]> (identities w)).

Fixpoint record_moved (others : list uuid) (zalo_id : pystr) : Prog unit :=
  match others with
  | [] => ret tt
  | u :: rest => let! _ := _record_link u _MOVED zalo_id _BOT in record_moved rest zalo_id
  end.

Definition _link (user_id : uuid) (zalo_id : pystr) : Prog unit :=
  let! recorded := _record_link user_id _LINKED zalo_id _BOT in
  if negb recorded then raise _NoTenantToRecordInError ""
  else
    let! displaced := delete_identities
      (λ e, bool_decide (xi_user_id e = user_id) || bool_decide (xi_subject e = zalo_id)) in
    record_moved (elements ((list_to_set (xi_user_id <$> displaced) : gset uuid) ∖ {[ user_id ]}))
      zalo_id ;;;
    let! id := new_uuid in
    insert_identity {| xi_id := id; xi_user_id := user_id; xi_issuer := _ZALO; xi_subject := zalo_id;
                       xi_provider := _ZALO |}.

Definition redeem (token : ConnectToken) (zalo_id : pystr) : Prog bool :=
  try_except (session_begin (
      let! consumed := consume_nonce token in
      if negb consumed then ret false
      else _link (ct_user_id token) zalo_id ;;; ret true))
    (λ e, if bool_decide (exn_cls e = _NoTenantToRecordInError) then ret false else reraise e).

Definition unlink_by_zalo (zalo_id : pystr) : Prog bool :=
  session_begin (
    let! removed := delete_identities (λ e, bool_decide (xi_subject e = zalo_id)) in
    match removed with
    | [] => ret false
    | e :: _ => let! _ := _record_link (xi_user_id e) _UNLINKED zalo_id _BOT in ret true
    end).

Definition unlink_by_user (user_id : uuid) : Prog unit :=
  session_begin (
    let! removed := delete_identities (λ e, bool_decide (xi_user_id e = user_id)) in
    match removed with
    | [] => ret tt
    | e :: _ => let! _ := _record_link user_id _UNLINKED (xi_subject e) _WEB in ret tt
    end).
End Record.

Definition NONCE_RETENTION : timedelta := days 1.

(** [SqlChannelLinkNonceRetention.prune] *)
Definition prune_nonces : Prog unit :=
  session_begin (let! w := get_state in
    put_nonces (filter (λ kv, (db_now w - NONCE_RETENTION <= ln_expires_at kv.2)%Z)
                  (t_nonces (t_chan (db w))))).

(** ** The signed-in user's side: [ZaloLinking] *)

Record ConnectOffer := {
  co_code : pystr;
  co_deep_link : option pystr;
  co_expires_at : datetime }.

Definition is_linked (user_id : uuid) : Prog bool :=
  let! z := zalo_id_for user_id in ret (bool_decide (is_Some z)).

Definition deep_link (bot_link code : pystr) : option pystr :=
  let base := py_strip bot_link in
  if py_truthy base
  then Some (base +++ (if existsb (N.eqb 63) (chars base) then "&" else "?") +++ "start=" +++ code)
  else None.

Section Linking.
Context (hmac : pystr → list N → list N) (sha256 : pystr → pystr) (link_secret : pystr).

(** [jti]: what the process's randomness gives. *)
Definition connect (bot_link : pystr) (jti : list N) (user_id : uuid) : Prog ConnectOffer :=
  let! now := now_utc in
  let! minted := lift_res (make_connect_token hmac user_id link_secret now TOKEN_TTL jti) in
  let '(code, token) := minted in
  issue_nonce token ;;;
  ret {| co_code := code; co_deep_link := deep_link bot_link code;
         co_expires_at := ct_expires_at token |}.

Definition disconnect (user_id : uuid) : Prog unit := unlink_by_user sha256 user_id.

(** ** Reading an update *)

(** [str()] of a value that is neither text nor an integer. *)
Context (str_of : json → pystr).

Definition attribute_error : exn := Exn (OtherException "AttributeError") "object has no such attribute".

(** [v.get(key)]: only a dict has it. *)
Definition json_get (v : json) (key : pystr) : res json :=
  match v with
  | JObj kvs => Ok (match list_find (λ kv, kv.1 = key) kvs with Some (_, (_, x)) => x | None => JNull end)
  | _ => Raise attribute_error
  end.

(** [a or b] *)
Definition json_or (a b : json) : json := if json_truthy a then a else b.

Definition rbind {A B} (m : res A) (k : A → res B) : res B :=
  match m with Ok a => k a | Raise e => Raise e end.

Definition json_str (v : json) : pystr :=
  match v with
  | JStr s => s
  | JInt z => if (z <? 0)%Z then "-" +++ PyStr (decimal_text (Z.to_N (- z)))
              else PyStr (decimal_text (Z.to_N z))
  | _ => str_of v
  end.

(** [(update.get("result") or update).get("message") or {}] *)
Definition _message (update : json) : res json :=
  rbind (json_get update "result") (λ result,
  rbind (json_get (json_or result update) "message") (λ m, Ok (json_or m (JObj [])))).

Definition message_id_of (update : json) : res pystr :=
  rbind (_message update) (λ m,
  rbind (json_get m "message_id") (λ v, Ok (json_str (json_or v (JStr (PyStr [])))))).

Definition parse_update (update : json) : res (pystr * pystr) :=
  rbind (_message update) (λ m,
  rbind (json_get m "text") (λ t,
  match json_or t (JStr (PyStr [])) with
  | JStr text =>
      rbind (json_get m "chat") (λ chat,
      rbind (json_get m "from") (λ from,
      let who := json_or (json_or chat from) (JObj []) in
      rbind (json_get who "id") (λ id,
        Ok (json_str (json_or id (JStr (PyStr []))), py_strip text))))
  | _ => Raise attribute_error
  end)).

(** [text.split()] *)
Fixpoint words_of (word l : list N) : list pystr :=
  let close := match word with [] => [] | _ => [PyStr word] end in
  match l with
  | [] => close
  | c :: r => if is_space c then close ++ words_of [] r else words_of (word ++ [c]) r
  end.
Definition py_words (s : pystr) : list pystr := words_of [] (chars s).

Definition LINK_COMMANDS : list pystr := [_START; _STOP].

Definition link_help (product_name : pystr) : pystr :=
  "Để kết nối Zalo với tài khoản " +++ product_name +++
  ", lấy mã ở trang Cài đặt cá nhân rồi gửi /start <mã>; gửi /stop để ngắt kết nối.".

Definition bad_code_reply (product_name : pystr) : pystr :=
  "Mã kết nối không hợp lệ, đã được dùng hoặc đã hết hạn. Vào Cài đặt cá nhân trong " +++
  product_name +++ " và bấm “Kết nối Zalo” để lấy mã mới.".
Definition linked_reply (product_name : pystr) : pystr :=
  "Đã kết nối Zalo với tài khoản " +++ product_name +++
  " của bạn. Thông báo sẽ được gửi tới đây. Gõ /stop để ngắt kết nối.".
Definition unlinked_reply (product_name : pystr) : pystr :=
  "Đã ngắt kết nối Zalo. Muốn nhận lại thông báo, vào Cài đặt cá nhân trong " +++ product_name +++
  " và bấm “Kết nối Zalo”.".

(** [sender.send_message]; [None]: no bot.  Best effort: a [RuntimeError] is dropped. *)
Definition RuntimeError : exn_class := OtherException "RuntimeError".
Context (sender : option (pystr → pystr → Prog pystr)).

Definition best_effort (chat text : pystr) : Prog unit :=
  match sender with
  | None => ret tt
  | Some send => try_except (let! _ := send chat text in ret tt)
                   (λ e, if bool_decide (exn_cls e = RuntimeError) then ret tt else reraise e)
  end.

(** [words[0] == _START and len(words) == 2]: the second word. *)
Definition start_code (text : pystr) : option pystr :=
  match py_words text with
  | [start; code] => if bool_decide (start = _START) then Some code else None
  | _ => None
  end.

Definition link_command (product_name zalo_id text : pystr) : Prog unit :=
  match start_code text with
  | Some code =>
      let! now := now_utc in
      match verify_connect_token hmac code link_secret now with
      | None => best_effort zalo_id (bad_code_reply product_name)
      | Some token =>
          let! linked := redeem sha256 token zalo_id in
          best_effort zalo_id (if linked : bool then linked_reply product_name
                               else bad_code_reply product_name)
      end
  | None =>
      if bool_decide (text = _STOP) then
        let! removed := unlink_by_zalo sha256 zalo_id in
        best_effort zalo_id (if removed : bool then unlinked_reply product_name
                             else "Zalo này chưa kết nối với tài khoản nào.")
      else best_effort zalo_id (link_help product_name)
  end.

Definition handle_update (product_name : pystr) (update : json) : Prog unit :=
  let! parsed := lift_res (parse_update update) in
  let '(zalo_id, text) := parsed in
  if negb (py_truthy zalo_id) || negb (py_truthy text) then ret tt
  else link_command product_name zalo_id text.
End Linking.
