(* ===== verification/LinkLaws.v ===== *)
(** * What a connect token and a link promise

    Of [ChannelLinks]: a token is read back as it was minted and nothing unsigned is
    accepted, a redemption spends its nonce and leaves one chat per person and one
    person per chat, and a nonce is spent at most once. *)

From S2P Require Import Prelude Errors Kernel Domain Contracts Accounts SupportGrants ChannelRows Store Notifications.
From S2P Require Import Pagination ChannelLinks.
Local Open Scope prog_scope.
Local Open Scope pystr_scope.

(** ** The fields of a token *)

Lemma be_number_snoc l b : be_number (l ++ [b]) = (be_number l * 256 + b)%N.
Proof. unfold be_number. by rewrite foldl_app. Qed.

Lemma be_bytes_length n x : length (be_bytes n x) = n.
Proof. revert x. induction n as [|n IH]; intros x; [done|]. simpl. rewrite length_app, IH. simpl. lia. Qed.

Lemma be_bytes_bytes n x : Forall is_byte (be_bytes n x).
Proof.
  revert x. induction n as [|n IH]; intros x; [by constructor|]. simpl. apply Forall_app. split; [done|].
  constructor; [|by constructor]. apply N.mod_lt. lia.
Qed.

Lemma be_round_trip n x : (x < 256 ^ N.of_nat n)%N → be_number (be_bytes n x) = x.
Proof.
  revert x. induction n as [|n IH]; intros x Hx; [unfold be_number; simpl in *; lia|].
  simpl be_bytes. rewrite be_number_snoc, IH.
  - pose proof (N.div_mod x 256). lia.
  - rewrite Nat2N.inj_succ, N.pow_succ_r' in Hx. apply N.Div0.div_lt_upper_bound. lia.
Qed.

(** [base64] without its padding, and back. *)
Lemma token_text_read raw :
  Forall is_byte raw →
  urlsafe_b64decode (PyStr (b64_encode raw)
    +++ PyStr (repeat 61%N ((4 - py_len (PyStr (b64_encode raw)) mod 4) mod 4))) = Some raw.
Proof.
  intros Hb. unfold urlsafe_b64decode, py_len. simpl chars.
  rewrite forallb_app, (b64_encode_ascii (length raw)) by done.
  rewrite (proj2 (forallb_forall _ (repeat 61%N _))) by (by intros x ->%repeat_spec).
  by apply (b64_round_trip (length raw)).
Qed.

Section Token.
Context (hmac : pystr → list N → list N).
(** A digest has at least eight bytes. *)
Context (Hmac : ∀ secret body, 8 ≤ length (hmac secret body) ∧ Forall is_byte (hmac secret body)).

Lemma sign_length body secret : length (_sign hmac body secret) = 8.
Proof. unfold _sign. rewrite length_take. destruct (Hmac secret body). unfold _SIG_BYTES. lia. Qed.

Definition token_body (user_id : uuid) (expires : Z) (jti : list N) : list N :=
  be_bytes 16 user_id ++ be_bytes 4 (Z.to_N expires) ++ jti.

Lemma token_body_length user_id expires jti :
  length jti = _JTI_BYTES → length (token_body user_id expires jti) = _BODY_BYTES.
Proof. intros Hj. unfold token_body. rewrite !length_app, !be_bytes_length, Hj. done. Qed.

(** C39: a minted token verifies, until the second it expires in and not after, to the
    claims it was minted with; and whatever verifies under a secret decodes to a body
    followed by that secret's tag of the body. *)
Theorem connect_token_round_trip user_id secret now ttl jti code token :
  (user_id < 2 ^ 128)%N → length jti = _JTI_BYTES → Forall is_byte jti →
  make_connect_token hmac user_id secret now ttl jti = Ok (code, token) →
  ct_user_id token = user_id ∧ ct_jti token = bytes_hex jti ∧
  (Z.abs (now + ttl - ct_expires_at token) < seconds 1)%Z ∧
  (∀ later, verify_connect_token hmac code secret later
            = if (ct_expires_at token <=? later)%Z then None else Some token) ∧
  (∀ code' secret' later t, verify_connect_token hmac code' secret' later = Some t →
     (later < ct_expires_at t)%Z ∧
     ∃ body, urlsafe_b64decode (code' +++ PyStr (repeat 61%N ((4 - py_len code' mod 4) mod 4)))
               = Some (body ++ _sign hmac body secret') ∧
       ct_user_id t = be_number (take 16 body) ∧ ct_jti t = bytes_hex (drop 20 body)).
Proof.
  intros Hu Hj Hjb. unfold make_connect_token. set (expires := Z.quot (now + ttl) 1000000).
  destruct (_ && _)%Z eqn:Hx; [|done]. to_prop. cbn [negb]. cbv zeta.
  fold (token_body user_id expires jti). set (body := token_body user_id expires jti).
  assert (length body = _BODY_BYTES) as Hl by (by apply token_body_length).
  assert (Forall is_byte body) as Hb.
  { unfold body, token_body. rewrite !Forall_app. auto using be_bytes_bytes. }
  assert (take 16 body = be_bytes 16 user_id) as H16.
  { unfold body, token_body. by rewrite take_app_length' by (by rewrite be_bytes_length). }
  assert (take 4 (drop 16 body) = be_bytes 4 (Z.to_N expires)) as H4.
  { unfold body, token_body. by rewrite drop_app_length', take_app_length' by (by rewrite be_bytes_length). }
  assert (drop 20 body = jti) as H20.
  { unfold body, token_body. rewrite app_assoc, drop_app_length'; [done|].
    by rewrite length_app, !be_bytes_length. }
  clearbody body. set (text := b64_encode _). intros E.
  assert (code = PyStr text) as -> by congruence.
  assert (token = {| ct_user_id := user_id; ct_jti := bytes_hex jti; ct_expires_at := seconds expires |})
    as -> by congruence. clear E. cbn [ct_user_id ct_jti ct_expires_at].
  split_and!; [done|done| | |].
  - unfold expires, seconds. pose proof (Z.quot_rem' (now + ttl) 1000000).
    pose proof (Z.rem_bound_abs (now + ttl) 1000000). lia.
  - intros later. unfold verify_connect_token, text. rewrite token_text_read.
    + cbn [mbind option_bind]. rewrite length_app, Hl, sign_length, Nat.eqb_refl.
      cbn [negb]. rewrite take_app_length', drop_app_length' by done.
      rewrite bool_decide_eq_true_2 by done. cbn [negb].
      rewrite H4, H16, H20, (be_round_trip 4), (be_round_trip 16), Z2N.id; [done|lia|exact Hu|].
      change (256 ^ N.of_nat 4)%N with (2 ^ 32)%N. lia.
    + apply Forall_app. split; [done|]. apply Forall_take, Hmac.
  - clear. intros code secret later t. unfold verify_connect_token.
    destruct (urlsafe_b64decode _) as [raw|]; [|done]. cbn [mbind option_bind].
    destruct (negb (_ =? _)); [done|]. destruct (negb (bool_decide _)) eqn:Hs; [done|].
    destruct (_ <=? _)%Z eqn:Hle; [done|]. intros E.
    injection E as <-. apply Z.leb_gt in Hle. to_prop. split; [done|]. exists (take _BODY_BYTES raw). split_and!; [|done|done].
    by rewrite <- Hs, take_drop.
Qed.
End Token.

(** ** What is written along a link *)

(** The trail, the inbox and the queue grow; the rest of the database stays. *)
Definition grows (d d' : Db) : Prop :=
  t_org d' = t_org d ∧ t_audit d ⊆ t_audit d' ∧
  t_notifications (t_chan d) ⊆ t_notifications (t_chan d') ∧
  t_deliveries (t_chan d) ⊆ t_deliveries (t_chan d') ∧
  t_inbound (t_chan d') = t_inbound (t_chan d) ∧ t_updates (t_chan d') = t_updates (t_chan d) ∧
  t_nonces (t_chan d') = t_nonces (t_chan d) ∧ t_preferences (t_chan d') = t_preferences (t_chan d).

#[export] Instance grows_preorder : PreOrder grows.
Proof.
  split; [by intros d|]. intros d1 d2 d3 (?&?&?&?&?&?&?&?) (?&?&?&?&?&?&?&?).
  split_and!; first [congruence | by etrans].
Qed.

Definition writes (w w' : World) : Prop :=
  grows (db w) (db w') ∧ saved w' = saved w ∧ db_now w' = db_now w.

#[export] Instance writes_preorder : PreOrder writes.
Proof.
  split; [by intros w|]. intros w1 w2 w3 (G1 & S1 & N1) (G2 & S2 & N2).
  split_and!; [by etrans|congruence..].
Qed.

(** The person has it in the trail and in the inbox of that workspace. *)
Definition announced (user : uuid) (action : pystr) (p : uuid * uuid) (d : Db) : Prop :=
  ∃ event_id key e k n,
    t_audit d !! key = Some e ∧ ae_tenant_id e = p.1 ∧ ae_workspace_id e = p.2 ∧
    ae_actor_id e = user ∧ ae_action e = action ∧ ae_resource_id e = uuid_str user ∧
    ae_details e !! "event_id"%py = Some (JStr (uuid_str event_id)) ∧
    t_notifications (t_chan d) !! k = Some n ∧ nt_recipient_user_id n = user ∧
    nt_source_key n = action +++ ":" +++ uuid_str event_id +++ ":" +++ uuid_str p.1.

Lemma announced_more user action p d d' :
  t_audit d ⊆ t_audit d' → t_notifications (t_chan d) ⊆ t_notifications (t_chan d') →
  announced user action p d → announced user action p d'.
Proof.
  intros Ha Hn (ev & key & e & k & n & H1 & H2 & H3 & H4 & H5 & H6 & H7 & H8 & H9 & H10).
  exists ev, key, e, k, n. split_and!; try done; by eapply lookup_weaken.
Qed.

Lemma announced_grows user action p d d' : grows d d' → announced user action p d → announced user action p d'.
Proof. intros (_ & Ha & Hn & _). by apply announced_more. Qed.

Lemma notified_grows tenant ws key title body link now us d d' :
  notified tenant ws key title body link now us d d' → grows d d'.
Proof. intros [Hn _ _ Hq _ _ (c & -> & Hi & Hu & Ho & Hp)]. by split_and!. Qed.

Lemma append_grows e d :
  t_audit d !! (ae_id e, ae_occurred_at e) = None →
  grows d (set_tbl (R := AuditEvent) (<[(ae_id e, ae_occurred_at e) := e]> (t_audit d)) d).
Proof. intros Hn. split_and!; try done. by apply insert_subseteq. Qed.

Lemma aside_fields w w' : aside w w' → saved w' = saved w ∧ db_now w' = db_now w.
Proof. unfold aside, outside. intros [= ? ? ? ? ? ?]. done. Qed.

Section Record.
Context (sha256 : pystr → pystr).

Lemma record_each_ok user action chat actor ev l w u w' :
  record_each sha256 user action chat actor ev l w = (Ok u, w') →
  (∀ p, p ∈ l → is_member (t_org (db w)) p.1 p.2 user = true) →
  writes w w' ∧ ∀ p, p ∈ l → announced user action p (db w').
Proof.
  revert w. induction l as [|[tenant ws] l IH]; intros w H Hm; cbn [record_each] in H.
  { injection H as _ <-. split; [done|]. by intros p ?%elem_of_nil. }
  apply bind_ok in H as (id & w1 & [= <- <-] & H). apply bind_ok in H as (w2 & w3 & [= <- <-] & H).
  apply bind_ok in H as (? & w3 & Hi & H). apply sql_insert_ok in Hi as (_ & Hn & _ & ->).
  destruct (_MESSAGES action) as [title body]. apply bind_ok in H as (n & w4 & Hd & H).
  apply deliver_notification_ok in Hd as (t & [= <-] & _ & Ha & Ht & _).
  apply aside_fields in Ha as [Hs Hnow].
  match type of Hn with tbl _ !! row_key ?x = None => set (e := x) in *;
    assert (ae_tenant_id e = tenant ∧ ae_workspace_id e = ws ∧ ae_actor_id e = user ∧
            ae_action e = action ∧ ae_resource_id e = uuid_str user ∧
            ae_details e !! "event_id"%py = Some (JStr (uuid_str ev))) as He by (by split_and!) end.
  clearbody e. simpl in Hn, Ht, Hs, Hnow.
  pose proof (append_grows e (db w) Hn) as G1. pose proof (notified_grows _ _ _ _ _ _ _ _ _ _ Ht) as G2.
  assert (grows (db w) (db w4)) as G by (by etrans).
  apply IH in H as [Hw Hl].
  2:{ intros p Hp. rewrite (proj1 G). apply Hm. by right. }
  split.
  - etrans; [|exact Hw]. by split_and!.
  - intros p [->|Hp]%elem_of_cons; [|by apply Hl].
    apply (announced_grows _ _ _ (db w4)); [by apply Hw|].
    destruct (nf_told _ _ _ _ _ _ _ _ _ _ Ht user) as (k & r & Hk & Hr & Hkey).
    + by apply list_elem_of_singleton.
    + apply (Hm (tenant, ws)). by left.
    + destruct He as (E1 & E2 & E3 & E4 & E5 & E6).
      exists ev, (ae_id e, ae_occurred_at e), e, k, r. split_and!; try done.
      eapply lookup_weaken; [|exact (proj1 (proj2 G2))]. by apply lookup_insert_eq.
Qed.

Lemma targets_member o user p : p ∈ targets o user → is_member o p.1 p.2 user = true.
Proof.
  intros Hp. assert (p ∈ scopes_of_user o user) as Hs.
  { unfold targets in Hp. revert Hp. generalize (scopes_of_user o user). intros l. revert p.
    induction l as [|[t ws] l IH]; intros p; [done|]. simpl. rewrite !elem_of_cons, list_elem_of_filter.
    intros [->|[_ Hp]]; auto. }
  unfold scopes_of_user in Hs. rewrite merge_sort_Permutation in Hs.
  apply list_elem_of_fmap in Hs as (m & -> & [Hu Hm]%list_elem_of_filter).
  apply list_elem_of_fmap in Hm as ([k m'] & -> & Hk). apply elem_of_map_to_list in Hk.
  apply is_member_spec. exists k, m'. by split_and!.
Qed.

Lemma record_link_ok user action chat actor w b w' :
  _record_link sha256 user action chat actor w = (Ok b, w') →
  writes w w' ∧ b = negb (bool_decide (targets (t_org (db w)) user = [])) ∧
  ∀ p, p ∈ targets (t_org (db w)) user → announced user action p (db w').
Proof.
  unfold _record_link. intros (w0 & w1 & [= <- <-] & H)%bind_ok.
  apply bind_ok in H as (ev & w1 & [= <- <-] & H). apply bind_ok in H as (u & w1 & H & [= <- <-]).
  apply record_each_ok in H as [Hw Ha]; [|intros p; by apply targets_member].
  split_and!; [|done|exact Ha]. destruct Hw as (G & S & N). by split_and!.
Qed.

Lemma record_moved_ok others chat w u w' :
  record_moved sha256 others chat w = (Ok u, w') →
  writes w w' ∧
  ∀ v p, v ∈ others → p ∈ targets (t_org (db w)) v → announced v _MOVED p (db w').
Proof.
  revert w. induction others as [|v others IH]; intros w H; cbn [record_moved] in H.
  { injection H as _ <-. split; [done|]. by intros v p ?%elem_of_nil. }
  apply bind_ok in H as (b & w1 & H1 & H). apply record_link_ok in H1 as (W1 & _ & A1).
  apply IH in H as [W2 A2]. split; [by etrans|].
  intros v' p [->|Hv]%elem_of_cons Hp.
  - eapply announced_grows; [apply W2|]. by apply A1.
  - apply A2; [done|]. by rewrite (proj1 (proj1 W1)).
Qed.
End Record.

(** ** What a redemption does *)

(** The rows a link displaces: the person's own chat, and the chat's last person. *)
Definition displaced (user : uuid) (chat : pystr) (e : ExternalIdentityRow) : bool :=
  zalo_of (λ e, bool_decide (xi_user_id e = user) || bool_decide (xi_subject e = chat)) e.

Definition link_row (id user : uuid) (chat : pystr) : ExternalIdentityRow :=
  {| xi_id := id; xi_user_id := user; xi_issuer := _ZALO; xi_subject := chat; xi_provider := _ZALO |}.

Abbreviation identity_rows d := (t_external_identities (t_org d)).

Record linked (token : ConnectToken) (chat : pystr) (now : datetime) (d d' : Db) : Prop := {
  lk_nonce : ∃ n, t_nonces (t_chan d) !! ct_jti token = Some n ∧ redeemable token now n = true ∧
    t_nonces (t_chan d') = <[ct_jti token := used now n]> (t_nonces (t_chan d));
  lk_member : targets (t_org d) (ct_user_id token) ≠ [];
  lk_identity : ∃ id,
    filter (λ kv, displaced (ct_user_id token) chat kv.2 = false) (identity_rows d) !! id = None ∧
    t_org d' = set_external_identities
      (<[id := link_row id (ct_user_id token) chat]>
         (filter (λ kv, displaced (ct_user_id token) chat kv.2 = false) (identity_rows d))) (t_org d);
  lk_told : ∀ p, p ∈ targets (t_org d) (ct_user_id token) →
    announced (ct_user_id token) _LINKED p d';
  lk_moved : ∀ k e p, identity_rows d !! k = Some e → xi_provider e = _ZALO → xi_subject e = chat →
    xi_user_id e ≠ ct_user_id token → p ∈ targets (t_org d) (xi_user_id e) →
    announced (xi_user_id e) _MOVED p d';
  lk_trail : t_audit d ⊆ t_audit d' }.

Section Redeem.
Context (sha256 : pystr → pystr).

Lemma link_ok user chat w u w' :
  _link sha256 user chat w = (Ok u, w') →
  targets (t_org (db w)) user ≠ [] ∧
  (∃ id, filter (λ kv, displaced user chat kv.2 = false) (identities w) !! id = None ∧
     t_org (db w') = set_external_identities
       (<[id := link_row id user chat]>
          (filter (λ kv, displaced user chat kv.2 = false) (identities w))) (t_org (db w))) ∧
  (∀ p, p ∈ targets (t_org (db w)) user → announced user _LINKED p (db w')) ∧
  (∀ k e p, identities w !! k = Some e → xi_provider e = _ZALO → xi_subject e = chat →
     xi_user_id e ≠ user → p ∈ targets (t_org (db w)) (xi_user_id e) →
     announced (xi_user_id e) _MOVED p (db w')) ∧
  t_audit (db w) ⊆ t_audit (db w') ∧ t_nonces (t_chan (db w')) = t_nonces (t_chan (db w)) ∧
  saved w' = saved w.
Proof.
  unfold _link. intros (b & w1 & H1 & H)%bind_ok. apply record_link_ok in H1 as (W1 & -> & A1).
  destruct (negb (negb _)) eqn:Hb; [done|]. to_prop. split; [done|].
  apply bind_ok in H as (gone & w2 & Hdel & H). unfold delete_identities in Hdel.
  apply bind_ok in Hdel as (? & ? & [= <- <-] & Hdel). apply bind_ok in Hdel as (? & ? & [= <- <-] & Hdel).
  injection Hdel as <- <-. apply bind_ok in H as (? & w3 & H2 & H).
  apply record_moved_ok in H2 as [W2 A2]. apply bind_ok in H as (id & w4 & [= <- <-] & H).
  unfold insert_identity in H. apply bind_ok in H as (? & ? & [= <- <-] & H).
  destruct (_ || _) eqn:Hc; [done|]. injection H as <- <-.
  destruct W1 as (G1 & S1 & N1), W2 as (G2 & S2 & N2). simpl in G2, S2, N2, Hc, A2.
  apply orb_false_iff in Hc as [_ Hfree]. to_prop. simpl in Hfree.
  pose proof (proj1 G1) as E1. pose proof (proj1 G2) as E2. simpl in E2.
  destruct G1 as (_ & T1 & M1 & _ & _ & _ & O1 & _), G2 as (_ & T2 & M2 & _ & _ & _ & O2 & _).
  simpl in T2, M2, O2. rewrite E2 in Hfree. simpl in Hfree. split_and!.
  - exists (ids w3 (ids_issued w3)). rewrite <- E1 at 1. split; [exact Hfree|].
    simpl. rewrite E2. simpl. by rewrite E1.
  - intros p Hp. apply (announced_more _ _ _ (db w1)); [done|done|by apply A1].
  - intros k e p He Hz Hs Hne Hp. apply (announced_more _ _ _ (db w3)); [done|done|].
    apply A2; [|simpl; by rewrite E1].
    apply elem_of_elements, elem_of_difference. split; [|set_solver].
    apply elem_of_list_to_set, list_elem_of_fmap. exists e. split; [done|].
    apply list_elem_of_filter. split.
    + unfold zalo_of. rewrite (bool_decide_eq_true_2 (xi_provider e = _ZALO)) by done.
      by rewrite (bool_decide_eq_true_2 (xi_subject e = chat)), orb_true_r.
    + apply list_elem_of_fmap. exists (k, e). split; [done|]. apply elem_of_map_to_list. by rewrite E1.
  - by etrans.
  - simpl. congruence.
  - simpl. congruence.
Qed.

Lemma consume_nonce_ok token w b w' :
  consume_nonce token w = (Ok b, w') →
  if b : bool
  then ∃ n, t_nonces (t_chan (db w)) !! ct_jti token = Some n ∧ redeemable token (db_now w) n = true ∧
         w' = set_db (set_chan (set_nonces (<[ct_jti token := used (db_now w) n]>
                (t_nonces (t_chan (db w)))) (t_chan (db w))) (db w)) w
  else w' = w.
Proof.
  unfold consume_nonce. intros (w0 & w1 & [= <- <-] & H)%bind_ok.
  destruct (_ !! _) as [n|] eqn:Hn; [|by injection H as <- <-].
  destruct (redeemable _ _ n) eqn:Hr; [|by injection H as <- <-]. simpl in H.
  destruct (negb _); [done|]. injection H as <- <-. eauto.
Qed.

Lemma record_link_same_saved user action chat actor :
  respects same_saved (_record_link sha256 user action chat actor).
Proof.
  unfold _record_link. apply respects_bind; [apply _|by intros ?|]. intros w.
  apply respects_bind; [apply _|by intros ?|]. intros ev.
  apply respects_bind; [apply _| |by intros ? ?].
  generalize (targets (t_org (db w)) user). intros l.
  induction l as [|[t ws] l IH]; [by intros ?|]. cbn [record_each].
  apply respects_bind; [apply _|by intros ?|]. intros id.
  apply respects_bind; [apply _|by intros ?|]. intros w1.
  apply respects_bind; [apply _|apply sql_insert_same_saved|]. intros _.
  destruct (_MESSAGES action). apply respects_bind; [apply _|apply deliver_notification_same_saved|done].
Qed.

Lemma link_same_saved user chat : respects same_saved (_link sha256 user chat).
Proof.
  unfold _link. apply respects_bind; [apply _|apply record_link_same_saved|]. intros b.
  destruct (negb b); [by intros ?|]. apply respects_bind; [apply _|by intros ?|]. intros gone.
  apply respects_bind; [apply _| |].
  - generalize (elements ((list_to_set (xi_user_id <$> gone) : gset uuid) ∖ {[user]})). intros l.
    induction l as [|v l IH]; [by intros ?|]. cbn [record_moved].
    apply respects_bind; [apply _|apply record_link_same_saved|done].
  - intros _. apply respects_bind; [apply _|by intros ?|]. intros id. unfold insert_identity.
    apply respects_bind; [apply _|by intros ?|]. intros w. case_match; by intros ?.
Qed.

Lemma redeem_cases token chat w r w' :
  clean w → redeem sha256 token chat w = (r, w') →
  clean w' ∧
  match r with
  | Ok true => linked token chat (db_now w) (db w) (db w')
  | _ => db w' = db w
  end.
Proof.
  intros Hc. unfold redeem, try_except, session_begin. set (body := bind _ _).
  assert (respects same_saved body) as Hs.
  { apply respects_bind; [apply _| |].
    - unfold consume_nonce. apply respects_bind; [apply _|by intros ?|]. intros w0.
      repeat case_match; by intros ?.
    - intros b. destruct (negb b); [by intros ?|].
      apply respects_bind; [apply _|apply link_same_saved|by intros ? ?]. }
  specialize (Hs w). unfold same_saved, clean in *.
  destruct (body w) as [[b|e] w1] eqn:E; simpl in Hs.
  - intros [= <- <-]. split; [done|]. simpl. unfold body in E.
    apply bind_ok in E as (consumed & w2 & H1%consume_nonce_ok & E).
    destruct consumed; simpl in E; [|injection E as <- <-; by subst].
    destruct H1 as (n & Hn & Hr & ->).
    apply bind_ok in E as (? & w3 & H2%link_ok & E). injection E as <- <-.
    destruct H2 as (Hm & Hid & Htold & Hmoved & Ha & Hno & _). split; try done.
    exists n. by split_and!.
  - case_bool_decide; unfold ret, reraise; intros [= <- <-]; simpl; rewrite Hs; by split.
Qed.
End Redeem.

(** ** Reading a link *)

Lemma zalo_rows_head (p : ExternalIdentityRow → bool) (m : gmap uuid ExternalIdentityRow) e :
  head (filter (λ e, zalo_of p e = true) (map_to_list m).*2) = Some e →
  ∃ k, m !! k = Some e ∧ xi_provider e = _ZALO ∧ p e = true.
Proof.
  intros [Hp He]%head_Some_elem_of%list_elem_of_filter.
  apply list_elem_of_fmap in He as ([k e'] & -> & Hk). apply elem_of_map_to_list in Hk.
  unfold zalo_of in Hp. to_prop. eauto.
Qed.

Lemma zalo_rows_some (p : ExternalIdentityRow → bool) (m : gmap uuid ExternalIdentityRow) k e :
  m !! k = Some e → xi_provider e = _ZALO → p e = true →
  ∃ e', head (filter (λ e, zalo_of p e = true) (map_to_list m).*2) = Some e'.
Proof.
  intros Hk Hz Hp. destruct (filter _ _) as [|e' l] eqn:E; [|by exists e'].
  assert (e ∈ filter (λ e, zalo_of p e = true) (map_to_list m).*2) as Hin.
  { apply list_elem_of_filter. split; [unfold zalo_of; by rewrite bool_decide_eq_true_2|].
    apply list_elem_of_fmap. exists (k, e). split; [done|]. by apply elem_of_map_to_list. }
  rewrite E in Hin. by apply elem_of_nil in Hin.
Qed.

(** After the link, the only rows of the person and of the chat are the new one. *)
Lemma linked_row token chat now d d' k e :
  linked token chat now d d' → identity_rows d' !! k = Some e → xi_provider e = _ZALO →
  (xi_user_id e = ct_user_id token ↔ xi_subject e = chat).
Proof.
  intros [_ _ (id & _ & E) _ _ _]. rewrite E. cbn. rewrite lookup_insert_Some.
  intros [[<- <-]|[_ [_ Hd]%map_lookup_filter_Some]] Hz; [done|]. cbn in Hd.
  unfold displaced, zalo_of in Hd. rewrite (bool_decide_eq_true_2 (xi_provider e = _ZALO)) in Hd by done.
  cbn in Hd. to_prop. split; congruence.
Qed.

Lemma linked_new token chat now d d' :
  linked token chat now d d' →
  ∃ k e, identity_rows d' !! k = Some e ∧ xi_provider e = _ZALO ∧ xi_user_id e = ct_user_id token ∧
         xi_subject e = chat.
Proof.
  intros [_ _ (id & _ & E) _ _ _]. rewrite E. exists id. eexists. split; [apply lookup_insert_eq|done].
Qed.

(** C14: redeeming a token either leaves the database as it was, or spends the token's own
    unused and unexpired nonce, leaves the chat with exactly that person and the person
    with exactly that chat, and tells and audits the person in every tenant and whoever
    lost the chat. *)
Theorem redeem_links sha256 token chat w r w' :
  clean w → redeem sha256 token chat w = (r, w') →
  clean w' ∧
  match r with
  | Ok true =>
      linked token chat (db_now w) (db w) (db w') ∧
      user_id_for chat w' = (Ok (Some (ct_user_id token)), w') ∧
      zalo_id_for (ct_user_id token) w' = (Ok (Some chat), w') ∧
      (∀ u, u ≠ ct_user_id token → (zalo_id_for u w').1 ≠ Ok (Some chat)) ∧
      (∀ c, c ≠ chat → (user_id_for c w').1 ≠ Ok (Some (ct_user_id token)))
  | _ => db w' = db w
  end.
Proof.
  intros Hc Hr. destruct (redeem_cases _ _ _ _ _ _ Hc Hr) as [Hc' Hl]. split; [exact Hc'|].
  destruct r as [[]|]; [|done|done]. split; [exact Hl|].
  destruct (linked_new _ _ _ _ _ Hl) as (k & e & Hk & Hz & Hu & Hs).
  unfold user_id_for, zalo_id_for, read_committed, gets. unfold clean in Hc'. rewrite Hc'.
  replace (set_saved (db w') (set_db (db w') (set_db (db w') w'))) with w'
    by (destruct w'; simpl in *; by subst). simpl.
  split_and!.
  - destruct (zalo_rows_some (λ e, bool_decide (xi_subject e = chat)) _ k e Hk Hz) as [e' He'];
      [by rewrite bool_decide_eq_true_2|]. rewrite He'. simpl.
    apply zalo_rows_head in He' as (k' & Hk' & Hz' & Hp). to_prop.
    by rewrite (proj2 (linked_row _ _ _ _ _ _ _ Hl Hk' Hz')).
  - destruct (zalo_rows_some (λ e, bool_decide (xi_user_id e = ct_user_id token)) _ k e Hk Hz) as [e' He'];
      [by rewrite bool_decide_eq_true_2|]. rewrite He'. simpl.
    apply zalo_rows_head in He' as (k' & Hk' & Hz' & Hp). to_prop.
    by rewrite (proj1 (linked_row _ _ _ _ _ _ _ Hl Hk' Hz')).
  - intros u Hne [= (e' & He' & Hs')%fmap_Some].
    apply zalo_rows_head in He' as (k' & Hk' & Hz' & Hp). to_prop.
    apply Hne. rewrite <- Hp. by apply (linked_row _ _ _ _ _ _ _ Hl Hk' Hz').
  - intros c Hne [= (e' & He' & Hs')%fmap_Some].
    apply zalo_rows_head in He' as (k' & Hk' & Hz' & Hp). to_prop.
    apply Hne. rewrite <- Hp. by apply (linked_row _ _ _ _ _ _ _ Hl Hk' Hz').
Qed.

(** ** A nonce is spent once *)

Abbreviation nonces w := (t_nonces (t_chan (db w))).

(** Redemptions of [jti] that linked, along a run of the program; a new token draws
    another [jti]. *)
Inductive link_history (jti : pystr) (w0 : World) : nat → World → Prop :=
  | lh_start : clean w0 → link_history jti w0 0 w0
  | lh_redeem n w sha256 token chat r w' :
      link_history jti w0 n w → redeem sha256 token chat w = (r, w') →
      link_history jti w0
        (if bool_decide (r = Ok true ∧ ct_jti token = jti) then S n else n) w'
  | lh_issue n w token r w' :
      link_history jti w0 n w → ct_jti token ≠ jti → issue_nonce token w = (r, w') →
      link_history jti w0 n w'
  | lh_prune n w r w' :
      link_history jti w0 n w → prune_nonces w = (r, w') → link_history jti w0 n w'
  | lh_other n w w' :
      link_history jti w0 n w → clean w' → nonces w' = nonces w → link_history jti w0 n w'.

Definition spent (jti : pystr) (w : World) : Prop :=
  ∀ n, nonces w !! jti = Some n → ln_used_at n ≠ None.

Lemma issue_nonce_other token jti w r w' :
  clean w → ct_jti token ≠ jti → issue_nonce token w = (r, w') →
  clean w' ∧ nonces w' !! jti = nonces w !! jti.
Proof.
  intros Hc Hne. unfold issue_nonce, session_begin, put_nonces. run. unfold clean in *.
  destruct (negb _); [|destruct (_ !! _)]; intros [= <- <-]; simpl; rewrite ?Hc;
    (split; [done|]; by rewrite ?lookup_insert_ne).
Qed.

Lemma prune_nonces_spent jti w r w' :
  clean w → spent jti w → prune_nonces w = (r, w') → clean w' ∧ spent jti w'.
Proof.
  intros Hc Hs. unfold prune_nonces, session_begin. run. intros [= <- <-]. split; [done|].
  intros n Hn. cbn in Hn. apply map_lookup_filter_Some in Hn as [Hn _]. by apply Hs.
Qed.

Lemma prune_nonces_clean w r w' : prune_nonces w = (r, w') → clean w'.
Proof. unfold prune_nonces, session_begin. run. by intros [= <- <-]. Qed.

Lemma redeem_spent sha256 token chat jti w r w' :
  clean w → redeem sha256 token chat w = (r, w') →
  clean w' ∧ (spent jti w → spent jti w' ∧ ¬ (r = Ok true ∧ ct_jti token = jti)) ∧
  (r = Ok true → ct_jti token = jti → spent jti w').
Proof.
  intros Hc Hr. destruct (redeem_cases _ _ _ _ _ _ Hc Hr) as [Hc' Hl]. split; [exact Hc'|].
  destruct r as [[]|]; [|unfold spent; rewrite Hl; split; [intros ?; split; [done|by intros [[=]]]|done]..].
  destruct (lk_nonce _ _ _ _ _ Hl) as (n & Hn & Hred & Hn').
  unfold redeemable in Hred. to_prop. unfold spent. rewrite Hn'. split.
  - intros Hs. assert (ct_jti token ≠ jti) as Hne by (intros <-; by eapply Hs).
    split; [by rewrite lookup_insert_ne|by intros [_ ?]].
  - intros _ <- n0. rewrite lookup_insert_eq. by intros [= <-].
Qed.

(** Along any run of redemptions, new tokens, sweeps and other writes a nonce links at most
    one chat. *)
Theorem link_nonce_once jti w0 n w : link_history jti w0 n w → n ≤ 1.
Proof.
  intros Hh. enough (clean w ∧ n ≤ 1 ∧ (n = 1 → spent jti w)) by tauto.
  induction Hh as [Hc|n w sha256 token chat r w' _ (Hc & Hn & Hs) Hr|n w token r w' _ (Hc & Hn & Hs) Hne Hr
                  |n w r w' _ (Hc & Hn & Hs) Hr|n w w' _ (Hc & Hn & Hs) Hc' E].
  - by split_and!; [|lia|].
  - destruct (redeem_spent _ _ _ jti _ _ _ Hc Hr) as (Hc' & Hk & Hlast). split; [done|].
    case_bool_decide as E.
    + destruct (decide (n = 1)) as [->|]; [by destruct (Hk (Hs eq_refl)) as [_ []]|].
      split; [lia|]. intros _. by apply Hlast; apply E.
    + split; [done|]. intros Hn1. by apply Hk, Hs.
  - destruct (issue_nonce_other _ jti _ _ _ Hc Hne Hr) as [Hc' E]. split_and!; [done..|].
    intros Hn1 m. rewrite E. by apply Hs.
  - split_and!; [by eapply prune_nonces_clean|done|]. intros Hn1.
    by destruct (prune_nonces_spent jti _ _ _ Hc (Hs Hn1) Hr).
  - split_and!; [done..|]. intros Hn1 m. rewrite E. by apply Hs.
Qed.

(** ** Examples *)

(** The second member connects the chat the first one had. *)
Definition example_hmac (secret : pystr) (body : list N) : list N := repeat 7%N 32.
Definition example_jti : list N := [1; 2; 3; 4; 250; 251; 252; 253]%N.
Definition example_token : ConnectToken :=
  {| ct_user_id := 5; ct_jti := "01020304fafbfcfd"; ct_expires_at := seconds 900 |}.
Definition example_code : pystr := "AAAAAAAAAAAAAAAAAAAABQAAA4QBAgME-vv8_QcHBwcHBwcH".

Lemma example_hmac_digest secret body :
  8 ≤ length (example_hmac secret body) ∧ Forall is_byte (example_hmac secret body).
Proof. split; [simpl; lia|]. apply Forall_forall. by intros x ->%list_elem_of_In%repeat_spec. Qed.

Lemma example_minted :
  make_connect_token example_hmac 5 "secret" 1000 TOKEN_TTL example_jti
    = Ok (example_code, example_token).
Proof. by vm_compute. Qed.

Lemma example_jti_bytes : Forall is_byte example_jti.
Proof. by repeat constructor. Qed.

Lemma connect_token_round_trip_witness :
  ct_user_id example_token = 5%N ∧
  verify_connect_token example_hmac example_code "secret" (seconds 60) = Some example_token ∧
  verify_connect_token example_hmac example_code "secret" (seconds 900) = None.
Proof.
  pose proof (connect_token_round_trip example_hmac example_hmac_digest 5 "secret" 1000 TOKEN_TTL
    example_jti example_code example_token eq_refl eq_refl example_jti_bytes example_minted)
    as (H1 & _ & _ & H2 & _).
  rewrite (H2 (seconds 60)), (H2 (seconds 900)). by split_and!.
Defined.

Definition example_offered : World := (issue_nonce example_token example_inboxes).2.
Definition example_linking : Prog bool := redeem (λ s, s) example_token "chat-4".
Definition example_connected : World := (example_linking example_offered).2.

Lemma example_offered_clean : clean example_offered.
Proof. by vm_compute. Qed.

Lemma example_linking_ok : example_linking example_offered = (Ok true, example_connected).
Proof.
  unfold example_connected. apply (ran example_linking example_offered (Ok true)). by vm_compute.
Qed.

Lemma redeem_links_witness :
  clean example_connected ∧
  linked example_token "chat-4" (db_now example_offered) (db example_offered) (db example_connected) ∧
  (zalo_id_for (ct_user_id example_token) example_connected).1 = Ok (Some "chat-4"%py) ∧
  (zalo_id_for 4 example_connected).1 ≠ Ok (Some "chat-4"%py).
Proof.
  pose proof (redeem_links (λ s, s) example_token "chat-4" example_offered (Ok true) example_connected
    example_offered_clean example_linking_ok) as (Hc & Hl & _ & Hz & Hn & _).
  split; [exact Hc|]. split; [exact Hl|]. split; [by rewrite Hz|]. by apply Hn.
Defined.

(** The same code, sent again. *)
Lemma example_again : (example_linking example_connected).1 = Ok false.
Proof. by vm_compute. Qed.

Lemma link_nonce_once_witness :
  link_history (ct_jti example_token) example_offered 1 (example_linking example_connected).2 ∧ 1 ≤ 1.
Proof.
  assert (link_history (ct_jti example_token) example_offered 1 (example_linking example_connected).2)
    as Hh.
  { pose proof (lh_redeem (ct_jti example_token) example_offered 0 example_offered (λ s, s) example_token
      "chat-4" (Ok true) example_connected (lh_start _ _ example_offered_clean) example_linking_ok) as H1.
    rewrite bool_decide_eq_true_2 in H1 by done.
    pose proof (lh_redeem (ct_jti example_token) example_offered 1 example_connected (λ s, s) example_token
      "chat-4" (Ok false) _ H1 (ran _ _ _ example_again)) as H2.
    rewrite bool_decide_eq_false_2 in H2 by (by intros [[=] _]). exact H2. }
  split; [exact Hh|exact (link_nonce_once _ _ _ _ Hh)].
Defined.
