(* ===== verification/Inbound.v ===== *)
(** * Messages from a chat

    [dw_connectors/inbound.py], the router every message of a linked person goes
    through; [persistence/channel_inbound.py], the ledger that lets an id act once
    and the queue of webhook updates; [persistence/channel_preferences.py];
    [adapters/zalo_inbound.py] and the two worker lanes that feed it. *)

From S2P Require Import Prelude Errors Kernel Domain Contracts Accounts ChannelRows Store Membership.
From S2P Require Import Pagination Notifications ChannelLinks.
Local Open Scope prog_scope.
Local Open Scope pystr_scope.

(** ** [persistence/channel_preferences.py] *)

Definition chosen (user_id : uuid) : Prog (option (uuid * uuid)) :=
  session_begin (gets (λ w, t_preferences (t_chan (db w)) !! user_id)).

(** [ORDER BY tenant_id, workspace_id] *)
Definition memberships_of (user_id : uuid) : Prog (list (uuid * uuid)) :=
  session_begin (gets (λ w, scopes_of_user (t_org (db w)) user_id)).

Definition choose (user_id tenant ws : uuid) : Prog bool :=
  session_begin (
    let! w := get_state in
    if is_member (t_org (db w)) tenant ws user_id
    then modify (λ w, set_db (set_chan (set_preferences
           (<[user_id := (tenant, ws)]> (t_preferences (t_chan (db w)))) (t_chan (db w))) (db w)) w) ;;;
         ret true
    else ret false).

(** ** [persistence/channel_inbound.py] *)

Definition INBOUND_MESSAGE_RETENTION : timedelta := days 7.
Definition INBOUND_UPDATE_RETENTION : timedelta := days 1.

Abbreviation inbound w := (t_inbound (t_chan (db w))).

Definition put_inbound (t : gmap (pystr * pystr) InboundRow) : Prog unit :=
  modify (λ w, set_db (set_chan (set_inbound t (t_chan (db w))) (db w)) w).
Definition put_updates (t : gmap uuid UpdateRow) : Prog unit :=
  modify (λ w, set_db (set_chan (set_updates t (t_chan (db w))) (db w)) w).

(** The CHECKs on the channel and on the length of an id. *)
Definition inbound_ok (channel message_id : pystr) : bool :=
  bool_decide (channel ∈ CHANNEL_LINK_PROVIDERS)
  && (1 <=? py_len message_id) && (py_len message_id <=? 128).

(** [INSERT ... ON CONFLICT DO NOTHING RETURNING], committed. *)
Definition ledger_claim (channel message_id : pystr) (user_id : uuid) : Prog bool :=
  session_begin (
    let! w := get_state in
    if negb (inbound_ok channel message_id)
    then raise (IntegrityError "ck_channel_inbound_messages") "violates check constraint"
    else match inbound w !! (channel, message_id) with
         | Some _ => ret false
         | None =>
             put_inbound (<[(channel, message_id) :=
               {| ib_user_id := user_id; ib_received_at := db_now w; ib_outcome := MO_processing |}]>
               (inbound w)) ;;;
             ret true
         end).

Definition settled_as (outcome : MessageOutcome) (r : InboundRow) : InboundRow :=
  {| ib_user_id := ib_user_id r; ib_received_at := ib_received_at r; ib_outcome := outcome |}.

Definition ledger_settle (channel message_id : pystr) (outcome : MessageOutcome) : Prog unit :=
  session_begin (
    let! w := get_state in
    match inbound w !! (channel, message_id) with
    | Some r => if bool_decide (ib_outcome r = MO_processing)
                then put_inbound (<[(channel, message_id) := settled_as outcome r]> (inbound w))
                else ret tt
    | None => ret tt
    end).

Definition enqueue (channel : pystr) (update : json) : Prog unit :=
  session_begin (
    let! id := new_uuid in
    let! w := get_state in
    match t_updates (t_chan (db w)) !! id with
    | Some _ => raise (IntegrityError "channel_inbound_updates_pkey")
                  "duplicate key value violates unique constraint"
    | None => put_updates (<[id := {| iu_id := id; iu_channel := channel; iu_payload := update;
                                       iu_received_at := db_now w |}]> (t_updates (t_chan (db w))))
    end).

(** [ORDER BY received_at, id]; also the order the rows are handed out in. *)
Definition oldest_update (a b : UpdateRow) : Prop :=
  (iu_received_at a < iu_received_at b)%Z ∨
  (iu_received_at a = iu_received_at b ∧ (iu_id a <= iu_id b)%N).
#[export] Instance oldest_update_dec : RelDecision oldest_update.
Proof. intros a b. unfold oldest_update. apply _. Defined.

Definition take_updates (channel : pystr) (limit : nat) : Prog (list json) :=
  session_begin (
    let! w := get_state in
    let updates := t_updates (t_chan (db w)) in
    let taken := take limit (merge_sort oldest_update
      (filter (λ u, iu_channel u = channel) (map_to_list updates).*2)) in
    put_updates (filter (λ kv, kv.1 ∉ iu_id <$> taken) updates) ;;;
    ret (iu_payload <$> taken)).

(** [SqlChannelInboundRetention.prune] *)
Definition prune_inbound : Prog unit :=
  session_begin (
    let! w := get_state in
    put_inbound (filter (λ kv, (db_now w - INBOUND_MESSAGE_RETENTION <= ib_received_at kv.2)%Z)
                   (inbound w)) ;;;
    let! w := get_state in
    put_updates (filter (λ kv, (db_now w - INBOUND_UPDATE_RETENTION <= iu_received_at kv.2)%Z)
                   (t_updates (t_chan (db w))))).

(** ** [inbound.py]: commands *)

Record InboundMessage := {
  im_channel : pystr;
  im_message_id : pystr;
  im_chat_id : pystr;
  im_text : pystr }.

Record ChannelCommand := {
  cc_ceiling : gset pystr;
  cc_handle : InboundMessage → AccessContext → (pystr → Prog unit) → Prog bool }.

Abbreviation ChannelCommandRegistry := (list (pystr * ChannelCommand)) (only parsing).

Definition register (name : pystr) (command : ChannelCommand)
    : M ChannelCommandRegistry unit :=
  let! commands := get_state in
  if is_blank name then raise ValueError "a channel command needs a name"
  else if existsb (λ c, bool_decide (c.1 = name)) commands
  then raise ValueError "channel command is already registered"
  else modify (λ l, l ++ [(name, command)]).

Definition NOT_HANDLED : pystr := "Mình chưa xử lý được tin này.".
Definition FAILED_REPLY : pystr := "Có lỗi khi xử lý tin này. Anh/chị gửi lại sau ít phút giúp mình.".
Definition NO_WORKSPACE : pystr :=
  "Tài khoản của anh/chị chưa thuộc workspace nào, nên chưa gửi lệnh qua chat được. Liên hệ quản trị viên để được thêm vào.".
Definition REFUSED_REPLY : pystr :=
  "Anh/chị không còn dùng được workspace này (đã rời workspace hoặc workspace đang bị khóa). Kiểm tra lại ở trang Cài đặt cá nhân.".
Definition choose_workspace_reply (settings_url : pystr) : pystr :=
  "Anh/chị thuộc nhiều workspace. Chọn “Workspace dùng cho Zalo” ở " +++ settings_url +++
  " rồi nhắn lại giúp mình.".

(** ** The router *)

Record InboundRouter := {
  ir_commands : list (pystr * ChannelCommand);
  ir_sender : option (pystr → pystr → Prog pystr);
  ir_unlinked_reply : pystr;
  ir_settings_url : pystr }.

Section Router.
Context (r : InboundRouter).

Definition reply_to (message : InboundMessage) (text : pystr) : Prog unit :=
  best_effort (ir_sender r) (im_chat_id message) text.

(** The walk over the commands. *)
Fixpoint ask_commands (message : InboundMessage) (user_id tenant ws : uuid)
    (commands : list (pystr * ChannelCommand)) : Prog MessageOutcome :=
  match commands with
  | [] => reply_to message NOT_HANDLED ;;; ret MO_ignored
  | (_, command) :: rest =>
      let! context := access_for user_id tenant ws (cc_ceiling command) in
      match context with
      | None => reply_to message REFUSED_REPLY ;;; ret MO_ignored
      | Some context =>
          let! handled := cc_handle command message context (reply_to message) in
          if handled : bool then ret MO_done else ask_commands message user_id tenant ws rest
      end
  end.

Definition _dispatch (message : InboundMessage) (user_id : uuid) : Prog MessageOutcome :=
  let! target := chosen user_id in
  match target with
  | Some (tenant, ws) => ask_commands message user_id tenant ws (ir_commands r)
  | None =>
      let! workspaces := memberships_of user_id in
      match workspaces with
      | [] => reply_to message NO_WORKSPACE ;;; ret MO_ignored
      | [(tenant, ws)] => ask_commands message user_id tenant ws (ir_commands r)
      | _ => reply_to message (choose_workspace_reply (ir_settings_url r)) ;;; ret MO_ignored
      end
  end.

Definition settle_dispatch (message : InboundMessage) (user_id : uuid) : Prog unit :=
  let! dispatched := outcome_of (_dispatch message user_id) in
  match dispatched with
  | Ok outcome => ledger_settle (im_channel message) (im_message_id message) outcome
  | Raise e =>
      if is_cancelled e then reraise e
      else ledger_settle (im_channel message) (im_message_id message) MO_failed ;;;
           reply_to message FAILED_REPLY
  end.

Definition route (message : InboundMessage) : Prog unit :=
  let! user_id := user_id_for (im_chat_id message) in
  match user_id with
  | None => reply_to message (ir_unlinked_reply r)
  | Some user_id =>
      let! fresh := ledger_claim (im_channel message) (im_message_id message) user_id in
      if fresh : bool then settle_dispatch message user_id else ret tt
  end.

(** ** [zalo_inbound.py] *)

Context (hmac : pystr → list N → list N) (sha256 : pystr → pystr) (link_secret : pystr)
  (str_of : json → pystr) (product_name : pystr).

Definition zalo_handle (update : json) : Prog unit :=
  let! parsed := lift_res (parse_update str_of update) in
  let '(zalo_id, text) := parsed in
  if negb (py_truthy zalo_id) || negb (py_truthy text) then ret tt
  else if bool_decide (head (py_words text) ∈ Some <$> LINK_COMMANDS)
  then handle_update hmac sha256 link_secret str_of (ir_sender r) product_name update
  else
    let! message_id := lift_res (message_id_of str_of update) in
    if negb (py_truthy message_id) then best_effort (ir_sender r) zalo_id NOT_HANDLED
    else route {| im_channel := _ZALO; im_message_id := message_id; im_chat_id := zalo_id;
                  im_text := text |}.

(** ** The worker's lanes: a failure is logged, the rest of the batch goes on *)

Fixpoint handle_each (updates : list json) : Prog unit :=
  match updates with
  | [] => ret tt
  | u :: rest => try_exception (zalo_handle u) (λ _, ret tt) ;;; handle_each rest
  end.

(** [get_updates]: the bot's next batch. *)
Definition zalo_poll (get_updates : Prog (list json)) : Prog unit :=
  let! updates := get_updates in handle_each updates.

Definition BATCH : nat := 20.

Definition zalo_webhook : Prog unit :=
  let! updates := take_updates _ZALO BATCH in handle_each updates.
End Router.
