(* ===== verification/InboundLaws.v ===== *)
(** * A message acts once

    Of [Inbound]: an id is claimed at most once in the seven days its row is kept,
    a message seen before runs nothing, a fresh one is settled by what its commands
    did, and commands are handed nothing but contexts of the person's own membership. *)

From S2P Require Import Prelude Errors Kernel Domain Contracts Accounts ChannelRows Store Hierarchy Membership.
From S2P Require Import Pagination Notifications ChannelLinks Inbound.
Local Open Scope prog_scope.
Local Open Scope pystr_scope.

(** ** The ledger *)

(** Claims of one id along a run, the latest first: every worker's claims, settlements
    and sweeps, and anything that leaves the ledger alone.  Time does not run back. *)
Inductive claim_history (key : pystr * pystr) : list datetime → World → Prop :=
  | ch_start w : clean w → inbound w !! key = None → claim_history key [] w
  | ch_claim l w channel message_id user r w' :
      claim_history key l w → ledger_claim channel message_id user w = (r, w') →
      claim_history key
        (if bool_decide (r = Ok true ∧ (channel, message_id) = key) then db_now w :: l else l) w'
  | ch_settle l w channel message_id outcome r w' :
      claim_history key l w → ledger_settle channel message_id outcome w = (r, w') →
      claim_history key l w'
  | ch_prune l w r w' :
      claim_history key l w → prune_inbound w = (r, w') → claim_history key l w'
  | ch_other l w w' :
      claim_history key l w → clean w' → inbound w' = inbound w → (db_now w <= db_now w')%Z →
      claim_history key l w'.

(** Since the last claim its row is there, or seven days have passed. *)
Definition remembered (key : pystr * pystr) (l : list datetime) (w : World) : Prop :=
  match l with
  | [] => True
  | t :: _ => (t <= db_now w)%Z ∧
              ((∃ r, inbound w !! key = Some r ∧ ib_received_at r = t) ∨
               (inbound w !! key = None ∧ (t < db_now w - INBOUND_MESSAGE_RETENTION)%Z))
  end.

Definition days_apart (later earlier : datetime) : Prop :=
  (earlier + INBOUND_MESSAGE_RETENTION < later)%Z.

Lemma ledger_claim_cases channel message_id user w r w' :
  clean w → ledger_claim channel message_id user w = (r, w') →
  clean w' ∧ db_now w' = db_now w ∧
  match r with
  | Ok true => inbound_ok channel message_id = true ∧ inbound w !! (channel, message_id) = None ∧
      w' = commit_db (set_chan (set_inbound (<[(channel, message_id) :=
             {| ib_user_id := user; ib_received_at := db_now w; ib_outcome := MO_processing |}]>
             (inbound w)) (t_chan (db w))) (db w)) w
  | Ok false => w' = w ∧ is_Some (inbound w !! (channel, message_id))
  | Raise _ => w' = w ∧ inbound_ok channel message_id = false
  end.
Proof.
  intros Hc. unfold ledger_claim, session_begin, put_inbound. run. unfold clean in Hc.
  destruct (inbound_ok _ _); simpl; [destruct (_ !! _) eqn:E|]; intros [= <- <-]; simpl.
  - rewrite <- Hc. split; [by rewrite Hc|]. split; [done|]. split; [by destruct w|by eauto].
  - done.
  - rewrite Hc. split_and!; [done|done| |done]. destruct w; simpl in *. by subst.
Qed.

Lemma ledger_settle_cases channel message_id outcome w r w' :
  clean w → ledger_settle channel message_id outcome w = (r, w') →
  r = Ok tt ∧ clean w' ∧ db_now w' = db_now w ∧
  inbound w' = alter (λ x, if bool_decide (ib_outcome x = MO_processing) then settled_as outcome x else x)
                 (channel, message_id) (inbound w).
Proof.
  intros Hc. unfold ledger_settle, session_begin, put_inbound. run. unfold clean in Hc.
  destruct (_ !! _) as [x|] eqn:E; [case_bool_decide as Hp|]; intros [= <- <-]; simpl;
    (split_and!; [done..|]); apply map_eq; intros k;
    (destruct (decide (k = (channel, message_id))) as [->|Hne];
      [rewrite lookup_alter_eq, E; simpl|by rewrite ?lookup_insert_ne, lookup_alter_ne]).
  - by rewrite lookup_insert_eq, bool_decide_eq_true_2.
  - by rewrite bool_decide_eq_false_2.
  - done.
Qed.

Lemma prune_inbound_cases w r w' :
  clean w → prune_inbound w = (r, w') →
  clean w' ∧ db_now w' = db_now w ∧
  inbound w' = filter (λ kv, (db_now w - INBOUND_MESSAGE_RETENTION <= ib_received_at kv.2)%Z) (inbound w).
Proof.
  intros Hc. unfold prune_inbound, session_begin, put_inbound, put_updates. run.
  by intros [= <- <-].
Qed.

Lemma claim_history_remembers key l w :
  claim_history key l w →
  clean w ∧ StronglySorted days_apart l ∧ remembered key l w.
Proof.
  induction 1 as [w Hc Hn|l w channel message_id user r w' _ (Hc & Hs & Hm) H
                 |l w channel message_id outcome r w' _ (Hc & Hs & Hm) H
                 |l w r w' _ (Hc & Hs & Hm) H|l w w' _ (Hc & Hs & Hm) Hc' Hi Hle].
  - by split_and!; [|constructor|].
  - apply ledger_claim_cases in H as (Hc' & Hnow & H); [|done]. split; [done|].
    case_bool_decide as E.
    + destruct E as [-> <-]. destruct H as (_ & Hfree & ->).
      assert (remembered (channel, message_id) (db_now w :: l)
        (commit_db (set_chan (set_inbound (<[(channel, message_id) :=
          {| ib_user_id := user; ib_received_at := db_now w; ib_outcome := MO_processing |}]>
          (inbound w)) (t_chan (db w))) (db w)) w)) as Hr.
      { split; [simpl; lia|]. left. eexists. split; [apply lookup_insert_eq|done]. }
      split; [|exact Hr]. constructor; [done|].
      assert (∀ t, head l = Some t → days_apart (db_now w) t) as Hh.
      { destruct l as [|t l']; [done|]. intros ? [= <-]. unfold days_apart.
        destruct Hm as [_ [(x & Hx & _)|[_ Ht]]]; [congruence|lia]. }
      destruct l as [|t l']; [constructor|]. apply Forall_cons. split; [by apply Hh|].
      apply StronglySorted_inv in Hs as [_ Hf]. eapply Forall_impl; [exact Hf|].
      intros t'. specialize (Hh t eq_refl). assert (0 <= INBOUND_MESSAGE_RETENTION)%Z by done.
      unfold days_apart in *. lia.
    + split; [done|]. destruct l as [|t l']; [done|]. destruct Hm as [Hle Hm]. split; [lia|].
      destruct r as [[]|]; [|by destruct H as [-> _]..].
      destruct H as (_ & Hfree & ->). simpl.
      assert ((channel, message_id) ≠ key) as Hne by (intros <-; by apply E).
      rewrite lookup_insert_ne by done. exact Hm.
  - apply ledger_settle_cases in H as (_ & Hc' & Hnow & Hi); [|done]. split_and!; [done..|].
    destruct l as [|t l']; [done|]. destruct Hm as [Hle Hm]. split; [lia|]. rewrite Hnow, Hi.
    destruct (decide (key = (channel, message_id))) as [->|Hne]; [|by rewrite lookup_alter_ne].
    rewrite lookup_alter_eq. destruct Hm as [(x & -> & Ht)|[-> Ht]]; [left|by right].
    simpl. eexists. split; [done|]. by case_bool_decide.
  - apply prune_inbound_cases in H as (Hc' & Hnow & Hi); [|done]. split_and!; [done..|].
    destruct l as [|t l']; [done|]. destruct Hm as [Hle Hm]. split; [lia|]. rewrite Hnow, Hi.
    destruct Hm as [(x & Hx & Ht)|[Hx Ht]].
    + destruct (decide (db_now w - INBOUND_MESSAGE_RETENTION <= t)%Z).
      * left. exists x. split; [|done]. apply map_lookup_filter_Some. split; [done|]. simpl. by rewrite Ht.
      * right. split; [|lia]. apply map_lookup_filter_None. right. intros y Hy. simpl. rewrite Hx in Hy.
        injection Hy as <-. by rewrite Ht.
    + right. split; [|done]. apply map_lookup_filter_None. by left.
  - split_and!; [done..|]. destruct l as [|t l']; [done|]. destruct Hm as [Ht Hm].
    split; [lia|]. rewrite Hi. destruct Hm as [?|[? ?]]; [by left|right]. split; [done|lia].
Qed.

(** ** The router *)

Lemma read_committed_clean {A} (f : World → A) w : clean w → read_committed (gets f) w = (Ok (f w), w).
Proof. intros Hc. unfold read_committed, gets. unfold clean in Hc. destruct w; simpl in *. by subst. Qed.

(** A message whose id is in the ledger runs no command and sends nothing. *)
Lemma route_seen r message user w :
  clean w → user_id_for (im_chat_id message) w = (Ok (Some user), w) →
  inbound_ok (im_channel message) (im_message_id message) = true →
  is_Some (inbound w !! (im_channel message, im_message_id message)) →
  route r message w = (Ok tt, w).
Proof.
  intros Hc Hu Hok [x Hx]. unfold route. unfold bind at 1. rewrite Hu. cbv iota beta.
  unfold bind at 1. destruct (ledger_claim _ _ _ w) as [b w1] eqn:E.
  apply ledger_claim_cases in E as (_ & _ & E); [|done].
  destruct b as [[]|]; [by destruct E as (_ & ? & _); congruence|by destruct E as [-> _]|].
  destruct E as [_ ?]. congruence.
Qed.

(** A message of a chat nobody is linked to is answered, and nothing else is done. *)
Lemma route_unlinked r message w :
  user_id_for (im_chat_id message) w = (Ok None, w) →
  route r message w = reply_to r message (ir_unlinked_reply r) w.
Proof. intros Hu. unfold route, bind. by rewrite Hu. Qed.

(** C13: under every interleaving of claims, settlements and sweeps two claims of one
    message id lie more than seven days apart, and within that time a further message
    with the id writes nothing and runs no command; it sends nothing while its chat is
    linked, and only the reply for unlinked chats when it is not. *)
Theorem message_acts_once key l w :
  claim_history key l w →
  StronglySorted days_apart l ∧
  ∀ t l', l = t :: l' → (db_now w <= t + INBOUND_MESSAGE_RETENTION)%Z →
  ∀ r message, (im_channel message, im_message_id message) = key → inbound_ok key.1 key.2 = true →
    ∃ linked, user_id_for (im_chat_id message) w = (Ok linked, w) ∧
      route r message w =
        match linked with
        | Some _ => (Ok tt, w)
        | None => reply_to r message (ir_unlinked_reply r) w
        end.
Proof.
  intros Hh. destruct (claim_history_remembers _ _ _ Hh) as (Hc & Hs & Hm). split; [exact Hs|].
  intros t l' -> Hle r message <- Hok. eexists. split; [by apply read_committed_clean|].
  match goal with |- context [match ?o with Some _ => _ | None => _ end] => destruct o as [user|] eqn:E end.
  - apply (route_seen r message user w); [done|unfold user_id_for; by rewrite read_committed_clean, E|done|].
    destruct Hm as [_ [(x & -> & _)|[_ ?]]]; [done|lia].
  - apply route_unlinked. unfold user_id_for. by rewrite read_committed_clean, E.
Qed.

(** ** What a route leaves *)

(** A command may do what it likes elsewhere: it ends outside a transaction and takes no
    row out of the ledger. *)
Definition courteous (w w' : World) : Prop :=
  clean w → clean w' ∧ inbound w ⊆ inbound w'.

#[export] Instance courteous_preorder : PreOrder courteous.
Proof.
  split; [by intros w|]. intros w1 w2 w3 H1 H2 Hc. destruct (H1 Hc) as [Hc2 I1].
  destruct (H2 Hc2) as [Hc3 I2]. split; [done|by etrans].
Qed.

Lemma reads_courteous {A} (m : Prog A) : (∀ w, clean w → (m w).2 = w) → respects courteous m.
Proof. intros Hm w Hc. by rewrite Hm. Qed.

Definition command_ok (c : ChannelCommand) : Prop :=
  ∀ message context reply, (∀ text, respects courteous (reply text)) →
    respects courteous (cc_handle c message context reply).

Section Route.
Context (r : InboundRouter) (message : InboundMessage).
Context (Hsender : ∀ send chat text, ir_sender r = Some send → respects courteous (send chat text)).
Context (Hcommands : Forall (λ nc, command_ok nc.2) (ir_commands r)).

Lemma reply_courteous text : respects courteous (reply_to r message text).
Proof.
  unfold reply_to, best_effort. destruct (ir_sender r) as [send|] eqn:E; [|by intros ?].
  apply respects_try; [apply _| |].
  - apply respects_bind; [apply _|by eapply Hsender|by intros ? ?].
  - intros e. case_match; by intros ?.
Qed.

Lemma ask_commands_courteous user tenant ws commands :
  Forall (λ nc, command_ok nc.2) commands →
  respects courteous (ask_commands r message user tenant ws commands).
Proof.
  induction 1 as [|[name c] rest Hc _ IH]; cbn [ask_commands].
  - apply respects_bind; [apply _|apply reply_courteous|by intros ? ?].
  - apply respects_bind; [apply _| |].
    + apply reads_courteous. intros w Hw. by rewrite access_for_run.
    + intros [ctx|]; [|apply respects_bind; [apply _|apply reply_courteous|by intros ? ?]].
      apply respects_bind; [apply _|apply Hc, reply_courteous|]. intros []; [by intros ?|exact IH].
Qed.

Lemma dispatch_courteous user : respects courteous (_dispatch r message user).
Proof.
  unfold _dispatch. apply respects_bind; [apply _| |].
  { apply reads_courteous. intros w Hw. unfold chosen. by rewrite session_begin_gets. }
  intros [[tenant ws]|]; [by apply ask_commands_courteous|].
  apply respects_bind; [apply _| |].
  { apply reads_courteous. intros w Hw. unfold memberships_of. by rewrite session_begin_gets. }
  intros [|[tenant ws] [|]]; [|by apply ask_commands_courteous|];
    (apply respects_bind; [apply _|apply reply_courteous|by intros ? ?]).
Qed.

(** A walk that ends says done or ignored. *)
Lemma ask_commands_outcome user tenant ws commands w o w' :
  ask_commands r message user tenant ws commands w = (Ok o, w') → o = MO_done ∨ o = MO_ignored.
Proof.
  revert w. induction commands as [|[name c] rest IH]; intros w; cbn [ask_commands]; intros H.
  - apply bind_ok in H as (? & ? & _ & [= <- _]). by right.
  - apply bind_ok in H as ([ctx|] & w1 & _ & H).
    + apply bind_ok in H as ([] & w2 & _ & H); [injection H as <- _; by left|by eapply IH].
    + apply bind_ok in H as (? & ? & _ & [= <- _]). by right.
Qed.

Lemma dispatch_outcome user w o w' :
  _dispatch r message user w = (Ok o, w') → o = MO_done ∨ o = MO_ignored.
Proof.
  unfold _dispatch. intros ([[tenant ws]|] & w1 & _ & H)%bind_ok; [by eapply ask_commands_outcome|].
  apply bind_ok in H as (l & w2 & _ & H).
  destruct l as [|[tenant ws] [|]]; [|by eapply ask_commands_outcome|];
    apply bind_ok in H as (? & ? & _ & [= <- _]); by right.
Qed.
End Route.

(** The state the first claim of a message leaves. *)
Definition claimed (message : InboundMessage) (user : uuid) (w : World) : World :=
  commit_db (set_chan (set_inbound
    (<[(im_channel message, im_message_id message) :=
       {| ib_user_id := user; ib_received_at := db_now w; ib_outcome := MO_processing |}]> (inbound w))
    (t_chan (db w))) (db w)) w.

Lemma route_claims r message user w :
  clean w → user_id_for (im_chat_id message) w = (Ok (Some user), w) →
  inbound_ok (im_channel message) (im_message_id message) = true →
  inbound w !! (im_channel message, im_message_id message) = None →
  route r message w = settle_dispatch r message user (claimed message user w).
Proof.
  intros Hc Hu Hok Hfree. unfold route. unfold bind at 1. rewrite Hu. cbv iota beta.
  unfold bind at 1. destruct (ledger_claim _ _ _ w) as [b w1] eqn:E.
  apply ledger_claim_cases in E as (_ & _ & E); [|done].
  destruct b as [[]|].
  - by destruct E as (_ & _ & ->).
  - destruct E as [_ [? ?]]. congruence.
  - destruct E as [_ ?]. congruence.
Qed.

Abbreviation ledger_row message w := (inbound w !! (im_channel message, im_message_id message)).

(** Settling the message just acted on. *)
Lemma settle_claimed message outcome x w r w' :
  clean w → ledger_row message w = Some x → ib_outcome x = MO_processing →
  ledger_settle (im_channel message) (im_message_id message) outcome w = (r, w') →
  r = Ok tt ∧ clean w' ∧ ledger_row message w' = Some (settled_as outcome x) ∧
  ∀ key, key ≠ (im_channel message, im_message_id message) → inbound w' !! key = inbound w !! key.
Proof.
  intros Hc Hx Hp H. apply ledger_settle_cases in H as (-> & Hc' & _ & Hi); [|done].
  split_and!; [done..| |].
  - rewrite Hi, lookup_alter_eq, Hx. simpl. by rewrite bool_decide_eq_true_2.
  - intros key Hne. by rewrite Hi, lookup_alter_ne.
Qed.

(** A message of a linked person seen for the first time leaves one ledger row, settled as
    what its commands did: done or ignored, failed when a command raised, and in
    progress only when the run was cancelled; no other row of the ledger is lost. *)
Theorem route_settles r message user w res w' :
  (∀ send chat text, ir_sender r = Some send → respects courteous (send chat text)) →
  Forall (λ nc, command_ok nc.2) (ir_commands r) →
  clean w → user_id_for (im_chat_id message) w = (Ok (Some user), w) →
  inbound_ok (im_channel message) (im_message_id message) = true → ledger_row message w = None →
  route r message w = (res, w') →
  clean w' ∧
  (∀ key x, inbound w !! key = Some x → inbound w' !! key = Some x) ∧
  ∃ x acted w1, ledger_row message w' = Some x ∧ ib_user_id x = user ∧ ib_received_at x = db_now w ∧
    _dispatch r message user (claimed message user w) = (acted, w1) ∧
    match acted with
    | Ok outcome => (outcome = MO_done ∨ outcome = MO_ignored) ∧ ib_outcome x = outcome ∧ res = Ok tt
    | Raise e =>
        if is_cancelled e then ib_outcome x = MO_processing ∧ res = Raise e ∧ w' = w1
        else ib_outcome x = MO_failed ∧ ∃ w2, reply_to r message FAILED_REPLY w2 = (res, w')
    end.
Proof.
  intros Hsend Hcmd Hc Hu Hok Hfree. rewrite (route_claims _ _ _ _ Hc Hu Hok Hfree).
  set (w0 := claimed message user w). unfold settle_dispatch, outcome_of, bind.
  destruct (_dispatch r message user w0) as [acted w1] eqn:E.
  destruct (dispatch_courteous r message Hsend Hcmd user w0) as [Hc1 Hi1]; [done|].
  rewrite E in Hc1, Hi1. simpl in Hc1, Hi1.
  assert (ledger_row message w1 = Some {| ib_user_id := user; ib_received_at := db_now w;
            ib_outcome := MO_processing |}) as Hx.
  { eapply lookup_weaken; [|exact Hi1]. unfold w0. simpl. by apply lookup_insert_eq. }
  assert (∀ key x, inbound w !! key = Some x → key ≠ (im_channel message, im_message_id message) ∧
            inbound w1 !! key = Some x) as Hkeep.
  { intros key x Hk. assert (key ≠ (im_channel message, im_message_id message)) as Hne by congruence.
    split; [done|]. eapply lookup_weaken; [|exact Hi1]. unfold w0. simpl.
    by rewrite lookup_insert_ne. }
  destruct acted as [outcome|e].
  - intros H. apply (settle_claimed _ _ _ _ _ _ Hc1 Hx eq_refl) in H as (-> & Hc' & Hx' & Ho).
    split_and!; [done| |].
    + intros key x [Hne Hk]%Hkeep. by rewrite Ho.
    + eexists _, (Ok outcome), w1. split_and!; [exact Hx'|done..|by eapply dispatch_outcome|done|done].
  - destruct (is_cancelled e) eqn:Hcan.
    + intros [= <- <-]. split_and!; [done| |].
      * intros key x [_ Hk]%Hkeep. done.
      * eexists _, (Raise e), w1. split_and!; [exact Hx|done..|]. by rewrite Hcan.
    + destruct (ledger_settle _ _ MO_failed w1) as [s w2] eqn:Es. intros H.
      apply (settle_claimed _ _ _ _ _ _ Hc1 Hx eq_refl) in Es as (-> & Hc2 & Hx2 & Ho).
      destruct (reply_courteous r message Hsend FAILED_REPLY w2 Hc2) as [Hc' Hi'].
      rewrite H in Hc', Hi'. simpl in Hc', Hi'. split_and!; [done| |].
      * intros key x [Hne Hk]%Hkeep. eapply lookup_weaken; [|exact Hi']. by rewrite Ho.
      * eexists _, (Raise e), w1. split_and!; [by eapply lookup_weaken|done..|].
        rewrite Hcan. split; [done|]. by exists w2.
Qed.

(** A reply that does not go out is no [RuntimeError] when the person blocked the bot:
    what was handled is then recorded as failed, and the error leaves the router. *)
Lemma unreachable_reply_fails r message user w :
  ir_commands r = [] →
  ir_sender r = Some (λ _ _, raise (OtherException "ChatRecipientUnreachableError") "blocked") →
  clean w → user_id_for (im_chat_id message) w = (Ok (Some user), w) →
  t_preferences (t_chan (db w)) !! user = Some (1, 2)%N →
  inbound_ok (im_channel message) (im_message_id message) = true → ledger_row message w = None →
  ∃ w', route r message w = (Raise (Exn (OtherException "ChatRecipientUnreachableError") "blocked"), w') ∧
    ib_outcome <$> ledger_row message w' = Some MO_failed.
Proof.
  intros Hno Hs Hc Hu Hp Hok Hfree. rewrite (route_claims _ _ _ _ Hc Hu Hok Hfree).
  set (w0 := claimed message user w).
  assert (∀ text w1, reply_to r message text w1 =
    (Raise (Exn (OtherException "ChatRecipientUnreachableError") "blocked"), w1)) as Hr.
  { intros text w1. unfold reply_to, best_effort. by rewrite Hs. }
  assert (_dispatch r message user w0 =
    (Raise (Exn (OtherException "ChatRecipientUnreachableError") "blocked"), w0)) as Hd.
  { unfold _dispatch, bind, chosen. rewrite session_begin_gets by done.
    assert (t_preferences (t_chan (db w0)) = t_preferences (t_chan (db w))) as -> by done.
    rewrite Hp, Hno. simpl. unfold bind. by rewrite Hr. }
  unfold settle_dispatch, outcome_of, bind. rewrite Hd. cbv beta iota. change (is_cancelled _) with false.
  cbv beta iota.
  match goal with |- context [ledger_settle ?a ?b ?c ?v] => destruct (ledger_settle a b c v) as [s w2] eqn:Es end.
  eapply (settle_claimed message) in Es as (-> & Hc2 & Hx2 & _);
    [|done|unfold w0; simpl; by apply lookup_insert_eq|done].
  rewrite Hr. exists w2. split; [done|]. by rewrite Hx2.
Qed.

(** ** What a command is handed *)

(** A context of the person's own membership: of an active tenant with a plan, without a
    role, and cut to the command's ceiling. *)
Definition own_context (user : uuid) (ceiling : gset pystr) (o : OrgDb) (c : AccessContext) : Prop :=
  principal_id c = user ∧ roles c = ∅ ∧ scopes c ⊆ ceiling ∧ support c = None ∧
  (tn_status <$> t_tenants o !! tenant_id c) = Some "active"%py ∧
  is_Some (plan_of o (tenant_id c)) ∧
  ∃ m, m ∈ workspace_members (tenant_id c) (workspace_id c) (t_memberships o) ∧
       mb_user_id m = user ∧ scopes c ⊆ _scopes_of o m.

Lemma access_for_own user tenant ws ceiling w c w' :
  clean w → access_for user tenant ws ceiling w = (Ok (Some c), w') →
  own_context user ceiling (t_org (db w)) c.
Proof.
  intros Hc. rewrite access_for_run by done. intros [= Ha _].
  apply fmap_Some in Ha as (a & Ha & ->). apply access_in_from in Ha.
  destruct (af_tenant _ _ _ _ _ _ Ha) as (t & Et & Hs & _).
  destruct (af_member _ _ _ _ _ _ Ha) as (m & Hm & Hu & _ & Hr & Hsc).
  destruct (af_place _ _ _ _ _ _ Ha) as [Ht Hw].
  pose proof (af_user _ _ _ _ _ _ Ha) as Hau. apply bool_decide_eq_true in Hau.
  simpl in *. subst tenant ws. split_and!; [done|done|simpl; rewrite Hsc; set_solver|done| | |].
  - simpl. rewrite Et. simpl. by rewrite Hs.
  - simpl. rewrite (af_plan _ _ _ _ _ _ Ha). eauto.
  - exists m. split_and!; [done|congruence|simpl; rewrite Hsc; set_solver].
Qed.

(** Two commands that act alike on every context of [user]'s own. *)
Definition alike (user : uuid) (message : InboundMessage) (c1 c2 : ChannelCommand) : Prop :=
  cc_ceiling c1 = cc_ceiling c2 ∧
  ∀ context reply w, clean w → own_context user (cc_ceiling c1) (t_org (db w)) context →
    cc_handle c1 message context reply w = cc_handle c2 message context reply w.

Definition with_commands (r : InboundRouter) (commands : list (pystr * ChannelCommand)) : InboundRouter :=
  {| ir_commands := commands; ir_sender := ir_sender r; ir_unlinked_reply := ir_unlinked_reply r;
     ir_settings_url := ir_settings_url r |}.

Lemma ask_commands_alike r l message user tenant ws l1 l2 w :
  (∀ text, respects courteous (reply_to r message text)) →
  Forall (λ nc, command_ok nc.2) l1 →
  Forall2 (λ nc1 nc2, alike user message nc1.2 nc2.2) l1 l2 → clean w →
  ask_commands r message user tenant ws l1 w
    = ask_commands (with_commands r l) message user tenant ws l2 w.
Proof.
  intros Hrc Hok Hl. revert w Hok. induction Hl as [|[n1 c1] [n2 c2] l1 l2 [Hceil Ha] _ IH]; intros w Hok Hc.
  { done. }
  apply Forall_cons in Hok as [Hok1 Hok]. cbn in Hceil, Ha, Hok1. cbn [ask_commands].
  unfold bind. rewrite <- Hceil.
  destruct (access_for user tenant ws (cc_ceiling c1) w) as [[[ctx|]|e] w1] eqn:E; [|done..].
  pose proof (access_for_own _ _ _ _ _ _ _ Hc E) as Hown.
  rewrite access_for_run in E by done. injection E as _ <-.
  change (reply_to (with_commands r l) message) with (reply_to r message).
  rewrite <- (Ha ctx (reply_to r message) w Hc Hown).
  pose proof (Hok1 message ctx (reply_to r message) Hrc w Hc) as [Hc' _].
  destruct (cc_handle c1 message ctx (reply_to r message) w) as [[[]|e] w1]; [done| |done].
  by apply IH.
Qed.

(** A routed message has the same outcome whatever its commands would do with a context that
    is not one of the linked person's own memberships, without a role and cut to the
    command's ceiling: such a context never reaches them. *)
Theorem commands_see_their_own r commands message user w :
  (∀ send chat text, ir_sender r = Some send → respects courteous (send chat text)) →
  Forall (λ nc, command_ok nc.2) (ir_commands r) →
  Forall2 (λ nc1 nc2, alike user message nc1.2 nc2.2) (ir_commands r) commands →
  clean w → user_id_for (im_chat_id message) w = (Ok (Some user), w) →
  route r message w = route (with_commands r commands) message w.
Proof.
  intros Hsend Hok Hl Hc Hu. unfold route, bind. rewrite Hu.
  destruct (ledger_claim _ _ _ w) as [b w1] eqn:E. apply ledger_claim_cases in E as (Hc1 & _); [|done].
  destruct b as [[]|]; [|done..]. unfold settle_dispatch, outcome_of, bind.
  assert (_dispatch r message user w1 = _dispatch (with_commands r commands) message user w1) as ->.
  { unfold _dispatch, bind, chosen, memberships_of. rewrite !session_begin_gets by done.
    pose proof (reply_courteous r message Hsend) as Hr.
    destruct (_ !! user) as [[tenant ws]|]; [by apply ask_commands_alike|].
    rewrite !session_begin_gets by done.
    destruct (scopes_of_user _ _) as [|[tenant ws] [|]]; [done|by apply ask_commands_alike|done]. }
  done.
Qed.

(** ** Examples *)

(** A lead who linked a chat, and a bot with one command. *)
Definition example_chatting : World :=
  example_world (set_org (set_external_identities
    {[ 40%N := {| xi_id := 40; xi_user_id := 101; xi_issuer := "zalo"; xi_subject := "chat-101";
                  xi_provider := "zalo" |}%N ]} example_staffed) empty_db) 1000.

Definition example_send (chat text : pystr) : Prog pystr :=
  λ w, (Ok "m-9"%py, add_effect (chat, JStr text) w).

Definition example_command : ChannelCommand :=
  {| cc_ceiling := {[ "approvals.decide"%py ]};
     cc_handle _ _ reply := reply "ok"%py ;;; ret true |}.

(** The same, but for a caller it never gets. *)
Definition example_guarded : ChannelCommand :=
  {| cc_ceiling := {[ "approvals.decide"%py ]};
     cc_handle _ context reply :=
       if has_scope context "tenant.admin" then raise ValueError "never" else reply "ok"%py ;;; ret true |}.

Definition example_router (c : ChannelCommand) : InboundRouter :=
  {| ir_commands := [("decide"%py, c)]; ir_sender := Some example_send; ir_unlinked_reply := "link first";
     ir_settings_url := "/settings" |}.

Definition example_inbound : InboundMessage :=
  {| im_channel := "zalo"; im_message_id := "z-1"; im_chat_id := "chat-101"; im_text := "hello" |}.

Lemma example_send_courteous send chat text :
  Some example_send = Some send → respects courteous (send chat text).
Proof. by intros [= <-] w Hc. Qed.

Lemma example_commands_ok : Forall (λ nc, command_ok nc.2) (ir_commands (example_router example_command)).
Proof.
  constructor; [|constructor]. intros message context reply Hr. cbn.
  apply respects_bind; [apply _|apply Hr|by intros ? ?].
Qed.

Lemma example_linked w :
  clean w → identities w = identities example_chatting →
  user_id_for "chat-101" w = (Ok (Some 101%N), w).
Proof.
  intros Hc E. unfold user_id_for. rewrite read_committed_clean by done.
  refine (f_equal (λ u, (Ok u, w)) _). rewrite E. by vm_compute.
Qed.

Definition example_answered : World := (route (example_router example_command) example_inbound example_chatting).2.

Lemma route_settles_witness :
  clean example_answered ∧
  ib_outcome <$> ledger_row example_inbound example_answered = Some MO_done ∧
  effects example_answered = [("chat-101"%py, JStr "ok")].
Proof.
  destruct (route_settles (example_router example_command) example_inbound 101 example_chatting (Ok tt)
    example_answered) as (Hc & _ & x & acted & w1 & Hx & _ & _ & Hd & Ha).
  - intros send chat text. apply example_send_courteous.
  - exact example_commands_ok.
  - done.
  - by apply example_linked.
  - by vm_compute.
  - done.
  - unfold example_answered. apply ran. by vm_compute.
  - split; [exact Hc|]. split; [|by vm_compute].
    assert (acted = Ok MO_done) as ->.
    { change acted with ((acted, w1).1). rewrite <- Hd. by vm_compute. }
    destruct Ha as (_ & Ho & _). rewrite Hx. simpl. by rewrite Ho.
Defined.

Lemma commands_see_their_own_witness :
  route (example_router example_command) example_inbound example_chatting
    = route (example_router example_guarded) example_inbound example_chatting.
Proof.
  apply (commands_see_their_own (example_router example_command) [("decide"%py, example_guarded)]
    example_inbound 101 example_chatting).
  - intros send chat text. apply example_send_courteous.
  - exact example_commands_ok.
  - constructor; [|constructor]. split; [done|]. intros context reply w _ (_ & _ & Hs & _). cbn in Hs |- *.
    unfold has_scope. rewrite bool_decide_eq_false_2; [done|]. set_solver.
  - done.
  - by apply example_linked.
Defined.

Lemma message_acts_once_witness :
  claim_history ("zalo"%py, "z-1"%py) [1000%Z] (ledger_claim "zalo" "z-1" 101 example_chatting).2 ∧
  route (example_router example_command) example_inbound (ledger_claim "zalo" "z-1" 101 example_chatting).2
    = (Ok tt, (ledger_claim "zalo" "z-1" 101 example_chatting).2).
Proof.
  assert (claim_history ("zalo"%py, "z-1"%py) [1000%Z]
            (ledger_claim "zalo" "z-1" 101 example_chatting).2) as Hh.
  { pose proof (ch_claim ("zalo"%py, "z-1"%py) [] example_chatting "zalo" "z-1" 101 (Ok true)
      (ledger_claim "zalo" "z-1" 101 example_chatting).2
      (ch_start ("zalo"%py, "z-1"%py) example_chatting eq_refl eq_refl)) as H.
    rewrite bool_decide_eq_true_2 in H by done. apply H, ran. by vm_compute. }
  split; [exact Hh|].
  destruct (proj2 (message_acts_once _ _ _ Hh) 1000%Z [] eq_refl) with
    (r := example_router example_command) (message := example_inbound) as (linked & Hl & Hr).
  - by vm_compute.
  - done.
  - by vm_compute.
  - rewrite example_linked in Hl by reflexivity. injection Hl as <-. exact Hr.
Defined.
