(* ===== verification/Deliveries.v ===== *)
(** * Notifications out through a linked chat

    [persistence/channel_deliveries.py], the claim and the settlement of one due
    delivery and the retention of old ones, and [dw_worker/consumers/channel_delivery.py],
    the lane that sends them; the split of a long message is [adapters/zalo_bot.py]'s.
    What a provider does with a message is a parameter. *)

From S2P Require Import Prelude Errors Kernel Domain Contracts Accounts ChannelRows Store Notifications.
From S2P Require Import Pagination ChannelLinks.
Local Open Scope prog_scope.
Local Open Scope pystr_scope.

(** ** [consumers/channel_delivery.py]: the policy *)

Definition LANE : pystr := "channel_delivery".
Definition RETENTION_LANE : pystr := "channel_deliveries_retention".
Definition UNCONFIGURED : pystr := "channel_unconfigured".
Definition _ERROR_LIMIT : nat := 500.
Definition MAX_ATTEMPTS : Z := 5.
Definition BASE_DELAY : timedelta := minutes 1.
Definition BATCH_PER_SCOPE : nat := 20.

Definition backoff (attempts_made : Z) : timedelta := (BASE_DELAY * 2 ^ (attempts_made - 1))%Z.

(** [s.rstrip("/")] *)
Fixpoint drop_slashes (l : list N) : list N :=
  match l with
  | c :: r => if (c =? 47)%N then drop_slashes r else l
  | [] => []
  end.
Definition rstrip_slash (s : pystr) : pystr := PyStr (reverse (drop_slashes (reverse (chars s)))).

Definition NEWLINE : pystr := PyStr [10%N].

Definition compose (tenant_name workspace_name title : pystr) (link : option pystr)
    (web_url : pystr) : pystr :=
  "[" +++ tenant_name +++ " · " +++ workspace_name +++ "]" +++ NEWLINE +++ title +++ NEWLINE
    +++ rstrip_slash web_url
    +++ match link with Some l => if py_truthy l then l else "/" | None => "/" end.

Definition ChatRecipientUnreachableError : exn_class := OtherException "ChatRecipientUnreachableError".

Definition _error_text (exc : exn) : pystr := class_name (exn_cls exc) +++ ": " +++ exn_message exc.

(** ** [persistence/channel_deliveries.py] *)

Abbreviation deliveries w := (t_deliveries (t_chan (db w))).

Record DeliveryScope := { dsc_tenant_id : uuid; dsc_workspace_id : uuid }.

(** [ORDER BY next_attempt_at, id] *)
Definition due_first (a b : DeliveryRow) : Prop :=
  (dl_next_attempt_at a < dl_next_attempt_at b)%Z ∨
  (dl_next_attempt_at a = dl_next_attempt_at b ∧ (dl_id a <= dl_id b)%N).
#[export] Instance due_first_dec : RelDecision due_first.
Proof. intros a b. unfold due_first. apply _. Defined.

Definition due (channel : pystr) (now : datetime) (d : DeliveryRow) : bool :=
  bool_decide (dl_channel d = channel) && bool_decide (dl_status d = DS_pending)
  && (dl_next_attempt_at d <=? now)%Z.

Definition in_scope (scope : DeliveryScope) (d : DeliveryRow) : bool :=
  bool_decide (dl_tenant_id d = dsc_tenant_id scope)
  && bool_decide (dl_workspace_id d = dsc_workspace_id scope).

Definition oldest_due (channel : pystr) (scope : DeliveryScope) (locked : gset uuid)
    (now : datetime) (t : gmap uuid DeliveryRow) : option DeliveryRow :=
  head (merge_sort due_first (filter (λ d,
    in_scope scope d && due channel now d && negb (bool_decide (dl_id d ∈ locked)) = true)
    (map_to_list t).*2)).

(** [platform.channel_delivery_scopes_due] *)
Definition due_scopes (channel : pystr) : Prog (list DeliveryScope) :=
  gets (λ w, (λ p, {| dsc_tenant_id := p.1; dsc_workspace_id := p.2 |}) <$>
    merge_sort by_scope (remove_dups ((λ d, (dl_tenant_id d, dl_workspace_id d)) <$>
      filter (λ d, due channel (db_now w) d = true) (map_to_list (deliveries w)).*2))).

(** The tenant's and the workspace's name: [.one()]. *)
Definition names_of (o : OrgDb) (scope : DeliveryScope) : res (pystr * pystr) :=
  match t_tenants o !! dsc_tenant_id scope, t_workspaces o !! dsc_workspace_id scope with
  | Some t, Some ws =>
      if bool_decide (ws_tenant_id ws = dsc_tenant_id scope) then Ok (tn_name t, ws_name ws)
      else Raise (Exn (OtherException "NoResultFound") "no row was found")
  | _, _ => Raise (Exn (OtherException "NoResultFound") "no row was found")
  end.

Definition set_status (status : DeliveryStatus) (attempts : Z) (next : datetime)
    (external_message_id last_error : option pystr) (d : DeliveryRow) : DeliveryRow :=
  {| dl_id := dl_id d; dl_tenant_id := dl_tenant_id d; dl_workspace_id := dl_workspace_id d;
     dl_recipient_user_id := dl_recipient_user_id d; dl_channel := dl_channel d;
     dl_source_key := dl_source_key d; dl_title := dl_title d; dl_link := dl_link d;
     dl_status := status; dl_attempts := attempts; dl_next_attempt_at := next;
     dl_external_message_id := external_message_id; dl_last_error := last_error;
     dl_created_at := dl_created_at d |}.

Definition cut (error : pystr) : pystr := PyStr (take _ERROR_LIMIT (chars error)).

Section Claimed.
(** A claimed row, and [now()] of the transaction that holds it. *)
Context (system_actor : pystr → uuid) (claim : DeliveryRow) (now : datetime).

(** [_settle]: [f] is what the statement sets. *)
Definition _settle (f : DeliveryRow → DeliveryRow) : Prog unit :=
  let! w := get_state in
  let mine d := bool_decide (dl_workspace_id d = dl_workspace_id claim)
                && bool_decide (dl_id d = dl_id claim) && bool_decide (dl_status d = DS_pending) in
  if existsb (λ d, visible (dl_tenant_id claim) mine d && negb (delivery_ok (f d)))
       (map_to_list (deliveries w)).*2
  then raise (IntegrityError "ck_channel_deliveries") "violates check constraint"
  else let! _ := sql_update (dl_tenant_id claim) mine f in ret tt.

Definition delivery_event (lane action : pystr) (details : gmap pystr json) (attempts : Z)
    (d : DeliveryRow) (label : pystr) (id : uuid) (now : datetime) : AuditEvent :=
  {| ae_id := id; ae_tenant_id := dl_tenant_id d; ae_workspace_id := dl_workspace_id d;
     ae_actor_id := system_actor lane; ae_action := action; ae_resource_type := "channel_delivery";
     ae_resource_id := uuid_str (dl_id d); ae_occurred_at := now; ae_run_id := None;
     ae_policy_decision := None; ae_trace_id := None;
     ae_details := <["actor" := JStr label]> (details ∪
       {[ "channel" := JStr (dl_channel d); "attempts" := JInt attempts;
          "recipient_user_id" := JStr (uuid_str (dl_recipient_user_id d)) ]}) |}.

Definition _audit_delivery (action : pystr) (details : gmap pystr json) (attempts : Z) : Prog unit :=
  let! id := new_uuid in
  let! label := lift_res (system_actor_label LANE) in
  audit_append (dl_tenant_id claim) (delivery_event LANE action details attempts claim label id now).

Definition mark_sent (external_message_id chat_reference : pystr) : Prog unit :=
  _settle (λ d, set_status DS_sent (dl_attempts claim + 1) (dl_next_attempt_at d)
                  (Some external_message_id) None d) ;;;
  _audit_delivery "channel_delivery.sent"
    {[ "external_message_id" := JStr external_message_id; "chat_id_hash" := JStr chat_reference ]}
    (dl_attempts claim + 1).

Definition mark_failed (reason error : pystr) : Prog unit :=
  _settle (λ d, set_status DS_failed (dl_attempts claim + 1) (dl_next_attempt_at d)
                  (dl_external_message_id d) (Some (cut (reason +++ ": " +++ error))) d) ;;;
  _audit_delivery "channel_delivery.failed" {[ "reason" := JStr reason ]} (dl_attempts claim + 1).

Definition mark_cancelled (reason : pystr) : Prog unit :=
  _settle (λ d, set_status DS_cancelled (dl_attempts claim) (dl_next_attempt_at d)
                  (dl_external_message_id d) (Some (cut reason)) d) ;;;
  _audit_delivery "channel_delivery.cancelled" {[ "reason" := JStr reason ]} (dl_attempts claim).

Definition retry_later (error : pystr) (delay : timedelta) : Prog unit :=
  _settle (λ d, set_status DS_pending (dl_attempts claim + 1) (now + delay)%Z
                  (dl_external_message_id d) (Some (cut error)) d).

(** Still a member of the workspace, in an active tenant. *)
Definition recipient_may_receive : Prog bool :=
  gets (λ w, is_member (t_org (db w)) (dl_tenant_id claim) (dl_workspace_id claim)
               (dl_recipient_user_id claim)
    && match t_tenants (t_org (db w)) !! dl_tenant_id claim with
       | Some t => bool_decide (tn_status t = "active"%py)
       | None => false
       end).
End Claimed.

(** ** The lane *)

Section Lane.
(** [address_of]: the chat a person linked, read at send time; [locked]: the rows
    other workers hold at the moment ([SKIP LOCKED]). *)
Context (system_actor : pystr → uuid) (sha256 : pystr → pystr).
Context (address_of : uuid → Prog (option pystr)) (send : pystr → pystr → Prog pystr).
Context (channel web_url : pystr) (locked : World → gset uuid).

Definition _deliver (claim : DeliveryRow) (tenant_name workspace_name : pystr) (now : datetime)
    : Prog unit :=
  let! may := recipient_may_receive claim in
  if negb may then mark_cancelled system_actor claim now "recipient_not_member"
  else
    let! chat := address_of (dl_recipient_user_id claim) in
    match chat with
    | None => mark_cancelled system_actor claim now "recipient_unlinked"
    | Some chat =>
        let text := compose tenant_name workspace_name (dl_title claim) (dl_link claim) web_url in
        let! sent := outcome_of (send chat text) in
        match sent with
        | Ok message_id => mark_sent system_actor claim now message_id (chat_reference sha256 channel chat)
        | Raise exc =>
            if is_cancelled exc then reraise exc
            else if bool_decide (exn_cls exc = ChatRecipientUnreachableError)
            then mark_failed system_actor claim now "recipient_unreachable" (_error_text exc)
            else
              let made := (dl_attempts claim + 1)%Z in
              if (MAX_ATTEMPTS <=? made)%Z
              then mark_failed system_actor claim now "attempts_exhausted" (_error_text exc)
              else retry_later claim now (_error_text exc) (backoff made)
        end
    end.

(** One turn of the loop: [claim_next] around [_deliver], in one transaction;
    whether there was a row to claim. *)
Definition deliver_next (scope : DeliveryScope) : Prog bool :=
  session_begin (
    let! w := get_state in
    match oldest_due channel scope (locked w) (db_now w) (deliveries w) with
    | None => ret false
    | Some claim =>
        let! names := lift_res (names_of (t_org (db w)) scope) in
        let '(tenant_name, workspace_name) := names in
        _deliver claim tenant_name workspace_name (db_now w) ;;;
        ret true
    end).

Fixpoint deliver_batch (batch : nat) (scope : DeliveryScope) : Prog unit :=
  match batch with
  | O => ret tt
  | S batch' =>
      let! claimed := deliver_next scope in
      if claimed : bool then deliver_batch batch' scope else ret tt
  end.

(** A scope's failure is logged; the other scopes go on. *)
Fixpoint each_scope (batch : nat) (scopes : list DeliveryScope) : Prog unit :=
  match scopes with
  | [] => ret tt
  | s :: rest => try_exception (deliver_batch batch s) (λ _, ret tt) ;;; each_scope batch rest
  end.

Definition consume (batch_per_scope : nat) : Prog unit :=
  let! scopes := due_scopes channel in each_scope batch_per_scope scopes.
End Lane.

(** ** Retention *)

Definition DELIVERY_WINDOW : timedelta := days 90.

(** [platform.prune_channel_deliveries()] *)
Definition prune_channel_deliveries : Prog unit :=
  modify (λ w, set_db (set_tbl (filter (λ kv,
    negb ((dl_created_at kv.2 <? db_now w - DELIVERY_WINDOW)%Z
          && negb (bool_decide (dl_status kv.2 = DS_pending))) = true) (deliveries w)) (db w)) w).

Definition overdue (term : timedelta) (now : datetime) (d : DeliveryRow) : bool :=
  bool_decide (dl_status d = DS_pending) && (dl_created_at d <? now - term)%Z.

Definition expired (d : DeliveryRow) : DeliveryRow :=
  set_status DS_failed (dl_attempts d) (dl_next_attempt_at d) (dl_external_message_id d)
    (Some UNCONFIGURED) d.

Fixpoint audit_expired (system_actor : pystr → uuid) (label : pystr) (l : list DeliveryRow) : Prog unit :=
  match l with
  | [] => ret tt
  | d :: rest =>
      let! id := new_uuid in
      let! w := get_state in
      audit_append (dl_tenant_id d) (delivery_event system_actor RETENTION_LANE
        "channel_delivery.failed" {[ "reason" := JStr UNCONFIGURED ]} (dl_attempts d) d label id
        (db_now w)) ;;;
      audit_expired system_actor label rest
  end.

(** [platform.expire_pending_channel_deliveries(term, actor, label)] *)
Definition expire_pending (system_actor : pystr → uuid) (term : timedelta) : Prog unit :=
  let! w := get_state in
  let! label := lift_res (system_actor_label RETENTION_LANE) in
  let gone := filter (λ d, overdue term (db_now w) d = true) (map_to_list (deliveries w)).*2 in
  modify (λ w, set_db (set_tbl (update_rows (overdue term (db_now w)) expired (deliveries w))
                         (db w)) w) ;;;
  audit_expired system_actor label gone.

Definition retention_prune (system_actor : pystr → uuid) (pending_expiry : timedelta) : Prog unit :=
  session_begin (prune_channel_deliveries ;;; expire_pending system_actor pending_expiry).

(** ** The life of a delivery *)

(** What a provider may do: anything in the world outside, nothing in the database. *)
Definition sends_outside (send : pystr → pystr → Prog pystr) : Prop :=
  ∀ chat text w, db (send chat text w).2 = db w ∧ saved (send chat text w).2 = saved w.

(** The chat address is a read. *)
Definition only_reads {A} (m : Prog A) : Prop := ∀ w, (m w).2 = w.

Lemma zalo_id_for_reads user : only_reads (zalo_id_for user).
Proof. by intros []. Qed.

(** Everything but what a settlement writes. *)
Definition same_delivery (d d' : DeliveryRow) : Prop :=
  dl_id d' = dl_id d ∧ dl_tenant_id d' = dl_tenant_id d ∧ dl_workspace_id d' = dl_workspace_id d ∧
  dl_recipient_user_id d' = dl_recipient_user_id d ∧ dl_channel d' = dl_channel d ∧
  dl_source_key d' = dl_source_key d ∧ dl_title d' = dl_title d ∧ dl_link d' = dl_link d ∧
  dl_created_at d' = dl_created_at d.

Definition action_of (s : DeliveryStatus) : option pystr :=
  match s with
  | DS_pending => None
  | DS_sent => Some "channel_delivery.sent"
  | DS_failed => Some "channel_delivery.failed"
  | DS_cancelled => Some "channel_delivery.cancelled"
  end.

(** One settlement of a pending row claimed at [now]. *)
Inductive settles (now : datetime) (d d' : DeliveryRow) : Prop :=
  | settles_sent :
      dl_status d' = DS_sent → dl_attempts d' = (dl_attempts d + 1)%Z → settles now d d'
  | settles_failed :
      dl_status d' = DS_failed → dl_attempts d' = (dl_attempts d + 1)%Z → settles now d d'
  | settles_cancelled :
      dl_status d' = DS_cancelled → dl_attempts d' = dl_attempts d → settles now d d'
  | settles_retry :
      dl_status d' = DS_pending → dl_attempts d' = (dl_attempts d + 1)%Z →
      (dl_attempts d' < MAX_ATTEMPTS)%Z →
      dl_next_attempt_at d' = (now + backoff (dl_attempts d'))%Z → settles now d d'.

(** An audit row about the delivery [k]. *)
Definition about (k : uuid) (e : AuditEvent) : bool :=
  bool_decide (ae_resource_type e = "channel_delivery"%py)
  && bool_decide (ae_resource_id e = uuid_str k).

(** The actions audited about it. *)
Definition outcomes (k : uuid) (d : Db) : list pystr :=
  ae_action <$> filter (λ e, about k e = true) (map_to_list (t_audit d)).*2.

(** A row is settled, and what was done with it is in the trail. *)
Definition settled_in (now : datetime) (d : DeliveryRow) (x x' : Db) : Prop :=
  ∃ d' audit, same_delivery d d' ∧ delivery_ok d' = true ∧ settles now d d' ∧
    x' = set_tbl (R := AuditEvent) audit
           (set_tbl (R := DeliveryRow) (<[dl_id d := d']> (t_deliveries (t_chan x))) x) ∧
    match action_of (dl_status d') with
    | None => audit = t_audit x
    | Some action => ∃ e, t_audit x !! (ae_id e, ae_occurred_at e) = None ∧
        audit = <[(ae_id e, ae_occurred_at e) := e]> (t_audit x) ∧
        ae_resource_type e = "channel_delivery"%py ∧ ae_resource_id e = uuid_str (dl_id d) ∧
        ae_action e = action ∧ ae_tenant_id e = dl_tenant_id d
    end.

(** The tables a lane relies on: rows under their keys, as the CHECKs have them. *)
Record deliveries_ok_in (x : Db) : Prop := {
  di_keyed : keyed (t_deliveries (t_chan x));
  di_unique : unique_ok (t_deliveries (t_chan x)) = true;
  di_checked : ∀ k d, t_deliveries (t_chan x) !! k = Some d → delivery_ok d = true;
  di_uuids : ∀ k d, t_deliveries (t_chan x) !! k = Some d → (k < 2 ^ 128)%N }.

Section Settle.
Context (system_actor : pystr → uuid) (claim : DeliveryRow) (now : datetime).

(** A settlement of the claimed row writes that row. *)
Lemma settle_run f w :
  deliveries_ok_in (db w) → deliveries w !! dl_id claim = Some claim → dl_status claim = DS_pending →
  delivery_ok (f claim) = true → same_delivery claim (f claim) →
  _settle claim f w =
    (Ok tt, set_db (set_tbl (R := DeliveryRow) (<[dl_id claim := f claim]> (deliveries w)) (db w)) w).
Proof.
  intros [Hk Hu Hc _] Hr Hp Hf Hs. unfold _settle. run.
  set (mine := λ d, _ && _ && _).
  assert (∀ k d, deliveries w !! k = Some d → visible (dl_tenant_id claim) mine d = true →
            k = dl_id claim ∧ d = claim) as Hone.
  { intros k d Hd Hv. unfold visible, mine in Hv. to_prop.
    assert (k = dl_id claim) as -> by (rewrite <- (Hk _ _ Hd); done).
    split; congruence. }
  assert (visible (dl_tenant_id claim) mine claim = true) as Hv.
  { unfold visible, mine. simpl. by rewrite !bool_decide_eq_true_2. }
  assert (existsb (λ d, visible (dl_tenant_id claim) mine d && negb (delivery_ok (f d)))
            (map_to_list (deliveries w)).*2 = false) as ->.
  { apply not_true_iff_false. rewrite existsb_exists. intros (d & Hd%list_elem_of_In & Hp').
    apply list_elem_of_fmap in Hd as ([k d'] & -> & Hd). apply elem_of_map_to_list in Hd. simpl in *.
    apply andb_true_iff in Hp' as [Hv' Hn]. destruct (Hone _ _ Hd Hv') as [-> ->].
    by rewrite Hf in Hn. }
  rewrite sql_update_run.
  - assert (update_rows (visible (dl_tenant_id claim) mine) f (tbl (db w))
            = <[dl_id claim := f claim]> (deliveries w)) as ->; [|done].
    apply update_rows_one; [done|done|]. intros k d Hd Hv'. by apply (Hone k d).
  - apply unique_ok_update; [|done]. intros k d Hd Hv'. right.
    destruct (Hone _ _ Hd Hv') as [-> ->]. destruct Hs as (E1 & E2 & E3 & E4 & E5 & E6 & _). simpl.
    by rewrite E2, E4, E5, E6.
Qed.

Lemma audit_delivery_ok action details attempts w w' :
  _audit_delivery system_actor claim now action details attempts w = (Ok tt, w') →
  saved w' = saved w ∧
  ∃ e, t_audit (db w) !! (ae_id e, ae_occurred_at e) = None ∧
    db w' = set_tbl (R := AuditEvent) (<[(ae_id e, ae_occurred_at e) := e]> (t_audit (db w))) (db w) ∧
    ae_resource_type e = "channel_delivery"%py ∧ ae_resource_id e = uuid_str (dl_id claim) ∧
    ae_action e = action ∧ ae_tenant_id e = dl_tenant_id claim.
Proof.
  unfold _audit_delivery, audit_append. intros H.
  apply bind_ok in H as (id & w1 & [= <- <-] & H). apply bind_ok in H as (label & w2 & [= <- <-] & H).
  apply sql_insert_ok in H as (Ht & Hn & _ & ->). split; [done|].
  eexists (delivery_event _ _ _ _ _ _ _ _ _). split; [exact Hn|]. by split_and!.
Qed.

Lemma cut_length e : (py_len (cut e) <=? LAST_ERROR_LIMIT) = true.
Proof.
  apply Nat.leb_le. unfold cut, py_len. simpl chars. rewrite length_take.
  unfold _ERROR_LIMIT, LAST_ERROR_LIMIT. lia.
Qed.

(** What a settlement sets keeps the CHECKs. *)
Lemma set_status_ok status attempts next ext err :
  delivery_ok claim = true → (0 <= attempts)%Z →
  match err with Some e => py_len e <=? LAST_ERROR_LIMIT | None => true end = true →
  (status = DS_sent → ext ≠ None) →
  delivery_ok (set_status status attempts next ext err claim) = true.
Proof.
  unfold delivery_ok. cbn. rewrite !andb_true_iff. intros (((((( Hc & _) & Hsk) & Hk) & Ht) & Hl) & _) Ha He Hs.
  split_and!; try done; [by apply Z.leb_le|].
  apply orb_true_iff. rewrite !negb_true_iff, !bool_decide_eq_false. destruct (decide (status = DS_sent)); auto.
Qed.
End Settle.
