(* ===== verification/DeliveryLaws.v ===== *)
(** * A delivery is settled once

    The life of one delivery of [Deliveries] under every step the program takes on
    its tables: the lane's attempts, whatever other workers hold and whatever the
    provider answers, the retention, new notifications, and writes of other parts. *)

From S2P Require Import Prelude Errors Kernel Domain Contracts Accounts ChannelRows Store Notifications.
From S2P Require Import Pagination ChannelLinks Deliveries.
Local Open Scope prog_scope.
Local Open Scope pystr_scope.

(** ** The trail about one delivery *)

Lemma uuid_str_inj u v :
  (u < 2 ^ 128)%N → (v < 2 ^ 128)%N → uuid_str u = uuid_str v → u = v.
Proof. intros Hu%uuid_text_read Hv%uuid_text_read E. rewrite E in Hu. congruence. Qed.

(** An append adds to the trail about what it names, and to nothing else. *)
Lemma outcomes_append k e x :
  t_audit x !! (ae_id e, ae_occurred_at e) = None →
  outcomes k (set_tbl (R := AuditEvent) (<[(ae_id e, ae_occurred_at e) := e]> (t_audit x)) x)
    ≡ₚ if about k e then ae_action e :: outcomes k x else outcomes k x.
Proof.
  intros Hn. unfold outcomes. cbn [t_audit set_tbl audit_table].
  assert ((map_to_list (<[(ae_id e, ae_occurred_at e) := e]> (t_audit x))).*2
            ≡ₚ e :: (map_to_list (t_audit x)).*2) as Hp.
  { change (e :: _) with (((ae_id e, ae_occurred_at e), e) :: map_to_list (t_audit x)).*2.
    apply fmap_Permutation, map_to_list_insert, Hn. }
  destruct (about k e) eqn:Ha.
  - rewrite (filter_Permutation _ _ _ Hp), filter_cons_True by done. done.
  - rewrite (filter_Permutation _ _ _ Hp), filter_cons_False by (by rewrite Ha). done.
Qed.

Lemma perm_short {A} (l l' : list A) : length l <= 1 → l' ≡ₚ l → l' = l.
Proof.
  destruct l as [|a [|b l]]; simpl; intros Hl Hp; [by apply Permutation_nil_r in Hp| |lia].
  by apply Permutation_singleton_r in Hp.
Qed.

Lemma delivery_ok_attempts d : delivery_ok d = true → (0 <= dl_attempts d)%Z.
Proof. unfold delivery_ok. intros. to_prop. lia. Qed.

(** ** One attempt *)

Section Attempt.
Context (system_actor : pystr → uuid) (claim : DeliveryRow) (now : datetime) (w : World).
Context (Hok : deliveries_ok_in (db w)) (Hrow : deliveries w !! dl_id claim = Some claim)
  (Hpending : dl_status claim = DS_pending).

Lemma attempts_pos : (0 <= dl_attempts claim)%Z.
Proof. by eapply delivery_ok_attempts, di_checked. Qed.

Lemma settled_by f action details attempts w' u :
  delivery_ok (f claim) = true → same_delivery claim (f claim) → settles now claim (f claim) →
  action_of (dl_status (f claim)) = Some action →
  (_settle claim f ;;; _audit_delivery system_actor claim now action details attempts) w = (Ok u, w') →
  saved w' = saved w ∧ settled_in now claim (db w) (db w').
Proof.
  intros Hf Hs Ht Ha (? & w1 & Hset & Hau)%bind_ok.
  rewrite (settle_run claim f w Hok Hrow Hpending Hf Hs) in Hset. injection Hset as <- <-.
  destruct u. apply audit_delivery_ok in Hau as (-> & e & Hn & Hdb & Hty & Hid & Hact & Hten).
  split; [done|]. exists (f claim). eexists. split_and!; [done..|exact Hdb|].
  rewrite Ha. exists e. split_and!; try done.
Qed.

Ltac settled_row :=
  first [ apply set_status_ok; [by eapply di_checked|pose proof attempts_pos; lia
                               |try apply cut_length; done|done]
        | by split_and!
        | done ].

Lemma mark_sent_ok message_id reference w' u :
  mark_sent system_actor claim now message_id reference w = (Ok u, w') →
  saved w' = saved w ∧ settled_in now claim (db w) (db w').
Proof. apply settled_by; [settled_row|settled_row|by apply settles_sent|done]. Qed.

Lemma mark_failed_ok reason error w' u :
  mark_failed system_actor claim now reason error w = (Ok u, w') →
  saved w' = saved w ∧ settled_in now claim (db w) (db w').
Proof.
  apply settled_by; [settled_row|settled_row|by apply settles_failed|done].
Qed.

Lemma mark_cancelled_ok reason w' u :
  mark_cancelled system_actor claim now reason w = (Ok u, w') →
  saved w' = saved w ∧ settled_in now claim (db w) (db w').
Proof.
  apply settled_by; [settled_row|settled_row|by apply settles_cancelled|done].
Qed.

Lemma retry_later_ok error w' u :
  (dl_attempts claim + 1 < MAX_ATTEMPTS)%Z →
  retry_later claim now error (backoff (dl_attempts claim + 1)) w = (Ok u, w') →
  saved w' = saved w ∧ settled_in now claim (db w) (db w').
Proof.
  intros Hlt. unfold retry_later. match goal with |- context [_settle _ ?g] => set (f := g) end.
  rewrite (settle_run claim f w Hok Hrow Hpending); [|settled_row|settled_row].
  intros [= <- <-]. split; [done|]. exists (f claim), (t_audit (db w)).
  split_and!; [settled_row|settled_row|by apply settles_retry|by destruct (db w)|done].
Qed.
End Attempt.

Section Lane.
Context (system_actor : pystr → uuid) (sha256 : pystr → pystr).
Context (address_of : uuid → Prog (option pystr)) (send : pystr → pystr → Prog pystr).
Context (channel web_url : pystr) (locked : World → gset uuid).
Context (Hsend : sends_outside send) (Haddress : ∀ u, only_reads (address_of u)).

Lemma deliver_settles claim tenant_name workspace_name now w w' u :
  deliveries_ok_in (db w) → deliveries w !! dl_id claim = Some claim → dl_status claim = DS_pending →
  _deliver system_actor sha256 address_of send channel web_url claim tenant_name workspace_name now w
    = (Ok u, w') →
  saved w' = saved w ∧ settled_in now claim (db w) (db w').
Proof.
  intros Hok Hrow Hp. unfold _deliver. intros (may & w1 & [= <- <-] & H)%bind_ok.
  destruct (negb _); [by eapply mark_cancelled_ok in H|].
  apply bind_ok in H as (chat & w1 & Ha & H).
  assert (w1 = w) as -> by (by rewrite <- (Haddress (dl_recipient_user_id claim) w), Ha).
  destruct chat as [chat|]; [|by eapply mark_cancelled_ok in H].
  apply bind_ok in H as (sent & w1 & Hs & H).
  unfold outcome_of in Hs.
  destruct (send chat _ w) as [r1 w2] eqn:E. injection Hs as -> ->.
  destruct (Hsend chat (compose tenant_name workspace_name (dl_title claim) (dl_link claim) web_url) w)
    as [Ed Es]. rewrite E in Ed, Es. simpl in Ed, Es. rewrite <- Ed, <- Es. rewrite <- Ed in Hok.
  assert (deliveries w1 !! dl_id claim = Some claim) as Hrow1 by (by rewrite Ed).
  destruct sent as [message_id|exc]; [by eapply mark_sent_ok in H|].
  destruct (is_cancelled exc); [done|].
  destruct (bool_decide _); [by eapply mark_failed_ok in H|].
  destruct (_ <=? _)%Z eqn:El; [by eapply mark_failed_ok in H|].
  eapply retry_later_ok in H; [done..|]. apply Z.leb_gt in El. lia.
Qed.

Lemma oldest_due_spec c scope held now t d :
  oldest_due c scope held now t = Some d →
  ∃ k, t !! k = Some d ∧ in_scope scope d = true ∧ due c now d = true ∧ dl_id d ∉ held.
Proof.
  intros Hd%head_Some_elem_of. rewrite merge_sort_Permutation in Hd.
  apply list_elem_of_filter in Hd as [Hp Hd]. apply list_elem_of_fmap in Hd as ([k d'] & -> & Hd).
  apply elem_of_map_to_list in Hd. to_prop. eauto.
Qed.

Lemma settle_same_saved c f : respects same_saved (_settle c f).
Proof. unfold _settle. respects_auto. Qed.
Lemma audit_delivery_same_saved c now action details attempts :
  respects same_saved (_audit_delivery system_actor c now action details attempts).
Proof. unfold _audit_delivery, audit_append. respects_auto. Qed.

Lemma settle_audit_same_saved c now f action details attempts :
  respects same_saved (_settle c f ;;; _audit_delivery system_actor c now action details attempts).
Proof. apply respects_bind; [apply _|apply settle_same_saved|intro; apply audit_delivery_same_saved]. Qed.

Lemma deliver_same_saved c tn wn now :
  respects same_saved (_deliver system_actor sha256 address_of send channel web_url c tn wn now).
Proof.
  unfold _deliver. apply respects_bind; [apply _|by intros w|]. intros may.
  case_match; [apply settle_audit_same_saved|].
  apply respects_bind; [apply _|intros w; unfold same_saved; by rewrite (Haddress _ w)|].
  intros [chat|]; [|apply settle_audit_same_saved].
  apply respects_bind; [apply _| |].
  - intros w. unfold same_saved, outcome_of. pose proof (Hsend chat
      (compose tn wn (dl_title c) (dl_link c) web_url) w) as [_ Hs]. by destruct (send _ _ w).
  - intros [id|e]; [apply settle_audit_same_saved|].
    repeat case_match; try apply settle_audit_same_saved; [by intros ?|apply settle_same_saved].
Qed.

(** One turn of the lane settles one due row, or leaves the database as it was. *)
Lemma deliver_next_ok scope w r w' :
  deliveries_ok_in (db w) → clean w →
  deliver_next system_actor sha256 address_of send channel web_url locked scope w = (r, w') →
  clean w' ∧
  (db w' = db w ∨
   ∃ claim, deliveries w !! dl_id claim = Some claim ∧ due channel (db_now w) claim = true ∧
     in_scope scope claim = true ∧ dl_id claim ∉ locked w ∧
     settled_in (db_now w) claim (db w) (db w')).
Proof.
  intros Hok Hc. unfold deliver_next. set (body := bind _ _).
  assert (respects same_saved body) as Hs.
  { apply respects_bind; [apply _|by intros ?|]. intros w0. case_match; [|by intros ?].
    apply respects_bind; [apply _|by intros ?|]. intros [tn wn].
    apply respects_bind; [apply _|apply deliver_same_saved|by intros ? ?]. }
  specialize (Hs w). unfold session_begin, same_saved, clean in *.
  destruct (body w) as [[b|e] w1] eqn:E; intros [= <- <-]; simpl in *;
    (split; [done|]); [|left; congruence].
  unfold body in E. apply bind_ok in E as (w0 & w2 & [= <- <-] & E).
  destruct (oldest_due _ _ _ _ _) as [claim|] eqn:Ed; [|injection E as <- <-; by left].
  apply oldest_due_spec in Ed as (k & Hk & Hi & Hd & Hl).
  assert (deliveries w !! dl_id claim = Some claim) as Hrow by (by rewrite (di_keyed _ Hok _ _ Hk : dl_id claim = k)).
  right. exists claim. split_and!; [done..|].
  apply bind_ok in E as ([tn wn] & w2 & Hn & E). unfold lift_res in Hn. injection Hn as Hn <-.
  apply bind_ok in E as (u & w3 & E & [= <- <-]).
  unfold due in Hd. to_prop. by eapply deliver_settles in E as [_ ?].
Qed.
End Lane.

(** ** What a step does to one delivery *)

Abbreviation row k x := (t_deliveries (t_chan x) !! k).

Inductive moves (k : uuid) (x x' : Db) : Prop :=
  | moves_kept : row k x' = row k x → outcomes k x' ≡ₚ outcomes k x → moves k x x'
  | moves_gone : row k x' = None → outcomes k x' ≡ₚ outcomes k x → moves k x x'
  | moves_retry d d' :
      row k x = Some d → dl_status d = DS_pending → row k x' = Some d' → dl_status d' = DS_pending →
      dl_attempts d' = (dl_attempts d + 1)%Z → (dl_attempts d' < MAX_ATTEMPTS)%Z →
      outcomes k x' ≡ₚ outcomes k x → moves k x x'
  | moves_over d d' action :
      row k x = Some d → dl_status d = DS_pending → row k x' = Some d' →
      action_of (dl_status d') = Some action →
      (dl_attempts d <= dl_attempts d' <= dl_attempts d + 1)%Z →
      outcomes k x' ≡ₚ action :: outcomes k x → moves k x x'.

Lemma unique_ok_set k (d d' : DeliveryRow) (t : gmap uuid DeliveryRow) :
  unique_ok t = true → t !! k = Some d → same_delivery d d' → unique_ok (<[k := d']> t) = true.
Proof.
  intros Hu Hk (E1 & E2 & E3 & E4 & E5 & E6 & _).
  assert (unique_key d' = unique_key d) as E by (simpl; by rewrite E2, E4, E5, E6).
  apply unique_ok_spec. rewrite unique_ok_spec in Hu. intros k1 k2 r1 r2 u.
  rewrite !lookup_insert_Some. intros [[<- <-]|[? H1]] [[<- <-]|[? H2]] U1 U2; try done;
    rewrite ?E in *; eauto.
Qed.

Lemma about_other k k' e :
  (k < 2 ^ 128)%N → (k' < 2 ^ 128)%N → k ≠ k' → ae_resource_id e = uuid_str k' → about k e = false.
Proof.
  intros Hk Hk' Hne He. unfold about. rewrite He. apply andb_false_intro2, bool_decide_eq_false_2.
  intros E. by apply Hne, uuid_str_inj.
Qed.

Lemma settled_in_ok now d x x' :
  deliveries_ok_in x → row (dl_id d) x = Some d → settled_in now d x x' → deliveries_ok_in x'.
Proof.
  intros [Hk Hu Hc Hi] Hd (d' & audit & Hs & Hok & _ & -> & _). pose proof Hs as (Hid & _).
  split; cbn.
  - rewrite <- Hid. exact (keyed_insert (R := DeliveryRow) _ d' Hk).
  - by eapply unique_ok_set.
  - intros k r. rewrite lookup_insert_Some. intros [[<- <-]|[_ ?]]; eauto.
  - intros k r. rewrite lookup_insert_Some. intros [[<- <-]|[_ ?]]; eauto.
Qed.

(** A settlement moves its row and no other. *)
Lemma settled_in_moves now d k x x' :
  (k < 2 ^ 128)%N → (dl_id d < 2 ^ 128)%N → row (dl_id d) x = Some d → dl_status d = DS_pending →
  settled_in now d x x' → moves k x x'.
Proof.
  intros Hk Hi Hd Hp (d' & audit & Hs & Hok & Ht & -> & Ha).
  assert (row k (set_tbl (R := AuditEvent) audit
      (set_tbl (R := DeliveryRow) (<[dl_id d := d']> (t_deliveries (t_chan x))) x))
    = if decide (k = dl_id d) then Some d' else row k x) as Hrow.
  { cbn. case_decide as E; [rewrite E; apply lookup_insert_eq|by rewrite lookup_insert_ne]. }
  set (x' := set_tbl _ _) in *.
  assert (match action_of (dl_status d') with
          | None => outcomes k x' ≡ₚ outcomes k x
          | Some a => outcomes k x' ≡ₚ if decide (k = dl_id d) then a :: outcomes k x else outcomes k x
          end) as Hout.
  { destruct (action_of (dl_status d')) as [a|]; [|by subst audit].
    destruct Ha as (e & Hn & -> & Hty & Hid & Hact & _).
    change (outcomes k x') with (outcomes k (set_tbl (R := AuditEvent)
      (<[(ae_id e, ae_occurred_at e) := e]> (t_audit x)) x)).
    rewrite (outcomes_append k e x Hn). case_decide as E.
    - unfold about. by rewrite Hty, Hid, E, !bool_decide_eq_true_2, Hact.
    - by rewrite (about_other k (dl_id d)). }
  case_decide as E; [subst k|].
  - destruct Ht as [St At|St At|St At|St At Al Ax]; rewrite St in Hout; simpl in Hout;
      [eapply moves_over; try done; rewrite ?St; try done; lia..|].
    by eapply moves_retry.
  - apply moves_kept; [done|]. by destruct (action_of _).
Qed.

Lemma attempt_moves system_actor sha256 address_of send channel web_url locked scope k w r w' :
  sends_outside send → (∀ u, only_reads (address_of u)) → (k < 2 ^ 128)%N →
  deliveries_ok_in (db w) → clean w →
  deliver_next system_actor sha256 address_of send channel web_url locked scope w = (r, w') →
  clean w' ∧ deliveries_ok_in (db w') ∧ moves k (db w) (db w').
Proof.
  intros Hs Ha Hk Hok Hc H.
  destruct (deliver_next_ok _ _ _ _ _ _ _ Hs Ha _ _ _ _ Hok Hc H)
    as [Hc' [E|(claim & Hrow & Hdue & _ & _ & Hset)]].
  - rewrite E. split_and!; [done..|by apply moves_kept].
  - unfold due in Hdue. to_prop. split_and!; [done|by eapply settled_in_ok|].
    eapply settled_in_moves; [done|by eapply di_uuids|done..].
Qed.

(** ** The retention *)

(** What the sweep deletes and fails, apart from the trail. *)
Definition kept_rows (now : datetime) (t : gmap uuid DeliveryRow) : gmap uuid DeliveryRow :=
  filter (λ kv, negb ((dl_created_at kv.2 <? now - DELIVERY_WINDOW)%Z
                      && negb (bool_decide (dl_status kv.2 = DS_pending))) = true) t.

Lemma audit_expired_ok system_actor label k l w u w' :
  (k < 2 ^ 128)%N → Forall (λ d, (dl_id d < 2 ^ 128)%N) l →
  audit_expired system_actor label l w = (Ok u, w') →
  t_chan (db w') = t_chan (db w) ∧
  outcomes k (db w') ≡ₚ replicate (length (filter (λ d, dl_id d = k) l)) "channel_delivery.failed"%py
                         ++ outcomes k (db w).
Proof.
  intros Hk Hl. revert w. induction l as [|d l IH]; intros w; [by intros [= _ <-]|].
  apply Forall_cons in Hl as [Hd Hl]. cbn [audit_expired].
  intros (id & w1 & [= <- <-] & H)%bind_ok. apply bind_ok in H as (w2 & w3 & [= <- <-] & H).
  apply bind_ok in H as (? & w3 & Hi & H). apply sql_insert_ok in Hi as (_ & Hn & _ & ->).
  apply (IH Hl) in H as [-> ->]. split; [done|].
  rewrite (outcomes_append k (delivery_event system_actor RETENTION_LANE _ _ _ d label _ _)
             (db w) Hn).
  set (e := delivery_event _ _ _ _ _ _ _ _ _).
  assert (ae_resource_id e = uuid_str (dl_id d)) as Hid by reflexivity.
  assert (ae_resource_type e = "channel_delivery"%py) as Hty by reflexivity.
  assert (ae_action e = "channel_delivery.failed"%py) as Hact by reflexivity.
  clearbody e. destruct (decide (dl_id d = k)) as [<-|Hne].
  - rewrite filter_cons_True by done. cbn [length replicate app].
    assert (about (dl_id d) e = true) as ->
      by (unfold about; by rewrite Hty, Hid, !bool_decide_eq_true_2).
    by rewrite Hact, Permutation_middle.
  - rewrite filter_cons_False by done. by rewrite (about_other k (dl_id d)).
Qed.

Lemma retention_rows k now term (t : gmap uuid DeliveryRow) :
  keyed t →
  length (filter (λ r, dl_id r = k)
            (filter (λ r, overdue term now r = true) (map_to_list t).*2))
    = match t !! k with Some d => if overdue term now d then 1 else 0 | None => 0 end.
Proof.
  intros Hk. rewrite list_filter_filter.
  rewrite (list_filter_iff _ (λ r, bool_decide (dl_id r = k) && overdue term now r = true))
    by (intros r; rewrite andb_true_iff, bool_decide_eq_true; tauto).
  rewrite (count_rows_select (λ r, bool_decide (dl_id r = k) && overdue term now r)).
  assert (∀ k' r, t !! k' = Some r → bool_decide (dl_id r = k) && overdue term now r = true → k' = k)
    as Hone.
  { intros k' r Hr Hp. to_prop. by rewrite <- (Hk _ _ Hr). }
  destruct (t !! k) as [d|] eqn:Hd.
  - pose proof (Hk _ _ Hd : dl_id d = k) as Hid. destruct (overdue term now d) eqn:Ho.
    + eapply count_rows_one; [done|by rewrite bool_decide_eq_true_2|done].
    + apply count_rows_zero. intros k' r Hr. destruct (_ && _) eqn:E; [|done].
      pose proof (Hone _ _ Hr E) as ->. to_prop. congruence.
  - apply count_rows_zero. intros k' r Hr. destruct (_ && _) eqn:E; [|done].
    pose proof (Hone _ _ Hr E) as ->. congruence.
Qed.

Lemma overdue_pending term now d : overdue term now d = true → dl_status d = DS_pending.
Proof. unfold overdue. intros. by to_prop. Qed.

Lemma expired_ok d : delivery_ok d = true → delivery_ok (expired d) = true.
Proof. intros Hd. apply set_status_ok; try done. by apply delivery_ok_attempts. Qed.

Lemma expired_same d : same_delivery d (expired d).
Proof. by split_and!. Qed.

Lemma kept_rows_spec now t k d :
  kept_rows now t !! k = Some d → t !! k = Some d.
Proof. by intros [? _]%map_lookup_filter_Some. Qed.

Lemma kept_rows_pending now t k d :
  t !! k = Some d → dl_status d = DS_pending → kept_rows now t !! k = Some d.
Proof.
  intros Hd Hp. apply map_lookup_filter_Some. split; [done|]. simpl.
  by rewrite Hp, bool_decide_eq_true_2, andb_false_r.
Qed.

Lemma audit_expired_same_saved system_actor label l :
  respects same_saved (audit_expired system_actor label l).
Proof.
  induction l as [|d l IH]; [by intros ?|]. cbn [audit_expired].
  apply respects_bind; [apply _|by intros ?|]. intros id.
  apply respects_bind; [apply _|by intros ?|]. intros w.
  apply respects_bind; [apply _|apply sql_insert_same_saved|done].
Qed.

(** The two sweeps, run to their end. *)
Lemma sweep_ok system_actor term k w u w' :
  (k < 2 ^ 128)%N → deliveries_ok_in (db w) →
  (prune_channel_deliveries ;;; expire_pending system_actor term) w = (Ok u, w') →
  let t := kept_rows (db_now w) (deliveries w) in
  deliveries w' = update_rows (overdue term (db_now w)) expired t ∧
  outcomes k (db w') ≡ₚ replicate (length (filter (λ d, dl_id d = k)
      (filter (λ d, overdue term (db_now w) d = true) (map_to_list t).*2)))
      "channel_delivery.failed"%py ++ outcomes k (db w).
Proof.
  intros Hk [Hkey _ _ Hi] (u1 & w1 & [= <- <-] & H)%bind_ok t. unfold expire_pending in H.
  apply bind_ok in H as (w2 & w3 & [= <- <-] & H).
  apply bind_ok in H as (label & w3 & Hl & H). unfold lift_res in Hl. injection Hl as Hl <-.
  apply bind_ok in H as (u2 & w3 & [= <- <-] & H).
  cbn in H. apply (audit_expired_ok _ _ k) in H as [Ec Eo]; [|done|].
  - split; [by rewrite Ec|exact Eo].
  - apply Forall_forall. intros d [_ Hd]%list_elem_of_filter.
    apply list_elem_of_fmap in Hd as ([k' d'] & -> & Hd). apply elem_of_map_to_list in Hd.
    apply kept_rows_spec in Hd. simpl. rewrite (Hkey _ _ Hd : dl_id d' = k'). by eapply Hi.
Qed.

Lemma retention_moves system_actor term k w r w' :
  (k < 2 ^ 128)%N → deliveries_ok_in (db w) → clean w →
  retention_prune system_actor term w = (r, w') →
  clean w' ∧ deliveries_ok_in (db w') ∧ moves k (db w) (db w').
Proof.
  intros Hk Hok Hc. unfold retention_prune, session_begin.
  set (body := bind _ _).
  assert (respects same_saved body) as Hs.
  { apply respects_bind; [apply _|by intros ?|]. intros _. unfold expire_pending.
    repeat (apply respects_bind; [apply _|by intros ?|]; intro). apply audit_expired_same_saved. }
  specialize (Hs w). unfold same_saved, clean in *.
  destruct (body w) as [[u|e] w1] eqn:E; intros [= <- <-]; simpl in *; (split; [done|]).
  2:{ rewrite Hs, Hc. split; [done|by apply moves_kept]. }
  apply (sweep_ok _ _ k) in E as [Et Eo]; [|done..].
  set (t := kept_rows (db_now w) (deliveries w)) in *.
  pose proof Hok as [Hkey Hu Hck Hid].
  assert (keyed t) as Hkt by (intros k' d Hd; by eapply Hkey, kept_rows_spec).
  assert (∀ k' d, deliveries w1 !! k' = Some d →
    ∃ d0, deliveries w !! k' = Some d0 ∧ (d = d0 ∨ d = expired d0)) as Hsub.
  { intros k' d. rewrite Et, lookup_update_rows. intros (d0 & Hd & ->)%fmap_Some.
    apply kept_rows_spec in Hd. destruct (overdue _ _ _); eauto. }
  split.
  - split.
    + intros k' d (d0 & Hd & [->| ->])%Hsub; exact (Hkey _ _ Hd).
    + apply unique_ok_spec. rewrite unique_ok_spec in Hu. intros k1 k2 r1 r2 u1.
      intros (d1 & H1 & E1)%Hsub (d2 & H2 & E2)%Hsub U1 U2. eapply (Hu k1 k2 d1 d2); [done..| |].
      * rewrite <- U1. by destruct E1 as [->| ->].
      * rewrite <- U2. by destruct E2 as [->| ->].
    + intros k' d (d0 & Hd & [->| ->])%Hsub; [by eapply Hck|]. by eapply expired_ok, Hck.
    + intros k' d (d0 & Hd & _)%Hsub. by eapply Hid.
  - rewrite retention_rows in Eo by done.
    assert (row k (db w1) = (λ r, if overdue term (db_now w) r then expired r else r) <$> t !! k)
      as Er by (by rewrite Et, lookup_update_rows).
    destruct (t !! k) as [d|] eqn:Hd; simpl in Er; [|by apply moves_gone].
    pose proof (kept_rows_spec _ _ _ _ Hd) as Hd0.
    destruct (overdue _ _ d) eqn:Ho; simpl in Eo; [|apply moves_kept; [by rewrite Er, Hd0|done]].
    eapply moves_over; [done|by eapply overdue_pending|done|done|simpl; lia|done].
Qed.

(** ** New notifications *)

(** Ids drawn from now on are uuids, and none of them is [k]. *)
Definition fresh_for (k : uuid) (w : World) : Prop := ∀ n, ids w n ≠ k ∧ (ids w n < 2 ^ 128)%N.

(** Telling people leaves the delivery [k] and the trail alone. *)
Definition tells (k : uuid) (w w' : World) : Prop :=
  saved w' = saved w ∧ ids w' = ids w ∧
  (deliveries_ok_in (db w) → fresh_for k w →
   deliveries_ok_in (db w') ∧ row k (db w') = row k (db w) ∧ t_audit (db w') = t_audit (db w)).

#[export] Instance tells_preorder k : PreOrder (tells k).
Proof.
  split; [by intros w|]. intros w1 w2 w3 (S1 & I1 & H1) (S2 & I2 & H2).
  split_and!; [congruence..|]. intros Hok Hf. destruct (H1 Hok Hf) as (Hok2 & R1 & A1).
  destruct (H2 Hok2) as (Hok3 & R2 & A2); [unfold fresh_for; by rewrite I1|].
  split_and!; [done|congruence..].
Qed.

Lemma deliveries_ok_eq x x' :
  t_deliveries (t_chan x') = t_deliveries (t_chan x) → deliveries_ok_in x → deliveries_ok_in x'.
Proof. intros E [Hk Hu Hc Hi]. split; by rewrite E. Qed.

Section Told.
Context (k tenant ws : uuid) (source_key title body : pystr) (link : option pystr).

Lemma tells_bind {A B} (m : Prog A) (f : A → Prog B) w :
  tells k w (m w).2 → (∀ a, respects (tells k) (f a)) → tells k w (bind m f w).2.
Proof.
  intros Hm Hf. unfold bind. destruct (m w) as [[a|e] w']; [|done]. etrans; [exact Hm|]. apply Hf.
Qed.

Lemma tells_new_uuid {A} (f : uuid → Prog A) w :
  (∀ w1, ids w1 = ids w → tells k w1 (f (ids w (ids_issued w)) w1).2) →
  tells k w (bind new_uuid f w).2.
Proof. intros Hf. unfold bind. simpl. etrans; [|by apply Hf]. done. Qed.

Lemma insert_notification_tells r w :
  tells k w (insert_or_ignore (R := NotificationRow) notification_ok "ck_notifications" tenant r w).2.
Proof.
  unfold insert_or_ignore, sql_insert, store_rows. run. repeat case_match; simplify_eq; try (simpl; reflexivity).
  split_and!; [done..|]. intros Hok _. split_and!; [|done..]. by eapply deliveries_ok_eq; [|exact Hok].
Qed.

Lemma insert_delivery_tells r n w :
  dl_id r = ids w n →
  tells k w (insert_or_ignore delivery_ok "ck_channel_deliveries" tenant r w).2.
Proof.
  intros Hr. destruct (insert_or_ignore _ _ _ _ w) as [[b|e] w'] eqn:E.
  - apply insert_or_ignore_ok in E as [Hck E]. destruct b; [|by destruct E as [_ ->]].
    destruct E as (Hfree & Hnone & ->). split_and!; [done..|].
    intros [Hk Hu Hc Hi] Hf. destruct (Hf n) as [Hne Hlt]. cbn in Hnone, Hfree |- *.
    split_and!; [|by rewrite lookup_insert_ne by congruence|done].
    split; cbn.
    + exact (keyed_insert (R := DeliveryRow) _ r Hk).
    + apply unique_ok_insert; [done|done|]. intros k' r' u Hr' <- E. by eapply Hfree.
    + intros k' d. rewrite lookup_insert_Some. intros [[<- <-]|[_ ?]]; eauto.
    + intros k' d. rewrite lookup_insert_Some. intros [[<- <-]|[_ ?]]; [by rewrite Hr|eauto].
  - assert (w' = w) as ->; [|done]. revert E. unfold insert_or_ignore, sql_insert, store_rows. run.
    repeat case_match; intros; by simplify_eq.
Qed.

Lemma queue_deliveries_tells user cs :
  respects (tells k) (queue_deliveries tenant ws source_key title link user cs).
Proof.
  induction cs as [|c cs IH]; intros w; [done|]. cbn [queue_deliveries].
  apply tells_new_uuid. intros w1 Hids.
  match goal with |- tells _ _ (bind get_state ?f w1).2 => change (tells k w1 (f w1 w1).2) end.
  cbv beta. apply tells_bind; [|by intros]. eapply insert_delivery_tells. simpl. by rewrite Hids.
Qed.

Lemma deliver_to_tells user :
  respects (tells k) (deliver_to tenant ws source_key title body link user).
Proof.
  unfold deliver_to. apply respects_bind; [apply _|by intros ?|]. intros w0.
  case_match; [by intros ?|]. apply respects_bind; [apply _|by intros ?|]. intros id.
  apply respects_bind; [apply _|intros w; apply insert_notification_tells|]. intros told.
  apply respects_bind; [apply _| |by intros ? ?].
  destruct told; [apply queue_deliveries_tells|by intros ?].
Qed.

Lemma deliver_each_tells users :
  respects (tells k) (deliver_each tenant ws source_key title body link users).
Proof.
  induction users as [|u us IH]; [by intros ?|]. cbn [deliver_each].
  apply respects_bind; [apply _|apply deliver_to_tells|]. intros told.
  apply respects_bind; [apply _|done|by intros ? ?].
Qed.

End Told.

Lemma deliver_notification_tells k bound ws recipients source_key title body link :
  respects (tells k) (deliver_notification bound ws recipients source_key title body link).
Proof.
  unfold deliver_notification. apply respects_bind; [apply _|by intros ?|]. intros w.
  destruct bound as [t|]; [|by intros ?]. case_match; [|by intros ?]. apply deliver_each_tells.
Qed.

Lemma notify_moves context recipients source_key title body link k w r w' :
  fresh_for k w → deliveries_ok_in (db w) → clean w →
  notification_deliver context recipients source_key title body link w = (r, w') →
  clean w' ∧ deliveries_ok_in (db w') ∧ moves k (db w) (db w').
Proof.
  intros Hf Hok Hc. assert (moves k (db w) (db w)) as Hsame by (by apply moves_kept).
  unfold notification_deliver. destruct recipients as [|u us]; [by intros [= <- <-]|].
  set (recipients := u :: us).
  pose proof (deliver_notification_tells k (Some (tenant_id context)) (workspace_id context)
    (remove_dups recipients) source_key title body link w) as (Hs & _ & Hm).
  destruct (Hm Hok Hf) as (Hok' & Hr & Ha). unfold session_begin, clean in *.
  unfold bind. destruct (deliver_notification _ _ _ _ _ _ _ w) as [[n|e] w1]; simpl in *;
    intros [= <- <-]; simpl; (split; [done|]).
  - split; [done|]. apply moves_kept; [done|]. unfold outcomes. by rewrite Ha.
  - by rewrite Hs, Hc.
Qed.

(** ** The life of a delivery *)

(** A step of the program, as the delivery [k] sees it.  Providers, links, clocks
    and the rows other workers hold are new in every step. *)
Inductive delivery_step (k : uuid) : World → World → Prop :=
  | step_attempt system_actor sha256 address_of send channel web_url locked scope w r w' :
      sends_outside send → (∀ u, only_reads (address_of u)) →
      deliver_next system_actor sha256 address_of send channel web_url locked scope w = (r, w') →
      delivery_step k w w'
  | step_retention system_actor term w r w' :
      retention_prune system_actor term w = (r, w') → delivery_step k w w'
  | step_notify context recipients source_key title body link w r w' :
      fresh_for k w →
      notification_deliver context recipients source_key title body link w = (r, w') →
      delivery_step k w w'
  | step_other w w' :
      (** anything that writes neither the row, but for deleting it, nor the trail about it *)
      clean w' → deliveries_ok_in (db w') → (row k (db w') = row k (db w) ∨ row k (db w') = None) →
      outcomes k (db w') ≡ₚ outcomes k (db w) → delivery_step k w w'.

(** Waiting, with nothing audited and attempts left; over, with the one outcome
    its status says; or deleted. *)
Inductive life (k : uuid) (x : Db) : Prop :=
  | life_waiting d :
      row k x = Some d → dl_status d = DS_pending → (0 <= dl_attempts d < MAX_ATTEMPTS)%Z →
      outcomes k x = [] → life k x
  | life_over d action :
      row k x = Some d → action_of (dl_status d) = Some action →
      (0 <= dl_attempts d <= MAX_ATTEMPTS)%Z → outcomes k x = [action] → life k x
  | life_gone : row k x = None → length (outcomes k x) ≤ 1 → life k x.

Definition over (k : uuid) (x : Db) : Prop :=
  match row k x with Some d => dl_status d ≠ DS_pending | None => True end.

Lemma moves_life k x x' : life k x → moves k x x' → life k x'.
Proof.
  intros Hl Hm.
  assert (length (outcomes k x) ≤ 1) as Hlen by (destruct Hl as [? _ _ _ ->|? ? _ _ _ ->|]; simpl; lia).
  destruct Hm as [Hr Ho|Hr Ho|d d' Hd Hp Hd' Hp' Ha Hlt Ho|d d' a Hd Hp Hd' Hac Ha Ho].
  - apply perm_short in Ho; [|done]. destruct Hl.
    + eapply life_waiting; [by rewrite Hr|done|done|by rewrite Ho].
    + eapply life_over; [by rewrite Hr|done|done|by rewrite Ho].
    + eapply life_gone; [by rewrite Hr|by rewrite Ho].
  - apply life_gone; [done|]. by rewrite Ho.
  - destruct Hl as [d0 E _ Hb Hn|d0 ? E Hac0|E]; [| |congruence].
    + rewrite Hn in Ho. apply Permutation_nil_r in Ho. simplify_eq.
      eapply life_waiting; [done|done|lia|done].
    + rewrite E in Hd. simplify_eq. by rewrite Hp in Hac0.
  - destruct Hl as [d0 E _ Hb Hn|d0 ? E Hac0|E]; [| |congruence].
    + rewrite Hn in Ho. apply Permutation_singleton_r in Ho. simplify_eq.
      eapply life_over; [done|done|lia|done].
    + rewrite E in Hd. simplify_eq. by rewrite Hp in Hac0.
Qed.

Lemma moves_over_kept k x x' :
  length (outcomes k x) ≤ 1 → over k x → moves k x x' →
  outcomes k x' = outcomes k x ∧ (row k x' = row k x ∨ row k x' = None).
Proof.
  unfold over. intros Hl Hv Hm.
  destruct Hm as [Hr Ho|Hr Ho|d d' Hd Hp|d d' a Hd Hp]; [by apply perm_short in Ho; auto..| |];
    rewrite Hd in Hv; done.
Qed.

Definition orderly (k : uuid) (w : World) : Prop :=
  clean w ∧ deliveries_ok_in (db w) ∧ life k (db w).

Lemma step_moves k w w' :
  (k < 2 ^ 128)%N → orderly k w → delivery_step k w w' →
  orderly k w' ∧ moves k (db w) (db w').
Proof.
  intros Hk (Hc & Hok & Hl) Hs.
  assert (clean w' ∧ deliveries_ok_in (db w') ∧ moves k (db w) (db w')) as (Hc' & Hok' & Hm).
  { destruct Hs; [by eapply attempt_moves|by eapply retention_moves|by eapply notify_moves|].
    split_and!; [done..|]. destruct H1; [by apply moves_kept|by apply moves_gone]. }
  split; [|done]. split_and!; [done..|by eapply moves_life].
Qed.

(** C8: whatever the providers answer, whoever holds rows, and whatever the retention and
    other parts of the program do in between, a delivery is waiting with attempts left
    and nothing in the trail, or over with the one audited outcome its status names and
    at most five attempts, or deleted; once over it is never written again. *)
Theorem delivery_settled_once k d w0 w1 w2 :
  (k < 2 ^ 128)%N → clean w0 → deliveries_ok_in (db w0) →
  row k (db w0) = Some d → dl_status d = DS_pending → dl_attempts d = 0%Z → outcomes k (db w0) = [] →
  rtc (delivery_step k) w0 w1 → rtc (delivery_step k) w1 w2 →
  life k (db w1) ∧
  (over k (db w1) →
   outcomes k (db w2) = outcomes k (db w1) ∧ (row k (db w2) = row k (db w1) ∨ row k (db w2) = None)).
Proof.
  intros Hk Hc Hok Hd Hp Ha Ho H1 H2.
  assert (orderly k w0) as Hi.
  { split_and!; [done..|]. eapply life_waiting; [done..| |done]. rewrite Ha. by vm_compute. }
  assert (∀ w w', rtc (delivery_step k) w w' → orderly k w → orderly k w') as Hinv.
  { induction 1 as [|? ? ? Hs _ IH]; [done|]. intros Hw. by apply IH, (step_moves _ _ _ Hk Hw Hs). }
  pose proof (Hinv _ _ H1 Hi) as Hi1. split; [by apply Hi1|]. clear Hd Hp Ha Ho H1 Hi Hc Hok w0 d.
  induction H2 as [w|w w' w'' Hs _ IH]; [by auto|]. intros Hv.
  destruct (step_moves _ _ _ Hk Hi1 Hs) as [Hi' Hm].
  assert (length (outcomes k (db w)) ≤ 1) as Hlen.
  { destruct Hi1 as (_ & _ & [? _ _ _ ->|? ? _ _ _ ->|]); simpl; lia. }
  destruct (moves_over_kept _ _ _ Hlen Hv Hm) as [Eo Er].
  destruct (IH Hi') as [Eo' Er'].
  { unfold over in *. destruct Er as [->| ->]; done. }
  split; [congruence|]. destruct Er as [Er|Er], Er' as [Er'|Er']; [left|right..]; congruence.
Qed.

(** ** Examples *)

(** The first member's delivery, one attempt the provider refuses, one it takes. *)
Definition example_delivery : DeliveryRow :=
  new_delivery 1 2 "import:7" "Import finished" (Some "/imports"%py) 70 4 "zalo" 1000.

Definition example_queue : World :=
  example_world (set_tbl {[ 70%N := example_delivery ]} (set_org example_people empty_db)) 2000.

Definition example_attempt (send : pystr → pystr → Prog pystr) : Prog bool :=
  deliver_next (λ _, 9%N) (λ s, s) zalo_id_for send "zalo" "https://dw.example/" (λ _, ∅)
    {| dsc_tenant_id := 1; dsc_workspace_id := 2 |}.

Definition example_refused : World := (example_attempt (λ _ _, raise RuntimeError "busy") example_queue).2.

(** The clock a minute later. *)
Definition example_later : World := example_world (db example_refused) (2000 + minutes 1).
Definition example_taken : World := (example_attempt (λ _ _, ret "m-1"%py) example_later).2.

Lemma example_queue_ok : deliveries_ok_in (db example_queue).
Proof.
  assert (∀ k d, deliveries example_queue !! k = Some d → k = 70%N ∧ d = example_delivery) as H.
  { intros k d Hd. change (({[ 70%N := example_delivery ]} : gmap uuid DeliveryRow) !! k = Some d) in Hd.
    by apply lookup_singleton_Some in Hd as [<- <-]. }
  split; [|by vm_compute|..]; intros k d [-> ->]%H; by vm_compute.
Qed.

Lemma example_attempt_step send w :
  sends_outside send → delivery_step 70 w (example_attempt send w).2.
Proof.
  intros Hs. eapply (step_attempt 70 _ _ _ _ _ _ _ _ w (example_attempt send w).1); [exact Hs| |].
  - exact zalo_id_for_reads.
  - exact (surjective_pairing (example_attempt send w)).
Qed.

Lemma example_refused_ok : deliveries_ok_in (db example_refused).
Proof.
  eapply (attempt_moves (λ _, 9%N) (λ s, s) zalo_id_for (λ _ _, raise RuntimeError "busy") "zalo"
    "https://dw.example/" (λ _, ∅) {| dsc_tenant_id := 1; dsc_workspace_id := 2 |} 70 example_queue);
    [done|exact zalo_id_for_reads|done|exact example_queue_ok|done|apply ran; reflexivity].
Qed.

Lemma delivery_settled_once_witness :
  life 70 (db example_taken) ∧
  outcomes 70 (db example_taken) = ["channel_delivery.sent"%py] ∧
  (over 70 (db example_taken) →
   outcomes 70 (db example_taken) = outcomes 70 (db example_taken) ∧
   (row 70%N (db example_taken) = row 70%N (db example_taken) ∨ row 70%N (db example_taken) = None)).
Proof.
  destruct (delivery_settled_once 70 example_delivery example_queue example_taken example_taken)
    as [H1 H2].
  - done.
  - done.
  - exact example_queue_ok.
  - done.
  - done.
  - done.
  - by vm_compute.
  - eapply rtc_l; [apply (example_attempt_step (λ _ _, raise RuntimeError "busy")); done|].
    eapply rtc_l; [|apply rtc_once, (example_attempt_step (λ _ _, ret "m-1"%py)); done].
    apply step_other; [done|exact example_refused_ok|by left|done].
  - done.
  - split_and!; [exact H1|by vm_compute|exact H2].
Defined.
