(* ===== verification/Offboarding.v ===== *)
(** * Offboarding a tenant: export, then purge

    [persistence/offboarding.py] and [dw_worker/consumers/offboarding.py].  The
    tables come from the catalogue of the database; [platform_catalog] lists the
    ones this library models, with the privileges and the foreign keys their
    migrations give them.  Buckets, vector stores, the archive and the JSON
    encoder are parameters. *)

From S2P Require Import Prelude Errors Kernel Domain Contracts Accounts SupportGrants MemoryPolicy.
From S2P Require Import ChannelRows Store Provisioning Deliveries.
Local Open Scope prog_scope.
Local Open Scope pystr_scope.

(** ** The catalogue *)

(** [dict(row._mapping)]: the columns of a row. *)
Inductive ExportedRow :=
  | X_chunk (r : ChunkRow) | X_document (r : DocumentRow) | X_evidence (r : EvidenceRow)
  | X_item_evidence (r : ItemEvidenceRow) | X_item (r : ItemRow) | X_candidate (r : CandidateRow)
  | X_code (r : DecisionCodeRow) | X_decision (r : ApprovalDecision) | X_approval (r : ApprovalRequest)
  | X_receipt (r : ViewReceipt) | X_audit (r : AuditEvent) | X_delivery (r : DeliveryRow)
  | X_entitlement (r : EntitlementRow) | X_membership (r : MembershipRow)
  | X_notification (r : NotificationRow) | X_outbox (r : OutboxEvent) | X_waiver (r : SodWaiverRow)
  | X_grant (r : SupportGrant) | X_request (r : OffboardingRow) | X_execution (r : ToolExecutionRow)
  | X_run (r : WorkerRunRow) | X_workspace (r : WorkspaceRow).

Record ExportedTable := {
  xt_schema : pystr;
  xt_table : pystr;
  xt_rows : list ExportedRow }.

(** One table of the catalogue: whether [dw_app] may delete from it, what
    [SELECT *] returns of a tenant, and what [DELETE] does with its foreign keys. *)
Record CatalogTable := {
  ct_schema : pystr;
  ct_name : pystr;
  ct_deletable : bool;
  ct_select : uuid → Db → list ExportedRow;
  ct_delete : uuid → Prog unit }.

Definition ct_key (t : CatalogTable) : pystr * pystr := (ct_schema t, ct_name t).

Section Table.
Context {R K : Type} `{SqlTable R K}.

Definition mine (tenant : uuid) (t : gmap K R) : gmap K R := filter (λ kv, row_tenant kv.2 = tenant) t.
Definition tenant_rows (tenant : uuid) (d : Db) : gmap K R := mine tenant (tbl d).

(** [policy]: what a policy asks beside the tenant; [restricted] and [cascade]:
    the foreign keys that point at the deleted rows. *)
Definition catalog_table (schema name : pystr) (deletable : bool) (policy : R → bool)
    (row : R → ExportedRow) (restricted : gmap K R → Db → bool) (cascade : gmap K R → Db → Db)
    : CatalogTable :=
  {| ct_schema := schema; ct_name := name; ct_deletable := deletable;
     ct_select tenant d := row <$> filter (λ r, policy r = true) (map_to_list (tenant_rows tenant d)).*2;
     ct_delete tenant :=
       let! w := get_state in
       let gone := tenant_rows tenant (db w) in
       (when restricted gone (db w) then
          raise (IntegrityError name) "update or delete violates foreign key constraint") ;;;
       let! _ := sql_delete (R := R) tenant (λ _, true) in
       modify (λ w, set_db (cascade gone (db w)) w) |}.

Definition plain_table (schema name : pystr) (deletable : bool) (row : R → ExportedRow) : CatalogTable :=
  catalog_table schema name deletable (λ _, true) row (λ _ _, false) (λ _ d, d).
End Table.

(** [ON DELETE CASCADE] of each referenced table. *)
Definition items_cascade (gone : gmap uuid ItemRow) : Db → Db := unreferring ie_memory_id gone.

Definition receipts_gone (gone : gmap uuid ApprovalRequest) (d : Db) : gmap uuid ViewReceipt :=
  filter (λ kv, is_Some (gone !! vr_approval_id kv.2)) (tbl d).
Definition approvals_cascade (gone : gmap uuid ApprovalRequest) (d : Db) : Db :=
  unreferring (R := DecisionCodeRow) dc_receipt_id (receipts_gone gone d)
    (unreferring (R := ViewReceipt) vr_approval_id gone
      (unreferring (R := ApprovalDecision) ad_request_id gone d)).

(** [channel_preferences] follows the membership it names. *)
Definition memberships_cascade (gone : gmap uuid MembershipRow) (d : Db) : Db :=
  set_chan (set_preferences (filter (λ kv,
    (kv.2.1, kv.2.2, kv.1) ∉ ((λ m, (mb_tenant_id m, mb_workspace_id m, mb_user_id m)) <$>
                               (map_to_list gone).*2)) (t_preferences (t_chan d))) (t_chan d)) d.

Definition memberships_of_spaces (gone : gmap uuid WorkspaceRow) (d : Db) : gmap uuid MembershipRow :=
  filter (λ kv, is_Some (gone !! mb_workspace_id kv.2)) (tbl d).
Definition workspaces_cascade (gone : gmap uuid WorkspaceRow) (d : Db) : Db :=
  unreferring (R := DeliveryRow) dl_workspace_id gone
    (unreferring (R := NotificationRow) nt_workspace_id gone
      (unreferring (R := SupportGrant) sg_workspace_id gone
        (memberships_cascade (memberships_of_spaces gone d)
          (unreferring (R := MembershipRow) mb_workspace_id gone d)))).

(** Under a policy that also asks who reads: the session binds no user. *)
Definition own_notification (user : option uuid) (n : NotificationRow) : bool :=
  bool_decide (user = Some (nt_recipient_user_id n)).

Definition of_run (r : WorkerRunRow) : uuid := rr_id (wr_record r).

Definition chunks_entry := catalog_table "knowledge" "chunks" true (λ _, true) X_chunk
  (refers (R := EvidenceRow) er_chunk_id) (λ _ d, d).
Definition documents_entry := catalog_table "knowledge" "documents" true (λ _, true) X_document
  (refers (R := EvidenceRow) (λ e, Some (er_source_document_id e))) documents_cascade.
Definition evidence_entry := catalog_table "knowledge" "evidence" true (λ _, true) X_evidence
  (refers (R := ItemEvidenceRow) (λ i, Some (ie_evidence_id i))) (λ _ d, d).
Definition item_evidence_entry := plain_table "memory" "item_evidence" true X_item_evidence.
Definition items_entry := catalog_table "memory" "items" true (λ _, true) X_item
  (λ _ _, false) items_cascade.
Definition candidates_entry := plain_table "memory" "write_candidates" true X_candidate.
Definition decisions_entry := plain_table "platform" "approval_decisions" true X_decision.
Definition approvals_entry := catalog_table "platform" "approval_requests" true (λ _, true) X_approval
  (λ _ _, false) approvals_cascade.
Definition entitlements_entry := plain_table "platform" "entitlements" true X_entitlement.
Definition memberships_entry := catalog_table "platform" "memberships" true (λ _, true) X_membership
  (λ _ _, false) memberships_cascade.
Definition notifications_entry := catalog_table "platform" "notifications" false
  (own_notification None) X_notification (λ _ _, false) (λ _ d, d).
Definition outbox_entry := plain_table "platform" "outbox_events" true X_outbox.
Definition executions_entry := plain_table "platform" "tool_executions" true X_execution.
Definition runs_entry := catalog_table "platform" "worker_runs" true (λ _, true) X_run
  (refers (R := ItemRow) (λ i, Some (mi_created_by_run_id (ir_item i)))) (λ _ d, d).
Definition workspaces_entry := catalog_table "platform" "workspaces" true (λ _, true) X_workspace
  (λ _ _, false) workspaces_cascade.

(** [ORDER BY schemaname, tablename] *)
Definition platform_catalog : list CatalogTable := [
  chunks_entry; documents_entry; evidence_entry; item_evidence_entry; items_entry; candidates_entry;
  plain_table "platform" "approval_decision_codes" false X_code;
  decisions_entry; approvals_entry;
  plain_table "platform" "approval_view_receipts" false X_receipt;
  plain_table "platform" "audit_events" false X_audit;
  plain_table "platform" "channel_deliveries" false X_delivery;
  entitlements_entry; memberships_entry; notifications_entry; outbox_entry;
  plain_table "platform" "sod_waivers" false X_waiver;
  plain_table "platform" "support_grants" false X_grant;
  plain_table "platform" "tenant_offboarding_requests" false X_request;
  executions_entry; runs_entry; workspaces_entry ].

(** ** [SqlTenantOffboarding] *)

Definition _STALE_CLAIM_MINUTES : Z := 30.

Definition _ORDERED_FIRST : list (pystr * pystr) :=
  [("memory"%py, "items"%py); ("knowledge"%py, "evidence"%py); ("knowledge"%py, "chunks"%py);
   ("knowledge"%py, "documents"%py); ("platform"%py, "worker_runs"%py)].

Definition _NEVER_PURGE : list (pystr * pystr) := [("platform"%py, "tenant_offboarding_requests"%py)].

(** [_SAFE_IDENTIFIER.fullmatch] *)
Definition safe_identifier (s : pystr) : bool :=
  match chars s with
  | c :: r => (is_lower c || (c =? 95)%N) && forallb (λ c, is_lower c || is_digit c || (c =? 95)%N) r
  | [] => false
  end.

Definition _quoted (schema table : pystr) : res pystr :=
  if safe_identifier schema && safe_identifier table
  then let q := PyStr [34%N] in Ok (q +++ schema +++ q +++ "." +++ q +++ table +++ q)
  else Raise (Exn ValueError "refusing an unsafe catalog identifier").

Section Sql.
Context (catalog : list CatalogTable).

Definition _exportable_tables : list (pystr * pystr) :=
  filter (λ k, k ∉ _NEVER_PURGE) (ct_key <$> catalog).

Definition _purgeable_tables : list (pystr * pystr) :=
  filter (λ k, k ∉ _NEVER_PURGE) (ct_key <$> filter (λ t, ct_deletable t = true) catalog).

(** The table a statement names. *)
Definition table_named (k : pystr * pystr) : Prog CatalogTable :=
  match filter (λ t, ct_key t = k) catalog with
  | t :: _ => ret t
  | [] => raise (OtherException "ProgrammingError") "relation does not exist"
  end.

Fixpoint select_all (tenant : uuid) (names : list (pystr * pystr)) : Prog (list ExportedTable) :=
  match names with
  | [] => ret []
  | (schema, table) :: rest =>
      let! _ := lift_res (_quoted schema table) in
      let! t := table_named (schema, table) in
      let! rows := gets (λ w, ct_select t tenant (db w)) in
      let! others := select_all tenant rest in
      ret ({| xt_schema := schema; xt_table := table; xt_rows := rows |} :: others)
  end.

Definition export_rows (tenant : uuid) : Prog (list ExportedTable) :=
  session_begin (select_all tenant _exportable_tables).

Definition purge_event (id tenant ws actor : uuid) (now : datetime) : AuditEvent :=
  {| ae_id := id; ae_tenant_id := tenant; ae_workspace_id := ws; ae_actor_id := actor;
     ae_action := "tenant.offboarding.purged"; ae_resource_type := "tenant";
     ae_resource_id := uuid_str tenant; ae_occurred_at := now; ae_run_id := None;
     ae_policy_decision := None; ae_trace_id := None; ae_details := ∅ |}.

Definition _record_purge_audit (tenant : uuid) : Prog unit :=
  let! w := get_state in
  match head (map_to_list (tenant_rows (R := WorkspaceRow) tenant (db w))).*2,
        latest_request tenant (db w) with
  | Some ws, Some request =>
      let! id := new_uuid in
      sql_insert tenant (purge_event id tenant (ws_id ws) (of_requested_by request) (db_now w))
  | _, _ => ret tt
  end.

Fixpoint delete_all (tenant : uuid) (names : list (pystr * pystr)) : Prog unit :=
  match names with
  | [] => ret tt
  | (schema, table) :: rest =>
      let! _ := lift_res (_quoted schema table) in
      let! t := table_named (schema, table) in
      ct_delete t tenant ;;;
      delete_all tenant rest
  end.

Definition purge_order : list (pystr * pystr) :=
  filter (λ t, t ∈ _purgeable_tables) _ORDERED_FIRST ++
  filter (λ t, t ∉ _ORDERED_FIRST) _purgeable_tables.

Definition purge_rows (tenant : uuid) : Prog unit :=
  session_begin (
    _record_purge_audit tenant ;;;
    delete_all tenant purge_order).
End Sql.

Definition set_request (status : OffboardingState) (key error : option pystr) (now : datetime)
    (r : OffboardingRow) : OffboardingRow :=
  {| of_id := of_id r; of_tenant_id := of_tenant_id r; of_status := status;
     of_requested_by := of_requested_by r; of_requested_at := of_requested_at r;
     of_export_key := key; of_error := error; of_updated_at := now |}.

Definition claimable (now : datetime) (r : OffboardingRow) : bool :=
  match of_status r with
  | OB_requested => true
  | OB_exporting | OB_purging => (of_updated_at r <? now - minutes _STALE_CLAIM_MINUTES)%Z
  | _ => false
  end.

(** Under [app.worker_drain]: every tenant's rows, in one statement. *)
Definition claim_requested : Prog (list uuid) :=
  session_begin (
    let! w := get_state in
    let t := t_requests (t_ops (db w)) in
    let mine := claimable (db_now w) in
    store_rows (update_rows mine (λ r, set_request OB_exporting (of_export_key r) (of_error r)
                                         (db_now w) r) t) ;;;
    ret (of_tenant_id <$> filter (λ r, mine r = true) (map_to_list t).*2)).

(** Every request of the tenant, whichever is being worked on. *)
Definition mark_status (tenant : uuid) (status : OffboardingState) (export_key error : option pystr)
    : Prog unit :=
  session_begin (
    let! w := get_state in
    let! _ := sql_update tenant (λ _, true) (λ r : OffboardingRow,
      set_request status (match export_key with Some k => Some k | None => of_export_key r end)
        error (db_now w) r) in
    ret tt).

(** ** The worker's lane *)

Abbreviation bytes := (list Byte.byte).

(** [ObjectStoragePort] *)
Record BucketPort := {
  put_object : pystr → bytes → pystr → Prog pystr;
  get_object : pystr → Prog bytes;
  list_objects : pystr → Prog (list pystr);
  delete_object : pystr → Prog unit }.

(** An entry of the archive: text is encoded by [writestr]. *)
Inductive Entry := TextEntry (s : pystr) | BytesEntry (b : bytes).

Definition ndjson (dumps : ExportedRow → pystr) (rows : list ExportedRow) : pystr :=
  match dumps <$> rows with
  | [] => ""
  | first :: rest => foldl (λ acc line, acc +++ NEWLINE +++ line) first rest
  end.

Definition bundle_entries (dumps : ExportedRow → pystr) (tables : list ExportedTable)
    (artifacts attachments : list (pystr * bytes)) : list (pystr * Entry) :=
  ((λ t, ("tables/" +++ xt_schema t +++ "." +++ xt_table t +++ ".ndjson",
          TextEntry (ndjson dumps (xt_rows t)))) <$> tables)
  ++ ((λ kv, ("blobs/artifacts/" +++ kv.1, BytesEntry kv.2)) <$> artifacts)
  ++ ((λ kv, ("blobs/attachments/" +++ kv.1, BytesEntry kv.2)) <$> attachments).

(** [d[key] = v] on a dict kept in insertion order. *)
Fixpoint dict_set {A} (k : pystr) (v : A) (d : list (pystr * A)) : list (pystr * A) :=
  match d with
  | [] => [(k, v)]
  | (k', v') :: r => if bool_decide (k' = k) then (k', v) :: r else (k', v') :: dict_set k v r
  end.

(** [{key: await bucket.get_object(key) for key in keys}] *)
Fixpoint blobs_from (bucket : BucketPort) (d : list (pystr * bytes)) (keys : list pystr)
    : Prog (list (pystr * bytes)) :=
  match keys with
  | [] => ret d
  | k :: rest => let! b := get_object bucket k in blobs_from bucket (dict_set k b d) rest
  end.

Fixpoint delete_objects (bucket : BucketPort) (keys : list pystr) : Prog unit :=
  match keys with
  | [] => ret tt
  | k :: rest => delete_object bucket k ;;; delete_objects bucket rest
  end.

Record TenantOffboardingLane := {
  ol_catalog : list CatalogTable;
  artifacts : BucketPort;
  exports : BucketPort;
  attachments : BucketPort;
  vector_index : uuid → Prog unit;
  memory_vectors : option (uuid → Prog unit);
  dumps : ExportedRow → pystr;
  zip : list (pystr * Entry) → bytes;
  stamp : datetime → pystr }.

Section Lane.
Context (lane : TenantOffboardingLane).

Definition artifacts_prefix (tenant : uuid) : pystr := uuid_str tenant +++ "/".
Definition attachments_prefix (tenant : uuid) : pystr := "feedback/" +++ uuid_str tenant +++ "/".

Definition _build_bundle (tables : list ExportedTable) (artifact_blobs attachment_blobs : list (pystr * bytes))
    : bytes :=
  zip lane (bundle_entries (dumps lane) tables artifact_blobs attachment_blobs).

(** Up to the upload: the keys of the blobs that were read, and of the bundle. *)
Definition export_bundle (tenant : uuid) : Prog (list pystr * list pystr * pystr) :=
  let! rows := export_rows (ol_catalog lane) tenant in
  let! artifact_keys := list_objects (artifacts lane) (artifacts_prefix tenant) in
  let! artifact_blobs := blobs_from (artifacts lane) [] artifact_keys in
  let! attachment_keys := list_objects (attachments lane) (attachments_prefix tenant) in
  let! attachment_blobs := blobs_from (attachments lane) [] attachment_keys in
  let! now := now_utc in
  let export_key := uuid_str tenant +++ "/offboarding-" +++ stamp lane now +++ ".zip" in
  let! _ := put_object (exports lane) export_key (_build_bundle rows artifact_blobs attachment_blobs)
              "application/zip" in
  ret (artifact_keys, attachment_keys, export_key).

Definition run (tenant : uuid) : Prog unit :=
  let! exported := export_bundle tenant in
  let '(artifact_keys, attachment_keys, export_key) := exported in
  mark_status tenant OB_exporting (Some export_key) None ;;;
  mark_status tenant OB_purging (Some export_key) None ;;;
  purge_rows (ol_catalog lane) tenant ;;;
  delete_objects (artifacts lane) artifact_keys ;;;
  delete_objects (attachments lane) attachment_keys ;;;
  vector_index lane tenant ;;;
  match memory_vectors lane with Some delete_by_tenant => delete_by_tenant tenant | None => ret tt end ;;;
  mark_status tenant OB_completed (Some export_key) None.

Fixpoint offboard_each (tenants : list uuid) : Prog unit :=
  match tenants with
  | [] => ret tt
  | tenant :: rest =>
      try_exception (run tenant) (λ exc,
        try_exception (mark_status tenant OB_failed None (Some (cut (_error_text exc))))
          (λ _, ret tt)) ;;;
      offboard_each rest
  end.

Definition offboarding_consume : Prog unit :=
  let! tenants := claim_requested in offboard_each tenants.
End Lane.
