(* ===== verification/OffboardingLaws.v ===== *)
(** * What an offboarding removes, and when

    A purge removes exactly the tenant's rows, in an order the foreign keys allow;
    nothing is removed before the bundle is stored; and what the code does to a
    second request of a tenant and to the notifications of one. *)

From S2P Require Import Prelude Errors Kernel Domain Contracts Accounts SupportGrants MemoryPolicy.
From S2P Require Import ChannelRows Store Members Provisioning ProvisioningLaws Deliveries Offboarding.
Local Open Scope prog_scope.
Local Open Scope pystr_scope.

(** ** The order *)

Fixpoint delete_tables (tenant : uuid) (l : list CatalogTable) : Prog unit :=
  match l with [] => ret tt | t :: rest => ct_delete t tenant ;;; delete_tables tenant rest end.

Definition purged_entries : list CatalogTable :=
  [items_entry; evidence_entry; chunks_entry; documents_entry; runs_entry;
   item_evidence_entry; candidates_entry; decisions_entry; approvals_entry; entitlements_entry;
   memberships_entry; outbox_entry; executions_entry; workspaces_entry].

Lemma purge_order_entries :
  purge_order platform_catalog = ct_key <$> purged_entries.
Proof. by vm_compute. Qed.

Lemma named_entries :
  Forall (λ t, (∀ w, table_named platform_catalog (ct_key t) w = (Ok t, w)) ∧
               is_ok (_quoted (ct_schema t) (ct_name t)) = true) purged_entries.
Proof. repeat constructor. Qed.

Lemma delete_named tenant l w :
  Forall (λ t, (∀ w, table_named platform_catalog (ct_key t) w = (Ok t, w)) ∧
               is_ok (_quoted (ct_schema t) (ct_name t)) = true) l →
  delete_all platform_catalog tenant (ct_key <$> l) w = delete_tables tenant l w.
Proof.
  intros Hl. revert w. induction Hl as [|t l [Ht Hq] _ IH]; intros w; [done|].
  cbn [fmap list_fmap delete_all ct_key delete_tables]. unfold bind at 1, lift_res.
  destruct (_quoted _ _); [|done]. unfold bind at 1. change (ct_schema t, ct_name t) with (ct_key t).
  rewrite Ht. unfold bind. destruct (ct_delete t tenant w) as [[[]|e] w']; [apply IH|done].
Qed.

(** ** What is left of a table *)

Section Left.
Context {R K : Type} `{SqlTable R K}.

Definition others (tenant : uuid) (t : gmap K R) : gmap K R := filter (λ kv, row_tenant kv.2 ≠ tenant) t.

Lemma visible_all tenant (r : R) : visible tenant (λ _, true) r = bool_decide (row_tenant r = tenant).
Proof. unfold visible. by rewrite andb_true_r. Qed.

Lemma deleted_others tenant (t : gmap K R) :
  filter (λ kv, visible tenant (λ _, true) kv.2 = false) t = others tenant t.
Proof.
  apply map_filter_ext. intros k r _. simpl. by rewrite visible_all, bool_decide_eq_false.
Qed.

Lemma lookup_others tenant (t : gmap K R) k r :
  others tenant t !! k = Some r ↔ t !! k = Some r ∧ row_tenant r ≠ tenant.
Proof. apply map_lookup_filter_Some. Qed.

Lemma others_others tenant (t : gmap K R) : others tenant (others tenant t) = others tenant t.
Proof. apply map_filter_id. by intros k r [_ Hr]%lookup_others. Qed.

(** A table's delete, when no foreign key refuses it. *)
Lemma table_delete schema name deletable policy row restricted cascade tenant w :
  restricted (tenant_rows tenant (db w)) (db w) = false →
  ct_delete (catalog_table schema name deletable policy row restricted cascade) tenant w =
    (Ok tt, set_db (cascade (tenant_rows tenant (db w)) (set_tbl (others tenant (tbl (db w))) (db w))) w).
Proof.
  intros Hr. simpl. unfold bind at 1, get_state. rewrite Hr. unfold bind, ret, sql_delete, modify.
  simpl. by rewrite deleted_others.
Qed.
End Left.

(** A reference into another table of the same tenant. *)
Definition same_tenant {R K R' K'} `{SqlTable R K} `{SqlTable R' K'} (ref : R → option K')
    (t : gmap K R) (t' : gmap K' R') : Prop :=
  ∀ k r x, t !! k = Some r → ref r = Some x →
  ∃ r', t' !! x = Some r' ∧ row_tenant r' = row_tenant r.

Section References.
Context {R K R' K' : Type} `{SqlTable R K} `{SqlTable R' K'}.

Lemma same_tenant_sub (ref : R → option K') (t1 t2 : gmap K R) (t' : gmap K' R') :
  t1 ⊆ t2 → same_tenant ref t2 t' → same_tenant ref t1 t'.
Proof. intros Hs Hr k r x Hk. apply (Hr k). by eapply lookup_weaken. Qed.

(** The cascade of a tenant's rows takes the tenant's rows. *)
Lemma cascade_others (ref : R → K') tenant (t : gmap K R) (t' : gmap K' R') :
  same_tenant (λ r, Some (ref r)) t t' →
  filter (λ kv, mine tenant t' !! ref kv.2 = None) t = others tenant t.
Proof.
  intros Hr. apply map_filter_ext. intros k r Hk. simpl. unfold mine.
  rewrite map_lookup_filter_None. destruct (Hr k r _ Hk eq_refl) as (r' & Hr' & <-). rewrite Hr'. split.
  - intros [?|Hn]; [done|]. by apply (Hn r').
  - intros Hn. right. by intros ? [= <-].
Qed.

(** A cascade into a table that was emptied before. *)
Lemma cascade_again (ref : R → K') tenant (t : gmap K R) (t' : gmap K' R') :
  same_tenant (λ r, Some (ref r)) t t' →
  filter (λ kv, mine tenant t' !! ref kv.2 = None) (others tenant t) = others tenant t.
Proof.
  intros Hr. rewrite cascade_others; [apply others_others|].
  eapply same_tenant_sub; [apply map_filter_subseteq|done].
Qed.

(** And what it takes is the tenant's. *)
Lemma cascade_mine (ref : R → K') tenant (t : gmap K R) (t' : gmap K' R') :
  same_tenant (λ r, Some (ref r)) t t' →
  filter (λ kv, is_Some (mine tenant t' !! ref kv.2)) t = mine tenant t.
Proof.
  intros Hr. apply map_filter_ext. intros k r Hk. simpl.
  destruct (Hr k r _ Hk eq_refl) as (r' & Hr' & <-). split.
  - intros [x Hx]. apply map_lookup_filter_Some in Hx as [Hx Ht]. simpl in Ht. congruence.
  - intros Ht. exists r'. by apply map_lookup_filter_Some.
Qed.

(** Rows of other tenants refer to none of the tenant's. *)
Lemma unrestricted (ref : R → option K') tenant (t : gmap K R) (t' : gmap K' R') (d : Db) :
  same_tenant ref t t' → tbl d = others tenant t → refers (R := R) ref (mine tenant t') d = false.
Proof.
  intros Hr Ed. unfold refers, rows_of. rewrite Ed. apply not_true_iff_false. rewrite existsb_exists.
  intros (r & Hin & Hb). apply list_elem_of_In, list_elem_of_fmap in Hin as ([k r0] & -> & Hk).
  apply elem_of_map_to_list, lookup_others in Hk as [Hk Hn]. simpl in *.
  destruct (ref r0) as [x|] eqn:E; [|done].
  apply bool_decide_eq_true in Hb as [r' Hg]. apply map_lookup_filter_Some in Hg as [Hg Ht].
  destruct (Hr k r0 x Hk E) as (r2 & Hr2 & Et). simpl in Ht. congruence.
Qed.
End References.

(** ** The state a purge needs and leaves *)

(** Every reference of the tables stays inside its tenant. *)
Record contained (d : Db) : Prop := {
  cn_item_evidence : same_tenant (λ i, Some (ie_memory_id i)) (t_item_evidence (t_mem d)) (t_items (t_mem d));
  cn_cited : same_tenant (λ i, Some (ie_evidence_id i)) (t_item_evidence (t_mem d)) (t_evidence (t_mem d));
  cn_evidence : same_tenant (λ e, Some (er_source_document_id e)) (t_evidence (t_mem d)) (t_documents (t_mem d));
  cn_evidence_chunk : same_tenant er_chunk_id (t_evidence (t_mem d)) (t_chunks (t_mem d));
  cn_chunk : same_tenant (λ c, Some (ck_document_id c)) (t_chunks (t_mem d)) (t_documents (t_mem d));
  cn_item_run : same_tenant (λ i, Some (mi_created_by_run_id (ir_item i))) (t_items (t_mem d)) (t_runs d);
  cn_decision : same_tenant (λ a, Some (ad_request_id a)) (t_decisions d) (t_approvals d);
  cn_receipt : same_tenant (λ v, Some (vr_approval_id v)) (t_receipts d) (t_approvals d);
  cn_code : same_tenant (λ c, Some (dc_receipt_id c)) (t_codes d) (t_receipts d);
  cn_membership : same_tenant (λ m, Some (mb_workspace_id m)) (t_memberships (t_org d)) (t_workspaces (t_org d));
  cn_grant : same_tenant (λ g, Some (sg_workspace_id g)) (t_support_grants (t_org d)) (t_workspaces (t_org d));
  cn_notification : same_tenant (λ n, Some (nt_workspace_id n)) (t_notifications (t_chan d)) (t_workspaces (t_org d));
  cn_delivery : same_tenant (λ x, Some (dl_workspace_id x)) (t_deliveries (t_chan d)) (t_workspaces (t_org d));
  cn_preference : ∀ u p, t_preferences (t_chan d) !! u = Some p →
    ∃ k m, t_memberships (t_org d) !! k = Some m ∧ mb_tenant_id m = p.1 ∧ mb_workspace_id m = p.2 ∧ mb_user_id m = u }.

(** The database without the tenant's rows, but for the tables that keep them. *)
Definition emptied (tenant : uuid) (d : Db) : Db :=
  let o := t_org d in let m := t_mem d in let c := t_chan d in
  MkDb (others tenant (t_approvals d)) (others tenant (t_decisions d)) (t_audit d)
    (others tenant (t_outbox d)) (others tenant (t_receipts d)) (others tenant (t_codes d))
    (others tenant (t_runs d)) (others tenant (t_executions d)) (t_notices d)
    (MkOrg (t_tenants o) (others tenant (t_workspaces o)) (t_users o) (t_external_identities o)
       (others tenant (t_memberships o)) (others tenant (t_entitlements o)) (t_plans o) (t_roles o)
       (t_permission_sets o) (t_support_staff o) (others tenant (t_support_grants o))
       (t_provisioning_audit o) (t_sod_rules o) (t_sod_waivers o))
    (MkMem (others tenant (t_documents m)) (others tenant (t_chunks m)) (others tenant (t_evidence m))
       (others tenant (t_items m)) (others tenant (t_candidates m)) (others tenant (t_item_evidence m)))
    (MkChan (others tenant (t_notifications c)) (others tenant (t_deliveries c)) (t_inbound c)
       (t_updates c) (t_nonces c) (filter (λ kv, kv.2.1 ≠ tenant) (t_preferences c)))
    (t_ops d).

(** One delete of the sequence. *)
Lemma delete_step t l tenant w d' :
  ct_delete t tenant w = (Ok tt, set_db d' w) →
  delete_tables tenant (t :: l) w = delete_tables tenant l (set_db d' w).
Proof. intros E. cbn [delete_tables]. unfold bind. by rewrite E. Qed.

Arguments others : simpl never.
Arguments mine : simpl never.
Arguments delete_tables : simpl never.

(** The memberships a workspace's deletion takes are gone already, and so are
    the choices that named them. *)
Lemma spaces_take_none tenant (mb : gmap uuid MembershipRow) (sp : gmap uuid WorkspaceRow) :
  same_tenant (λ m : MembershipRow, Some (mb_workspace_id m)) mb sp →
  filter (λ kv, is_Some (mine tenant sp !! mb_workspace_id kv.2)) (others tenant mb) = ∅.
Proof.
  intros Hr. apply map_empty. intros k. apply map_lookup_filter_None. right.
  intros m [Hk Hn]%lookup_others [s Hs]. simpl in Hs.
  apply map_lookup_filter_Some in Hs as [Hs Ht]. destruct (Hr k m _ Hk eq_refl) as (s' & Hs' & E).
  simpl in *. congruence.
Qed.

Lemma choices_others tenant (mb : gmap uuid MembershipRow) (pf : gmap uuid (uuid * uuid)) :
  (∀ u p, pf !! u = Some p →
     ∃ k m, mb !! k = Some m ∧ mb_tenant_id m = p.1 ∧ mb_workspace_id m = p.2 ∧ mb_user_id m = u) →
  filter (λ kv, (kv.2.1, kv.2.2, kv.1) ∉ ((λ m, (mb_tenant_id m, mb_workspace_id m, mb_user_id m)) <$>
                                          (map_to_list (mine tenant mb)).*2)) pf =
  filter (λ kv, kv.2.1 ≠ tenant) pf.
Proof.
  intros Hp. apply map_filter_ext. intros u [t s] Hu. simpl.
  destruct (Hp _ _ Hu) as (k & m & Hm & E1 & E2 & E3). simpl in *. split; intros Hn.
  - intros ->. apply Hn, list_elem_of_fmap. exists m. split; [congruence|].
    apply list_elem_of_fmap. exists (k, m). split; [done|]. apply elem_of_map_to_list.
    by apply map_lookup_filter_Some.
  - intros (m' & [= -> _ _] & ([k' m2] & -> & Hk)%list_elem_of_fmap)%list_elem_of_fmap.
    apply elem_of_map_to_list, map_lookup_filter_Some in Hk as [_ Hk]. by apply Hn.
Qed.

Local Ltac settle := unfold tenant_rows, set_db, set_mem, set_org, set_chan; simpl.

Lemma purge_empties tenant w :
  contained (db w) →
  delete_tables tenant purged_entries w = (Ok tt, set_db (emptied tenant (db w)) w).
Proof.
  destruct w as [[ap de au ou re co ru ex no [tn sp us xi mb en pl ro pe st gr pa so wa]
                  [dc ck ev it ca ie] [nt dl ib up nn pf] op] sv now u ur is_ ii ef].
  intros Hc. destruct Hc. simpl in * |-. unfold purged_entries.
  (* items, evidence, chunks, documents, runs *)
  erewrite delete_step by (apply table_delete; done).
  unfold items_cascade, unreferring. settle. erewrite cascade_others by done.
  erewrite delete_step by (apply table_delete; by eapply unrestricted). settle.
  erewrite delete_step by (apply table_delete; by eapply unrestricted). settle.
  erewrite delete_step by (apply table_delete; by eapply unrestricted).
  unfold documents_cascade, unreferring. settle. erewrite cascade_again by done.
  erewrite delete_step by (apply table_delete; by eapply unrestricted). settle.
  (* item evidence, candidates, decisions, approvals, entitlements *)
  erewrite delete_step by (apply table_delete; done). settle. rewrite others_others.
  erewrite delete_step by (apply table_delete; done). settle.
  erewrite delete_step by (apply table_delete; done). settle.
  erewrite delete_step by (apply table_delete; done).
  unfold approvals_cascade, receipts_gone, unreferring. settle.
  erewrite cascade_mine by done. erewrite cascade_again by done. erewrite !cascade_others by done.
  erewrite delete_step by (apply table_delete; done). settle.
  (* memberships, outbox, executions, workspaces *)
  erewrite delete_step by (apply table_delete; done).
  unfold memberships_cascade. settle. rewrite (choices_others tenant mb) by done.
  erewrite delete_step by (apply table_delete; done). settle.
  erewrite delete_step by (apply table_delete; done). settle.
  erewrite delete_step by (apply table_delete; done).
  unfold workspaces_cascade, memberships_of_spaces, memberships_cascade, unreferring. settle.
  rewrite (spaces_take_none tenant mb sp) by done. rewrite map_to_list_empty. simpl.
  rewrite (cascade_again _ _ _ _ cn_membership0), (cascade_others _ _ _ _ cn_delivery0),
    (cascade_others _ _ _ _ cn_notification0), (cascade_others _ _ _ _ cn_grant0).
  rewrite (map_filter_id _ (filter _ pf)) by (intros; apply not_elem_of_nil).
  done.
Qed.

(** *** The purge, with its audit record *)

Definition audited (e : AuditEvent) (d : Db) : Db := set_tbl (<[row_key e := e]> (tbl d)) d.

Lemma contained_audited e d : contained d → contained (audited e d).
Proof. intros []. by split. Qed.

Definition purge_record (tenant : uuid) (w : World) : option AuditEvent :=
  ws ← head (map_to_list (tenant_rows (R := WorkspaceRow) tenant (db w))).*2;
  request ← latest_request tenant (db w);
  Some (purge_event (ids w (ids_issued w)) tenant (ws_id ws) (of_requested_by request) (db_now w)).

(** C9: when the references of the tables stay inside their tenant, a purge succeeds: no
    foreign key refuses its order, it removes exactly the tenant's rows of every table
    but the ones that keep them, with what the workspaces' deletion cascades to, and
    leaves the record of the purge. *)
Theorem purge_exact tenant w :
  contained (db w) → t_audit (db w) !! (ids w (ids_issued w), db_now w) = None →
  purge_rows platform_catalog tenant w =
    match purge_record tenant w with
    | Some e => (Ok tt, commit_db (emptied tenant (audited e (db w))) (use_ids 1 0 w))
    | None => (Ok tt, commit_db (emptied tenant (db w)) w)
    end.
Proof.
  intros Hc Hf. unfold purge_rows, session_begin. rewrite purge_order_entries.
  unfold bind at 1, _record_purge_audit, purge_record. unfold bind at 1, get_state.
  pose proof (λ x, delete_named tenant purged_entries x named_entries) as Hn.
  set (l := ct_key <$> purged_entries) in *. clearbody l.
  destruct (head _) as [ws|]; simpl.
  2: { unfold ret. rewrite Hn, purge_empties by done. by destruct w. }
  destruct (latest_request tenant (db w)) as [r|]; simpl.
  2: { unfold ret. rewrite Hn, purge_empties by done. by destruct w. }
  unfold bind, new_uuid. rewrite sql_insert_fresh by done.
  rewrite Hn, purge_empties by (by apply contained_audited). by destruct w.
Qed.

(** *** The export *)

Definition exported_table (tenant : uuid) (d : Db) (t : CatalogTable) : ExportedTable :=
  {| xt_schema := ct_schema t; xt_table := ct_name t; xt_rows := ct_select t tenant d |}.

Definition exported_entries : list CatalogTable :=
  filter (λ t, ct_key t ∉ _NEVER_PURGE) platform_catalog.

Lemma exportable_entries : _exportable_tables platform_catalog = ct_key <$> exported_entries.
Proof. by vm_compute. Qed.

Lemma named_exported :
  Forall (λ t, (∀ w, table_named platform_catalog (ct_key t) w = (Ok t, w)) ∧
               is_ok (_quoted (ct_schema t) (ct_name t)) = true) exported_entries.
Proof. repeat constructor. Qed.

Lemma select_named tenant l w :
  Forall (λ t, (∀ w, table_named platform_catalog (ct_key t) w = (Ok t, w)) ∧
               is_ok (_quoted (ct_schema t) (ct_name t)) = true) l →
  select_all platform_catalog tenant (ct_key <$> l) w = (Ok (exported_table tenant (db w) <$> l), w).
Proof.
  induction 1 as [|t l [Ht Hq] _ IH]; [done|].
  cbn [fmap list_fmap select_all ct_key]. unfold bind at 1, lift_res.
  destruct (_quoted _ _); [|done]. unfold bind at 1. change (ct_schema t, ct_name t) with (ct_key t).
  rewrite Ht. unfold bind at 1, gets. unfold bind. by rewrite IH.
Qed.

Lemma export_run tenant w :
  clean w → export_rows platform_catalog tenant w = (Ok (exported_table tenant (db w) <$> exported_entries), w).
Proof.
  intros Hc. apply session_begin_read; [done|]. rewrite exportable_entries.
  apply select_named, named_exported.
Qed.

Definition is_notification (x : ExportedRow) : bool := match x with X_notification _ => true | _ => false end.

Lemma select_kinds tenant d t :
  t ∈ platform_catalog → Forall (λ x, is_notification x = false) (ct_select t tenant d).
Proof.
  assert (∀ (R : Type) (mk : R → ExportedRow) (l : list R),
    (∀ r, is_notification (mk r) = false) → Forall (λ x, is_notification x = false) (mk <$> l)) as Hmk.
  { intros R mk l Hr. apply Forall_fmap, Forall_forall. intros r _. apply Hr. }
  unfold platform_catalog. rewrite !elem_of_cons, elem_of_nil. intros Ht.
  destruct_or! Ht; subst t; try done; try (by apply Hmk).
  (* the inbox: no row passes the policy without a user *)
  cbn. rewrite (proj2 (filter_nil_iff _ _)) by done. by constructor.
Qed.

(** No notification is ever in an export, and after the purge the tenant has none left. *)
Theorem notifications_leave_unexported tenant w tables w' :
  clean w → contained (db w) → t_audit (db w) !! (ids w (ids_issued w), db_now w) = None →
  export_rows platform_catalog tenant w = (Ok tables, w') →
  (∀ t n, t ∈ tables → X_notification n ∉ xt_rows t) ∧
  (∀ k n, t_notifications (t_chan (db (purge_rows platform_catalog tenant w').2)) !! k = Some n →
     nt_tenant_id n ≠ tenant).
Proof.
  intros Hc Hcn Hf Hx. rewrite export_run in Hx by done.
  assert (tables = exported_table tenant (db w) <$> exported_entries ∧ w' = w) as [-> ->] by (split; congruence).
  clear Hx. split.
  - intros t n Ht Hn. apply list_elem_of_fmap in Ht as (e & -> & He).
    apply list_elem_of_filter in He as [_ He]. pose proof (select_kinds tenant (db w) e He) as Hk.
    rewrite Forall_forall in Hk. by specialize (Hk _ Hn).
  - intros k n. rewrite purge_exact by done.
    assert (∀ d x, t_notifications (t_chan (db (commit_db (emptied tenant d) x))) !! k = Some n →
              nt_tenant_id n ≠ tenant) as He.
    { intros d x. cbn. by intros [_ ?]%lookup_others. }
    destruct (purge_record tenant w); apply He.
Qed.

(** ** The lane *)

(** What storage and vector stores do: they leave the database alone. *)
Definition elsewhere (w w' : World) : Prop :=
  db w' = db w ∧ saved w' = saved w ∧ ids w' = ids w ∧ db_now w' = db_now w.

#[export] Instance elsewhere_preorder : PreOrder elsewhere.
Proof. unfold elsewhere. split; [done|]. intros ? ? ? (? & ? & ? & ?) (? & ? & ? & ?). split_and!; congruence. Qed.

Lemma elsewhere_now : respects elsewhere now_utc.
Proof. by intros w. Qed.

Record bucket_apart (b : BucketPort) : Prop := {
  ba_put : ∀ k d t, respects elsewhere (put_object b k d t);
  ba_get : ∀ k, respects elsewhere (get_object b k);
  ba_list : ∀ p, respects elsewhere (list_objects b p);
  ba_delete : ∀ k, respects elsewhere (delete_object b k) }.

Record apart (lane : TenantOffboardingLane) : Prop := {
  ap_artifacts : bucket_apart (artifacts lane);
  ap_exports : bucket_apart (exports lane);
  ap_attachments : bucket_apart (attachments lane);
  ap_vectors : ∀ t, respects elsewhere (vector_index lane t);
  ap_memory : ∀ f t, memory_vectors lane = Some f → respects elsewhere (f t) }.

Section LaneLaws.
Context (lane : TenantOffboardingLane) (Hl : apart lane).

Lemma blobs_elsewhere b d keys : bucket_apart b → respects elsewhere (blobs_from b d keys).
Proof.
  intros Hb. revert d. induction keys as [|k keys IH]; intros d; [by intros w|].
  apply respects_bind; [apply _|apply Hb|]. intros x. apply IH.
Qed.


Lemma select_all_idle catalog tenant names w : (select_all catalog tenant names w).2 = w.
Proof.
  revert w. induction names as [|[schema table] names IH]; intros w; [done|].
  cbn [select_all]. unfold bind at 1, lift_res. destruct (_quoted _ _); [|done].
  unfold bind at 1, table_named. destruct (filter _ _); [done|].
  unfold bind at 1, ret, gets. unfold bind. specialize (IH w).
  destruct (select_all catalog tenant names w) as [[l'|e] w']; exact IH.
Qed.

Lemma export_rows_idle catalog tenant w : clean w → (export_rows catalog tenant w).2 = w.
Proof.
  intros Hc. unfold export_rows.
  pose proof (select_all_idle catalog tenant (_exportable_tables catalog) w) as H.
  destruct (select_all _ _ _ w) as [r w1] eqn:E. simpl in H. subst w1.
  by rewrite (session_begin_read _ w r Hc E).
Qed.

(** The export reads the database, then only talks to storage. *)
Lemma export_bundle_elsewhere tenant w :
  clean w → clean (export_bundle lane tenant w).2 ∧ elsewhere w (export_bundle lane tenant w).2.
Proof.
  intros Hc. destruct Hl as [Ha Hx Ht _ _].
  assert (elsewhere w (export_bundle lane tenant w).2) as He.
  { unfold export_bundle. unfold bind at 1.
    pose proof (export_rows_idle (ol_catalog lane) tenant w Hc) as H.
    destruct (export_rows _ _ w) as [[tables|e] w1]; simpl in H; subst w1; [|done].
    match goal with |- elsewhere w (?m w).2 => enough (respects elsewhere m) by auto end.
    apply respects_bind; [apply _|apply Ha|intros ks]. apply respects_bind; [apply _|by apply blobs_elsewhere|intros bs].
    apply respects_bind; [apply _|apply Ht|intros ks']. apply respects_bind; [apply _|by apply blobs_elsewhere|intros bs'].
    apply respects_bind; [apply _|apply elsewhere_now|intros now].
    apply respects_bind; [apply _|apply Hx|intros u]. by intros x. }
  split; [|done]. destruct He as (E1 & E2 & _). unfold clean in *. congruence.
Qed.

(** What [blobs_from] collects: every key asked for, each with what the bucket answered. *)
Definition blobs_read (bucket : BucketPort) (keys : list pystr) (blobs : list (pystr * bytes)) : Prop :=
  (∀ k, k ∈ keys → k ∈ blobs.*1) ∧
  (∀ k b, (k, b) ∈ blobs → k ∈ keys ∧ ∃ w w', get_object bucket k w = (Ok b, w')).

Lemma dict_set_keys {A} k (v : A) d k' : k' ∈ (dict_set k v d).*1 ↔ k' = k ∨ k' ∈ d.*1.
Proof. induction d as [|[k1 v1] d IH]; simpl; [set_solver|]. case_bool_decide; set_solver. Qed.

Lemma dict_set_entries {A} k (v : A) d kv : kv ∈ dict_set k v d → kv = (k, v) ∨ kv ∈ d.
Proof. induction d as [|[k1 v1] d IH]; simpl; [set_solver|]. case_bool_decide; set_solver. Qed.

Lemma blobs_from_ok b d keys w blobs w' :
  blobs_from b d keys w = (Ok blobs, w') →
  (∀ k, k ∈ keys ∨ k ∈ d.*1 → k ∈ blobs.*1) ∧
  (∀ k x, (k, x) ∈ blobs → (k, x) ∈ d ∨ k ∈ keys ∧ ∃ w w', get_object b k w = (Ok x, w')).
Proof.
  revert d w. induction keys as [|k keys IH]; intros d w; cbn [blobs_from].
  { intros [= <- _]. set_solver. }
  intros (x & w1 & H1 & [Hk He]%IH)%bind_ok. split.
  - intros k' Hin. apply Hk. rewrite dict_set_keys. set_solver.
  - intros k' x' [[[= -> ->]|?]%dict_set_entries|[? ?]]%He; [right|by left|right].
    + split; [by left|by exists w, w1].
    + split; [by right|done].
Qed.

(** The bundle of a tenant's rows and objects, under its name in the exports bucket. *)
Definition bundled (tenant : uuid) (tables : list ExportedTable) (key : pystr) : Prop :=
  ∃ now ks ks' arts atts w0 w1 w2 w3 w4 v w5,
    list_objects (artifacts lane) (artifacts_prefix tenant) w0 = (Ok ks, w1) ∧
    blobs_read (artifacts lane) ks arts ∧
    list_objects (attachments lane) (attachments_prefix tenant) w2 = (Ok ks', w3) ∧
    blobs_read (attachments lane) ks' atts ∧
    key = uuid_str tenant +++ "/offboarding-" +++ stamp lane now +++ ".zip" ∧
    put_object (exports lane) key (_build_bundle lane tables arts atts) "application/zip" w4 = (Ok v, w5).

Lemma export_bundle_ok tenant w x w' :
  clean w → export_bundle lane tenant w = (Ok x, w') →
  ∃ tables, export_rows (ol_catalog lane) tenant w = (Ok tables, w) ∧ bundled tenant tables x.2.
Proof.
  intros Hc (tables & w1 & H1 & H)%bind_ok.
  pose proof (export_rows_idle (ol_catalog lane) tenant w Hc) as Hw. rewrite H1 in Hw. simpl in Hw. subst w1.
  apply bind_ok in H as (ks & w2 & L1 & H). apply bind_ok in H as (arts & w3 & [K1 E1]%blobs_from_ok & H).
  apply bind_ok in H as (ks' & w4 & L2 & H). apply bind_ok in H as (atts & w5 & [K2 E2]%blobs_from_ok & H).
  apply bind_ok in H as (now & w6 & _ & H). apply bind_ok in H as (v & w7 & H & [= <- <-]).
  exists tables. split; [done|]. exists now, ks, ks', arts, atts, w, w2, w3, w4, w6, v, w7.
  split_and!; [done| |done| |done|done].
  - split; [auto|]. by intros k b [?%not_elem_of_nil|?]%E1.
  - split; [auto|]. by intros k b [?%not_elem_of_nil|?]%E2.
Qed.

(** The database but for the requests. *)
Definition business (d : Db) : Db :=
  set_ops (MkOps ∅ (t_operators (t_ops d)) (t_staff_rows (t_ops d))) d.

Lemma mark_status_business tenant status key error w :
  clean w → clean (mark_status tenant status key error w).2 ∧
  business (db (mark_status tenant status key error w).2) = business (db w).
Proof.
  intros Hc. destruct (mark_status tenant status key error w) as [[[]|e] w'] eqn:E.
  - apply session_begin_ok in E as (s & H & ->). apply bind_ok in H as (w0 & s0 & [= <- <-] & H).
    apply bind_ok in H as (n & s1 & (_ & _ & ->)%sql_update_ok & [= <-]). by destruct w as [[]].
  - apply session_begin_undone in E as [? E]; [|respects_auto|done]. split; [done|]. simpl. by rewrite E.
Qed.

(** Whatever a run of the lane ends with, either nothing but the request changed in the
    database, or the bundle of every exported table, as the tables were before the run,
    was stored. *)
Theorem export_precedes_purge tenant w r w' :
  clean w → run lane tenant w = (r, w') →
  business (db w') = business (db w) ∨
  ∃ tables key, export_rows (ol_catalog lane) tenant w = (Ok tables, w) ∧ bundled tenant tables key.
Proof.
  intros Hc. unfold run. unfold bind at 1.
  pose proof (export_bundle_elsewhere tenant w Hc) as [Hc1 He].
  destruct (export_bundle lane tenant w) as [[x|e] w1] eqn:E; simpl in *.
  - intros _. right. apply export_bundle_ok in E as (tables & H1 & H2); [|done].
    by exists tables, x.2.
  - intros [= <- <-]. left. destruct He as [-> _]. done.
Qed.
(** A live status on two requests of a tenant breaks the index. *)
Lemma mark_live_refused tenant status key error k1 k2 r1 r2 w :
  clean w → live status = true → k1 ≠ k2 →
  requests_of (db w) !! k1 = Some r1 → requests_of (db w) !! k2 = Some r2 →
  of_tenant_id r1 = tenant → of_tenant_id r2 = tenant →
  mark_status tenant status key error w =
    (Raise (Exn (IntegrityError _ACTIVE_REQUEST_INDEX) "duplicate key value violates unique constraint"), w).
Proof.
  intros Hc Hs Hne H1 H2 T1 T2. apply session_begin_read; [done|]. unfold bind at 1, get_state.
  unfold bind. rewrite sql_update_duplicate; [done|]. apply not_true_iff_false. intros Hu.
  apply Hne. rewrite unique_ok_spec in Hu.
  eapply (Hu k1 k2 _ _ [tenant]); rewrite ?lookup_update_rows.
  - change (tbl (db w)) with (requests_of (db w)). by rewrite H1.
  - change (tbl (db w)) with (requests_of (db w)). by rewrite H2.
  - rewrite visible_all. simpl. rewrite T1, bool_decide_eq_true_2 by done. simpl. by rewrite Hs, T1.
  - rewrite visible_all. simpl. rewrite T2, bool_decide_eq_true_2 by done. simpl. by rewrite Hs, T2.
Qed.

(** A status that ends a request is always taken. *)
Lemma mark_ended tenant status key error w :
  live status = false → unique_ok (requests_of (db w)) = true →
  ∃ w', mark_status tenant status key error w = (Ok tt, w') ∧
    requests_of (db w') = update_rows (visible tenant (λ _, true)) (λ r,
      set_request status (match key with Some k => Some k | None => of_export_key r end) error (db_now w) r)
      (requests_of (db w)).
Proof.
  intros Hs Hu. eexists. split.
  - apply session_begin_ok. eexists. split; [|done]. unfold bind at 1, get_state.
    unfold bind. rewrite sql_update_run; [done|]. apply unique_ok_update; [|done].
    intros k r _ _. left. simpl. by rewrite Hs.
  - done.
Qed.

(** A tenant with two requests on file, whatever became of the first, is never offboarded:
    the first report of progress moves both to a live status, the index refuses it,
    nothing is purged and both are marked failed. *)
Theorem second_request_never_purges tenant k1 k2 r1 r2 w :
  clean w → unique_ok (requests_of (db w)) = true → k1 ≠ k2 →
  requests_of (db w) !! k1 = Some r1 → requests_of (db w) !! k2 = Some r2 →
  of_tenant_id r1 = tenant → of_tenant_id r2 = tenant →
  ∃ e w1, run lane tenant w = (Raise e, w1) ∧ db w1 = db w ∧
  (is_cancelled e = false →
   ∃ w2, offboard_each lane [tenant] w = (Ok tt, w2) ∧ business (db w2) = business (db w) ∧
     ∀ k r, requests_of (db w2) !! k = Some r → of_tenant_id r = tenant → of_status r = OB_failed).
Proof.
  intros Hc Hu Hne H1 H2 T1 T2.
  assert (∃ e w1, run lane tenant w = (Raise e, w1) ∧ clean w1 ∧ db w1 = db w) as (e & w1 & Hr & Hc1 & Hd).
  { pose proof (export_bundle_elsewhere tenant w Hc) as [Hc1 (Hd & _)].
    unfold run. unfold bind at 1.
    destruct (export_bundle lane tenant w) as [[[[ks ks'] key]|e] w1]; simpl in Hc1, Hd; [|by exists e, w1].
    rewrite <- Hd in H1, H2. unfold bind at 1.
    rewrite (mark_live_refused tenant OB_exporting (Some key) None k1 k2 r1 r2 w1) by done. eauto. }
  exists e, w1. split_and!; [done|done|]. intros He.
  assert (unique_ok (requests_of (db w1)) = true) as Hu1 by (by rewrite Hd).
  pose proof (mark_status_business tenant OB_failed None (Some (cut (_error_text e))) w1 Hc1) as [_ Hb].
  destruct (mark_ended tenant OB_failed None (Some (cut (_error_text e))) w1 eq_refl Hu1)
    as (w2 & Hm & Hq).
  rewrite Hm in Hb. simpl in Hb. exists w2. split; [|split; [by rewrite Hb, Hd|]].
  - cbn [offboard_each]. unfold bind, try_exception, try_except. by rewrite Hr, He, Hm.
  - intros k r. rewrite Hq, lookup_update_rows. intros (r0 & Hr0 & ->)%fmap_Some.
    rewrite visible_all. simpl. intros Ht. case_bool_decide as E; [done|]. by simpl in Ht.
Qed.
End LaneLaws.

(** *** A whole offboarding *)

(** Storage and vector stores that answer. *)
Record answering (b : BucketPort) : Prop := {
  an_put : ∀ k d t w, is_ok (put_object b k d t w).1 = true;
  an_get : ∀ k w, is_ok (get_object b k w).1 = true;
  an_list : ∀ p w, is_ok (list_objects b p w).1 = true;
  an_delete : ∀ k w, is_ok (delete_object b k w).1 = true }.

Record up (lane : TenantOffboardingLane) : Prop := {
  up_artifacts : answering (artifacts lane);
  up_exports : answering (exports lane);
  up_attachments : answering (attachments lane);
  up_vectors : ∀ t w, is_ok (vector_index lane t w).1 = true;
  up_memory : ∀ f t w, memory_vectors lane = Some f → is_ok (f t w).1 = true }.



Section Completion.
Context (lane : TenantOffboardingLane) (Hl : apart lane) (Hu : up lane).
Context (Hcat : ol_catalog lane = platform_catalog).














End Completion.

(** ** Claims *)

(** A request that was claimed is not handed out again for half an hour. *)
Lemma claim_rows w ts w' :
  clean w → claim_requested w = (Ok ts, w') →
  clean w' ∧ ts = of_tenant_id <$> filter (λ r, claimable (db_now w) r = true) (rows_of (db w)) ∧
  requests_of (db w') = update_rows (claimable (db_now w)) (λ r, set_request OB_exporting (of_export_key r)
    (of_error r) (db_now w) r) (requests_of (db w)) ∧
  unique_ok (requests_of (db w')) = true.
Proof.
  intros Hc (s & H & ->)%session_begin_ok. apply bind_ok in H as (w0 & s0 & [= <- <-] & H).
  apply bind_ok in H as ([] & s1 & H1 & [= <- <-]). unfold store_rows in H1.
  destruct (unique_ok _) eqn:Hu; [|done]. revert H1. intros [= <-]. by split_and!.
Qed.

Lemma claimable_live now r : claimable now r = true → live (of_status r) = true.
Proof. unfold claimable. by destruct (of_status r). Qed.

(** A request that was claimed is not handed to another worker for half an hour. *)
Theorem claim_is_exclusive w ts w1 now ts' w2 tenant :
  clean w → claim_requested w = (Ok ts, w1) → (now <= db_now w + minutes _STALE_CLAIM_MINUTES)%Z →
  claim_requested (at_time now w1) = (Ok ts', w2) → tenant ∈ ts → tenant ∉ ts'.
Proof.
  intros Hc (Hc1 & -> & Hr & Hu)%claim_rows Hnow (_ & -> & _)%claim_rows; [|done|done].
  intros (r & -> & [Hr1 ([k r0] & -> & Hk)%list_elem_of_fmap]%list_elem_of_filter)%list_elem_of_fmap.
  intros (r' & Et & [Hr2 ([k' r0'] & -> & Hk')%list_elem_of_fmap]%list_elem_of_filter)%list_elem_of_fmap.
  apply elem_of_map_to_list in Hk, Hk'. simpl in *. change (requests_of (db w1) !! k' = Some r0') in Hk'.
  assert (requests_of (db w1) !! k = Some (set_request OB_exporting (of_export_key r0) (of_error r0) (db_now w) r0))
    as Hk1.
  { rewrite Hr, lookup_update_rows. change (requests_of (db w) !! k = Some r0) in Hk. rewrite Hk. simpl.
    by rewrite Hr1. }
  assert (k' = k) as ->.
  { rewrite unique_ok_spec in Hu. apply (Hu k' k r0' _ [of_tenant_id r0] Hk' Hk1); simpl; [|done].
    by rewrite (claimable_live _ _ Hr2), Et. }
  rewrite Hk1 in Hk'. injection Hk' as <-. unfold claimable in Hr2. simpl in Hr2.
  apply Z.ltb_lt in Hr2. lia.
Qed.

(** ** A tenant leaving, for the concrete instances *)

Definition leaving_request (id : uuid) (status : OffboardingState) : OffboardingRow :=
  {| of_id := id; of_tenant_id := 10; of_status := status; of_requested_by := 1; of_requested_at := 900;
     of_export_key := None; of_error := None; of_updated_at := 950 |}.

Definition the_notice : NotificationRow :=
  {| nt_id := 60; nt_tenant_id := 10; nt_workspace_id := 20; nt_recipient_user_id := 2;
     nt_source_key := "k"; nt_title := "t"; nt_body := ""; nt_link := None; nt_created_at := 0;
     nt_read_at := None |}.
Definition the_document : DocumentRow :=
  MkDocument 70 10 20 "notes" None "shared" "file" "internal" "1" None 9 0 None "active" true None None
    None None None "tenant" ∅ ["tenant:*"].
Definition the_chunk : ChunkRow :=
  MkChunk 71 10 20 70 0 "text" 0 4 "h" "" 0 "active" None.
Definition the_evidence : EvidenceRow :=
  {| er_evidence_id := 72; er_tenant_id := 10; er_workspace_id := 20; er_source_document_id := 70;
     er_chunk_id := Some 71%N; er_source_version := "1"; er_page := None; er_start_offset := None;
     er_end_offset := None; er_quote := None; er_relevance_score := 0; er_classification := "internal";
     er_provenance_hash := "h"; er_created_at := 0 |}.

Definition leaving (requests : list OffboardingRow) : Db :=
  set_tbl (list_to_map ((λ r, (of_id r, r)) <$> requests) : gmap uuid OffboardingRow)
    (set_chan (set_notifications {[ 60%N := the_notice ]} empty_channels)
      (set_mem (MkMem {[ 70%N := the_document ]} {[ 71%N := the_chunk ]} {[ 72%N := the_evidence ]} ∅ ∅ ∅)
         small_platform)).

(** The one row of a table. *)
Lemma only_row {R} (i k : uuid) (row r : R) (t : gmap uuid R) :
  t = {[ i := row ]} → t !! k = Some r → r = row.
Proof. intros ->. by intros [_ ?]%lookup_singleton_Some. Qed.

Lemma leaving_contained requests : contained (leaving requests).
Proof.
  split; try (by intros k r x Hk); intros k r.
  - intros x Hk Hx. apply (only_row 72 k the_evidence r) in Hk as ->; [|done]. injection Hx as <-. by eexists.
  - intros x Hk Hx. apply (only_row 72 k the_evidence r) in Hk as ->; [|done]. injection Hx as <-. by eexists.
  - intros x Hk Hx. apply (only_row 71 k the_chunk r) in Hk as ->; [|done]. injection Hx as <-. by eexists.
  - intros x Hk Hx. apply (only_row 40 k (new_membership 40 10 20 2 {[ "sales"%py ]} "general" 0) r) in Hk as ->;
      [|done]. injection Hx as <-. by eexists.
  - intros x Hk Hx. apply (only_row 60 k the_notice r) in Hk as ->; [|done]. injection Hx as <-. by eexists.
  - by intros Hk.
Qed.

Definition example_bucket : BucketPort :=
  {| put_object k _ _ := ret k; get_object _ := ret []; list_objects _ := ret ["a"%py];
     delete_object _ := ret tt |}.
Definition example_lane : TenantOffboardingLane :=
  {| ol_catalog := platform_catalog; artifacts := example_bucket; exports := example_bucket;
     attachments := example_bucket; vector_index _ := ret tt; memory_vectors := None; dumps _ := ""%py;
     zip _ := []; stamp _ := "20261001T000000Z"%py |}.

Lemma example_lane_apart : apart example_lane.
Proof. split; [split..| |]; by repeat intro. Qed.

Definition leaving_world (requests : list OffboardingRow) : World := example_world (leaving requests) 1000.

Lemma purge_exact_witness :
  let w := leaving_world [leaving_request 80 OB_purging] in
  (purge_rows platform_catalog 10 w).1 = Ok tt ∧
  t_documents (t_mem (db (purge_rows platform_catalog 10 w).2)) = ∅ ∧
  is_ok (delete_tables 10 [chunks_entry] w).1 = false.
Proof.
  intros w. rewrite (purge_exact 10 w (leaving_contained _) eq_refl). split_and!; by vm_compute.
Defined.

Lemma notifications_leave_unexported_witness :
  let w := leaving_world [leaving_request 80 OB_purging] in
  (∃ n, t_notifications (t_chan (db w)) !! 60%N = Some n ∧ nt_tenant_id n = 10%N) ∧
  (∀ t n, t ∈ exported_table 10 (db w) <$> exported_entries → X_notification n ∉ xt_rows t) ∧
  (∀ k n, t_notifications (t_chan (db (purge_rows platform_catalog 10 w).2)) !! k = Some n → nt_tenant_id n ≠ 10%N).
Proof.
  intros w. split; [by eexists|].
  exact (notifications_leave_unexported 10 w _ w eq_refl (leaving_contained _) eq_refl (export_run 10 w eq_refl)).
Defined.

Lemma export_precedes_purge_witness :
  let w := leaving_world [leaving_request 80 OB_exporting] in
  business (db (run example_lane 10 w).2) = business (db w) ∨
  ∃ tables key, export_rows platform_catalog 10 w = (Ok tables, w) ∧ bundled example_lane 10 tables key.
Proof.
  intros w. exact (export_precedes_purge example_lane example_lane_apart 10 w _ _ eq_refl
                     (surjective_pairing (run example_lane 10 w))).
Defined.

Lemma second_request_never_purges_witness :
  let w := leaving_world [leaving_request 80 OB_failed; leaving_request 81 OB_exporting] in
  ∃ e w1, run example_lane 10 w = (Raise e, w1) ∧ db w1 = db w ∧
  (is_cancelled e = false →
   ∃ w2, offboard_each example_lane [10%N] w = (Ok tt, w2) ∧ business (db w2) = business (db w) ∧
     ∀ k r, requests_of (db w2) !! k = Some r → of_tenant_id r = 10%N → of_status r = OB_failed).
Proof.
  intros w. exact (second_request_never_purges example_lane example_lane_apart 10 80 81
    (leaving_request 80 OB_failed) (leaving_request 81 OB_exporting) w eq_refl eq_refl
    ltac:(done) eq_refl eq_refl eq_refl eq_refl).
Defined.



Lemma claim_is_exclusive_witness :
  let w := leaving_world [leaving_request 80 OB_requested] in
  (claim_requested w).1 = Ok [10%N] ∧
  ∀ ts' w2, claim_requested (at_time (1000 + minutes 29) (claim_requested w).2) = (Ok ts', w2) → 10%N ∉ ts'.
Proof.
  intros w. split; [by vm_compute|]. intros ts' w2 H.
  apply (claim_is_exclusive w [10%N] (claim_requested w).2 (1000 + minutes 29) ts' w2 10 eq_refl);
    [reflexivity|by vm_compute|exact H|by left].
Defined.
