(* ===== verification/ApprovalLife.v ===== *)
(** * The life of an approval request and of its decision

    The database over any history: requests raised by the runner and by the memory
    service, decisions attempted by anyone, tenants purged, and whatever else leaves
    the two tables alone. *)

From S2P Require Import Prelude Errors Kernel Domain Contracts Accounts MemoryPolicy ChannelRows Store.
From S2P Require Import RunStore ApprovalFlow ApprovalCodes Memory MemoryWrites Runner Provisioning Offboarding OffboardingLaws.
Local Open Scope prog_scope.
Local Open Scope pystr_scope.

(** ** Raising a request *)

(** Decisions stay as they are, requests too, and a request that appears is
    pending under its own id. *)
Record raises (d d' : Db) : Prop := {
  rs_decisions : t_decisions d' = t_decisions d;
  rs_kept : ∀ k r, t_approvals d !! k = Some r → t_approvals d' !! k = Some r;
  rs_new : ∀ k r, t_approvals d' !! k = Some r →
    t_approvals d !! k = Some r ∨ t_approvals d !! k = None ∧ ar_id r = k ∧ ar_status r = PENDING }.

#[export] Instance raises_preorder : PreOrder raises.
Proof.
  split; [intros d; split; auto|]. intros d1 d2 d3 [Hd Hk Hn] [Hd' Hk' Hn']. split; [congruence|auto|].
  intros k r [Hr|(Hr & ?)]%Hn'; [by apply Hn|]. right. split_and!; [|tauto..].
  destruct (t_approvals d1 !! k) as [r1|] eqn:E; [|done]. apply Hk in E. congruence.
Qed.

(** What a statement or a sequence of them does to the open transaction. *)
Definition adds : relation World := λ w w', raises (db w) (db w').

#[export] Instance adds_preorder : PreOrder adds.
Proof. unfold adds. split; [intros w; reflexivity|]. intros w1 w2 w3. apply transitivity. Qed.

Lemma raises_same d d' :
  t_approvals d' = t_approvals d → t_decisions d' = t_decisions d → raises d d'.
Proof. intros Ea Ed. split; [done|by rewrite Ea..|]. intros k r. rewrite Ea. auto. Qed.

Section Elsewhere.
Context {R K : Type} `{SqlTable R K}.
Context (Ha : ∀ t d, t_approvals (set_tbl (R := R) t d) = t_approvals d).
Context (Hd : ∀ t d, t_decisions (set_tbl (R := R) t d) = t_decisions d).

(** Statements on any other table. *)
Lemma adds_insert tenant (r : R) : respects adds (sql_insert tenant r).
Proof.
  intros w. apply raises_same;
    [exact (sql_insert_frame _ Ha tenant r w)|exact (sql_insert_frame _ Hd tenant r w)].
Qed.
Lemma adds_update tenant (p : R → bool) g : respects adds (sql_update tenant p g).
Proof.
  intros w. apply raises_same;
    [exact (sql_update_frame _ Ha tenant p g w)|exact (sql_update_frame _ Hd tenant p g w)].
Qed.
Lemma adds_insert_all tenant (l : list R) : respects adds (insert_all tenant l).
Proof. induction l; simpl; respects_auto. apply adds_insert. Qed.
End Elsewhere.

#[export] Hint Extern 1 (respects adds (sql_insert _ _)) => by apply adds_insert : respects.
#[export] Hint Extern 1 (respects adds (sql_update _ _ _)) => by apply adds_update : respects.
#[export] Hint Extern 1 (respects adds (insert_all _ _)) => by apply adds_insert_all : respects.

Lemma adds_uuid : respects adds new_uuid.
Proof. intros w. by apply raises_same. Qed.
Lemma adds_now : respects adds now_utc.
Proof. intros w. by apply raises_same. Qed.

(** [SqlApprovalRepository.add], of a pending request. *)
Lemma adds_request tenant r : ar_status r = PENDING → respects adds (approvals_add tenant r).
Proof.
  intros Hr w. unfold approvals_add, bind, get_state.
  destruct (sql_insert tenant _ w) as [[[]|e] w'] eqn:E; simpl.
  2: { apply sql_insert_raise in E as ->. apply raises_same; reflexivity. }
  apply sql_insert_ok in E as (_ & Hk & _ & ->). simpl in *. split; simpl; [done|..].
  - intros k r0 Hr0. rewrite lookup_insert_ne; [done|]. intros <-. congruence.
  - intros k r0 [[<- <-]|[_ ?]]%lookup_insert_Some; [right|by left]. by split_and!.
Qed.
#[export] Hint Resolve adds_uuid adds_now : respects.

(** The runner's request, when a graph parks. *)
Lemma adds_scope v : respects adds (stamped_scope v).
Proof. unfold stamped_scope. respects_auto. Qed.

(** The memory service's, with the proposal it is about. *)
Lemma adds_undone {A} (m : Prog A) : respects adds (undone m).
Proof. intros w. unfold undone. destruct (m w) as [r w']. apply raises_same; reflexivity. Qed.
Lemma adds_record refs tenant workspace : respects adds (record refs tenant workspace).
Proof. unfold record. respects_auto. Qed.
#[export] Hint Resolve adds_scope adds_request adds_undone adds_record : respects.

Lemma adds_proposal svc candidate context outcome id run item now :
  respects adds (write_proposal svc candidate context outcome id run item now).
Proof.
  unfold write_proposal, _store_item, _open_review, append_event, _verify_evidence,
    _close_superseded, audit_append. respects_auto.
Qed.

(** ** Steps *)

(** One step: a transaction that may raise requests, a decision attempted by
    anyone through any service, or the purge of a tenant; the label is the tenant
    a purge was run for. *)
Inductive approval_step : option uuid → World → World → Prop :=
  | step_raise w w' :
      (clean w → clean w') → raises (db w) (db w') → approval_step None w w'
  | step_decide svc authorization context id approve comment channel admission w :
      admission_ok admission →
      approval_step None w
        (decide_in_uow svc authorization context id approve comment channel admission w).2
  | step_purge tenant w :
      approval_step (Some tenant) w (purge_rows platform_catalog tenant w).2.

(** A history, with the tenants purged on the way. *)
Inductive approval_steps : list uuid → World → World → Prop :=
  | steps_refl w : approval_steps [] w w
  | steps_l o gone w1 w2 w3 :
      approval_step o w1 w2 → approval_steps gone w2 w3 →
      approval_steps (option_list o ++ gone) w1 w3.

(** The program's own writers of requests are such steps. *)
Lemma create_approval_step str_of rc run_id payload w :
  clean w → approval_step None w (_create_approval str_of rc run_id payload w).2.
Proof.
  intros Hc. unfold _create_approval, bind at 1, new_uuid. cbn beta iota zeta.
  set (id := ids w (ids_issued w)).
  set (w1 := MkWorld (db w) (saved w) (db_now w) (utc w) (utc_reads w) (ids w) (S (ids_issued w)) (effects w)).
  set (body := (let! scope := _ in _)%prog).
  assert (∀ e s, body w1 = (Raise e, s) → saved s = saved w) as Hs.
  { intros e s E. assert (respects same_saved (stamped_scope (payload !! "required_scope"%py))) as Hf
      by (unfold stamped_scope; respects_auto).
    apply bind_raise in E as [E|(scope & s1 & E & E')]; pose proof (Hf w1) as Hf1; rewrite E in Hf1; [done|].
    apply bind_raise in E' as [E'|([] & s2 & _ & E')]; [|discriminate E'].
    assert (respects same_saved (approvals_add (rc_tenant_id rc) (approval_of str_of rc run_id payload scope id)))
      as Ha by (unfold approvals_add; respects_auto).
    specialize (Ha s1). rewrite E' in Ha. unfold same_saved in *. simpl in *. congruence. }
  destruct (unit_of_work body w1) as [[a|e] w'] eqn:E; simpl.
  - apply unit_of_work_ok in E as (s & E & ->).
    apply bind_ok in E as (scope & s1 & E1 & E). apply bind_ok in E as ([] & s2 & E2 & E).
    injection E as _ <-. pose proof (adds_scope (payload !! "required_scope"%py) w1) as H1.
    pose proof (adds_request (rc_tenant_id rc) (approval_of str_of rc run_id payload scope id) eq_refl s1) as H2.
    rewrite E1 in H1. rewrite E2 in H2. apply step_raise; [done|]. unfold adds in *. simpl in *. by etrans.
  - apply unit_of_work_raise in E as [Ed Es]; [|done|exact Hs].
    apply step_raise; [intros _; unfold clean in *; by rewrite Ed, Es|]. rewrite Ed. by apply raises_same.
Qed.

Lemma session_step {A} (m : Prog A) w :
  clean w → respects adds m → respects same_saved m → approval_step None w (session_begin m w).2.
Proof.
  intros Hc Hm Hs. destruct (session_begin_rel raises m w Hc (Hm w) Hs) as [Hc' Hr].
  by apply step_raise.
Qed.

(** ** The purge *)

(** A delete that leaves both tables alone. *)
Definition two (w w' : World) : Prop :=
  t_approvals (db w') = t_approvals (db w) ∧ t_decisions (db w') = t_decisions (db w).

#[export] Instance two_preorder : PreOrder two.
Proof. unfold two. split; [by intros w|]. intros w1 w2 w3 [-> ->] [-> ->]. done. Qed.

Lemma catalog_apart {R K} `{SqlTable R K} schema name deletable policy row restricted cascade tenant :
  (∀ t d, t_approvals (set_tbl (R := R) t d) = t_approvals d ∧
          t_decisions (set_tbl (R := R) t d) = t_decisions d) →
  (∀ gone d, t_approvals (cascade gone d) = t_approvals d ∧
             t_decisions (cascade gone d) = t_decisions d) →
  respects two (ct_delete (catalog_table (R := R) schema name deletable policy row restricted cascade) tenant).
Proof.
  intros Ht Hk w. simpl. unfold bind, get_state, raise, ret, sql_delete, modify.
  destruct (restricted _ _); simpl; [done|]. unfold two. simpl.
  destruct (Hk (tenant_rows tenant (db w)) (set_tbl (filter (λ kv, visible tenant (λ _, true) kv.2 = false)
    (tbl (db w))) (db w))) as [-> ->]. apply Ht.
Qed.

Definition before_decisions : list CatalogTable := take 7 purged_entries.
Definition after_approvals : list CatalogTable := drop 9 purged_entries.

Lemma parts_apart tenant :
  Forall (λ t, respects two (ct_delete t tenant)) (before_decisions ++ after_approvals).
Proof. repeat (constructor; [by apply catalog_apart|]). constructor. Qed.

Lemma delete_tables_cons tenant t l :
  delete_tables tenant (t :: l) = (ct_delete t tenant ;;; delete_tables tenant l)%prog.
Proof. reflexivity. Qed.

Lemma delete_apart tenant l :
  Forall (λ t, respects two (ct_delete t tenant)) l → respects two (delete_tables tenant l).
Proof.
  induction 1 as [|t l Ht _ IH]; [by intros w|]. rewrite delete_tables_cons.
  apply respects_bind; [apply _|done|by intros _].
Qed.

Lemma delete_tables_app tenant l1 l2 w :
  delete_tables tenant (l1 ++ l2) w = (delete_tables tenant l1 ;;; delete_tables tenant l2)%prog w.
Proof.
  revert w. induction l1 as [|t l1 IH]; intros w; [done|]. cbn [app].
  rewrite !delete_tables_cons, bind_assoc. unfold bind at 1 2.
  destruct (ct_delete t tenant w) as [[[]|e] s]; [apply IH|done].
Qed.

(** What a purge leaves of the two tables: nothing of the tenant's, and of the
    rest all but the decisions on the tenant's requests. *)
Record purged_of (tenant : uuid) (d d' : Db) : Prop := {
  pg_approvals : t_approvals d' = others tenant (t_approvals d);
  pg_decisions : ∀ k x, t_decisions d' !! k = Some x ↔
    t_decisions d !! k = Some x ∧ ad_tenant_id x ≠ tenant ∧
    tenant_rows (R := ApprovalRequest) tenant d !! ad_request_id x = None }.

Lemma delete_both tenant w :
  ∃ d', delete_tables tenant [decisions_entry; approvals_entry] w = (Ok tt, set_db d' w) ∧
        purged_of tenant (db w) d'.
Proof.
  eexists. split.
  - unfold decisions_entry, plain_table. erewrite delete_step by (apply table_delete; done).
    unfold approvals_entry. erewrite delete_step by (apply table_delete; done). reflexivity.
  - destruct w as [[] ? ? ? ? ? ? ?]. simpl.
    unfold approvals_cascade, receipts_gone, unreferring, tenant_rows. simpl. split; simpl; [done|].
    intros k x. rewrite map_lookup_filter_Some, lookup_others. simpl. tauto.
Qed.

Lemma purge_tables tenant w u w' :
  delete_tables tenant purged_entries w = (Ok u, w') → purged_of tenant (db w) (db w').
Proof.
  change purged_entries with (before_decisions ++ [decisions_entry; approvals_entry] ++ after_approvals).
  rewrite delete_tables_app. intros (u1 & w1 & H1 & H)%bind_ok.
  rewrite delete_tables_app in H. apply bind_ok in H as (u2 & w2 & H2 & H3).
  pose proof (parts_apart tenant) as [Hb Ha]%Forall_app.
  pose proof (delete_apart tenant _ Hb w) as [Ea Ed]. rewrite H1 in Ea, Ed. simpl in Ea, Ed.
  destruct (delete_both tenant w1) as (d' & E & [Pa Pd]). rewrite H2 in E. injection E as _ ->.
  pose proof (delete_apart tenant _ Ha (set_db d' w1)) as [Ea' Ed']. rewrite H3 in Ea', Ed'. simpl in *.
  split; [by rewrite Ea', Pa, Ea|]. intros k x. rewrite Ed', Pd. unfold tenant_rows. simpl. by rewrite Ed, Ea.
Qed.

Lemma delete_tables_saved tenant l : Forall (λ t, respects same_saved (ct_delete t tenant)) l →
  respects same_saved (delete_tables tenant l).
Proof.
  induction 1 as [|t l Ht _ IH]; [by intros w|]. rewrite delete_tables_cons.
  apply respects_bind; [apply _|done|by intros _].
Qed.

Lemma catalog_saved {R K} `{SqlTable R K} schema name deletable policy row restricted cascade tenant :
  respects same_saved
    (ct_delete (catalog_table (R := R) schema name deletable policy row restricted cascade) tenant).
Proof.
  intros w. simpl. unfold bind, get_state, raise, ret, sql_delete, modify.
  by destruct (restricted _ _).
Qed.

Lemma purge_audit_read {A} (f : Db → A) tenant :
  (∀ t d, f (set_tbl (R := AuditEvent) t d) = f d) → respects (same_read f) (_record_purge_audit tenant).
Proof.
  intros Hf w. unfold _record_purge_audit, bind at 1, get_state.
  destruct (head _) as [ws|]; [|done]. destruct (latest_request tenant (db w)); [|done].
  unfold bind, new_uuid. cbn beta iota zeta.
  match goal with |- same_read _ _ (sql_insert _ ?e ?x).2 => set (ev := e); set (w1 := x) end.
  exact (sql_insert_frame (R := AuditEvent) (K := uuid * Z) f Hf tenant ev w1).
Qed.

Lemma purge_audit_two tenant : respects two (_record_purge_audit tenant).
Proof. intros w. split; by apply (purge_audit_read _ tenant). Qed.

Lemma purge_audit_saved tenant : respects same_saved (_record_purge_audit tenant).
Proof. unfold _record_purge_audit. respects_auto. Qed.

(** A purge of any database, refused or not. *)
Lemma purge_run tenant w r w' :
  clean w → purge_rows platform_catalog tenant w = (r, w') →
  clean w' ∧ (is_ok r = true → purged_of tenant (db w) (db w')) ∧ (is_ok r = false → db w' = db w).
Proof.
  intros Hc E. unfold purge_rows in E. rewrite purge_order_entries in E.
  set (m := (_record_purge_audit tenant ;;; delete_all platform_catalog tenant (ct_key <$> purged_entries))%prog) in E.
  assert (∀ x, m x = (_record_purge_audit tenant ;;; delete_tables tenant purged_entries)%prog x) as Em.
  { intros x. unfold m, bind. destruct (_record_purge_audit tenant x) as [[u|e] s]; [|done].
    apply delete_named, named_entries. }
  assert (respects same_saved m) as Hs.
  { intros x. rewrite Em. apply respects_bind; [apply _|apply purge_audit_saved|]. intros _.
    apply delete_tables_saved. repeat (constructor; [apply catalog_saved|]). constructor. }
  destruct r as [[]|e]; simpl; (split; [|split; [intros Hok|intros Hok]]); try discriminate Hok.
  - by apply session_begin_ok in E as (s & _ & ->).
  - apply session_begin_ok in E as (s & E & ->). rewrite Em in E.
    apply bind_ok in E as ([] & s1 & E1 & E2). pose proof (purge_audit_two tenant w) as [Ea Ed].
    rewrite E1 in Ea, Ed. simpl in *. destruct (purge_tables _ _ _ _ E2) as [Pa Pd].
    split; [by rewrite Pa, Ea|]. intros k x. rewrite Pd. unfold tenant_rows. simpl. by rewrite Ed, Ea.
  - by destruct (session_begin_undone _ _ _ _ Hs Hc E).
  - by destruct (session_begin_undone _ _ _ _ Hs Hc E).
Qed.

(** *** What it takes of the decision codes *)

Definition fewer_codes : relation World := λ w w', t_codes (db w') ⊆ t_codes (db w).

#[export] Instance fewer_codes_preorder : PreOrder fewer_codes.
Proof. unfold fewer_codes. split; [by intros w|]. intros w1 w2 w3. intros H1 H2. by etrans. Qed.

Lemma catalog_codes {R K} `{SqlTable R K} schema name deletable policy row restricted cascade tenant :
  (∀ (p : K * R → Prop) `{!∀ x, Decision (p x)} d, t_codes (set_tbl (filter p (tbl (R := R) d)) d) ⊆ t_codes d) →
  (∀ gone d, t_codes (cascade gone d) ⊆ t_codes d) →
  respects fewer_codes
    (ct_delete (catalog_table (R := R) schema name deletable policy row restricted cascade) tenant).
Proof.
  intros Ht Hk w. simpl. unfold bind, get_state, raise, ret, sql_delete, modify.
  destruct (restricted _ _); simpl; [done|]. unfold fewer_codes. simpl. etrans; [apply Hk|]. simpl. apply Ht.
Qed.

Lemma purge_codes tenant : respects fewer_codes (delete_tables tenant purged_entries).
Proof.
  assert (Forall (λ t, respects fewer_codes (ct_delete t tenant)) purged_entries) as Hall.
  { repeat (constructor; [apply catalog_codes; intros; first [done|apply map_filter_subseteq|intros i; cbn; apply map_filter_subseteq]|]).
   
    constructor. }
  induction Hall as [|t l Ht _ IH]; [by intros w|]. rewrite delete_tables_cons.
  apply respects_bind; [apply _|done|by intros _].
Qed.

(** A purge is a step of every history of the codes. *)
Lemma purge_code_step fresh tenant w :
  clean w → code_step fresh w (purge_rows platform_catalog tenant w).2.
Proof.
  intros Hc. destruct (purge_rows platform_catalog tenant w) as [r w'] eqn:E.
  destruct (purge_run _ _ _ _ Hc E) as (Hc' & _ & Hno). apply step_elsewhere; [done|]. simpl.
  destruct r as [[]|e]; [|by rewrite Hno]. clear Hno. unfold purge_rows in E.
  rewrite purge_order_entries in E. apply session_begin_ok in E as (s & E & ->).
  apply bind_ok in E as ([] & s1 & E1 & E2). rewrite delete_named in E2 by apply named_entries.
  pose proof (purge_codes tenant s1) as H2. rewrite E2 in H2. unfold fewer_codes in H2. simpl in *.
  etrans; [exact H2|]. assert (same_read t_codes w s1) as Hr; [|by rewrite Hr].
  pose proof (purge_audit_read t_codes tenant (λ _ _, eq_refl) w) as Ha. by rewrite E1 in Ha.
Qed.

(** ** The invariant *)

(** Every decision is of a request of its tenant that is no longer pending and
    records its outcome; no request has two. *)
Record approvals_inv (w : World) : Prop := {
  ai_clean : clean w;
  ai_keyed : keyed (t_approvals (db w));
  ai_decided : ∀ k d, t_decisions (db w) !! k = Some d →
    ∃ r, t_approvals (db w) !! ad_request_id d = Some r ∧ ar_tenant_id r = ad_tenant_id d ∧
         ar_status r = match ad_outcome d with OUTCOME_APPROVED => APPROVED | _ => REJECTED end;
  ai_once : ∀ k1 k2 d1 d2, t_decisions (db w) !! k1 = Some d1 → t_decisions (db w) !! k2 = Some d2 →
    ad_request_id d1 = ad_request_id d2 → k1 = k2 }.

(** What a step keeps, but for the tenants purged: decisions, and the row of a
    decided request. *)
Definition keeps_but (gone : list uuid) (w w' : World) : Prop :=
  (∀ k d, t_decisions (db w) !! k = Some d → ad_tenant_id d ∉ gone →
          t_decisions (db w') !! k = Some d) ∧
  (∀ k r, t_approvals (db w) !! k = Some r → ar_status r ≠ PENDING → ar_tenant_id r ∉ gone →
          t_approvals (db w') !! k = Some r).

Lemma keeps_but_app g1 g2 w1 w2 w3 :
  keeps_but g1 w1 w2 → keeps_but g2 w2 w3 → keeps_but (g1 ++ g2) w1 w3.
Proof.
  intros [Hd1 Ha1] [Hd2 Ha2]. split.
  - intros k d Hk [H1 H2]%not_elem_of_app. auto.
  - intros k r Hk Hn [H1 H2]%not_elem_of_app. auto.
Qed.

Lemma raises_inv w w' :
  approvals_inv w → clean w' → raises (db w) (db w') → approvals_inv w' ∧ keeps_but [] w w'.
Proof.
  intros [Hc Hk Hd Ho] Hc' [Rd Rk Rn]. split; [split; rewrite ?Rd; try done|split].
  - intros k r [Hr|(_ & Hr & _)]%Rn; [by apply (Hk _ _ Hr)|done].
  - intros k d (r & Hr & ?)%Hd. eauto.
  - rewrite Rd. auto.
  - auto.
Qed.

Lemma request_decide_tenant id by_ o at_ cm ch r r' d :
  request_decide id by_ o at_ cm ch r = Ok (r', d) → ar_tenant_id r' = ar_tenant_id r.
Proof. unfold request_decide. destruct (require_pending r); [|done]. by intros [= <- _]. Qed.

Lemma decide_inv svc authorization context id approve comment channel admission w :
  approvals_inv w → admission_ok admission →
  let w' := (decide_in_uow svc authorization context id approve comment channel admission w).2 in
  approvals_inv w' ∧ keeps_but [] w w'.
Proof.
  intros Hi Ha. pose proof Hi as [Hc Hk Hd Ho]. cbv zeta.
  destruct (decide_in_uow _ _ _ _ _ _ _ _ w) as [[[r' record]|e] w'] eqn:E; simpl.
  - apply decide_in_uow_ok in E as (r & ad & w1 & w2 & Hs & Hp & Hadm & Hw & ->).
    assert (t_approvals (db w1) = t_approvals (db w) ∧ t_decisions (db w1) = t_decisions (db w))
      as [Ea Ed].
    { destruct admission as [adm|]; simpl in Hadm; [|by destruct Hadm as [_ ->]].
      destruct Hadm as (m & Hm & _). destruct (Ha adm r context w eq_refl) as [codes Hcodes].
      rewrite Hm in Hcodes. simpl in Hcodes. by rewrite Hcodes. }
    apply write_rows_ok in Hw; [|by rewrite Ea].
    destruct Hw as (d & row & Hdec & Hrow & _ & _ & _ & _ & Hfresh & _ & _ & ->).
    pose proof (request_decide_ok _ _ _ _ _ _ _ _ _ Hdec) as (Hpend & Hnp & _ & Hid & Hreq & Hout & _).
    pose proof (request_decide_run _ _ _ _ _ _ _ _ _ Hdec) as (_ & Hdid & Hdt & Hst).
    pose proof (request_decide_tenant _ _ _ _ _ _ _ _ _ Hdec) as Hrt.
    pose proof (save_columns_decided _ _ _ _ _ _ _ _ _ Hdec) as Hsave.
    destruct Hs as (Hl & _). assert (ar_id r = id) as Hrid by apply (Hk _ _ Hl).
    rewrite Ea, Hrid in Hrow. assert (row = r) as -> by congruence.
    rewrite Ed in Hfresh. rewrite <- Hdid in Hfresh.
    assert (∀ k d', t_decisions (db w) !! k = Some d' → ad_request_id d' ≠ id) as Hnodec.
    { intros k d' Hkd <-. destruct (Hd k d' Hkd) as (r0 & Hr0 & _ & Hst0).
      assert (r0 = r) as -> by congruence. rewrite Hpend in Hst0. by destruct (ad_outcome d'). }
    split; [split|split]; simpl; rewrite ?Ea, ?Ed, ?Hsave; [done|..].
    + rewrite Hid, Hrid. intros k r0. rewrite lookup_insert_Some.
      intros [[<- <-]|[_ Hl0]]; [simpl; congruence|exact (Hk _ _ Hl0)].
    + intros k d'. rewrite lookup_insert_Some. intros [[<- <-]|[_ Hkd]].
      * exists r'. rewrite Hreq, Hid, lookup_insert_eq. by rewrite Hout, Hst, Hrt, Hdt.
      * destruct (Hd k d' Hkd) as (r0 & Hr0 & ?). exists r0. split; [|done].
        rewrite lookup_insert_ne; [done|]. rewrite Hid, Hrid. by apply not_eq_sym, (Hnodec k).
    + intros k1 k2 d1 d2. rewrite !lookup_insert_Some.
      intros [[<- <-]|[_ H1]] [[<- <-]|[_ H2]] Heq; [done|..].
      * destruct (Hnodec _ _ H2). congruence.
      * destruct (Hnodec _ _ H1). congruence.
      * by apply (Ho k1 k2 d1 d2).
    + intros k d' Hkd _. rewrite lookup_insert_ne by congruence. done.
    + intros k r0 Hr0 Hn0 _. rewrite lookup_insert_ne; [done|]. intros <-. rewrite Hid, Hrid in Hr0.
      congruence.
  - apply decide_in_uow_raise in E as [Hdb Hsv]; [|done..].
    apply raises_inv; [done|unfold clean in *; congruence|]. rewrite Hdb. by apply raises_same.
Qed.

Lemma purge_inv tenant w :
  approvals_inv w →
  let w' := (purge_rows platform_catalog tenant w).2 in approvals_inv w' ∧ keeps_but [tenant] w w'.
Proof.
  intros Hi. pose proof Hi as [Hc Hk Hd Ho]. cbv zeta.
  destruct (purge_rows platform_catalog tenant w) as [r w'] eqn:E; simpl.
  destruct (purge_run _ _ _ _ Hc E) as (Hc' & Hok & Hno).
  destruct (is_ok r); [destruct (Hok eq_refl) as [Pa Pd]|specialize (Hno eq_refl)].
  - split; [split|split]; [done|..].
    + intros k x. rewrite Pa. intros [Hx _]%lookup_others. by apply (Hk _ _ Hx).
    + intros k x (Hx & Ht & _)%Pd. destruct (Hd _ _ Hx) as (r0 & Hr0 & Et & Hst).
      exists r0. split; [|done]. rewrite Pa. apply lookup_others. split; [done|].
      change (row_tenant r0) with (ar_tenant_id r0). congruence.
    + intros k1 k2 d1 d2 (H1 & _)%Pd (H2 & _)%Pd. by apply (Ho k1 k2).
    + intros k x Hx Hn%not_elem_of_cons. apply Pd. split_and!; [done|tauto|].
      destruct (Hd _ _ Hx) as (r0 & Hr0 & Et & _). apply map_lookup_filter_None. right.
      intros y Hy E'. change (tbl (db w)) with (t_approvals (db w)) in Hy. simpl in E'.
      assert (y = r0) as -> by congruence. destruct Hn as [Hn _]. apply Hn. congruence.
    + intros k x Hx _ Hn%not_elem_of_cons. rewrite Pa. apply lookup_others. split; [done|].
      change (row_tenant x) with (ar_tenant_id x). tauto.
  - assert (raises (db w) (db w')) as Hr by (rewrite Hno; by apply raises_same).
    destruct (raises_inv w w' Hi Hc' Hr) as [Hi' [Hd' Ha']]. split; [done|]. split.
    + intros k x Hx _. apply Hd'; [done|apply not_elem_of_nil].
    + intros k x Hx Hp _. apply Ha'; [done..|apply not_elem_of_nil].
Qed.

Lemma approval_step_inv o w w' :
  approval_step o w w' → approvals_inv w → approvals_inv w' ∧ keeps_but (option_list o) w w'.
Proof.
  intros Hs. destruct Hs as [w w' Hc Hr|? ? ? ? ? ? ? ? w Ha|tenant w]; intros Hi.
  - apply raises_inv; [done|apply Hc, Hi|done].
  - by apply decide_inv.
  - by apply purge_inv.
Qed.

Lemma approval_steps_inv gone w w' :
  approval_steps gone w w' → approvals_inv w → approvals_inv w' ∧ keeps_but gone w w'.
Proof.
  induction 1 as [w|o gone w1 w2 w3 Hs _ IH]; intros Hi; [by split; [|split]|].
  destruct (approval_step_inv _ _ _ Hs Hi) as [Hi1 Hk1]. destruct (IH Hi1) as [? ?].
  split; [done|by eapply keeps_but_app].
Qed.

(** ** Properties *)

(** C2: over any history of requests raised, decisions attempted by anyone through any
    service with any admission that writes codes alone, purges of tenants, and
    transactions that leave both tables alone, a request has at most one decision, of
    its own tenant, and its status records that outcome; a decision stays as it was
    taken, and so does the row of a decided request, unless their tenant is one of those
    purged. *)
Theorem approval_decided_once gone w w' :
  approvals_inv w → approval_steps gone w w' →
  (∀ k1 k2 d1 d2, t_decisions (saved w') !! k1 = Some d1 → t_decisions (saved w') !! k2 = Some d2 →
     ad_request_id d1 = ad_request_id d2 → k1 = k2) ∧
  (∀ k d, t_decisions (saved w') !! k = Some d →
     ∃ r, t_approvals (saved w') !! ad_request_id d = Some r ∧ ar_tenant_id r = ad_tenant_id d ∧
          ar_status r = match ad_outcome d with OUTCOME_APPROVED => APPROVED | _ => REJECTED end) ∧
  (∀ k d, t_decisions (saved w) !! k = Some d → ad_tenant_id d ∉ gone →
     t_decisions (saved w') !! k = Some d) ∧
  (∀ k r, t_approvals (saved w) !! k = Some r → ar_status r ≠ PENDING → ar_tenant_id r ∉ gone →
     t_approvals (saved w') !! k = Some r).
Proof.
  intros Hi Hs. destruct (approval_steps_inv _ _ _ Hs Hi) as [[Hc' _ Hd' Ho'] [Hkd Hka]].
  destruct Hi as [Hc _ _ _]. unfold clean in *. rewrite Hc, Hc'. by split_and!.
Qed.

Lemma example_approvals_inv run : approvals_inv (example_pending run).
Proof.
  split; [reflexivity|apply example_keyed|..].
  - intros k d H. simpl in H. by rewrite lookup_empty in H.
  - intros k1 k2 d1 d2 H. simpl in H. by rewrite lookup_empty in H.
Defined.

(** Two attempts in a row and the purge of another tenant: one decision in the
    end; after the purge of its own tenant, none. *)
Lemma approval_decided_once_witness :
  let decided := (example_decide None (example_decide None (example_pending None)).2).2 in
  let w' := (purge_rows platform_catalog 9 decided).2 in
  size (t_decisions (saved w')) = 1%nat ∧
  size (t_decisions (saved (purge_rows platform_catalog 1 w').2)) = 0%nat ∧
  ∀ k d, t_decisions (saved w') !! k = Some d →
    ∃ r, t_approvals (saved w') !! ad_request_id d = Some r ∧ ar_tenant_id r = ad_tenant_id d ∧
         ar_status r = match ad_outcome d with OUTCOME_APPROVED => APPROVED | _ => REJECTED end.
Proof.
  intros decided w'. split; [vm_compute; reflexivity|]. split; [vm_compute; reflexivity|].
  apply (approval_decided_once [9%N] (example_pending None) w' (example_approvals_inv None)).
  apply (steps_l None [9%N] _ (example_decide None (example_pending None)).2);
    [apply step_decide, no_admission_ok|].
  apply (steps_l None [9%N] _ decided); [apply step_decide, no_admission_ok|].
  apply (steps_l (Some 9%N) [] _ w'); [apply step_purge|apply steps_refl].
Defined.
