(* ===== verification/Knowledge.v ===== *)
(** * The knowledge gateway

    [dw_knowledge]: the ids of documents and chunks ([identity.py]), the vector
    index as the gateway sees it ([ports.py]) with the in-memory adapter
    ([memory_index.py]), and the gateway itself ([gateway.py]): ingestion, listing,
    full reads, soft deletion and retrieval.  Object storage, embeddings and the
    reranker are computations of the state. *)

From Stdlib Require Import Floats.SpecFloat.
From S2P Require Import Prelude Errors Kernel Domain Contracts MemoryPolicy Store Chunking Pagination Memory ModelBudget Prompts.
Local Open Scope prog_scope.
Local Open Scope pystr_scope.

(** ** [identity.py] *)

Section Identity.
(** [uuid.uuid5] *)
Context (uuid5 : uuid → pystr → uuid).

Definition NAMESPACE : uuid := 0xb6d1e6a23c4f5a709b21000000000d20%N.

Definition _identity (title : pystr) (identity_key : option pystr) : pystr :=
  py_strip (match identity_key with Some k => if py_truthy k then k else title | None => title end).

(** What a document is known by. *)
Record DocumentName := {
  dn_tenant_id : uuid;
  dn_workspace_id : uuid;
  dn_domain : pystr;
  dn_title : pystr;
  dn_source_version : pystr;
  dn_scope : pystr;
  dn_identity_key : option pystr }.

(** The name an id is made of: its fields, between colons. *)
Definition document_fields (n : DocumentName) : list pystr :=
  let name := _identity (dn_title n) (dn_identity_key n) in
  if bool_decide (dn_scope n = "global")
  then ["doc"; "global"; dn_domain n; name; dn_source_version n]
  else ["doc"; dn_scope n; uuid_str (dn_tenant_id n); uuid_str (dn_workspace_id n); dn_domain n;
        name; dn_source_version n].

Definition doc_key_fields (n : DocumentName) : list pystr :=
  let name := _identity (dn_title n) (dn_identity_key n) in
  if bool_decide (dn_scope n = "global") then ["dockey"; "global"; dn_domain n; name]
  else ["dockey"; uuid_str (dn_tenant_id n); uuid_str (dn_workspace_id n); dn_domain n; name].

Definition document_id_for (n : DocumentName) : uuid := uuid5 NAMESPACE (py_join ":" (document_fields n)).
Definition doc_key_for (n : DocumentName) : uuid := uuid5 NAMESPACE (py_join ":" (doc_key_fields n)).
Definition chunk_id_for (document_id : uuid) (index_version : pystr) (seq : nat) : uuid :=
  uuid5 NAMESPACE (py_join ":" ["chunk"; uuid_str document_id; index_version;
                                PyStr (decimal_text (N.of_nat seq))]).
End Identity.

(** ** The vector index *)

Definition SHARED_DOMAIN : pystr := "shared".

Record TrustedSearchFilter := {
  tf_tenant_id : uuid;
  tf_workspace_id : uuid;
  tf_domain : pystr;
  tf_allowed_classifications : list pystr;
  tf_acl_principals : list pystr }.

Record IndexableChunk := {
  ix_chunk_id : uuid;
  ix_document_id : uuid;
  ix_tenant_id : uuid;
  ix_workspace_id : uuid;
  ix_domain : pystr;
  ix_content : pystr;
  ix_classification : pystr;
  ix_source_version : pystr;
  ix_index_version : pystr;
  ix_provenance_hash : pystr;
  ix_acl_principals : list pystr;
  ix_vector : list pyfloat;
  ix_section_path : pystr;
  ix_seq : nat;
  ix_scope : pystr;
  ix_extra_payload : list (pystr * pystr) }.

Record VectorHit := {
  vh_chunk_id : uuid;
  vh_document_id : uuid;
  vh_score : pyfloat;
  vh_content : pystr;
  vh_classification : pystr;
  vh_source_version : pystr;
  vh_provenance_hash : pystr }.

(** [VectorIndexPort] *)
Class VectorIndexPort (I : Type) := {
  vi_ensure_ready : Z → M I unit;
  vi_upsert : list IndexableChunk → M I unit;
  vi_delete_document : uuid → M I unit;
  vi_tombstone_document : uuid → M I unit;
  vi_delete_by_tenant : uuid → M I unit;
  vi_search : list pyfloat → TrustedSearchFilter → Z → list (pystr * pystr) → list uuid →
              M I (list VectorHit) }.

(** [dict(pairs)]: a later pair replaces an earlier one. *)
Definition dict_of {V} (pairs : list (pystr * V)) : gmap pystr V :=
  foldl (λ m kv, <[kv.1 := kv.2]> m) ∅ pairs.

(** Whether a filter lets a chunk through. *)
Definition admits (f : TrustedSearchFilter) (c : IndexableChunk) : bool :=
  ((bool_decide (ix_tenant_id c = tf_tenant_id f)
    && bool_decide (ix_workspace_id c = tf_workspace_id f))
   || bool_decide (ix_scope c = "global"))
  && bool_decide (ix_classification c ∈ tf_allowed_classifications f)
  && existsb (λ p, bool_decide (p ∈ tf_acl_principals f)) (ix_acl_principals c)
  && bool_decide (ix_domain c ∈ [tf_domain f; SHARED_DOMAIN]).

(** Whether it meets the caller's own narrowing. *)
Definition narrowed (extra_filters : list (pystr * pystr)) (document_ids : list uuid)
    (c : IndexableChunk) : bool :=
  forallb (λ kv, bool_decide (dict_of (ix_extra_payload c) !! kv.1 = Some kv.2)) extra_filters
  && (bool_decide (document_ids = []) || bool_decide (ix_document_id c ∈ document_ids)).

(** *** [memory_index.py] *)

Record MemoryIndex := {
  mi_chunks : list IndexableChunk;
  mi_tombstoned : gset uuid }.

(** [self._chunks[str(chunk.chunk_id)] = chunk]: in its place, or at the end. *)
Fixpoint put_point (c : IndexableChunk) (l : list IndexableChunk) : list IndexableChunk :=
  match l with
  | [] => [c]
  | x :: r => if bool_decide (ix_chunk_id x = ix_chunk_id c) then c :: r else x :: put_point c r
  end.

Definition hit_of (score : pyfloat) (c : IndexableChunk) : VectorHit :=
  {| vh_chunk_id := ix_chunk_id c; vh_document_id := ix_document_id c; vh_score := score;
     vh_content := ix_content c; vh_classification := ix_classification c;
     vh_source_version := ix_source_version c; vh_provenance_hash := ix_provenance_hash c |}.

(** [hits.sort(key=lambda h: -h.score)], which is stable. *)
Fixpoint insert_hit (h : VectorHit) (l : list VectorHit) : list VectorHit :=
  match l with
  | [] => [h]
  | x :: r => if SFltb (vh_score h) (vh_score x) then x :: insert_hit h r else h :: l
  end.
Definition best_first (l : list VectorHit) : list VectorHit := foldr insert_hit [] l.

Section MemoryIndex.
(** [sum] of floats and [math.sqrt]. *)
Context (py_sum : list pyfloat → pyfloat) (py_sqrt : pyfloat → pyfloat).

Definition _cosine (a b : list pyfloat) : pyfloat :=
  let dot := py_sum ((λ xy, fmul xy.1 xy.2) <$> zip a b) in
  let norm v := py_sqrt (py_sum ((λ x, fmul x x) <$> v)) in
  if SFeqb (norm a) float_zero || SFeqb (norm b) float_zero then float_zero
  else fdiv dot (fmul (norm a) (norm b)).

Definition memory_upsert (chunks : list IndexableChunk) : M MemoryIndex unit := modify (λ i,
  foldl (λ i c, {| mi_chunks := put_point c (mi_chunks i);
                   mi_tombstoned := mi_tombstoned i ∖ {[ ix_document_id c ]} |}) i chunks).

Definition memory_delete_document (document_id : uuid) : M MemoryIndex unit := modify (λ i,
  {| mi_chunks := filter (λ c, ix_document_id c ≠ document_id) (mi_chunks i);
     mi_tombstoned := mi_tombstoned i ∖ {[ document_id ]} |}).

Definition memory_tombstone_document (document_id : uuid) : M MemoryIndex unit := modify (λ i,
  {| mi_chunks := mi_chunks i; mi_tombstoned := {[ document_id ]} ∪ mi_tombstoned i |}).

Definition memory_delete_by_tenant (tenant_id : uuid) : M MemoryIndex unit := modify (λ i,
  {| mi_chunks := filter (λ c, ix_tenant_id c ≠ tenant_id) (mi_chunks i);
     mi_tombstoned := mi_tombstoned i |}).

Definition memory_search (vector : list pyfloat) (f : TrustedSearchFilter) (top_k : Z)
    (extra_filters : list (pystr * pystr)) (document_ids : list uuid)
    : M MemoryIndex (list VectorHit) := gets (λ i,
  let found := filter (λ c, ix_document_id c ∉ mi_tombstoned i ∧
    narrowed extra_filters document_ids c = true ∧ admits f c = true) (mi_chunks i) in
  take (Z.to_nat top_k) (best_first ((λ c, hit_of (_cosine vector (ix_vector c)) c) <$> found))).

#[export] Instance memory_index : VectorIndexPort MemoryIndex := {|
  vi_ensure_ready _ := ret tt;
  vi_upsert := memory_upsert;
  vi_delete_document := memory_delete_document;
  vi_tombstone_document := memory_tombstone_document;
  vi_delete_by_tenant := memory_delete_by_tenant;
  vi_search := memory_search |}.
End MemoryIndex.

(** ** [gateway.py] *)

Definition INDEX_VERSION : pystr := "2026-07-25.structure-1".
Definition GLOBAL_PUBLISH_SCOPE : pystr := "knowledge.publish_global".
Definition FULL_READ_CHARS : Z := 60000.

Definition SEARCH_FILTER_KEYS : list pystr :=
  ["account_id"; "attachment_scope"; "source_type"; "record_type"; "channel_id"; "url_hash"; "lang";
   "section_key"; "metric_code"; "filter_tag"; "tender_id"].

Record IngestDocumentCommand := {
  ic_title : pystr;
  ic_content : pystr;
  ic_identity_key : option pystr;
  ic_domain : pystr;
  ic_classification : pystr;
  ic_source_version : pystr;
  ic_content_type : pystr;
  ic_scope : pystr;
  ic_extra : list (pystr * pystr);
  ic_acl_principals : list pystr }.

(** The fields' lengths and [_extra_keys_are_whitelisted]. *)
Definition ingest_command_valid (c : IngestDocumentCommand) : bool :=
  py_truthy (ic_title c) && py_truthy (ic_content c)
  && match ic_identity_key c with Some k => py_truthy k | None => true end
  && forallb (λ kv, bool_decide (kv.1 ∈ SEARCH_FILTER_KEYS)) (ic_extra c).

Record IngestedDocument := {
  gd_document_id : uuid;
  gd_chunk_count : nat;
  gd_storage_key : pystr }.

Record DocumentInfo := {
  di_document_id : uuid;
  di_title : pystr;
  di_domain : pystr;
  di_classification : pystr;
  di_source_version : pystr;
  di_index_version : option pystr;
  di_chunk_count : nat;
  di_created_at : datetime;
  di_scope : pystr;
  di_extra : gmap pystr pystr }.

Record DocumentText := {
  dt_document_id : uuid;
  dt_title : pystr;
  dt_text : pystr;
  dt_chunk_count : nat;
  dt_truncated : bool }.

Record SearchQuery := {
  sq_text : pystr;
  sq_domain : pystr;
  sq_top_k : Z;
  sq_document_ids : list uuid;
  sq_min_relevance : pyfloat;
  sq_filters : list (pystr * pystr) }.

Record EvidenceChunk := {
  ec_content : pystr;
  ec_evidence : EvidenceRef }.

(** The principals of a caller, in the list, the full read and the filter. *)
Definition principals_of (context : AccessContext) : list pystr :=
  ["user:" +++ uuid_str (principal_id context); "tenant:*"]
  ++ ((λ role, "role:" +++ role) <$> py_sorted (elements (roles context))).

Definition build_trusted_filter (context : AccessContext) (domain : pystr) : TrustedSearchFilter :=
  {| tf_tenant_id := tenant_id context; tf_workspace_id := workspace_id context;
     tf_domain := domain;
     tf_allowed_classifications := classifications_for_clearance (clearance context);
     tf_acl_principals := principals_of context |}.

(** The contents that fit, whole. *)
Fixpoint kept_within (max_chars used : Z) (contents : list pystr) : list pystr :=
  match contents with
  | [] => []
  | c :: r => if (max_chars <? used + Z.of_nat (py_len c))%Z then []
              else c :: kept_within max_chars (used + Z.of_nat (py_len c)) r
  end.

Definition _joined (document_id : uuid) (title : pystr) (contents : list pystr) (max_chars : Z)
    : DocumentText :=
  let kept := kept_within max_chars 0 contents in
  {| dt_document_id := document_id; dt_title := title;
     dt_text := py_join (PyStr [10; 10]%N) kept; dt_chunk_count := length kept;
     dt_truncated := bool_decide (length kept < length contents) |}.

(** *** The statements of an ingestion *)

Section Rows.
Context (context : AccessContext).
Let tenant := tenant_id context.

(** [knowledge_global_read_documents] beside the tenant's own rows. *)
Definition rls_document (d : DocumentRow) : bool :=
  bool_decide (do_tenant_id d = tenant) || bool_decide (do_scope d = "global").

(** What the listing and the full read ask of a document. *)
Definition readable_document (d : DocumentRow) : bool :=
  rls_document d && visible_from_workspace (workspace_id context) d
  && bool_decide (do_status d = "active")
  && bool_decide (do_classification d ∈ classifications_for_clearance (clearance context))
  && existsb (λ p, bool_decide (p ∈ do_acl_principals d)) (principals_of context).

Definition superseded_document (now : datetime) (by_ : uuid) (d : DocumentRow) : DocumentRow :=
  MkDocument (do_id d) (do_tenant_id d) (do_workspace_id d) (do_title d) (do_identity_key d)
    (do_domain d) (do_source_uri d) (do_classification d) (do_source_version d) (do_index_version d)
    (do_created_by d) (do_created_at d) (do_doc_key d) "superseded" false (do_effective_from d)
    (Some now) (Some by_) (do_deleted_at d) (do_deleted_by d) (do_scope d) (do_extra d)
    (do_acl_principals d).

Definition chunk_status (status : pystr) (deleted_at : option datetime) (c : ChunkRow) : ChunkRow :=
  MkChunk (ck_id c) (ck_tenant_id c) (ck_workspace_id c) (ck_document_id c) (ck_seq c) (ck_content c)
    (ck_start_offset c) (ck_end_offset c) (ck_provenance_hash c) (ck_section_path c)
    (ck_section_index c) status deleted_at.

(** The current versions of [doc_key] other than this one, closed. *)
Definition supersede (doc_key document_id : uuid) (now : datetime) : Prog (list uuid) :=
  let others := λ d, bool_decide (do_doc_key d = Some doc_key) && do_is_current d
                     && negb (bool_decide (do_id d = document_id)) in
  let! rows := sql_select (R := DocumentRow) tenant others in
  let! _ := sql_update tenant others (superseded_document now document_id) in
  let ids := do_id <$> rows in
  (when negb (bool_decide (ids = [])) then
     let! _ := sql_update tenant (λ c, bool_decide (ck_document_id c ∈ ids))
                 (λ c, chunk_status "superseded" (ck_deleted_at c) c) in ret tt) ;;;
  ret ids.

Definition new_document (command : IngestDocumentCommand) (document_id doc_key : uuid)
    (source_uri : pystr) (now : datetime) : DocumentRow :=
  MkDocument document_id tenant (workspace_id context) (ic_title command) (ic_identity_key command)
    (ic_domain command) source_uri (ic_classification command) (ic_source_version command)
    (Some INDEX_VERSION) (principal_id context) now (Some doc_key) "active" true (Some now) None None
    None None (ic_scope command) (dict_of (ic_extra command)) (ic_acl_principals command).

(** [ON CONFLICT (id) DO UPDATE]: the columns it sets. *)
Definition reingested (excluded d : DocumentRow) : DocumentRow :=
  MkDocument (do_id d) (do_tenant_id d) (do_workspace_id d) (do_title excluded) (do_identity_key d)
    (do_domain d) (do_source_uri d) (do_classification excluded) (do_source_version d)
    (do_index_version excluded) (do_created_by d) (do_created_at d) (do_doc_key d) "active" true
    (do_effective_from d) None (do_superseded_by d) None None (do_scope excluded) (do_extra excluded)
    (do_acl_principals d).

(** The row in the way may be one the policies hide: it cannot be updated. *)
Definition upsert_document (row : DocumentRow) : Prog unit :=
  let! w := get_state in
  match t_documents (t_mem (db w)) !! do_id row with
  | None => sql_insert tenant row
  | Some d =>
      if bool_decide (do_tenant_id d = tenant)
      then let! _ := sql_update tenant (λ d, bool_decide (do_id d = do_id row)) (reingested row) in ret tt
      else raise (OtherException "InsufficientPrivilege") "new row violates row-level security policy"
  end.

(** [DELETE FROM knowledge.chunks]: [fk_evidence_chunk_id_chunks] is RESTRICT. *)
Definition delete_chunks (document_id : uuid) : Prog unit :=
  let mine := λ c, bool_decide (ck_document_id c = document_id) in
  let! w := get_state in
  (when refers (R := EvidenceRow) er_chunk_id
          (filter (λ kv, visible tenant mine kv.2 = true) (t_chunks (t_mem (db w)))) (db w) then
     raise (IntegrityError "fk_evidence_chunk_id_chunks")
       "update or delete on table chunks violates foreign key constraint") ;;;
  let! _ := sql_delete (R := ChunkRow) tenant mine in
  ret tt.

Definition new_chunk (sha256 : pystr → pystr) (document_id : uuid) (leaf_id : LeafChunk * uuid)
    : ChunkRow :=
  let '(leaf, id) := leaf_id in
  MkChunk id tenant (workspace_id context) document_id (lc_seq leaf) (lc_content leaf)
    (lc_start_offset leaf) (lc_end_offset leaf) (sha256 (lc_content leaf)) (lc_section_path leaf)
    (lc_section_index leaf) "active" None.

Definition ingest_rows (sha256 : pystr → pystr) (command : IngestDocumentCommand)
    (document_id doc_key : uuid) (source_uri : pystr) (now : datetime)
    (leaves : list (LeafChunk * uuid)) : Prog (list uuid) :=
  let! superseded_ids := supersede doc_key document_id now in
  upsert_document (new_document command document_id doc_key source_uri now) ;;;
  delete_chunks document_id ;;;
  insert_all tenant (new_chunk sha256 document_id <$> leaves) ;;;
  ret superseded_ids.

(** *** Listing, full read and soft deletion *)

Definition document_position (d : DocumentInfo) : CursorPosition :=
  {| cp_sort_value := di_created_at d; cp_tiebreaker := di_document_id d |}.

Definition document_info (w : World) (d : DocumentRow) : DocumentInfo :=
  {| di_document_id := do_id d; di_title := do_title d; di_domain := do_domain d;
     di_classification := do_classification d; di_source_version := do_source_version d;
     di_index_version := do_index_version d;
     di_chunk_count := count_rows (visible tenant (λ c, bool_decide (ck_document_id c = do_id d)))
                         (t_chunks (t_mem (db w)));
     di_created_at := do_created_at d; di_scope := do_scope d; di_extra := do_extra d |}.

(** The documents a listing is about. *)
Definition listed (domain : option pystr) (w : World) : list DocumentInfo :=
  document_info w <$> filter (λ d, readable_document d
      && match domain with Some x => bool_decide (do_domain d = x) | None => true end = true)
    (rows_of (R := DocumentRow) (db w)).

Definition list_documents (codec : CursorCodec) (request : PageRequest) (domain : option pystr)
    : Prog (Page DocumentInfo) :=
  session_begin (gets (λ w,
    build_page codec (select_page document_position (listed domain w) request) request
      document_position)).

(** The active chunks of a document, in order, as the tenant sees them. *)
Definition contents_of (document_id : uuid) (w : World) : list pystr :=
  ck_content <$> sorted_by ck_seq (filter (λ c, visible tenant (λ c,
      bool_decide (ck_document_id c = document_id) && bool_decide (ck_status c = "active")) c = true)
    (rows_of (R := ChunkRow) (db w))).

Definition read_document (document_id : uuid) (max_chars : Z) : Prog (option DocumentText) :=
  session_begin (gets (λ w,
    match t_documents (t_mem (db w)) !! document_id with
    | Some d => if readable_document d
                then Some (_joined (do_id d) (do_title d) (contents_of document_id w) max_chars)
                else None
    | None => None
    end)).

Definition deleted_document (at_ : datetime) (by_ : uuid) (d : DocumentRow) : DocumentRow :=
  MkDocument (do_id d) (do_tenant_id d) (do_workspace_id d) (do_title d) (do_identity_key d)
    (do_domain d) (do_source_uri d) (do_classification d) (do_source_version d) (do_index_version d)
    (do_created_by d) (do_created_at d) (do_doc_key d) "deleted" false (do_effective_from d)
    (do_effective_to d) (do_superseded_by d) (Some at_) (Some by_) (do_scope d) (do_extra d)
    (do_acl_principals d).

Definition soft_delete_rows (document_id : uuid) : Prog unit :=
  let! now := now_utc in
  let! _ := sql_update tenant (λ d, bool_decide (do_id d = document_id))
              (deleted_document now (principal_id context)) in
  let! now := now_utc in
  let! _ := sql_update tenant (λ c, bool_decide (ck_document_id c = document_id))
              (chunk_status "deleted" (Some now)) in
  ret tt.
End Rows.

(** *** The gateway *)

Record KnowledgeState (I : Type) := {
  ks_world : World;
  ks_index : I;
  ks_ready : bool }.
Arguments ks_world {I}.
Arguments ks_index {I}.
Arguments ks_ready {I}.

Definition on_world {I A} (m : Prog A) : M (KnowledgeState I) A := λ s,
  let '(r, w) := m (ks_world s) in (r, {| ks_world := w; ks_index := ks_index s; ks_ready := ks_ready s |}).

Definition on_index {I A} (m : M I A) : M (KnowledgeState I) A := λ s,
  let '(r, i) := m (ks_index s) in (r, {| ks_world := ks_world s; ks_index := i; ks_ready := ks_ready s |}).

(** The ports the gateway holds: object storage, embeddings, and a reranker. *)
Record Services (S : Type) := {
  put_object : pystr → list N → pystr → M S pystr;
  dimension : Z;
  embed : list pystr → M S (list (list pyfloat));
  reranker : option (pystr → list (pystr * pystr) → Z → M S (list (pystr * pyfloat)));
  rerank_fetch_multiplier : Z }.
Arguments put_object {S}.
Arguments dimension {S}.
Arguments embed {S}.
Arguments reranker {S}.
Arguments rerank_fetch_multiplier {S}.

(** [max(0.0, min(1.0, score))] *)
Definition clamped (score : pyfloat) : pyfloat :=
  let low := if SFltb score (float_of_int 1) then score else float_of_int 1 in
  if SFltb float_zero low then low else float_zero.

(** [text[:n]] *)
Definition py_take (n : nat) (s : pystr) : pystr := PyStr (take n (chars s)).

Section Gateway.
Context {I : Type} `{VectorIndexPort I}.
Context (sv : Services (KnowledgeState I)).
(** [uuid.uuid5], [sha256] of a text, the Unicode tables of the chunker, and the bits
    of a double. *)
Context (uuid5 : uuid → pystr → uuid) (sha256 : pystr → pystr).
Context (py_lower : pystr → pystr) (is_digit : N → bool) (float_bits : pyfloat → N).

Definition ensure_ready : M (KnowledgeState I) unit :=
  let! ready := gets ks_ready in
  when negb ready then
    (on_index (vi_ensure_ready (dimension sv)) ;;;
     modify (λ s, {| ks_world := ks_world s; ks_index := ks_index s; ks_ready := true |})).

(** [structure_aware_chunks(command.content)], with its default bounds. *)
Definition leaves_of_content (content : pystr) : res (list LeafChunk) :=
  match structure_aware_chunks py_lower is_digit content MAX_CHUNK_CHARS CHUNK_OVERLAP_CHARS with
  | Some (Ok result) => Ok (cr_chunks result)
  | Some (Raise e) => Raise e
  | None => Raise (Exn AssertionError "out of turns")
  end.

Fixpoint tombstone_each (ids : list uuid) : M (KnowledgeState I) unit :=
  match ids with
  | [] => ret tt
  | id :: rest => on_index (vi_tombstone_document id) ;;; tombstone_each rest
  end.

Definition indexable (command : IngestDocumentCommand) (context : AccessContext) (document_id : uuid)
    (part : (LeafChunk * uuid) * list pyfloat) : IndexableChunk :=
  let '((leaf, id), vector) := part in
  {| ix_chunk_id := id; ix_document_id := document_id; ix_tenant_id := tenant_id context;
     ix_workspace_id := workspace_id context; ix_domain := ic_domain command;
     ix_content := lc_content leaf; ix_classification := ic_classification command;
     ix_source_version := ic_source_version command; ix_index_version := INDEX_VERSION;
     ix_provenance_hash := sha256 (lc_content leaf); ix_acl_principals := ic_acl_principals command;
     ix_vector := vector; ix_section_path := lc_section_path leaf; ix_seq := lc_seq leaf;
     ix_scope := ic_scope command; ix_extra_payload := ic_extra command |}.

Definition index_leaves (command : IngestDocumentCommand) (context : AccessContext)
    (document_id : uuid) (leaves : list (LeafChunk * uuid)) : M (KnowledgeState I) unit :=
  when negb (bool_decide (leaves = [])) then
    (let! vectors := embed sv ((λ l, contextual_text l.1) <$> leaves) in
     if negb (length vectors =? length leaves)
     then raise ValueError "zip() arguments have different lengths"
     else on_index (vi_upsert (indexable command context document_id <$> zip leaves vectors))).

Definition name_of (command : IngestDocumentCommand) (context : AccessContext) : DocumentName :=
  {| dn_tenant_id := tenant_id context; dn_workspace_id := workspace_id context;
     dn_domain := ic_domain command; dn_title := ic_title command;
     dn_source_version := ic_source_version command; dn_scope := ic_scope command;
     dn_identity_key := ic_identity_key command |}.

Definition storage_key_of (context : AccessContext) (document_id : uuid) : pystr :=
  uuid_str (tenant_id context) +++ "/" +++ uuid_str (workspace_id context) +++ "/documents/"
    +++ uuid_str document_id.

Definition with_ids (document_id : uuid) (leaves : list LeafChunk) : list (LeafChunk * uuid) :=
  (λ l, (l, chunk_id_for uuid5 document_id INDEX_VERSION (lc_seq l))) <$> leaves.

Definition ingest_document (command : IngestDocumentCommand) (context : AccessContext)
    : M (KnowledgeState I) IngestedDocument :=
  if bool_decide (ic_scope command = "global") && negb (bool_decide (GLOBAL_PUBLISH_SCOPE ∈ scopes context))
  then raise PermissionDeniedError
         "publishing a global (cross-tenant) document requires the 'knowledge.publish_global' scope"
  else
    ensure_ready ;;;
    let name := name_of command context in
    let document_id := document_id_for uuid5 name in
    let storage_key := storage_key_of context document_id in
    let! source_uri := put_object sv storage_key (mjoin (utf8_encode1 <$> chars (ic_content command)))
                         (ic_content_type command) in
    let! found := lift_res (leaves_of_content (ic_content command)) in
    let leaves := with_ids document_id found in
    let doc_key := doc_key_for uuid5 name in
    let! now := on_world now_utc in
    let! superseded_ids := on_world (session_begin (
      ingest_rows context sha256 command document_id doc_key source_uri now leaves)) in
    tombstone_each superseded_ids ;;;
    on_index (vi_delete_document document_id) ;;;
    index_leaves command context document_id leaves ;;;
    ret {| gd_document_id := document_id; gd_chunk_count := length leaves;
           gd_storage_key := storage_key |}.

Definition soft_delete_document (document_id : uuid) (context : AccessContext)
    : M (KnowledgeState I) unit :=
  on_world (session_begin (soft_delete_rows context document_id)) ;;;
  on_index (vi_tombstone_document document_id).

(** [_rerank_or_none] *)
Definition _rerank_or_none
    (rerank : pystr → list (pystr * pystr) → Z → M (KnowledgeState I) (list (pystr * pyfloat)))
    (query : SearchQuery) (hits : list VectorHit)
    : M (KnowledgeState I) (option (list (pystr * pyfloat))) :=
  let candidates := (λ h, (uuid_str (vh_chunk_id h), vh_content h)) <$> hits in
  try_except
    (let! ranked := rerank (sq_text query) candidates (sq_top_k query) in ret (Some ranked))
    (λ e, if isinstance e InfrastructureError then ret None else reraise e).

(** The loop that mints the evidence. *)
Fixpoint evidence_of (query : SearchQuery) (scores : gmap pystr pyfloat) (hits : list VectorHit)
    : Prog (list EvidenceChunk) :=
  match hits with
  | [] => ret []
  | hit :: rest =>
      let score := default (vh_score hit) (scores !! uuid_str (vh_chunk_id hit)) in
      if SFltb score (sq_min_relevance query) then evidence_of query scores rest
      else
        let! id := new_uuid in
        let chunk :=
          {| ec_content := vh_content hit;
             ec_evidence :=
               {| ev_evidence_id := id; ev_source_document_id := vh_document_id hit;
                  ev_source_version := vh_source_version hit;
                  ev_chunk_id := Some (vh_chunk_id hit); ev_page := None; ev_start_offset := None;
                  ev_end_offset := None; ev_quote := Some (py_take 280 (vh_content hit));
                  ev_relevance_score := float_bits (clamped score);
                  ev_classification := vh_classification hit;
                  ev_provenance_hash := vh_provenance_hash hit |} |} in
        let! more := evidence_of query scores rest in
        ret (chunk :: more)
  end.

Definition search (query : SearchQuery) (context : AccessContext)
    : M (KnowledgeState I) (list EvidenceChunk) :=
  let trusted_filter := build_trusted_filter context (sq_domain query) in
  let! vectors := embed sv [sq_text query] in
  match vectors with
  | [] => raise (OtherException "IndexError") "list index out of range"
  | vector :: _ =>
      let fetch_k := match reranker sv with
                     | Some _ => (sq_top_k query * rerank_fetch_multiplier sv)%Z
                     | None => sq_top_k query
                     end in
      let! hits := on_index (vi_search vector trusted_filter fetch_k (sq_filters query)
                               (sq_document_ids query)) in
      let! ranked := match reranker sv, hits with
                     | Some rerank, _ :: _ => _rerank_or_none rerank query hits
                     | _, _ => ret None
                     end in
      match ranked with
      | None => on_world (evidence_of query ∅ (take (Z.to_nat (sq_top_k query)) hits))
      | Some ranked =>
          let by_id := dict_of ((λ h, (uuid_str (vh_chunk_id h), h)) <$> hits) in
          on_world (evidence_of query (dict_of ranked) (omap (λ r, by_id !! r.1) ranked))
      end
  end.
End Gateway.
