(* ===== verification/KnowledgeLaws.v ===== *)
(** * What the gateway keeps apart

    The theorems on [Knowledge]: what an index promises and that the in-memory
    adapter keeps it; what search may return; where a full read stops; what an
    ingestion leaves; that one version of a document is current. *)

From Stdlib Require Import Floats.SpecFloat.
From S2P Require Import Prelude Errors Kernel Domain Contracts MemoryPolicy Store Chunking Pagination Memory MemoryWrites ModelBudget Prompts Knowledge.
Local Open Scope prog_scope.
Local Open Scope pystr_scope.

(** ** What the gateway relies on of an index *)

(** The points an index holds, and those a search may return. *)
Class VectorIndexOk (I : Type) `{VectorIndexPort I} := {
  stored : I → IndexableChunk → Prop;
  live : I → IndexableChunk → Prop;
  live_stored i c : live i c → stored i c;
  ready_keeps n i r i' : vi_ensure_ready n i = (r, i') → i' = i;
  search_admitted v f k ex ids i hits i' : vi_search v f k ex ids i = (Ok hits, i') →
    i' = i ∧ length hits ≤ Z.to_nat k ∧
    ∀ h, h ∈ hits → ∃ c score, live i c ∧ admits f c = true ∧ narrowed ex ids c = true ∧
                               h = hit_of score c;
  search_keeps v f k ex ids i r i' : vi_search v f k ex ids i = (r, i') → i' = i;
  upsert_live cs i i' c : vi_upsert cs i = (Ok tt, i') →
    (∀ a b, stored i a → b ∈ cs → ix_document_id a ≠ ix_document_id b) →
    NoDup (ix_chunk_id <$> cs) →
    (∀ a b, stored i a → b ∈ cs → ix_chunk_id a ≠ ix_chunk_id b) →
    (live i' c ↔ c ∈ cs ∨ live i c);
  delete_stored id i i' c : vi_delete_document id i = (Ok tt, i') →
    (stored i' c ↔ stored i c ∧ ix_document_id c ≠ id);
  delete_live id i i' c : vi_delete_document id i = (Ok tt, i') →
    (live i' c ↔ live i c ∧ ix_document_id c ≠ id);
  tombstone_stored id i i' c : vi_tombstone_document id i = (Ok tt, i') → (stored i' c ↔ stored i c);
  tombstone_live id i i' c : vi_tombstone_document id i = (Ok tt, i') →
    (live i' c ↔ live i c ∧ ix_document_id c ≠ id) }.

Section MemoryIndexOk.
Context (py_sum : list pyfloat → pyfloat) (py_sqrt : pyfloat → pyfloat).
Local Existing Instance memory_index.

Lemma insert_hit_in h x l : x ∈ insert_hit h l ↔ x = h ∨ x ∈ l.
Proof.
  induction l as [|y l IH]; simpl; [set_solver|]. destruct (SFltb _ _); [|set_solver].
  rewrite elem_of_cons, IH. set_solver.
Qed.

Lemma best_first_in x l : x ∈ best_first l ↔ x ∈ l.
Proof. induction l as [|h l IH]; simpl; [done|]. rewrite insert_hit_in, IH. set_solver. Qed.

Lemma put_point_new c l : (∀ x, x ∈ l → ix_chunk_id x ≠ ix_chunk_id c) → put_point c l = l ++ [c].
Proof.
  induction l as [|x l IH]; intros Hl; simpl; [done|].
  rewrite bool_decide_eq_false_2 by (apply Hl; by left). rewrite IH; [done|].
  intros y Hy. apply Hl. by right.
Qed.

(** Points of documents the index does not hold are appended. *)
Lemma memory_upsert_appends cs i :
  (∀ a b, a ∈ mi_chunks i → b ∈ cs → ix_chunk_id a ≠ ix_chunk_id b) → NoDup (ix_chunk_id <$> cs) →
  let i' := (memory_upsert cs i).2 in
  mi_chunks i' = mi_chunks i ++ cs ∧
  ∀ d, d ∈ mi_tombstoned i' ↔ d ∈ mi_tombstoned i ∧ d ∉ ix_document_id <$> cs.
Proof.
  cbv zeta. unfold memory_upsert, modify. cbn [snd]. revert i.
  induction cs as [|c cs IH]; intros i Hids Hnd; cbn [foldl].
  - rewrite app_nil_r. split; [done|]. set_solver.
  - cbn [fmap list_fmap] in Hnd. apply NoDup_cons in Hnd as [Hc Hnd].
    destruct (IH {| mi_chunks := put_point c (mi_chunks i);
                    mi_tombstoned := mi_tombstoned i ∖ {[ix_document_id c]} |}) as [Hm Ht]; [|done|].
    + cbn [mi_chunks]. rewrite put_point_new by (intros x Hx; apply Hids; [done|by left]).
      intros a b [Ha|Ha]%elem_of_app Hb; [apply Hids; [done|by right]|].
      apply list_elem_of_singleton in Ha as ->. intros E. apply Hc. rewrite E. by apply list_elem_of_fmap_2.
    + split.
      * rewrite Hm. cbn [mi_chunks]. rewrite put_point_new by (intros x Hx; apply Hids; [done|by left]).
        by rewrite <- app_assoc.
      * intros d. rewrite Ht. cbn [mi_tombstoned fmap list_fmap].
        rewrite elem_of_difference, elem_of_singleton, elem_of_cons. naive_solver.
Qed.

#[export] Instance memory_index_ok : @VectorIndexOk MemoryIndex (memory_index py_sum py_sqrt).
Proof.
  refine {| stored i c := c ∈ mi_chunks i;
            live i c := c ∈ mi_chunks i ∧ ix_document_id c ∉ mi_tombstoned i |}.
  - by intros i c [? _].
  - by intros n i r i' [= _ <-].
  - intros v f k ex ids i hits i' [= <- <-]. split; [done|].
    split; [rewrite length_take; lia|]. intros h (n & Hh & _)%elem_of_take. apply list_elem_of_lookup_2 in Hh.
    apply best_first_in, list_elem_of_fmap in Hh as (c & -> & [(Ht & Hn & Ha) Hc]%list_elem_of_filter).
    exists c, (_cosine py_sum py_sqrt v (ix_vector c)). done.
  - by intros v f k ex ids i r i' [= _ <-].
  - intros cs i i' c [= <-] Hdocs Hnd Hids. fold (foldl (λ (i : MemoryIndex) c, {| mi_chunks := put_point c (mi_chunks i);
      mi_tombstoned := mi_tombstoned i ∖ {[ix_document_id c]} |}) i cs).
    destruct (memory_upsert_appends cs i Hids Hnd) as [Hm Ht]. simpl in Hm, Ht. rewrite Hm, Ht, elem_of_app.
    split.
    + intros [[Hc|Hc] Hn]; [|by left]. right. split; [done|]. intros Hd. apply Hn. split; [done|].
      intros (b & E & Hb)%list_elem_of_fmap. by apply (Hdocs c b).
    + intros [Hc|[Hc Hn]]; (split; [by auto|]).
      * intros [_ Hn]. apply Hn. by apply list_elem_of_fmap_2.
      * by intros [? _].
  - intros id i i' c [= <-]. simpl. rewrite list_elem_of_filter. tauto.
  - intros id i i' c [= <-]. simpl. rewrite list_elem_of_filter. set_solver.
  - by intros id i i' c [= <-].
  - intros id i i' c [= <-]. simpl. set_solver.
Defined.
End MemoryIndexOk.

(** ** Retrieval *)

Section Search.
Context {I : Type} `{VectorIndexOk I} (sv : Services (KnowledgeState I)) (float_bits : pyfloat → N).

Definition same_index : relation (KnowledgeState I) := λ s s', ks_index s' = ks_index s.
#[export] Instance same_index_preorder : PreOrder same_index.
Proof. unfold same_index. split; [by intros ?|intros ? ? ?; congruence]. Qed.

(** The evidence a hit is told as. *)
Definition told_of (h : VectorHit) (e : EvidenceChunk) : Prop :=
  ec_content e = vh_content h ∧
  ev_chunk_id (ec_evidence e) = Some (vh_chunk_id h) ∧
  ev_source_document_id (ec_evidence e) = vh_document_id h ∧
  ev_classification (ec_evidence e) = vh_classification h ∧
  ev_source_version (ec_evidence e) = vh_source_version h ∧
  ev_provenance_hash (ec_evidence e) = vh_provenance_hash h ∧
  ev_quote (ec_evidence e) = Some (py_take 280 (vh_content h)).

Lemma evidence_of_told query scores hits w found w' :
  evidence_of float_bits query scores hits w = (Ok found, w') →
  length found ≤ length hits ∧ db w' = db w ∧ saved w' = saved w ∧
  ∀ e, e ∈ found → ∃ h, h ∈ hits ∧ told_of h e.
Proof.
  revert w found w'. induction hits as [|h hits IH]; intros w found w'; cbn [evidence_of].
  - intros [= <- <-]. split_and!; [done..|]. by intros e ?%elem_of_nil.
  - destruct (SFltb _ _).
    + intros Hr. apply IH in Hr as (Hl & Hd & Hs & He). split_and!; [simpl; lia|done|done|].
      intros e Hin. destruct (He e Hin) as (x & Hx & Ht). exists x. split; [by right|done].
    + intros (id & w1 & E1 & (more & w2 & E2 & Er)%bind_ok)%bind_ok.
      injection E1 as <- <-. apply IH in E2 as (Hl & Hd & Hs & He). injection Er as <- <-.
      split_and!; [simpl; lia|by rewrite Hd|by rewrite Hs|].
      intros e [->|Hin]%elem_of_cons; [exists h; split; [by left|done]|].
      destruct (He e Hin) as (x & Hx & Ht). exists x. split; [by right|done].
Qed.

(** What a caller may retrieve: its workspace's or a global point, at its clearance,
    open to a principal it is, in the domain it asked for or the shared one. *)
Definition may_retrieve (context : AccessContext) (domain : pystr) (c : IndexableChunk) : Prop :=
  ((ix_tenant_id c = tenant_id context ∧ ix_workspace_id c = workspace_id context) ∨
   ix_scope c = "global") ∧
  ix_classification c ∈ classifications_for_clearance (clearance context) ∧
  (∃ p, p ∈ ix_acl_principals c ∧ p ∈ principals_of context) ∧
  (ix_domain c = domain ∨ ix_domain c = SHARED_DOMAIN).

Lemma admits_may_retrieve context domain c :
  admits (build_trusted_filter context domain) c = true ↔ may_retrieve context domain c.
Proof.
  unfold admits, may_retrieve, build_trusted_filter. cbn [tf_tenant_id tf_workspace_id
    tf_allowed_classifications tf_acl_principals tf_domain].
  rewrite !andb_true_iff, orb_true_iff, andb_true_iff, !bool_decide_eq_true, existsb_exists.
  assert ((∃ x, In x (ix_acl_principals c) ∧ bool_decide (x ∈ principals_of context) = true) ↔
          ∃ p, p ∈ ix_acl_principals c ∧ p ∈ principals_of context) as ->.
  { split; intros (x & Hx & Hp); exists x; rewrite ?bool_decide_eq_true in *;
      (split; [by apply list_elem_of_In|done]). }
  set_solver.
Qed.

Lemma dict_of_in {V} (pairs : list (pystr * V)) k v : dict_of pairs !! k = Some v → (k, v) ∈ pairs.
Proof.
  unfold dict_of. assert (∀ m : gmap pystr V, foldl (λ m kv, <[kv.1:=kv.2]> m) m pairs !! k = Some v →
    (k, v) ∈ pairs ∨ m !! k = Some v) as E.
  { induction pairs as [|[k' v'] pairs IH]; simpl; intros m Hm; [by right|].
    apply IH in Hm as [Hm|Hm]; [left; by right|].
    apply lookup_insert_Some in Hm as [[-> ->]|[_ Hm]]; [left; by left|by right]. }
  intros Hm. apply E in Hm as [Hm|Hm]; [done|]. by rewrite lookup_empty in Hm.
Qed.

(** C6: whatever the query, the reranker and the embeddings say, every piece of evidence a
    search returns is a point the index still serves that the caller may retrieve: its
    own workspace's or a global one, of a classification its clearance covers, open to a
    principal it is, in the domain asked for or the shared one, within the caller's own
    narrowing; without a reranker there are at most as many as asked for, and the search
    changes no index. *)
Theorem search_is_trusted query context s found s' :
  (∀ texts, respects same_index (embed sv texts)) →
  (∀ rerank text candidates k, reranker sv = Some rerank → respects same_index (rerank text candidates k)) →
  search sv float_bits query context s = (Ok found, s') →
  ks_index s' = ks_index s ∧
  (reranker sv = None → length found ≤ Z.to_nat (sq_top_k query)) ∧
  ∀ e, e ∈ found → ∃ c score, live (ks_index s) c ∧ may_retrieve context (sq_domain query) c ∧
    narrowed (sq_filters query) (sq_document_ids query) c = true ∧ told_of (hit_of score c) e.
Proof.
  intros Hembed Hrank (vectors & s1 & E1 & Hr)%bind_ok.
  specialize (Hembed [sq_text query] s). rewrite E1 in Hembed. unfold same_index in Hembed. simpl in Hembed.
  destruct vectors as [|vector vectors]; [discriminate Hr|]. cbv zeta in Hr.
  apply bind_ok in Hr as (hits & s2 & E2 & Hr). unfold on_index in E2.
  destruct (vi_search _ _ _ _ _ _) as [r2 i2] eqn:Es. injection E2 as -> <-.
  apply search_admitted in Es as (-> & Hlen & Hhits). rewrite Hembed in *. 
  apply bind_ok in Hr as (ranked & s3 & E3 & Hr).
  assert (ks_index s3 = ks_index s ∧ (reranker sv = None → ranked = None)) as [H3 Hn].
  { destruct (reranker sv) as [rerank|] eqn:Er; [|by injection E3 as <- <-].
    split; [|done]. destruct hits as [|h hits']; [by injection E3 as <- <-|].
    unfold _rerank_or_none, try_except in E3.
    pose proof (Hrank rerank (sq_text query)
      ((λ h, (uuid_str (vh_chunk_id h), vh_content h)) <$> h :: hits') (sq_top_k query) eq_refl) as Hk.
    unfold bind in E3. unfold respects, same_index in Hk.
    specialize (Hk {| ks_world := ks_world s1; ks_index := ks_index s; ks_ready := ks_ready s1 |}).
    destruct (rerank _ _ _ _) as [[x|e] s4]; simpl in Hk; [by injection E3 as <- <-|].
    destruct (isinstance e InfrastructureError); [by injection E3 as <- <-|discriminate E3]. }
  assert (∀ scores hs, on_world (evidence_of float_bits query scores hs) s3 = (Ok found, s') →
    (∀ h, h ∈ hs → h ∈ hits) → ks_index s' = ks_index s ∧ length found ≤ length hs ∧
    ∀ e, e ∈ found → ∃ c score, live (ks_index s) c ∧ may_retrieve context (sq_domain query) c ∧
    narrowed (sq_filters query) (sq_document_ids query) c = true ∧ told_of (hit_of score c) e) as Hend.
  { intros scores hs He Hsub. unfold on_world in He.
    destruct (evidence_of _ _ _ _ _) as [r4 w4] eqn:E4. injection He as -> <-.
    apply evidence_of_told in E4 as (Hl & _ & _ & Ht). split; [done|]. split; [done|].
    intros e Hin. destruct (Ht e Hin) as (h & Hh & Htold). apply Hsub, Hhits in Hh as (c & score & ? & Ha & ? & ->).
    exists c, score. rewrite admits_may_retrieve in Ha. done. }
  destruct ranked as [ranked|].
  - apply Hend in Hr as (Hi & _ & He).
    + split; [done|]. split; [|done]. intros Hnone. discriminate (Hn Hnone).
    + intros h (r & _ & Hh)%list_elem_of_omap. apply dict_of_in, list_elem_of_fmap in Hh as (x & [= _ ->] & ?). done.
  - apply Hend in Hr as (Hi & Hl & He).
    + split; [done|]. split; [|done]. intros _. rewrite length_take in Hl. lia.
    + intros h (n & Hh & _)%elem_of_take. by apply list_elem_of_lookup_2 in Hh.
Qed.
End Search.

(** ** Listing and full read *)

Lemma kept_within_prefix max_chars used contents :
  kept_within max_chars used contents `prefix_of` contents.
Proof.
  revert used. induction contents as [|c contents IH]; intros used; simpl; [done|].
  destruct (_ <? _)%Z; [apply prefix_nil|]. by apply prefix_cons.
Qed.

(** The characters of a list of texts. *)
Definition total_chars (l : list pystr) : Z := foldr (λ c n, (Z.of_nat (py_len c) + n)%Z) 0%Z l.

Lemma kept_within_spec max_chars contents : ∀ used, (used <= max_chars)%Z →
  (used + total_chars (kept_within max_chars used contents) <= max_chars)%Z ∧
  (kept_within max_chars used contents = contents ∨
   ∃ c rest, contents = kept_within max_chars used contents ++ c :: rest ∧
     (max_chars < used + total_chars (kept_within max_chars used contents) + Z.of_nat (py_len c))%Z).
Proof.
  induction contents as [|c contents IH]; intros used Hu; cbn [kept_within].
  - split; [unfold total_chars; simpl; lia|by left].
  - destruct (Z.ltb_spec max_chars (used + Z.of_nat (py_len c))) as [Hlt|Hle].
    + split; [unfold total_chars; simpl; lia|]. right. exists c, contents. split; [done|].
      unfold total_chars. simpl. lia.
    + destruct (IH (used + Z.of_nat (py_len c))%Z Hle) as [Hb Hor]. cbn [total_chars foldr].
      split; [unfold total_chars in *; lia|].
      destruct Hor as [E|(x & rest & E & Hlt)]; [left; by rewrite E|right].
      exists x, rest. split; [rewrite E at 1; done|]. unfold total_chars in *. lia.
Qed.

(** A full read is the longest run of whole chunks from the start that fits, and it says it
    was cut exactly when something was left out. *)
Theorem full_read_says_where_it_stops document_id title contents max_chars :
  (0 <= max_chars)%Z →
  let t := _joined document_id title contents max_chars in
  ∃ kept dropped, contents = kept ++ dropped ∧
    dt_text t = py_join (PyStr [10; 10]%N) kept ∧ dt_chunk_count t = length kept ∧
    (total_chars kept <= max_chars)%Z ∧
    (dt_truncated t = true ↔ dropped ≠ []) ∧
    (∀ c rest, dropped = c :: rest → (max_chars < total_chars kept + Z.of_nat (py_len c))%Z).
Proof.
  intros Hm. cbv zeta. unfold _joined. cbn [dt_text dt_chunk_count dt_truncated].
  destruct (kept_within_prefix max_chars 0 contents) as [dropped Ed].
  exists (kept_within max_chars 0 contents), dropped.
  destruct (kept_within_spec max_chars contents 0 Hm) as [Hb Hor].
  generalize dependent (kept_within max_chars 0 contents). intros kept -> Hb Hor.
  split_and!; [done|done|done|lia| |].
  - rewrite bool_decide_eq_true, length_app. destruct dropped; simpl; split; (lia || done).
  - intros c rest ->. destruct Hor as [E|(x & r & E & Hlt)].
    + apply (f_equal length) in E. rewrite length_app in E. simpl in E. lia.
    + apply app_inv_head in E as [= <- <-]. lia.
Qed.

Section Reading.
Context (context : AccessContext).

Lemma rows_of_in {R K} `{SqlTable R K} (d : Db) r : r ∈ rows_of (R := R) d ↔ ∃ k, tbl d !! k = Some r.
Proof.
  unfold rows_of. rewrite list_elem_of_fmap. split.
  - intros ([k x] & -> & Hx%elem_of_map_to_list). by exists k.
  - intros [k Hk]. exists (k, r). split; [done|]. by apply elem_of_map_to_list.
Qed.

(** A global document of another tenant that a caller may read is read as an empty text that
    was not cut. *)
Theorem global_text_stays_home id d max_chars w :
  clean w → t_documents (t_mem (db w)) !! id = Some d →
  readable_document context d = true → do_tenant_id d ≠ tenant_id context →
  (∀ k c, t_chunks (t_mem (db w)) !! k = Some c → ck_document_id c = id →
     ck_tenant_id c = do_tenant_id d) →
  read_document context id max_chars w =
    (Ok (Some {| dt_document_id := do_id d; dt_title := do_title d; dt_text := ""; dt_chunk_count := 0;
                 dt_truncated := false |}), w).
Proof.
  intros Hc Hd Hr Ht Hchunks. unfold read_document. rewrite session_begin_gets by done. rewrite Hd, Hr.
  assert (contents_of context id w = []) as ->; [|done]. unfold contents_of.
  assert (filter (λ c, visible (tenant_id context) (λ c,
      bool_decide (ck_document_id c = id) && bool_decide (ck_status c = "active")) c = true)
    (rows_of (R := ChunkRow) (db w)) = []) as ->; [|done].
  apply filter_nil_iff. intros c Hin. apply rows_of_in in Hin as [k Hk]. unfold visible.
  intros Hv. to_prop. apply Ht. rewrite <- (Hchunks k c Hk); naive_solver.
Qed.
End Reading.

(** ** What an ingestion leaves *)

Section Rows.
Context (context : AccessContext) (sha256 : pystr → pystr) (command : IngestDocumentCommand).
Context (document_id doc_key : uuid) (source_uri : pystr) (now : datetime).
Context (leaves : list (LeafChunk * uuid)).
Let tenant := tenant_id context.

(** A current version of the same document, of this tenant. *)
Definition outdated (d : DocumentRow) : bool :=
  visible tenant (λ d, bool_decide (do_doc_key d = Some doc_key) && do_is_current d
                       && negb (bool_decide (do_id d = document_id))) d.

Definition ingested_document (old : option DocumentRow) : DocumentRow :=
  let new := new_document context command document_id doc_key source_uri now in
  match old with None => new | Some d => reingested new d end.

Record ingested (x x' : Db) (superseded_ids : list uuid) : Prop := {
  ig_document : t_documents (t_mem x') !! document_id =
                  Some (ingested_document (t_documents (t_mem x) !! document_id));
  ig_own d : t_documents (t_mem x) !! document_id = Some d → do_tenant_id d = tenant;
  ig_others k : k ≠ document_id → t_documents (t_mem x') !! k =
    (λ d, if outdated d then superseded_document now document_id d else d)
      <$> t_documents (t_mem x) !! k;
  ig_superseded k : k ∈ superseded_ids ↔
    ∃ d, t_documents (t_mem x) !! k = Some d ∧ outdated d = true;
  ig_chunks k c : t_chunks (t_mem x') !! k = Some c → ck_tenant_id c = tenant →
    ck_document_id c = document_id → ∃ l, l ∈ leaves ∧ c = new_chunk context sha256 document_id l;
  ig_leaves l : l ∈ leaves →
    t_chunks (t_mem x') !! l.2 = Some (new_chunk context sha256 document_id l);
  ig_uncited k c ke e : t_chunks (t_mem x) !! k = Some c → ck_tenant_id c = tenant →
    ck_document_id c = document_id → t_evidence (t_mem x) !! ke = Some e → er_chunk_id e ≠ Some k;
  ig_evidence : t_evidence (t_mem x') = t_evidence (t_mem x) }.

Lemma supersede_ok w ids w' :
  keyed (t_documents (t_mem (db w))) →
  supersede context doc_key document_id now w = (Ok ids, w') →
  ∃ C, db w' = set_tbl (R := ChunkRow) C (set_tbl (R := DocumentRow)
         (update_rows outdated (superseded_document now document_id) (t_documents (t_mem (db w)))) (db w)) ∧
    (∀ k, k ∈ ids ↔ ∃ d, t_documents (t_mem (db w)) !! k = Some d ∧ outdated d = true) ∧
    (∀ k c, t_chunks (t_mem (db w)) !! k = Some c → ∃ c', C !! k = Some c' ∧
       ck_tenant_id c' = ck_tenant_id c ∧ ck_document_id c' = ck_document_id c).
Proof.
  intros Hk. unfold supersede. set (p := λ d, _ && _ && _).
  intros (rows & w1 & E1 & (n & w2 & (_ & _ & ->)%sql_update_ok & Hr)%bind_ok)%bind_ok.
  injection E1 as <- <-. apply bind_ok in Hr as ([] & w3 & Hw & [= <- <-]).
  assert (∀ k, k ∈ do_id <$> filter (λ r, visible tenant p r = true)
    (map_to_list (tbl (R := DocumentRow) (db w))).*2 ↔
    ∃ d, t_documents (t_mem (db w)) !! k = Some d ∧ outdated d = true) as Hids.
  { intros k. rewrite list_elem_of_fmap. split.
    - intros (d & -> & [Hp Hd]%list_elem_of_filter). apply rows_of_in in Hd as [k Hd].
      pose proof (Hk _ _ Hd) as E. exists d. split; [|done]. cbn in E. subst k. exact Hd.
    - intros (d & Hd & Ho). exists d. split; [symmetry; exact (Hk _ _ Hd)|].
      apply list_elem_of_filter. split; [exact Ho|]. apply rows_of_in. by exists k. }
  case_bool_decide as Hn; cbn [negb] in Hw.
  - injection Hw as <-. exists (t_chunks (t_mem (db w))). split_and!; [|exact Hids|by eauto].
    simpl. by destruct (db w), t_mem.
  - apply bind_ok in Hw as (m & w4 & (_ & _ & ->)%sql_update_ok & [= <-]). 
    eexists. split_and!; [simpl; reflexivity|exact Hids|].
    intros k c Hc. rewrite lookup_update_rows. simpl. rewrite Hc. simpl.
    eexists. split; [reflexivity|]. by case_match.
Qed.

Lemma upsert_ok w u w' :
  keyed (t_documents (t_mem (db w))) →
  upsert_document context (new_document context command document_id doc_key source_uri now) w = (Ok u, w') →
  db w' = set_tbl (R := DocumentRow) (<[document_id :=
            ingested_document (t_documents (t_mem (db w)) !! document_id)]> (t_documents (t_mem (db w)))) (db w) ∧
  ∀ d, t_documents (t_mem (db w)) !! document_id = Some d → do_tenant_id d = tenant.
Proof.
  intros Hk. unfold upsert_document. set (new := new_document _ _ _ _ _ _).
  change (do_id new) with document_id. intros (w0 & w1 & [= <- <-] & Hr)%bind_ok.
  destruct (t_documents (t_mem (db w)) !! document_id) as [d|] eqn:Hd.
  - case_bool_decide as Ht; [|discriminate Hr].
    apply bind_ok in Hr as (n & w2 & (_ & _ & ->)%sql_update_ok & [= _ <-]).
    split; [|by intros ? [= <-]]. cbn [db set_db]. f_equal.
    rewrite (update_rows_one _ _ _ document_id d); [done|exact Hd| |].
    + unfold visible. pose proof (Hk _ _ Hd) as E. cbn in E. by rewrite !bool_decide_eq_true_2.
    + intros k' d' Hd' Hv. unfold visible in Hv. to_prop. pose proof (Hk _ _ Hd') as E. cbn in E. naive_solver congruence.
  - destruct u. apply sql_insert_ok in Hr as (_ & _ & _ & ->). split; [done|by intros d [=]].
Qed.

Lemma delete_chunks_ok w u w' :
  delete_chunks context document_id w = (Ok u, w') →
  db w' = set_tbl (R := ChunkRow) (filter (λ kv, visible tenant
            (λ c, bool_decide (ck_document_id c = document_id)) kv.2 = false) (t_chunks (t_mem (db w)))) (db w) ∧
  ∀ k c ke e, t_chunks (t_mem (db w)) !! k = Some c → ck_tenant_id c = tenant →
    ck_document_id c = document_id → t_evidence (t_mem (db w)) !! ke = Some e → er_chunk_id e ≠ Some k.
Proof.
  unfold delete_chunks. set (p := λ c, bool_decide _). intros (w0 & w1 & [= <- <-] & Hr)%bind_ok.
  apply bind_ok in Hr as ([] & w1 & Hw & Hr).
  destruct (refers _ _ _) eqn:Href; [discriminate Hw|]. injection Hw as <-.
  apply bind_ok in Hr as (n & w2 & Hd & [= _ <-]).
  unfold sql_delete, bind, get_state, modify, ret in Hd. simplify_eq. split; [done|].
  intros k c ke e Hc Ht Hdoc He Hek. apply not_true_iff_false in Href. apply Href.
  unfold refers. apply existsb_exists. exists e. split.
  - apply list_elem_of_In, rows_of_in. by exists ke.
  - rewrite Hek. apply bool_decide_eq_true. exists c. apply map_lookup_filter_Some. split; [exact Hc|].
    simpl. unfold visible, p. by rewrite !bool_decide_eq_true_2.
Qed.

Lemma ingest_rows_ok w ids w' :
  keyed (t_documents (t_mem (db w))) →
  ingest_rows context sha256 command document_id doc_key source_uri now leaves w = (Ok ids, w') →
  ingested (db w) (db w') ids.
Proof.
  intros Hk (ids' & w1 & H1 & (u2 & w2 & H2 & (u3 & w3 & H3 & (u4 & w4 & H4 & [= -> ->])%bind_ok)%bind_ok)%bind_ok)%bind_ok.
  destruct (supersede_ok _ _ _ Hk H1) as (C & E1 & Hids & HC).
  assert (keyed (t_documents (t_mem (db w1)))) as Hk1 by (rewrite E1; by apply (keyed_update (R := DocumentRow))).
  destruct (upsert_ok _ _ _ Hk1 H2) as [E2 Hown]. destruct (delete_chunks_ok _ _ _ H3) as [E3 Hcite].
  apply insert_all_ok in H4 as (T & -> & _ & Hin & Hout).
  assert (∀ k, t_documents (t_mem (db w1)) !! k =
    (λ d, if outdated d then superseded_document now document_id d else d) <$> t_documents (t_mem (db w)) !! k) as Hw1.
  { intros k. rewrite E1. cbn. by rewrite lookup_update_rows. }
  assert (t_documents (t_mem (db w1)) !! document_id = t_documents (t_mem (db w)) !! document_id) as Hself.
  { rewrite Hw1. destruct (t_documents (t_mem (db w)) !! document_id) as [d|] eqn:Hd; [|done]. cbn.
    unfold outdated, visible. pose proof (Hk _ _ Hd) as E. cbn in E. rewrite E.
    rewrite (bool_decide_eq_true_2 (document_id = document_id)) by done. by rewrite !andb_false_r. }
  assert (t_documents (t_mem (set_tbl (R := ChunkRow) T (db w3))) = t_documents (t_mem (db w2))) as Edocs
    by by rewrite E3.
  split.
  - cbn [db set_db]. rewrite Edocs, E2. cbn. rewrite lookup_insert_eq. by rewrite Hself.
  - intros d Hd. apply Hown. by rewrite Hself.
  - intros k Hne. cbn [db set_db]. rewrite Edocs, E2. cbn. rewrite lookup_insert_ne by done. apply Hw1.
  - exact Hids.
  - intros k c Hc Ht Hd. cbn in Hc. destruct (Hout k c Hc) as [Hold|[Hnew _]].
    + rewrite E3 in Hold. cbn in Hold. apply map_lookup_filter_Some in Hold as [_ Hv]. simpl in Hv.
      unfold visible in Hv. cbn in Hv. by rewrite !bool_decide_eq_true_2 in Hv.
    + apply list_elem_of_fmap in Hnew as (l & -> & Hl). by exists l.
  - intros l Hl. cbn. destruct (Hin (new_chunk context sha256 document_id l)) as [Hc _].
    { by apply list_elem_of_fmap_2. }
    destruct l as [leaf id]. exact Hc.
  - intros k c ke e Hc Ht Hd He. destruct (HC k c Hc) as (c' & Hc' & Et & Ed).
    apply (Hcite k c' ke e); [by rewrite E2, E1|congruence|congruence|by rewrite E2, E1].
  - cbn. by rewrite E3, E2, E1.
Qed.
End Rows.

Lemma insert_all_nodup {R K} `{SqlTableOk R K} tenant (rows : list R) w u w' :
  insert_all tenant rows w = (Ok u, w') → NoDup (row_key <$> rows).
Proof.
  revert w. induction rows as [|r rows IH]; intros w Hi; [constructor|].
  cbn [insert_all] in Hi. apply bind_ok in Hi as ([] & w1 & (_ & _ & _ & ->)%sql_insert_ok & Hi).
  constructor; [|by eapply IH]. intros (x & E & Hx)%list_elem_of_fmap.
  apply insert_all_ok in Hi as (t & _ & _ & Hin & _). destruct (Hin x Hx) as [_ Hn].
  cbn [db set_db] in Hn. rewrite tbl_set_tbl, <- E, lookup_insert_eq in Hn. discriminate Hn.
Qed.

Lemma ingest_rows_same_saved context sha256 command id key uri now leaves :
  respects same_saved (ingest_rows context sha256 command id key uri now leaves).
Proof.
  unfold ingest_rows, supersede, upsert_document, delete_chunks.
  repeat first [apply insert_all_same_saved | respects_auto].
Qed.

Section Ingest.
Context {I : Type} `{VectorIndexOk I} (sv : Services (KnowledgeState I)).
Context (uuid5 : uuid → pystr → uuid) (sha256 : pystr → pystr).
Context (py_lower : pystr → pystr) (is_digit : N → bool).

(** The tables, open and committed, and the index are as they were. *)
Definition same_stores : relation (KnowledgeState I) := λ s s',
  db (ks_world s') = db (ks_world s) ∧ saved (ks_world s') = saved (ks_world s) ∧
  ks_index s' = ks_index s.
#[export] Instance same_stores_preorder : PreOrder same_stores.
Proof. unfold same_stores. split; [by intros ?|intros ? ? ?; intuition congruence]. Qed.

(** The ports do what they do elsewhere. *)
Context (Hput : ∀ key bytes type, respects same_stores (put_object sv key bytes type)).
Context (Hembed : ∀ texts, respects same_stores (embed sv texts)).

Lemma ensure_ready_stores : respects same_stores (ensure_ready sv).
Proof.
  unfold ensure_ready. apply respects_bind; [apply _|by apply respects_gets; apply _|].
  intros ready. destruct (negb ready); [|by apply respects_ret; apply _].
  apply respects_bind; [apply _| |intros _; by apply respects_modify].
  intros s. unfold on_index. destruct (vi_ensure_ready _ _) as [r i] eqn:E.
  apply ready_keeps in E as ->. done.
Qed.

Lemma on_index_world {A} (m : M I A) s r s' :
  on_index m s = (r, s') → ks_world s' = ks_world s ∧ ks_ready s' = ks_ready s ∧
    m (ks_index s) = (r, ks_index s').
Proof. unfold on_index. destruct (m (ks_index s)) as [r0 i]. by intros [= <- <-]. Qed.

Lemma on_world_index {A} (m : Prog A) (s : KnowledgeState I) r s' :
  on_world m s = (r, s') → ks_index s' = ks_index s ∧ m (ks_world s) = (r, ks_world s').
Proof. unfold on_world. destruct (m (ks_world s)) as [r0 i]. by intros [= <- <-]. Qed.

Lemma tombstone_each_ok ids s u s' :
  tombstone_each ids s = (Ok u, s') →
  ks_world s' = ks_world s ∧
  (∀ c, stored (ks_index s') c ↔ stored (ks_index s) c) ∧
  (∀ c, live (ks_index s') c ↔ live (ks_index s) c ∧ ix_document_id c ∉ ids).
Proof.
  revert s. induction ids as [|id ids IH]; intros s; cbn [tombstone_each].
  - intros [= _ <-]. split_and!; [done|done|set_solver].
  - intros ([] & s1 & (Ew & _ & Ei)%on_index_world & Hr)%bind_ok. apply IH in Hr as (-> & Hs & Hl).
    split_and!; [done| |].
    + intros c. rewrite Hs. by apply (tombstone_stored id).
    + intros c. rewrite Hl, (tombstone_live id _ _ c Ei), elem_of_cons. naive_solver.
Qed.

(** What comes after the rows. *)
Definition reindex (command : IngestDocumentCommand) (context : AccessContext) (id : uuid)
    (leaves : list (LeafChunk * uuid)) (superseded_ids : list uuid)
    : M (KnowledgeState I) IngestedDocument :=
  tombstone_each superseded_ids ;;;
  on_index (vi_delete_document id) ;;;
  index_leaves sv sha256 command context id leaves ;;;
  ret {| gd_document_id := id; gd_chunk_count := length leaves;
         gd_storage_key := storage_key_of context id |}.

Lemma reindex_ok command context id leaves ids s g s' :
  reindex command context id leaves ids s = (Ok g, s') →
  NoDup leaves.*2 →
  (∀ c, stored (ks_index s) c → ix_document_id c ≠ id → ix_chunk_id c ∉ leaves.*2) →
  db (ks_world s') = db (ks_world s) ∧ saved (ks_world s') = saved (ks_world s) ∧
  ∃ vectors, length vectors = length leaves ∧ ∀ c, live (ks_index s') c ↔
    c ∈ indexable sha256 command context id <$> zip leaves vectors ∨
    (live (ks_index s) c ∧ ix_document_id c ≠ id ∧ ix_document_id c ∉ ids).
Proof.
  intros ([] & s1 & H1 & ([] & s2 & H2 & ([] & s3 & H3 & [= _ <-])%bind_ok)%bind_ok)%bind_ok Hnd Hids.
  apply tombstone_each_ok in H1 as (Ew1 & Hs1 & Hl1). apply on_index_world in H2 as (Ew2 & _ & Ei2).
  assert (∀ c, live (ks_index s2) c ↔ live (ks_index s) c ∧ ix_document_id c ≠ id ∧ ix_document_id c ∉ ids) as Hl2.
  { intros c. rewrite (delete_live _ _ _ c Ei2), Hl1. tauto. }
  assert (∀ c, stored (ks_index s2) c ↔ stored (ks_index s) c ∧ ix_document_id c ≠ id) as Hs2.
  { intros c. rewrite (delete_stored _ _ _ c Ei2), Hs1. tauto. }
  unfold index_leaves in H3. case_bool_decide as Hn; cbn [negb] in H3.
  - injection H3 as <-. split_and!; [congruence|congruence|]. exists []. subst leaves. split; [done|].
    intros c. rewrite Hl2. simpl. set_solver.
  - apply bind_ok in H3 as (vectors & s4 & H3 & H4).
    pose proof (Hembed ((λ l, contextual_text l.1) <$> leaves) s2) as He. rewrite H3 in He. simpl in He.
    destruct He as (Ed & Es & Ei). destruct (Nat.eqb_spec (length vectors) (length leaves)) as [Hlen|Hlen];
      cbn [negb] in H4; [|discriminate H4].
    apply on_index_world in H4 as (Ew4 & _ & Ei4). rewrite Ei in Ei4. split_and!; [congruence|congruence|].
    exists vectors. split; [done|]. intros c. rewrite <- Hl2.
    assert (ix_chunk_id <$> (indexable sha256 command context id <$> zip leaves vectors) = leaves.*2) as Eids.
    { etrans; [|exact (f_equal (fmap snd) (fst_zip leaves vectors (Nat.eq_le_incl _ _ (eq_sym Hlen))))].
      rewrite <- !list_fmap_compose. apply list_fmap_ext. by intros i [[leaf lid] v] _. }
    assert (∀ b, b ∈ indexable sha256 command context id <$> zip leaves vectors →
      ix_document_id b = id ∧ ix_chunk_id b ∈ leaves.*2) as Hb.
    { intros b Hb. split; [by apply list_elem_of_fmap in Hb as ([[? ?] ?] & -> & _)|].
      rewrite <- Eids. by apply list_elem_of_fmap_2. }
    apply (upsert_live _ _ _ c Ei4); [|by rewrite Eids|].
    + intros a b [_ Ha]%Hs2 [-> _]%Hb. done.
    + intros a b [Ha Hne]%Hs2 [_ Hin]%Hb E. apply (Hids a Ha Hne). by rewrite E.
Qed.

(** An ingestion ends before its rows are written, changing nothing, or goes on from
    the rows it wrote. *)
Abbreviation ingest := (ingest_document sv uuid5 sha256 py_lower is_digit).
Abbreviation id_of command context := (document_id_for uuid5 (name_of command context)).
Abbreviation key_of command context := (doc_key_for uuid5 (name_of command context)).

Lemma ingest_cases command context s r s' :
  clean (ks_world s) → ingest command context s = (r, s') →
  let id := id_of command context in
  (same_stores s s' ∧ is_ok r = false) ∨
  (∃ found uri now ids s1 s2 w1,
     let leaves := with_ids uuid5 id found in
     leaves_of_content py_lower is_digit (ic_content command) = Ok found ∧ same_stores s s1 ∧
     ingest_rows context sha256 command id (key_of command context) uri now leaves (ks_world s1) = (Ok ids, w1) ∧
     db (ks_world s2) = db w1 ∧ saved (ks_world s2) = db w1 ∧ ks_index s2 = ks_index s ∧
     reindex command context id leaves ids s2 = (r, s')).
Proof.
  intros Hc. cbv zeta. unfold ingest_document. destruct (_ && _); [by intros [= <- <-]; left|].
  unfold bind at 1. pose proof ensure_ready_stores s as He0.
  destruct (ensure_ready sv s) as [[u|e] s0]; [|by intros [= <- <-]; left]. cbv zeta.
  simpl in He0. unfold bind at 1.
  match goal with |- context [put_object sv ?a ?b ?c s0] => pose proof (Hput a b c s0) as He1;
    destruct (put_object sv a b c s0) as [[uri|e] s1] end; simpl in He1;
    [|intros [= <- <-]; left; split; [by etrans|done]].
  assert (same_stores s s1) as H01 by by etrans. clear He0 He1.
  unfold bind at 1, lift_res. destruct (leaves_of_content _ _ _) as [found|e] eqn:Ef;
    [|by intros [= <- <-]; left].
  unfold bind at 1. unfold on_world at 1, now_utc. cbv zeta.
  set (now := utc (ks_world s1) _). set (s2 := {| ks_world := _ |}).
  assert (same_stores s s2) as H02 by exact H01.
  unfold bind at 1. unfold on_world, session_begin at 1.
  match goal with |- context [ingest_rows ?a ?b ?c ?d ?e ?f ?g ?h ?i] =>
    pose proof (ingest_rows_same_saved a b c d e f g h (ks_world s2)) as Hs;
    destruct (ingest_rows a b c d e f g h i) as [[ids|e'] w1] eqn:Er end; unfold same_saved in Hs; simpl in Hs.
  - intros Hr. right. eexists found, uri, now, ids, s2, _, w1.
    split; [done|]. split; [exact H02|]. split; [exact Er|].
    split; [|split; [|split; [|exact Hr]]]; [done|done|]. apply H02.
  - intros [= <- <-]. left. split; [|done]. destruct H02 as (Ed & Es & Ei). unfold clean in Hc.
    change (saved w1 = saved (ks_world s2)) in Hs. split_and!; [simpl|simpl|exact Ei]; congruence.
Qed.

(** C7: an ingestion that succeeds leaves its document active and current with exactly the
    chunks of its text, closes the other current versions of the tenant, was cited by no
    evidence, and leaves the index serving exactly the new points beside those of other
    documents; a row that was there keeps its access list. *)
Theorem ingest_exact command context s g s' :
  let id := id_of command context in
  clean (ks_world s) → keyed (t_documents (t_mem (db (ks_world s)))) →
  (∀ seq c, stored (ks_index s) c → ix_document_id c ≠ id →
     ix_chunk_id c ≠ chunk_id_for uuid5 id INDEX_VERSION seq) →
  ingest command context s = (Ok g, s') →
  ∃ found uri now ids vectors,
    let leaves := with_ids uuid5 id found in
    leaves_of_content py_lower is_digit (ic_content command) = Ok found ∧
    gd_document_id g = id ∧ gd_chunk_count g = length found ∧
    ingested context sha256 command id (key_of command context) uri now leaves
      (db (ks_world s)) (db (ks_world s')) ids ∧
    clean (ks_world s') ∧ length vectors = length found ∧
    ∀ c, live (ks_index s') c ↔
      c ∈ indexable sha256 command context id <$> zip leaves vectors ∨
      (live (ks_index s) c ∧ ix_document_id c ≠ id ∧ ix_document_id c ∉ ids).
Proof.
  cbv zeta. intros Hc Hk Hids Hr. destruct (ingest_cases _ _ _ _ _ Hc Hr)
    as [[_ [=]]|(found & uri & now & ids & s1 & s2 & w1 & Ef & (Ed & _ & _) & Er & Ed2 & Es2 & Ei2 & Hre)].
  rewrite <- Ed in Hk. pose proof (ingest_rows_ok _ _ _ _ _ _ _ _ _ _ _ Hk Er) as Hi. rewrite Ed in Hi.
  set (leaves := with_ids uuid5 _ found) in *.
  assert (NoDup leaves.*2) as Hnd.
  { apply bind_ok in Er as (? & ? & _ & (? & ? & _ & (? & ? & _ & (? & ? & Hn & _)%bind_ok)%bind_ok)%bind_ok).
    apply insert_all_nodup in Hn. rewrite <- list_fmap_compose in Hn.
    erewrite list_fmap_ext; [exact Hn|]. by intros i [leaf lid] _. }
  pose proof Hre as (_ & _ & _ & (_ & _ & _ & (_ & _ & _ & [= Eg _])%bind_ok)%bind_ok)%bind_ok.
  destruct (reindex_ok _ _ _ _ _ _ _ _ Hre Hnd) as (Ew & Es & vectors & Hlen & Hlive).
  { rewrite Ei2. intros c Hcs Hne Hin. apply list_elem_of_fmap in Hin as ([leaf lid] & E & Hin).
    apply list_elem_of_fmap in Hin as (l & [= -> ->] & _). by apply (Hids (lc_seq l) c Hcs Hne). }
  exists found, uri, now, ids, vectors. rewrite Ew, Ed2. unfold clean. rewrite Ew, Es.
  assert (length leaves = length found) as El by apply length_fmap.
  split_and!; [done|by rewrite <- Eg|by rewrite <- Eg|done|congruence|congruence|].
  by rewrite <- Ei2.
Qed.

(** C37: once a piece of evidence cites a chunk of a document, the document cannot be
    ingested again: the ingestion fails and changes neither the tables nor the index. *)
Theorem cited_document_is_not_reingested command context s r s' k c ke e :
  clean (ks_world s) → keyed (t_documents (t_mem (db (ks_world s)))) →
  t_chunks (t_mem (db (ks_world s))) !! k = Some c → ck_tenant_id c = tenant_id context →
  ck_document_id c = id_of command context →
  t_evidence (t_mem (db (ks_world s))) !! ke = Some e → er_chunk_id e = Some k →
  ingest command context s = (r, s') →
  is_ok r = false ∧ db (ks_world s') = db (ks_world s) ∧ clean (ks_world s') ∧ ks_index s' = ks_index s.
Proof.
  intros Hc Hk Hck Ht Hd He Hek Hr. destruct (ingest_cases _ _ _ _ _ Hc Hr)
    as [[(Ed & Es & Ei) Ho]|(found & uri & now & ids & s1 & s2 & w1 & Ef & (Ed & _ & _) & Er & _)].
  - unfold clean in *. split_and!; [done|done|congruence|done].
  - rewrite <- Ed in Hk. pose proof (ingest_rows_ok _ _ _ _ _ _ _ _ _ _ _ Hk Er) as Hi. rewrite Ed in Hi.
    by destruct (ig_uncited _ _ _ _ _ _ _ _ _ _ _ Hi k c ke e Hck Ht Hd He).
Qed.

(** A global document is refused to a caller without the publishing scope before anything
    happens. *)
Theorem global_publish_needs_the_scope command context s :
  ic_scope command = "global" → GLOBAL_PUBLISH_SCOPE ∉ scopes context →
  ∃ msg, ingest command context s = (Raise (Exn PermissionDeniedError msg), s).
Proof.
  intros Hs Hp. unfold ingest_document. rewrite bool_decide_eq_true_2 by done.
  rewrite bool_decide_eq_false_2 by done. by eexists.
Qed.

(** Soft-deleting a document of another tenant changes no row of it and still takes its
    points out of every search. *)
Theorem soft_delete_reaches_other_tenants id context s u s' :
  clean (ks_world s) →
  (∀ k d, t_documents (t_mem (db (ks_world s))) !! k = Some d → do_id d = id →
     do_tenant_id d ≠ tenant_id context) →
  (∀ k c, t_chunks (t_mem (db (ks_world s))) !! k = Some c → ck_document_id c = id →
     ck_tenant_id c ≠ tenant_id context) →
  soft_delete_document id context s = (Ok u, s') →
  db (ks_world s') = db (ks_world s) ∧
  (∀ c, ix_document_id c = id → ¬ live (ks_index s') c).
Proof.
  destruct u. intros Hc Hd Hk ([] & s1 & (Ei & Hr)%on_world_index & (Ew & _ & Et)%on_index_world)%bind_ok.
  split; [|intros c E Hl; by apply (tombstone_live _ _ _ c Et) in Hl as [_ ?]].
  rewrite Ew. apply session_begin_ok in Hr as (w1 & Hr & ->). cbn [db set_saved].
  apply bind_ok in Hr as (now1 & w2 & [= <- <-] & Hr).
  apply bind_ok in Hr as (n & w3 & (_ & _ & ->)%sql_update_ok & Hr).
  apply bind_ok in Hr as (now2 & w4 & [= <- <-] & Hr).
  apply bind_ok in Hr as (n2 & w5 & (_ & _ & ->)%sql_update_ok & [= <-]).
  simpl. rewrite !update_rows_none; [by destruct (db (ks_world s)), t_mem| |].
  - intros k c Hl. simpl in Hl. unfold visible. apply andb_false_iff.
    destruct (decide (ck_document_id c = id)) as [E|E]; [left|right]; apply bool_decide_eq_false_2; [|done].
    by apply (Hk k).
  - intros k d Hl. unfold visible. apply andb_false_iff.
    destruct (decide (do_id d = id)) as [E|E]; [left|right]; apply bool_decide_eq_false_2; [|done].
    by apply (Hd k).
Qed.
End Ingest.

(** ** Names, ids and versions *)

Definition colon_free (s : pystr) : Prop := 58%N ∉ chars s.

Lemma hex_digit_not_colon d : (d < 16)%N → hex_digit d ≠ 58%N.
Proof.
  intros Hd. assert (d ∈ (N.of_nat <$> seq 0 16)) as Hin.
  { apply list_elem_of_fmap. exists (N.to_nat d). split; [lia|]. apply elem_of_seq. lia. }
  revert Hin. clear Hd. revert d. apply (proj1 (Forall_forall _ _)). vm_compute.
  repeat constructor; intros [=].
Qed.

Lemma hex_digits_colon_free n u : 58%N ∉ hex_digits n u.
Proof.
  revert u. induction n as [|n IH]; intros u; cbn [hex_digits]; [set_solver|].
  rewrite elem_of_app, list_elem_of_singleton. intros [H|H]; [by eapply IH|].
  apply (hex_digit_not_colon (u mod 16)); [apply N.mod_lt; lia|done].
Qed.

Lemma uuid_str_colon_free u : colon_free (uuid_str u).
Proof.
  unfold colon_free, uuid_str. cbn [chars].
  assert (∀ i n, 58%N ∉ take n (drop i (hex_digits 32 u))) as Hg.
  { intros i n Hin. apply (hex_digits_colon_free 32 u). apply elem_of_take in Hin as (j & Hj & _).
    rewrite lookup_drop in Hj. by eapply list_elem_of_lookup_2. }
  rewrite !elem_of_app, !list_elem_of_singleton. intros H.
  repeat match goal with Hor : _ ∨ _ |- _ => destruct Hor as [Hor|Hor] end;
    first [discriminate H|by eapply Hg].
Qed.

Lemma split_at_colon (a b r s : list N) :
  58%N ∉ a → 58%N ∉ b → a ++ 58%N :: r = b ++ 58%N :: s → a = b ∧ r = s.
Proof.
  revert b. induction a as [|x a IH]; intros [|y b] Ha Hb; simpl.
  - by intros [= <-].
  - intros [= <- _]. set_solver.
  - intros [= -> _]. set_solver.
  - intros [= <- E]. apply IH in E as [-> ->]; [done|set_solver..].
Qed.

(** Fields without colons are read back off the name they make. *)
Lemma join_colon_inj l1 l2 :
  Forall colon_free l1 → Forall colon_free l2 → l1 ≠ [] → l2 ≠ [] →
  py_join ":" l1 = py_join ":" l2 → l1 = l2.
Proof.
  assert (∀ s x r, chars (py_join ":" (s :: x :: r)) = chars s ++ 58%N :: chars (py_join ":" (x :: r))) as Hc.
  { intros [s] [x] r. done. }
  revert l2. induction l1 as [|[s] l1 IH]; intros [|[t] l2] H1 H2 N1 N2 E; try done.
  apply Forall_cons in H1 as [Hs H1]. apply Forall_cons in H2 as [Ht H2].
  apply (f_equal chars) in E. destruct l1 as [|x l1], l2 as [|y l2].
  - cbn in E. by subst.
  - rewrite Hc in E. cbn [py_join chars] in E. destruct Hs. cbn. rewrite E. set_solver.
  - rewrite Hc in E. cbn [py_join chars] in E. destruct Ht. cbn. rewrite <- E. set_solver.
  - rewrite !Hc in E. apply split_at_colon in E as [Es E]; [|exact Hs|exact Ht]. cbn in Es. subst t.
    f_equal. apply IH; [done..|]. destruct (py_join ":" (x :: l1)), (py_join ":" (y :: l2)). cbn in E. by subst.
Qed.

(** A name whose parts have no colons. *)
Definition plain_name (n : DocumentName) : Prop :=
  colon_free (dn_domain n) ∧ colon_free (_identity (dn_title n) (dn_identity_key n)) ∧
  colon_free (dn_source_version n) ∧ colon_free (dn_scope n).

Lemma plain_fields n : plain_name n → Forall colon_free (document_fields n).
Proof.
  intros (? & ? & ? & ?). unfold document_fields. case_bool_decide;
    repeat (constructor; [first [done|apply uuid_str_colon_free|unfold colon_free; cbn; set_solver]|]); constructor.
Qed.

Lemma same_document_same_key n1 n2 :
  plain_name n1 → plain_name n2 →
  py_join ":" (document_fields n1) = py_join ":" (document_fields n2) →
  doc_key_fields n1 = doc_key_fields n2.
Proof.
  intros H1%plain_fields H2%plain_fields E. apply join_colon_inj in E; [|done..| |];
    [|unfold document_fields; by case_bool_decide..].
  unfold document_fields in E. unfold doc_key_fields.
  destruct (bool_decide (dn_scope n1 = _)), (bool_decide (dn_scope n2 = _)); injection E; congruence.
Qed.

(** Two documents of different titles and keys can be given one id: a colon in a title or in
    a version is read as the one between them. *)
Theorem names_with_colons_collide (uuid5 : uuid → pystr → uuid) (tenant workspace : uuid) :
  ∃ n1 n2, _identity (dn_title n1) (dn_identity_key n1) ≠ _identity (dn_title n2) (dn_identity_key n2) ∧
    py_join ":" (doc_key_fields n1) ≠ py_join ":" (doc_key_fields n2) ∧
    document_id_for uuid5 n1 = document_id_for uuid5 n2.
Proof.
  set (n title version := {| dn_tenant_id := tenant; dn_workspace_id := workspace; dn_domain := "shared";
    dn_title := title; dn_source_version := version; dn_scope := "tenant"; dn_identity_key := None |}).
  exists (n "plan:2" "1"), (n "plan" "2:1"). split; [by vm_compute|]. split.
  - unfold doc_key_fields. cbn [n dn_scope dn_tenant_id dn_workspace_id dn_domain dn_title dn_identity_key].
    rewrite !bool_decide_eq_false_2 by done. intros E.
    assert (∀ a b : pystr, uuid_str tenant = uuid_str tenant → py_join ":" ["dockey"; uuid_str tenant;
      uuid_str workspace; "shared"; a] = py_join ":" ["dockey"; uuid_str tenant; uuid_str workspace; "shared"; b] →
      a = b) as Hinj.
    { intros [a] [b] _ Eq. apply (f_equal chars) in Eq. cbn [py_join py_app chars] in Eq.
      repeat (first [apply app_inv_head in Eq|injection Eq as Eq]). by subst. }
    apply Hinj in E; [|done]. by vm_compute in E.
  - reflexivity.
Qed.

Section Shelf.
Context (uuid5 : uuid → pystr → uuid).

(** The names in use: without stray colons, and no two of them hashed to one id. *)
Context (names : list DocumentName).
Context (Hplain : Forall plain_name names).
Context (Hfree : ∀ n1 n2, n1 ∈ names → n2 ∈ names →
           document_id_for uuid5 n1 = document_id_for uuid5 n2 →
           py_join ":" (document_fields n1) = py_join ":" (document_fields n2)).

(** Documents sit under their ids, ids and keys are made of a name in use, and a
    tenant has one current version of a document. *)
Record shelf (x : Db) : Prop := {
  sh_keyed : keyed (t_documents (t_mem x));
  sh_named k d : t_documents (t_mem x) !! k = Some d → ∃ n, n ∈ names ∧
    do_id d = document_id_for uuid5 n ∧ do_doc_key d = Some (doc_key_for uuid5 n);
  sh_current k1 k2 d1 d2 :
    t_documents (t_mem x) !! k1 = Some d1 → t_documents (t_mem x) !! k2 = Some d2 →
    do_tenant_id d1 = do_tenant_id d2 → do_doc_key d1 = do_doc_key d2 →
    do_is_current d1 = true → do_is_current d2 = true → k1 = k2 }.

Lemma same_id_same_key n1 n2 :
  n1 ∈ names → n2 ∈ names → document_id_for uuid5 n1 = document_id_for uuid5 n2 →
  doc_key_for uuid5 n1 = doc_key_for uuid5 n2.
Proof.
  intros H1 H2 E%Hfree; [|done..]. rewrite Forall_forall in Hplain.
  unfold doc_key_for. rewrite (same_document_same_key n1 n2); auto.
Qed.

Lemma ingested_shelf context sha256 command uri now leaves ids x x' :
  let n := name_of command context in
  n ∈ names → shelf x →
  ingested context sha256 command (document_id_for uuid5 n) (doc_key_for uuid5 n) uri now leaves x x' ids →
  shelf x'.
Proof.
  cbv zeta. set (id := document_id_for uuid5 _). set (key := doc_key_for uuid5 _).
  intros Hn [Hk Hnm Hcur] Hi.
  (* the row of the document *)
  assert (∀ d, t_documents (t_mem x') !! id = Some d →
    do_id d = id ∧ do_doc_key d = Some key ∧ do_tenant_id d = tenant_id context) as Hid.
  { intros d Hd. rewrite (ig_document _ _ _ _ _ _ _ _ _ _ _ Hi) in Hd. injection Hd as <-.
    destruct (t_documents (t_mem x) !! id) as [d|] eqn:Hd; [|done]. cbn.
    split; [exact (Hk _ _ Hd)|]. split; [|by apply (ig_own _ _ _ _ _ _ _ _ _ _ _ Hi)].
    destruct (Hnm _ _ Hd) as (n' & Hp & E & ->). f_equal. apply same_id_same_key; [done|done|].
    rewrite <- E. exact (Hk _ _ Hd). }
  (* the other rows *)
  assert (∀ k d, k ≠ id → t_documents (t_mem x') !! k = Some d → ∃ d0,
    t_documents (t_mem x) !! k = Some d0 ∧ do_id d = do_id d0 ∧ do_doc_key d = do_doc_key d0 ∧
    do_tenant_id d = do_tenant_id d0 ∧
    (do_is_current d = true → do_is_current d0 = true ∧ outdated context id key d0 = false)) as Hoth.
  { intros k d Hne Hd. rewrite (ig_others _ _ _ _ _ _ _ _ _ _ _ Hi) in Hd by done.
    apply fmap_Some in Hd as (d0 & Hd0 & ->). exists d0. split; [done|].
    destruct (outdated context id key d0) eqn:Eo; cbn; split_and!; try done. }
  assert (∀ k d, t_documents (t_mem x') !! k = Some d → k ≠ id → do_tenant_id d = tenant_id context →
    do_doc_key d = Some key → do_is_current d = true → False) as Hnone.
  { intros k d Hd Hne Ht Hky Hc. destruct (Hoth k d Hne Hd) as (d0 & Hd0 & Ei & Ek & Et & Hc0).
    destruct (Hc0 Hc) as [Hc1 Ho]. unfold outdated, visible in Ho. pose proof (Hk _ _ Hd0) as E0. cbn in E0.
    rewrite bool_decide_eq_true_2 in Ho by (cbn; congruence).
    rewrite bool_decide_eq_true_2 in Ho by congruence. rewrite Hc1 in Ho.
    rewrite bool_decide_eq_false_2 in Ho by congruence. discriminate Ho. }
  split.
  - intros k d Hd. destruct (decide (k = id)) as [->|Hne]; [by apply Hid|].
    destruct (Hoth k d Hne Hd) as (d0 & Hd0 & E & _). cbn. rewrite E. exact (Hk _ _ Hd0).
  - intros k d Hd. destruct (decide (k = id)) as [->|Hne].
    + destruct (Hid d Hd) as (E & Eky & _). eexists. split_and!; [exact Hn|exact E|exact Eky].
    + destruct (Hoth k d Hne Hd) as (d0 & Hd0 & E & Eky & _). rewrite E, Eky. by apply (Hnm k).
  - intros k1 k2 d1 d2 H1 H2 Et Eky Hc1 Hc2.
    destruct (decide (k1 = id)) as [->|Hn1], (decide (k2 = id)) as [->|Hn2]; [done|..].
    + destruct (Hid d1 H1) as (_ & E & T). exfalso. apply (Hnone k2 d2); congruence.
    + destruct (Hid d2 H2) as (_ & E & T). exfalso. apply (Hnone k1 d1); congruence.
    + destruct (Hoth k1 d1 Hn1 H1) as (e1 & X1 & _ & Y1 & Z1 & C1).
      destruct (Hoth k2 d2 Hn2 H2) as (e2 & X2 & _ & Y2 & Z2 & C2).
      destruct (C1 Hc1) as [? _], (C2 Hc2) as [? _]. apply (Hcur k1 k2 e1 e2); congruence.
Qed.

Lemma soft_delete_shelf id context : keeps (λ w, shelf (db w)) (soft_delete_rows context id).
Proof.
  unfold soft_delete_rows. intros w u w' Hw Hr.
  apply bind_ok in Hr as (now1 & w2 & [= <- <-] & Hr).
  apply bind_ok in Hr as (n & w3 & (_ & _ & ->)%sql_update_ok & Hr).
  apply bind_ok in Hr as (now2 & w4 & [= <- <-] & Hr).
  apply bind_ok in Hr as (n2 & w5 & (_ & _ & ->)%sql_update_ok & [= _ <-]).
  simpl in *. set (p := visible _ _). set (f := deleted_document _ _).
  assert (∀ k d, update_rows p f (t_documents (t_mem (db w))) !! k = Some d → ∃ d0,
    t_documents (t_mem (db w)) !! k = Some d0 ∧ do_id d = do_id d0 ∧ do_doc_key d = do_doc_key d0 ∧
    do_tenant_id d = do_tenant_id d0 ∧ (do_is_current d = true → do_is_current d0 = true)) as Hd.
  { intros k d Hd. rewrite lookup_update_rows in Hd. apply fmap_Some in Hd as (d0 & Hd0 & ->).
    exists d0. split; [done|]. by destruct (p d0). }
  destruct Hw as [Hk Hnm Hcur]. split; simpl.
  - intros k d (d0 & Hd0 & E & _)%Hd. cbn. rewrite E. exact (Hk _ _ Hd0).
  - intros k d (d0 & Hd0 & E & Eky & _)%Hd. rewrite E, Eky. by apply (Hnm k).
  - intros k1 k2 d1 d2 (e1 & X1 & _ & Y1 & Z1 & C1)%Hd (e2 & X2 & _ & Y2 & Z2 & C2)%Hd Et Eky Hc1 Hc2.
    apply (Hcur k1 k2 e1 e2); try congruence; auto.
Qed.

Context {I : Type} `{VectorIndexOk I} (sv : Services (KnowledgeState I)).
Context (sha256 : pystr → pystr) (py_lower : pystr → pystr) (is_digit : N → bool).
Context (Hput : ∀ key bytes type, respects same_stores (put_object sv key bytes type)).
Context (Hembed : ∀ texts, respects same_stores (embed sv texts)).

(** Committed or not, the tables are as they were. *)
Definition same_rows : relation (KnowledgeState I) := λ s s',
  db (ks_world s') = db (ks_world s) ∧ saved (ks_world s') = saved (ks_world s).
#[export] Instance same_rows_preorder : PreOrder same_rows.
Proof. unfold same_rows. split; [by intros ?|intros ? ? ?; intuition congruence]. Qed.

Lemma on_index_rows {A} (m : M I A) : respects same_rows (on_index m).
Proof. intros s. unfold on_index. by destruct (m (ks_index s)). Qed.

Lemma reindex_rows command context id leaves ids :
  respects same_rows (reindex sv sha256 command context id leaves ids).
Proof.
  assert (respects same_rows (tombstone_each ids)) as Ht.
  { induction ids as [|i ids IH]; cbn [tombstone_each]; [apply respects_ret; apply _|].
    apply respects_bind; [apply _|apply on_index_rows|done]. }
  unfold reindex, index_leaves. apply respects_bind; [apply _|done|intros _].
  apply respects_bind; [apply _|apply on_index_rows|intros _].
  apply respects_bind; [apply _| |intros _; apply respects_ret; apply _].
  destruct (negb _); [|apply respects_ret; apply _]. apply respects_bind; [apply _| |].
  - intros s. destruct (Hembed ((λ l, contextual_text l.1) <$> leaves) s) as (? & ? & _). done.
  - intros vectors. destruct (negb _); [apply respects_raise; apply _|apply on_index_rows].
Qed.

(** One step: an ingestion of a name in use or a soft deletion, however it ends, or
    anything that at most removes documents, as the sweeps and a purge do. *)
Inductive shelf_step : KnowledgeState I → KnowledgeState I → Prop :=
  | shelf_ingest command context s :
      name_of command context ∈ names →
      shelf_step s (ingest_document sv uuid5 sha256 py_lower is_digit command context s).2
  | shelf_delete id context s : shelf_step s (soft_delete_document id context s).2
  | shelf_other s s' :
      (clean (ks_world s) → clean (ks_world s')) →
      t_documents (t_mem (db (ks_world s'))) ⊆ t_documents (t_mem (db (ks_world s))) →
      shelf_step s s'.

Lemma ingest_shelf command context s :
  name_of command context ∈ names → clean (ks_world s) → shelf (db (ks_world s)) →
  let s' := (ingest_document sv uuid5 sha256 py_lower is_digit command context s).2 in
  clean (ks_world s') ∧ shelf (db (ks_world s')).
Proof.
  intros Hn Hc Hs. cbv zeta.
  destruct (ingest_document sv uuid5 sha256 py_lower is_digit command context s) as [r s'] eqn:Hr. cbn [snd].
  destruct (ingest_cases sv uuid5 sha256 py_lower is_digit Hput _ _ _ _ _ Hc Hr)
    as [[(Ed & Es & _) _]|(found & uri & now & ids & s1 & s2 & w1 & _ & (Ed & _ & _) & Er & Ed2 & Es2 & _ & Hre)].
  { unfold clean in *. rewrite Ed, Es. done. }
  pose proof (reindex_rows command context (document_id_for uuid5 (name_of command context))
    (with_ids uuid5 (document_id_for uuid5 (name_of command context)) found) ids s2) as Hrows.
  rewrite Hre in Hrows. destruct Hrows as [Hd Hsv]. cbn [snd] in Hd, Hsv. unfold clean. rewrite Hd, Hsv, Ed2, Es2.
  split; [done|]. eapply ingested_shelf; [exact Hn|exact Hs|]. rewrite <- Ed.
  eapply ingest_rows_ok; [|exact Er]. rewrite Ed. apply Hs.
Qed.

Lemma delete_shelf id context s :
  clean (ks_world s) → shelf (db (ks_world s)) →
  let s' := (soft_delete_document id context s).2 in
  clean (ks_world s') ∧ shelf (db (ks_world s')).
Proof.
  intros Hc Hs. cbv zeta. unfold soft_delete_document, bind.
  assert (respects same_saved (soft_delete_rows context id)) as Hq
    by (unfold soft_delete_rows; respects_auto).
  pose proof (session_begin_keeps shelf _ _ Hc Hs (soft_delete_shelf id context) Hq) as Hk.
  unfold on_world. destruct (session_begin _ _) as [[u|e] w] eqn:Ew; [|exact Hk].
  match goal with |- context [on_index ?m ?s1] => destruct (on_index_rows m s1) as [Hd Hsv] end.
  unfold clean. rewrite Hd, Hsv. exact Hk.
Qed.

Lemma shelf_less x x' : t_documents (t_mem x') ⊆ t_documents (t_mem x) → shelf x → shelf x'.
Proof.
  intros Hsub [Hk Hn Hcur].
  assert (∀ k d, t_documents (t_mem x') !! k = Some d → t_documents (t_mem x) !! k = Some d) as Hl
    by (intros k d Hd; by eapply lookup_weaken).
  split; [intros k d Hd; by apply Hk, Hl|intros k d Hd; eapply Hn; by apply Hl|].
  intros k1 k2 d1 d2 H1%Hl H2%Hl. by apply Hcur.
Qed.

Lemma shelf_steps s s' :
  rtc shelf_step s s' → clean (ks_world s) → shelf (db (ks_world s)) →
  clean (ks_world s') ∧ shelf (db (ks_world s')).
Proof.
  induction 1 as [s|s s1 s2 Hst _ IH]; intros Hc Hs; [done|].
  assert (clean (ks_world s1) ∧ shelf (db (ks_world s1))) as [? ?]; [|by apply IH].
  destruct Hst as [command context s Hn|id context s|s s1 Hc1 Hsub].
  - by apply ingest_shelf.
  - by apply delete_shelf.
  - split; [auto|by eapply shelf_less].
Qed.

(** C18: over any sequence of ingestions of documents under the names in use, soft deletions
    and transactions that at most remove documents, one after the other and however each
    ends, every document keeps the id and the key of its name and a tenant has at most
    one current version of each key, as long as the parts of the names in use carry no
    colon and no two of them hash to one document id. *)
Theorem one_current_version s s' :
  clean (ks_world s) → shelf (db (ks_world s)) → rtc shelf_step s s' →
  let documents := t_documents (t_mem (saved (ks_world s'))) in
  (∀ k d, documents !! k = Some d → ∃ n, n ∈ names ∧
     k = document_id_for uuid5 n ∧ do_doc_key d = Some (doc_key_for uuid5 n)) ∧
  (∀ k1 k2 d1 d2, documents !! k1 = Some d1 → documents !! k2 = Some d2 →
     do_tenant_id d1 = do_tenant_id d2 → do_doc_key d1 = do_doc_key d2 →
     do_is_current d1 = true → do_is_current d2 = true → k1 = k2).
Proof.
  intros Hc Hs Hst. destruct (shelf_steps _ _ Hst Hc Hs) as [Hc' [Hk Hn Hcur]]. cbv zeta.
  unfold clean in Hc'. rewrite Hc'. split; [|exact Hcur].
  intros k d Hd. destruct (Hn k d Hd) as (n & Hin & E & Ek). exists n. split_and!; [done| |done].
  rewrite <- E. symmetry. exact (Hk _ _ Hd).
Qed.
End Shelf.

(** ** Concrete instances *)

#[local] Instance example_index : VectorIndexPort MemoryIndex :=
  memory_index (foldl fadd float_zero) (λ x, x).
#[local] Instance example_index_ok : VectorIndexOk MemoryIndex :=
  memory_index_ok (foldl fadd float_zero) (λ x, x).

(** Ports that answer: one vector for every text, storage that keeps nothing, no reranker. *)
Definition example_services : Services (KnowledgeState MemoryIndex) :=
  {| put_object key _ _ := ret key; dimension := 1;
     embed texts := ret ((λ _, [float_of_int 1]) <$> texts); reranker := None;
     rerank_fetch_multiplier := 4 |}.

(** An injective [uuid5]. *)
Definition example_uuid5 (_ : uuid) (s : pystr) : uuid := N.pos (encode s).

Definition example_reader (tenant : uuid) : AccessContext :=
  {| tenant_id := tenant; workspace_id := 20; principal_id := 7; roles := ∅; groups := ∅;
     scopes := ∅; clearance := "internal"; plan_id := "starter"; feature_flags := ∅;
     record_visibility := "own"; visible_owners := None; max_autonomy_level := A1; support := None |}.

Definition example_command (acl : list pystr) : IngestDocumentCommand :=
  {| ic_title := "notes"; ic_content := "first words"; ic_identity_key := None; ic_domain := "shared";
     ic_classification := "internal"; ic_source_version := "1"; ic_content_type := "text/plain";
     ic_scope := "tenant"; ic_extra := []; ic_acl_principals := acl |}.

Definition example_knowledge : KnowledgeState MemoryIndex :=
  {| ks_world := example_world empty_db 1000; ks_index := {| mi_chunks := []; mi_tombstoned := ∅ |};
     ks_ready := false |}.

Abbreviation example_ingest acl :=
  (ingest_document example_services example_uuid5 (λ s, s) (λ s, s) ascii_digit (example_command acl)
     (example_reader 10)).

(** The document, ingested once. *)
Definition example_shelved : KnowledgeState MemoryIndex := (example_ingest ["tenant:*"] example_knowledge).2.

Definition example_id : uuid := document_id_for example_uuid5 (name_of (example_command []) (example_reader 10)).

Example example_ingested :
  (example_ingest ["tenant:*"] example_knowledge).1 =
    Ok {| gd_document_id := example_id; gd_chunk_count := 1;
          gd_storage_key := storage_key_of (example_reader 10) example_id |}.
Proof. vm_compute. reflexivity. Qed.

Lemma example_put key bytes type : respects same_stores (put_object example_services key bytes type).
Proof. intros s. done. Qed.
Lemma example_embed texts : respects same_stores (embed example_services texts).
Proof. intros s. done. Qed.

Definition example_query : SearchQuery :=
  {| sq_text := "words"; sq_domain := "shared"; sq_top_k := 3; sq_document_ids := [];
     sq_min_relevance := float_zero; sq_filters := [] |}.

Lemma search_is_trusted_witness :
  ∃ found s', search example_services (λ _, 0%N) example_query (example_reader 10) example_shelved = (Ok found, s') ∧
    length found = 1 ∧ ∀ e, e ∈ found → ∃ c, live (ks_index example_shelved) c ∧
      may_retrieve (example_reader 10) "shared" c ∧ ec_content e = ix_content c.
Proof.
  destruct (search example_services (λ _, 0%N) example_query (example_reader 10) example_shelved) as [r s'] eqn:E.
  assert (match r with Ok l => length l = 1 | Raise _ => False end) as Hr.
  { assert (r = (search example_services (λ _, 0%N) example_query (example_reader 10) example_shelved).1) as ->
      by by rewrite E. vm_compute. reflexivity. }
  destruct r as [found|]; [|destruct Hr]. exists found, s'. split; [reflexivity|]. split; [exact Hr|].
  intros e He. destruct (search_is_trusted example_services (λ _, 0%N) example_query (example_reader 10)
    example_shelved found s') as (_ & _ & Hall); [intros ? ?; reflexivity|intros ? ? ? ? [=]|exact E|].
  destruct (Hall e He) as (c & score & Hl & Hm & _ & Hc & _). exists c. exact (conj Hl (conj Hm Hc)).
Defined.

Lemma full_read_says_where_it_stops_witness :
  (0 <= 5)%Z ∧ ∃ kept dropped, ["abc"; "de"; "f"]%py = kept ++ dropped ∧ dropped ≠ [] ∧
    dt_text (_joined 1 "t" ["abc"; "de"; "f"]%py 5) = py_join (PyStr [10; 10]%N) kept.
Proof.
  split; [lia|].
  destruct (full_read_says_where_it_stops 1 "t" ["abc"; "de"; "f"]%py 5 ltac:(lia))
    as (kept & dropped & Ec & Et & _ & _ & Htr & _).
  exists kept, dropped. split; [exact Ec|]. split; [|exact Et]. apply Htr. reflexivity.
Defined.

(** The one row of each table. *)
Lemma example_documents : map_Forall (λ k d, do_id d = k ∧ do_tenant_id d = 10%N)
  (t_documents (t_mem (db (ks_world example_shelved)))).
Proof. apply (bool_decide_unpack _). vm_compute. exact Logic.I. Qed.
Lemma example_chunks : map_Forall (λ _ c, ck_tenant_id c = 10%N)
  (t_chunks (t_mem (db (ks_world example_shelved)))).
Proof. apply (bool_decide_unpack _). vm_compute. exact Logic.I. Qed.
Lemma example_clean : clean (ks_world example_shelved).
Proof. unfold clean. vm_cast_no_check (eq_refl (db (ks_world example_shelved))). Qed.

(** A global document of tenant 11, and its chunk. *)
Definition example_law : DocumentRow :=
  MkDocument 5 11 21 "law" None "shared" "file" "internal" "1" None 9 0 None "active" true None
    None None None None "global" ∅ ["tenant:*"].
Definition example_global : World :=
  example_world (set_mem (MkMem {[ 5%N := example_law ]}
    {[ 6%N := MkChunk 6 11 21 5 0 "article one" 0 11 "h" "" 0 "active" None ]} ∅ ∅ ∅ ∅) empty_db) 1000.

Lemma global_text_stays_home_witness :
  read_document (example_reader 10) 5 100 example_global =
    (Ok (Some {| dt_document_id := 5; dt_title := "law"; dt_text := ""; dt_chunk_count := 0;
                 dt_truncated := false |}), example_global).
Proof.
  apply (global_text_stays_home (example_reader 10) 5 example_law).
  - reflexivity.
  - reflexivity.
  - vm_compute. reflexivity.
  - intros [=].
  - intros k c Hc _. cbn in Hc. apply lookup_singleton_Some in Hc as [_ <-]. reflexivity.
Defined.

Lemma ingest_exact_witness :
  ∃ ids uri now leaves,
    ingested (example_reader 10) (λ s, s) (example_command ["tenant:*"]) example_id
      (doc_key_for example_uuid5 (name_of (example_command ["tenant:*"]) (example_reader 10))) uri now leaves
      empty_db (db (ks_world example_shelved)) ids.
Proof.
  destruct (example_ingest ["tenant:*"] example_knowledge) as [r s'] eqn:E.
  assert (is_ok r = true) as Hr.
  { assert (r = (example_ingest ["tenant:*"] example_knowledge).1) as -> by by rewrite E. vm_compute. reflexivity. }
  destruct r as [g|e]; [|discriminate Hr].
  destruct (ingest_exact example_services example_uuid5 (λ s, s) (λ s, s) ascii_digit example_put example_embed
    (example_command ["tenant:*"]) (example_reader 10) example_knowledge g s')
    as (found & uri & now & ids & vectors & _ & _ & _ & Hi & _).
  - reflexivity.
  - intros k d Hd. cbn in Hd. by rewrite lookup_empty in Hd.
  - intros seq c Hc. change (c ∈ @nil IndexableChunk) in Hc. destruct (proj1 (elem_of_nil c) Hc).
  - exact E.
  - exists ids, uri, now, (with_ids example_uuid5 example_id found).
    assert (ks_world example_shelved = ks_world s') as -> by (unfold example_shelved; by rewrite E). exact Hi.
Defined.

Definition example_law_command : IngestDocumentCommand :=
  {| ic_title := "law"; ic_content := "text"; ic_identity_key := None; ic_domain := "shared";
     ic_classification := "internal"; ic_source_version := "1"; ic_content_type := "text/plain";
     ic_scope := "global"; ic_extra := []; ic_acl_principals := [] |}.

Lemma global_publish_needs_the_scope_witness :
  is_ok (ingest_document example_services example_uuid5 (λ s, s) (λ s, s) ascii_digit example_law_command
           (example_reader 10) example_knowledge).1 = false.
Proof.
  destruct (global_publish_needs_the_scope example_services example_uuid5 (λ s, s) (λ s, s)
    ascii_digit example_law_command (example_reader 10) example_knowledge eq_refl (not_elem_of_empty _))
    as [msg E]. rewrite E. reflexivity.
Defined.

(** The shelved document, cited by a memory's evidence. *)
Definition example_cited : KnowledgeState MemoryIndex :=
  {| ks_world := example_world (set_mem (MkMem
       {[ example_id := MkDocument example_id 10 20 "notes" None "shared" "file" "internal" "1" None 9 0 None
                          "active" true None None None None None "tenant" ∅ ["tenant:*"] ]}
       {[ 6%N := MkChunk 6 10 20 example_id 0 "first words" 0 11 "h" "" 0 "active" None ]}
       {[ 8%N := {| er_evidence_id := 8; er_tenant_id := 10; er_workspace_id := 20;
                    er_source_document_id := example_id; er_chunk_id := Some 6%N; er_source_version := "1";
                    er_page := None; er_start_offset := None; er_end_offset := None; er_quote := None;
                    er_relevance_score := 0; er_classification := "internal"; er_provenance_hash := "h";
                    er_created_at := 0 |} ]} ∅ ∅ ∅) empty_db) 1000;
     ks_index := {| mi_chunks := []; mi_tombstoned := ∅ |}; ks_ready := false |}.

Lemma cited_document_is_not_reingested_witness :
  is_ok (example_ingest ["user:7"] example_cited).1 = false.
Proof.
  destruct (example_ingest ["user:7"] example_cited) as [r s'] eqn:E. cbn [fst].
  eapply (cited_document_is_not_reingested example_services example_uuid5 (λ s, s) (λ s, s) ascii_digit example_put
    (example_command ["user:7"]) (example_reader 10) example_cited r s' 6%N _ 8%N _);
    [reflexivity| |reflexivity|reflexivity|reflexivity|reflexivity|reflexivity|exact E].
  intros k d Hd. cbn [example_cited ks_world example_world db set_mem t_mem t_documents] in Hd.
  apply lookup_singleton_Some in Hd as [<- <-]. reflexivity.
Defined.

Lemma soft_delete_reaches_other_tenants_witness :
  let s' := (soft_delete_document example_id (example_reader 11) example_shelved).2 in
  db (ks_world s') = db (ks_world example_shelved) ∧
  ∀ c, ix_document_id c = example_id → ¬ live (ks_index s') c.
Proof.
  cbv zeta. destruct (soft_delete_document example_id (example_reader 11) example_shelved) as [r s'] eqn:E.
  assert (is_ok r = true) as Hr.
  { assert (r = (soft_delete_document example_id (example_reader 11) example_shelved).1) as -> by by rewrite E.
    vm_compute. reflexivity. }
  destruct r as [u|e]; [|discriminate Hr]. cbn [snd].
  apply (soft_delete_reaches_other_tenants example_id (example_reader 11) example_shelved u s').
  - exact example_clean.
  - intros k d Hd _. rewrite (proj2 (example_documents k d Hd)). intros [=].
  - intros k c Hc _. rewrite (example_chunks k c Hc). intros [=].
  - exact E.
Defined.

Lemma example_uuid5_inj a b : example_uuid5 NAMESPACE a = example_uuid5 NAMESPACE b → a = b.
Proof. by intros [= ?%(inj encode)]. Qed.

Lemma one_current_version_witness :
  let documents := t_documents (t_mem (saved (ks_world example_shelved))) in
  size documents = 1 ∧
  ∀ k1 k2 d1 d2, documents !! k1 = Some d1 → documents !! k2 = Some d2 →
    do_tenant_id d1 = do_tenant_id d2 → do_doc_key d1 = do_doc_key d2 →
    do_is_current d1 = true → do_is_current d2 = true → k1 = k2.
Proof.
  intros documents. split; [vm_compute; reflexivity|]. subst documents.
  set (name := name_of (example_command ["tenant:*"]) (example_reader 10)).
  assert (shelf example_uuid5 [name] (db (ks_world example_knowledge))) as Hs.
  { split; cbn; [intros k d Hd|intros k d Hd|intros k1 k2 d1 d2 Hd]; by rewrite lookup_empty in Hd. }
  assert (Forall plain_name [name]) as Hn.
  { constructor; [|constructor].
    unfold plain_name, colon_free. split_and!; apply (bool_decide_unpack _); vm_compute; reflexivity. }
  destruct (one_current_version example_uuid5 [name] Hn
    (λ n1 n2 _ _ E, example_uuid5_inj _ _ E) example_services (λ s, s) (λ s, s)
    ascii_digit example_put example_embed example_knowledge example_shelved eq_refl Hs) as [_ Hcur].
  - apply rtc_once. unfold example_shelved. apply shelf_ingest. left.
  - exact Hcur.
Defined.
