(* ===== verification/Retention.v ===== *)
(** * How long data is kept

    The schedule ([dw_platform/retention_policy.py]) and the two sweeps that enforce
    it: over memories and the evidence they cited ([dw_memory/retention.py]) and over
    soft-deleted documents ([dw_knowledge/retention.py]), with the worker's consumer.
    A drain sees every tenant's rows; a [LIMIT] takes rows in the order [scan] says. *)

From S2P Require Import Prelude Errors Kernel Domain Contracts MemoryPolicy Store Memory Knowledge.
Local Open Scope prog_scope.
Local Open Scope pystr_scope.

(** ** [retention_policy.py] *)

(** [None]: never swept. *)
Record RetentionClass := {
  cl_days : option Z;
  cl_description : pystr }.

Record KnowledgeRetention := {
  kr_deleted_grace_days : Z;
  kr_orphan_evidence_grace_days : Z }.

Record AuditRetention := {
  au_months_ahead : Z;
  au_enforced : bool;
  au_tables : gmap pystr RetentionClass }.

Record CheckpointRetention := {
  cp_superseded_days : Z;
  cp_idle_thread_days : Z }.

Record ChannelDeliveryRetention := { cd_pending_expiry_days : Z }.

Record RetentionPolicy := {
  rp_schema_version : pystr;
  rp_policy_id : pystr;
  rp_policy_version : pystr;
  rp_classes : gmap pystr RetentionClass;
  rp_knowledge : KnowledgeRetention;
  rp_audit : AuditRetention;
  rp_checkpoints : CheckpointRetention;
  rp_channel_deliveries : ChannelDeliveryRetention;
  rp_batch_limit : Z }.

Definition term_over (term : option RetentionClass) (now : datetime) : option datetime :=
  found ← term; n ← cl_days found; Some (now - days n)%Z.

(** [RetentionPolicy.cutoff_for] *)
Definition cutoff_for (p : RetentionPolicy) (name : pystr) (now : datetime) : option datetime :=
  term_over (rp_classes p !! name) now.

(** [AuditRetention.cutoff_for] *)
Definition audit_cutoff_for (a : AuditRetention) (table : pystr) (now : datetime) : option datetime :=
  if au_enforced a then term_over (au_tables a !! table) now else None.

(** [\d+\.\d+\.\d+], after [dots] more dots. *)
Fixpoint dotted (is_digit : N → bool) (dots : nat) (seen : bool) (l : list N) : bool :=
  match l with
  | [] => (dots =? 0) && seen
  | c :: r =>
      if is_digit c then dotted is_digit dots true r
      else if (c =? 46)%N
      then seen && match dots with S n => dotted is_digit n false r | 0 => false end
      else false
  end.

Definition class_valid (c : RetentionClass) : bool :=
  match cl_days c with Some n => (1 <=? n)%Z | None => true end.

(** The fields' constraints and [_idle_is_the_longer_term]. *)
Definition retention_policy_valid (is_digit : N → bool) (p : RetentionPolicy) : bool :=
  bool_decide (rp_schema_version p = "1.0")
  && dotted is_digit 2 false (chars (rp_policy_version p))
  && forallb (λ kv, class_valid kv.2) (map_to_list (rp_classes p))
  && (1 <=? kr_deleted_grace_days (rp_knowledge p))%Z
  && (1 <=? kr_orphan_evidence_grace_days (rp_knowledge p))%Z
  && ((1 <=? au_months_ahead (rp_audit p)) && (au_months_ahead (rp_audit p) <=? 24))%Z
  && forallb (λ kv, class_valid kv.2) (map_to_list (au_tables (rp_audit p)))
  && (1 <=? cp_superseded_days (rp_checkpoints p))%Z
  && (1 <=? cp_idle_thread_days (rp_checkpoints p))%Z
  && (cp_superseded_days (rp_checkpoints p) <=? cp_idle_thread_days (rp_checkpoints p))%Z
  && (1 <=? cd_pending_expiry_days (rp_channel_deliveries p))%Z
  && ((0 <? rp_batch_limit p) && (rp_batch_limit p <=? 10000))%Z.

(** ** Under [app.worker_drain] *)

(** [DELETE ... WHERE p RETURNING] over every tenant's rows: [restricted] and
    [cascade] are the foreign keys that point at the deleted ones. *)
Definition drain_delete {R K} `{SqlTable R K} (p : R → bool) (restricted : gmap K R → Db → bool)
    (cascade : gmap K R → Db → Db) : Prog (list R) :=
  let! w := get_state in
  let gone := filter (λ kv, p kv.2 = true) (tbl (db w)) in
  (when restricted gone (db w) then
     raise (IntegrityError pk_name) "update or delete violates foreign key constraint") ;;;
  modify (λ w, set_db (cascade gone
            (set_tbl (filter (λ kv, p kv.2 = false) (tbl (db w))) (db w))) w) ;;;
  ret (map_to_list gone).*2.

Section Sweeps.
(** [uuid5] of a lane's label, and the order rows are found in. *)
Context (system_actor : pystr → uuid) (scan : list uuid → list uuid).
Context (policy : RetentionPolicy).

(** [domain/audit.py] *)
Definition lane_audit_event (lane : pystr) (event_id tenant workspace : uuid)
    (action resource_type resource_id : pystr) (occurred_at : datetime) (details : gmap pystr json)
    : res AuditEvent :=
  match system_actor_label lane with
  | Raise e => Raise e
  | Ok label =>
      make_audit_event
        {| ae_id := event_id; ae_tenant_id := tenant; ae_workspace_id := workspace;
           ae_actor_id := system_actor lane; ae_action := action; ae_resource_type := resource_type;
           ae_resource_id := resource_id; ae_occurred_at := occurred_at; ae_run_id := None;
           ae_policy_decision := None; ae_trace_id := None;
           ae_details := <["actor" := JStr label]> details |}
  end.

(** [append_across_tenants], its events made from [rows] one at a time. *)
Fixpoint append_across_tenants {R} (event_of : R → uuid → res AuditEvent) (rows : list R) : Prog unit :=
  match rows with
  | [] => ret tt
  | r :: rest =>
      let! id := new_uuid in
      let! e := lift_res (event_of r id) in
      audit_append (ae_tenant_id e) e ;;;
      append_across_tenants event_of rest
  end.

Definition batch (found : list uuid) : list uuid :=
  take (Z.to_nat (rp_batch_limit policy)) (scan found).

(** *** [dw_memory/retention.py] *)

Definition LANE : pystr := "retention".
Definition EXPIRED_ACTION : pystr := "memory.item.expired".

Definition item_key (r : ItemRow) : uuid := mi_memory_id (ir_item r).

Definition expired_item (name : pystr) (cutoff : datetime) (r : ItemRow) : bool :=
  bool_decide (mi_retention_policy (ir_item r) = name) && (ir_created_at r <? cutoff)%Z.

Definition expired_event (name : pystr) (now : datetime) (r : ItemRow) (id : uuid) : res AuditEvent :=
  lane_audit_event LANE id (mi_tenant_id (ir_item r)) (mi_workspace_id (ir_item r)) EXPIRED_ACTION
    "memory_item" (uuid_str (item_key r)) now
    {[ "retention_class" := JStr name; "policy_version" := JStr (rp_policy_version policy) ]}.

(** [item_evidence] follows through its cascade. *)
Definition _delete_batch (name : pystr) (cutoff : datetime) : Prog (list uuid) := session_begin (
  let! w := get_state in
  let doomed := batch (item_key <$> filter (λ r, expired_item name cutoff r = true)
                                      (rows_of (R := ItemRow) (db w))) in
  let! removed := drain_delete (R := ItemRow) (λ r, bool_decide (item_key r ∈ doomed))
                    (λ _ _, false) (λ gone, unreferring ie_memory_id gone) in
  let! now := now_utc in
  append_across_tenants (expired_event name now) removed ;;;
  ret (item_key <$> removed)).

(** Cited by a memory. *)
Definition linked (d : Db) (e : EvidenceRow) : bool :=
  existsb (λ i, bool_decide (ie_evidence_id i = er_evidence_id e)) (rows_of (R := ItemEvidenceRow) d).

Definition orphaned (cutoff : datetime) (d : Db) (e : EvidenceRow) : bool :=
  (er_created_at e <? cutoff)%Z && negb (linked d e).

Definition _delete_orphan_evidence (now : datetime) : Prog nat :=
  let cutoff := (now - days (kr_orphan_evidence_grace_days (rp_knowledge policy)))%Z in
  session_begin (
    let! w := get_state in
    let doomed := batch (er_evidence_id <$> filter (λ e, orphaned cutoff (db w) e = true)
                                              (rows_of (R := EvidenceRow) (db w))) in
    let! removed := drain_delete (R := EvidenceRow) (λ e, bool_decide (er_evidence_id e ∈ doomed))
                      (refers (R := ItemEvidenceRow) (λ i, Some (ie_evidence_id i))) (λ _ d, d) in
    ret (length removed)).

(** The vectors of rows that are gone: a failure is logged. *)
Definition _purge_vectors (vector_index : option (list uuid → Prog unit)) (memory_ids : list uuid)
    : Prog unit :=
  match vector_index with
  | None => ret tt
  | Some delete => try_exception (delete memory_ids) (λ _, ret tt)
  end.

(** The loop over the classes. *)
Fixpoint prune_classes (vector_index : option (list uuid → Prog unit)) (now : datetime)
    (names : list pystr) : Prog unit :=
  match names with
  | [] => ret tt
  | name :: rest =>
      match cutoff_for policy name now with
      | None => ret tt
      | Some cutoff =>
          let! deleted := _delete_batch name cutoff in
          when negb (bool_decide (deleted = [])) then _purge_vectors vector_index deleted
      end ;;;
      prune_classes vector_index now rest
  end.

Definition memory_prune (vector_index : option (list uuid → Prog unit)) : Prog unit :=
  let! now := now_utc in
  prune_classes vector_index now (py_sorted (elements (dom (rp_classes policy)))) ;;;
  let! _ := _delete_orphan_evidence now in
  ret tt.

(** *** [dw_knowledge/retention.py] *)

Definition KNOWLEDGE_LANE : pystr := "retention_knowledge".
Definition PURGED_ACTION : pystr := "knowledge.document.purged".

Definition _expired (cutoff : datetime) (d : DocumentRow) : bool :=
  bool_decide (do_status d = "deleted")
  && match do_deleted_at d with Some t => (t <? cutoff)%Z | None => false end.

Definition _cites (x : Db) (d : DocumentRow) : bool :=
  existsb (λ e, bool_decide (er_source_document_id e = do_id d)) (rows_of (R := EvidenceRow) x).

(** What this pass may delete, and how many it must not. *)
Definition _candidates (cutoff : datetime) : Prog (list uuid * nat) := session_begin (gets (λ w,
  let expired := filter (λ d, _expired cutoff d = true) (rows_of (R := DocumentRow) (db w)) in
  (batch (do_id <$> filter (λ d, _cites (db w) d = false) expired),
   length (filter (λ d, _cites (db w) d = true) expired)))).

Definition purged_event (now : datetime) (d : DocumentRow) (id : uuid) : res AuditEvent :=
  lane_audit_event KNOWLEDGE_LANE id (do_tenant_id d) (do_workspace_id d) PURGED_ACTION
    "knowledge_document" (uuid_str (do_id d)) now
    {[ "policy_version" := JStr (rp_policy_version policy) ]}.

(** The chunks a deletion cascades to; [fk_evidence_chunk_id_chunks] is RESTRICT. *)
Definition chunks_gone (gone : gmap uuid DocumentRow) (x : Db) : gmap uuid ChunkRow :=
  filter (λ kv, is_Some (gone !! ck_document_id kv.2)) (t_chunks (t_mem x)).

Definition document_restricted (gone : gmap uuid DocumentRow) (x : Db) : bool :=
  refers (R := EvidenceRow) (λ e, Some (er_source_document_id e)) gone x
  || refers (R := EvidenceRow) er_chunk_id (chunks_gone gone x) x.

Definition _delete (doomed : list uuid) : Prog nat := session_begin (
  let! w := get_state in
  let! removed := drain_delete (R := DocumentRow)
    (λ d, bool_decide (do_id d ∈ doomed) && negb (_cites (db w) d))
    document_restricted documents_cascade in
  let! now := now_utc in
  append_across_tenants (purged_event now) removed ;;;
  ret (length removed)).

Section Knowledge.
Context {I : Type} `{VectorIndexPort I}.

(** What other tasks do to the tables and the index while a pass awaits: [others n],
    before its [n]-th call to the index; the last one before [_delete]. *)
Context (others : nat → KnowledgeState I → KnowledgeState I).

(** Points go first. *)
Fixpoint delete_points (n : nat) (doomed : list uuid) : M (KnowledgeState I) unit :=
  match doomed with
  | [] => ret tt
  | id :: rest =>
      on_index (vi_delete_document id) ;;;
      modify (others n) ;;;
      delete_points (S n) rest
  end.

Definition prune_among : M (KnowledgeState I) unit :=
  let! now := on_world now_utc in
  let cutoff := (now - days (kr_deleted_grace_days (rp_knowledge policy)))%Z in
  let! '(doomed, held) := on_world (_candidates cutoff) in
  modify (others 0) ;;;
  delete_points 1 doomed ;;;
  when negb (bool_decide (doomed = [])) then
    (let! _ := on_world (_delete doomed) in ret tt).
End Knowledge.

(** A pass with nothing in between. *)
Definition knowledge_prune {I} `{VectorIndexPort I} : M (KnowledgeState I) unit :=
  prune_among (λ _ s, s).
End Sweeps.

(** [consumers/retention.py]: a failed pass is logged. *)
Definition consume {S} (prune : M S unit) : M S unit := try_exception prune (λ _, ret tt).
