(* ===== verification/RetentionLaws.v ===== *)
(** * What the sweeps remove

    The theorems on [Retention]: what a pass may remove and that it is on record;
    that the points of a purged document are gone before its row; that a document
    held back by citations is purged in the end; and what the second transaction of
    the document sweep no longer asks. *)

From S2P Require Import Prelude Errors Kernel Domain Contracts MemoryPolicy Store Separation Chunking Memory Knowledge KnowledgeLaws Retention.
Local Open Scope prog_scope.
Local Open Scope pystr_scope.

(** ** The two statements of a sweep *)

Section Drain.
Context {R K : Type} `{SqlTable R K}.

Lemma drain_delete_run p restricted cascade w :
  drain_delete (R := R) p restricted cascade w =
    let gone := filter (λ kv, p kv.2 = true) (tbl (db w)) in
    if restricted gone (db w)
    then (Raise (Exn (IntegrityError pk_name) "update or delete violates foreign key constraint"), w)
    else (Ok (map_to_list gone).*2,
          set_db (cascade gone (set_tbl (filter (λ kv, p kv.2 = false) (tbl (db w))) (db w))) w).
Proof. unfold drain_delete. run. by destruct (restricted _ _). Qed.

(** What a deletion takes and what it leaves are the two halves of the table. *)
Lemma halves (p : R → bool) (t : gmap K R) k :
  filter (λ kv, p kv.2 = true) t !! k = None ↔ filter (λ kv, p kv.2 = false) t !! k = t !! k.
Proof.
  rewrite map_lookup_filter_None. split.
  - intros Hn. destruct (t !! k) as [r|] eqn:E.
    + apply map_lookup_filter_Some. split; [done|]. simpl.
      destruct Hn as [?|Hn]; [done|]. specialize (Hn _ eq_refl). simpl in Hn. by destruct (p r).
    + apply map_lookup_filter_None. by left.
  - intros E. destruct (t !! k) as [r|] eqn:Er; [right|by left]. intros r' [= <-] Hp. simpl in Hp.
    apply map_lookup_filter_Some in E as [_ E]. simpl in E. congruence.
Qed.

Lemma half_gone (p : R → bool) (t : gmap K R) k r :
  t !! k = Some r → filter (λ kv, p kv.2 = false) t !! k = None → p r = true.
Proof.
  intros Hk [Hn|Hn]%map_lookup_filter_None; [congruence|]. specialize (Hn _ Hk). simpl in Hn.
  by destruct (p r).
Qed.

Lemma half_subseteq (p : R → bool) (t : gmap K R) : filter (λ kv, p kv.2 = false) t ⊆ t.
Proof. apply map_filter_subseteq. Qed.
End Drain.

(** Only the trail grew; the clocks were not read. *)
Definition tracked (w w' : World) : Prop :=
  saved w' = saved w ∧ utc w' = utc w ∧ utc_reads w' = utc_reads w ∧ ids w' = ids w ∧
  ∃ audit, t_audit (db w) ⊆ audit ∧ db w' = set_tbl (R := AuditEvent) audit (db w).

#[export] Instance tracked_preorder : PreOrder tracked.
Proof.
  split.
  - intros w. split_and!; [done..|]. exists (t_audit (db w)). split; [done|].
    symmetry. exact (set_tbl_tbl (R := AuditEvent) (db w)).
  - intros w1 w2 w3 (S1 & U1 & N1 & I1 & a1 & A1 & E1) (S2 & U2 & N2 & I2 & a2 & A2 & E2).
    split_and!; [congruence..|]. exists a2. split.
    + etrans; [exact A1|]. by rewrite E1 in A2.
    + rewrite E2, E1. exact (set_tbl_twice (R := AuditEvent) a2 a1 (db w1)).
Qed.

(** The ids to come name no audit event. *)
Definition unused_ids (w : World) : Prop :=
  (∀ n m, ids w n = ids w m → n = m) ∧
  ∀ n t, t_audit (db w) !! (ids w (n + ids_issued w), t) = None.

Section Append.
Context {R : Type} (event_of : R → uuid → res AuditEvent).

Lemma append_tracked rows : respects tracked (append_across_tenants event_of rows).
Proof.
  induction rows as [|r rows IH]; [by apply respects_ret; apply _|]. cbn [append_across_tenants].
  apply respects_bind; [apply _| |intros id].
  - intros w. split_and!; [done..|]. exists (t_audit (db w)). split; [done|].
    symmetry. exact (set_tbl_tbl (R := AuditEvent) (db w)).
  - apply respects_bind; [apply _|by apply respects_lift; apply _|intros e].
    apply respects_bind; [apply _| |done].
    intros w. unfold audit_append. rewrite sql_insert_run by done.
    destruct (bool_decide _); [|done]. destruct (tbl (db w) !! row_key e) eqn:En; [done|].
    split_and!; [done..|]. eexists. split; [|done]. by apply insert_subseteq.
Qed.

(** Every row has its event. *)
Lemma append_records rows w u w' :
  append_across_tenants event_of rows w = (Ok u, w') →
  Forall (λ r, ∃ id e, event_of r id = Ok e ∧ t_audit (db w') !! row_key e = Some e) rows.
Proof.
  revert w. induction rows as [|r rows IH]; intros w; [by constructor|]. cbn [append_across_tenants].
  intros (id & w1 & _ & (e & w2 & He & (v & w3 & Hi & Hr)%bind_ok)%bind_ok)%bind_ok.
  constructor; [|by apply (IH w3)]. exists id, e.
  unfold lift_res in He. injection He as He _. split; [done|].
  apply sql_insert_ok in Hi as (_ & _ & _ & ->).
  pose proof (append_tracked rows (set_db (set_tbl (<[row_key e := e]> (tbl (db w2))) (db w2)) w2)) as Ht.
  rewrite Hr in Ht. destruct Ht as (_ & _ & _ & _ & audit & Ha & E). cbn in Ha, E. rewrite E. cbn.
  eapply lookup_weaken; [|exact Ha]. apply lookup_insert_eq.
Qed.

(** With ids to spare it succeeds. *)
Lemma append_run rows w :
  (∀ r id, ∃ e, event_of r id = Ok e ∧ ae_id e = id) → unused_ids w →
  ∃ w', append_across_tenants event_of rows w = (Ok tt, w') ∧ unused_ids w'.
Proof.
  intros He. revert w. induction rows as [|r rows IH]; intros w [Hi Hn]; [by eexists|].
  cbn [append_across_tenants]. unfold bind at 1, new_uuid.
  destruct (He r (ids w (ids_issued w))) as (e & -> & Hid). unfold bind at 1, lift_res.
  unfold bind at 1, audit_append. rewrite sql_insert_fresh; [|done| |done].
  - apply IH. split; [exact Hi|]. intros n t. cbn. rewrite lookup_insert_ne.
    + specialize (Hn (S n) t). by rewrite Nat.add_succ_comm in Hn.
    + rewrite Hid. intros [= E%Hi _]. lia.
  - cbn. rewrite Hid. apply (Hn 0).
Qed.
End Append.

(** ** The memory sweep *)

(** What a pass leaves in the trail for a row. *)
Definition recorded (action resource : pystr) (tenant : uuid) (x : Db) : Prop := ∃ key e,
  t_audit x !! key = Some e ∧ ae_action e = action ∧ ae_resource_id e = resource ∧
  ae_tenant_id e = tenant.

Lemma recorded_mono action resource tenant x x' :
  t_audit x ⊆ t_audit x' → recorded action resource tenant x → recorded action resource tenant x'.
Proof. intros Hs (key & e & He & ?). exists key, e. split; [by eapply lookup_weaken|done]. Qed.

Lemma in_rows_of {R K} `{SqlTable R K} (d : Db) (r : R) :
  r ∈ rows_of d ↔ ∃ k, tbl d !! k = Some r.
Proof.
  unfold rows_of. rewrite list_elem_of_fmap. split.
  - intros ([k r'] & -> & Hk%elem_of_map_to_list). by exists k.
  - intros [k Hk]. exists (k, r). split; [done|]. by apply elem_of_map_to_list.
Qed.

Section Sweeps.
Context (system_actor : pystr → uuid) (scan : list uuid → list uuid) (policy : RetentionPolicy).
(** A scan finds every row, once. *)
Context (Hscan : ∀ l, scan l ≡ₚ l).

Lemma batch_in l x : x ∈ batch scan policy l → x ∈ l.
Proof. unfold batch. intros (n & Hx%list_elem_of_lookup_2 & _)%elem_of_take. by rewrite (Hscan l) in Hx. Qed.

Lemma batch_nil l : (0 < rp_batch_limit policy)%Z → batch scan policy l = [] → l = [].
Proof.
  unfold batch. intros Hb Hl. apply Permutation_nil_r. rewrite <- (Hscan l).
  destruct (scan l); [done|]. destruct (Z.to_nat _) eqn:E; [lia|done].
Qed.

(** The rows a batch names are among those it was drawn from. *)
Lemma batch_row {R} `{SqlTable R uuid} (q : R → bool) (x : Db) k r :
  keyed (tbl x) → tbl x !! k = Some r →
  row_key r ∈ batch scan policy (row_key <$> filter (λ r, q r = true) (rows_of (R := R) x)) → q r = true.
Proof.
  intros Hk Hr (r' & E & [Hq [k' Hr']%in_rows_of]%list_elem_of_filter)%batch_in%list_elem_of_fmap.
  rewrite (Hk _ _ Hr), (Hk _ _ Hr') in E. subst k'. congruence.
Qed.

Lemma expired_event_ok name now r id : ∃ e,
  expired_event system_actor policy name now r id = Ok e ∧ ae_id e = id ∧
  ae_action e = EXPIRED_ACTION ∧ ae_resource_id e = uuid_str (item_key r) ∧
  ae_tenant_id e = mi_tenant_id (ir_item r).
Proof. by eexists. Qed.

(** Past the term of its class. *)
Definition item_due (now : datetime) (r : ItemRow) : Prop := ∃ cutoff,
  cutoff_for policy (mi_retention_policy (ir_item r)) now = Some cutoff ∧ (ir_created_at r < cutoff)%Z.

Definition evidence_cutoff (now : datetime) : datetime :=
  (now - days (kr_orphan_evidence_grace_days (rp_knowledge policy)))%Z.

(** What a pass at [now] may do to the tables. *)
Record spared (now : datetime) (x x' : Db) : Prop := {
  sp_items : t_items (t_mem x') ⊆ t_items (t_mem x);
  sp_due k r : t_items (t_mem x) !! k = Some r → t_items (t_mem x') !! k = None →
    item_due now r ∧ recorded EXPIRED_ACTION (uuid_str k) (mi_tenant_id (ir_item r)) x';
  sp_links : t_item_evidence (t_mem x') ⊆ t_item_evidence (t_mem x);
  sp_cascade k i : t_item_evidence (t_mem x) !! k = Some i → t_item_evidence (t_mem x') !! k = None →
    is_Some (t_items (t_mem x) !! ie_memory_id i) ∧ t_items (t_mem x') !! ie_memory_id i = None;
  sp_whole k i : t_item_evidence (t_mem x') !! k = Some i → is_Some (t_items (t_mem x) !! ie_memory_id i) →
    is_Some (t_items (t_mem x') !! ie_memory_id i);
  sp_evidence : t_evidence (t_mem x') ⊆ t_evidence (t_mem x);
  sp_orphan k e : t_evidence (t_mem x) !! k = Some e → t_evidence (t_mem x') !! k = None →
    (er_created_at e < evidence_cutoff now)%Z ∧ linked x' e = false;
  sp_audit : t_audit x ⊆ t_audit x';
  sp_rest : x' = set_tbl (R := AuditEvent) (t_audit x')
    (set_mem (MkMem (t_documents (t_mem x)) (t_chunks (t_mem x)) (t_evidence (t_mem x'))
                (t_items (t_mem x')) (t_candidates (t_mem x)) (t_item_evidence (t_mem x'))) x) }.

Lemma linked_spec x e :
  linked x e = true ↔ ∃ k i, t_item_evidence (t_mem x) !! k = Some i ∧ ie_evidence_id i = er_evidence_id e.
Proof.
  unfold linked. rewrite existsb_exists. split.
  - intros (i & [k Hi]%list_elem_of_In%in_rows_of & E%bool_decide_eq_true). by exists k, i.
  - intros (k & i & Hi & E). exists i. split; [|by apply bool_decide_eq_true].
    apply list_elem_of_In, in_rows_of. by exists k.
Qed.

Lemma linked_mono x x' e :
  t_item_evidence (t_mem x') ⊆ t_item_evidence (t_mem x) → linked x e = false → linked x' e = false.
Proof.
  intros Hs Hl. destruct (linked x' e) eqn:E; [|done].
  apply linked_spec in E as (k & i & Hi & E). rewrite <- Hl. symmetry. apply linked_spec.
  exists k, i. split; [by eapply lookup_weaken|done].
Qed.

Lemma spared_refl now x : spared now x x.
Proof. split; [done|congruence|done|congruence|done|done|congruence|done|]. by destruct x as [? ? ? ? ? ? ? ? ? ? []]. Qed.

Lemma spared_trans now x1 x2 x3 : spared now x1 x2 → spared now x2 x3 → spared now x1 x3.
Proof.
  intros [I1 D1 L1 C1 W1 E1 O1 A1 R1] [I2 D2 L2 C2 W2 E2 O2 A2 R2]. split; try by etrans.
  - intros k r Hr Hn. destruct (t_items (t_mem x2) !! k) as [r'|] eqn:E.
    + pose proof (lookup_weaken _ _ _ _ E I1). assert (r' = r) as -> by congruence. by apply D2.
    + destruct (D1 _ _ Hr E) as [? ?]. split; [done|]. by eapply recorded_mono.
  - intros k i Hi Hn. destruct (t_item_evidence (t_mem x2) !! k) as [i'|] eqn:E.
    + pose proof (lookup_weaken _ _ _ _ E L1). assert (i' = i) as -> by congruence.
      destruct (C2 _ _ E Hn) as [[r Hr] ?]. split; [|done]. exists r. by eapply lookup_weaken.
    + destruct (C1 _ _ Hi E) as [? Hn2]. split; [done|].
      destruct (t_items (t_mem x3) !! _) as [r|] eqn:E3; [|done].
      pose proof (lookup_weaken _ _ _ _ E3 I2). congruence.
  - intros k i Hi Hs. apply (W2 k i Hi). apply (W1 k i); [by eapply lookup_weaken|done].
  - intros k e He Hn. destruct (t_evidence (t_mem x2) !! k) as [e'|] eqn:E.
    + pose proof (lookup_weaken _ _ _ _ E E1). assert (e' = e) as -> by congruence. by apply (O2 k).
    + destruct (O1 _ _ He E) as [? ?]. split; [done|]. by eapply linked_mono.
  - rewrite R2 at 1. rewrite R1 at 2. by rewrite R1.
Qed.

(** *** One class *)

Section Batch.
Context (name : pystr) (cutoff : datetime).

Definition doomed_items (x : Db) : list uuid :=
  batch scan policy (item_key <$> filter (λ r, expired_item name cutoff r = true) (rows_of (R := ItemRow) x)).

Definition items_gone (x : Db) : gmap uuid ItemRow :=
  filter (λ kv, bool_decide (item_key kv.2 ∈ doomed_items x) = true) (t_items (t_mem x)).

Definition items_left (x : Db) : gmap uuid ItemRow :=
  filter (λ kv, bool_decide (item_key kv.2 ∈ doomed_items x) = false) (t_items (t_mem x)).

Definition after_batch (x : Db) : Db :=
  unreferring (R := ItemEvidenceRow) ie_memory_id (items_gone x) (set_tbl (R := ItemRow) (items_left x) x).

(** The rows go, the clock is read, the trail is written. *)
Lemma delete_batch_body w :
  _delete_batch system_actor scan policy name cutoff w =
    session_begin (λ w, (append_across_tenants
        (expired_event system_actor policy name (utc w (utc_reads w))) (map_to_list (items_gone (db w))).*2 ;;;
        ret (item_key <$> (map_to_list (items_gone (db w))).*2))
      (now_utc (set_db (after_batch (db w)) w)).2) w.
Proof.
  unfold _delete_batch, session_begin. unfold bind at 1, get_state. cbn [fst snd].
  unfold bind at 1. rewrite drain_delete_run. reflexivity.
Qed.

Lemma item_doomed x k r :
  keyed (t_items (t_mem x)) → t_items (t_mem x) !! k = Some r → items_left x !! k = None →
  expired_item name cutoff r = true.
Proof.
  intros Hk Hr Hn.
  pose proof (half_gone (R := ItemRow) (λ r, bool_decide (item_key r ∈ doomed_items x)) _ _ _ Hr Hn) as Hd.
  apply bool_decide_eq_true in Hd.
  by apply (batch_row (R := ItemRow) _ _ _ _ Hk Hr).
Qed.

Lemma after_batch_spared now x audit :
  keyed (t_items (t_mem x)) → cutoff_for policy name now = Some cutoff → t_audit x ⊆ audit →
  (∀ k r, t_items (t_mem x) !! k = Some r → items_left x !! k = None →
    ∃ key e, audit !! key = Some e ∧ ae_action e = EXPIRED_ACTION ∧ ae_resource_id e = uuid_str k ∧
      ae_tenant_id e = mi_tenant_id (ir_item r)) →
  spared now x (set_tbl (R := AuditEvent) audit (after_batch x)).
Proof.
  intros Hk Hc Ha Hrec. split; cbn.
  - apply map_filter_subseteq.
  - intros k r Hr Hn. split; [|by apply Hrec].
    pose proof (item_doomed _ _ _ Hk Hr Hn) as [En%bool_decide_eq_true Hlt%Z.ltb_lt]%andb_true_iff.
    exists cutoff. by rewrite En.
  - apply map_filter_subseteq.
  - intros k i Hi [Hn|Hn]%map_lookup_filter_None; [congruence|]. specialize (Hn _ Hi). cbn in Hn.
    apply not_eq_None_Some in Hn as [r Hr]. apply map_lookup_filter_Some in Hr as [Hr Hd].
    split; [by exists r|]. apply map_lookup_filter_None. right. intros r' Hr' Hf.
    rewrite Hr in Hr'. injection Hr' as <-. cbn in Hd, Hf. by rewrite Hd in Hf.
  - intros k i [_ Hn]%map_lookup_filter_Some [r Hr]. exists r. rewrite <- Hr.
    exact (proj1 (halves (R := ItemRow) (λ r, bool_decide (item_key r ∈ doomed_items x)) _ _) Hn).
  - done.
  - congruence.
  - done.
  - done.
Qed.

Definition steady (w w' : World) : Prop :=
  clean w' ∧ utc w' = utc w ∧ utc_reads w ≤ utc_reads w' ∧ ids w' = ids w.

Lemma delete_batch_spared now w :
  clean w → keyed (t_items (t_mem (db w))) → cutoff_for policy name now = Some cutoff →
  let w' := (_delete_batch system_actor scan policy name cutoff w).2 in
  steady w w' ∧ spared now (db w) (db w').
Proof.
  intros Hcl Hk Hc. cbv zeta. rewrite delete_batch_body. unfold session_begin, bind, steady.
  set (w1 := (now_utc (set_db (after_batch (db w)) w)).2).
  pose proof (append_tracked (expired_event system_actor policy name (utc w (utc_reads w)))
    (map_to_list (items_gone (db w))).*2 w1) as Ht.
  pose proof (append_records (expired_event system_actor policy name (utc w (utc_reads w)))
    (map_to_list (items_gone (db w))).*2 w1) as Hr.
  destruct (append_across_tenants _ _ w1) as [[u|e] w2]; cbn [snd] in Ht.
  - destruct Ht as (S2 & U2 & N2 & I2 & audit & Ha & E2). specialize (Hr _ _ eq_refl).
    cbn. split.
    { split_and!; [done|by rewrite U2|rewrite N2; cbn; lia|by rewrite I2]. }
    rewrite E2. apply after_batch_spared; [done..|].
    intros k r Hkr Hn. rewrite Forall_forall in Hr. destruct (Hr r) as (id & e & He & Hl).
    { apply list_elem_of_fmap. exists (k, r). split; [done|]. apply elem_of_map_to_list.
      apply map_lookup_filter_Some. split; [done|].
      exact (half_gone (R := ItemRow) (λ r, bool_decide (item_key r ∈ doomed_items (db w))) _ _ _ Hkr Hn). }
    destruct (expired_event_ok name (utc w (utc_reads w)) r id) as (e' & He' & _ & H2 & H3 & H4).
    assert (e' = e) as -> by congruence. exists (row_key e), e.
    rewrite E2 in Hl. split_and!; [done..| |done]. rewrite H3. by rewrite <- (Hk _ _ Hkr).
  - destruct Ht as (S2 & U2 & N2 & I2 & _). cbn. split.
    { unfold clean. cbn. split_and!; [done|by rewrite U2|rewrite N2; cbn; lia|by rewrite I2]. }
    rewrite S2. cbn. rewrite Hcl. apply spared_refl.
Qed.
End Batch.

Lemma keyed_sub {R K} `{SqlTable R K} (t t' : gmap K R) : t' ⊆ t → keyed t → keyed t'.
Proof. intros Hs Hk k r Hr. apply Hk. by eapply lookup_weaken. Qed.

(** *** The evidence no memory cites *)

Section Orphans.
Context (now : datetime).

Definition doomed_evidence (x : Db) : list uuid :=
  batch scan policy (er_evidence_id <$> filter (λ e, orphaned (evidence_cutoff now) x e = true)
                                          (rows_of (R := EvidenceRow) x)).

Definition evidence_gone (x : Db) : gmap uuid EvidenceRow :=
  filter (λ kv, bool_decide (er_evidence_id kv.2 ∈ doomed_evidence x) = true) (t_evidence (t_mem x)).

Definition evidence_left (x : Db) : gmap uuid EvidenceRow :=
  filter (λ kv, bool_decide (er_evidence_id kv.2 ∈ doomed_evidence x) = false) (t_evidence (t_mem x)).

Lemma evidence_doomed x k e :
  keyed (t_evidence (t_mem x)) → t_evidence (t_mem x) !! k = Some e → evidence_left x !! k = None →
  orphaned (evidence_cutoff now) x e = true.
Proof.
  intros Hk He Hn.
  pose proof (half_gone (R := EvidenceRow) (λ e, bool_decide (er_evidence_id e ∈ doomed_evidence x)) _ _ _ He Hn) as Hd.
  apply bool_decide_eq_true in Hd.
  by apply (batch_row (R := EvidenceRow) (orphaned (evidence_cutoff now) x) _ _ _ Hk He).
Qed.

(** What goes is cited by nothing, so no foreign key stands in the way. *)
Lemma orphans_unreferred x :
  keyed (t_evidence (t_mem x)) →
  refers (R := ItemEvidenceRow) (λ i, Some (ie_evidence_id i)) (evidence_gone x) x = false.
Proof.
  intros Hk. destruct (refers _ _ _) eqn:E; [|done].
  apply existsb_exists in E as (i & [k Hi]%list_elem_of_In%in_rows_of & [e He]%bool_decide_eq_true).
  apply map_lookup_filter_Some in He as [He Hd]. cbn in Hd. apply bool_decide_eq_true in Hd.
  pose proof (batch_row (R := EvidenceRow) (orphaned (evidence_cutoff now) x) _ _ _ Hk He Hd) as Ho.
  apply andb_true_iff in Ho as [_ Hl%negb_true_iff]. rewrite <- Hl. symmetry. apply linked_spec.
  exists k, i. split; [done|]. by rewrite (Hk _ _ He : er_evidence_id e = _).
Qed.

Lemma delete_orphans_run w :
  keyed (t_evidence (t_mem (db w))) →
  _delete_orphan_evidence scan policy now w =
    (Ok (length (map_to_list (evidence_gone (db w))).*2),
     commit_db (set_tbl (R := EvidenceRow) (evidence_left (db w)) (db w)) w).
Proof.
  intros Hk. unfold _delete_orphan_evidence, session_begin. unfold bind at 1, get_state. cbn [fst snd].
  unfold bind at 1. rewrite drain_delete_run. cbv zeta. fold (evidence_cutoff now).
  change (refers _ _ (db w)) with
    (refers (R := ItemEvidenceRow) (λ i, Some (ie_evidence_id i)) (evidence_gone (db w)) (db w)).
  rewrite orphans_unreferred by done. reflexivity.
Qed.

Lemma orphans_spared x :
  keyed (t_evidence (t_mem x)) → spared now x (set_tbl (R := EvidenceRow) (evidence_left x) x).
Proof.
  intros Hk. split; cbn; [done|congruence|done|congruence|done|apply map_filter_subseteq| |done|].
  - intros k e He Hn. pose proof (evidence_doomed _ _ _ Hk He Hn) as Ho.
    apply andb_true_iff in Ho as [Ht%Z.ltb_lt Hl%negb_true_iff]. by split.
  - by destruct x as [? ? ? ? ? ? ? ? ? ? []].
Qed.
End Orphans.

(** *** A pass *)

(** A purge of vectors leaves the tables alone. *)
Definition outside (w w' : World) : Prop :=
  db w' = db w ∧ saved w' = saved w ∧ utc w' = utc w ∧ utc_reads w ≤ utc_reads w' ∧
  ids w' = ids w ∧ ids_issued w ≤ ids_issued w'.

Context (vector_index : option (list uuid → Prog unit)).
Context (Hpurge : ∀ delete l, vector_index = Some delete → respects outside (delete l)).

#[local] Instance outside_preorder : PreOrder outside.
Proof.
  split; [by intros w; split_and!|]. unfold outside.
  intros w1 w2 w3 (? & ? & ? & ? & ? & ?) (? & ? & ? & ? & ? & ?). split_and!; [congruence..|lia|congruence|lia].
Qed.

Lemma purge_outside l : respects outside (_purge_vectors vector_index l).
Proof.
  unfold _purge_vectors. destruct vector_index as [delete|]; [|by apply respects_ret; apply _].
  apply respects_try; [apply _|by apply Hpurge|]. intros e. destruct (is_cancelled e); by intros w.
Qed.

(** The tables a pass relies on: rows under their keys. *)
Definition kept_under_keys (x : Db) : Prop :=
  keyed (t_items (t_mem x)) ∧ keyed (t_evidence (t_mem x)).

Lemma spared_keys now x x' : spared now x x' → kept_under_keys x → kept_under_keys x'.
Proof.
  intros Hs [Hi He]. split; [exact (keyed_sub _ _ (sp_items _ _ _ Hs) Hi)|exact (keyed_sub _ _ (sp_evidence _ _ _ Hs) He)].
Qed.

Lemma steady_trans w1 w2 w3 : steady w1 w2 → steady w2 w3 → steady w1 w3.
Proof. intros (_ & U1 & N1 & I1) (C2 & U2 & N2 & I2). split_and!; [done|congruence|lia|congruence]. Qed.

Lemma outside_steady w w' : clean w → outside w w' → steady w w' ∧ db w' = db w.
Proof. unfold steady, clean. intros Hc (Ed & Es & Eu & En & Ei & _). by rewrite Es, Ed. Qed.

Lemma classes_spared now names w :
  clean w → kept_under_keys (db w) →
  let w' := (prune_classes system_actor scan policy vector_index now names w).2 in
  steady w w' ∧ spared now (db w) (db w').
Proof.
  cbv zeta. revert w. induction names as [|name names IH]; intros w Hc Hk.
  { cbn. split; [by split_and!|apply spared_refl]. }
  assert (∀ w1 r, steady w w1 → spared now (db w) (db w1) →
    let w' := (match r : res unit with Ok _ => prune_classes system_actor scan policy vector_index now names w1
               | Raise e => (Raise e, w1) end).2 in
    steady w w' ∧ spared now (db w) (db w')) as Hrest.
  { intros w1 r H1 S1. destruct r; [|done]. destruct (IH w1) as [H2 S2]; [apply H1|by eapply spared_keys|].
    split; [by eapply steady_trans|by eapply spared_trans]. }
  cbn [prune_classes]. unfold bind.
  destruct (cutoff_for policy name now) as [cutoff|] eqn:Ecut.
  2: { apply (Hrest w (Ok tt)); [by split_and!|apply spared_refl]. }
  destruct (delete_batch_spared name cutoff now w Hc (proj1 Hk) Ecut) as [H1 S1].
  destruct (_delete_batch _ _ _ _ _ w) as [[deleted|e] w1]; [|by apply (Hrest w1 (Raise e))].
  cbn [snd] in *. destruct (negb _); [|by apply (Hrest w1 (Ok tt))].
  pose proof (purge_outside deleted w1) as Hp. destruct (_purge_vectors _ _ w1) as [r w2]. cbn [snd] in Hp.
  apply outside_steady in Hp as [H2 E2]; [|apply H1].
  apply (Hrest w2 r); [by eapply steady_trans|by rewrite E2].
Qed.

Lemma memory_prune_spared w :
  clean w → kept_under_keys (db w) →
  let w' := (memory_prune system_actor scan policy vector_index w).2 in
  steady w w' ∧ spared (utc w (utc_reads w)) (db w) (db w').
Proof.
  intros Hc Hk. cbv zeta. unfold memory_prune, bind, now_utc.
  set (w1 := MkWorld _ _ _ _ _ _ _ _). set (now := utc w (utc_reads w)) in *.
  assert (clean w1) as Hc1 by done.
  assert (steady w w1) as H1 by (split_and!; [done|done|cbn; lia|done]).
  destruct (classes_spared now (py_sorted (elements (dom (rp_classes policy)))) w1 Hc1 Hk) as [H2 S2].
  destruct (prune_classes _ _ _ _ _ _ w1) as [[[]|e] w2]; cbn [fst snd] in *.
  - pose proof (spared_keys _ _ _ S2 Hk) as [_ He].
    rewrite delete_orphans_run by done. cbn [snd]. split.
    + eapply steady_trans; [exact H1|]. eapply steady_trans; [exact H2|]. by split_and!.
    + cbn. eapply spared_trans; [exact S2|]. by apply orphans_spared.
  - split; [by eapply steady_trans|exact S2].
Qed.

(** However a pass over the memories ends, it removed only memories past the term of their
    class, each on record, with exactly their own links, and only old evidence that
    nothing cites any more; everything else is as it was. *)
Theorem expiry_is_due_and_recorded w r w' :
  clean w → kept_under_keys (db w) →
  memory_prune system_actor scan policy vector_index w = (r, w') →
  clean w' ∧ spared (utc w (utc_reads w)) (db w) (db w').
Proof.
  intros Hc Hk H. pose proof (memory_prune_spared w Hc Hk) as [Hs Hx]. rewrite H in Hs, Hx.
  split; [apply Hs|exact Hx].
Qed.

(** *** That a pass gets somewhere *)

Context (Hbatch : (0 < rp_batch_limit policy)%Z).
(** A purge that fails is an outage, not a cancellation of the worker. *)
Context (Hanswers : ∀ delete l w e w', vector_index = Some delete → delete l w = (Raise e, w') →
  is_cancelled e = false).

(** A batch that changes nothing had nothing to take. *)
Lemma batch_idle {R} `{SqlTable R uuid} (q : R → bool) (x : Db) :
  keyed (tbl x) →
  filter (λ kv, bool_decide (row_key kv.2 ∈
    batch scan policy (row_key <$> filter (λ r, q r = true) (rows_of (R := R) x))) = false) (tbl x)
    = tbl (R := R) x →
  ∀ k r, tbl x !! k = Some r → q r = false.
Proof.
  intros Hk Hsame. set (found := row_key <$> _) in Hsame.
  assert (found = []) as Hnil.
  { apply batch_nil; [done|]. destruct (batch scan policy found) as [|id l] eqn:E; [done|exfalso].
    assert (id ∈ found) as Hid by (apply batch_in; rewrite E; by left).
    apply list_elem_of_fmap in Hid as (r & -> & [_ [k Hr]%in_rows_of]%list_elem_of_filter).
    assert (filter (λ kv : uuid * R, bool_decide (row_key kv.2 ∈ row_key r :: l) = false) (tbl x) !! k = Some r)
      as [_ Hf]%map_lookup_filter_Some by (by rewrite Hsame).
    cbn in Hf. apply bool_decide_eq_false in Hf. apply Hf. by left. }
  intros k r Hr. destruct (q r) eqn:Eq; [|done].
  assert (row_key r ∈ found) as Hin; [|rewrite Hnil in Hin; by apply not_elem_of_nil in Hin].
  apply list_elem_of_fmap. exists r. split; [done|]. apply list_elem_of_filter. split; [done|].
  apply in_rows_of. by exists k.
Qed.

Lemma delete_batch_progress name cutoff w :
  keyed (t_items (t_mem (db w))) → unused_ids w → ∃ removed w',
    _delete_batch system_actor scan policy name cutoff w = (Ok removed, w') ∧ unused_ids w' ∧
    (t_items (t_mem (db w')) = t_items (t_mem (db w)) →
     ∀ k r, t_items (t_mem (db w)) !! k = Some r → expired_item name cutoff r = false).
Proof.
  intros Hk Hu. rewrite delete_batch_body. unfold session_begin, bind.
  set (ev := expired_event _ _ _ _). set (w1 := (now_utc (set_db (after_batch name cutoff (db w)) w)).2).
  destruct (append_run ev (map_to_list (items_gone name cutoff (db w))).*2 w1) as (w2 & E & Hu2).
  { intros r id. destruct (expired_event_ok name (utc w (utc_reads w)) r id) as (e & ? & ? & _). by exists e. }
  { exact Hu. }
  pose proof (append_tracked ev (map_to_list (items_gone name cutoff (db w))).*2 w1) as Ht.
  rewrite E in *. destruct Ht as (_ & _ & _ & _ & audit & _ & E2). cbn [snd] in E2. do 2 eexists. split; [done|].
  split; [exact Hu2|]. cbn. rewrite E2. cbn. intros Hsame.
  exact (batch_idle (R := ItemRow) (expired_item name cutoff) (db w) Hk Hsame).
Qed.

Lemma purge_progress l w :
  unused_ids w → ∃ w', _purge_vectors vector_index l w = (Ok tt, w') ∧ unused_ids w' ∧ outside w w'.
Proof.
  intros [Hi Hn]. pose proof (purge_outside l w) as Ho.
  assert (∃ w', _purge_vectors vector_index l w = (Ok tt, w')) as [w' E].
  { unfold _purge_vectors, try_exception, try_except. destruct vector_index as [delete|] eqn:Ev; [|by eexists].
    destruct (delete l w) as [[[]|e] w'] eqn:Ed; [by eexists|]. rewrite (Hanswers _ _ _ _ _ eq_refl Ed). by eexists. }
  rewrite E in Ho. cbn [snd] in Ho. exists w'. split; [done|]. split; [|done]. destruct Ho as (Ed & _ & _ & _ & Ei & Hle).
  split; [by rewrite Ei|]. intros n t. rewrite Ed, Ei.
  replace (n + ids_issued w') with ((n + (ids_issued w' - ids_issued w)) + ids_issued w) by lia. apply Hn.
Qed.

Lemma classes_progress now names w :
  clean w → kept_under_keys (db w) → unused_ids w → ∃ w',
    prune_classes system_actor scan policy vector_index now names w = (Ok tt, w') ∧ unused_ids w' ∧
    (t_items (t_mem (db w')) = t_items (t_mem (db w)) → ∀ name cutoff, name ∈ names →
     cutoff_for policy name now = Some cutoff → ∀ k r, t_items (t_mem (db w')) !! k = Some r →
     expired_item name cutoff r = false).
Proof.
  revert w. induction names as [|name names IH]; intros w Hc Hk Hu.
  { exists w. split; [done|]. split; [done|]. set_solver. }
  pose proof (classes_spared now (name :: names) w Hc Hk) as [_ Sall]. cbn [prune_classes] in *. unfold bind in *.
  destruct (cutoff_for policy name now) as [cutoff|] eqn:Ecut.
  2: { destruct (IH w Hc Hk Hu) as (w' & E & Hu' & Hd). exists w'. split; [done|]. split; [done|].
       intros Hs n c [->|Hin]%elem_of_cons Hcut; [congruence|by apply Hd]. }
  destruct (delete_batch_spared name cutoff now w Hc (proj1 Hk) Ecut) as [H1 S1].
  destruct (delete_batch_progress name cutoff w (proj1 Hk) Hu) as (removed & w1 & E1 & Hu1 & Hd1).
  rewrite E1 in *. cbn [fst snd] in *.
  assert (∃ w2, (if negb (bool_decide (removed = [])) then _purge_vectors vector_index removed else ret tt) w1
    = (Ok tt, w2) ∧ unused_ids w2 ∧ steady w w2 ∧ db w2 = db w1) as (w2 & E2 & Hu2 & H2 & D2).
  { destruct (negb _); [|by exists w1]. destruct (purge_progress removed w1 Hu1) as (w2 & E2 & Hu2 & Ho).
    apply outside_steady in Ho as [? ?]; [|apply H1]. exists w2. split_and!; [done|done|by eapply steady_trans|done]. }
  rewrite E2 in *. destruct (IH w2) as (w' & E & Hu' & Hd); [apply H2|by rewrite D2; eapply spared_keys|done|].
  destruct (classes_spared now names w2) as [_ S3]; [apply H2|by rewrite D2; eapply spared_keys|].
  rewrite E in *. cbn [snd] in *. exists w'. split; [done|]. split; [done|].
  intros Hs. rewrite D2 in *.
  assert (t_items (t_mem (db w1)) = t_items (t_mem (db w))) as Hs1.
  { apply (anti_symm (⊆)); [apply (sp_items _ _ _ S1)|]. rewrite <- Hs. apply (sp_items _ _ _ S3). }
  intros n c [->|Hin]%elem_of_cons Hcut k r Hr.
  - assert (c = cutoff) as -> by congruence. rewrite Hs in Hr. by apply (Hd1 Hs1 k r).
  - apply (Hd ltac:(congruence) n c Hin Hcut k r Hr).
Qed.

(** Nothing is due in the tables. *)
Definition settled_at (now : datetime) (x : Db) : Prop :=
  (∀ k r, t_items (t_mem x) !! k = Some r → ¬ item_due now r) ∧
  ∀ k e, t_evidence (t_mem x) !! k = Some e → (er_created_at e < evidence_cutoff now)%Z → linked x e = true.

Lemma memory_progress w :
  clean w → kept_under_keys (db w) → unused_ids w → ∃ w',
    memory_prune system_actor scan policy vector_index w = (Ok tt, w') ∧ unused_ids w' ∧
    (t_items (t_mem (db w')) = t_items (t_mem (db w)) →
     t_evidence (t_mem (db w')) = t_evidence (t_mem (db w)) → settled_at (utc w (utc_reads w)) (db w')).
Proof.
  intros Hc Hk Hu. unfold memory_prune, bind, now_utc.
  set (w1 := MkWorld _ _ _ _ _ _ _ _). set (now := utc w (utc_reads w)) in *.
  set (names := py_sorted _). assert (clean w1) as Hc1 by done.
  destruct (classes_spared now names w1 Hc1 Hk) as [_ S2].
  destruct (classes_progress now names w1 Hc1 Hk Hu) as (w2 & E & Hu2 & Hd). rewrite E in *. cbn [fst snd] in *.
  pose proof (spared_keys _ _ _ S2 Hk) as [_ He]. rewrite delete_orphans_run by done.
  eexists. split; [done|]. split; [exact Hu2|]. cbn. intros Hi Hev. split.
  - intros k r Hr (cutoff & Hcut & Hlt). assert (mi_retention_policy (ir_item r) ∈ names) as Hin.
    { unfold names. rewrite py_sorted_perm, elem_of_elements. unfold cutoff_for, term_over in Hcut.
      apply elem_of_dom. by destruct (rp_classes policy !! _). }
    pose proof (Hd Hi _ _ Hin Hcut k r Hr) as Hx. unfold expired_item in Hx.
    rewrite bool_decide_eq_true_2 in Hx by done. apply Z.ltb_ge in Hx. lia.
  - intros k e Hke Hlt.
    assert (evidence_left now (db w2) = t_evidence (t_mem (db w2))) as Hsame.
    { apply (anti_symm (⊆)); [apply map_filter_subseteq|]. rewrite Hev. exact (sp_evidence _ _ _ S2). }
    rewrite Hsame in Hke.
    pose proof (batch_idle (R := EvidenceRow) (orphaned (evidence_cutoff now) (db w2)) (db w2) He Hsame k e Hke) as Ho.
    unfold orphaned in Ho. rewrite (proj2 (Z.ltb_lt _ _) Hlt) in Ho. by apply negb_false_iff in Ho.
Qed.

(** ** The document sweep *)

Lemma purged_event_ok now d id : ∃ e,
  purged_event system_actor policy now d id = Ok e ∧ ae_id e = id ∧
  ae_action e = PURGED_ACTION ∧ ae_resource_id e = uuid_str (do_id d) ∧ ae_tenant_id e = do_tenant_id d.
Proof. by eexists. Qed.

Definition purge_cutoff (now : datetime) : datetime :=
  (now - days (kr_deleted_grace_days (rp_knowledge policy)))%Z.

(** What a pass at [now] may do to the tables. *)
Record purged (now : datetime) (x x' : Db) : Prop := {
  pu_documents : t_documents (t_mem x') ⊆ t_documents (t_mem x);
  pu_due k d : t_documents (t_mem x) !! k = Some d → t_documents (t_mem x') !! k = None →
    _expired (purge_cutoff now) d = true ∧ _cites x d = false ∧
    recorded PURGED_ACTION (uuid_str k) (do_tenant_id d) x' ∧
    ∀ kc c, t_chunks (t_mem x') !! kc = Some c → ck_document_id c ≠ k;
  pu_chunks : t_chunks (t_mem x') ⊆ t_chunks (t_mem x);
  pu_cascade kc c : t_chunks (t_mem x) !! kc = Some c → t_chunks (t_mem x') !! kc = None →
    is_Some (t_documents (t_mem x) !! ck_document_id c) ∧ t_documents (t_mem x') !! ck_document_id c = None;
  pu_audit : t_audit x ⊆ t_audit x';
  pu_rest : x' = set_tbl (R := AuditEvent) (t_audit x')
    (set_mem (MkMem (t_documents (t_mem x')) (t_chunks (t_mem x')) (t_evidence (t_mem x))
                (t_items (t_mem x)) (t_candidates (t_mem x)) (t_item_evidence (t_mem x))) x) }.

Lemma purged_refl now x : purged now x x.
Proof. split; [done|by intros k d -> ?|done|congruence|done|]. by destruct x as [? ? ? ? ? ? ? ? ? ? []]. Qed.

Lemma cites_spec x d :
  _cites x d = true ↔ ∃ k e, t_evidence (t_mem x) !! k = Some e ∧ er_source_document_id e = do_id d.
Proof.
  unfold _cites. rewrite existsb_exists. split.
  - intros (e & [k He]%list_elem_of_In%in_rows_of & E%bool_decide_eq_true). by exists k, e.
  - intros (k & e & He & E). exists e. split; [|by apply bool_decide_eq_true].
    apply list_elem_of_In, in_rows_of. by exists k.
Qed.

(** Evidence names a chunk of the document it cites. *)
Definition grounded (x : Db) : Prop := ∀ ke e kc c,
  t_evidence (t_mem x) !! ke = Some e → t_chunks (t_mem x) !! kc = Some c → er_chunk_id e = Some kc →
  ck_document_id c = er_source_document_id e.

Section Purge.
Context (doomed : list uuid).

Definition to_purge (x : Db) (d : DocumentRow) : bool :=
  bool_decide (do_id d ∈ doomed) && negb (_cites x d).

Definition documents_gone (x : Db) : gmap uuid DocumentRow :=
  filter (λ kv, to_purge x kv.2 = true) (t_documents (t_mem x)).
Definition documents_left (x : Db) : gmap uuid DocumentRow :=
  filter (λ kv, to_purge x kv.2 = false) (t_documents (t_mem x)).
Definition after_purge (x : Db) : Db :=
  documents_cascade (documents_gone x) (set_tbl (R := DocumentRow) (documents_left x) x).

Lemma delete_body w :
  _delete system_actor policy doomed w =
    if document_restricted (documents_gone (db w)) (db w)
    then (Raise (Exn (IntegrityError "documents_pkey") "update or delete violates foreign key constraint"),
          set_db (saved w) w)
    else session_begin (λ w, (append_across_tenants
        (purged_event system_actor policy (utc w (utc_reads w))) (map_to_list (documents_gone (db w))).*2 ;;;
        ret (length (map_to_list (documents_gone (db w))).*2))
      (now_utc (set_db (after_purge (db w)) w)).2) w.
Proof.
  unfold _delete, session_begin. unfold bind at 1, get_state. cbn [fst snd].
  unfold bind at 1. rewrite drain_delete_run. cbv zeta.
  change (filter _ (tbl (db w))) with (documents_gone (db w)) at 1.
  destruct (document_restricted _ _); reflexivity.
Qed.

Lemma unrestricted_purge x :
  keyed (t_documents (t_mem x)) → grounded x → document_restricted (documents_gone x) x = false.
Proof.
  intros Hk Hg. assert (∀ ke e d, t_evidence (t_mem x) !! ke = Some e →
    documents_gone x !! er_source_document_id e = Some d → False) as Hno.
  { intros ke e d He [Hd Hp]%map_lookup_filter_Some. apply andb_true_iff in Hp as [_ Hn%negb_true_iff].
    cbn in Hn. enough (_cites x d = true) by congruence. apply cites_spec. exists ke, e. split; [done|].
    by rewrite (Hk _ _ Hd : do_id d = _). }
  unfold document_restricted. apply orb_false_iff. split.
  - destruct (refers _ _ _) eqn:E; [exfalso|done].
    apply existsb_exists in E as (e & [ke He]%list_elem_of_In%in_rows_of & [d Hd]%bool_decide_eq_true). eauto.
  - destruct (refers _ _ _) eqn:E; [exfalso|done].
    apply existsb_exists in E as (e & [ke He]%list_elem_of_In%in_rows_of & Hc).
    destruct (er_chunk_id e) as [kc|] eqn:Ec; [|done]. apply bool_decide_eq_true in Hc as [c Hc].
    apply map_lookup_filter_Some in Hc as [Hc [d Hd]]. cbn in Hd.
    rewrite (Hg _ _ _ _ He Hc Ec) in Hd. eauto.
Qed.

Lemma after_purge_purged now x audit :
  keyed (t_documents (t_mem x)) → t_audit x ⊆ audit →
  (∀ k d, t_documents (t_mem x) !! k = Some d → do_id d ∈ doomed → _cites x d = false →
    _expired (purge_cutoff now) d = true) →
  (∀ k d, t_documents (t_mem x) !! k = Some d → documents_left x !! k = None →
    ∃ key e, audit !! key = Some e ∧ ae_action e = PURGED_ACTION ∧ ae_resource_id e = uuid_str k ∧
      ae_tenant_id e = do_tenant_id d) →
  purged now x (set_tbl (R := AuditEvent) audit (after_purge x)).
Proof.
  intros Hk Ha Hdue Hrec. split; cbn.
  - apply map_filter_subseteq.
  - intros k d Hd Hn. pose proof (half_gone (R := DocumentRow) (to_purge x) _ _ _ Hd Hn) as Hp.
    pose proof Hp as [Hin%bool_decide_eq_true Hc%negb_true_iff]%andb_true_iff.
    split_and!; [by eapply Hdue|done|by apply Hrec|].
    intros kc c Hl E. apply map_lookup_filter_Some in Hl as [_ Hl]. cbn in Hl. rewrite E in Hl.
    assert (documents_gone x !! k = Some d) as Hgone by (by apply map_lookup_filter_Some).
    by rewrite Hgone in Hl.
  - apply map_filter_subseteq.
  - intros kc c Hc [Hn|Hn]%map_lookup_filter_None; [congruence|]. specialize (Hn _ Hc). cbn in Hn.
    apply not_eq_None_Some in Hn as [d Hd]. apply map_lookup_filter_Some in Hd as [Hd Hp].
    split; [by exists d|]. apply map_lookup_filter_None. right. intros d' Hd' Hf.
    rewrite Hd in Hd'. injection Hd' as <-. cbn in Hp, Hf. by rewrite Hp in Hf.
  - done.
  - done.
Qed.

(** Whatever the outcome: nothing, or the documents gone, each on record. *)
Lemma delete_cases w :
  clean w → keyed (t_documents (t_mem (db w))) →
  let '(r, w') := _delete system_actor policy doomed w in
  steady w w' ∧
  ((is_ok r = false ∧ db w' = db w) ∨
   is_ok r = true ∧ ∃ audit, t_audit (db w) ⊆ audit ∧
     db w' = set_tbl (R := AuditEvent) audit (after_purge (db w)) ∧
     ∀ k d, t_documents (t_mem (db w)) !! k = Some d → documents_left (db w) !! k = None →
       ∃ key e, audit !! key = Some e ∧ ae_action e = PURGED_ACTION ∧ ae_resource_id e = uuid_str k ∧
         ae_tenant_id e = do_tenant_id d).
Proof.
  intros Hcl Hk. rewrite delete_body. destruct (document_restricted _ _).
  { cbn. rewrite Hcl. split; [by split_and!|by left]. }
  unfold session_begin, bind, steady.
  set (w1 := (now_utc (set_db (after_purge (db w)) w)).2).
  set (ev := purged_event _ _ _). set (rows := (map_to_list (documents_gone (db w))).*2).
  pose proof (append_tracked ev rows w1) as Ht. pose proof (append_records ev rows w1) as Hr.
  destruct (append_across_tenants _ _ w1) as [[u|e] w2]; cbn [snd] in Ht;
    destruct Ht as (S2 & U2 & N2 & I2 & audit & Ha & E2); cbn.
  - specialize (Hr _ _ eq_refl). split.
    { split_and!; [done|by rewrite U2|rewrite N2; cbn; lia|by rewrite I2]. }
    right. split; [done|]. exists audit. split_and!; [done|by rewrite E2|].
    intros k d Hkd Hn. rewrite Forall_forall in Hr. destruct (Hr d) as (id & e & He & Hl).
    { apply list_elem_of_fmap. exists (k, d). split; [done|]. apply elem_of_map_to_list.
      apply map_lookup_filter_Some. split; [done|].
      exact (half_gone (R := DocumentRow) (to_purge (db w)) _ _ _ Hkd Hn). }
    destruct (purged_event_ok (utc w (utc_reads w)) d id) as (e' & He' & _ & H2 & H3 & H4).
    assert (e' = e) as -> by (unfold ev in He; congruence). exists (row_key e), e.
    rewrite E2 in Hl. split_and!; [done..| |done]. rewrite H3. by rewrite <- (Hk _ _ Hkd).
  - split.
    { unfold clean. cbn. split_and!; [done|by rewrite U2|rewrite N2; cbn; lia|by rewrite I2]. }
    left. split; [done|]. rewrite S2. cbn. by rewrite Hcl.
Qed.

(** When all that is doomed was due. *)
Lemma delete_purged now w :
  clean w → keyed (t_documents (t_mem (db w))) →
  (∀ k d, t_documents (t_mem (db w)) !! k = Some d → do_id d ∈ doomed → _cites (db w) d = false →
    _expired (purge_cutoff now) d = true) →
  let '(r, w') := _delete system_actor policy doomed w in
  steady w w' ∧ purged now (db w) (db w').
Proof.
  intros Hcl Hk Hdue. pose proof (delete_cases w Hcl Hk) as Hd.
  destruct (_delete _ _ _ w) as [r w']. destruct Hd as [Hst [[_ ->]|(_ & audit & Ha & -> & Hrec)]];
    (split; [done|]); [apply purged_refl|by apply after_purge_purged].
Qed.

(** One row of those it may delete. *)
Lemma delete_row w k d :
  clean w → keyed (t_documents (t_mem (db w))) → t_documents (t_mem (db w)) !! k = Some d →
  let '(r, w') := _delete system_actor policy doomed w in
  clean w' ∧
  (t_documents (t_mem (db w')) !! k = Some d ∨
   t_documents (t_mem (db w')) !! k = None ∧ is_ok r = true ∧ k ∈ doomed ∧
   recorded PURGED_ACTION (uuid_str k) (do_tenant_id d) (db w') ∧
   (∀ ke e, t_evidence (t_mem (db w')) !! ke = Some e → er_source_document_id e ≠ k) ∧
   (∀ kc c, t_chunks (t_mem (db w')) !! kc = Some c → ck_document_id c ≠ k)).
Proof.
  intros Hcl Hk Hd. pose proof (delete_cases w Hcl Hk) as Hdel.
  destruct (_delete _ _ _ w) as [r w']. destruct Hdel as [[Hcl' _] Hdel]. split; [done|].
  destruct Hdel as [[_ ->]|(Hr & audit & Ha & -> & Hrec)]; [by left|]. cbn.
  destruct (documents_left (db w) !! k) as [d'|] eqn:Hl; [left|right].
  { apply map_lookup_filter_Some in Hl as [Hl _]. congruence. }
  pose proof (half_gone (R := DocumentRow) (to_purge (db w)) _ _ _ Hd Hl) as Hp.
  pose proof Hp as [Hin%bool_decide_eq_true Hc%negb_true_iff]%andb_true_iff.
  pose proof (Hk _ _ Hd : do_id d = k) as Eid. rewrite Eid in Hin. split_and!; [done..|by apply Hrec| |].
  - intros ke e He E. apply not_true_iff_false in Hc. apply Hc, cites_spec. exists ke, e. by rewrite Eid.
  - intros kc c [_ Hg]%map_lookup_filter_Some E. cbn in Hg. rewrite E in Hg.
    assert (documents_gone (db w) !! k = Some d) as Hgone by (by apply map_lookup_filter_Some).
    by rewrite Hgone in Hg.
Qed.

Lemma delete_progress w :
  keyed (t_documents (t_mem (db w))) → grounded (db w) → unused_ids w → ∃ n w',
    _delete system_actor policy doomed w = (Ok n, w') ∧ unused_ids w' ∧
    t_documents (t_mem (db w')) = documents_left (db w) ∧
    t_chunks (t_mem (db w')) =
      filter (λ kv, documents_gone (db w) !! ck_document_id kv.2 = None) (t_chunks (t_mem (db w))).
Proof.
  intros Hk Hg Hu. rewrite delete_body, unrestricted_purge by done. unfold session_begin, bind.
  set (w1 := (now_utc (set_db (after_purge (db w)) w)).2).
  set (ev := purged_event _ _ _). set (rows := (map_to_list (documents_gone (db w))).*2).
  destruct (append_run ev rows w1) as (w2 & E & Hu2).
  { intros d id. destruct (purged_event_ok (utc w (utc_reads w)) d id) as (e & ? & ? & _). by exists e. }
  { exact Hu. }
  pose proof (append_tracked ev rows w1) as Ht. rewrite E in *.
  destruct Ht as (_ & _ & _ & _ & audit & _ & E2). cbn [snd] in E2. do 2 eexists. split; [done|].
  split; [exact Hu2|]. cbn. by rewrite E2.
Qed.
End Purge.

(** *** A pass *)

Definition purgeable (cutoff : datetime) (x : Db) : list uuid :=
  do_id <$> filter (λ d, _cites x d = false) (filter (λ d, _expired cutoff d = true) (rows_of (R := DocumentRow) x)).

Lemma purgeable_in cutoff x k d :
  keyed (t_documents (t_mem x)) → t_documents (t_mem x) !! k = Some d →
  k ∈ purgeable cutoff x ↔ _expired cutoff d = true ∧ _cites x d = false.
Proof.
  intros Hk Hd. unfold purgeable. rewrite list_elem_of_fmap. split.
  - intros (d' & -> & [Hc [He [k' Hd']%in_rows_of]%list_elem_of_filter]%list_elem_of_filter).
    rewrite (Hk _ _ Hd' : do_id d' = k') in Hd. assert (d' = d) as -> by (cbn in Hd'; congruence). done.
  - intros [He Hc]. exists d. split; [symmetry; exact (Hk _ _ Hd)|].
    do 2 (apply list_elem_of_filter; split; [done|]). apply in_rows_of. by exists k.
Qed.

Section Knowledge.
Context {I : Type} `{VectorIndexOk I}.

(** What other tasks may do to one document while a pass awaits: anything that
    leaves its row as it is and gives it no new point. *)
Record leaves_alone (k : uuid) (f : KnowledgeState I → KnowledgeState I) : Prop := {
  la_clean s : clean (ks_world s) → clean (ks_world (f s));
  la_keyed s : keyed (t_documents (t_mem (db (ks_world s)))) →
    keyed (t_documents (t_mem (db (ks_world (f s)))));
  la_row s : t_documents (t_mem (db (ks_world (f s)))) !! k = t_documents (t_mem (db (ks_world s))) !! k;
  la_points s c : stored (ks_index (f s)) c → ix_document_id c = k → stored (ks_index s) c }.

(** The state between the steps of a pass. *)
Record unmoved (k : uuid) (s s' : KnowledgeState I) : Prop := {
  um_clean : clean (ks_world s');
  um_keyed : keyed (t_documents (t_mem (db (ks_world s'))));
  um_row : t_documents (t_mem (db (ks_world s'))) !! k = t_documents (t_mem (db (ks_world s))) !! k }.

Lemma unmoved_by k f s s' : leaves_alone k f → unmoved k s s' → unmoved k s (f s').
Proof.
  intros [Hc Hk Hr _] [Uc Uk Ur]. split; [auto..|by rewrite Hr].
Qed.

Lemma delete_points_among others k l : ∀ n s0 s r s',
  (∀ n, leaves_alone k (others n)) → unmoved k s0 s →
  delete_points others n l s = (r, s') →
  unmoved k s0 s' ∧
  (r = Ok tt → k ∈ l ∨ (∀ c, stored (ks_index s) c → ix_document_id c ≠ k) →
   ∀ c, stored (ks_index s') c → ix_document_id c ≠ k).
Proof.
  clear Hscan Hbatch Hanswers Hpurge vector_index.
  induction l as [|id l IH]; intros n s0 s r s' Ho Hu; cbn [delete_points].
  { intros [= <- <-]. split; [done|]. intros _ [Hin|Hs]; [by apply not_elem_of_nil in Hin|done]. }
  unfold bind at 1. destruct (on_index (vi_delete_document id) s) as [[[]|e] s1] eqn:E; intros Hr;
    apply on_index_world in E as (Ew & _ & Ei).
  all: assert (unmoved k s0 s1) as Hu1 by (destruct Hu as [Uc Uk Ur]; split; by rewrite ?Ew).
  2: by injection Hr as <- <-.
  unfold bind, modify in Hr.
  destruct (IH (S n) s0 (others n s1) r s' Ho (unmoved_by _ _ _ _ (Ho n) Hu1) Hr) as [Hu' Hg].
  split; [done|]. intros Hok Hin. apply Hg; [done|].
  destruct (decide (k ∈ l)) as [?|Hnl]; [by left|right].
  intros c Hc Ek. pose proof (la_points _ _ (Ho n) _ _ Hc Ek) as Hc1.
  apply (delete_stored id _ _ c Ei) in Hc1 as [Hc0 Hne].
  destruct Hin as [[->|?]%elem_of_cons|Hno]; [congruence|done|by apply (Hno c)].
Qed.

Lemma delete_points_ok n l (s : KnowledgeState I) r s' :
  delete_points (λ _ s, s) n l s = (r, s') → ks_world s' = ks_world s ∧
    (r = Ok tt → ∀ c, stored (ks_index s') c ↔ stored (ks_index s) c ∧ ix_document_id c ∉ l).
Proof.
  clear Hscan Hbatch Hanswers Hpurge vector_index.
  revert n s. induction l as [|id l IH]; intros n s; cbn [delete_points].
  { intros [= <- <-]. split; [done|]. set_solver. }
  unfold bind at 1. destruct (on_index (vi_delete_document id) s) as [[[]|e] s1] eqn:E; intros Hr;
    apply on_index_world in E as (Ew & _ & Ei).
  - apply IH in Hr as [-> Hs]. split; [done|]. intros Hok c.
    rewrite (Hs Hok c), (delete_stored id _ _ c Ei). set_solver.
  - injection Hr as <- <-. by split.
Qed.

(** A pass, from what it found. *)
Lemma prune_among_steps others (s : KnowledgeState I) :
  clean (ks_world s) →
  let w := ks_world s in
  let s1 := {| ks_world := (now_utc w).2; ks_index := ks_index s; ks_ready := ks_ready s |} in
  let doomed := batch scan policy (purgeable (purge_cutoff (utc w (utc_reads w))) (db w)) in
  prune_among system_actor scan policy others s =
    (delete_points others 1 doomed ;;;
     when negb (bool_decide (doomed = [])) then
       (let! _ := on_world (_delete system_actor policy doomed) in ret tt)) (others 0 s1).
Proof.
  intros Hc. cbv zeta. unfold prune_among. unfold bind at 1.
  set (w1 := (now_utc (ks_world s)).2).
  change (on_world now_utc s) with (Ok (utc (ks_world s) (utc_reads (ks_world s))),
    {| ks_world := w1; ks_index := ks_index s; ks_ready := ks_ready s |}). cbv beta iota zeta.
  unfold bind at 1. unfold on_world at 1, _candidates. cbn [ks_world].
  rewrite session_begin_gets by done. reflexivity.
Qed.

Lemma prune_steps (s : KnowledgeState I) :
  clean (ks_world s) →
  let w := ks_world s in
  let s1 := {| ks_world := (now_utc w).2; ks_index := ks_index s; ks_ready := ks_ready s |} in
  let doomed := batch scan policy (purgeable (purge_cutoff (utc w (utc_reads w))) (db w)) in
  knowledge_prune system_actor scan policy s =
    (delete_points (λ _ s, s) 1 doomed ;;;
     when negb (bool_decide (doomed = [])) then
       (let! _ := on_world (_delete system_actor policy doomed) in ret tt)) s1.
Proof. intros Hc. unfold knowledge_prune. by rewrite prune_among_steps. Qed.

Lemma read_steady w : clean w → steady w (now_utc w).2.
Proof. intros Hc. split_and!; [done|done|cbn; lia|done]. Qed.

Lemma knowledge_pass (s : KnowledgeState I) r s' :
  clean (ks_world s) → keyed (t_documents (t_mem (db (ks_world s)))) →
  knowledge_prune system_actor scan policy s = (r, s') →
  let w := ks_world s in
  steady w (ks_world s') ∧ purged (utc w (utc_reads w)) (db w) (db (ks_world s')).
Proof.
  clear Hbatch Hanswers Hpurge vector_index. intros Hc Hk. rewrite prune_steps by done. cbv zeta.
  set (now := utc _ _). set (doomed := batch _ _ _). set (s1 := {| ks_world := _; ks_index := _; ks_ready := _ |}).
  assert (clean (ks_world s1)) as Hc1 by done. change (db (ks_world s)) with (db (ks_world s1)) in *.
  unfold bind at 1. destruct (delete_points _ 1 doomed s1) as [[[]|e] s2] eqn:E.
  2: { intros [= <- <-]. apply delete_points_ok in E as [-> _].
       split; [by apply read_steady|]. apply purged_refl. }
  apply delete_points_ok in E as [E2 _]. rewrite <- E2 in *.
  destruct (negb _); [|intros [= <- <-]; split; [rewrite E2; by apply read_steady|]; apply purged_refl].
  intros Hr. unfold bind in Hr. destruct (on_world _ s2) as [rd s3] eqn:E3.
  assert (s' = s3) as -> by (by destruct rd; injection Hr as _ <-).
  apply on_world_index in E3 as [Ei E3].
  assert (∀ k d, t_documents (t_mem (db (ks_world s2))) !! k = Some d → do_id d ∈ doomed →
    _cites (db (ks_world s2)) d = false → _expired (purge_cutoff now) d = true) as Hdue.
  { intros k d Hd Hin%batch_in _. rewrite (Hk _ _ Hd : do_id d = k), <- E2 in Hin.
    by apply (purgeable_in _ _ _ _ Hk Hd) in Hin as [? _]. }
  pose proof (delete_purged doomed now _ Hc1 Hk Hdue) as Hp. rewrite E3 in Hp.
  destruct Hp as (Hcl & Hp). split; [|done].
  eapply steady_trans; [|exact Hcl]. rewrite E2. by apply read_steady.
Qed.

(** C20: take a document whose row no other task changes during a pass over deleted
    documents, and to which none adds a point (revived_document_is_purged is the other
    case); whatever else other tasks commit and index while the pass awaits the index,
    and whichever step fails, the pass either leaves the row as it was or has ended well
    and removed it: it was deleted past its grace when the pass looked, its purge is on
    record, and no evidence, no chunk and no point of it is left. *)
Theorem points_go_first others (s : KnowledgeState I) r s' k d :
  clean (ks_world s) → keyed (t_documents (t_mem (db (ks_world s)))) →
  (∀ n, leaves_alone k (others n)) →
  t_documents (t_mem (db (ks_world s))) !! k = Some d →
  prune_among system_actor scan policy others s = (r, s') →
  let x' := db (ks_world s') in
  clean (ks_world s') ∧
  (t_documents (t_mem x') !! k = Some d ∨
   t_documents (t_mem x') !! k = None ∧ r = Ok tt ∧
   _expired (purge_cutoff (utc (ks_world s) (utc_reads (ks_world s)))) d = true ∧
   recorded PURGED_ACTION (uuid_str k) (do_tenant_id d) x' ∧
   (∀ ke e, t_evidence (t_mem x') !! ke = Some e → er_source_document_id e ≠ k) ∧
   (∀ kc c, t_chunks (t_mem x') !! kc = Some c → ck_document_id c ≠ k) ∧
   (∀ c, stored (ks_index s') c → ix_document_id c ≠ k)).
Proof.
  clear Hbatch Hanswers Hpurge vector_index. intros Hc Hk Ho Hd. rewrite prune_among_steps by done. cbv zeta.
  set (now := utc _ _). set (doomed := batch _ _ _). set (s1 := {| ks_world := _; ks_index := _; ks_ready := _ |}).
  assert (unmoved k s (others 0 s1)) as Hu by (apply unmoved_by; [done|by split]).
  unfold bind at 1. destruct (delete_points others 1 doomed _) as [r1 s2] eqn:E.
  destruct (delete_points_among others k doomed 1 s _ r1 s2 Ho Hu E) as [[Uc Uk Ur] Hg].
  rewrite Hd in Ur. destruct r1 as [[]|e]; [|intros [= <- <-]; split; [done|by left]].
  destruct (negb _); [|intros [= <- <-]; split; [done|by left]].
  intros Hr. unfold bind in Hr. destruct (on_world _ s2) as [rd s3] eqn:E3.
  assert (s' = s3 ∧ (is_ok rd = true → r = Ok tt)) as [-> Hrd] by (by destruct rd; injection Hr as <- <-).
  apply on_world_index in E3 as [Ei E3].
  pose proof (delete_row doomed _ k d Uc Uk Ur) as Hdel. rewrite E3 in Hdel.
  destruct Hdel as [Hcl [?|(Hn & Hok & Hin & Hrec & Hev & Hch)]]; (split; [done|]); [by left|right].
  split_and!; [done|auto| |done..|].
  - apply batch_in in Hin. by apply (purgeable_in _ _ _ _ Hk Hd) in Hin as [? _].
  - rewrite Ei. apply Hg; [done|by left].
Qed.

(** *** That citations drain *)

Context (Hindex : ∀ id (i : I), ∃ i', vi_delete_document id i = (Ok tt, i')).

Lemma delete_points_run n l (s : KnowledgeState I) : ∃ s', delete_points (λ _ s, s) n l s = (Ok tt, s').
Proof.
  revert n s. induction l as [|id l IH]; intros n s; [by eexists|]. cbn [delete_points]. unfold bind, on_index.
  destruct (Hindex id (ks_index s)) as [i' ->]. apply IH.
Qed.

Lemma knowledge_progress (s : KnowledgeState I) :
  clean (ks_world s) → keyed (t_documents (t_mem (db (ks_world s)))) → grounded (db (ks_world s)) →
  unused_ids (ks_world s) → ∃ s', knowledge_prune system_actor scan policy s = (Ok tt, s') ∧
    unused_ids (ks_world s') ∧
    (t_documents (t_mem (db (ks_world s'))) = t_documents (t_mem (db (ks_world s))) →
     ∀ k d, t_documents (t_mem (db (ks_world s))) !! k = Some d →
       _expired (purge_cutoff (utc (ks_world s) (utc_reads (ks_world s)))) d = true →
       _cites (db (ks_world s)) d = true).
Proof.
  intros Hc Hk Hg Hu. rewrite prune_steps by done. cbv zeta. set (now := utc _ _). set (x := db (ks_world s)) in *.
  set (doomed := batch _ _ _). set (s1 := {| ks_world := _; ks_index := _; ks_ready := _ |}).
  destruct (delete_points_run 1 doomed s1) as [s2 E]. unfold bind at 1. rewrite E.
  apply delete_points_ok in E as [E2 _].
  assert (purgeable (purge_cutoff now) x = [] → ∀ k d, t_documents (t_mem x) !! k = Some d →
    _expired (purge_cutoff now) d = true → _cites x d = true) as Hnone.
  { intros Hn k d Hd He. destruct (_cites x d) eqn:Ec; [done|].
    pose proof (proj2 (purgeable_in _ _ _ _ Hk Hd) (conj He Ec)) as Hin. rewrite Hn in Hin. by apply not_elem_of_nil in Hin. }
  destruct (bool_decide (doomed = [])) eqn:Ed; cbn [negb].
  { apply bool_decide_eq_true in Ed. exists s2. split; [done|]. rewrite E2. split; [exact Hu|].
    intros _. by apply Hnone, batch_nil. }
  destruct (delete_progress doomed (ks_world s2)) as (n & w3 & E3 & Hu3 & Hd3 & _); [by rewrite E2..|].
  unfold bind, on_world. rewrite E3. eexists. split; [done|]. split; [exact Hu3|]. cbn. rewrite Hd3, E2.
  intros Hsame. exfalso. apply bool_decide_eq_false in Ed. destruct doomed as [|id l] eqn:Edoom; [done|].
  assert (id ∈ purgeable (purge_cutoff now) x) as Hin.
  { apply batch_in. fold doomed. rewrite Edoom. by left. }
  pose proof Hin as (d & Eid & [Hci [He [k Hd]%in_rows_of]%list_elem_of_filter]%list_elem_of_filter)%list_elem_of_fmap.
  change (db (ks_world s1)) with x in Hsame. cbn in Hd. rewrite <- Hsame in Hd.
  apply map_lookup_filter_Some in Hd as [_ Hp]. cbn in Hp. unfold to_purge in Hp.
  rewrite bool_decide_eq_true_2, Hci in Hp; [done|]. rewrite <- Eid. by left.
Qed.

(** One turn of each sweep, as the worker's consumers run them. *)
Definition sweep_round : M (KnowledgeState I) unit :=
  on_world (consume (memory_prune system_actor scan policy vector_index)) ;;;
  consume (knowledge_prune system_actor scan policy).

Fixpoint sweep_rounds (n : nat) : M (KnowledgeState I) unit :=
  match n with 0 => ret tt | S n => sweep_round ;;; sweep_rounds n end.

(** Tables whose references hold, at a time when [T] has come, with ids to spare. *)
Record sweepable (T : datetime) (w : World) : Prop := {
  sw_clean : clean w;
  sw_keys : kept_under_keys (db w);
  sw_documents : keyed (t_documents (t_mem (db w)));
  sw_links k i : t_item_evidence (t_mem (db w)) !! k = Some i → is_Some (t_items (t_mem (db w)) !! ie_memory_id i);
  sw_grounded : grounded (db w);
  sw_ids : unused_ids w;
  sw_clock n : utc_reads w ≤ n → (T ≤ utc w n)%Z }.

(** By [T] the document was marked deleted long enough ago, and so was everything that
    cites it: old evidence, linked only to memories past their term. *)
Record forgotten (T : datetime) (k : uuid) (x : Db) : Prop := {
  fo_document d : t_documents (t_mem x) !! k = Some d → _expired (purge_cutoff T) d = true;
  fo_evidence ke e : t_evidence (t_mem x) !! ke = Some e → er_source_document_id e = k →
    (er_created_at e < evidence_cutoff T)%Z;
  fo_items ke e ki i r : t_evidence (t_mem x) !! ke = Some e → er_source_document_id e = k →
    t_item_evidence (t_mem x) !! ki = Some i → ie_evidence_id i = er_evidence_id e →
    t_items (t_mem x) !! ie_memory_id i = Some r → item_due T r }.

(** Rows only go. *)
Record fewer (x x' : Db) : Prop := {
  fw_items : t_items (t_mem x') ⊆ t_items (t_mem x);
  fw_links : t_item_evidence (t_mem x') ⊆ t_item_evidence (t_mem x);
  fw_evidence : t_evidence (t_mem x') ⊆ t_evidence (t_mem x);
  fw_documents : t_documents (t_mem x') ⊆ t_documents (t_mem x);
  fw_chunks : t_chunks (t_mem x') ⊆ t_chunks (t_mem x) }.

Lemma spared_fewer now x x' : spared now x x' → fewer x x' ∧ t_documents (t_mem x') = t_documents (t_mem x).
Proof.
  intros [? _ ? _ _ ? _ _ Hr]. rewrite Hr. cbn. split; [|done].
  split; try done; rewrite Hr in *; done.
Qed.

Lemma purged_fewer now x x' : purged now x x' →
  fewer x x' ∧ t_items (t_mem x') = t_items (t_mem x) ∧ t_evidence (t_mem x') = t_evidence (t_mem x) ∧
  t_item_evidence (t_mem x') = t_item_evidence (t_mem x).
Proof.
  intros [? _ ? _ _ Hr]. rewrite Hr. cbn. split; [|done]. split; try done; rewrite Hr in *; done.
Qed.

Lemma fewer_forgotten T k x x' : fewer x x' → forgotten T k x → forgotten T k x'.
Proof.
  intros [] []. split; intros; [eapply fo_document0|eapply fo_evidence0|eapply fo_items0]; by eauto using lookup_weaken.
Qed.

Lemma fewer_grounded x x' : fewer x x' → grounded x → grounded x'.
Proof. intros [] Hg ke e kc c He Hc. apply (Hg ke e kc c); by eapply lookup_weaken. Qed.

Lemma item_due_mono T now r : (T ≤ now)%Z → item_due T r → item_due now r.
Proof.
  unfold item_due, cutoff_for, term_over. intros Hle (c & Hc & Hlt).
  destruct (rp_classes policy !! _) as [cl|]; [|done]. cbn in *. destruct (cl_days cl) as [n|]; [|done].
  cbn in *. injection Hc as <-. eexists. split; [done|]. lia.
Qed.

Lemma expired_mono T now d : (T ≤ now)%Z → _expired (purge_cutoff T) d = true → _expired (purge_cutoff now) d = true.
Proof.
  unfold _expired, purge_cutoff. intros Hle [Hs Ht]%andb_true_iff. rewrite Hs. cbn.
  destruct (do_deleted_at d); [|done]. apply Z.ltb_lt in Ht. apply Z.ltb_lt. lia.
Qed.

(** A forgotten document that nothing due holds back is due itself. *)
Lemma forgotten_uncited T now k x d :
  (T ≤ now)%Z → keyed (t_documents (t_mem x)) → settled_at now x → forgotten T k x →
  (∀ ki i, t_item_evidence (t_mem x) !! ki = Some i → is_Some (t_items (t_mem x) !! ie_memory_id i)) →
  t_documents (t_mem x) !! k = Some d → _cites x d = false.
Proof.
  intros Hle Hk [Hi He] [Hd Hev Hit] Hl Hdoc. destruct (_cites x d) eqn:Ec; [exfalso|done].
  apply cites_spec in Ec as (ke & e & Hke & Es). rewrite (Hk _ _ Hdoc : do_id d = k) in Es.
  assert (linked x e = true) as (ki & i & Hki & Ei)%linked_spec.
  { apply (He ke e Hke). pose proof (Hev _ _ Hke Es). unfold evidence_cutoff in *. lia. }
  destruct (Hl _ _ Hki) as [r Hr]. apply (Hi _ _ Hr). eapply item_due_mono; [done|]. by eapply Hit.
Qed.

Lemma spared_sweepable T now w w' :
  sweepable T w → steady w w' → spared now (db w) (db w') → unused_ids w' → sweepable T w'.
Proof.
  intros [Hc Hk Hd Hl Hg Hu Ht] (Hc' & Eu & Hn & _) Hs Hu'. destruct (spared_fewer _ _ _ Hs) as [Hf Ed].
  split; [done|by eapply spared_keys|by rewrite Ed| |by eapply fewer_grounded|done|].
  - intros k i Hi. apply (sp_whole _ _ _ Hs _ _ Hi), (Hl k). by eapply lookup_weaken, Hf.
  - intros n Hle. rewrite Eu. apply Ht. lia.
Qed.

Lemma purged_sweepable T now w w' :
  sweepable T w → steady w w' → purged now (db w) (db w') → unused_ids w' → sweepable T w'.
Proof.
  intros [Hc Hk Hd Hl Hg Hu Ht] (Hc' & Eu & Hn & _) Hs Hu'.
  destruct (purged_fewer _ _ _ Hs) as (Hf & Ei & Ee & El).
  split; [done|by unfold kept_under_keys; rewrite Ei, Ee|exact (keyed_sub _ _ (pu_documents _ _ _ Hs) Hd)| |by eapply fewer_grounded|done|].
  - intros k i. rewrite El, Ei. apply Hl.
  - intros n Hle. rewrite Eu. apply Ht. lia.
Qed.

(** The rows a sweep could take. *)
Definition rows_held (x : Db) : nat :=
  size (t_items (t_mem x)) + size (t_evidence (t_mem x)) + size (t_documents (t_mem x)).

(** Every round takes a row, or the forgotten document is gone after it. *)
Lemma round_step T k (s : KnowledgeState I) :
  sweepable T (ks_world s) → forgotten T k (db (ks_world s)) → ∃ s',
    sweep_round s = (Ok tt, s') ∧ sweepable T (ks_world s') ∧ fewer (db (ks_world s)) (db (ks_world s')) ∧
    (rows_held (db (ks_world s')) < rows_held (db (ks_world s)) ∨
     t_documents (t_mem (db (ks_world s'))) !! k = None).
Proof.
  intros Hw Hk. pose proof Hw as [Hc Hkeys Hdocs Hl Hg Hu Ht].
  destruct (memory_prune_spared _ Hc Hkeys) as [H1 S1].
  destruct (memory_progress _ Hc Hkeys Hu) as (w1 & E1 & Hu1 & Hd1). rewrite E1 in H1, S1. cbn [snd] in H1, S1.
  pose proof (spared_sweepable _ _ _ _ Hw H1 S1 Hu1) as Hw1. destruct (spared_fewer _ _ _ S1) as [F1 Ed1].
  set (s1 := {| ks_world := w1; ks_index := ks_index s; ks_ready := ks_ready s |}).
  destruct (knowledge_progress s1) as (s2 & E2 & Hu2 & Hd2); [apply Hw1..|].
  destruct (knowledge_pass s1 _ s2 (sw_clean _ _ Hw1) (sw_documents _ _ Hw1) E2) as (H2 & S2).
  pose proof (purged_sweepable _ _ _ _ Hw1 H2 S2 Hu2) as Hw2. destruct (purged_fewer _ _ _ S2) as (F2 & Ei & Ee & El).
  change (ks_world s1) with w1 in Ei, Ee, El, Hd2.
  assert (fewer (db (ks_world s)) (db (ks_world s2))) as F by (destruct F1, F2; split; by etrans).
  exists s2. split.
  { unfold sweep_round, consume, try_exception, try_except, bind, on_world. rewrite E1. fold s1. by rewrite E2. }
  split; [done|]. split; [done|].
  destruct (decide (rows_held (db (ks_world s2)) < rows_held (db (ks_world s)))) as [|Hge]; [by left|right].
  unfold rows_held in Hge.
  pose proof (map_subseteq_size _ _ (fw_items _ _ F)). pose proof (map_subseteq_size _ _ (fw_evidence _ _ F)).
  pose proof (map_subseteq_size _ _ (fw_documents _ _ F)).
  assert (t_items (t_mem (db w1)) = t_items (t_mem (db (ks_world s)))) as Hi1.
  { rewrite <- Ei. apply map_subseteq_size_eq; [apply F|lia]. }
  assert (t_evidence (t_mem (db w1)) = t_evidence (t_mem (db (ks_world s)))) as He1.
  { rewrite <- Ee. apply map_subseteq_size_eq; [apply F|lia]. }
  assert (t_documents (t_mem (db (ks_world s2))) = t_documents (t_mem (db w1))) as Hd.
  { rewrite Ed1. apply map_subseteq_size_eq; [apply F|lia]. }
  rewrite Hd. destruct (t_documents (t_mem (db w1)) !! k) as [d|] eqn:Hkd; [exfalso|done].
  pose proof (fewer_forgotten _ _ _ _ F1 Hk) as Hk1.
  enough (_cites (db w1) d = false) by
    (enough (_cites (db w1) d = true) by congruence; apply (Hd2 Hd k d Hkd); eapply expired_mono;
       [|by eapply fo_document]; by apply (sw_clock _ _ Hw1)).
  eapply (forgotten_uncited T); [|apply Hw1|by apply Hd1|done|apply Hw1|done]. by apply Ht.
Qed.

(** C19: a deleted document past its grace that is held back by citations is purged in the
    end: when what cites it is old and linked only to memories past their term, as many
    rounds of the two sweeps as there are rows to sweep remove it, whatever order the
    batches take rows in, as long as the index answers and the vector store does not
    cancel the worker. *)
Theorem cited_document_drains T k n (s : KnowledgeState I) :
  sweepable T (ks_world s) → forgotten T k (db (ks_world s)) → rows_held (db (ks_world s)) ≤ n →
  ∃ s', sweep_rounds n s = (Ok tt, s') ∧ t_documents (t_mem (db (ks_world s'))) !! k = None.
Proof.
  revert s. induction n as [|n IH]; intros s Hw Hk Hn; cbn [sweep_rounds].
  { exists s. split; [done|]. unfold rows_held in Hn. destruct (t_documents _ !! k) as [d|] eqn:Hd; [exfalso|done].
    assert (size (t_documents (t_mem (db (ks_world s)))) = 0) as Hz%map_size_empty_iff by lia. by rewrite Hz in Hd. }
  destruct (round_step T k s Hw Hk) as (s1 & E1 & Hw1 & F1 & Hd). unfold bind. rewrite E1.
  pose proof (fewer_forgotten _ _ _ _ F1 Hk) as Hk1.
  destruct Hd as [Hlt|Hgone]; [apply (IH s1); [done..|lia]|].
  clear E1 IH Hn F1 Hk Hw. revert s1 Hw1 Hk1 Hgone. induction n as [|n IH]; intros s1 Hw1 Hk1 Hgone; [by exists s1|].
  cbn [sweep_rounds]. destruct (round_step T k s1 Hw1 Hk1) as (s2 & E2 & Hw2 & F2 & _). unfold bind. rewrite E2.
  apply IH; [done|by eapply fewer_forgotten|]. destruct (t_documents (t_mem (db (ks_world s2))) !! k) eqn:E; [|done].
  pose proof (lookup_weaken _ _ _ _ E (fw_documents _ _ F2)). congruence.
Qed.
End Knowledge.
End Sweeps.

(** ** What the second transaction no longer asks *)

Section Revival.
Context (system_actor : pystr → uuid) (policy : RetentionPolicy).
Context {I : Type} `{VectorIndexOk I} (sv : Services (KnowledgeState I)).
Context (uuid5 : uuid → pystr → uuid) (sha256 : pystr → pystr).
Context (py_lower : pystr → pystr) (is_digit : N → bool).
Context (Hput : ∀ key bytes type, respects same_stores (put_object sv key bytes type)).
Context (Hembed : ∀ texts, respects same_stores (embed sv texts)).

(** C38: a document that was found by a pass and ingested again before the pass deletes is
    purged all the same: its active, current row and its chunks are gone and the index
    still serves its points. *)
Theorem revived_document_is_purged doomed command context (s : KnowledgeState I) g s1 :
  let id := document_id_for uuid5 (name_of command context) in
  clean (ks_world s) → keyed (t_documents (t_mem (db (ks_world s)))) →
  ingest_document sv uuid5 sha256 py_lower is_digit command context s = (Ok g, s1) →
  id ∈ doomed →
  (∀ ke e, t_evidence (t_mem (db (ks_world s1))) !! ke = Some e → er_source_document_id e ≠ id) →
  keyed (t_documents (t_mem (db (ks_world s1)))) → grounded (db (ks_world s1)) → unused_ids (ks_world s1) →
  ∃ d n s2, t_documents (t_mem (db (ks_world s1))) !! id = Some d ∧
    do_status d = "active" ∧ do_is_current d = true ∧
    on_world (_delete system_actor policy doomed) s1 = (Ok n, s2) ∧
    t_documents (t_mem (db (ks_world s2))) !! id = None ∧
    (∀ kc c, t_chunks (t_mem (db (ks_world s2))) !! kc = Some c → ck_document_id c ≠ id) ∧
    ks_index s2 = ks_index s1.
Proof.
  cbv zeta. set (id := document_id_for uuid5 _). intros Hc Hk Hr Hin Hev Hk1 Hg Hu.
  destruct (ingest_cases sv uuid5 sha256 py_lower is_digit Hput _ _ _ _ _ Hc Hr)
    as [[_ [=]]|(found & uri & now & ids & s0 & s3 & w1 & _ & (Ed & _ & _) & Er & Ed2 & _ & _ & Hre)].
  rewrite <- Ed in Hk. pose proof (ingest_rows_ok _ _ _ _ _ _ _ _ _ _ _ Hk Er) as Hi.
  assert (db (ks_world s1) = db w1) as Ew.
  { rewrite <- Ed2. pose proof (reindex_rows sv sha256 Hembed command context id (with_ids uuid5 id found) ids s3) as Hs.
    fold id in Hre. rewrite Hre in Hs. apply Hs. }
  pose proof (ig_document _ _ _ _ _ _ _ _ _ _ _ Hi) as Hd. rewrite <- Ew in Hd.
  set (d := ingested_document _ _ _ _ _ _ _) in Hd.
  assert (do_status d = "active" ∧ do_is_current d = true) as [Hst Hcur] by (unfold d, ingested_document; by case_match).
  destruct (delete_progress system_actor policy doomed (ks_world s1) Hk1 Hg Hu)
    as (n & w2 & E & _ & Ed' & Ec').
  assert (to_purge doomed (db (ks_world s1)) d = true) as Hp.
  { apply andb_true_iff. split; [apply bool_decide_eq_true; by rewrite (Hk1 _ _ Hd : do_id d = id)|].
    apply negb_true_iff. destruct (_cites _ d) eqn:Ecite; [|done].
    apply cites_spec in Ecite as (ke & e & He & Es). rewrite (Hk1 _ _ Hd : do_id d = id) in Es. by destruct (Hev _ _ He). }
  exists d, n, {| ks_world := w2; ks_index := ks_index s1; ks_ready := ks_ready s1 |}.
  split; [exact Hd|]. split; [done|]. split; [done|]. split; [unfold on_world; by rewrite E|]. cbn. rewrite Ed', Ec'.
  split; [|split; [|done]].
  - apply map_lookup_filter_None. right. intros d' Hd' Hf.
    assert (Some d = Some d') as [= E'] by exact (eq_trans (eq_sym Hd) Hd').
    cbn in Hf. rewrite <- E' in Hf. by rewrite Hp in Hf.
  - intros kc c [_ Hn]%map_lookup_filter_Some Eid. cbn in Hn. rewrite Eid in Hn.
    assert (documents_gone doomed (db (ks_world s1)) !! id = Some d) as Hgone by (by apply map_lookup_filter_Some).
    by rewrite Hgone in Hn.
Qed.
End Revival.

(** ** Concrete instances *)

#[local] Existing Instance KnowledgeLaws.example_index.
#[local] Existing Instance KnowledgeLaws.example_index_ok.

(** The repository's schedule. *)
Definition example_policy : RetentionPolicy :=
  {| rp_schema_version := "1.0"; rp_policy_id := "retention"; rp_policy_version := "1.7.0";
     rp_classes := {[ "default"%py := {| cl_days := Some 730%Z; cl_description := "" |} ]};
     rp_knowledge := {| kr_deleted_grace_days := 30; kr_orphan_evidence_grace_days := 7 |};
     rp_audit := {| au_months_ahead := 3; au_enforced := true;
                    au_tables := {[ "audit_events"%py := {| cl_days := Some 1095%Z; cl_description := "" |} ]} |};
     rp_checkpoints := {| cp_superseded_days := 7; cp_idle_thread_days := 730 |};
     rp_channel_deliveries := {| cd_pending_expiry_days := 7 |}; rp_batch_limit := 1000 |}.

Example example_policy_valid : retention_policy_valid ascii_digit example_policy = true.
Proof. vm_compute. reflexivity. Qed.

(** A deleted document, cited by the evidence of one memory; all of it from day zero. *)
Definition example_old_document : DocumentRow :=
  MkDocument 5 10 20 "plan" None "shared" "file" "internal" "1" None 7 0 None "deleted" false None
    None None (Some 0%Z) (Some 7%N) "tenant" ∅ ["tenant:*"].
Definition example_old_chunk : ChunkRow := MkChunk 6 10 20 5 0 "words" 0 5 "h" "" 0 "deleted" (Some 0%Z).
Definition example_old_evidence : EvidenceRow :=
  {| er_evidence_id := 8; er_tenant_id := 10; er_workspace_id := 20; er_source_document_id := 5;
     er_chunk_id := Some 6%N; er_source_version := "1"; er_page := None; er_start_offset := None;
     er_end_offset := None; er_quote := None; er_relevance_score := 0; er_classification := "internal";
     er_provenance_hash := "h"; er_created_at := 0 |}.
Definition example_old_item : ItemRow :=
  {| ir_item :=
       {| mi_memory_id := 50; mi_tenant_id := 10; mi_workspace_id := 20; mi_worker_id := "w";
          mi_memory_type := SEMANTIC; mi_subject_refs := []; mi_content := "fact";
          mi_structured_facts := ∅; mi_provenance_refs := []; mi_confidence := one53;
          mi_classification := "internal"; mi_valid_from := 0; mi_valid_until := None;
          mi_retention_policy := "default"; mi_memory_schema_version := "1.0";
          mi_created_by_run_id := 3; mi_fact_key := None |};
     ir_created_at := 0 |}.
Definition example_old_link : ItemEvidenceRow :=
  {| ie_memory_id := 50; ie_evidence_id := 8; ie_tenant_id := 10 |}.
Definition example_old_db : Db :=
  set_mem (MkMem {[ 5%N := example_old_document ]} {[ 6%N := example_old_chunk ]}
    {[ 8%N := example_old_evidence ]} {[ 50%N := example_old_item ]} ∅
    {[ (50%N, 8%N) := example_old_link ]}) empty_db.

(** Two years and some days later. *)
Definition example_after (d : Db) : World := example_world d (days 760).
Definition example_point : IndexableChunk :=
  {| ix_chunk_id := 6; ix_document_id := 5; ix_tenant_id := 10; ix_workspace_id := 20;
     ix_domain := "shared"; ix_content := "words"; ix_classification := "internal";
     ix_source_version := "1"; ix_index_version := INDEX_VERSION; ix_provenance_hash := "h";
     ix_acl_principals := ["tenant:*"]; ix_vector := []; ix_section_path := ""; ix_seq := 0;
     ix_scope := "tenant"; ix_extra_payload := [] |}.
Definition example_sweep (d : Db) : KnowledgeState MemoryIndex :=
  {| ks_world := example_after d; ks_index := {| mi_chunks := [example_point]; mi_tombstoned := {[ 5%N ]} |};
     ks_ready := true |}.
Abbreviation example_actor := (λ _ : pystr, 99%N).
Abbreviation example_scan := (λ l : list uuid, l).

Lemma example_scans (l : list uuid) : example_scan l ≡ₚ l.
Proof. reflexivity. Qed.

Lemma unused_without_trail w :
  (∀ n m, ids w n = ids w m → n = m) → t_audit (db w) = ∅ → unused_ids w.
Proof. intros Hi E. split; [exact Hi|]. intros n t. by rewrite E. Qed.

Lemma example_unused d : t_audit d = ∅ → unused_ids (example_after d).
Proof. apply (unused_without_trail (example_after d)). intros n m [=]. lia. Qed.

Lemma unused_from_zero w : ids w = N.of_nat → t_audit (db w) = ∅ → unused_ids w.
Proof. intros E. apply unused_without_trail. intros n m. rewrite E. lia. Qed.

Lemma expiry_is_due_and_recorded_witness :
  let w' := (memory_prune example_actor example_scan example_policy None (example_after example_old_db)).2 in
  t_items (t_mem (db w')) !! 50%N = None ∧
  item_due example_policy (days 760) example_old_item ∧
  recorded EXPIRED_ACTION (uuid_str 50) 10 (db w').
Proof.
  cbv zeta.
  destruct (memory_prune example_actor example_scan example_policy None (example_after example_old_db))
    as [r w'] eqn:E.
  assert (t_items (t_mem (db w')) !! 50%N = None) as Hgone.
  { assert (w' = (memory_prune example_actor example_scan example_policy None (example_after example_old_db)).2)
      as -> by by rewrite E. vm_compute. reflexivity. }
  destruct (expiry_is_due_and_recorded example_actor example_scan example_policy example_scans None
    ltac:(discriminate) (example_after example_old_db) r w') as [_ Hs].
  - reflexivity.
  - split; intros k x Hx; cbn in Hx; apply lookup_singleton_Some in Hx as [<- <-]; reflexivity.
  - exact E.
  - split; [exact Hgone|]. exact (sp_due _ _ _ _ Hs 50%N example_old_item eq_refl Hgone).
Defined.

(** The document with nothing that cites it. *)
Definition example_uncited_db : Db :=
  set_mem (MkMem {[ 5%N := example_old_document ]} {[ 6%N := example_old_chunk ]} ∅ ∅ ∅ ∅) empty_db.

(** While a pass awaits, another task keeps storing a document of its own, and a point of it. *)
Definition example_other_document : DocumentRow :=
  MkDocument 9 10 20 "news" None "shared" "file" "internal" "1" None 7 0 None "active" true None
    None None None None "tenant" ∅ ["tenant:*"].
Definition example_other_point : IndexableChunk :=
  {| ix_chunk_id := 7; ix_document_id := 9; ix_tenant_id := 10; ix_workspace_id := 20;
     ix_domain := "shared"; ix_content := "new words"; ix_classification := "internal";
     ix_source_version := "1"; ix_index_version := INDEX_VERSION; ix_provenance_hash := "h";
     ix_acl_principals := ["tenant:*"]; ix_vector := []; ix_section_path := ""; ix_seq := 0;
     ix_scope := "tenant"; ix_extra_payload := [] |}.
Definition example_upload (d : Db) : Db :=
  set_tbl (R := DocumentRow) (<[9%N := example_other_document]> (t_documents (t_mem d))) d.
Definition example_others (_ : nat) (s : KnowledgeState MemoryIndex) : KnowledgeState MemoryIndex :=
  {| ks_world := set_saved (example_upload (saved (ks_world s))) (set_db (example_upload (db (ks_world s))) (ks_world s));
     ks_index := {| mi_chunks := example_other_point :: mi_chunks (ks_index s);
                    mi_tombstoned := mi_tombstoned (ks_index s) |};
     ks_ready := ks_ready s |}.

Lemma example_leaves_alone n : leaves_alone 5 (example_others n).
Proof.
  split.
  - intros s Hc. unfold clean in *. cbn. by rewrite Hc.
  - intros s Hk. exact (keyed_insert (R := DocumentRow) _ example_other_document Hk).
  - intros s. cbn. by rewrite lookup_insert_ne.
  - intros s c [->|Hc]%elem_of_cons Ec; [discriminate Ec|exact Hc].
Qed.

(** The document goes while the other task stores its own. *)
Lemma points_go_first_witness :
  let s' := (prune_among example_actor example_scan example_policy example_others (example_sweep example_uncited_db)).2 in
  t_documents (t_mem (db (ks_world s'))) !! 5%N = None ∧
  is_Some (t_documents (t_mem (db (ks_world s'))) !! 9%N) ∧
  ∀ c, stored (ks_index s') c → ix_document_id c ≠ 5%N.
Proof.
  cbv zeta.
  destruct (prune_among example_actor example_scan example_policy example_others (example_sweep example_uncited_db))
    as [r s'] eqn:E.
  assert (t_documents (t_mem (db (ks_world s'))) !! 5%N = None ∧
          t_documents (t_mem (db (ks_world s'))) !! 9%N = Some example_other_document) as [Hgone Hnew].
  { assert (s' = (prune_among example_actor example_scan example_policy example_others
                    (example_sweep example_uncited_db)).2) as -> by by rewrite E.
    split; vm_compute; reflexivity. }
  split; [exact Hgone|]. split; [by eexists|].
  destruct (points_go_first example_actor example_scan example_policy example_scans example_others
              (example_sweep example_uncited_db) r s' 5%N example_old_document)
    as (_ & [Hd|(_ & _ & _ & _ & _ & _ & Hp)]).
  - reflexivity.
  - intros k x Hx; cbn in Hx; apply lookup_singleton_Some in Hx as [<- <-]; reflexivity.
  - exact example_leaves_alone.
  - reflexivity.
  - exact E.
  - rewrite Hgone in Hd. discriminate Hd.
  - exact Hp.
Defined.

Lemma example_forgotten : forgotten example_policy (days 760) 5 example_old_db.
Proof.
  split.
  - intros d Hd. cbn in Hd. apply lookup_singleton_Some in Hd as [_ <-]. vm_compute. reflexivity.
  - intros ke e He _. cbn in He. apply lookup_singleton_Some in He as [_ <-]. vm_compute. reflexivity.
  - intros ke e ki i r _ _ _ _ Hr. cbn in Hr. apply lookup_singleton_Some in Hr as [_ <-].
    exists (days 30). by vm_compute.
Qed.

Lemma example_sweepable : sweepable (days 760) (example_after example_old_db).
Proof.
  split; try (intros k x Hx; cbn in Hx; apply lookup_singleton_Some in Hx as [<- <-]; first [done|by eexists]).
  - done.
  - split; intros k x Hx; cbn in Hx; apply lookup_singleton_Some in Hx as [<- <-]; done.
  - intros ke e kc c He Hc _. cbn in He, Hc. apply lookup_singleton_Some in He as [_ <-].
    by apply lookup_singleton_Some in Hc as [_ <-].
  - by apply example_unused.
  - intros n _. cbn. lia.
Qed.

Lemma cited_document_drains_witness :
  ∃ s', sweep_rounds example_actor example_scan example_policy None 3 (example_sweep example_old_db) = (Ok tt, s') ∧
    t_documents (t_mem (db (ks_world s'))) !! 5%N = None.
Proof.
  refine (cited_document_drains example_actor example_scan example_policy example_scans None _ _ _ _
    (days 760) 5 3 (example_sweep example_old_db) example_sweepable example_forgotten _).
  - discriminate.
  - reflexivity.
  - discriminate.
  - intros id i. eexists. reflexivity.
  - apply (bool_decide_unpack _). vm_compute. exact Logic.I.
Defined.

(** The shelved document, deleted and past its grace; found by a pass; ingested again
    before the pass deletes. *)
Definition example_soft_deleted : KnowledgeState MemoryIndex :=
  (soft_delete_document example_id (example_reader 10) example_shelved).2.
Definition example_restored (d : Db) : World :=
  MkWorld d d (days 760) (λ _, days 760) 0 N.of_nat 0 [].
Definition example_deleted : KnowledgeState MemoryIndex :=
  {| ks_world := example_restored (db (ks_world example_soft_deleted));
     ks_index := ks_index example_soft_deleted; ks_ready := true |}.
Definition example_revived : KnowledgeState MemoryIndex := (example_ingest ["tenant:*"] example_deleted).2.

Lemma example_revived_rows :
  map_Forall (λ k d, do_id d = k) (t_documents (t_mem (db (ks_world example_deleted)))) ∧
  map_Forall (λ k d, do_id d = k) (t_documents (t_mem (db (ks_world example_revived)))).
Proof. apply (bool_decide_unpack _). vm_compute. exact Logic.I. Qed.

Lemma example_revived_rest :
  t_evidence (t_mem (db (ks_world example_revived))) = ∅ ∧ t_audit (db (ks_world example_revived)) = ∅ ∧
  ids (ks_world example_revived) = N.of_nat.
Proof. split_and!; vm_compute; reflexivity. Qed.

Lemma example_restored_clean d : clean (example_restored d).
Proof. reflexivity. Qed.

Lemma revived_document_is_purged_witness :
  (_candidates example_scan example_policy (days 700) (ks_world example_deleted)).1 = Ok ([example_id], 0) ∧
  ∃ d n s2, t_documents (t_mem (db (ks_world example_revived))) !! example_id = Some d ∧
    do_status d = "active" ∧
    on_world (_delete example_actor example_policy [example_id]) example_revived = (Ok n, s2) ∧
    t_documents (t_mem (db (ks_world s2))) !! example_id = None ∧
    existsb (λ c, bool_decide (ix_document_id c = example_id)) (mi_chunks (ks_index s2)) = true.
Proof.
  split; [vm_compute; reflexivity|].
  destruct (example_ingest ["tenant:*"] example_deleted) as [r s1] eqn:E.
  assert (is_ok r = true) as Hr.
  { assert (r = (example_ingest ["tenant:*"] example_deleted).1) as -> by by rewrite E. vm_compute. reflexivity. }
  destruct r as [g|e]; [|discriminate Hr].
  assert (s1 = example_revived) as -> by (unfold example_revived; by rewrite E).
  destruct example_revived_rows as [H0 H1]. destruct example_revived_rest as (He & Ha & Hids).
  destruct (revived_document_is_purged example_actor example_policy example_services example_uuid5 (λ s, s) (λ s, s)
    ascii_digit example_put example_embed [example_id] (example_command ["tenant:*"]) (example_reader 10)
    example_deleted g example_revived) as (d & n & s2 & Hd & Hs & _ & Hx & Hn & _ & Ei).
  - exact (example_restored_clean (db (ks_world example_soft_deleted))).
  - exact H0.
  - exact E.
  - apply list_elem_of_singleton. vm_compute. reflexivity.
  - intros ke e. rewrite He, lookup_empty. intros [=].
  - exact H1.
  - intros ke e kc c. rewrite He, lookup_empty. intros [=].
  - exact (unused_from_zero _ Hids Ha).
  - exists d, n, s2. split; [exact Hd|]. split; [exact Hs|]. split; [exact Hx|]. split; [exact Hn|].
    rewrite Ei. vm_compute. reflexivity.
Defined.
